(* ===== verification/_CoqProject ===== *)
-Q . S2P
Prelude.v
GoStrings.v
KubeVersion.v
K8s.v
Types.v
Constants.v
Defaults.v
DefaultsSpec.v
DefaultsFacts.v
ConfigDefaults.v
ConfigDefaultsFacts.v
ControllerUtils.v
LastApplied.v
KubeApi.v
Controls.v
Session.v
Loops.v
CloudApi.v
Waiters.v
Policies.v
CloudFacts.v
PolicyFacts.v
GoNet.v
Sha256.v
Databases.v
Sync.v
SyncFacts.v
Texts.v
Endpoints.v
PhaseFacts.v
Phases.v
Alerts.v
AlertFacts.v
KubeSim.v
ServiceFacts.v
CloudSim.v
Volumes.v
Builders.v
KubeClusters.v
Components.v
Options.v
SqlFacts.v
ServiceInit.v
Templates.v
Services.v
GlobalSettings.v
ManagerBase.v
Managers.v
ManagerSim.v
ServiceManagers.v
GatewayManagers.v
AgentManagers.v
HostManagers.v
EdgeManagers.v
ImageManagers.v
MonitorStack.v
Certs.v
MysqlStatus.v
EtcdUtil.v
EtcdPod.v
EtcdSeed.v
CertsFacts.v
EtcdReconcile.v
ClusterManagers.v
RoutingFacts.v
Cluster.v
Prepare.v
PrepareFacts.v
WorkQueue.v
Controller.v
WorkQueueFacts.v
ControllerFacts.v
ClusterFacts.v
ReconcileFacts.v
EtcdFacts.v
EtcdLive.v
EtcdSim.v
EtcdPodFacts.v
EtcdRunFacts.v
EtcdLoop.v
