(* ===== verification/Prelude.v ===== *)
(** * The OneCloud operator

    A model of the Kubernetes operator in [src/]: the custom resource and its
    defaults, the controller and its work queue, the reconciliation of a
    cluster, the managers that bring the Kubernetes objects of every service
    and the resources of the cloud up to date, and the etcd cluster the
    operator runs itself. The definitions are executable translations of the
    Go code; the theorems say what makes the parts correct. File and function
    names below are those of [src/].

    ** How the program is put together, and where its parts are

    An event of an informer puts the key of a cluster into the work queue
    ([Controller], [WorkQueue]). A worker takes a key, reads the cluster,
    writes it back with its defaults ([Defaults]) and calls
    [UpdateOnecloudCluster] ([Cluster]). That ensures the configuration
    ([ConfigDefaults], [Controls]) and the certificates ([Certs]), then calls
    the [Sync] of every manager ([ClusterManagers]): etcd first, then some
    managers one after the other, the rest at the same time. The manager of a
    service is a record of functions ([ManagerBase] and the five files after
    it); [syncComponent] ([Sync]) calls them, compares the objects they build
    ([Builders], [Volumes]) with the last-applied annotations ([LastApplied])
    and writes what differs through the controls ([Controls]). Then the phases
    of the service ensure its data base ([Databases]), its account and its
    endpoints and initialise it in the cloud ([Endpoints], [Phases], [Alerts],
    [Policies], [KubeClusters], [GlobalSettings] over [CloudApi] in a
    [Session]). The manager of etcd keeps its own loop ([EtcdReconcile],
    [EtcdLoop]). The status is written at the end when it has changed.

    - The ground. [Prelude]: errors, outcomes ([Ok], [Err], [Panic]), the
      monad [M] of computations on a state, weakest preconditions, wrap-around
      of integers. [GoStrings], [GoNet], [Sha256], [Templates], [Loops],
      [KubeVersion]: what the code uses of [strings], [path], [net],
      [crypto/sha256], [text/template], [wait], [pkg/util/retry] and the
      vendored semver.
    - The data. [K8s]: the Kubernetes objects. [Types], [Constants]: the
      custom resource of [pkg/apis/onecloud/v1alpha1] and
      [pkg/apis/constants]. [Texts]: the raw strings of the sources.
    - Defaulting, [defaults.go]. [Defaults] and [ConfigDefaults] are the
      functions, [DefaultsSpec] what the result looks like, [DefaultsFacts]
      and [ConfigDefaultsFacts] the theorems.
    - The API server. [KubeApi]: clients and listers as a class, with a server
      in memory; [Controls]: [pkg/controller/*_control.go]; [ControllerUtils]:
      [pkg/controller/utils.go], events and codecs; [LastApplied] and [Sync], [SyncFacts],
      [ServiceFacts]: [sync.go], [component.go] and [utils.go] of [pkg/manager/component].
    - The cloud. [Session], [Endpoints], [Phases], [Alerts], [Components]:
      [pkg/controller/onecloud_control.go]; [CloudApi], [KubeClusters],
      [Waiters]: [pkg/util/onecloud], [pkg/util/apiclient], [pkg/util/k8s];
      [Policies]: [onecloud_policy.go]; [Databases]: [pkg/util/dbutil],
      [mysql], [dameng], [clickhouse]. Theorems in [CloudFacts],
      [PolicyFacts], [PhaseFacts] and [AlertFacts].
    - The services. [Options], [SqlFacts], [ServiceInit], [Services], [GlobalSettings]:
      [pkg/service-init/component] and [pkg/util/option]; [Prepare],
      [PrepareFacts]: the same for a docker-compose installation.
    - The managers, [pkg/manager/component]. [Volumes] and [Builders] build
      the objects; [ManagerBase], [Managers], [ServiceManagers],
      [GatewayManagers], [AgentManagers], [HostManagers], [EdgeManagers],
      [ImageManagers], [MonitorStack] are the managers, [ClusterManagers]
      their [Sync] methods and lists; [RoutingFacts]: what they make, put
      together.
    - etcd. [EtcdUtil]: members and their names; [EtcdPod], [EtcdSeed],
      [EtcdPodFacts]: the manifests; [EtcdReconcile]: the operations of
      [etcdManager]; [EtcdFacts] (safety), [EtcdLive] (progress),
      [EtcdRunFacts] (phases), [EtcdLoop] (its goroutines).
    - The controller. [Certs], [MysqlStatus], [Cluster], [ClusterFacts],
      [CertsFacts], [ReconcileFacts]: a reconciliation; [WorkQueue], [WorkQueueFacts],
      [Controller], [ControllerFacts]: what leads to one.
    - Concrete worlds: [KubeSim], [CloudSim], [ManagerSim], [EtcdSim], and the
      ends of other files. They implement the interfaces in memory; every
      theorem with hypotheses is applied in one of them.

    ** How the code is translated

    A Go function is a function of the same name. One that returns an error is
    a value of [Res]: [Ok], [Err], or [Panic] for what would crash (a nil
    pointer, an index out of range, [log.Fatal]). One that changes something
    or calls the outside is in [M S]: it takes a state and returns the next
    one with the outcome. [SM W] is [M] on the cluster object, which the Go
    code passes by pointer and changes, and the outside [W]; a pointer into
    the cluster's spec is a place of it ([specEntry], [StatusRef]). Structs
    are records and keep their field names behind the name of the struct; [x
    <| f := v |>] is an update. A pointer is an [option]; maps are [gmap]s,
    and where Go's order of iteration could matter the order is an argument.
    Integers are [Z]; where the width matters [wrap32] and [wrap64] are
    written out. Each comment that starts with an at sign names the lines that the
    definition below it translates.

    What is not under [src/] is a type class: the API server ([ResourceApi],
    with the laws [ApiStore] of one that accepts every request), the modules
    of the cloud ([CloudApi], with [CloudStore]), the sessions ([SessionEnv]),
    SQL servers ([SqlEnv]), etcd and its pods ([EtcdEnv]), X.509, the options
    of the services ([OptionsLib]), the serializers ([JsonCodec],
    [ConfigCodec]: what is written is read; the defaults that the decoder of
    the configuration then applies are the code's own, [UniversalDecode]), the
    generator of passwords ([Passwords]), the clock ([Clock]). The operations
    carry no laws by themselves: a theorem that needs one assumes the class of
    laws.

    ** What the theorems show

    - Reconciliation. Which managers run, in which order, when it stops and
      with which error ([updateOnecloudCluster_runs]); a changed status is
      sent, again after each conflict, in at most five updates
      ([UpdateOnecloudCluster_status]); the configuration the managers read is
      the one that was ensured, but for the one key the decoder's defaults
      draw anew on every reading ([config_CreateOrUpdate_read_back]).
    - Certificates. Etcd's three certificates are of one authority whenever
      they are all there, if no deletion of a secret has failed
      ([etcd_one_authority]); what happens when one has ([two_authorities]).
    - Controller and queue. The queue refines a set of pending keys and a set
      of running ones; no key is lost or run twice at a time; a key in line
      gets its turn with any number of workers, and nothing overtakes it;
      delays double up to a bound; a round of a worker is a start, a sync and
      an end; keys name their clusters; which events enqueue a cluster. Once
      the queue is shut down the workers come to an end ([worker_returns]).
    - Defaulting. It succeeds and draws a password only once; without
      [--clear-component] it is idempotent, which is shown to fail with it
      ([clear_component_not_stable]). The configuration's defaults are
      idempotent but for one key. Neither depends on the order of Go's maps;
      what images, replicas and ports become.
    - Objects. Two syncs bring the deployments of a component to what its
      manager wants, a third writes nothing; services are brought there one
      at a time, or left behind, outside the product version; services reach
      the pods of their component and no others, but the deployments made for
      several zones share theirs ([zones_share_pods]).
    - The cloud. Registered endpoints are at the addresses and in the form
      wanted; policies, alerts, settings and the state of services end up as
      wanted; what else is there stays, and a second time changes nothing.
    - etcd. One reconciliation changes the membership by at most one member,
      and only with a majority; repeated ones reach the wanted size, where they
      stay; what each phase leads to; names, sizes, quotas and manifests are
      in bounds; the goroutines of the manager exclude each other, do what one
      loop does and never deadlock.
    - Loops and files. Retries end and how, with an interval that is not
      positive in a panic; the configuration read back from
      the files of the services does not depend on the order; the account of
      a data base is read back from its connection string
      ([connection_reads_back]).

    ** Fuel and bounds

    [RetryOnConflict] counts the steps of client-go's back-offs (4 and 5).
    [go_for] iterates a Go [for] with fuel: [Retry] gets one more than its
    retries and [Retry_terminates] proves that to be enough; back-offs get the
    number of their steps; a poll gets the ticks the clock allows
    ([pollTicks]); a worker gets one more than the keys left when it is to
    end. The etcd loop is modelled turn by turn, without fuel; only
    [reportFailedStatus], which the code retries without bound, takes fuel,
    and the theorems hold for every amount. Goroutines of an [errgroup] run
    one at a time, in any order ([goOrder]).

    ** What is not modelled

    Log lines, and the recording of events in the controls: no
    decision depends on them. Generated code (deep
    copies, clients, listers, informers); where the sharing of a map or a
    pointer matters the model says so. The entry points under [cmd/], flags,
    leader election, the construction of the clients in [NewController]. The libraries
    of the client of etcd and of the serializers of Kubernetes, strategic
    merge patches.
    [WaitForKubeletAndFunc] and key pairs read from disk, which nothing calls. The errors of the code carry stack traces and
    formatted messages; here the messages are kept where users see them. *)

From stdpp Require Export base tactics option list gmap strings pretty.
From Stdlib Require Export ZArith Lia.

#[export] Set Default Goal Selector "!".
#[export] Set Warnings "-clear-no-such-hyp".

Declare Scope go_scope.
Delimit Scope go_scope with go.

(** ** Go errors

    The error values the operator distinguishes: the API status errors that
    [apierrors.IsNotFound], [IsAlreadyExists] and [IsConflict] recognise, the
    requeue error of [controller.RequeueErrorf], plain messages, the error
    [RetryError] of [pkg/util/retry], wrapped errors ([errors.Wrap]) and aggregates ([errors.NewAggregate]). *)
Inductive error : Type :=
  | ErrNotFound
  | ErrAlreadyExists
  | ErrConflict
  | ErrRequeue (msg : string)
  | ErrFatal (msg : string)
  | ErrMsg (msg : string)
  | ErrRetry (n : Z)
  | ErrWrap (e : error) (msg : string)
  | ErrAggregate (es : list error).

(** [errors.Cause]: the innermost wrapped error. *)
Fixpoint Cause (e : error) : error :=
  match e with
  | ErrWrap e' _ => Cause e'
  | _ => e
  end.

(** [errors.NewAggregate]: no error for an empty list. *)
Definition NewAggregate (es : list error) : option error :=
  match es with
  | [] => None
  | _ => Some (ErrAggregate es)
  end.

Definition IsNotFound (e : error) : bool :=
  match Cause e with ErrNotFound => true | _ => false end.
Definition IsAlreadyExists (e : error) : bool :=
  match Cause e with ErrAlreadyExists => true | _ => false end.
Definition IsConflict (e : error) : bool :=
  match Cause e with ErrConflict => true | _ => false end.

(** [err.Error()], as far as the operator shows it to users. *)
Fixpoint Error (e : error) : string :=
  match e with
  | ErrNotFound => "not found"
  | ErrAlreadyExists => "already exists"
  | ErrConflict => "conflict"
  | ErrRequeue m | ErrFatal m | ErrMsg m => m
  | ErrRetry n => "still failing after " +:+ pretty n +:+ " retries"
  | ErrWrap e' m => m +:+ ": " +:+ Error e'
  | ErrAggregate es => String.concat ", " (map Error es)
  end.

(** ** Outcomes of a Go call

    A call returns a value, returns an error, or panics. *)
Inductive Res (A : Type) : Type :=
  | Ok (a : A)
  | Err (e : error)
  | Panic (msg : string).
Arguments Ok {A} _.
Arguments Err {A} _.
Arguments Panic {A} _.

Definition is_ok {A} (r : Res A) : bool :=
  match r with Ok _ => true | _ => false end.

Definition res_map {A B} (f : A → B) (r : Res A) : Res B :=
  match r with Ok a => Ok (f a) | Err e => Err e | Panic m => Panic m end.

Definition res_bind {A B} (r : Res A) (k : A → Res B) : Res B :=
  match r with Ok a => k a | Err e => Err e | Panic m => Panic m end.

(** ** State and outcome: the monad of the stateful code *)
Definition M (S A : Type) : Type := S → S * Res A.

Section monad.
Context {S : Type}.

Definition ret {A} (a : A) : M S A := λ s, (s, Ok a).
Definition throw {A} (e : error) : M S A := λ s, (s, Err e).
Definition panic {A} (m : string) : M S A := λ s, (s, Panic m).
Definition lift {A} (r : Res A) : M S A := λ s, (s, r).
Definition get : M S S := λ s, (s, Ok s).
Definition put (s : S) : M S unit := λ _, (s, Ok tt).
Definition modify (f : S → S) : M S unit := λ s, (f s, Ok tt).

Definition bind {A B} (m : M S A) (k : A → M S B) : M S B := λ s,
  match m s with
  | (s', Ok a) => k a s'
  | (s', Err e) => (s', Err e)
  | (s', Panic p) => (s', Panic p)
  end.

(** The Go idiom [x, err := f()]: the error becomes a value the caller
    inspects; a panic still unwinds. *)
Definition attempt {A} (m : M S A) : M S (error + A) := λ s,
  match m s with
  | (s', Ok a) => (s', Ok (inr a))
  | (s', Err e) => (s', Ok (inl e))
  | (s', Panic p) => (s', Panic p)
  end.

(** [if err := m; err != nil { return errors.Wrap(err, msg) }] *)
Definition wrap {A} (msg : string) (m : M S A) : M S A := λ s,
  match m s with
  | (s', Err e) => (s', Err (ErrWrap e msg))
  | r => r
  end.

(** [for _, x := range l { if err := f(x); err != nil { return err } }] *)
Fixpoint for_each {A} (l : list A) (f : A → M S unit) : M S unit :=
  match l with
  | [] => ret tt
  | x :: l' => bind (f x) (λ _, for_each l' f)
  end.
End monad.

Notation "'let!' x ':=' m 'in' k" := (bind m (λ x, k))
  (at level 10, x name, m at level 100, k at level 200) : go_scope.
Notation "'let!' ' p ':=' m 'in' k" := (bind m (λ x, match x with p => k end))
  (at level 10, p strict pattern, m at level 100, k at level 200) : go_scope.
Notation "m ';;!' k" := (bind m (λ _, k)) (at level 199, right associativity) : go_scope.

(** ** Inversion and evaluation lemmas of the monad *)
Section monad_lemmas.
Context {S : Type}.

Lemma bind_Ok_inv {A B} (m : M S A) (k : A → M S B) s s' b :
  bind m k s = (s', Ok b) → ∃ s1 a, m s = (s1, Ok a) ∧ k a s1 = (s', Ok b).
Proof. unfold bind. destruct (m s) as [s1 [a|e|p]]; naive_solver. Qed.

Lemma attempt_inv {A} (m : M S A) s s' r :
  attempt m s = (s', Ok r) →
  match r with inl e => m s = (s', Err e) | inr a => m s = (s', Ok a) end.
Proof. unfold attempt. destruct (m s) as [s1 [a|e|p]]; intros [= <- <-]; done. Qed.

Lemma wrap_Ok_inv {A} msg (m : M S A) s s' a :
  wrap msg m s = (s', Ok a) → m s = (s', Ok a).
Proof. unfold wrap. destruct (m s) as [s1 [x|e|p]]; naive_solver. Qed.

Lemma bind_assoc {A B C} (m : M S A) (f : A → M S B) (g : B → M S C) s :
  bind (bind m f) g s = bind m (λ a, bind (f a) g) s.
Proof. unfold bind. by destruct (m s) as [s1 [a|e|p]]. Qed.

Lemma bind_ret_l {A B} (a : A) (k : A → M S B) s : bind (ret a) k s = k a s.
Proof. reflexivity. Qed.

Lemma bind_ret_r {A} (m : M S A) s : bind m ret s = m s.
Proof. unfold bind. by destruct (m s) as [s1 [a|e|p]]. Qed.

Lemma bind_ext {A B} (m m' : M S A) (k k' : A → M S B) s :
  (∀ s, m s = m' s) → (∀ a s, k a s = k' a s) → bind m k s = bind m' k' s.
Proof. unfold bind. intros -> Hk. destruct (m' s) as [s1 [a|e|p]]; [apply Hk|done|done]. Qed.

Lemma for_each_app {A} (l1 l2 : list A) (f : A → M S unit) s :
  for_each (l1 ++ l2) f s = bind (for_each l1 f) (λ _, for_each l2 f) s.
Proof.
  revert s. induction l1 as [|x l1 IH]; intros s; simpl.
  - reflexivity.
  - rewrite bind_assoc. cbv [bind].
    destruct (f x s) as [s1 [[]|e|p]]; [exact (IH s1)|done|done].
Qed.
End monad_lemmas.

(** ** Weakest preconditions

    [wp c Q s]: run from [s], [c] ends in a state and with an outcome (value,
    error or panic) that satisfy [Q]. *)
Definition wp {S A} (c : M S A) (Q : S → Res A → Prop) (s : S) : Prop := Q (c s).1 (c s).2.

(** What a sequence [bind c k] needs of [c]: a value goes on, the rest ends. *)
Definition andThen {S A B} (k : A → M S B) (Q : S → Res B → Prop) (s : S) (r : Res A) : Prop :=
  match r with
  | Ok a => wp (k a) Q s
  | Err e => Q s (Err e)
  | Panic p => Q s (Panic p)
  end.

Section wp_rules.
Context {S : Type}.

Lemma wp_conseq {A} (c : M S A) (Q Q' : S → Res A → Prop) s :
  wp c Q s → (∀ s r, Q s r → Q' s r) → wp c Q' s.
Proof. unfold wp. auto. Qed.

Lemma wp_bind {A B} (c : M S A) (k : A → M S B) Q s :
  wp c (andThen k Q) s → wp (bind c k) Q s.
Proof. unfold wp, bind. destruct (c s) as [s1 [a|e|p]]; done. Qed.

Lemma wp_any {A} (c : M S A) (Q : S → Res A → Prop) s : (∀ s r, Q s r) → wp c Q s.
Proof. unfold wp. auto. Qed.

(** When nothing is known about the first computation. *)
Lemma wp_bind_any {A B} (c : M S A) (k : A → M S B) (Q : S → Res B → Prop) s :
  (∀ s a, wp (k a) Q s) → (∀ s e, Q s (Err e)) → (∀ s p, Q s (Panic p)) → wp (bind c k) Q s.
Proof. intros Hk He Hp. apply wp_bind, wp_any. intros s' []; simpl; auto. Qed.

Lemma wp_ret {A} (a : A) (Q : S → Res A → Prop) s : Q s (Ok a) → wp (ret a) Q s.
Proof. done. Qed.

Lemma wp_throw {A} e (Q : S → Res A → Prop) s : Q s (Err e) → wp (throw e) Q s.
Proof. done. Qed.

Lemma wp_panic {A} p (Q : S → Res A → Prop) s : Q s (Panic p) → wp (panic p) Q s.
Proof. done. Qed.

Lemma wp_lift {A} r (Q : S → Res A → Prop) s : Q s r → wp (lift r) Q s.
Proof. done. Qed.

Lemma wp_attempt {A} (c : M S A) Q s :
  wp c (λ s r, match r with
               | Ok a => Q s (Ok (inr a))
               | Err e => Q s (Ok (inl e))
               | Panic p => Q s (Panic p)
               end) s →
  wp (attempt c) Q s.
Proof. unfold wp, attempt. destruct (c s) as [s1 [a|e|p]]; done. Qed.

Lemma wp_wrap {A} msg (c : M S A) Q s :
  wp c (λ s r, match r with Err e => Q s (Err (ErrWrap e msg)) | _ => Q s r end) s →
  wp (wrap msg c) Q s.
Proof. unfold wp, wrap. destruct (c s) as [s1 [a|e|p]]; done. Qed.

(** A loop that keeps an invariant keeps it however it ends. *)
Lemma wp_for_each {A} (l : list A) (f : A → M S unit) (I : S → Prop) (Q : S → Res unit → Prop) s :
  I s →
  (∀ x s, x ∈ l → I s → wp (f x) (λ s r, match r with Ok _ => I s | _ => Q s r end) s) →
  (∀ s, I s → Q s (Ok tt)) →
  wp (for_each l f) Q s.
Proof.
  intros HI Hf HQ. revert s HI. induction l as [|x l IH]; intros s HI; [by apply wp_ret, HQ|].
  apply wp_bind. eapply wp_conseq; [apply Hf; [by left|done]|].
  intros s' [[]|e|p]; simpl; [|done|done]. intros HI'. apply IH; [|done].
  intros y t Hy. apply Hf. by right.
Qed.

Lemma bind_Ok {A B} (c : M S A) (k : A → M S B) s s' a :
  c s = (s', Ok a) → bind c k s = k a s'.
Proof. unfold bind. by intros ->. Qed.

Lemma attempt_Ok {A} (c : M S A) s s' a : c s = (s', Ok a) → attempt c s = (s', Ok (inr a)).
Proof. unfold attempt. by intros ->. Qed.

Lemma attempt_Err {A} (c : M S A) s s' e : c s = (s', Err e) → attempt c s = (s', Ok (inl e)).
Proof. unfold attempt. by intros ->. Qed.

Lemma bind_Err {A B} (c : M S A) (k : A → M S B) s s' e :
  c s = (s', Err e) → bind c k s = (s', Err e).
Proof. unfold bind. by intros ->. Qed.

Lemma wrap_Ok {A} msg (c : M S A) s s' a : c s = (s', Ok a) → wrap msg c s = (s', Ok a).
Proof. unfold wrap. by intros ->. Qed.

Lemma wrap_Err {A} msg (c : M S A) s s' e : c s = (s', Err e) → wrap msg c s = (s', Err (ErrWrap e msg)).
Proof. unfold wrap. by intros ->. Qed.
End wp_rules.

(** ** Proof automation *)

(** [go_inv] takes apart successful runs of monadic code found in the
    hypotheses. *)
Ltac go_inv_step :=
  match goal with
  | H : bind _ _ _ = (_, Ok _) |- _ =>
      let s := fresh "s" in let a := fresh "a" in
      let H1 := fresh "Hm" in let H2 := fresh "Hk" in
      apply bind_Ok_inv in H as (s & a & H1 & H2)
  | H : wrap _ _ _ = (_, Ok _) |- _ => apply wrap_Ok_inv in H
  | H : ret _ _ = (_, _) |- _ => unfold ret in H; simplify_eq
  | H : throw _ _ = (_, _) |- _ => unfold throw in H; simplify_eq
  | H : panic _ _ = (_, _) |- _ => unfold panic in H; simplify_eq
  | H : lift _ _ = (_, _) |- _ => unfold lift in H; simplify_eq
  | H : get _ = (_, _) |- _ => unfold get in H; simplify_eq
  | H : attempt _ _ = (_, Ok _) |- _ => apply attempt_inv in H
  end.
Ltac go_inv := repeat (go_inv_step; simplify_eq/=).

Create HintDb go discriminated.
Create Rewrite HintDb go.
#[export] Hint Rewrite @for_each_app : go.

(** [split_cases] splits every [match] and [if] of the goal, keeping the
    equations, and closes what contradicts. *)
Ltac split_cases :=
  repeat (case_match || case_decide || case_bool_decide); simplify_eq/=; try done.

(** ** Integers of a fixed width *)

(** Two's complement reading of [z] in 64 bits: Go's [int64] and [int]. *)
Definition wrap64 (z : Z) : Z :=
  ((z + 2 ^ 63) `mod` 2 ^ 64 - 2 ^ 63)%Z.

Lemma wrap64_range z : (- 2 ^ 63 ≤ wrap64 z < 2 ^ 63)%Z.
Proof.
  unfold wrap64. pose proof (Z.mod_pos_bound (z + 2 ^ 63) (2 ^ 64) ltac:(lia)). lia.
Qed.

Lemma wrap64_small z : (- 2 ^ 63 ≤ z < 2 ^ 63)%Z → wrap64 z = z.
Proof. intros ?. unfold wrap64. rewrite Z.mod_small; lia. Qed.

(** ** Strings and lists *)
Definition str_len (s : string) : nat := String.length s.

Definition str_empty (s : string) : bool := String.eqb s "".

Lemma str_empty_spec s : str_empty s = true ↔ s = ""%string.
Proof. apply String.eqb_eq. Qed.

Lemma str_empty_false s : str_empty s = false ↔ s ≠ ""%string.
Proof. apply String.eqb_neq. Qed.

(** Go's zero-value defaulting: [if x == "" { x = d }]. *)
Definition default_str (d x : string) : string := if str_empty x then d else x.

Lemma default_str_idem d x : default_str d (default_str d x) = default_str d x.
Proof. unfold default_str. repeat case_match; congruence. Qed.

Lemma default_str_nonempty d x : d ≠ ""%string → default_str d x ≠ ""%string.
Proof.
  unfold default_str. intros Hd. destruct (str_empty x) eqn:E; [done|].
  by apply str_empty_false.
Qed.

Lemma default_str_keep d x : x ≠ ""%string → default_str d x = x.
Proof. unfold default_str. intros Hx%str_empty_false. by rewrite Hx. Qed.

(** [if x == 0 { x = d }] *)
Definition default_int (d x : Z) : Z := if (x =? 0)%Z then d else x.

Lemma default_int_idem d x : default_int d (default_int d x) = default_int d x.
Proof. unfold default_int. repeat case_match; congruence. Qed.

Arguments default_str : simpl never.
Arguments default_int : simpl never.
#[export] Hint Rewrite default_str_idem default_int_idem : go.
#[export] Hint Resolve default_str_nonempty : go.

(** [utils.IsInStringArray] *)
Definition IsInStringArray (s : string) (l : list string) : bool :=
  existsb (String.eqb s) l.

Lemma IsInStringArray_spec s l : IsInStringArray s l = true ↔ s ∈ l.
Proof.
  unfold IsInStringArray. rewrite existsb_exists. setoid_rewrite String.eqb_eq.
  rewrite list_elem_of_In. naive_solver.
Qed.

(** ** Zero values

    [zero : T] is Go's zero value of the type, what [new(T)] points to. *)
Class Zero (A : Type) := zero : A.
#[export] Instance Zero_bool : Zero bool := false.
#[export] Instance Zero_Z : Zero Z := 0%Z.
#[export] Instance Zero_string : Zero string := ""%string.
#[export] Instance Zero_option {A} : Zero (option A) := None.
#[export] Instance Zero_list {A} : Zero (list A) := [].
#[export] Instance Zero_gmap {K A} `{Countable K} : Zero (gmap K A) := (∅ : gmap K A).

(** ** Record update

    [r <| f := v |>] is the Go assignment [r.f = v] on a value [r], and
    [r <| f ::= g |>] the in-place update [r.f = g(r.f)].  A record type
    declares its eta expansion as an [Eta] instance; the update of a field is
    then found by abstracting the field's projection in it. *)
Class Eta (R : Type) := eta : R → R.
Class Setter {R T : Type} (proj : R → T) := set : (T → T) → R → R.
Arguments set {R T} proj {_} _ _ /.

Ltac solve_setter :=
  match goal with
  | |- @Setter ?R ?T ?proj =>
      let inst := constr:(_ : Eta R) in
      let e := eval hnf in inst in
      let e' := eval pattern proj in e in
      match e' with
      | ?g _ =>
          let t := eval cbv beta in (λ (f : T → T), g (λ r : R, f (proj r))) in
          exact t
      end
  end.
#[export] Hint Extern 1 (Setter _) => solve_setter : typeclass_instances.

Notation "r <| f ::= g |>" := (set f g r)
  (at level 1, f at level 99, g at level 200, left associativity) : go_scope.
Notation "r <| f := v |>" := (set f (λ _, v) r)
  (at level 1, f at level 99, v at level 200, left associativity) : go_scope.
Open Scope go_scope.
