(* ===== verification/GoStrings.v ===== *)
(** * GoStrings: the string functions of Go the operator calls

    [strings.Split], [strings.Join], [strings.LastIndex], [path.Join] and the
    character classes of the regular expressions, on Rocq strings (one
    [ascii] per byte). *)

From Stdlib Require Import Ascii.
From S2P Require Import Prelude.

Open Scope string_scope.

(** [strings.Join] *)
Definition Join (l : list string) (sep : string) : string := String.concat sep l.

(** [strings.Split(s, sep)] for a separator of one byte: never empty. *)
Fixpoint split_on (c : ascii) (s : string) : list string :=
  match s with
  | "" => [""]
  | String a s' =>
      if Ascii.eqb a c then "" :: split_on c s'
      else match split_on c s' with
           | w :: l => String a w :: l
           | [] => [String a ""]
           end
  end.

(** [strings.Split(s, sep)[0]] *)
Definition before_first (c : ascii) (s : string) : string :=
  match split_on c s with w :: _ => w | [] => "" end.

(** [s[:strings.LastIndex(s, sep)]], when [sep] occurs in [s] *)
Fixpoint before_last (c : ascii) (s : string) : option string :=
  match s with
  | "" => None
  | String a s' =>
      match before_last c s' with
      | Some p => Some (String a p)
      | None => if Ascii.eqb a c then Some "" else None
      end
  end.

(** [s[:n]] *)
Fixpoint take_str (n : nat) (s : string) : string :=
  match n, s with
  | S n', String a s' => String a (take_str n' s')
  | _, _ => ""
  end.

Fixpoint all_chars (p : ascii → bool) (s : string) : bool :=
  match s with "" => true | String a s' => p a && all_chars p s' end.

(** The longest prefix of characters in [p], and what follows it. *)
Fixpoint span (p : ascii → bool) (s : string) : string * string :=
  match s with
  | "" => ("", "")
  | String a s' => if p a then let '(w, r) := span p s' in (String a w, r) else ("", s)
  end.

Definition in_range (lo hi a : ascii) : bool :=
  (N_of_ascii lo <=? N_of_ascii a)%N && (N_of_ascii a <=? N_of_ascii hi)%N.
Definition is_digit : ascii → bool := in_range "0" "9".
Definition is_letter (a : ascii) : bool := in_range "a" "z" a || in_range "A" "Z" a.
(** [\w] *)
Definition is_word (a : ascii) : bool := is_letter a || is_digit a || Ascii.eqb a "_".
(** [[\w\.\-]] *)
Definition is_host (a : ascii) : bool := is_word a || Ascii.eqb a "." || Ascii.eqb a "-".

Definition has_prefix (p s : string) : bool := String.prefix p s.

(** [path.Join]: [path.Clean] of the non-empty elements joined by slashes.
    The path is cleaned component by component, [acc] reversed. *)
Fixpoint clean_comps (rooted : bool) (acc : list string) (l : list string) : list string :=
  match l with
  | [] => rev acc
  | w :: l' =>
      if String.eqb w "" || String.eqb w "." then clean_comps rooted acc l'
      else if String.eqb w ".." then
        match acc with
        | a :: acc' => if String.eqb a ".." then clean_comps rooted (w :: acc) l'
                       else clean_comps rooted acc' l'
        | [] => if rooted then clean_comps rooted [] l' else clean_comps rooted [w] l'
        end
      else clean_comps rooted (w :: acc) l'
  end.

Definition path_Clean (s : string) : string :=
  let rooted := has_prefix "/" s in
  let out := (if rooted then "/" else "") +:+ Join (clean_comps rooted [] (split_on "/" s)) "/" in
  if str_empty out then "." else out.

Definition path_Join (l : list string) : string :=
  match List.filter (λ s, negb (str_empty s)) l with
  | [] => ""
  | l' => path_Clean (Join l' "/")
  end.

Example path_Join_ex1 : path_Join ["registry.io/yunion"; "etcd"] = "registry.io/yunion/etcd".
Proof. reflexivity. Qed.
Example path_Join_ex2 : path_Join ["/a/../b/"; ""; "./c"] = "/b/c".
Proof. reflexivity. Qed.

(** [strings.Contains] *)
Definition contains (sub s : string) : bool :=
  match String.index 0 sub s with Some _ => true | None => false end.

(** The characters [strings.TrimSpace] removes, in UTF-8. *)
Definition bytes_str (l : list nat) : string :=
  List.fold_right (λ n s, String (ascii_of_nat n) s) "" l.
Definition white_spaces : list string :=
  map bytes_str
    ([[9]; [10]; [11]; [12]; [13]; [32]; [194; 133]; [194; 160]; [225; 154; 128]]
     ++ map (λ n, [226; 128; n]) (seq 128 11 ++ [168; 169; 175])
     ++ [[226; 129; 159]; [227; 128; 128]]).

Fixpoint drop_str (n : nat) (s : string) : string :=
  match n, s with
  | S n', String _ s' => drop_str n' s'
  | _, _ => s
  end.

(** One white space removed at the left, at the right; [None] without one. *)
Definition trim_left1 (s : string) : option string :=
  option_map (λ w, drop_str (String.length w) s) (List.find (λ w, has_prefix w s) white_spaces).
Definition has_suffix (w s : string) : bool :=
  (String.length w <=? String.length s)%nat
  && String.eqb (drop_str (String.length s - String.length w) s) w.
Definition trim_right1 (s : string) : option string :=
  option_map (λ w, take_str (String.length s - String.length w) s)
    (List.find (λ w, has_suffix w s) white_spaces).

(** Each step removes a byte at least: the length is enough fuel. *)
Fixpoint trim_by (step : string → option string) (fuel : nat) (s : string) : string :=
  match fuel with
  | O => s
  | S fuel => match step s with Some s' => trim_by step fuel s' | None => s end
  end.

(** [strings.TrimSpace] *)
Definition TrimSpace (s : string) : string :=
  let s := trim_by trim_left1 (String.length s) s in trim_by trim_right1 (String.length s) s.

Example TrimSpace_ex : TrimSpace (bytes_str [32; 10; 194; 160; 97; 32; 98; 13; 10]) = "a b".
Proof. reflexivity. Qed.

(** [fmt.Sprintf("%d", z)] *)
Definition dec (z : Z) : string := pretty z.

(** ** Lemmas *)

Lemma app_cons a s t : String a s +:+ t = String a (s +:+ t).
Proof. reflexivity. Qed.

Lemma str_app_assoc s t u : (s +:+ t) +:+ u = s +:+ t +:+ u.
Proof. induction s as [|a s IH]; [done|]. by rewrite !app_cons, IH. Qed.

Lemma str_app_nil_r s : s +:+ "" = s.
Proof. induction s as [|a s IH]; [done|]. by rewrite app_cons, IH. Qed.

Lemma all_chars_app p s t : all_chars p (s +:+ t) = all_chars p s && all_chars p t.
Proof. induction s as [|a s IH]; [done|]. rewrite app_cons. simpl. by rewrite IH, andb_assoc. Qed.

Lemma all_chars_impl (p q : ascii → bool) s :
  (∀ a, p a = true → q a = true) → all_chars p s = true → all_chars q s = true.
Proof.
  intros Hpq. induction s as [|a s IH]; simpl; [done|].
  intros [Ha Hs]%andb_true_iff. by rewrite (Hpq _ Ha), IH.
Qed.

Definition avoids (c : ascii) (s : string) : bool := all_chars (λ a, negb (Ascii.eqb a c)) s.

Lemma split_on_avoids c s : avoids c s = true → split_on c s = [s].
Proof.
  induction s as [|a s IH]; simpl; [done|]. intros [Ha Hs]%andb_true_iff.
  apply negb_true_iff in Ha. by rewrite Ha, IH.
Qed.

Lemma split_on_app c s t :
  avoids c s = true → split_on c (s +:+ String c t) = s :: split_on c t.
Proof.
  induction s as [|a s IH]; intros Hs.
  - simpl. by rewrite Ascii.eqb_refl.
  - simpl in Hs. apply andb_true_iff in Hs as [Ha Hs]. apply negb_true_iff in Ha.
    rewrite app_cons. simpl. by rewrite Ha, IH.
Qed.

Lemma before_first_app c s t : avoids c s = true → before_first c (s +:+ String c t) = s.
Proof. intros Hs. unfold before_first. by rewrite split_on_app. Qed.

Lemma before_first_avoids c s : avoids c s = true → before_first c s = s.
Proof. intros Hs. unfold before_first. by rewrite split_on_avoids. Qed.

Lemma before_last_avoids c s : avoids c s = true → before_last c s = None.
Proof.
  induction s as [|a s IH]; simpl; [done|]. intros [Ha Hs]%andb_true_iff.
  apply negb_true_iff in Ha. by rewrite IH, Ha.
Qed.

Lemma before_last_app c s t :
  avoids c t = true → before_last c (s +:+ String c t) = Some s.
Proof.
  intros Ht. induction s as [|a s IH].
  - simpl. by rewrite (before_last_avoids _ _ Ht), Ascii.eqb_refl.
  - rewrite app_cons. simpl. by rewrite IH.
Qed.

Lemma before_last_prefix c s p : before_last c s = Some p → ∃ t, s = p +:+ String c t.
Proof.
  revert p. induction s as [|a s IH]; intros p; simpl; [done|].
  destruct (before_last c s) as [q|] eqn:E.
  - intros [= <-]. destruct (IH q eq_refl) as [t ->]. by exists t.
  - destruct (Ascii.eqb a c) eqn:Ha; intros [= <-]. apply Ascii.eqb_eq in Ha as ->. by exists s.
Qed.

Lemma span_all p s t :
  all_chars p s = true → (match t with "" => True | String a _ => p a = false end) →
  span p (s +:+ t) = (s, t).
Proof.
  intros Hs Ht. induction s as [|a s IH].
  - destruct t as [|b t]; [done|]. simpl. by rewrite Ht.
  - simpl in Hs. apply andb_true_iff in Hs as [Ha Hs]. rewrite app_cons. simpl. by rewrite Ha, IH.
Qed.

Lemma length_app_str s t : String.length (s +:+ t) = String.length s + String.length t.
Proof. induction s as [|a s IH]; [done|]. rewrite app_cons. simpl. by rewrite IH. Qed.

Lemma length_take_str n s : String.length (take_str n s) = n `min` String.length s.
Proof. revert s. induction n as [|n IH]; intros [|a s]; simpl; auto. Qed.

Lemma take_str_all_chars p n s : all_chars p s = true → all_chars p (take_str n s) = true.
Proof.
  revert s. induction n as [|n IH]; intros [|a s]; simpl; try done.
  intros [Ha Hs]%andb_true_iff. by rewrite Ha, IH.
Qed.

(** ** Control characters *)
Definition newline : string := String "010" "".
Definition tab : string := String "009" "".

(** ** Conversions: [int32(z)] *)
Definition wrap32 (z : Z) : Z := ((z + 2 ^ 31) `mod` 2 ^ 32 - 2 ^ 31)%Z.
