(* ===== verification/KubeVersion.v ===== *)
(** * KubeVersion: the version of the Kubernetes cluster

    [pkg/util/k8sutil/version.go] and the part of the vendored
    [github.com/coreos/go-semver] it uses: how the version the API server
    reports is parsed and compared, and which API the ingresses are taken
    from. What asks for it elsewhere takes the answer as an argument. *)

From Stdlib Require Import Ascii.
From S2P Require Import Prelude GoStrings.

Open Scope string_scope.
Open Scope list_scope.
Open Scope go_scope.

(** ** Numbers *)

(** [strconv.ParseInt(s, 10, 64)]: an optional sign, digits, in range. *)
Fixpoint digits_value (acc : Z) (s : string) : option Z :=
  match s with
  | EmptyString => Some acc
  | String a s =>
      if is_digit a then digits_value (10 * acc + (Z.of_N (N_of_ascii a) - 48)) s else None
  end.

Definition ParseInt (s : string) : option Z :=
  let unsigned u := if str_empty u then None else digits_value 0 u in
  let v := match s with
           | String "-"%char u => option_map Z.opp (unsigned u)
           | String "+"%char u => unsigned u
           | u => unsigned u
           end in
  match v with
  | Some v => if (- 2 ^ 63 <=? v)%Z && (v <? 2 ^ 63)%Z then Some v else None
  | None => None
  end.

(** [strings.SplitN(s, c, 2)]: what comes before the first separator, and
    after it. *)
Definition cut (c : ascii) (s : string) : string * option string :=
  match span (λ a, negb (Ascii.eqb a c)) s with
  | (w, String _ r) => (w, Some r)
  | (w, EmptyString) => (w, None)
  end.

(** ** Versions *)

(*@ vendor/github.com/coreos/go-semver/semver/semver.go:27-33 Version *)
Record Version := MkVersion {
  Version_Major : Z;
  Version_Minor : Z;
  Version_Patch : Z;
  Version_PreRelease : string;
  Version_Metadata : string
}.

(** [reIdentifier]: pieces of letters, digits and dashes between dots. *)
(*@ vendor/github.com/coreos/go-semver/semver/semver.go:287-292 validateIdentifier *)
Definition validIdentifier (id : string) : bool :=
  str_empty id
  || forallb (λ piece, negb (str_empty piece)
                && all_chars (λ a, is_letter a || is_digit a || Ascii.eqb a "-") piece)
       (split_on "." id).

(*@ vendor/github.com/coreos/go-semver/semver/semver.go:71-104 Set *)
Definition NewVersion (version : string) : Res Version :=
  let '(version, metadata) := cut "+" version in
  let '(version, preRelease) := cut "-" version in
  let metadata := default "" metadata in
  let preRelease := default "" preRelease in
  match cut "." version with
  | (major, Some rest) =>
      match cut "." rest with
      | (minor, Some patch) =>
          if negb (validIdentifier preRelease) then Err (ErrMsg "failed to validate pre-release")
          else if negb (validIdentifier metadata) then Err (ErrMsg "failed to validate metadata")
          else match ParseInt major, ParseInt minor, ParseInt patch with
               | Some major, Some minor, Some patch =>
                   Ok (MkVersion major minor patch preRelease metadata)
               | _, _, _ => Err (ErrMsg "invalid syntax")
               end
      | _ => Err (ErrMsg (version +:+ " is not in dotted-tri format"))
      end
  | _ => Err (ErrMsg (version +:+ " is not in dotted-tri format"))
  end.

(** A version that cannot be parsed panics. *)
(*@ vendor/github.com/coreos/go-semver/semver/semver.go:63-68 Must *)
Definition semver_New (version : string) : Res Version :=
  match NewVersion version with Err e => Panic (Error e) | r => r end.

(*@ vendor/github.com/coreos/go-semver/semver/semver.go:190-205 recursiveCompare *)
Fixpoint recursiveCompare (versionA versionB : list Z) : Z :=
  match versionA, versionB with
  | [], _ => 0
  | a :: versionA, b :: versionB =>
      if (b <? a)%Z then 1
      else if (a <? b)%Z then -1
      else recursiveCompare versionA versionB
  | _ :: _, [] => 0
  end%Z.

(** One identifier against another: numbers come before words. *)
(*@ vendor/github.com/coreos/go-semver/semver/semver.go:220-257 recursivePreReleaseCompare (identifier) *)
Definition compareIdentifier (a b : string) : Z :=
  match ParseInt a, ParseInt b with
  | Some _, None => -1
  | None, Some _ => 1
  | Some aI, Some bI =>
      if (bI <? aI)%Z then 1
      else if (aI <? bI)%Z then -1
      else if String.ltb b a then 1
      else if String.ltb a b then -1
      else 0
  | None, None =>
      if String.ltb b a then 1 else if String.ltb a b then -1 else 0
  end%Z.

(*@ vendor/github.com/coreos/go-semver/semver/semver.go:207-260 recursivePreReleaseCompare *)
Fixpoint recursivePreReleaseCompare (versionA versionB : list string) : Z :=
  match versionA, versionB with
  | [], [] => 0
  | [], _ :: _ => -1
  | _ :: _, [] => 1
  | a :: versionA, b :: versionB =>
      if (compareIdentifier a b =? 0)%Z then recursivePreReleaseCompare versionA versionB
      else compareIdentifier a b
  end%Z.

(*@ vendor/github.com/coreos/go-semver/semver/semver.go:174-188 preReleaseCompare *)
Definition preReleaseCompare (a b : string) : Z :=
  (if str_empty a && negb (str_empty b) then 1
   else if str_empty b && negb (str_empty a) then -1
   else recursivePreReleaseCompare (split_on "." a) (split_on "." b))%Z.

(*@ vendor/github.com/coreos/go-semver/semver/semver.go:165-167 Slice *)
Definition version_Slice (v : Version) : list Z :=
  [Version_Major v; Version_Minor v; Version_Patch v].

(*@ vendor/github.com/coreos/go-semver/semver/semver.go:147-152 Compare *)
Definition Version_Compare (v versionB : Version) : Z :=
  let cmp := recursiveCompare (version_Slice v) (version_Slice versionB) in
  if (cmp =? 0)%Z then preReleaseCompare (Version_PreRelease v) (Version_PreRelease versionB)
  else cmp.

(*@ vendor/github.com/coreos/go-semver/semver/semver.go:160-162 LessThan *)
Definition Version_LessThan (v versionB : Version) : bool := (Version_Compare v versionB <? 0)%Z.

(** ** The cluster's *)

(** The version the process holds is the raw one, [None] before it is
    initialised. *)
(*@ pkg/util/k8sutil/version.go:18-28 InitClusterVersion *)
Definition InitClusterVersion (globalClusterVersion : option string) (ServerVersion : Res string)
  : Res string :=
  match globalClusterVersion with
  | Some _ => Err (ErrMsg "Global ClusterVersion already initialized")
  | None =>
      match ServerVersion with
      | Err e => Err (ErrWrap (ErrWrap e "Get ServerVersion") "NewClusterVersion")
      | r => r
      end
  end.

(*@ pkg/util/k8sutil/version.go:30-35 GetClusterVersion *)
Definition GetClusterVersion (globalClusterVersion : option string) : Res string :=
  match globalClusterVersion with
  | None => Panic "Global ClusterVersion not initialized"
  | Some cv => Ok cv
  end.

(** [strings.TrimPrefix(s, "v")] *)
Definition trim_v (s : string) : string :=
  match s with String "v"%char s => s | _ => s end.

(*@ pkg/util/k8sutil/version.go:66-69 GetSemVerion *)
Definition GetSemVerion (cv : string) : Res Version := semver_New (trim_v cv).

(*@ pkg/util/k8sutil/version.go:71-74 IsLessThan *)
Definition IsLessThan (cv iv : string) : Res bool :=
  res_bind (GetSemVerion cv) (λ v, res_map (Version_LessThan v) (semver_New (trim_v iv))).

(*@ pkg/util/k8sutil/version.go:76-78 IsGreatOrEqualThan *)
Definition IsGreatOrEqualThan (cv iv : string) : Res bool := res_map negb (IsLessThan cv iv).

(*@ pkg/util/k8sutil/version.go:80-83 IsGreatOrEqualThanV120 *)
Definition IsGreatOrEqualThanV120 (cv : string) : Res bool := IsGreatOrEqualThan cv "1.20.0".

(** [schema.GroupVersionResource] *)
Record GroupVersionResource := MkGVR {
  GVR_Group : string;
  GVR_Version : string;
  GVR_Resource : string
}.

(*@ pkg/util/k8sutil/version.go:85-104 GetIngressGVR *)
Definition GetIngressGVR (cv : string) : Res GroupVersionResource :=
  res_bind (IsGreatOrEqualThan cv "1.19.0") (λ v1,
    if (v1 : bool) then Ok (MkGVR "networking.k8s.io" "v1" "ingresses")
    else res_bind (IsGreatOrEqualThan cv "1.14.0") (λ v1beta1,
      if (v1beta1 : bool) then Ok (MkGVR "networking.k8s.io" "v1beta1" "ingresses")
      else Ok (MkGVR "extensions" "v1beta1" "ingresses"))).

Example GetSemVerion_ex :
  GetSemVerion "v1.22.3-aliyun.1+k3s1" = Ok (MkVersion 1 22 3 "aliyun.1" "k3s1") ∧
  IsGreatOrEqualThanV120 "v1.20.0-rc.1" = Ok false ∧ IsGreatOrEqualThanV120 "v1.22.3-aliyun.1" = Ok true.
Proof. vm_compute. auto. Qed.

(** ** What the answers mean *)

Ltac compare_triples :=
  simpl;
  repeat match goal with
  | |- context [(?x <? ?y)%Z] => is_var x; is_var y; destruct (Z.ltb_spec x y)
  end; simpl; split; intros; try done; lia.

(** Versions before the pre-release are ordered as triples. *)
Lemma recursiveCompare_lex a b c a' b' c' :
  (recursiveCompare [a; b; c] [a'; b'; c'] <? 0)%Z = true ↔
  (a < a' ∨ a = a' ∧ (b < b' ∨ b = b' ∧ c < c'))%Z.
Proof.
  compare_triples.
Qed.

Lemma recursiveCompare_eq a b c a' b' c' :
  recursiveCompare [a; b; c] [a'; b'; c'] = 0%Z ↔ a = a' ∧ b = b' ∧ c = c'.
Proof.
  compare_triples.
Qed.

(** A version is below a release when its triple is, or when it is a
    pre-release of it. *)
Lemma LessThan_release v major minor patch :
  Version_LessThan v (MkVersion major minor patch "" "") = true ↔
  (Version_Major v < major ∨ Version_Major v = major ∧
    (Version_Minor v < minor ∨ Version_Minor v = minor ∧
      (Version_Patch v < patch ∨ Version_Patch v = patch ∧ Version_PreRelease v ≠ "")))%Z.
Proof.
  unfold Version_LessThan, Version_Compare, version_Slice; simpl Version_PreRelease.
  destruct v as [a b c pre md]. cbn [Version_Major Version_Minor Version_Patch Version_PreRelease].
  destruct (Z.eqb_spec (recursiveCompare [a; b; c] [major; minor; patch]) 0) as [E|E].
  - apply recursiveCompare_eq in E as (-> & -> & ->). unfold preReleaseCompare.
    destruct (str_empty pre) eqn:Ep; simpl.
    + apply str_empty_spec in Ep as ->. simpl. split; [done|naive_solver lia].
    + apply str_empty_false in Ep. split; [naive_solver|done].
  - rewrite recursiveCompare_lex. rewrite recursiveCompare_eq in E. split; [tauto|].
    intros [?|[-> [?|[-> [?|[-> _]]]]]]; tauto.
Qed.

(** The API of the ingresses, for a version that can be parsed. *)
Lemma GetIngressGVR_spec cv v :
  GetSemVerion cv = Ok v →
  GetIngressGVR cv =
    Ok (if Version_LessThan v (MkVersion 1 14 0 "" "") then MkGVR "extensions" "v1beta1" "ingresses"
        else if Version_LessThan v (MkVersion 1 19 0 "" "")
             then MkGVR "networking.k8s.io" "v1beta1" "ingresses"
             else MkGVR "networking.k8s.io" "v1" "ingresses").
Proof.
  intros Hv. unfold GetIngressGVR, IsGreatOrEqualThan, IsLessThan. rewrite Hv.
  change (semver_New (trim_v "1.19.0")) with (Ok (MkVersion 1 19 0 "" "")).
  change (semver_New (trim_v "1.14.0")) with (Ok (MkVersion 1 14 0 "" "")).
  cbn [res_bind res_map].
  destruct (Version_LessThan v (MkVersion 1 19 0 "" "")) eqn:E19; cbn [negb res_bind res_map].
  - by destruct (Version_LessThan v (MkVersion 1 14 0 "" "")).
  - destruct (Version_LessThan v (MkVersion 1 14 0 "" "")) eqn:E14; [|done].
    apply LessThan_release in E14. apply not_true_iff_false in E19. rewrite LessThan_release in E19.
    exfalso. apply E19. destruct E14 as [?|[? [?|[? _]]]]; [left; lia|right; split; [done|left; lia]..].
Qed.
