(* ===== verification/K8s.v ===== *)
(** * K8s: the Kubernetes objects the operator reads and writes

    Shapes of the third-party API types ([k8s.io/api], [k8s.io/apimachinery]).
    They are data the operator exchanges with the API server: the fields are
    the ones its code reads or writes, under the names of the Go structs.
    A pointer is an [option], a slice a [list], a string map a [gmap], with
    the nil slice and the nil map read as empty, the way
    [apiequality.Semantic.DeepEqual] compares them. Every type has decidable
    equality, and the types a last-applied annotation stores are countable,
    which gives a concrete JSON codec (see LastApplied). *)

From S2P Require Import Prelude.

(** Encoding a record as the list of its encoded fields. *)
Ltac record_countable_tac :=
  intros []; cbn -[encode decode]; rewrite ?decode_encode; reflexivity.

(** [resource.Quantity], the amount [value * 10 ^ scale] *)
Record Quantity := MkQuantity {
  Quantity_value : Z;
  Quantity_scale : Z
}.
#[global] Instance Quantity_eta : Eta Quantity := λ r, MkQuantity (Quantity_value r)
  (Quantity_scale r).
#[global] Instance Quantity_zero : Zero Quantity := MkQuantity zero zero.
#[global] Instance Quantity_eq_dec : EqDecision Quantity.
Proof. solve_decision. Defined.
#[global] Instance Quantity_countable : Countable Quantity.
Proof.
  refine {|
  encode x := encode [encode (Quantity_value x); encode (Quantity_scale x)];
  decode p :=
    match (decode p : option (list positive)) with
    | Some [p1; p2] =>
        x1 ← decode p1; x2 ← decode p2;
        Some (MkQuantity x1 x2)
    | _ => None
    end
  |}.
  record_countable_tac.
Defined.

(** [intstr.IntOrString] *)
Record IntOrString := MkIntOrString {
  IntOrString_Type : Z;
  IntOrString_IntVal : Z;
  IntOrString_StrVal : string
}.
#[global] Instance IntOrString_eta : Eta IntOrString := λ r, MkIntOrString (IntOrString_Type r)
  (IntOrString_IntVal r) (IntOrString_StrVal r).
#[global] Instance IntOrString_zero : Zero IntOrString := MkIntOrString zero zero zero.
#[global] Instance IntOrString_eq_dec : EqDecision IntOrString.
Proof. solve_decision. Defined.
#[global] Instance IntOrString_countable : Countable IntOrString.
Proof.
  refine {|
  encode x := encode [encode (IntOrString_Type x); encode (IntOrString_IntVal x); encode
    (IntOrString_StrVal x)];
  decode p :=
    match (decode p : option (list positive)) with
    | Some [p1; p2; p3] =>
        x1 ← decode p1; x2 ← decode p2; x3 ← decode p3;
        Some (MkIntOrString x1 x2 x3)
    | _ => None
    end
  |}.
  record_countable_tac.
Defined.

Record LabelSelectorRequirement := MkLabelSelectorRequirement {
  LabelSelectorRequirement_Key : string;
  LabelSelectorRequirement_Operator : string;
  LabelSelectorRequirement_Values : list string
}.
#[global] Instance LabelSelectorRequirement_eta : Eta LabelSelectorRequirement := λ r,
  MkLabelSelectorRequirement (LabelSelectorRequirement_Key r)
  (LabelSelectorRequirement_Operator r) (LabelSelectorRequirement_Values r).
#[global] Instance LabelSelectorRequirement_zero : Zero LabelSelectorRequirement :=
  MkLabelSelectorRequirement zero zero zero.
#[global] Instance LabelSelectorRequirement_eq_dec : EqDecision LabelSelectorRequirement.
Proof. solve_decision. Defined.
#[global] Instance LabelSelectorRequirement_countable : Countable LabelSelectorRequirement.
Proof.
  refine {|
  encode x := encode [encode (LabelSelectorRequirement_Key x); encode
    (LabelSelectorRequirement_Operator x); encode (LabelSelectorRequirement_Values x)];
  decode p :=
    match (decode p : option (list positive)) with
    | Some [p1; p2; p3] =>
        x1 ← decode p1; x2 ← decode p2; x3 ← decode p3;
        Some (MkLabelSelectorRequirement x1 x2 x3)
    | _ => None
    end
  |}.
  record_countable_tac.
Defined.

Record LabelSelector := MkLabelSelector {
  LabelSelector_MatchLabels : gmap string string;
  LabelSelector_MatchExpressions : list LabelSelectorRequirement
}.
#[global] Instance LabelSelector_eta : Eta LabelSelector := λ r, MkLabelSelector
  (LabelSelector_MatchLabels r) (LabelSelector_MatchExpressions r).
#[global] Instance LabelSelector_zero : Zero LabelSelector := MkLabelSelector zero zero.
#[global] Instance LabelSelector_eq_dec : EqDecision LabelSelector.
Proof. solve_decision. Defined.
#[global] Instance LabelSelector_countable : Countable LabelSelector.
Proof.
  refine {|
  encode x := encode [encode (LabelSelector_MatchLabels x); encode
    (LabelSelector_MatchExpressions x)];
  decode p :=
    match (decode p : option (list positive)) with
    | Some [p1; p2] =>
        x1 ← decode p1; x2 ← decode p2;
        Some (MkLabelSelector x1 x2)
    | _ => None
    end
  |}.
  record_countable_tac.
Defined.

Record OwnerReference := MkOwnerReference {
  OwnerReference_APIVersion : string;
  OwnerReference_Kind : string;
  OwnerReference_Name : string;
  OwnerReference_UID : string;
  OwnerReference_Controller : option bool;
  OwnerReference_BlockOwnerDeletion : option bool
}.
#[global] Instance OwnerReference_eta : Eta OwnerReference := λ r, MkOwnerReference
  (OwnerReference_APIVersion r) (OwnerReference_Kind r) (OwnerReference_Name r)
  (OwnerReference_UID r) (OwnerReference_Controller r) (OwnerReference_BlockOwnerDeletion r).
#[global] Instance OwnerReference_zero : Zero OwnerReference := MkOwnerReference zero zero zero
  zero zero zero.
#[global] Instance OwnerReference_eq_dec : EqDecision OwnerReference.
Proof. solve_decision. Defined.
#[global] Instance OwnerReference_countable : Countable OwnerReference.
Proof.
  refine {|
  encode x := encode [encode (OwnerReference_APIVersion x); encode (OwnerReference_Kind x);
    encode (OwnerReference_Name x); encode (OwnerReference_UID x); encode
    (OwnerReference_Controller x); encode (OwnerReference_BlockOwnerDeletion x)];
  decode p :=
    match (decode p : option (list positive)) with
    | Some [p1; p2; p3; p4; p5; p6] =>
        x1 ← decode p1; x2 ← decode p2; x3 ← decode p3; x4 ← decode p4; x5 ← decode p5; x6 ←
        decode p6;
        Some (MkOwnerReference x1 x2 x3 x4 x5 x6)
    | _ => None
    end
  |}.
  record_countable_tac.
Defined.

Record ObjectMeta := MkObjectMeta {
  ObjectMeta_Name : string;
  ObjectMeta_Namespace : string;
  ObjectMeta_UID : string;
  ObjectMeta_ResourceVersion : string;
  ObjectMeta_Generation : Z;
  ObjectMeta_DeletionTimestamp : option string;
  ObjectMeta_Labels : gmap string string;
  ObjectMeta_Annotations : gmap string string;
  ObjectMeta_OwnerReferences : list OwnerReference
}.
#[global] Instance ObjectMeta_eta : Eta ObjectMeta := λ r, MkObjectMeta (ObjectMeta_Name r)
  (ObjectMeta_Namespace r) (ObjectMeta_UID r) (ObjectMeta_ResourceVersion r)
  (ObjectMeta_Generation r) (ObjectMeta_DeletionTimestamp r) (ObjectMeta_Labels r)
  (ObjectMeta_Annotations r) (ObjectMeta_OwnerReferences r).
#[global] Instance ObjectMeta_zero : Zero ObjectMeta := MkObjectMeta zero zero zero zero zero
  zero zero zero zero.
#[global] Instance ObjectMeta_eq_dec : EqDecision ObjectMeta.
Proof. solve_decision. Defined.
#[global] Instance ObjectMeta_countable : Countable ObjectMeta.
Proof.
  refine {|
  encode x := encode [encode (ObjectMeta_Name x); encode (ObjectMeta_Namespace x); encode
    (ObjectMeta_UID x); encode (ObjectMeta_ResourceVersion x); encode (ObjectMeta_Generation
    x); encode (ObjectMeta_DeletionTimestamp x); encode (ObjectMeta_Labels x); encode
    (ObjectMeta_Annotations x); encode (ObjectMeta_OwnerReferences x)];
  decode p :=
    match (decode p : option (list positive)) with
    | Some [p1; p2; p3; p4; p5; p6; p7; p8; p9] =>
        x1 ← decode p1; x2 ← decode p2; x3 ← decode p3; x4 ← decode p4; x5 ← decode p5; x6 ←
        decode p6; x7 ← decode p7; x8 ← decode p8; x9 ← decode p9;
        Some (MkObjectMeta x1 x2 x3 x4 x5 x6 x7 x8 x9)
    | _ => None
    end
  |}.
  record_countable_tac.
Defined.

Record LocalObjectReference := MkLocalObjectReference {
  LocalObjectReference_Name : string
}.
#[global] Instance LocalObjectReference_eta : Eta LocalObjectReference := λ r,
  MkLocalObjectReference (LocalObjectReference_Name r).
#[global] Instance LocalObjectReference_zero : Zero LocalObjectReference :=
  MkLocalObjectReference zero.
#[global] Instance LocalObjectReference_eq_dec : EqDecision LocalObjectReference.
Proof. solve_decision. Defined.
#[global] Instance LocalObjectReference_countable : Countable LocalObjectReference.
Proof.
  refine {|
  encode x := encode [encode (LocalObjectReference_Name x)];
  decode p :=
    match (decode p : option (list positive)) with
    | Some [p1] =>
        x1 ← decode p1;
        Some (MkLocalObjectReference x1)
    | _ => None
    end
  |}.
  record_countable_tac.
Defined.

Record Toleration := MkToleration {
  Toleration_Key : string;
  Toleration_Operator : string;
  Toleration_Value : string;
  Toleration_Effect : string;
  Toleration_TolerationSeconds : option Z
}.
#[global] Instance Toleration_eta : Eta Toleration := λ r, MkToleration (Toleration_Key r)
  (Toleration_Operator r) (Toleration_Value r) (Toleration_Effect r)
  (Toleration_TolerationSeconds r).
#[global] Instance Toleration_zero : Zero Toleration := MkToleration zero zero zero zero zero.
#[global] Instance Toleration_eq_dec : EqDecision Toleration.
Proof. solve_decision. Defined.
#[global] Instance Toleration_countable : Countable Toleration.
Proof.
  refine {|
  encode x := encode [encode (Toleration_Key x); encode (Toleration_Operator x); encode
    (Toleration_Value x); encode (Toleration_Effect x); encode (Toleration_TolerationSeconds
    x)];
  decode p :=
    match (decode p : option (list positive)) with
    | Some [p1; p2; p3; p4; p5] =>
        x1 ← decode p1; x2 ← decode p2; x3 ← decode p3; x4 ← decode p4; x5 ← decode p5;
        Some (MkToleration x1 x2 x3 x4 x5)
    | _ => None
    end
  |}.
  record_countable_tac.
Defined.

Record NodeSelectorRequirement := MkNodeSelectorRequirement {
  NodeSelectorRequirement_Key : string;
  NodeSelectorRequirement_Operator : string;
  NodeSelectorRequirement_Values : list string
}.
#[global] Instance NodeSelectorRequirement_eta : Eta NodeSelectorRequirement := λ r,
  MkNodeSelectorRequirement (NodeSelectorRequirement_Key r) (NodeSelectorRequirement_Operator
  r) (NodeSelectorRequirement_Values r).
#[global] Instance NodeSelectorRequirement_zero : Zero NodeSelectorRequirement :=
  MkNodeSelectorRequirement zero zero zero.
#[global] Instance NodeSelectorRequirement_eq_dec : EqDecision NodeSelectorRequirement.
Proof. solve_decision. Defined.
#[global] Instance NodeSelectorRequirement_countable : Countable NodeSelectorRequirement.
Proof.
  refine {|
  encode x := encode [encode (NodeSelectorRequirement_Key x); encode
    (NodeSelectorRequirement_Operator x); encode (NodeSelectorRequirement_Values x)];
  decode p :=
    match (decode p : option (list positive)) with
    | Some [p1; p2; p3] =>
        x1 ← decode p1; x2 ← decode p2; x3 ← decode p3;
        Some (MkNodeSelectorRequirement x1 x2 x3)
    | _ => None
    end
  |}.
  record_countable_tac.
Defined.

Record NodeSelectorTerm := MkNodeSelectorTerm {
  NodeSelectorTerm_MatchExpressions : list NodeSelectorRequirement;
  NodeSelectorTerm_MatchFields : list NodeSelectorRequirement
}.
#[global] Instance NodeSelectorTerm_eta : Eta NodeSelectorTerm := λ r, MkNodeSelectorTerm
  (NodeSelectorTerm_MatchExpressions r) (NodeSelectorTerm_MatchFields r).
#[global] Instance NodeSelectorTerm_zero : Zero NodeSelectorTerm := MkNodeSelectorTerm zero
  zero.
#[global] Instance NodeSelectorTerm_eq_dec : EqDecision NodeSelectorTerm.
Proof. solve_decision. Defined.
#[global] Instance NodeSelectorTerm_countable : Countable NodeSelectorTerm.
Proof.
  refine {|
  encode x := encode [encode (NodeSelectorTerm_MatchExpressions x); encode
    (NodeSelectorTerm_MatchFields x)];
  decode p :=
    match (decode p : option (list positive)) with
    | Some [p1; p2] =>
        x1 ← decode p1; x2 ← decode p2;
        Some (MkNodeSelectorTerm x1 x2)
    | _ => None
    end
  |}.
  record_countable_tac.
Defined.

Record NodeSelector := MkNodeSelector {
  NodeSelector_NodeSelectorTerms : list NodeSelectorTerm
}.
#[global] Instance NodeSelector_eta : Eta NodeSelector := λ r, MkNodeSelector
  (NodeSelector_NodeSelectorTerms r).
#[global] Instance NodeSelector_zero : Zero NodeSelector := MkNodeSelector zero.
#[global] Instance NodeSelector_eq_dec : EqDecision NodeSelector.
Proof. solve_decision. Defined.
#[global] Instance NodeSelector_countable : Countable NodeSelector.
Proof.
  refine {|
  encode x := encode [encode (NodeSelector_NodeSelectorTerms x)];
  decode p :=
    match (decode p : option (list positive)) with
    | Some [p1] =>
        x1 ← decode p1;
        Some (MkNodeSelector x1)
    | _ => None
    end
  |}.
  record_countable_tac.
Defined.

Record PreferredSchedulingTerm := MkPreferredSchedulingTerm {
  PreferredSchedulingTerm_Weight : Z;
  PreferredSchedulingTerm_Preference : NodeSelectorTerm
}.
#[global] Instance PreferredSchedulingTerm_eta : Eta PreferredSchedulingTerm := λ r,
  MkPreferredSchedulingTerm (PreferredSchedulingTerm_Weight r)
  (PreferredSchedulingTerm_Preference r).
#[global] Instance PreferredSchedulingTerm_zero : Zero PreferredSchedulingTerm :=
  MkPreferredSchedulingTerm zero zero.
#[global] Instance PreferredSchedulingTerm_eq_dec : EqDecision PreferredSchedulingTerm.
Proof. solve_decision. Defined.
#[global] Instance PreferredSchedulingTerm_countable : Countable PreferredSchedulingTerm.
Proof.
  refine {|
  encode x := encode [encode (PreferredSchedulingTerm_Weight x); encode
    (PreferredSchedulingTerm_Preference x)];
  decode p :=
    match (decode p : option (list positive)) with
    | Some [p1; p2] =>
        x1 ← decode p1; x2 ← decode p2;
        Some (MkPreferredSchedulingTerm x1 x2)
    | _ => None
    end
  |}.
  record_countable_tac.
Defined.

Record NodeAffinity := MkNodeAffinity {
  NodeAffinity_RequiredDuringSchedulingIgnoredDuringExecution : option NodeSelector;
  NodeAffinity_PreferredDuringSchedulingIgnoredDuringExecution : list PreferredSchedulingTerm
}.
#[global] Instance NodeAffinity_eta : Eta NodeAffinity := λ r, MkNodeAffinity
  (NodeAffinity_RequiredDuringSchedulingIgnoredDuringExecution r)
  (NodeAffinity_PreferredDuringSchedulingIgnoredDuringExecution r).
#[global] Instance NodeAffinity_zero : Zero NodeAffinity := MkNodeAffinity zero zero.
#[global] Instance NodeAffinity_eq_dec : EqDecision NodeAffinity.
Proof. solve_decision. Defined.
#[global] Instance NodeAffinity_countable : Countable NodeAffinity.
Proof.
  refine {|
  encode x := encode [encode (NodeAffinity_RequiredDuringSchedulingIgnoredDuringExecution
    x); encode (NodeAffinity_PreferredDuringSchedulingIgnoredDuringExecution x)];
  decode p :=
    match (decode p : option (list positive)) with
    | Some [p1; p2] =>
        x1 ← decode p1; x2 ← decode p2;
        Some (MkNodeAffinity x1 x2)
    | _ => None
    end
  |}.
  record_countable_tac.
Defined.

Record PodAffinityTerm := MkPodAffinityTerm {
  PodAffinityTerm_LabelSelector : option LabelSelector;
  PodAffinityTerm_Namespaces : list string;
  PodAffinityTerm_TopologyKey : string
}.
#[global] Instance PodAffinityTerm_eta : Eta PodAffinityTerm := λ r, MkPodAffinityTerm
  (PodAffinityTerm_LabelSelector r) (PodAffinityTerm_Namespaces r) (PodAffinityTerm_TopologyKey
  r).
#[global] Instance PodAffinityTerm_zero : Zero PodAffinityTerm := MkPodAffinityTerm zero zero
  zero.
#[global] Instance PodAffinityTerm_eq_dec : EqDecision PodAffinityTerm.
Proof. solve_decision. Defined.
#[global] Instance PodAffinityTerm_countable : Countable PodAffinityTerm.
Proof.
  refine {|
  encode x := encode [encode (PodAffinityTerm_LabelSelector x); encode
    (PodAffinityTerm_Namespaces x); encode (PodAffinityTerm_TopologyKey x)];
  decode p :=
    match (decode p : option (list positive)) with
    | Some [p1; p2; p3] =>
        x1 ← decode p1; x2 ← decode p2; x3 ← decode p3;
        Some (MkPodAffinityTerm x1 x2 x3)
    | _ => None
    end
  |}.
  record_countable_tac.
Defined.

Record WeightedPodAffinityTerm := MkWeightedPodAffinityTerm {
  WeightedPodAffinityTerm_Weight : Z;
  WeightedPodAffinityTerm_PodAffinityTerm : PodAffinityTerm
}.
#[global] Instance WeightedPodAffinityTerm_eta : Eta WeightedPodAffinityTerm := λ r,
  MkWeightedPodAffinityTerm (WeightedPodAffinityTerm_Weight r)
  (WeightedPodAffinityTerm_PodAffinityTerm r).
#[global] Instance WeightedPodAffinityTerm_zero : Zero WeightedPodAffinityTerm :=
  MkWeightedPodAffinityTerm zero zero.
#[global] Instance WeightedPodAffinityTerm_eq_dec : EqDecision WeightedPodAffinityTerm.
Proof. solve_decision. Defined.
#[global] Instance WeightedPodAffinityTerm_countable : Countable WeightedPodAffinityTerm.
Proof.
  refine {|
  encode x := encode [encode (WeightedPodAffinityTerm_Weight x); encode
    (WeightedPodAffinityTerm_PodAffinityTerm x)];
  decode p :=
    match (decode p : option (list positive)) with
    | Some [p1; p2] =>
        x1 ← decode p1; x2 ← decode p2;
        Some (MkWeightedPodAffinityTerm x1 x2)
    | _ => None
    end
  |}.
  record_countable_tac.
Defined.

Record PodAffinity := MkPodAffinity {
  PodAffinity_RequiredDuringSchedulingIgnoredDuringExecution : list PodAffinityTerm;
  PodAffinity_PreferredDuringSchedulingIgnoredDuringExecution : list WeightedPodAffinityTerm
}.
#[global] Instance PodAffinity_eta : Eta PodAffinity := λ r, MkPodAffinity
  (PodAffinity_RequiredDuringSchedulingIgnoredDuringExecution r)
  (PodAffinity_PreferredDuringSchedulingIgnoredDuringExecution r).
#[global] Instance PodAffinity_zero : Zero PodAffinity := MkPodAffinity zero zero.
#[global] Instance PodAffinity_eq_dec : EqDecision PodAffinity.
Proof. solve_decision. Defined.
#[global] Instance PodAffinity_countable : Countable PodAffinity.
Proof.
  refine {|
  encode x := encode [encode (PodAffinity_RequiredDuringSchedulingIgnoredDuringExecution x);
    encode (PodAffinity_PreferredDuringSchedulingIgnoredDuringExecution x)];
  decode p :=
    match (decode p : option (list positive)) with
    | Some [p1; p2] =>
        x1 ← decode p1; x2 ← decode p2;
        Some (MkPodAffinity x1 x2)
    | _ => None
    end
  |}.
  record_countable_tac.
Defined.

Record PodAntiAffinity := MkPodAntiAffinity {
  PodAntiAffinity_RequiredDuringSchedulingIgnoredDuringExecution : list PodAffinityTerm;
  PodAntiAffinity_PreferredDuringSchedulingIgnoredDuringExecution : list WeightedPodAffinityTerm
}.
#[global] Instance PodAntiAffinity_eta : Eta PodAntiAffinity := λ r, MkPodAntiAffinity
  (PodAntiAffinity_RequiredDuringSchedulingIgnoredDuringExecution r)
  (PodAntiAffinity_PreferredDuringSchedulingIgnoredDuringExecution r).
#[global] Instance PodAntiAffinity_zero : Zero PodAntiAffinity := MkPodAntiAffinity zero zero.
#[global] Instance PodAntiAffinity_eq_dec : EqDecision PodAntiAffinity.
Proof. solve_decision. Defined.
#[global] Instance PodAntiAffinity_countable : Countable PodAntiAffinity.
Proof.
  refine {|
  encode x := encode [encode (PodAntiAffinity_RequiredDuringSchedulingIgnoredDuringExecution
    x); encode (PodAntiAffinity_PreferredDuringSchedulingIgnoredDuringExecution x)];
  decode p :=
    match (decode p : option (list positive)) with
    | Some [p1; p2] =>
        x1 ← decode p1; x2 ← decode p2;
        Some (MkPodAntiAffinity x1 x2)
    | _ => None
    end
  |}.
  record_countable_tac.
Defined.

Record Affinity := MkAffinity {
  Affinity_NodeAffinity : option NodeAffinity;
  Affinity_PodAffinity : option PodAffinity;
  Affinity_PodAntiAffinity : option PodAntiAffinity
}.
#[global] Instance Affinity_eta : Eta Affinity := λ r, MkAffinity (Affinity_NodeAffinity r)
  (Affinity_PodAffinity r) (Affinity_PodAntiAffinity r).
#[global] Instance Affinity_zero : Zero Affinity := MkAffinity zero zero zero.
#[global] Instance Affinity_eq_dec : EqDecision Affinity.
Proof. solve_decision. Defined.
#[global] Instance Affinity_countable : Countable Affinity.
Proof.
  refine {|
  encode x := encode [encode (Affinity_NodeAffinity x); encode (Affinity_PodAffinity x);
    encode (Affinity_PodAntiAffinity x)];
  decode p :=
    match (decode p : option (list positive)) with
    | Some [p1; p2; p3] =>
        x1 ← decode p1; x2 ← decode p2; x3 ← decode p3;
        Some (MkAffinity x1 x2 x3)
    | _ => None
    end
  |}.
  record_countable_tac.
Defined.

Record PodDNSConfigOption := MkPodDNSConfigOption {
  PodDNSConfigOption_Name : string;
  PodDNSConfigOption_Value : option string
}.
#[global] Instance PodDNSConfigOption_eta : Eta PodDNSConfigOption := λ r, MkPodDNSConfigOption
  (PodDNSConfigOption_Name r) (PodDNSConfigOption_Value r).
#[global] Instance PodDNSConfigOption_zero : Zero PodDNSConfigOption := MkPodDNSConfigOption
  zero zero.
#[global] Instance PodDNSConfigOption_eq_dec : EqDecision PodDNSConfigOption.
Proof. solve_decision. Defined.
#[global] Instance PodDNSConfigOption_countable : Countable PodDNSConfigOption.
Proof.
  refine {|
  encode x := encode [encode (PodDNSConfigOption_Name x); encode (PodDNSConfigOption_Value
    x)];
  decode p :=
    match (decode p : option (list positive)) with
    | Some [p1; p2] =>
        x1 ← decode p1; x2 ← decode p2;
        Some (MkPodDNSConfigOption x1 x2)
    | _ => None
    end
  |}.
  record_countable_tac.
Defined.

Record PodDNSConfig := MkPodDNSConfig {
  PodDNSConfig_Nameservers : list string;
  PodDNSConfig_Searches : list string;
  PodDNSConfig_Options : list PodDNSConfigOption
}.
#[global] Instance PodDNSConfig_eta : Eta PodDNSConfig := λ r, MkPodDNSConfig
  (PodDNSConfig_Nameservers r) (PodDNSConfig_Searches r) (PodDNSConfig_Options r).
#[global] Instance PodDNSConfig_zero : Zero PodDNSConfig := MkPodDNSConfig zero zero zero.
#[global] Instance PodDNSConfig_eq_dec : EqDecision PodDNSConfig.
Proof. solve_decision. Defined.
#[global] Instance PodDNSConfig_countable : Countable PodDNSConfig.
Proof.
  refine {|
  encode x := encode [encode (PodDNSConfig_Nameservers x); encode (PodDNSConfig_Searches x);
    encode (PodDNSConfig_Options x)];
  decode p :=
    match (decode p : option (list positive)) with
    | Some [p1; p2; p3] =>
        x1 ← decode p1; x2 ← decode p2; x3 ← decode p3;
        Some (MkPodDNSConfig x1 x2 x3)
    | _ => None
    end
  |}.
  record_countable_tac.
Defined.

Record PodSecurityContext := MkPodSecurityContext {
  PodSecurityContext_RunAsUser : option Z;
  PodSecurityContext_RunAsNonRoot : option bool;
  PodSecurityContext_FSGroup : option Z
}.
#[global] Instance PodSecurityContext_eta : Eta PodSecurityContext := λ r, MkPodSecurityContext
  (PodSecurityContext_RunAsUser r) (PodSecurityContext_RunAsNonRoot r)
  (PodSecurityContext_FSGroup r).
#[global] Instance PodSecurityContext_zero : Zero PodSecurityContext := MkPodSecurityContext
  zero zero zero.
#[global] Instance PodSecurityContext_eq_dec : EqDecision PodSecurityContext.
Proof. solve_decision. Defined.
#[global] Instance PodSecurityContext_countable : Countable PodSecurityContext.
Proof.
  refine {|
  encode x := encode [encode (PodSecurityContext_RunAsUser x); encode
    (PodSecurityContext_RunAsNonRoot x); encode (PodSecurityContext_FSGroup x)];
  decode p :=
    match (decode p : option (list positive)) with
    | Some [p1; p2; p3] =>
        x1 ← decode p1; x2 ← decode p2; x3 ← decode p3;
        Some (MkPodSecurityContext x1 x2 x3)
    | _ => None
    end
  |}.
  record_countable_tac.
Defined.

Record KeyToPath := MkKeyToPath {
  KeyToPath_Key : string;
  KeyToPath_Path : string
}.
#[global] Instance KeyToPath_eta : Eta KeyToPath := λ r, MkKeyToPath (KeyToPath_Key r)
  (KeyToPath_Path r).
#[global] Instance KeyToPath_zero : Zero KeyToPath := MkKeyToPath zero zero.
#[global] Instance KeyToPath_eq_dec : EqDecision KeyToPath.
Proof. solve_decision. Defined.
#[global] Instance KeyToPath_countable : Countable KeyToPath.
Proof.
  refine {|
  encode x := encode [encode (KeyToPath_Key x); encode (KeyToPath_Path x)];
  decode p :=
    match (decode p : option (list positive)) with
    | Some [p1; p2] =>
        x1 ← decode p1; x2 ← decode p2;
        Some (MkKeyToPath x1 x2)
    | _ => None
    end
  |}.
  record_countable_tac.
Defined.

Record HostPathVolumeSource := MkHostPathVolumeSource {
  HostPathVolumeSource_Path : string;
  HostPathVolumeSource_Type : option string
}.
#[global] Instance HostPathVolumeSource_eta : Eta HostPathVolumeSource := λ r,
  MkHostPathVolumeSource (HostPathVolumeSource_Path r) (HostPathVolumeSource_Type r).
#[global] Instance HostPathVolumeSource_zero : Zero HostPathVolumeSource :=
  MkHostPathVolumeSource zero zero.
#[global] Instance HostPathVolumeSource_eq_dec : EqDecision HostPathVolumeSource.
Proof. solve_decision. Defined.
#[global] Instance HostPathVolumeSource_countable : Countable HostPathVolumeSource.
Proof.
  refine {|
  encode x := encode [encode (HostPathVolumeSource_Path x); encode
    (HostPathVolumeSource_Type x)];
  decode p :=
    match (decode p : option (list positive)) with
    | Some [p1; p2] =>
        x1 ← decode p1; x2 ← decode p2;
        Some (MkHostPathVolumeSource x1 x2)
    | _ => None
    end
  |}.
  record_countable_tac.
Defined.

Record SecretVolumeSource := MkSecretVolumeSource {
  SecretVolumeSource_SecretName : string;
  SecretVolumeSource_Items : list KeyToPath
}.
#[global] Instance SecretVolumeSource_eta : Eta SecretVolumeSource := λ r, MkSecretVolumeSource
  (SecretVolumeSource_SecretName r) (SecretVolumeSource_Items r).
#[global] Instance SecretVolumeSource_zero : Zero SecretVolumeSource := MkSecretVolumeSource
  zero zero.
#[global] Instance SecretVolumeSource_eq_dec : EqDecision SecretVolumeSource.
Proof. solve_decision. Defined.
#[global] Instance SecretVolumeSource_countable : Countable SecretVolumeSource.
Proof.
  refine {|
  encode x := encode [encode (SecretVolumeSource_SecretName x); encode
    (SecretVolumeSource_Items x)];
  decode p :=
    match (decode p : option (list positive)) with
    | Some [p1; p2] =>
        x1 ← decode p1; x2 ← decode p2;
        Some (MkSecretVolumeSource x1 x2)
    | _ => None
    end
  |}.
  record_countable_tac.
Defined.

Record ConfigMapVolumeSource := MkConfigMapVolumeSource {
  ConfigMapVolumeSource_LocalObjectReference : LocalObjectReference;
  ConfigMapVolumeSource_Items : list KeyToPath
}.
#[global] Instance ConfigMapVolumeSource_eta : Eta ConfigMapVolumeSource := λ r,
  MkConfigMapVolumeSource (ConfigMapVolumeSource_LocalObjectReference r)
  (ConfigMapVolumeSource_Items r).
#[global] Instance ConfigMapVolumeSource_zero : Zero ConfigMapVolumeSource :=
  MkConfigMapVolumeSource zero zero.
#[global] Instance ConfigMapVolumeSource_eq_dec : EqDecision ConfigMapVolumeSource.
Proof. solve_decision. Defined.
#[global] Instance ConfigMapVolumeSource_countable : Countable ConfigMapVolumeSource.
Proof.
  refine {|
  encode x := encode [encode (ConfigMapVolumeSource_LocalObjectReference x); encode
    (ConfigMapVolumeSource_Items x)];
  decode p :=
    match (decode p : option (list positive)) with
    | Some [p1; p2] =>
        x1 ← decode p1; x2 ← decode p2;
        Some (MkConfigMapVolumeSource x1 x2)
    | _ => None
    end
  |}.
  record_countable_tac.
Defined.

Record PersistentVolumeClaimVolumeSource := MkPersistentVolumeClaimVolumeSource {
  PersistentVolumeClaimVolumeSource_ClaimName : string;
  PersistentVolumeClaimVolumeSource_ReadOnly : bool
}.
#[global] Instance PersistentVolumeClaimVolumeSource_eta : Eta
  PersistentVolumeClaimVolumeSource := λ r, MkPersistentVolumeClaimVolumeSource
  (PersistentVolumeClaimVolumeSource_ClaimName r) (PersistentVolumeClaimVolumeSource_ReadOnly
  r).
#[global] Instance PersistentVolumeClaimVolumeSource_zero : Zero
  PersistentVolumeClaimVolumeSource := MkPersistentVolumeClaimVolumeSource zero zero.
#[global] Instance PersistentVolumeClaimVolumeSource_eq_dec : EqDecision PersistentVolumeClaimVolumeSource.
Proof. solve_decision. Defined.
#[global] Instance PersistentVolumeClaimVolumeSource_countable : Countable PersistentVolumeClaimVolumeSource.
Proof.
  refine {|
  encode x := encode [encode (PersistentVolumeClaimVolumeSource_ClaimName x); encode
    (PersistentVolumeClaimVolumeSource_ReadOnly x)];
  decode p :=
    match (decode p : option (list positive)) with
    | Some [p1; p2] =>
        x1 ← decode p1; x2 ← decode p2;
        Some (MkPersistentVolumeClaimVolumeSource x1 x2)
    | _ => None
    end
  |}.
  record_countable_tac.
Defined.

Record EmptyDirVolumeSource := MkEmptyDirVolumeSource {
  EmptyDirVolumeSource_Medium : string
}.
#[global] Instance EmptyDirVolumeSource_eta : Eta EmptyDirVolumeSource := λ r,
  MkEmptyDirVolumeSource (EmptyDirVolumeSource_Medium r).
#[global] Instance EmptyDirVolumeSource_zero : Zero EmptyDirVolumeSource :=
  MkEmptyDirVolumeSource zero.
#[global] Instance EmptyDirVolumeSource_eq_dec : EqDecision EmptyDirVolumeSource.
Proof. solve_decision. Defined.
#[global] Instance EmptyDirVolumeSource_countable : Countable EmptyDirVolumeSource.
Proof.
  refine {|
  encode x := encode [encode (EmptyDirVolumeSource_Medium x)];
  decode p :=
    match (decode p : option (list positive)) with
    | Some [p1] =>
        x1 ← decode p1;
        Some (MkEmptyDirVolumeSource x1)
    | _ => None
    end
  |}.
  record_countable_tac.
Defined.

Record VolumeSource := MkVolumeSource {
  VolumeSource_HostPath : option HostPathVolumeSource;
  VolumeSource_EmptyDir : option EmptyDirVolumeSource;
  VolumeSource_Secret : option SecretVolumeSource;
  VolumeSource_PersistentVolumeClaim : option PersistentVolumeClaimVolumeSource;
  VolumeSource_ConfigMap : option ConfigMapVolumeSource
}.
#[global] Instance VolumeSource_eta : Eta VolumeSource := λ r, MkVolumeSource
  (VolumeSource_HostPath r) (VolumeSource_EmptyDir r) (VolumeSource_Secret r)
  (VolumeSource_PersistentVolumeClaim r) (VolumeSource_ConfigMap r).
#[global] Instance VolumeSource_zero : Zero VolumeSource := MkVolumeSource zero zero zero zero
  zero.
#[global] Instance VolumeSource_eq_dec : EqDecision VolumeSource.
Proof. solve_decision. Defined.
#[global] Instance VolumeSource_countable : Countable VolumeSource.
Proof.
  refine {|
  encode x := encode [encode (VolumeSource_HostPath x); encode (VolumeSource_EmptyDir x);
    encode (VolumeSource_Secret x); encode (VolumeSource_PersistentVolumeClaim x); encode
    (VolumeSource_ConfigMap x)];
  decode p :=
    match (decode p : option (list positive)) with
    | Some [p1; p2; p3; p4; p5] =>
        x1 ← decode p1; x2 ← decode p2; x3 ← decode p3; x4 ← decode p4; x5 ← decode p5;
        Some (MkVolumeSource x1 x2 x3 x4 x5)
    | _ => None
    end
  |}.
  record_countable_tac.
Defined.

Record Volume := MkVolume {
  Volume_Name : string;
  Volume_VolumeSource : VolumeSource
}.
#[global] Instance Volume_eta : Eta Volume := λ r, MkVolume (Volume_Name r)
  (Volume_VolumeSource r).
#[global] Instance Volume_zero : Zero Volume := MkVolume zero zero.
#[global] Instance Volume_eq_dec : EqDecision Volume.
Proof. solve_decision. Defined.
#[global] Instance Volume_countable : Countable Volume.
Proof.
  refine {|
  encode x := encode [encode (Volume_Name x); encode (Volume_VolumeSource x)];
  decode p :=
    match (decode p : option (list positive)) with
    | Some [p1; p2] =>
        x1 ← decode p1; x2 ← decode p2;
        Some (MkVolume x1 x2)
    | _ => None
    end
  |}.
  record_countable_tac.
Defined.

Record VolumeMount := MkVolumeMount {
  VolumeMount_Name : string;
  VolumeMount_ReadOnly : bool;
  VolumeMount_MountPath : string;
  VolumeMount_MountPropagation : option string
}.
#[global] Instance VolumeMount_eta : Eta VolumeMount := λ r, MkVolumeMount (VolumeMount_Name r)
  (VolumeMount_ReadOnly r) (VolumeMount_MountPath r) (VolumeMount_MountPropagation r).
#[global] Instance VolumeMount_zero : Zero VolumeMount := MkVolumeMount zero zero zero zero.
#[global] Instance VolumeMount_eq_dec : EqDecision VolumeMount.
Proof. solve_decision. Defined.
#[global] Instance VolumeMount_countable : Countable VolumeMount.
Proof.
  refine {|
  encode x := encode [encode (VolumeMount_Name x); encode (VolumeMount_ReadOnly x); encode
    (VolumeMount_MountPath x); encode (VolumeMount_MountPropagation x)];
  decode p :=
    match (decode p : option (list positive)) with
    | Some [p1; p2; p3; p4] =>
        x1 ← decode p1; x2 ← decode p2; x3 ← decode p3; x4 ← decode p4;
        Some (MkVolumeMount x1 x2 x3 x4)
    | _ => None
    end
  |}.
  record_countable_tac.
Defined.

Record ResourceRequirements := MkResourceRequirements {
  ResourceRequirements_Limits : gmap string Quantity;
  ResourceRequirements_Requests : gmap string Quantity
}.
#[global] Instance ResourceRequirements_eta : Eta ResourceRequirements := λ r,
  MkResourceRequirements (ResourceRequirements_Limits r) (ResourceRequirements_Requests r).
#[global] Instance ResourceRequirements_zero : Zero ResourceRequirements :=
  MkResourceRequirements zero zero.
#[global] Instance ResourceRequirements_eq_dec : EqDecision ResourceRequirements.
Proof. solve_decision. Defined.
#[global] Instance ResourceRequirements_countable : Countable ResourceRequirements.
Proof.
  refine {|
  encode x := encode [encode (ResourceRequirements_Limits x); encode
    (ResourceRequirements_Requests x)];
  decode p :=
    match (decode p : option (list positive)) with
    | Some [p1; p2] =>
        x1 ← decode p1; x2 ← decode p2;
        Some (MkResourceRequirements x1 x2)
    | _ => None
    end
  |}.
  record_countable_tac.
Defined.

Record ContainerPort := MkContainerPort {
  ContainerPort_Name : string;
  ContainerPort_ContainerPort : Z;
  ContainerPort_Protocol : string;
  ContainerPort_HostPort : Z
}.
#[global] Instance ContainerPort_eta : Eta ContainerPort := λ r, MkContainerPort
  (ContainerPort_Name r) (ContainerPort_ContainerPort r) (ContainerPort_Protocol r)
  (ContainerPort_HostPort r).
#[global] Instance ContainerPort_zero : Zero ContainerPort := MkContainerPort zero zero zero
  zero.
#[global] Instance ContainerPort_eq_dec : EqDecision ContainerPort.
Proof. solve_decision. Defined.
#[global] Instance ContainerPort_countable : Countable ContainerPort.
Proof.
  refine {|
  encode x := encode [encode (ContainerPort_Name x); encode (ContainerPort_ContainerPort x);
    encode (ContainerPort_Protocol x); encode (ContainerPort_HostPort x)];
  decode p :=
    match (decode p : option (list positive)) with
    | Some [p1; p2; p3; p4] =>
        x1 ← decode p1; x2 ← decode p2; x3 ← decode p3; x4 ← decode p4;
        Some (MkContainerPort x1 x2 x3 x4)
    | _ => None
    end
  |}.
  record_countable_tac.
Defined.

Record ObjectFieldSelector := MkObjectFieldSelector {
  ObjectFieldSelector_FieldPath : string
}.
#[global] Instance ObjectFieldSelector_eta : Eta ObjectFieldSelector := λ r,
  MkObjectFieldSelector (ObjectFieldSelector_FieldPath r).
#[global] Instance ObjectFieldSelector_zero : Zero ObjectFieldSelector := MkObjectFieldSelector
  zero.
#[global] Instance ObjectFieldSelector_eq_dec : EqDecision ObjectFieldSelector.
Proof. solve_decision. Defined.
#[global] Instance ObjectFieldSelector_countable : Countable ObjectFieldSelector.
Proof.
  refine {|
  encode x := encode [encode (ObjectFieldSelector_FieldPath x)];
  decode p :=
    match (decode p : option (list positive)) with
    | Some [p1] =>
        x1 ← decode p1;
        Some (MkObjectFieldSelector x1)
    | _ => None
    end
  |}.
  record_countable_tac.
Defined.

Record EnvVarSource := MkEnvVarSource {
  EnvVarSource_FieldRef : option ObjectFieldSelector
}.
#[global] Instance EnvVarSource_eta : Eta EnvVarSource := λ r, MkEnvVarSource
  (EnvVarSource_FieldRef r).
#[global] Instance EnvVarSource_zero : Zero EnvVarSource := MkEnvVarSource zero.
#[global] Instance EnvVarSource_eq_dec : EqDecision EnvVarSource.
Proof. solve_decision. Defined.
#[global] Instance EnvVarSource_countable : Countable EnvVarSource.
Proof.
  refine {|
  encode x := encode [encode (EnvVarSource_FieldRef x)];
  decode p :=
    match (decode p : option (list positive)) with
    | Some [p1] =>
        x1 ← decode p1;
        Some (MkEnvVarSource x1)
    | _ => None
    end
  |}.
  record_countable_tac.
Defined.

Record EnvVar := MkEnvVar {
  EnvVar_Name : string;
  EnvVar_Value : string;
  EnvVar_ValueFrom : option EnvVarSource
}.
#[global] Instance EnvVar_eta : Eta EnvVar := λ r, MkEnvVar (EnvVar_Name r) (EnvVar_Value r)
  (EnvVar_ValueFrom r).
#[global] Instance EnvVar_zero : Zero EnvVar := MkEnvVar zero zero zero.
#[global] Instance EnvVar_eq_dec : EqDecision EnvVar.
Proof. solve_decision. Defined.
#[global] Instance EnvVar_countable : Countable EnvVar.
Proof.
  refine {|
  encode x := encode [encode (EnvVar_Name x); encode (EnvVar_Value x); encode
    (EnvVar_ValueFrom x)];
  decode p :=
    match (decode p : option (list positive)) with
    | Some [p1; p2; p3] =>
        x1 ← decode p1; x2 ← decode p2; x3 ← decode p3;
        Some (MkEnvVar x1 x2 x3)
    | _ => None
    end
  |}.
  record_countable_tac.
Defined.

Record ExecAction := MkExecAction {
  ExecAction_Command : list string
}.
#[global] Instance ExecAction_eta : Eta ExecAction := λ r, MkExecAction (ExecAction_Command r).
#[global] Instance ExecAction_zero : Zero ExecAction := MkExecAction zero.
#[global] Instance ExecAction_eq_dec : EqDecision ExecAction.
Proof. solve_decision. Defined.
#[global] Instance ExecAction_countable : Countable ExecAction.
Proof.
  refine {|
  encode x := encode [encode (ExecAction_Command x)];
  decode p :=
    match (decode p : option (list positive)) with
    | Some [p1] =>
        x1 ← decode p1;
        Some (MkExecAction x1)
    | _ => None
    end
  |}.
  record_countable_tac.
Defined.

Record HTTPGetAction := MkHTTPGetAction {
  HTTPGetAction_Path : string;
  HTTPGetAction_Port : IntOrString;
  HTTPGetAction_Host : string;
  HTTPGetAction_Scheme : string
}.
#[global] Instance HTTPGetAction_eta : Eta HTTPGetAction := λ r, MkHTTPGetAction
  (HTTPGetAction_Path r) (HTTPGetAction_Port r) (HTTPGetAction_Host r) (HTTPGetAction_Scheme
  r).
#[global] Instance HTTPGetAction_zero : Zero HTTPGetAction := MkHTTPGetAction zero zero zero
  zero.
#[global] Instance HTTPGetAction_eq_dec : EqDecision HTTPGetAction.
Proof. solve_decision. Defined.
#[global] Instance HTTPGetAction_countable : Countable HTTPGetAction.
Proof.
  refine {|
  encode x := encode [encode (HTTPGetAction_Path x); encode (HTTPGetAction_Port x); encode
    (HTTPGetAction_Host x); encode (HTTPGetAction_Scheme x)];
  decode p :=
    match (decode p : option (list positive)) with
    | Some [p1; p2; p3; p4] =>
        x1 ← decode p1; x2 ← decode p2; x3 ← decode p3; x4 ← decode p4;
        Some (MkHTTPGetAction x1 x2 x3 x4)
    | _ => None
    end
  |}.
  record_countable_tac.
Defined.

Record Probe := MkProbe {
  Probe_Exec : option ExecAction;
  Probe_HTTPGet : option HTTPGetAction;
  Probe_InitialDelaySeconds : Z;
  Probe_TimeoutSeconds : Z;
  Probe_PeriodSeconds : Z;
  Probe_SuccessThreshold : Z;
  Probe_FailureThreshold : Z
}.
#[global] Instance Probe_eta : Eta Probe := λ r, MkProbe (Probe_Exec r) (Probe_HTTPGet r)
  (Probe_InitialDelaySeconds r) (Probe_TimeoutSeconds r) (Probe_PeriodSeconds r)
  (Probe_SuccessThreshold r) (Probe_FailureThreshold r).
#[global] Instance Probe_zero : Zero Probe := MkProbe zero zero zero zero zero zero zero.
#[global] Instance Probe_eq_dec : EqDecision Probe.
Proof. solve_decision. Defined.
#[global] Instance Probe_countable : Countable Probe.
Proof.
  refine {|
  encode x := encode [encode (Probe_Exec x); encode (Probe_HTTPGet x); encode
    (Probe_InitialDelaySeconds x); encode (Probe_TimeoutSeconds x); encode
    (Probe_PeriodSeconds x); encode (Probe_SuccessThreshold x); encode
    (Probe_FailureThreshold x)];
  decode p :=
    match (decode p : option (list positive)) with
    | Some [p1; p2; p3; p4; p5; p6; p7] =>
        x1 ← decode p1; x2 ← decode p2; x3 ← decode p3; x4 ← decode p4; x5 ← decode p5; x6 ←
        decode p6; x7 ← decode p7;
        Some (MkProbe x1 x2 x3 x4 x5 x6 x7)
    | _ => None
    end
  |}.
  record_countable_tac.
Defined.

Record Capabilities := MkCapabilities {
  Capabilities_Add : list string
}.
#[global] Instance Capabilities_eta : Eta Capabilities := λ r, MkCapabilities (Capabilities_Add
  r).
#[global] Instance Capabilities_zero : Zero Capabilities := MkCapabilities zero.
#[global] Instance Capabilities_eq_dec : EqDecision Capabilities.
Proof. solve_decision. Defined.
#[global] Instance Capabilities_countable : Countable Capabilities.
Proof.
  refine {|
  encode x := encode [encode (Capabilities_Add x)];
  decode p :=
    match (decode p : option (list positive)) with
    | Some [p1] =>
        x1 ← decode p1;
        Some (MkCapabilities x1)
    | _ => None
    end
  |}.
  record_countable_tac.
Defined.

Record SecurityContext := MkSecurityContext {
  SecurityContext_Capabilities : option Capabilities;
  SecurityContext_Privileged : option bool
}.
#[global] Instance SecurityContext_eta : Eta SecurityContext := λ r, MkSecurityContext
  (SecurityContext_Capabilities r) (SecurityContext_Privileged r).
#[global] Instance SecurityContext_zero : Zero SecurityContext := MkSecurityContext zero zero.
#[global] Instance SecurityContext_eq_dec : EqDecision SecurityContext.
Proof. solve_decision. Defined.
#[global] Instance SecurityContext_countable : Countable SecurityContext.
Proof.
  refine {|
  encode x := encode [encode (SecurityContext_Capabilities x); encode
    (SecurityContext_Privileged x)];
  decode p :=
    match (decode p : option (list positive)) with
    | Some [p1; p2] =>
        x1 ← decode p1; x2 ← decode p2;
        Some (MkSecurityContext x1 x2)
    | _ => None
    end
  |}.
  record_countable_tac.
Defined.

Record Container := MkContainer {
  Container_Name : string;
  Container_Image : string;
  Container_Command : list string;
  Container_Args : list string;
  Container_Ports : list ContainerPort;
  Container_Env : list EnvVar;
  Container_Resources : ResourceRequirements;
  Container_VolumeMounts : list VolumeMount;
  Container_LivenessProbe : option Probe;
  Container_ReadinessProbe : option Probe;
  Container_ImagePullPolicy : string;
  Container_SecurityContext : option SecurityContext;
  Container_StartupProbe : option Probe;
  Container_WorkingDir : string
}.
#[global] Instance Container_eta : Eta Container := λ r, MkContainer (Container_Name r)
  (Container_Image r) (Container_Command r) (Container_Args r) (Container_Ports r)
  (Container_Env r) (Container_Resources r) (Container_VolumeMounts r) (Container_LivenessProbe
  r) (Container_ReadinessProbe r) (Container_ImagePullPolicy r) (Container_SecurityContext r)
  (Container_StartupProbe r) (Container_WorkingDir r).
#[global] Instance Container_zero : Zero Container := MkContainer zero zero zero zero zero zero
  zero zero zero zero zero zero zero zero.
#[global] Instance Container_eq_dec : EqDecision Container.
Proof. solve_decision. Defined.
#[global] Instance Container_countable : Countable Container.
Proof.
  refine {|
  encode x := encode [encode (Container_Name x); encode (Container_Image x); encode
    (Container_Command x); encode (Container_Args x); encode (Container_Ports x); encode
    (Container_Env x); encode (Container_Resources x); encode (Container_VolumeMounts x);
    encode (Container_LivenessProbe x); encode (Container_ReadinessProbe x); encode
    (Container_ImagePullPolicy x); encode (Container_SecurityContext x); encode
    (Container_StartupProbe x); encode (Container_WorkingDir x)];
  decode p :=
    match (decode p : option (list positive)) with
    | Some [p1; p2; p3; p4; p5; p6; p7; p8; p9; p10; p11; p12; p13; p14] =>
        x1 ← decode p1; x2 ← decode p2; x3 ← decode p3; x4 ← decode p4; x5 ← decode p5; x6 ←
        decode p6; x7 ← decode p7; x8 ← decode p8; x9 ← decode p9; x10 ← decode p10; x11 ←
        decode p11; x12 ← decode p12; x13 ← decode p13; x14 ← decode p14;
        Some (MkContainer x1 x2 x3 x4 x5 x6 x7 x8 x9 x10 x11 x12 x13 x14)
    | _ => None
    end
  |}.
  record_countable_tac.
Defined.

Record PodSpec := MkPodSpec {
  PodSpec_Volumes : list Volume;
  PodSpec_InitContainers : list Container;
  PodSpec_Containers : list Container;
  PodSpec_RestartPolicy : string;
  PodSpec_DNSPolicy : string;
  PodSpec_NodeSelector : gmap string string;
  PodSpec_HostNetwork : bool;
  PodSpec_HostPID : bool;
  PodSpec_HostIPC : bool;
  PodSpec_ShareProcessNamespace : option bool;
  PodSpec_SecurityContext : option PodSecurityContext;
  PodSpec_ImagePullSecrets : list LocalObjectReference;
  PodSpec_Hostname : string;
  PodSpec_Subdomain : string;
  PodSpec_Affinity : option Affinity;
  PodSpec_Tolerations : list Toleration;
  PodSpec_PriorityClassName : string;
  PodSpec_DNSConfig : option PodDNSConfig;
  PodSpec_AutomountServiceAccountToken : option bool;
  PodSpec_ServiceAccountName : string;
  PodSpec_TerminationGracePeriodSeconds : option Z
}.
#[global] Instance PodSpec_eta : Eta PodSpec := λ r, MkPodSpec (PodSpec_Volumes r)
  (PodSpec_InitContainers r) (PodSpec_Containers r) (PodSpec_RestartPolicy r)
  (PodSpec_DNSPolicy r) (PodSpec_NodeSelector r) (PodSpec_HostNetwork r) (PodSpec_HostPID r)
  (PodSpec_HostIPC r) (PodSpec_ShareProcessNamespace r) (PodSpec_SecurityContext r)
  (PodSpec_ImagePullSecrets r) (PodSpec_Hostname r) (PodSpec_Subdomain r) (PodSpec_Affinity r)
  (PodSpec_Tolerations r) (PodSpec_PriorityClassName r) (PodSpec_DNSConfig r)
  (PodSpec_AutomountServiceAccountToken r) (PodSpec_ServiceAccountName r)
  (PodSpec_TerminationGracePeriodSeconds r).
#[global] Instance PodSpec_zero : Zero PodSpec := MkPodSpec zero zero zero zero zero zero zero
  zero zero zero zero zero zero zero zero zero zero zero zero zero zero.
#[global] Instance PodSpec_eq_dec : EqDecision PodSpec.
Proof. solve_decision. Defined.
#[global] Instance PodSpec_countable : Countable PodSpec.
Proof.
  refine {|
  encode x := encode [encode (PodSpec_Volumes x); encode (PodSpec_InitContainers x); encode
    (PodSpec_Containers x); encode (PodSpec_RestartPolicy x); encode (PodSpec_DNSPolicy x);
    encode (PodSpec_NodeSelector x); encode (PodSpec_HostNetwork x); encode (PodSpec_HostPID
    x); encode (PodSpec_HostIPC x); encode (PodSpec_ShareProcessNamespace x); encode
    (PodSpec_SecurityContext x); encode (PodSpec_ImagePullSecrets x); encode
    (PodSpec_Hostname x); encode (PodSpec_Subdomain x); encode (PodSpec_Affinity x); encode
    (PodSpec_Tolerations x); encode (PodSpec_PriorityClassName x); encode (PodSpec_DNSConfig
    x); encode (PodSpec_AutomountServiceAccountToken x); encode (PodSpec_ServiceAccountName
    x); encode (PodSpec_TerminationGracePeriodSeconds x)];
  decode p :=
    match (decode p : option (list positive)) with
    | Some [p1; p2; p3; p4; p5; p6; p7; p8; p9; p10; p11; p12; p13; p14; p15; p16; p17; p18; p19; p20; p21] =>
        x1 ← decode p1; x2 ← decode p2; x3 ← decode p3; x4 ← decode p4; x5 ← decode p5; x6 ←
        decode p6; x7 ← decode p7; x8 ← decode p8; x9 ← decode p9; x10 ← decode p10; x11 ←
        decode p11; x12 ← decode p12; x13 ← decode p13; x14 ← decode p14; x15 ← decode p15;
        x16 ← decode p16; x17 ← decode p17; x18 ← decode p18; x19 ← decode p19; x20 ← decode
        p20; x21 ← decode p21;
        Some (MkPodSpec x1 x2 x3 x4 x5 x6 x7 x8 x9 x10 x11 x12 x13 x14 x15 x16 x17 x18 x19 x20 x21)
    | _ => None
    end
  |}.
  record_countable_tac.
Defined.

Record PodTemplateSpec := MkPodTemplateSpec {
  PodTemplateSpec_ObjectMeta : ObjectMeta;
  PodTemplateSpec_Spec : PodSpec
}.
#[global] Instance PodTemplateSpec_eta : Eta PodTemplateSpec := λ r, MkPodTemplateSpec
  (PodTemplateSpec_ObjectMeta r) (PodTemplateSpec_Spec r).
#[global] Instance PodTemplateSpec_zero : Zero PodTemplateSpec := MkPodTemplateSpec zero zero.
#[global] Instance PodTemplateSpec_eq_dec : EqDecision PodTemplateSpec.
Proof. solve_decision. Defined.
#[global] Instance PodTemplateSpec_countable : Countable PodTemplateSpec.
Proof.
  refine {|
  encode x := encode [encode (PodTemplateSpec_ObjectMeta x); encode (PodTemplateSpec_Spec
    x)];
  decode p :=
    match (decode p : option (list positive)) with
    | Some [p1; p2] =>
        x1 ← decode p1; x2 ← decode p2;
        Some (MkPodTemplateSpec x1 x2)
    | _ => None
    end
  |}.
  record_countable_tac.
Defined.

Record PodCondition := MkPodCondition {
  PodCondition_Type : string;
  PodCondition_Status : string
}.
#[global] Instance PodCondition_eta : Eta PodCondition := λ r, MkPodCondition
  (PodCondition_Type r) (PodCondition_Status r).
#[global] Instance PodCondition_zero : Zero PodCondition := MkPodCondition zero zero.
#[global] Instance PodCondition_eq_dec : EqDecision PodCondition.
Proof. solve_decision. Defined.
#[global] Instance PodCondition_countable : Countable PodCondition.
Proof.
  refine {|
  encode x := encode [encode (PodCondition_Type x); encode (PodCondition_Status x)];
  decode p :=
    match (decode p : option (list positive)) with
    | Some [p1; p2] =>
        x1 ← decode p1; x2 ← decode p2;
        Some (MkPodCondition x1 x2)
    | _ => None
    end
  |}.
  record_countable_tac.
Defined.

Record PodStatus := MkPodStatus {
  PodStatus_Phase : string;
  PodStatus_Conditions : list PodCondition
}.
#[global] Instance PodStatus_eta : Eta PodStatus := λ r, MkPodStatus (PodStatus_Phase r)
  (PodStatus_Conditions r).
#[global] Instance PodStatus_zero : Zero PodStatus := MkPodStatus zero zero.
#[global] Instance PodStatus_eq_dec : EqDecision PodStatus.
Proof. solve_decision. Defined.
#[global] Instance PodStatus_countable : Countable PodStatus.
Proof.
  refine {|
  encode x := encode [encode (PodStatus_Phase x); encode (PodStatus_Conditions x)];
  decode p :=
    match (decode p : option (list positive)) with
    | Some [p1; p2] =>
        x1 ← decode p1; x2 ← decode p2;
        Some (MkPodStatus x1 x2)
    | _ => None
    end
  |}.
  record_countable_tac.
Defined.

Record Pod := MkPod {
  Pod_ObjectMeta : ObjectMeta;
  Pod_Spec : PodSpec;
  Pod_Status : PodStatus
}.
#[global] Instance Pod_eta : Eta Pod := λ r, MkPod (Pod_ObjectMeta r) (Pod_Spec r) (Pod_Status
  r).
#[global] Instance Pod_zero : Zero Pod := MkPod zero zero zero.
#[global] Instance Pod_eq_dec : EqDecision Pod.
Proof. solve_decision. Defined.
#[global] Instance Pod_countable : Countable Pod.
Proof.
  refine {|
  encode x := encode [encode (Pod_ObjectMeta x); encode (Pod_Spec x); encode (Pod_Status
    x)];
  decode p :=
    match (decode p : option (list positive)) with
    | Some [p1; p2; p3] =>
        x1 ← decode p1; x2 ← decode p2; x3 ← decode p3;
        Some (MkPod x1 x2 x3)
    | _ => None
    end
  |}.
  record_countable_tac.
Defined.

Record DeploymentStrategy := MkDeploymentStrategy {
  DeploymentStrategy_Type : string
}.
#[global] Instance DeploymentStrategy_eta : Eta DeploymentStrategy := λ r, MkDeploymentStrategy
  (DeploymentStrategy_Type r).
#[global] Instance DeploymentStrategy_zero : Zero DeploymentStrategy := MkDeploymentStrategy
  zero.
#[global] Instance DeploymentStrategy_eq_dec : EqDecision DeploymentStrategy.
Proof. solve_decision. Defined.
#[global] Instance DeploymentStrategy_countable : Countable DeploymentStrategy.
Proof.
  refine {|
  encode x := encode [encode (DeploymentStrategy_Type x)];
  decode p :=
    match (decode p : option (list positive)) with
    | Some [p1] =>
        x1 ← decode p1;
        Some (MkDeploymentStrategy x1)
    | _ => None
    end
  |}.
  record_countable_tac.
Defined.

(** [apps.DeploymentSpec] *)
Record apps_DeploymentSpec := Mkapps_DeploymentSpec {
  apps_DeploymentSpec_Replicas : option Z;
  apps_DeploymentSpec_Selector : option LabelSelector;
  apps_DeploymentSpec_Template : PodTemplateSpec;
  apps_DeploymentSpec_Strategy : DeploymentStrategy
}.
#[global] Instance apps_DeploymentSpec_eta : Eta apps_DeploymentSpec := λ r,
  Mkapps_DeploymentSpec (apps_DeploymentSpec_Replicas r) (apps_DeploymentSpec_Selector r)
  (apps_DeploymentSpec_Template r) (apps_DeploymentSpec_Strategy r).
#[global] Instance apps_DeploymentSpec_zero : Zero apps_DeploymentSpec := Mkapps_DeploymentSpec
  zero zero zero zero.
#[global] Instance apps_DeploymentSpec_eq_dec : EqDecision apps_DeploymentSpec.
Proof. solve_decision. Defined.
#[global] Instance apps_DeploymentSpec_countable : Countable apps_DeploymentSpec.
Proof.
  refine {|
  encode x := encode [encode (apps_DeploymentSpec_Replicas x); encode
    (apps_DeploymentSpec_Selector x); encode (apps_DeploymentSpec_Template x); encode
    (apps_DeploymentSpec_Strategy x)];
  decode p :=
    match (decode p : option (list positive)) with
    | Some [p1; p2; p3; p4] =>
        x1 ← decode p1; x2 ← decode p2; x3 ← decode p3; x4 ← decode p4;
        Some (Mkapps_DeploymentSpec x1 x2 x3 x4)
    | _ => None
    end
  |}.
  record_countable_tac.
Defined.

Record DeploymentCondition := MkDeploymentCondition {
  DeploymentCondition_Type : string;
  DeploymentCondition_Status : string;
  DeploymentCondition_Reason : string
}.
#[global] Instance DeploymentCondition_eta : Eta DeploymentCondition := λ r,
  MkDeploymentCondition (DeploymentCondition_Type r) (DeploymentCondition_Status r)
  (DeploymentCondition_Reason r).
#[global] Instance DeploymentCondition_zero : Zero DeploymentCondition := MkDeploymentCondition
  zero zero zero.
#[global] Instance DeploymentCondition_eq_dec : EqDecision DeploymentCondition.
Proof. solve_decision. Defined.
#[global] Instance DeploymentCondition_countable : Countable DeploymentCondition.
Proof.
  refine {|
  encode x := encode [encode (DeploymentCondition_Type x); encode
    (DeploymentCondition_Status x); encode (DeploymentCondition_Reason x)];
  decode p :=
    match (decode p : option (list positive)) with
    | Some [p1; p2; p3] =>
        x1 ← decode p1; x2 ← decode p2; x3 ← decode p3;
        Some (MkDeploymentCondition x1 x2 x3)
    | _ => None
    end
  |}.
  record_countable_tac.
Defined.

(** [apps.DeploymentStatus] *)
Record apps_DeploymentStatus := Mkapps_DeploymentStatus {
  apps_DeploymentStatus_ObservedGeneration : Z;
  apps_DeploymentStatus_Replicas : Z;
  apps_DeploymentStatus_UpdatedReplicas : Z;
  apps_DeploymentStatus_ReadyReplicas : Z;
  apps_DeploymentStatus_AvailableReplicas : Z;
  apps_DeploymentStatus_Conditions : list DeploymentCondition
}.
#[global] Instance apps_DeploymentStatus_eta : Eta apps_DeploymentStatus := λ r,
  Mkapps_DeploymentStatus (apps_DeploymentStatus_ObservedGeneration r)
  (apps_DeploymentStatus_Replicas r) (apps_DeploymentStatus_UpdatedReplicas r)
  (apps_DeploymentStatus_ReadyReplicas r) (apps_DeploymentStatus_AvailableReplicas r)
  (apps_DeploymentStatus_Conditions r).
#[global] Instance apps_DeploymentStatus_zero : Zero apps_DeploymentStatus :=
  Mkapps_DeploymentStatus zero zero zero zero zero zero.
#[global] Instance apps_DeploymentStatus_eq_dec : EqDecision apps_DeploymentStatus.
Proof. solve_decision. Defined.
#[global] Instance apps_DeploymentStatus_countable : Countable apps_DeploymentStatus.
Proof.
  refine {|
  encode x := encode [encode (apps_DeploymentStatus_ObservedGeneration x); encode
    (apps_DeploymentStatus_Replicas x); encode (apps_DeploymentStatus_UpdatedReplicas x);
    encode (apps_DeploymentStatus_ReadyReplicas x); encode
    (apps_DeploymentStatus_AvailableReplicas x); encode (apps_DeploymentStatus_Conditions
    x)];
  decode p :=
    match (decode p : option (list positive)) with
    | Some [p1; p2; p3; p4; p5; p6] =>
        x1 ← decode p1; x2 ← decode p2; x3 ← decode p3; x4 ← decode p4; x5 ← decode p5; x6 ←
        decode p6;
        Some (Mkapps_DeploymentStatus x1 x2 x3 x4 x5 x6)
    | _ => None
    end
  |}.
  record_countable_tac.
Defined.

Record Deployment := MkDeployment {
  Deployment_ObjectMeta : ObjectMeta;
  Deployment_Spec : apps_DeploymentSpec;
  Deployment_Status : apps_DeploymentStatus
}.
#[global] Instance Deployment_eta : Eta Deployment := λ r, MkDeployment (Deployment_ObjectMeta
  r) (Deployment_Spec r) (Deployment_Status r).
#[global] Instance Deployment_zero : Zero Deployment := MkDeployment zero zero zero.
#[global] Instance Deployment_eq_dec : EqDecision Deployment.
Proof. solve_decision. Defined.
#[global] Instance Deployment_countable : Countable Deployment.
Proof.
  refine {|
  encode x := encode [encode (Deployment_ObjectMeta x); encode (Deployment_Spec x); encode
    (Deployment_Status x)];
  decode p :=
    match (decode p : option (list positive)) with
    | Some [p1; p2; p3] =>
        x1 ← decode p1; x2 ← decode p2; x3 ← decode p3;
        Some (MkDeployment x1 x2 x3)
    | _ => None
    end
  |}.
  record_countable_tac.
Defined.

Record RollingUpdateDaemonSet := MkRollingUpdateDaemonSet {
  RollingUpdateDaemonSet_MaxUnavailable : option IntOrString
}.
#[global] Instance RollingUpdateDaemonSet_eta : Eta RollingUpdateDaemonSet := λ r,
  MkRollingUpdateDaemonSet (RollingUpdateDaemonSet_MaxUnavailable r).
#[global] Instance RollingUpdateDaemonSet_zero : Zero RollingUpdateDaemonSet :=
  MkRollingUpdateDaemonSet zero.
#[global] Instance RollingUpdateDaemonSet_eq_dec : EqDecision RollingUpdateDaemonSet.
Proof. solve_decision. Defined.
#[global] Instance RollingUpdateDaemonSet_countable : Countable RollingUpdateDaemonSet.
Proof.
  refine {|
  encode x := encode [encode (RollingUpdateDaemonSet_MaxUnavailable x)];
  decode p :=
    match (decode p : option (list positive)) with
    | Some [p1] =>
        x1 ← decode p1;
        Some (MkRollingUpdateDaemonSet x1)
    | _ => None
    end
  |}.
  record_countable_tac.
Defined.

Record DaemonSetUpdateStrategy := MkDaemonSetUpdateStrategy {
  DaemonSetUpdateStrategy_Type : string;
  DaemonSetUpdateStrategy_RollingUpdate : option RollingUpdateDaemonSet
}.
#[global] Instance DaemonSetUpdateStrategy_eta : Eta DaemonSetUpdateStrategy := λ r,
  MkDaemonSetUpdateStrategy (DaemonSetUpdateStrategy_Type r)
  (DaemonSetUpdateStrategy_RollingUpdate r).
#[global] Instance DaemonSetUpdateStrategy_zero : Zero DaemonSetUpdateStrategy :=
  MkDaemonSetUpdateStrategy zero zero.
#[global] Instance DaemonSetUpdateStrategy_eq_dec : EqDecision DaemonSetUpdateStrategy.
Proof. solve_decision. Defined.
#[global] Instance DaemonSetUpdateStrategy_countable : Countable DaemonSetUpdateStrategy.
Proof.
  refine {|
  encode x := encode [encode (DaemonSetUpdateStrategy_Type x); encode
    (DaemonSetUpdateStrategy_RollingUpdate x)];
  decode p :=
    match (decode p : option (list positive)) with
    | Some [p1; p2] =>
        x1 ← decode p1; x2 ← decode p2;
        Some (MkDaemonSetUpdateStrategy x1 x2)
    | _ => None
    end
  |}.
  record_countable_tac.
Defined.

(** [apps.DaemonSetSpec] *)
Record apps_DaemonSetSpec := Mkapps_DaemonSetSpec {
  apps_DaemonSetSpec_Selector : option LabelSelector;
  apps_DaemonSetSpec_Template : PodTemplateSpec;
  apps_DaemonSetSpec_UpdateStrategy : DaemonSetUpdateStrategy
}.
#[global] Instance apps_DaemonSetSpec_eta : Eta apps_DaemonSetSpec := λ r, Mkapps_DaemonSetSpec
  (apps_DaemonSetSpec_Selector r) (apps_DaemonSetSpec_Template r)
  (apps_DaemonSetSpec_UpdateStrategy r).
#[global] Instance apps_DaemonSetSpec_zero : Zero apps_DaemonSetSpec := Mkapps_DaemonSetSpec
  zero zero zero.
#[global] Instance apps_DaemonSetSpec_eq_dec : EqDecision apps_DaemonSetSpec.
Proof. solve_decision. Defined.
#[global] Instance apps_DaemonSetSpec_countable : Countable apps_DaemonSetSpec.
Proof.
  refine {|
  encode x := encode [encode (apps_DaemonSetSpec_Selector x); encode
    (apps_DaemonSetSpec_Template x); encode (apps_DaemonSetSpec_UpdateStrategy x)];
  decode p :=
    match (decode p : option (list positive)) with
    | Some [p1; p2; p3] =>
        x1 ← decode p1; x2 ← decode p2; x3 ← decode p3;
        Some (Mkapps_DaemonSetSpec x1 x2 x3)
    | _ => None
    end
  |}.
  record_countable_tac.
Defined.

(** [apps.DaemonSetStatus] *)
Record apps_DaemonSetStatus := Mkapps_DaemonSetStatus {
  apps_DaemonSetStatus_DesiredNumberScheduled : Z;
  apps_DaemonSetStatus_NumberReady : Z;
  apps_DaemonSetStatus_ObservedGeneration : Z;
  apps_DaemonSetStatus_UpdatedNumberScheduled : Z;
  apps_DaemonSetStatus_NumberAvailable : Z
}.
#[global] Instance apps_DaemonSetStatus_eta : Eta apps_DaemonSetStatus := λ r,
  Mkapps_DaemonSetStatus (apps_DaemonSetStatus_DesiredNumberScheduled r)
  (apps_DaemonSetStatus_NumberReady r) (apps_DaemonSetStatus_ObservedGeneration r)
  (apps_DaemonSetStatus_UpdatedNumberScheduled r) (apps_DaemonSetStatus_NumberAvailable r).
#[global] Instance apps_DaemonSetStatus_zero : Zero apps_DaemonSetStatus :=
  Mkapps_DaemonSetStatus zero zero zero zero zero.
#[global] Instance apps_DaemonSetStatus_eq_dec : EqDecision apps_DaemonSetStatus.
Proof. solve_decision. Defined.
#[global] Instance apps_DaemonSetStatus_countable : Countable apps_DaemonSetStatus.
Proof.
  refine {|
  encode x := encode [encode (apps_DaemonSetStatus_DesiredNumberScheduled x); encode
    (apps_DaemonSetStatus_NumberReady x); encode (apps_DaemonSetStatus_ObservedGeneration
    x); encode (apps_DaemonSetStatus_UpdatedNumberScheduled x); encode
    (apps_DaemonSetStatus_NumberAvailable x)];
  decode p :=
    match (decode p : option (list positive)) with
    | Some [p1; p2; p3; p4; p5] =>
        x1 ← decode p1; x2 ← decode p2; x3 ← decode p3; x4 ← decode p4; x5 ← decode p5;
        Some (Mkapps_DaemonSetStatus x1 x2 x3 x4 x5)
    | _ => None
    end
  |}.
  record_countable_tac.
Defined.

Record DaemonSet := MkDaemonSet {
  DaemonSet_ObjectMeta : ObjectMeta;
  DaemonSet_Spec : apps_DaemonSetSpec;
  DaemonSet_Status : apps_DaemonSetStatus
}.
#[global] Instance DaemonSet_eta : Eta DaemonSet := λ r, MkDaemonSet (DaemonSet_ObjectMeta r)
  (DaemonSet_Spec r) (DaemonSet_Status r).
#[global] Instance DaemonSet_zero : Zero DaemonSet := MkDaemonSet zero zero zero.
#[global] Instance DaemonSet_eq_dec : EqDecision DaemonSet.
Proof. solve_decision. Defined.
#[global] Instance DaemonSet_countable : Countable DaemonSet.
Proof.
  refine {|
  encode x := encode [encode (DaemonSet_ObjectMeta x); encode (DaemonSet_Spec x); encode
    (DaemonSet_Status x)];
  decode p :=
    match (decode p : option (list positive)) with
    | Some [p1; p2; p3] =>
        x1 ← decode p1; x2 ← decode p2; x3 ← decode p3;
        Some (MkDaemonSet x1 x2 x3)
    | _ => None
    end
  |}.
  record_countable_tac.
Defined.

Record JobSpec := MkJobSpec {
  JobSpec_BackoffLimit : option Z;
  JobSpec_Template : PodTemplateSpec
}.
#[global] Instance JobSpec_eta : Eta JobSpec := λ r, MkJobSpec (JobSpec_BackoffLimit r)
  (JobSpec_Template r).
#[global] Instance JobSpec_zero : Zero JobSpec := MkJobSpec zero zero.
#[global] Instance JobSpec_eq_dec : EqDecision JobSpec.
Proof. solve_decision. Defined.
#[global] Instance JobSpec_countable : Countable JobSpec.
Proof.
  refine {|
  encode x := encode [encode (JobSpec_BackoffLimit x); encode (JobSpec_Template x)];
  decode p :=
    match (decode p : option (list positive)) with
    | Some [p1; p2] =>
        x1 ← decode p1; x2 ← decode p2;
        Some (MkJobSpec x1 x2)
    | _ => None
    end
  |}.
  record_countable_tac.
Defined.

Record JobTemplateSpec := MkJobTemplateSpec {
  JobTemplateSpec_ObjectMeta : ObjectMeta;
  JobTemplateSpec_Spec : JobSpec
}.
#[global] Instance JobTemplateSpec_eta : Eta JobTemplateSpec := λ r, MkJobTemplateSpec
  (JobTemplateSpec_ObjectMeta r) (JobTemplateSpec_Spec r).
#[global] Instance JobTemplateSpec_zero : Zero JobTemplateSpec := MkJobTemplateSpec zero zero.
#[global] Instance JobTemplateSpec_eq_dec : EqDecision JobTemplateSpec.
Proof. solve_decision. Defined.
#[global] Instance JobTemplateSpec_countable : Countable JobTemplateSpec.
Proof.
  refine {|
  encode x := encode [encode (JobTemplateSpec_ObjectMeta x); encode (JobTemplateSpec_Spec
    x)];
  decode p :=
    match (decode p : option (list positive)) with
    | Some [p1; p2] =>
        x1 ← decode p1; x2 ← decode p2;
        Some (MkJobTemplateSpec x1 x2)
    | _ => None
    end
  |}.
  record_countable_tac.
Defined.

(** [batchv1.CronJobSpec] *)
Record batch_CronJobSpec := Mkbatch_CronJobSpec {
  batch_CronJobSpec_Schedule : string;
  batch_CronJobSpec_StartingDeadlineSeconds : option Z;
  batch_CronJobSpec_ConcurrencyPolicy : string;
  batch_CronJobSpec_Suspend : option bool;
  batch_CronJobSpec_JobTemplate : JobTemplateSpec;
  batch_CronJobSpec_SuccessfulJobsHistoryLimit : option Z;
  batch_CronJobSpec_FailedJobsHistoryLimit : option Z
}.
#[global] Instance batch_CronJobSpec_eta : Eta batch_CronJobSpec := λ r, Mkbatch_CronJobSpec
  (batch_CronJobSpec_Schedule r) (batch_CronJobSpec_StartingDeadlineSeconds r)
  (batch_CronJobSpec_ConcurrencyPolicy r) (batch_CronJobSpec_Suspend r)
  (batch_CronJobSpec_JobTemplate r) (batch_CronJobSpec_SuccessfulJobsHistoryLimit r)
  (batch_CronJobSpec_FailedJobsHistoryLimit r).
#[global] Instance batch_CronJobSpec_zero : Zero batch_CronJobSpec := Mkbatch_CronJobSpec zero
  zero zero zero zero zero zero.
#[global] Instance batch_CronJobSpec_eq_dec : EqDecision batch_CronJobSpec.
Proof. solve_decision. Defined.
#[global] Instance batch_CronJobSpec_countable : Countable batch_CronJobSpec.
Proof.
  refine {|
  encode x := encode [encode (batch_CronJobSpec_Schedule x); encode
    (batch_CronJobSpec_StartingDeadlineSeconds x); encode
    (batch_CronJobSpec_ConcurrencyPolicy x); encode (batch_CronJobSpec_Suspend x); encode
    (batch_CronJobSpec_JobTemplate x); encode (batch_CronJobSpec_SuccessfulJobsHistoryLimit
    x); encode (batch_CronJobSpec_FailedJobsHistoryLimit x)];
  decode p :=
    match (decode p : option (list positive)) with
    | Some [p1; p2; p3; p4; p5; p6; p7] =>
        x1 ← decode p1; x2 ← decode p2; x3 ← decode p3; x4 ← decode p4; x5 ← decode p5; x6 ←
        decode p6; x7 ← decode p7;
        Some (Mkbatch_CronJobSpec x1 x2 x3 x4 x5 x6 x7)
    | _ => None
    end
  |}.
  record_countable_tac.
Defined.

Record CronJob := MkCronJob {
  CronJob_ObjectMeta : ObjectMeta;
  CronJob_Spec : batch_CronJobSpec
}.
#[global] Instance CronJob_eta : Eta CronJob := λ r, MkCronJob (CronJob_ObjectMeta r)
  (CronJob_Spec r).
#[global] Instance CronJob_zero : Zero CronJob := MkCronJob zero zero.
#[global] Instance CronJob_eq_dec : EqDecision CronJob.
Proof. solve_decision. Defined.
#[global] Instance CronJob_countable : Countable CronJob.
Proof.
  refine {|
  encode x := encode [encode (CronJob_ObjectMeta x); encode (CronJob_Spec x)];
  decode p :=
    match (decode p : option (list positive)) with
    | Some [p1; p2] =>
        x1 ← decode p1; x2 ← decode p2;
        Some (MkCronJob x1 x2)
    | _ => None
    end
  |}.
  record_countable_tac.
Defined.

Record ServicePort := MkServicePort {
  ServicePort_Name : string;
  ServicePort_Protocol : string;
  ServicePort_Port : Z;
  ServicePort_TargetPort : IntOrString;
  ServicePort_NodePort : Z
}.
#[global] Instance ServicePort_eta : Eta ServicePort := λ r, MkServicePort (ServicePort_Name r)
  (ServicePort_Protocol r) (ServicePort_Port r) (ServicePort_TargetPort r)
  (ServicePort_NodePort r).
#[global] Instance ServicePort_zero : Zero ServicePort := MkServicePort zero zero zero zero
  zero.
#[global] Instance ServicePort_eq_dec : EqDecision ServicePort.
Proof. solve_decision. Defined.
#[global] Instance ServicePort_countable : Countable ServicePort.
Proof.
  refine {|
  encode x := encode [encode (ServicePort_Name x); encode (ServicePort_Protocol x); encode
    (ServicePort_Port x); encode (ServicePort_TargetPort x); encode (ServicePort_NodePort
    x)];
  decode p :=
    match (decode p : option (list positive)) with
    | Some [p1; p2; p3; p4; p5] =>
        x1 ← decode p1; x2 ← decode p2; x3 ← decode p3; x4 ← decode p4; x5 ← decode p5;
        Some (MkServicePort x1 x2 x3 x4 x5)
    | _ => None
    end
  |}.
  record_countable_tac.
Defined.

(** [corev1.ServiceSpec] *)
Record core_ServiceSpec := Mkcore_ServiceSpec {
  core_ServiceSpec_Ports : list ServicePort;
  core_ServiceSpec_Selector : gmap string string;
  core_ServiceSpec_ClusterIP : string;
  core_ServiceSpec_Type : string;
  core_ServiceSpec_PublishNotReadyAddresses : bool
}.
#[global] Instance core_ServiceSpec_eta : Eta core_ServiceSpec := λ r, Mkcore_ServiceSpec
  (core_ServiceSpec_Ports r) (core_ServiceSpec_Selector r) (core_ServiceSpec_ClusterIP r)
  (core_ServiceSpec_Type r) (core_ServiceSpec_PublishNotReadyAddresses r).
#[global] Instance core_ServiceSpec_zero : Zero core_ServiceSpec := Mkcore_ServiceSpec zero
  zero zero zero zero.
#[global] Instance core_ServiceSpec_eq_dec : EqDecision core_ServiceSpec.
Proof. solve_decision. Defined.
#[global] Instance core_ServiceSpec_countable : Countable core_ServiceSpec.
Proof.
  refine {|
  encode x := encode [encode (core_ServiceSpec_Ports x); encode (core_ServiceSpec_Selector
    x); encode (core_ServiceSpec_ClusterIP x); encode (core_ServiceSpec_Type x); encode
    (core_ServiceSpec_PublishNotReadyAddresses x)];
  decode p :=
    match (decode p : option (list positive)) with
    | Some [p1; p2; p3; p4; p5] =>
        x1 ← decode p1; x2 ← decode p2; x3 ← decode p3; x4 ← decode p4; x5 ← decode p5;
        Some (Mkcore_ServiceSpec x1 x2 x3 x4 x5)
    | _ => None
    end
  |}.
  record_countable_tac.
Defined.

(** [corev1.Service] *)
Record core_Service := Mkcore_Service {
  core_Service_ObjectMeta : ObjectMeta;
  core_Service_Spec : core_ServiceSpec
}.
#[global] Instance core_Service_eta : Eta core_Service := λ r, Mkcore_Service
  (core_Service_ObjectMeta r) (core_Service_Spec r).
#[global] Instance core_Service_zero : Zero core_Service := Mkcore_Service zero zero.
#[global] Instance core_Service_eq_dec : EqDecision core_Service.
Proof. solve_decision. Defined.
#[global] Instance core_Service_countable : Countable core_Service.
Proof.
  refine {|
  encode x := encode [encode (core_Service_ObjectMeta x); encode (core_Service_Spec x)];
  decode p :=
    match (decode p : option (list positive)) with
    | Some [p1; p2] =>
        x1 ← decode p1; x2 ← decode p2;
        Some (Mkcore_Service x1 x2)
    | _ => None
    end
  |}.
  record_countable_tac.
Defined.

Record ConfigMap := MkConfigMap {
  ConfigMap_ObjectMeta : ObjectMeta;
  ConfigMap_Data : gmap string string
}.
#[global] Instance ConfigMap_eta : Eta ConfigMap := λ r, MkConfigMap (ConfigMap_ObjectMeta r)
  (ConfigMap_Data r).
#[global] Instance ConfigMap_zero : Zero ConfigMap := MkConfigMap zero zero.
#[global] Instance ConfigMap_eq_dec : EqDecision ConfigMap.
Proof. solve_decision. Defined.
#[global] Instance ConfigMap_countable : Countable ConfigMap.
Proof.
  refine {|
  encode x := encode [encode (ConfigMap_ObjectMeta x); encode (ConfigMap_Data x)];
  decode p :=
    match (decode p : option (list positive)) with
    | Some [p1; p2] =>
        x1 ← decode p1; x2 ← decode p2;
        Some (MkConfigMap x1 x2)
    | _ => None
    end
  |}.
  record_countable_tac.
Defined.

Record PersistentVolumeClaimSpec := MkPersistentVolumeClaimSpec {
  PersistentVolumeClaimSpec_AccessModes : list string;
  PersistentVolumeClaimSpec_Requests : gmap string Quantity;
  PersistentVolumeClaimSpec_StorageClassName : option string
}.
#[global] Instance PersistentVolumeClaimSpec_eta : Eta PersistentVolumeClaimSpec := λ r,
  MkPersistentVolumeClaimSpec (PersistentVolumeClaimSpec_AccessModes r)
  (PersistentVolumeClaimSpec_Requests r) (PersistentVolumeClaimSpec_StorageClassName r).
#[global] Instance PersistentVolumeClaimSpec_zero : Zero PersistentVolumeClaimSpec :=
  MkPersistentVolumeClaimSpec zero zero zero.
#[global] Instance PersistentVolumeClaimSpec_eq_dec : EqDecision PersistentVolumeClaimSpec.
Proof. solve_decision. Defined.
#[global] Instance PersistentVolumeClaimSpec_countable : Countable PersistentVolumeClaimSpec.
Proof.
  refine {|
  encode x := encode [encode (PersistentVolumeClaimSpec_AccessModes x); encode
    (PersistentVolumeClaimSpec_Requests x); encode
    (PersistentVolumeClaimSpec_StorageClassName x)];
  decode p :=
    match (decode p : option (list positive)) with
    | Some [p1; p2; p3] =>
        x1 ← decode p1; x2 ← decode p2; x3 ← decode p3;
        Some (MkPersistentVolumeClaimSpec x1 x2 x3)
    | _ => None
    end
  |}.
  record_countable_tac.
Defined.

Record PersistentVolumeClaim := MkPersistentVolumeClaim {
  PersistentVolumeClaim_ObjectMeta : ObjectMeta;
  PersistentVolumeClaim_Spec : PersistentVolumeClaimSpec
}.
#[global] Instance PersistentVolumeClaim_eta : Eta PersistentVolumeClaim := λ r,
  MkPersistentVolumeClaim (PersistentVolumeClaim_ObjectMeta r) (PersistentVolumeClaim_Spec r).
#[global] Instance PersistentVolumeClaim_zero : Zero PersistentVolumeClaim :=
  MkPersistentVolumeClaim zero zero.
#[global] Instance PersistentVolumeClaim_eq_dec : EqDecision PersistentVolumeClaim.
Proof. solve_decision. Defined.
#[global] Instance PersistentVolumeClaim_countable : Countable PersistentVolumeClaim.
Proof.
  refine {|
  encode x := encode [encode (PersistentVolumeClaim_ObjectMeta x); encode
    (PersistentVolumeClaim_Spec x)];
  decode p :=
    match (decode p : option (list positive)) with
    | Some [p1; p2] =>
        x1 ← decode p1; x2 ← decode p2;
        Some (MkPersistentVolumeClaim x1 x2)
    | _ => None
    end
  |}.
  record_countable_tac.
Defined.
