(* ===== verification/Types.v ===== *)
(** * Types: the OnecloudCluster custom resource

    The types of [pkg/apis/onecloud/v1alpha1/types.go]: one record per Go
    struct, one field per Go field, under the Go names prefixed by the struct
    ([DeploymentSpec_Replicas] is the field [Replicas] of [DeploymentSpec]).
    An embedded struct is a field named after its type.  Integers are [Z], a
    pointer is an [option], a slice a [list], a string map a [gmap]. *)

From S2P Require Import Prelude K8s.

Open Scope string_scope.

(** ** String types and their constants *)

(*@ pkg/apis/onecloud/v1alpha1/types.go:31-31 ComponentType *)
Definition ComponentType := string.
(*@ pkg/apis/onecloud/v1alpha1/types.go:33-33 EtcdClusterPhase *)
Definition EtcdClusterPhase := string.
(*@ pkg/apis/onecloud/v1alpha1/types.go:171-171 ComponentPhase *)
Definition ComponentPhase := string.
(*@ pkg/apis/onecloud/v1alpha1/types.go:180-180 ProductVersion *)
Definition ProductVersion := string.
(*@ pkg/apis/onecloud/v1alpha1/types.go:738-738 MinioMode *)
Definition MinioMode := string.
(*@ pkg/apis/onecloud/v1alpha1/types.go:1158-1158 TDBEngineType *)
Definition TDBEngineType := string.

(*@ pkg/apis/onecloud/v1alpha1/types.go:57-57 KeystoneComponentType *)
Definition KeystoneComponentType : ComponentType := "keystone".
(*@ pkg/apis/onecloud/v1alpha1/types.go:59-59 RegionComponentType *)
Definition RegionComponentType : ComponentType := "region".
(*@ pkg/apis/onecloud/v1alpha1/types.go:61-61 ClimcComponentType *)
Definition ClimcComponentType : ComponentType := "climc".
(*@ pkg/apis/onecloud/v1alpha1/types.go:63-63 GlanceComponentType *)
Definition GlanceComponentType : ComponentType := "glance".
(*@ pkg/apis/onecloud/v1alpha1/types.go:65-65 WebconsoleComponentType *)
Definition WebconsoleComponentType : ComponentType := "webconsole".
(*@ pkg/apis/onecloud/v1alpha1/types.go:67-67 GuacdComponentType *)
Definition GuacdComponentType : ComponentType := "guacd".
(*@ pkg/apis/onecloud/v1alpha1/types.go:69-69 SchedulerComponentType *)
Definition SchedulerComponentType : ComponentType := "scheduler".
(*@ pkg/apis/onecloud/v1alpha1/types.go:71-71 LoggerComponentType *)
Definition LoggerComponentType : ComponentType := "logger".
(*@ pkg/apis/onecloud/v1alpha1/types.go:73-73 InfluxdbComponentType *)
Definition InfluxdbComponentType : ComponentType := "influxdb".
(*@ pkg/apis/onecloud/v1alpha1/types.go:75-75 VictoriaMetricsComponentType *)
Definition VictoriaMetricsComponentType : ComponentType := "victoria-metrics".
(*@ pkg/apis/onecloud/v1alpha1/types.go:77-77 MonitorComponentType *)
Definition MonitorComponentType : ComponentType := "monitor".
(*@ pkg/apis/onecloud/v1alpha1/types.go:79-79 APIGatewayComponentType *)
Definition APIGatewayComponentType : ComponentType := "apigateway".
(*@ pkg/apis/onecloud/v1alpha1/types.go:81-81 APIGatewayComponentTypeEE *)
Definition APIGatewayComponentTypeEE : ComponentType := "apigateway-ee".
(*@ pkg/apis/onecloud/v1alpha1/types.go:83-83 WebComponentType *)
Definition WebComponentType : ComponentType := "web".
(*@ pkg/apis/onecloud/v1alpha1/types.go:84-84 YunionagentComponentType *)
Definition YunionagentComponentType : ComponentType := "yunionagent".
(*@ pkg/apis/onecloud/v1alpha1/types.go:85-85 YunionconfComponentType *)
Definition YunionconfComponentType : ComponentType := "yunionconf".
(*@ pkg/apis/onecloud/v1alpha1/types.go:86-86 KubeServerComponentType *)
Definition KubeServerComponentType : ComponentType := "kubeserver".
(*@ pkg/apis/onecloud/v1alpha1/types.go:87-87 AnsibleServerComponentType *)
Definition AnsibleServerComponentType : ComponentType := "ansibleserver".
(*@ pkg/apis/onecloud/v1alpha1/types.go:88-88 CloudnetComponentType *)
Definition CloudnetComponentType : ComponentType := "cloudnet".
(*@ pkg/apis/onecloud/v1alpha1/types.go:89-89 CloudproxyComponentType *)
Definition CloudproxyComponentType : ComponentType := "cloudproxy".
(*@ pkg/apis/onecloud/v1alpha1/types.go:90-90 CloudeventComponentType *)
Definition CloudeventComponentType : ComponentType := "cloudevent".
(*@ pkg/apis/onecloud/v1alpha1/types.go:91-91 NotifyComponentType *)
Definition NotifyComponentType : ComponentType := "notify".
(*@ pkg/apis/onecloud/v1alpha1/types.go:92-92 HostComponentType *)
Definition HostComponentType : ComponentType := "host".
(*@ pkg/apis/onecloud/v1alpha1/types.go:93-93 HostDeployerComponentType *)
Definition HostDeployerComponentType : ComponentType := "host-deployer".
(*@ pkg/apis/onecloud/v1alpha1/types.go:94-94 HostImageComponentType *)
Definition HostImageComponentType : ComponentType := "host-image".
(*@ pkg/apis/onecloud/v1alpha1/types.go:95-95 BaremetalAgentComponentType *)
Definition BaremetalAgentComponentType : ComponentType := "baremetal-agent".
(*@ pkg/apis/onecloud/v1alpha1/types.go:97-97 S3gatewayComponentType *)
Definition S3gatewayComponentType : ComponentType := "s3gateway".
(*@ pkg/apis/onecloud/v1alpha1/types.go:99-99 DevtoolComponentType *)
Definition DevtoolComponentType : ComponentType := "devtool".
(*@ pkg/apis/onecloud/v1alpha1/types.go:101-101 MeterComponentType *)
Definition MeterComponentType : ComponentType := "meter".
(*@ pkg/apis/onecloud/v1alpha1/types.go:103-103 BillingComponentType *)
Definition BillingComponentType : ComponentType := "billing".
(*@ pkg/apis/onecloud/v1alpha1/types.go:105-105 AutoUpdateComponentType *)
Definition AutoUpdateComponentType : ComponentType := "autoupdate".
(*@ pkg/apis/onecloud/v1alpha1/types.go:107-107 CloudmonPingComponentType *)
Definition CloudmonPingComponentType : ComponentType := "cloudmon-ping".
(*@ pkg/apis/onecloud/v1alpha1/types.go:109-109 CloudmonReportUsageComponentType *)
Definition CloudmonReportUsageComponentType : ComponentType := "cloudmon-report-usage".
(*@ pkg/apis/onecloud/v1alpha1/types.go:111-111 CloudmonReportServerComponentType *)
Definition CloudmonReportServerComponentType : ComponentType := "cloudmon-report-server".
(*@ pkg/apis/onecloud/v1alpha1/types.go:113-113 CloudmonReportHostComponentType *)
Definition CloudmonReportHostComponentType : ComponentType := "cloudmon-report-host".
(*@ pkg/apis/onecloud/v1alpha1/types.go:115-115 CloudmonComponentType *)
Definition CloudmonComponentType : ComponentType := "cloudmon".
(*@ pkg/apis/onecloud/v1alpha1/types.go:117-117 EsxiAgentComponentType *)
Definition EsxiAgentComponentType : ComponentType := "esxi-agent".
(*@ pkg/apis/onecloud/v1alpha1/types.go:119-119 ServiceOperatorComponentType *)
Definition ServiceOperatorComponentType : ComponentType := "onecloud-service-operator".
(*@ pkg/apis/onecloud/v1alpha1/types.go:121-121 OvnNorthComponentType *)
Definition OvnNorthComponentType : ComponentType := "ovn-north".
(*@ pkg/apis/onecloud/v1alpha1/types.go:122-122 OvnHostComponentType *)
Definition OvnHostComponentType : ComponentType := "ovn-host".
(*@ pkg/apis/onecloud/v1alpha1/types.go:123-123 VpcAgentComponentType *)
Definition VpcAgentComponentType : ComponentType := "vpcagent".
(*@ pkg/apis/onecloud/v1alpha1/types.go:125-125 RegionDNSComponentType *)
Definition RegionDNSComponentType : ComponentType := "region-dns".
(*@ pkg/apis/onecloud/v1alpha1/types.go:128-128 EtcdComponentType *)
Definition EtcdComponentType : ComponentType := "etcd".
(*@ pkg/apis/onecloud/v1alpha1/types.go:129-129 EtcdClientComponentType *)
Definition EtcdClientComponentType : ComponentType := "etcd-client".
(*@ pkg/apis/onecloud/v1alpha1/types.go:131-131 ItsmComponentType *)
Definition ItsmComponentType : ComponentType := "itsm".
(*@ pkg/apis/onecloud/v1alpha1/types.go:133-133 TelegrafComponentType *)
Definition TelegrafComponentType : ComponentType := "telegraf".
(*@ pkg/apis/onecloud/v1alpha1/types.go:134-134 CloudIdComponentType *)
Definition CloudIdComponentType : ComponentType := "cloudid".
(*@ pkg/apis/onecloud/v1alpha1/types.go:136-136 SuggestionComponentType *)
Definition SuggestionComponentType : ComponentType := "suggestion".
(*@ pkg/apis/onecloud/v1alpha1/types.go:138-138 ScheduledtaskComponentType *)
Definition ScheduledtaskComponentType : ComponentType := "scheduledtask".
(*@ pkg/apis/onecloud/v1alpha1/types.go:140-140 ApiMapComponentType *)
Definition ApiMapComponentType : ComponentType := "apimap".
(*@ pkg/apis/onecloud/v1alpha1/types.go:142-142 MonitorStackComponentType *)
Definition MonitorStackComponentType : ComponentType := "monitor-stack".
(*@ pkg/apis/onecloud/v1alpha1/types.go:144-144 ReportComponentType *)
Definition ReportComponentType : ComponentType := "report".
(*@ pkg/apis/onecloud/v1alpha1/types.go:146-146 LbagentComponentType *)
Definition LbagentComponentType : ComponentType := "lbagent".
(*@ pkg/apis/onecloud/v1alpha1/types.go:148-148 EChartsSSRComponentType *)
Definition EChartsSSRComponentType : ComponentType := "echarts-ssr".
(*@ pkg/apis/onecloud/v1alpha1/types.go:150-150 HostHealthComponentType *)
Definition HostHealthComponentType : ComponentType := "host-health".
(*@ pkg/apis/onecloud/v1alpha1/types.go:152-152 HostSdnagentComponentType *)
Definition HostSdnagentComponentType : ComponentType := "host-sdnagent".
(*@ pkg/apis/onecloud/v1alpha1/types.go:153-153 HostOvnControllerComponentType *)
Definition HostOvnControllerComponentType : ComponentType := "host-ovn-controller".
(*@ pkg/apis/onecloud/v1alpha1/types.go:154-154 HostOvsdbServerComponentType *)
Definition HostOvsdbServerComponentType : ComponentType := "host-ovsdb-server".
(*@ pkg/apis/onecloud/v1alpha1/types.go:155-155 HostOvsVswitchdComponentType *)
Definition HostOvsVswitchdComponentType : ComponentType := "host-ovs-vswitchd".
(*@ pkg/apis/onecloud/v1alpha1/types.go:157-157 BastionHostComponentType *)
Definition BastionHostComponentType : ComponentType := "bastionhost".
(*@ pkg/apis/onecloud/v1alpha1/types.go:158-158 CloudmuxComponentType *)
Definition CloudmuxComponentType : ComponentType := "cloudmux".
(*@ pkg/apis/onecloud/v1alpha1/types.go:160-160 ExtdbComponentType *)
Definition ExtdbComponentType : ComponentType := "extdb".
(*@ pkg/apis/onecloud/v1alpha1/types.go:163-163 LLMComponentType *)
Definition LLMComponentType : ComponentType := "llm".
(*@ pkg/apis/onecloud/v1alpha1/types.go:165-165 McpServerComponentType *)
Definition McpServerComponentType : ComponentType := "mcp-server".
(*@ pkg/apis/onecloud/v1alpha1/types.go:167-167 AiProxyComponentType *)
Definition AiProxyComponentType : ComponentType := "aiproxy".
(*@ pkg/apis/onecloud/v1alpha1/types.go:40-40 EtcdClusterPhaseNone *)
Definition EtcdClusterPhaseNone : EtcdClusterPhase := "".
(*@ pkg/apis/onecloud/v1alpha1/types.go:41-41 EtcdClusterPhaseCreating *)
Definition EtcdClusterPhaseCreating : EtcdClusterPhase := "Creating".
(*@ pkg/apis/onecloud/v1alpha1/types.go:42-42 EtcdClusterPhaseRunning *)
Definition EtcdClusterPhaseRunning : EtcdClusterPhase := "Running".
(*@ pkg/apis/onecloud/v1alpha1/types.go:43-43 EtcdClusterPhaseFailed *)
Definition EtcdClusterPhaseFailed : EtcdClusterPhase := "Failed".
(*@ pkg/apis/onecloud/v1alpha1/types.go:175-175 NormalPhase *)
Definition NormalPhase : ComponentPhase := "Normal".
(*@ pkg/apis/onecloud/v1alpha1/types.go:177-177 UpgradePhase *)
Definition UpgradePhase : ComponentPhase := "Upgrade".
(*@ pkg/apis/onecloud/v1alpha1/types.go:184-184 ProductVersionFullStack *)
Definition ProductVersionFullStack : ProductVersion := "FullStack".
(*@ pkg/apis/onecloud/v1alpha1/types.go:186-186 ProductVersionCMP *)
Definition ProductVersionCMP : ProductVersion := "CMP".
(*@ pkg/apis/onecloud/v1alpha1/types.go:188-188 ProductVersionEdge *)
Definition ProductVersionEdge : ProductVersion := "Edge".
(*@ pkg/apis/onecloud/v1alpha1/types.go:189-189 ProductVersionLightEdge *)
Definition ProductVersionLightEdge : ProductVersion := "LightEdge".
(*@ pkg/apis/onecloud/v1alpha1/types.go:191-191 ProductVersionBaremetal *)
Definition ProductVersionBaremetal : ProductVersion := "Baremetal".
(*@ pkg/apis/onecloud/v1alpha1/types.go:193-193 ProductVersionAI *)
Definition ProductVersionAI : ProductVersion := "AI".
(*@ pkg/apis/onecloud/v1alpha1/types.go:1161-1161 DBEngineMySQL *)
Definition DBEngineMySQL : TDBEngineType := "mysql".
(*@ pkg/apis/onecloud/v1alpha1/types.go:1162-1162 DBEngineClickhouse *)
Definition DBEngineClickhouse : TDBEngineType := "clickhouse".
(*@ pkg/apis/onecloud/v1alpha1/types.go:1163-1163 DBEngineDameng *)
Definition DBEngineDameng : TDBEngineType := "dameng".

(** ** Structs *)

(*@ pkg/apis/onecloud/v1alpha1/types.go:522-577 PodPolicy *)
Record PodPolicy := MkPodPolicy {
  PodPolicy_Labels : gmap string string;
  PodPolicy_NodeSelector : gmap string string;
  PodPolicy_Affinity : option Affinity;
  PodPolicy_AntiAffinity : bool;
  PodPolicy_Resources : ResourceRequirements;
  PodPolicy_Tolerations : list Toleration;
  PodPolicy_EtcdEnv : list EnvVar;
  PodPolicy_PersistentVolumeClaimSpec : option PersistentVolumeClaimSpec;
  PodPolicy_Annotations : gmap string string;
  PodPolicy_BusyboxImage : string;
  PodPolicy_SecurityContext : option PodSecurityContext;
  PodPolicy_DNSTimeoutInSecond : Z
}.
#[global] Instance PodPolicy_eta : Eta PodPolicy := λ r, MkPodPolicy (PodPolicy_Labels r)
  (PodPolicy_NodeSelector r) (PodPolicy_Affinity r) (PodPolicy_AntiAffinity r)
  (PodPolicy_Resources r) (PodPolicy_Tolerations r) (PodPolicy_EtcdEnv r)
  (PodPolicy_PersistentVolumeClaimSpec r) (PodPolicy_Annotations r) (PodPolicy_BusyboxImage r)
  (PodPolicy_SecurityContext r) (PodPolicy_DNSTimeoutInSecond r).
#[global] Instance PodPolicy_zero : Zero PodPolicy := MkPodPolicy zero zero zero zero zero zero
  zero zero zero zero zero zero.

(*@ pkg/apis/onecloud/v1alpha1/types.go:482-489 MemberSecret *)
Record MemberSecret := MkMemberSecret {
  MemberSecret_PeerSecret : string;
  MemberSecret_ServerSecret : string
}.
#[global] Instance MemberSecret_eta : Eta MemberSecret := λ r, MkMemberSecret
  (MemberSecret_PeerSecret r) (MemberSecret_ServerSecret r).
#[global] Instance MemberSecret_zero : Zero MemberSecret := MkMemberSecret zero zero.

(*@ pkg/apis/onecloud/v1alpha1/types.go:474-480 StaticTLS *)
Record StaticTLS := MkStaticTLS {
  StaticTLS_Member : option MemberSecret;
  StaticTLS_OperatorSecret : string
}.
#[global] Instance StaticTLS_eta : Eta StaticTLS := λ r, MkStaticTLS (StaticTLS_Member r)
  (StaticTLS_OperatorSecret r).
#[global] Instance StaticTLS_zero : Zero StaticTLS := MkStaticTLS zero zero.

(*@ pkg/apis/onecloud/v1alpha1/types.go:468-472 TLSPolicy *)
Record TLSPolicy := MkTLSPolicy {
  TLSPolicy_Static : option StaticTLS
}.
#[global] Instance TLSPolicy_eta : Eta TLSPolicy := λ r, MkTLSPolicy (TLSPolicy_Static r).
#[global] Instance TLSPolicy_zero : Zero TLSPolicy := MkTLSPolicy zero.

(*@ pkg/apis/onecloud/v1alpha1/types.go:429-465 EtcdClusterSpec *)
Record EtcdClusterSpec := MkEtcdClusterSpec {
  EtcdClusterSpec_Size : Z;
  EtcdClusterSpec_Repository : string;
  EtcdClusterSpec_Version : string;
  EtcdClusterSpec_Paused : bool;
  EtcdClusterSpec_Pod : option PodPolicy;
  EtcdClusterSpec_TLS : option TLSPolicy;
  EtcdClusterSpec_CreatedSecrets : option bool
}.
#[global] Instance EtcdClusterSpec_eta : Eta EtcdClusterSpec := λ r, MkEtcdClusterSpec
  (EtcdClusterSpec_Size r) (EtcdClusterSpec_Repository r) (EtcdClusterSpec_Version r)
  (EtcdClusterSpec_Paused r) (EtcdClusterSpec_Pod r) (EtcdClusterSpec_TLS r)
  (EtcdClusterSpec_CreatedSecrets r).
#[global] Instance EtcdClusterSpec_zero : Zero EtcdClusterSpec := MkEtcdClusterSpec zero zero
  zero zero zero zero zero.

(*@ pkg/apis/onecloud/v1alpha1/types.go:579-590 Etcd *)
Record Etcd := MkEtcd {
  Etcd_EtcdClusterSpec : EtcdClusterSpec;
  Etcd_Disable : bool;
  Etcd_EnableTls : option bool;
  Etcd_ClientNodePort : Z;
  Etcd_EtcdBackendQuotaSize : option Z
}.
#[global] Instance Etcd_eta : Eta Etcd := λ r, MkEtcd (Etcd_EtcdClusterSpec r) (Etcd_Disable r)
  (Etcd_EnableTls r) (Etcd_ClientNodePort r) (Etcd_EtcdBackendQuotaSize r).
#[global] Instance Etcd_zero : Zero Etcd := MkEtcd zero zero zero zero zero.

(*@ pkg/apis/onecloud/v1alpha1/types.go:593-602 Mysql *)
Record Mysql := MkMysql {
  Mysql_Host : string;
  Mysql_Port : Z;
  Mysql_Username : string;
  Mysql_Password : string
}.
#[global] Instance Mysql_eta : Eta Mysql := λ r, MkMysql (Mysql_Host r) (Mysql_Port r)
  (Mysql_Username r) (Mysql_Password r).
#[global] Instance Mysql_zero : Zero Mysql := MkMysql zero zero zero zero.

(*@ pkg/apis/onecloud/v1alpha1/types.go:605-605 Clickhouse *)
Definition Clickhouse := Mysql.

(*@ pkg/apis/onecloud/v1alpha1/types.go:608-608 Dameng *)
Definition Dameng := Mysql.

(*@ pkg/apis/onecloud/v1alpha1/types.go:1144-1147 Service *)
Record Service := MkService {
  Service_Name : string;
  Service_Type : string
}.
#[global] Instance Service_eta : Eta Service := λ r, MkService (Service_Name r) (Service_Type
  r).
#[global] Instance Service_zero : Zero Service := MkService zero zero.

(*@ pkg/apis/onecloud/v1alpha1/types.go:611-614 Minio *)
Record Minio := MkMinio {
  Minio_Enable : bool;
  Minio_Mode : string
}.
#[global] Instance Minio_eta : Eta Minio := λ r, MkMinio (Minio_Enable r) (Minio_Mode r).
#[global] Instance Minio_zero : Zero Minio := MkMinio zero zero.

(*@ pkg/apis/onecloud/v1alpha1/types.go:1149-1156 ResourceRequirement *)
Record ResourceRequirement := MkResourceRequirement {
  ResourceRequirement_CPU : option Quantity;
  ResourceRequirement_Memory : option Quantity;
  ResourceRequirement_Storage : string
}.
#[global] Instance ResourceRequirement_eta : Eta ResourceRequirement := λ r,
  MkResourceRequirement (ResourceRequirement_CPU r) (ResourceRequirement_Memory r)
  (ResourceRequirement_Storage r).
#[global] Instance ResourceRequirement_zero : Zero ResourceRequirement := MkResourceRequirement
  zero zero zero.

(*@ pkg/apis/onecloud/v1alpha1/types.go:1133-1141 ContainerSpec *)
Record ContainerSpec := MkContainerSpec {
  ContainerSpec_Image : string;
  ContainerSpec_Repository : string;
  ContainerSpec_ImageName : string;
  ContainerSpec_Tag : string;
  ContainerSpec_ImagePullPolicy : string;
  ContainerSpec_Requests : option ResourceRequirement;
  ContainerSpec_Limits : option ResourceRequirement
}.
#[global] Instance ContainerSpec_eta : Eta ContainerSpec := λ r, MkContainerSpec
  (ContainerSpec_Image r) (ContainerSpec_Repository r) (ContainerSpec_ImageName r)
  (ContainerSpec_Tag r) (ContainerSpec_ImagePullPolicy r) (ContainerSpec_Requests r)
  (ContainerSpec_Limits r).
#[global] Instance ContainerSpec_zero : Zero ContainerSpec := MkContainerSpec zero zero zero
  zero zero zero zero.

(*@ pkg/apis/onecloud/v1alpha1/types.go:617-630 DeploymentSpec *)
Record DeploymentSpec := MkDeploymentSpec {
  DeploymentSpec_ContainerSpec : ContainerSpec;
  DeploymentSpec_DNSConfig : option PodDNSConfig;
  DeploymentSpec_Disable : bool;
  DeploymentSpec_Replicas : Z;
  DeploymentSpec_Affinity : option Affinity;
  DeploymentSpec_NodeSelector : gmap string string;
  DeploymentSpec_Tolerations : list Toleration;
  DeploymentSpec_Annotations : gmap string string;
  DeploymentSpec_ImagePullSecrets : list LocalObjectReference;
  DeploymentSpec_SlaveReplicas : Z
}.
#[global] Instance DeploymentSpec_eta : Eta DeploymentSpec := λ r, MkDeploymentSpec
  (DeploymentSpec_ContainerSpec r) (DeploymentSpec_DNSConfig r) (DeploymentSpec_Disable r)
  (DeploymentSpec_Replicas r) (DeploymentSpec_Affinity r) (DeploymentSpec_NodeSelector r)
  (DeploymentSpec_Tolerations r) (DeploymentSpec_Annotations r)
  (DeploymentSpec_ImagePullSecrets r) (DeploymentSpec_SlaveReplicas r).
#[global] Instance DeploymentSpec_zero : Zero DeploymentSpec := MkDeploymentSpec zero zero zero
  zero zero zero zero zero zero zero.

(*@ pkg/apis/onecloud/v1alpha1/types.go:715-718 DeploymentServiceSpec *)
Record DeploymentServiceSpec := MkDeploymentServiceSpec {
  DeploymentServiceSpec_DeploymentSpec : DeploymentSpec;
  DeploymentServiceSpec_DisableTLS : bool
}.
#[global] Instance DeploymentServiceSpec_eta : Eta DeploymentServiceSpec := λ r,
  MkDeploymentServiceSpec (DeploymentServiceSpec_DeploymentSpec r)
  (DeploymentServiceSpec_DisableTLS r).
#[global] Instance DeploymentServiceSpec_zero : Zero DeploymentServiceSpec :=
  MkDeploymentServiceSpec zero zero.

(*@ pkg/apis/onecloud/v1alpha1/types.go:633-636 ServicePortSpec *)
Record ServicePortSpec := MkServicePortSpec {
  ServicePortSpec_InternalOnly : bool;
  ServicePortSpec_NodePort : Z
}.
#[global] Instance ServicePortSpec_eta : Eta ServicePortSpec := λ r, MkServicePortSpec
  (ServicePortSpec_InternalOnly r) (ServicePortSpec_NodePort r).
#[global] Instance ServicePortSpec_zero : Zero ServicePortSpec := MkServicePortSpec zero zero.

(*@ pkg/apis/onecloud/v1alpha1/types.go:638-640 ServiceSpec *)
Record ServiceSpec := MkServiceSpec {
  ServiceSpec_ServicePortSpec : ServicePortSpec
}.
#[global] Instance ServiceSpec_eta : Eta ServiceSpec := λ r, MkServiceSpec
  (ServiceSpec_ServicePortSpec r).
#[global] Instance ServiceSpec_zero : Zero ServiceSpec := MkServiceSpec zero.

(*@ pkg/apis/onecloud/v1alpha1/types.go:721-728 KeystoneSpec *)
Record KeystoneSpec := MkKeystoneSpec {
  KeystoneSpec_DeploymentServiceSpec : DeploymentServiceSpec;
  KeystoneSpec_PublicService : ServiceSpec;
  KeystoneSpec_AdminService : ServiceSpec;
  KeystoneSpec_BootstrapPassword : string;
  KeystoneSpec_DbEngine : string
}.
#[global] Instance KeystoneSpec_eta : Eta KeystoneSpec := λ r, MkKeystoneSpec
  (KeystoneSpec_DeploymentServiceSpec r) (KeystoneSpec_PublicService r)
  (KeystoneSpec_AdminService r) (KeystoneSpec_BootstrapPassword r) (KeystoneSpec_DbEngine r).
#[global] Instance KeystoneSpec_zero : Zero KeystoneSpec := MkKeystoneSpec zero zero zero zero
  zero.

(*@ pkg/apis/onecloud/v1alpha1/types.go:648-653 DeploymentServicePortSpec *)
Record DeploymentServicePortSpec := MkDeploymentServicePortSpec {
  DeploymentServicePortSpec_DeploymentSpec : DeploymentSpec;
  DeploymentServicePortSpec_Service : ServiceSpec;
  DeploymentServicePortSpec_DbEngine : string
}.
#[global] Instance DeploymentServicePortSpec_eta : Eta DeploymentServicePortSpec := λ r,
  MkDeploymentServicePortSpec (DeploymentServicePortSpec_DeploymentSpec r)
  (DeploymentServicePortSpec_Service r) (DeploymentServicePortSpec_DbEngine r).
#[global] Instance DeploymentServicePortSpec_zero : Zero DeploymentServicePortSpec :=
  MkDeploymentServicePortSpec zero zero zero.

(*@ pkg/apis/onecloud/v1alpha1/types.go:976-982 RegionSpec *)
Record RegionSpec := MkRegionSpec {
  RegionSpec_DeploymentServicePortSpec : DeploymentServicePortSpec;
  RegionSpec_DNSServer : string;
  RegionSpec_DNSDomain : string
}.
#[global] Instance RegionSpec_eta : Eta RegionSpec := λ r, MkRegionSpec
  (RegionSpec_DeploymentServicePortSpec r) (RegionSpec_DNSServer r) (RegionSpec_DNSDomain r).
#[global] Instance RegionSpec_zero : Zero RegionSpec := MkRegionSpec zero zero zero.

(*@ pkg/apis/onecloud/v1alpha1/types.go:666-676 DaemonSetSpec *)
Record DaemonSetSpec := MkDaemonSetSpec {
  DaemonSetSpec_ContainerSpec : ContainerSpec;
  DaemonSetSpec_Disable : bool;
  DaemonSetSpec_Affinity : option Affinity;
  DaemonSetSpec_NodeSelector : gmap string string;
  DaemonSetSpec_Tolerations : list Toleration;
  DaemonSetSpec_Annotations : gmap string string;
  DaemonSetSpec_ImagePullSecrets : list LocalObjectReference;
  DaemonSetSpec_UpdateStrategy : string;
  DaemonSetSpec_MaxUnavailable : option Z
}.
#[global] Instance DaemonSetSpec_eta : Eta DaemonSetSpec := λ r, MkDaemonSetSpec
  (DaemonSetSpec_ContainerSpec r) (DaemonSetSpec_Disable r) (DaemonSetSpec_Affinity r)
  (DaemonSetSpec_NodeSelector r) (DaemonSetSpec_Tolerations r) (DaemonSetSpec_Annotations r)
  (DaemonSetSpec_ImagePullSecrets r) (DaemonSetSpec_UpdateStrategy r)
  (DaemonSetSpec_MaxUnavailable r).
#[global] Instance DaemonSetSpec_zero : Zero DaemonSetSpec := MkDaemonSetSpec zero zero zero
  zero zero zero zero zero zero.

(*@ pkg/apis/onecloud/v1alpha1/types.go:1007-1012 RegionDNSProxy *)
Record RegionDNSProxy := MkRegionDNSProxy {
  RegionDNSProxy_From : string;
  RegionDNSProxy_To : list string
}.
#[global] Instance RegionDNSProxy_eta : Eta RegionDNSProxy := λ r, MkRegionDNSProxy
  (RegionDNSProxy_From r) (RegionDNSProxy_To r).
#[global] Instance RegionDNSProxy_zero : Zero RegionDNSProxy := MkRegionDNSProxy zero zero.

(*@ pkg/apis/onecloud/v1alpha1/types.go:1014-1019 RegionDNSSpec *)
Record RegionDNSSpec := MkRegionDNSSpec {
  RegionDNSSpec_DaemonSetSpec : DaemonSetSpec;
  RegionDNSSpec_CacheTtl : Z;
  RegionDNSSpec_Proxies : list RegionDNSProxy;
  RegionDNSSpec_InCloudOnly : bool
}.
#[global] Instance RegionDNSSpec_eta : Eta RegionDNSSpec := λ r, MkRegionDNSSpec
  (RegionDNSSpec_DaemonSetSpec r) (RegionDNSSpec_CacheTtl r) (RegionDNSSpec_Proxies r)
  (RegionDNSSpec_InCloudOnly r).
#[global] Instance RegionDNSSpec_zero : Zero RegionDNSSpec := MkRegionDNSSpec zero zero zero
  zero.

(*@ pkg/apis/onecloud/v1alpha1/types.go:685-688 StatefulDeploymentSpec *)
Record StatefulDeploymentSpec := MkStatefulDeploymentSpec {
  StatefulDeploymentSpec_DeploymentSpec : DeploymentSpec;
  StatefulDeploymentSpec_StorageClassName : string
}.
#[global] Instance StatefulDeploymentSpec_eta : Eta StatefulDeploymentSpec := λ r,
  MkStatefulDeploymentSpec (StatefulDeploymentSpec_DeploymentSpec r)
  (StatefulDeploymentSpec_StorageClassName r).
#[global] Instance StatefulDeploymentSpec_zero : Zero StatefulDeploymentSpec :=
  MkStatefulDeploymentSpec zero zero.

(*@ pkg/apis/onecloud/v1alpha1/types.go:730-736 GlanceSpec *)
Record GlanceSpec := MkGlanceSpec {
  GlanceSpec_StatefulDeploymentSpec : StatefulDeploymentSpec;
  GlanceSpec_Service : ServiceSpec;
  GlanceSpec_SwitchToS3 : bool;
  GlanceSpec_DbEngine : string
}.
#[global] Instance GlanceSpec_eta : Eta GlanceSpec := λ r, MkGlanceSpec
  (GlanceSpec_StatefulDeploymentSpec r) (GlanceSpec_Service r) (GlanceSpec_SwitchToS3 r)
  (GlanceSpec_DbEngine r).
#[global] Instance GlanceSpec_zero : Zero GlanceSpec := MkGlanceSpec zero zero zero zero.

(*@ pkg/apis/onecloud/v1alpha1/types.go:642-646 WebconsoleSpec *)
Record WebconsoleSpec := MkWebconsoleSpec {
  WebconsoleSpec_DeploymentServicePortSpec : DeploymentServicePortSpec;
  WebconsoleSpec_Guacd : ContainerSpec
}.
#[global] Instance WebconsoleSpec_eta : Eta WebconsoleSpec := λ r, MkWebconsoleSpec
  (WebconsoleSpec_DeploymentServicePortSpec r) (WebconsoleSpec_Guacd r).
#[global] Instance WebconsoleSpec_zero : Zero WebconsoleSpec := MkWebconsoleSpec zero zero.

(*@ pkg/apis/onecloud/v1alpha1/types.go:678-683 YunionagentSpec *)
Record YunionagentSpec := MkYunionagentSpec {
  YunionagentSpec_DaemonSetSpec : DaemonSetSpec;
  YunionagentSpec_Service : ServiceSpec;
  YunionagentSpec_DbEngine : string
}.
#[global] Instance YunionagentSpec_eta : Eta YunionagentSpec := λ r, MkYunionagentSpec
  (YunionagentSpec_DaemonSetSpec r) (YunionagentSpec_Service r) (YunionagentSpec_DbEngine r).
#[global] Instance YunionagentSpec_zero : Zero YunionagentSpec := MkYunionagentSpec zero zero
  zero.

(*@ pkg/apis/onecloud/v1alpha1/types.go:697-700 InfluxdbSpec *)
Record InfluxdbSpec := MkInfluxdbSpec {
  InfluxdbSpec_StatefulDeploymentSpec : StatefulDeploymentSpec;
  InfluxdbSpec_Service : ServiceSpec
}.
#[global] Instance InfluxdbSpec_eta : Eta InfluxdbSpec := λ r, MkInfluxdbSpec
  (InfluxdbSpec_StatefulDeploymentSpec r) (InfluxdbSpec_Service r).
#[global] Instance InfluxdbSpec_zero : Zero InfluxdbSpec := MkInfluxdbSpec zero zero.

(*@ pkg/apis/onecloud/v1alpha1/types.go:702-706 VictoriaMetricsSpec *)
Record VictoriaMetricsSpec := MkVictoriaMetricsSpec {
  VictoriaMetricsSpec_StatefulDeploymentSpec : StatefulDeploymentSpec;
  VictoriaMetricsSpec_Service : ServiceSpec;
  VictoriaMetricsSpec_RententionPeriodDays : Z
}.
#[global] Instance VictoriaMetricsSpec_eta : Eta VictoriaMetricsSpec := λ r,
  MkVictoriaMetricsSpec (VictoriaMetricsSpec_StatefulDeploymentSpec r)
  (VictoriaMetricsSpec_Service r) (VictoriaMetricsSpec_RententionPeriodDays r).
#[global] Instance VictoriaMetricsSpec_zero : Zero VictoriaMetricsSpec := MkVictoriaMetricsSpec
  zero zero zero.

(*@ pkg/apis/onecloud/v1alpha1/types.go:1052-1060 TelegrafSpec *)
Record TelegrafSpec := MkTelegrafSpec {
  TelegrafSpec_DaemonSetSpec : DaemonSetSpec;
  TelegrafSpec_InitContainerImage : string;
  TelegrafSpec_EnableRaidPlugin : bool;
  TelegrafSpec_TelegrafConfigDir : string;
  TelegrafSpec_TelegrafRaid : ContainerSpec
}.
#[global] Instance TelegrafSpec_eta : Eta TelegrafSpec := λ r, MkTelegrafSpec
  (TelegrafSpec_DaemonSetSpec r) (TelegrafSpec_InitContainerImage r)
  (TelegrafSpec_EnableRaidPlugin r) (TelegrafSpec_TelegrafConfigDir r)
  (TelegrafSpec_TelegrafRaid r).
#[global] Instance TelegrafSpec_zero : Zero TelegrafSpec := MkTelegrafSpec zero zero zero zero
  zero.

(*@ pkg/apis/onecloud/v1alpha1/types.go:966-974 APIGatewaySpec *)
Record APIGatewaySpec := MkAPIGatewaySpec {
  APIGatewaySpec_DeploymentSpec : DeploymentSpec;
  APIGatewaySpec_APIService : ServiceSpec;
  APIGatewaySpec_WSService : ServiceSpec;
  APIGatewaySpec_CorsHosts : list string
}.
#[global] Instance APIGatewaySpec_eta : Eta APIGatewaySpec := λ r, MkAPIGatewaySpec
  (APIGatewaySpec_DeploymentSpec r) (APIGatewaySpec_APIService r) (APIGatewaySpec_WSService r)
  (APIGatewaySpec_CorsHosts r).
#[global] Instance APIGatewaySpec_zero : Zero APIGatewaySpec := MkAPIGatewaySpec zero zero zero
  zero.

(*@ pkg/apis/onecloud/v1alpha1/types.go:984-990 WebSpec *)
Record WebSpec := MkWebSpec {
  WebSpec_DeploymentSpec : DeploymentSpec;
  WebSpec_UseHTTP : bool;
  WebSpec_Overview : ContainerSpec;
  WebSpec_Docs : ContainerSpec
}.
#[global] Instance WebSpec_eta : Eta WebSpec := λ r, MkWebSpec (WebSpec_DeploymentSpec r)
  (WebSpec_UseHTTP r) (WebSpec_Overview r) (WebSpec_Docs r).
#[global] Instance WebSpec_zero : Zero WebSpec := MkWebSpec zero zero zero zero.

(*@ pkg/apis/onecloud/v1alpha1/types.go:992-999 NotifySpec *)
Record NotifySpec := MkNotifySpec {
  NotifySpec_StatefulDeploymentSpec : StatefulDeploymentSpec;
  NotifySpec_Service : ServiceSpec;
  NotifySpec_Plugins : ContainerSpec;
  NotifySpec_DbEngine : string
}.
#[global] Instance NotifySpec_eta : Eta NotifySpec := λ r, MkNotifySpec
  (NotifySpec_StatefulDeploymentSpec r) (NotifySpec_Service r) (NotifySpec_Plugins r)
  (NotifySpec_DbEngine r).
#[global] Instance NotifySpec_zero : Zero NotifySpec := MkNotifySpec zero zero zero zero.

(*@ pkg/apis/onecloud/v1alpha1/types.go:1044-1050 LbagentSpec *)
Record LbagentSpec := MkLbagentSpec {
  LbagentSpec_DaemonSetSpec : DaemonSetSpec;
  LbagentSpec_OvnController : ContainerSpec;
  LbagentSpec_MaxUnavailableCount : Z
}.
#[global] Instance LbagentSpec_eta : Eta LbagentSpec := λ r, MkLbagentSpec
  (LbagentSpec_DaemonSetSpec r) (LbagentSpec_OvnController r) (LbagentSpec_MaxUnavailableCount
  r).
#[global] Instance LbagentSpec_zero : Zero LbagentSpec := MkLbagentSpec zero zero zero.

(*@ pkg/apis/onecloud/v1alpha1/types.go:1025-1042 HostAgentSpec *)
Record HostAgentSpec := MkHostAgentSpec {
  HostAgentSpec_DaemonSetSpec : DaemonSetSpec;
  HostAgentSpec_SdnAgent : ContainerSpec;
  HostAgentSpec_OvnController : ContainerSpec;
  HostAgentSpec_HostHealth : ContainerSpec;
  HostAgentSpec_OvnEncapIpDetectionMethod : string;
  HostAgentSpec_DisableSecurityGroup : bool;
  HostAgentSpec_ManageNtpConfiguration : bool;
  HostAgentSpec_HostCpuPassthrough : option bool;
  HostAgentSpec_DefaultQemuVersion : string;
  HostAgentSpec_MaxUnavailableCount : Z
}.
#[global] Instance HostAgentSpec_eta : Eta HostAgentSpec := λ r, MkHostAgentSpec
  (HostAgentSpec_DaemonSetSpec r) (HostAgentSpec_SdnAgent r) (HostAgentSpec_OvnController r)
  (HostAgentSpec_HostHealth r) (HostAgentSpec_OvnEncapIpDetectionMethod r)
  (HostAgentSpec_DisableSecurityGroup r) (HostAgentSpec_ManageNtpConfiguration r)
  (HostAgentSpec_HostCpuPassthrough r) (HostAgentSpec_DefaultQemuVersion r)
  (HostAgentSpec_MaxUnavailableCount r).
#[global] Instance HostAgentSpec_zero : Zero HostAgentSpec := MkHostAgentSpec zero zero zero
  zero zero zero zero zero zero zero.

(*@ pkg/apis/onecloud/v1alpha1/types.go:708-713 ZoneStatefulDeploymentSpec *)
Record ZoneStatefulDeploymentSpec := MkZoneStatefulDeploymentSpec {
  ZoneStatefulDeploymentSpec_StatefulDeploymentSpec : StatefulDeploymentSpec;
  ZoneStatefulDeploymentSpec_Zones : list string
}.
#[global] Instance ZoneStatefulDeploymentSpec_eta : Eta ZoneStatefulDeploymentSpec := λ r,
  MkZoneStatefulDeploymentSpec (ZoneStatefulDeploymentSpec_StatefulDeploymentSpec r)
  (ZoneStatefulDeploymentSpec_Zones r).
#[global] Instance ZoneStatefulDeploymentSpec_zero : Zero ZoneStatefulDeploymentSpec :=
  MkZoneStatefulDeploymentSpec zero zero.

(*@ pkg/apis/onecloud/v1alpha1/types.go:690-695 MeterSpec *)
Record MeterSpec := MkMeterSpec {
  MeterSpec_StatefulDeploymentSpec : StatefulDeploymentSpec;
  MeterSpec_Service : ServiceSpec;
  MeterSpec_DbEngine : string
}.
#[global] Instance MeterSpec_eta : Eta MeterSpec := λ r, MkMeterSpec
  (MeterSpec_StatefulDeploymentSpec r) (MeterSpec_Service r) (MeterSpec_DbEngine r).
#[global] Instance MeterSpec_zero : Zero MeterSpec := MkMeterSpec zero zero zero.

(*@ pkg/apis/onecloud/v1alpha1/types.go:1001-1005 CloudmonSpec *)
Record CloudmonSpec := MkCloudmonSpec {
  CloudmonSpec_DeploymentSpec : DeploymentSpec;
  CloudmonSpec_Service : ServiceSpec;
  CloudmonSpec_CloudmonPingDuration : Z
}.
#[global] Instance CloudmonSpec_eta : Eta CloudmonSpec := λ r, MkCloudmonSpec
  (CloudmonSpec_DeploymentSpec r) (CloudmonSpec_Service r) (CloudmonSpec_CloudmonPingDuration
  r).
#[global] Instance CloudmonSpec_zero : Zero CloudmonSpec := MkCloudmonSpec zero zero zero.

(*@ pkg/apis/onecloud/v1alpha1/types.go:745-753 MonitorStackMinioSpec *)
Record MonitorStackMinioSpec := MkMonitorStackMinioSpec {
  MonitorStackMinioSpec_Mode : string;
  MonitorStackMinioSpec_AccessKey : string;
  MonitorStackMinioSpec_SecretKey : string
}.
#[global] Instance MonitorStackMinioSpec_eta : Eta MonitorStackMinioSpec := λ r,
  MkMonitorStackMinioSpec (MonitorStackMinioSpec_Mode r) (MonitorStackMinioSpec_AccessKey r)
  (MonitorStackMinioSpec_SecretKey r).
#[global] Instance MonitorStackMinioSpec_zero : Zero MonitorStackMinioSpec :=
  MkMonitorStackMinioSpec zero zero zero.

(*@ pkg/apis/onecloud/v1alpha1/types.go:767-778 MonitorStackGrafanaSpecOAuth *)
Record MonitorStackGrafanaSpecOAuth := MkMonitorStackGrafanaSpecOAuth {
  MonitorStackGrafanaSpecOAuth_Enabled : bool;
  MonitorStackGrafanaSpecOAuth_ClientId : string;
  MonitorStackGrafanaSpecOAuth_ClientSecret : string;
  MonitorStackGrafanaSpecOAuth_Scopes : string;
  MonitorStackGrafanaSpecOAuth_AuthURL : string;
  MonitorStackGrafanaSpecOAuth_TokenURL : string;
  MonitorStackGrafanaSpecOAuth_APIURL : string;
  MonitorStackGrafanaSpecOAuth_AllowedDomains : string;
  MonitorStackGrafanaSpecOAuth_AllowSignUp : bool;
  MonitorStackGrafanaSpecOAuth_RoleAttributePath : string
}.
#[global] Instance MonitorStackGrafanaSpecOAuth_eta : Eta MonitorStackGrafanaSpecOAuth := λ r,
  MkMonitorStackGrafanaSpecOAuth (MonitorStackGrafanaSpecOAuth_Enabled r)
  (MonitorStackGrafanaSpecOAuth_ClientId r) (MonitorStackGrafanaSpecOAuth_ClientSecret r)
  (MonitorStackGrafanaSpecOAuth_Scopes r) (MonitorStackGrafanaSpecOAuth_AuthURL r)
  (MonitorStackGrafanaSpecOAuth_TokenURL r) (MonitorStackGrafanaSpecOAuth_APIURL r)
  (MonitorStackGrafanaSpecOAuth_AllowedDomains r) (MonitorStackGrafanaSpecOAuth_AllowSignUp r)
  (MonitorStackGrafanaSpecOAuth_RoleAttributePath r).
#[global] Instance MonitorStackGrafanaSpecOAuth_zero : Zero MonitorStackGrafanaSpecOAuth :=
  MkMonitorStackGrafanaSpecOAuth zero zero zero zero zero zero zero zero zero zero.

(*@ pkg/apis/onecloud/v1alpha1/types.go:780-790 MonitorStackGrafanaSpec *)
Record MonitorStackGrafanaSpec := MkMonitorStackGrafanaSpec {
  MonitorStackGrafanaSpec_Disable : bool;
  MonitorStackGrafanaSpec_AdminUser : string;
  MonitorStackGrafanaSpec_AdminPassword : string;
  MonitorStackGrafanaSpec_Host : string;
  MonitorStackGrafanaSpec_EnforceDomain : bool;
  MonitorStackGrafanaSpec_DisableSubpath : bool;
  MonitorStackGrafanaSpec_Subpath : string;
  MonitorStackGrafanaSpec_OAuth : MonitorStackGrafanaSpecOAuth;
  MonitorStackGrafanaSpec_DbEngine : string
}.
#[global] Instance MonitorStackGrafanaSpec_eta : Eta MonitorStackGrafanaSpec := λ r,
  MkMonitorStackGrafanaSpec (MonitorStackGrafanaSpec_Disable r)
  (MonitorStackGrafanaSpec_AdminUser r) (MonitorStackGrafanaSpec_AdminPassword r)
  (MonitorStackGrafanaSpec_Host r) (MonitorStackGrafanaSpec_EnforceDomain r)
  (MonitorStackGrafanaSpec_DisableSubpath r) (MonitorStackGrafanaSpec_Subpath r)
  (MonitorStackGrafanaSpec_OAuth r) (MonitorStackGrafanaSpec_DbEngine r).
#[global] Instance MonitorStackGrafanaSpec_zero : Zero MonitorStackGrafanaSpec :=
  MkMonitorStackGrafanaSpec zero zero zero zero zero zero zero zero zero.

(*@ pkg/apis/onecloud/v1alpha1/types.go:796-802 ObjectStoreConfig *)
Record ObjectStoreConfig := MkObjectStoreConfig {
  ObjectStoreConfig_Bucket : string;
  ObjectStoreConfig_Endpoint : string;
  ObjectStoreConfig_AccessKey : string;
  ObjectStoreConfig_SecretKey : string;
  ObjectStoreConfig_Secure : bool
}.
#[global] Instance ObjectStoreConfig_eta : Eta ObjectStoreConfig := λ r, MkObjectStoreConfig
  (ObjectStoreConfig_Bucket r) (ObjectStoreConfig_Endpoint r) (ObjectStoreConfig_AccessKey r)
  (ObjectStoreConfig_SecretKey r) (ObjectStoreConfig_Secure r).
#[global] Instance ObjectStoreConfig_zero : Zero ObjectStoreConfig := MkObjectStoreConfig zero
  zero zero zero zero.

(*@ pkg/apis/onecloud/v1alpha1/types.go:804-808 MonitorStackLokiSpec *)
Record MonitorStackLokiSpec := MkMonitorStackLokiSpec {
  MonitorStackLokiSpec_Disable : bool;
  MonitorStackLokiSpec_ObjectStoreConfig : ObjectStoreConfig;
  MonitorStackLokiSpec_RetentionDays : Z
}.
#[global] Instance MonitorStackLokiSpec_eta : Eta MonitorStackLokiSpec := λ r,
  MkMonitorStackLokiSpec (MonitorStackLokiSpec_Disable r)
  (MonitorStackLokiSpec_ObjectStoreConfig r) (MonitorStackLokiSpec_RetentionDays r).
#[global] Instance MonitorStackLokiSpec_zero : Zero MonitorStackLokiSpec :=
  MkMonitorStackLokiSpec zero zero zero.

(*@ pkg/apis/onecloud/v1alpha1/types.go:814-816 ThanosSidecarSpec *)
Record ThanosSidecarSpec := MkThanosSidecarSpec {
  ThanosSidecarSpec_ObjectStoreConfig : ObjectStoreConfig
}.
#[global] Instance ThanosSidecarSpec_eta : Eta ThanosSidecarSpec := λ r, MkThanosSidecarSpec
  (ThanosSidecarSpec_ObjectStoreConfig r).
#[global] Instance ThanosSidecarSpec_zero : Zero ThanosSidecarSpec := MkThanosSidecarSpec zero.

(*@ pkg/apis/onecloud/v1alpha1/types.go:818-821 MonitorStackPrometheusSpec *)
Record MonitorStackPrometheusSpec := MkMonitorStackPrometheusSpec {
  MonitorStackPrometheusSpec_Disable : option bool;
  MonitorStackPrometheusSpec_ThanosSidecarSpec : ThanosSidecarSpec
}.
#[global] Instance MonitorStackPrometheusSpec_eta : Eta MonitorStackPrometheusSpec := λ r,
  MkMonitorStackPrometheusSpec (MonitorStackPrometheusSpec_Disable r)
  (MonitorStackPrometheusSpec_ThanosSidecarSpec r).
#[global] Instance MonitorStackPrometheusSpec_zero : Zero MonitorStackPrometheusSpec :=
  MkMonitorStackPrometheusSpec zero zero.

(*@ pkg/apis/onecloud/v1alpha1/types.go:827-829 MonitorStackThanosSpec *)
Record MonitorStackThanosSpec := MkMonitorStackThanosSpec {
  MonitorStackThanosSpec_ObjectStoreConfig : ObjectStoreConfig
}.
#[global] Instance MonitorStackThanosSpec_eta : Eta MonitorStackThanosSpec := λ r,
  MkMonitorStackThanosSpec (MonitorStackThanosSpec_ObjectStoreConfig r).
#[global] Instance MonitorStackThanosSpec_zero : Zero MonitorStackThanosSpec :=
  MkMonitorStackThanosSpec zero.

(*@ pkg/apis/onecloud/v1alpha1/types.go:835-842 MonitorStackSpec *)
Record MonitorStackSpec := MkMonitorStackSpec {
  MonitorStackSpec_Disable : bool;
  MonitorStackSpec_Minio : MonitorStackMinioSpec;
  MonitorStackSpec_Grafana : MonitorStackGrafanaSpec;
  MonitorStackSpec_Loki : MonitorStackLokiSpec;
  MonitorStackSpec_Prometheus : MonitorStackPrometheusSpec;
  MonitorStackSpec_Thanos : MonitorStackThanosSpec
}.
#[global] Instance MonitorStackSpec_eta : Eta MonitorStackSpec := λ r, MkMonitorStackSpec
  (MonitorStackSpec_Disable r) (MonitorStackSpec_Minio r) (MonitorStackSpec_Grafana r)
  (MonitorStackSpec_Loki r) (MonitorStackSpec_Prometheus r) (MonitorStackSpec_Thanos r).
#[global] Instance MonitorStackSpec_zero : Zero MonitorStackSpec := MkMonitorStackSpec zero
  zero zero zero zero zero.

(*@ pkg/apis/onecloud/v1alpha1/types.go:1062-1071 EChartsSSRSpec *)
Record EChartsSSRSpec := MkEChartsSSRSpec {
  EChartsSSRSpec_ContainerSpec : ContainerSpec;
  EChartsSSRSpec_Disable : option bool;
  EChartsSSRSpec_Replicas : Z;
  EChartsSSRSpec_Affinity : option Affinity;
  EChartsSSRSpec_NodeSelector : gmap string string;
  EChartsSSRSpec_Tolerations : list Toleration;
  EChartsSSRSpec_Annotations : gmap string string;
  EChartsSSRSpec_ImagePullSecrets : list LocalObjectReference
}.
#[global] Instance EChartsSSRSpec_eta : Eta EChartsSSRSpec := λ r, MkEChartsSSRSpec
  (EChartsSSRSpec_ContainerSpec r) (EChartsSSRSpec_Disable r) (EChartsSSRSpec_Replicas r)
  (EChartsSSRSpec_Affinity r) (EChartsSSRSpec_NodeSelector r) (EChartsSSRSpec_Tolerations r)
  (EChartsSSRSpec_Annotations r) (EChartsSSRSpec_ImagePullSecrets r).
#[global] Instance EChartsSSRSpec_zero : Zero EChartsSSRSpec := MkEChartsSSRSpec zero zero zero
  zero zero zero zero zero.

(*@ pkg/apis/onecloud/v1alpha1/types.go:1097-1106 CloudmuxSpec *)
Record CloudmuxSpec := MkCloudmuxSpec {
  CloudmuxSpec_ContainerSpec : ContainerSpec;
  CloudmuxSpec_Disable : option bool;
  CloudmuxSpec_Replicas : Z;
  CloudmuxSpec_Affinity : option Affinity;
  CloudmuxSpec_NodeSelector : gmap string string;
  CloudmuxSpec_Tolerations : list Toleration;
  CloudmuxSpec_Annotations : gmap string string;
  CloudmuxSpec_ImagePullSecrets : list LocalObjectReference
}.
#[global] Instance CloudmuxSpec_eta : Eta CloudmuxSpec := λ r, MkCloudmuxSpec
  (CloudmuxSpec_ContainerSpec r) (CloudmuxSpec_Disable r) (CloudmuxSpec_Replicas r)
  (CloudmuxSpec_Affinity r) (CloudmuxSpec_NodeSelector r) (CloudmuxSpec_Tolerations r)
  (CloudmuxSpec_Annotations r) (CloudmuxSpec_ImagePullSecrets r).
#[global] Instance CloudmuxSpec_zero : Zero CloudmuxSpec := MkCloudmuxSpec zero zero zero zero
  zero zero zero zero.

(*@ pkg/apis/onecloud/v1alpha1/types.go:221-369 OnecloudClusterSpec *)
Record OnecloudClusterSpec := MkOnecloudClusterSpec {
  OnecloudClusterSpec_DisableResourceManagement : bool;
  OnecloudClusterSpec_DisableLocalVpc : bool;
  OnecloudClusterSpec_EnableCloudNet : bool;
  OnecloudClusterSpec_EnableS3Gateway : bool;
  OnecloudClusterSpec_IPv6Cluster : bool;
  OnecloudClusterSpec_ProductVersion : string;
  OnecloudClusterSpec_UseHyperImage : bool;
  OnecloudClusterSpec_Etcd : Etcd;
  OnecloudClusterSpec_Mysql : Mysql;
  OnecloudClusterSpec_Clickhouse : Clickhouse;
  OnecloudClusterSpec_Dameng : Dameng;
  OnecloudClusterSpec_DbEngine : string;
  OnecloudClusterSpec_Version : string;
  OnecloudClusterSpec_CertSANs : list string;
  OnecloudClusterSpec_Services : list Service;
  OnecloudClusterSpec_Minio : Minio;
  OnecloudClusterSpec_ImageRepository : string;
  OnecloudClusterSpec_Region : string;
  OnecloudClusterSpec_Zone : string;
  OnecloudClusterSpec_CustomZones : list string;
  OnecloudClusterSpec_Keystone : KeystoneSpec;
  OnecloudClusterSpec_RegionServer : RegionSpec;
  OnecloudClusterSpec_RegionDNS : RegionDNSSpec;
  OnecloudClusterSpec_Scheduler : DeploymentServicePortSpec;
  OnecloudClusterSpec_Glance : GlanceSpec;
  OnecloudClusterSpec_Climc : DeploymentSpec;
  OnecloudClusterSpec_Webconsole : WebconsoleSpec;
  OnecloudClusterSpec_Logger : DeploymentServicePortSpec;
  OnecloudClusterSpec_Yunionconf : DeploymentServicePortSpec;
  OnecloudClusterSpec_Yunionagent : YunionagentSpec;
  OnecloudClusterSpec_Influxdb : InfluxdbSpec;
  OnecloudClusterSpec_VictoriaMetrics : VictoriaMetricsSpec;
  OnecloudClusterSpec_Telegraf : TelegrafSpec;
  OnecloudClusterSpec_Monitor : DeploymentServicePortSpec;
  OnecloudClusterSpec_LoadBalancerEndpoint : string;
  OnecloudClusterSpec_APIGateway : APIGatewaySpec;
  OnecloudClusterSpec_Web : WebSpec;
  OnecloudClusterSpec_KubeServer : DeploymentServicePortSpec;
  OnecloudClusterSpec_AnsibleServer : DeploymentServicePortSpec;
  OnecloudClusterSpec_Cloudnet : DeploymentServicePortSpec;
  OnecloudClusterSpec_Cloudproxy : DeploymentServicePortSpec;
  OnecloudClusterSpec_Cloudevent : DeploymentServicePortSpec;
  OnecloudClusterSpec_Notify : NotifySpec;
  OnecloudClusterSpec_Lbagent : LbagentSpec;
  OnecloudClusterSpec_HostAgent : HostAgentSpec;
  OnecloudClusterSpec_HostDeployer : DaemonSetSpec;
  OnecloudClusterSpec_HostImage : DaemonSetSpec;
  OnecloudClusterSpec_BaremetalAgent : ZoneStatefulDeploymentSpec;
  OnecloudClusterSpec_S3gateway : DeploymentServicePortSpec;
  OnecloudClusterSpec_Devtool : DeploymentServicePortSpec;
  OnecloudClusterSpec_Meter : MeterSpec;
  OnecloudClusterSpec_Billing : DeploymentServicePortSpec;
  OnecloudClusterSpec_AutoUpdate : DeploymentServicePortSpec;
  OnecloudClusterSpec_Cloudmon : CloudmonSpec;
  OnecloudClusterSpec_EsxiAgent : ZoneStatefulDeploymentSpec;
  OnecloudClusterSpec_Itsm : DeploymentServicePortSpec;
  OnecloudClusterSpec_ServiceOperator : DeploymentServicePortSpec;
  OnecloudClusterSpec_OvnNorth : DeploymentSpec;
  OnecloudClusterSpec_VpcAgent : DeploymentServicePortSpec;
  OnecloudClusterSpec_CloudId : DeploymentServicePortSpec;
  OnecloudClusterSpec_Suggestion : DeploymentServicePortSpec;
  OnecloudClusterSpec_MonitorStack : MonitorStackSpec;
  OnecloudClusterSpec_Scheduledtask : DeploymentServicePortSpec;
  OnecloudClusterSpec_ApiMap : DeploymentServicePortSpec;
  OnecloudClusterSpec_Report : DeploymentServicePortSpec;
  OnecloudClusterSpec_EChartsSSR : EChartsSSRSpec;
  OnecloudClusterSpec_BastionHost : DeploymentServicePortSpec;
  OnecloudClusterSpec_Cloudmux : CloudmuxSpec;
  OnecloudClusterSpec_Extdb : DeploymentServicePortSpec;
  OnecloudClusterSpec_LLM : DeploymentServicePortSpec;
  OnecloudClusterSpec_McpServer : DeploymentServicePortSpec;
  OnecloudClusterSpec_AiProxy : DeploymentServicePortSpec
}.
#[global] Instance OnecloudClusterSpec_eta : Eta OnecloudClusterSpec := λ r,
  MkOnecloudClusterSpec (OnecloudClusterSpec_DisableResourceManagement r)
  (OnecloudClusterSpec_DisableLocalVpc r) (OnecloudClusterSpec_EnableCloudNet r)
  (OnecloudClusterSpec_EnableS3Gateway r) (OnecloudClusterSpec_IPv6Cluster r)
  (OnecloudClusterSpec_ProductVersion r) (OnecloudClusterSpec_UseHyperImage r)
  (OnecloudClusterSpec_Etcd r) (OnecloudClusterSpec_Mysql r) (OnecloudClusterSpec_Clickhouse r)
  (OnecloudClusterSpec_Dameng r) (OnecloudClusterSpec_DbEngine r) (OnecloudClusterSpec_Version
  r) (OnecloudClusterSpec_CertSANs r) (OnecloudClusterSpec_Services r)
  (OnecloudClusterSpec_Minio r) (OnecloudClusterSpec_ImageRepository r)
  (OnecloudClusterSpec_Region r) (OnecloudClusterSpec_Zone r) (OnecloudClusterSpec_CustomZones
  r) (OnecloudClusterSpec_Keystone r) (OnecloudClusterSpec_RegionServer r)
  (OnecloudClusterSpec_RegionDNS r) (OnecloudClusterSpec_Scheduler r)
  (OnecloudClusterSpec_Glance r) (OnecloudClusterSpec_Climc r) (OnecloudClusterSpec_Webconsole
  r) (OnecloudClusterSpec_Logger r) (OnecloudClusterSpec_Yunionconf r)
  (OnecloudClusterSpec_Yunionagent r) (OnecloudClusterSpec_Influxdb r)
  (OnecloudClusterSpec_VictoriaMetrics r) (OnecloudClusterSpec_Telegraf r)
  (OnecloudClusterSpec_Monitor r) (OnecloudClusterSpec_LoadBalancerEndpoint r)
  (OnecloudClusterSpec_APIGateway r) (OnecloudClusterSpec_Web r)
  (OnecloudClusterSpec_KubeServer r) (OnecloudClusterSpec_AnsibleServer r)
  (OnecloudClusterSpec_Cloudnet r) (OnecloudClusterSpec_Cloudproxy r)
  (OnecloudClusterSpec_Cloudevent r) (OnecloudClusterSpec_Notify r)
  (OnecloudClusterSpec_Lbagent r) (OnecloudClusterSpec_HostAgent r)
  (OnecloudClusterSpec_HostDeployer r) (OnecloudClusterSpec_HostImage r)
  (OnecloudClusterSpec_BaremetalAgent r) (OnecloudClusterSpec_S3gateway r)
  (OnecloudClusterSpec_Devtool r) (OnecloudClusterSpec_Meter r) (OnecloudClusterSpec_Billing r)
  (OnecloudClusterSpec_AutoUpdate r) (OnecloudClusterSpec_Cloudmon r)
  (OnecloudClusterSpec_EsxiAgent r) (OnecloudClusterSpec_Itsm r)
  (OnecloudClusterSpec_ServiceOperator r) (OnecloudClusterSpec_OvnNorth r)
  (OnecloudClusterSpec_VpcAgent r) (OnecloudClusterSpec_CloudId r)
  (OnecloudClusterSpec_Suggestion r) (OnecloudClusterSpec_MonitorStack r)
  (OnecloudClusterSpec_Scheduledtask r) (OnecloudClusterSpec_ApiMap r)
  (OnecloudClusterSpec_Report r) (OnecloudClusterSpec_EChartsSSR r)
  (OnecloudClusterSpec_BastionHost r) (OnecloudClusterSpec_Cloudmux r)
  (OnecloudClusterSpec_Extdb r) (OnecloudClusterSpec_LLM r) (OnecloudClusterSpec_McpServer r)
  (OnecloudClusterSpec_AiProxy r).
#[global] Instance OnecloudClusterSpec_zero : Zero OnecloudClusterSpec := MkOnecloudClusterSpec
  zero zero zero zero zero zero zero zero zero zero zero zero zero zero zero zero zero zero
  zero zero zero zero zero zero zero zero zero zero zero zero zero zero zero zero zero zero
  zero zero zero zero zero zero zero zero zero zero zero zero zero zero zero zero zero zero
  zero zero zero zero zero zero zero zero zero zero zero zero zero zero zero zero zero zero.

(*@ pkg/apis/onecloud/v1alpha1/types.go:853-859 ImageStatus *)
Record ImageStatus := MkImageStatus {
  ImageStatus_Image : string;
  ImageStatus_Repository : string;
  ImageStatus_ImageName : string;
  ImageStatus_Tag : string;
  ImageStatus_ImagePullPolicy : string
}.
#[global] Instance ImageStatus_eta : Eta ImageStatus := λ r, MkImageStatus (ImageStatus_Image
  r) (ImageStatus_Repository r) (ImageStatus_ImageName r) (ImageStatus_Tag r)
  (ImageStatus_ImagePullPolicy r).
#[global] Instance ImageStatus_zero : Zero ImageStatus := MkImageStatus zero zero zero zero
  zero.

#[global] Instance ImageStatus_eq_dec : EqDecision ImageStatus.
Proof. solve_decision. Defined.

(*@ pkg/apis/onecloud/v1alpha1/types.go:861-868 DeploymentStatus *)
Record DeploymentStatus := MkDeploymentStatus {
  DeploymentStatus_Phase : string;
  DeploymentStatus_Deployment : option apps_DeploymentStatus;
  DeploymentStatus_ImageStatus : option ImageStatus;
  DeploymentStatus_SlavePhase : string;
  DeploymentStatus_SlaveDeployment : option apps_DeploymentStatus
}.
#[global] Instance DeploymentStatus_eta : Eta DeploymentStatus := λ r, MkDeploymentStatus
  (DeploymentStatus_Phase r) (DeploymentStatus_Deployment r) (DeploymentStatus_ImageStatus r)
  (DeploymentStatus_SlavePhase r) (DeploymentStatus_SlaveDeployment r).
#[global] Instance DeploymentStatus_zero : Zero DeploymentStatus := MkDeploymentStatus zero
  zero zero zero zero.

#[global] Instance DeploymentStatus_eq_dec : EqDecision DeploymentStatus.
Proof. solve_decision. Defined.

(*@ pkg/apis/onecloud/v1alpha1/types.go:871-873 KeystoneStatus *)
Record KeystoneStatus := MkKeystoneStatus {
  KeystoneStatus_DeploymentStatus : DeploymentStatus
}.
#[global] Instance KeystoneStatus_eta : Eta KeystoneStatus := λ r, MkKeystoneStatus
  (KeystoneStatus_DeploymentStatus r).
#[global] Instance KeystoneStatus_zero : Zero KeystoneStatus := MkKeystoneStatus zero.

#[global] Instance KeystoneStatus_eq_dec : EqDecision KeystoneStatus.
Proof. solve_decision. Defined.

(*@ pkg/apis/onecloud/v1alpha1/types.go:875-882 RegionStatus *)
Record RegionStatus := MkRegionStatus {
  RegionStatus_DeploymentStatus : DeploymentStatus;
  RegionStatus_RegionId : string;
  RegionStatus_RegionZoneId : string;
  RegionStatus_ZoneId : string;
  RegionStatus_WireId : string;
  RegionStatus_CustomZones : gmap string string
}.
#[global] Instance RegionStatus_eta : Eta RegionStatus := λ r, MkRegionStatus
  (RegionStatus_DeploymentStatus r) (RegionStatus_RegionId r) (RegionStatus_RegionZoneId r)
  (RegionStatus_ZoneId r) (RegionStatus_WireId r) (RegionStatus_CustomZones r).
#[global] Instance RegionStatus_zero : Zero RegionStatus := MkRegionStatus zero zero zero zero
  zero zero.

#[global] Instance RegionStatus_eq_dec : EqDecision RegionStatus.
Proof. solve_decision. Defined.

(*@ pkg/apis/onecloud/v1alpha1/types.go:884-886 GlanceStatus *)
Record GlanceStatus := MkGlanceStatus {
  GlanceStatus_DeploymentStatus : DeploymentStatus
}.
#[global] Instance GlanceStatus_eta : Eta GlanceStatus := λ r, MkGlanceStatus
  (GlanceStatus_DeploymentStatus r).
#[global] Instance GlanceStatus_zero : Zero GlanceStatus := MkGlanceStatus zero.

#[global] Instance GlanceStatus_eq_dec : EqDecision GlanceStatus.
Proof. solve_decision. Defined.

(*@ pkg/apis/onecloud/v1alpha1/types.go:905-908 BaremetalAgentStatus *)
Record BaremetalAgentStatus := MkBaremetalAgentStatus {
  BaremetalAgentStatus_DeploymentStatus : DeploymentStatus;
  BaremetalAgentStatus_ZoneBaremetalAgent : gmap string DeploymentStatus
}.
#[global] Instance BaremetalAgentStatus_eta : Eta BaremetalAgentStatus := λ r,
  MkBaremetalAgentStatus (BaremetalAgentStatus_DeploymentStatus r)
  (BaremetalAgentStatus_ZoneBaremetalAgent r).
#[global] Instance BaremetalAgentStatus_zero : Zero BaremetalAgentStatus :=
  MkBaremetalAgentStatus zero zero.

#[global] Instance BaremetalAgentStatus_eq_dec : EqDecision BaremetalAgentStatus.
Proof. solve_decision. Defined.

(*@ pkg/apis/onecloud/v1alpha1/types.go:892-894 MeterStatus *)
Record MeterStatus := MkMeterStatus {
  MeterStatus_DeploymentStatus : DeploymentStatus
}.
#[global] Instance MeterStatus_eta : Eta MeterStatus := λ r, MkMeterStatus
  (MeterStatus_DeploymentStatus r).
#[global] Instance MeterStatus_zero : Zero MeterStatus := MkMeterStatus zero.

#[global] Instance MeterStatus_eq_dec : EqDecision MeterStatus.
Proof. solve_decision. Defined.

(*@ pkg/apis/onecloud/v1alpha1/types.go:900-903 EsxiAgentStatus *)
Record EsxiAgentStatus := MkEsxiAgentStatus {
  EsxiAgentStatus_DeploymentStatus : DeploymentStatus;
  EsxiAgentStatus_ZoneEsxiAgent : gmap string DeploymentStatus
}.
#[global] Instance EsxiAgentStatus_eta : Eta EsxiAgentStatus := λ r, MkEsxiAgentStatus
  (EsxiAgentStatus_DeploymentStatus r) (EsxiAgentStatus_ZoneEsxiAgent r).
#[global] Instance EsxiAgentStatus_zero : Zero EsxiAgentStatus := MkEsxiAgentStatus zero zero.

#[global] Instance EsxiAgentStatus_eq_dec : EqDecision EsxiAgentStatus.
Proof. solve_decision. Defined.

(*@ pkg/apis/onecloud/v1alpha1/types.go:943-956 EtcdClusterCondition *)
Record EtcdClusterCondition := MkEtcdClusterCondition {
  EtcdClusterCondition_Type : string;
  EtcdClusterCondition_Status : string;
  EtcdClusterCondition_LastUpdateTime : string;
  EtcdClusterCondition_LastTransitionTime : string;
  EtcdClusterCondition_Reason : string;
  EtcdClusterCondition_Message : string
}.
#[global] Instance EtcdClusterCondition_eta : Eta EtcdClusterCondition := λ r,
  MkEtcdClusterCondition (EtcdClusterCondition_Type r) (EtcdClusterCondition_Status r)
  (EtcdClusterCondition_LastUpdateTime r) (EtcdClusterCondition_LastTransitionTime r)
  (EtcdClusterCondition_Reason r) (EtcdClusterCondition_Message r).
#[global] Instance EtcdClusterCondition_zero : Zero EtcdClusterCondition :=
  MkEtcdClusterCondition zero zero zero zero zero zero.

#[global] Instance EtcdClusterCondition_eq_dec : EqDecision EtcdClusterCondition.
Proof. solve_decision. Defined.

(*@ pkg/apis/onecloud/v1alpha1/types.go:958-964 EtcdMembersStatus *)
Record EtcdMembersStatus := MkEtcdMembersStatus {
  EtcdMembersStatus_Ready : list string;
  EtcdMembersStatus_Unready : list string
}.
#[global] Instance EtcdMembersStatus_eta : Eta EtcdMembersStatus := λ r, MkEtcdMembersStatus
  (EtcdMembersStatus_Ready r) (EtcdMembersStatus_Unready r).
#[global] Instance EtcdMembersStatus_zero : Zero EtcdMembersStatus := MkEtcdMembersStatus zero
  zero.

#[global] Instance EtcdMembersStatus_eq_dec : EqDecision EtcdMembersStatus.
Proof. solve_decision. Defined.

(*@ pkg/apis/onecloud/v1alpha1/types.go:910-936 EctdStatus *)
Record EctdStatus := MkEctdStatus {
  EctdStatus_Phase : string;
  EctdStatus_Reason : string;
  EctdStatus_Conditions : list EtcdClusterCondition;
  EctdStatus_Size : Z;
  EctdStatus_ServiceName : string;
  EctdStatus_ClientPort : Z;
  EctdStatus_ClientNodePort : Z;
  EctdStatus_Members : EtcdMembersStatus;
  EctdStatus_CurrentVersion : string;
  EctdStatus_TargetVersion : string
}.
#[global] Instance EctdStatus_eta : Eta EctdStatus := λ r, MkEctdStatus (EctdStatus_Phase r)
  (EctdStatus_Reason r) (EctdStatus_Conditions r) (EctdStatus_Size r) (EctdStatus_ServiceName
  r) (EctdStatus_ClientPort r) (EctdStatus_ClientNodePort r) (EctdStatus_Members r)
  (EctdStatus_CurrentVersion r) (EctdStatus_TargetVersion r).
#[global] Instance EctdStatus_zero : Zero EctdStatus := MkEctdStatus zero zero zero zero zero
  zero zero zero zero zero.

#[global] Instance EctdStatus_eq_dec : EqDecision EctdStatus.
Proof. solve_decision. Defined.

(*@ pkg/apis/onecloud/v1alpha1/types.go:755-757 MonitorStackComponentStatus *)
Record MonitorStackComponentStatus := MkMonitorStackComponentStatus {
  MonitorStackComponentStatus_ImageStatus : option ImageStatus
}.
#[global] Instance MonitorStackComponentStatus_eta : Eta MonitorStackComponentStatus := λ r,
  MkMonitorStackComponentStatus (MonitorStackComponentStatus_ImageStatus r).
#[global] Instance MonitorStackComponentStatus_zero : Zero MonitorStackComponentStatus :=
  MkMonitorStackComponentStatus zero.

#[global] Instance MonitorStackComponentStatus_eq_dec : EqDecision MonitorStackComponentStatus.
Proof. solve_decision. Defined.

(*@ pkg/apis/onecloud/v1alpha1/types.go:759-765 MonitorStackMinioStatus *)
Record MonitorStackMinioStatus := MkMonitorStackMinioStatus {
  MonitorStackMinioStatus_MonitorStackComponentStatus : MonitorStackComponentStatus;
  MonitorStackMinioStatus_Replicas : Z;
  MonitorStackMinioStatus_DrivesPerNode : Z
}.
#[global] Instance MonitorStackMinioStatus_eta : Eta MonitorStackMinioStatus := λ r,
  MkMonitorStackMinioStatus (MonitorStackMinioStatus_MonitorStackComponentStatus r)
  (MonitorStackMinioStatus_Replicas r) (MonitorStackMinioStatus_DrivesPerNode r).
#[global] Instance MonitorStackMinioStatus_zero : Zero MonitorStackMinioStatus :=
  MkMonitorStackMinioStatus zero zero zero.

#[global] Instance MonitorStackMinioStatus_eq_dec : EqDecision MonitorStackMinioStatus.
Proof. solve_decision. Defined.

(*@ pkg/apis/onecloud/v1alpha1/types.go:792-794 MonitorStackGrafanaStatus *)
Record MonitorStackGrafanaStatus := MkMonitorStackGrafanaStatus {
  MonitorStackGrafanaStatus_MonitorStackComponentStatus : MonitorStackComponentStatus
}.
#[global] Instance MonitorStackGrafanaStatus_eta : Eta MonitorStackGrafanaStatus := λ r,
  MkMonitorStackGrafanaStatus (MonitorStackGrafanaStatus_MonitorStackComponentStatus r).
#[global] Instance MonitorStackGrafanaStatus_zero : Zero MonitorStackGrafanaStatus :=
  MkMonitorStackGrafanaStatus zero.

#[global] Instance MonitorStackGrafanaStatus_eq_dec : EqDecision MonitorStackGrafanaStatus.
Proof. solve_decision. Defined.

(*@ pkg/apis/onecloud/v1alpha1/types.go:810-812 MonitorStackLokiStatus *)
Record MonitorStackLokiStatus := MkMonitorStackLokiStatus {
  MonitorStackLokiStatus_MonitorStackComponentStatus : MonitorStackComponentStatus
}.
#[global] Instance MonitorStackLokiStatus_eta : Eta MonitorStackLokiStatus := λ r,
  MkMonitorStackLokiStatus (MonitorStackLokiStatus_MonitorStackComponentStatus r).
#[global] Instance MonitorStackLokiStatus_zero : Zero MonitorStackLokiStatus :=
  MkMonitorStackLokiStatus zero.

#[global] Instance MonitorStackLokiStatus_eq_dec : EqDecision MonitorStackLokiStatus.
Proof. solve_decision. Defined.

(*@ pkg/apis/onecloud/v1alpha1/types.go:823-825 MonitorStackPrometheusStatus *)
Record MonitorStackPrometheusStatus := MkMonitorStackPrometheusStatus {
  MonitorStackPrometheusStatus_MonitorStackComponentStatus : MonitorStackComponentStatus
}.
#[global] Instance MonitorStackPrometheusStatus_eta : Eta MonitorStackPrometheusStatus := λ r,
  MkMonitorStackPrometheusStatus (MonitorStackPrometheusStatus_MonitorStackComponentStatus r).
#[global] Instance MonitorStackPrometheusStatus_zero : Zero MonitorStackPrometheusStatus :=
  MkMonitorStackPrometheusStatus zero.

#[global] Instance MonitorStackPrometheusStatus_eq_dec : EqDecision MonitorStackPrometheusStatus.
Proof. solve_decision. Defined.

(*@ pkg/apis/onecloud/v1alpha1/types.go:831-833 MonitorStackThanosStatus *)
Record MonitorStackThanosStatus := MkMonitorStackThanosStatus {
  MonitorStackThanosStatus_MonitorStackComponentStatus : MonitorStackComponentStatus
}.
#[global] Instance MonitorStackThanosStatus_eta : Eta MonitorStackThanosStatus := λ r,
  MkMonitorStackThanosStatus (MonitorStackThanosStatus_MonitorStackComponentStatus r).
#[global] Instance MonitorStackThanosStatus_zero : Zero MonitorStackThanosStatus :=
  MkMonitorStackThanosStatus zero.

#[global] Instance MonitorStackThanosStatus_eq_dec : EqDecision MonitorStackThanosStatus.
Proof. solve_decision. Defined.

(*@ pkg/apis/onecloud/v1alpha1/types.go:844-850 MonitorStackStatus *)
Record MonitorStackStatus := MkMonitorStackStatus {
  MonitorStackStatus_MinioStatus : MonitorStackMinioStatus;
  MonitorStackStatus_GrafanaStatus : MonitorStackGrafanaStatus;
  MonitorStackStatus_LokiStatus : MonitorStackLokiStatus;
  MonitorStackStatus_PrometheusStatus : MonitorStackPrometheusStatus;
  MonitorStackStatus_ThanosStatus : MonitorStackThanosStatus
}.
#[global] Instance MonitorStackStatus_eta : Eta MonitorStackStatus := λ r, MkMonitorStackStatus
  (MonitorStackStatus_MinioStatus r) (MonitorStackStatus_GrafanaStatus r)
  (MonitorStackStatus_LokiStatus r) (MonitorStackStatus_PrometheusStatus r)
  (MonitorStackStatus_ThanosStatus r).
#[global] Instance MonitorStackStatus_zero : Zero MonitorStackStatus := MkMonitorStackStatus
  zero zero zero zero zero.

#[global] Instance MonitorStackStatus_eq_dec : EqDecision MonitorStackStatus.
Proof. solve_decision. Defined.

(*@ pkg/apis/onecloud/v1alpha1/types.go:383-427 OnecloudClusterStatus *)
Record OnecloudClusterStatus := MkOnecloudClusterStatus {
  OnecloudClusterStatus_ClusterID : string;
  OnecloudClusterStatus_SpecChecksum : string;
  OnecloudClusterStatus_Keystone : KeystoneStatus;
  OnecloudClusterStatus_RegionServer : RegionStatus;
  OnecloudClusterStatus_Glance : GlanceStatus;
  OnecloudClusterStatus_Scheduler : DeploymentStatus;
  OnecloudClusterStatus_Webconsole : DeploymentStatus;
  OnecloudClusterStatus_Influxdb : DeploymentStatus;
  OnecloudClusterStatus_VictoriaMetrics : DeploymentStatus;
  OnecloudClusterStatus_Monitor : DeploymentStatus;
  OnecloudClusterStatus_Logger : DeploymentStatus;
  OnecloudClusterStatus_APIGateway : DeploymentStatus;
  OnecloudClusterStatus_Web : DeploymentStatus;
  OnecloudClusterStatus_Yunionconf : DeploymentStatus;
  OnecloudClusterStatus_KubeServer : DeploymentStatus;
  OnecloudClusterStatus_AnsibleServer : DeploymentStatus;
  OnecloudClusterStatus_Cloudnet : DeploymentStatus;
  OnecloudClusterStatus_Cloudproxy : DeploymentStatus;
  OnecloudClusterStatus_Cloudevent : DeploymentStatus;
  OnecloudClusterStatus_Notify : DeploymentStatus;
  OnecloudClusterStatus_BaremetalAgent : BaremetalAgentStatus;
  OnecloudClusterStatus_S3gateway : DeploymentStatus;
  OnecloudClusterStatus_Devtool : DeploymentStatus;
  OnecloudClusterStatus_Meter : MeterStatus;
  OnecloudClusterStatus_BillingStatus : DeploymentStatus;
  OnecloudClusterStatus_AutoUpdate : DeploymentStatus;
  OnecloudClusterStatus_EsxiAgent : EsxiAgentStatus;
  OnecloudClusterStatus_OvnNorth : DeploymentStatus;
  OnecloudClusterStatus_VpcAgent : DeploymentStatus;
  OnecloudClusterStatus_Etcd : EctdStatus;
  OnecloudClusterStatus_Itsm : DeploymentStatus;
  OnecloudClusterStatus_CloudId : DeploymentStatus;
  OnecloudClusterStatus_Cloudmon : DeploymentStatus;
  OnecloudClusterStatus_MonitorStack : MonitorStackStatus;
  OnecloudClusterStatus_Scheduledtask : DeploymentStatus;
  OnecloudClusterStatus_APIMap : DeploymentStatus;
  OnecloudClusterStatus_Report : DeploymentStatus;
  OnecloudClusterStatus_ECharts : DeploymentStatus;
  OnecloudClusterStatus_BastionHost : DeploymentStatus;
  OnecloudClusterStatus_Extdb : DeploymentStatus;
  OnecloudClusterStatus_LLM : DeploymentStatus;
  OnecloudClusterStatus_McpServer : DeploymentStatus;
  OnecloudClusterStatus_AiProxy : DeploymentStatus
}.
#[global] Instance OnecloudClusterStatus_eta : Eta OnecloudClusterStatus := λ r,
  MkOnecloudClusterStatus (OnecloudClusterStatus_ClusterID r)
  (OnecloudClusterStatus_SpecChecksum r) (OnecloudClusterStatus_Keystone r)
  (OnecloudClusterStatus_RegionServer r) (OnecloudClusterStatus_Glance r)
  (OnecloudClusterStatus_Scheduler r) (OnecloudClusterStatus_Webconsole r)
  (OnecloudClusterStatus_Influxdb r) (OnecloudClusterStatus_VictoriaMetrics r)
  (OnecloudClusterStatus_Monitor r) (OnecloudClusterStatus_Logger r)
  (OnecloudClusterStatus_APIGateway r) (OnecloudClusterStatus_Web r)
  (OnecloudClusterStatus_Yunionconf r) (OnecloudClusterStatus_KubeServer r)
  (OnecloudClusterStatus_AnsibleServer r) (OnecloudClusterStatus_Cloudnet r)
  (OnecloudClusterStatus_Cloudproxy r) (OnecloudClusterStatus_Cloudevent r)
  (OnecloudClusterStatus_Notify r) (OnecloudClusterStatus_BaremetalAgent r)
  (OnecloudClusterStatus_S3gateway r) (OnecloudClusterStatus_Devtool r)
  (OnecloudClusterStatus_Meter r) (OnecloudClusterStatus_BillingStatus r)
  (OnecloudClusterStatus_AutoUpdate r) (OnecloudClusterStatus_EsxiAgent r)
  (OnecloudClusterStatus_OvnNorth r) (OnecloudClusterStatus_VpcAgent r)
  (OnecloudClusterStatus_Etcd r) (OnecloudClusterStatus_Itsm r) (OnecloudClusterStatus_CloudId
  r) (OnecloudClusterStatus_Cloudmon r) (OnecloudClusterStatus_MonitorStack r)
  (OnecloudClusterStatus_Scheduledtask r) (OnecloudClusterStatus_APIMap r)
  (OnecloudClusterStatus_Report r) (OnecloudClusterStatus_ECharts r)
  (OnecloudClusterStatus_BastionHost r) (OnecloudClusterStatus_Extdb r)
  (OnecloudClusterStatus_LLM r) (OnecloudClusterStatus_McpServer r)
  (OnecloudClusterStatus_AiProxy r).
#[global] Instance OnecloudClusterStatus_zero : Zero OnecloudClusterStatus :=
  MkOnecloudClusterStatus zero zero zero zero zero zero zero zero zero zero zero zero zero zero
  zero zero zero zero zero zero zero zero zero zero zero zero zero zero zero zero zero zero
  zero zero zero zero zero zero zero zero zero zero zero.

#[global] Instance OnecloudClusterStatus_eq_dec : EqDecision OnecloudClusterStatus.
Proof. solve_decision. Defined.

(*@ pkg/apis/onecloud/v1alpha1/types.go:655-664 CronJobSpec *)
Record CronJobSpec := MkCronJobSpec {
  CronJobSpec_ContainerSpec : ContainerSpec;
  CronJobSpec_Disable : bool;
  CronJobSpec_Schedule : string;
  CronJobSpec_Affinity : option Affinity;
  CronJobSpec_NodeSelector : gmap string string;
  CronJobSpec_Tolerations : list Toleration;
  CronJobSpec_Annotations : gmap string string;
  CronJobSpec_ImagePullSecrets : list LocalObjectReference
}.
#[global] Instance CronJobSpec_eta : Eta CronJobSpec := λ r, MkCronJobSpec
  (CronJobSpec_ContainerSpec r) (CronJobSpec_Disable r) (CronJobSpec_Schedule r)
  (CronJobSpec_Affinity r) (CronJobSpec_NodeSelector r) (CronJobSpec_Tolerations r)
  (CronJobSpec_Annotations r) (CronJobSpec_ImagePullSecrets r).
#[global] Instance CronJobSpec_zero : Zero CronJobSpec := MkCronJobSpec zero zero zero zero
  zero zero zero zero.

(*@ pkg/apis/onecloud/v1alpha1/types.go:1166-1170 DBConfig *)
Record DBConfig := MkDBConfig {
  DBConfig_Database : string;
  DBConfig_Username : string;
  DBConfig_Password : string
}.
#[global] Instance DBConfig_eta : Eta DBConfig := λ r, MkDBConfig (DBConfig_Database r)
  (DBConfig_Username r) (DBConfig_Password r).
#[global] Instance DBConfig_zero : Zero DBConfig := MkDBConfig zero zero zero.

#[global] Instance DBConfig_eq_dec : EqDecision DBConfig.
Proof. solve_decision. Defined.
#[global] Instance DBConfig_countable : Countable DBConfig.
Proof.
  refine {|
  encode x := encode [encode (DBConfig_Database x); encode (DBConfig_Username x); encode
    (DBConfig_Password x)];
  decode p :=
    match (decode p : option (list positive)) with
    | Some [p1; p2; p3] =>
        x1 ← decode p1; x2 ← decode p2; x3 ← decode p3;
        Some (MkDBConfig x1 x2 x3)
    | _ => None
    end
  |}.
  record_countable_tac.
Defined.

(*@ pkg/apis/onecloud/v1alpha1/types.go:1172-1175 CloudUser *)
Record CloudUser := MkCloudUser {
  CloudUser_Username : string;
  CloudUser_Password : string
}.
#[global] Instance CloudUser_eta : Eta CloudUser := λ r, MkCloudUser (CloudUser_Username r)
  (CloudUser_Password r).
#[global] Instance CloudUser_zero : Zero CloudUser := MkCloudUser zero zero.

#[global] Instance CloudUser_eq_dec : EqDecision CloudUser.
Proof. solve_decision. Defined.
#[global] Instance CloudUser_countable : Countable CloudUser.
Proof.
  refine {|
  encode x := encode [encode (CloudUser_Username x); encode (CloudUser_Password x)];
  decode p :=
    match (decode p : option (list positive)) with
    | Some [p1; p2] =>
        x1 ← decode p1; x2 ← decode p2;
        Some (MkCloudUser x1 x2)
    | _ => None
    end
  |}.
  record_countable_tac.
Defined.

(*@ pkg/apis/onecloud/v1alpha1/types.go:1177-1179 ServiceBaseConfig *)
Record ServiceBaseConfig := MkServiceBaseConfig {
  ServiceBaseConfig_Port : Z
}.
#[global] Instance ServiceBaseConfig_eta : Eta ServiceBaseConfig := λ r, MkServiceBaseConfig
  (ServiceBaseConfig_Port r).
#[global] Instance ServiceBaseConfig_zero : Zero ServiceBaseConfig := MkServiceBaseConfig zero.

#[global] Instance ServiceBaseConfig_eq_dec : EqDecision ServiceBaseConfig.
Proof. solve_decision. Defined.
#[global] Instance ServiceBaseConfig_countable : Countable ServiceBaseConfig.
Proof.
  refine {|
  encode x := encode [encode (ServiceBaseConfig_Port x)];
  decode p :=
    match (decode p : option (list positive)) with
    | Some [p1] =>
        x1 ← decode p1;
        Some (MkServiceBaseConfig x1)
    | _ => None
    end
  |}.
  record_countable_tac.
Defined.

(*@ pkg/apis/onecloud/v1alpha1/types.go:1181-1185 ServiceCommonOptions *)
Record ServiceCommonOptions := MkServiceCommonOptions {
  ServiceCommonOptions_ServiceBaseConfig : ServiceBaseConfig;
  ServiceCommonOptions_CloudUser : CloudUser
}.
#[global] Instance ServiceCommonOptions_eta : Eta ServiceCommonOptions := λ r,
  MkServiceCommonOptions (ServiceCommonOptions_ServiceBaseConfig r)
  (ServiceCommonOptions_CloudUser r).
#[global] Instance ServiceCommonOptions_zero : Zero ServiceCommonOptions :=
  MkServiceCommonOptions zero zero.

#[global] Instance ServiceCommonOptions_eq_dec : EqDecision ServiceCommonOptions.
Proof. solve_decision. Defined.
#[global] Instance ServiceCommonOptions_countable : Countable ServiceCommonOptions.
Proof.
  refine {|
  encode x := encode [encode (ServiceCommonOptions_ServiceBaseConfig x); encode
    (ServiceCommonOptions_CloudUser x)];
  decode p :=
    match (decode p : option (list positive)) with
    | Some [p1; p2] =>
        x1 ← decode p1; x2 ← decode p2;
        Some (MkServiceCommonOptions x1 x2)
    | _ => None
    end
  |}.
  record_countable_tac.
Defined.

(*@ pkg/apis/onecloud/v1alpha1/types.go:1187-1193 KeystoneConfig *)
Record KeystoneConfig := MkKeystoneConfig {
  KeystoneConfig_ServiceBaseConfig : ServiceBaseConfig;
  KeystoneConfig_DB : DBConfig;
  KeystoneConfig_ClickhouseConf : DBConfig
}.
#[global] Instance KeystoneConfig_eta : Eta KeystoneConfig := λ r, MkKeystoneConfig
  (KeystoneConfig_ServiceBaseConfig r) (KeystoneConfig_DB r) (KeystoneConfig_ClickhouseConf r).
#[global] Instance KeystoneConfig_zero : Zero KeystoneConfig := MkKeystoneConfig zero zero
  zero.

#[global] Instance KeystoneConfig_eq_dec : EqDecision KeystoneConfig.
Proof. solve_decision. Defined.
#[global] Instance KeystoneConfig_countable : Countable KeystoneConfig.
Proof.
  refine {|
  encode x := encode [encode (KeystoneConfig_ServiceBaseConfig x); encode (KeystoneConfig_DB
    x); encode (KeystoneConfig_ClickhouseConf x)];
  decode p :=
    match (decode p : option (list positive)) with
    | Some [p1; p2; p3] =>
        x1 ← decode p1; x2 ← decode p2; x3 ← decode p3;
        Some (MkKeystoneConfig x1 x2 x3)
    | _ => None
    end
  |}.
  record_countable_tac.
Defined.

(*@ pkg/apis/onecloud/v1alpha1/types.go:1195-1201 ServiceDBCommonOptions *)
Record ServiceDBCommonOptions := MkServiceDBCommonOptions {
  ServiceDBCommonOptions_ServiceCommonOptions : ServiceCommonOptions;
  ServiceDBCommonOptions_DB : DBConfig;
  ServiceDBCommonOptions_ClickhouseConf : DBConfig
}.
#[global] Instance ServiceDBCommonOptions_eta : Eta ServiceDBCommonOptions := λ r,
  MkServiceDBCommonOptions (ServiceDBCommonOptions_ServiceCommonOptions r)
  (ServiceDBCommonOptions_DB r) (ServiceDBCommonOptions_ClickhouseConf r).
#[global] Instance ServiceDBCommonOptions_zero : Zero ServiceDBCommonOptions :=
  MkServiceDBCommonOptions zero zero zero.

#[global] Instance ServiceDBCommonOptions_eq_dec : EqDecision ServiceDBCommonOptions.
Proof. solve_decision. Defined.
#[global] Instance ServiceDBCommonOptions_countable : Countable ServiceDBCommonOptions.
Proof.
  refine {|
  encode x := encode [encode (ServiceDBCommonOptions_ServiceCommonOptions x); encode
    (ServiceDBCommonOptions_DB x); encode (ServiceDBCommonOptions_ClickhouseConf x)];
  decode p :=
    match (decode p : option (list positive)) with
    | Some [p1; p2; p3] =>
        x1 ← decode p1; x2 ← decode p2; x3 ← decode p3;
        Some (MkServiceDBCommonOptions x1 x2 x3)
    | _ => None
    end
  |}.
  record_countable_tac.
Defined.

(*@ pkg/apis/onecloud/v1alpha1/types.go:1203-1205 RegionConfig *)
Record RegionConfig := MkRegionConfig {
  RegionConfig_ServiceDBCommonOptions : ServiceDBCommonOptions
}.
#[global] Instance RegionConfig_eta : Eta RegionConfig := λ r, MkRegionConfig
  (RegionConfig_ServiceDBCommonOptions r).
#[global] Instance RegionConfig_zero : Zero RegionConfig := MkRegionConfig zero.

#[global] Instance RegionConfig_eq_dec : EqDecision RegionConfig.
Proof. solve_decision. Defined.
#[global] Instance RegionConfig_countable : Countable RegionConfig.
Proof.
  refine {|
  encode x := encode [encode (RegionConfig_ServiceDBCommonOptions x)];
  decode p :=
    match (decode p : option (list positive)) with
    | Some [p1] =>
        x1 ← decode p1;
        Some (MkRegionConfig x1)
    | _ => None
    end
  |}.
  record_countable_tac.
Defined.

(*@ pkg/apis/onecloud/v1alpha1/types.go:1207-1209 GlanceConfig *)
Record GlanceConfig := MkGlanceConfig {
  GlanceConfig_ServiceDBCommonOptions : ServiceDBCommonOptions
}.
#[global] Instance GlanceConfig_eta : Eta GlanceConfig := λ r, MkGlanceConfig
  (GlanceConfig_ServiceDBCommonOptions r).
#[global] Instance GlanceConfig_zero : Zero GlanceConfig := MkGlanceConfig zero.

#[global] Instance GlanceConfig_eq_dec : EqDecision GlanceConfig.
Proof. solve_decision. Defined.
#[global] Instance GlanceConfig_countable : Countable GlanceConfig.
Proof.
  refine {|
  encode x := encode [encode (GlanceConfig_ServiceDBCommonOptions x)];
  decode p :=
    match (decode p : option (list positive)) with
    | Some [p1] =>
        x1 ← decode p1;
        Some (MkGlanceConfig x1)
    | _ => None
    end
  |}.
  record_countable_tac.
Defined.

(*@ pkg/apis/onecloud/v1alpha1/types.go:1211-1213 MeterConfig *)
Record MeterConfig := MkMeterConfig {
  MeterConfig_ServiceDBCommonOptions : ServiceDBCommonOptions
}.
#[global] Instance MeterConfig_eta : Eta MeterConfig := λ r, MkMeterConfig
  (MeterConfig_ServiceDBCommonOptions r).
#[global] Instance MeterConfig_zero : Zero MeterConfig := MkMeterConfig zero.

#[global] Instance MeterConfig_eq_dec : EqDecision MeterConfig.
Proof. solve_decision. Defined.
#[global] Instance MeterConfig_countable : Countable MeterConfig.
Proof.
  refine {|
  encode x := encode [encode (MeterConfig_ServiceDBCommonOptions x)];
  decode p :=
    match (decode p : option (list positive)) with
    | Some [p1] =>
        x1 ← decode p1;
        Some (MkMeterConfig x1)
    | _ => None
    end
  |}.
  record_countable_tac.
Defined.

(*@ pkg/apis/onecloud/v1alpha1/types.go:1215-1217 HostConfig *)
Record HostConfig := MkHostConfig {
  HostConfig_ServiceCommonOptions : ServiceCommonOptions
}.
#[global] Instance HostConfig_eta : Eta HostConfig := λ r, MkHostConfig
  (HostConfig_ServiceCommonOptions r).
#[global] Instance HostConfig_zero : Zero HostConfig := MkHostConfig zero.

#[global] Instance HostConfig_eq_dec : EqDecision HostConfig.
Proof. solve_decision. Defined.
#[global] Instance HostConfig_countable : Countable HostConfig.
Proof.
  refine {|
  encode x := encode [encode (HostConfig_ServiceCommonOptions x)];
  decode p :=
    match (decode p : option (list positive)) with
    | Some [p1] =>
        x1 ← decode p1;
        Some (MkHostConfig x1)
    | _ => None
    end
  |}.
  record_countable_tac.
Defined.

(*@ pkg/apis/onecloud/v1alpha1/types.go:1219-1221 LbagentConfig *)
Record LbagentConfig := MkLbagentConfig {
  LbagentConfig_ServiceCommonOptions : ServiceCommonOptions
}.
#[global] Instance LbagentConfig_eta : Eta LbagentConfig := λ r, MkLbagentConfig
  (LbagentConfig_ServiceCommonOptions r).
#[global] Instance LbagentConfig_zero : Zero LbagentConfig := MkLbagentConfig zero.

#[global] Instance LbagentConfig_eq_dec : EqDecision LbagentConfig.
Proof. solve_decision. Defined.
#[global] Instance LbagentConfig_countable : Countable LbagentConfig.
Proof.
  refine {|
  encode x := encode [encode (LbagentConfig_ServiceCommonOptions x)];
  decode p :=
    match (decode p : option (list positive)) with
    | Some [p1] =>
        x1 ← decode p1;
        Some (MkLbagentConfig x1)
    | _ => None
    end
  |}.
  record_countable_tac.
Defined.

(*@ pkg/apis/onecloud/v1alpha1/types.go:1223-1225 BaremetalConfig *)
Record BaremetalConfig := MkBaremetalConfig {
  BaremetalConfig_ServiceCommonOptions : ServiceCommonOptions
}.
#[global] Instance BaremetalConfig_eta : Eta BaremetalConfig := λ r, MkBaremetalConfig
  (BaremetalConfig_ServiceCommonOptions r).
#[global] Instance BaremetalConfig_zero : Zero BaremetalConfig := MkBaremetalConfig zero.

#[global] Instance BaremetalConfig_eq_dec : EqDecision BaremetalConfig.
Proof. solve_decision. Defined.
#[global] Instance BaremetalConfig_countable : Countable BaremetalConfig.
Proof.
  refine {|
  encode x := encode [encode (BaremetalConfig_ServiceCommonOptions x)];
  decode p :=
    match (decode p : option (list positive)) with
    | Some [p1] =>
        x1 ← decode p1;
        Some (MkBaremetalConfig x1)
    | _ => None
    end
  |}.
  record_countable_tac.
Defined.

(*@ pkg/apis/onecloud/v1alpha1/types.go:1227-1229 EsxiAgentConfig *)
Record EsxiAgentConfig := MkEsxiAgentConfig {
  EsxiAgentConfig_ServiceCommonOptions : ServiceCommonOptions
}.
#[global] Instance EsxiAgentConfig_eta : Eta EsxiAgentConfig := λ r, MkEsxiAgentConfig
  (EsxiAgentConfig_ServiceCommonOptions r).
#[global] Instance EsxiAgentConfig_zero : Zero EsxiAgentConfig := MkEsxiAgentConfig zero.

#[global] Instance EsxiAgentConfig_eq_dec : EqDecision EsxiAgentConfig.
Proof. solve_decision. Defined.
#[global] Instance EsxiAgentConfig_countable : Countable EsxiAgentConfig.
Proof.
  refine {|
  encode x := encode [encode (EsxiAgentConfig_ServiceCommonOptions x)];
  decode p :=
    match (decode p : option (list positive)) with
    | Some [p1] =>
        x1 ← decode p1;
        Some (MkEsxiAgentConfig x1)
    | _ => None
    end
  |}.
  record_countable_tac.
Defined.

(*@ pkg/apis/onecloud/v1alpha1/types.go:1231-1233 VpcAgentConfig *)
Record VpcAgentConfig := MkVpcAgentConfig {
  VpcAgentConfig_ServiceCommonOptions : ServiceCommonOptions
}.
#[global] Instance VpcAgentConfig_eta : Eta VpcAgentConfig := λ r, MkVpcAgentConfig
  (VpcAgentConfig_ServiceCommonOptions r).
#[global] Instance VpcAgentConfig_zero : Zero VpcAgentConfig := MkVpcAgentConfig zero.

#[global] Instance VpcAgentConfig_eq_dec : EqDecision VpcAgentConfig.
Proof. solve_decision. Defined.
#[global] Instance VpcAgentConfig_countable : Countable VpcAgentConfig.
Proof.
  refine {|
  encode x := encode [encode (VpcAgentConfig_ServiceCommonOptions x)];
  decode p :=
    match (decode p : option (list positive)) with
    | Some [p1] =>
        x1 ← decode p1;
        Some (MkVpcAgentConfig x1)
    | _ => None
    end
  |}.
  record_countable_tac.
Defined.

(*@ pkg/apis/onecloud/v1alpha1/types.go:1235-1237 APIMapConfig *)
Record APIMapConfig := MkAPIMapConfig {
  APIMapConfig_ServiceCommonOptions : ServiceCommonOptions
}.
#[global] Instance APIMapConfig_eta : Eta APIMapConfig := λ r, MkAPIMapConfig
  (APIMapConfig_ServiceCommonOptions r).
#[global] Instance APIMapConfig_zero : Zero APIMapConfig := MkAPIMapConfig zero.

#[global] Instance APIMapConfig_eq_dec : EqDecision APIMapConfig.
Proof. solve_decision. Defined.
#[global] Instance APIMapConfig_countable : Countable APIMapConfig.
Proof.
  refine {|
  encode x := encode [encode (APIMapConfig_ServiceCommonOptions x)];
  decode p :=
    match (decode p : option (list positive)) with
    | Some [p1] =>
        x1 ← decode p1;
        Some (MkAPIMapConfig x1)
    | _ => None
    end
  |}.
  record_countable_tac.
Defined.

(*@ pkg/apis/onecloud/v1alpha1/types.go:1239-1243 ItsmConfig *)
Record ItsmConfig := MkItsmConfig {
  ItsmConfig_ServiceDBCommonOptions : ServiceDBCommonOptions;
  ItsmConfig_SecondDatabase : string;
  ItsmConfig_EncryptionKey : string
}.
#[global] Instance ItsmConfig_eta : Eta ItsmConfig := λ r, MkItsmConfig
  (ItsmConfig_ServiceDBCommonOptions r) (ItsmConfig_SecondDatabase r) (ItsmConfig_EncryptionKey
  r).
#[global] Instance ItsmConfig_zero : Zero ItsmConfig := MkItsmConfig zero zero zero.

#[global] Instance ItsmConfig_eq_dec : EqDecision ItsmConfig.
Proof. solve_decision. Defined.
#[global] Instance ItsmConfig_countable : Countable ItsmConfig.
Proof.
  refine {|
  encode x := encode [encode (ItsmConfig_ServiceDBCommonOptions x); encode
    (ItsmConfig_SecondDatabase x); encode (ItsmConfig_EncryptionKey x)];
  decode p :=
    match (decode p : option (list positive)) with
    | Some [p1; p2; p3] =>
        x1 ← decode p1; x2 ← decode p2; x3 ← decode p3;
        Some (MkItsmConfig x1 x2 x3)
    | _ => None
    end
  |}.
  record_countable_tac.
Defined.

(*@ pkg/apis/onecloud/v1alpha1/types.go:1245-1247 GrafanaConfig *)
Record GrafanaConfig := MkGrafanaConfig {
  GrafanaConfig_DB : DBConfig
}.
#[global] Instance GrafanaConfig_eta : Eta GrafanaConfig := λ r, MkGrafanaConfig
  (GrafanaConfig_DB r).
#[global] Instance GrafanaConfig_zero : Zero GrafanaConfig := MkGrafanaConfig zero.

#[global] Instance GrafanaConfig_eq_dec : EqDecision GrafanaConfig.
Proof. solve_decision. Defined.
#[global] Instance GrafanaConfig_countable : Countable GrafanaConfig.
Proof.
  refine {|
  encode x := encode [encode (GrafanaConfig_DB x)];
  decode p :=
    match (decode p : option (list positive)) with
    | Some [p1] =>
        x1 ← decode p1;
        Some (MkGrafanaConfig x1)
    | _ => None
    end
  |}.
  record_countable_tac.
Defined.

(*@ pkg/apis/onecloud/v1alpha1/types.go:1249-1254 GlobalServiceCommonConfig *)
Record GlobalServiceCommonConfig := MkGlobalServiceCommonConfig {
  GlobalServiceCommonConfig_CronJobWorkerCount : Z;
  GlobalServiceCommonConfig_LocalTaskWorkerCount : Z;
  GlobalServiceCommonConfig_RequestWorkerCount : Z;
  GlobalServiceCommonConfig_TaskWorkerCount : Z
}.
#[global] Instance GlobalServiceCommonConfig_eta : Eta GlobalServiceCommonConfig := λ r,
  MkGlobalServiceCommonConfig (GlobalServiceCommonConfig_CronJobWorkerCount r)
  (GlobalServiceCommonConfig_LocalTaskWorkerCount r)
  (GlobalServiceCommonConfig_RequestWorkerCount r) (GlobalServiceCommonConfig_TaskWorkerCount
  r).
#[global] Instance GlobalServiceCommonConfig_zero : Zero GlobalServiceCommonConfig :=
  MkGlobalServiceCommonConfig zero zero zero zero.

#[global] Instance GlobalServiceCommonConfig_eq_dec : EqDecision GlobalServiceCommonConfig.
Proof. solve_decision. Defined.
#[global] Instance GlobalServiceCommonConfig_countable : Countable GlobalServiceCommonConfig.
Proof.
  refine {|
  encode x := encode [encode (GlobalServiceCommonConfig_CronJobWorkerCount x); encode
    (GlobalServiceCommonConfig_LocalTaskWorkerCount x); encode
    (GlobalServiceCommonConfig_RequestWorkerCount x); encode
    (GlobalServiceCommonConfig_TaskWorkerCount x)];
  decode p :=
    match (decode p : option (list positive)) with
    | Some [p1; p2; p3; p4] =>
        x1 ← decode p1; x2 ← decode p2; x3 ← decode p3; x4 ← decode p4;
        Some (MkGlobalServiceCommonConfig x1 x2 x3 x4)
    | _ => None
    end
  |}.
  record_countable_tac.
Defined.

(*@ pkg/apis/onecloud/v1alpha1/types.go:1258-1300 OnecloudClusterConfig *)
Record OnecloudClusterConfig := MkOnecloudClusterConfig {
  OnecloudClusterConfig_CommonConfig : GlobalServiceCommonConfig;
  OnecloudClusterConfig_Keystone : KeystoneConfig;
  OnecloudClusterConfig_RegionServer : RegionConfig;
  OnecloudClusterConfig_Glance : GlanceConfig;
  OnecloudClusterConfig_Webconsole : ServiceDBCommonOptions;
  OnecloudClusterConfig_Logger : ServiceDBCommonOptions;
  OnecloudClusterConfig_Yunionconf : ServiceDBCommonOptions;
  OnecloudClusterConfig_Yunionagent : ServiceDBCommonOptions;
  OnecloudClusterConfig_KubeServer : ServiceDBCommonOptions;
  OnecloudClusterConfig_AnsibleServer : ServiceDBCommonOptions;
  OnecloudClusterConfig_Monitor : ServiceDBCommonOptions;
  OnecloudClusterConfig_Suggestion : ServiceDBCommonOptions;
  OnecloudClusterConfig_Cloudnet : ServiceDBCommonOptions;
  OnecloudClusterConfig_Cloudproxy : ServiceDBCommonOptions;
  OnecloudClusterConfig_Cloudevent : ServiceDBCommonOptions;
  OnecloudClusterConfig_APIGateway : ServiceCommonOptions;
  OnecloudClusterConfig_Cloudmon : ServiceCommonOptions;
  OnecloudClusterConfig_Notify : ServiceDBCommonOptions;
  OnecloudClusterConfig_HostAgent : HostConfig;
  OnecloudClusterConfig_Lbagent : LbagentConfig;
  OnecloudClusterConfig_BaremetalAgent : BaremetalConfig;
  OnecloudClusterConfig_S3gateway : ServiceCommonOptions;
  OnecloudClusterConfig_Devtool : ServiceDBCommonOptions;
  OnecloudClusterConfig_Meter : MeterConfig;
  OnecloudClusterConfig_Billing : ServiceDBCommonOptions;
  OnecloudClusterConfig_AutoUpdate : ServiceDBCommonOptions;
  OnecloudClusterConfig_EsxiAgent : EsxiAgentConfig;
  OnecloudClusterConfig_VpcAgent : VpcAgentConfig;
  OnecloudClusterConfig_ServiceOperator : ServiceCommonOptions;
  OnecloudClusterConfig_Itsm : ItsmConfig;
  OnecloudClusterConfig_CloudId : ServiceDBCommonOptions;
  OnecloudClusterConfig_Report : ServiceDBCommonOptions;
  OnecloudClusterConfig_Grafana : GrafanaConfig;
  OnecloudClusterConfig_BastionHost : ServiceDBCommonOptions;
  OnecloudClusterConfig_Extdb : ServiceDBCommonOptions;
  OnecloudClusterConfig_LLM : ServiceDBCommonOptions;
  OnecloudClusterConfig_McpServer : ServiceDBCommonOptions;
  OnecloudClusterConfig_AiProxy : ServiceDBCommonOptions;
  OnecloudClusterConfig_ApiMap : APIMapConfig
}.
#[global] Instance OnecloudClusterConfig_eta : Eta OnecloudClusterConfig := λ r,
  MkOnecloudClusterConfig (OnecloudClusterConfig_CommonConfig r)
  (OnecloudClusterConfig_Keystone r) (OnecloudClusterConfig_RegionServer r)
  (OnecloudClusterConfig_Glance r) (OnecloudClusterConfig_Webconsole r)
  (OnecloudClusterConfig_Logger r) (OnecloudClusterConfig_Yunionconf r)
  (OnecloudClusterConfig_Yunionagent r) (OnecloudClusterConfig_KubeServer r)
  (OnecloudClusterConfig_AnsibleServer r) (OnecloudClusterConfig_Monitor r)
  (OnecloudClusterConfig_Suggestion r) (OnecloudClusterConfig_Cloudnet r)
  (OnecloudClusterConfig_Cloudproxy r) (OnecloudClusterConfig_Cloudevent r)
  (OnecloudClusterConfig_APIGateway r) (OnecloudClusterConfig_Cloudmon r)
  (OnecloudClusterConfig_Notify r) (OnecloudClusterConfig_HostAgent r)
  (OnecloudClusterConfig_Lbagent r) (OnecloudClusterConfig_BaremetalAgent r)
  (OnecloudClusterConfig_S3gateway r) (OnecloudClusterConfig_Devtool r)
  (OnecloudClusterConfig_Meter r) (OnecloudClusterConfig_Billing r)
  (OnecloudClusterConfig_AutoUpdate r) (OnecloudClusterConfig_EsxiAgent r)
  (OnecloudClusterConfig_VpcAgent r) (OnecloudClusterConfig_ServiceOperator r)
  (OnecloudClusterConfig_Itsm r) (OnecloudClusterConfig_CloudId r)
  (OnecloudClusterConfig_Report r) (OnecloudClusterConfig_Grafana r)
  (OnecloudClusterConfig_BastionHost r) (OnecloudClusterConfig_Extdb r)
  (OnecloudClusterConfig_LLM r) (OnecloudClusterConfig_McpServer r)
  (OnecloudClusterConfig_AiProxy r) (OnecloudClusterConfig_ApiMap r).
#[global] Instance OnecloudClusterConfig_zero : Zero OnecloudClusterConfig :=
  MkOnecloudClusterConfig zero zero zero zero zero zero zero zero zero zero zero zero zero zero
  zero zero zero zero zero zero zero zero zero zero zero zero zero zero zero zero zero zero
  zero zero zero zero zero zero zero.

#[global] Instance OnecloudClusterConfig_eq_dec : EqDecision OnecloudClusterConfig.
Proof. solve_decision. Defined.
#[global] Instance OnecloudClusterConfig_countable : Countable OnecloudClusterConfig.
Proof.
  refine {|
  encode x := encode [encode (OnecloudClusterConfig_CommonConfig x); encode
    (OnecloudClusterConfig_Keystone x); encode (OnecloudClusterConfig_RegionServer x);
    encode (OnecloudClusterConfig_Glance x); encode (OnecloudClusterConfig_Webconsole x);
    encode (OnecloudClusterConfig_Logger x); encode (OnecloudClusterConfig_Yunionconf x);
    encode (OnecloudClusterConfig_Yunionagent x); encode (OnecloudClusterConfig_KubeServer
    x); encode (OnecloudClusterConfig_AnsibleServer x); encode
    (OnecloudClusterConfig_Monitor x); encode (OnecloudClusterConfig_Suggestion x); encode
    (OnecloudClusterConfig_Cloudnet x); encode (OnecloudClusterConfig_Cloudproxy x); encode
    (OnecloudClusterConfig_Cloudevent x); encode (OnecloudClusterConfig_APIGateway x);
    encode (OnecloudClusterConfig_Cloudmon x); encode (OnecloudClusterConfig_Notify x);
    encode (OnecloudClusterConfig_HostAgent x); encode (OnecloudClusterConfig_Lbagent x);
    encode (OnecloudClusterConfig_BaremetalAgent x); encode (OnecloudClusterConfig_S3gateway
    x); encode (OnecloudClusterConfig_Devtool x); encode (OnecloudClusterConfig_Meter x);
    encode (OnecloudClusterConfig_Billing x); encode (OnecloudClusterConfig_AutoUpdate x);
    encode (OnecloudClusterConfig_EsxiAgent x); encode (OnecloudClusterConfig_VpcAgent x);
    encode (OnecloudClusterConfig_ServiceOperator x); encode (OnecloudClusterConfig_Itsm x);
    encode (OnecloudClusterConfig_CloudId x); encode (OnecloudClusterConfig_Report x);
    encode (OnecloudClusterConfig_Grafana x); encode (OnecloudClusterConfig_BastionHost x);
    encode (OnecloudClusterConfig_Extdb x); encode (OnecloudClusterConfig_LLM x); encode
    (OnecloudClusterConfig_McpServer x); encode (OnecloudClusterConfig_AiProxy x); encode
    (OnecloudClusterConfig_ApiMap x)];
  decode p :=
    match (decode p : option (list positive)) with
    | Some [p1; p2; p3; p4; p5; p6; p7; p8; p9; p10; p11; p12; p13; p14; p15; p16; p17; p18;
        p19; p20; p21; p22; p23; p24; p25; p26; p27; p28; p29; p30; p31; p32; p33; p34; p35;
        p36; p37; p38; p39] =>
        x1 ← decode p1; x2 ← decode p2; x3 ← decode p3; x4 ← decode p4; x5 ← decode p5; x6 ←
        decode p6; x7 ← decode p7; x8 ← decode p8; x9 ← decode p9; x10 ← decode p10; x11 ←
        decode p11; x12 ← decode p12; x13 ← decode p13; x14 ← decode p14; x15 ← decode p15;
        x16 ← decode p16; x17 ← decode p17; x18 ← decode p18; x19 ← decode p19; x20 ← decode
        p20; x21 ← decode p21; x22 ← decode p22; x23 ← decode p23; x24 ← decode p24; x25 ←
        decode p25; x26 ← decode p26; x27 ← decode p27; x28 ← decode p28; x29 ← decode p29;
        x30 ← decode p30; x31 ← decode p31; x32 ← decode p32; x33 ← decode p33; x34 ← decode
        p34; x35 ← decode p35; x36 ← decode p36; x37 ← decode p37; x38 ← decode p38; x39 ←
        decode p39;
        Some (MkOnecloudClusterConfig x1 x2 x3 x4 x5 x6 x7 x8 x9 x10 x11 x12 x13 x14 x15 x16
          x17 x18 x19 x20 x21 x22 x23 x24 x25 x26 x27 x28 x29 x30 x31 x32 x33 x34 x35 x36
          x37 x38 x39)
    | _ => None
    end
  |}.
  record_countable_tac.
Defined.

(** The custom resource itself. *)
(*@ pkg/apis/onecloud/v1alpha1/types.go:200-209 OnecloudCluster *)
Record OnecloudCluster := MkOnecloudCluster {
  OnecloudCluster_ObjectMeta : ObjectMeta;
  OnecloudCluster_Spec : OnecloudClusterSpec;
  OnecloudCluster_Status : OnecloudClusterStatus
}.
#[global] Instance OnecloudCluster_eta : Eta OnecloudCluster := λ r, MkOnecloudCluster
  (OnecloudCluster_ObjectMeta r) (OnecloudCluster_Spec r) (OnecloudCluster_Status r).
#[global] Instance OnecloudCluster_zero : Zero OnecloudCluster := MkOnecloudCluster zero zero zero.
