(* ===== verification/Constants.v ===== *)
(** * Constants: [pkg/apis/constants/constants.go]

    The names, ports, labels, data bases and users of the services, and the
    constants of [pkg/apis/onecloud/v1alpha1/defaults.go]. Integers are [Z]. *)

From S2P Require Import Prelude.

Open Scope string_scope.

(*@ pkg/apis/constants/constants.go:27-27 ManagedByLabelKey *)
Definition ManagedByLabelKey : string := "app.kubernetes.io/managed-by".
(*@ pkg/apis/constants/constants.go:29-29 ComponentLabelKey *)
Definition ComponentLabelKey : string := "app.kubernetes.io/component".
(*@ pkg/apis/constants/constants.go:32-32 NameLabelKey *)
Definition NameLabelKey : string := "app.kubernetes.io/name".
(*@ pkg/apis/constants/constants.go:35-35 InstanceLabelKey *)
Definition InstanceLabelKey : string := "app.kubernetes.io/instance".
(*@ pkg/apis/constants/constants.go:36-36 AppLabelKey *)
Definition AppLabelKey : string := "app".
(*@ pkg/apis/constants/constants.go:37-37 ZoneLabelKey *)
Definition ZoneLabelKey : string := "zone".
(*@ pkg/apis/constants/constants.go:41-41 LabelNodeRoleMaster *)
Definition LabelNodeRoleMaster : string := "node-role.kubernetes.io/master".
(*@ pkg/apis/constants/constants.go:43-43 ServiceAccountOnecloudOperator *)
Definition ServiceAccountOnecloudOperator : string := "onecloud-operator".
(*@ pkg/apis/constants/constants.go:47-47 OnecloudEditionAnnotationKey *)
Definition OnecloudEditionAnnotationKey : string := "onecloud.yunion.io/edition".
(*@ pkg/apis/constants/constants.go:48-48 OnecloudEnableHostLabelKey *)
Definition OnecloudEnableHostLabelKey : string := "onecloud.yunion.io/host".
(*@ pkg/apis/constants/constants.go:49-49 OnecloudEanbleBaremetalLabelKey *)
Definition OnecloudEanbleBaremetalLabelKey : string := "onecloud.yunion.io/baremetal".
(*@ pkg/apis/constants/constants.go:50-50 OnecloudControllerLabelKey *)
Definition OnecloudControllerLabelKey : string := "onecloud.yunion.io/controller".
(*@ pkg/apis/constants/constants.go:51-51 OnecloudHostDeployerLabelKey *)
Definition OnecloudHostDeployerLabelKey : string := "onecloud.yunion.io/host-deployer".
(*@ pkg/apis/constants/constants.go:52-52 OnecloudEnableLbagentLabelKey *)
Definition OnecloudEnableLbagentLabelKey : string := "onecloud.yunion.io/lbagent".
(*@ pkg/apis/constants/constants.go:53-53 OnecloudCommunityEdition *)
Definition OnecloudCommunityEdition : string := "ce".
(*@ pkg/apis/constants/constants.go:54-54 OnecloudEnterpriseSupportEdition *)
Definition OnecloudEnterpriseSupportEdition : string := "ce/support".
(*@ pkg/apis/constants/constants.go:55-55 OnecloudEnterpriseEdition *)
Definition OnecloudEnterpriseEdition : string := "ee".
(*@ pkg/apis/constants/constants.go:57-57 WebCEImageName *)
Definition WebCEImageName : string := "web".
(*@ pkg/apis/constants/constants.go:58-58 APIGatewayCEImageName *)
Definition APIGatewayCEImageName : string := "apigateway".
(*@ pkg/apis/constants/constants.go:59-59 WebEEImageName *)
Definition WebEEImageName : string := "web-ee".
(*@ pkg/apis/constants/constants.go:60-60 APIGatewayEEImageName *)
Definition APIGatewayEEImageName : string := "apigateway-ee".
(*@ pkg/apis/constants/constants.go:62-62 RegionCEImageName *)
Definition RegionCEImageName : string := "region".
(*@ pkg/apis/constants/constants.go:63-63 RegionEEImageName *)
Definition RegionEEImageName : string := "region-ee".
(*@ pkg/apis/constants/constants.go:65-65 McpServerCEImageName *)
Definition McpServerCEImageName : string := "mcp-server".
(*@ pkg/apis/constants/constants.go:66-66 McpServerEEImageName *)
Definition McpServerEEImageName : string := "mcp-server-ee".
(*@ pkg/apis/constants/constants.go:70-70 OnecloudClusterKind *)
Definition OnecloudClusterKind : string := "OnecloudCluster".
(*@ pkg/apis/constants/constants.go:71-71 OnecloudClusterConfigKind *)
Definition OnecloudClusterConfigKind : string := "OnecloudClusterConfig".
(*@ pkg/apis/constants/constants.go:72-72 OnecloudClusterConfigConfigMapKey *)
Definition OnecloudClusterConfigConfigMapKey := OnecloudClusterConfigKind.
(*@ pkg/apis/constants/constants.go:76-76 OnecloudMinioNamespace *)
Definition OnecloudMinioNamespace : string := "onecloud-minio".
(*@ pkg/apis/constants/constants.go:77-77 OnecloudMinioSecret *)
Definition OnecloudMinioSecret : string := "minio".
(*@ pkg/apis/constants/constants.go:78-78 OnecloudMinioSvc *)
Definition OnecloudMinioSvc : string := "minio".
(*@ pkg/apis/constants/constants.go:82-82 MonitorStackNamespace *)
Definition MonitorStackNamespace : string := "onecloud-monitoring".
(*@ pkg/apis/constants/constants.go:84-84 MonitorMinioName *)
Definition MonitorMinioName : string := "monitor-minio".
(*@ pkg/apis/constants/constants.go:85-85 MonitorThanosQuery *)
Definition MonitorThanosQuery : string := "thanos-query".
(*@ pkg/apis/constants/constants.go:86-86 MonitorGrafana *)
Definition MonitorGrafana : string := "monitor-grafana".
(*@ pkg/apis/constants/constants.go:87-87 MonitorStackGrafanaDB *)
Definition MonitorStackGrafanaDB : string := "grafana".
(*@ pkg/apis/constants/constants.go:88-88 MonitorStackGrafanaDBUer *)
Definition MonitorStackGrafanaDBUer : string := "grafana".
(*@ pkg/apis/constants/constants.go:89-89 MonitorLoki *)
Definition MonitorLoki : string := "monitor-loki".
(*@ pkg/apis/constants/constants.go:90-90 MonitorPrometheus *)
Definition MonitorPrometheus : string := "prometheus-monitor-monitor-stack-prometheus".
(*@ pkg/apis/constants/constants.go:92-92 MonitorBucketThanos *)
Definition MonitorBucketThanos : string := "thanos".
(*@ pkg/apis/constants/constants.go:93-93 MonitorBucketLoki *)
Definition MonitorBucketLoki : string := "loki".
(*@ pkg/apis/constants/constants.go:94-94 MonitorBucketAiProxy *)
Definition MonitorBucketAiProxy : string := "aiproxy-log".
(*@ pkg/apis/constants/constants.go:95-95 MonitorBucketAiProxyRetentionDays *)
Definition MonitorBucketAiProxyRetentionDays : Z := 90%Z.
(*@ pkg/apis/constants/constants.go:99-99 SysAdminUsername *)
Definition SysAdminUsername : string := "sysadmin".
(*@ pkg/apis/constants/constants.go:100-100 SysAdminProject *)
Definition SysAdminProject : string := "system".
(*@ pkg/apis/constants/constants.go:101-101 DefaultDomain *)
Definition DefaultDomain : string := "Default".
(*@ pkg/apis/constants/constants.go:104-104 KeystoneDB *)
Definition KeystoneDB : string := "keystone".
(*@ pkg/apis/constants/constants.go:105-105 KeystoneDBUser *)
Definition KeystoneDBUser : string := "keystone".
(*@ pkg/apis/constants/constants.go:106-106 KeystonePublicPort *)
Definition KeystonePublicPort : Z := 30500%Z.
(*@ pkg/apis/constants/constants.go:107-107 KeystoneAdminPort *)
Definition KeystoneAdminPort : Z := 30357%Z.
(*@ pkg/apis/constants/constants.go:109-109 GlanceDB *)
Definition GlanceDB : string := "glance".
(*@ pkg/apis/constants/constants.go:110-110 GlanceDBUser *)
Definition GlanceDBUser : string := "glance".
(*@ pkg/apis/constants/constants.go:111-111 GlanceAdminUser *)
Definition GlanceAdminUser : string := "glance".
(*@ pkg/apis/constants/constants.go:112-112 GlanceAdminProject *)
Definition GlanceAdminProject := SysAdminProject.
(*@ pkg/apis/constants/constants.go:114-114 GlanceAPIPort *)
Definition GlanceAPIPort : Z := 30292%Z.
(*@ pkg/apis/constants/constants.go:115-115 ServiceNameGlance *)
Definition ServiceNameGlance : string := "glance".
(*@ pkg/apis/constants/constants.go:116-116 ServiceTypeGlance *)
Definition ServiceTypeGlance : string := "image".
(*@ pkg/apis/constants/constants.go:117-117 GlanceDataStore *)
Definition GlanceDataStore : string := "/opt/cloud/workspace/data/glance".
(*@ pkg/apis/constants/constants.go:118-118 QemuPath *)
Definition QemuPath : string := "/usr/local/qemu-2.12.1".
(*@ pkg/apis/constants/constants.go:119-119 KernelPath *)
Definition KernelPath : string := "/lib/modules".
(*@ pkg/apis/constants/constants.go:121-121 BaremetalsPath *)
Definition BaremetalsPath : string := "/opt/cloud/workspace/baremetals".
(*@ pkg/apis/constants/constants.go:122-122 BaremetalTFTPRoot *)
Definition BaremetalTFTPRoot : string := "/opt/cloud/yunion/baremetal".
(*@ pkg/apis/constants/constants.go:124-124 RegionAdminUser *)
Definition RegionAdminUser : string := "regionadmin".
(*@ pkg/apis/constants/constants.go:125-125 RegionAdminProject *)
Definition RegionAdminProject := SysAdminProject.
(*@ pkg/apis/constants/constants.go:126-126 RegionPort *)
Definition RegionPort : Z := 30888%Z.
(*@ pkg/apis/constants/constants.go:127-127 SchedulerPort *)
Definition SchedulerPort : Z := 30887%Z.
(*@ pkg/apis/constants/constants.go:128-128 RegionDB *)
Definition RegionDB : string := "yunioncloud".
(*@ pkg/apis/constants/constants.go:129-129 RegionDBUser *)
Definition RegionDBUser : string := "yunioncloud".
(*@ pkg/apis/constants/constants.go:131-131 ServiceNameHost *)
Definition ServiceNameHost : string := "host".
(*@ pkg/apis/constants/constants.go:132-132 ServiceTypeHost *)
Definition ServiceTypeHost : string := "host".
(*@ pkg/apis/constants/constants.go:133-133 HostAdminUser *)
Definition HostAdminUser : string := "hostadmin".
(*@ pkg/apis/constants/constants.go:134-134 HostAdminProject *)
Definition HostAdminProject := SysAdminProject.
(*@ pkg/apis/constants/constants.go:136-136 HostPort *)
Definition HostPort : Z := 8885%Z.
(*@ pkg/apis/constants/constants.go:138-138 ServiceNameBaremetal *)
Definition ServiceNameBaremetal : string := "baremetal".
(*@ pkg/apis/constants/constants.go:139-139 ServiceTypeBaremetal *)
Definition ServiceTypeBaremetal : string := "baremetal".
(*@ pkg/apis/constants/constants.go:140-140 BaremetalAdminUser *)
Definition BaremetalAdminUser : string := "baremetal".
(*@ pkg/apis/constants/constants.go:141-141 BaremetalAdminProject *)
Definition BaremetalAdminProject := SysAdminProject.
(*@ pkg/apis/constants/constants.go:143-143 BaremetalPort *)
Definition BaremetalPort : Z := 8879%Z.
(*@ pkg/apis/constants/constants.go:145-145 KubeServerAdminUser *)
Definition KubeServerAdminUser : string := "kubeserver".
(*@ pkg/apis/constants/constants.go:146-146 KubeServerPort *)
Definition KubeServerPort : Z := 30442%Z.
(*@ pkg/apis/constants/constants.go:147-147 KubeServerDB *)
Definition KubeServerDB : string := "kubeserver".
(*@ pkg/apis/constants/constants.go:148-148 KubeServerDBUser *)
Definition KubeServerDBUser : string := "kubeserver".
(*@ pkg/apis/constants/constants.go:150-150 WebconsoleAdminUser *)
Definition WebconsoleAdminUser : string := "webconsole".
(*@ pkg/apis/constants/constants.go:151-151 WebconsoleAdminProject *)
Definition WebconsoleAdminProject := SysAdminProject.
(*@ pkg/apis/constants/constants.go:152-152 WebconsolePort *)
Definition WebconsolePort : Z := 30899%Z.
(*@ pkg/apis/constants/constants.go:153-153 WebconsoleDB *)
Definition WebconsoleDB : string := "webconsole".
(*@ pkg/apis/constants/constants.go:154-154 WebconsoleDBUser *)
Definition WebconsoleDBUser : string := "webconsole".
(*@ pkg/apis/constants/constants.go:156-156 LoggerAdminUser *)
Definition LoggerAdminUser : string := "loggeradmin".
(*@ pkg/apis/constants/constants.go:157-157 LoggerPort *)
Definition LoggerPort : Z := 30999%Z.
(*@ pkg/apis/constants/constants.go:158-158 LoggerDB *)
Definition LoggerDB : string := "yunionlogger".
(*@ pkg/apis/constants/constants.go:159-159 LoggerDBUser *)
Definition LoggerDBUser : string := "yunionlogger".
(*@ pkg/apis/constants/constants.go:161-161 ServiceNameAPIGateway *)
Definition ServiceNameAPIGateway : string := "yunionapi".
(*@ pkg/apis/constants/constants.go:162-162 ServiceTypeAPIGateway *)
Definition ServiceTypeAPIGateway : string := "yunionapi".
(*@ pkg/apis/constants/constants.go:163-163 ServiceNameWebsocket *)
Definition ServiceNameWebsocket : string := "websocket".
(*@ pkg/apis/constants/constants.go:164-164 ServiceTypeWebsocket *)
Definition ServiceTypeWebsocket : string := "websocket".
(*@ pkg/apis/constants/constants.go:165-165 APIGatewayAdminUser *)
Definition APIGatewayAdminUser : string := "yunionapi".
(*@ pkg/apis/constants/constants.go:166-166 APIGatewayPort *)
Definition APIGatewayPort : Z := 30300%Z.
(*@ pkg/apis/constants/constants.go:167-167 APIWebsocketPort *)
Definition APIWebsocketPort : Z := 30443%Z.
(*@ pkg/apis/constants/constants.go:169-169 YunionAgentAdminUser *)
Definition YunionAgentAdminUser : string := "yunionagent".
(*@ pkg/apis/constants/constants.go:170-170 YunionAgentPort *)
Definition YunionAgentPort : Z := 30898%Z.
(*@ pkg/apis/constants/constants.go:171-171 YunionAgentDB *)
Definition YunionAgentDB : string := "yunionagent".
(*@ pkg/apis/constants/constants.go:172-172 YunionAgentDBUser *)
Definition YunionAgentDBUser : string := "yunionagent".
(*@ pkg/apis/constants/constants.go:174-174 YunionConfAdminUser *)
Definition YunionConfAdminUser : string := "yunionconf".
(*@ pkg/apis/constants/constants.go:175-175 YunionConfPort *)
Definition YunionConfPort : Z := 30889%Z.
(*@ pkg/apis/constants/constants.go:176-176 YunionConfDB *)
Definition YunionConfDB : string := "yunionconf".
(*@ pkg/apis/constants/constants.go:177-177 YunionConfDBUser *)
Definition YunionConfDBUser : string := "yunionconf".
(*@ pkg/apis/constants/constants.go:179-179 NotifyAdminUser *)
Definition NotifyAdminUser : string := "notify".
(*@ pkg/apis/constants/constants.go:180-180 NotifyPort *)
Definition NotifyPort : Z := 30777%Z.
(*@ pkg/apis/constants/constants.go:181-181 NotifyDB *)
Definition NotifyDB : string := "notify".
(*@ pkg/apis/constants/constants.go:182-182 NotifyDBUser *)
Definition NotifyDBUser : string := "notify".
(*@ pkg/apis/constants/constants.go:184-184 InfluxdbPort *)
Definition InfluxdbPort : Z := 30086%Z.
(*@ pkg/apis/constants/constants.go:185-185 InfluxdbDataStore *)
Definition InfluxdbDataStore : string := "/var/lib/influxdb".
(*@ pkg/apis/constants/constants.go:187-187 VictoriaMetricsPort *)
Definition VictoriaMetricsPort : Z := 30428%Z.
(*@ pkg/apis/constants/constants.go:188-188 VictoriaMetricsDefaultRententionPeriod *)
Definition VictoriaMetricsDefaultRententionPeriod : Z := 93%Z.
(*@ pkg/apis/constants/constants.go:189-189 VictoriaMetricsDataStore *)
Definition VictoriaMetricsDataStore : string := "/storage".
(*@ pkg/apis/constants/constants.go:191-191 OvnNorthDbPort *)
Definition OvnNorthDbPort : Z := 32241%Z.
(*@ pkg/apis/constants/constants.go:192-192 OvnSouthDbPort *)
Definition OvnSouthDbPort : Z := 32242%Z.
(*@ pkg/apis/constants/constants.go:194-194 MonitorAdminUser *)
Definition MonitorAdminUser : string := "monitoradmin".
(*@ pkg/apis/constants/constants.go:195-195 MonitorAdminProject *)
Definition MonitorAdminProject := SysAdminProject.
(*@ pkg/apis/constants/constants.go:196-196 MonitorPort *)
Definition MonitorPort : Z := 30093%Z.
(*@ pkg/apis/constants/constants.go:197-197 MonitorDB *)
Definition MonitorDB : string := "monitor".
(*@ pkg/apis/constants/constants.go:198-198 MonitorDBUser *)
Definition MonitorDBUser : string := "yunionmonitor".
(*@ pkg/apis/constants/constants.go:200-200 AnsibleServerAdminUser *)
Definition AnsibleServerAdminUser : string := "ansibleadmin".
(*@ pkg/apis/constants/constants.go:201-201 AnsibleServerAdminProject *)
Definition AnsibleServerAdminProject := SysAdminProject.
(*@ pkg/apis/constants/constants.go:202-202 AnsibleServerPort *)
Definition AnsibleServerPort : Z := 30890%Z.
(*@ pkg/apis/constants/constants.go:203-203 AnsibleServerDB *)
Definition AnsibleServerDB : string := "yunionansible".
(*@ pkg/apis/constants/constants.go:204-204 AnsibleServerDBUser *)
Definition AnsibleServerDBUser : string := "yunionansible".
(*@ pkg/apis/constants/constants.go:206-206 CloudnetAdminUser *)
Definition CloudnetAdminUser : string := "cloudnetadmin".
(*@ pkg/apis/constants/constants.go:207-207 CloudnetAdminProject *)
Definition CloudnetAdminProject := SysAdminProject.
(*@ pkg/apis/constants/constants.go:208-208 CloudnetPort *)
Definition CloudnetPort : Z := 30891%Z.
(*@ pkg/apis/constants/constants.go:209-209 CloudnetDB *)
Definition CloudnetDB : string := "yunioncloudnet".
(*@ pkg/apis/constants/constants.go:210-210 CloudnetDBUser *)
Definition CloudnetDBUser : string := "yunioncloudnet".
(*@ pkg/apis/constants/constants.go:212-212 CloudproxyAdminUser *)
Definition CloudproxyAdminUser : string := "cloudproxyadmin".
(*@ pkg/apis/constants/constants.go:213-213 CloudproxyAdminProject *)
Definition CloudproxyAdminProject := SysAdminProject.
(*@ pkg/apis/constants/constants.go:214-214 CloudproxyPort *)
Definition CloudproxyPort : Z := 30882%Z.
(*@ pkg/apis/constants/constants.go:215-215 CloudproxyDB *)
Definition CloudproxyDB : string := "yunioncloudproxy".
(*@ pkg/apis/constants/constants.go:216-216 CloudproxyDBUser *)
Definition CloudproxyDBUser : string := "yunioncloudproxy".
(*@ pkg/apis/constants/constants.go:218-218 CloudeventAdminUser *)
Definition CloudeventAdminUser : string := "cloudeventadmin".
(*@ pkg/apis/constants/constants.go:219-219 CloudeventAdminProject *)
Definition CloudeventAdminProject := SysAdminProject.
(*@ pkg/apis/constants/constants.go:220-220 CloudeventPort *)
Definition CloudeventPort : Z := 30892%Z.
(*@ pkg/apis/constants/constants.go:221-221 CloudeventDB *)
Definition CloudeventDB : string := "yunioncloudevent".
(*@ pkg/apis/constants/constants.go:222-222 CloudeventDBUser *)
Definition CloudeventDBUser : string := "yunioncloudevent".
(*@ pkg/apis/constants/constants.go:224-224 CloudIdAdminUser *)
Definition CloudIdAdminUser : string := "cloudidadmin".
(*@ pkg/apis/constants/constants.go:225-225 CloudIdAdminProject *)
Definition CloudIdAdminProject := SysAdminProject.
(*@ pkg/apis/constants/constants.go:226-226 CloudIdPort *)
Definition CloudIdPort : Z := 30893%Z.
(*@ pkg/apis/constants/constants.go:227-227 CloudIdDB *)
Definition CloudIdDB : string := "yunioncloudid".
(*@ pkg/apis/constants/constants.go:228-228 CloudIdDBUser *)
Definition CloudIdDBUser : string := "yunioncloudid".
(*@ pkg/apis/constants/constants.go:230-230 EndpointTypeInternal *)
Definition EndpointTypeInternal : string := "internal".
(*@ pkg/apis/constants/constants.go:231-231 EndpointTypePublic *)
Definition EndpointTypePublic : string := "public".
(*@ pkg/apis/constants/constants.go:232-232 EndpointTypeAdmin *)
Definition EndpointTypeAdmin : string := "admin".
(*@ pkg/apis/constants/constants.go:233-233 EndpointTypeConsole *)
Definition EndpointTypeConsole : string := "console".
(*@ pkg/apis/constants/constants.go:234-234 EndpointTypeSlave *)
Definition EndpointTypeSlave : string := "slave".
(*@ pkg/apis/constants/constants.go:237-237 ServiceNameKeystone *)
Definition ServiceNameKeystone : string := "keystone".
(*@ pkg/apis/constants/constants.go:238-238 ServiceTypeIdentity *)
Definition ServiceTypeIdentity : string := "identity".
(*@ pkg/apis/constants/constants.go:240-240 ServiceNameRegion *)
Definition ServiceNameRegion : string := "region".
(*@ pkg/apis/constants/constants.go:241-241 ServiceNameRegionV2 *)
Definition ServiceNameRegionV2 : string := "region2".
(*@ pkg/apis/constants/constants.go:242-242 ServiceTypeCompute *)
Definition ServiceTypeCompute : string := "compute".
(*@ pkg/apis/constants/constants.go:243-243 ServiceTypeComputeV2 *)
Definition ServiceTypeComputeV2 : string := "compute_v2".
(*@ pkg/apis/constants/constants.go:245-245 ServiceNameScheduler *)
Definition ServiceNameScheduler : string := "scheduler".
(*@ pkg/apis/constants/constants.go:246-246 ServiceTypeScheduler *)
Definition ServiceTypeScheduler : string := "scheduler".
(*@ pkg/apis/constants/constants.go:248-248 ServiceNameWebconsole *)
Definition ServiceNameWebconsole : string := "webconsole".
(*@ pkg/apis/constants/constants.go:249-249 ServiceTypeWebconsole *)
Definition ServiceTypeWebconsole : string := "webconsole".
(*@ pkg/apis/constants/constants.go:251-251 ServiceNameLogger *)
Definition ServiceNameLogger : string := "log".
(*@ pkg/apis/constants/constants.go:252-252 ServiceTypeLogger *)
Definition ServiceTypeLogger : string := "log".
(*@ pkg/apis/constants/constants.go:254-254 ServiceNameYunionConf *)
Definition ServiceNameYunionConf : string := "yunionconf".
(*@ pkg/apis/constants/constants.go:255-255 ServiceTypeYunionConf *)
Definition ServiceTypeYunionConf : string := "yunionconf".
(*@ pkg/apis/constants/constants.go:257-257 ServiceNameYunionAgent *)
Definition ServiceNameYunionAgent : string := "yunionagent".
(*@ pkg/apis/constants/constants.go:258-258 ServiceTypeYunionAgent *)
Definition ServiceTypeYunionAgent : string := "yunionagent".
(*@ pkg/apis/constants/constants.go:260-260 ServiceNameInfluxdb *)
Definition ServiceNameInfluxdb : string := "influxdb".
(*@ pkg/apis/constants/constants.go:261-261 ServiceTypeInfluxdb *)
Definition ServiceTypeInfluxdb : string := "influxdb".
(*@ pkg/apis/constants/constants.go:263-263 ServiceNameVictoriaMetrics *)
Definition ServiceNameVictoriaMetrics : string := "victoria-metrics".
(*@ pkg/apis/constants/constants.go:264-264 ServiceTypeVictoriaMetrics *)
Definition ServiceTypeVictoriaMetrics : string := "victoria-metrics".
(*@ pkg/apis/constants/constants.go:266-266 ServiceNameMonitor *)
Definition ServiceNameMonitor : string := "monitor".
(*@ pkg/apis/constants/constants.go:267-267 ServiceTypeMonitor *)
Definition ServiceTypeMonitor : string := "monitor".
(*@ pkg/apis/constants/constants.go:269-269 ServiceNameOvnNorthDb *)
Definition ServiceNameOvnNorthDb : string := "ovn-north-db".
(*@ pkg/apis/constants/constants.go:270-270 ServiceTypeOvnNorthDb *)
Definition ServiceTypeOvnNorthDb : string := "ovn-north-db".
(*@ pkg/apis/constants/constants.go:271-271 ServiceNameOvnSouthDb *)
Definition ServiceNameOvnSouthDb : string := "ovn-south-db".
(*@ pkg/apis/constants/constants.go:272-272 ServiceTypeOvnSouthDb *)
Definition ServiceTypeOvnSouthDb : string := "ovn-south-db".
(*@ pkg/apis/constants/constants.go:274-274 ServiceNameKubeServer *)
Definition ServiceNameKubeServer : string := "k8s".
(*@ pkg/apis/constants/constants.go:275-275 ServiceTypeKubeServer *)
Definition ServiceTypeKubeServer : string := "k8s".
(*@ pkg/apis/constants/constants.go:277-277 ServiceNameAnsibleServer *)
Definition ServiceNameAnsibleServer : string := "ansible".
(*@ pkg/apis/constants/constants.go:278-278 ServiceTypeAnsibleServer *)
Definition ServiceTypeAnsibleServer : string := "ansible".
(*@ pkg/apis/constants/constants.go:280-280 ServiceNameCloudnet *)
Definition ServiceNameCloudnet : string := "cloudnet".
(*@ pkg/apis/constants/constants.go:281-281 ServiceTypeCloudnet *)
Definition ServiceTypeCloudnet : string := "cloudnet".
(*@ pkg/apis/constants/constants.go:283-283 ServiceNameCloudproxy *)
Definition ServiceNameCloudproxy : string := "cloudproxy".
(*@ pkg/apis/constants/constants.go:284-284 ServiceTypeCloudproxy *)
Definition ServiceTypeCloudproxy : string := "cloudproxy".
(*@ pkg/apis/constants/constants.go:286-286 ServiceNameCloudevent *)
Definition ServiceNameCloudevent : string := "cloudevent".
(*@ pkg/apis/constants/constants.go:287-287 ServiceTypeCloudevent *)
Definition ServiceTypeCloudevent : string := "cloudevent".
(*@ pkg/apis/constants/constants.go:289-289 ServiceNameCloudId *)
Definition ServiceNameCloudId : string := "cloudid".
(*@ pkg/apis/constants/constants.go:290-290 ServiceTypeCloudId *)
Definition ServiceTypeCloudId : string := "cloudid".
(*@ pkg/apis/constants/constants.go:292-292 ServiceNameCloudmon *)
Definition ServiceNameCloudmon : string := "cloudmon".
(*@ pkg/apis/constants/constants.go:293-293 ServiceTypeCloudmon *)
Definition ServiceTypeCloudmon : string := "cloudmon".
(*@ pkg/apis/constants/constants.go:294-294 CloudmonPort *)
Definition CloudmonPort : Z := 30931%Z.
(*@ pkg/apis/constants/constants.go:295-295 CloudmonAdminUser *)
Definition CloudmonAdminUser : string := "cloudmon".
(*@ pkg/apis/constants/constants.go:296-296 CloudmonAdminProject *)
Definition CloudmonAdminProject := SysAdminProject.
(*@ pkg/apis/constants/constants.go:298-298 ServiceNameNotify *)
Definition ServiceNameNotify : string := "notify".
(*@ pkg/apis/constants/constants.go:299-299 ServiceTypeNotify *)
Definition ServiceTypeNotify : string := "notify".
(*@ pkg/apis/constants/constants.go:301-301 ServiceNameVpcagent *)
Definition ServiceNameVpcagent : string := "vpcagent".
(*@ pkg/apis/constants/constants.go:302-302 ServiceTypeVpcagent *)
Definition ServiceTypeVpcagent : string := "vpcagent".
(*@ pkg/apis/constants/constants.go:303-303 VpcAgentAdminUser *)
Definition VpcAgentAdminUser : string := "vpcagentadmin".
(*@ pkg/apis/constants/constants.go:304-304 VpcAgentAdminProject *)
Definition VpcAgentAdminProject := SysAdminProject.
(*@ pkg/apis/constants/constants.go:305-305 VpcAgentPort *)
Definition VpcAgentPort : Z := 30932%Z.
(*@ pkg/apis/constants/constants.go:307-307 BaremetalDataStore *)
Definition BaremetalDataStore : string := "/opt/cloud/workspace".
(*@ pkg/apis/constants/constants.go:309-309 ServiceURLCloudmeta *)
Definition ServiceURLCloudmeta : string := "https://meta.yunion.cn".
(*@ pkg/apis/constants/constants.go:310-310 ServiceNameCloudmeta *)
Definition ServiceNameCloudmeta : string := "cloudmeta".
(*@ pkg/apis/constants/constants.go:311-311 ServiceTypeCloudmeta *)
Definition ServiceTypeCloudmeta : string := "cloudmeta".
(*@ pkg/apis/constants/constants.go:313-313 ServiceURLTorrentTracker *)
Definition ServiceURLTorrentTracker : string := "https://tracker.yunion.cn".
(*@ pkg/apis/constants/constants.go:314-314 ServiceNameTorrentTracker *)
Definition ServiceNameTorrentTracker : string := "torrent-tracker".
(*@ pkg/apis/constants/constants.go:315-315 ServiceTypeTorrentTracker *)
Definition ServiceTypeTorrentTracker : string := "torrent-tracker".
(*@ pkg/apis/constants/constants.go:317-317 ServiceNameAutoUpdate *)
Definition ServiceNameAutoUpdate : string := "autoupdate".
(*@ pkg/apis/constants/constants.go:318-318 ServiceTypeAutoUpdate *)
Definition ServiceTypeAutoUpdate : string := "autoupdate".
(*@ pkg/apis/constants/constants.go:319-319 AutoUpdateAdminUser *)
Definition AutoUpdateAdminUser : string := "autoupdate".
(*@ pkg/apis/constants/constants.go:320-320 AutoUpdateAdminProject *)
Definition AutoUpdateAdminProject := SysAdminProject.
(*@ pkg/apis/constants/constants.go:321-321 AutoUpdatePort *)
Definition AutoUpdatePort : Z := 30981%Z.
(*@ pkg/apis/constants/constants.go:322-322 AutoUpdateDB *)
Definition AutoUpdateDB : string := "autoupdate".
(*@ pkg/apis/constants/constants.go:323-323 AutoUpdateDBUser *)
Definition AutoUpdateDBUser : string := "autoupdate".
(*@ pkg/apis/constants/constants.go:325-325 NetworkTypeBaremetal *)
Definition NetworkTypeBaremetal : string := "baremetal".
(*@ pkg/apis/constants/constants.go:326-326 NetworkTypeServer *)
Definition NetworkTypeServer : string := "server".
(*@ pkg/apis/constants/constants.go:328-328 ServiceNameExternal *)
Definition ServiceNameExternal : string := "external-service".
(*@ pkg/apis/constants/constants.go:329-329 ServiceTypeExternal *)
Definition ServiceTypeExternal := ServiceNameExternal.
(*@ pkg/apis/constants/constants.go:331-331 ServiceNameCommon *)
Definition ServiceNameCommon : string := "common".
(*@ pkg/apis/constants/constants.go:332-332 ServiceTypeCommon *)
Definition ServiceTypeCommon := ServiceNameCommon.
(*@ pkg/apis/constants/constants.go:334-334 ServiceNameOfflineCloudmeta *)
Definition ServiceNameOfflineCloudmeta : string := "offlinecloudmeta".
(*@ pkg/apis/constants/constants.go:335-335 ServiceTypeOfflineCloudmeta *)
Definition ServiceTypeOfflineCloudmeta : string := "offlinecloudmeta".
(*@ pkg/apis/constants/constants.go:336-336 ServiceURLOfflineCloudmeta *)
Definition ServiceURLOfflineCloudmeta : string := "https://yunionmeta.oss-cn-beijing.aliyuncs.com".
(*@ pkg/apis/constants/constants.go:338-338 ServiceNameS3gateway *)
Definition ServiceNameS3gateway : string := "s3gateway".
(*@ pkg/apis/constants/constants.go:339-339 ServiceTypeS3gateway *)
Definition ServiceTypeS3gateway : string := "s3gateway".
(*@ pkg/apis/constants/constants.go:340-340 S3gatewayPort *)
Definition S3gatewayPort : Z := 30884%Z.
(*@ pkg/apis/constants/constants.go:341-341 S3gatewayAdminUser *)
Definition S3gatewayAdminUser : string := "s3gatewayadm".
(*@ pkg/apis/constants/constants.go:342-342 S3gatewayAdminProject *)
Definition S3gatewayAdminProject := SysAdminProject.
(*@ pkg/apis/constants/constants.go:344-344 ServiceNameDevtool *)
Definition ServiceNameDevtool : string := "devtool".
(*@ pkg/apis/constants/constants.go:345-345 ServiceTypeDevtool *)
Definition ServiceTypeDevtool : string := "devtool".
(*@ pkg/apis/constants/constants.go:346-346 DevtoolPort *)
Definition DevtoolPort : Z := 30997%Z.
(*@ pkg/apis/constants/constants.go:347-347 DevtoolAdminUser *)
Definition DevtoolAdminUser : string := "devtooladmin".
(*@ pkg/apis/constants/constants.go:348-348 DevtoolAdminProject *)
Definition DevtoolAdminProject := SysAdminProject.
(*@ pkg/apis/constants/constants.go:349-349 DevtoolDB *)
Definition DevtoolDB : string := "devtool".
(*@ pkg/apis/constants/constants.go:350-350 DevtoolDBUser *)
Definition DevtoolDBUser : string := "devtool".
(*@ pkg/apis/constants/constants.go:352-352 ServiceNameMeter *)
Definition ServiceNameMeter : string := "meter".
(*@ pkg/apis/constants/constants.go:353-353 ServiceTypeMeter *)
Definition ServiceTypeMeter : string := "meter".
(*@ pkg/apis/constants/constants.go:354-354 MeterPort *)
Definition MeterPort : Z := 30909%Z.
(*@ pkg/apis/constants/constants.go:355-355 MeterAdminUser *)
Definition MeterAdminUser : string := "meterdocker".
(*@ pkg/apis/constants/constants.go:356-356 MeterAdminProject *)
Definition MeterAdminProject := SysAdminProject.
(*@ pkg/apis/constants/constants.go:357-357 MeterDB *)
Definition MeterDB : string := "yunionmeter".
(*@ pkg/apis/constants/constants.go:358-358 MeterDBUser *)
Definition MeterDBUser : string := "yunionmeter".
(*@ pkg/apis/constants/constants.go:360-360 MeterDataStore *)
Definition MeterDataStore : string := "/opt/yunion/meter".
(*@ pkg/apis/constants/constants.go:361-361 MeterBillingDataDir *)
Definition MeterBillingDataDir : string := "billing".
(*@ pkg/apis/constants/constants.go:362-362 MeterRatesDataDir *)
Definition MeterRatesDataDir : string := "rates".
(*@ pkg/apis/constants/constants.go:363-363 MeterInfluxDB *)
Definition MeterInfluxDB : string := "meter_db".
(*@ pkg/apis/constants/constants.go:365-365 MeterAwsRiPlanIdHandle *)
Definition MeterAwsRiPlanIdHandle : string := "true".
(*@ pkg/apis/constants/constants.go:367-367 ServiceNameBilling *)
Definition ServiceNameBilling : string := "billing".
(*@ pkg/apis/constants/constants.go:368-368 ServiceTypeBilling *)
Definition ServiceTypeBilling : string := "billing".
(*@ pkg/apis/constants/constants.go:369-369 BillingPort *)
Definition BillingPort : Z := 30404%Z.
(*@ pkg/apis/constants/constants.go:370-370 BillingAdminUser *)
Definition BillingAdminUser : string := "billingadmin".
(*@ pkg/apis/constants/constants.go:371-371 BillingAdminProject *)
Definition BillingAdminProject := SysAdminProject.
(*@ pkg/apis/constants/constants.go:372-372 BillingDB *)
Definition BillingDB : string := "yunionbilling".
(*@ pkg/apis/constants/constants.go:373-373 BillingDBUser *)
Definition BillingDBUser : string := "yunionbilling".
(*@ pkg/apis/constants/constants.go:375-375 EsxiAgentAdminUser *)
Definition EsxiAgentAdminUser : string := "esxiagent".
(*@ pkg/apis/constants/constants.go:376-376 EsxiAgentPort *)
Definition EsxiAgentPort : Z := 30883%Z.
(*@ pkg/apis/constants/constants.go:377-377 EsxiAgentDataStore *)
Definition EsxiAgentDataStore : string := "/opt/cloud/workspace".
(*@ pkg/apis/constants/constants.go:379-379 ServiceOperatorAdminUser *)
Definition ServiceOperatorAdminUser : string := "osOperator".
(*@ pkg/apis/constants/constants.go:380-380 ServiceOperatorPort *)
Definition ServiceOperatorPort : Z := 30885%Z.
(*@ pkg/apis/constants/constants.go:382-382 EtcdClientPort *)
Definition EtcdClientPort : Z := 2379%Z.
(*@ pkg/apis/constants/constants.go:383-383 EtcdClientNodePort *)
Definition EtcdClientNodePort : Z := 30379%Z.
(*@ pkg/apis/constants/constants.go:384-384 EtcdPeerPort *)
Definition EtcdPeerPort : Z := 2380%Z.
(*@ pkg/apis/constants/constants.go:385-385 EtcdImageName *)
Definition EtcdImageName : string := "etcd".
(*@ pkg/apis/constants/constants.go:386-386 EtcdDefaultClusterSize *)
Definition EtcdDefaultClusterSize : Z := 3%Z.
(*@ pkg/apis/constants/constants.go:387-387 EtcdImageVersion *)
Definition EtcdImageVersion : string := "3.5.12".
(*@ pkg/apis/constants/constants.go:390-390 BusyboxImageName *)
Definition BusyboxImageName : string := "busybox".
(*@ pkg/apis/constants/constants.go:391-391 BusyboxImageVersion *)
Definition BusyboxImageVersion : string := "1.37.0-glibc".
(*@ pkg/apis/constants/constants.go:392-392 ServiceNameEtcd *)
Definition ServiceNameEtcd : string := "etcd".
(*@ pkg/apis/constants/constants.go:393-393 ServiceTypeEtcd *)
Definition ServiceTypeEtcd := ServiceNameEtcd.
(*@ pkg/apis/constants/constants.go:394-394 ServiceCertEtcdName *)
Definition ServiceCertEtcdName := ServiceNameEtcd.
(*@ pkg/apis/constants/constants.go:396-396 ItsmAdminUser *)
Definition ItsmAdminUser : string := "itsm".
(*@ pkg/apis/constants/constants.go:397-397 ItsmPort *)
Definition ItsmPort : Z := 30595%Z.
(*@ pkg/apis/constants/constants.go:398-398 ItsmDB *)
Definition ItsmDB : string := "itsm".
(*@ pkg/apis/constants/constants.go:399-399 ItsmDBUser *)
Definition ItsmDBUser : string := "itsm".
(*@ pkg/apis/constants/constants.go:400-400 ServiceNameItsm *)
Definition ServiceNameItsm : string := "itsm".
(*@ pkg/apis/constants/constants.go:401-401 ServiceTypeItsm *)
Definition ServiceTypeItsm : string := "itsm".
(*@ pkg/apis/constants/constants.go:403-403 ServiceNameSuggestion *)
Definition ServiceNameSuggestion : string := "suggestion".
(*@ pkg/apis/constants/constants.go:404-404 ServiceTypeSuggestion *)
Definition ServiceTypeSuggestion : string := "suggestion".
(*@ pkg/apis/constants/constants.go:405-405 SuggestionAdminUser *)
Definition SuggestionAdminUser : string := "suggestion".
(*@ pkg/apis/constants/constants.go:406-406 SuggestionPort *)
Definition SuggestionPort : Z := 30987%Z.
(*@ pkg/apis/constants/constants.go:407-407 SuggestionDB *)
Definition SuggestionDB : string := "suggestion".
(*@ pkg/apis/constants/constants.go:408-408 SuggestionDBUser *)
Definition SuggestionDBUser : string := "suggestion".
(*@ pkg/apis/constants/constants.go:410-410 ServiceNameScheduledtask *)
Definition ServiceNameScheduledtask : string := "scheduledtask".
(*@ pkg/apis/constants/constants.go:411-411 ServiceTypeScheduledtask *)
Definition ServiceTypeScheduledtask : string := "scheduledtask".
(*@ pkg/apis/constants/constants.go:412-412 ScheduledtaskPort *)
Definition ScheduledtaskPort : Z := 30978%Z.
(*@ pkg/apis/constants/constants.go:414-414 ServiceNameApiMap *)
Definition ServiceNameApiMap : string := "apimap".
(*@ pkg/apis/constants/constants.go:415-415 ServiceTypeApiMap *)
Definition ServiceTypeApiMap : string := "apimap".
(*@ pkg/apis/constants/constants.go:416-416 ApiMapAdminUser *)
Definition ApiMapAdminUser : string := "apimapadmin".
(*@ pkg/apis/constants/constants.go:417-417 ApiMapAdminProject *)
Definition ApiMapAdminProject := SysAdminProject.
(*@ pkg/apis/constants/constants.go:418-418 ApiMapPort *)
Definition ApiMapPort : Z := 31999%Z.
(*@ pkg/apis/constants/constants.go:420-420 ServiceNameReport *)
Definition ServiceNameReport : string := "report".
(*@ pkg/apis/constants/constants.go:421-421 ServiceTypeReport *)
Definition ServiceTypeReport : string := "report".
(*@ pkg/apis/constants/constants.go:422-422 ReportAdminUser *)
Definition ReportAdminUser : string := "report".
(*@ pkg/apis/constants/constants.go:423-423 ReportAdminProject *)
Definition ReportAdminProject := SysAdminProject.
(*@ pkg/apis/constants/constants.go:424-424 ReportPort *)
Definition ReportPort : Z := 30967%Z.
(*@ pkg/apis/constants/constants.go:425-425 ReportDB *)
Definition ReportDB : string := "report".
(*@ pkg/apis/constants/constants.go:426-426 ReportDBUser *)
Definition ReportDBUser : string := "report".
(*@ pkg/apis/constants/constants.go:428-428 ServiceNameLbagent *)
Definition ServiceNameLbagent : string := "lbagent".
(*@ pkg/apis/constants/constants.go:429-429 ServiceTypeLbagent *)
Definition ServiceTypeLbagent : string := "lbagent".
(*@ pkg/apis/constants/constants.go:430-430 LbagentAdminUser *)
Definition LbagentAdminUser : string := "lbagentadm".
(*@ pkg/apis/constants/constants.go:431-431 LbagentAdminProject *)
Definition LbagentAdminProject := SysAdminProject.
(*@ pkg/apis/constants/constants.go:432-432 LbagentPort *)
Definition LbagentPort : Z := 8895%Z.
(*@ pkg/apis/constants/constants.go:434-434 ServiceNameEChartsSSR *)
Definition ServiceNameEChartsSSR : string := "echarts-ssr".
(*@ pkg/apis/constants/constants.go:435-435 ServiceTypeEChartsSSR *)
Definition ServiceTypeEChartsSSR : string := "echarts-ssr".
(*@ pkg/apis/constants/constants.go:436-436 EChartsSSRPort *)
Definition EChartsSSRPort : Z := 8081%Z.
(*@ pkg/apis/constants/constants.go:438-438 ServiceNameBastionHost *)
Definition ServiceNameBastionHost : string := "bastionhost".
(*@ pkg/apis/constants/constants.go:439-439 ServiceTypeBastionHost *)
Definition ServiceTypeBastionHost : string := "bastionhost".
(*@ pkg/apis/constants/constants.go:440-440 BastionHostAdminUser *)
Definition BastionHostAdminUser : string := "bastionhost".
(*@ pkg/apis/constants/constants.go:441-441 BastionHostAdminProject *)
Definition BastionHostAdminProject := SysAdminProject.
(*@ pkg/apis/constants/constants.go:442-442 BastionHostPort *)
Definition BastionHostPort : Z := 30983%Z.
(*@ pkg/apis/constants/constants.go:443-443 BastionHostDB *)
Definition BastionHostDB : string := "bastionhost".
(*@ pkg/apis/constants/constants.go:444-444 BastionHostDBUser *)
Definition BastionHostDBUser : string := "bastionhost".
(*@ pkg/apis/constants/constants.go:446-446 ServiceNameExtdb *)
Definition ServiceNameExtdb : string := "extdb".
(*@ pkg/apis/constants/constants.go:447-447 ServiceTypeExtdb *)
Definition ServiceTypeExtdb : string := "extdb".
(*@ pkg/apis/constants/constants.go:448-448 ExtdbAdminUser *)
Definition ExtdbAdminUser : string := "extdb".
(*@ pkg/apis/constants/constants.go:449-449 ExtdbAdminProject *)
Definition ExtdbAdminProject := SysAdminProject.
(*@ pkg/apis/constants/constants.go:450-450 ExtdbPort *)
Definition ExtdbPort : Z := 30991%Z.
(*@ pkg/apis/constants/constants.go:451-451 ExtdbDB *)
Definition ExtdbDB : string := "extdb".
(*@ pkg/apis/constants/constants.go:452-452 ExtdbDBUser *)
Definition ExtdbDBUser : string := "extdb".
(*@ pkg/apis/constants/constants.go:454-454 ServiceNameLLM *)
Definition ServiceNameLLM : string := "llm".
(*@ pkg/apis/constants/constants.go:455-455 ServiceTypeLLM *)
Definition ServiceTypeLLM : string := "llm".
(*@ pkg/apis/constants/constants.go:456-456 LLMPort *)
Definition LLMPort : Z := 31512%Z.
(*@ pkg/apis/constants/constants.go:457-457 LLMAdminUser *)
Definition LLMAdminUser : string := "llmadmin".
(*@ pkg/apis/constants/constants.go:458-458 LLMAdminProject *)
Definition LLMAdminProject := SysAdminProject.
(*@ pkg/apis/constants/constants.go:459-459 LLMDB *)
Definition LLMDB : string := "llm".
(*@ pkg/apis/constants/constants.go:460-460 LLMDBUser *)
Definition LLMDBUser : string := "llm".
(*@ pkg/apis/constants/constants.go:462-462 ServiceNameMcpServer *)
Definition ServiceNameMcpServer : string := "mcp-server".
(*@ pkg/apis/constants/constants.go:463-463 ServiceTypeMcpServer *)
Definition ServiceTypeMcpServer : string := "mcp-server".
(*@ pkg/apis/constants/constants.go:464-464 McpServerAdminUser *)
Definition McpServerAdminUser : string := "mcp-server-admin".
(*@ pkg/apis/constants/constants.go:465-465 McpServerAdminProject *)
Definition McpServerAdminProject := SysAdminProject.
(*@ pkg/apis/constants/constants.go:466-466 McpServerPort *)
Definition McpServerPort : Z := 30876%Z.
(*@ pkg/apis/constants/constants.go:468-468 ServiceNameAiProxy *)
Definition ServiceNameAiProxy : string := "aiproxy".
(*@ pkg/apis/constants/constants.go:469-469 ServiceTypeAiProxy *)
Definition ServiceTypeAiProxy : string := "aiproxy".
(*@ pkg/apis/constants/constants.go:470-470 AiProxyAdminUser *)
Definition AiProxyAdminUser : string := "aiproxy-admin".
(*@ pkg/apis/constants/constants.go:471-471 AiProxyAdminProject *)
Definition AiProxyAdminProject := SysAdminProject.
(*@ pkg/apis/constants/constants.go:472-472 AiProxyPort *)
Definition AiProxyPort : Z := 31513%Z.
(*@ pkg/apis/constants/constants.go:473-473 AiProxyDB *)
Definition AiProxyDB : string := "aiproxy".
(*@ pkg/apis/constants/constants.go:474-474 AiProxyDBUser *)
Definition AiProxyDBUser : string := "aiproxy".
(*@ pkg/apis/constants/constants.go:480-480 SpecifiedPresistentVolumePath *)
Definition SpecifiedPresistentVolumePath : string := "pvc.onecloud.yunion.io/pv-path".
(*@ pkg/apis/constants/constants.go:487-487 CACertAndKeyBaseName *)
Definition CACertAndKeyBaseName : string := "ca".
(*@ pkg/apis/constants/constants.go:489-489 CACertName *)
Definition CACertName : string := "ca.crt".
(*@ pkg/apis/constants/constants.go:491-491 CAKeyName *)
Definition CAKeyName : string := "ca.key".
(*@ pkg/apis/constants/constants.go:493-493 CertDir *)
Definition CertDir : string := "/etc/yunion/pki".
(*@ pkg/apis/constants/constants.go:494-494 ServiceCertAndKeyBaseName *)
Definition ServiceCertAndKeyBaseName : string := "service".
(*@ pkg/apis/constants/constants.go:495-495 ServiceCertName *)
Definition ServiceCertName : string := "service.crt".
(*@ pkg/apis/constants/constants.go:496-496 ServiceKeyName *)
Definition ServiceKeyName : string := "service.key".
(*@ pkg/apis/constants/constants.go:498-498 ConfigDir *)
Definition ConfigDir : string := "/etc/yunion".
(*@ pkg/apis/constants/constants.go:499-499 VolumeConfigName *)
Definition VolumeConfigName : string := "config".
(*@ pkg/apis/constants/constants.go:500-500 VolumeCertsName *)
Definition VolumeCertsName : string := "certs".
(*@ pkg/apis/constants/constants.go:502-502 Localhost *)
Definition Localhost : string := "localhost".
(*@ pkg/apis/constants/constants.go:504-504 EtcdServerSecret *)
Definition EtcdServerSecret : string := "etcd-server".
(*@ pkg/apis/constants/constants.go:505-505 EtcdClientSecret *)
Definition EtcdClientSecret : string := "etcd-client".
(*@ pkg/apis/constants/constants.go:506-506 EtcdPeerSecret *)
Definition EtcdPeerSecret : string := "etcd-peer".
(*@ pkg/apis/constants/constants.go:507-507 EtcdClientTLSDir *)
Definition EtcdClientTLSDir : string := "/etc/etcdtls/operator/etcd-tls".
(*@ pkg/apis/constants/constants.go:509-509 EtcdServerName *)
Definition EtcdServerName : string := "server".
(*@ pkg/apis/constants/constants.go:510-510 EtcdServerCACertName *)
Definition EtcdServerCACertName : string := "server-ca".
(*@ pkg/apis/constants/constants.go:511-511 EtcdServerCertName *)
Definition EtcdServerCertName : string := "server.crt".
(*@ pkg/apis/constants/constants.go:512-512 EtcdServerKeyName *)
Definition EtcdServerKeyName : string := "server.key".
(*@ pkg/apis/constants/constants.go:513-513 EtcdClientName *)
Definition EtcdClientName : string := "etcd-client".
(*@ pkg/apis/constants/constants.go:514-514 EtcdClientCACertName *)
Definition EtcdClientCACertName : string := "etcd-client-ca".
(*@ pkg/apis/constants/constants.go:515-515 EtcdClientCertName *)
Definition EtcdClientCertName : string := "etcd-client.crt".
(*@ pkg/apis/constants/constants.go:516-516 EtcdClientKeyName *)
Definition EtcdClientKeyName : string := "etcd-client.key".
(*@ pkg/apis/constants/constants.go:517-517 EtcdPeerName *)
Definition EtcdPeerName : string := "peer".
(*@ pkg/apis/constants/constants.go:518-518 EtcdPeerCACertName *)
Definition EtcdPeerCACertName : string := "peer-ca".
(*@ pkg/apis/constants/constants.go:519-519 EtcdPeerCertName *)
Definition EtcdPeerCertName : string := "peer.crt".
(*@ pkg/apis/constants/constants.go:520-520 EtcdPeerKeyName *)
Definition EtcdPeerKeyName : string := "peer.key".
(*@ pkg/apis/constants/constants.go:530-530 DefaultBackupPodHTTPPort *)
Definition DefaultBackupPodHTTPPort : Z := 19999%Z.
(*@ pkg/apis/constants/constants.go:532-532 OperatorRoot *)
Definition OperatorRoot : string := "/var/tmp/etcd-operator".
(*@ pkg/apis/constants/constants.go:533-533 BackupMountDir *)
Definition BackupMountDir : string := "/var/etcd-backup".
(*@ pkg/apis/constants/constants.go:535-535 EnvOperatorPodName *)
Definition EnvOperatorPodName : string := "MY_POD_NAME".
(*@ pkg/apis/constants/constants.go:536-536 EnvOperatorPodNamespace *)
Definition EnvOperatorPodNamespace : string := "MY_POD_NAMESPACE".
(*@ pkg/apis/constants/constants.go:540-540 RoleAdmin *)
Definition RoleAdmin : string := "admin".
(*@ pkg/apis/constants/constants.go:541-541 RoleFA *)
Definition RoleFA : string := "fa".
(*@ pkg/apis/constants/constants.go:542-542 RoleSA *)
Definition RoleSA : string := "sa".
(*@ pkg/apis/constants/constants.go:543-543 RoleProjectOwner *)
Definition RoleProjectOwner : string := "project_owner".
(*@ pkg/apis/constants/constants.go:544-544 RoleMember *)
Definition RoleMember : string := "member".
(*@ pkg/apis/constants/constants.go:545-545 RoleDomainAdmin *)
Definition RoleDomainAdmin : string := "domainadmin".
(*@ pkg/apis/constants/constants.go:546-546 RoleProjectEditor *)
Definition RoleProjectEditor : string := "project_editor".
(*@ pkg/apis/constants/constants.go:550-550 DockerComposeClusterName *)
Definition DockerComposeClusterName : string := "docker-compose-cluster".

(** ** Defaults of the custom resource *)

(*@ pkg/apis/onecloud/v1alpha1/defaults.go:36-36 DefaultVersion *)
Definition DefaultVersion : string := "latest".
(*@ pkg/apis/onecloud/v1alpha1/defaults.go:37-37 DefaultOnecloudRegion *)
Definition DefaultOnecloudRegion : string := "region0".
(*@ pkg/apis/onecloud/v1alpha1/defaults.go:39-39 DefaultOnecloudRegionDNSDomain *)
Definition DefaultOnecloudRegionDNSDomain : string := "".
(*@ pkg/apis/onecloud/v1alpha1/defaults.go:40-40 DefaultOnecloudZone *)
Definition DefaultOnecloudZone : string := "zone0".
(*@ pkg/apis/onecloud/v1alpha1/defaults.go:41-41 DefaultOnecloudWire *)
Definition DefaultOnecloudWire : string := "bcast0".
(*@ pkg/apis/onecloud/v1alpha1/defaults.go:42-42 DefaultImageRepository *)
Definition DefaultImageRepository : string := "registry.hub.docker.com/yunion".
(*@ pkg/apis/onecloud/v1alpha1/defaults.go:43-43 DefaultVPCId *)
Definition DefaultVPCId : string := "default".
(*@ pkg/apis/onecloud/v1alpha1/defaults.go:44-44 DefaultGlanceStorageSize *)
Definition DefaultGlanceStorageSize : string := "100G".
(*@ pkg/apis/onecloud/v1alpha1/defaults.go:45-45 DefaultMeterStorageSize *)
Definition DefaultMeterStorageSize : string := "100G".
(*@ pkg/apis/onecloud/v1alpha1/defaults.go:46-46 DefaultInfluxdbStorageSize *)
Definition DefaultInfluxdbStorageSize : string := "20G".
(*@ pkg/apis/onecloud/v1alpha1/defaults.go:47-47 DefaultVictoriaMetricsStorageSize *)
Definition DefaultVictoriaMetricsStorageSize : string := "20G".
(*@ pkg/apis/onecloud/v1alpha1/defaults.go:48-48 DefaultNotifyStorageSize *)
Definition DefaultNotifyStorageSize : string := "1G".
(*@ pkg/apis/onecloud/v1alpha1/defaults.go:49-49 DefaultBaremetalStorageSize *)
Definition DefaultBaremetalStorageSize : string := "100G".
(*@ pkg/apis/onecloud/v1alpha1/defaults.go:50-50 DefaultEsxiAgentStorageSize *)
Definition DefaultEsxiAgentStorageSize : string := "30G".
(*@ pkg/apis/onecloud/v1alpha1/defaults.go:52-52 DefaultStorageClass *)
Definition DefaultStorageClass : string := "local-path".
(*@ pkg/apis/onecloud/v1alpha1/defaults.go:54-54 DefaultOvnVersion *)
Definition DefaultOvnVersion : string := "2.12.4".
(*@ pkg/apis/onecloud/v1alpha1/defaults.go:55-55 DefaultOvnImageName *)
Definition DefaultOvnImageName : string := "openvswitch".
(*@ pkg/apis/onecloud/v1alpha1/defaults.go:56-56 DefaultOvnImageTag *)
Definition DefaultOvnImageTag : string := DefaultOvnVersion +:+ "-20260415".
(*@ pkg/apis/onecloud/v1alpha1/defaults.go:58-58 DefaultSdnAgentImageName *)
Definition DefaultSdnAgentImageName : string := "sdnagent".
(*@ pkg/apis/onecloud/v1alpha1/defaults.go:60-60 DefaultWebOverviewImageName *)
Definition DefaultWebOverviewImageName : string := "dashboard-overview".
(*@ pkg/apis/onecloud/v1alpha1/defaults.go:61-61 DefaultWebDocsImageName *)
Definition DefaultWebDocsImageName : string := "docs-ee".
(*@ pkg/apis/onecloud/v1alpha1/defaults.go:63-63 DefaultNotifyPluginsImageName *)
Definition DefaultNotifyPluginsImageName : string := "notify-plugins".
(*@ pkg/apis/onecloud/v1alpha1/defaults.go:65-65 DefaultHostImageName *)
Definition DefaultHostImageName : string := "host-image".
(*@ pkg/apis/onecloud/v1alpha1/defaults.go:66-66 DefaultHostImageTag *)
Definition DefaultHostImageTag : string := "v1.0.10".
(*@ pkg/apis/onecloud/v1alpha1/defaults.go:68-68 DefaultHostHealthName *)
Definition DefaultHostHealthName : string := "host-health".
(*@ pkg/apis/onecloud/v1alpha1/defaults.go:69-69 DefaultHostHealthTag *)
Definition DefaultHostHealthTag : string := "v0.0.5".
(*@ pkg/apis/onecloud/v1alpha1/defaults.go:71-71 DefaultInfluxdbImageVersion *)
Definition DefaultInfluxdbImageVersion : string := "1.7.7".
(*@ pkg/apis/onecloud/v1alpha1/defaults.go:73-73 DefaultVictoriaMetricsImageVersion *)
Definition DefaultVictoriaMetricsImageVersion : string := "v1.129.1-1".
(*@ pkg/apis/onecloud/v1alpha1/defaults.go:75-75 DefaultTelegrafImageName *)
Definition DefaultTelegrafImageName : string := "telegraf".
(*@ pkg/apis/onecloud/v1alpha1/defaults.go:76-76 DefaultTelegrafImageTag *)
Definition DefaultTelegrafImageTag : string := "release-1.36.4-13".
(*@ pkg/apis/onecloud/v1alpha1/defaults.go:77-77 DefaultTelegrafInitImageName *)
Definition DefaultTelegrafInitImageName : string := "telegraf-init".
(*@ pkg/apis/onecloud/v1alpha1/defaults.go:78-78 DefaultTelegrafInitImageTag *)
Definition DefaultTelegrafInitImageTag : string := "release-1.36-1".
(*@ pkg/apis/onecloud/v1alpha1/defaults.go:79-79 DefaultTelegrafRaidImageName *)
Definition DefaultTelegrafRaidImageName : string := "telegraf-raid-plugin".
(*@ pkg/apis/onecloud/v1alpha1/defaults.go:80-80 DefaultTelegrafRaidImageTag *)
Definition DefaultTelegrafRaidImageTag : string := "v4.0-20260115.0".
(*@ pkg/apis/onecloud/v1alpha1/defaults.go:82-82 DefaultHostQemuVersion *)
Definition DefaultHostQemuVersion : string := "10.0.7".
(*@ pkg/apis/onecloud/v1alpha1/defaults.go:84-84 DefaultEChartSSRVersion *)
Definition DefaultEChartSSRVersion : string := "v0.0.6".
(*@ pkg/apis/onecloud/v1alpha1/defaults.go:85-85 DefaultGuacdVersion *)
Definition DefaultGuacdVersion : string := "1.6.0".
