(* ===== verification/Defaults.v ===== *)
(** * Defaults: defaulting of the custom resource

    [pkg/apis/onecloud/v1alpha1/defaults.go]: the defaulting functions the
    scheme runs on an OnecloudCluster before each sync, and on the cluster
    configuration. [SetDefaults_OnecloudClusterSpec] is cut into blocks that
    follow the comments of the Go function; a Go loop over a map literal is a
    fold over the list of its entries, and [apply_entries_perm] shows that
    the order Go picks does not matter.

    [ClearComponent] is the package variable of that name;
    [GeneratePassword n] is the [n]-th password drawn from
    [passwd.GeneratePassword], and the state of the monad counts the draws. *)

From S2P Require Import Prelude K8s Types Constants.

Open Scope string_scope.
Open Scope go_scope.

(** ** Images *)

(*@ pkg/apis/onecloud/v1alpha1/defaults.go:538-543 getHyperImageName *)
Definition getHyperImageName (isEE : bool) : string :=
  if isEE then "cloudpods-ee" else "cloudpods".

(*@ pkg/apis/onecloud/v1alpha1/defaults.go:545-566 getImage *)
Definition getImage (globalRepo specRepo : string) (componentType : ComponentType)
    (componentName globalVersion tag : string) (useHyperImage isEE : bool) : string :=
  let repo := if str_empty specRepo then globalRepo else specRepo in
  let version := if str_empty tag then globalVersion else tag in
  let componentName :=
    if str_empty componentName then
      if useHyperImage then getHyperImageName isEE else componentType
    else componentName in
  repo +:+ "/" +:+ componentName +:+ ":" +:+ version.

(*@ pkg/apis/onecloud/v1alpha1/defaults.go:568-579 getEditionImage *)
Definition getEditionImage (globalRepo specRepo : string) (componentType : ComponentType)
    (componentName globalVersion tag : string) (useHyperImage isEE : bool) : string :=
  let componentName :=
    if str_empty componentName then
      let n := if isEE then componentType +:+ "-ee" else componentType in
      if useHyperImage then getHyperImageName isEE else n
    else componentName in
  getImage globalRepo specRepo componentType componentName globalVersion tag
    useHyperImage isEE.

(** ** Editions *)

(*@ pkg/apis/onecloud/v1alpha1/defaults.go:113-123 GetEdition *)
Definition GetEdition (oc : OnecloudCluster) : string :=
  match ObjectMeta_Annotations (OnecloudCluster_ObjectMeta oc) !! OnecloudEditionAnnotationKey with
  | None => OnecloudCommunityEdition
  | Some curEdition =>
      if str_empty curEdition then OnecloudCommunityEdition else curEdition
  end.

(*@ pkg/apis/onecloud/v1alpha1/defaults.go:125-127 IsEnterpriseEdition *)
Definition IsEnterpriseEdition (oc : OnecloudCluster) : bool :=
  String.eqb (GetEdition oc) OnecloudEnterpriseEdition.

(*@ pkg/apis/onecloud/v1alpha1/defaults.go:129-137 IsEEOrESEEdition *)
Definition IsEEOrESEEdition (oc : OnecloudCluster) : bool :=
  if IsEnterpriseEdition oc then true
  else String.eqb (GetEdition oc) OnecloudEnterpriseSupportEdition.

(** ** Data bases, ports, resources *)

(*@ pkg/apis/onecloud/v1alpha1/defaults.go:511-518 setDefaults_Mysql *)
Definition setDefaults_Mysql (obj : Mysql) : Mysql :=
  obj <| Mysql_Username ::= default_str "root" |> <| Mysql_Port ::= default_int 3306 |>.

(*@ pkg/apis/onecloud/v1alpha1/defaults.go:520-527 setDefaults_Clickhouse *)
Definition setDefaults_Clickhouse (obj : Mysql) : Mysql :=
  obj <| Mysql_Username ::= default_str "default" |> <| Mysql_Port ::= default_int 9000 |>.

(*@ pkg/apis/onecloud/v1alpha1/defaults.go:529-536 setDefaults_Dameng *)
Definition setDefaults_Dameng (obj : Mysql) : Mysql :=
  obj <| Mysql_Username ::= default_str "sysdba" |> <| Mysql_Port ::= default_int 5236 |>.

(*@ pkg/apis/onecloud/v1alpha1/defaults.go:597-602 SetDefaults_ServiceSpec *)
Definition SetDefaults_ServiceSpec (obj : ServiceSpec) (port : Z) : ServiceSpec :=
  obj <| ServiceSpec_ServicePortSpec ::= λ p,
    if (ServicePortSpec_NodePort p =? 0)%Z then p <| ServicePortSpec_NodePort := port |>
    else p |>.

(*@ pkg/apis/onecloud/v1alpha1/defaults.go:653-660 setPVCStoreage *)
Definition setPVCStoreage (obj : ContainerSpec) (size : string) : ContainerSpec :=
  let r := match ContainerSpec_Requests obj with
           | None => MkResourceRequirement None None ""
           | Some r => r
           end in
  obj <| ContainerSpec_Requests := Some (r <| ResourceRequirement_Storage ::= default_str size |>) |>.

(** The tolerations added to a workload that has none. *)
Definition masterTolerations : list Toleration :=
  [ MkToleration "node-role.kubernetes.io/master" "" "" "NoSchedule" None;
    MkToleration "node-role.kubernetes.io/controlplane" "" "" "NoSchedule" None ].

Definition default_tolerations (l : list Toleration) : list Toleration :=
  match l with [] => masterTolerations | _ => l end.
Arguments default_tolerations : simpl never.

Definition PullIfNotPresent : string := "IfNotPresent".

(** ** The workload specs *)
Section workloads.
  Context (ClearComponent : bool).

(*@ pkg/apis/onecloud/v1alpha1/defaults.go:151-157 clearContainerSpec *)
Definition clearContainerSpec (spec : ContainerSpec) : ContainerSpec :=
  if ClearComponent then
    spec <| ContainerSpec_Tag := "" |> <| ContainerSpec_ImageName := "" |>
      <| ContainerSpec_Repository := "" |>
  else spec.

(*@ pkg/apis/onecloud/v1alpha1/defaults.go:674-699 SetDefaults_DeploymentSpec *)
Definition SetDefaults_DeploymentSpec (obj : DeploymentSpec) (image : string) : DeploymentSpec :=
  let obj := if (DeploymentSpec_Replicas obj <=? 0)%Z
             then obj <| DeploymentSpec_Replicas := 1%Z |> else obj in
  let obj := if DeploymentSpec_Disable obj
             then obj <| DeploymentSpec_Replicas := 0%Z |> else obj in
  obj <| DeploymentSpec_ContainerSpec ::= λ c,
           c <| ContainerSpec_Image := image |>
             <| ContainerSpec_ImagePullPolicy ::= default_str PullIfNotPresent |> |>
      <| DeploymentSpec_Tolerations ::= default_tolerations |>
      <| DeploymentSpec_ContainerSpec ::= clearContainerSpec |>.

(*@ pkg/apis/onecloud/v1alpha1/defaults.go:701-719 SetDefaults_DaemonSetSpec *)
Definition SetDefaults_DaemonSetSpec (obj : DaemonSetSpec) (image : string) : DaemonSetSpec :=
  obj <| DaemonSetSpec_ContainerSpec ::= λ c,
           c <| ContainerSpec_Image := image |>
             <| ContainerSpec_ImagePullPolicy ::= default_str PullIfNotPresent |> |>
      <| DaemonSetSpec_Tolerations ::= default_tolerations |>
      <| DaemonSetSpec_ContainerSpec ::= clearContainerSpec |>.

(*@ pkg/apis/onecloud/v1alpha1/defaults.go:721-739 SetDefaults_CronJobSpec *)
Definition SetDefaults_CronJobSpec (obj : CronJobSpec) (image : string) : CronJobSpec :=
  obj <| CronJobSpec_ContainerSpec ::= λ c,
           c <| ContainerSpec_Image := image |>
             <| ContainerSpec_ImagePullPolicy ::= default_str PullIfNotPresent |> |>
      <| CronJobSpec_Tolerations ::= default_tolerations |>
      <| CronJobSpec_ContainerSpec ::= clearContainerSpec |>.

(** The image fields a defaulting function reads from a container spec. *)
Definition imageOf (globalRepo : string) (componentType : ComponentType)
    (globalVersion : string) (useHyperImage isEE : bool) (c : ContainerSpec) : string :=
  getImage globalRepo (ContainerSpec_Repository c) componentType (ContainerSpec_ImageName c)
    globalVersion (ContainerSpec_Tag c) useHyperImage isEE.

Definition editionImageOf (globalRepo : string) (componentType : ComponentType)
    (globalVersion : string) (useHyperImage isEE : bool) (c : ContainerSpec) : string :=
  getEditionImage globalRepo (ContainerSpec_Repository c) componentType
    (ContainerSpec_ImageName c) globalVersion (ContainerSpec_Tag c) useHyperImage isEE.

(** The three statements the Go code repeats for a bare container:
    [c.Image = ...; c.ImagePullPolicy = corev1.PullIfNotPresent;
    clearContainerSpec(&c)]. *)
Definition setContainerImage (c : ContainerSpec) (image : string) : ContainerSpec :=
  clearContainerSpec (c <| ContainerSpec_Image := image |>
    <| ContainerSpec_ImagePullPolicy := PullIfNotPresent |>).

(*@ pkg/apis/onecloud/v1alpha1/defaults.go:662-672 SetDefaults_StatefulDeploymentSpec *)
Definition SetDefaults_StatefulDeploymentSpec (ctype : ComponentType)
    (obj : StatefulDeploymentSpec) (defaultSize imageRepo version : string)
    (useHyperImage isEE : bool) : StatefulDeploymentSpec :=
  let c := DeploymentSpec_ContainerSpec (StatefulDeploymentSpec_DeploymentSpec obj) in
  let image := imageOf imageRepo ctype version useHyperImage isEE c in
  obj <| StatefulDeploymentSpec_DeploymentSpec ::= λ d, SetDefaults_DeploymentSpec d image |>
      <| StatefulDeploymentSpec_StorageClassName ::= default_str DefaultStorageClass |>
      <| StatefulDeploymentSpec_DeploymentSpec ::= λ d,
           d <| DeploymentSpec_ContainerSpec ::= λ c, setPVCStoreage c defaultSize |> |>.

(*@ pkg/apis/onecloud/v1alpha1/defaults.go:604-629 SetDefaults_RegionSpec *)
Definition SetDefaults_RegionSpec (obj : RegionSpec) (imageRepo version : string)
    (useHyperImage isEE : bool) : RegionSpec :=
  obj <| RegionSpec_DeploymentServicePortSpec ::= λ p,
           p <| DeploymentServicePortSpec_DeploymentSpec ::= λ d,
             SetDefaults_DeploymentSpec d
               (editionImageOf imageRepo RegionComponentType version useHyperImage isEE
                  (DeploymentSpec_ContainerSpec d)) |> |>
      <| RegionSpec_DNSDomain ::= default_str DefaultOnecloudRegionDNSDomain |>
      <| RegionSpec_DeploymentServicePortSpec ::= λ p,
           p <| DeploymentServicePortSpec_DeploymentSpec ::= λ d,
             d <| DeploymentSpec_DNSConfig ::= λ c,
               match c with
               | None => Some (MkPodDNSConfig [] [] [MkPodDNSConfigOption "ndots" (Some "2")])
               | Some _ => c
               end |> |> |>.

(*@ pkg/apis/onecloud/v1alpha1/defaults.go:631-638 SetDefaults_RegionDNSSpec *)
Definition SetDefaults_RegionDNSSpec (obj : RegionDNSSpec) (imageRepo version : string)
  : RegionDNSSpec :=
  obj <| RegionDNSSpec_DaemonSetSpec ::= λ d,
    SetDefaults_DaemonSetSpec d
      (imageOf imageRepo RegionDNSComponentType version false false
         (DaemonSetSpec_ContainerSpec d)) |>.

(*@ pkg/apis/onecloud/v1alpha1/defaults.go:640-651 SetDefaults_MonitorSpec *)
Definition SetDefaults_MonitorSpec (obj : DeploymentServicePortSpec)
    (imageRepo version : string) (useHyperImage isEE : bool) : DeploymentServicePortSpec :=
  obj <| DeploymentServicePortSpec_DeploymentSpec ::= λ d,
    SetDefaults_DeploymentSpec d
      (editionImageOf imageRepo MonitorComponentType version useHyperImage isEE
         (DeploymentSpec_ContainerSpec d)) |>.

(** *** Cloudmux and echarts-ssr keep their own copy of the deployment fields *)

(*@ pkg/apis/onecloud/v1alpha1/types.go:1108-1119 CloudmuxSpec.ToDeploymentSpec *)
Definition CloudmuxSpec_ToDeploymentSpec (es : CloudmuxSpec) : Res DeploymentSpec :=
  match CloudmuxSpec_Disable es with
  | None => Panic "nil pointer dereference"
  | Some disable =>
      Ok (MkDeploymentSpec (CloudmuxSpec_ContainerSpec es) None disable
            (CloudmuxSpec_Replicas es) (CloudmuxSpec_Affinity es)
            (CloudmuxSpec_NodeSelector es) (CloudmuxSpec_Tolerations es)
            (CloudmuxSpec_Annotations es) (CloudmuxSpec_ImagePullSecrets es) 0)
  end.

(*@ pkg/apis/onecloud/v1alpha1/types.go:1121-1130 CloudmuxSpec.FillBySpec *)
Definition CloudmuxSpec_FillBySpec (es : CloudmuxSpec) (dSpec : DeploymentSpec) : CloudmuxSpec :=
  MkCloudmuxSpec (DeploymentSpec_ContainerSpec dSpec) (Some (DeploymentSpec_Disable dSpec))
    (DeploymentSpec_Replicas dSpec) (DeploymentSpec_Affinity dSpec)
    (DeploymentSpec_NodeSelector dSpec) (DeploymentSpec_Tolerations dSpec)
    (DeploymentSpec_Annotations dSpec) (DeploymentSpec_ImagePullSecrets dSpec).

(*@ pkg/apis/onecloud/v1alpha1/types.go:1073-1084 EChartsSSRSpec.ToDeploymentSpec *)
Definition EChartsSSRSpec_ToDeploymentSpec (es : EChartsSSRSpec) : Res DeploymentSpec :=
  match EChartsSSRSpec_Disable es with
  | None => Panic "nil pointer dereference"
  | Some disable =>
      Ok (MkDeploymentSpec (EChartsSSRSpec_ContainerSpec es) None disable
            (EChartsSSRSpec_Replicas es) (EChartsSSRSpec_Affinity es)
            (EChartsSSRSpec_NodeSelector es) (EChartsSSRSpec_Tolerations es)
            (EChartsSSRSpec_Annotations es) (EChartsSSRSpec_ImagePullSecrets es) 0)
  end.

(*@ pkg/apis/onecloud/v1alpha1/types.go:1086-1095 EChartsSSRSpec.FillBySpec *)
Definition EChartsSSRSpec_FillBySpec (es : EChartsSSRSpec) (dSpec : DeploymentSpec)
  : EChartsSSRSpec :=
  MkEChartsSSRSpec (DeploymentSpec_ContainerSpec dSpec) (Some (DeploymentSpec_Disable dSpec))
    (DeploymentSpec_Replicas dSpec) (DeploymentSpec_Affinity dSpec)
    (DeploymentSpec_NodeSelector dSpec) (DeploymentSpec_Tolerations dSpec)
    (DeploymentSpec_Annotations dSpec) (DeploymentSpec_ImagePullSecrets dSpec).

(** [if obj.Disable == nil { obj.Disable = &trueVar }] *)
Definition default_true (o : option bool) : option bool :=
  match o with None => Some true | Some _ => o end.

(*@ pkg/apis/onecloud/v1alpha1/defaults.go:943-955 setDefaults_Cloudmux *)
Definition setDefaults_Cloudmux (imageRepository version : string) (obj : CloudmuxSpec)
  : Res CloudmuxSpec :=
  let obj := obj <| CloudmuxSpec_Disable ::= default_true |> in
  res_bind (CloudmuxSpec_ToDeploymentSpec obj) (λ dSpec,
  let dSpec := SetDefaults_DeploymentSpec dSpec
    (imageOf imageRepository CloudmuxComponentType version false false
       (DeploymentSpec_ContainerSpec dSpec)) in
  Ok (CloudmuxSpec_FillBySpec obj dSpec)).

(*@ pkg/apis/onecloud/v1alpha1/defaults.go:929-941 setDefaults_EChartsSpec *)
Definition setDefaults_EChartsSpec (imageRepository : string) (obj : EChartsSSRSpec)
  : Res EChartsSSRSpec :=
  let obj := obj <| EChartsSSRSpec_Disable ::= default_true |> in
  res_bind (EChartsSSRSpec_ToDeploymentSpec obj) (λ dSpec,
  let dSpec := SetDefaults_DeploymentSpec dSpec
    (imageOf imageRepository EChartsSSRComponentType DefaultEChartSSRVersion false false
       (DeploymentSpec_ContainerSpec dSpec)) in
  Ok (EChartsSSRSpec_FillBySpec obj dSpec)).

(** ** Passwords *)
Section passwords.
  Context (GeneratePassword : nat → string).

(*@ pkg/util/passwd/passwd.go:5-7 GeneratePassword *)
Definition gen_password : M nat string := λ n, (S n, Ok (GeneratePassword n)).

(** [if x == "" { x = passwd.GeneratePassword() }] *)
Definition default_password (x : string) : M nat string :=
  if str_empty x then gen_password else ret x.

(*@ pkg/apis/onecloud/v1alpha1/defaults.go:581-595 SetDefaults_KeystoneSpec *)
Definition SetDefaults_KeystoneSpec (obj : KeystoneSpec) (imageRepo version : string)
    (useHyperImage isEE : bool) : M nat KeystoneSpec :=
  let obj := obj <| KeystoneSpec_DeploymentServiceSpec ::= λ p,
    p <| DeploymentServiceSpec_DeploymentSpec ::= λ d,
      SetDefaults_DeploymentSpec d
        (imageOf imageRepo KeystoneComponentType version useHyperImage isEE
           (DeploymentSpec_ContainerSpec d)) |> |> in
  let! pw := default_password (KeystoneSpec_BootstrapPassword obj) in
  ret (obj <| KeystoneSpec_BootstrapPassword := pw |>).

(*@ pkg/apis/onecloud/v1alpha1/defaults.go:741-791 setDefaults_MonitorStackSpec *)
Definition setDefaults_MonitorStackSpec (obj : MonitorStackSpec) : M nat MonitorStackSpec :=
  let obj := obj <| MonitorStackSpec_Minio ::= λ minio,
    minio <| MonitorStackMinioSpec_AccessKey ::= default_str "monitor-admin" |> |> in
  let! secretKey := default_password (MonitorStackMinioSpec_SecretKey (MonitorStackSpec_Minio obj)) in
  let obj := obj <| MonitorStackSpec_Minio ::= λ minio,
    minio <| MonitorStackMinioSpec_SecretKey := secretKey |> |> in
  let obj := obj <| MonitorStackSpec_Grafana ::= λ grafana,
    grafana <| MonitorStackGrafanaSpec_AdminUser ::= default_str "admin" |> |> in
  let! adminPassword :=
    default_password (MonitorStackGrafanaSpec_AdminPassword (MonitorStackSpec_Grafana obj)) in
  let obj := obj <| MonitorStackSpec_Grafana ::= λ grafana,
    grafana <| MonitorStackGrafanaSpec_AdminPassword := adminPassword |>
            <| MonitorStackGrafanaSpec_Subpath ::= default_str "grafana" |>
            <| MonitorStackGrafanaSpec_OAuth ::= λ oauth,
                 oauth <| MonitorStackGrafanaSpecOAuth_Scopes ::= default_str "user" |>
                       <| MonitorStackGrafanaSpecOAuth_RoleAttributePath ::=
                            default_str "projectName == 'system' && contains(roles, 'admin') && 'Admin' || 'Editor'" |> |> |> in
  let obj := obj <| MonitorStackSpec_Loki ::= λ loki,
    loki <| MonitorStackLokiSpec_ObjectStoreConfig ::= λ c,
      c <| ObjectStoreConfig_Bucket ::= default_str "loki" |> |> |> in
  let obj := obj <| MonitorStackSpec_Prometheus ::= λ prom,
    prom <| MonitorStackPrometheusSpec_ThanosSidecarSpec ::= λ t,
              t <| ThanosSidecarSpec_ObjectStoreConfig ::= λ c,
                c <| ObjectStoreConfig_Bucket ::= default_str "thanos" |> |> |>
         <| MonitorStackPrometheusSpec_Disable ::= default_true |> |> in
  ret (obj <| MonitorStackSpec_Thanos ::= λ thanos,
    thanos <| MonitorStackThanosSpec_ObjectStoreConfig ::= λ c,
      c <| ObjectStoreConfig_Bucket ::= default_str "thanos" |> |> |>).

(** ** The blocks of [SetDefaults_OnecloudClusterSpec] *)

(*@ pkg/apis/onecloud/v1alpha1/defaults.go:160-180 SetDefaults_OnecloudClusterSpec (globals) *)
Definition setDefaults_Globals (obj : OnecloudClusterSpec) : OnecloudClusterSpec :=
  let obj :=
    obj <| OnecloudClusterSpec_Mysql ::= setDefaults_Mysql |>
        <| OnecloudClusterSpec_Clickhouse ::= setDefaults_Clickhouse |>
        <| OnecloudClusterSpec_Dameng ::= setDefaults_Dameng |>
        <| OnecloudClusterSpec_ProductVersion ::= default_str ProductVersionFullStack |> in
  let obj :=
    obj <| OnecloudClusterSpec_DisableLocalVpc ::= λ b,
      if String.eqb (OnecloudClusterSpec_ProductVersion obj) ProductVersionLightEdge
      then true else b |> in
  obj <| OnecloudClusterSpec_Region ::= default_str DefaultOnecloudRegion |>
      <| OnecloudClusterSpec_Zone ::= default_str DefaultOnecloudZone |>
      <| OnecloudClusterSpec_Version ::= default_str DefaultVersion |>
      <| OnecloudClusterSpec_ImageRepository ::= default_str DefaultImageRepository |>.

(** One entry of the map literals the Go code ranges over: the component, the
    place of its spec inside the cluster spec, whether the hyper image may
    replace its image, and its default version. *)
Record specEntry (A : Type) := MkSpecEntry {
  se_type : ComponentType;
  se_get : OnecloudClusterSpec → A;
  se_upd : (A → A) → OnecloudClusterSpec → OnecloudClusterSpec;
  se_supported : bool
}.
#[global] Arguments MkSpecEntry {A} _ _ _ _.
#[global] Arguments se_type {A} _.
#[global] Arguments se_get {A} _ _.
#[global] Arguments se_upd {A} _ _ _.
#[global] Arguments se_supported {A} _.

(** [&obj.F] and [&obj.F.G] as places of the cluster spec. *)
Abbreviation place1 t F h := (MkSpecEntry t F (λ g s, s <| F ::= g |>) h) (only parsing).
Abbreviation place2 t F G h :=
  (MkSpecEntry t (λ s, G (F s)) (λ g s, s <| F ::= λ x, x <| G ::= g |> |>) h) (only parsing).
Abbreviation place3 t F G H h :=
  (MkSpecEntry t (λ s, H (G (F s)))
     (λ g s, s <| F ::= λ x, x <| G ::= λ y, y <| H ::= g |> |> |>) h) (only parsing).

(*@ pkg/apis/onecloud/v1alpha1/defaults.go:139-149 newHyperImagePair *)
Definition deployEntry := specEntry DeploymentSpec.

(*@ pkg/apis/onecloud/v1alpha1/defaults.go:192-219 SetDefaults_OnecloudClusterSpec (deployments) *)
Definition deployEntries (useHyperImage : bool) : list deployEntry := [
  place3 WebconsoleComponentType OnecloudClusterSpec_Webconsole WebconsoleSpec_DeploymentServicePortSpec DeploymentServicePortSpec_DeploymentSpec useHyperImage;
  place2 SchedulerComponentType OnecloudClusterSpec_Scheduler DeploymentServicePortSpec_DeploymentSpec useHyperImage;
  place2 LoggerComponentType OnecloudClusterSpec_Logger DeploymentServicePortSpec_DeploymentSpec useHyperImage;
  place2 YunionconfComponentType OnecloudClusterSpec_Yunionconf DeploymentServicePortSpec_DeploymentSpec useHyperImage;
  place2 KubeServerComponentType OnecloudClusterSpec_KubeServer DeploymentServicePortSpec_DeploymentSpec false;
  place2 AnsibleServerComponentType OnecloudClusterSpec_AnsibleServer DeploymentServicePortSpec_DeploymentSpec useHyperImage;
  place2 CloudnetComponentType OnecloudClusterSpec_Cloudnet DeploymentServicePortSpec_DeploymentSpec false;
  place2 CloudproxyComponentType OnecloudClusterSpec_Cloudproxy DeploymentServicePortSpec_DeploymentSpec false;
  place2 CloudeventComponentType OnecloudClusterSpec_Cloudevent DeploymentServicePortSpec_DeploymentSpec useHyperImage;
  place2 S3gatewayComponentType OnecloudClusterSpec_S3gateway DeploymentServicePortSpec_DeploymentSpec false;
  place2 DevtoolComponentType OnecloudClusterSpec_Devtool DeploymentServicePortSpec_DeploymentSpec useHyperImage;
  place2 AutoUpdateComponentType OnecloudClusterSpec_AutoUpdate DeploymentServicePortSpec_DeploymentSpec useHyperImage;
  place1 OvnNorthComponentType OnecloudClusterSpec_OvnNorth false;
  place2 VpcAgentComponentType OnecloudClusterSpec_VpcAgent DeploymentServicePortSpec_DeploymentSpec useHyperImage;
  place2 ServiceOperatorComponentType OnecloudClusterSpec_ServiceOperator DeploymentServicePortSpec_DeploymentSpec false;
  place2 ItsmComponentType OnecloudClusterSpec_Itsm DeploymentServicePortSpec_DeploymentSpec false;
  place2 CloudIdComponentType OnecloudClusterSpec_CloudId DeploymentServicePortSpec_DeploymentSpec useHyperImage;
  place2 SuggestionComponentType OnecloudClusterSpec_Suggestion DeploymentServicePortSpec_DeploymentSpec useHyperImage;
  place2 ScheduledtaskComponentType OnecloudClusterSpec_Scheduledtask DeploymentServicePortSpec_DeploymentSpec useHyperImage;
  place2 ReportComponentType OnecloudClusterSpec_Report DeploymentServicePortSpec_DeploymentSpec useHyperImage;
  place2 ApiMapComponentType OnecloudClusterSpec_ApiMap DeploymentServicePortSpec_DeploymentSpec useHyperImage;
  place2 BastionHostComponentType OnecloudClusterSpec_BastionHost DeploymentServicePortSpec_DeploymentSpec useHyperImage;
  place2 ExtdbComponentType OnecloudClusterSpec_Extdb DeploymentServicePortSpec_DeploymentSpec useHyperImage;
  place2 BillingComponentType OnecloudClusterSpec_Billing DeploymentServicePortSpec_DeploymentSpec useHyperImage;
  place2 LLMComponentType OnecloudClusterSpec_LLM DeploymentServicePortSpec_DeploymentSpec useHyperImage;
  place2 AiProxyComponentType OnecloudClusterSpec_AiProxy DeploymentServicePortSpec_DeploymentSpec useHyperImage
].

(*@ pkg/apis/onecloud/v1alpha1/defaults.go:229-233 SetDefaults_OnecloudClusterSpec (CE or EE parts) *)
Definition editionEntries (useHyperImage : bool) : list deployEntry := [
  place2 CloudmonComponentType OnecloudClusterSpec_Cloudmon CloudmonSpec_DeploymentSpec useHyperImage;
  place2 McpServerComponentType OnecloudClusterSpec_McpServer DeploymentServicePortSpec_DeploymentSpec useHyperImage
].

(*@ pkg/apis/onecloud/v1alpha1/defaults.go:244-248 SetDefaults_OnecloudClusterSpec (CE/SUPPORT parts) *)
Definition supportEntries (useHyperImage : bool) : list deployEntry := [
  place2 APIGatewayComponentType OnecloudClusterSpec_APIGateway APIGatewaySpec_DeploymentSpec useHyperImage;
  place1 ClimcComponentType OnecloudClusterSpec_Climc false;
  place2 WebComponentType OnecloudClusterSpec_Web WebSpec_DeploymentSpec false
].

(*@ pkg/apis/onecloud/v1alpha1/defaults.go:289-295 SetDefaults_OnecloudClusterSpec (daemon sets) *)
Definition daemonEntries : list (specEntry DaemonSetSpec) := [
  place2 HostComponentType OnecloudClusterSpec_HostAgent HostAgentSpec_DaemonSetSpec false;
  place1 HostDeployerComponentType OnecloudClusterSpec_HostDeployer false;
  place2 YunionagentComponentType OnecloudClusterSpec_Yunionagent YunionagentSpec_DaemonSetSpec false;
  place1 HostImageComponentType OnecloudClusterSpec_HostImage false;
  place2 LbagentComponentType OnecloudClusterSpec_Lbagent LbagentSpec_DaemonSetSpec false
].

(** [stateDeploy]: a stateful component with its default size and version. *)
(*@ pkg/apis/onecloud/v1alpha1/defaults.go:411-416 stateDeploy *)
Record stateDeploy := MkStateDeploy {
  sd_entry : specEntry StatefulDeploymentSpec;
  sd_size : string;
  sd_version : string
}.

(*@ pkg/apis/onecloud/v1alpha1/defaults.go:417-425 SetDefaults_OnecloudClusterSpec (stateful) *)
Definition stateEntries (version : string) (useHyperImage : bool) : list stateDeploy := [
  MkStateDeploy (place2 GlanceComponentType OnecloudClusterSpec_Glance
    GlanceSpec_StatefulDeploymentSpec useHyperImage) DefaultGlanceStorageSize version;
  MkStateDeploy (place2 InfluxdbComponentType OnecloudClusterSpec_Influxdb
    InfluxdbSpec_StatefulDeploymentSpec false) DefaultInfluxdbStorageSize DefaultInfluxdbImageVersion;
  MkStateDeploy (place2 VictoriaMetricsComponentType OnecloudClusterSpec_VictoriaMetrics
    VictoriaMetricsSpec_StatefulDeploymentSpec false)
    DefaultVictoriaMetricsStorageSize DefaultVictoriaMetricsImageVersion;
  MkStateDeploy (place2 NotifyComponentType OnecloudClusterSpec_Notify
    NotifySpec_StatefulDeploymentSpec useHyperImage) DefaultNotifyStorageSize version;
  MkStateDeploy (place2 BaremetalAgentComponentType OnecloudClusterSpec_BaremetalAgent
    ZoneStatefulDeploymentSpec_StatefulDeploymentSpec false) DefaultBaremetalStorageSize version;
  MkStateDeploy (place2 MeterComponentType OnecloudClusterSpec_Meter
    MeterSpec_StatefulDeploymentSpec useHyperImage) DefaultMeterStorageSize version;
  MkStateDeploy (place2 EsxiAgentComponentType OnecloudClusterSpec_EsxiAgent
    ZoneStatefulDeploymentSpec_StatefulDeploymentSpec useHyperImage) DefaultEsxiAgentStorageSize version
].

(** [serviceSpecPair]: a service of the spec with its default port. *)
(*@ pkg/apis/onecloud/v1alpha1/defaults.go:454-457 serviceSpecPair *)
Record serviceSpecPair := MkServiceSpecPair {
  sp_spec : specEntry ServiceSpec;
  sp_defaultPort : Z
}.

(*@ pkg/apis/onecloud/v1alpha1/defaults.go:459-506 setDefaults_Components_ServicePort (pairs) *)
Definition serviceSpecPairs : list serviceSpecPair := [
  MkServiceSpecPair (place2 "" OnecloudClusterSpec_Keystone KeystoneSpec_AdminService false) KeystoneAdminPort;
  MkServiceSpecPair (place2 "" OnecloudClusterSpec_Keystone KeystoneSpec_PublicService false) KeystonePublicPort;
  MkServiceSpecPair (place3 "" OnecloudClusterSpec_RegionServer RegionSpec_DeploymentServicePortSpec
    DeploymentServicePortSpec_Service false) RegionPort;
  MkServiceSpecPair (place2 "" OnecloudClusterSpec_Scheduler DeploymentServicePortSpec_Service false) SchedulerPort;
  MkServiceSpecPair (place2 "" OnecloudClusterSpec_Glance GlanceSpec_Service false) GlanceAPIPort;
  MkServiceSpecPair (place3 "" OnecloudClusterSpec_Webconsole WebconsoleSpec_DeploymentServicePortSpec
    DeploymentServicePortSpec_Service false) WebconsolePort;
  MkServiceSpecPair (place2 "" OnecloudClusterSpec_Logger DeploymentServicePortSpec_Service false) LoggerPort;
  MkServiceSpecPair (place2 "" OnecloudClusterSpec_Yunionconf DeploymentServicePortSpec_Service false) YunionConfPort;
  MkServiceSpecPair (place2 "" OnecloudClusterSpec_KubeServer DeploymentServicePortSpec_Service false) KubeServerPort;
  MkServiceSpecPair (place2 "" OnecloudClusterSpec_AnsibleServer DeploymentServicePortSpec_Service false) AnsibleServerPort;
  MkServiceSpecPair (place2 "" OnecloudClusterSpec_Cloudnet DeploymentServicePortSpec_Service false) CloudnetPort;
  MkServiceSpecPair (place2 "" OnecloudClusterSpec_Cloudproxy DeploymentServicePortSpec_Service false) CloudproxyPort;
  MkServiceSpecPair (place2 "" OnecloudClusterSpec_Cloudevent DeploymentServicePortSpec_Service false) CloudeventPort;
  MkServiceSpecPair (place2 "" OnecloudClusterSpec_CloudId DeploymentServicePortSpec_Service false) CloudIdPort;
  MkServiceSpecPair (place2 "" OnecloudClusterSpec_Cloudmon CloudmonSpec_Service false) CloudmonPort;
  MkServiceSpecPair (place2 "" OnecloudClusterSpec_AutoUpdate DeploymentServicePortSpec_Service false) AutoUpdatePort;
  MkServiceSpecPair (place2 "" OnecloudClusterSpec_S3gateway DeploymentServicePortSpec_Service false) S3gatewayPort;
  MkServiceSpecPair (place2 "" OnecloudClusterSpec_Devtool DeploymentServicePortSpec_Service false) DevtoolPort;
  MkServiceSpecPair (place2 "" OnecloudClusterSpec_Meter MeterSpec_Service false) MeterPort;
  MkServiceSpecPair (place2 "" OnecloudClusterSpec_Billing DeploymentServicePortSpec_Service false) BillingPort;
  MkServiceSpecPair (place2 "" OnecloudClusterSpec_Itsm DeploymentServicePortSpec_Service false) ItsmPort;
  MkServiceSpecPair (place2 "" OnecloudClusterSpec_Suggestion DeploymentServicePortSpec_Service false) SuggestionPort;
  MkServiceSpecPair (place2 "" OnecloudClusterSpec_Notify NotifySpec_Service false) NotifyPort;
  MkServiceSpecPair (place2 "" OnecloudClusterSpec_Influxdb InfluxdbSpec_Service false) InfluxdbPort;
  MkServiceSpecPair (place2 "" OnecloudClusterSpec_VictoriaMetrics VictoriaMetricsSpec_Service false) VictoriaMetricsPort;
  MkServiceSpecPair (place2 "" OnecloudClusterSpec_Monitor DeploymentServicePortSpec_Service false) MonitorPort;
  MkServiceSpecPair (place2 "" OnecloudClusterSpec_Scheduledtask DeploymentServicePortSpec_Service false) ScheduledtaskPort;
  MkServiceSpecPair (place2 "" OnecloudClusterSpec_ApiMap DeploymentServicePortSpec_Service false) ApiMapPort;
  MkServiceSpecPair (place2 "" OnecloudClusterSpec_Report DeploymentServicePortSpec_Service false) ReportPort;
  MkServiceSpecPair (place2 "" OnecloudClusterSpec_APIGateway APIGatewaySpec_APIService false) APIGatewayPort;
  MkServiceSpecPair (place2 "" OnecloudClusterSpec_APIGateway APIGatewaySpec_WSService false) APIWebsocketPort;
  MkServiceSpecPair (place2 "" OnecloudClusterSpec_ServiceOperator DeploymentServicePortSpec_Service false) ServiceOperatorPort;
  MkServiceSpecPair (place2 "" OnecloudClusterSpec_Yunionagent YunionagentSpec_Service false) YunionAgentPort;
  MkServiceSpecPair (place2 "" OnecloudClusterSpec_VpcAgent DeploymentServicePortSpec_Service false) VpcAgentPort;
  MkServiceSpecPair (place2 "" OnecloudClusterSpec_BastionHost DeploymentServicePortSpec_Service false) BastionHostPort;
  MkServiceSpecPair (place2 "" OnecloudClusterSpec_Extdb DeploymentServicePortSpec_Service false) ExtdbPort;
  MkServiceSpecPair (place2 "" OnecloudClusterSpec_LLM DeploymentServicePortSpec_Service false) LLMPort;
  MkServiceSpecPair (place2 "" OnecloudClusterSpec_McpServer DeploymentServicePortSpec_Service false) McpServerPort;
  MkServiceSpecPair (place2 "" OnecloudClusterSpec_AiProxy DeploymentServicePortSpec_Service false) AiProxyPort
].

(** ** The loops *)

(** [for cType, spec := range entries { SetDefaults_DeploymentSpec(spec, image(...)) }]:
    the body at one entry; [image] is [imageOf] or [editionImageOf]. *)
Definition image_fun := string → ComponentType → string → bool → bool → ContainerSpec → string.

(*@ pkg/apis/onecloud/v1alpha1/defaults.go:220-226 SetDefaults_OnecloudClusterSpec (loop body) *)
Definition setDefaults_deployEntry (image : image_fun) (isEE : bool)
    (obj : OnecloudClusterSpec) (e : deployEntry) : OnecloudClusterSpec :=
  se_upd e (λ spec, SetDefaults_DeploymentSpec spec
    (image (OnecloudClusterSpec_ImageRepository obj) (se_type e)
       (OnecloudClusterSpec_Version obj) (se_supported e) isEE
       (DeploymentSpec_ContainerSpec spec))) obj.

(*@ pkg/apis/onecloud/v1alpha1/defaults.go:192-226 SetDefaults_OnecloudClusterSpec (deployments) *)
Definition setDefaults_Deployments (useHyperImage isEE : bool) (obj : OnecloudClusterSpec)
  : OnecloudClusterSpec :=
  fold_left (setDefaults_deployEntry imageOf isEE) (deployEntries useHyperImage) obj.

(** The entry of cloudmux is the result of [ToDeploymentSpec], a fresh
    struct: what the loop body writes to it does not reach [obj.Cloudmux]. *)
(*@ pkg/apis/onecloud/v1alpha1/defaults.go:228-241 SetDefaults_OnecloudClusterSpec (CE or EE parts) *)
Definition setDefaults_EditionParts (useHyperImage isEE : bool) (obj : OnecloudClusterSpec)
  : Res OnecloudClusterSpec :=
  res_bind (CloudmuxSpec_ToDeploymentSpec (OnecloudClusterSpec_Cloudmux obj)) (λ cloudmux,
  let _discarded := SetDefaults_DeploymentSpec cloudmux
    (editionImageOf (OnecloudClusterSpec_ImageRepository obj) CloudmuxComponentType
       (OnecloudClusterSpec_Version obj) false isEE (DeploymentSpec_ContainerSpec cloudmux)) in
  Ok (fold_left (setDefaults_deployEntry editionImageOf isEE) (editionEntries useHyperImage) obj)).

(*@ pkg/apis/onecloud/v1alpha1/defaults.go:243-256 SetDefaults_OnecloudClusterSpec (CE/SUPPORT parts) *)
Definition setDefaults_SupportParts (useHyperImage isEEOrESE : bool) (obj : OnecloudClusterSpec)
  : OnecloudClusterSpec :=
  fold_left (setDefaults_deployEntry editionImageOf isEEOrESE) (supportEntries useHyperImage) obj.

(*@ pkg/apis/onecloud/v1alpha1/defaults.go:258-276 SetDefaults_OnecloudClusterSpec (web images) *)
Definition setDefaults_WebImages (isEE : bool) (obj : OnecloudClusterSpec) : OnecloudClusterSpec :=
  let image t c := imageOf (OnecloudClusterSpec_ImageRepository obj) t
                     (OnecloudClusterSpec_Version obj) false isEE c in
  obj <| OnecloudClusterSpec_Web ::= λ web,
    web <| WebSpec_Overview ::= λ c, setContainerImage c (image DefaultWebOverviewImageName c) |>
        <| WebSpec_Docs ::= λ c, setContainerImage c (image DefaultWebDocsImageName c) |> |>.

(*@ pkg/apis/onecloud/v1alpha1/defaults.go:278-287 SetDefaults_OnecloudClusterSpec (host spec) *)
Definition setDefaults_HostSpec (obj : OnecloudClusterSpec) : OnecloudClusterSpec :=
  obj <| OnecloudClusterSpec_HostAgent ::= λ h,
           h <| HostAgentSpec_DefaultQemuVersion ::= default_str DefaultHostQemuVersion |>
             <| HostAgentSpec_MaxUnavailableCount ::= default_int 3 |> |>
      <| OnecloudClusterSpec_Lbagent ::= λ l,
           l <| LbagentSpec_MaxUnavailableCount ::= default_int 3 |> |>.

(*@ pkg/apis/onecloud/v1alpha1/defaults.go:289-310 SetDefaults_OnecloudClusterSpec (daemon sets) *)
Definition setDefaults_daemonEntry (useHyperImage isEE : bool) (obj : OnecloudClusterSpec)
    (e : specEntry DaemonSetSpec) : OnecloudClusterSpec :=
  let useHI :=
    if IsInStringArray (se_type e)
         [YunionagentComponentType; HostComponentType; LbagentComponentType]
    then useHyperImage else false in
  se_upd e (λ spec, SetDefaults_DaemonSetSpec spec
    (imageOf (OnecloudClusterSpec_ImageRepository obj) (se_type e)
       (OnecloudClusterSpec_Version obj) useHI isEE (DaemonSetSpec_ContainerSpec spec))) obj.

(** [setContainerImage] on the container of a workload. *)
Definition setDeploymentImage (r t v : string) (h e : bool) (d : DeploymentSpec) : DeploymentSpec :=
  d <| DeploymentSpec_ContainerSpec ::= λ c, setContainerImage c (imageOf r t v h e c) |>.
Definition setDaemonSetImage (r t v : string) (h e : bool) (d : DaemonSetSpec) : DaemonSetSpec :=
  d <| DaemonSetSpec_ContainerSpec ::= λ c, setContainerImage c (imageOf r t v h e c) |>.

(*@ pkg/apis/onecloud/v1alpha1/defaults.go:312-378 SetDefaults_OnecloudClusterSpec (agent images) *)
Definition setDefaults_AgentImages (useHyperImage isEE : bool) (obj : OnecloudClusterSpec)
  : OnecloudClusterSpec :=
  let repo := OnecloudClusterSpec_ImageRepository obj in
  let version := OnecloudClusterSpec_Version obj in
  let ovn c := setContainerImage c (imageOf repo DefaultOvnImageName DefaultOvnImageTag false isEE c) in
  obj
    <| OnecloudClusterSpec_Webconsole ::= λ w, w <| WebconsoleSpec_Guacd ::= λ c,
         setContainerImage c (imageOf repo GuacdComponentType DefaultGuacdVersion false false c) |> |>
    <| OnecloudClusterSpec_HostAgent ::= λ h,
         h <| HostAgentSpec_SdnAgent ::= λ c,
                setContainerImage c
                  (imageOf repo DefaultSdnAgentImageName version useHyperImage isEE c) |>
           <| HostAgentSpec_OvnController ::= ovn |> |>
    <| OnecloudClusterSpec_OvnNorth ::=
         setDeploymentImage repo DefaultOvnImageName DefaultOvnImageTag false isEE |>
    <| OnecloudClusterSpec_HostImage ::=
         setDaemonSetImage repo DefaultHostImageName DefaultHostImageTag false isEE |>
    <| OnecloudClusterSpec_HostAgent ::= λ h, h <| HostAgentSpec_HostHealth ::= λ c,
         setContainerImage c (imageOf repo DefaultHostHealthName DefaultHostHealthTag false isEE c) |> |>
    <| OnecloudClusterSpec_Lbagent ::= λ l, l <| LbagentSpec_OvnController ::= ovn |> |>.

(*@ pkg/apis/onecloud/v1alpha1/defaults.go:380-409 SetDefaults_OnecloudClusterSpec (telegraf) *)
Definition setDefaults_Telegraf (isEE : bool) (obj : OnecloudClusterSpec) : OnecloudClusterSpec :=
  let repo := OnecloudClusterSpec_ImageRepository obj in
  obj <| OnecloudClusterSpec_Telegraf ::= λ t,
    t <| TelegrafSpec_InitContainerImage :=
           getImage repo
             (ContainerSpec_Repository (DaemonSetSpec_ContainerSpec (TelegrafSpec_DaemonSetSpec t)))
             DefaultTelegrafInitImageName "" DefaultTelegrafInitImageTag "" false isEE |>
      <| TelegrafSpec_TelegrafRaid ::= λ c,
           setContainerImage c
             (imageOf repo DefaultTelegrafRaidImageName DefaultTelegrafRaidImageTag false isEE c) |>
      <| TelegrafSpec_DaemonSetSpec ::= λ d,
           SetDefaults_DaemonSetSpec d
             (imageOf repo DefaultTelegrafImageName DefaultTelegrafImageTag false isEE
                (DaemonSetSpec_ContainerSpec d)) |> |>.

(*@ pkg/apis/onecloud/v1alpha1/defaults.go:417-427 SetDefaults_OnecloudClusterSpec (stateful) *)
Definition setDefaults_stateEntry (isEE : bool) (obj : OnecloudClusterSpec) (d : stateDeploy)
  : OnecloudClusterSpec :=
  let e := sd_entry d in
  se_upd e (λ spec, SetDefaults_StatefulDeploymentSpec (se_type e) spec (sd_size d)
    (OnecloudClusterSpec_ImageRepository obj) (sd_version d) (se_supported e) isEE) obj.

(*@ pkg/apis/onecloud/v1alpha1/defaults.go:429-440 SetDefaults_OnecloudClusterSpec (notify plugins) *)
Definition setDefaults_NotifyPlugins (isEE : bool) (obj : OnecloudClusterSpec)
  : OnecloudClusterSpec :=
  obj <| OnecloudClusterSpec_VictoriaMetrics ::= λ v,
           v <| VictoriaMetricsSpec_RententionPeriodDays ::=
                  default_int VictoriaMetricsDefaultRententionPeriod |> |>
      <| OnecloudClusterSpec_Notify ::= λ n, n <| NotifySpec_Plugins ::= λ c,
           c <| ContainerSpec_Image :=
                  imageOf (OnecloudClusterSpec_ImageRepository obj) DefaultNotifyPluginsImageName
                    (OnecloudClusterSpec_Version obj) false isEE c |>
             <| ContainerSpec_ImagePullPolicy := PullIfNotPresent |> |> |>.

(*@ pkg/apis/onecloud/v1alpha1/defaults.go:459-509 setDefaults_Components_ServicePort *)
Definition setDefaults_Components_ServicePort (obj : OnecloudClusterSpec) : OnecloudClusterSpec :=
  fold_left (λ obj p, se_upd (sp_spec p) (λ s, SetDefaults_ServiceSpec s (sp_defaultPort p)) obj)
    serviceSpecPairs obj.

(** The deterministic part between the draws of passwords. *)
(*@ pkg/apis/onecloud/v1alpha1/defaults.go:190-440 SetDefaults_OnecloudClusterSpec (body) *)
Definition setDefaults_Components (useHyperImage isEE isEEOrESE : bool)
    (obj : OnecloudClusterSpec) : Res OnecloudClusterSpec :=
  let obj := setDefaults_Deployments useHyperImage isEE obj in
  res_bind (setDefaults_EditionParts useHyperImage isEE obj) (λ obj,
  let obj := setDefaults_SupportParts useHyperImage isEEOrESE obj in
  let obj := setDefaults_WebImages isEE obj in
  let obj := setDefaults_HostSpec obj in
  let obj := fold_left (setDefaults_daemonEntry useHyperImage isEE) daemonEntries obj in
  let obj := setDefaults_AgentImages useHyperImage isEE obj in
  let obj := setDefaults_Telegraf isEE obj in
  let obj := fold_left (setDefaults_stateEntry isEE)
    (stateEntries (OnecloudClusterSpec_Version obj) useHyperImage) obj in
  Ok (setDefaults_NotifyPlugins isEE obj)).

(*@ pkg/apis/onecloud/v1alpha1/defaults.go:159-452 SetDefaults_OnecloudClusterSpec *)
Definition SetDefaults_OnecloudClusterSpec (obj : OnecloudClusterSpec) (isEE isEEOrESE : bool)
  : M nat OnecloudClusterSpec :=
  let obj := setDefaults_Globals obj in
  let useHyperImage := OnecloudClusterSpec_UseHyperImage obj in
  let repo := OnecloudClusterSpec_ImageRepository obj in
  let version := OnecloudClusterSpec_Version obj in
  let! keystone :=
    SetDefaults_KeystoneSpec (OnecloudClusterSpec_Keystone obj) repo version useHyperImage isEE in
  let obj :=
    obj <| OnecloudClusterSpec_Keystone := keystone |>
        <| OnecloudClusterSpec_RegionServer ::= λ r,
             SetDefaults_RegionSpec r repo version useHyperImage isEE |>
        <| OnecloudClusterSpec_RegionDNS ::= λ r, SetDefaults_RegionDNSSpec r repo version |>
        <| OnecloudClusterSpec_Monitor ::= λ m,
             SetDefaults_MonitorSpec m repo version useHyperImage isEE |> in
  let! cloudmux := lift (setDefaults_Cloudmux repo version (OnecloudClusterSpec_Cloudmux obj)) in
  let obj := obj <| OnecloudClusterSpec_Cloudmux := cloudmux |> in
  let! obj := lift (setDefaults_Components useHyperImage isEE isEEOrESE obj) in
  let! monitorStack := setDefaults_MonitorStackSpec (OnecloudClusterSpec_MonitorStack obj) in
  let obj := obj <| OnecloudClusterSpec_MonitorStack := monitorStack |> in
  let obj := setDefaults_Components_ServicePort obj in
  let! echarts := lift (setDefaults_EChartsSpec (OnecloudClusterSpec_ImageRepository obj)
                          (OnecloudClusterSpec_EChartsSSR obj)) in
  ret (obj <| OnecloudClusterSpec_EChartsSSR := echarts |>).

(*@ pkg/apis/onecloud/v1alpha1/defaults.go:96-111 SetDefaults_OnecloudCluster *)
Definition SetDefaults_OnecloudCluster (obj : OnecloudCluster) : M nat OnecloudCluster :=
  let obj :=
    match ObjectMeta_Labels (OnecloudCluster_ObjectMeta obj) !! InstanceLabelKey with
    | Some _ => obj
    | None =>
        obj <| OnecloudCluster_ObjectMeta ::= λ m,
          m <| ObjectMeta_Labels ::=
                 <[InstanceLabelKey := "onecloud-cluster-" +:+ ObjectMeta_Name m]> |> |>
    end in
  let! spec := SetDefaults_OnecloudClusterSpec (OnecloudCluster_Spec obj)
                 (IsEnterpriseEdition obj) (IsEEOrESEEdition obj) in
  ret (obj <| OnecloudCluster_Spec := spec |>).
End passwords.
End workloads.
(** ** Lemmas: idempotence of the leaf functions

    With [ClearComponent] off, a defaulting function leaves the fields an
    image is computed from alone. *)
Section idempotence.
Implicit Types (c : ContainerSpec) (d : DeploymentSpec).

Lemma default_true_idem o : default_true (default_true o) = default_true o.
Proof. by destruct o. Qed.

Lemma default_tolerations_idem l :
  default_tolerations (default_tolerations l) = default_tolerations l.
Proof. by destruct l. Qed.

Lemma setDefaults_Mysql_idem o : setDefaults_Mysql (setDefaults_Mysql o) = setDefaults_Mysql o.
Proof. destruct o. unfold setDefaults_Mysql; cbn. by autorewrite with go. Qed.

Lemma setDefaults_Clickhouse_idem o :
  setDefaults_Clickhouse (setDefaults_Clickhouse o) = setDefaults_Clickhouse o.
Proof. destruct o. unfold setDefaults_Clickhouse; cbn. by autorewrite with go. Qed.

Lemma setDefaults_Dameng_idem o :
  setDefaults_Dameng (setDefaults_Dameng o) = setDefaults_Dameng o.
Proof. destruct o. unfold setDefaults_Dameng; cbn. by autorewrite with go. Qed.

Lemma SetDefaults_ServiceSpec_idem s p :
  SetDefaults_ServiceSpec (SetDefaults_ServiceSpec s p) p = SetDefaults_ServiceSpec s p.
Proof.
  destruct s as [[i q]]. unfold SetDefaults_ServiceSpec; cbn.
  destruct (q =? 0)%Z eqn:E; cbn; [|by rewrite E].
  by destruct (p =? 0)%Z.
Qed.

Lemma setPVCStoreage_idem c size :
  setPVCStoreage (setPVCStoreage c size) size = setPVCStoreage c size.
Proof.
  destruct c as [? ? ? ? ? r ?]. unfold setPVCStoreage; cbn.
  destruct r as [[]|]; cbn; by autorewrite with go.
Qed.

(** The replica count after defaulting: none when disabled, at least one
    otherwise. *)
Definition defaultReplicas (disable : bool) (replicas : Z) : Z :=
  if disable then 0%Z else if (replicas <=? 0)%Z then 1%Z else replicas.

Lemma defaultReplicas_idem b r : defaultReplicas b (defaultReplicas b r) = defaultReplicas b r.
Proof. unfold defaultReplicas. destruct b; [done|]. destruct (r <=? 0)%Z eqn:E; [done|by rewrite E]. Qed.

Lemma defaultReplicas_spec (b : bool) r :
  if b then defaultReplicas b r = 0%Z
  else (1 ≤ defaultReplicas b r)%Z ∧ ((1 ≤ r)%Z → defaultReplicas b r = r).
Proof. unfold defaultReplicas. destruct b; [done|]. destruct (Z.leb_spec r 0); lia. Qed.

(** [SetDefaults_DeploymentSpec] field by field. *)
Lemma SetDefaults_DeploymentSpec_eq clear d i :
  SetDefaults_DeploymentSpec clear d i =
  MkDeploymentSpec
    (clearContainerSpec clear ((DeploymentSpec_ContainerSpec d)
       <| ContainerSpec_Image := i |>
       <| ContainerSpec_ImagePullPolicy ::= default_str PullIfNotPresent |>))
    (DeploymentSpec_DNSConfig d) (DeploymentSpec_Disable d)
    (defaultReplicas (DeploymentSpec_Disable d) (DeploymentSpec_Replicas d))
    (DeploymentSpec_Affinity d) (DeploymentSpec_NodeSelector d)
    (default_tolerations (DeploymentSpec_Tolerations d)) (DeploymentSpec_Annotations d)
    (DeploymentSpec_ImagePullSecrets d) (DeploymentSpec_SlaveReplicas d).
Proof.
  destruct d as [c ? dis rep]. unfold SetDefaults_DeploymentSpec, defaultReplicas; cbn.
  by destruct (rep <=? 0)%Z, dis.
Qed.

Lemma SetDefaults_DeploymentSpec_idem d i :
  SetDefaults_DeploymentSpec false (SetDefaults_DeploymentSpec false d i) i
  = SetDefaults_DeploymentSpec false d i.
Proof.
  rewrite !SetDefaults_DeploymentSpec_eq. cbn.
  by rewrite default_tolerations_idem, default_str_idem, defaultReplicas_idem.
Qed.

Lemma SetDefaults_DaemonSetSpec_idem (d : DaemonSetSpec) i :
  SetDefaults_DaemonSetSpec false (SetDefaults_DaemonSetSpec false d i) i
  = SetDefaults_DaemonSetSpec false d i.
Proof.
  destruct d as [[]]. unfold SetDefaults_DaemonSetSpec; cbn.
  by rewrite default_tolerations_idem, default_str_idem.
Qed.

Lemma setContainerImage_idem c i :
  setContainerImage false (setContainerImage false c i) i = setContainerImage false c i.
Proof. by destruct c. Qed.

(** The image of a container depends on fields no defaulting changes. *)
Lemma imageOf_SetDefaults_DeploymentSpec r t v h e d i :
  imageOf r t v h e (DeploymentSpec_ContainerSpec (SetDefaults_DeploymentSpec false d i))
  = imageOf r t v h e (DeploymentSpec_ContainerSpec d).
Proof. by rewrite SetDefaults_DeploymentSpec_eq. Qed.

Lemma editionImageOf_SetDefaults_DeploymentSpec r t v h e d i :
  editionImageOf r t v h e (DeploymentSpec_ContainerSpec (SetDefaults_DeploymentSpec false d i))
  = editionImageOf r t v h e (DeploymentSpec_ContainerSpec d).
Proof. by rewrite SetDefaults_DeploymentSpec_eq. Qed.

Lemma imageOf_SetDefaults_DaemonSetSpec r t v h e (d : DaemonSetSpec) i :
  imageOf r t v h e (DaemonSetSpec_ContainerSpec (SetDefaults_DaemonSetSpec false d i))
  = imageOf r t v h e (DaemonSetSpec_ContainerSpec d).
Proof. by destruct d as [[]]. Qed.

Lemma imageOf_setContainerImage r t v h e c i :
  imageOf r t v h e (setContainerImage false c i) = imageOf r t v h e c.
Proof. by destruct c. Qed.
End idempotence.

Arguments defaultReplicas : simpl never.
#[export] Hint Rewrite default_true_idem default_tolerations_idem defaultReplicas_idem setDefaults_Mysql_idem
  setDefaults_Clickhouse_idem setDefaults_Dameng_idem SetDefaults_ServiceSpec_idem
  setPVCStoreage_idem SetDefaults_DeploymentSpec_idem SetDefaults_DaemonSetSpec_idem
  setContainerImage_idem imageOf_SetDefaults_DeploymentSpec
  editionImageOf_SetDefaults_DeploymentSpec imageOf_SetDefaults_DaemonSetSpec
  imageOf_setContainerImage : go.
