(* ===== verification/DefaultsSpec.v ===== *)
(** * DefaultsSpec: what a defaulted cluster spec looks like

    The functional side of defaulting, for every setting of [ClearComponent]:
    the run never fails, which value each component's workload spec and
    service port get, and that Go's iteration order over the map literals does
    not matter. *)

From S2P Require Import Prelude K8s Types Constants Defaults.

Open Scope string_scope.
Open Scope go_scope.

#[local] Opaque SetDefaults_DeploymentSpec SetDefaults_DaemonSetSpec SetDefaults_ServiceSpec
  imageOf editionImageOf.

(** ** The run in closed form *)
Section run.
Context (ClearComponent : bool) (GeneratePassword : nat → string).

Lemma default_password_run x n :
  ∃ n' p, default_password GeneratePassword x n = (n', Ok p) ∧
    (n ≤ n' ≤ S n)%nat ∧ (x ≠ "" → n' = n) ∧ ((∀ k, GeneratePassword k ≠ "") → p ≠ "").
Proof.
  unfold default_password, gen_password, ret. destruct (str_empty x) eqn:E.
  - apply str_empty_spec in E. subst. exists (S n), (GeneratePassword n). naive_solver lia.
  - apply str_empty_false in E. exists n, x. naive_solver lia.
Qed.

(** The passwords of a keystone and of a monitor stack spec. *)
Definition keystone_password (k : KeystoneSpec) : Prop := KeystoneSpec_BootstrapPassword k ≠ "".

Definition monitor_passwords (m : MonitorStackSpec) : Prop :=
  MonitorStackMinioSpec_SecretKey (MonitorStackSpec_Minio m) ≠ "" ∧
  MonitorStackGrafanaSpec_AdminPassword (MonitorStackSpec_Grafana m) ≠ "".

Lemma SetDefaults_KeystoneSpec_run o r v h e n :
  ∃ n' k, SetDefaults_KeystoneSpec ClearComponent GeneratePassword o r v h e n = (n', Ok k) ∧
    (n ≤ n' ≤ S n)%nat ∧ KeystoneSpec_PublicService k = KeystoneSpec_PublicService o ∧
    KeystoneSpec_AdminService k = KeystoneSpec_AdminService o ∧
    (keystone_password o → n' = n) ∧ ((∀ k, GeneratePassword k ≠ "") → keystone_password k).
Proof.
  unfold SetDefaults_KeystoneSpec, bind, ret.
  edestruct default_password_run as (n' & p & -> & Hn & Hk & Hp). eexists _, _. eauto 7.
Qed.

Lemma setDefaults_MonitorStackSpec_run o n :
  ∃ n' m, setDefaults_MonitorStackSpec GeneratePassword o n = (n', Ok m) ∧
    (n ≤ n' ≤ 2 + n)%nat ∧ (monitor_passwords o → n' = n) ∧
    ((∀ k, GeneratePassword k ≠ "") → monitor_passwords m).
Proof.
  unfold setDefaults_MonitorStackSpec, bind, ret.
  match goal with |- context [default_password _ ?x ?m] =>
    destruct (default_password_run x m) as (n1 & p1 & -> & H1 & K1 & P1) end.
  match goal with |- context [default_password _ ?x ?m] =>
    destruct (default_password_run x m) as (n2 & p2 & -> & H2 & K2 & P2) end.
  eexists _, _. split; [reflexivity|]. split; [lia|]. split; [|split; [apply P1|apply P2]; done].
  intros [M1 M2]. rewrite K2, K1; [done|exact M1|exact M2].
Qed.

Lemma setDefaults_Cloudmux_run r v o :
  ∃ c d, setDefaults_Cloudmux ClearComponent r v o = Ok c ∧ CloudmuxSpec_ToDeploymentSpec c = Ok d.
Proof.
  unfold setDefaults_Cloudmux, CloudmuxSpec_ToDeploymentSpec. destruct o as [? dis].
  destruct dis; cbn; eauto.
Qed.

Lemma setDefaults_EChartsSpec_run r o :
  ∃ c, setDefaults_EChartsSpec ClearComponent r o = Ok c.
Proof.
  unfold setDefaults_EChartsSpec, EChartsSSRSpec_ToDeploymentSpec. destruct o as [? dis].
  destruct dis; cbn; eauto.
Qed.

(** [setDefaults_Components] when the cloudmux entry can be read. *)
Definition components_after (h isEE isEEOrESE : bool) (obj : OnecloudClusterSpec)
  : OnecloudClusterSpec :=
  let obj := setDefaults_Deployments ClearComponent h isEE obj in
  let obj := fold_left (setDefaults_deployEntry ClearComponent editionImageOf isEE)
               (editionEntries h) obj in
  let obj := setDefaults_SupportParts ClearComponent h isEEOrESE obj in
  let obj := setDefaults_HostSpec (setDefaults_WebImages ClearComponent isEE obj) in
  let obj := fold_left (setDefaults_daemonEntry ClearComponent h isEE) daemonEntries obj in
  let obj := setDefaults_AgentImages ClearComponent h isEE obj in
  let obj := setDefaults_Telegraf ClearComponent isEE obj in
  let obj := fold_left (setDefaults_stateEntry ClearComponent isEE)
               (stateEntries (OnecloudClusterSpec_Version obj) h) obj in
  setDefaults_NotifyPlugins isEE obj.

Lemma setDefaults_Components_run h isEE isEEOrESE obj d :
  CloudmuxSpec_ToDeploymentSpec (OnecloudClusterSpec_Cloudmux obj) = Ok d →
  setDefaults_Components ClearComponent h isEE isEEOrESE obj
  = Ok (components_after h isEE isEEOrESE obj).
Proof.
  intros Hd. unfold setDefaults_Components, setDefaults_EditionParts.
  change (OnecloudClusterSpec_Cloudmux (setDefaults_Deployments ClearComponent h isEE obj))
    with (OnecloudClusterSpec_Cloudmux obj).
  by rewrite Hd.
Qed.

(** The components defaulted before the loops. *)
Definition spec_before (isEE : bool) (keystone : KeystoneSpec) (obj : OnecloudClusterSpec)
  : OnecloudClusterSpec :=
  let h := OnecloudClusterSpec_UseHyperImage obj in
  let repo := OnecloudClusterSpec_ImageRepository obj in
  let version := OnecloudClusterSpec_Version obj in
  obj <| OnecloudClusterSpec_Keystone := keystone |>
      <| OnecloudClusterSpec_RegionServer ::= λ r,
           SetDefaults_RegionSpec ClearComponent r repo version h isEE |>
      <| OnecloudClusterSpec_RegionDNS ::= λ r,
           SetDefaults_RegionDNSSpec ClearComponent r repo version |>
      <| OnecloudClusterSpec_Monitor ::= λ m,
           SetDefaults_MonitorSpec ClearComponent m repo version h isEE |>.

(** The result of the run, given the parts that draw passwords or are
    computed through a copy. *)
Definition spec_after (isEE isEEOrESE : bool) (keystone : KeystoneSpec) (cloudmux : CloudmuxSpec)
    (monitorStack : MonitorStackSpec) (echarts : EChartsSSRSpec) (obj : OnecloudClusterSpec)
  : OnecloudClusterSpec :=
  let obj0 := setDefaults_Globals obj in
  let obj := components_after (OnecloudClusterSpec_UseHyperImage obj0) isEE isEEOrESE
               ((spec_before isEE keystone obj0) <| OnecloudClusterSpec_Cloudmux := cloudmux |>) in
  let obj := setDefaults_Components_ServicePort
               (obj <| OnecloudClusterSpec_MonitorStack := monitorStack |>) in
  obj <| OnecloudClusterSpec_EChartsSSR := echarts |>.

(** The same run as a chain of the named stages. *)
Lemma SetDefaults_OnecloudClusterSpec_stages obj isEE isEEOrESE n :
  let obj0 := setDefaults_Globals obj in
  let h := OnecloudClusterSpec_UseHyperImage obj0 in
  let repo := OnecloudClusterSpec_ImageRepository obj0 in
  let version := OnecloudClusterSpec_Version obj0 in
  SetDefaults_OnecloudClusterSpec ClearComponent GeneratePassword obj isEE isEEOrESE n =
  (let! ks := SetDefaults_KeystoneSpec ClearComponent GeneratePassword
                (OnecloudClusterSpec_Keystone obj0) repo version h isEE in
   let obj1 := spec_before isEE ks obj0 in
   let! cm := lift (setDefaults_Cloudmux ClearComponent repo version
                      (OnecloudClusterSpec_Cloudmux obj1)) in
   let! obj2 := lift (setDefaults_Components ClearComponent h isEE isEEOrESE
                        (obj1 <| OnecloudClusterSpec_Cloudmux := cm |>)) in
   let! ms := setDefaults_MonitorStackSpec GeneratePassword (OnecloudClusterSpec_MonitorStack obj2) in
   let obj3 := setDefaults_Components_ServicePort
                 (obj2 <| OnecloudClusterSpec_MonitorStack := ms |>) in
   let! ec := lift (setDefaults_EChartsSpec ClearComponent
                      (OnecloudClusterSpec_ImageRepository obj3) (OnecloudClusterSpec_EChartsSSR obj3)) in
   ret (obj3 <| OnecloudClusterSpec_EChartsSSR := ec |>)) n.
Proof. reflexivity. Qed.

Lemma SetDefaults_OnecloudClusterSpec_run obj isEE isEEOrESE n :
  ∃ n' ks cm ms ec,
    SetDefaults_OnecloudClusterSpec ClearComponent GeneratePassword obj isEE isEEOrESE n
    = (n', Ok (spec_after isEE isEEOrESE ks cm ms ec obj)) ∧ (n ≤ n' ≤ 3 + n)%nat ∧
    KeystoneSpec_PublicService ks = KeystoneSpec_PublicService (OnecloudClusterSpec_Keystone obj) ∧
    KeystoneSpec_AdminService ks = KeystoneSpec_AdminService (OnecloudClusterSpec_Keystone obj) ∧
    (keystone_password (OnecloudClusterSpec_Keystone obj) →
     monitor_passwords (OnecloudClusterSpec_MonitorStack obj) → n' = n) ∧
    ((∀ k, GeneratePassword k ≠ "") → keystone_password ks ∧ monitor_passwords ms).
Proof.
  rewrite SetDefaults_OnecloudClusterSpec_stages. cbv beta zeta delta [bind lift].
  edestruct SetDefaults_KeystoneSpec_run as (n1 & ks & -> & H1 & Hp & Ha & K1 & P1).
  edestruct setDefaults_Cloudmux_run as (cm & d & -> & Hd).
  rewrite (setDefaults_Components_run _ _ _ _ d) by exact Hd.
  edestruct setDefaults_MonitorStackSpec_run as (n2 & ms & -> & H2 & K2 & P2).
  edestruct setDefaults_EChartsSpec_run as (ec & ->).
  exists n2, ks, cm, ms, ec. split; [reflexivity|]. split; [clear -H1 H2; lia|].
  split; [by rewrite Hp|]. split; [by rewrite Ha|]. split; [|by auto].
  intros M1 M2. rewrite K2, K1; [done|exact M1|exact M2].
Qed.

(** The final spec keeps both. *)
Lemma spec_after_passwords ks cm ms ec isEE isEEOrESE obj :
  let obj' := spec_after isEE isEEOrESE ks cm ms ec obj in
  (keystone_password ks → keystone_password (OnecloudClusterSpec_Keystone obj')) ∧
  OnecloudClusterSpec_MonitorStack obj' = ms.
Proof.
  cbv zeta. unfold spec_after.
  generalize (OnecloudClusterSpec_UseHyperImage (setDefaults_Globals obj)). intros h.
  split; [|reflexivity]. intros H. exact H.
Qed.
End run.

(** ** Every entry of the loops, in the final spec *)
Section entries.
Context (ClearComponent isEE isEEOrESE : bool).
Context (ks : KeystoneSpec) (cm : CloudmuxSpec) (ms : MonitorStackSpec) (ec : EChartsSSRSpec).
Context (obj : OnecloudClusterSpec).

Abbreviation obj' := (spec_after ClearComponent isEE isEEOrESE ks cm ms ec obj).

(** [e] ends up in [s'] as the default of what [s] has, with the image
    [image] computes for it. *)
Definition entry_defaulted (image : image_fun) (ee : bool) (s s' : OnecloudClusterSpec)
    (e : deployEntry) : Prop :=
  se_get e s' = SetDefaults_DeploymentSpec ClearComponent (se_get e s)
    (image (default_str DefaultImageRepository (OnecloudClusterSpec_ImageRepository s))
       (se_type e) (default_str DefaultVersion (OnecloudClusterSpec_Version s))
       (se_supported e) ee (DeploymentSpec_ContainerSpec (se_get e s))).

Abbreviation hyper := (OnecloudClusterSpec_UseHyperImage obj).

Lemma deployEntries_defaulted :
  Forall (λ e, se_type e ≠ OvnNorthComponentType → entry_defaulted imageOf isEE obj obj' e)
    (deployEntries hyper).
Proof. unfold entry_defaulted. repeat constructor; first [by intros []|intros _; reflexivity]. Qed.

Lemma editionEntries_defaulted :
  Forall (entry_defaulted editionImageOf isEE obj obj') (editionEntries hyper).
Proof. unfold entry_defaulted. repeat constructor. Qed.

Lemma supportEntries_defaulted :
  Forall (entry_defaulted editionImageOf isEEOrESE obj obj') (supportEntries hyper).
Proof. unfold entry_defaulted. repeat constructor. Qed.

(** The replica counts, those of ovn-north included. *)
Lemma deployEntries_replicas :
  Forall (λ e, DeploymentSpec_Replicas (se_get e obj')
               = defaultReplicas (DeploymentSpec_Disable (se_get e obj))
                   (DeploymentSpec_Replicas (se_get e obj)))
    (deployEntries hyper ++ editionEntries hyper ++ supportEntries hyper).
Proof.
  Transparent SetDefaults_DeploymentSpec.
  repeat constructor; cbn -[SetDefaults_DeploymentSpec]; by rewrite SetDefaults_DeploymentSpec_eq.
  Opaque SetDefaults_DeploymentSpec.
Qed.
End entries.

(** ** Service ports *)

(** The node port of a service: the configured one, or the default. *)
Definition nodePortOf (s : OnecloudClusterSpec) (p : serviceSpecPair) : Z :=
  ServicePortSpec_NodePort (ServiceSpec_ServicePortSpec (se_get (sp_spec p) s)).

Lemma NodePort_SetDefaults_ServiceSpec s port :
  ServicePortSpec_NodePort (ServiceSpec_ServicePortSpec (SetDefaults_ServiceSpec s port))
  = default_int port (ServicePortSpec_NodePort (ServiceSpec_ServicePortSpec s)).
Proof.
  Transparent SetDefaults_ServiceSpec.
  destruct s as [[i q]]. unfold SetDefaults_ServiceSpec, default_int; cbn. by destruct (q =? 0)%Z.
  Opaque SetDefaults_ServiceSpec.
Qed.

Lemma spec_after_nodePorts clear isEE isEEOrESE ks cm ms ec obj :
  KeystoneSpec_PublicService ks = KeystoneSpec_PublicService (OnecloudClusterSpec_Keystone obj) →
  KeystoneSpec_AdminService ks = KeystoneSpec_AdminService (OnecloudClusterSpec_Keystone obj) →
  Forall (λ p, nodePortOf (spec_after clear isEE isEEOrESE ks cm ms ec obj) p
               = default_int (sp_defaultPort p) (nodePortOf obj p)) serviceSpecPairs.
Proof.
  intros Hp Ha. unfold nodePortOf.
  repeat (constructor; [cbn -[default_int]; rewrite NodePort_SetDefaults_ServiceSpec, ?Hp, ?Ha; reflexivity|]).
  constructor.
Qed.

Lemma default_ports_distinct :
  NoDup (map sp_defaultPort serviceSpecPairs) ∧
  Forall (λ p, 30000 ≤ sp_defaultPort p ≤ 32767)%Z serviceSpecPairs.
Proof.
  split.
  - apply (bool_decide_unpack _). vm_compute. exact I.
  - apply (bool_decide_unpack _). vm_compute. exact I.
Qed.

(** ** Go's map iteration order *)

(** Two loop bodies at entries that can be swapped. *)
Definition entries_commute (image : image_fun) (clear isEE : bool) (e1 e2 : deployEntry) : Prop :=
  ∀ obj, setDefaults_deployEntry clear image isEE (setDefaults_deployEntry clear image isEE obj e1) e2
       = setDefaults_deployEntry clear image isEE (setDefaults_deployEntry clear image isEE obj e2) e1.

Lemma fold_left_commute {A B} (f : A → B → A) (l l' : list B) a :
  l ≡ₚ l' →
  (∀ x y, x ∈ l → y ∈ l → ∀ a, f (f a x) y = f (f a y) x) →
  fold_left f l a = fold_left f l' a.
Proof.
  intros HP. revert a. induction HP as [|x l l' HP IH|x y l|l1 l2 l3 H1 IH1 H2 IH2]; intros a Hc; cbn.
  - done.
  - apply IH. intros; apply Hc; by right.
  - rewrite (Hc y x); [done|by left|by right; left].
  - rewrite IH1 by done. apply IH2. intros u v Hu Hv. apply Hc; by rewrite H1.
Qed.

Lemma deployEntries_commute image clear isEE h :
  Forall (λ e1, Forall (entries_commute image clear isEE e1) (deployEntries h)) (deployEntries h).
Proof. unfold entries_commute. repeat constructor. Qed.
