(* ===== verification/DefaultsFacts.v ===== *)
(** * DefaultsFacts: what defaulting guarantees *)

From S2P Require Import Prelude K8s Types Constants Defaults DefaultsSpec.

Open Scope string_scope.
Open Scope go_scope.

(** The leaf functions stay folded: they are rewritten with their lemmas. *)
#[local] Opaque SetDefaults_DeploymentSpec SetDefaults_DaemonSetSpec.

(** ** Idempotence *)
Section idempotence.
Context (GeneratePassword : nat → string)
        (password_nonempty : ∀ n, GeneratePassword n ≠ "").

Lemma default_password_nonempty x n n' p :
  default_password GeneratePassword x n = (n', Ok p) → p ≠ "".
Proof.
  unfold default_password, gen_password, ret.
  destruct (str_empty x) eqn:E; intros [= <- <-]; [done|by apply str_empty_false].
Qed.

Lemma default_password_keep p m :
  p ≠ "" → default_password GeneratePassword p m = (m, Ok p).
Proof. unfold default_password. intros ->%str_empty_false. done. Qed.

Lemma setDefaults_Cloudmux_idem r v obj c :
  setDefaults_Cloudmux false r v obj = Ok c → setDefaults_Cloudmux false r v c = Ok c.
Proof.
  unfold setDefaults_Cloudmux, CloudmuxSpec_ToDeploymentSpec. destruct obj as [? dis].
  destruct dis; cbn; intros [= <-]; cbn; rewrite !SetDefaults_DeploymentSpec_eq; cbn;
    unfold CloudmuxSpec_FillBySpec; cbn; unfold imageOf; cbn; by autorewrite with go.
Qed.

Lemma setDefaults_EChartsSpec_idem r obj c :
  setDefaults_EChartsSpec false r obj = Ok c → setDefaults_EChartsSpec false r c = Ok c.
Proof.
  unfold setDefaults_EChartsSpec, EChartsSSRSpec_ToDeploymentSpec. destruct obj as [? dis].
  destruct dis; cbn; intros [= <-]; cbn; rewrite !SetDefaults_DeploymentSpec_eq; cbn;
    unfold EChartsSSRSpec_FillBySpec; cbn; unfold imageOf; cbn; by autorewrite with go.
Qed.

Lemma SetDefaults_StatefulDeploymentSpec_idem ct o size r v h e :
  SetDefaults_StatefulDeploymentSpec false ct
    (SetDefaults_StatefulDeploymentSpec false ct o size r v h e) size r v h e
  = SetDefaults_StatefulDeploymentSpec false ct o size r v h e.
Proof.
  destruct o as [d sc]. cbn. unfold SetDefaults_StatefulDeploymentSpec; cbn.
  rewrite !SetDefaults_DeploymentSpec_eq; cbn.
  destruct d as [[? ? ? ? ? rq ?]]. unfold imageOf, setPVCStoreage; cbn.
  destruct rq as [[]|]; cbn; by autorewrite with go.
Qed.

Lemma imageOf_setDeploymentImage r t v h e r' t' v' h' e' d :
  imageOf r t v h e (DeploymentSpec_ContainerSpec (setDeploymentImage false r' t' v' h' e' d))
  = imageOf r t v h e (DeploymentSpec_ContainerSpec d).
Proof. by destruct d as [[]]. Qed.

Lemma imageOf_setDaemonSetImage r t v h e r' t' v' h' e' d :
  imageOf r t v h e (DaemonSetSpec_ContainerSpec (setDaemonSetImage false r' t' v' h' e' d))
  = imageOf r t v h e (DaemonSetSpec_ContainerSpec d).
Proof. by destruct d as [[]]. Qed.

Lemma Repository_SetDefaults_DaemonSetSpec d i :
  ContainerSpec_Repository (DaemonSetSpec_ContainerSpec (SetDefaults_DaemonSetSpec false d i))
  = ContainerSpec_Repository (DaemonSetSpec_ContainerSpec d).
Proof. Transparent SetDefaults_DaemonSetSpec. by destruct d as [[]]. Qed.

(** A container whose image and pull policy are overwritten in place. *)
Lemma imageOf_overwrite r t v h e c i p :
  imageOf r t v h e
    (MkContainerSpec i (ContainerSpec_Repository c) (ContainerSpec_ImageName c)
       (ContainerSpec_Tag c) p (ContainerSpec_Requests c) (ContainerSpec_Limits c))
  = imageOf r t v h e c.
Proof. done. Qed.

Lemma setDeploymentImage_idem r t v h e d i :
  let f d := setDeploymentImage false r t v h e (SetDefaults_DeploymentSpec false d i) in
  f (f d) = f d.
Proof.
  cbn. unfold setDeploymentImage. rewrite !SetDefaults_DeploymentSpec_eq.
  cbn. destruct d as [[]]; cbn. by autorewrite with go.
Qed.

Lemma setDaemonSetImage_idem r t v h e d i :
  let f d := setDaemonSetImage false r t v h e (SetDefaults_DaemonSetSpec false d i) in
  f (f d) = f d.
Proof.
  cbn. unfold setDaemonSetImage, SetDefaults_DaemonSetSpec.
  cbn. destruct d as [[]]; cbn. by autorewrite with go.
Qed.

Hint Rewrite Repository_SetDefaults_DaemonSetSpec imageOf_overwrite imageOf_setDeploymentImage imageOf_setDaemonSetImage setDeploymentImage_idem
  setDaemonSetImage_idem SetDefaults_StatefulDeploymentSpec_idem : go.

Opaque setDeploymentImage setDaemonSetImage SetDefaults_DaemonSetSpec SetDefaults_StatefulDeploymentSpec SetDefaults_ServiceSpec setDefaults_Mysql
  setDefaults_Clickhouse setDefaults_Dameng imageOf editionImageOf getImage setContainerImage
  setDefaults_Cloudmux setDefaults_EChartsSpec default_password CloudmuxSpec_ToDeploymentSpec.

(** The service ports are defaulted after the rest of the keystone spec. *)
Lemma SetDefaults_KeystoneSpec_idem obj r v h e n n' k :
  SetDefaults_KeystoneSpec false GeneratePassword obj r v h e n = (n', Ok k) →
  ∀ m ps as_,
    let k' := k <| KeystoneSpec_PublicService := ps |> <| KeystoneSpec_AdminService := as_ |> in
    SetDefaults_KeystoneSpec false GeneratePassword k' r v h e m = (m, Ok k').
Proof.
  unfold SetDefaults_KeystoneSpec. intros H m ps' as'. go_inv.
  destruct obj as [[d t] ps as_ pw db]. cbn in *.
  apply default_password_nonempty in Hm. unfold bind.
  rewrite default_password_keep by done. unfold ret. by autorewrite with go.
Qed.

Lemma setDefaults_MonitorStackSpec_idem obj n n' k :
  setDefaults_MonitorStackSpec GeneratePassword obj n = (n', Ok k) →
  ∀ m, setDefaults_MonitorStackSpec GeneratePassword k m = (m, Ok k).
Proof.
  unfold setDefaults_MonitorStackSpec. intros H m. go_inv.
  destruct obj as [dis [] [] [? [] ?] [? [[]]] [[]]]. cbn in *.
  apply default_password_nonempty in Hm, Hm0. unfold bind.
  rewrite default_password_keep by done. rewrite default_password_keep by done.
  unfold ret. destruct MonitorStackGrafanaSpec_OAuth; cbn. by autorewrite with go.
Qed.

(** The service port is defaulted after the rest of the spec. *)
Lemma SetDefaults_RegionSpec_idem o r v h e s :
  let q := SetDefaults_RegionSpec false o r v h e in
  let p := RegionSpec_DeploymentServicePortSpec q in
  let q' := MkRegionSpec
    (MkDeploymentServicePortSpec (DeploymentServicePortSpec_DeploymentSpec p) s
       (DeploymentServicePortSpec_DbEngine p))
    (RegionSpec_DNSServer q) (RegionSpec_DNSDomain q) in
  SetDefaults_RegionSpec false q' r v h e = q'.
Proof.
  destruct o as [[d s' db] ns nd]. unfold SetDefaults_RegionSpec. cbn.
  rewrite !SetDefaults_DeploymentSpec_eq. cbn. destruct d as [[] dns]. cbn.
  rewrite default_str_idem, default_str_idem, default_tolerations_idem, defaultReplicas_idem.
  by destruct dns.
Qed.

Lemma SetDefaults_RegionDNSSpec_idem o r v :
  SetDefaults_RegionDNSSpec false (SetDefaults_RegionDNSSpec false o r v) r v
  = SetDefaults_RegionDNSSpec false o r v.
Proof. destruct o. unfold SetDefaults_RegionDNSSpec. cbn. by autorewrite with go. Qed.

Lemma SetDefaults_MonitorSpec_idem o r v h e s :
  let q := SetDefaults_MonitorSpec false o r v h e in
  let q' := MkDeploymentServicePortSpec (DeploymentServicePortSpec_DeploymentSpec q) s
    (DeploymentServicePortSpec_DbEngine q) in
  SetDefaults_MonitorSpec false q' r v h e = q'.
Proof. destruct o. unfold SetDefaults_MonitorSpec. cbn. by autorewrite with go. Qed.

Lemma true_or_idem (b x : bool) : (if b then true else if b then true else x) = if b then true else x.
Proof. by destruct b. Qed.

Hint Rewrite true_or_idem SetDefaults_RegionSpec_idem SetDefaults_RegionDNSSpec_idem
  SetDefaults_MonitorSpec_idem : go.

Opaque SetDefaults_KeystoneSpec setDefaults_MonitorStackSpec SetDefaults_RegionSpec
  SetDefaults_RegionDNSSpec SetDefaults_MonitorSpec.

Lemma defaulted_spec_idem obj isEE isEEOrESE n n' obj' :
  SetDefaults_OnecloudClusterSpec false GeneratePassword obj isEE isEEOrESE n = (n', Ok obj') →
  ∀ m, SetDefaults_OnecloudClusterSpec false GeneratePassword obj' isEE isEEOrESE m = (m, Ok obj').
Proof.
  unfold SetDefaults_OnecloudClusterSpec. intros H m. cbv zeta in H.
  apply bind_Ok_inv in H as (s1 & ks & Hks & H).
  apply bind_Ok_inv in H as (s2 & cm & [= <- Hcm%setDefaults_Cloudmux_idem] & H).
  apply bind_Ok_inv in H as (s3 & o & [= <- Ho] & H).
  apply bind_Ok_inv in H as (s4 & ms & Hms & H).
  apply bind_Ok_inv in H as (s5 & ec & [= <- Hec%setDefaults_EChartsSpec_idem] & H).
  injection H as <- <-.
  pose proof (SetDefaults_KeystoneSpec_idem _ _ _ _ _ _ _ _ Hks m) as Kks. cbn in Kks.
  pose proof (setDefaults_MonitorStackSpec_idem _ _ _ _ Hms) as Kms.
  clear Hks Hms. revert Ho Kks Hcm Kms Hec.
  unfold setDefaults_Components, setDefaults_EditionParts, setDefaults_NotifyPlugins, setDefaults_Globals.
  destruct obj; cbn. destruct CloudmuxSpec_ToDeploymentSpec eqn:E; cbn; [|done|done].
  intros H; injection H as <-. cbn. intros Kks Hcm Kms Hec. unfold bind, lift.
  autorewrite with go.
  rewrite Kks. rewrite Hcm. cbn. rewrite E. cbn. rewrite Kms. cbn. autorewrite with go. rewrite Hec.
  reflexivity.
Qed.
End idempotence.

(** ** Properties *)

(** Defaulting never fails. *)
Lemma SetDefaults_OnecloudCluster_ok GeneratePassword obj n :
  ∃ n' obj', SetDefaults_OnecloudCluster false GeneratePassword obj n = (n', Ok obj').
Proof.
  unfold SetDefaults_OnecloudCluster.
  set (obj1 := match _ !! InstanceLabelKey with Some _ => obj | None => _ end). unfold bind.
  destruct (SetDefaults_OnecloudClusterSpec_run false GeneratePassword (OnecloudCluster_Spec obj1)
    (IsEnterpriseEdition obj1) (IsEEOrESEEdition obj1) n) as (n' & ks & cm & ms & ec & -> & _).
  by eexists n', _.
Qed.

(** Defaulting a cluster sets the instance label and defaults the spec, the
    label being there the second time. *)
Lemma SetDefaults_OnecloudCluster_labelled clear GeneratePassword obj :
  ∃ obj1, (∀ n, SetDefaults_OnecloudCluster clear GeneratePassword obj n
     = bind (SetDefaults_OnecloudClusterSpec clear GeneratePassword (OnecloudCluster_Spec obj1)
               (IsEnterpriseEdition obj1) (IsEEOrESEEdition obj1))
         (λ spec, ret (obj1 <| OnecloudCluster_Spec := spec |>)) n) ∧
    ∀ spec m, SetDefaults_OnecloudCluster clear GeneratePassword (obj1 <| OnecloudCluster_Spec := spec |>) m
     = bind (SetDefaults_OnecloudClusterSpec clear GeneratePassword spec
               (IsEnterpriseEdition obj1) (IsEEOrESEEdition obj1))
         (λ spec', ret (obj1 <| OnecloudCluster_Spec := spec' |>)) m.
Proof.
  unfold SetDefaults_OnecloudCluster.
  set (obj1 := match _ !! InstanceLabelKey with Some _ => obj | None => _ end).
  exists obj1. split; [done|].
  assert (∃ l, ObjectMeta_Labels (OnecloudCluster_ObjectMeta obj1) !! InstanceLabelKey = Some l)
    as [l Hl].
  { subst obj1. destruct (ObjectMeta_Labels (OnecloudCluster_ObjectMeta obj) !! InstanceLabelKey) eqn:E; eauto.
    eexists. apply lookup_insert_eq. }
  clearbody obj1. intros spec m. destruct obj1 as [meta spec0 status]. cbn in *. by rewrite Hl.
Qed.

(** With [--clear-component] a defaulted spec is not a fixed point: the first
    run computes climc's image from the user's tag and then clears the tag, so
    the second computes another image. *)
Example clear_component_not_stable :
  let obj := (zero : OnecloudCluster) <| OnecloudCluster_Spec ::= λ s,
    s <| OnecloudClusterSpec_Climc ::= λ d,
      d <| DeploymentSpec_ContainerSpec ::= λ c, c <| ContainerSpec_Tag := "mine" |> |> |> |> in
  let run := SetDefaults_OnecloudCluster true (λ _, "pw") in
  let climcImage (r : nat * Res OnecloudCluster) :=
    match snd r with
    | Ok o => Some (ContainerSpec_Image (DeploymentSpec_ContainerSpec
                (OnecloudClusterSpec_Climc (OnecloudCluster_Spec o))))
    | _ => None
    end in
  climcImage (run obj 0%nat) = Some "registry.hub.docker.com/yunion/climc:mine" ∧
  climcImage (bind (run obj) run 0%nat) = Some "registry.hub.docker.com/yunion/climc:latest".
Proof. vm_compute. done. Qed.

(** C1. Defaulting a cluster always succeeds, whether or not
    [--clear-component] is given, and defaulting the result again succeeds
    too and draws no password: the passwords drawn once stay, provided the
    generator never returns an empty one. Without [--clear-component] (its
    default) the second defaulting moreover changes nothing, so the operator
    can default the resource at every sync without ever producing a new spec;
    with it, the second defaulting can change images
    ([clear_component_not_stable]). *)
Theorem SetDefaults_OnecloudCluster_stable (ClearComponent : bool)
    (GeneratePassword : nat → string) (obj : OnecloudCluster) (n : nat) :
  (∀ k, GeneratePassword k ≠ "") →
  let run := SetDefaults_OnecloudCluster ClearComponent GeneratePassword in
  ∃ n' obj', run obj n = (n', Ok obj') ∧ (n ≤ n' ≤ 3 + n)%nat ∧
    ∀ m, ∃ obj'', run obj' m = (m, Ok obj'') ∧ (ClearComponent = false → obj'' = obj').
Proof.
  intros Hpw. cbv zeta.
  destruct (SetDefaults_OnecloudCluster_labelled ClearComponent GeneratePassword obj)
    as (obj1 & H1 & H2).
  destruct (SetDefaults_OnecloudClusterSpec_run ClearComponent GeneratePassword
    (OnecloudCluster_Spec obj1) (IsEnterpriseEdition obj1) (IsEEOrESEEdition obj1) n)
    as (n' & ks & cm & ms & ec & Hrun & Hn & _ & _ & _ & Hset).
  destruct (Hset Hpw) as [Kk Km]. eexists n', _. rewrite H1. unfold bind at 1. rewrite Hrun.
  split; [reflexivity|]. split; [exact Hn|]. intros m. rewrite H2.
  destruct (spec_after_passwords ClearComponent ks cm ms ec (IsEnterpriseEdition obj1)
    (IsEEOrESEEdition obj1) (OnecloudCluster_Spec obj1)) as [Pk Pm].
  revert Hrun Pk Pm. generalize (spec_after ClearComponent (IsEnterpriseEdition obj1)
    (IsEEOrESEEdition obj1) ks cm ms ec (OnecloudCluster_Spec obj1)). intros spec Hrun Pk Pm.
  destruct (SetDefaults_OnecloudClusterSpec_run ClearComponent GeneratePassword spec
    (IsEnterpriseEdition obj1) (IsEEOrESEEdition obj1) m)
    as (m' & ks' & cm' & ms' & ec' & Hrun' & _ & _ & _ & Hdraw & _).
  rewrite Pm in Hdraw. rewrite (Hdraw (Pk Kk) Km) in Hrun'. clear Hdraw.
  revert Hrun'. generalize (spec_after ClearComponent (IsEnterpriseEdition obj1)
    (IsEEOrESEEdition obj1) ks' cm' ms' ec' spec). intros spec' Hrun'.
  unfold bind. rewrite Hrun'. eexists. split; [reflexivity|]. intros ->.
  pose proof (defaulted_spec_idem _ Hpw _ _ _ _ _ _ Hrun m) as Hidem.
  rewrite Hrun' in Hidem. by injection Hidem as ->.
Qed.

Lemma SetDefaults_OnecloudCluster_stable_witness :
  (∀ k : nat, (λ _, "pw") k ≠ "") ∧
  let run := SetDefaults_OnecloudCluster true (λ _, "pw") in
  ∃ n' obj', run zero 0%nat = (n', Ok obj') ∧ (0 ≤ n' ≤ 3 + 0)%nat ∧
    ∀ m, ∃ obj'', run obj' m = (m, Ok obj'') ∧ (true = false → obj'' = obj').
Proof.
  split; [done|]. apply (SetDefaults_OnecloudCluster_stable true (λ _, "pw") zero 0). done.
Defined.

(** C10. Every deployment of the loops (deployments, edition parts, support
    parts) ends up as [SetDefaults_DeploymentSpec] of what the user gave,
    with the image of its own component, repository, version and edition;
    its replica count is 0 when disabled and at least 1 otherwise. No later
    part of the function overwrites it, ovn-north's image apart. The spec
    draws at most three passwords. *)
Theorem SetDefaults_OnecloudClusterSpec_deployments (ClearComponent : bool)
    (GeneratePassword : nat → string) (obj : OnecloudClusterSpec) (isEE isEEOrESE : bool) (n : nat) :
  ∃ n' obj',
    SetDefaults_OnecloudClusterSpec ClearComponent GeneratePassword obj isEE isEEOrESE n
    = (n', Ok obj') ∧ (n ≤ n' ≤ 3 + n)%nat ∧
    let h := OnecloudClusterSpec_UseHyperImage obj in
    Forall (λ e, se_type e ≠ OvnNorthComponentType →
              entry_defaulted ClearComponent imageOf isEE obj obj' e) (deployEntries h) ∧
    Forall (entry_defaulted ClearComponent editionImageOf isEE obj obj') (editionEntries h) ∧
    Forall (entry_defaulted ClearComponent editionImageOf isEEOrESE obj obj') (supportEntries h) ∧
    Forall (λ e, let d := se_get e obj in let r := DeploymentSpec_Replicas (se_get e obj') in
              if DeploymentSpec_Disable d then r = 0%Z
              else (1 ≤ r)%Z ∧ ((1 ≤ DeploymentSpec_Replicas d)%Z → r = DeploymentSpec_Replicas d))
      (deployEntries h ++ editionEntries h ++ supportEntries h).
Proof.
  destruct (SetDefaults_OnecloudClusterSpec_run ClearComponent GeneratePassword obj isEE isEEOrESE n)
    as (n' & ks & cm & ms & ec & Hrun & Hn & _).
  eexists n', _. split; [exact Hrun|]. split; [exact Hn|]. cbv zeta.
  split; [apply deployEntries_defaulted|]. split; [apply editionEntries_defaulted|].
  split; [apply supportEntries_defaulted|].
  eapply Forall_impl; [apply deployEntries_replicas|]. cbv beta. intros e ->.
  apply defaultReplicas_spec.
Qed.

(** C11. After defaulting, the node port of every service is the configured
    one, or the component's default when none was; the default ports are
    pairwise different and inside the node port range 30000-32767, so a
    cluster that configures no port gets no port clash. *)
Theorem setDefaults_Components_ServicePort_ports (ClearComponent : bool)
    (GeneratePassword : nat → string) (obj : OnecloudClusterSpec) (isEE isEEOrESE : bool) (n : nat) :
  ∃ n' obj',
    SetDefaults_OnecloudClusterSpec ClearComponent GeneratePassword obj isEE isEEOrESE n
    = (n', Ok obj') ∧
    Forall (λ p, nodePortOf obj' p = default_int (sp_defaultPort p) (nodePortOf obj p))
      serviceSpecPairs ∧
    (Forall (λ p, nodePortOf obj p = 0%Z) serviceSpecPairs →
     NoDup (map (nodePortOf obj') serviceSpecPairs) ∧
     Forall (λ p, 30000 ≤ nodePortOf obj' p ≤ 32767)%Z serviceSpecPairs).
Proof.
  destruct (SetDefaults_OnecloudClusterSpec_run ClearComponent GeneratePassword obj isEE isEEOrESE n)
    as (n' & ks & cm & ms & ec & Hrun & _ & Hp & Ha & _).
  eexists n', _. split; [exact Hrun|].
  pose proof (spec_after_nodePorts ClearComponent isEE isEEOrESE ks cm ms ec obj Hp Ha) as HF.
  split; [exact HF|]. intros Hz. clear Hrun.
  assert (Forall (λ p, nodePortOf (spec_after ClearComponent isEE isEEOrESE ks cm ms ec obj) p
                       = sp_defaultPort p) serviceSpecPairs) as HD.
  { rewrite Forall_forall in *. intros p Hin. by rewrite HF, Hz. }
  destruct default_ports_distinct as [Hnd Hr]. split.
  - rewrite (map_ext_Forall (nodePortOf _) sp_defaultPort); [exact Hnd|exact HD].
  - rewrite Forall_forall in *. intros p Hin. rewrite HD by done. by apply Hr.
Qed.

(** C12. Go ranges over the map literals of the defaulting functions in an
    unspecified order: every order in which the deployments can be visited
    gives the same spec. *)
Theorem setDefaults_Deployments_order (ClearComponent useHyperImage isEE : bool)
    (order : list deployEntry) (obj : OnecloudClusterSpec) :
  order ≡ₚ deployEntries useHyperImage →
  fold_left (setDefaults_deployEntry ClearComponent imageOf isEE) order obj
  = setDefaults_Deployments ClearComponent useHyperImage isEE obj.
Proof.
  intros HP. unfold setDefaults_Deployments. symmetry in HP. symmetry.
  apply fold_left_commute; [done|]. intros e1 e2 H1 H2 o.
  pose proof (deployEntries_commute imageOf ClearComponent isEE useHyperImage) as HF.
  rewrite Forall_forall in HF. specialize (HF _ H1). rewrite Forall_forall in HF.
  apply (HF _ H2).
Qed.

Lemma setDefaults_Deployments_order_witness :
  reverse (deployEntries true) ≡ₚ deployEntries true ∧
  fold_left (setDefaults_deployEntry false imageOf true) (reverse (deployEntries true)) zero
  = setDefaults_Deployments false true true zero.
Proof.
  split; [apply reverse_Permutation|].
  apply (setDefaults_Deployments_order false true true). apply reverse_Permutation.
Defined.
