(* ===== verification/ConfigDefaults.v ===== *)
(** * ConfigDefaults: defaulting of the cluster configuration

    [SetDefaults_OnecloudClusterConfig] of
    [pkg/apis/onecloud/v1alpha1/defaults.go]: the configuration the operator
    keeps in a config map, with the service accounts, ports and data bases of
    every component. Passwords come from the same supply as in Defaults.
    [log.Fatalf] ends the process; it is a panic of the model. *)

From S2P Require Import Prelude K8s Types Constants Defaults.

Open Scope string_scope.
Open Scope go_scope.

(** A place of the configuration: how to read and to overwrite it. *)
Record configPlace (A : Type) := MkConfigPlace {
  cp_get : OnecloudClusterConfig → A;
  cp_set : A → OnecloudClusterConfig → OnecloudClusterConfig
}.
Arguments MkConfigPlace {A} _ _.
Arguments cp_get {A} _ _.
Arguments cp_set {A} _ _ _.

Abbreviation cplace1 F := (MkConfigPlace F (λ v s, s <| F := v |>)) (only parsing).
Abbreviation cplace2 F G :=
  (MkConfigPlace (λ s, G (F s)) (λ v s, s <| F ::= λ x, x <| G := v |> |>)) (only parsing).

(*@ pkg/apis/onecloud/v1alpha1/defaults.go:865-878 SetDefaults_GlobalServiceCommonConfig *)
Definition SetDefaults_GlobalServiceCommonConfig (g : GlobalServiceCommonConfig)
  : GlobalServiceCommonConfig :=
  g <| GlobalServiceCommonConfig_CronJobWorkerCount ::= default_int 4 |>
    <| GlobalServiceCommonConfig_LocalTaskWorkerCount ::= default_int 4 |>
    <| GlobalServiceCommonConfig_RequestWorkerCount ::= default_int 8 |>
    <| GlobalServiceCommonConfig_TaskWorkerCount ::= default_int 4 |>.

(*@ pkg/apis/onecloud/v1alpha1/defaults.go:880-884 SetDefaults_ServiceBaseConfig *)
Definition SetDefaults_ServiceBaseConfig (obj : ServiceBaseConfig) (port : Z) : ServiceBaseConfig :=
  obj <| ServiceBaseConfig_Port ::= default_int port |>.

(*@ pkg/apis/onecloud/v1alpha1/defaults.go:802-813 SetDefaults_OnecloudClusterConfig (userPort) *)
Definition commonEntries : list (configPlace ServiceCommonOptions * (string * Z)) := [
  (cplace1 OnecloudClusterConfig_APIGateway, (APIGatewayAdminUser, APIGatewayPort));
  (cplace2 OnecloudClusterConfig_HostAgent HostConfig_ServiceCommonOptions, (HostAdminUser, HostPort));
  (cplace2 OnecloudClusterConfig_BaremetalAgent BaremetalConfig_ServiceCommonOptions, (BaremetalAdminUser, BaremetalPort));
  (cplace1 OnecloudClusterConfig_S3gateway, (S3gatewayAdminUser, S3gatewayPort));
  (cplace2 OnecloudClusterConfig_EsxiAgent EsxiAgentConfig_ServiceCommonOptions, (EsxiAgentAdminUser, EsxiAgentPort));
  (cplace2 OnecloudClusterConfig_VpcAgent VpcAgentConfig_ServiceCommonOptions, (VpcAgentAdminUser, VpcAgentPort));
  (cplace2 OnecloudClusterConfig_ApiMap APIMapConfig_ServiceCommonOptions, (ApiMapAdminUser, ApiMapPort));
  (cplace1 OnecloudClusterConfig_ServiceOperator, (ServiceOperatorAdminUser, ServiceOperatorPort));
  (cplace2 OnecloudClusterConfig_Lbagent LbagentConfig_ServiceCommonOptions, (LbagentAdminUser, LbagentPort));
  (cplace2 OnecloudClusterConfig_McpServer ServiceDBCommonOptions_ServiceCommonOptions, (McpServerAdminUser, McpServerPort))
].

(** [userDBPort]: service user, port, data base, data base user. *)
(*@ pkg/apis/onecloud/v1alpha1/defaults.go:826-852 SetDefaults_OnecloudClusterConfig (userDBPort) *)
Definition dbEntries : list (configPlace ServiceDBCommonOptions * (string * Z * string * string)) := [
  (cplace2 OnecloudClusterConfig_RegionServer RegionConfig_ServiceDBCommonOptions, (RegionAdminUser, RegionPort, RegionDB, RegionDBUser));
  (cplace2 OnecloudClusterConfig_Glance GlanceConfig_ServiceDBCommonOptions, (GlanceAdminUser, GlanceAPIPort, GlanceDB, GlanceDBUser));
  (cplace1 OnecloudClusterConfig_Logger, (LoggerAdminUser, LoggerPort, LoggerDB, LoggerDBUser));
  (cplace1 OnecloudClusterConfig_Yunionagent, (YunionAgentAdminUser, YunionAgentPort, YunionAgentDB, YunionAgentDBUser));
  (cplace1 OnecloudClusterConfig_Yunionconf, (YunionConfAdminUser, YunionConfPort, YunionConfDB, YunionConfDBUser));
  (cplace1 OnecloudClusterConfig_KubeServer, (KubeServerAdminUser, KubeServerPort, KubeServerDB, KubeServerDBUser));
  (cplace1 OnecloudClusterConfig_AnsibleServer, (AnsibleServerAdminUser, AnsibleServerPort, AnsibleServerDB, AnsibleServerDBUser));
  (cplace1 OnecloudClusterConfig_Cloudnet, (CloudnetAdminUser, CloudnetPort, CloudnetDB, CloudnetDBUser));
  (cplace1 OnecloudClusterConfig_Cloudproxy, (CloudproxyAdminUser, CloudproxyPort, CloudproxyDB, CloudproxyDBUser));
  (cplace1 OnecloudClusterConfig_Cloudevent, (CloudeventAdminUser, CloudeventPort, CloudeventDB, CloudeventDBUser));
  (cplace1 OnecloudClusterConfig_Notify, (NotifyAdminUser, NotifyPort, NotifyDB, NotifyDBUser));
  (cplace1 OnecloudClusterConfig_Devtool, (DevtoolAdminUser, DevtoolPort, DevtoolDB, DevtoolDBUser));
  (cplace2 OnecloudClusterConfig_Meter MeterConfig_ServiceDBCommonOptions, (MeterAdminUser, MeterPort, MeterDB, MeterDBUser));
  (cplace1 OnecloudClusterConfig_Billing, (BillingAdminUser, BillingPort, BillingDB, BillingDBUser));
  (cplace1 OnecloudClusterConfig_Monitor, (MonitorAdminUser, MonitorPort, MonitorDB, MonitorDBUser));
  (cplace1 OnecloudClusterConfig_Suggestion, (SuggestionAdminUser, SuggestionPort, SuggestionDB, SuggestionDBUser));
  (cplace2 OnecloudClusterConfig_Itsm ItsmConfig_ServiceDBCommonOptions, (ItsmAdminUser, ItsmPort, ItsmDB, ItsmDBUser));
  (cplace1 OnecloudClusterConfig_CloudId, (CloudIdAdminUser, CloudIdPort, CloudIdDB, CloudIdDBUser));
  (cplace1 OnecloudClusterConfig_Webconsole, (WebconsoleAdminUser, WebconsolePort, WebconsoleDB, WebconsoleDBUser));
  (cplace1 OnecloudClusterConfig_Report, (ReportAdminUser, ReportPort, ReportDB, ReportDBUser));
  (cplace1 OnecloudClusterConfig_AutoUpdate, (AutoUpdateAdminUser, AutoUpdatePort, AutoUpdateDB, AutoUpdateDBUser));
  (cplace1 OnecloudClusterConfig_BastionHost, (BastionHostAdminUser, BastionHostPort, BastionHostDB, BastionHostDBUser));
  (cplace1 OnecloudClusterConfig_Extdb, (ExtdbAdminUser, ExtdbPort, ExtdbDB, ExtdbDBUser));
  (cplace1 OnecloudClusterConfig_LLM, (LLMAdminUser, LLMPort, LLMDB, LLMDBUser));
  (cplace1 OnecloudClusterConfig_AiProxy, (AiProxyAdminUser, AiProxyPort, AiProxyDB, AiProxyDBUser))
].

Section passwords.
  Context (GeneratePassword : nat → string).

(*@ pkg/apis/onecloud/v1alpha1/defaults.go:903-913 setDefaults_DBConfig *)
Definition setDefaults_DBConfig (obj : DBConfig) (database username : string) : M nat DBConfig :=
  let obj := obj <| DBConfig_Database ::= default_str database |>
                 <| DBConfig_Username ::= default_str username |> in
  let! pw := default_password GeneratePassword (DBConfig_Password obj) in
  ret (obj <| DBConfig_Password := pw |>).

(*@ pkg/apis/onecloud/v1alpha1/defaults.go:915-922 setDefaults_CloudUser *)
Definition setDefaults_CloudUser (obj : CloudUser) (username : string) : M nat CloudUser :=
  let obj := obj <| CloudUser_Username ::= default_str username |> in
  let! pw := default_password GeneratePassword (CloudUser_Password obj) in
  ret (obj <| CloudUser_Password := pw |>).

(*@ pkg/apis/onecloud/v1alpha1/defaults.go:886-890 setDefaults_KeystoneConfig *)
Definition setDefaults_KeystoneConfig (obj : KeystoneConfig) : M nat KeystoneConfig :=
  let obj := obj <| KeystoneConfig_ServiceBaseConfig ::= λ b,
                      SetDefaults_ServiceBaseConfig b KeystonePublicPort |> in
  let! db := setDefaults_DBConfig (KeystoneConfig_DB obj) KeystoneDB KeystoneDBUser in
  let! ch := setDefaults_DBConfig (KeystoneConfig_ClickhouseConf obj) KeystoneDB KeystoneDBUser in
  ret (obj <| KeystoneConfig_DB := db |> <| KeystoneConfig_ClickhouseConf := ch |>).

(*@ pkg/apis/onecloud/v1alpha1/defaults.go:892-895 SetDefaults_ServiceCommonOptions *)
Definition SetDefaults_ServiceCommonOptions (obj : ServiceCommonOptions) (user : string) (port : Z)
  : M nat ServiceCommonOptions :=
  let obj := obj <| ServiceCommonOptions_ServiceBaseConfig ::= λ b,
                      SetDefaults_ServiceBaseConfig b port |> in
  let! u := setDefaults_CloudUser (ServiceCommonOptions_CloudUser obj) user in
  ret (obj <| ServiceCommonOptions_CloudUser := u |>).

(*@ pkg/apis/onecloud/v1alpha1/defaults.go:897-901 SetDefaults_ServiceDBCommonOptions *)
Definition SetDefaults_ServiceDBCommonOptions (obj : ServiceDBCommonOptions)
    (db dbUser svcUser : string) (port : Z) : M nat ServiceDBCommonOptions :=
  let! d := setDefaults_DBConfig (ServiceDBCommonOptions_DB obj) db dbUser in
  let! c := setDefaults_DBConfig (ServiceDBCommonOptions_ClickhouseConf obj) db dbUser in
  let! o := SetDefaults_ServiceCommonOptions (ServiceDBCommonOptions_ServiceCommonOptions obj)
              svcUser port in
  ret (MkServiceDBCommonOptions o d c).

(*@ pkg/apis/onecloud/v1alpha1/defaults.go:924-927 setDefaults_ItsmConfig *)
Definition setDefaults_ItsmConfig (obj : ItsmConfig) : M nat ItsmConfig :=
  let obj := obj <| ItsmConfig_SecondDatabase :=
    DBConfig_Database (ServiceDBCommonOptions_DB (ItsmConfig_ServiceDBCommonOptions obj))
      +:+ "_engine" |> in
  let! key := gen_password GeneratePassword in
  ret (obj <| ItsmConfig_EncryptionKey := key |>).

(** [f(&obj.place)] for a function that draws passwords. *)
Definition at_place {A} (p : configPlace A) (f : A → M nat A) (obj : OnecloudClusterConfig)
  : M nat OnecloudClusterConfig :=
  let! v := f (cp_get p obj) in ret (cp_set p v obj).

(*@ pkg/apis/onecloud/v1alpha1/defaults.go:802-815 SetDefaults_OnecloudClusterConfig (userPort loop) *)
Fixpoint setDefaults_commonEntries (l : list (configPlace ServiceCommonOptions * (string * Z)))
    (obj : OnecloudClusterConfig) : M nat OnecloudClusterConfig :=
  match l with
  | [] => ret obj
  | (opt, (user, port)) :: l' =>
      let! obj := at_place opt (λ o, SetDefaults_ServiceCommonOptions o user port) obj in
      setDefaults_commonEntries l' obj
  end.

(** [registryPorts] maps a port to the user that registered it. *)
(*@ pkg/apis/onecloud/v1alpha1/defaults.go:824-858 SetDefaults_OnecloudClusterConfig (userDBPort loop) *)
Fixpoint setDefaults_dbEntries
    (l : list (configPlace ServiceDBCommonOptions * (string * Z * string * string)))
    (registryPorts : gmap Z string) (obj : OnecloudClusterConfig) : M nat OnecloudClusterConfig :=
  match l with
  | [] => ret obj
  | (opt, (user, port, db, dbUser)) :: l' =>
      match registryPorts !! port with
      | Some _ => panic "port has been registered"
      | None =>
          let! obj := at_place opt
            (λ o, SetDefaults_ServiceDBCommonOptions o db dbUser user port) obj in
          setDefaults_dbEntries l' (<[port := user]> registryPorts) obj
      end
  end.

(*@ pkg/apis/onecloud/v1alpha1/defaults.go:793-863 SetDefaults_OnecloudClusterConfig *)
Definition SetDefaults_OnecloudClusterConfig (obj : OnecloudClusterConfig)
  : M nat OnecloudClusterConfig :=
  let obj := obj <| OnecloudClusterConfig_CommonConfig ::= SetDefaults_GlobalServiceCommonConfig |> in
  let! obj := at_place (cplace1 OnecloudClusterConfig_Keystone) setDefaults_KeystoneConfig obj in
  let! obj := setDefaults_commonEntries commonEntries obj in
  let! obj := setDefaults_dbEntries dbEntries ∅ obj in
  let! obj := at_place (cplace1 OnecloudClusterConfig_Cloudmon)
    (λ o, SetDefaults_ServiceCommonOptions o CloudmonAdminUser CloudmonPort) obj in
  let! obj := at_place (cplace1 OnecloudClusterConfig_Itsm) setDefaults_ItsmConfig obj in
  at_place (cplace2 OnecloudClusterConfig_Grafana GrafanaConfig_DB)
    (λ o, setDefaults_DBConfig o MonitorStackGrafanaDB MonitorStackGrafanaDBUer) obj.

End passwords.
