(* ===== verification/ConfigDefaultsFacts.v ===== *)
(** * ConfigDefaultsFacts: what defaulting of the configuration guarantees

    The run over all services is a chain of steps, one per place of the
    configuration; places are independent lenses, so what a step establishes
    survives the later ones. *)

From S2P Require Import Prelude K8s Types Constants Defaults ConfigDefaults.

Open Scope string_scope.
Open Scope go_scope.

(** ** Defaulting functions that settle

    [settles f]: [f] never fails, and its result is a fixed point that draws
    no password. *)
Definition fixed {A} (f : A → M nat A) (x : A) : Prop := ∀ m, f x m = (m, Ok x).
Definition settles {A} (f : A → M nat A) : Prop :=
  ∀ x n, ∃ n' y, f x n = (n', Ok y) ∧ fixed f y.

(** A step of the run: a function applied at a place of the configuration. *)
Record cstep := MkCstep {
  cs_type : Type;
  cs_place : configPlace cs_type;
  cs_fun : cs_type → M nat cs_type
}.
Definition cs_run (s : cstep) : OnecloudClusterConfig → M nat OnecloudClusterConfig :=
  at_place (cs_place s) (cs_fun s).

Fixpoint run_steps (l : list cstep) (obj : OnecloudClusterConfig)
  : M nat OnecloudClusterConfig :=
  match l with
  | [] => ret obj
  | s :: l' => let! obj := cs_run s obj in run_steps l' obj
  end.

(** The lens laws of a place, and independence of two steps. *)
Definition lawful (s : cstep) : Prop :=
  (∀ o, cp_set (cs_place s) (cp_get (cs_place s) o) o = o) ∧
  (∀ v o, cp_get (cs_place s) (cp_set (cs_place s) v o) = v).
Definition apart (s t : cstep) : Prop :=
  ∀ v o, cp_get (cs_place s) (cp_set (cs_place t) v o) = cp_get (cs_place s) o.

Lemma fixed_cs_run s o : lawful s → fixed (cs_fun s) (cp_get (cs_place s) o) → fixed (cs_run s) o.
Proof. intros [Hl _] Hf m. unfold cs_run, at_place, bind. by rewrite Hf, Hl. Qed.

Lemma run_steps_settles l :
  Forall (λ s, settles (cs_fun s) ∧ lawful s) l → ForallOrdPairs apart l →
  ∀ o n, ∃ n' o', run_steps l o n = (n', Ok o') ∧
    Forall (λ s, fixed (cs_fun s) (cp_get (cs_place s) o')) l ∧
    (∀ t, Forall (apart t) l → cp_get (cs_place t) o' = cp_get (cs_place t) o).
Proof.
  intros HF HA. induction HA as [|s l Hs HA IH]; intros o n.
  - exists n, o. by split_and!.
  - apply Forall_cons in HF as [[Hset [Hl1 Hl2]] HF].
    destruct (Hset (cp_get (cs_place s) o) n) as (n1 & y & Hy & Hfix).
    destruct (IH HF (cp_set (cs_place s) y o) n1) as (n2 & o' & Hrun & Hfl & Hkeep).
    exists n2, o'. split; [|split].
    + cbn. unfold cs_run at 1, at_place, bind. rewrite Hy. exact Hrun.
    + constructor; [|done]. by rewrite (Hkeep s Hs), Hl2.
    + intros t [Ht Htl]%Forall_cons. by rewrite (Hkeep t Htl), Ht.
Qed.

Lemma run_steps_fixed l o :
  Forall lawful l → Forall (λ s, fixed (cs_fun s) (cp_get (cs_place s) o)) l →
  fixed (run_steps l) o.
Proof.
  intros Hl Hf m. induction l as [|s l IH]; [done|].
  apply Forall_cons in Hl as [Hs Hl], Hf as [Hfs Hf]. cbn. unfold bind.
  rewrite (fixed_cs_run s o Hs Hfs m). by apply IH.
Qed.

Lemma run_steps_app l1 l2 o n :
  run_steps (l1 ++ l2) o n = (let! o := run_steps l1 o in run_steps l2 o) n.
Proof.
  revert o n. induction l1 as [|s l1 IH]; intros o n; cbn; [done|].
  rewrite bind_assoc. unfold bind. destruct (cs_run s o n) as [n1 [a|e|p]]; [|done|done].
  exact (IH a n1).
Qed.

(** ** The steps of the configuration *)
Section passwords.
Context (GeneratePassword : nat → string).
Context (password_nonempty : ∀ k, GeneratePassword k ≠ "").

Lemma default_password_settles : settles (default_password GeneratePassword).
Proof.
  intros x n. unfold fixed, default_password, gen_password, ret.
  destruct (str_empty x) eqn:E.
  - exists (S n), (GeneratePassword n). split; [done|]. intros m.
    pose proof (password_nonempty n) as Hn%str_empty_false. by rewrite Hn.
  - exists n, x. split; [done|]. intros m. by rewrite E.
Qed.

Lemma setDefaults_DBConfig_settles db user :
  settles (λ o, setDefaults_DBConfig GeneratePassword o db user).
Proof.
  intros [d u p] n. unfold setDefaults_DBConfig, fixed, bind; cbn.
  destruct (default_password_settles p n) as (n' & p' & -> & Hp). eexists _, _.
  split; [reflexivity|]. intros m. cbn. by rewrite Hp, !default_str_idem.
Qed.

Lemma setDefaults_CloudUser_settles user :
  settles (λ o, setDefaults_CloudUser GeneratePassword o user).
Proof.
  intros [u p] n. unfold setDefaults_CloudUser, fixed, bind; cbn.
  destruct (default_password_settles p n) as (n' & p' & -> & Hp). eexists _, _.
  split; [reflexivity|]. intros m. cbn. by rewrite Hp, !default_str_idem.
Qed.

Lemma SetDefaults_ServiceBaseConfig_idem b port :
  SetDefaults_ServiceBaseConfig (SetDefaults_ServiceBaseConfig b port) port
  = SetDefaults_ServiceBaseConfig b port.
Proof. destruct b. unfold SetDefaults_ServiceBaseConfig; cbn. by rewrite default_int_idem. Qed.

Lemma setDefaults_KeystoneConfig_settles : settles (setDefaults_KeystoneConfig GeneratePassword).
Proof.
  intros [b d c] n. unfold setDefaults_KeystoneConfig, fixed, bind; cbn.
  destruct (setDefaults_DBConfig_settles KeystoneDB KeystoneDBUser d n) as (n1 & d' & -> & Hd).
  destruct (setDefaults_DBConfig_settles KeystoneDB KeystoneDBUser c n1) as (n2 & c' & -> & Hc).
  eexists _, _. split; [reflexivity|]. intros m. cbn.
  by rewrite Hd, Hc, SetDefaults_ServiceBaseConfig_idem.
Qed.

Lemma SetDefaults_ServiceCommonOptions_settles user port :
  settles (λ o, SetDefaults_ServiceCommonOptions GeneratePassword o user port).
Proof.
  intros [b u] n. unfold SetDefaults_ServiceCommonOptions, fixed, bind; cbn.
  destruct (setDefaults_CloudUser_settles user u n) as (n1 & u' & -> & Hu).
  eexists _, _. split; [reflexivity|]. intros m. cbn.
  by rewrite Hu, SetDefaults_ServiceBaseConfig_idem.
Qed.

Lemma SetDefaults_ServiceDBCommonOptions_settles db dbUser user port :
  settles (λ o, SetDefaults_ServiceDBCommonOptions GeneratePassword o db dbUser user port).
Proof.
  intros [o d c] n. unfold SetDefaults_ServiceDBCommonOptions, fixed, bind; cbn.
  destruct (setDefaults_DBConfig_settles db dbUser d n) as (n1 & d' & -> & Hd).
  destruct (setDefaults_DBConfig_settles db dbUser c n1) as (n2 & c' & -> & Hc).
  destruct (SetDefaults_ServiceCommonOptions_settles user port o n2) as (n3 & o' & -> & Ho).
  eexists _, _. split; [reflexivity|]. intros m. cbn. by rewrite Hd, Hc, Ho.
Qed.

(** The loops, the data bases of every service, as steps. *)
Definition commonStep (e : configPlace ServiceCommonOptions * (string * Z)) : cstep :=
  MkCstep _ e.1 (λ o, SetDefaults_ServiceCommonOptions GeneratePassword o e.2.1 e.2.2).
Definition dbStep (e : configPlace ServiceDBCommonOptions * (string * Z * string * string)) : cstep :=
  let '(opt, (user, port, db, dbUser)) := e in
  MkCstep _ opt (λ o, SetDefaults_ServiceDBCommonOptions GeneratePassword o db dbUser user port).
Definition keystoneStep : cstep :=
  MkCstep _ (cplace1 OnecloudClusterConfig_Keystone) (setDefaults_KeystoneConfig GeneratePassword).
Definition cloudmonStep : cstep :=
  MkCstep _ (cplace1 OnecloudClusterConfig_Cloudmon)
    (λ o, SetDefaults_ServiceCommonOptions GeneratePassword o CloudmonAdminUser CloudmonPort).
Definition grafanaStep : cstep :=
  MkCstep _ (cplace2 OnecloudClusterConfig_Grafana GrafanaConfig_DB)
    (λ o, setDefaults_DBConfig GeneratePassword o MonitorStackGrafanaDB MonitorStackGrafanaDBUer).

Lemma setDefaults_commonEntries_steps l o n :
  setDefaults_commonEntries GeneratePassword l o n = run_steps (map commonStep l) o n.
Proof.
  revert o n. induction l as [|[p [u po]] l IH]; intros o n; cbn; [done|].
  unfold bind, cs_run; cbn. destruct (at_place _ _ o n) as [n1 [a|e|x]]; [apply IH|done|done].
Qed.

Definition entryPort (e : configPlace ServiceDBCommonOptions * (string * Z * string * string)) : Z :=
  let '(_, (_, port, _, _)) := e in port.

(** No port is registered twice, so [log.Fatalf] is not reached. *)
Lemma setDefaults_dbEntries_steps l ports o n :
  NoDup (map entryPort l) → (∀ p, p ∈ map entryPort l → ports !! p = None) →
  setDefaults_dbEntries GeneratePassword l ports o n = run_steps (map dbStep l) o n.
Proof.
  revert ports o n. induction l as [|[p [[[u po] db] du]] l IH]; intros ports o n; cbn; [done|].
  intros [Hn Hnd]%NoDup_cons Hfree. rewrite Hfree by (by left). unfold bind.
  unfold cs_run; cbn. destruct (at_place _ _ o n) as [n1 [a|e|x]]; [|done|done].
  apply IH; [done|]. intros q Hq. rewrite lookup_insert_ne by (intros ->; done).
  apply Hfree. by right.
Qed.

Lemma dbEntries_ports : NoDup (map entryPort dbEntries).
Proof. apply (bool_decide_unpack _). vm_compute. exact I. Qed.

(** All the steps before the itsm configuration. *)
Definition mainSteps : list cstep :=
  keystoneStep :: map commonStep commonEntries ++ map dbStep dbEntries ++ [cloudmonStep].

(** A nested record rebuilt from its own fields. *)
Ltac lens_eta := match goal with |- _ = ?x => by destruct x end.

Lemma mainSteps_good : Forall (λ s, settles (cs_fun s) ∧ lawful s) (mainSteps ++ [grafanaStep]).
Proof.
  repeat (constructor; [split; [|split; [intros []; cbn; f_equal; lens_eta|reflexivity]]|]);
    try constructor; cbn;
    first [ apply setDefaults_KeystoneConfig_settles
          | apply SetDefaults_ServiceCommonOptions_settles
          | apply SetDefaults_ServiceDBCommonOptions_settles
          | apply setDefaults_DBConfig_settles ].
Qed.

Lemma mainSteps_apart : ForallOrdPairs apart mainSteps.
Proof. repeat constructor. Qed.

Lemma grafanaStep_apart : Forall (λ s, apart s grafanaStep) mainSteps.
Proof. repeat constructor. Qed.

(** The common options, as a place the steps leave alone. *)
Definition commonConfigStep : cstep :=
  MkCstep _ (cplace1 OnecloudClusterConfig_CommonConfig)
    (λ g, ret (SetDefaults_GlobalServiceCommonConfig g)).

Lemma commonConfigStep_apart : Forall (apart commonConfigStep) mainSteps.
Proof. repeat constructor. Qed.

(** What the itsm configuration and the common options write is outside
    every other place. *)
Definition setItsm (key : string) (o : OnecloudClusterConfig) : OnecloudClusterConfig :=
  o <| OnecloudClusterConfig_Itsm ::= λ i, i
    <| ItsmConfig_SecondDatabase :=
         DBConfig_Database (ServiceDBCommonOptions_DB (ItsmConfig_ServiceDBCommonOptions i))
           +:+ "_engine" |>
    <| ItsmConfig_EncryptionKey := key |> |>.

Lemma setItsm_apart :
  Forall (λ s, ∀ key o, cp_get (cs_place s) (setItsm key o) = cp_get (cs_place s) o)
    (mainSteps ++ [grafanaStep]).
Proof. repeat constructor. Qed.

(** The whole run, as steps. *)
Lemma SetDefaults_OnecloudClusterConfig_steps o n :
  SetDefaults_OnecloudClusterConfig GeneratePassword o n =
  (let! o := run_steps mainSteps
     (o <| OnecloudClusterConfig_CommonConfig ::= SetDefaults_GlobalServiceCommonConfig |>) in
   let! o := (λ k, (S k, Ok (setItsm (GeneratePassword k) o))) in
   run_steps [grafanaStep] o) n.
Proof.
  unfold SetDefaults_OnecloudClusterConfig, mainSteps. cbn [run_steps].
  rewrite bind_assoc. apply bind_ext; [done|]. clear. intros o n. symmetry.
  erewrite bind_ext; [|intros; apply run_steps_app|done].
  rewrite bind_assoc. apply bind_ext; [intros; symmetry; apply setDefaults_commonEntries_steps|].
  clear. intros o n. erewrite bind_ext; [|intros; apply run_steps_app|done].
  rewrite bind_assoc. apply bind_ext.
  { intros. symmetry. apply setDefaults_dbEntries_steps; [apply dbEntries_ports|done]. }
  clear. intros o n. cbn [run_steps]. rewrite bind_assoc. apply bind_ext; [done|].
  clear. intros o n. rewrite bind_ret_l. apply bind_ext; [reflexivity|]. intros. apply bind_ret_r.
Qed.
End passwords.

(** ** Properties *)

Lemma SetDefaults_GlobalServiceCommonConfig_idem g :
  SetDefaults_GlobalServiceCommonConfig (SetDefaults_GlobalServiceCommonConfig g)
  = SetDefaults_GlobalServiceCommonConfig g.
Proof. destruct g. unfold SetDefaults_GlobalServiceCommonConfig; cbn. by autorewrite with go. Qed.

(** A defaulted configuration: the common options are as they should be, and
    defaulting it again redraws one key. *)
Definition config_settled (GeneratePassword : nat → string) (cfg : OnecloudClusterConfig) : Prop :=
  cfg <| OnecloudClusterConfig_CommonConfig ::= SetDefaults_GlobalServiceCommonConfig |> = cfg ∧
  ∀ m, SetDefaults_OnecloudClusterConfig GeneratePassword cfg m
       = (S m, Ok (cfg <| OnecloudClusterConfig_Itsm ::= λ i,
                          i <| ItsmConfig_EncryptionKey := GeneratePassword m |> |>)).

Lemma SetDefaults_OnecloudClusterConfig_settles GeneratePassword obj n :
  (∀ k, GeneratePassword k ≠ "") →
  ∃ n' obj', SetDefaults_OnecloudClusterConfig GeneratePassword obj n = (n', Ok obj') ∧
    config_settled GeneratePassword obj'.
Proof.
  intros Hpw. rewrite SetDefaults_OnecloudClusterConfig_steps.
  pose proof (mainSteps_good _ Hpw) as [Hg Hgg]%Forall_app. apply Forall_and in Hg as Hg'.
  destruct Hg' as [_ Hlaw].
  set (o0 := obj <| OnecloudClusterConfig_CommonConfig ::= SetDefaults_GlobalServiceCommonConfig |>).
  destruct (run_steps_settles _ Hg (mainSteps_apart _) o0 n) as (n1 & o1 & Hrun1 & Hfix1 & Hk1).
  set (oi := setItsm (GeneratePassword n1) o1).
  destruct (setDefaults_DBConfig_settles _ Hpw MonitorStackGrafanaDB MonitorStackGrafanaDBUer
    (GrafanaConfig_DB (OnecloudClusterConfig_Grafana oi)) (S n1)) as (n2 & db & Hdb & Hfix2).
  set (o2 := cp_set (cs_place (grafanaStep GeneratePassword)) db oi).
  exists n2, o2. unfold bind at 1 2. rewrite Hrun1. split.
  { cbn [run_steps]. unfold cs_run, at_place, bind. cbn [grafanaStep cs_fun cs_place cp_get].
    fold oi. by rewrite Hdb. }
  assert (o2 <| OnecloudClusterConfig_CommonConfig ::= SetDefaults_GlobalServiceCommonConfig |> = o2)
    as Hcommon.
  { specialize (Hk1 commonConfigStep (commonConfigStep_apart _)). cbn in Hk1.
    transitivity (o2 <| OnecloudClusterConfig_CommonConfig :=
      SetDefaults_GlobalServiceCommonConfig (OnecloudClusterConfig_CommonConfig o1) |>); [done|].
    rewrite Hk1, SetDefaults_GlobalServiceCommonConfig_idem, <- Hk1. done. }
  split; [exact Hcommon|]. intros m. rewrite SetDefaults_OnecloudClusterConfig_steps, Hcommon.
  unfold bind at 1 2. rewrite (run_steps_fixed _ _ Hlaw).
  - cbn [run_steps]. unfold cs_run, at_place, bind.
    cbn [grafanaStep cs_fun cs_place cp_get].
    change (GrafanaConfig_DB (OnecloudClusterConfig_Grafana (setItsm _ o2))) with db.
    by rewrite (Hfix2 (S m)).
  - pose proof (setItsm_apart GeneratePassword) as [Hit _]%Forall_app.
    pose proof (grafanaStep_apart GeneratePassword) as Hgr.
    rewrite Forall_forall in *. intros s Hs. unfold o2. rewrite (Hgr s Hs).
    unfold oi. rewrite (Hit s Hs). by apply Hfix1.
Qed.

(** C9. Defaulting the cluster configuration never fails: the check that
    ends the process when two services share a port is never triggered by the
    built-in table. Defaulting the result again keeps every user, password,
    port and data base, with one exception: the encryption key of the itsm
    service is drawn anew at each run. *)
Theorem SetDefaults_OnecloudClusterConfig_stable (GeneratePassword : nat → string)
    (obj : OnecloudClusterConfig) (n : nat) :
  (∀ k, GeneratePassword k ≠ "") →
  ∃ n' obj', SetDefaults_OnecloudClusterConfig GeneratePassword obj n = (n', Ok obj') ∧
    ∀ m, SetDefaults_OnecloudClusterConfig GeneratePassword obj' m
         = (S m, Ok (obj' <| OnecloudClusterConfig_Itsm ::= λ i,
                             i <| ItsmConfig_EncryptionKey := GeneratePassword m |> |>)).
Proof.
  intros Hpw. destruct (SetDefaults_OnecloudClusterConfig_settles _ obj n Hpw) as (n' & obj' & H & _ & Hs).
  by exists n', obj'.
Qed.

Lemma SetDefaults_OnecloudClusterConfig_stable_witness :
  (∀ k : nat, (λ _, "pw") k ≠ "") ∧
  ∃ n' obj', SetDefaults_OnecloudClusterConfig (λ _, "pw") zero 0%nat = (n', Ok obj') ∧
    ∀ m, SetDefaults_OnecloudClusterConfig (λ _, "pw") obj' m
         = (S m, Ok (obj' <| OnecloudClusterConfig_Itsm ::= λ i,
                             i <| ItsmConfig_EncryptionKey := "pw" |> |>)).
Proof.
  split; [done|]. apply (SetDefaults_OnecloudClusterConfig_stable (λ _, "pw") zero 0). done.
Defined.
