(* ===== verification/ControllerUtils.v ===== *)
(** * ControllerUtils: names and references shared by the controllers

    [pkg/controller/utils.go], and the cluster name test of
    [pkg/controller/onecloud_control.go]. Then the events: how
    [recordResourceEvent], [base_control.go] and [recordClusterEvent] of
    [cluster_control.go] report the outcome of a create, an update or a delete
    (no decision depends on it, and the operations of [Controls] leave it
    out), and the codecs of [pkg/util/k8s/marshal.go]. *)

From Stdlib Require Import Ascii.
From S2P Require Import Prelude K8s Types Constants GoStrings KubeVersion.

Open Scope string_scope.
Open Scope list_scope.
Open Scope go_scope.

(** [oc.GetName()], [oc.GetNamespace()], [oc.GetUID()] *)
Definition oc_name (oc : OnecloudCluster) : string := ObjectMeta_Name (OnecloudCluster_ObjectMeta oc).
Definition oc_ns (oc : OnecloudCluster) : string :=
  ObjectMeta_Namespace (OnecloudCluster_ObjectMeta oc).
Definition oc_uid (oc : OnecloudCluster) : string := ObjectMeta_UID (OnecloudCluster_ObjectMeta oc).

(*@ pkg/apis/onecloud/v1alpha1/register.go:24-24 GroupName *)
Definition GroupName : string := "onecloud.yunion.io".

(*@ pkg/apis/onecloud/v1alpha1/register.go:37-37 SchemeGroupVersion *)
Definition SchemeGroupVersion : string := GroupName +:+ "/" +:+ "v1alpha1".

(** [RequeueErrorf] builds the error [ErrRequeue] of the model; only that
    error is a requeue error, a wrapped one is not. *)
(*@ pkg/controller/utils.go:50-54 IsRequeueError *)
Definition IsRequeueError (e : error) : bool :=
  match e with ErrRequeue _ => true | _ => false end.

(*@ pkg/controller/utils.go:45-48 RequeueErrorf *)
Definition RequeueErrorf (msg : string) : error := ErrRequeue msg.

(*@ pkg/controller/utils.go:56-68 GetOwnerRef *)
Definition GetOwnerRef (oc : OnecloudCluster) : OwnerReference :=
  MkOwnerReference SchemeGroupVersion OnecloudClusterKind (oc_name oc) (oc_uid oc)
    (Some true) (Some true).

(*@ pkg/controller/utils.go:70-85 GetServiceType *)
Fixpoint GetServiceType (services : list Service) (serviceName : string) : string :=
  match services with
  | [] => "ClusterIP"
  | svc :: services' =>
      if String.eqb (Service_Name svc) serviceName then
        if String.eqb (Service_Type svc) "NodePort" then "NodePort"
        else if String.eqb (Service_Type svc) "LoadBalancer" then "LoadBalancer"
        else "ClusterIP"
      else GetServiceType services' serviceName
  end.

(*@ pkg/controller/onecloud_control.go:525-527 IsDockerComposeClusterName *)
Definition IsDockerComposeClusterName (name : string) : bool :=
  String.eqb name DockerComposeClusterName.

(*@ pkg/controller/onecloud_control.go:521-523 IsDockerComposeCluster *)
Definition IsDockerComposeCluster (oc : OnecloudCluster) : bool :=
  IsDockerComposeClusterName (oc_name oc).

(*@ pkg/controller/utils.go:87-92 NewClusterComponentName *)
Definition NewClusterComponentName (clusterName : string) (componentName : ComponentType) : string :=
  if IsDockerComposeClusterName clusterName then componentName
  else clusterName +:+ "-" +:+ componentName.

(*@ pkg/controller/utils.go:94-97 KeystoneComponentName *)
Definition KeystoneComponentName (clusterName : string) : string :=
  NewClusterComponentName clusterName KeystoneComponentType.

(*@ pkg/controller/utils.go:99-106 AnnProm *)
Definition AnnProm (port : Z) : gmap string string :=
  {[ "prometheus.io/scrape" := "true"; "prometheus.io/path" := "/metrics";
     "prometheus.io/port" := dec port ]}.

(*@ pkg/controller/utils.go:124-134 getConfigMapSuffix *)
Definition getConfigMapSuffix (oc : OnecloudCluster) (component name : string) : string :=
  match ObjectMeta_Annotations (OnecloudCluster_ObjectMeta oc)
          !! ("onecloud.yunion.io/" +:+ component +:+ "." +:+ name +:+ ".sha") with
  | None => ""
  | Some sha => if str_empty sha then "" else "-" +:+ sha
  end.

(*@ pkg/controller/utils.go:108-112 ComponentConfigMapName *)
Definition ComponentConfigMapName (oc : OnecloudCluster) (component : ComponentType) : string :=
  let nameKey := oc_name oc +:+ "-" +:+ component in
  nameKey +:+ getConfigMapSuffix oc component nameKey.

(*@ pkg/controller/utils.go:114-117 ClusterConfigMapName *)
Definition ClusterConfigMapName (oc : OnecloudCluster) : string :=
  oc_name oc +:+ "-" +:+ "cluster-config".

(*@ pkg/controller/utils.go:119-122 ClustercertSecretName *)
Definition ClustercertSecretName (oc : OnecloudCluster) : string := oc_name oc +:+ "-" +:+ "certs".

(** ** Letters *)

Definition is_lower (a : ascii) : bool := in_range "a" "z" a.
Definition is_upper (a : ascii) : bool := in_range "A" "Z" a.
Definition upper (a : ascii) : ascii :=
  if is_lower a then ascii_of_N (N_of_ascii a - 32) else a.
Definition lower (a : ascii) : ascii :=
  if is_upper a then ascii_of_N (N_of_ascii a + 32) else a.

(** [strings.ToLower], of ASCII *)
Fixpoint ToLower (s : string) : string :=
  match s with "" => "" | String a s => String (lower a) (ToLower s) end.

(** [strings.Title], of ASCII: a letter that no letter, digit or underscore
    comes before is capital. *)
Fixpoint title_after (sep : bool) (s : string) : string :=
  match s with
  | "" => ""
  | String a s =>
      String (if sep then upper a else a)
        (title_after (negb (is_lower a || is_upper a || is_digit a || Ascii.eqb a "_")) s)
  end.
Definition Title : string → string := title_after true.

Example letters : map Title ["create"; "update it"; "a_b-c"] = ["Create"; "Update It"; "A_b-C"]
  ∧ ToLower "Delete_X" = "delete_x".
Proof. split; reflexivity. Qed.

(** ** Events *)

(** [corev1.EventTypeNormal], [corev1.EventTypeWarning] *)
Inductive EventType := EventTypeNormal | EventTypeWarning.

(** [record.EventRecorder] *)
Class EventRecorder (W : Type) := {
  recorder_Event : OnecloudCluster → EventType → string → string → M W unit
}.

Section events.
Context {W : Type} `{!EventRecorder W}.
(** The version of the API server the process holds. *)
Context (globalClusterVersion : option string).

(** From version 1.20 on nothing is recorded. *)
Definition eventUnlessV120 (oc : OnecloudCluster) (type : EventType) (reason message : string) : M W unit :=
  let! cv := lift (GetClusterVersion globalClusterVersion) in
  let! v120 := lift (IsGreatOrEqualThanV120 cv) in
  if (v120 : bool) then ret tt else recorder_Event oc type reason message.

(** [name]: what [object.GetName()] returns. *)
(*@ pkg/controller/utils.go:152-171 recordResourceEvent *)
Definition recordResourceEvent (verb : string) (oc : OnecloudCluster) (kind name : string)
    (err : option error) : M W unit :=
  match err with
  | None =>
      eventUnlessV120 oc EventTypeNormal ("Successful" +:+ Title verb)
        (ToLower verb +:+ " " +:+ kind +:+ " " +:+ name +:+ " in OnecloudCluster " +:+ oc_name oc
         +:+ " successful")
  | Some err =>
      eventUnlessV120 oc EventTypeWarning ("Failed" +:+ Title verb)
        (ToLower verb +:+ " " +:+ kind +:+ " " +:+ name +:+ " in OnecloudCluster " +:+ oc_name oc
         +:+ " failed error: " +:+ Error err)
  end.

(*@ pkg/controller/utils.go:140-142 recordCreateEvent *)
Definition recordCreateEvent := recordResourceEvent "create".
(*@ pkg/controller/utils.go:144-146 recordUpdateEvent *)
Definition recordUpdateEvent := recordResourceEvent "update".
(*@ pkg/controller/utils.go:148-150 recordDeleteEvent *)
Definition recordDeleteEvent := recordResourceEvent "delete".

(** The recorder is the class. *)
(*@ pkg/controller/base_control.go:23-30 baseControl *)
Record baseControl := newBaseControl { Kind : string }.

(*@ pkg/controller/base_control.go:40-42 RecordCreateEvent *)
Definition RecordCreateEvent (c : baseControl) (oc : OnecloudCluster) (name : string)
    (err : option error) : M W unit := recordCreateEvent oc (Kind c) name err.
(*@ pkg/controller/base_control.go:44-46 RecordUpdateEvent *)
Definition RecordUpdateEvent (c : baseControl) (oc : OnecloudCluster) (name : string)
    (err : option error) : M W unit := recordUpdateEvent oc (Kind c) name err.
(*@ pkg/controller/base_control.go:48-50 RecordDeleteEvent *)
Definition RecordDeleteEvent (c : baseControl) (oc : OnecloudCluster) (name : string)
    (err : option error) : M W unit := recordDeleteEvent oc (Kind c) name err.

(*@ pkg/controller/cluster_control.go:98-116 recordClusterEvent *)
Definition recordClusterEvent (verb : string) (oc : OnecloudCluster) (err : option error) : M W unit :=
  match err with
  | None =>
      eventUnlessV120 oc EventTypeNormal ("Successful" +:+ Title verb)
        (ToLower verb +:+ " OnecloudCluster " +:+ oc_name oc +:+ " sucessful")
  | Some err =>
      eventUnlessV120 oc EventTypeWarning ("Failed" +:+ Title verb)
        (ToLower verb +:+ " OnecloudCluster " +:+ oc_name oc +:+ " failed error: " +:+ Error err)
  end.

(** An event is recorded just on a server older than 1.20, and is a warning
    just when there is an error; without the version the process panics. *)
Lemma recordResourceEvent_spec verb oc kind name err w cv b :
  globalClusterVersion = Some cv → IsGreatOrEqualThanV120 cv = Ok b →
  ∃ reason message, recordResourceEvent verb oc kind name err w =
    if b then (w, Ok tt)
    else recorder_Event oc (match err with None => EventTypeNormal | Some _ => EventTypeWarning end)
           reason message w.
Proof.
  intros Hcv Hb. unfold recordResourceEvent, eventUnlessV120, bind, lift. rewrite Hcv. simpl. rewrite Hb.
  destruct err, b; try (by exists "", ""); eexists _, _; reflexivity.
Qed.
End events.

(** ** Codecs *)

(** A factory of codecs: the serializer of a media type, and what it makes of
    an object in a version of its group. *)
Class CodecFactory (Obj : Type) := {
  Serializer : Type;
  SerializerInfoForMediaType : string → option Serializer;
  codec_Encode : Serializer → string → Obj → Res string;
  codec_Decode : Serializer → string → string → Res Obj
}.

Section codecs.
Context {Obj : Type} `{!CodecFactory Obj}.

Definition quote : string := String "034" "".

(** The serializer for YAML. *)
Definition withYaml {A} (f : Serializer → Res A) : Res A :=
  match SerializerInfoForMediaType "application/yaml" with
  | None => Err (ErrMsg ("unsupported media type " +:+ quote +:+ "application/yaml" +:+ quote))
  | Some info => f info
  end.

(*@ pkg/util/k8s/marshal.go:31-40 MarshalToYamlForCodecs *)
Definition MarshalToYamlForCodecs (obj : Obj) (gv : string) : Res string :=
  withYaml (λ info, codec_Encode info gv obj).

(*@ pkg/util/k8s/marshal.go:50-59 UnmarshalFromYamlForCodecs *)
Definition UnmarshalFromYamlForCodecs (buffer gv : string) : Res Obj :=
  withYaml (λ info, codec_Decode info gv buffer).

(** What is written in a version is read back in it, if the serializer reads
    back what it writes. *)
Lemma UnmarshalFromYaml_MarshalToYaml obj gv s :
  (∀ info s, codec_Encode info gv obj = Ok s → codec_Decode info gv s = Ok obj) →
  MarshalToYamlForCodecs obj gv = Ok s → UnmarshalFromYamlForCodecs s gv = Ok obj.
Proof.
  intros Hc. unfold MarshalToYamlForCodecs, UnmarshalFromYamlForCodecs, withYaml.
  destruct (SerializerInfoForMediaType _) as [info|]; [apply Hc|done].
Qed.
End codecs.
