(* ===== verification/LastApplied.v ===== *)
(** * LastApplied: the last-applied annotation

    [pkg/manager/component/utils.go]: the operator keeps, in an annotation of
    each object it creates, the JSON of the spec it asked for, and compares
    the spec it wants with that instead of with the object (the API server
    fills in defaults). [encoding/json] is the class [JsonCodec]: what is
    marshalled is read back; an instance made from the countability of the
    types follows. Quantities are in canonical form, so that a quantity
    reads back as itself. *)

From Stdlib Require Import Ascii.
From S2P Require Import Prelude K8s Types Constants GoStrings.

Open Scope string_scope.
Open Scope list_scope.
Open Scope go_scope.

(** ** [encoding/json] *)
Class JsonCodec (T : Type) := {
  Marshal : T → Res string;
  Unmarshal : string → Res T;
  Unmarshal_Marshal x s : Marshal x = Ok s → Unmarshal s = Ok x
}.

(** A codec for every countable type: the code of the value in binary. *)
Fixpoint bits (p : positive) : string :=
  match p with
  | xH => ""
  | xO p => String "0"%char (bits p)
  | xI p => String "1"%char (bits p)
  end.

Fixpoint of_bits (s : string) : positive :=
  match s with
  | EmptyString => xH
  | String c s => if Ascii.eqb c "0"%char then xO (of_bits s) else xI (of_bits s)
  end.

Lemma of_bits_bits p : of_bits (bits p) = p.
Proof. induction p; simpl; congruence. Qed.

Definition countable_codec {T} `{Countable T} : JsonCodec T.
Proof.
  refine {| Marshal x := Ok (bits (encode x));
            Unmarshal s := match decode (of_bits s) with
                           | Some x => Ok x
                           | None => Err (ErrMsg "unmarshal")
                           end |}.
  intros x s [= <-]. by rewrite of_bits_bits, decode_encode.
Defined.

(** ** Objects of no fixed type

    [unstructured.Unstructured], of which the operator handles the metadata
    and the field [spec]. An object lists its keys in increasing order. A
    number is an [int64] or a [float64] (with an integer value); both print
    the same, and what is read into an [interface{}] is always a [float64]. *)
Inductive json : Type :=
  | JNull
  | JBool (b : bool)
  | JInt (n : Z)
  | JFloat (n : Z)
  | JStr (s : string)
  | JArr (l : list json)
  | JObj (kvs : list (string * json)).

#[global] Instance json_eq_dec : EqDecision json.
Proof.
  unfold EqDecision, Decision. fix IH 1. intros x y.
  destruct x as [|b|n|n|s|l|kvs], y as [|b'|n'|n'|s'|l'|kvs']; try (right; discriminate).
  - by left.
  - destruct (decide (b = b')); [left|right]; congruence.
  - destruct (decide (n = n')); [left|right]; congruence.
  - destruct (decide (n = n')); [left|right]; congruence.
  - destruct (decide (s = s')); [left|right]; congruence.
  - assert ({l = l'} + {l ≠ l'}) as [?|?]; [|left; congruence|right; congruence].
    revert l'. induction l as [|x l IHl]; intros [|y l']; [by left|by right|by right|].
    destruct (IH x y); [|right; congruence].
    destruct (IHl l'); [left|right]; congruence.
  - assert ({kvs = kvs'} + {kvs ≠ kvs'}) as [?|?]; [|left; congruence|right; congruence].
    revert kvs'. induction kvs as [|[k x] l IHl]; intros [|[k' y] l']; [by left|by right|by right|].
    destruct (decide (k = k')); [|right; congruence].
    destruct (IH x y); [|right; congruence].
    destruct (IHl l'); [left|right]; congruence.
Defined.

(** What [json.Unmarshal] makes of the numbers it reads. *)
Fixpoint floats (j : json) : json :=
  match j with
  | JInt n => JFloat n
  | JArr l => JArr (map floats l)
  | JObj kvs => JObj (map (λ '(k, v), (k, floats v)) kvs)
  | _ => j
  end.

Definition floats_map (m : list (string * json)) : list (string * json) :=
  map (λ '(k, v), (k, floats v)) m.

Fixpoint json_tree (j : json) : gen_tree (unit + bool + (Z + Z) + string) :=
  match j with
  | JNull => GenLeaf (inl (inl (inl tt)))
  | JBool b => GenLeaf (inl (inl (inr b)))
  | JInt n => GenLeaf (inl (inr (inl n)))
  | JFloat n => GenLeaf (inl (inr (inr n)))
  | JStr s => GenLeaf (inr s)
  | JArr l => GenNode 0 (map json_tree l)
  | JObj kvs => GenNode 1 (map (λ '(k, v), GenNode 2 [GenLeaf (inr k); json_tree v]) kvs)
  end.

Fixpoint tree_json (t : gen_tree (unit + bool + (Z + Z) + string)) : json :=
  match t with
  | GenLeaf (inl (inl (inl _))) => JNull
  | GenLeaf (inl (inl (inr b))) => JBool b
  | GenLeaf (inl (inr (inl n))) => JInt n
  | GenLeaf (inl (inr (inr n))) => JFloat n
  | GenLeaf (inr s) => JStr s
  | GenNode 0 l => JArr (map tree_json l)
  | GenNode _ l => JObj (map (λ t, match t with
                                   | GenNode _ [GenLeaf (inr k); v] => (k, tree_json v)
                                   | _ => ("", JNull)
                                   end) l)
  end.

Lemma tree_json_tree j : tree_json (json_tree j) = j.
Proof.
  revert j. fix IH 1. intros [|b|n|n|s|l|kvs]; try reflexivity; simpl; f_equal.
  - induction l as [|x l IHl]; simpl; [done|by rewrite IH, IHl].
  - induction kvs as [|[k x] l IHl]; simpl; [done|by rewrite IH, IHl].
Qed.

#[global] Instance json_countable : Countable json :=
  inj_countable' json_tree tree_json tree_json_tree.

(** [encoding/json] on a [map[string]interface{}]. *)
Class JsonMapCodec := {
  MarshalMap : list (string * json) → Res string;
  UnmarshalMap : string → Res (list (string * json));
  UnmarshalMap_MarshalMap x s : MarshalMap x = Ok s → UnmarshalMap s = Ok (floats_map x)
}.

Definition countable_map_codec : JsonMapCodec.
Proof.
  refine {| MarshalMap x := Ok (bits (encode (floats_map x)));
            UnmarshalMap s := match decode (of_bits s) with
                              | Some x => Ok x
                              | None => Err (ErrMsg "unmarshal")
                              end |}.
  intros x s [= <-]. by rewrite of_bits_bits, decode_encode.
Defined.

(** The value kept under a key. *)
Fixpoint json_field (k : string) (kvs : list (string * json)) : option json :=
  match kvs with
  | [] => None
  | (k', v) :: kvs' => if String.eqb k k' then Some v else json_field k kvs'
  end.

(** [unstructured.NestedMap(obj, k)]: no map and no error when the key is
    absent, an error when it holds something else. *)
Definition NestedMap (kvs : list (string * json)) (k : string) : Res (option (list (string * json))) :=
  match json_field k kvs with
  | None => Ok None
  | Some (JObj m) => Ok (Some m)
  | Some _ => Err (ErrMsg "accessor error")
  end.

Record Unstructured := MkUnstructured {
  Unstructured_ObjectMeta : ObjectMeta;
  Unstructured_Object : list (string * json)
}.
#[global] Instance Unstructured_eta : Eta Unstructured := λ r,
  MkUnstructured (Unstructured_ObjectMeta r) (Unstructured_Object r).
#[global] Instance Unstructured_zero : Zero Unstructured := MkUnstructured zero zero.
#[global] Instance Unstructured_eq_dec : EqDecision Unstructured.
Proof. solve_decision. Defined.

(** ** Setting the annotation *)

(*@ pkg/manager/component/utils.go:43-43 LastAppliedConfigAnnotation *)
Definition LastAppliedConfigAnnotation : string := "onecloud.yunion.io/last-applied-configuration".

(** [meta.Annotations[LastAppliedConfigAnnotation] = v] *)
Definition annotate (v : string) (m : ObjectMeta) : ObjectMeta :=
  m <| ObjectMeta_Annotations ::= <[LastAppliedConfigAnnotation := v]> |>.

Definition lastApplied (m : ObjectMeta) : option string :=
  ObjectMeta_Annotations m !! LastAppliedConfigAnnotation.

Lemma lastApplied_annotate v m : lastApplied (annotate v m) = Some v.
Proof. unfold lastApplied, annotate; simpl. apply lookup_insert_eq. Qed.

Section annotations.
Context `{!JsonCodec PodSpec, !JsonCodec apps_DeploymentSpec, !JsonCodec apps_DaemonSetSpec}.
Context `{!JsonCodec JobSpec, !JsonCodec batch_CronJobSpec, !JsonCodec core_ServiceSpec}.
Context `{!JsonCodec (gmap string string), !JsonMapCodec}.

(*@ pkg/manager/component/utils.go:273-279 encode *)
Definition encode_obj {T} `{!JsonCodec T} (obj : T) : Res string := Marshal obj.

(*@ pkg/manager/component/utils.go:65-75 SetServiceLastAppliedConfigAnnotation *)
Definition SetServiceLastAppliedConfigAnnotation (svc : core_Service) : Res core_Service :=
  res_map (λ a, svc <| core_Service_ObjectMeta ::= annotate a |>)
    (encode_obj (core_Service_Spec svc)).

(** A nil map is encoded when there is no spec. *)
(*@ pkg/manager/component/utils.go:77-93 SetIngressLastAppliedConfigAnnotation *)
Definition SetIngressLastAppliedConfigAnnotation (ing : Unstructured) : Res Unstructured :=
  match NestedMap (Unstructured_Object ing) "spec" with
  | Ok spec =>
      res_map (λ a, ing <| Unstructured_ObjectMeta ::= annotate a |>)
        (MarshalMap (default [] spec))
  | Err e => Err (ErrWrap e "get ingress spec")
  | Panic p => Panic p
  end.

(*@ pkg/manager/component/utils.go:95-105 SetConfigMapLastAppliedConfigAnnotation *)
Definition SetConfigMapLastAppliedConfigAnnotation (cfg : ConfigMap) : Res ConfigMap :=
  res_map (λ a, cfg <| ConfigMap_ObjectMeta ::= annotate a |>) (encode_obj (ConfigMap_Data cfg)).

(*@ pkg/manager/component/utils.go:107-126 SetDeploymentLastAppliedConfigAnnotation *)
Definition SetDeploymentLastAppliedConfigAnnotation (deploy : Deployment) : Res Deployment :=
  res_bind (encode_obj (Deployment_Spec deploy)) (λ deployApply,
  let deploy := deploy <| Deployment_ObjectMeta ::= annotate deployApply |> in
  res_bind (encode_obj (PodTemplateSpec_Spec (apps_DeploymentSpec_Template (Deployment_Spec deploy))))
    (λ templateApply,
  Ok (deploy <| Deployment_Spec ::= λ s, s <| apps_DeploymentSpec_Template ::= λ t,
        t <| PodTemplateSpec_ObjectMeta ::= annotate templateApply |> |> |>))).

(*@ pkg/manager/component/utils.go:128-146 SetDaemonSetLastAppliedConfigAnnotation *)
Definition SetDaemonSetLastAppliedConfigAnnotation (ds : DaemonSet) : Res DaemonSet :=
  res_bind (encode_obj (DaemonSet_Spec ds)) (λ dsApply,
  let ds := ds <| DaemonSet_ObjectMeta ::= annotate dsApply |> in
  res_bind (encode_obj (PodTemplateSpec_Spec (apps_DaemonSetSpec_Template (DaemonSet_Spec ds))))
    (λ templateApply,
  Ok (ds <| DaemonSet_Spec ::= λ s, s <| apps_DaemonSetSpec_Template ::= λ t,
        t <| PodTemplateSpec_ObjectMeta ::= annotate templateApply |> |> |>))).

(*@ pkg/manager/component/utils.go:148-166 SetCronJobLastAppliedConfigAnnotation *)
Definition SetCronJobLastAppliedConfigAnnotation (cronJob : CronJob) : Res CronJob :=
  res_bind (encode_obj (CronJob_Spec cronJob)) (λ cronApply,
  let cronJob := cronJob <| CronJob_ObjectMeta ::= annotate cronApply |> in
  res_bind (encode_obj (JobTemplateSpec_Spec (batch_CronJobSpec_JobTemplate (CronJob_Spec cronJob))))
    (λ templateApply,
  Ok (cronJob <| CronJob_Spec ::= λ s, s <| batch_CronJobSpec_JobTemplate ::= λ t,
        t <| JobTemplateSpec_ObjectMeta ::= annotate templateApply |> |> |>))).

(** ** Comparing with it *)

(*@ pkg/manager/component/utils.go:51-62 templateEqual *)
Definition templateEqual (new old : PodTemplateSpec) : bool :=
  match lastApplied (PodTemplateSpec_ObjectMeta old) with
  | None => false
  | Some a =>
      match Unmarshal a with
      | Ok oldConfig => bool_decide (oldConfig = PodTemplateSpec_Spec new)
      | _ => false
      end
  end.

(*@ pkg/manager/component/utils.go:169-180 serviceEqual *)
Definition serviceEqual (new old : core_Service) : Res bool :=
  match lastApplied (core_Service_ObjectMeta old) with
  | None => Ok false
  | Some a => res_map (λ oldSpec, bool_decide (oldSpec = core_Service_Spec new)) (Unmarshal a)
  end.

(** [oldSpec] is a map, and an absent new spec the nil map: both empty. *)
(*@ pkg/manager/component/utils.go:182-196 ingressEqual *)
Definition ingressEqual (new old : Unstructured) : Res bool :=
  match lastApplied (Unstructured_ObjectMeta old) with
  | None => Ok false
  | Some a =>
      res_bind (UnmarshalMap a) (λ oldSpec,
      match NestedMap (Unstructured_Object new) "spec" with
      | Ok newSpec => Ok (bool_decide (oldSpec = default [] newSpec))
      | Err e => Err (ErrWrap e "NestedMap of new ingress")
      | Panic p => Panic p
      end)
  end.

(*@ pkg/manager/component/utils.go:198-208 configMapEqual *)
Definition configMapEqual (new old : ConfigMap) : Res bool :=
  match lastApplied (ConfigMap_ObjectMeta old) with
  | None => Ok false
  | Some a => res_map (λ oldData, bool_decide (oldData = ConfigMap_Data new)) (Unmarshal a)
  end.

(*@ pkg/manager/component/utils.go:210-224 deploymentEqual *)
Definition deploymentEqual (new old : Deployment) : bool :=
  match lastApplied (Deployment_ObjectMeta old) with
  | None => false
  | Some a =>
      match Unmarshal a with
      | Ok oldConfig =>
          let n := Deployment_Spec new in
          bool_decide (apps_DeploymentSpec_Replicas oldConfig = apps_DeploymentSpec_Replicas n) &&
          bool_decide (apps_DeploymentSpec_Template oldConfig = apps_DeploymentSpec_Template n) &&
          bool_decide (apps_DeploymentSpec_Strategy oldConfig = apps_DeploymentSpec_Strategy n)
      | _ => false
      end
  end.

(*@ pkg/manager/component/utils.go:226-239 daemonSetEqual *)
Definition daemonSetEqual (new old : DaemonSet) : bool :=
  match lastApplied (DaemonSet_ObjectMeta old) with
  | None => false
  | Some a =>
      match Unmarshal a with
      | Ok oldConfig =>
          let n := DaemonSet_Spec new in
          bool_decide (apps_DaemonSetSpec_Template oldConfig = apps_DaemonSetSpec_Template n) &&
          bool_decide (apps_DaemonSetSpec_UpdateStrategy oldConfig
                       = apps_DaemonSetSpec_UpdateStrategy n)
      | _ => false
      end
  end.

(*@ pkg/manager/component/utils.go:258-271 cronJobEqual *)
Definition cronJobEqual (new old : CronJob) : bool :=
  match lastApplied (CronJob_ObjectMeta old) with
  | None => false
  | Some a =>
      match Unmarshal a with
      | Ok oldSpec =>
          let n := CronJob_Spec new in
          let template s := JobSpec_Template (JobTemplateSpec_Spec (batch_CronJobSpec_JobTemplate s)) in
          bool_decide (batch_CronJobSpec_Schedule oldSpec = batch_CronJobSpec_Schedule n) &&
          bool_decide (template oldSpec = template n)
      | _ => false
      end
  end.
End annotations.

(** [v == labels[k]] for each pair of the selector; the order in which Go
    ranges over them does not matter. *)
(*@ pkg/manager/component/utils.go:245-256 selectorMatchesLabels *)
Definition selectorMatchesLabels (selector : option LabelSelector) (labels : gmap string string) : bool :=
  match selector with
  | None => true
  | Some sel =>
      forallb (λ '(k, v), match labels !! k with
                          | Some labelVal => String.eqb labelVal v
                          | None => false
                          end) (map_to_list (LabelSelector_MatchLabels sel))
  end.

Lemma selectorMatchesLabels_spec sel labels :
  selectorMatchesLabels (Some sel) labels = true ↔ LabelSelector_MatchLabels sel ⊆ labels.
Proof.
  simpl. rewrite forallb_forall, map_subseteq_spec. split.
  - intros H k v Hk. apply elem_of_map_to_list, list_elem_of_In in Hk.
    specialize (H _ Hk). simpl in H. case_match; [|done]. f_equal. by apply String.eqb_eq.
  - intros H [k v] Hin. apply list_elem_of_In, elem_of_map_to_list in Hin.
    rewrite (H _ _ Hin). apply String.eqb_refl.
Qed.
