(* ===== verification/KubeApi.v ===== *)
(** * KubeApi: the API server as the controllers see it

    [client-go] is not part of the operator: its typed clients and listers
    are the class [ResourceApi], one instance per kind of object. [ApiStore]
    states how a server behaves that accepts every request and whose cache is
    up to date; only the theorems that need it assume it. [MemStore] is such
    a server kept in memory. *)

From S2P Require Import Prelude K8s Types LastApplied.

Open Scope string_scope.
Open Scope list_scope.
Open Scope go_scope.

(** ** Objects with metadata *)
Class KObject (T : Type) := {
  object_meta : T → ObjectMeta;
  set_object_meta : (ObjectMeta → ObjectMeta) → T → T
}.

(** [GetName] *)
Definition obj_name {T} `{KObject T} (o : T) : string := ObjectMeta_Name (object_meta o).

#[export] Instance Deployment_obj : KObject Deployment :=
  {| object_meta := Deployment_ObjectMeta;
     set_object_meta f d := d <| Deployment_ObjectMeta ::= f |> |}.
#[export] Instance DaemonSet_obj : KObject DaemonSet :=
  {| object_meta := DaemonSet_ObjectMeta;
     set_object_meta f d := d <| DaemonSet_ObjectMeta ::= f |> |}.
#[export] Instance CronJob_obj : KObject CronJob :=
  {| object_meta := CronJob_ObjectMeta;
     set_object_meta f d := d <| CronJob_ObjectMeta ::= f |> |}.
#[export] Instance core_Service_obj : KObject core_Service :=
  {| object_meta := core_Service_ObjectMeta;
     set_object_meta f d := d <| core_Service_ObjectMeta ::= f |> |}.
#[export] Instance ConfigMap_obj : KObject ConfigMap :=
  {| object_meta := ConfigMap_ObjectMeta;
     set_object_meta f d := d <| ConfigMap_ObjectMeta ::= f |> |}.
#[export] Instance PersistentVolumeClaim_obj : KObject PersistentVolumeClaim :=
  {| object_meta := PersistentVolumeClaim_ObjectMeta;
     set_object_meta f d := d <| PersistentVolumeClaim_ObjectMeta ::= f |> |}.
#[export] Instance Unstructured_obj : KObject Unstructured :=
  {| object_meta := Unstructured_ObjectMeta;
     set_object_meta f d := d <| Unstructured_ObjectMeta ::= f |> |}.
#[export] Instance OnecloudCluster_obj : KObject OnecloudCluster :=
  {| object_meta := OnecloudCluster_ObjectMeta;
     set_object_meta f d := d <| OnecloudCluster_ObjectMeta ::= f |> |}.

(** ** Clients and listers

    The typed client of a kind ([Create], [Update], [Delete], [Get]) and the
    lister over the informer's cache; the first argument is the namespace.
    A lister may lag behind: nothing relates [listerGet] to the rest. *)
Class ResourceApi (W T : Type) := {
  apiCreate : string → T → M W T;
  apiUpdate : string → T → M W T;
  apiDelete : string → string → M W unit;
  apiGet : string → string → M W T;
  listerGet : string → string → M W T
}.
Arguments apiDelete {W} T {_} _ _.
Arguments apiGet {W} T {_} _ _.
Arguments listerGet {W} T {_} _ _.

(** ** Retries

    [retry.RetryOnConflict(backoff, fn)] calls [fn] until it succeeds, fails
    with anything but a conflict, or the steps of the backoff are used up;
    the last conflict is then returned. [fn] changes variables of its caller,
    the value of type [L] it takes and gives back. *)
(*@ vendor/k8s.io/client-go/util/retry/util.go:48-66 OnError *)
Fixpoint RetryOnConflict {W L} (steps : nat) (fn : L → M W (L * option error)) (l : L)
  : M W (L * option error) :=
  match steps with
  | O => ret (l, None)
  | S steps =>
      let! r := fn l in
      match r with
      | (l, None) => ret (l, None)
      | (l, Some e) =>
          if IsConflict e && negb (steps =? 0)%nat then RetryOnConflict steps fn l
          else ret (l, Some e)
      end
  end.

(** [retry.DefaultBackoff.Steps] and [retry.DefaultRetry.Steps] *)
(*@ vendor/k8s.io/client-go/util/retry/util.go:38-43 DefaultBackoff *)
Definition DefaultBackoff : nat := 4.
(*@ vendor/k8s.io/client-go/util/retry/util.go:28-33 DefaultRetry *)
Definition DefaultRetry : nat := 5.

Section update.
Context {W T : Type} `{!ResourceApi W T}.

(** The body the controls share: [obj] is updated; when that fails,
    [refresh] prepares the object of the next try. *)
Definition updateOnConflict (steps : nat) (ns : string) (refresh : T → M W T) (obj : T) : M W T :=
  let! r := RetryOnConflict steps (λ '(obj, _),
      let! r := attempt (apiUpdate ns obj) in
      match r with
      | inr updated => ret ((obj, Some updated), None)
      | inl e => let! obj := refresh obj in ret ((obj, None), Some e)
      end) (obj, None) in
  match r with
  | (_, Some e) => throw e
  | ((obj, None), None) => ret obj
  | ((_, Some updated), None) => ret updated
  end.

(** Whatever holds of the world before and is kept by an update of an object
    that satisfies [P] and by [refresh], which keeps [P], holds at the end. *)
Lemma updateOnConflict_inv (P : T → Prop) (I : W → Prop) steps ns refresh obj w :
  (∀ o w, P o → I w → I (apiUpdate ns o w).1) →
  (∀ o w, P o → I w →
     I (refresh o w).1 ∧ match (refresh o w).2 with Ok o' => P o' | _ => True end) →
  P obj → I w → I (updateOnConflict steps ns refresh obj w).1.
Proof.
  intros Hu Hr HP HI. unfold updateOnConflict.
  set (fn := λ '(obj, _), _).
  assert (wp (RetryOnConflict steps fn (obj, None)) (λ w _, I w) w) as H.
  { clear -Hu Hr HP HI. generalize (@None T) as u. revert obj w HP HI.
    induction steps as [|n IH]; intros obj w HP HI u; [by apply wp_ret|].
    apply wp_bind. unfold fn at 1. apply wp_bind, wp_attempt.
    unfold wp at 1. pose proof (Hu obj w HP HI) as H1.
    destruct (apiUpdate ns obj w) as [w1 [o|e|p]]; simpl in *; [by apply wp_ret|..|done].
    apply wp_bind. unfold wp at 1. destruct (Hr obj w1 HP H1) as [H2 H3].
    destruct (refresh obj w1) as [w2 [o'|e'|p']]; simpl in *; [|done|done].
    apply wp_ret; simpl. case_match; [|by apply wp_ret]. by apply IH. }
  unfold wp in H. unfold bind. revert H.
  destruct (RetryOnConflict steps fn (obj, None) w) as [w' [[[o [u|]] [e|]]|e|p]]; done.
Qed.

(** [n] updates in a row that are refused with a conflict; after each
    [refresh] prepares the object of the next. *)
Inductive conflicts (ns : string) (refresh : T → M W T) : nat → T * W → T * W → Prop :=
  | conflicts_none s : conflicts ns refresh 0 s s
  | conflicts_more n o w w1 e o1 w2 s' :
      apiUpdate ns o w = (w1, Err e) → IsConflict e = true → refresh o w1 = (w2, Ok o1) →
      conflicts ns refresh n (o1, w2) s' → conflicts ns refresh (S n) (o, w) s'.

(** How the update at [w2] of [o], the last, ends the tries with [r] at [w']:
    it is accepted, or it is refused, with a conflict only when no try is left. *)
Definition last_try (ns : string) (refresh : T → M W T) (left : bool) (o : T) (w2 w' : W) (r : Res T)
  : Prop :=
  (∃ o', apiUpdate ns o w2 = (w', Ok o') ∧ r = Ok o') ∨
  (∃ w3 e o1, apiUpdate ns o w2 = (w3, Err e) ∧ refresh o w3 = (w', Ok o1) ∧ r = Err e ∧
              (IsConflict e = true → left = false)).

(** The tries in full. *)
Lemma updateOnConflict_tries steps ns refresh obj w w' r :
  (0 < steps)%nat → (∀ o w w' e, refresh o w ≠ (w', Err e)) →
  updateOnConflict steps ns refresh obj w = (w', r) → (∀ p, r ≠ Panic p) →
  ∃ n o w2, (n < steps)%nat ∧ conflicts ns refresh n (obj, w) (o, w2) ∧
            last_try ns refresh (S n <? steps)%nat o w2 w' r.
Proof.
  intros Hs Hr. unfold updateOnConflict.
  set (fn := λ '(obj, _), _).
  assert (wp (RetryOnConflict steps fn (obj, None)) (λ w' r,
            (∃ p, r = Panic p) ∨
            ∃ n o w2, (n < steps)%nat ∧ conflicts ns refresh n (obj, w) (o, w2) ∧
              match r with
              | Ok ((_, Some o'), None) => last_try ns refresh (S n <? steps)%nat o w2 w' (Ok o')
              | Ok (_, Some e) => last_try ns refresh (S n <? steps)%nat o w2 w' (Err e)
              | _ => False
              end) w) as H.
  { clear r w'. generalize (@None T) as u. revert obj w.
    induction steps as [|n IH]; [lia|]. intros obj w u.
    apply wp_bind. unfold fn at 1. apply wp_bind, wp_attempt.
    unfold wp at 1. destruct (apiUpdate ns obj w) as [w1 [o|e|p]] eqn:Hu; simpl; [|..|by left; eexists].
    { right. exists 0%nat, obj, w. split; [lia|]. split; [constructor|]. left. by exists o. }
    apply wp_bind. unfold wp at 1. destruct (refresh obj w1) as [w2 [o|e'|p]] eqn:Ho; simpl;
      [|by edestruct Hr|by left; eexists].
    apply wp_ret; simpl. destruct (IsConflict e) eqn:He; simpl.
    2:{ right. exists 0%nat, obj, w. split; [lia|]. split; [constructor|]. right.
        exists w1, e, o. repeat split; [done..|congruence]. }
    destruct n as [|n].
    { right. exists 0%nat, obj, w. split; [lia|]. split; [constructor|]. right. by exists w1, e, o. }
    eapply wp_conseq; [apply IH; lia|]. intros w3 r3 [Hp|(m & o' & w4 & Hm & Hc & Hl)]; [by left|right].
    exists (S m), o', w4. split; [lia|]. split; [by econstructor|exact Hl]. }
  unfold wp in H. unfold bind. revert H.
  destruct (RetryOnConflict steps fn (obj, None) w) as [w2 [[[o [u|]] [e|]]|e|p]]; simpl;
    intros [[p' Hp']|(n & o1 & w3 & Hn & Hc & H)]; try discriminate Hp'; try done;
    intros [= <- <-]; try (by eauto 8). intros Hp. by edestruct Hp.
Qed.

(** A server that keeps answering with a conflict is asked [steps] times. *)
Lemma RetryOnConflict_first {L} steps (fn : L → M W (L * option error)) l l' w w' :
  fn l w = (w', Ok (l', None)) → (0 < steps)%nat → RetryOnConflict steps fn l w = (w', Ok (l', None)).
Proof. intros H Hs. destruct steps; [lia|]. simpl. by rewrite (bind_Ok _ _ _ _ _ H). Qed.

Lemma RetryOnConflict_again {L} steps (fn : L → M W (L * option error)) l l' w w' e :
  fn l w = (w', Ok (l', Some e)) → IsConflict e = true → (1 < steps)%nat →
  RetryOnConflict steps fn l w = RetryOnConflict (steps - 1) fn l' w'.
Proof.
  intros H He Hs. destruct steps as [|n]; [lia|]. simpl. rewrite (bind_Ok _ _ _ _ _ H), He.
  destruct n; [lia|]. done.
Qed.

Lemma updateOnConflict_accepted steps ns refresh obj w w' o :
  apiUpdate ns obj w = (w', Ok o) → (0 < steps)%nat →
  updateOnConflict steps ns refresh obj w = (w', Ok o).
Proof.
  intros H Hs. unfold updateOnConflict. erewrite bind_Ok; [|apply RetryOnConflict_first; [|done]].
  2:{ rewrite (bind_Ok _ _ _ _ _ (attempt_Ok _ _ _ _ H)). reflexivity. }
  done.
Qed.
End update.

(** ** A server that accepts every request

    What the server keeps of a request is [admitted]: it fills in defaults.
    [stored w ns n] is the object it holds. *)
Class ApiStore (W T : Type) `{!ResourceApi W T} `{!KObject T} := {
  stored : W → string → string → option T;
  admitted : option T → T → T;
  listerGet_stored w ns n :
    listerGet T ns n w = (w, match stored w ns n with Some o => Ok o | None => Err ErrNotFound end);
  apiGet_stored w ns n :
    apiGet T ns n w = (w, match stored w ns n with Some o => Ok o | None => Err ErrNotFound end);
  apiCreate_stored w ns o : stored w ns (obj_name o) = None →
    ∃ w', apiCreate ns o w = (w', Ok (admitted None o)) ∧
      ∀ ns' n', stored w' ns' n' =
        if decide ((ns', n') = (ns, obj_name o)) then Some (admitted None o) else stored w ns' n';
  apiCreate_exists w ns o o' : stored w ns (obj_name o) = Some o' →
    apiCreate ns o w = (w, Err ErrAlreadyExists);
  apiUpdate_stored w ns o old : stored w ns (obj_name o) = Some old →
    ∃ w', apiUpdate ns o w = (w', Ok (admitted (Some old) o)) ∧
      ∀ ns' n', stored w' ns' n' =
        if decide ((ns', n') = (ns, obj_name o)) then Some (admitted (Some old) o)
        else stored w ns' n';
  apiDelete_stored w ns n o : stored w ns n = Some o →
    ∃ w', apiDelete T ns n w = (w', Ok tt) ∧
      ∀ ns' n', stored w' ns' n' = if decide ((ns', n') = (ns, n)) then None else stored w ns' n'
}.

(** Such a server kept in memory, for one kind; [fill] is what it fills in. *)
Record MemStore (T : Type) := MkMemStore { mem : gmap (string * string) T }.
Arguments MkMemStore {T} _.
Arguments mem {T} _.

Section memory.
Context {T : Type} `{!KObject T} (fill : option T → T → T).

Definition mem_get (ns n : string) : M (MemStore T) T := λ w,
  (w, match mem w !! (ns, n) with Some o => Ok o | None => Err ErrNotFound end).

Definition mem_api : ResourceApi (MemStore T) T := {|
  apiCreate ns o w :=
    match mem w !! (ns, obj_name o) with
    | Some _ => (w, Err ErrAlreadyExists)
    | None => (MkMemStore (<[(ns, obj_name o) := fill None o]> (mem w)), Ok (fill None o))
    end;
  apiUpdate ns o w :=
    match mem w !! (ns, obj_name o) with
    | None => (w, Err ErrNotFound)
    | Some old => (MkMemStore (<[(ns, obj_name o) := fill (Some old) o]> (mem w)),
                   Ok (fill (Some old) o))
    end;
  apiDelete ns n w :=
    match mem w !! (ns, n) with
    | None => (w, Err ErrNotFound)
    | Some _ => (MkMemStore (delete (ns, n) (mem w)), Ok tt)
    end;
  apiGet := mem_get;
  listerGet := mem_get
|}.

Definition mem_store : @ApiStore (MemStore T) T mem_api _.
Proof.
  refine (@Build_ApiStore _ _ mem_api _ (λ w ns n, mem w !! (ns, n)) fill _ _ _ _ _ _).
  - done.
  - done.
  - intros w ns o Ho. simpl. rewrite Ho. eexists. split; [reflexivity|]. intros ns' n'. simpl.
    case_decide as E; [rewrite E; apply lookup_insert_eq|]. by apply lookup_insert_ne.
  - intros w ns o o' Ho. simpl. by rewrite Ho.
  - intros w ns o old Ho. simpl. rewrite Ho. eexists. split; [reflexivity|]. intros ns' n'. simpl.
    case_decide as E; [rewrite E; apply lookup_insert_eq|]. by apply lookup_insert_ne.
  - intros w ns n o Ho. simpl. rewrite Ho. eexists. split; [reflexivity|]. intros ns' n'. simpl.
    case_decide as E; [rewrite E; apply lookup_delete_eq|]. by apply lookup_delete_ne.
Defined.
End memory.
