(* ===== verification/Controls.v ===== *)
(** * Controls: creating, updating and deleting the objects of a cluster

    [pkg/controller/*_control.go]. Each control wraps the client of one kind;
    an update is retried on conflicts. The events and log lines they record
    are not modelled. An error value comes without the object Go returns next
    to it, which no caller looks at. *)

From S2P Require Import Prelude K8s Types Constants GoStrings Defaults ConfigDefaults.
From S2P Require Import ControllerUtils LastApplied KubeApi.

Open Scope string_scope.
Open Scope list_scope.
Open Scope go_scope.

(** What [refresh] does once an update has failed: the lister's copy with the
    wanted spec put in, or the same object when the lister fails. *)
Definition refreshWith {W T} `{!ResourceApi W T} (ns name : string) (putSpec : T → T) (o : T)
  : M W T :=
  let! r := attempt (listerGet T ns name) in
  match r with
  | inr updated => ret (putSpec updated)
  | inl _ => ret o
  end.

(** The test on the lister's error the wrong way round: an error yields a nil
    object, whose use panics; success leaves the object as it was. *)
Definition refreshInverted {W T} `{!ResourceApi W T} (ns name : string) (o : T) : M W T :=
  let! r := attempt (listerGet T ns name) in
  match r with
  | inr _ => ret o
  | inl _ => panic "nil pointer dereference"
  end.

(** ** Deployments *)
Section deployments.
Context {W : Type} `{!ResourceApi W Deployment}.

(*@ pkg/controller/deployment_control.go:55-63 CreateDeployment *)
Definition CreateDeployment (oc : OnecloudCluster) (deploy : Deployment) : M W unit :=
  apiCreate (oc_ns oc) deploy ;;! ret tt.

(*@ pkg/controller/deployment_control.go:65-93 UpdateDeployment *)
Definition UpdateDeployment (oc : OnecloudCluster) (deploy : Deployment) : M W Deployment :=
  updateOnConflict DefaultBackoff (oc_ns oc)
    (refreshWith (oc_ns oc) (obj_name deploy)
       (λ updated, updated <| Deployment_Spec := Deployment_Spec deploy |>)) deploy.

(*@ pkg/controller/deployment_control.go:95-99 DeleteDeployment *)
Definition DeleteDeployment (oc : OnecloudCluster) (deploymentName : string) : M W unit :=
  apiDelete Deployment (oc_ns oc) deploymentName.
End deployments.

(** ** Daemon sets *)
Section daemonsets.
Context {W : Type} `{!ResourceApi W DaemonSet}.

(*@ pkg/controller/daemonset_control.go:38-45 CreateDaemonSet *)
Definition CreateDaemonSet (oc : OnecloudCluster) (ds : DaemonSet) : M W unit :=
  apiCreate (oc_ns oc) ds ;;! ret tt.

(*@ pkg/controller/daemonset_control.go:47-51 DeleteDaemonSet *)
Definition DeleteDaemonSet (oc : OnecloudCluster) (ds : DaemonSet) : M W unit :=
  apiDelete DaemonSet (oc_ns oc) (obj_name ds).

(*@ pkg/controller/daemonset_control.go:53-80 UpdateDaemonSet *)
Definition UpdateDaemonSet (oc : OnecloudCluster) (ds : DaemonSet) : M W DaemonSet :=
  updateOnConflict DefaultBackoff (oc_ns oc)
    (refreshWith (oc_ns oc) (obj_name ds)
       (λ updated, updated <| DaemonSet_Spec := DaemonSet_Spec ds |>)) ds.
End daemonsets.

(** ** Cron jobs *)
Section cronjobs.
Context {W : Type} `{!ResourceApi W CronJob}.

(*@ pkg/controller/cronjob_control.go:38-47 CreateCronJob *)
Definition CreateCronJob (oc : OnecloudCluster) (cronJob : CronJob) : M W unit :=
  apiCreate (oc_ns oc) cronJob ;;! ret tt.

(*@ pkg/controller/cronjob_control.go:49-78 UpdateCronJob *)
Definition UpdateCronJob (oc : OnecloudCluster) (cronJob : CronJob) : M W CronJob :=
  updateOnConflict DefaultBackoff (oc_ns oc)
    (refreshWith (oc_ns oc) (obj_name cronJob)
       (λ updated, updated <| CronJob_Spec := CronJob_Spec cronJob |>)) cronJob.

(*@ pkg/controller/cronjob_control.go:80-86 DeleteCronJob *)
Definition DeleteCronJob (oc : OnecloudCluster) (cronJobName : string) : M W unit :=
  apiDelete CronJob (oc_ns oc) cronJobName.
End cronjobs.

(** ** Services *)
Section services.
Context {W : Type} `{!ResourceApi W core_Service}.

(*@ pkg/controller/service_control.go:56-63 CreateService *)
Definition CreateService (oc : OnecloudCluster) (svc : core_Service) : M W unit :=
  apiCreate (oc_ns oc) svc ;;! ret tt.

(*@ pkg/controller/service_control.go:65-91 UpdateService *)
Definition UpdateService (oc : OnecloudCluster) (svc : core_Service) : M W core_Service :=
  updateOnConflict DefaultBackoff (oc_ns oc) (refreshInverted (oc_ns oc) (obj_name svc)) svc.

(*@ pkg/controller/service_control.go:93-97 DeleteService *)
Definition DeleteService (oc : OnecloudCluster) (svc : core_Service) : M W unit :=
  apiDelete core_Service (oc_ns oc) (obj_name svc).
End services.

(** ** Config maps *)
Section configmaps.
Context {W : Type} `{!ResourceApi W ConfigMap}.

(*@ pkg/controller/configmap_control.go:54-61 CreateConfigMap *)
Definition CreateConfigMap (oc : OnecloudCluster) (cfg : ConfigMap) : M W unit :=
  apiCreate (oc_ns oc) cfg ;;! ret tt.

(** The nil object panics in the next update or when the event is recorded. *)
(*@ pkg/controller/configmap_control.go:63-87 UpdateConfigMap *)
Definition UpdateConfigMap (oc : OnecloudCluster) (cfg : ConfigMap) : M W ConfigMap :=
  updateOnConflict DefaultBackoff (oc_ns oc) (refreshInverted (oc_ns oc) (obj_name cfg)) cfg.

(*@ pkg/controller/configmap_control.go:89-93 DeleteConfigMap *)
Definition DeleteConfigMap (oc : OnecloudCluster) (cfg : ConfigMap) : M W unit :=
  apiDelete ConfigMap (oc_ns oc) (obj_name cfg).
End configmaps.

(** ** Ingresses *)
Section ingresses.
Context {W : Type} `{!ResourceApi W Unstructured}.

(*@ pkg/controller/ingress_control.go:67-74 CreateIngress *)
Definition CreateIngress (oc : OnecloudCluster) (ing : Unstructured) : M W unit :=
  apiCreate (oc_ns oc) ing ;;! ret tt.

(** [unstructured.SetNestedField(ing.Object, ingSpec, "spec")] *)
Fixpoint set_field (k : string) (v : json) (kvs : list (string * json)) : list (string * json) :=
  match kvs with
  | [] => [(k, v)]
  | (k', v') :: kvs' => if String.eqb k k' then (k, v) :: kvs' else (k', v') :: set_field k v kvs'
  end.

(** The fresh copy comes from the client; the errors of reading the spec are
    ignored, and give an empty one. *)
(*@ pkg/controller/ingress_control.go:76-102 UpdateIngress *)
Definition UpdateIngress (oc : OnecloudCluster) (ing : Unstructured) : M W Unstructured :=
  let ingSpec := match NestedMap (Unstructured_Object ing) "spec" with
                 | Ok (Some m) => m
                 | _ => []
                 end in
  updateOnConflict DefaultBackoff (oc_ns oc) (λ o,
    let! r := attempt (apiGet Unstructured (oc_ns oc) (obj_name ing)) in
    match r with
    | inr updated =>
        ret (updated <| Unstructured_Object ::= set_field "spec" (JObj ingSpec) |>)
    | inl _ => ret o
    end) ing.

(*@ pkg/controller/ingress_control.go:104-108 DeleteIngress *)
Definition DeleteIngress (oc : OnecloudCluster) (ing : Unstructured) : M W unit :=
  apiDelete Unstructured (oc_ns oc) (obj_name ing).
End ingresses.

(** ** Volume claims *)
Section pvcs.
Context {W : Type} `{!ResourceApi W PersistentVolumeClaim}.

(*@ pkg/controller/pvc_control.go:50-57 CreatePVC *)
Definition CreatePVC (oc : OnecloudCluster) (pvc : PersistentVolumeClaim) : M W unit :=
  apiCreate (oc_ns oc) pvc ;;! ret tt.

(*@ pkg/controller/pvc_control.go:59-62 DeletePVC *)
Definition DeletePVC (oc : OnecloudCluster) (pvc : PersistentVolumeClaim) : M W unit := ret tt.
End pvcs.

(** ** Clusters *)
Section clusters.
Context {W : Type} `{!ResourceApi W OnecloudCluster}.

(** After a failure the lister's copy is sent with the wanted status; changes
    of the spec are dropped. *)
(*@ pkg/controller/cluster_control.go:62-92 UpdateCluster *)
Definition UpdateCluster (oc : OnecloudCluster) : M W OnecloudCluster :=
  updateOnConflict DefaultRetry (oc_ns oc)
    (refreshWith (oc_ns oc) (oc_name oc)
       (λ updated, updated <| OnecloudCluster_Status := OnecloudCluster_Status oc |>)) oc.

(*@ pkg/controller/cluster_control.go:94-96 GetCluster *)
Definition GetCluster (namespace name : string) : M W OnecloudCluster :=
  listerGet OnecloudCluster namespace name.
End clusters.

(** ** The configuration of the cluster

    [pkg/manager/config/config.go]. The configuration is kept as YAML in a
    config map. The serializer is not part of the operator: it writes a
    configuration, and reads back what it wrote. The decoder the operator uses
    ([UniversalDecoder]) puts the defaults of the scheme around it. *)
Class ConfigCodec := {
  MarshalToYaml : OnecloudClusterConfig → Res string;
  DecodeYaml : string → Res OnecloudClusterConfig;
  DecodeYaml_Marshal cfg s : MarshalToYaml cfg = Ok s → DecodeYaml s = Ok cfg
}.

(** The passwords the process draws: the [n]-th one, and how many it has
    drawn. *)
Class Passwords (W : Type) := {
  nthPassword : nat → string;
  drawn : W → nat;
  set_drawn : nat → W → W
}.

Section config.
Context {W : Type} `{!ResourceApi W ConfigMap, !ConfigCodec, !Passwords W}.

(** A defaulting function, drawing the passwords it needs. *)
Definition drawing {A} (c : (nat → string) → M nat A) : M W A := λ w,
  let '(n, r) := c nthPassword (drawn w) in (set_drawn n w, r).

(** The defaults the scheme registers for a configuration. *)
(*@ pkg/apis/onecloud/v1alpha1/zz_generated.defaults.go:42-45 SetObjectDefaults_OnecloudClusterConfig *)
Definition SetObjectDefaults_OnecloudClusterConfig (config : OnecloudClusterConfig)
  : M W OnecloudClusterConfig :=
  let! config := drawing (λ pw, SetDefaults_OnecloudClusterConfig pw config) in
  ret (config <| OnecloudClusterConfig_CommonConfig ::= SetDefaults_GlobalServiceCommonConfig |>).

(*@ pkg/manager/config/config.go:143-146 fillClusterConfigDefault *)
Definition fillClusterConfigDefault (config : OnecloudClusterConfig) : M W OnecloudClusterConfig :=
  SetObjectDefaults_OnecloudClusterConfig config.

(** [runtime.DecodeInto(scheme.Codecs.UniversalDecoder(), ..)]: the codec
    decodes, then asks the scheme for the defaults. *)
(*@ vendor/k8s.io/apimachinery/pkg/runtime/serializer/versioning/versioning.go:138-173 Decode *)
Definition UniversalDecode (data : string) : M W OnecloudClusterConfig :=
  let! cfg := lift (DecodeYaml data) in SetObjectDefaults_OnecloudClusterConfig cfg.

(** For all its name the configuration comes with the defaults. *)
(*@ pkg/manager/config/config.go:104-114 newClusterConfigFromConfigMapNoDefault *)
Definition newClusterConfigFromConfigMapNoDefault (cfgMap : ConfigMap) : M W OnecloudClusterConfig :=
  match ConfigMap_Data cfgMap !! OnecloudClusterConfigConfigMapKey with
  | None => throw (ErrMsg ("unexpected error when reading " +:+ obj_name cfgMap +:+ " ConfigMap: "
                           +:+ OnecloudClusterConfigConfigMapKey +:+ " key value pair missing"))
  | Some data => wrap "failed to decode onecloud cluster config data" (UniversalDecode data)
  end.

(*@ pkg/manager/config/config.go:124-141 clusterConfigToConfigMap *)
Definition clusterConfigToConfigMap (oc : OnecloudCluster) (config : OnecloudClusterConfig)
  : Res ConfigMap :=
  res_map (λ data,
    MkConfigMap
      ((zero : ObjectMeta) <| ObjectMeta_Name := ClusterConfigMapName oc |>
         <| ObjectMeta_Namespace := oc_ns oc |>
         <| ObjectMeta_OwnerReferences := [GetOwnerRef oc] |>)
      {[ OnecloudClusterConfigConfigMapKey := data ]}) (MarshalToYaml config).

(*@ pkg/manager/config/config.go:148-159 CreateOrUpdateConfigMap *)
Definition CreateOrUpdateConfigMap (oc : OnecloudCluster) (newCfgMap : ConfigMap) : M W unit :=
  let! r := attempt (CreateConfigMap oc newCfgMap) in
  match r with
  | inr _ => ret tt
  | inl e =>
      if IsAlreadyExists e then
        wrap ("unable to update configmap " +:+ obj_name newCfgMap)
          (UpdateConfigMap oc newCfgMap) ;;! ret tt
      else throw (ErrWrap e ("unable to create configmap " +:+ obj_name newCfgMap))
  end.

(*@ pkg/manager/config/config.go:161-169 GetClusterConfig *)
Definition GetClusterConfig (oc : OnecloudCluster) : M W OnecloudClusterConfig :=
  let! cfgObj := listerGet ConfigMap (oc_ns oc) (ClusterConfigMapName oc) in
  newClusterConfigFromConfigMapNoDefault cfgObj.
(** The same, read from the server. *)
(*@ pkg/manager/config/config.go:94-102 GetClusterConfigByClient *)
Definition GetClusterConfigByClient (oc : OnecloudCluster) : M W OnecloudClusterConfig :=
  let! cfgObj := apiGet ConfigMap (oc_ns oc) (ClusterConfigMapName oc) in
  newClusterConfigFromConfigMapNoDefault cfgObj.

(*@ pkg/manager/component/utils.go:344-355 CreateOrUpdateConfigMap *)
Definition client_CreateOrUpdateConfigMap (cm : ConfigMap) : M W unit :=
  let ns := ObjectMeta_Namespace (ConfigMap_ObjectMeta cm) in
  let! r := attempt (apiCreate ns cm) in
  match r with
  | inr _ => ret tt
  | inl err =>
      if negb (IsAlreadyExists err) then throw (ErrWrap err "unable to create configmap")
      else wrap "unable to update configmap" (apiUpdate ns cm) ;;! ret tt
  end.

(** What reading a stored configuration comes to: its defaults. *)
Lemma config_decoded oc cfg cm cm' w :
  clusterConfigToConfigMap oc cfg = Ok cm → ConfigMap_Data cm' = ConfigMap_Data cm →
  newClusterConfigFromConfigMapNoDefault cm' w
  = wrap "failed to decode onecloud cluster config data" (SetObjectDefaults_OnecloudClusterConfig cfg) w.
Proof.
  unfold clusterConfigToConfigMap, newClusterConfigFromConfigMapNoDefault.
  destruct (MarshalToYaml cfg) as [s|e|p] eqn:Hs; [|done|done]. intros [= <-] ->. cbn [ConfigMap_Data].
  rewrite lookup_singleton_eq. unfold UniversalDecode. rewrite (DecodeYaml_Marshal _ _ Hs).
  reflexivity.
Qed.
End config.
