(* ===== verification/Session.v ===== *)
(** * Session: sessions with the identity service

    The first part of [pkg/controller/onecloud_control.go]: how the operator
    authenticates as the administrator of the cloud, and how what it runs in a
    session is retried with a fresh one. The client library ([mcclient],
    [auth]) is the class [SessionEnv]. What runs on a cluster may change it:
    [SM], the state of the cluster passed around and of the world. *)

From S2P Require Import Prelude K8s Types Constants GoStrings ControllerUtils.

Open Scope string_scope.
Open Scope list_scope.
Open Scope go_scope.

(** ** The cluster passed around, and the world *)
Definition SM (W A : Type) : Type := M (OnecloudCluster * W) A.

Section state.
Context {W : Type}.
Definition kube {A} (c : M W A) : SM W A := λ '(oc, w), let '(w', r) := c w in ((oc, w'), r).
Definition getoc : SM W OnecloudCluster := λ '(oc, w), ((oc, w), Ok oc).
Definition modoc (f : OnecloudCluster → OnecloudCluster) : SM W unit :=
  λ '(oc, w), ((f oc, w), Ok tt).
End state.

(** ** How to authenticate *)

(*@ pkg/controller/onecloud_control.go:65-72 GetAuthURL *)
Definition GetAuthURL (oc : OnecloudCluster) : string :=
  let protol := if DeploymentServiceSpec_DisableTLS (KeystoneSpec_DeploymentServiceSpec
                     (OnecloudClusterSpec_Keystone (OnecloudCluster_Spec oc)))
                then "http" else "https" in
  protol +:+ "://" +:+ KeystoneComponentName (oc_name oc) +:+ ":" +:+ dec KeystoneAdminPort
    +:+ "/v3".

(*@ pkg/controller/onecloud_control.go:74-87 OnecloudRCAdminConfig *)
Record OnecloudRCAdminConfig := MkOnecloudRCAdminConfig {
  rc_AuthURL : string;
  rc_Region : string;
  rc_Username : string;
  rc_Password : string;
  rc_DomainName : string;
  rc_ProjectName : string;
  rc_ProjectDomain : string;
  rc_Insecure : bool;
  rc_Debug : bool;
  rc_Timeout : Z;
  rc_CertFile : string;
  rc_KeyFile : string
}.

(*@ pkg/controller/onecloud_control.go:89-104 NewOnecloudRCAdminConfig *)
Definition NewOnecloudRCAdminConfig (oc : OnecloudCluster) (debug : bool) : OnecloudRCAdminConfig :=
  MkOnecloudRCAdminConfig (GetAuthURL oc) (OnecloudClusterSpec_Region (OnecloudCluster_Spec oc))
    SysAdminUsername
    (KeystoneSpec_BootstrapPassword (OnecloudClusterSpec_Keystone (OnecloudCluster_Spec oc)))
    DefaultDomain SysAdminProject DefaultDomain true debug 600 "" "".

(** [auth.AuthInfo] of the client library. *)
Record AuthInfo := MkAuthInfo {
  auth_AuthUrl : string;
  auth_Domain : string;
  auth_Username : string;
  auth_Passwd : string;
  auth_Project : string;
  auth_ProjectDomain : string
}.

(*@ pkg/controller/onecloud_control.go:106-115 ToAuthInfo *)
Definition ToAuthInfo (config : OnecloudRCAdminConfig) : AuthInfo :=
  MkAuthInfo (rc_AuthURL config) (rc_DomainName config) (rc_Username config) (rc_Password config)
    (rc_ProjectName config) (rc_ProjectDomain config).

(** ** The client library *)
Class SessionEnv (W : Type) := {
  ClientSession : Type;
  Client : Type;
  TokenCredential : Type;
  NewClient : string → Z → bool → bool → string → string → Client;
  AuthenticateWithSource :
    Client → string → string → string → string → string → string → M W TokenCredential;
  SimplifyToken : TokenCredential → TokenCredential;
  SetServiceCatalog : Client → Client;
  NewSession : Client → string → string → string → TokenCredential → ClientSession;
  GetClient : ClientSession → Client;
  IsAuthed : M W bool;
  SetDefaultAuthSource : string → M W unit;
  auth_Init : AuthInfo → bool → bool → string → string → M W unit;
  GetAdminSession : string → M W ClientSession;
  SetServiceUrl : ClientSession → string → string → M W unit
}.
Arguments ClientSession W {_}.
Arguments Client W {_}.
Arguments TokenCredential W {_}.

Section session.
Context {W : Type} `{!SessionEnv W}.
Context (SessionDebug : bool).

(** The client is returned next to an error, which no caller looks at. *)
(*@ pkg/controller/onecloud_control.go:117-136 newOnecloudClientToken *)
Definition newOnecloudClientToken (oc : OnecloudCluster) : M W (Client W * TokenCredential W) :=
  let config := NewOnecloudRCAdminConfig oc SessionDebug in
  let cli := NewClient (rc_AuthURL config) (rc_Timeout config) (rc_Debug config) (rc_Insecure config)
               (rc_CertFile config) (rc_KeyFile config) in
  let! token := AuthenticateWithSource cli (rc_Username config) (rc_Password config)
                  (rc_DomainName config) (rc_ProjectName config) (rc_ProjectDomain config)
                  "operator" in
  ret (cli, token).

(*@ pkg/controller/onecloud_control.go:144-153 NewOnecloudSessionByToken *)
Definition NewOnecloudSessionByToken (cli : Client W) (region : string) (token : TokenCredential W)
  : ClientSession W :=
  NewSession cli region "" EndpointTypeInternal token.

(*@ pkg/controller/onecloud_control.go:155-163 NewOnecloudSimpleClientSession *)
Definition NewOnecloudSimpleClientSession (oc : OnecloudCluster) : M W (ClientSession W) :=
  let! '(cli, token) := newOnecloudClientToken oc in
  ret (NewOnecloudSessionByToken (SetServiceCatalog cli)
         (OnecloudClusterSpec_Region (OnecloudCluster_Spec oc)) (SimplifyToken token)).

(*@ pkg/controller/onecloud_control.go:165-171 NewOnecloudClientSession *)
Definition NewOnecloudClientSession (oc : OnecloudCluster) : M W (ClientSession W) :=
  let! '(cli, token) := newOnecloudClientToken oc in
  ret (NewOnecloudSessionByToken cli (OnecloudClusterSpec_Region (OnecloudCluster_Spec oc)) token).

(*@ pkg/controller/onecloud_control.go:237-239 getSession *)
Definition getSession (oc : OnecloudCluster) : M W (ClientSession W) := NewOnecloudClientSession oc.

(** [mcclient.AuthSourceOperator] *)
Definition AuthSourceOperator : string := "operator".

(*@ pkg/controller/onecloud_control.go:250-254 initAuth *)
Definition initAuth (oc : OnecloudCluster) : M W unit :=
  let config := NewOnecloudRCAdminConfig oc false in
  SetDefaultAuthSource AuthSourceOperator ;;!
  auth_Init (ToAuthInfo config) false true "" "".

(*@ pkg/controller/onecloud_control.go:241-248 getAuthBackgroudSession *)
Definition getAuthBackgroudSession (oc : OnecloudCluster) (refresh : bool) : M W (ClientSession W) :=
  let! authed := IsAuthed in
  (if negb authed || refresh then
     SetDefaultAuthSource AuthSourceOperator ;;!
     let config := NewOnecloudRCAdminConfig oc false in
     auth_Init (ToAuthInfo config) false true "" ""
   else ret tt) ;;!
  GetAdminSession (OnecloudClusterSpec_Region (OnecloudCluster_Spec oc)).

(** The session, before it is told where the identity service is. *)
(*@ pkg/controller/onecloud_control.go:196-206 RunWithSession (session) *)
Definition firstSession (oc : OnecloudCluster) : M W (ClientSession W) :=
  let! authed := IsAuthed in
  if negb authed then
    let! s := wrap "get mcclient session" (getSession oc) in
    initAuth oc ;;! ret s
  else getAuthBackgroudSession oc false.

(** [f] runs a second time, with a fresh session, when it fails. *)
(*@ pkg/controller/onecloud_control.go:192-216 RunWithSession *)
Definition RunWithSession {A} (f : ClientSession W → SM W A) : SM W A :=
  let! oc := getoc in
  let! s := kube (firstSession oc) in
  kube (SetServiceUrl s "identity" (GetAuthURL oc)) ;;!
  let! r := attempt (f s) in
  match r with
  | inr a => ret a
  | inl _ =>
      let! oc := getoc in
      let! newSession := kube (getAuthBackgroudSession oc true) in
      wrap "RunWithSession twice" (f newSession)
  end.
End session.
