(* ===== verification/Loops.v ===== *)
(** * Loops: unbounded loops and the clock

    Go's [for { ... }] as the iteration of a body on the variables it
    changes, bounded by fuel, with the lemmas that say when the fuel is
    enough; [pkg/util/retry] and [pkg/util/retryutil], which are such loops;
    and the polls and back-offs of [k8s.io/apimachinery/pkg/util/wait] the
    waiters use. Time is the class [Clock]. *)

From S2P Require Import Prelude K8s GoStrings.
From Stdlib Require Import QArith Qround.

Open Scope string_scope.
Open Scope list_scope.
Open Scope go_scope.

(** ** [for { ... }]

    The body goes round again with new variables ([inl]) or leaves the loop
    with a result ([inr]); an error or a panic leaves it too. [None]: the
    fuel is used up. *)
Section loop.
Context {W L R : Type}.
Implicit Types (body : L → M W (L + R)) (l : L) (w : W).

Fixpoint go_for (fuel : nat) body l : M W (option R) :=
  match fuel with
  | O => ret None
  | S fuel =>
      let! r := body l in
      match r with
      | inl l => go_for fuel body l
      | inr r => ret (Some r)
      end
  end.

(** The rounds of the loop that go on: [n] of them lead from [(l, w)] to
    [(l', w')]. *)
Inductive rounds body : nat → L → W → L → W → Prop :=
  | rounds_0 l w : rounds body 0 l w l w
  | rounds_S n l w l1 w1 l2 w2 :
      body l w = (w1, Ok (inl l1)) → rounds body n l1 w1 l2 w2 →
      rounds body (S n) l w l2 w2.

(** What leaves the loop. *)
Definition leave (r : W * Res (L + R)) : option (W * Res (option R)) :=
  match r with
  | (w, Ok (inr r)) => Some (w, Ok (Some r))
  | (w, Err e) => Some (w, Err e)
  | (w, Panic p) => Some (w, Panic p)
  | (_, Ok (inl _)) => None
  end.

(** A loop whose variables keep [P] and decrease comes to an end, within as
    many rounds as the measure says: the fuel is enough. *)
Lemma go_for_terminates body (P : L → Prop) (m : L → nat) :
  (∀ l w w' l', P l → body l w = (w', Ok (inl l')) → P l' ∧ (m l' < m l)%nat) →
  ∀ fuel l w, P l → (m l < fuel)%nat →
  ∃ n l' w' r, (n + m l' ≤ m l)%nat ∧ P l' ∧ rounds body n l w l' w' ∧
    leave (body l' w') = Some r ∧ go_for fuel body l w = r.
Proof.
  intros Hm fuel. induction fuel as [|fuel IH]; intros l w HP Hf; [lia|].
  simpl. unfold bind. destruct (body l w) as [w1 [[l1|r]|e|p]] eqn:E.
  { destruct (Hm _ _ _ _ HP E) as [HP1 Hlt].
    destruct (IH l1 w1 HP1 ltac:(lia)) as (n & l' & w' & r & Hn & HP' & Hr & Hl & Hg).
    exists (S n), l', w', r. split; [lia|]. eauto using rounds_S. }
  all: exists 0%nat, l, w; rewrite E; eexists; (split; [lia|]); eauto using rounds_0.
Qed.

Lemma leave_not_None (r : W * Res (L + R)) w' : leave r ≠ Some (w', Ok None).
Proof. destruct r as [? [[]|?|?]]; simpl; congruence. Qed.
End loop.

(** ** Time *)
Class Clock (W : Type) := {
  (** [time.Sleep(d)] *)
  Sleep : Z → W → W;
  (** receiving from a ticker of this period *)
  Tick : Z → W → W;
  (** [rand.Float64()] *)
  Float64 : W → W * Q;
  (** how many ticks a poller with this interval and this timeout, which is
      not 0, delivers before it closes its channel *)
  pollTicks : Z → Z → W → W * nat
}.

(** [time.Second] in nanoseconds *)
Definition Second : Z := 1000000000%Z.

(** ** [retry.Retry] *)
Section retry.
Context {W : Type} `{!Clock W}.

(*@ pkg/util/retry/retry.go:30-33 IsRetryFailure *)
Definition IsRetryFailure (e : error) : bool :=
  match e with ErrRetry _ => true | _ => false end.

(** One round; the variable is [i]. *)
(*@ pkg/util/retry/retry.go:48-60 for (part) *)
Definition retryRound (interval maxRetries : Z) (f : M W bool) (i : Z) : M W (Z + unit) :=
  let! ok := f in
  if ok then ret (inr tt)
  else if (i =? maxRetries)%Z then throw (ErrRetry maxRetries)
  else modify (Tick interval) ;;! ret (inl (wrap64 (i + 1))).

(** [time.NewTicker] panics when the interval is not positive. *)
(*@ pkg/util/retry/retry.go:41-62 Retry *)
Definition RetryFuel (fuel : nat) (interval maxRetries : Z) (f : M W bool) : M W (option unit) :=
  if (maxRetries <=? 0)%Z then
    throw (ErrMsg ("maxRetries (" +:+ dec maxRetries +:+ ") should be > 0"))
  else if (interval <=? 0)%Z then panic "non-positive interval for NewTicker"
  else go_for fuel (retryRound interval maxRetries f) 0%Z.

(** The fuel every call gets. *)
Definition Retry (interval maxRetries : Z) : M W bool → M W (option unit) :=
  RetryFuel (S (Z.to_nat maxRetries)) interval maxRetries.
End retry.

(** ** The back-off of [wait] *)
Section backoff.
Context {W : Type} `{!Clock W}.

(*@ vendor/k8s.io/apimachinery/pkg/util/wait/wait.go:238-262 Backoff *)
Record Backoff := MkBackoff {
  Backoff_Duration : Z;
  Backoff_Factor : Q;
  Backoff_Jitter : Q;
  Backoff_Steps : Z;
  Backoff_Cap : Z
}.
#[global] Instance Backoff_eta : Eta Backoff := λ b,
  MkBackoff (Backoff_Duration b) (Backoff_Factor b) (Backoff_Jitter b) (Backoff_Steps b)
    (Backoff_Cap b).

(** [time.Duration(float64(d) * x)] for [x] not negative: the products that
    occur are exact in a [float64]. *)
Definition scaleDuration (d : Z) (x : Q) : Z := Qfloor (inject_Z d * x).

(*@ vendor/k8s.io/apimachinery/pkg/util/wait/wait.go:198-204 Jitter *)
Definition jitter (duration : Z) (maxFactor : Q) : M W Z := λ w,
  let maxFactor := if Qle_bool maxFactor 0 then 1%Q else maxFactor in
  let '(w, r) := Float64 w in
  (w, Ok (duration + scaleDuration duration (r * maxFactor))%Z).

Definition withJitter (b : Backoff) (duration : Z) : M W Z :=
  if Qle_bool (Backoff_Jitter b) 0 then ret duration else jitter duration (Backoff_Jitter b).

(*@ vendor/k8s.io/apimachinery/pkg/util/wait/wait.go:267-291 Step *)
Definition backoffStep (b : Backoff) : M W (Backoff * Z) :=
  if (Backoff_Steps b <? 1)%Z then
    let! d := withJitter b (Backoff_Duration b) in ret (b, d)
  else
    let duration := Backoff_Duration b in
    let b := b <| Backoff_Steps ::= λ n, (n - 1)%Z |> in
    let b :=
      if Qeq_bool (Backoff_Factor b) 0 then b
      else
        let b := b <| Backoff_Duration := scaleDuration duration (Backoff_Factor b) |> in
        if (0 <? Backoff_Cap b)%Z && (Backoff_Cap b <? Backoff_Duration b)%Z then
          b <| Backoff_Duration := Backoff_Cap b |> <| Backoff_Steps := 0%Z |>
        else b in
    let! d := withJitter b duration in ret (b, d).

(** [wait.ErrWaitTimeout] *)
Definition ErrWaitTimeout : error := ErrMsg "timed out waiting for the condition".

(** One round; the variable is the back-off. *)
(*@ vendor/k8s.io/apimachinery/pkg/util/wait/wait.go:422-430 ExponentialBackoff (part) *)
Definition backoffRound (condition : M W bool) (b : Backoff) : M W (Backoff + unit) :=
  if (0 <? Backoff_Steps b)%Z then
    let! ok := condition in
    if ok then ret (inr tt)
    else if (Backoff_Steps b =? 1)%Z then throw ErrWaitTimeout
    else
      let! '(b, d) := backoffStep b in
      modify (Sleep d) ;;! ret (inl b)
  else throw ErrWaitTimeout.

(*@ vendor/k8s.io/apimachinery/pkg/util/wait/wait.go:421-432 ExponentialBackoff *)
Definition ExponentialBackoffFuel (fuel : nat) (b : Backoff) (condition : M W bool)
  : M W (option unit) :=
  go_for fuel (backoffRound condition) b.

Definition ExponentialBackoff (b : Backoff) : M W bool → M W (option unit) :=
  ExponentialBackoffFuel (S (Z.to_nat (Backoff_Steps b))) b.

(** [f] fails or not; its error is dropped. *)
Definition succeeds (f : M W unit) : M W bool :=
  let! r := attempt f in
  match r with inl _ => ret false | inr _ => ret true end.

(*@ pkg/util/apiclient/wait.go:284-299 TryRunCommand *)
Definition TryRunCommand (f : M W unit) (failureThreshold : Z) : M W (option unit) :=
  ExponentialBackoff (MkBackoff (5 * Second) 2 0 failureThreshold 0) (succeeds f).
End backoff.

(** ** The poll of [wait] *)
Section poll.
Context {W L : Type} `{!Clock W}.

(** The condition runs for every tick and once more when the channel is
    closed. It changes variables of its caller, the value of type [L]. *)
(*@ vendor/k8s.io/apimachinery/pkg/util/wait/wait.go:655-678 WaitForWithContext *)
Fixpoint waitFor (ticks : nat) (condition : L → M W (L * bool)) (l : L) : M W L :=
  let! '(l, ok) := condition l in
  if ok then ret l
  else match ticks with
       | O => throw ErrWaitTimeout
       | S ticks => waitFor ticks condition l
       end.

(*@ vendor/k8s.io/apimachinery/pkg/util/wait/wait.go:580-598 poll *)
Definition PollImmediate (interval timeout : Z) (condition : L → M W (L * bool)) (l : L) : M W L :=
  let! '(l, done_) := condition l in
  if done_ then ret l
  else λ w, let '(w, ticks) := pollTicks interval timeout w in waitFor ticks condition l w.
End poll.

(** A condition without variables. *)
Definition simply {W} (c : M W bool) (_ : unit) : M W (unit * bool) :=
  let! ok := c in ret (tt, ok).

(** ** The retries come to an end *)
Section retry_facts.
Context {W : Type} `{!Clock W}.
Implicit Types (f : M W bool) (w : W).

(** [n] calls of [f] in a row say "not yet"; the ticker is awaited after
    each. *)
Inductive notYet (interval : Z) f : nat → W → W → Prop :=
  | notYet_0 w : notYet interval f 0 w w
  | notYet_S n w w1 w2 :
      f w = (w1, Ok false) → notYet interval f n (Tick interval w1) w2 →
      notYet interval f (S n) w w2.

Lemma retryRound_inl interval maxRetries f i j w w' :
  retryRound interval maxRetries f i w = (w', Ok (inl j)) →
  ∃ w1, f w = (w1, Ok false) ∧ i ≠ maxRetries ∧ j = wrap64 (i + 1) ∧ w' = Tick interval w1.
Proof.
  unfold retryRound, bind. destruct (f w) as [w1 [[]|e|p]]; try discriminate.
  destruct (i =? maxRetries)%Z eqn:E; [discriminate|]. intros [= <- <-].
  exists w1. apply Z.eqb_neq in E. done.
Qed.

Lemma retry_rounds interval maxRetries f n i w j w' :
  rounds (retryRound interval maxRetries f) n i w j w' →
  (0 ≤ i ≤ maxRetries)%Z → (maxRetries < 2 ^ 63)%Z →
  notYet interval f n w w' ∧ j = (i + Z.of_nat n)%Z.
Proof.
  induction 1 as [i w|n i w i1 w1 j w' Hb _ IH]; intros Hi Hm; [split; [constructor|lia]|].
  apply retryRound_inl in Hb as (w2 & Hf & Hne & -> & ->).
  rewrite wrap64_small in IH by lia. destruct IH as [IH ->]; [lia..|].
  split; [by econstructor|lia].
Qed.

(** C37. [Retry] comes to an end: after at most [maxRetries] calls that say
    "not yet" the next call of the function decides. It succeeds when that
    call does, fails with its error, and fails with a [RetryError] when the
    call was the last one, the [maxRetries]+1st. Any amount of fuel above
    [maxRetries] is enough. With an interval that is not positive it panics
    before the first call. *)
Theorem Retry_terminates interval maxRetries f fuel w :
  (0 < maxRetries < 2 ^ 63)%Z → (Z.to_nat maxRetries < fuel)%nat →
  if (interval <=? 0)%Z then
    RetryFuel fuel interval maxRetries f w = (w, Panic "non-positive interval for NewTicker")
  else ∃ n w1, (n ≤ Z.to_nat maxRetries)%nat ∧ notYet interval f n w w1 ∧
    RetryFuel fuel interval maxRetries f w =
      match f w1 with
      | (w', Ok true) => (w', Ok (Some tt))
      | (w', Ok false) => (w', Err (ErrRetry maxRetries))
      | (w', Err e) => (w', Err e)
      | (w', Panic p) => (w', Panic p)
      end ∧
    ∀ w', f w1 = (w', Ok false) → n = Z.to_nat maxRetries.
Proof.
  intros Hm Hf. unfold RetryFuel. destruct (Z.leb_spec maxRetries 0); [lia|].
  destruct (interval <=? 0)%Z; [done|].
  destruct (go_for_terminates (retryRound interval maxRetries f) (λ i, 0 ≤ i ≤ maxRetries)%Z
              (λ i, Z.to_nat (maxRetries - i))) with (fuel := fuel) (l := 0%Z) (w := w)
    as (n & i & w1 & r & Hn & Hi & Hr & Hl & ->); [|lia..|].
  { intros i v v' j Hi Hb. apply retryRound_inl in Hb as (v1 & _ & Hne & -> & _).
    rewrite wrap64_small by lia. split; lia. }
  apply retry_rounds in Hr as [Hr ->]; [|lia..].
  exists n, w1. split; [lia|]. split; [done|]. revert Hl. unfold retryRound, bind, leave.
  destruct (f w1) as [w2 [[]|e|p]]; try (intros [= <-]; split; [done|discriminate]).
  destruct (Z.eqb_spec (0 + Z.of_nat n) maxRetries); [|discriminate].
  intros [= <-]. split; [done|lia].
Qed.
End retry_facts.

(** ** The back-off comes to an end *)
Section backoff_facts.
Context {W : Type} `{!Clock W}.

Lemma scaleDuration_2 d : scaleDuration d 2 = (2 * d)%Z.
Proof. unfold scaleDuration, Qfloor, Qmult, inject_Z; simpl. rewrite Z.div_1_r. lia. Qed.

(** A round that fails sleeps for the duration, which doubles. *)
Lemma backoffRound_fails c d n w :
  c w = (w, Ok false) → (1 < n)%Z →
  backoffRound c (MkBackoff d 2 0 n 0) w = (Sleep d w, Ok (inl (MkBackoff (2 * d) 2 0 (n - 1) 0))).
Proof.
  intros Hc Hn. unfold backoffRound; simpl. destruct (Z.ltb_spec 0 n); [|lia].
  rewrite (bind_Ok _ _ _ _ _ Hc). destruct (Z.eqb_spec n 1); [lia|].
  unfold backoffStep; simpl. destruct (Z.ltb_spec n 1); [lia|].
  unfold withJitter; simpl. rewrite scaleDuration_2. done.
Qed.

Lemma backoff_gives_up c fuel d n w :
  (∀ w, c w = (w, Ok false)) → (n < fuel)%nat →
  ExponentialBackoffFuel fuel (MkBackoff d 2 0 (Z.of_nat (S n)) 0) c w =
    (foldl (λ w k, Sleep (d * 2 ^ Z.of_nat k) w) w (seq 0 n), Err ErrWaitTimeout).
Proof.
  intros Hc. unfold ExponentialBackoffFuel. revert fuel d w. induction n as [|n IH]; intros fuel d w Hf.
  - destruct fuel; [lia|]. simpl. unfold bind, backoffRound; simpl. unfold bind. by rewrite Hc.
  - destruct fuel as [|fuel]; [lia|]. simpl go_for.
    rewrite (bind_Ok _ _ _ _ _ (backoffRound_fails c d (Z.of_nat (S (S n))) w (Hc w) ltac:(lia))).
    replace (Z.of_nat (S (S n)) - 1)%Z with (Z.of_nat (S n)) by lia.
    rewrite IH by lia. f_equal. cbn [seq foldl]. rewrite <- seq_shift, Z.mul_1_r.
    generalize (Sleep d w). generalize (seq 0 n). intros l. induction l as [|k l IHl]; intros v; [done|].
    cbn [map foldl]. rewrite IHl. do 2 f_equal. rewrite Nat2Z.inj_succ, Z.pow_succ_r by lia. lia.
Qed.

(** A command that keeps failing is tried [failureThreshold] times; the
    sleeps in between start at five seconds and double, the last failure is
    not slept on, and what is returned is that the wait timed out, not the
    last error. *)
Theorem TryRunCommand_gives_up (f : M W unit) n w :
  (∀ w, ∃ e, f w = (w, Err e)) →
  TryRunCommand f (Z.of_nat (S n)) w =
    (foldl (λ w k, Sleep (5 * Second * 2 ^ Z.of_nat k) w) w (seq 0 n), Err ErrWaitTimeout).
Proof.
  intros Hf. unfold TryRunCommand, ExponentialBackoff. apply backoff_gives_up; [|simpl; lia].
  intros v. unfold succeeds. destruct (Hf v) as [e He].
  by rewrite (bind_Ok _ _ _ _ _ (attempt_Err _ _ _ _ He)).
Qed.
End backoff_facts.

(** ** A clock that adds up what is slept *)
Record ClockSim := MkClockSim { slept : Z; answers : list (Res bool) }.

#[local] Instance ClockSim_clock : Clock ClockSim := {|
  Sleep d w := MkClockSim (slept w + d) (answers w);
  Tick d w := MkClockSim (slept w + d) (answers w);
  Float64 w := (w, 0%Q);
  pollTicks interval timeout w := (w, Z.to_nat (timeout / interval))
|}.

(** The function answers from a list, and "not yet" when it is used up. *)
Definition answering : M ClockSim bool := λ w,
  match answers w with
  | [] => (w, Ok false)
  | r :: rs => (MkClockSim (slept w) rs, r)
  end.

Lemma Retry_terminates_witness :
  (0 < 20 < 2 ^ 63)%Z ∧ (Z.to_nat 20 < 21)%nat ∧
  (∃ n w1, (n ≤ Z.to_nat 20)%nat ∧ notYet 5 answering n (MkClockSim 0 [Ok false; Ok true]) w1 ∧
    RetryFuel 21 5 20 answering (MkClockSim 0 [Ok false; Ok true]) =
      match answering w1 with
      | (w', Ok true) => (w', Ok (Some tt))
      | (w', Ok false) => (w', Err (ErrRetry 20))
      | (w', Err e) => (w', Err e)
      | (w', Panic p) => (w', Panic p)
      end ∧
    ∀ w', answering w1 = (w', Ok false) → n = Z.to_nat 20) ∧
  RetryFuel 21 5 20 answering (MkClockSim 0 [Ok false; Ok true]) = (MkClockSim 5 [], Ok (Some tt)).
Proof.
  split; [lia|]. split; [lia|]. split; [|reflexivity].
  apply (Retry_terminates 5 20 answering 21 (MkClockSim 0 [Ok false; Ok true])); lia.
Defined.

(** The threshold of five sleeps 75 seconds. *)
Lemma TryRunCommand_gives_up_witness :
  (∀ w : ClockSim, ∃ e, throw (A := unit) (ErrMsg "unhealthy") w = (w, Err e)) ∧
  TryRunCommand (throw (ErrMsg "unhealthy")) 5 (MkClockSim 0 []) =
    (MkClockSim (75 * Second) [], Err ErrWaitTimeout).
Proof.
  split; [intros w; by eexists|].
  etransitivity; [apply (TryRunCommand_gives_up (throw (ErrMsg "unhealthy")) 4)|reflexivity].
  intros w. by eexists.
Defined.
