(* ===== verification/CloudApi.v ===== *)
(** * CloudApi: the resources of the cloud the operator registers

    [pkg/util/onecloud/onecloud.go] and the accounts of
    [pkg/service-init/component/cloudutil.go]: services, endpoints, users,
    zones and so on, created when they are missing and updated when they
    differ. The client library ([mcclient] and its modules) is the class
    [CloudApi], the JSON library the class [JsonUtils]. *)

From S2P Require Import Prelude K8s Types Constants GoStrings.
From S2P Require Import ControllerUtils LastApplied KubeApi Controls Session.

Open Scope string_scope.
Open Scope list_scope.
Open Scope go_scope.

(** ** JSON objects

    [jsonutils.JSONDict] is a [JObj]. Reading a field as a string, a boolean
    or an integer converts values of other kinds; the library says how. *)
Class JsonUtils := {
  value_GetString : json → Res string;
  value_Bool : json → Res bool;
  value_Int : json → Res Z;
  value_GetString_str s : value_GetString (JStr s) = Ok s;
  value_Bool_bool b : value_Bool (JBool b) = Ok b;
  value_Int_int n : value_Int (JInt n) = Ok n;
  value_ToBool : json → bool;
  value_ToBool_bool b : value_ToBool (JBool b) = b;
  json_Equals : json → json → bool;
  json_Equals_refl v : json_Equals v v = true
}.

(** [obj.Get(keys...)] *)
Fixpoint json_Get (obj : json) (keys : list string) : Res json :=
  match keys with
  | [] => Ok obj
  | k :: keys =>
      match obj with
      | JObj kvs => match json_field k kvs with
                    | Some v => json_Get v keys
                    | None => Err (ErrMsg "JSONDictKeyNotFound")
                    end
      | _ => Err (ErrMsg "InvalidJsonDict")
      end
  end.

(** [dict.Contains(keys...)] *)
Definition json_Contains (obj : json) (keys : list string) : bool := is_ok (json_Get obj keys).

(** [dict.Add(v, keys...)]: dictionaries missing on the way are made; nothing
    changes when something else is in the way. *)
Fixpoint json_Add (v : json) (keys : list string) (kvs : list (string * json))
  : list (string * json) :=
  match keys with
  | [] => kvs
  | [k] => set_field k v kvs
  | k :: keys =>
      match json_field k kvs with
      | Some (JObj m) => set_field k (JObj (json_Add v keys m)) kvs
      | Some JNull | None => set_field k (JObj (json_Add v keys [])) kvs
      | Some _ => kvs
      end
  end.

Section access.
Context `{!JsonUtils}.

(** [obj.GetString(key)] *)
Definition GetString (obj : json) (key : string) : Res string :=
  res_bind (json_Get obj [key]) value_GetString.
Definition json_Bool (obj : json) (key : string) : Res bool :=
  res_bind (json_Get obj [key]) value_Bool.
Definition json_Int (obj : json) (key : string) : Res Z :=
  res_bind (json_Get obj [key]) value_Int.

(** With the error dropped: [x, _ := obj.GetString(key)]. *)
Definition getString (obj : json) (key : string) : string :=
  match GetString obj key with Ok s => s | _ => "" end.
Definition getBool (obj : json) (key : string) : bool :=
  match json_Bool obj key with Ok b => b | _ => false end.

(** [jsonutils.QueryBoolean(obj, key, defVal)] *)
Definition QueryBoolean (obj : json) (key : string) (defVal : bool) : bool :=
  match json_Get obj [key] with Ok v => value_ToBool v | _ => defVal end.
End access.

(** ** The client library *)

(** The modules of the client library that are used. *)
Inductive Resource :=
  | RolesV3 | ServicesV3 | ServiceCertificatesV3 | EndpointsV3 | UsersV3 | Projects | Regions
  | Policies | Zones | Wires | Networks | Schedtags | Dynamicschedtags | DevToolTemplates
  | DevToolScripts | AnsiblePlaybookReference | CommonAlerts | ProxyAgents | LLMImage | LLMSku
  | KubeClusters | Parameters_conf.
#[global] Instance Resource_eq_dec : EqDecision Resource.
Proof. solve_decision. Defined.

(** Nil parameters are the empty dictionary. *)
Class CloudApi (W : Type) `{!SessionEnv W} := {
  mod_Get : ClientSession W → Resource → string → M W json;
  mod_GetByName : ClientSession W → Resource → string → M W json;
  mod_List : ClientSession W → Resource → list (string * json) → M W (list json * Z);
  mod_Create : ClientSession W → Resource → list (string * json) → M W json;
  mod_Update : ClientSession W → Resource → string → list (string * json) → M W json;
  mod_Patch : ClientSession W → Resource → string → list (string * json) → M W json;
  mod_Delete : ClientSession W → Resource → string → M W json;
  mod_BatchDelete : ClientSession W → Resource → list string → M W unit;
  mod_GetSpecific : ClientSession W → Resource → string → string → M W json;
  mod_PerformAction : ClientSession W → Resource → string → string → list (string * json) → M W json;
  mod_CreateInContext :
    ClientSession W → Resource → list (string * json) → Resource → string → M W json;
  mod_PutInContexts : ClientSession W → Resource → string → list (Resource * string) → M W json
}.

(*@ pkg/util/onecloud/onecloud.go:44-44 NotFoundMsg *)
Definition NotFoundMsg : string := "NotFoundError".

(** The client error of code 404, or a message that says so. *)
(*@ pkg/util/onecloud/onecloud.go:48-58 IsNotFoundError *)
Definition IsNotFoundError (err : error) : bool :=
  match err with ErrNotFound => true | _ => contains NotFoundMsg (Error err) end.

(** [httputils.ErrorCode(err) == 404]: only the client error itself. *)
Definition is404 (err : error) : bool :=
  match err with ErrNotFound => true | _ => false end.

Section cloud.
Context {W : Type} `{!SessionEnv W, !JsonUtils, !CloudApi W}.
Implicit Types (s : ClientSession W) (man : Resource).

(*@ pkg/util/onecloud/onecloud.go:60-69 IsResourceExists *)
Definition IsResourceExists s man (name : string) : M W (option json) :=
  let! r := attempt (mod_Get s man name) in
  match r with
  | inr obj => ret (Some obj)
  | inl err => if IsNotFoundError err then ret None else throw err
  end.

(*@ pkg/util/onecloud/onecloud.go:71-85 EnsureResource *)
Definition EnsureResource s man (name : string) (createFunc : M W json) : M W json :=
  let! r := IsResourceExists s man name in
  match r with
  | Some obj => ret obj
  | None => createFunc
  end.

(*@ pkg/util/onecloud/onecloud.go:87-102 DeleteResource *)
Definition DeleteResource s man (name : string) : M W unit :=
  let! r := IsResourceExists s man name in
  match r with
  | None => ret tt
  | Some obj => mod_Delete s man (getString obj "id") ;;! ret tt
  end.

(** ** Roles *)

(*@ pkg/util/onecloud/onecloud.go:104-106 IsRoleExists *)
Definition IsRoleExists s (roleName : string) : M W (option json) :=
  IsResourceExists s RolesV3 roleName.

(*@ pkg/util/onecloud/onecloud.go:108-115 CreateRole *)
Definition CreateRole s (roleName description : string) : M W json :=
  mod_Create s RolesV3 (("name", JStr roleName)
    :: if str_empty description then [] else [("description", JStr description)]).

(*@ pkg/util/onecloud/onecloud.go:117-121 EnsureRole *)
Definition EnsureRole s (roleName description : string) : M W json :=
  EnsureResource s RolesV3 roleName (CreateRole s roleName description).

(** ** Services *)

(*@ pkg/util/onecloud/onecloud.go:123-125 IsServiceExists *)
Definition IsServiceExists s (svcName : string) : M W (option json) :=
  IsResourceExists s ServicesV3 svcName.

(*@ pkg/util/onecloud/onecloud.go:281-287 CreateService *)
Definition cloud_CreateService s (svcName svcType : string) : M W json :=
  mod_Create s ServicesV3 [("type", JStr svcType); ("name", JStr svcName); ("enabled", JBool true)].

(*@ pkg/util/onecloud/onecloud.go:127-135 EnsureService *)
Definition EnsureService s (svcName svcType : string) : M W json :=
  wrap "EnsureResource"
    (EnsureResource s ServicesV3 svcName (cloud_CreateService s svcName svcType)).

(*@ pkg/util/onecloud/onecloud.go:490-507 getEndpointsByService *)
Definition getEndpointsByService s (serviceName : string) (mode : option string) : M W (list json) :=
  let! obj := mod_Get s ServicesV3 serviceName in
  let! '(data, _) := mod_List s EndpointsV3
    ([("service_id", JStr (getString obj "id")); ("limit", JInt 0)]
     ++ match mode with Some m => [("mode", JStr m)] | None => [] end) in
  ret data.

(*@ pkg/util/onecloud/onecloud.go:509-514 disableService *)
Definition disableService s (id : string) : M W unit :=
  mod_Patch s ServicesV3 id [("enabled", JBool false)] ;;! ret tt.

(*@ pkg/util/onecloud/onecloud.go:516-521 disableEndpoint *)
Definition disableEndpoint s (id : string) : M W unit :=
  mod_Patch s EndpointsV3 id [("enabled", JBool false)] ;;! ret tt.

(*@ pkg/util/onecloud/onecloud.go:523-528 enableEndpoint *)
Definition enableEndpoint s (id : string) : M W unit :=
  mod_Patch s EndpointsV3 id [("enabled", JBool true)] ;;! ret tt.

(** Slave endpoints follow [enableRO], the others are enabled. *)
(*@ pkg/util/onecloud/onecloud.go:149-179 EnsureEnableService (endpoints) *)
Definition switchEndpoint s (enableRO : bool) (ep : json) : M W unit :=
  let interfaceType := getString ep "interface" in
  let enabled := getBool ep "enabled" in
  let slave := String.eqb interfaceType EndpointTypeSlave in
  let toEnable := if slave then enableRO && negb enabled else negb enabled in
  let toDisable := slave && negb enableRO && enabled in
  if negb toEnable && negb toDisable then ret tt
  else
    let id := getString ep "id" in
    if toEnable then wrap "EnableEndpoint" (enableEndpoint s id)
    else if toDisable then wrap "DisableEndpoint" (disableEndpoint s id)
    else ret tt.

(*@ pkg/util/onecloud/onecloud.go:137-193 EnsureEnableService *)
Definition EnsureEnableService s (srvName : string) (enableRO : bool) : M W unit :=
  let! r := wrap "IsServiceExists" (IsServiceExists s srvName) in
  match r with
  | None => throw (ErrWrap ErrNotFound ("Service " +:+ srvName +:+ " not found"))
  | Some srv =>
      let! endpoints := wrap "GetEndpointsByService" (getEndpointsByService s srvName None) in
      for_each endpoints (switchEndpoint s enableRO) ;;!
      if getBool srv "enabled" then ret tt
      else
        wrap "patch enable service"
          (mod_Patch s ServicesV3 (getString srv "id") [("enabled", JBool true)]) ;;!
        ret tt
  end.

(*@ pkg/util/onecloud/onecloud.go:195-234 EnsureDisableService *)
Definition EnsureDisableService s (srvName : string) : M W unit :=
  let! r := wrap "IsServiceExists" (IsServiceExists s srvName) in
  match r with
  | None => ret tt
  | Some srv =>
      let! endpoints := wrap "GetEndpointsByService" (getEndpointsByService s srvName None) in
      for_each endpoints (λ ep,
        if getBool ep "enabled"
        then wrap "DisableEndpoint" (disableEndpoint s (getString ep "id")) else ret tt) ;;!
      let! enabled := wrap "Get service enabled" (lift (json_Bool srv "enabled")) in
      if negb enabled then ret tt
      else
        wrap "patch disable service"
          (mod_Patch s ServicesV3 (getString srv "id") [("enabled", JBool false)]) ;;!
        ret tt
  end.

(** What most managers run in a session: the service follows the component. *)
(*@ pkg/manager/component/scheduler.go:99-107 getMcclientSyncFunc *)
Definition syncServiceState (srvName : string) (disabled enableRO : bool) s : M W unit :=
  if disabled then EnsureDisableService s srvName else EnsureEnableService s srvName enableRO.

(*@ pkg/util/onecloud/onecloud.go:530-555 DeleteServiceEndpoints *)
Definition DeleteServiceEndpoints s (serviceName : string) : M W unit :=
  let! r := attempt (getEndpointsByService s serviceName None) in
  match r with
  | inl err =>
      if IsNotFoundError err then ret tt else throw (ErrWrap err "getEndpointsByService")
  | inr endpoints =>
      for_each endpoints (λ ep,
        let id := getString ep "id" in
        wrap "disableEndpoint" (disableEndpoint s id) ;;!
        wrap "DeleteEndpoint" (mod_Delete s EndpointsV3 id) ;;! ret tt) ;;!
      wrap "disableService" (disableService s serviceName) ;;!
      wrap "DeleteService" (DeleteResource s ServicesV3 serviceName)
  end.

(** ** Endpoints *)

(** The first of those listed. *)
(*@ pkg/util/onecloud/onecloud.go:289-302 isEndpointExists *)
Definition isEndpointExists s (svcId regionId interfaceType : string) : M W (option json) :=
  let! '(data, _) := mod_List s EndpointsV3
    [("service_id", JStr svcId); ("region_id", JStr regionId); ("interface", JStr interfaceType)] in
  ret (head data).

Definition service_certificate (serviceCert : string) : list (string * json) :=
  if str_empty serviceCert then [] else [("service_certificate", JStr serviceCert)].

(** A slave endpoint is created disabled. *)
(*@ pkg/util/onecloud/onecloud.go:304-346 ensureEndpoint *)
Definition ensureEndpoint s (svcId regionId interfaceType url serviceCert : string) : M W json :=
  let! r := isEndpointExists s svcId regionId interfaceType in
  match r with
  | None =>
      mod_Create s EndpointsV3
        ([("service_id", JStr svcId); ("region_id", JStr regionId);
          ("interface", JStr interfaceType);
          ("enabled", JBool (negb (String.eqb interfaceType EndpointTypeSlave)));
          ("url", JStr url)] ++ service_certificate serviceCert)
  | Some ep =>
      let! epId := lift (GetString ep "id") in
      if String.eqb (getString ep "url") url then ret ep
      else mod_Update s EndpointsV3 epId (("url", JStr url) :: service_certificate serviceCert)
  end.

(** The map of the interfaces and their URLs, in the order Go ranges over
    it. *)
(*@ pkg/util/onecloud/onecloud.go:557-580 RegisterServiceEndpoints *)
Definition RegisterServiceEndpoints s (regionId serviceName serviceType serviceCert : string)
    (interfaceUrls : list (string * string)) : M W unit :=
  let! svc := EnsureService s serviceName serviceType in
  let! svcId := lift (GetString svc "id") in
  for_each interfaceUrls (λ '(inf, url),
    ensureEndpoint s svcId regionId inf url serviceCert ;;! ret tt).

(*@ pkg/util/onecloud/onecloud.go:582-596 RegisterServiceEndpointByInterfaces *)
Definition RegisterServiceEndpointByInterfaces s
    (regionId serviceName serviceType endpointUrl serviceCert : string) (interfaces : list string)
  : M W unit :=
  RegisterServiceEndpoints s regionId serviceName serviceType serviceCert
    (map (λ inf, (inf, endpointUrl)) interfaces).

(*@ pkg/util/onecloud/onecloud.go:598-608 RegisterServicePublicInternalEndpoint *)
Definition RegisterServicePublicInternalEndpoint s
    (regionId serviceName serviceType serviceCert endpointUrl : string) : M W unit :=
  RegisterServiceEndpointByInterfaces s regionId serviceName serviceType endpointUrl serviceCert
    [EndpointTypeInternal; EndpointTypePublic].

(** ** Certificates *)

(** A nil dictionary is a nil pointer. *)
(*@ pkg/util/onecloud/onecloud.go:276-279 CreateServiceCertificate *)
Definition CreateServiceCertificate s (certName : string)
    (certDetails : option (list (string * json))) : M W json :=
  match certDetails with
  | None => panic "nil pointer dereference"
  | Some d => mod_Create s ServiceCertificatesV3 (set_field "name" (JStr certName) d)
  end.

(** The certificate, the key and the authority's certificate are the same. *)
(*@ pkg/util/onecloud/onecloud.go:242-258 EnsureServiceCertificate (differs) *)
Definition sameCertificate (obj d : json) : bool :=
  forallb (λ k, String.eqb (TrimSpace (getString obj k)) (TrimSpace (getString d k)))
    ["certificate"; "private_key"; "ca_certificate"].

(** When the content differs, the service of etcd is deleted with its
    endpoints, whatever the name of the certificate. *)
(*@ pkg/util/onecloud/onecloud.go:236-274 EnsureServiceCertificate *)
Definition EnsureServiceCertificate s (certName : string)
    (certDetails : option (list (string * json))) : M W json :=
  let! r := IsResourceExists s ServiceCertificatesV3 certName in
  match r, certDetails with
  | Some obj, Some d =>
      if sameCertificate obj (JObj d) then ret obj
      else
        DeleteServiceEndpoints s ServiceNameEtcd ;;!
        DeleteResource s ServiceCertificatesV3 ServiceCertEtcdName ;;!
        CreateServiceCertificate s certName certDetails
  | _, _ => CreateServiceCertificate s certName certDetails
  end.

(** ** Users *)

(*@ pkg/util/onecloud/onecloud.go:348-350 IsUserExists *)
Definition IsUserExists s (username : string) : M W (option json) :=
  IsResourceExists s UsersV3 username.

(*@ pkg/util/onecloud/onecloud.go:352-359 CreateUser *)
Definition CreateUser s (username password : string) : M W json :=
  mod_Create s UsersV3 [("name", JStr username); ("password", JStr password);
    ("is_system_account", JBool true); ("allow_web_console", JBool false)].

(*@ pkg/util/onecloud/onecloud.go:361-365 ChangeUserPassword *)
Definition ChangeUserPassword s (username password : string) : M W json :=
  mod_Update s UsersV3 username [("password", JStr password)].

(*@ pkg/util/onecloud/onecloud.go:367-371 AllowUserWebLogin *)
Definition AllowUserWebLogin s (username : string) : M W json :=
  mod_Update s UsersV3 username [("allow_web_console", JBool true)].

(*@ pkg/util/onecloud/onecloud.go:373-380 ProjectAddUser *)
Definition ProjectAddUser s (projectId userId roleId : string) : M W unit :=
  mod_PutInContexts s RolesV3 roleId [(Projects, projectId); (UsersV3, userId)] ;;! ret tt.

(*@ pkg/service-init/component/cloudutil.go:15-17 LoginByServiceAccount *)
Definition LoginByServiceAccount s (account : CloudUser) : M W (TokenCredential W) :=
  AuthenticateWithSource (GetClient s) (CloudUser_Username account) (CloudUser_Password account)
    DefaultDomain SysAdminProject "" "operator".

(** The account of a service: with [SyncUser] its password is reset when it
    cannot log in. *)
(*@ pkg/service-init/component/cloudutil.go:19-59 EnsureServiceAccount *)
Definition ensureServiceAccount (SyncUser : bool) s (account : CloudUser) : M W unit :=
  let username := CloudUser_Username account in
  let password := CloudUser_Password account in
  let! r := IsUserExists s username in
  match r with
  | Some obj =>
      match json_Int obj "project_count" with
      | Ok n =>
          if (n =? 0)%Z then
            wrap ("add exists user " +:+ username +:+ " to system project")
              (ProjectAddUser s SysAdminProject (getString obj "id") RoleAdmin)
          else ret tt
      | _ => ret tt
      end ;;!
      if negb SyncUser then ret tt
      else
        let! r := attempt (LoginByServiceAccount s account) in
        match r with
        | inr _ => ret tt
        | inl _ =>
            let id := getString obj "id" in
            wrap ("user " +:+ username +:+ "(" +:+ id +:+ ") already exists, update password")
              (ChangeUserPassword s id password) ;;!
            ret tt
        end
  | None =>
      let! obj := wrap ("create user " +:+ username) (CreateUser s username password) in
      ProjectAddUser s SysAdminProject (getString obj "id") RoleAdmin
  end.

(** ** Compute resources *)

(*@ pkg/util/onecloud/onecloud.go:382-384 IsZoneExists *)
Definition IsZoneExists s (zone : string) : M W (option json) := IsResourceExists s Zones zone.

(*@ pkg/util/onecloud/onecloud.go:386-390 CreateZone *)
Definition CreateZone s (zone : string) : M W json := mod_Create s Zones [("name", JStr zone)].

(*@ pkg/util/onecloud/onecloud.go:392-394 IsWireExists *)
Definition IsWireExists s (wire : string) : M W (option json) := IsResourceExists s Wires wire.

(*@ pkg/util/onecloud/onecloud.go:396-402 CreateWire *)
Definition CreateWire s (zone wire : string) (bw : Z) (vpc : string) : M W json :=
  mod_CreateInContext s Wires [("name", JStr wire); ("bandwidth", JInt bw); ("vpc", JStr vpc)]
    Zones zone.

(*@ pkg/util/onecloud/onecloud.go:404-406 IsNetworkExists *)
Definition IsNetworkExists s (net : string) : M W (option json) := IsResourceExists s Networks net.

Definition non_empty (k v : string) : list (string * json) :=
  if str_empty v then [] else [(k, JStr v)].

(*@ pkg/util/onecloud/onecloud.go:408-430 CreateNetwork *)
Definition CreateNetwork s (name gateway serverType wireId : string) (maskLen : Z)
    (startIp endIp : string) : M W json :=
  mod_CreateInContext s Networks
    ([("name", JStr name); ("guest_ip_start", JStr startIp); ("guest_ip_end", JStr endIp);
      ("guest_ip_mask", JInt maskLen)]
     ++ non_empty "guest_gateway" gateway ++ non_empty "server_type" serverType) Wires wireId.

(*@ pkg/util/onecloud/onecloud.go:432-434 NetworkPrivate *)
Definition NetworkPrivate s (name : string) : M W json :=
  mod_PerformAction s Networks name "private" [].

(** [mcclient.RegionID] of the client library. *)
Definition RegionID (region zone : string) : string :=
  if str_empty region || str_empty zone then region else region +:+ "-" +:+ zone.

(*@ pkg/util/onecloud/onecloud.go:436-451 CreateRegion *)
Definition CreateRegion s (region zone : string) : M W json :=
  let region := if str_empty zone then region else RegionID region zone in
  let! r := attempt (mod_Get s Regions region) in
  match r with
  | inr obj => ret obj
  | inl err =>
      if negb (IsNotFoundError err) then throw err
      else mod_Create s Regions [("id", JStr region)]
  end.

(*@ pkg/util/onecloud/onecloud.go:453-455 IsSchedtagExists *)
Definition IsSchedtagExists s (name : string) : M W (option json) :=
  IsResourceExists s Schedtags name.

(*@ pkg/util/onecloud/onecloud.go:457-463 CreateSchedtag *)
Definition CreateSchedtag s (name strategy description : string) : M W json :=
  mod_Create s Schedtags [("name", JStr name); ("default_strategy", JStr strategy);
    ("description", JStr description)].

(*@ pkg/util/onecloud/onecloud.go:465-469 EnsureSchedtag *)
Definition EnsureSchedtag s (name strategy description : string) : M W json :=
  EnsureResource s Schedtags name (CreateSchedtag s name strategy description).

(*@ pkg/util/onecloud/onecloud.go:471-473 IsDynamicSchedtagExists *)
Definition IsDynamicSchedtagExists s (name : string) : M W (option json) :=
  IsResourceExists s Dynamicschedtags name.

(*@ pkg/util/onecloud/onecloud.go:475-482 CreateDynamicSchedtag *)
Definition CreateDynamicSchedtag s (name schedtag condition : string) : M W json :=
  mod_Create s Dynamicschedtags [("name", JStr name); ("schedtag", JStr schedtag);
    ("condition", JStr condition); ("enabled", JBool true)].

(*@ pkg/util/onecloud/onecloud.go:484-488 EnsureDynamicSchedtag *)
Definition EnsureDynamicSchedtag s (name schedtag condition : string) : M W json :=
  EnsureResource s Dynamicschedtags name (CreateDynamicSchedtag s name schedtag condition).

(** ** Images and SKUs of the LLM service

    The input is the JSON it marshals to. *)

(*@ pkg/util/onecloud/onecloud.go:1036-1039 CreateLLMImage *)
Definition CreateLLMImage s (input : list (string * json)) : M W json := mod_Create s LLMImage input.

(*@ pkg/util/onecloud/onecloud.go:1042-1046 EnsureLLMImage *)
Definition EnsureLLMImage s (input : list (string * json)) : M W json :=
  EnsureResource s LLMImage (getString (JObj input) "name") (CreateLLMImage s input).

(*@ pkg/util/onecloud/onecloud.go:1049-1052 CreateLLMSku *)
Definition CreateLLMSku s (input : list (string * json)) : M W json := mod_Create s LLMSku input.

(*@ pkg/util/onecloud/onecloud.go:1055-1059 EnsureLLMSku *)
Definition EnsureLLMSku s (input : list (string * json)) : M W json :=
  EnsureResource s LLMSku (getString (JObj input) "name") (CreateLLMSku s input).

(** ** Configuration of the services *)

(** A key that is set is kept. *)
(*@ pkg/util/onecloud/onecloud.go:719-725 SyncServiceConfig (loop) *)
Definition addConfig (conf : list (string * json)) (kv : string * string) : list (string * json) :=
  let '(k, v) := kv in
  match res_bind (json_Get (JObj conf) ["config"; "default"; k]) value_GetString with
  | Ok _ => conf
  | _ => json_Add (JStr v) ["config"; "default"; k] conf
  end.

(** The map is given in the order Go ranges over it. *)
(*@ pkg/util/onecloud/onecloud.go:705-727 SyncServiceConfig *)
Definition SyncServiceConfig s (syncConf : list (string * string)) (serviceName : string)
  : M W json :=
  let! iconf := mod_GetSpecific s ServicesV3 serviceName "config" in
  match iconf with
  | JObj conf =>
      let conf := if json_Contains (JObj conf) ["config"] then conf
                  else json_Add (JObj []) ["config"] conf in
      let conf := if json_Contains (JObj conf) ["config"; "default"] then conf
                  else json_Add (JObj []) ["config"; "default"] conf in
      mod_PerformAction s ServicesV3 serviceName "config" (foldl addConfig conf syncConf)
  | _ => panic "interface conversion"
  end.
End cloud.
