(* ===== verification/Waiters.v ===== *)
(** * Waiters: waiting for the API server, the pods and the services

    [pkg/util/apiclient/wait.go] and [pkg/util/onecloud/waiter.go]: the polls
    that wait until something is healthy, each a condition given to
    [PollImmediate]; the wait for the custom resource definition of
    [pkg/util/k8s/crd.go]. The clients are the classes [PodApi], [HealthApi],
    [ServiceLists] and [CrdApi]. What the conditions print is left out, and
    with it the variables that only serve to print less. *)

From S2P Require Import Prelude K8s Types Constants GoStrings KubeApi ControllerUtils.
From S2P Require Import LastApplied Session Loops CloudApi.
From S2P Require Import Controls.

Open Scope string_scope.
Open Scope list_scope.
Open Scope go_scope.

(** ** Constants *)
(*@ pkg/util/apiclient/wait.go:38-38 APICallRetryInterval *)
Definition kube_APICallRetryInterval : Z := (500 * (Second / 1000))%Z.
(*@ pkg/apis/constants/constants.go:484-484 APICallRetryInterval *)
Definition APICallRetryInterval : Z := (1 * Second)%Z.
(*@ pkg/util/apiclient/wait.go:40-40 KubeletHealthzPort *)
Definition KubeletHealthzPort : Z := 10248%Z.
(*@ pkg/util/apiclient/wait.go:44-44 KubeAPIServer *)
Definition KubeAPIServer : string := "kube-apiserver".
(*@ pkg/util/apiclient/wait.go:46-46 KubeControllerManager *)
Definition KubeControllerManager : string := "kube-controller-manager".
(*@ pkg/util/apiclient/wait.go:48-48 KubeScheduler *)
Definition KubeScheduler : string := "kube-scheduler".
(*@ pkg/util/apiclient/wait.go:63-63 ControlPlaneComponents *)
Definition ControlPlaneComponents : list string :=
  [KubeAPIServer; KubeControllerManager; KubeScheduler].
(*@ pkg/util/apiclient/wait.go:57-57 ConfigHashAnnotationKey *)
Definition ConfigHashAnnotationKey : string := "kubernetes.io/config.hash".
(** [metav1.NamespaceSystem], [v1.PodRunning], [http.StatusOK] *)
Definition NamespaceSystem : string := "kube-system".
Definition PodRunning : string := "Running".
Definition StatusOK : Z := 200%Z.

(** ** The clients *)
Class PodApi (W : Type) := {
  (** by namespace and label selector *)
  pods_List : string → string → M W (list Pod);
  pods_Get : string → string → M W Pod
}.
Class HealthApi (W : Type) := {
  (** the status of [/healthz] of the API server, 0 without an answer *)
  apiserver_healthz : M W Z;
  (** the status of a plain HTTP request *)
  http_Get : string → M W Z
}.

(*@ pkg/util/apiclient/wait.go:90-94 KubeWaiter *)
Record KubeWaiter := MkKubeWaiter { waiter_timeout : Z }.

(*@ pkg/util/apiclient/wait.go:97-103 NewKubeWaiter *)
Definition NewKubeWaiter (timeout : Z) : KubeWaiter := MkKubeWaiter timeout.

(*@ pkg/util/apiclient/wait.go:208-210 SetTimeout *)
Definition SetTimeout (w : KubeWaiter) (timeout : Z) : KubeWaiter := MkKubeWaiter timeout.

Section kube.
Context {W : Type} `{!Clock W, !PodApi W, !HealthApi W}.
Context (waiter : KubeWaiter).

Definition kubePoll {L} (condition : L → M W (L * bool)) (l : L) : M W L :=
  PollImmediate kube_APICallRetryInterval (waiter_timeout waiter) condition l.

(*@ pkg/util/apiclient/wait.go:106-118 WaitForAPI *)
Definition WaitForAPI : M W unit :=
  kubePoll (simply (let! healthStatus := apiserver_healthz in
                    ret (negb (negb (healthStatus =? StatusOK)%Z)))) tt.

(** The condition of both [WaitForPodsWithLabel]: there are pods and every
    one runs; a failing request is tried again. *)
(*@ pkg/util/apiclient/wait.go:125-149 WaitForPodsWithLabel (condition) *)
Definition podsRunning (kvLabel : string) : M W bool :=
  let! r := attempt (pods_List NamespaceSystem kvLabel) in
  match r with
  | inl _ => ret false
  | inr pods =>
      if (length pods =? 0)%nat then ret false
      else ret (negb (existsb (λ pod, negb (String.eqb (PodStatus_Phase (Pod_Status pod)) PodRunning))
                        pods))
  end.

(*@ pkg/util/apiclient/wait.go:122-150 WaitForPodsWithLabel *)
Definition kube_WaitForPodsWithLabel (kvLabel : string) : M W unit :=
  kubePoll (simply (podsRunning kvLabel)) tt.

(*@ pkg/util/apiclient/wait.go:153-162 WaitForPodToDisappear *)
Definition WaitForPodToDisappear (podName : string) : M W unit :=
  kubePoll (simply (let! r := attempt (pods_Get NamespaceSystem podName) in
                    match r with inl e => ret (IsNotFound e) | inr _ => ret false end)) tt.

(** The command [TryRunCommand] runs. *)
(*@ pkg/util/apiclient/wait.go:168-183 WaitForHealthyKubelet (command) *)
Definition kubeletHealthy (healthzEndpoint : string) : M W unit :=
  let! status := http_Get healthzEndpoint in
  if negb (status =? StatusOK)%Z then throw (ErrMsg "the kubelet healthz endpoint is unhealthy")
  else ret tt.

(*@ pkg/util/apiclient/wait.go:165-184 WaitForHealthyKubelet *)
Definition WaitForHealthyKubelet (initalTimeout : Z) (healthzEndpoint : string) : M W (option unit) :=
  modify (Sleep initalTimeout) ;;!
  TryRunCommand (kubeletHealthy healthzEndpoint) 5.

(*@ pkg/util/apiclient/wait.go:270-281 getStaticPodSingleHash *)
Definition getStaticPodSingleHash (nodeName component : string) : M W string :=
  let! staticPod := pods_Get NamespaceSystem (component +:+ "-" +:+ nodeName) in
  ret (default "" (ObjectMeta_Annotations (Pod_ObjectMeta staticPod) !! ConfigHashAnnotationKey)).

(** [hash, err = getStaticPodSingleHash(...)] in a condition: a failure
    empties the variable. *)
Definition hashFound (nodeName component : string) (_ : string) : M W (string * bool) :=
  let! r := attempt (getStaticPodSingleHash nodeName component) in
  match r with
  | inl _ => ret ("", false)
  | inr hash => ret (hash, true)
  end.

(** The hash returned next to an error is dropped. *)
(*@ pkg/util/apiclient/wait.go:236-249 WaitForStaticPodSingleHash *)
Definition WaitForStaticPodSingleHash (nodeName component : string) : M W string :=
  kubePoll (hashFound nodeName component) "".

(*@ pkg/util/apiclient/wait.go:218-230 WaitForStaticPodControlPlaneHashes (loop) *)
Fixpoint controlPlaneHashes (nodeName : string) (components : list string) (componentHash : string)
    (mirrorPodHashes : gmap string string) : M W (gmap string string) :=
  match components with
  | [] => ret mirrorPodHashes
  | component :: components =>
      let! componentHash := kubePoll (hashFound nodeName component) componentHash in
      controlPlaneHashes nodeName components componentHash
        (<[component := componentHash]> mirrorPodHashes)
  end.

(*@ pkg/util/apiclient/wait.go:213-233 WaitForStaticPodControlPlaneHashes *)
Definition WaitForStaticPodControlPlaneHashes (nodeName : string) : M W (gmap string string) :=
  controlPlaneHashes nodeName ControlPlaneComponents "" ∅.

(*@ pkg/util/apiclient/wait.go:253-267 WaitForStaticPodHashChange *)
Definition WaitForStaticPodHashChange (nodeName component previousHash : string) : M W unit :=
  kubePoll (simply (
    let! r := attempt (getStaticPodSingleHash nodeName component) in
    match r with
    | inl _ => ret false
    | inr hash => if String.eqb hash previousHash then ret false else ret true
    end)) tt.
End kube.

(** ** The services of the cloud *)

(** The lists of the client library only this file asks for. *)
Class ServiceLists (W : Type) `{!SessionEnv W} := {
  Servers_List : ClientSession W → M W unit;
  SchedManager_HistoryList : ClientSession W → M W unit;
  Images_List : ClientSession W → M W unit
}.

(*@ pkg/util/onecloud/waiter.go:50-57 OCWaiter *)
Record OCWaiter (W : Type) `{!SessionEnv W} := MkOCWaiter {
  oc_Waiter : KubeWaiter;
  sessionFactory : M W (ClientSession W);
  ocwaiter_timeout : Z
}.
Arguments MkOCWaiter {W _} _ _ _.
Arguments oc_Waiter {W _} _.
Arguments sessionFactory {W _} _.
Arguments ocwaiter_timeout {W _} _.

Section services.
Context {W : Type} `{!Clock W, !PodApi W, !HealthApi W, !SessionEnv W, !CloudApi W, !ServiceLists W}.

(*@ pkg/util/onecloud/waiter.go:60-73 NewOCWaiter *)
Definition NewOCWaiter (sessionFactory : M W (ClientSession W)) (timeout : Z) : OCWaiter W :=
  MkOCWaiter (NewKubeWaiter timeout) sessionFactory timeout.

(*@ pkg/controller/onecloud_control.go:181-186 NewWaiter *)
Definition NewWaiter (SessionDebug : bool) (oc : OnecloudCluster) : OCWaiter W :=
  NewOCWaiter (NewOnecloudClientSession SessionDebug oc) (5 * (60 * Second))%Z.

Context (waiter : OCWaiter W).

(*@ pkg/util/onecloud/waiter.go:75-77 getSession *)
Definition waiter_getSession : M W (ClientSession W) := sessionFactory waiter.

Definition ocPoll (condition : M W bool) : M W unit :=
  PollImmediate APICallRetryInterval (ocwaiter_timeout waiter) (simply condition) tt.

(** The condition is the one of [KubeWaiter], written once more. *)
(*@ pkg/util/onecloud/waiter.go:88-116 WaitForPodsWithLabel *)
Definition WaitForPodsWithLabel (kvLabel : string) : M W unit := ocPoll (podsRunning kvLabel).

(*@ pkg/util/onecloud/waiter.go:79-84 WaitForServicePods *)
Definition WaitForServicePods (serviceName : string) : M W unit :=
  wrap ("wait " +:+ serviceName +:+ " pod running") (WaitForPodsWithLabel ("component=" +:+ serviceName)).

(*@ pkg/util/onecloud/waiter.go:118-136 WaitForKeystone *)
Definition WaitForKeystone : M W unit :=
  ocPoll (
    let! r := attempt waiter_getSession in
    match r with
    | inl _ => ret false
    | inr session => wrap "Failed to get policy" (mod_List session Policies []) ;;! ret true
    end).

(** The error says what the session is, which is nil. *)
(*@ pkg/util/onecloud/waiter.go:138-155 waitForServiceHealthy *)
Definition waitForServiceHealthy (checkFunc : ClientSession W → M W bool) : M W unit :=
  ocPoll (
    let! r := attempt waiter_getSession in
    match r with
    | inl _ => throw (ErrMsg "Failed to get onecloud session: <nil>")
    | inr session => checkFunc session
    end).

(*@ pkg/util/onecloud/waiter.go:157-166 WaitForRegion *)
Definition WaitForRegion : M W unit :=
  waitForServiceHealthy (λ s, succeeds (Servers_List s)).

(*@ pkg/util/onecloud/waiter.go:168-177 WaitForScheduler *)
Definition WaitForScheduler : M W unit :=
  waitForServiceHealthy (λ s, succeeds (SchedManager_HistoryList s)).

(*@ pkg/util/onecloud/waiter.go:179-188 WaitForGlance *)
Definition WaitForGlance : M W unit :=
  waitForServiceHealthy (λ s, succeeds (Images_List s)).
End services.

(** ** The custom resource definition *)

(** A condition of [apiextensions]: type, status and reason. *)
Record CrdCondition := MkCrdCondition {
  CrdCondition_Type : string;
  CrdCondition_Status : string;
  CrdCondition_Reason : string
}.

(** The part of the spec this definition has: a printed column is its name,
    type, description and path. *)
(*@ vendor/k8s.io/apiextensions-apiserver/pkg/apis/apiextensions/v1beta1/types.go:41-102 CustomResourceDefinitionSpec (part) *)
Record CrdSpec := MkCrdSpec {
  CrdSpec_Group : string;
  CrdSpec_Version : string;
  CrdSpec_Scope : string;
  CrdSpec_Plural : string;
  CrdSpec_Kind : string;
  CrdSpec_ShortNames : list string;
  CrdSpec_AdditionalPrinterColumns : list (string * string * string * string);
  CrdSpec_OpenAPIV3Schema : json
}.

(** A definition: its metadata, its spec and the conditions of its status. *)
Record Crd := MkCrd {
  Crd_ObjectMeta : ObjectMeta;
  Crd_Spec : CrdSpec;
  Crd_Conditions : list CrdCondition
}.
#[global] Instance Crd_eta : Eta Crd := λ c,
  MkCrd (Crd_ObjectMeta c) (Crd_Spec c) (Crd_Conditions c).
#[global] Instance Crd_obj : KObject Crd :=
  {| object_meta := Crd_ObjectMeta; set_object_meta f c := c <| Crd_ObjectMeta ::= f |> |}.

(*@ pkg/apis/onecloud/v1alpha1/types.go:37-37 OnecloudClusterResourceKind *)
Definition OnecloudClusterResourceKind : string := "OnecloudCluster".
(*@ pkg/apis/onecloud/v1alpha1/types.go:38-38 OnecloudClusterResourcePlural *)
Definition OnecloudClusterResourcePlural : string := "onecloudclusters".

Definition schemaString : json := JObj [("type", JStr "string")].

(*@ pkg/apis/onecloud/v1alpha1/types.go:52-52 OnecloudClusterCRDName *)
Definition OnecloudClusterCRDName : string := OnecloudClusterResourcePlural +:+ "." +:+ GroupName.

(*@ pkg/apis/crds/crds.go:25-64 OnecloudClusterCRD *)
Definition OnecloudClusterCRD : Crd :=
  MkCrd (zero <| ObjectMeta_Name := OnecloudClusterCRDName |>)
    (MkCrdSpec GroupName "v1alpha1" "Namespaced" OnecloudClusterResourcePlural
       OnecloudClusterResourceKind ["onecloud"; "oc"]
       [(KeystoneComponentType, "string", "The image for keystone service", ".spec.keystone.image")]
       (JObj [("properties", JObj [("spec", JObj [("properties", JObj [("mysql",
          JObj [("properties", JObj [("host", schemaString); ("password", schemaString)])])])])])]))
    [].

(** Definitions have no namespace. *)
Definition crd_ns : string := "".

Section crd.
Context {W : Type} `{!Clock W, !ResourceApi W Crd}.

(*@ pkg/util/k8s/crd.go:101-103 IsKubernetesResourceAlreadyExistError *)
Definition crd_IsAlreadyExist (e : error) : bool := IsAlreadyExists e.

(*@ pkg/util/k8s/crd.go:54-73 CreateOrUpdateCRD *)
Definition CreateOrUpdateCRD (crd : Crd) : M W unit :=
  let! r := attempt (apiCreate crd_ns crd) in
  match r with
  | inr _ => ret tt
  | inl e =>
      if negb (crd_IsAlreadyExist e) then
        throw (ErrWrap e ("unable to create crd " +:+ obj_name crd))
      else
        let! oldCrd := wrap ("unable to get crd " +:+ obj_name crd)
                         (apiGet Crd crd_ns (obj_name crd)) in
        let newCrd := oldCrd <| Crd_Spec := Crd_Spec crd |> in
        wrap ("unable to update crd " +:+ obj_name newCrd) (apiUpdate crd_ns newCrd) ;;! ret tt
  end.

(** The first condition that decides. *)
(*@ pkg/util/k8s/crd.go:81-92 WaitCRDReady (loop) *)
Fixpoint crdEstablished (conds : list CrdCondition) : Res bool :=
  match conds with
  | [] => Ok false
  | cond :: conds =>
      if String.eqb (CrdCondition_Type cond) "Established" then
        if String.eqb (CrdCondition_Status cond) "True" then Ok true else crdEstablished conds
      else if String.eqb (CrdCondition_Type cond) "NamesAccepted" then
        if String.eqb (CrdCondition_Status cond) "False" then
          Err (ErrMsg ("name conflict: " +:+ CrdCondition_Reason cond))
        else crdEstablished conds
      else crdEstablished conds
  end.

(*@ pkg/util/k8s/crd.go:75-99 WaitCRDReady *)
Definition WaitCRDReady (crdName : string) : M W (option unit) :=
  let! r := attempt (Retry (5 * Second) 20 (
    let! crd := apiGet Crd crd_ns crdName in
    lift (crdEstablished (Crd_Conditions crd)))) in
  match r with
  | inl e => throw (ErrMsg ("wait CRD created failed: " +:+ Error e))
  | inr x => ret x
  end.

(*@ pkg/controller/cluster/onecloud_cluster_controller.go:263-269 InitCRDResource *)
Definition InitCRDResource : M W (option unit) :=
  let! r := attempt (CreateOrUpdateCRD OnecloudClusterCRD) in
  match r with
  | inl e => throw (ErrMsg ("failed to create CRD: " +:+ Error e))
  | inr _ => WaitCRDReady OnecloudClusterCRDName
  end.
End crd.
