(* ===== verification/Policies.v ===== *)
(** * Policies: the policies and the roles of the identity service

    [pkg/controller/onecloud_policy.go]: the predefined policies and roles are
    created when they are missing and brought up to date when they differ.
    What they are comes with the identity service ([keystone/locale]).
    Goroutines of an [errgroup] run one at a time, in the order of a list. *)

From Stdlib Require Import Ascii.
From S2P Require Import Prelude K8s Types Constants GoStrings.
From S2P Require Import LastApplied KubeApi Controls Session CloudApi.

Open Scope string_scope.
Open Scope list_scope.
Open Scope go_scope.

(** [locale.SPolicyData], [locale.SRoleDefiniton]: the fields that are read. *)
Record SPolicyData := MkSPolicyData {
  policy_Name : string;
  policy_Scope : string;
  policy_Policy : json
}.
Record SRoleDefiniton := MkSRoleDefiniton {
  role_Name : string;
  role_Policies : list string;
  role_Project : string;
  role_IsPublic : bool
}.

(** [strings.ReplaceAll(s, string(a), "")] *)
Fixpoint without (a : ascii) (s : string) : string :=
  match s with
  | EmptyString => ""
  | String b s => if Ascii.eqb a b then without a s else String b (without a s)
  end.

Section policies.
Context {W : Type} `{!SessionEnv W, !JsonUtils, !CloudApi W}.
Implicit Types (s : ClientSession W).

(** A policy is looked for under its name, then under its name without
    dashes; nothing is found when both are missing. *)
(*@ pkg/controller/onecloud_policy.go:32-36 createOrUpdatePolicy (find) *)
Definition findPolicy s (name : string) : M W (option json) :=
  let! r := attempt (mod_GetByName s Policies name) in
  match r with
  | inr obj => ret (Some obj)
  | inl err =>
      if is404 err then
        let! r := attempt (mod_GetByName s Policies (without "-" name)) in
        match r with
        | inr obj => ret (Some obj)
        | inl err =>
            if is404 err then ret None else throw (ErrWrap err "Policies.GetByName without dash")
        end
      else throw (ErrWrap err "Policies.GetByName")
  end.

(*@ pkg/controller/onecloud_policy.go:60-68 createOrUpdatePolicy (differs) *)
Definition policyDiffers (policy : SPolicyData) (policyJson : json) : bool :=
  let name := getString policyJson "name" in
  let name := if str_empty name then getString policyJson "type" else name in
  match json_Get policyJson ["policy"] with
  | Ok remotePolicy => negb (json_Equals (policy_Policy policy) remotePolicy)
  | _ => true
  end
  || negb (String.eqb (getString policyJson "description") (policy_Name policy))
  || negb (String.eqb name (policy_Name policy))
  || negb (QueryBoolean policyJson "is_system" false).

(*@ pkg/controller/onecloud_policy.go:31-90 createOrUpdatePolicy *)
Definition createOrUpdatePolicy s (policy : SPolicyData) : M W unit :=
  let name := JStr (policy_Name policy) in
  let! found := findPolicy s (policy_Name policy) in
  match found with
  | None =>
      wrap "Policies.Create" (mod_Create s Policies
        [("name", name); ("type", name); ("description", name); ("policy", policy_Policy policy);
         ("scope", JStr (policy_Scope policy)); ("enabled", JBool true);
         ("is_system", JBool true); ("is_public", JBool true)]) ;;!
      ret tt
  | Some policyJson =>
      if policyDiffers policy policyJson then
        wrap "Policies.Update" (mod_Update s Policies (getString policyJson "id")
          [("description", name); ("name", name); ("type", name);
           ("policy", policy_Policy policy); ("scope", JStr (policy_Scope policy));
           ("enabled", JBool true); ("is_system", JBool true)]) ;;!
        ret tt
      else ret tt
  end.

(** The role, created or with its description brought up to date. *)
(*@ pkg/controller/onecloud_policy.go:141-177 createOrUpdateRole (role) *)
Definition ensureRoleJson s (role : SRoleDefiniton) : M W json :=
  let name := JStr (role_Name role) in
  let! r := attempt (mod_GetByName s RolesV3 (role_Name role)) in
  match r with
  | inl err =>
      if is404 err then
        wrap "RolesV3.Create" (mod_Create s RolesV3
          ([("name", name); ("description", name)]
           ++ if role_IsPublic role
              then [("is_public", JBool true); ("public_scope", JStr "system")]
              else [("is_public", JBool false); ("public_scope", JStr "none")]))
      else throw (ErrWrap err "RolesV3.GetByName")
  | inr roleJson =>
      if String.eqb (getString roleJson "description") (role_Name role) then ret roleJson
      else
        wrap "RolesV3.Update"
          (mod_Update s RolesV3 (getString roleJson "id") [("description", name)])
  end.

(*@ pkg/controller/onecloud_policy.go:140-208 createOrUpdateRole *)
Definition createOrUpdateRole s (role : SRoleDefiniton) : M W unit :=
  let! roleJson := ensureRoleJson s role in
  let roleId := getString roleJson "id" in
  for_each (role_Policies role) (λ policy,
    wrap "RolesV3.PerformAction add-policy" (mod_PerformAction s RolesV3 roleId "add-policy"
      ((if str_empty (role_Project role) then [] else [("project_id", JStr (role_Project role))])
       ++ [("policy_id", JStr policy)])) ;;!
    ret tt).
(** ** Policies and roles made public *)

(*@ pkg/controller/onecloud_policy.go:96-109 PoliciesPublic (one) *)
Definition publicOne s (man : Resource) (getting performing pt : string) : M W unit :=
  let! obj := wrap (getting +:+ " " +:+ pt) (mod_Get s man pt) in
  if QueryBoolean obj "is_public" false then ret tt
  else wrap performing (mod_PerformAction s man pt "public" []) ;;! ret tt.

(** All of them run; the first error is what [Wait] returns. *)
Fixpoint publicAll (f : string → M W unit) (pts : list string) (first : option error) : M W unit :=
  match pts with
  | [] => match first with None => ret tt | Some e => throw e end
  | pt :: pts =>
      let! r := attempt (f pt) in
      publicAll f pts (match first, r with None, inl e => Some e | _, _ => first end)
  end.

(*@ pkg/controller/onecloud_policy.go:92-114 PoliciesPublic *)
Definition PoliciesPublic s (types : list string) : M W unit :=
  publicAll (publicOne s Policies "modules.Policies.Get" "Policies.PerformAction") types None.

(*@ pkg/controller/onecloud_policy.go:116-138 RolesPublic *)
Definition RolesPublic s (roles : list string) : M W unit :=
  publicAll (publicOne s RolesV3 "modules.RolesV3.Get" "RolesV3.PerformAction") roles None.
End policies.
