(* ===== verification/CloudFacts.v ===== *)
(** * CloudFacts: what registering with the cloud guarantees

    The functions of CloudApi against services that accept every request
    ([CloudStore]): registering the endpoints of a service brings them to the
    URLs asked for, and enabling and disabling a service reaches all of its
    endpoints; once there, both leave everything alone. *)

From S2P Require Import Prelude K8s Types Constants GoStrings.
From S2P Require Import LastApplied KubeApi Controls Session CloudApi.

Open Scope string_scope.
Open Scope list_scope.
Open Scope go_scope.

(** ** Dictionaries *)

Abbreviation dict := (list (string * json)).

Lemma json_field_set k v (o : dict) : json_field k (set_field k v o) = Some v.
Proof.
  induction o as [|[k' v'] o IH]; simpl; [by rewrite String.eqb_refl|].
  destruct (String.eqb_spec k k') as [->|Hk]; simpl; [by rewrite String.eqb_refl|].
  by apply String.eqb_neq in Hk as ->.
Qed.

Lemma json_field_set_ne k k' v (o : dict) : k ≠ k' → json_field k (set_field k' v o) = json_field k o.
Proof.
  intros Hk. induction o as [|[k1 v1] o IH]; simpl.
  - by apply String.eqb_neq in Hk as ->.
  - destruct (String.eqb_spec k' k1) as [->|Hk']; simpl; [by apply String.eqb_neq in Hk as ->|].
    by rewrite IH.
Qed.

(** What the cloud makes of an object it is asked to change. *)
Definition set_fields (p o : dict) : dict := foldl (λ o '(k, v), set_field k v o) o p.

Lemma json_field_set_fields k p (o : dict) :
  k ∉ map fst p → json_field k (set_fields p o) = json_field k o.
Proof.
  revert o. induction p as [|[k' v] p IH]; intros o Hk; [done|]. simpl in *.
  apply not_elem_of_cons in Hk as [Hk Hp]. unfold set_fields in *; simpl.
  rewrite IH by done. by apply json_field_set_ne.
Qed.

Lemma json_field_set_fields_in k v p (o : dict) :
  NoDup (map fst p) → (k, v) ∈ p → json_field k (set_fields p o) = Some v.
Proof.
  revert o. induction p as [|[k' v'] p IH]; intros o Hnd Hin; [by apply not_elem_of_nil in Hin|].
  simpl in Hnd. apply NoDup_cons in Hnd as [Hni Hnd]. unfold set_fields in *; simpl.
  apply elem_of_cons in Hin as [[= -> ->]|Hin]; [|by apply IH].
  pose proof (json_field_set_fields k' p (set_field k' v' o) Hni) as Hf. unfold set_fields in Hf.
  by rewrite Hf, json_field_set.
Qed.

Definition obj_id (o : dict) : option string :=
  match json_field "id" o with Some (JStr i) => Some i | _ => None end.

(** An object goes by its id and by its name. *)
Definition called (n : string) (o : dict) : bool :=
  bool_decide (obj_id o = Some n) || bool_decide (json_field "name" o = Some (JStr n)).

Definition find_obj (n : string) (l : list dict) : option dict := List.find (called n) l.

Definition named (n : string) (o : dict) : bool := bool_decide (json_field "name" o = Some (JStr n)).
Definition find_named (n : string) (l : list dict) : option dict := List.find (named n) l.

(** The objects a list request asks for; [limit] only bounds the answer. *)
Definition matches (q : dict) (o : dict) : bool :=
  forallb (λ '(k, v), String.eqb k "limit" || bool_decide (json_field k o = Some v)) q.

Lemma matches_spec q o :
  matches q o = true ↔ ∀ k v, (k, v) ∈ q → k ≠ "limit" → json_field k o = Some v.
Proof.
  unfold matches. rewrite forallb_forall. split.
  - intros H k v Hin Hk. apply list_elem_of_In in Hin. specialize (H _ Hin). simpl in H.
    apply orb_true_iff in H as [H%String.eqb_eq|H%bool_decide_eq_true]; done.
  - intros H [k v] Hin%list_elem_of_In. apply orb_true_iff.
    destruct (decide (k = "limit")) as [->|Hk]; [by left|right].
    by apply bool_decide_eq_true, H.
Qed.

Definition patch_objects (id : string) (p : dict) (l : list dict) : list dict :=
  map (λ o, if bool_decide (obj_id o = Some id) then set_fields p o else o) l.

(** Every object has an id of its own. *)
Definition ids_ok (l : list dict) : Prop := Forall (λ o, is_Some (obj_id o)) l ∧ NoDup (map obj_id l).

Lemma ids_ok_same l o o' : ids_ok l → o ∈ l → o' ∈ l → obj_id o = obj_id o' → o = o'.
Proof.
  intros [_ Hnd]. induction l as [|x l IH]; [by intros ?%not_elem_of_nil|]. simpl in Hnd.
  apply NoDup_cons in Hnd as [Hx Hnd].
  intros [->|Ho]%elem_of_cons [->|Ho']%elem_of_cons Hid; [done|..].
  - destruct Hx. rewrite Hid. by apply list_elem_of_fmap_2.
  - destruct Hx. rewrite <- Hid. by apply list_elem_of_fmap_2.
  - by apply IH.
Qed.

Lemma ids_ok_map (f : dict → dict) l :
  (∀ o, obj_id (f o) = obj_id o) → ids_ok l → ids_ok (map f l).
Proof.
  intros Hf [H1 H2]. split.
  - apply Forall_map. eapply Forall_impl; [exact H1|]. intros o Ho. simpl. by rewrite Hf.
  - rewrite map_map. by rewrite (map_ext _ obj_id).
Qed.

Lemma ids_ok_snoc l o : ids_ok l → is_Some (obj_id o) → obj_id o ∉ map obj_id l → ids_ok (l ++ [o]).
Proof.
  intros [H1 H2] Ho Hnew. split; [by apply Forall_app_2; [|by constructor]|].
  rewrite map_app. apply NoDup_app. split_and!; [done| |apply NoDup_singleton].
  intros i Hi ->%list_elem_of_singleton. done.
Qed.

Lemma obj_id_set_fields p o : "id" ∉ map fst p → obj_id (set_fields p o) = obj_id o.
Proof. intros Hp. unfold obj_id. by rewrite json_field_set_fields. Qed.

(** Patching the object of a known id changes that one only. *)
Lemma patch_objects_one l o id p : ids_ok l → o ∈ l → obj_id o = Some id →
  patch_objects id p l = map (λ x, if decide (x = o) then set_fields p x else x) l.
Proof.
  intros Hok Ho Hid. apply map_ext_in. intros x Hx%list_elem_of_In.
  case_bool_decide as E; case_decide as D; [done|destruct D|subst; congruence|done].
  apply (ids_ok_same l); congruence.
Qed.

Lemma find_filter_id n l o : find_obj n l = Some o → o ∈ l ∧ called n o = true.
Proof. intros H. apply List.find_some in H as [H1 H2]. split; [by apply list_elem_of_In|done]. Qed.

Lemma find_snoc {A} (f : A → bool) l o :
  List.find f l = None → f o = true → List.find f (l ++ [o]) = Some o.
Proof. intros Hl Ho. induction l as [|x l IH]; simpl in *; [by rewrite Ho|]. case_match; [done|auto]. Qed.

(** ** Services that accept every request *)
Class CloudStore (W : Type) `{!SessionEnv W, !CloudApi W} := {
  objects : W → Resource → list dict;
  Get_stored s r n w :
    mod_Get s r n w
    = (w, match find_obj n (objects w r) with Some o => Ok (JObj o) | None => Err ErrNotFound end);
  GetByName_stored s r n w :
    mod_GetByName s r n w
    = (w, match find_named n (objects w r) with Some o => Ok (JObj o) | None => Err ErrNotFound end);
  List_stored s r q w : ∃ total,
    mod_List s r q w = (w, Ok (map JObj (List.filter (matches q) (objects w r)), total));
  Create_stored s r p w : json_field "id" p = None → ∃ w' o,
    mod_Create s r p w = (w', Ok (JObj o)) ∧
    (∀ r', objects w' r' = if decide (r' = r) then objects w r ++ [o] else objects w r') ∧
    (∀ k v, json_field k p = Some v → json_field k o = Some v) ∧
    is_Some (obj_id o) ∧ obj_id o ∉ map obj_id (objects w r);
  Update_stored s r id p w o : o ∈ objects w r → obj_id o = Some id → ∃ w' j,
    mod_Update s r id p w = (w', Ok j) ∧
    (∀ r', objects w' r' = if decide (r' = r) then patch_objects id p (objects w r) else objects w r');
  Patch_stored s r id p w o : o ∈ objects w r → obj_id o = Some id → ∃ w' j,
    mod_Patch s r id p w = (w', Ok j) ∧
    (∀ r', objects w' r' = if decide (r' = r) then patch_objects id p (objects w r) else objects w r')
}.

Section facts.
Context {W : Type} `{!SessionEnv W, !JsonUtils, !CloudApi W, !CloudStore W}.
Implicit Types (s : ClientSession W) (w : W).

(** The objects have ids, and a service says whether it is enabled. *)
Definition wf_cloud w : Prop :=
  (∀ r, ids_ok (objects w r)) ∧
  Forall (λ o, ∃ b, json_field "enabled" o = Some (JBool b)) (objects w ServicesV3).

Definition endpoint_query (svcId regionId inf : string) : dict :=
  [("service_id", JStr svcId); ("region_id", JStr regionId); ("interface", JStr inf)].

(** The endpoint of a service in a region for an interface. *)
Definition endpoint_at w (svcId regionId inf : string) : option dict :=
  head (List.filter (matches (endpoint_query svcId regionId inf)) (objects w EndpointsV3)).

Definition endpoint_url w svcId regionId inf : option string :=
  (λ o, getString (JObj o) "url") <$> endpoint_at w svcId regionId inf.

(** *** JSON fields read back *)

Lemma GetString_field o k v : json_field k o = Some (JStr v) → GetString (JObj o) k = Ok v.
Proof. intros Hj. unfold GetString. simpl. rewrite Hj. simpl. apply value_GetString_str. Qed.

Lemma getString_field o k v : json_field k o = Some (JStr v) → getString (JObj o) k = v.
Proof. intros Hj. unfold getString. by rewrite (GetString_field _ _ _ Hj). Qed.

Lemma json_Bool_field o k b : json_field k o = Some (JBool b) → json_Bool (JObj o) k = Ok b.
Proof. intros Hj. unfold json_Bool. simpl. rewrite Hj. simpl. apply value_Bool_bool. Qed.

Lemma getBool_field o k b : json_field k o = Some (JBool b) → getBool (JObj o) k = b.
Proof. intros Hj. unfold getBool. by rewrite (json_Bool_field _ _ _ Hj). Qed.

Lemma GetString_id o i : obj_id o = Some i → GetString (JObj o) "id" = Ok i.
Proof.
  unfold obj_id. intros Hj. apply GetString_field. by repeat case_match; simplify_eq.
Qed.

Lemma getString_id o i : obj_id o = Some i → getString (JObj o) "id" = i.
Proof. intros Hj. unfold getString. by rewrite (GetString_id _ _ Hj). Qed.

Lemma getString_same o o' k : json_field k o = json_field k o' → getString (JObj o) k = getString (JObj o') k.
Proof. intros Hj. unfold getString, GetString. simpl. by rewrite Hj. Qed.

(** *** One endpoint *)

Lemma endpoint_query_inj svc reg inf svc' reg' inf' o :
  matches (endpoint_query svc reg inf) o = true → matches (endpoint_query svc' reg' inf') o = true →
  (svc', reg', inf') = (svc, reg, inf).
Proof.
  rewrite !matches_spec. unfold endpoint_query. intros Hj Hj'.
  assert (∀ k v v', (k, JStr v) ∈ endpoint_query svc reg inf → (k, JStr v') ∈ endpoint_query svc' reg' inf' →
            k ≠ "limit" → v = v') as E.
  { intros k v v' H1 H2 Hk. specialize (Hj _ _ H1 Hk). specialize (Hj' _ _ H2 Hk). congruence. }
  f_equal; [f_equal|].
  - symmetry. apply (E "service_id"); [by left|by left|done].
  - symmetry. apply (E "region_id"); [by right; left|by right; left|done].
  - symmetry. apply (E "interface"); [by do 2 right; left|by do 2 right; left|done].
Qed.

Lemma matches_same q o o' :
  (∀ k v, (k, v) ∈ q → k ≠ "limit" → json_field k o' = json_field k o) → matches q o' = matches q o.
Proof.
  intros Hj. apply eq_true_iff_eq. rewrite !matches_spec.
  split; intros E k v Hin Hk; [rewrite <- Hj with (v:=v) by done|rewrite Hj with (v:=v) by done]; by apply E.
Qed.

Lemma head_filter_map (f : dict → dict) q l :
  (∀ o, matches q (f o) = matches q o) →
  head (List.filter (matches q) (map f l)) = f <$> head (List.filter (matches q) l).
Proof.
  intros Hf. induction l as [|o l IH]; [done|]. simpl. rewrite Hf. by destruct (matches q o).
Qed.

Lemma endpoint_at_in w svc reg inf o :
  endpoint_at w svc reg inf = Some o →
  o ∈ objects w EndpointsV3 ∧ matches (endpoint_query svc reg inf) o = true.
Proof.
  unfold endpoint_at. intros Hj. apply head_Some in Hj as [l' Hl].
  assert (In o (List.filter (matches (endpoint_query svc reg inf)) (objects w EndpointsV3))) as Hin
    by (rewrite Hl; by left).
  apply filter_In in Hin as [H1 H2]. by split; [apply list_elem_of_In|].
Qed.

(** What a step on the endpoints keeps. *)
Definition only_endpoints w w' : Prop :=
  ∀ r, r ≠ EndpointsV3 → objects w' r = objects w r.

Lemma endpoint_fields cert : ∀ k, k ∈ ["id"; "service_id"; "region_id"; "interface"] →
  ∀ url, k ∉ map fst (("url", JStr url) :: service_certificate cert).
Proof.
  intros k Hk url. unfold service_certificate.
  repeat (apply elem_of_cons in Hk as [->|Hk]); try (apply not_elem_of_nil in Hk; done);
    case_match; simpl; rewrite ?not_elem_of_cons; repeat split; try done; by intros ?%not_elem_of_nil.
Qed.

(** A choice of endpoints that leaves out those of a service in a region for
    an interface. *)
Definition leaves_out (svc reg inf : string) (P : dict → bool) : Prop :=
  ∀ o, matches (endpoint_query svc reg inf) o = true → P o = false.

Lemma filter_map_off (P : dict → bool) (f : dict → dict) l :
  (∀ o, o ∈ l → f o = o ∨ (P o = false ∧ P (f o) = false)) → List.filter P (map f l) = List.filter P l.
Proof.
  induction l as [|o l IH]; intros Hf; [done|]. simpl. rewrite IH by (intros x Hx; apply Hf; by right).
  by destruct (Hf o ltac:(by left)) as [-> | [-> ->]].
Qed.

(** The endpoint has the URL, the others are as before. *)
Definition endpoint_set w w' (svc reg inf url : string) : Prop :=
  wf_cloud w' ∧ only_endpoints w w' ∧ endpoint_url w' svc reg inf = Some url ∧
  (∀ svc' reg' inf', (svc', reg', inf') ≠ (svc, reg, inf) →
    endpoint_at w' svc' reg' inf' = endpoint_at w svc' reg' inf') ∧
  ∀ P, leaves_out svc reg inf P →
    List.filter P (objects w' EndpointsV3) = List.filter P (objects w EndpointsV3).

Lemma endpoint_query_In svc reg inf k v : (k, v) ∈ endpoint_query svc reg inf →
  k ∈ ["service_id"; "region_id"; "interface"].
Proof.
  unfold endpoint_query. intros Hk.
  repeat (apply elem_of_cons in Hk as [[= -> ->]|Hk]);
    [by left|by right; left|by do 2 right; left|by apply not_elem_of_nil in Hk].
Qed.

Lemma update_endpoint s svc reg inf url cert w ep epId : wf_cloud w →
  endpoint_at w svc reg inf = Some ep → obj_id ep = Some epId →
  ∃ w' j, mod_Update s EndpointsV3 epId (("url", JStr url) :: service_certificate cert) w = (w', Ok j) ∧
    endpoint_set w w' svc reg inf url.
Proof.
  intros [Hids Hen] Hep Hid. destruct (endpoint_at_in _ _ _ _ _ Hep) as [Hin Hm].
  set (p := ("url", JStr url) :: service_certificate cert).
  destruct (Update_stored s EndpointsV3 epId p w ep Hin Hid) as (w' & j & Hup & Hobj).
  set (f := λ x, if decide (x = ep) then set_fields p x else x).
  assert (objects w' EndpointsV3 = map f (objects w EndpointsV3)) as Hobj'.
  { rewrite Hobj, decide_True by done. by apply patch_objects_one. }
  assert (∀ k o, k ∈ ["id"; "service_id"; "region_id"; "interface"] →
            json_field k (f o) = json_field k o) as Hf.
  { intros k o Hk. unfold f. case_decide; [|done]. apply json_field_set_fields. by apply endpoint_fields. }
  assert (∀ svc reg inf o, matches (endpoint_query svc reg inf) (f o)
            = matches (endpoint_query svc reg inf) o) as Hfm.
  { intros a b c o. apply matches_same. intros k v Hk _. apply Hf. right. by eapply endpoint_query_In. }
  exists w', j. split; [done|]. split_and!; [split|..].
  - intros r. destruct (decide (r = EndpointsV3)) as [->|D]; [|rewrite Hobj, decide_False by done; apply Hids].
    rewrite Hobj'. apply ids_ok_map; [|apply Hids]. intros o. unfold obj_id. rewrite Hf; [done|by left].
  - by rewrite Hobj, decide_False.
  - intros r Hr. by rewrite Hobj, decide_False.
  - unfold endpoint_url, endpoint_at. rewrite Hobj', head_filter_map by apply Hfm.
    unfold endpoint_at in Hep. rewrite Hep. simpl. f_equal. unfold f. rewrite decide_True by done.
    apply getString_field. unfold p, set_fields. simpl. rewrite <- (json_field_set "url" (JStr url) ep).
    apply json_field_set_fields. unfold service_certificate. case_match; simpl.
    + by intros ?%not_elem_of_nil.
    + by intros ?%list_elem_of_singleton.
  - intros a b c Hne. unfold endpoint_at. rewrite Hobj', head_filter_map by apply Hfm.
    destruct (head _) as [o|] eqn:Ho; [|done]. simpl. f_equal. unfold f.
    destruct (decide (o = ep)) as [->|]; [|done]. destruct Hne.
    apply (endpoint_query_inj _ _ _ _ _ _ ep); [done|].
    by destruct (endpoint_at_in w a b c ep Ho).
  - intros P HP. rewrite Hobj'. apply filter_map_off. intros o _. unfold f at 1.
    case_decide as D; [right|by left]. subst o. split; apply HP; [done|by rewrite Hfm].
Qed.

Lemma create_endpoint s svc reg inf url cert enabled w : wf_cloud w →
  endpoint_at w svc reg inf = None →
  ∃ w' j, mod_Create s EndpointsV3
      ((endpoint_query svc reg inf ++ [("enabled", JBool enabled); ("url", JStr url)])
       ++ service_certificate cert) w = (w', Ok j) ∧
    endpoint_set w w' svc reg inf url.
Proof.
  intros [Hids Hen] Hep. set (p := _ ++ service_certificate cert).
  assert (json_field "id" p = None) as Hpid by (subst p; unfold service_certificate; by destruct (str_empty cert)).
  destruct (Create_stored s EndpointsV3 p w Hpid) as (w' & o & Hc & Hobj & Hp & Ho1 & Ho2).
  assert (objects w' EndpointsV3 = objects w EndpointsV3 ++ [o]) as Hobj'
    by (by rewrite Hobj, decide_True).
  assert (matches (endpoint_query svc reg inf) o = true) as Hm.
  { apply matches_spec. intros k v Hk _. apply Hp. unfold endpoint_query in Hk.
    repeat (apply elem_of_cons in Hk as [[= -> ->]|Hk]); [done..|by apply not_elem_of_nil in Hk]. }
  exists w', (JObj o). split; [done|]. split_and!; [split|..].
  - intros r. rewrite Hobj. case_decide; [subst r; by apply ids_ok_snoc|apply Hids].
  - by rewrite Hobj, decide_False.
  - intros r Hr. by rewrite Hobj, decide_False.
  - unfold endpoint_url, endpoint_at. rewrite Hobj', List.filter_app.
    unfold endpoint_at in Hep. apply head_None in Hep. rewrite Hep. cbn [List.filter]. rewrite Hm.
    simpl. f_equal. by apply getString_field, Hp.
  - intros a b c Hne. unfold endpoint_at. rewrite Hobj', List.filter_app.
    cbn [List.filter]. destruct (matches (endpoint_query a b c) o) eqn:Hm'; [|by rewrite app_nil_r].
    destruct Hne. by apply (endpoint_query_inj _ _ _ _ _ _ o).
  - intros P HP. rewrite Hobj', List.filter_app. cbn [List.filter]. by rewrite (HP o Hm), app_nil_r.
Qed.

(** The endpoint is made or changed, and only it; nothing happens when it is
    as asked for. *)
Lemma ensureEndpoint_settles s svc reg inf url cert w : wf_cloud w →
  ∃ w' ep, ensureEndpoint s svc reg inf url cert w = (w', Ok ep) ∧
    endpoint_set w w' svc reg inf url ∧ (endpoint_url w svc reg inf = Some url → w' = w).
Proof.
  intros Hwf. unfold ensureEndpoint, isEndpointExists.
  destruct (List_stored s EndpointsV3 (endpoint_query svc reg inf) w) as [total Hlist].
  rewrite (bind_Ok _ _ _ w (JObj <$> endpoint_at w svc reg inf)).
  2:{ rewrite (bind_Ok _ _ _ _ _ Hlist). unfold ret, endpoint_at. do 2 f_equal.
      by destruct (List.filter _ _). }
  destruct (endpoint_at w svc reg inf) as [ep|] eqn:Hep; simpl.
  - destruct (endpoint_at_in _ _ _ _ _ Hep) as [Hin Hm]. pose proof Hwf as [Hids Hen].
    destruct (Hids EndpointsV3) as [Hall _]. rewrite Forall_forall in Hall.
    destruct (Hall _ Hin) as [epId Hid].
    rewrite (bind_Ok _ _ _ w epId) by (unfold lift; by rewrite (GetString_id _ _ Hid)).
    destruct (String.eqb_spec (getString (JObj ep) "url") url) as [E|E].
    + exists w, (JObj ep). split_and!; [done| |done]. split_and!; try done.
      unfold endpoint_url. rewrite Hep. simpl. by rewrite E.
    + destruct (update_endpoint s svc reg inf url cert w ep epId Hwf Hep Hid) as (w' & j & H1 & H2).
      exists w', j. split_and!; [done|done|]. unfold endpoint_url. rewrite Hep. by intros [= E'].
  - destruct (create_endpoint s svc reg inf url cert
                (negb (String.eqb inf EndpointTypeSlave)) w Hwf Hep) as (w' & j & H1 & H2).
    exists w', j. split_and!; [done|done|]. unfold endpoint_url. by rewrite Hep.
Qed.
(** *** The service and its endpoints *)

Definition service_id w (name : string) : option string :=
  find_obj name (objects w ServicesV3) ≫= obj_id.

Lemma EnsureService_settles s name svcType w : wf_cloud w →
  ∃ w' svc id, EnsureService s name svcType w = (w', Ok (JObj svc)) ∧ wf_cloud w' ∧
    (∀ r, r ≠ ServicesV3 → objects w' r = objects w r) ∧
    find_obj name (objects w' ServicesV3) = Some svc ∧ obj_id svc = Some id ∧
    (is_Some (find_obj name (objects w ServicesV3)) → w' = w) ∧
    (find_obj name (objects w ServicesV3) = None →
     objects w' ServicesV3 = objects w ServicesV3 ++ [svc] ∧
     json_field "name" svc = Some (JStr name) ∧ json_field "type" svc = Some (JStr svcType) ∧
     json_field "enabled" svc = Some (JBool true)).
Proof.
  intros [Hids Hen]. unfold EnsureService, EnsureResource, IsResourceExists.
  destruct (find_obj name (objects w ServicesV3)) as [svc|] eqn:Hf.
  - destruct (find_filter_id _ _ _ Hf) as [Hin _]. destruct (Hids ServicesV3) as [Hall _].
    rewrite Forall_forall in Hall. destruct (Hall _ Hin) as [id Hid]. exists w, svc, id.
    split_and!; try done. apply wrap_Ok. rewrite (bind_Ok _ _ _ w (Some (JObj svc))); [done|].
    rewrite (bind_Ok _ _ _ w (inr (JObj svc))); [done|].
    apply attempt_Ok. by rewrite Get_stored, Hf.
  - set (p := [("type", JStr svcType); ("name", JStr name); ("enabled", JBool true)]).
    destruct (Create_stored s ServicesV3 p w eq_refl) as (w' & o & Hc & Hobj & Hp & [id Hid] & Hnew).
    assert (objects w' ServicesV3 = objects w ServicesV3 ++ [o]) as Hobj'
      by (by rewrite Hobj, decide_True).
    exists w', o, id. split_and!; [| |by intros r Hr; rewrite Hobj, decide_False| |done|by intros []|].
    + apply wrap_Ok. rewrite (bind_Ok _ _ _ w None); [done|].
      rewrite (bind_Ok _ _ _ w (inl ErrNotFound)); [done|].
      apply attempt_Err. by rewrite Get_stored, Hf.
    + split.
      * intros r. rewrite Hobj. case_decide; [subst r; by apply ids_ok_snoc|apply Hids].
      * rewrite Hobj'. apply Forall_app_2; [done|]. constructor; [|done]. exists true. by apply Hp.
    + rewrite Hobj'. apply find_snoc; [done|]. apply orb_true_iff. right.
      apply bool_decide_eq_true, Hp. reflexivity.
    + intros _. split; [done|]. by repeat split; apply Hp.
Qed.

Lemma ensure_all s svc reg cert urls w : wf_cloud w → NoDup (map fst urls) →
  ∃ w', for_each urls (λ '(inf, url), ensureEndpoint s svc reg inf url cert ;;! ret tt) w = (w', Ok tt) ∧
    wf_cloud w' ∧ only_endpoints w w' ∧
    (∀ inf url, (inf, url) ∈ urls → endpoint_url w' svc reg inf = Some url) ∧
    (∀ svc' reg' inf', ¬ (svc' = svc ∧ reg' = reg ∧ inf' ∈ map fst urls) →
       endpoint_at w' svc' reg' inf' = endpoint_at w svc' reg' inf') ∧
    (∀ P, (∀ inf, inf ∈ map fst urls → leaves_out svc reg inf P) →
       List.filter P (objects w' EndpointsV3) = List.filter P (objects w EndpointsV3)) ∧
    ((∀ inf url, (inf, url) ∈ urls → endpoint_url w svc reg inf = Some url) → w' = w).
Proof.
  revert w. induction urls as [|[inf url] urls IH]; intros w Hwf Hnd.
  { exists w. split_and!; [done|done|done| |done|done|done]. by intros ? ? ?%not_elem_of_nil. }
  simpl in Hnd. apply NoDup_cons in Hnd as [Hni Hnd].
  destruct (ensureEndpoint_settles s svc reg inf url cert w Hwf)
    as (w1 & ep & E1 & (Hwf1 & Ho1 & Hurl & Hother & Hf) & Hnop).
  destruct (IH w1 Hwf1 Hnd) as (w2 & E2 & Hwf2 & Ho2 & Hall & Hother2 & Hf2 & Hnop2).
  exists w2. split_and!.
  - simpl. rewrite (bind_Ok _ _ _ w1 tt); [done|]. by rewrite (bind_Ok _ _ _ _ _ E1).
  - done.
  - intros r Hr. by rewrite Ho2, Ho1.
  - intros i u [[= -> ->]|Hin]%elem_of_cons; [|by apply Hall].
    unfold endpoint_url. rewrite Hother2; [done|]. by intros (_ & _ & ?).
  - intros a b c Hn. rewrite Hother2, Hother; [done| |].
    + intros [= -> -> ->]. apply Hn. split_and!; [done..|by left].
    + intros (-> & -> & Hc). apply Hn. split_and!; [done..|by right].
  - intros P HP. rewrite Hf2 by (intros i Hi; apply HP; by right). apply Hf, HP. by left.
  - intros Hok. assert (w1 = w) as -> by (apply Hnop, Hok; by left).
    apply Hnop2. intros i u Hin. apply Hok. by right.
Qed.

(** *** Enabling and disabling *)

(** An endpoint or a service made to say whether it is enabled. *)
Definition switch (want : bool) (o : dict) : dict :=
  if Bool.eqb (getBool (JObj o) "enabled") want then o else set_fields [("enabled", JBool want)] o.

(** What an endpoint should say when its service is [disabled] or not. *)
Definition wanted_enabled (disabled enableRO : bool) (o : dict) : bool :=
  negb disabled && (enableRO || negb (String.eqb (getString (JObj o) "interface") EndpointTypeSlave)).

Definition of_service (id : string) (o : dict) : bool :=
  matches [("service_id", JStr id); ("limit", JInt 0)] o.

Lemma json_field_switch k want o : k ≠ "enabled" → json_field k (switch want o) = json_field k o.
Proof.
  intros Hk. unfold switch. case_match; [done|]. apply json_field_set_fields. by intros ?%list_elem_of_singleton.
Qed.

Lemma switch_enabled want o : getBool (JObj (switch want o)) "enabled" = want.
Proof.
  unfold switch. destruct (Bool.eqb _ _) eqn:E; [by apply Bool.eqb_prop in E|].
  apply getBool_field, json_field_set.
Qed.

Lemma switch_same want o : getBool (JObj o) "enabled" = want → switch want o = o.
Proof. intros <-. unfold switch. by rewrite Bool.eqb_reflx. Qed.

Lemma obj_id_switch want o : obj_id (switch want o) = obj_id o.
Proof. unfold obj_id. by rewrite json_field_switch. Qed.

(** The state after the objects of the kind [r] have gone through [f]. *)
Definition mapped (r : Resource) (f : dict → dict) w w' : Prop :=
  ∀ r', objects w' r' = if decide (r' = r) then map f (objects w r) else objects w r'.

(** A patch that is only sent when needed. *)
Lemma patch_switch s r want o id msg w : ids_ok (objects w r) → o ∈ objects w r → obj_id o = Some id →
  ∃ w', (if Bool.eqb (getBool (JObj o) "enabled") want then ret tt
         else wrap msg (mod_Patch s r id [("enabled", JBool want)] ;;! ret tt)) w = (w', Ok tt) ∧
    mapped r (λ x, if decide (x = o) then switch want x else x) w w' ∧
    (getBool (JObj o) "enabled" = want → w' = w).
Proof.
  intros Hok Hin Hid. destruct (Bool.eqb _ _) eqn:E.
  - exists w. apply Bool.eqb_prop in E. split_and!; [done| |done]. intros r'. case_decide; [|done]. subst.
    rewrite <- (map_id (objects w r)) at 1. apply map_ext. intros x.
    case_decide; [subst; by rewrite switch_same|done].
  - destruct (Patch_stored s r id [("enabled", JBool want)] w o Hin Hid) as (w' & j & Hp & Hobj).
    exists w'. split_and!.
    + apply wrap_Ok. by rewrite (bind_Ok _ _ _ _ _ Hp).
    + intros r'. rewrite Hobj. case_decide; [|done]. rewrite (patch_objects_one _ o) by done.
      apply map_ext. intros x. case_decide; [subst; unfold switch; by rewrite E|done].
    + intros <-. by rewrite Bool.eqb_reflx in E.
Qed.

(** Going through the endpoints, one after the other. *)
Lemma switch_all (want : dict → bool) (step : json → M W unit) :
  (∀ o id w, ids_ok (objects w EndpointsV3) → o ∈ objects w EndpointsV3 → obj_id o = Some id →
     ∃ w', step (JObj o) w = (w', Ok tt) ∧
       mapped EndpointsV3 (λ x, if decide (x = o) then switch (want o) x else x) w w' ∧
       (getBool (JObj o) "enabled" = want o → w' = w)) →
  ∀ l w, ids_ok (objects w EndpointsV3) → l ⊆ objects w EndpointsV3 → NoDup l →
  ∃ w', for_each (map JObj l) step w = (w', Ok tt) ∧
    mapped EndpointsV3 (λ x, if decide (x ∈ l) then switch (want x) x else x) w w' ∧
    (Forall (λ o, getBool (JObj o) "enabled" = want o) l → w' = w).
Proof.
  intros Hstep l. induction l as [|o l IH]; intros w Hok Hsub Hnd.
  { exists w. split_and!; [done| |done]. intros r. case_decide; [|done]. subst.
    rewrite <- (map_id (objects w _)) at 1. apply map_ext. intros x. rewrite decide_False; [done|].
    by intros ?%not_elem_of_nil. }
  apply NoDup_cons in Hnd as [Hno Hnd]. assert (o ∈ objects w EndpointsV3) as Ho by (apply Hsub; by left).
  pose proof Hok as [Hall _]. rewrite Forall_forall in Hall. destruct (Hall _ Ho) as [id Hid].
  destruct (Hstep o id w Hok Ho Hid) as (w1 & E1 & Hm1 & Hn1).
  pose proof (Hm1 EndpointsV3) as HL. rewrite decide_True in HL by done.
  assert (ids_ok (objects w1 EndpointsV3)) as Hok1.
  { rewrite HL. apply ids_ok_map; [|done]. intros x. case_decide; [apply obj_id_switch|done]. }
  destruct (IH w1 Hok1) as (w2 & E2 & Hm2 & Hn2); [|done|].
  { intros x Hx. rewrite HL. apply list_elem_of_fmap. exists x.
    rewrite decide_False by (intros ->; done). split; [done|]. apply Hsub. by right. }
  exists w2. split_and!.
  - simpl. by rewrite (bind_Ok _ _ _ _ _ E1).
  - intros r. rewrite Hm2. case_decide as D; [|rewrite Hm1; by rewrite decide_False].
    rewrite HL, map_map. apply map_ext_in. intros x Hx%list_elem_of_In.
    destruct (decide (x = o)) as [->|Hxo].
    + rewrite (decide_True _ _ (P:=o ∈ o :: l)) by by left. case_decide as D2; [|done].
      assert (switch (want o) o = o) as E; [|by rewrite !E].
      apply (ids_ok_same (objects w EndpointsV3)); [done| |done|apply obj_id_switch].
      apply Hsub. by right.
    + case_decide as D2; case_decide as D3; [done|destruct D3; by right| |done].
      apply elem_of_cons in D3 as [?|?]; done.
  - intros [Hw Hl]%Forall_cons. rewrite Hn2 by done. by apply Hn1.
Qed.

Lemma switchEndpoint_patch s ro o id w : obj_id o = Some id →
  switchEndpoint s ro (JObj o) w
  = (if Bool.eqb (getBool (JObj o) "enabled") (wanted_enabled false ro o) then ret tt
     else wrap (if wanted_enabled false ro o then "EnableEndpoint" else "DisableEndpoint")
            (mod_Patch s EndpointsV3 id [("enabled", JBool (wanted_enabled false ro o))] ;;! ret tt)) w.
Proof.
  intros Hid. unfold switchEndpoint, wanted_enabled, enableEndpoint, disableEndpoint. rewrite (getString_id _ _ Hid).
  by destruct (String.eqb _ _), ro, (getBool _ _).
Qed.

Lemma disable_patch s o id w : obj_id o = Some id →
  (if getBool (JObj o) "enabled"
   then wrap "DisableEndpoint" (disableEndpoint s (getString (JObj o) "id")) else ret tt) w
  = (if Bool.eqb (getBool (JObj o) "enabled") false then ret tt
     else wrap "DisableEndpoint"
            (mod_Patch s EndpointsV3 id [("enabled", JBool false)] ;;! ret tt)) w.
Proof.
  intros Hid. unfold disableEndpoint. rewrite (getString_id _ _ Hid). by destruct (getBool _ _).
Qed.

(** Listing the endpoints of a service. *)
Lemma getEndpointsByService_lists s name svc id w :
  find_obj name (objects w ServicesV3) = Some svc → obj_id svc = Some id →
  getEndpointsByService s name None w
  = (w, Ok (map JObj (List.filter (of_service id) (objects w EndpointsV3)))).
Proof.
  intros Hf Hid. unfold getEndpointsByService.
  rewrite (bind_Ok _ _ _ w (JObj svc)) by (by rewrite Get_stored, Hf).
  rewrite (getString_id _ _ Hid). simpl ([_; _] ++ _).
  destruct (List_stored s EndpointsV3 [("service_id", JStr id); ("limit", JInt 0)] w) as [t Ht].
  by rewrite (bind_Ok _ _ _ _ _ Ht).
Qed.

Lemma IsServiceExists_found s name svc w : find_obj name (objects w ServicesV3) = Some svc →
  wrap "IsServiceExists" (IsServiceExists s name) w = (w, Ok (Some (JObj svc))).
Proof.
  intros Hf. apply wrap_Ok. unfold IsServiceExists, IsResourceExists.
  rewrite (bind_Ok _ _ _ w (inr (JObj svc))); [done|]. apply attempt_Ok. by rewrite Get_stored, Hf.
Qed.

(** Both ways of setting the state of a service are the same loop and the same
    patch at the end. *)
Lemma syncServiceState_runs s name disabled ro svc id w : wf_cloud w →
  find_obj name (objects w ServicesV3) = Some svc → obj_id svc = Some id →
  ∃ w1 w2, syncServiceState name disabled ro s w = (w2, Ok tt) ∧
    mapped EndpointsV3 (λ o, if of_service id o then switch (wanted_enabled disabled ro o) o else o) w w1 ∧
    mapped ServicesV3 (λ x, if decide (x = svc) then switch (negb disabled) x else x) w1 w2 ∧
    (Forall (λ o, of_service id o = true →
       getBool (JObj o) "enabled" = wanted_enabled disabled ro o) (objects w EndpointsV3) →
     getBool (JObj svc) "enabled" = negb disabled → w2 = w).
Proof.
  intros [Hids Hen] Hf Hid. set (l := List.filter (of_service id) (objects w EndpointsV3)).
  set (step := if disabled
               then λ ep, if getBool ep "enabled"
                          then wrap "DisableEndpoint" (disableEndpoint s (getString ep "id")) else ret tt
               else switchEndpoint s ro).
  destruct (switch_all (wanted_enabled disabled ro) step) with (l:=l) (w:=w) as (w1 & E1 & Hm1 & Hn1).
  { intros o i v Hok Ho Hi.
    destruct (patch_switch s EndpointsV3 (wanted_enabled disabled ro o) o i
                (if wanted_enabled disabled ro o then "EnableEndpoint" else "DisableEndpoint") v Hok Ho Hi)
      as (v' & Hv & H1 & H2). exists v'. split_and!; [|done|done]. rewrite <- Hv.
    destruct disabled; [by apply disable_patch|by apply switchEndpoint_patch]. }
  { apply Hids. }
  { intros o Ho. apply list_elem_of_In in Ho. apply filter_In in Ho as [Ho _]. by apply list_elem_of_In. }
  { apply NoDup_ListNoDup, List.NoDup_filter, NoDup_ListNoDup. destruct (Hids EndpointsV3) as [_ Hnd].
    by apply NoDup_fmap_1 in Hnd. }
  assert (objects w1 ServicesV3 = objects w ServicesV3) as Hs by (by rewrite Hm1, decide_False).
  destruct (find_filter_id _ _ _ Hf) as [Hin _]. rewrite <- Hs in Hin.
  destruct (patch_switch s ServicesV3 (negb disabled) svc id
              (if disabled then "patch disable service" else "patch enable service") w1) as (w2 & E2 & Hm2 & Hn2);
    [by rewrite Hs|done|done|].
  exists w1, w2. split_and!; [| |done|].
  - unfold syncServiceState, EnsureDisableService, EnsureEnableService.
    destruct disabled; rewrite (bind_Ok _ _ _ _ _ (IsServiceExists_found s _ _ _ Hf));
      rewrite (bind_Ok _ _ _ _ _ (wrap_Ok _ _ _ _ _ (getEndpointsByService_lists s _ _ _ _ Hf Hid)));
      rewrite (bind_Ok _ _ _ _ _ E1), <- E2, (getString_id _ _ Hid).
    + rewrite Forall_forall in Hen. rewrite Hs in Hin. destruct (Hen _ Hin) as [b Hb].
      rewrite (bind_Ok _ _ _ w1 b) by (by unfold lift, wrap; rewrite (json_Bool_field _ _ _ Hb)).
      rewrite (getBool_field _ _ _ Hb). destruct b; [|done]. simpl.
      unfold wrap, bind. by destruct (mod_Patch _ _ _ _ _) as [? []].
    + destruct (getBool _ _); [done|]. simpl. unfold wrap, bind. by destruct (mod_Patch _ _ _ _ _) as [? []].
  - intros r. rewrite Hm1. case_decide; [|done]. apply map_ext_in. intros o Ho.
    subst l. case_decide as D.
    + apply list_elem_of_In, filter_In in D as [_ ->]. done.
    + destruct (of_service id o) eqn:E; [|done]. destruct D. by apply list_elem_of_In, filter_In.
  - intros Hall Hsvc. rewrite Hn2 by done. apply Hn1. apply Forall_forall. intros o Ho.
    apply list_elem_of_In, filter_In in Ho as [Ho Hs2]. rewrite Forall_forall in Hall.
    apply Hall; [by apply list_elem_of_In|done].
Qed.

Lemma called_switch n want o : called n (switch want o) = called n o.
Proof. unfold called. by rewrite obj_id_switch, json_field_switch. Qed.

Lemma find_map_switch n svc want l : find_obj n l = Some svc →
  find_obj n (map (λ x, if decide (x = svc) then switch want x else x) l) = Some (switch want svc).
Proof.
  unfold find_obj. induction l as [|x l IH]; simpl; [done|].
  destruct (decide (x = svc)) as [->|Hx]; simpl; rewrite ?called_switch; destruct (called n _); auto; congruence.
Qed.

Lemma of_service_switch id want o : of_service id (switch want o) = of_service id o.
Proof.
  apply matches_same. intros k v Hk Hl. apply json_field_switch.
  apply elem_of_cons in Hk as [[= -> ->]|Hk]; [done|]. by apply list_elem_of_singleton in Hk as [= -> ->].
Qed.

Lemma wanted_switch disabled ro want o :
  wanted_enabled disabled ro (switch want o) = wanted_enabled disabled ro o.
Proof.
  unfold wanted_enabled. rewrite (getString_same (switch want o) o); [done|]. by apply json_field_switch.
Qed.

(** Registering the endpoints of a service: it then exists and its endpoint for
    each interface has the URL asked for; no other endpoint has changed, and
    nothing is written when all of it was there. The order in which the map of
    the interfaces is gone through does not matter. *)
(** The service is there, or is added to the others. *)
Definition service_added (name svcType : string) w w' : Prop :=
  match find_obj name (objects w ServicesV3) with
  | Some _ => objects w' ServicesV3 = objects w ServicesV3
  | None => ∃ svc, objects w' ServicesV3 = objects w ServicesV3 ++ [svc] ∧
      json_field "name" svc = Some (JStr name) ∧ json_field "type" svc = Some (JStr svcType) ∧
      json_field "enabled" svc = Some (JBool true)
  end.

Lemma register_settles (s : ClientSession W) region name svcType cert urls w :
  wf_cloud w → NoDup (map fst urls) → ∃ w' id,
    RegisterServiceEndpoints s region name svcType cert urls w = (w', Ok tt) ∧
    service_id w' name = Some id ∧
    (∀ inf url, (inf, url) ∈ urls → endpoint_url w' id region inf = Some url) ∧
    (∀ svc' reg' inf', ¬ (svc' = id ∧ reg' = region ∧ inf' ∈ map fst urls) →
       endpoint_at w' svc' reg' inf' = endpoint_at w svc' reg' inf') ∧
    wf_cloud w' ∧
    (∀ i, service_id w name = Some i → i = id ∧
       ((∀ inf url, (inf, url) ∈ urls → endpoint_url w id region inf = Some url) → w' = w)) ∧
    (∀ P, (∀ inf, inf ∈ map fst urls → leaves_out id region inf P) →
       List.filter P (objects w' EndpointsV3) = List.filter P (objects w EndpointsV3)) ∧
    service_added name svcType w w' ∧
    (∀ r, r ≠ ServicesV3 → r ≠ EndpointsV3 → objects w' r = objects w r).
Proof.
  intros Hwf Hnd.
  destruct (EnsureService_settles s name svcType w Hwf) as (w1 & svc & id & E1 & Hwf1 & Ho1 & Hf & Hid & Hn1 & Hnew).
  destruct (ensure_all s id region cert urls w1 Hwf1 Hnd) as (w2 & E2 & Hwf2 & Ho2 & Hall & Hother & Hfil & Hn2).
  assert (find_obj name (objects w2 ServicesV3) = Some svc) as Hf2 by (by rewrite Ho2).
  exists w2, id. split_and!; [|by unfold service_id; rewrite Hf2|done| |done| | | |].
  - unfold RegisterServiceEndpoints. rewrite (bind_Ok _ _ _ _ _ E1).
    by rewrite (bind_Ok _ _ _ w1 id); [|unfold lift; rewrite (GetString_id _ _ Hid)].
  - intros a b c Hn. rewrite Hother by done. unfold endpoint_at. by rewrite Ho1.
  - intros i Hs. unfold service_id in Hs. destruct (find_obj name (objects w ServicesV3)) as [svc'|] eqn:Hf0;
      [|done].
    assert (w1 = w) as -> by (apply Hn1; by eexists). rewrite Hf in Hf0. simplify_eq/=.
    split; [congruence|apply Hn2].
  - intros P HP. rewrite Hfil by done. by rewrite Ho1.
  - unfold service_added. rewrite Ho2 by done. destruct (find_obj name (objects w ServicesV3)).
    + by rewrite Hn1.
    + exists svc. by apply Hnew.
  - intros r Hr1 Hr2. by rewrite Ho2, Ho1.
Qed.

Lemma mapped_wf r f w w' : (∀ o, obj_id (f o) = obj_id o) →
  (r = ServicesV3 → ∀ o, (∃ b, json_field "enabled" o = Some (JBool b)) →
     ∃ b, json_field "enabled" (f o) = Some (JBool b)) →
  mapped r f w w' → wf_cloud w → wf_cloud w'.
Proof.
  intros Hf Hb Hm [Hids Hen]. split.
  - intros r'. rewrite Hm. case_decide; [subst; apply ids_ok_map; [done|]|]; apply Hids.
  - rewrite Hm. case_decide; [subst|done]. apply Forall_map. eapply Forall_impl; [exact Hen|].
    simpl. by apply Hb.
Qed.

Lemma switch_bool want o : (∃ b, json_field "enabled" o = Some (JBool b)) →
  ∃ b, json_field "enabled" (switch want o) = Some (JBool b).
Proof. intros [b Hb]. unfold switch. case_match; [by exists b|]. exists want. apply json_field_set. Qed.

End facts.

(** C20. Setting the state of a service: its endpoints are enabled (the slave
    ones only when asked for) and so is the service, or all of them are
    disabled; nothing else changes, and doing it again changes nothing. A
    service that does not exist is an error to enable and nothing to
    disable. *)
Theorem syncServiceState_settles {W : Type}
    `{!SessionEnv W, !JsonUtils, !CloudApi W, !CloudStore W}
    (s : ClientSession W) (w : W) (name : string) (disabled ro : bool) :
  wf_cloud w →
  let sync := syncServiceState name disabled ro s in
  match find_obj name (objects w ServicesV3) with
  | None => sync w = (w, if disabled then Ok tt
                         else Err (ErrWrap ErrNotFound ("Service " +:+ name +:+ " not found")))
  | Some svc => ∃ id w', obj_id svc = Some id ∧ sync w = (w', Ok tt) ∧
      objects w' EndpointsV3
      = map (λ o, if of_service id o then switch (wanted_enabled disabled ro o) o else o)
          (objects w EndpointsV3) ∧
      objects w' ServicesV3
      = map (λ x, if decide (x = svc) then switch (negb disabled) x else x) (objects w ServicesV3) ∧
      (∀ r, r ≠ EndpointsV3 → r ≠ ServicesV3 → objects w' r = objects w r) ∧
      wf_cloud w' ∧ sync w' = (w', Ok tt)
  end.
Proof.
  intros Hwf sync. destruct (find_obj name (objects w ServicesV3)) as [svc|] eqn:Hf.
  - destruct (find_filter_id _ _ _ Hf) as [Hin _]. pose proof Hwf as [Hids _].
    destruct (Hids ServicesV3) as [Hall _]. rewrite Forall_forall in Hall. destruct (Hall _ Hin) as [id Hid].
    destruct (syncServiceState_runs s name disabled ro svc id w Hwf Hf Hid) as (w1 & w2 & E & Hm1 & Hm2 & _).
    assert (wf_cloud w1) as Hwf1.
    { refine (mapped_wf _ _ _ _ _ _ Hm1 Hwf); [|done]. intros o.
      destruct (of_service id o); [apply obj_id_switch|done]. }
    assert (wf_cloud w2) as Hwf2.
    { refine (mapped_wf _ _ _ _ _ _ Hm2 Hwf1).
      - intros o. case_decide; [apply obj_id_switch|done].
      - intros _ o Ho. case_decide; [by apply switch_bool|done]. }
    assert (objects w2 EndpointsV3 = map (λ o, if of_service id o
              then switch (wanted_enabled disabled ro o) o else o) (objects w EndpointsV3)) as HE
      by (by rewrite Hm2, decide_False, Hm1, decide_True).
    assert (objects w2 ServicesV3 = map (λ x, if decide (x = svc) then switch (negb disabled) x else x)
              (objects w ServicesV3)) as HS
      by (by rewrite Hm2, decide_True, Hm1, decide_False).
    exists id, w2. split_and!; [done|done|done|done| |done|].
    + intros r H1 H2. rewrite Hm2, decide_False, Hm1, decide_False by done. done.
    + destruct (syncServiceState_runs s name disabled ro (switch (negb disabled) svc) id w2 Hwf2)
        as (w3 & w4 & E' & _ & _ & Hnop).
      * rewrite HS. by apply find_map_switch.
      * by rewrite obj_id_switch.
      * unfold sync. rewrite E'. f_equal. apply Hnop; [|apply switch_enabled]. rewrite HE. apply Forall_map, Forall_forall.
        intros o _ Ho. simpl in *. destruct (of_service id o) eqn:Eo; [|congruence].
        by rewrite switch_enabled, wanted_switch.
  - unfold sync, syncServiceState, EnsureDisableService, EnsureEnableService, IsServiceExists, IsResourceExists.
    assert (wrap "IsServiceExists" (let! r := attempt (mod_Get s ServicesV3 name) in
              match r with inr obj => ret (Some obj)
              | inl err => if IsNotFoundError err then ret None else throw err end) w = (w, Ok None)) as E.
    { apply wrap_Ok. rewrite (bind_Ok _ _ _ w (inl ErrNotFound)); [done|].
      apply attempt_Err. by rewrite Get_stored, Hf. }
    destruct disabled; by rewrite (bind_Ok _ _ _ _ _ E).
Qed.
