(* ===== verification/PolicyFacts.v ===== *)
(** * PolicyFacts: the predefined policies settle *)

From Stdlib Require Import Ascii.
From S2P Require Import Prelude K8s Types Constants GoStrings.
From S2P Require Import LastApplied KubeApi Controls Session CloudApi Policies CloudFacts.

Open Scope string_scope.
Open Scope list_scope.
Open Scope go_scope.

Section facts.
Context {W : Type} `{!SessionEnv W, !JsonUtils, !CloudApi W, !CloudStore W}.
Implicit Types (s : ClientSession W) (w : W).

(** The stored policy is what the operator wants: its content, its
    description and its name, and it is marked as one of the system. *)
Definition policy_in_sync (p : SPolicyData) (o : dict) : Prop :=
  (∃ v, json_field "policy" o = Some v ∧ json_Equals (policy_Policy p) v = true) ∧
  getString (JObj o) "description" = policy_Name p ∧
  json_field "name" o = Some (JStr (policy_Name p)) ∧
  (∃ v, json_field "is_system" o = Some v ∧ value_ToBool v = true).

Lemma wanted_policy_in_sync p o :
  json_field "policy" o = Some (policy_Policy p) →
  json_field "description" o = Some (JStr (policy_Name p)) →
  json_field "name" o = Some (JStr (policy_Name p)) →
  json_field "is_system" o = Some (JBool true) → policy_in_sync p o.
Proof.
  intros H1 H2 H3 H4. split_and!; [|by apply getString_field|done|].
  - eexists. split; [done|]. apply json_Equals_refl.
  - eexists. split; [done|]. apply value_ToBool_bool.
Qed.

(** The comparison the operator makes finds just that, for a policy stored
    under its name. *)
Lemma policyDiffers_spec p o :
  policy_Name p ≠ "" → json_field "name" o = Some (JStr (policy_Name p)) →
  policyDiffers p (JObj o) = false ↔ policy_in_sync p o.
Proof.
  intros Hne Hn. unfold policyDiffers, policy_in_sync, QueryBoolean.
  rewrite (getString_field _ _ _ Hn). apply str_empty_false in Hne. rewrite Hne, String.eqb_refl. simpl.
  rewrite !orb_false_iff, !negb_false_iff, String.eqb_eq.
  split.
  - intros [[[H1 H2] _] H3]. split_and!; [|done|done|].
    + destruct (json_field "policy" o) as [v|]; [|done]. exists v. by apply negb_false_iff in H1.
    + destruct (json_field "is_system" o) as [v|]; [|done]. by exists v.
  - intros ((v & -> & H1) & H2 & _ & (u & -> & H3)). by rewrite H1.
Qed.

(** Looking a policy up changes nothing. *)
Lemma findPolicy_finds s n w :
  findPolicy s n w = (w, Ok (JObj <$> match find_named n (objects w Policies) with
                                      | Some o => Some o
                                      | None => find_named (without "-" n) (objects w Policies)
                                      end)).
Proof.
  unfold findPolicy. destruct (find_named n (objects w Policies)) as [o|] eqn:E1.
  { rewrite (bind_Ok _ _ _ w (inr (JObj o))); [done|]. apply attempt_Ok. by rewrite GetByName_stored, E1. }
  rewrite (bind_Ok _ _ _ w (inl ErrNotFound)); [|apply attempt_Err; by rewrite GetByName_stored, E1].
  simpl. destruct (find_named (without "-" n) (objects w Policies)) as [o|] eqn:E2.
  { rewrite (bind_Ok _ _ _ w (inr (JObj o))); [done|]. apply attempt_Ok. by rewrite GetByName_stored, E2. }
  rewrite (bind_Ok _ _ _ w (inl ErrNotFound)); [done|apply attempt_Err; by rewrite GetByName_stored, E2].
Qed.

Lemma find_named_in n l o : find_named n l = Some o → o ∈ l ∧ json_field "name" o = Some (JStr n).
Proof.
  intros Hf. apply List.find_some in Hf as [H1 H2]. split; [by apply list_elem_of_In|].
  by apply bool_decide_eq_true in H2.
Qed.

(** Patching one object so that it has the name: it is then the first with
    that name, when it was before or no object was. *)
Lemma find_named_patched n l o p : ids_ok l → o ∈ l → "id" ∉ map fst p → NoDup (map fst p) →
  ("name", JStr n) ∈ p → find_named n l = Some o ∨ find_named n l = None →
  find_named n (map (λ x, if decide (x = o) then set_fields p x else x) l) = Some (set_fields p o).
Proof.
  intros Hok Ho Hid Hnd Hn Hf.
  assert (named n (set_fields p o) = true) as Hnp.
  { apply bool_decide_eq_true. by apply json_field_set_fields_in. }
  unfold find_named in *. clear Hok Hid Hnd Hn. induction l as [|x l IH]; [by apply not_elem_of_nil in Ho|].
  simpl in *. case_decide as D; [subst; by rewrite Hnp|].
  apply elem_of_cons in Ho as [->|Ho]; [done|].
  destruct (named n x) eqn:Hx; [destruct Hf as [[= ->]|?]; done|]. by apply IH.
Qed.

Lemma createOrUpdatePolicy_stable s p o w :
  policy_Name p ≠ "" →
  find_named (policy_Name p) (objects w Policies) = Some o → policy_in_sync p o →
  createOrUpdatePolicy s p w = (w, Ok tt).
Proof.
  intros Hne Hf Hp. unfold createOrUpdatePolicy. rewrite (bind_Ok _ _ _ _ _ (findPolicy_finds s _ w)), Hf.
  simpl. apply policyDiffers_spec in Hp; [|done|by destruct (find_named_in _ _ _ Hf)]. by rewrite Hp.
Qed.

(** The fields an update and a creation send. *)
Definition policy_update (p : SPolicyData) : dict :=
  let name := JStr (policy_Name p) in
  [("description", name); ("name", name); ("type", name); ("policy", policy_Policy p);
   ("scope", JStr (policy_Scope p)); ("enabled", JBool true); ("is_system", JBool true)].

Lemma policy_update_keys p : NoDup (map fst (policy_update p)) ∧ "id" ∉ map fst (policy_update p).
Proof.
  split; [apply (bool_decide_unpack _); vm_compute; exact I|].
  intros Hi. by repeat (apply elem_of_cons in Hi as [?|Hi]; [done|]); apply not_elem_of_nil in Hi.
Qed.

Lemma updated_in_sync p o : policy_in_sync p (set_fields (policy_update p) o).
Proof.
  destruct (policy_update_keys p) as [Hnd _].
  apply wanted_policy_in_sync; apply json_field_set_fields_in; try done; unfold policy_update; set_solver.
Qed.

(** What an update of the policy that was found leaves. *)
Lemma update_policy s p old w : ids_ok (objects w Policies) → old ∈ objects w Policies →
  find_named (policy_Name p) (objects w Policies) = Some old ∨
  find_named (policy_Name p) (objects w Policies) = None →
  ∃ w' j, mod_Update s Policies (getString (JObj old) "id") (policy_update p) w = (w', Ok j) ∧
    let o := set_fields (policy_update p) old in
    find_named (policy_Name p) (objects w' Policies) = Some o ∧
    ids_ok (objects w' Policies) ∧ (∀ r, r ≠ Policies → objects w' r = objects w r) ∧
    objects w' Policies = map (λ x, if decide (x = old) then o else x) (objects w Policies).
Proof.
  intros Hok Hin Hf. destruct (policy_update_keys p) as [Hnd Hnid].
  destruct Hok as [Hall Hids]. rewrite Forall_forall in Hall. destruct (Hall _ Hin) as [id Hid].
  destruct (Update_stored s Policies id (policy_update p) w old Hin Hid) as (w' & j & E & Ho).
  exists w', j. rewrite (getString_id _ _ Hid), E. split; [done|].
  assert (ids_ok (objects w Policies)) as Hok by (split; [by apply Forall_forall|done]).
  assert (objects w' Policies = map (λ x, if decide (x = old) then set_fields (policy_update p) old else x)
            (objects w Policies)) as Hw'.
  { rewrite Ho, decide_True by done. rewrite (patch_objects_one _ old) by done.
    apply map_ext. intros x. case_decide; congruence. }
  split_and!; [| |intros r Hr; by rewrite Ho, decide_False|done].
  - rewrite Ho, decide_True by done. rewrite (patch_objects_one _ old) by done.
    apply find_named_patched; [done..| |done]. unfold policy_update. set_solver.
  - rewrite Hw'. apply ids_ok_map; [|done]. intros x. case_decide; [|done]. subst.
    by apply obj_id_set_fields.
Qed.

(** The fields a creation sends. *)
Definition policy_create (p : SPolicyData) : dict :=
  let name := JStr (policy_Name p) in
  [("name", name); ("type", name); ("description", name); ("policy", policy_Policy p);
   ("scope", JStr (policy_Scope p)); ("enabled", JBool true); ("is_system", JBool true);
   ("is_public", JBool true)].

Lemma create_policy s p w : ids_ok (objects w Policies) →
  find_named (policy_Name p) (objects w Policies) = None →
  ∃ w' o, mod_Create s Policies (policy_create p) w = (w', Ok (JObj o)) ∧
    find_named (policy_Name p) (objects w' Policies) = Some o ∧ policy_in_sync p o ∧
    ids_ok (objects w' Policies) ∧ (∀ r, r ≠ Policies → objects w' r = objects w r) ∧
    objects w' Policies = objects w Policies ++ [o] ∧
    (∀ k v, (k, v) ∈ policy_create p → json_field k o = Some v).
Proof.
  intros Hok Hf. destruct (Create_stored s Policies (policy_create p) w eq_refl)
    as (w' & o & E & Ho & Hfields & Hid & Hnew).
  assert (objects w' Policies = objects w Policies ++ [o]) as Hw' by (by rewrite Ho, decide_True).
  exists w', o. rewrite Hw'. split_and!; [done| | |by apply ids_ok_snoc| |done|].
  - apply find_snoc; [done|]. by apply bool_decide_eq_true, Hfields.
  - apply wanted_policy_in_sync; by apply Hfields.
  - intros r Hr. by rewrite Ho, decide_False.
  - intros k v Hin. apply Hfields. unfold policy_create in *.
    by repeat (apply elem_of_cons in Hin as [[= -> ->]|Hin]; [reflexivity|]); apply not_elem_of_nil in Hin.
Qed.

(** A policy that has the name without dashes only differs. *)
Lemma undashed_differs p o : json_field "name" o = Some (JStr (without "-" (policy_Name p))) →
  without "-" (policy_Name p) ≠ policy_Name p → without "-" (policy_Name p) ≠ "" →
  policyDiffers p (JObj o) = true.
Proof.
  intros Hn Hne Hne'. unfold policyDiffers. rewrite (getString_field _ _ _ Hn).
  apply str_empty_false in Hne'. rewrite Hne'. apply String.eqb_neq in Hne. rewrite Hne.
  by rewrite ?orb_true_r.
Qed.

(** The policy the operator takes for [p]: the one of its name, else the one of
    its name without dashes. *)
Definition stored_policy (p : SPolicyData) w : option dict :=
  match find_named (policy_Name p) (objects w Policies) with
  | Some o => Some o
  | None => find_named (without "-" (policy_Name p)) (objects w Policies)
  end.

(** What ensuring the policy [p] leaves: [o] is the policy then. A stored policy
    is kept when it was in sync and overwritten, name included, when it was
    not; only without one is there a new policy. *)
Definition policy_settled p w w' (o : dict) : Prop :=
  find_named (policy_Name p) (objects w' Policies) = Some o ∧ policy_in_sync p o ∧
  ids_ok (objects w' Policies) ∧
  (∀ r, r ≠ Policies → objects w' r = objects w r) ∧
  match stored_policy p w with
  | Some old =>
      (policy_in_sync p old ∧ w' = w ∧ o = old) ∨
      (¬ policy_in_sync p old ∧ o = set_fields (policy_update p) old ∧
       objects w' Policies = map (λ x, if decide (x = old) then o else x) (objects w Policies))
  | None =>
      objects w' Policies = objects w Policies ++ [o] ∧
      ∀ k v, (k, v) ∈ policy_create p → json_field k o = Some v
  end.

Lemma found_settles s p old w : ids_ok (objects w Policies) → old ∈ objects w Policies →
  find_named (policy_Name p) (objects w Policies) = Some old ∨
  find_named (policy_Name p) (objects w Policies) = None →
  policyDiffers p (JObj old) = true → ¬ policy_in_sync p old → stored_policy p w = Some old →
  findPolicy s (policy_Name p) w = (w, Ok (Some (JObj old))) →
  ∃ w' o, createOrUpdatePolicy s p w = (w', Ok tt) ∧ policy_settled p w w' o.
Proof.
  intros Hok Hin Hf Hd Hns Hst Hfind.
  destruct (update_policy s p old w Hok Hin Hf) as (w' & j & E & H1 & H2 & H3 & H4).
  exists w', (set_fields (policy_update p) old). split.
  - unfold createOrUpdatePolicy. rewrite (bind_Ok _ _ _ _ _ Hfind). cbv beta iota zeta. rewrite Hd.
    fold (policy_update p). by rewrite (bind_Ok _ _ _ _ _ (wrap_Ok _ _ _ _ _ E)).
  - split_and!; [done|apply updated_in_sync|done|done|]. rewrite Hst. by right.
Qed.

Lemma missing_settles s p w : ids_ok (objects w Policies) →
  find_named (policy_Name p) (objects w Policies) = None → stored_policy p w = None →
  findPolicy s (policy_Name p) w = (w, Ok None) →
  ∃ w' o, createOrUpdatePolicy s p w = (w', Ok tt) ∧ policy_settled p w w' o.
Proof.
  intros Hok Hf Hst Hfind.
  destruct (create_policy s p w Hok Hf) as (w' & o & E & H1 & H2 & H3 & H4 & H5 & H6).
  exists w', o. split; [|split_and!; auto; by rewrite Hst].
  unfold createOrUpdatePolicy. rewrite (bind_Ok _ _ _ _ _ Hfind). cbv beta iota zeta.
  fold (policy_create p). by rewrite (bind_Ok _ _ _ _ _ (wrap_Ok _ _ _ _ _ E)).
Qed.
End facts.

(** C21. Ensuring a predefined policy succeeds and settles: afterwards the
    policy of that name has the wanted content and description and is marked as
    one of the system. The policy stored under the name or, when there is none,
    under the name without dashes, is left alone when it was so already, and
    has otherwise exactly the wanted fields overwritten, its name among them; a
    policy is created only when neither is stored. Nothing else has changed,
    and ensuring it again writes nothing. *)
Theorem createOrUpdatePolicy_settles {W : Type}
    `{!SessionEnv W, !JsonUtils, !CloudApi W, !CloudStore W}
    (s : ClientSession W) (p : SPolicyData) (w : W) :
  ids_ok (objects w Policies) → without "-" (policy_Name p) ≠ "" →
  ∃ w' o, createOrUpdatePolicy s p w = (w', Ok tt) ∧ policy_settled p w w' o ∧
    createOrUpdatePolicy s p w' = (w', Ok tt).
Proof.
  intros Hok Hne. pose proof (findPolicy_finds s (policy_Name p) w) as Hfind.
  assert (policy_Name p ≠ "") as Hname by (by intros Hx; rewrite Hx in Hne).
  assert (∀ w' o, createOrUpdatePolicy s p w = (w', Ok tt) ∧ policy_settled p w w' o →
    ∃ w' o, createOrUpdatePolicy s p w = (w', Ok tt) ∧ policy_settled p w w' o ∧
      createOrUpdatePolicy s p w' = (w', Ok tt)) as Hend.
  { intros w' o [E Hs]. exists w', o. split_and!; [done|done|]. destruct Hs as (H1 & H2 & _).
    by eapply createOrUpdatePolicy_stable. }
  destruct (find_named (policy_Name p) (objects w Policies)) as [old|] eqn:Hf.
  - destruct (find_named_in _ _ _ Hf) as [Hin Hn].
    assert (stored_policy p w = Some old) as Hst by (unfold stored_policy; by rewrite Hf).
    pose proof (policyDiffers_spec p old Hname Hn) as Hspec.
    destruct (policyDiffers p (JObj old)) eqn:Hd.
    + destruct (found_settles s p old w) as (w' & o & ?); eauto. by intros ?%Hspec.
    + assert (policy_in_sync p old) as Hp by by apply Hspec.
      apply (Hend w old). split; [by eapply createOrUpdatePolicy_stable|].
      split_and!; [done..|]. rewrite Hst. by left.
  - destruct (find_named (without "-" (policy_Name p)) (objects w Policies)) as [old|] eqn:Hf'.
    + destruct (find_named_in _ _ _ Hf') as [Hin Hn].
      assert (without "-" (policy_Name p) ≠ policy_Name p) as Hw by congruence.
      destruct (found_settles s p old w) as (w' & o & ?); eauto using undashed_differs.
      * intros (_ & _ & Hn' & _). congruence.
      * unfold stored_policy. by rewrite Hf.
    + destruct (missing_settles s p w) as (w' & o & ?); eauto. unfold stored_policy. by rewrite Hf.
Qed.
