(* ===== verification/GoNet.v ===== *)
(** * GoNet: IP addresses

    [net.ParseIP] of the standard library: a textual IPv4 or IPv6 address as
    its sixteen bytes, and [To4]. *)

From Stdlib Require Import Ascii.
From S2P Require Import Prelude GoStrings.

Open Scope string_scope.
Open Scope list_scope.

Definition digit_value (a : ascii) : option Z :=
  if is_digit a then Some (Z.of_N (N_of_ascii a) - 48)%Z else None.

Definition hex_value (a : ascii) : option Z :=
  if is_digit a then Some (Z.of_N (N_of_ascii a) - 48)%Z
  else if in_range "a" "f" a then Some (Z.of_N (N_of_ascii a) - 87)%Z
  else if in_range "A" "F" a then Some (Z.of_N (N_of_ascii a) - 55)%Z
  else None.

Definition is_hex (a : ascii) : bool := bool_decide (is_Some (hex_value a)).

Fixpoint digits (base : Z) (value : ascii → option Z) (acc : Z) (s : string) : option Z :=
  match s with
  | EmptyString => Some acc
  | String a s => match value a with
                  | Some d => digits base value (acc * base + d) s
                  | None => None
                  end
  end.

(** A field of an IPv4 address: at most 255, without leading zeros. *)
Definition octet (s : string) : option Z :=
  if str_empty s || ((1 <? String.length s)%nat && has_prefix "0" s) then None
  else match digits 10 digit_value 0 s with
       | Some n => if (n <=? 255)%Z then Some n else None
       | None => None
       end.

(** [parseIPv4Fields] *)
Definition parseIPv4Fields (s : string) : option (list Z) :=
  let fields := split_on "." s in
  if (length fields =? 4)%nat then mapM octet fields else None.

(** The fields of an IPv6 address from the byte [i] on: the bytes read so far,
    in order, with the place of the ellipsis among them. Every turn reads two
    bytes of the address: eight are enough. *)
Fixpoint parseIPv6Groups (fuel : nat) (s : string) (ellipsis : option nat) (bytes : list Z)
  : option (option nat * list Z) :=
  match fuel with
  | O => if str_empty s then Some (ellipsis, bytes) else None
  | S fuel =>
      let '(group, rest) := span is_hex s in
      if str_empty group || (4 <? String.length group)%nat then None
      else
        match digits 16 hex_value 0 group, rest with
        | None, _ => None
        | Some _, String "."%char _ =>
            if match ellipsis with None => negb (length bytes =? 12)%nat | Some _ => false end
               || (16 <? length bytes + 4)%nat then None
            else match parseIPv4Fields s with
                 | Some v4 => Some (ellipsis, bytes ++ v4)
                 | None => None
                 end
        | Some n, EmptyString => Some (ellipsis, bytes ++ [n / 256; n mod 256]%Z)
        | Some n, String ":"%char rest =>
            let bytes := bytes ++ [n / 256; n mod 256]%Z in
            match rest with
            | EmptyString => None
            | String ":"%char rest' =>
                match ellipsis with
                | Some _ => None
                | None => if str_empty rest' then Some (Some (length bytes), bytes)
                          else parseIPv6Groups fuel rest' (Some (length bytes)) bytes
                end
            | _ => parseIPv6Groups fuel rest ellipsis bytes
            end
        | Some _, String _ _ => None
        end
  end.

(** [parseIPv6], without a zone *)
Definition parseIPv6 (s : string) : option (list Z) :=
  let parsed :=
    if has_prefix "::" s then
      if String.eqb s "::" then Some (Some 0, [])
      else parseIPv6Groups 8 (drop_str 2 s) (Some 0) []
    else parseIPv6Groups 8 s None [] in
  match parsed with
  | None => None
  | Some (None, bytes) => if (length bytes =? 16)%nat then Some bytes else None
  | Some (Some e, bytes) =>
      if (length bytes <? 16)%nat
      then Some (take e bytes ++ replicate (16 - length bytes) 0%Z ++ drop e bytes)
      else None
  end.

(** [net.ParseIP]; the first of the characters [.], [:] and [%] says which
    kind of address it is. *)
Definition ParseIP (s : string) : option (list Z) :=
  match (span (λ a, negb (Ascii.eqb a "." || Ascii.eqb a ":" || Ascii.eqb a "%")) s).2 with
  | String "."%char _ =>
      option_map (λ v4, replicate 10 0%Z ++ [255; 255]%Z ++ v4) (parseIPv4Fields s)
  | String ":"%char _ => parseIPv6 s
  | _ => None
  end.

(** [ip.To4() != nil] *)
Definition isIPv4 (ip : list Z) : bool :=
  bool_decide (take 12 ip = replicate 10 0%Z ++ [255; 255]%Z).

Example ParseIP_v4 : ParseIP "10.96.0.7" = Some (replicate 10 0 ++ [255; 255; 10; 96; 0; 7])%Z.
Proof. reflexivity. Qed.
Example ParseIP_v6 : ParseIP "fd00::a:1" = Some ([253; 0] ++ replicate 10 0 ++ [0; 10; 0; 1])%Z.
Proof. reflexivity. Qed.
Example ParseIP_mapped : option_map isIPv4 (ParseIP "::ffff:10.0.0.1") = Some true.
Proof. reflexivity. Qed.
Example ParseIP_bad :
  map ParseIP ["mysql"; "1.2.3"; "1.2.3.04"; "1::2::3"; "1:2:3:4:5:6:7"; "1:2:3:4:5:6:7:8:9"; "fe80::1%eth0";
               "1:2:3:4:5:6:7::8"; "::"; "1:"]
  = [None; None; None; None; None; None; None; None; Some (replicate 16 0%Z); None].
Proof. reflexivity. Qed.
