(* ===== verification/Sha256.v ===== *)
(** * Sha256: the digest of [crypto/sha256]

    [sha256.Sum256] of the standard library (FIPS 180-4) on strings of bytes,
    and its hexadecimal form; words are integers modulo [2^32]. *)

From Stdlib Require Import Ascii.
From S2P Require Import Prelude GoStrings.

Open Scope string_scope.
Open Scope list_scope.
Open Scope Z_scope.

Definition word32 (z : Z) : Z := z mod 2 ^ 32.
Definition add32 (l : list Z) : Z := word32 (foldr Z.add 0 l).
Definition rotr (x n : Z) : Z := Z.lor (Z.shiftr x n) (word32 (Z.shiftl x (32 - n))).
Definition xor3 (x y z : Z) : Z := Z.lxor (Z.lxor x y) z.

Definition sha_Ch (x y z : Z) : Z := Z.lxor (Z.land x y) (Z.land (word32 (Z.lnot x)) z).
Definition sha_Maj (x y z : Z) : Z := xor3 (Z.land x y) (Z.land x z) (Z.land y z).
Definition Sigma0 (x : Z) : Z := xor3 (rotr x 2) (rotr x 13) (rotr x 22).
Definition Sigma1 (x : Z) : Z := xor3 (rotr x 6) (rotr x 11) (rotr x 25).
Definition sigma0 (x : Z) : Z := xor3 (rotr x 7) (rotr x 18) (Z.shiftr x 3).
Definition sigma1 (x : Z) : Z := xor3 (rotr x 17) (rotr x 19) (Z.shiftr x 10).

(** The constants are the first 32 bits of the fractional parts of the cube
    roots of the first 64 primes, and of the square roots of the first 8. *)
Definition is_prime (n : Z) : bool :=
  forallb (λ d, negb (n mod d =? 0)) (map Z.of_nat (seq 2 (Z.to_nat (Z.sqrt n) - 1))).
Definition primes_below (n : nat) : list Z :=
  List.filter is_prime (map Z.of_nat (seq 2 (n - 2))).

(** The cube root rounded down, bit by bit from the [n]th. *)
Fixpoint cube_root (n : nat) (x r : Z) : Z :=
  let r' := r + 2 ^ Z.of_nat n in
  let r := if r' ^ 3 <=? x then r' else r in
  match n with O => r | S n => cube_root n x r end.

Definition sha_K : list Z :=
  Eval vm_compute in map (λ p, word32 (cube_root 35 (p * 2 ^ 96) 0)) (primes_below 312).
Definition sha_init : list Z :=
  Eval vm_compute in map (λ p, word32 (Z.sqrt (p * 2 ^ 64))) (primes_below 20).

(** Big-endian words. *)
Fixpoint words_of (l : list Z) : list Z :=
  match l with
  | a :: b :: c :: d :: l => (((a * 256 + b) * 256 + c) * 256 + d) :: words_of l
  | _ => []
  end.

Definition bytes_of_string (s : string) : list Z :=
  map (λ a, Z.of_N (N_of_ascii a)) (String.list_ascii_of_string s).

Definition be_bytes (n : nat) (z : Z) : list Z :=
  map (λ i, Z.shiftr z (8 * Z.of_nat i) mod 256) (rev (seq 0 n)).

Definition sha_pad (msg : list Z) : list Z :=
  let len := Z.of_nat (length msg) in
  msg ++ [128] ++ replicate (Z.to_nat ((55 - len) mod 64)) 0 ++ be_bytes 8 (8 * len).

(** The message schedule, newest word first. *)
Fixpoint schedule (n : nat) (w : list Z) : list Z :=
  match n with
  | O => w
  | S n =>
      schedule n (add32 [sigma1 (nth 1 w 0); nth 6 w 0; sigma0 (nth 14 w 0); nth 15 w 0] :: w)
  end.

Definition sha_round (h : list Z) (kw : Z * Z) : list Z :=
  match h with
  | [a; b; c; d; e; f; g; h] =>
      let t1 := add32 [h; Sigma1 e; sha_Ch e f g; kw.1; kw.2] in
      let t2 := add32 [Sigma0 a; sha_Maj a b c] in
      [add32 [t1; t2]; a; b; c; add32 [d; t1]; e; f; g]
  | _ => h
  end.

Definition sha_block (h block : list Z) : list Z :=
  let w := rev (schedule 48 (rev (words_of block))) in
  zip_with (λ x y, add32 [x; y]) h (foldl sha_round h (zip sha_K w)).

Fixpoint sha_blocks (n : nat) (h msg : list Z) : list Z :=
  match n with
  | O => h
  | S n => sha_blocks n (sha_block h (take 64 msg)) (drop 64 msg)
  end.

(** [sha256.Sum256] *)
Definition Sum256 (s : string) : list Z :=
  let msg := sha_pad (bytes_of_string s) in
  flat_map (be_bytes 4) (sha_blocks (length msg / 64)%nat sha_init msg).

Definition hex_digit (n : Z) : ascii :=
  ascii_of_N (Z.to_N (if n <? 10 then n + 48 else n + 87)).

(** [fmt.Sprintf("%x", sum)] *)
Definition hex_string (l : list Z) : string :=
  foldr (λ b s, String (hex_digit (b / 16)) (String (hex_digit (b mod 16)) s)) ""%string l.

Example sha256_abc : hex_string (Sum256 "abc")
  = "ba7816bf8f01cfea414140de5dae2223b00361a396177a9cb410ff61f20015ad"%string.
Proof. vm_compute. reflexivity. Qed.
Example sha256_two_blocks : hex_string (Sum256 "abcdbcdecdefdefgefghfghighijhijkijkljklmklmnlmnomnopnopq")
  = "248d6a61d20638b8e5c026930c3e6039a33ce45964ff2167f6ecedd419db06c1"%string.
Proof. vm_compute. reflexivity. Qed.
