(* ===== verification/Sync.v ===== *)
(** * Sync: bringing the objects of a component to what its manager wants

    [pkg/manager/component/sync.go], the first part of [component.go] and the
    rollout test of [utils.go]. A component manager is a
    [cloudComponentFactory], the record of the methods of the Go interface:
    it says which objects the component should have, and [syncComponent]
    creates, updates and deletes them. The methods run on the cluster they
    are passed, which they may change, and on the world [W]; a Go pointer into
    the status of the cluster is a [StatusRef]. The cluster is shared with the
    deployments the managers build through no other pointer here: the
    annotations of a pod template are a fresh map. *)

From Stdlib Require Import Ascii.
From S2P Require Import Prelude K8s Types Constants GoStrings Defaults.
From S2P Require Import ControllerUtils LastApplied KubeApi Controls Session CloudApi.
From S2P Require Import Databases.

Open Scope string_scope.
Open Scope list_scope.
Open Scope go_scope.

(** ** Rollouts *)

(*@ pkg/manager/component/utils.go:284-284 TimedOutReason *)
Definition TimedOutReason : string := "ProgressDeadlineExceeded".

(*@ pkg/manager/component/utils.go:288-296 GetDeploymentCondition *)
Fixpoint GetDeploymentCondition (conds : list DeploymentCondition) (condType : string)
  : option DeploymentCondition :=
  match conds with
  | [] => None
  | c :: conds' =>
      if String.eqb (DeploymentCondition_Type c) condType then Some c
      else GetDeploymentCondition conds' condType
  end.

(** Whether the rollout has finished; the reason it returns is only logged. *)
(*@ pkg/manager/component/utils.go:298-316 deploymentIsRollout *)
Definition deploymentIsRollout (deploy : Deployment) : Res bool :=
  let st := Deployment_Status deploy in
  if (ObjectMeta_Generation (Deployment_ObjectMeta deploy)
      <=? apps_DeploymentStatus_ObservedGeneration st)%Z then
    let cond := GetDeploymentCondition (apps_DeploymentStatus_Conditions st) "Progressing" in
    if match cond with
       | Some c => String.eqb (DeploymentCondition_Reason c) TimedOutReason
       | None => false
       end
    then Err (ErrMsg ("deployment exceeded its progress deadline: " +:+ obj_name deploy))
    else if match apps_DeploymentSpec_Replicas (Deployment_Spec deploy) with
            | Some r => (apps_DeploymentStatus_UpdatedReplicas st <? r)%Z
            | None => false
            end
    then Ok false
    else if (apps_DeploymentStatus_UpdatedReplicas st <? apps_DeploymentStatus_Replicas st)%Z
    then Ok false
    else if (apps_DeploymentStatus_AvailableReplicas st
             <? apps_DeploymentStatus_UpdatedReplicas st)%Z
    then Ok false
    else Ok true
  else Ok false.

(*@ pkg/manager/component/utils.go:334-342 CombineAnnotations *)
Definition CombineAnnotations (a b : gmap string string) : gmap string string := b ∪ a.

(** An error (a rollout past its deadline) counts as upgrading. *)
(*@ pkg/manager/component/utils.go:318-331 deploymentIsUpgrading *)
Definition deploymentIsUpgrading (deploy : Deployment) : bool :=
  match deploymentIsRollout deploy with
  | Ok true => false
  | _ => true
  end.

(** ** Images

    [reference.Parse] of the distribution library gives the parts of an image
    reference: its name with the host it starts with, its tag, its digest. *)
Record NamedRef := MkNamedRef {
  ref_named : option (string * string);
  ref_tag : option string;
  ref_digest : option string
}.
Class ReferenceParser := reference_Parse : string → Res NamedRef.

(*@ pkg/util/image/reference.go:12-18 ImageReference *)
Record ImageReference := MkImageReference {
  ImageReference_Domain : string;
  ImageReference_Repository : string;
  ImageReference_Image : string;
  ImageReference_Tag : string;
  ImageReference_Digest : string
}.
#[global] Instance ImageReference_eta : Eta ImageReference := λ r,
  MkImageReference (ImageReference_Domain r) (ImageReference_Repository r)
    (ImageReference_Image r) (ImageReference_Tag r) (ImageReference_Digest r).
#[global] Instance ImageReference_zero : Zero ImageReference :=
  MkImageReference zero zero zero zero zero.

(** The image keeps the tag and the digest; without either it is [latest]. *)
(*@ pkg/util/image/reference.go:20-52 ParseImageReference *)
Definition ParseImageReference `{!ReferenceParser} (img : string) : Res ImageReference :=
  res_bind (reference_Parse img) (λ ref,
  res_bind
    (match ref_named ref with
     | None => Ok (zero : ImageReference)
     | Some (repo, domain) =>
         let parts := split_on "/"%char repo in
         if (length parts <? 2)%nat then Err (ErrMsg ("invalid named: " +:+ repo))
         else Ok ((zero : ImageReference)
                    <| ImageReference_Domain := domain |>
                    <| ImageReference_Repository :=
                         String.concat "/" (take (length parts - 1) parts) |>
                    <| ImageReference_Image := default "" (last parts) |>)
     end) (λ imgRef,
  let imgRef := imgRef <| ImageReference_Tag ::= λ t, default t (ref_tag ref) |>
                       <| ImageReference_Digest ::= λ d, default d (ref_digest ref) |> in
  Ok (if str_empty (ImageReference_Tag imgRef) && str_empty (ImageReference_Digest imgRef)
      then imgRef <| ImageReference_Tag := "latest" |> else imgRef))).

(*@ pkg/manager/component/sync.go:153-165 getRepoImageName *)
Definition getRepoImageName `{!ReferenceParser} (img : string) : string * string * string :=
  match ParseImageReference img with
  | Ok r => (ImageReference_Repository r, ImageReference_Image r, ImageReference_Tag r)
  | _ => ("", "", "")
  end.

(*@ pkg/manager/component/sync.go:167-178 getImageStatusByContainer *)
Definition getImageStatusByContainer `{!ReferenceParser} (container : Container) : ImageStatus :=
  let '(repo, imgName, tag) := getRepoImageName (Container_Image container) in
  MkImageStatus (Container_Image container) repo imgName tag (Container_ImagePullPolicy container).

(*@ pkg/manager/component/sync.go:180-187 getImageStatus *)
Definition getImageStatus `{!ReferenceParser} (deploy : Deployment) : option ImageStatus :=
  match PodSpec_Containers (PodTemplateSpec_Spec (apps_DeploymentSpec_Template
          (Deployment_Spec deploy))) with
  | [] => None
  | container :: _ => Some (getImageStatusByContainer container)
  end.

(** ** Component managers *)

(** A pointer to a [DeploymentStatus] in the status of the cluster. *)
Record StatusRef := MkStatusRef {
  deref : OnecloudCluster → DeploymentStatus;
  assign : (DeploymentStatus → DeploymentStatus) → OnecloudCluster → OnecloudCluster
}.

(*@ pkg/controller/onecloud_control.go:260-263 PhaseControl *)
Record PhaseControl (W : Type) := MkPhaseControl {
  phase_Setup : SM W unit;
  phase_SystemInit : SM W unit
}.
Arguments phase_Setup {W} _.
Arguments phase_SystemInit {W} _.

(** The interfaces [manager.Manager], [syncManager] and the factories; the
    configuration and the zone are the arguments of the same name. *)
(*@ pkg/manager/component/sync.go:32-85 cloudComponentFactory *)
Record cloudComponentFactory (W : Type) `{!SessionEnv W} := MkFactory {
  GetComponentType : ComponentType;
  IsDisabled : OnecloudCluster → bool;
  getProductVersions : list ProductVersion;
  getDBEngine : OnecloudCluster → TDBEngineType;
  getDBConfig : OnecloudClusterConfig → option DBConfig;
  getClickhouseConfig : OnecloudClusterConfig → option DBConfig;
  getCloudUser : OnecloudClusterConfig → option CloudUser;
  getPhaseControl : string → option (PhaseControl W);
  getDeploymentStatus : string → option StatusRef;
  getService : OnecloudClusterConfig → string → SM W (list core_Service);
  getIngress : string → SM W (option Unstructured);
  updateIngress : Unstructured → SM W Unstructured;
  getConfigMap : OnecloudClusterConfig → string → SM W (option ConfigMap * bool);
  getPVC : string → SM W (option PersistentVolumeClaim);
  getDeployment : OnecloudClusterConfig → string → SM W (option Deployment);
  supportsReadOnlyService : bool;
  getReadonlyDeployment : OnecloudClusterConfig → string → Deployment → SM W (option Deployment);
  getMcclientSyncFunc : OnecloudCluster → option (ClientSession W → M W unit);
  getDaemonSet : OnecloudClusterConfig → string → SM W (option DaemonSet);
  getCronJob : OnecloudClusterConfig → string → SM W (option CronJob)
}.
Arguments GetComponentType {W _} _.
Arguments IsDisabled {W _} _ _.
Arguments getProductVersions {W _} _.
Arguments getDBEngine {W _} _ _.
Arguments getDBConfig {W _} _ _.
Arguments getClickhouseConfig {W _} _ _.
Arguments getCloudUser {W _} _ _.
Arguments getPhaseControl {W _} _ _.
Arguments getDeploymentStatus {W _} _ _.
Arguments getService {W _} _ _ _.
Arguments getIngress {W _} _ _.
Arguments updateIngress {W _} _ _.
Arguments getConfigMap {W _} _ _ _.
Arguments getPVC {W _} _ _.
Arguments getDeployment {W _} _ _ _.
Arguments supportsReadOnlyService {W _} _.
Arguments getReadonlyDeployment {W _} _ _ _ _.
Arguments getMcclientSyncFunc {W _} _ _.
Arguments getDaemonSet {W _} _ _ _.
Arguments getCronJob {W _} _ _ _.
#[global] Instance factory_eta `{!SessionEnv W} : Eta (cloudComponentFactory W) := λ f,
  MkFactory W _ (GetComponentType f) (IsDisabled f) (getProductVersions f) (getDBEngine f)
    (getDBConfig f) (getClickhouseConfig f) (getCloudUser f) (getPhaseControl f)
    (getDeploymentStatus f) (getService f) (getIngress f) (updateIngress f) (getConfigMap f)
    (getPVC f) (getDeployment f) (supportsReadOnlyService f) (getReadonlyDeployment f)
    (getMcclientSyncFunc f) (getDaemonSet f) (getCronJob f).

(** ** Product versions *)

(*@ pkg/manager/component/sync.go:87-96 isInProductVersion *)
Definition isInProductVersion `{!SessionEnv W} (factory : cloudComponentFactory W) (oc : OnecloudCluster) : bool :=
  existsb (λ v, String.eqb v (OnecloudClusterSpec_ProductVersion (OnecloudCluster_Spec oc)))
    (getProductVersions factory).

(*@ pkg/manager/component/sync.go:98-112 isValidProductVersion *)
Definition isValidProductVersion (oc : OnecloudCluster) : Res unit :=
  let v := OnecloudClusterSpec_ProductVersion (OnecloudCluster_Spec oc) in
  if existsb (String.eqb v)
       [ProductVersionFullStack; ProductVersionCMP; ProductVersionEdge; ProductVersionLightEdge;
        ProductVersionAI]
  then Ok tt else Err (ErrMsg ("Invalid productVersion " +:+ v)).

Section sync.
Context {W : Type} `{!SessionEnv W, !JsonUtils, !CloudApi W, !SqlEnv W, !ConfigCodec, !Passwords W, !ReferenceParser}.
Context `{!ResourceApi W Deployment, !ResourceApi W DaemonSet, !ResourceApi W CronJob}.
Context `{!ResourceApi W core_Service, !ResourceApi W ConfigMap, !ResourceApi W Unstructured}.
Context `{!ResourceApi W PersistentVolumeClaim}.
Context `{!JsonCodec PodSpec, !JsonCodec apps_DeploymentSpec, !JsonCodec apps_DaemonSetSpec}.
Context `{!JsonCodec JobSpec, !JsonCodec batch_CronJobSpec, !JsonCodec core_ServiceSpec}.
Context `{!JsonCodec (gmap string string), !JsonMapCodec}.
Context (SessionDebug SyncUser StopServices DisableSyncIngress : bool).

(** [m.configer.GetClusterConfig(oc)] *)
Definition clusterConfig : SM W OnecloudClusterConfig :=
  let! oc := getoc in kube (GetClusterConfig oc).

(** ** Services *)

(** The loop returns as soon as it has created, updated or deleted one
    service, or when the first one is missing outside the product version. *)
(*@ pkg/manager/component/component.go:140-178 syncService (loop) *)
Fixpoint syncServices (oc : OnecloudCluster) (inPV : bool) (newSvcs : list core_Service) : M W unit :=
  match newSvcs with
  | [] => ret tt
  | newSvc :: newSvcs' =>
      let! r := attempt (listerGet core_Service (oc_ns oc) (obj_name newSvc)) in
      match r with
      | inl err =>
          if IsNotFound err then
            if negb inPV then ret tt
            else let! newSvc := lift (SetServiceLastAppliedConfigAnnotation newSvc) in
                 CreateService oc newSvc
          else throw err
      | inr oldSvc =>
          if negb inPV then DeleteService oc oldSvc
          else
            let! equal := lift (serviceEqual newSvc oldSvc) in
            if equal then syncServices oc inPV newSvcs'
            else
              let svc := oldSvc <| core_Service_Spec := (core_Service_Spec newSvc)
                <| core_ServiceSpec_ClusterIP := core_ServiceSpec_ClusterIP (core_Service_Spec oldSvc) |> |> in
              let! svc := lift (SetServiceLastAppliedConfigAnnotation svc) in
              UpdateService oc svc ;;! ret tt
      end
  end.

(*@ pkg/manager/component/component.go:124-179 syncService *)
Definition syncService (factory : cloudComponentFactory W) (zone : string) : SM W unit :=
  let! cfg := wrap "GetClusterConfig" clusterConfig in
  let! newSvcs := getService factory cfg zone in
  let! oc := getoc in
  kube (syncServices oc (isInProductVersion factory oc) newSvcs).

(** ** Ingresses

    An error of the lister other than NotFound is not returned: the nil
    object next to it is then used. *)
(*@ pkg/manager/component/component.go:181-228 syncIngress *)
Definition syncIngress (ingFactory : cloudComponentFactory W) (zone : string) : SM W unit :=
  let! r := getIngress ingFactory zone in
  match r with
  | None => ret tt
  | Some newIng =>
      let! oc := getoc in
      let inPV := isInProductVersion ingFactory oc in
      let! r := kube (attempt (listerGet Unstructured (oc_ns oc) (obj_name newIng))) in
      match r with
      | inl err =>
          if IsNotFound err then
            if negb inPV then ret tt
            else let! newIng := lift (SetIngressLastAppliedConfigAnnotation newIng) in
                 kube (CreateIngress oc newIng)
          else panic "interface conversion: interface is nil"
      | inr oldIng =>
          if negb inPV then kube (DeleteIngress oc oldIng)
          else
            let! equal := lift (ingressEqual newIng oldIng) in
            if equal then ret tt
            else
              let! ing := updateIngress ingFactory oldIng in
              let! ing := lift (SetIngressLastAppliedConfigAnnotation ing) in
              kube (UpdateIngress oc ing) ;;! ret tt
      end
  end.

(** ** Config maps *)

(*@ pkg/manager/component/component.go:246-264 syncConfigMap (data base) *)
Definition ensureDBUser (f : cloudComponentFactory W) (clustercfg : OnecloudClusterConfig) : SM W unit :=
  match getDBConfig f clustercfg with
  | None => ret tt
  | Some dbConfig =>
      let! oc := getoc in
      if String.eqb (getDBEngine f oc) DBEngineDameng then
        wrap "ensure cluster dameng db user" (kube (EnsureClusterDamengUser SyncUser oc dbConfig))
      else wrap "ensure cluster mysql db user" (kube (EnsureClusterMySQLUser SyncUser oc dbConfig))
  end.

(*@ pkg/manager/component/component.go:265-272 syncConfigMap (clickhouse) *)
Definition ensureClickhouseUser (f : cloudComponentFactory W) (clustercfg : OnecloudClusterConfig)
  : SM W unit :=
  let! oc := getoc in
  if str_empty (Mysql_Host (OnecloudClusterSpec_Clickhouse (OnecloudCluster_Spec oc))) then ret tt
  else
    match getClickhouseConfig f clustercfg with
    | Some clickhouseConfig =>
        if IsEnterpriseEdition oc then
          wrap "ensure clickhouse cluster db user"
            (kube (EnsureClusterClickhouseUser SyncUser oc clickhouseConfig))
        else ret tt
    | None => ret tt
    end.

(** Whether to go on: when the services are stopped, an account that cannot
    be ensured ends the sync without an error. *)
(*@ pkg/manager/component/component.go:273-289 syncConfigMap (account) *)
Definition ensureAccount (f : cloudComponentFactory W) (clustercfg : OnecloudClusterConfig)
  : SM W bool :=
  match getCloudUser f clustercfg with
  | None => ret true
  | Some account =>
      let! r := attempt (RunWithSession SessionDebug (λ s,
                  kube (wrap "ensure service account" (ensureServiceAccount SyncUser s account)))) in
      match r with
      | inr _ => ret true
      | inl err => if StopServices then ret false else throw (ErrWrap err "RunWithSession")
      end
  end.

(** A config map that exists is left alone unless the manager forces it. *)
(*@ pkg/manager/component/component.go:290-319 syncConfigMap (syncCmfunc) *)
Definition syncCmfunc (f : cloudComponentFactory W) (clustercfg : OnecloudClusterConfig)
    (zone : string) : SM W unit :=
  let! '(cfgMap, forceUpdate) := wrap "get config map" (getConfigMap f clustercfg zone) in
  match cfgMap with
  | None => ret tt
  | Some cfgMap =>
      let! cfgMap := lift (SetConfigMapLastAppliedConfigAnnotation cfgMap) in
      let! oc := getoc in
      if forceUpdate then kube (CreateOrUpdateConfigMap oc cfgMap)
      else
        let! r := kube (attempt (listerGet ConfigMap (oc_ns oc) (obj_name cfgMap))) in
        match r with
        | inl err =>
            if IsNotFound err then kube (CreateOrUpdateConfigMap oc cfgMap) else throw err
        | inr _ => ret tt
        end
  end.

(*@ pkg/manager/component/component.go:230-324 syncConfigMap *)
Definition syncConfigMap (f : cloudComponentFactory W) (zone : string) : SM W unit :=
  let! oc := getoc in
  if negb (isInProductVersion f oc) then ret tt
  else
    let! clustercfg := wrap "get cluster config" clusterConfig in
    ensureDBUser f clustercfg ;;!
    ensureClickhouseUser f clustercfg ;;!
    let! go_on := ensureAccount f clustercfg in
    if go_on then wrap "sync rw configmap" (syncCmfunc f clustercfg zone) else ret tt.

(** ** Daemon sets *)

(** Kubernetes does not allow the selector of a daemon set to change: the set
    is deleted and created again when the wanted labels do not match it. *)
(*@ pkg/manager/component/component.go:375-397 updateDaemonSet *)
Definition updateDaemonSet (oc : OnecloudCluster) (newDs oldDs : DaemonSet) : M W unit :=
  let newSpec := DaemonSet_Spec newDs in
  let newLabels := ObjectMeta_Labels (PodTemplateSpec_ObjectMeta
                     (apps_DaemonSetSpec_Template newSpec)) in
  if negb (selectorMatchesLabels (apps_DaemonSetSpec_Selector (DaemonSet_Spec oldDs)) newLabels) then
    DeleteDaemonSet oc oldDs ;;! CreateDaemonSet oc newDs
  else if negb (daemonSetEqual newDs oldDs) then
    let ds := oldDs <| DaemonSet_Spec ::= λ s,
      s <| apps_DaemonSetSpec_Template := apps_DaemonSetSpec_Template newSpec |>
        <| apps_DaemonSetSpec_UpdateStrategy := apps_DaemonSetSpec_UpdateStrategy newSpec |> |> in
    let! ds := lift (SetDaemonSetLastAppliedConfigAnnotation ds) in
    UpdateDaemonSet oc ds ;;! ret tt
  else ret tt.

(** A new daemon set is created without the annotation. *)
(*@ pkg/manager/component/component.go:326-373 syncDaemonSet *)
Definition syncDaemonSet (f : cloudComponentFactory W) (zone : string) : SM W unit :=
  let! cfg := clusterConfig in
  let! r := getDaemonSet f cfg zone in
  match r with
  | None => ret tt
  | Some newDs =>
      let! oc := getoc in
      let shouldStop := StopServices && negb (String.eqb (GetComponentType f) HostComponentType) in
      let unwanted := negb (isInProductVersion f oc) || shouldStop || IsDisabled f oc in
      let! r := kube (attempt (listerGet DaemonSet (oc_ns oc) (obj_name newDs))) in
      match r with
      | inl err =>
          if IsNotFound err then
            if unwanted then ret tt else kube (CreateDaemonSet oc newDs)
          else throw err
      | inr oldDs =>
          if unwanted then kube (DeleteDaemonSet oc oldDs)
          else kube (updateDaemonSet oc newDs oldDs)
      end
  end.

(** ** Cron jobs *)

(*@ pkg/manager/component/component.go:441-457 updateCronJob *)
Definition updateCronJob (oc : OnecloudCluster) (newCronJob oldCronJob : CronJob) : M W unit :=
  if negb (cronJobEqual newCronJob oldCronJob) then
    let cronJob := oldCronJob <| CronJob_Spec := CronJob_Spec newCronJob |> in
    let! cronJob := lift (SetCronJobLastAppliedConfigAnnotation cronJob) in
    wrap "update cron job" (UpdateCronJob oc cronJob) ;;! ret tt
  else ret tt.

(*@ pkg/manager/component/component.go:399-439 syncCronJob *)
Definition syncCronJob (f : cloudComponentFactory W) (zone : string) : SM W unit :=
  let! cfg := clusterConfig in
  let! r := getCronJob f cfg zone in
  match r with
  | None => ret tt
  | Some newCronJob =>
      let! oc := getoc in
      let inPV := isInProductVersion f oc in
      let! r := kube (attempt (listerGet CronJob (oc_ns oc) (obj_name newCronJob))) in
      match r with
      | inl err =>
          if IsNotFound err then
            if negb inPV then ret tt else kube (CreateCronJob oc newCronJob)
          else throw (ErrWrap err "sync cronjob on list")
      | inr oldCronJob =>
          if negb inPV then kube (DeleteCronJob oc (obj_name oldCronJob))
          else kube (updateCronJob oc newCronJob oldCronJob)
      end
  end.

(** ** Deployments

    Creating a deployment annotates the object the caller holds. What runs on
    a deployment therefore gives it back, next to the error, if any. The two
    encodings of the annotation are taken to fail together. *)
Definition withErr {S} (deploy : Deployment) (c : M S unit) : M S (Deployment * option error) :=
  let! r := attempt c in
  ret (deploy, match r with inl e => Some e | inr _ => None end).

Definition annotated {S} (deploy : Deployment) (c : Deployment → M S unit)
  : M S (Deployment * option error) :=
  match SetDeploymentLastAppliedConfigAnnotation deploy with
  | Ok deploy' => withErr deploy' (c deploy')
  | Err e => ret (deploy, Some e)
  | Panic p => panic p
  end.

(*@ pkg/manager/component/component.go:576-579 updateDeployment (deploy) *)
Definition updatedDeployment (oldDeploy : Deployment) (newSpec : apps_DeploymentSpec) (replicas : Z)
  : Deployment :=
  oldDeploy <| Deployment_Spec ::= λ s,
    s <| apps_DeploymentSpec_Template := apps_DeploymentSpec_Template newSpec |>
      <| apps_DeploymentSpec_Replicas := Some replicas |>
      <| apps_DeploymentSpec_Strategy := apps_DeploymentSpec_Strategy newSpec |> |>.

(*@ pkg/manager/component/component.go:562-588 updateDeployment *)
Definition updateDeployment (oc : OnecloudCluster) (newDeploy oldDeploy : Deployment)
  : M W (Deployment * option error) :=
  let newSpec := Deployment_Spec newDeploy in
  let newLabels := ObjectMeta_Labels (PodTemplateSpec_ObjectMeta
                     (apps_DeploymentSpec_Template newSpec)) in
  if negb (selectorMatchesLabels (apps_DeploymentSpec_Selector (Deployment_Spec oldDeploy)) newLabels)
  then
    let! r := attempt (DeleteDeployment oc (obj_name oldDeploy)) in
    match r with
    | inl e => ret (newDeploy, Some e)
    | inr _ => annotated newDeploy (CreateDeployment oc)
    end
  else if negb (deploymentEqual newDeploy oldDeploy) then
    withErr newDeploy (
      match apps_DeploymentSpec_Replicas (Deployment_Spec oldDeploy),
            apps_DeploymentSpec_Replicas newSpec with
      | Some _, Some replicas =>
          let! deploy := lift (SetDeploymentLastAppliedConfigAnnotation
                                 (updatedDeployment oldDeploy newSpec replicas)) in
          UpdateDeployment oc deploy ;;! ret tt
      | _, _ => panic "nil pointer dereference"
      end)
  else ret (newDeploy, None).

(** What runs after a deployment is synced: it is given the deployment and
    its read-only companion as the API server has them. *)
Definition PostSync : Type := Deployment → option Deployment → string → SM W unit.

(** [deploySets.Get]: without an object there is an empty one. *)
Definition instanceOf (ns name msg : string) : SM W Deployment :=
  let! r := kube (attempt (apiGet Deployment ns name)) in
  match r with
  | inr d => ret d
  | inl e => if IsNotFound e then ret zero else throw (ErrWrap e msg)
  end.

(*@ pkg/manager/component/component.go:487-505 syncDeployment (postFunc) *)
Definition postFunc (f : cloudComponentFactory W) (postSyncFunc : option PostSync)
    (newDeploy : Deployment) (zone : string) : SM W unit :=
  match postSyncFunc with
  | None => ret tt
  | Some post =>
      let ns := ObjectMeta_Namespace (Deployment_ObjectMeta newDeploy) in
      let deployName := obj_name newDeploy in
      let! deployInstance := instanceOf ns deployName ("get deployment " +:+ deployName) in
      if supportsReadOnlyService f then
        let! ro := instanceOf ns (deployName +:+ "-slave")
                     ("get readonly deployment " +:+ deployName +:+ "-slave") in
        post deployInstance (Some ro) zone
      else post deployInstance None zone
  end.

(*@ pkg/manager/component/component.go:507-542 syncDeployment (syncFunc) *)
Definition syncFunc (post : SM W unit) (deploy : Deployment) (shouldDelete : bool)
  : SM W (Deployment * option error) :=
  let! oc := getoc in
  let! r := kube (attempt (listerGet Deployment (oc_ns oc) (obj_name deploy))) in
  match r with
  | inl err =>
      if IsNotFound err then
        if shouldDelete then ret (deploy, None)
        else annotated deploy (λ deploy,
          kube (CreateDeployment oc deploy) ;;!
          wrap ("post create deployment " +:+ obj_name deploy) post ;;!
          throw (RequeueErrorf ("OnecloudCluster: [" +:+ oc_ns oc +:+ "/" +:+ oc_name oc +:+
            "], waiting for " +:+ obj_name deploy +:+ " deployment running")))
      else ret (deploy, Some err)
  | inr oldDeploy =>
      if shouldDelete then withErr deploy (kube (DeleteDeployment oc (obj_name oldDeploy)))
      else
        let! '(deploy, err) := kube (updateDeployment oc deploy oldDeploy) in
        match err with
        | Some e => ret (deploy, Some e)
        | None => withErr deploy (wrap ("post sync deployment " +:+ obj_name deploy) post)
        end
  end.

(** The component is outside the product version, stopped or disabled. *)
(*@ pkg/manager/component/component.go:479-485 syncDeployment (inPV) *)
Definition deploymentUnwanted (f : cloudComponentFactory W) (oc : OnecloudCluster) : bool :=
  let shouldStop := StopServices && negb (IsInStringArray (GetComponentType f)
                      [OvnNorthComponentType; InfluxdbComponentType]) in
  negb (isInProductVersion f oc) || shouldStop || IsDisabled f oc.

(** The read-only deployment has no pods to run. *)
(*@ pkg/manager/component/component.go:553-553 syncDeployment (replicas) *)
Definition noReplicas (ro : Deployment) : bool :=
  match apps_DeploymentSpec_Replicas (Deployment_Spec ro) with
  | None => true
  | Some n => (n =? 0)%Z
  end.

Definition wrapErr (msg : string) (e : option error) : list error :=
  match e with None => [] | Some e => [ErrWrap e msg] end.

(*@ pkg/manager/component/component.go:459-560 syncDeployment *)
Definition syncDeployment (f : cloudComponentFactory W) (postSyncFunc : option PostSync)
    (zone : string) : SM W unit :=
  let! cfg := wrap ("GetClusterConfig for component: " +:+ GetComponentType f) clusterConfig in
  let! r := wrap ("deploymentFactory for component: " +:+ GetComponentType f)
              (getDeployment f cfg zone) in
  match r with
  | None => ret tt
  | Some newDeploy =>
      let! oc := getoc in
      let unwanted := deploymentUnwanted f oc in
      let post := postFunc f postSyncFunc newDeploy zone in
      let! '(newDeploy, errMain) := syncFunc post newDeploy unwanted in
      let errs := wrapErr ("sync deployment " +:+ obj_name newDeploy) errMain in
      let! errs :=
        (if supportsReadOnlyService f then
           let! r := getReadonlyDeployment f cfg zone newDeploy in
           match r with
           | None => ret errs
           | Some ro =>
               let! '(ro, errRo) := syncFunc post ro (unwanted || noReplicas ro) in
               ret (errs ++ wrapErr ("sync readonly deployment " +:+ obj_name ro) errRo)
           end
         else ret errs) in
      match NewAggregate errs with
      | None => ret tt
      | Some e => throw e
      end
  end.

(*@ pkg/manager/component/sync.go:189-224 newPostSyncComponent *)
Definition newPostSyncComponent (f : cloudComponentFactory W) : PostSync := λ deploy rodeploy zone,
  match getDeploymentStatus f zone with
  | None => ret tt
  | Some deployStatus =>
      let phaseOf d := if deploymentIsUpgrading d then UpgradePhase else NormalPhase in
      modoc (assign deployStatus (λ st,
        st <| DeploymentStatus_Deployment := Some (Deployment_Status deploy) |>
           <| DeploymentStatus_Phase := phaseOf deploy |>
           <| DeploymentStatus_ImageStatus := getImageStatus deploy |>)) ;;!
      match rodeploy with
      | None => ret tt
      | Some ro =>
          modoc (assign deployStatus (λ st,
            st <| DeploymentStatus_SlaveDeployment := Some (Deployment_Status ro) |>
               <| DeploymentStatus_SlavePhase := phaseOf ro |>))
      end
  end.

(** ** Volume claims, phases, zones *)

(*@ pkg/manager/component/component.go:1423-1446 syncPVC *)
Definition syncPVC (f : cloudComponentFactory W) (zone : string) : SM W unit :=
  let! oc := getoc in
  if negb (isInProductVersion f oc) then ret tt
  else
    let! r := getPVC f zone in
    match r with
    | None => ret tt
    | Some newPvc =>
        let! oc := getoc in
        let! r := kube (attempt (listerGet PersistentVolumeClaim (oc_ns oc) (obj_name newPvc))) in
        match r with
        | inl err => if IsNotFound err then kube (CreatePVC oc newPvc) else throw err
        | inr _ => ret tt
        end
    end.

(** The synchronisation through the client library runs in a session of its
    own; its errors are logged. *)
(*@ pkg/manager/component/component.go:1448-1481 syncPhase *)
Definition syncPhase (f : cloudComponentFactory W) (zone : string) : SM W unit :=
  if StopServices then ret tt
  else
    match getPhaseControl f zone with
    | None => ret tt
    | Some phase =>
        let! oc := getoc in
        if negb (isInProductVersion f oc) || IsDisabled f oc then ret tt
        else
          phase_Setup phase ;;!
          phase_SystemInit phase ;;!
          let! oc := getoc in
          match getMcclientSyncFunc f oc with
          | None => ret tt
          | Some mcclientSyncFunc =>
              let! _ := attempt (RunWithSession SessionDebug (λ s, kube (mcclientSyncFunc s))) in
              ret tt
          end
    end.

(** ** A component *)

(*@ pkg/manager/component/sync.go:114-151 syncComponent *)
Definition syncComponent (factory : cloudComponentFactory W) (zone : string) : SM W unit :=
  let cType := GetComponentType factory in
  let! oc := getoc in
  wrap ("check productVersion of " +:+ cType) (lift (isValidProductVersion oc)) ;;!
  wrap ("sync configmap of " +:+ cType) (syncConfigMap factory zone) ;;!
  wrap ("sync pvc of " +:+ cType) (syncPVC factory zone) ;;!
  wrap ("sync deployment " +:+ cType)
    (syncDeployment factory (Some (newPostSyncComponent factory)) zone) ;;!
  wrap ("sync daemonset " +:+ cType) (syncDaemonSet factory zone) ;;!
  wrap ("sync cronjob " +:+ cType) (syncCronJob factory zone) ;;!
  wrap ("sync service of " +:+ cType) (syncService factory zone) ;;!
  (if DisableSyncIngress then ret tt
   else wrap ("sync ingress of " +:+ cType) (syncIngress factory zone)) ;;!
  wrap ("sync phase control " +:+ cType) (syncPhase factory zone).

(*@ pkg/apis/onecloud/v1alpha1/onecloudcluster.go:45-51 GetZones *)
Definition GetZones (oc : OnecloudCluster) : list string :=
  OnecloudClusterSpec_CustomZones (OnecloudCluster_Spec oc)
    ++ [OnecloudClusterSpec_Zone (OnecloudCluster_Spec oc)].

(** The empty string stands for the default zone. *)
(*@ pkg/manager/component/component.go:1483-1503 multiZoneSync *)
Definition multiZoneSync (wantedZones : list string) (factory : cloudComponentFactory W)
  : SM W unit :=
  let! oc := getoc in
  let zones :=
    if (0 <? length wantedZones)%nat then
      List.filter (λ z, IsInStringArray z (OnecloudClusterSpec_CustomZones (OnecloudCluster_Spec oc)))
        wantedZones
    else GetZones oc in
  for_each zones (λ zone,
    let! oc := getoc in
    syncComponent factory
      (if String.eqb zone (OnecloudClusterSpec_Zone (OnecloudCluster_Spec oc)) then "" else zone)).
End sync.
