(* ===== verification/SyncFacts.v ===== *)
(** * SyncFacts: what a sync of a component's objects guarantees

    The deployments of a component against a server that accepts every
    request: a sync brings them to what the manager wants, and once they are
    there the next ones write nothing. *)

From S2P Require Import Prelude K8s Types Constants GoStrings Defaults.
From S2P Require Import ControllerUtils LastApplied KubeApi Controls Session Sync.

Open Scope string_scope.
Open Scope list_scope.
Open Scope go_scope.

(** ** Running on the world only *)
Section kube.
Context {W : Type}.

Lemma kube_eq {A} (c : M W A) oc w w' r : c w = (w', r) → kube c (oc, w) = ((oc, w'), r).
Proof. unfold kube. by intros ->. Qed.

Lemma kube_attempt_Ok {A} (c : M W A) oc w w' a :
  c w = (w', Ok a) → kube (attempt c) (oc, w) = ((oc, w'), Ok (inr a)).
Proof. intros H. by apply kube_eq, attempt_Ok. Qed.

Lemma kube_attempt_Err {A} (c : M W A) oc w w' e :
  c w = (w', Err e) → kube (attempt c) (oc, w) = ((oc, w'), Ok (inl e)).
Proof. intros H. by apply kube_eq, attempt_Err. Qed.

Lemma getoc_eq oc (w : W) : getoc (oc, w) = ((oc, w), Ok oc).
Proof. reflexivity. Qed.
End kube.

(** ** The annotation reads back *)
Section codec.
Context `{!JsonCodec PodSpec, !JsonCodec apps_DeploymentSpec, !JsonCodec apps_DaemonSetSpec}.
Context `{!JsonCodec JobSpec, !JsonCodec batch_CronJobSpec, !JsonCodec core_ServiceSpec}.

(** A deployment that asks for a spec: the replicas, the strategy and the
    template are the spec's, but for the annotation of the template. *)
Definition asks (s : apps_DeploymentSpec) (d : Deployment) : Prop :=
  apps_DeploymentSpec_Replicas (Deployment_Spec d) = apps_DeploymentSpec_Replicas s ∧
  apps_DeploymentSpec_Strategy (Deployment_Spec d) = apps_DeploymentSpec_Strategy s ∧
  ∃ a, apps_DeploymentSpec_Template (Deployment_Spec d) =
    (apps_DeploymentSpec_Template s) <| PodTemplateSpec_ObjectMeta ::= annotate a |>.

(** What annotating a deployment leaves alone, and what it stores. *)
Lemma SetDeployment_facts d d' :
  SetDeploymentLastAppliedConfigAnnotation d = Ok d' →
  obj_name d' = obj_name d ∧
  apps_DeploymentSpec_Selector (Deployment_Spec d') = apps_DeploymentSpec_Selector (Deployment_Spec d) ∧
  apps_DeploymentSpec_Replicas (Deployment_Spec d') = apps_DeploymentSpec_Replicas (Deployment_Spec d) ∧
  ObjectMeta_Labels (PodTemplateSpec_ObjectMeta (apps_DeploymentSpec_Template (Deployment_Spec d')))
  = ObjectMeta_Labels (PodTemplateSpec_ObjectMeta (apps_DeploymentSpec_Template (Deployment_Spec d))) ∧
  asks (Deployment_Spec d) d' ∧
  ∃ a, lastApplied (Deployment_ObjectMeta d') = Some a ∧ Unmarshal a = Ok (Deployment_Spec d).
Proof.
  unfold SetDeploymentLastAppliedConfigAnnotation, encode_obj, res_bind.
  destruct (Marshal (Deployment_Spec d)) as [a|e|p] eqn:Ha; [|done|done].
  case_match; [|done|done]. intros [= <-]. simpl.
  split_and!; [done..| |].
  - split_and!; [done..|]. by eexists.
  - exists a. rewrite lastApplied_annotate. split; [done|]. by apply Unmarshal_Marshal.
Qed.

Lemma deploymentEqual_stored d old a spec :
  lastApplied (Deployment_ObjectMeta old) = Some a → Unmarshal a = Ok spec →
  apps_DeploymentSpec_Replicas spec = apps_DeploymentSpec_Replicas (Deployment_Spec d) →
  apps_DeploymentSpec_Template spec = apps_DeploymentSpec_Template (Deployment_Spec d) →
  apps_DeploymentSpec_Strategy spec = apps_DeploymentSpec_Strategy (Deployment_Spec d) →
  deploymentEqual d old = true.
Proof.
  intros Ha Hu H1 H2 H3. unfold deploymentEqual. rewrite Ha, Hu, H1, H2, H3.
  by rewrite !bool_decide_eq_true_2.
Qed.
End codec.

(** ** Deployments settle *)

(** What the API server keeps of a deployment. *)
Class AdmitsDeployments (W : Type) `{ApiStore W Deployment} := admits_deployment old d :
  obj_name (admitted old d) = obj_name d ∧
  ObjectMeta_Annotations (Deployment_ObjectMeta (admitted old d))
  = ObjectMeta_Annotations (Deployment_ObjectMeta d) ∧
  apps_DeploymentSpec_Selector (Deployment_Spec (admitted old d))
  = apps_DeploymentSpec_Selector (Deployment_Spec d) ∧
  (is_Some (apps_DeploymentSpec_Replicas (Deployment_Spec d)) →
   is_Some (apps_DeploymentSpec_Replicas (Deployment_Spec (admitted old d)))).

(** Drawing passwords is no request to the server. *)
Class DrawsApart (W : Type) `{!Passwords W} `{ApiStore W Deployment} := draws_apart n w ns name :
  stored (T:=Deployment) (set_drawn n w) ns name = stored w ns name.

(** The labels of the pods of a deployment. *)
Definition template_labels (d : Deployment) : gmap string string :=
  ObjectMeta_Labels (PodTemplateSpec_ObjectMeta (apps_DeploymentSpec_Template (Deployment_Spec d))).

(** A deployment a manager may want: it selects its own pods, and says how
    many. *)
Definition wf_deployment (d : Deployment) : Prop :=
  selectorMatchesLabels (apps_DeploymentSpec_Selector (Deployment_Spec d)) (template_labels d) = true ∧
  is_Some (apps_DeploymentSpec_Replicas (Deployment_Spec d)).

Section settle.
Context {W : Type} `{!SessionEnv W, !ConfigCodec, !Passwords W, !ReferenceParser}.
Context `{!ResourceApi W Deployment, !ResourceApi W ConfigMap}.
Context `{!JsonCodec PodSpec, !JsonCodec apps_DeploymentSpec}.
Context `{!ApiStore W Deployment, !AdmitsDeployments W, !DrawsApart W}.

(** The server made [now] of a deployment that asks for the spec [s]. *)
Definition applied (s : apps_DeploymentSpec) (now : Deployment) : Prop :=
  ∃ old x, now = admitted old x ∧ asks s x.

(** Nobody has edited the deployment under the annotation of what was last
    applied to it. *)
Definition unedited (now : Deployment) : Prop := ∀ a s,
  lastApplied (Deployment_ObjectMeta now) = Some a → Unmarshal a = Ok s → applied s now.

(** The test of the code: the stored deployment has the annotation of what
    the manager wants. *)
Definition in_sync (d now : Deployment) : Prop :=
  selectorMatchesLabels (apps_DeploymentSpec_Selector (Deployment_Spec now)) (template_labels d) = true ∧
  deploymentEqual d now = true.

(** What else is known of the world, and no request on a deployment breaks. *)
Context (J : W → Prop).
Hypothesis J_create : ∀ ns d w, J w → J (apiCreate (T:=Deployment) ns d w).1.
Hypothesis J_update : ∀ ns d w, J w → J (apiUpdate (T:=Deployment) ns d w).1.
Hypothesis J_delete : ∀ ns n w, J w → J (apiDelete Deployment ns n w).1.
Hypothesis J_draw : ∀ n w, J w → J (set_drawn n w).

(** The deployments the server holds are under their names, with replicas,
    and as they were last applied. *)
Definition wf_world (w : W) : Prop := J w ∧ ∀ ns n o, stored w ns n = Some o →
  obj_name o = n ∧ is_Some (apps_DeploymentSpec_Replicas (Deployment_Spec o)) ∧ unedited o.

Lemma wf_world_draw n w : wf_world w → wf_world (set_drawn n w).
Proof. intros [HJ Hwf]. split; [auto|]. intros ns m o. rewrite draws_apart. apply Hwf. Qed.

(** What the server makes of a deployment that has just been annotated. *)
Lemma annotated_unedited old d d' :
  SetDeploymentLastAppliedConfigAnnotation d = Ok d' → unedited (admitted old d').
Proof.
  intros Hd'. destruct (SetDeployment_facts _ _ Hd') as (_ & _ & _ & _ & Hasks & a & Ha & Hu).
  destruct (admits_deployment old d') as (_ & Aa & _).
  assert (lastApplied (Deployment_ObjectMeta (admitted old d')) = Some a) as Ha'
    by (unfold lastApplied in *; by rewrite Aa).
  intros a1 s. rewrite Ha'. intros [= <-]. rewrite Hu. intros [= <-]. by exists old, d'.
Qed.

(** Only the deployment [n] of the namespace [ns] differs. *)
Definition only_changes (ns n : string) (w w' : W) : Prop :=
  ∀ ns' n', (ns', n') ≠ (ns, n) → stored (T:=Deployment) w' ns' n' = stored w ns' n'.

Hypothesis marshals : ∀ spec : apps_DeploymentSpec, ∃ a, Marshal spec = Ok a.
Hypothesis marshals_template : ∀ spec : PodSpec, ∃ a, Marshal spec = Ok a.

Lemma SetDeployment_total d : ∃ d', SetDeploymentLastAppliedConfigAnnotation d = Ok d'.
Proof.
  unfold SetDeploymentLastAppliedConfigAnnotation, encode_obj.
  destruct (marshals (Deployment_Spec d)) as [a ->]; simpl.
  destruct (marshals_template (PodTemplateSpec_Spec (apps_DeploymentSpec_Template
              (Deployment_Spec d)))) as [b ->]. by eexists.
Qed.

Lemma updateDeployment_in_sync oc d now w :
  in_sync d now → updateDeployment oc d now w = (w, Ok (d, None)).
Proof. intros [H1 H2]. unfold updateDeployment. unfold template_labels in H1. by rewrite H1, H2. Qed.

(** *** What the operations on the server do *)

Lemma create_settles oc d d' w :
  stored w (oc_ns oc) (obj_name d) = None → wf_world w → wf_deployment d →
  SetDeploymentLastAppliedConfigAnnotation d = Ok d' →
  ∃ w', CreateDeployment oc d' w = (w', Ok tt) ∧ wf_world w' ∧
    only_changes (oc_ns oc) (obj_name d) w w' ∧
    ∃ now, stored w' (oc_ns oc) (obj_name d) = Some now ∧ in_sync d now.
Proof.
  intros Hno [HJ Hwf] [Hsel Hrep] Hd'.
  destruct (SetDeployment_facts _ _ Hd') as (Hn & Hs & Hr & Hl & _ & a & Ha & Hu).
  destruct (admits_deployment None d') as (An & Aa & As & Ar).
  rewrite <- Hn in Hno. destruct (apiCreate_stored _ _ _ Hno) as (w' & Hc & Hst). rewrite Hn in Hst.
  exists w'. split_and!.
  - unfold CreateDeployment. by rewrite (bind_Ok _ _ _ _ _ Hc).
  - specialize (J_create (oc_ns oc) d' w HJ). rewrite Hc in J_create. split; [done|].
    intros ns n o. rewrite Hst. case_decide as E; [|apply Hwf]. intros [= <-]. simplify_eq.
    split; [congruence|]. split; [apply Ar; by rewrite Hr|by eapply annotated_unedited].
  - intros ns n Hne. rewrite Hst. by rewrite decide_False.
  - eexists. rewrite Hst, decide_True by done. split; [reflexivity|]. split.
    + by rewrite As, Hs.
    + eapply deploymentEqual_stored; [|exact Hu|done..]. unfold lastApplied. by rewrite Aa.
Qed.

Lemma update_settles oc d old w :
  stored w (oc_ns oc) (obj_name d) = Some old → wf_world w → wf_deployment d →
  ∃ w' d' now, updateDeployment oc d old w = (w', Ok (d', None)) ∧ obj_name d' = obj_name d ∧
    wf_world w' ∧ only_changes (oc_ns oc) (obj_name d) w w' ∧
    stored w' (oc_ns oc) (obj_name d) = Some now ∧ in_sync d now.
Proof.
  intros Hold Hw Hd. pose proof Hw as [HJ Hwf]. destruct (Hwf _ _ _ Hold) as (Hname & Hrold & _).
  unfold updateDeployment. fold (template_labels d).
  destruct (selectorMatchesLabels _ (template_labels d)) eqn:Hsel; simpl.
  - destruct (deploymentEqual d old) eqn:Heq; simpl.
    { exists w, d, old. split_and!; [done..|]. by split. }
    destruct Hrold as [r Hr]. destruct Hd as [Hsd [r' Hr']]. rewrite Hr, Hr'.
    set (u := updatedDeployment old (Deployment_Spec d) r').
    destruct (SetDeployment_total u) as [u' Hu'].
    destruct (SetDeployment_facts _ _ Hu') as (Hn & Hs & Hrr & Hl & _ & a & Ha & Hun).
    assert (obj_name u' = obj_name d) as Hnd by (rewrite Hn; exact Hname).
    assert (stored w (oc_ns oc) (obj_name u') = Some old) as Hold' by (by rewrite Hnd).
    destruct (apiUpdate_stored _ _ _ _ Hold') as (w' & Hup & Hst). rewrite Hnd in Hst.
    destruct (admits_deployment (Some old) u') as (An & Aa & As & Ar).
    exists w', d, (admitted (Some old) u'). split_and!.
    + unfold withErr. erewrite bind_Ok; [|apply attempt_Ok].
      2:{ rewrite (bind_Ok _ _ _ w u'); [|by rewrite Hu'].
          rewrite (bind_Ok _ _ _ w' (admitted (Some old) u')); [reflexivity|].
          by apply updateOnConflict_accepted; [|unfold DefaultBackoff; lia]. }
      reflexivity.
    + done.
    + specialize (J_update (oc_ns oc) u' w HJ). rewrite Hup in J_update. split; [done|].
      intros ns n o. rewrite Hst. case_decide as E; [|apply Hwf]. intros [= <-]. simplify_eq.
      split; [congruence|]. split; [apply Ar; rewrite Hrr; by eexists|by eapply annotated_unedited].
    + intros ns n Hne. rewrite Hst. by rewrite decide_False.
    + rewrite Hst. by rewrite decide_True.
    + split; [rewrite As, Hs; exact Hsel|].
      eapply deploymentEqual_stored; [|exact Hun|subst u; simpl; congruence|done..].
      unfold lastApplied. by rewrite Aa.
  - unfold DeleteDeployment. rewrite <- Hname in Hold.
    destruct (apiDelete_stored _ _ _ _ Hold) as (w1 & Hdel & Hst). rewrite Hname in *.
    rewrite (bind_Ok _ _ _ _ _ (attempt_Ok _ _ _ _ Hdel)).
    destruct (SetDeployment_total d) as [d' Hd']. unfold annotated. rewrite Hd'.
    destruct (create_settles oc d d' w1) as (w2 & Hc & Hwf2 & Hch & now & Hnow & Hin); [..|done|done|].
    { by rewrite Hst, decide_True. }
    { specialize (J_delete (oc_ns oc) (obj_name d) w HJ). rewrite Hdel in J_delete. split; [done|].
      intros ns n o. rewrite Hst. case_decide; [done|apply Hwf]. }
    exists w2, d', now. split_and!; [| |done| |done|done].
    + unfold withErr. by rewrite (bind_Ok _ _ _ _ _ (attempt_Ok _ _ _ _ Hc)).
    + by destruct (SetDeployment_facts _ _ Hd').
    + intros ns n Hne. rewrite Hch, Hst by done. by rewrite decide_False.
Qed.

(** *** One deployment *)
Section one.
Context (I : OnecloudCluster → Prop) (post : SM W unit).
Hypothesis post_ok : ∀ oc w, I oc → ∃ oc', post (oc, w) = ((oc', w), Ok tt) ∧ I oc' ∧ oc_ns oc' = oc_ns oc.

(** A wanted deployment, whatever is there, is then as wanted; and if it was
    already, nothing is written and the object is left as it was. *)
Lemma syncFunc_settles oc w d :
  I oc → wf_world w → wf_deployment d →
  ∃ oc' w' d' e now, syncFunc post d false (oc, w) = ((oc', w'), Ok (d', e)) ∧
    I oc' ∧ oc_ns oc' = oc_ns oc ∧ wf_world w' ∧ obj_name d' = obj_name d ∧
    only_changes (oc_ns oc) (obj_name d) w w' ∧
    stored w' (oc_ns oc) (obj_name d) = Some now ∧ in_sync d now ∧
    (∀ old, stored w (oc_ns oc) (obj_name d) = Some old → in_sync d old →
       w' = w ∧ d' = d ∧ e = None).
Proof.
  intros HI Hwf Hd. unfold syncFunc. rewrite (bind_Ok _ _ _ _ _ (getoc_eq oc w)).
  destruct (stored w (oc_ns oc) (obj_name d)) as [old|] eqn:Hst.
  - rewrite (bind_Ok _ _ _ (oc, w) (inr old)).
    2:{ apply kube_attempt_Ok. by rewrite listerGet_stored, Hst. }
    destruct (update_settles oc d old w Hst Hwf Hd)
      as (w' & d' & now & Hup & Hn & Hwf' & Hch & Hnow & Hin).
    destruct (post_ok oc w' HI) as (oc' & Hpost & HI' & Hns).
    exists oc', w', d', None, now. split_and!; [|done..|].
    + rewrite (bind_Ok _ _ _ _ _ (kube_eq _ _ _ _ _ Hup)). unfold withErr.
      by rewrite (bind_Ok _ _ _ _ _ (attempt_Ok _ _ _ _ (wrap_Ok _ _ _ _ _ Hpost))).
    + intros old' [= <-] Hin'. rewrite (updateDeployment_in_sync _ _ _ _ Hin') in Hup. by simplify_eq.
  - rewrite (bind_Ok _ _ _ (oc, w) (inl ErrNotFound)).
    2:{ apply kube_attempt_Err. by rewrite listerGet_stored, Hst. }
    simpl. destruct (SetDeployment_total d) as [d' Hd']. unfold annotated. rewrite Hd'.
    destruct (create_settles oc d d' w Hst Hwf Hd Hd') as (w' & Hc & Hwf' & Hch & now & Hnow & Hin).
    destruct (post_ok oc w' HI) as (oc' & Hpost & HI' & Hns).
    eexists oc', w', d', _, now. split_and!; [|done|done|done| |done..].
    + unfold withErr. erewrite bind_Ok; [reflexivity|]. apply attempt_Err.
      rewrite (bind_Ok _ _ _ _ _ (kube_eq _ _ _ _ _ Hc)).
      rewrite (bind_Ok _ _ _ _ _ (wrap_Ok _ _ _ _ _ Hpost)). reflexivity.
    + by destruct (SetDeployment_facts _ _ Hd').
Qed.

(** A deployment that is not wanted is gone afterwards. *)
Lemma syncFunc_removes oc w d :
  wf_world w →
  ∃ w', syncFunc post d true (oc, w) = ((oc, w'), Ok (d, None)) ∧ wf_world w' ∧
    only_changes (oc_ns oc) (obj_name d) w w' ∧ stored w' (oc_ns oc) (obj_name d) = None ∧
    (stored w (oc_ns oc) (obj_name d) = None → w' = w).
Proof.
  intros Hwf. unfold syncFunc. rewrite (bind_Ok _ _ _ _ _ (getoc_eq oc w)).
  destruct (stored w (oc_ns oc) (obj_name d)) as [old|] eqn:Hst.
  - rewrite (bind_Ok _ _ _ (oc, w) (inr old)).
    2:{ apply kube_attempt_Ok. by rewrite listerGet_stored, Hst. }
    destruct Hwf as [HJ Hwf]. destruct (Hwf _ _ _ Hst) as [Hname _]. rewrite <- Hname in Hst.
    destruct (apiDelete_stored _ _ _ _ Hst) as (w' & Hdel & Hst'). exists w'. split_and!; [..|done].
    + unfold withErr, DeleteDeployment.
      by rewrite (bind_Ok _ _ _ _ _ (attempt_Ok _ _ _ _ (kube_eq _ oc _ _ _ Hdel))).
    + specialize (J_delete (oc_ns oc) (obj_name old) w HJ). rewrite Hdel in J_delete. split; [done|].
      intros ns n o. rewrite Hst'. case_decide; [done|apply Hwf].
    + intros ns n Hne. rewrite Hst', Hname. by rewrite decide_False.
    + rewrite Hst', Hname. by rewrite decide_True.
  - rewrite (bind_Ok _ _ _ (oc, w) (inl ErrNotFound)).
    2:{ apply kube_attempt_Err. by rewrite listerGet_stored, Hst. }
    by exists w.
Qed.

(** What the server should hold: nothing when the deployment is [unwanted]. *)
Definition as_wanted (unwanted : bool) (d : Deployment) (o : option Deployment) : Prop :=
  if unwanted then o = None else ∃ now, o = Some now ∧ in_sync d now.

(** Both cases: afterwards the server holds what it should, and when it did
    before nothing is written. *)
Lemma syncFunc_spec unwanted oc w d :
  I oc → wf_world w → (unwanted = false → wf_deployment d) →
  ∃ oc' w' d' e, syncFunc post d unwanted (oc, w) = ((oc', w'), Ok (d', e)) ∧
    I oc' ∧ oc_ns oc' = oc_ns oc ∧ wf_world w' ∧ obj_name d' = obj_name d ∧
    only_changes (oc_ns oc) (obj_name d) w w' ∧
    as_wanted unwanted d (stored w' (oc_ns oc) (obj_name d)) ∧
    (as_wanted unwanted d (stored w (oc_ns oc) (obj_name d)) → w' = w ∧ d' = d ∧ e = None).
Proof.
  intros HI Hwf Hd. destruct unwanted; simpl.
  - destruct (syncFunc_removes oc w d Hwf) as (w' & H1 & H2 & H3 & H4 & H5).
    exists oc, w', d, None. split_and!; auto.
  - destruct (syncFunc_settles oc w d HI Hwf (Hd eq_refl))
      as (oc' & w' & d' & e & now & H1 & H2 & H3 & H4 & H5 & H6 & H7 & H8 & H9).
    exists oc', w', d', e. split_and!; [done..|by exists now|].
    intros (old & Hold & Hin). eauto.
Qed.
End one.

(** *** The deployments of a component *)

(** Why a component should have no deployments: it is disabled, it is not part
    of the product version, or the services are stopped, which the name
    service of the virtual networks and the data base of the metrics outlive. *)
Definition to_be_gone (StopServices : bool) (f : cloudComponentFactory W) (oc : OnecloudCluster) : Prop :=
  IsDisabled f oc = true ∨ isInProductVersion f oc = false ∨
  (StopServices = true ∧ GetComponentType f ∉ [OvnNorthComponentType; InfluxdbComponentType]).

Lemma deploymentUnwanted_spec StopServices f oc :
  deploymentUnwanted StopServices f oc = true ↔ to_be_gone StopServices f oc.
Proof.
  unfold deploymentUnwanted, to_be_gone. rewrite <- IsInStringArray_spec, not_true_iff_false.
  rewrite !orb_true_iff, andb_true_iff, !negb_true_iff. tauto.
Qed.

(** What a manager wants: it builds the deployment [d], and from a deployment
    its read-only companion [ro], the same way each time it is asked and with
    every configuration in [C] the operator may read; nothing it does to the
    cluster changes that ([I] is what it relies on). *)
Record manages (StopServices : bool) (f : cloudComponentFactory W) (zone : string)
    (C : OnecloudClusterConfig → Prop) (I : OnecloudCluster → Prop) (unwanted : bool)
    (d : Deployment) (ro : Deployment → option Deployment) : Prop := {
  manages_config : ∀ oc w, I oc → wf_world w → ∃ n cfg,
    clusterConfig (oc, w) = ((oc, set_drawn n w), Ok cfg) ∧ C cfg;
  manages_deployment : ∀ cfg oc w, C cfg → I oc → wf_world w → ∃ oc',
    getDeployment f cfg zone (oc, w) = ((oc', w), Ok (Some d)) ∧ I oc' ∧ oc_ns oc' = oc_ns oc;
  manages_readonly : ∀ cfg oc w d', C cfg → I oc → wf_world w →
    getReadonlyDeployment f cfg zone d' (oc, w) = ((oc, w), Ok (ro d'));
  manages_unwanted : ∀ oc, I oc → unwanted = true ↔ to_be_gone StopServices f oc;
  manages_status : ∀ r g oc, getDeploymentStatus f zone = Some r → I oc →
    I (assign r g oc) ∧ oc_ns (assign r g oc) = oc_ns oc;
  manages_wf : wf_deployment d;
  manages_ro_wf : ∀ d' r, obj_name d' = obj_name d → ro d' = Some r →
    wf_deployment r ∧ obj_name r ≠ obj_name d
}.

(** The read-only companion of [d], as the server should hold it. *)
Definition ro_as_wanted (f : cloudComponentFactory W) (unwanted : bool)
    (ro : option Deployment) (ns : string) (w : W) : Prop :=
  if supportsReadOnlyService f then
    match ro with
    | None => True
    | Some r => as_wanted (unwanted || noReplicas r) r (stored w ns (obj_name r))
    end
  else True.

Lemma ro_as_wanted_draw f unwanted ro ns n w :
  ro_as_wanted f unwanted ro ns (set_drawn n w) = ro_as_wanted f unwanted ro ns w.
Proof. unfold ro_as_wanted. repeat case_match; [by rewrite draws_apart|done..]. Qed.

Section component.
Context (StopServices : bool) (f : cloudComponentFactory W) (zone : string).
Context (C : OnecloudClusterConfig → Prop) (I : OnecloudCluster → Prop) (unwanted : bool).
Context (d : Deployment) (ro : Deployment → option Deployment).
Hypothesis Hman : manages StopServices f zone C I unwanted d ro.

Lemma manages_unwanted_eq oc : I oc → deploymentUnwanted StopServices f oc = unwanted.
Proof.
  intros HI. pose proof (manages_unwanted _ _ _ _ _ _ _ _ Hman oc HI) as Hu.
  pose proof (deploymentUnwanted_spec StopServices f oc) as Hs.
  apply eq_true_iff_eq. tauto.
Qed.

Lemma instanceOf_reads ns n msg oc (w : W) :
  ∃ x, instanceOf ns n msg (oc, w) = ((oc, w), Ok x).
Proof.
  unfold instanceOf. destruct (stored w ns n) as [o|] eqn:Hst.
  - exists o. rewrite (bind_Ok _ _ _ (oc, w) (inr o)); [done|].
    apply kube_attempt_Ok. by rewrite apiGet_stored, Hst.
  - exists zero. rewrite (bind_Ok _ _ _ (oc, w) (inl ErrNotFound)); [done|].
    apply kube_attempt_Err. by rewrite apiGet_stored, Hst.
Qed.

Lemma postSync_ok x y oc (w : W) : I oc → ∃ oc',
  newPostSyncComponent f x y zone (oc, w) = ((oc', w), Ok tt) ∧ I oc' ∧ oc_ns oc' = oc_ns oc.
Proof.
  intros HI. unfold newPostSyncComponent.
  destruct (getDeploymentStatus f zone) as [r|] eqn:Hr; [|by exists oc].
  pose proof (λ g oc, manages_status _ _ _ _ _ _ _ _ Hman r g oc Hr) as Hst.
  unfold modoc, bind. destruct y as [y|].
  - eexists. split; [reflexivity|]. destruct (Hst (λ st,
        st <| DeploymentStatus_Deployment := Some (Deployment_Status x) |>
           <| DeploymentStatus_Phase := if deploymentIsUpgrading x then UpgradePhase else NormalPhase |>
           <| DeploymentStatus_ImageStatus := getImageStatus x |>) oc HI) as [H1 H2].
    rewrite <- H2. by apply Hst.
  - eexists. split; [reflexivity|]. by apply Hst.
Qed.

Lemma postFunc_ok x oc (w : W) : I oc → ∃ oc',
  postFunc f (Some (newPostSyncComponent f)) x zone (oc, w) = ((oc', w), Ok tt) ∧
  I oc' ∧ oc_ns oc' = oc_ns oc.
Proof.
  intros HI. unfold postFunc.
  destruct (instanceOf_reads (ObjectMeta_Namespace (Deployment_ObjectMeta x)) (obj_name x)
              ("get deployment " +:+ obj_name x) oc w) as [dep Hdep].
  rewrite (bind_Ok _ _ _ _ _ Hdep). destruct (supportsReadOnlyService f); [|by apply postSync_ok].
  destruct (instanceOf_reads (ObjectMeta_Namespace (Deployment_ObjectMeta x)) (obj_name x +:+ "-slave")
              ("get readonly deployment " +:+ obj_name x +:+ "-slave") oc w) as [r Hr].
  rewrite (bind_Ok _ _ _ _ _ Hr). by apply postSync_ok.
Qed.

Definition sync_deployments : SM W unit :=
  syncDeployment StopServices f (Some (newPostSyncComponent f)) zone.

(** The read-only companion of what the main deployment has become. *)
Definition readonly_pass (cfg : OnecloudClusterConfig) (d' : Deployment) (errs : list error) : SM W (list error) :=
  if supportsReadOnlyService f then
    let! r := getReadonlyDeployment f cfg zone d' in
    match r with
    | None => ret errs
    | Some r =>
        let! '(r', errRo) := syncFunc (postFunc f (Some (newPostSyncComponent f)) d zone) r
                               (unwanted || noReplicas r) in
        ret (errs ++ wrapErr ("sync readonly deployment " +:+ obj_name r') errRo)
    end
  else ret errs.

Lemma readonly_pass_spec cfg d' errs oc w :
  C cfg → I oc → wf_world w → obj_name d' = obj_name d →
  ∃ oc' w' errs', readonly_pass cfg d' errs (oc, w) = ((oc', w'), Ok errs') ∧ I oc' ∧
    oc_ns oc' = oc_ns oc ∧ wf_world w' ∧
    stored w' (oc_ns oc) (obj_name d) = stored w (oc_ns oc) (obj_name d) ∧
    ro_as_wanted f unwanted (ro d') (oc_ns oc) w' ∧
    (ro_as_wanted f unwanted (ro d') (oc_ns oc) w → w' = w ∧ errs' = errs).
Proof.
  intros HC HI Hwf Hn. unfold readonly_pass, ro_as_wanted.
  destruct (supportsReadOnlyService f); [|exists oc, w, errs; by split_and!].
  rewrite (bind_Ok _ _ _ _ _ (manages_readonly _ _ _ _ _ _ _ _ Hman cfg oc w d' HC HI Hwf)).
  destruct (ro d') as [r|] eqn:Hr; [|exists oc, w, errs; by split_and!].
  destruct (manages_ro_wf _ _ _ _ _ _ _ _ Hman d' r Hn Hr) as [Hrwf Hrn].
  destruct (syncFunc_spec I _ (postFunc_ok d) (unwanted || noReplicas r) oc w r HI Hwf (λ _, Hrwf))
    as (oc' & w' & r' & e & H1 & H2 & H3 & H4 & H5 & H6 & H7 & H8).
  rewrite (bind_Ok _ _ _ _ _ H1). eexists oc', w', _. split; [reflexivity|]. split_and!; [done..| |done|].
  - apply H6. congruence.
  - intros Hr0. destruct (H8 Hr0) as (-> & -> & ->). split; [done|]. apply app_nil_r.
Qed.

(** One sync. *)
Lemma sync_pass oc w : I oc → wf_world w →
  ∃ oc' w' r, sync_deployments (oc, w) = ((oc', w'), r) ∧ I oc' ∧ oc_ns oc' = oc_ns oc ∧
    wf_world w' ∧ as_wanted unwanted d (stored w' (oc_ns oc) (obj_name d)) ∧
    (as_wanted unwanted d (stored w (oc_ns oc) (obj_name d)) →
       ro_as_wanted f unwanted (ro d) (oc_ns oc) w' ∧
       (ro_as_wanted f unwanted (ro d) (oc_ns oc) w → (∃ n, w' = set_drawn n w) ∧ r = Ok tt)).
Proof.
  intros HI Hwf0. unfold sync_deployments, syncDeployment.
  destruct (manages_config _ _ _ _ _ _ _ _ Hman oc w HI Hwf0) as (n & cfg & Hcfg & HC).
  rewrite (bind_Ok _ _ _ _ _ (wrap_Ok _ _ _ _ _ Hcfg)).
  rewrite <- (draws_apart n w (oc_ns oc) (obj_name d)).
  rewrite <- (ro_as_wanted_draw f unwanted (ro d) (oc_ns oc) n w).
  pose proof (wf_world_draw n w Hwf0) as Hwf.
  assert (∀ w', w' = set_drawn n w → ∃ n, w' = set_drawn n w) as Hdrew by eauto.
  remember (set_drawn n w) as v eqn:Ev. clear Hcfg Hwf0.
  destruct (manages_deployment _ _ _ _ _ _ _ _ Hman cfg oc v HC HI Hwf) as (oc0 & Hd0 & HI0 & Hns0).
  rewrite (bind_Ok _ _ _ _ _ (wrap_Ok _ _ _ _ _ Hd0)).
  rewrite (bind_Ok _ _ _ _ _ (getoc_eq oc0 v)), (manages_unwanted_eq oc0 HI0), <- Hns0.
  destruct (syncFunc_spec I _ (postFunc_ok d) unwanted oc0 v d HI0 Hwf
              (λ _, manages_wf _ _ _ _ _ _ _ _ Hman))
    as (oc1 & w1 & d1 & e1 & H1 & H2 & H3 & H4 & H5 & H6 & H7 & H8).
  rewrite (bind_Ok _ _ _ _ _ H1). fold (readonly_pass cfg d1 (wrapErr ("sync deployment " +:+ obj_name d1) e1)).
  destruct (readonly_pass_spec cfg d1 (wrapErr ("sync deployment " +:+ obj_name d1) e1) oc1 w1 HC H2 H4 H5)
    as (oc2 & w2 & errs & K1 & K2 & K3 & K4 & K5 & K6 & K7).
  rewrite (bind_Ok _ _ _ _ _ K1), H3 in *. rewrite <- K5 in H7.
  exists oc2, w2, (match NewAggregate errs with None => Ok tt | Some e => Err e end).
  split_and!; [by destruct (NewAggregate errs)|done|congruence|done|done|].
  intros Hm. destruct (H8 Hm) as (-> & -> & ->). split; [done|].
  intros Hro. destruct (K7 Hro) as [-> ->]. split; [by apply Hdrew|done].
Qed.
End component.

(** What the server should hold: nothing, or what it makes of the deployment
    the manager wants, under a selector that picks the pods of that
    deployment. *)
Definition server_holds (unwanted : bool) (d : Deployment) (o : option Deployment) : Prop :=
  if unwanted then o = None
  else ∃ now, o = Some now ∧ applied (Deployment_Spec d) now ∧
    selectorMatchesLabels (apps_DeploymentSpec_Selector (Deployment_Spec now)) (template_labels d) = true.

(** The same of the read-only companion, which should be there only with
    replicas. *)
Definition server_holds_ro (f : cloudComponentFactory W) (unwanted : bool)
    (ro : option Deployment) (ns : string) (w : W) : Prop :=
  supportsReadOnlyService f = true → ∀ r, ro = Some r →
  match apps_DeploymentSpec_Replicas (Deployment_Spec r) with
  | None | Some 0%Z => stored (T:=Deployment) w ns (obj_name r) = None
  | Some _ => server_holds unwanted r (stored w ns (obj_name r))
  end.

(** The test of the code is right about deployments nobody has edited. *)
Lemma in_sync_applied d now : unedited now → in_sync d now → applied (Deployment_Spec d) now.
Proof.
  intros Hun [_ He]. unfold deploymentEqual in He.
  destruct (lastApplied (Deployment_ObjectMeta now)) as [a|] eqn:Ha; [|done].
  destruct (Unmarshal a) as [s|e|p] eqn:Hs; [|done..].
  rewrite !andb_true_iff, !bool_decide_eq_true in He. destruct He as [[H1 H2] H3].
  destruct (Hun a s Ha Hs) as (old & x & -> & K1 & K2 & b & K3). exists old, x. split; [done|].
  split_and!; [congruence..|]. exists b. by rewrite <-H2.
Qed.

Lemma as_wanted_holds unwanted d w ns :
  wf_world w → as_wanted unwanted d (stored w ns (obj_name d)) →
  server_holds unwanted d (stored w ns (obj_name d)).
Proof.
  intros [_ Hwf]. destruct unwanted; [done|]. intros (now & Hnow & Hin). exists now.
  destruct (Hwf _ _ _ Hnow) as (_ & _ & Hun). split_and!; [done|by apply in_sync_applied|apply Hin].
Qed.

Lemma ro_as_wanted_holds f unwanted ro w ns :
  wf_world w → ro_as_wanted f unwanted ro ns w → server_holds_ro f unwanted ro ns w.
Proof.
  intros Hwf Hro Hs r ->. unfold ro_as_wanted in Hro. rewrite Hs in Hro. unfold noReplicas in Hro.
  destruct (apps_DeploymentSpec_Replicas (Deployment_Spec r)) as [n|]; [|by rewrite orb_true_r in Hro].
  destruct n; simpl in Hro; rewrite ?orb_true_r, ?orb_false_r in Hro; [done|by apply as_wanted_holds..].
Qed.
End settle.

(** C33. Two syncs of a component bring its deployment and its read-only
    companion to what its manager wants: gone when the component is disabled,
    outside the product version or stopped (the companion also when it has no
    replicas), and otherwise what the server makes of a deployment with the
    wanted replicas, strategy and template. The deployment is there after the
    first sync already; from then on a sync succeeds and writes nothing, it
    only draws passwords when it reads the configuration. The server accepts
    every request here and nobody edits a deployment under the annotation of
    what was last applied to it ([unedited], in [wf_world]: the operator would
    not see it); the manager builds the same deployments each time. *)
Theorem syncDeployment_settles {W : Type}
    `{!SessionEnv W, !ConfigCodec, !Passwords W, !ReferenceParser, !ResourceApi W Deployment,
      !ResourceApi W ConfigMap, !JsonCodec PodSpec, !JsonCodec apps_DeploymentSpec,
      !ApiStore W Deployment, !AdmitsDeployments W, !DrawsApart W}
    (J : W → Prop) (StopServices : bool) (f : cloudComponentFactory W) (zone : string)
    (C : OnecloudClusterConfig → Prop) (I : OnecloudCluster → Prop) (unwanted : bool)
    (d : Deployment) (ro : Deployment → option Deployment) (oc : OnecloudCluster) (w : W) :
  (∀ spec : apps_DeploymentSpec, ∃ a, Marshal spec = Ok a) →
  (∀ spec : PodSpec, ∃ a, Marshal spec = Ok a) →
  (∀ ns d w, J w → J (apiCreate (T:=Deployment) ns d w).1) →
  (∀ ns d w, J w → J (apiUpdate (T:=Deployment) ns d w).1) →
  (∀ ns n w, J w → J (apiDelete Deployment ns n w).1) →
  (∀ n w, J w → J (set_drawn n w)) →
  manages J StopServices f zone C I unwanted d ro →
  I oc → wf_world J w →
  let sync := syncDeployment StopServices f (Some (newPostSyncComponent f)) zone in
  let s1 := (sync (oc, w)).1 in
  let s2 := (sync s1).1 in
  (unwanted = true ↔ to_be_gone StopServices f oc) ∧
  server_holds unwanted d (stored s1.2 (oc_ns oc) (obj_name d)) ∧
  server_holds unwanted d (stored s2.2 (oc_ns oc) (obj_name d)) ∧
  server_holds_ro f unwanted (ro d) (oc_ns oc) s2.2 ∧
  (sync s2).2 = Ok tt ∧ ∃ n, (sync s2).1.2 = set_drawn n s2.2.
Proof.
  intros Hm Hm' J1 J2 J3 J4 Hman HI Hwf sync s1 s2.
  pose proof (sync_pass J J1 J2 J3 J4 Hm Hm' StopServices f zone C I unwanted d ro Hman) as Hpass.
  change (sync_deployments StopServices f zone) with sync in Hpass.
  destruct (Hpass oc w HI Hwf) as (oc1 & w1 & r1 & E1 & HI1 & Hns1 & Hwf1 & Hd1 & _).
  destruct (Hpass oc1 w1 HI1 Hwf1) as (oc2 & w2 & r2 & E2 & HI2 & Hns2 & Hwf2 & Hd2 & Hro2).
  destruct (Hpass oc2 w2 HI2 Hwf2) as (oc3 & w3 & r3 & E3 & _ & _ & _ & _ & Hro3).
  split; [by eapply manages_unwanted|].
  subst s2 s1. rewrite E1; simpl. rewrite E2; simpl. rewrite E3; simpl.
  rewrite Hns2, Hns1 in *. destruct (Hro2 Hd1) as [Hro2' _]. destruct (Hro3 Hd2) as [_ Hst].
  destruct (Hst Hro2') as [Hdr ->].
  split_and!; eauto using as_wanted_holds, ro_as_wanted_holds.
Qed.

(** An edit under the annotation stays: what the test looks at is the
    annotation, not the spec. *)
Lemma edits_stay {W} `{!ResourceApi W Deployment, !JsonCodec PodSpec, !JsonCodec apps_DeploymentSpec}
    oc d now w f :
  in_sync d now → apps_DeploymentSpec_Selector (f (Deployment_Spec now))
                  = apps_DeploymentSpec_Selector (Deployment_Spec now) →
  updateDeployment (W:=W) oc d (now <| Deployment_Spec ::= f |>) w = (w, Ok (d, None)).
Proof. intros [H1 H2] Hs. apply updateDeployment_in_sync. split; [simpl; by rewrite Hs|exact H2]. Qed.
