(* ===== verification/Texts.v ===== *)
(** * Texts: texts of the sources

    Configuration files the operator writes as they are. The strings of the
    sources are raw strings, which hold no back quote: here a back quote stands
    for a quotation mark. *)

From Stdlib Require Import Ascii.
From S2P Require Import Prelude.

Open Scope string_scope.

Fixpoint raw_text (s : string) : string :=
  match s with
  | EmptyString => EmptyString
  | String a s => String (if Ascii.eqb a "`" then "034" else a)%char (raw_text s)
  end.

(*@ pkg/util/onecloud/static.go:4-71 DevtoolTelegrafConf *)
Definition DevtoolTelegrafConf : string := raw_text "
[global_tags]
    platform = `{{ server_hypervisor }}`
    zone_id = `{{ server_zone_id }}`
    cloudregion_id = `{{ server_region_id }}`
    host_ip = `{{ server_ip }}`
    host_id = `{{ server_id }}`

[agent]
    interval = `60s`
    round_interval = true
    metric_batch_size = 1000
    metric_buffer_limit = 10000
    collection_jitter = `0s`
    flush_interval = `60s`
    flush_jitter = `0s`
    precision = ``
    debug = false
    quiet = false
    logfile = `/var/log/telegraf/telegraf.err.log`
    hostname = `{{ server_name }}`
    omit_hostname = false

[[outputs.influxdb]]
    urls = [`{{ influxdb }}`]
    database = `telegraf`
    insecure_skip_verify = true

[[inputs.cpu]]
    percpu = false
    totalcpu = true
    collect_cpu_time = false
    report_active = true

[[inputs.disk]]
    ignore_fs = [`tmpfs`, `devtmpfs`, `overlay`, `squashfs`, `iso9660`]

[[inputs.diskio]]
    skip_serial_number = false
    excludes = `^nbd`

[[inputs.kernel]]

[[inputs.kernel_vmstat]]

[[inputs.mem]]

[[inputs.processes]]

[[inputs.swap]]

[[inputs.system]]

[[inputs.net]]

[[inputs.netstat]]

[[inputs.nstat]]

[[inputs.ntpq]]
    dns_lookup = false

[[inputs.internal]]
    collect_memstats = false

[[inputs.http_listener]]
    service_address = `localhost:8087`
".

(*@ pkg/service-init/component/web.go:25-38 CEConfig *)
Definition CEConfig : string := raw_text "
    location / {
        root /usr/share/nginx/html/web;
        index index.html;
        add_header Cache-Control no-cache;
        add_header X-Frame-Options `SAMEORIGIN`;
        add_header X-XSS-Protection `1; mode=block`;
        expires 1s;
        if (!-e $request_filename) {
            rewrite ^/(.*) /index.html last;
            break;
        }
    }
".

(*@ pkg/service-init/component/web.go:40-68 EEConfig *)
Definition EEConfig : string := raw_text "
    location ~ ^/v[12]/ { rewrite ^/v.(.*)$ $1 redirect; }

    location / {
        root   /usr/share/nginx/html/dashboard;
        index index.html;
        add_header X-Frame-Options `SAMEORIGIN`;
        add_header X-XSS-Protection `1; mode=block`;
        try_files $uri $uri/ /index.html;
    }

    location ~ ^/(overview|overview-private|charts) {
        proxy_pass http://localhost:8080;
        proxy_redirect   off;
        proxy_set_header Host $host;
        proxy_set_header X-Real-IP $remote_addr;
        proxy_set_header X-Forwarded-For $proxy_add_x_forwarded_for;
        proxy_set_header X-Forwarded-Proto https;
    }

    location /docs {
        proxy_pass http://localhost:8081;
        proxy_redirect   off;
        proxy_set_header Host $host;
        proxy_set_header X-Real-IP $remote_addr;
        proxy_set_header X-Forwarded-For $proxy_add_x_forwarded_for;
        proxy_set_header X-Forwarded-Proto https;
    }
".

(*@ pkg/service-init/component/web.go:70-288 WebNginxConfigTemplate *)
Definition WebNginxConfigTemplate : string := raw_text "
map $http_upgrade $connection_upgrade {
    default upgrade;
    '' close;
}

server {
	{{- if .UseHTTP}}
    listen 80 default_server;
	{{- if .EnableIPv6}}
    listen [::]:80 default_server;
	{{- end }}
    server_name _;
	{{- else }}
    listen 443 default_server ssl;
	{{- if .EnableIPv6}}
    listen [::]:443 default_server ssl;
	{{- end }}
    server_name _;
    ssl_certificate /etc/yunion/pki/service.crt;
    ssl_certificate_key /etc/yunion/pki/service.key;
	{{- end }}

    gzip_static on;
    gzip on;
    gzip_proxied any;
    gzip_min_length  1k;
    gzip_buffers     4 16k;
    gzip_http_version 1.0;
    gzip_comp_level 5;
    gzip_types text/plain application/javascript application/css text/css application/xml application/json text/javascript application/x-httpd-php image/jpeg image/gif image/png;
    gzip_vary on;
    chunked_transfer_encoding off;
    underscores_in_headers on;

    client_body_buffer_size 16k;
    client_header_buffer_size 16k;
    client_max_body_size 8m;
    large_client_header_buffers 2 16k;
    client_body_timeout 20s;
    client_header_timeout 20s;

{{.EditionConfig}}

    location /static/ {
        # Some basic cache-control for static files to be sent to the browser
        root /usr/share/nginx/html/web;
        expires max;
        add_header Pragma public;
        add_header Cache-Control `public, must-revalidate, proxy-revalidate`;
    }

    location /itsm {
        alias /usr/share/nginx/html/itsm;
        index index.html;
        add_header Cache-Control no-cache;
        expires 1s;
        if (!-e $request_filename) {
            rewrite ^/(.*) /itsm/index.html last;
            break;
        }
    }

    location /static-itsm/ {
        root /usr/share/nginx/html/itsm;
        expires max;
        add_header Pragma public;
        add_header Cache-Control `public, must-revalidate, proxy-revalidate`;
    }

    location ~* /static/images/favicon.* {
        root /usr/share/nginx/html/login;
        expires max;
        add_header Pragma public;
        add_header Cache-Control `public, must-revalidate, proxy-revalidate`;
    }

    location /api {
        proxy_pass {{.APIGatewayURL}};
        proxy_redirect   off;
        proxy_set_header Host $host;
        proxy_set_header X-Real-IP $remote_addr;
        proxy_set_header X-Forwarded-For $proxy_add_x_forwarded_for;

        proxy_buffer_size  16k;
        proxy_buffers   32 16k;
        proxy_busy_buffers_size 16k;
        proxy_temp_file_write_size 16k;
        proxy_read_timeout 600;
    }

    location /api/s/image/v1/images {
        client_max_body_size 0;
        client_body_timeout 300;
        proxy_http_version 1.1;
        proxy_request_buffering off;
        proxy_buffering off;
        proxy_set_header Host $host;
        proxy_set_header X-Real-IP $remote_addr;
        proxy_set_header X-Forwarded-For $remote_addr;
        rewrite ^/api/s/image/(.*)$ /$1 break;
        proxy_pass {{.GlanceURL}};
    }

    location /api/v1/imageutils/upload {
        proxy_pass {{.APIGatewayURL}};
        client_max_body_size 0;
        client_body_timeout 300;
        proxy_http_version 1.1;
        proxy_request_buffering off;
        proxy_buffering off;
        proxy_set_header Host $host;
        proxy_set_header X-Real-IP $remote_addr;
        proxy_set_header X-Forwarded-For $remote_addr;
    }

    location /api/v1/s3uploads {
        proxy_pass {{.APIGatewayURL}};
        client_max_body_size 0;
        client_body_timeout 300;
        proxy_http_version 1.1;
        proxy_request_buffering off;
        proxy_buffering off;
        proxy_set_header Host $host;
        proxy_set_header X-Real-IP $remote_addr;
        proxy_set_header X-Forwarded-For $remote_addr;
    }

    location /query {
        proxy_pass {{.APIGatewayURL}};
        proxy_redirect   off;
        proxy_set_header Host $host;
        proxy_set_header X-Real-IP $remote_addr;
        proxy_set_header X-Forwarded-For $proxy_add_x_forwarded_for;
    }

    location ~ ^/api/v1/webconsole/.+/(download|upload)$ {
        client_max_body_size 0;
        client_body_timeout 300;
        proxy_http_version 1.1;
        proxy_request_buffering off;
        proxy_buffering off;
        proxy_set_header Host $host;
        proxy_set_header X-Real-IP $remote_addr;
        proxy_set_header X-Forwarded-For $remote_addr;
        proxy_read_timeout 3600s;
        proxy_send_timeout 3600s;
        proxy_pass {{.APIGatewayURL}};
    }

    location ~ ^/(vnc|spice|wmks|sol) {
        proxy_pass {{.WebconsoleURL}};
        proxy_redirect   off;
        proxy_set_header Host $host;
        proxy_set_header X-Real-IP $remote_addr;
        proxy_set_header X-Forwarded-For $proxy_add_x_forwarded_for;
    }

    location ~ ^/(websockify|wsproxy|connect) {
        proxy_pass {{.WebconsoleURL}};
        proxy_redirect   off;
        proxy_set_header Host $host;
        proxy_set_header X-Real-IP $remote_addr;
        proxy_set_header X-Forwarded-For $proxy_add_x_forwarded_for;

        proxy_http_version 1.1;
        proxy_set_header Upgrade $http_upgrade;
        proxy_set_header Connection `upgrade`;

        proxy_read_timeout 86400;
        proxy_send_timeout 86400;
    }

    location /web-console {
        alias /usr/share/nginx/html/web-console;
        index index.html;
        if (!-e $request_filename) {
            rewrite ^/(.*) /web-console/index.html last;
            break;
        }
    }

    location /ws {
        proxy_pass {{.APIGatewayWsURL}};
        proxy_redirect   off;
        proxy_set_header Host $host;
        proxy_set_header X-Real-IP $remote_addr;
        proxy_set_header X-Forwarded-For $proxy_add_x_forwarded_for;

        proxy_http_version 1.1;
        proxy_set_header Upgrade $http_upgrade;
        proxy_set_header Connection `upgrade`;

        proxy_read_timeout 86400;
    }

    location /socket.io/ {
        proxy_pass {{.APIGatewayWsURL}};
        proxy_redirect   off;
        proxy_set_header Host $host;
        proxy_set_header X-Real-IP $remote_addr;
        proxy_set_header X-Forwarded-For $proxy_add_x_forwarded_for;

        proxy_http_version 1.1;
        proxy_set_header Upgrade $http_upgrade;
        proxy_set_header Connection `upgrade`;

        proxy_read_timeout 86400;
    }

    location /baremetal-prepare/ {
        # Some basic cache-control for static files to be sent to the browser
        root /opt/cloud/yunion/baremetal/;
        expires max;
        add_header Pragma public;
        add_header Cache-Control `public, must-revalidate, proxy-revalidate`;
    }
}
".

(*@ pkg/service-init/component/influxdb.go:26-57 InfluxDBConfigTemplate *)
Definition InfluxDBConfigTemplate : string := raw_text "
[meta]
  # Where the metadata/raft database is stored
  dir = `/var/lib/influxdb/meta`

  # Automatically create a default retention policy when creating a database.
  retention-autocreate = true

  # If log messages are printed for the meta service
  # logging-enabled = true
  # default-retention-policy-name = `default`
  default-retention-policy-name = `30day_only`

[data]
  # The directory where the TSM storage engine stores TSM files.
  dir = `/var/lib/influxdb/data`

  # The directory where the TSM storage engine stores WAL files.
  wal-dir = `/var/lib/influxdb/wal`

  max-series-per-database = 0
  max-values-per-tag = 0

[http]
  https-enabled = true
  https-certificate = `{{.CertPath}}`
  https-private-key = `{{.KeyPath}}`
  bind-address = `:{{.Port}}`

[subscriber]
  insecure-skip-verify = true
".

(*@ pkg/manager/component/itsm.go:21-108 ItsmTemplate *)
Definition ItsmTemplate : string := raw_text "
debug=false
trace=false

# BANNER
banner.charset=UTF-8

# LOGGING
logging.level.com.yunion=INFO

# OUTPUT
spring.output.ansi.enabled=ALWAYS
spring.security.basic.enabled=false

# ----------------------------------------
# WEB PROPERTIES
# ----------------------------------------

# EMBEDDED SERVER CONFIGURATION (ServerProperties)
server.port={{.Port}}
server.session-timeout=180
server.context-path=/
server.tomcat.basedir=.
server.tomcat.uri-encoding=UTF-8
server.tomcat.accesslog.enabled=true
server.tomcat.accesslog.dir=access_logs
server.tomcat.accesslog.file-date-format=.yyyy-MM-dd
server.tomcat.accesslog.prefix=access_log
server.tomcat.accesslog.suffix=.log
server.tomcat.accesslog.rotate=true

# ----------------------------------------
# DATA PROPERTIES
# ----------------------------------------

# DATASOURCE (DataSourceAutoConfiguration & DataSourceProperties)
datasource.primary.jdbc-url=jdbc:mysql://{{.DBHost}}:{{.DBPort}}/{{.DB}}?useUnicode=true&characterEncoding=utf8&zeroDateTimeBehavior=convertToNull&useSSL=false&createDatabaseIfNotExist=true
datasource.primary.username={{.DBUser}}
datasource.primary.password={{.DBPassowrd}}
datasource.primary.driver-class-name=com.mysql.cj.jdbc.Driver
datasource.primary.initialize=false
datasource.primary.continue-on-error=false
datasource.primary.sql-script-encoding=utf-8
datasource.primary.schema=classpath:sql/schema.sql
datasource.primary.initialization-mode=always

datasource.secondary.jdbc-url=jdbc:mysql://{{.DBHost}}:{{.DBPort}}/{{.DB2nd}}?useUnicode=true&characterEncoding=utf8&zeroDateTimeBehavior=convertToNull&useSSL=false&createDatabaseIfNotExist=true&useTimezone=true&serverTimezone=UTC
datasource.secondary.username={{.DBUser}}
datasource.secondary.password={{.DBPassowrd}}
datasource.secondary.driver-class-name=com.mysql.cj.jdbc.Driver
datasource.secondary.initialize=false
datasource.secondary.continue-on-error=false
datasource.secondary.sql-script-encoding=utf-8

# ----------------------------------------
# PROCESS SERVICE PROPERTIES
# ----------------------------------------

# Workflow
camunda.bpm.history-level=FULL
camunda.bpm.filter.create=All tasks
camunda.bpm.database.type=mysql


# ----------------------------------------
# Custom PROPERTIES
# ----------------------------------------

# OneCloud Authentication
yunion.rc.auth.url={{.AuthURL}}
yunion.rc.auth.domain={{.AuthDomain}}
yunion.rc.auth.username={{.AuthUsername}}
yunion.rc.auth.password={{.AuthPassword}}
yunion.rc.auth.project={{.AuthProject}}
yunion.rc.auth.region={{.Region}}
yunion.rc.auth.cache-size=500
yunion.rc.auth.timeout=1000
yunion.rc.auth.debug=true
yunion.rc.auth.insecure=true
yunion.rc.auth.refresh-interval=300000

# email notify.
yunion.rc.email.link.parameter.name=mail-call-back-address
yunion.rc.email.link.parameter.key=address
yunion.rc.email.link.encryption.key={{.EncryptionKey}}

#
non_default_domain_projects=false".

(*@ pkg/manager/component/regiondns.go:36-80 RegionDNSConfigTemplate *)
Definition RegionDNSConfigTemplate : string := raw_text ".:53 {
    cancel
    whoami
    bufsize 1232
    log {
        class error
    }
    errors
    ready
    local
    loadbalance round_robin

    cache {{.CacheTtl}} {
        success 4096
        denial  1024
        prefetch 512
        serve_stale
        servfail 0
    }
    loop
    reload

    yunion . {
        sql_connection {{.SQLConnection}}
        {{- if .DNSDomain }}
        dns_domain {{.DNSDomain}}
        {{- end }}
        auth_url {{.AuthURL}}
        admin_user {{.AdminUser}}
        admin_domain {{.AdminDomain}}
        admin_password {{.AdminPassword}}
        admin_project {{.AdminProject}}
        admin_project_domain {{.AdminProjectDomain}}
        region {{.Region}}
        {{if .InCloudOnly}}in_cloud_only
        {{end}}fallthrough .
    }

    {{- range .Proxies }}

    forward {{.From}} {{.To}} {
        max_fails 5
    }
    {{- end }}
}".
