(* ===== verification/Endpoints.v ===== *)
(** * Endpoints: the endpoints the components register

    The part of [pkg/controller/onecloud_control.go] every component uses in
    its setup: from the cluster and the port of a component to the URLs of
    its interfaces, registered in a session. *)

From S2P Require Import Prelude K8s Types Constants GoStrings.
From S2P Require Import ControllerUtils LastApplied KubeApi Controls Session CloudApi.
From S2P Require Import Databases Sync.

Open Scope string_scope.
Open Scope list_scope.
Open Scope go_scope.

(*@ pkg/apis/onecloud/v1alpha1/onecloudcluster.go:21-27 GetRegion *)
Definition GetRegion (oc : OnecloudCluster) : string :=
  let id := RegionStatus_RegionId (OnecloudClusterStatus_RegionServer (OnecloudCluster_Status oc)) in
  if str_empty id then OnecloudClusterSpec_Region (OnecloudCluster_Spec oc) else id.

(** The empty name stands for the default zone. *)
(*@ pkg/apis/onecloud/v1alpha1/onecloudcluster.go:29-43 GetZone *)
Definition GetZone (oc : OnecloudCluster) (zoneName : string) : string :=
  let st := OnecloudClusterStatus_RegionServer (OnecloudCluster_Status oc) in
  if str_empty zoneName then
    if str_empty (RegionStatus_ZoneId st) then OnecloudClusterSpec_Zone (OnecloudCluster_Spec oc)
    else RegionStatus_ZoneId st
  else default zoneName (RegionStatus_CustomZones st !! zoneName).

(** ** An endpoint *)

(*@ pkg/controller/onecloud_control.go:426-431 endpoint *)
Record endpoint := MkEndpoint {
  endpoint_Host : string;
  endpoint_Port : Z;
  endpoint_Path : string;
  endpoint_Interface : string
}.

(*@ pkg/controller/onecloud_control.go:433-435 getKey *)
Definition getKey (ep : endpoint) : string := endpoint_Interface ep.

(*@ pkg/controller/onecloud_control.go:437-444 newEndpointByInterfaceType *)
Definition newEndpointByInterfaceType (host : string) (port : Z) (path infType : string) : endpoint :=
  MkEndpoint host port path infType.

(*@ pkg/controller/onecloud_control.go:446-448 newPublicEndpoint *)
Definition newPublicEndpoint (host : string) (port : Z) (path : string) : endpoint :=
  newEndpointByInterfaceType host port path EndpointTypePublic.

(*@ pkg/controller/onecloud_control.go:450-452 newInternalEndpoint *)
Definition newInternalEndpoint (host : string) (port : Z) (path : string) : endpoint :=
  newEndpointByInterfaceType host port path EndpointTypeInternal.

(*@ pkg/controller/onecloud_control.go:454-456 newSlaveEndpoint *)
Definition newSlaveEndpoint (host : string) (port : Z) (path : string) : endpoint :=
  newEndpointByInterfaceType host port path EndpointTypeSlave.

(*@ pkg/controller/onecloud_control.go:458-465 GetProtocolUrl *)
Definition GetProtocolUrl (e : endpoint) (proto : string) : string :=
  let url := proto +:+ "://" +:+ FormatHost (endpoint_Host e) +:+ ":" +:+ dec (endpoint_Port e) in
  if str_empty (endpoint_Path e) then url else url +:+ "/" +:+ endpoint_Path e.

(*@ pkg/controller/onecloud_control.go:467-473 GetUrl *)
Definition GetUrl (e : endpoint) (enableSSL : bool) : string :=
  GetProtocolUrl e (if enableSSL then "https" else "http").

(** [urls[key] = url], keeping the order of insertion. *)
Fixpoint put_url (key url : string) (urls : list (string * string)) : list (string * string) :=
  match urls with
  | [] => [(key, url)]
  | (k, u) :: urls => if String.eqb key k then (k, url) :: urls else (k, u) :: put_url key url urls
  end.

(** The map of the URLs, in the order of insertion. Go ranges over it in any
    order; [register_settles] holds for every list of distinct interfaces, that
    is, for every order. *)
(*@ pkg/controller/onecloud_control.go:497-500 registerServiceEndpointsBySession (urls) *)
Definition endpointUrls (eps : list endpoint) (enableSSL : bool) : list (string * string) :=
  foldl (λ urls ep, put_url (getKey ep) (GetUrl ep enableSSL) urls) [] eps.

(** The endpoints of a component: the public address is that of the load
    balancer, the others are services of the cluster. *)
(*@ pkg/controller/onecloud_control.go:480-491 RegisterCloudServiceEndpoint (eps) *)
Definition cloudServiceEndpoints (oc : OnecloudCluster) (cType : ComponentType) (port : Z)
    (prefix : string) (hasRoEndpoint : bool) : list endpoint :=
  let internalAddress := NewClusterComponentName (oc_name oc) cType in
  let publicAddress := default_str internalAddress
                         (OnecloudClusterSpec_LoadBalancerEndpoint (OnecloudCluster_Spec oc)) in
  [newPublicEndpoint publicAddress port prefix; newInternalEndpoint internalAddress port prefix]
  ++ if hasRoEndpoint then [newSlaveEndpoint (internalAddress +:+ "-slave") port prefix] else [].

(** ** In a session *)
Section endpoints.
Context {W : Type} `{!SessionEnv W, !JsonUtils, !CloudApi W}.
Context (SessionDebug : bool).

(*@ pkg/controller/onecloud_control.go:496-503 registerServiceEndpointsBySession *)
Definition registerServiceEndpointsBySession (s : ClientSession W) (serviceName serviceType : string)
    (eps : list endpoint) (enableSSL : bool) : SM W unit :=
  let! oc := getoc in
  kube (RegisterServiceEndpoints s (OnecloudClusterSpec_Region (OnecloudCluster_Spec oc)) serviceName
          serviceType "" (endpointUrls eps enableSSL)).

(*@ pkg/controller/onecloud_control.go:505-509 registerServiceEndpoints *)
Definition registerServiceEndpoints (serviceName serviceType : string) (eps : list endpoint)
    (enableSSL : bool) : SM W unit :=
  RunWithSession SessionDebug (λ s,
    registerServiceEndpointsBySession s serviceName serviceType eps enableSSL).

(*@ pkg/controller/onecloud_control.go:475-494 RegisterCloudServiceEndpoint *)
Definition RegisterCloudServiceEndpoint (cType : ComponentType) (serviceName serviceType : string)
    (port : Z) (prefix : string) (enableSsl hasRoEndpoint : bool) : SM W unit :=
  let! oc := getoc in
  registerServiceEndpoints serviceName serviceType
    (cloudServiceEndpoints oc cType port prefix hasRoEndpoint) enableSsl.

(*@ pkg/controller/onecloud_control.go:511-519 registerService *)
Definition registerService (serviceName serviceType : string) : SM W unit :=
  RunWithSession SessionDebug (λ s,
    kube (wrap "onecloud.EnsureService" (EnsureService s serviceName serviceType)) ;;! ret tt).

(** ** Components that only register themselves

    A component without a system initialisation of its own has the empty one
    of [baseComponent]. *)
Definition setupOnly (setup : SM W unit) : PhaseControl W := MkPhaseControl W setup (ret tt).

(*@ pkg/controller/onecloud_control.go:1004-1006 Setup *)
Definition NewRegisterServiceComponent (serviceName serviceType : string) : PhaseControl W :=
  setupOnly (registerService serviceName serviceType).

(** The port is the one the cluster has when the phase is made. *)
(*@ pkg/controller/onecloud_control.go:1028-1045 NewRegisterEndpointComponentWithSSL *)
Definition NewRegisterEndpointComponentWithSSL (ctype : ComponentType)
    (serviceName serviceType : string) (port : Z) (prefix : string) (enableSSL : bool)
  : PhaseControl W :=
  setupOnly (RegisterCloudServiceEndpoint ctype serviceName serviceType port prefix enableSSL true).

(*@ pkg/controller/onecloud_control.go:1018-1026 NewRegisterEndpointComponent *)
Definition NewRegisterEndpointComponent (ctype : ComponentType) (serviceName serviceType : string)
    (port : Z) (prefix : string) : PhaseControl W :=
  NewRegisterEndpointComponentWithSSL ctype serviceName serviceType port prefix true.

(*@ pkg/controller/onecloud_control.go:1116-1131 NewItsmEndpointComponent *)
Definition NewItsmEndpointComponent (ctype : ComponentType) (serviceName serviceType : string)
    (port : Z) (prefix : string) : PhaseControl W :=
  setupOnly (RegisterCloudServiceEndpoint ctype serviceName serviceType port prefix true false).

(** The node port of a service of the cluster's spec. *)
Definition nodePort (service : ServiceSpec) : Z := ServicePortSpec_NodePort (ServiceSpec_ServicePortSpec service).
Definition withSpec (f : OnecloudClusterSpec → SM W unit) : SM W unit :=
  let! oc := getoc in f (OnecloudCluster_Spec oc).

(*@ pkg/controller/onecloud_control.go:1141-1146 Setup *)
Definition yunionagent_Setup : SM W unit := withSpec (λ spec,
  RegisterCloudServiceEndpoint YunionagentComponentType ServiceNameYunionAgent ServiceTypeYunionAgent
    (nodePort (YunionagentSpec_Service (OnecloudClusterSpec_Yunionagent spec))) "" true false).

(*@ pkg/controller/onecloud_control.go:814-819 Setup *)
Definition region_Setup : SM W unit := withSpec (λ spec,
  RegisterCloudServiceEndpoint RegionComponentType ServiceNameRegionV2 ServiceTypeComputeV2
    (nodePort (DeploymentServicePortSpec_Service (RegionSpec_DeploymentServicePortSpec
                 (OnecloudClusterSpec_RegionServer spec)))) "" true true).

(*@ pkg/controller/onecloud_control.go:978-983 Setup *)
Definition glance_Setup : SM W unit := withSpec (λ spec,
  RegisterCloudServiceEndpoint GlanceComponentType ServiceNameGlance ServiceTypeGlance
    (nodePort (GlanceSpec_Service (OnecloudClusterSpec_Glance spec))) "v1" true true).

(*@ pkg/controller/onecloud_control.go:1178-1183 Setup *)
Definition devtool_Setup : SM W unit := withSpec (λ spec,
  RegisterCloudServiceEndpoint DevtoolComponentType ServiceNameDevtool ServiceTypeDevtool
    (nodePort (DeploymentServicePortSpec_Service (OnecloudClusterSpec_Devtool spec))) "" true false).

(*@ pkg/controller/onecloud_control.go:1273-1275 Setup *)
Definition monitor_Setup : SM W unit := withSpec (λ spec,
  RegisterCloudServiceEndpoint MonitorComponentType ServiceNameMonitor ServiceTypeMonitor
    (nodePort (DeploymentServicePortSpec_Service (OnecloudClusterSpec_Monitor spec))) "" true false).

(*@ pkg/controller/onecloud_control.go:1594-1599 Setup *)
Definition kubeServer_Setup : SM W unit := withSpec (λ spec,
  phase_Setup (NewRegisterEndpointComponent KubeServerComponentType ServiceNameKubeServer
    ServiceTypeKubeServer
    (nodePort (DeploymentServicePortSpec_Service (OnecloudClusterSpec_KubeServer spec))) "api")).

(*@ pkg/controller/onecloud_control.go:1644-1649 Setup *)
Definition cloudproxy_Setup : SM W unit := withSpec (λ spec,
  RegisterCloudServiceEndpoint CloudproxyComponentType ServiceNameCloudproxy ServiceTypeCloudproxy
    (nodePort (DeploymentServicePortSpec_Service (OnecloudClusterSpec_Cloudproxy spec))) "" true false).

(*@ pkg/controller/onecloud_control.go:1701-1706 Setup *)
Definition apigateway_Setup : SM W unit := withSpec (λ spec,
  RegisterCloudServiceEndpoint APIGatewayComponentType ServiceNameAPIGateway ServiceTypeAPIGateway
    (nodePort (APIGatewaySpec_APIService (OnecloudClusterSpec_APIGateway spec))) "" true false).

(*@ pkg/controller/onecloud_control.go:1712-1717 Setup *)
Definition llm_Setup : SM W unit := withSpec (λ spec,
  RegisterCloudServiceEndpoint LLMComponentType ServiceNameLLM ServiceTypeLLM
    (nodePort (DeploymentServicePortSpec_Service (OnecloudClusterSpec_LLM spec))) "" true false).

(*@ pkg/controller/onecloud_control.go:1689-1695 Setup *)
Definition echartsSSR_Setup : SM W unit :=
  RunWithSession SessionDebug (λ s,
    let! oc := getoc in
    let url := "http://" +:+ oc_name oc +:+ "-" +:+ EChartsSSRComponentType +:+ "." +:+ oc_ns oc
               +:+ ".svc:" +:+ dec EChartsSSRPort in
    kube (RegisterServiceEndpointByInterfaces s (OnecloudClusterSpec_Region (OnecloudCluster_Spec oc))
            ServiceNameEChartsSSR ServiceTypeEChartsSSR url "" [EndpointTypeInternal])).

(** ** The time series data base

    When its service is new, the region deployment is deleted so that it
    starts again; errors on the way are logged. Without a controller (docker
    compose) nothing is restarted. *)
Context `{!ResourceApi W Deployment} (hasController : bool).

(*@ pkg/controller/onecloud_control.go:1089-1108 Setup (restart) *)
Definition restartRegion (oc : OnecloudCluster) : M W unit :=
  if negb hasController then ret tt
  else
    let regionName := NewClusterComponentName (oc_name oc) RegionComponentType in
    let! r := attempt (apiGet Deployment (oc_ns oc) regionName) in
    match r with
    | inl _ => ret tt
    | inr region =>
        if (apps_DeploymentStatus_ReadyReplicas (Deployment_Status region) =? 0)%Z then ret tt
        else let! _ := attempt (apiDelete Deployment (oc_ns oc) regionName) in ret tt
    end.

(*@ pkg/controller/onecloud_control.go:1074-1110 Setup *)
Definition tsdb_Setup (ctype : ComponentType) (serviceName serviceType : string) (port : Z)
    (prefix : string) : SM W unit :=
  let! oc := getoc in
  let! s := kube (wrap "get mcclient session" (getSession SessionDebug oc)) in
  let! exists_ := kube (wrap "check service exists" (IsServiceExists s serviceName)) in
  wrap "RegisterCloudServiceEndpoint"
    (RegisterCloudServiceEndpoint ctype serviceName serviceType port prefix true false) ;;!
  match exists_ with
  | Some _ => ret tt
  | None => let! oc := getoc in kube (restartRegion oc)
  end.

(*@ pkg/controller/onecloud_control.go:1055-1072 NewTSDBEndpointComponent *)
Definition NewTSDBEndpointComponent (ctype : ComponentType) (serviceName serviceType : string)
    (port : Z) (prefix : string) : PhaseControl W :=
  setupOnly (tsdb_Setup ctype serviceName serviceType port prefix).
End endpoints.
