(* ===== verification/PhaseFacts.v ===== *)
(** * PhaseFacts: what the phases of a component leave in the cloud

    Against a cloud that accepts every request ([CloudStore]) and sessions
    that can be opened ([SessionWorks]): the endpoints a component registers. *)

From S2P Require Import Prelude K8s Types Constants GoStrings.
From S2P Require Import ControllerUtils LastApplied KubeApi Controls Session CloudApi CloudFacts.
From S2P Require Import GoNet Databases Sync SyncFacts Endpoints.

Open Scope string_scope.
Open Scope list_scope.
Open Scope go_scope.

(** Opening a session always works, and leaves the resources as they are. *)
Class SessionWorks (W : Type) `{!SessionEnv W, !CloudApi W, !CloudStore W} :=
  session_opens dbg oc (w : W) : ∃ w' s,
    firstSession dbg oc w = (w', Ok s) ∧
    SetServiceUrl s "identity" (GetAuthURL oc) w' = (w', Ok tt) ∧
    ∀ r, objects w' r = objects w r.

Section facts.
Context {W : Type} `{!SessionEnv W, !JsonUtils, !CloudApi W, !CloudStore W, !SessionWorks W}.
Implicit Types (w : W) (oc : OnecloudCluster).

(** The same resources. *)
Definition same_objects w w' : Prop := ∀ r, objects w' r = objects w r.

Lemma wf_cloud_same w w' : same_objects w w' → wf_cloud w → wf_cloud w'.
Proof. intros Hs [H1 H2]. split; [intros r; rewrite Hs; apply H1|by rewrite Hs]. Qed.

Lemma endpoint_at_same w w' a b c : same_objects w w' → endpoint_at w' a b c = endpoint_at w a b c.
Proof. intros Hs. unfold endpoint_at. by rewrite Hs. Qed.

Lemma service_id_same w w' n : same_objects w w' → service_id w' n = service_id w n.
Proof. intros Hs. unfold service_id. by rewrite Hs. Qed.

(** What succeeds in a session is run once. *)
Lemma RunWithSession_once {A} dbg (f : ClientSession W → SM W A) oc w :
  ∃ w1 s, same_objects w w1 ∧ ∀ oc' w2 a,
    f s (oc, w1) = ((oc', w2), Ok a) → RunWithSession dbg f (oc, w) = ((oc', w2), Ok a).
Proof.
  destruct (session_opens dbg oc w) as (w1 & s & E1 & E2 & Hs). exists w1, s. split; [done|].
  intros oc' w2 a Hf. unfold RunWithSession. rewrite (bind_Ok _ _ _ _ _ (getoc_eq oc w)).
  rewrite (bind_Ok _ _ _ _ _ (kube_eq _ _ _ _ _ E1)), (bind_Ok _ _ _ _ _ (kube_eq _ _ _ _ _ E2)).
  by rewrite (bind_Ok _ _ _ _ _ (attempt_Ok _ _ _ _ Hf)).
Qed.

(** ** The URLs of endpoints of distinct interfaces *)
Lemma put_url_fresh k u l : k ∉ map fst l → put_url k u l = l ++ [(k, u)].
Proof.
  induction l as [|[k' u'] l IH]; simpl; [done|]. intros Hni. apply not_elem_of_cons in Hni as [Hk Hni].
  destruct (String.eqb_spec k k'); [done|]. by rewrite IH.
Qed.

Lemma endpointUrls_distinct eps ssl : NoDup (map endpoint_Interface eps) →
  endpointUrls eps ssl = map (λ ep, (endpoint_Interface ep, GetUrl ep ssl)) eps.
Proof.
  unfold endpointUrls. intros Hnd.
  enough (∀ l, NoDup (map fst l ++ map endpoint_Interface eps) →
    foldl (λ urls ep, put_url (getKey ep) (GetUrl ep ssl) urls) l eps
    = l ++ map (λ ep, (endpoint_Interface ep, GetUrl ep ssl)) eps) as Hgen by (by apply Hgen).
  clear Hnd. induction eps as [|ep eps IH]; intros l Hl; simpl; [by rewrite app_nil_r|].
  simpl in Hl. assert (endpoint_Interface ep ∉ map fst l) as Hni.
  { apply NoDup_app in Hl as (_ & Hd & _). intros Hi. apply (Hd _ Hi). by left. }
  unfold getKey at 2. rewrite put_url_fresh, IH, <- app_assoc; [done| |done].
  by rewrite map_app, <- app_assoc.
Qed.

Lemma map_fst_endpointUrls eps ssl : NoDup (map endpoint_Interface eps) →
  map fst (endpointUrls eps ssl) = map endpoint_Interface eps.
Proof. intros Hd. rewrite endpointUrls_distinct, map_map by done. reflexivity. Qed.

Lemma cloudServiceEndpoints_distinct oc cType port prefix ro :
  NoDup (map endpoint_Interface (cloudServiceEndpoints oc cType port prefix ro)).
Proof. destruct ro; apply (bool_decide_unpack _); vm_compute; exact I. Qed.

Lemma registerServiceEndpoints_settles dbg name svcType eps ssl oc w :
  wf_cloud w → NoDup (map endpoint_Interface eps) →
  let region := OnecloudClusterSpec_Region (OnecloudCluster_Spec oc) in
  ∃ w' id, registerServiceEndpoints dbg name svcType eps ssl (oc, w) = ((oc, w'), Ok tt) ∧
    service_id w' name = Some id ∧
    (∀ ep, ep ∈ eps → endpoint_url w' id region (endpoint_Interface ep) = Some (GetUrl ep ssl)) ∧
    (∀ svc' reg' inf', ¬ (svc' = id ∧ reg' = region ∧ inf' ∈ map endpoint_Interface eps) →
       endpoint_at w' svc' reg' inf' = endpoint_at w svc' reg' inf') ∧
    wf_cloud w' ∧
    (∀ i, service_id w name = Some i → i = id ∧
       ((∀ ep, ep ∈ eps → endpoint_url w id region (endpoint_Interface ep) = Some (GetUrl ep ssl)) →
        same_objects w w')) ∧
    (∀ P, (∀ inf, inf ∈ map endpoint_Interface eps → leaves_out id region inf P) →
       List.filter P (objects w' EndpointsV3) = List.filter P (objects w EndpointsV3)) ∧
    service_added name svcType w w' ∧
    (∀ r, r ≠ ServicesV3 → r ≠ EndpointsV3 → objects w' r = objects w r).
Proof.
  intros Hwf Hnd region. unfold registerServiceEndpoints.
  destruct (RunWithSession_once dbg
    (λ s, registerServiceEndpointsBySession s name svcType eps ssl) oc w) as (w1 & s & Hs & Hrun).
  destruct (register_settles s region name svcType "" (endpointUrls eps ssl) w1)
    as (w2 & id & E & Hid & Hurls & Hother & Hwf2 & Hnop & Hfil & Hadd & Hrest).
  { by eapply wf_cloud_same. }
  { by rewrite map_fst_endpointUrls. }
  assert (∀ w, (∀ inf url, (inf, url) ∈ endpointUrls eps ssl → endpoint_url w id region inf = Some url) ↔
    ∀ ep, ep ∈ eps → endpoint_url w id region (endpoint_Interface ep) = Some (GetUrl ep ssl)) as Hiff.
  { intros x. rewrite endpointUrls_distinct by done. split.
    - intros Hx ep Hep. apply Hx. apply list_elem_of_fmap. by exists ep.
    - intros Hx inf url (ep & [= -> ->] & Hep)%list_elem_of_fmap. by apply Hx. }
  exists w2, id. split_and!; [|done|by apply Hiff| |done| | | |].
  - apply Hrun. unfold registerServiceEndpointsBySession. rewrite (bind_Ok _ _ _ _ _ (getoc_eq oc w1)).
    by apply kube_eq.
  - intros a b c Hn. rewrite Hother by (by rewrite map_fst_endpointUrls). by apply endpoint_at_same.
  - intros i Hi. rewrite <- (service_id_same _ _ _ Hs) in Hi. destruct (Hnop i Hi) as [-> Hnop'].
    split; [done|]. intros Hu0. rewrite Hnop'; [done|].
    apply Hiff. intros ep Hep. unfold endpoint_url. rewrite (endpoint_at_same _ _ _ _ _ Hs).
    by apply Hu0.
  - intros P HP. rewrite Hfil by (by rewrite map_fst_endpointUrls). by rewrite Hs.
  - unfold service_added in *. by rewrite !Hs in Hadd.
  - intros r Hr1 Hr2. by rewrite Hrest.
Qed.
End facts.

(** ** What is to be registered *)

(** An address as it stands in a URL: an IPv6 address goes in brackets. *)
Definition in_url (address : string) : string :=
  match ParseIP address with
  | Some ip => if isIPv4 ip then address else "[" +:+ address +:+ "]"
  | None => address
  end.

(** The interfaces of a component and their URLs. Its service in the cluster
    is called after the cluster and the component (after the component alone
    under docker compose); the companion's ends in [-slave]; the load balancer, when there is one, is the public address. *)
Definition wanted_urls (oc : OnecloudCluster) (cType : ComponentType) (port : Z) (prefix : string)
    (ssl ro : bool) : list (string * string) :=
  let service := if IsDockerComposeClusterName (oc_name oc) then cType
                 else oc_name oc +:+ "-" +:+ cType in
  let balancer := OnecloudClusterSpec_LoadBalancerEndpoint (OnecloudCluster_Spec oc) in
  let url address :=
    (if ssl then "https://" else "http://") +:+ in_url address +:+ ":" +:+ dec port
    +:+ (if str_empty prefix then "" else "/" +:+ prefix) in
  [("public", url (if str_empty balancer then service else balancer)); ("internal", url service)]
  ++ (if ro then [("slave", url (service +:+ "-slave"))] else []).

Lemma GetUrl_spec host port path inf ssl :
  GetUrl (MkEndpoint host port path inf) ssl =
  (if ssl then "https://" else "http://") +:+ in_url host +:+ ":" +:+ dec port
  +:+ (if str_empty path then "" else "/" +:+ path).
Proof.
  unfold GetUrl, GetProtocolUrl. cbn [endpoint_Host endpoint_Port endpoint_Path].
  change (FormatHost host) with (in_url host). rewrite <-!str_app_assoc.
  destruct (str_empty path), ssl; rewrite ?str_app_nil_r, ?str_app_assoc; reflexivity.
Qed.

Lemma endpoints_wanted oc cType port prefix ssl ro :
  map (λ ep, (endpoint_Interface ep, GetUrl ep ssl)) (cloudServiceEndpoints oc cType port prefix ro)
  = wanted_urls oc cType port prefix ssl ro.
Proof.
  unfold cloudServiceEndpoints, wanted_urls, default_str, newPublicEndpoint, newInternalEndpoint,
    newSlaveEndpoint, newEndpointByInterfaceType, NewClusterComponentName.
  destruct ro; cbn [map app]; rewrite !GetUrl_spec; reflexivity.
Qed.

(** C19. Registering a component: afterwards its service exists in the identity
    service; its public endpoint is at the load balancer (at the cluster's
    own service when there is none), its internal and, when it has one, its
    slave endpoint at the cluster's services, over [https] or [http] as asked
    for, IPv6 addresses in brackets, the prefix, if any, behind ([wanted_urls]).
    Nothing else has changed: the other endpoints are the same and in the same
    order, so are the services, at most the new one added at their end, and
    every other kind of resource and the cluster are as they were. Registering
    again leaves every resource alone. *)
Theorem RegisterCloudServiceEndpoint_registers {W : Type}
    `{!SessionEnv W, !JsonUtils, !CloudApi W, !CloudStore W, !SessionWorks W}
    (dbg : bool) (cType : ComponentType) (name svcType : string) (port : Z) (prefix : string)
    (ssl ro : bool) (oc : OnecloudCluster) (w : W) :
  wf_cloud w →
  let register := RegisterCloudServiceEndpoint dbg cType name svcType port prefix ssl ro in
  let region := OnecloudClusterSpec_Region (OnecloudCluster_Spec oc) in
  let urls := wanted_urls oc cType port prefix ssl ro in
  ∃ w' id, register (oc, w) = ((oc, w'), Ok tt) ∧ service_id w' name = Some id ∧
    (∀ inf url, (inf, url) ∈ urls → endpoint_url w' id region inf = Some url) ∧
    (∀ P, (∀ inf, inf ∈ map fst urls → leaves_out id region inf P) →
       List.filter P (objects w' EndpointsV3) = List.filter P (objects w EndpointsV3)) ∧
    service_added name svcType w w' ∧
    (∀ r, r ≠ ServicesV3 → r ≠ EndpointsV3 → objects w' r = objects w r) ∧
    wf_cloud w' ∧
    ∃ w'', register (oc, w') = ((oc, w''), Ok tt) ∧ same_objects w' w''.
Proof.
  intros Hwf register region urls.
  set (eps := cloudServiceEndpoints oc cType port prefix ro).
  assert (map (λ ep, (endpoint_Interface ep, GetUrl ep ssl)) eps = urls) as Hurls0
    by apply endpoints_wanted.
  assert (map endpoint_Interface eps = map fst urls) as Hinf by (by rewrite <-Hurls0, map_map).
  pose proof (cloudServiceEndpoints_distinct oc cType port prefix ro) as Hnd.
  assert (∀ w, register (oc, w) = registerServiceEndpoints dbg name svcType eps ssl (oc, w)) as Hreg.
  { intros x. unfold register, RegisterCloudServiceEndpoint. by rewrite (bind_Ok _ _ _ _ _ (getoc_eq oc x)). }
  destruct (registerServiceEndpoints_settles dbg name svcType eps ssl oc w Hwf Hnd)
    as (w1 & id & E1 & Hid & Hurls & _ & Hwf1 & _ & Hfil & Hadd & Hrest).
  destruct (registerServiceEndpoints_settles dbg name svcType eps ssl oc w1 Hwf1 Hnd)
    as (w2 & id2 & E2 & Hid2 & _ & _ & _ & Hnop & _).
  exists w1, id. rewrite Hreg. split_and!; [done|done| | |done|done|done|].
  - intros inf url. rewrite <-Hurls0. intros (ep & [= -> ->] & Hep)%list_elem_of_fmap. by apply Hurls.
  - intros P HP. apply Hfil. by rewrite Hinf.
  - exists w2. rewrite Hreg. split; [done|]. destruct (Hnop id Hid) as [-> Hsame]. by apply Hsame.
Qed.
