(* ===== verification/Phases.v ===== *)
(** * Phases: the initialisation of the cloud's services

    The system initialisations of [pkg/controller/onecloud_control.go]: what
    the operator creates in the identity service (policies, roles, regions,
    endpoints, the certificate of etcd), in the region service (zones, wires,
    scheduling tags), and in the devtool and proxy services; with the
    playbooks of [pkg/util/onecloud/onecloud.go]. *)

From S2P Require Import Prelude K8s Types Constants GoStrings.
From S2P Require Import ControllerUtils LastApplied KubeApi Controls Session CloudApi Policies.
From S2P Require Import Databases Sync Endpoints Texts.

Open Scope string_scope.
Open Scope list_scope.
Open Scope go_scope.

(** ** What comes from elsewhere

    The quotas of the identity service, the secrets of the namespace, and the
    policies and roles the identity service is born with. *)
Class QuotaApi (W : Type) `{!SessionEnv W} := {
  quota_Get : ClientSession W → list (string * json) → M W json;
  quota_Set : ClientSession W → list (string * json) → M W unit
}.
Class SecretApi (W : Type) := secret_Get : string → string → M W (gmap string string).
Class PolicyLocale := {
  GenerateAllPolicies : list SPolicyData;
  RoleDefinitions : list SRoleDefiniton
}.

(** [ansible.Playbook] of the client library: the lines that are parsed, and
    the JSON of what is sent; and what is sent for an input with the given
    fields set. *)
Class Ansible := {
  AnsibleHost : Type;
  AnsibleModule : Type;
  ParseHostLine : string → Res AnsibleHost;
  ParseModuleLine : string → Res AnsibleModule;
  Playbook_JSON : string → list AnsibleHost → list AnsibleModule → list (string * string)
                  → list (string * json);
  Marshal_input : list (string * json) → list (string * json)
}.

Section phases.
Context {W : Type} `{!SessionEnv W, !JsonUtils, !CloudApi W, !QuotaApi W, !SecretApi W}.
Context `{!PolicyLocale, !Ansible}.
Context (SessionDebug hasController StopServices : bool).
Implicit Types (s : ClientSession W).

(** ** The identity service *)

(*@ pkg/controller/onecloud_control.go:616-622 getWebAccessUrl *)
Definition getWebAccessUrl (oc : OnecloudCluster) : Res string :=
  let lb := OnecloudClusterSpec_LoadBalancerEndpoint (OnecloudCluster_Spec oc) in
  if str_empty lb then Err (ErrMsg ("cluster " +:+ oc_name oc +:+ " LoadBalancerEndpoint is empty"))
  else Ok ("https://" +:+ FormatHost lb).

(*@ pkg/controller/onecloud_control.go:624-632 getCommonConfig *)
Definition getCommonConfig (oc : OnecloudCluster) : Res (list (string * string)) :=
  res_map (λ url, [("api_server", url)]) (getWebAccessUrl oc).

(** A key that the secret does not have is empty. *)
(*@ pkg/controller/onecloud_control.go:634-645 getEtcdCertificate *)
Definition getEtcdCertificate (oc : OnecloudCluster) : M W (list (string * json)) :=
  let! data := secret_Get (oc_ns oc) EtcdClientSecret in
  let entry k := JStr (default "" (data !! k)) in
  ret [("certificate", entry EtcdClientCertName); ("private_key", entry EtcdClientKeyName);
       ("ca_certificate", entry (EtcdClientCACertName +:+ ".crt"))].

(** A keystone whose policies have no scope is too old. *)
(*@ pkg/controller/onecloud_control.go:647-653 getEtcdUrl *)
Definition getEtcdUrl (oc : OnecloudCluster) : string :=
  let tls := Etcd_EnableTls (OnecloudClusterSpec_Etcd (OnecloudCluster_Spec oc)) in
  (if default true tls then "https" else "http") +:+ "://" +:+ oc_name oc +:+ "-etcd-client."
  +:+ oc_ns oc +:+ ".svc:" +:+ dec EtcdClientPort.

(*@ pkg/controller/onecloud_control.go:655-661 shouldDoPolicyRoleInit *)
Definition shouldDoPolicyRoleInit s : M W bool :=
  let! r := wrap "list policy" (mod_List s Policies []) in ret (r.2 =? 0)%Z.

(*@ pkg/controller/onecloud_control.go:663-676 ensureKeystoneVersion36 *)
Definition ensureKeystoneVersion36 s : M W unit :=
  let! '(data, total) := wrap "list policy" (mod_List s Policies []) in
  if (total =? 0)%Z then ret tt
  else match data with
       | [] => panic "index out of range"
       | p :: _ =>
           if json_Contains p ["scope"] then ret tt
           else throw (ErrWrap (ErrMsg "InvalidStatus") "not keystone >= 3.6")
       end.

(** The errors of a step that only logs them. *)
Definition logged (c : M W unit) : M W unit := let! _ := attempt c in ret tt.

(*@ pkg/controller/onecloud_control.go:699-705 doPolicyRoleInit (quota) *)
Definition raisePolicyQuota s : M W unit :=
  let params := [("domain", JStr "default")] in
  logged (
    let! result := quota_Get s params in
    let policyCnt := match json_Int result "policy" with Ok n => n | _ => 0%Z end in
    if (policyCnt <? 500)%Z then quota_Set s (set_field "policy" (JInt 500) params) else ret tt).

(*@ pkg/controller/onecloud_control.go:678-717 doPolicyRoleInit *)
Definition doPolicyRoleInit s : M W unit :=
  wrap "ensureKeystoneVersion36" (ensureKeystoneVersion36 s) ;;!
  for_each GenerateAllPolicies (λ p, logged (createOrUpdatePolicy s p)) ;;!
  for_each RoleDefinitions (λ r, logged (createOrUpdateRole s r)) ;;!
  raisePolicyQuota s.

(*@ pkg/controller/onecloud_control.go:719-721 doCreateRegion *)
Definition doCreateRegion s (region : string) : M W json := CreateRegion s region "".

(*@ pkg/controller/onecloud_control.go:736-741 doRegisterIdentity (eps) *)
Definition identityEndpoints (publicAddress keystoneAddress slaveAddress : string)
    (adminPort publicPort : Z) : list endpoint :=
  [newPublicEndpoint publicAddress publicPort "v3";
   newInternalEndpoint keystoneAddress publicPort "v3";
   newEndpointByInterfaceType publicAddress adminPort "v3" EndpointTypeAdmin;
   newEndpointByInterfaceType slaveAddress publicPort "v3" EndpointTypeSlave].

(** The region of the endpoints is that of the cluster's spec; the one passed
    is not used. *)
(*@ pkg/controller/onecloud_control.go:723-743 doRegisterIdentity *)
Definition doRegisterIdentity s (publicAddress keystoneAddress slaveAddress : string)
    (adminPort publicPort : Z) (enableSSL : bool) : SM W unit :=
  let publicAddress := default_str keystoneAddress publicAddress in
  registerServiceEndpointsBySession s ServiceNameKeystone ServiceTypeIdentity
    (identityEndpoints publicAddress keystoneAddress slaveAddress adminPort publicPort) enableSSL.

(*@ pkg/controller/onecloud_control.go:745-748 doCreateExternalService *)
Definition doCreateExternalService s : M W unit :=
  EnsureService s ServiceNameExternal ServiceTypeExternal ;;! ret tt.

(*@ pkg/controller/onecloud_control.go:750-753 doCreateCommonService *)
Definition doCreateCommonService s : M W unit :=
  EnsureService s ServiceNameCommon ServiceTypeCommon ;;! ret tt.

(*@ pkg/controller/onecloud_control.go:755-758 doSyncCommonConfigure *)
Definition doSyncCommonConfigure s (defaultConf : list (string * string)) : M W unit :=
  SyncServiceConfig s defaultConf ServiceNameCommon ;;! ret tt.

(** [oc.Spec.Etcd.EnableTls == nil || *oc.Spec.Etcd.EnableTls] *)
Definition etcdTls (oc : OnecloudCluster) : bool :=
  default true (Etcd_EnableTls (OnecloudClusterSpec_Etcd (OnecloudCluster_Spec oc))).

(** An IPv6 address is given its brackets twice over: [FormatHost] leaves the
    second time what has them. *)
(*@ pkg/controller/onecloud_control.go:761-781 doCreateEtcdServiceEndpoint (eps) *)
Definition etcdEndpoints (oc : OnecloudCluster) : list endpoint :=
  let intHost := if IsDockerComposeCluster oc then EtcdComponentType
                 else oc_name oc +:+ "-etcd-client." +:+ oc_ns oc +:+ ".svc" in
  let lb := OnecloudClusterSpec_LoadBalancerEndpoint (OnecloudCluster_Spec oc) in
  let pubHost := if str_empty lb then intHost else FormatHost lb in
  let nodePort := Etcd_ClientNodePort (OnecloudClusterSpec_Etcd (OnecloudCluster_Spec oc)) in
  newInternalEndpoint intHost EtcdClientPort "" ::
    (if (nodePort =? 0)%Z then [] else [newPublicEndpoint pubHost nodePort ""]).

(*@ pkg/controller/onecloud_control.go:760-788 doCreateEtcdServiceEndpoint *)
Definition doCreateEtcdServiceEndpoint (oc : OnecloudCluster) s (regionId certName : string)
  : M W unit :=
  RegisterServiceEndpoints s regionId ServiceNameEtcd ServiceTypeEtcd certName
    (endpointUrls (etcdEndpoints oc) (etcdTls oc)).

(*@ pkg/controller/onecloud_control.go:790-793 doCreateEtcdCertificate *)
Definition doCreateEtcdCertificate s (certDetails : list (string * json)) : M W unit :=
  EnsureServiceCertificate s ServiceCertEtcdName (Some certDetails) ;;! ret tt.

(*@ pkg/controller/onecloud_control.go:795-800 doDeleteEtcdCertificate *)
Definition doDeleteEtcdCertificate s : M W unit :=
  DeleteServiceEndpoints s ServiceNameEtcd ;;!
  DeleteResource s ServiceCertificatesV3 ServiceCertEtcdName.

(*@ pkg/controller/onecloud_control.go:802-808 doRegisterOfflineCloudMeta *)
Definition doRegisterOfflineCloudMeta s (regionId : string) : M W unit :=
  RegisterServicePublicInternalEndpoint s regionId ServiceNameOfflineCloudmeta
    ServiceTypeOfflineCloudmeta "" ServiceURLOfflineCloudmeta.

Definition regionStatus (oc : OnecloudCluster) : RegionStatus :=
  OnecloudClusterStatus_RegionServer (OnecloudCluster_Status oc).
Definition setRegionStatus (f : RegionStatus → RegionStatus) : SM W unit :=
  modoc (λ oc, oc <| OnecloudCluster_Status ::= λ st, st <| OnecloudClusterStatus_RegionServer ::= f |> |>).

(*@ pkg/controller/onecloud_control.go:538-541 SystemInit (region) *)
Definition keystoneRegion (oc : OnecloudCluster) : string := GetRegion oc.

(*@ pkg/controller/onecloud_control.go:542-559 SystemInit (identity) *)
Definition initIdentity (region : string) s : SM W unit :=
  wrap "policy role init" (kube (doPolicyRoleInit s)) ;;!
  let! res := wrap "create region" (kube (doCreateRegion s region)) in
  setRegionStatus (λ st, st <| RegionStatus_RegionId := getString res "id" |>) ;;!
  let! oc := getoc in
  let spec := OnecloudCluster_Spec oc in
  let keystone := OnecloudClusterSpec_Keystone spec in
  let address := KeystoneComponentName (oc_name oc) in
  wrap "register identity endpoint"
    (doRegisterIdentity s (OnecloudClusterSpec_LoadBalancerEndpoint spec) address
       (address +:+ "-slave") (nodePort (KeystoneSpec_AdminService keystone))
       (nodePort (KeystoneSpec_PublicService keystone))
       (negb (DeploymentServiceSpec_DisableTLS (KeystoneSpec_DeploymentServiceSpec keystone)))).

(** With TLS the certificate of etcd is registered too, made again when the
    secrets were. Without a controller there is no client for the secret. *)
(*@ pkg/controller/onecloud_control.go:590-606 SystemInit (certificate) *)
Definition initEtcdCertificate s : SM W string :=
  let! oc := getoc in
  if negb (etcdTls oc) then ret ""
  else
    let! certConf :=
      (if hasController then wrap "get etcd cert" (kube (getEtcdCertificate oc))
       else panic "nil pointer dereference") in
    (match EtcdClusterSpec_CreatedSecrets (Etcd_EtcdClusterSpec
             (OnecloudClusterSpec_Etcd (OnecloudCluster_Spec oc))) with
     | Some false =>
         wrap "delete etcd certificate" (kube (doDeleteEtcdCertificate s)) ;;!
         modoc (λ oc, oc <| OnecloudCluster_Spec ::= λ sp, sp <| OnecloudClusterSpec_Etcd ::= λ e,
           e <| Etcd_EtcdClusterSpec ::= λ c, c <| EtcdClusterSpec_CreatedSecrets := Some true |> |> |> |>)
     | _ => ret tt
     end) ;;!
    wrap "create etcd certificate" (kube (doCreateEtcdCertificate s certConf)) ;;!
    ret ServiceCertEtcdName.

(*@ pkg/controller/onecloud_control.go:564-613 SystemInit (services) *)
Definition initServices (region : string) s : SM W unit :=
  wrap "create external service" (kube (doCreateExternalService s)) ;;!
  wrap "register offlinecloudmeta endpoint" (kube (doRegisterOfflineCloudMeta s region)) ;;!
  wrap "create common service" (kube (doCreateCommonService s)) ;;!
  let! oc := getoc in
  let! commonConfig := wrap "common config" (lift (getCommonConfig oc)) in
  wrap "sync common configure" (kube (doSyncCommonConfigure s commonConfig)) ;;!
  if Etcd_Disable (OnecloudClusterSpec_Etcd (OnecloudCluster_Spec oc)) then ret tt
  else
    let! certName := initEtcdCertificate s in
    let! oc := getoc in
    wrap "create etcd endpoint" (kube (doCreateEtcdServiceEndpoint oc s region certName)).

(** In two sessions: the second one knows the endpoints of the first. *)
(*@ pkg/controller/onecloud_control.go:537-614 SystemInit *)
Definition keystone_SystemInit : SM W unit :=
  let! oc := getoc in
  let region := keystoneRegion oc in
  RunWithSession SessionDebug (initIdentity region) ;;!
  RunWithSession SessionDebug (initServices region).

(** ** The region service *)

(*@ pkg/controller/onecloud_control.go:879-894 ensureZone *)
Definition ensureZone s (name : string) : M W string :=
  let! r := IsZoneExists s name in
  match r with
  | Some res => ret (getString res "id")
  | None => let! res := CreateZone s name in ret (getString res "id")
  end.

(*@ pkg/controller/onecloud_control.go:896-912 ensureWire *)
Definition ensureWire s (zone name : string) (bw : Z) : M W string :=
  let! r := IsWireExists s name in
  match r with
  | Some res => ret (getString res "id")
  | None => let! res := CreateWire s zone name bw DefaultVPCId in ret (getString res "id")
  end.

(*@ pkg/controller/onecloud_control.go:929-936 ensureRegionZone *)
Definition ensureRegionZone s (region zone : string) : M W string :=
  let! res := CreateRegion s region zone in ret (getString res "id").

(*@ pkg/controller/onecloud_control.go:950-960 registerSchedSameProjectCloudprovider *)
Definition registerSchedSameProjectCloudprovider s : M W unit :=
  let! obj := wrap "create schedtag same_project"
    (EnsureSchedtag s "same_project" "prefer" "Prefer hosts belongs to same project") in
  EnsureDynamicSchedtag s "same_cloudprovider_project" (getString obj "id")
    "host.cloudprovider.tenant_id == server.owner_tenant_id" ;;!
  ret tt.

Definition quoted (str : string) : string := bytes_str [34] +:+ str +:+ bytes_str [34].

(*@ pkg/controller/onecloud_control.go:962-972 registerSchedAzureClassicHost *)
Definition registerSchedAzureClassicHost s : M W unit :=
  let! obj := wrap "create schedtag azure_classic"
    (EnsureSchedtag s "azure_classic" "exclude" "Do not use azure classic host to create VM") in
  EnsureDynamicSchedtag s "avoid_azure_classic_host" (getString obj "id")
    ("host.name.endswith(" +:+ quoted "-classic" +:+ ") && host.host_type == " +:+ quoted "azure") ;;!
  ret tt.

(*@ pkg/controller/onecloud_control.go:938-948 initScheduleData *)
Definition initScheduleData s : M W unit := registerSchedSameProjectCloudprovider s.

(** What is already in the status is not asked for again. *)
Definition unless (known : RegionStatus → bool) (c : SM W unit) : SM W unit :=
  let! oc := getoc in if known (regionStatus oc) then ret tt else c.

(*@ pkg/controller/onecloud_control.go:845-859 SystemInit (custom zones) *)
Definition ensureCustomZone s (cZone : string) : SM W unit :=
  unless (λ st, bool_decide (is_Some (RegionStatus_CustomZones st !! cZone))) (
    let! zoneId := wrap ("create zone " +:+ cZone) (kube (ensureZone s cZone)) in
    setRegionStatus (λ st, st <| RegionStatus_CustomZones ::= <[cZone := zoneId]> |>)).

(*@ pkg/controller/onecloud_control.go:821-877 SystemInit *)
Definition region_SystemInit : SM W unit :=
  RunWithSession SessionDebug (λ s,
    let! oc := getoc in
    let region := OnecloudClusterSpec_Region (OnecloudCluster_Spec oc) in
    let zone := OnecloudClusterSpec_Zone (OnecloudCluster_Spec oc) in
    unless (λ st, negb (str_empty (RegionStatus_RegionZoneId st))) (
      let! regionId := wrap ("create region-zone " +:+ region +:+ "-" +:+ zone)
                         (kube (ensureRegionZone s (region +:+ "-" +:+ zone) "")) in
      setRegionStatus (λ st, st <| RegionStatus_RegionZoneId := regionId |>)) ;;!
    unless (λ st, negb (str_empty (RegionStatus_ZoneId st))) (
      let! zoneId := wrap ("create zone " +:+ zone) (kube (ensureZone s zone)) in
      setRegionStatus (λ st, st <| RegionStatus_ZoneId := zoneId |>)) ;;!
    for_each (OnecloudClusterSpec_CustomZones (OnecloudCluster_Spec oc)) (ensureCustomZone s) ;;!
    unless (λ st, negb (str_empty (RegionStatus_WireId st))) (
      let! wireId := wrap "create default wire" (kube (ensureWire s zone DefaultOnecloudWire 1000)) in
      setRegionStatus (λ st, st <| RegionStatus_WireId := wireId |>)) ;;!
    wrap "init sched data" (kube (initScheduleData s))).

(** ** The devtool service *)

(** [ParseHostLine] on each line, up to the first that is refused. *)
Fixpoint res_all {A B} (f : A → Res B) (l : list A) : Res (list B) :=
  match l with
  | [] => Ok []
  | x :: l => res_bind (f x) (λ y, res_map (cons y) (res_all f l))
  end.

(*@ pkg/util/onecloud/onecloud.go:610-643 ToPlaybook *)
Definition ToPlaybook (hostLines mods : list string) (files : list (string * string))
  : Res (list AnsibleHost * list AnsibleModule * list (string * string)) :=
  match mods, hostLines with
  | [], _ => Err (ErrMsg "Requires at least one mod")
  | _, [] => Err (ErrMsg "Requires as least one server/host to operator on")
  | _, _ =>
      res_bind (res_all ParseHostLine hostLines) (λ hosts,
      res_map (λ modules, (hosts, modules, files)) (res_all ParseModuleLine mods))
  end.

(*@ pkg/util/onecloud/onecloud.go:645-675 DevtoolTemplateCreateParams *)
Definition DevtoolTemplateCreateParams (name : string) (hostLines mods : list string)
    (files : list (string * string)) (day hour min sec interval : Z) (start enabled : bool)
  : Res (list (string * json)) :=
  res_map (λ '(hosts, modules, files),
    foldl (λ params '(k, v), json_Add v [k] params) (Playbook_JSON name hosts modules files)
      [("day", JInt day); ("hour", JInt hour); ("min", JInt min); ("sec", JInt sec);
       ("interval", JInt interval); ("start", JBool start); ("enabled", JBool enabled)])
    (ToPlaybook hostLines mods files).

(*@ pkg/util/onecloud/onecloud.go:677-690 CreateDevtoolTemplate *)
Definition CreateDevtoolTemplate s (name : string) (hosts mods : list string)
    (files : list (string * string)) (interval : Z) : M W json :=
  let! params := wrap ("get devtool template " +:+ name +:+ " create params")
    (lift (DevtoolTemplateCreateParams name hosts mods files 0 0 0 0 interval false true)) in
  mod_Create s DevToolTemplates params.

(*@ pkg/util/onecloud/onecloud.go:692-703 EnsureDevtoolTemplate *)
Definition EnsureDevtoolTemplate s (name : string) (hosts mods : list string)
    (files : list (string * string)) (interval : Z) : M W json :=
  EnsureResource s DevToolTemplates name (CreateDevtoolTemplate s name hosts mods files interval).

(*@ pkg/util/onecloud/onecloud.go:985-985 agentName *)
Definition agentName : string := "monitor agent".

(** The resource of the agent, created when it is missing. *)
Definition ensureAgentObject s (man : Resource) (what : string) (params : list (string * json))
  : M W json :=
  let! r := attempt (mod_GetByName s man agentName) in
  match r with
  | inr data => ret data
  | inl err =>
      if negb (is404 err) then throw (ErrWrap err ("unable to get " +:+ what +:+ " " +:+ agentName))
      else wrap ("unable to create " +:+ what +:+ " " +:+ agentName)
             (mod_Create s man (Marshal_input params))
  end.

(*@ pkg/util/onecloud/onecloud.go:987-1033 EnsureAgentAnsiblePlaybookRef *)
Definition EnsureAgentAnsiblePlaybookRef s : M W unit :=
  let shared := [("name", JStr agentName); ("project", JStr "system"); ("is_public", JBool true);
                 ("public_scope", JStr "system")] in
  let! data := ensureAgentObject s AnsiblePlaybookReference "ansible playbook ref"
    (shared ++
     [("playbook_path", JStr "/opt/yunion/playbook/monitor-agent/playbook.yaml");
      ("method", JStr "offline");
      ("playbook_params", JObj [
         ("telegraf_agent_package_local_dir", JStr "/opt/yunion/ansible-install-pkg");
         ("telegraf_agent_package_method", JStr "offline")])]) in
  ensureAgentObject s DevToolScripts "devtool script"
    (shared ++ [("playbook_reference", JStr (getString data "id")); ("max_try_times", JInt 3)]) ;;!
  ret tt.

(*@ pkg/controller/onecloud_control.go:1207-1209 yumRepoUrl *)
Definition yumRepoUrl : string := "https://iso.yunion.cn/yumrepo-2.13".

(*@ pkg/controller/onecloud_control.go:1211-1213 rpmPackageUrl *)
Definition rpmPackageUrl (pkgName : string) : string :=
  yumRepoUrl +:+ "/rpms/packages/" +:+ pkgName.

Definition ensureTemplate (name : string) (hosts mods : list string) (files : list (string * string))
  : SM W unit :=
  RunWithSession SessionDebug (λ s,
    kube (EnsureDevtoolTemplate s name hosts mods files 86400) ;;! ret tt).

(*@ pkg/controller/onecloud_control.go:1215-1228 ensureTemplatePing *)
Definition ensureTemplatePing : SM W unit :=
  ensureTemplate "ping-host" ["HOSTNAME ansible_become=yes"] ["ping"] [("conf", "")].

(*@ pkg/controller/onecloud_control.go:1230-1244 ensureTemplateNginx *)
Definition ensureTemplateNginx : SM W unit :=
  ensureTemplate "install-nginx-on-centos" ["HOSTNAME ansible_become=yes"]
    ["yum name=epel-release state=present"; "yum name=nginx state=installed";
     "systemd name=nginx enabled=yes state=started"] [("conf", "")].

(*@ pkg/controller/onecloud_control.go:1246-1263 ensureTemplateTelegraf *)
Definition ensureTemplateTelegraf : SM W unit :=
  let pkgName := "telegraf-1.5.18-1.x86_64.rpm" in
  ensureTemplate "install-telegraf-on-centos" ["HOSTNAME ansible_become=yes influxdb=INFLUXDB"]
    ["file path=/etc/telegraf state=directory mode=0755";
     "template src=conf dest=/etc/telegraf/telegraf.conf mode=0644";
     "get_url url=" +:+ rpmPackageUrl pkgName +:+ " dest=/tmp/" +:+ pkgName;
     "yum name=/tmp/" +:+ pkgName +:+ " state=installed";
     "systemd name=telegraf enabled=yes state=started"] [("conf", DevtoolTelegrafConf)].

(*@ pkg/controller/onecloud_control.go:1265-1267 ensureMonitorAgentScript *)
Definition ensureMonitorAgentScript : SM W unit :=
  RunWithSession SessionDebug (λ s, kube (EnsureAgentAnsiblePlaybookRef s)).

(*@ pkg/controller/onecloud_control.go:1185-1197 SystemInit *)
Definition devtool_SystemInit : SM W unit :=
  ensureTemplatePing ;;! ensureTemplateTelegraf ;;! ensureTemplateNginx ;;!
  ensureMonitorAgentScript.

(** ** The proxy service *)

(*@ pkg/controller/onecloud_control.go:1651-1653 GetDefaultProxyAgentName *)
Definition GetDefaultProxyAgentName : string := "proxyagent0".

(*@ pkg/controller/onecloud_control.go:1655-1669 getOrCreateProxyAgent *)
Definition getOrCreateProxyAgent s : M W string :=
  let! r := attempt (mod_Get s ProxyAgents GetDefaultProxyAgentName) in
  match r with
  | inr r => lift (GetString r "id")
  | inl _ =>
      let! r := mod_Create s ProxyAgents [("name", JStr GetDefaultProxyAgentName)] in
      lift (GetString r "id")
  end.

(*@ pkg/controller/onecloud_control.go:1671-1683 SystemInit *)
Definition cloudproxy_SystemInit : SM W unit :=
  RunWithSession SessionDebug (λ s,
    if StopServices then ret tt
    else kube (wrap "getOrCreateProxyAgent" (getOrCreateProxyAgent s)) ;;! ret tt).
End phases.
