(* ===== verification/Alerts.v ===== *)
(** * Alerts: the system alerts of the monitor service

    The alerts of [pkg/util/onecloud/onecloud.go] and [monitorComponent] of
    [pkg/controller/onecloud_control.go]: the alerts the operator wants are
    created when they are missing, updated when they differ, and the other
    system alerts are deleted. The requests are records; how they are written
    to JSON and read from it is the library's, the class [AlertCodec].
    Thresholds are whole numbers. *)

From Stdlib Require Import Ascii.
From S2P Require Import Prelude K8s Types Constants GoStrings.
From S2P Require Import LastApplied KubeApi Controls Session CloudApi.

Open Scope string_scope.
Open Scope list_scope.
Open Scope go_scope.

(** ** The data of the monitor's API *)
Record MetricQueryTag := MkMetricQueryTag {
  tag_Key : string;
  tag_Operator : string;
  tag_Value : string;
  tag_Condition : string
}.
Record MetricQueryPart := MkMetricQueryPart {
  part_Type : string;
  part_Params : list string
}.
Record MetricQuery := MkMetricQuery {
  query_Database : string;
  query_Measurement : string;
  query_Tags : list MetricQueryTag;
  query_GroupBy : list MetricQueryPart;
  query_Selects : list (list MetricQueryPart)
}.
#[global] Instance MetricQuery_eta : Eta MetricQuery := λ r,
  MkMetricQuery (query_Database r) (query_Measurement r) (query_Tags r) (query_GroupBy r)
    (query_Selects r).
Record CommonAlertQuery := MkCommonAlertQuery {
  alert_Model : MetricQuery;
  alert_From : string;
  alert_Reduce : string;
  alert_Comparator : string;
  alert_Threshold : Z;
  alert_FieldOpt : string;
  alert_ConditionType : string
}.
#[global] Instance CommonAlertQuery_eta : Eta CommonAlertQuery := λ r,
  MkCommonAlertQuery (alert_Model r) (alert_From r) (alert_Reduce r) (alert_Comparator r)
    (alert_Threshold r) (alert_FieldOpt r) (alert_ConditionType r).

(** The fields of the inputs that are set, and of the answers that are read. *)
Record CommonAlertCreateInput := MkCommonAlertCreateInput {
  create_MetricQuery : list CommonAlertQuery;
  create_Name : string;
  create_Level : string;
  create_Recipients : list string;
  create_AlertType : string;
  create_Scope : string;
  create_NoDataState : string;
  create_From : string;
  create_Interval : string
}.
Record CommonAlertUpdateInput := MkCommonAlertUpdateInput {
  update_MetricQuery : list CommonAlertQuery;
  update_Level : string;
  update_From : string;
  update_Interval : string;
  update_Description : string;
  update_NoDataState : string
}.
Record AlertCondition := MkAlertCondition {
  cond_From : string;
  cond_Selects : list (list MetricQueryPart)
}.
Record CommonAlertMetricDetails := MkCommonAlertMetricDetails {
  details_Comparator : string;
  details_Filters : list MetricQueryTag
}.

(** Marshalling; the last two compare what is marshalled. *)
Class AlertCodec := {
  Marshal_create : CommonAlertCreateInput → list (string * json);
  Marshal_update : CommonAlertUpdateInput → list (string * json);
  Unmarshal_setting : json → Res (list AlertCondition);
  Unmarshal_details : json → Res (list CommonAlertMetricDetails);
  sameSelects : list (list MetricQueryPart) → list (list MetricQueryPart) → bool;
  sameTags : list MetricQueryTag → list MetricQueryTag → bool
}.

Definition CommonAlertSystemAlertType : string := "system".
Definition CommonAlertDefaultRecipient : string := "commonalert-default".
Definition METRIC_QUERY_TYPE_NO_DATA : string := "nodata_query".
Definition CommonAlertFieldOptDivision : string := "/".

(** ** An alert the operator wants *)

(*@ pkg/util/onecloud/onecloud.go:729-751 CommonAlertTem *)
Record CommonAlertTem := MkCommonAlertTem {
  tem_Database : string;
  tem_Measurement : string;
  tem_Operator : string;
  tem_Field : list string;
  tem_FieldFunc : string;
  tem_Description : string;
  tem_Reduce : string;
  tem_Comparator : string;
  tem_Threshold : Z;
  tem_Filters : list MetricQueryTag;
  tem_FieldOpt : string;
  tem_GetPointStr : bool;
  tem_Name : string;
  tem_ConditionType : string;
  tem_From : string;
  tem_Interval : string;
  tem_GroupBy : string;
  tem_Level : string;
  tem_NoDataState : string
}.
#[global] Instance CommonAlertTem_eta : Eta CommonAlertTem := λ r,
  MkCommonAlertTem (tem_Database r) (tem_Measurement r) (tem_Operator r) (tem_Field r)
    (tem_FieldFunc r) (tem_Description r) (tem_Reduce r) (tem_Comparator r) (tem_Threshold r)
    (tem_Filters r) (tem_FieldOpt r) (tem_GetPointStr r) (tem_Name r) (tem_ConditionType r)
    (tem_From r) (tem_Interval r) (tem_GroupBy r) (tem_Level r) (tem_NoDataState r).

(** What is selected of a field: the function asked for, or the mean. *)
(*@ pkg/util/onecloud/onecloud.go:920-944 newCommonalertQuery (selects) *)
Definition selectsOf (tem : CommonAlertTem) (field : string) : list MetricQueryPart :=
  MkMetricQueryPart "field" [field] ::
    if str_empty (tem_FieldFunc tem) then [MkMetricQueryPart "mean" []]
    else MkMetricQueryPart (tem_FieldFunc tem) []
           :: if tem_GetPointStr tem then [MkMetricQueryPart "alias" [field]] else [].

(*@ pkg/util/onecloud/onecloud.go:906-983 newCommonalertQuery *)
Definition newCommonalertQuery (tem : CommonAlertTem) : CommonAlertQuery :=
  let groupBy :=
    if str_empty (tem_GroupBy tem) then []
    else map (λ grpBy, MkMetricQueryPart "field" [grpBy]) (split_on ","%char (tem_GroupBy tem)) in
  MkCommonAlertQuery
    (MkMetricQuery (tem_Database tem) (tem_Measurement tem) (tem_Filters tem) groupBy
       (map (selectsOf tem) (tem_Field tem)))
    (if String.eqb (tem_ConditionType tem) METRIC_QUERY_TYPE_NO_DATA
     then default_str "10m" (tem_From tem) else "60m")
    (tem_Reduce tem) (tem_Comparator tem) (tem_Threshold tem)
    (if str_empty (tem_FieldOpt tem) then "" else CommonAlertFieldOptDivision)
    (tem_ConditionType tem).

Section alerts.
Context {W : Type} `{!SessionEnv W, !JsonUtils, !CloudApi W, !AlertCodec}.
Implicit Types (s : ClientSession W).

(*@ pkg/util/onecloud/onecloud.go:753-764 GetCommonAlertOfSys *)
Definition GetCommonAlertOfSys s : M W (list json) :=
  let! '(data, _) := mod_List s CommonAlerts
    [("details", JBool true); ("alert_type", JStr CommonAlertSystemAlertType);
     ("scope", JStr "system")] in
  ret data.

Definition pointStr (tem : CommonAlertTem) (param : list (string * json)) : list (string * json) :=
  if tem_GetPointStr tem then set_field "get_point_str" (JBool true) param else param.

(*@ pkg/util/onecloud/onecloud.go:766-802 CreateCommonAlert *)
Definition CreateCommonAlert s (tem : CommonAlertTem) : M W json :=
  let param := Marshal_create (MkCommonAlertCreateInput
    [newCommonalertQuery tem] (tem_Name tem) (default_str "fatal" (tem_Level tem))
    [CommonAlertDefaultRecipient] CommonAlertSystemAlertType "system"
    (tem_NoDataState tem) (tem_From tem) (tem_Interval tem)) in
  let param := pointStr tem param in
  let param := if str_empty (tem_Description tem) then param
               else set_field "description" (JStr (tem_Description tem)) param in
  mod_Create s CommonAlerts (set_field "meta_name" (JStr (tem_Name tem)) param).

(** The conditions, the details and the queries side by side; one list being
    too short is an index out of range. *)
(*@ pkg/util/onecloud/onecloud.go:880-898 containDiffsWithRtnAlert (loop) *)
Fixpoint conditionsDiffer (conds : list AlertCondition) (details : list CommonAlertMetricDetails)
    (queries : list CommonAlertQuery) : Res bool :=
  match conds, details, queries with
  | [], _, _ => Ok false
  | c :: conds, d :: details, q :: queries =>
      if negb (String.eqb (details_Comparator d) (alert_Comparator q)) then Ok true
      else if negb (String.eqb (cond_From c) (alert_From q)) then Ok true
      else if negb (sameSelects (cond_Selects c) (query_Selects (alert_Model q))) then Ok true
      else if negb (sameTags (details_Filters d) (query_Tags (alert_Model q))) then Ok true
      else conditionsDiffer conds details queries
  | _, _, _ => Panic "index out of range"
  end.

(** Whether the stored alert must be updated. *)
(*@ pkg/util/onecloud/onecloud.go:846-900 containDiffsWithRtnAlert *)
Definition containDiffsWithRtnAlert (input : CommonAlertUpdateInput) (rtnAlert : json) : Res bool :=
  if negb (String.eqb (getString rtnAlert "level") (update_Level input)) then Ok true
  else if negb (str_empty (update_NoDataState input))
          && negb (String.eqb (update_NoDataState input) (getString rtnAlert "no_data_state"))
  then Ok true
  else
    let or_error {A} (msg : string) (r : Res A) : Res A :=
      match r with Err e => Err (ErrWrap e msg) | r => r end in
    res_bind (or_error "get rtnAlert settings error" (json_Get rtnAlert ["settings"])) (λ alertSetting,
    res_bind (or_error "rtnAlert Unmarshal setting error" (Unmarshal_setting alertSetting)) (λ conds,
    res_bind (or_error "get common_alert_metric_details error"
                (json_Get rtnAlert ["common_alert_metric_details"])) (λ alertDetails,
    res_bind (or_error "rtnAlert Unmarshal common_alert_metric_details error"
                (Unmarshal_details alertDetails)) (λ details,
    let queries := update_MetricQuery input in
    if negb (length conds =? length queries)%nat && negb (length conds =? length details)%nat
    then Ok true
    else conditionsDiffer conds details queries)))).

(** Nothing is sent when nothing differs. *)
(*@ pkg/util/onecloud/onecloud.go:804-844 UpdateCommonAlert *)
Definition UpdateCommonAlert s (tem : CommonAlertTem) (id : string) (alert : json) : M W unit :=
  let input := MkCommonAlertUpdateInput [newCommonalertQuery tem]
    (default_str "fatal" (tem_Level tem)) (tem_From tem) (tem_Interval tem) (tem_Description tem)
    (tem_NoDataState tem) in
  let! diff := wrap "containDiffsWithRtnAlert error" (lift (containDiffsWithRtnAlert input alert)) in
  if negb diff then ret tt
  else
    let param := set_field "force_update" (JBool true) (Marshal_update input) in
    mod_Update s CommonAlerts id
      (set_field "meta_name" (JStr (tem_Name tem)) (pointStr tem param)) ;;!
    ret tt.

(** The result is not looked at. *)
(*@ pkg/util/onecloud/onecloud.go:902-904 DeleteCommonAlert *)
Definition DeleteCommonAlert s (ids : list string) : M W unit :=
  let! _ := attempt (mod_BatchDelete s CommonAlerts ids) in ret tt.

(** ** The alerts of the system *)

(** The first alert of a metric, by its name or the name in its metadata, and
    the alerts before and after it. *)
(*@ pkg/controller/onecloud_control.go:1317-1341 matchFromRtnAlerts *)
Fixpoint matchFromRtnAlerts (metric : string) (rtnAlert : list json)
  : Res (option json * list json) :=
  match rtnAlert with
  | [] => Ok (None, [])
  | alert :: rest =>
      match json_Get alert ["metadata"] with
      | Ok metadataObj =>
          if String.eqb metric (getString alert "name")
             || String.eqb metric (getString metadataObj "meta_name")
          then Ok (Some alert, rest)
          else res_map (λ '(m, deleteAlerts), (m, alert :: deleteAlerts))
                 (matchFromRtnAlerts metric rest)
      | Err e => Err (ErrWrap e "cannot get metadata")
      | Panic p => Panic p
      end
  end.

(** One alert that is wanted: the errors of the requests are logged. The
    alerts left over. *)
(*@ pkg/controller/onecloud_control.go:1286-1304 SystemInit (loop) *)
Definition initAlert s (tmpAlert : list json) (tem : string * CommonAlertTem) : M W (list json) :=
  let '(metric, tem) := tem in
  let! '(m, deleteAlerts) := lift (matchFromRtnAlerts metric tmpAlert) in
  match m with
  | Some alert =>
      let! _ := attempt (UpdateCommonAlert s tem (getString alert "id") alert) in ret deleteAlerts
  | None => let! _ := attempt (CreateCommonAlert s tem) in ret deleteAlerts
  end.

Fixpoint initAlerts s (tmpAlert : list json) (alertInfo : list (string * CommonAlertTem))
  : M W (list json) :=
  match alertInfo with
  | [] => ret tmpAlert
  | tem :: alertInfo => let! tmpAlert := initAlert s tmpAlert tem in initAlerts s tmpAlert alertInfo
  end.

(** The map of the alerts is given in the order Go ranges over it. *)
(*@ pkg/controller/onecloud_control.go:1280-1314 SystemInit (session) *)
Definition initSystemAlerts (alertInfo : list (string * CommonAlertTem)) s : M W unit :=
  let! rtnAlert := wrap "monitorComponent GetCommonAlertOfSys" (GetCommonAlertOfSys s) in
  let! left_over := initAlerts s rtnAlert alertInfo in
  match map (λ alert, getString alert "id") left_over with
  | [] => ret tt
  | ids => DeleteCommonAlert s ids
  end.
End alerts.

(** ** The alerts that are wanted *)

Definition tag (key value : string) : MetricQueryTag := MkMetricQueryTag key "=" value "OR".

(*@ pkg/controller/onecloud_control.go:1430-1442 getInitInfo (genORFilter) *)
Definition genORFilter (key : string) (vals : list string) : list MetricQueryTag := map (tag key) vals.

(** A rule over a field, with everything else empty. *)
Definition rule (db measurement : string) (field : list string) (comparator : string) (threshold : Z)
    (name reduce description : string) : CommonAlertTem :=
  MkCommonAlertTem db measurement "" field "" description reduce comparator threshold [] "" false
    name "" "" "" "" "" "".

(*@ pkg/controller/onecloud_control.go:1344-1353 getInitInfo (cpuTem) *)
Definition cpuTem : CommonAlertTem :=
  rule "telegraf" "cpu" ["usage_active"] ">=" 90 "cpu.usage_active" "avg" "监测宿主机CPU使用率".

(*@ pkg/controller/onecloud_control.go:1354-1363 getInitInfo (memTem) *)
Definition memTem : CommonAlertTem :=
  rule "telegraf" "mem" ["available"] "<=" 524288000 "mem.available" "avg" "监测宿主机可用内存".

Definition diskFilters : list MetricQueryTag := [tag "path" "/"; tag "path" "/opt"].

(*@ pkg/controller/onecloud_control.go:1364-1391 getInitInfo (diskAvaTem) *)
Definition diskAvaTem : CommonAlertTem :=
  (rule "telegraf" "disk" ["used_percent"] ">=" 80 "disk.used_percent>=80%" "last"
     "监测宿主机磁盘容量使用率>=80%")
    <| tem_FieldFunc := "last" |> <| tem_Level := "important" |> <| tem_Filters := diskFilters |>
    <| tem_From := "5m" |>.

(*@ pkg/controller/onecloud_control.go:1392-1418 getInitInfo (diskNodeAvaTem) *)
Definition diskNodeAvaTem : CommonAlertTem :=
  (rule "telegraf" "disk" ["inodes_used_percent"] ">=" 80 "disk.inodes_used_percent>=80%" "last"
     "监测宿主机磁盘inodes使用率>=80%")
    <| tem_FieldFunc := "last" |> <| tem_Level := "important" |> <| tem_Filters := diskFilters |>
    <| tem_From := "5m" |>.

(*@ pkg/controller/onecloud_control.go:1419-1429 getInitInfo (smartDevTem) *)
Definition smartDevTem : CommonAlertTem :=
  (rule "telegraf" "smart_device" ["health_ok"] "==" 0 "smart_device.exit_status" "last"
     "监测磁盘健康状态") <| tem_FieldFunc := "last" |>.

(*@ pkg/controller/onecloud_control.go:1446-1465 getInitInfo (hostRaidTem) *)
Definition hostRaidTem : CommonAlertTem :=
  (rule "telegraf" "host_raid" ["adapter"; "slot"] ">=" 0 "host_raid.adapter" "last"
     "检查宿主机raid控制器状态")
    <| tem_FieldFunc := "last" |> <| tem_From := "5m" |> <| tem_GetPointStr := true |>
    <| tem_NoDataState := "ok" |>
    <| tem_Filters := genORFilter "status" ["offline"; "failed"; "degraded"; "out of sync"] |>.

(*@ pkg/controller/onecloud_control.go:1466-1478 getInitInfo (bondSlaveTem) *)
Definition bondSlaveTem : CommonAlertTem :=
  (rule "telegraf" "bond_slave" ["status"] "==" 0 "bond_slave.status" "last"
     "检查宿主机bond slave网卡状态")
    <| tem_FieldFunc := "last" |> <| tem_GroupBy := "host_id,interface,bond" |>
    <| tem_Level := "important" |>.

(*@ pkg/controller/onecloud_control.go:1480-1492 getInitInfo (cloudaccountTem) *)
Definition cloudaccountTem : CommonAlertTem :=
  (rule "meter_db" "cloudaccount_balance" ["balance"] "<=" 100 "cloudaccount_balance.balance" "last"
     "监测云账号余额")
    <| tem_Level := "important" |>
    <| tem_Filters := genORFilter "brand" ["Aliyun"; "Qcloud"; "VolcEngine"; "Baidu"; "Huawei"] |>.

(*@ pkg/controller/onecloud_control.go:1493-1507 getInitInfo (noDataTem) *)
Definition noDataTem : CommonAlertTem :=
  (rule "telegraf" "system" ["uptime"] "==" 0 "system.uptime" "last" "监测节点启动时间")
    <| tem_FieldFunc := "last" |> <| tem_ConditionType := "nodata_query" |> <| tem_From := "10m" |>
    <| tem_Interval := "1m" |> <| tem_Level := "important" |>.

(*@ pkg/controller/onecloud_control.go:1509-1522 getInitInfo (defunctProcessTem) *)
Definition defunctProcessTem : CommonAlertTem :=
  (rule "telegraf" "processes" ["zombies"] ">=" 10 "process.zombies" "last" "监测节点僵尸进程数")
    <| tem_FieldFunc := "last" |> <| tem_GroupBy := "host_id" |> <| tem_From := "5m" |>.

(*@ pkg/controller/onecloud_control.go:1524-1537 getInitInfo (totalProcessTem) *)
Definition totalProcessTem : CommonAlertTem :=
  (rule "telegraf" "processes" ["total"] ">=" 20000 "process.total" "last" "监测节点总进程数")
    <| tem_FieldFunc := "last" |> <| tem_GroupBy := "host_id" |> <| tem_From := "5m" |>.

(*@ pkg/controller/onecloud_control.go:1538-1552 getInitInfo (systemLoad1Pcore) *)
Definition systemLoad1Pcore : CommonAlertTem :=
  (rule "telegraf" "system" ["load1_pcore"] ">=" 2 "system.load1_pcore" "last" "监测节点load")
    <| tem_FieldFunc := "last" |> <| tem_GroupBy := "host_id" |> <| tem_From := "5m" |>
    <| tem_Level := "important" |>.

(*@ pkg/controller/onecloud_control.go:1554-1568 getInitInfo (hostRebootTem) *)
Definition hostRebootTem : CommonAlertTem :=
  (rule "telegraf" "system" ["uptime"] "<" 0 "system.host_reboot" "delta"
     "监测宿主机重启（通过uptime差值检测）")
    <| tem_GroupBy := "host_id" |> <| tem_From := "30m" |> <| tem_Level := "important" |>
    <| tem_Filters := genORFilter "brand" ["OneCloud"] |>.

(** The map, by its keys. *)
(*@ pkg/controller/onecloud_control.go:1570-1585 getInitInfo (speAlert) *)
Definition getInitInfo : list (string * CommonAlertTem) :=
  map (λ tem, (tem_Name tem, tem))
    [cpuTem; memTem; diskAvaTem; diskNodeAvaTem; cloudaccountTem; smartDevTem; hostRaidTem;
     bondSlaveTem; noDataTem; defunctProcessTem; totalProcessTem; systemLoad1Pcore; hostRebootTem].

Section phase.
Context {W : Type} `{!SessionEnv W, !JsonUtils, !CloudApi W, !AlertCodec}.
Context (SessionDebug : bool).

(** Go ranges over the map of the alerts in any order; here in that of the
    list. *)
(*@ pkg/controller/onecloud_control.go:1277-1315 SystemInit *)
Definition monitor_SystemInit : SM W unit :=
  RunWithSession SessionDebug (λ s, kube (initSystemAlerts getInitInfo s)).
End phase.
