(* ===== verification/AlertFacts.v ===== *)
(** * AlertFacts: which system alerts are kept, created and deleted *)

From S2P Require Import Prelude K8s Types Constants GoStrings.
From S2P Require Import LastApplied KubeApi Controls Session CloudApi Alerts.

Open Scope string_scope.
Open Scope list_scope.
Open Scope go_scope.

Section facts.
Context {W : Type} `{!SessionEnv W, !JsonUtils, !CloudApi W, !AlertCodec}.
Implicit Types (s : ClientSession W).

(** An alert is the one of a metric: by its name, or the name in its
    metadata. *)
Definition alertOf (metric : string) (alert : json) : bool :=
  match json_Get alert ["metadata"] with
  | Ok m => String.eqb metric (getString alert "name") || String.eqb metric (getString m "meta_name")
  | _ => false
  end.

Definition has_metadata (alert : json) : Prop := is_ok (json_Get alert ["metadata"]) = true.

(** The first alert of the metric is taken out, the others stay in order. *)
Lemma matchFromRtnAlerts_spec metric l : Forall has_metadata l →
  match matchFromRtnAlerts metric l with
  | Ok (Some a, rest) => ∃ l1 l2, l = l1 ++ a :: l2 ∧ rest = l1 ++ l2 ∧ alertOf metric a = true ∧
                           Forall (λ a, alertOf metric a = false) l1
  | Ok (None, rest) => rest = l ∧ Forall (λ a, alertOf metric a = false) l
  | _ => False
  end.
Proof.
  induction l as [|a l IH]; intros Hall; cbn [matchFromRtnAlerts]; [done|]. apply Forall_cons in Hall as [Ha Hl].
  unfold has_metadata in Ha. specialize (IH Hl).
  assert (alertOf metric a = match json_Get a ["metadata"] with
    | Ok m => String.eqb metric (getString a "name") || String.eqb metric (getString m "meta_name")
    | _ => false end) as Hof by done.
  destruct (json_Get a ["metadata"]) as [m|e|p]; [|done|done].
  destruct (String.eqb metric (getString a "name") || _)%bool eqn:Hm; [by exists [], l; rewrite Hof|].
  destruct (matchFromRtnAlerts metric l) as [[[b|] rest]|e|p]; simpl; [| |done|done].
  - destruct IH as (l1 & l2 & -> & -> & Hb & H1). exists (a :: l1), l2. split_and!; [done..|].
    by constructor.
  - destruct IH as [-> H1]. split; [done|]. by constructor.
Qed.

(** What a pass over the wanted metrics has kept, and what is left over. *)
Definition partitioned (metrics : list string) (l left_over : list json) : Prop :=
  ∃ kept : list (string * json),
    l ≡ₚ map snd kept ++ left_over ∧
    Forall (λ '(m, a), alertOf m a = true) kept ∧
    map fst kept `sublist_of` metrics ∧
    ∀ m, m ∈ metrics → m ∉ map fst kept → Forall (λ a, alertOf m a = false) left_over.

Lemma partitioned_match m metrics l1 a l2 left_over : alertOf m a = true →
  partitioned metrics (l1 ++ l2) left_over → partitioned (m :: metrics) (l1 ++ a :: l2) left_over.
Proof.
  intros Ha (kept & Hp & Hk & Hs & Hn). exists ((m, a) :: kept). simpl. split_and!.
  - by rewrite <- Hp, Permutation_middle.
  - by constructor.
  - by constructor.
  - intros m' Hm' Hni. apply not_elem_of_cons in Hni as [Hne Hni].
    apply elem_of_cons in Hm' as [->|Hm']; [done|]. by apply Hn.
Qed.

Lemma partitioned_skip m metrics l left_over : Forall (λ a, alertOf m a = false) l →
  partitioned metrics l left_over → partitioned (m :: metrics) l left_over.
Proof.
  intros Hl (kept & Hp & Hk & Hs & Hn). exists kept. split_and!; [done|done|by constructor|].
  intros m' Hm' Hni. apply elem_of_cons in Hm' as [->|Hm']; [|by apply Hn].
  rewrite Hp in Hl. by apply Forall_app in Hl as [_ Hl].
Qed.

(** Requests that are logged do not change what is left over. *)
Lemma logged_wp {A B} (c : M W A) (b : B) (Q : W → Res B → Prop) (w : W) :
  (∀ w', Q w' (Ok b)) → (∀ w' p, Q w' (Panic p)) → wp (let! _ := attempt c in ret b) Q w.
Proof.
  intros Hb Hp. apply wp_bind, wp_attempt, wp_any. intros w' [a|e|p]; simpl; [apply wp_ret, Hb..|apply Hp].
Qed.

Lemma initAlerts_wp s infos l w : Forall has_metadata l →
  wp (initAlerts s l infos) (λ _ r, match r with
                                    | Ok left_over => partitioned (map fst infos) l left_over
                                    | Err _ => False
                                    | Panic _ => True
                                    end) w.
Proof.
  revert l w. induction infos as [|[metric tem] infos IH]; intros l w Hl; simpl.
  { apply wp_ret. exists []. split_and!; [done|constructor|constructor|]. by intros m ?%not_elem_of_nil. }
  apply wp_bind. unfold initAlert. apply wp_bind, wp_lift.
  pose proof (matchFromRtnAlerts_spec metric l Hl) as Hm.
  destruct (matchFromRtnAlerts metric l) as [[[a|] rest]|e|p]; [| |done|done]; simpl.
  - destruct Hm as (l1 & l2 & -> & -> & Ha & _).
    apply logged_wp; [|done]. intros w'; simpl. eapply wp_conseq; [apply IH|].
    { apply Forall_app in Hl as [H1 H2]. apply Forall_app. split; [done|]. by inversion H2. }
    intros w2 [left_over|e|p]; [|done|done]. by apply partitioned_match.
  - destruct Hm as [-> Hn]. apply logged_wp; [|done]. intros w'; simpl.
    eapply wp_conseq; [by apply IH|]. intros w2 [left_over|e|p]; [|done|done].
    by apply partitioned_skip.
Qed.
End facts.

(** C22. Bringing the system alerts up to date, in whatever order the map of
    the wanted ones is gone through and whatever the requests answer: the
    stored alerts are split into those kept, each for a wanted metric it is the
    alert of and no metric twice, and those left over to be deleted; a wanted
    metric for which none is kept (one is then created) has no alert among
    those left over. No stored alert is in both parts or in neither, and the
    pass never ends with an error. *)
Theorem initAlerts_partition {W : Type} `{!SessionEnv W, !JsonUtils, !CloudApi W, !AlertCodec}
    (s : ClientSession W) (infos : list (string * CommonAlertTem)) (l : list json) (w : W) :
  infos ≡ₚ getInitInfo → Forall has_metadata l →
  match (initAlerts s l infos w).2 with
  | Ok left_over => ∃ kept : list (string * json),
      l ≡ₚ map snd kept ++ left_over ∧ NoDup (map fst kept) ∧
      Forall (λ '(m, a), m ∈ map fst getInitInfo ∧ alertOf m a = true) kept ∧
      ∀ m, m ∈ map fst getInitInfo → m ∉ map fst kept → Forall (λ a, alertOf m a = false) left_over
  | Err _ => False
  | Panic _ => True
  end.
Proof.
  intros Hperm Hl. pose proof (initAlerts_wp s infos l w Hl) as Hwp. unfold wp in Hwp.
  destruct (initAlerts s l infos w) as [w' [left_over|e|p]]; simpl in *; [|done|done].
  destruct Hwp as (kept & Hp & Hk & Hs & Hn). exists kept.
  assert (∀ m, m ∈ map fst infos ↔ m ∈ map fst getInitInfo) as Hin by (intros m; by rewrite Hperm).
  split_and!; [done| | |].
  - eapply sublist_NoDup; [|exact Hs]. rewrite Hperm. apply (bool_decide_unpack _). vm_compute. exact I.
  - apply Forall_forall. intros [m a] Hma. rewrite Forall_forall in Hk. split; [|by apply (Hk _ Hma)].
    apply Hin. eapply elem_of_sublist; [|exact Hs]. apply list_elem_of_fmap. by exists (m, a).
  - intros m Hm. apply Hn. by apply Hin.
Qed.
