(* ===== verification/KubeSim.v ===== *)
(** * KubeSim: a world in memory

    An API server that keeps every kind of object the operator syncs, an
    identity service whose sessions always work, and codecs: the instance at
    which the theorems of SyncFacts and the files after it are applied. *)

From Stdlib Require Import Ascii.
From S2P Require Import Prelude K8s Types Constants GoStrings Defaults ConfigDefaultsFacts.
From S2P Require Import ControllerUtils LastApplied KubeApi Controls Session CloudApi.
From S2P Require Import Sync SyncFacts.

Open Scope string_scope.
Open Scope list_scope.
Open Scope go_scope.

Record World := MkWorld {
  w_deployments : MemStore Deployment;
  w_daemonsets : MemStore DaemonSet;
  w_cronjobs : MemStore CronJob;
  w_services : MemStore core_Service;
  w_configmaps : MemStore ConfigMap;
  w_ingresses : MemStore Unstructured;
  w_pvcs : MemStore PersistentVolumeClaim;
  w_objects : list (Resource * list (string * json));
  w_users : gmap (string * string) (string * list string)
}.
#[global] Instance World_eta : Eta World := λ r,
  MkWorld (w_deployments r) (w_daemonsets r) (w_cronjobs r) (w_services r) (w_configmaps r)
    (w_ingresses r) (w_pvcs r) (w_objects r) (w_users r).

(** A server of one kind as a part of the world. *)
Section part.
Context {World T : Type} `{!KObject T} (fill : option T → T → T).
Context (part : World → MemStore T) (set_part : MemStore T → World → World).

Definition on_part {A} (c : M (MemStore T) A) : M World A := λ w,
  let '(s, r) := c (part w) in (set_part s w, r).

Definition part_api : ResourceApi World T := {|
  apiCreate ns o := on_part (@apiCreate _ _ (mem_api fill) ns o);
  apiUpdate ns o := on_part (@apiUpdate _ _ (mem_api fill) ns o);
  apiDelete ns n := on_part (@apiDelete _ T (mem_api fill) ns n);
  apiGet ns n := on_part (@apiGet _ T (mem_api fill) ns n);
  listerGet ns n := on_part (@listerGet _ T (mem_api fill) ns n)
|}.

Hypothesis part_set : ∀ s w, part (set_part s w) = s.
Hypothesis set_part_id : ∀ w, set_part (part w) w = w.

Definition part_store : @ApiStore World T part_api _.
Proof.
  refine (@Build_ApiStore _ _ part_api _ (λ w ns n, mem (part w) !! (ns, n)) fill _ _ _ _ _ _).
  - intros w ns n. unfold listerGet; simpl. unfold on_part, mem_get. by rewrite set_part_id.
  - intros w ns n. unfold apiGet; simpl. unfold on_part, mem_get. by rewrite set_part_id.
  - intros w ns o Ho.
    destruct (@apiCreate_stored _ _ _ _ (mem_store fill) (part w) ns o Ho) as (s & Hc & Hst).
    exists (set_part s w). split; [by unfold apiCreate, part_api, on_part; rewrite Hc|].
    intros ns' n'. rewrite part_set. apply Hst.
  - intros w ns o o' Ho. unfold apiCreate, part_api, on_part.
    rewrite (@apiCreate_exists _ _ _ _ (mem_store fill) (part w) ns o o' Ho). by rewrite set_part_id.
  - intros w ns o old Ho.
    destruct (@apiUpdate_stored _ _ _ _ (mem_store fill) (part w) ns o old Ho) as (s & Hc & Hst).
    exists (set_part s w). split; [by unfold apiUpdate, part_api, on_part; rewrite Hc|].
    intros ns' n'. rewrite part_set. apply Hst.
  - intros w ns n o Ho.
    destruct (@apiDelete_stored _ _ _ _ (mem_store fill) (part w) ns n o Ho) as (s & Hc & Hst).
    exists (set_part s w). split; [by unfold apiDelete, part_api, on_part; rewrite Hc|].
    intros ns' n'. rewrite part_set. apply Hst.
Defined.
End part.

(** Most kinds are kept as they come. *)
Definition keep {T} (old : option T) (o : T) : T := o.

(** A service is given an address when it asks for none. *)
Definition with_address (old : option core_Service) (svc : core_Service) : core_Service :=
  if str_empty (core_ServiceSpec_ClusterIP (core_Service_Spec svc)) then
    svc <| core_Service_Spec ::= λ s, s <| core_ServiceSpec_ClusterIP := "10.96.0.7" |> |>
  else svc.

#[export] Instance deployments_api : ResourceApi World Deployment :=
  part_api keep w_deployments (λ s w, w <| w_deployments := s |>).
#[export] Instance daemonsets_api : ResourceApi World DaemonSet :=
  part_api keep w_daemonsets (λ s w, w <| w_daemonsets := s |>).
#[export] Instance cronjobs_api : ResourceApi World CronJob :=
  part_api keep w_cronjobs (λ s w, w <| w_cronjobs := s |>).
#[export] Instance services_api : ResourceApi World core_Service :=
  part_api with_address w_services (λ s w, w <| w_services := s |>).
#[export] Instance configmaps_api : ResourceApi World ConfigMap :=
  part_api keep w_configmaps (λ s w, w <| w_configmaps := s |>).
#[export] Instance ingresses_api : ResourceApi World Unstructured :=
  part_api keep w_ingresses (λ s w, w <| w_ingresses := s |>).
#[export] Instance pvcs_api : ResourceApi World PersistentVolumeClaim :=
  part_api keep w_pvcs (λ s w, w <| w_pvcs := s |>).

Ltac part_tac := refine (part_store _ _ _ _ _); [by intros s []|by intros []].
#[export] Instance deployments_store : ApiStore World Deployment.
Proof. part_tac. Defined.
#[export] Instance daemonsets_store : ApiStore World DaemonSet.
Proof. part_tac. Defined.
#[export] Instance cronjobs_store : ApiStore World CronJob.
Proof. part_tac. Defined.
#[export] Instance services_store : ApiStore World core_Service.
Proof. part_tac. Defined.
#[export] Instance configmaps_store : ApiStore World ConfigMap.
Proof. part_tac. Defined.

#[export] Instance sim_admits : AdmitsDeployments World.
Proof. intros old d. by split_and!. Defined.

(** A source of passwords without memory. *)
Definition fixedPasswords (W : Type) : Passwords W := {|
  nthPassword _ := "secret"; drawn _ := 0%nat; set_drawn _ w := w |}.
#[export] Instance sim_passwords : Passwords World := fixedPasswords World.

#[export] Instance sim_draws : DrawsApart World.
Proof. by intros n w ns name. Defined.

(** Codecs. *)
#[export] Instance PodSpec_codec : JsonCodec PodSpec := countable_codec.
#[export] Instance DeploymentSpec_codec : JsonCodec apps_DeploymentSpec := countable_codec.
#[export] Instance DaemonSetSpec_codec : JsonCodec apps_DaemonSetSpec := countable_codec.
#[export] Instance JobSpec_codec : JsonCodec JobSpec := countable_codec.
#[export] Instance CronJobSpec_codec : JsonCodec batch_CronJobSpec := countable_codec.
#[export] Instance ServiceSpec_codec : JsonCodec core_ServiceSpec := countable_codec.
#[export] Instance Data_codec : JsonCodec (gmap string string) := countable_codec.
#[export] Instance map_codec : JsonMapCodec := countable_map_codec.
#[export] Instance yaml_codec : ConfigCodec.
Proof.
  refine {| MarshalToYaml x := Marshal (JsonCodec := countable_codec) x;
            DecodeYaml := Unmarshal (JsonCodec := countable_codec) |}.
  intros cfg s. apply Unmarshal_Marshal.
Defined.

(** An image is its name and a tag, after the last colon. *)
#[export] Instance image_parser : ReferenceParser := λ img,
  match before_last ":"%char img with
  | Some name => Ok (MkNamedRef (Some (name, name)) None None)
  | None => Ok (MkNamedRef (Some (img, img)) None None)
  end.

#[export] Instance sim_session : SessionEnv World := {|
  ClientSession := unit;
  Client := unit;
  TokenCredential := unit;
  NewClient _ _ _ _ _ _ := tt;
  AuthenticateWithSource _ _ _ _ _ _ _ := ret tt;
  SimplifyToken t := t;
  SetServiceCatalog c := c;
  NewSession _ _ _ _ _ := tt;
  GetClient _ := tt;
  IsAuthed := ret true;
  SetDefaultAuthSource _ := ret tt;
  auth_Init _ _ _ _ _ := ret tt;
  GetAdminSession _ := ret tt;
  SetServiceUrl _ _ _ := ret tt
|}.

(** A world that holds the configuration of the cluster and nothing else. *)
Definition world_of (oc : OnecloudCluster) (cfg : OnecloudClusterConfig) : World :=
  match clusterConfigToConfigMap oc cfg with
  | Ok cm => MkWorld (MkMemStore ∅) (MkMemStore ∅) (MkMemStore ∅) (MkMemStore ∅)
               (MkMemStore {[ (oc_ns oc, ClusterConfigMapName oc) := cm ]})
               (MkMemStore ∅) (MkMemStore ∅) [] ∅
  | _ => MkWorld (MkMemStore ∅) (MkMemStore ∅) (MkMemStore ∅) (MkMemStore ∅) (MkMemStore ∅)
           (MkMemStore ∅) (MkMemStore ∅) [] ∅
  end.

(** A configuration with its defaults. *)
Definition defaulted (cfg : OnecloudClusterConfig) : OnecloudClusterConfig :=
  match (ConfigDefaults.SetDefaults_OnecloudClusterConfig (λ _, "secret") cfg 0%nat).2 with
  | Ok cfg => cfg <| OnecloudClusterConfig_CommonConfig ::= ConfigDefaults.SetDefaults_GlobalServiceCommonConfig |>
  | _ => zero
  end.

(** The configuration can be read from a world whose config maps are those. *)
Lemma world_config oc cfg oc' w :
  oc_ns oc' = oc_ns oc → oc_name oc' = oc_name oc →
  w_configmaps w = w_configmaps (world_of oc cfg) →
  clusterConfig (oc', w) = ((oc', w), Ok (defaulted cfg)).
Proof.
  intros Hns Hn Hw. unfold clusterConfig. rewrite (bind_Ok _ _ _ _ _ (getoc_eq oc' w)).
  destruct (SetDefaults_OnecloudClusterConfig_settles (λ _, "secret") cfg 0) as (n & c & Hc & _); [done|].
  apply kube_eq. unfold GetClusterConfig.
  destruct (clusterConfigToConfigMap oc cfg) as [cm|e|p] eqn:Hcm; [|done|done].
  rewrite (bind_Ok _ _ _ w cm).
  - erewrite config_decoded; [|exact Hcm|reflexivity]. apply wrap_Ok.
    unfold SetObjectDefaults_OnecloudClusterConfig, bind, drawing, defaulted. simpl. by rewrite Hc.
  - rewrite listerGet_stored. f_equal. simpl. rewrite Hw. unfold world_of. rewrite Hcm. simpl.
    unfold ClusterConfigMapName. by rewrite Hns, Hn, lookup_singleton_eq.
Qed.
