(* ===== verification/ServiceFacts.v ===== *)
(** * ServiceFacts: the services of a component are synced one at a time

    [syncService] of [pkg/manager/component/component.go] returns as soon as
    it has written one service. Repeated, it gets through the list, if it never
    has to update a service the API server gave an address: the annotation it
    then leaves has the address in it, which the wanted spec has not, and every
    later sync updates that service again and never gets to the ones behind
    it ([syncServices_stuck]). Outside the component's product version it
    returns at the first service, and the others are never deleted. *)

From S2P Require Import Prelude K8s Types Constants GoStrings Defaults.
From S2P Require Import ControllerUtils LastApplied KubeApi Controls Session CloudApi.
From S2P Require Import Sync SyncFacts KubeSim.

Open Scope string_scope.
Open Scope list_scope.
Open Scope go_scope.

Local Abbreviation addr svc := (core_ServiceSpec_ClusterIP (core_Service_Spec svc)).

(** What the API server keeps of a service; an address it was given stays. *)
Class AdmitsServices (W : Type) `{ApiStore W core_Service} := admits_service old s :
  obj_name (admitted (T:=core_Service) old s) = obj_name s ∧
  lastApplied (core_Service_ObjectMeta (admitted old s)) = lastApplied (core_Service_ObjectMeta s) ∧
  (addr s ≠ "" → addr (admitted old s) = addr s).

Section services.
Context {W : Type} `{!ResourceApi W core_Service, !ApiStore W core_Service, !AdmitsServices W}.
Context `{!JsonCodec core_ServiceSpec}.
Context (marshals : ∀ s : core_ServiceSpec, ∃ a, Marshal s = Ok a).
Context (oc : OnecloudCluster).

Local Abbreviation now w svc := (stored w (oc_ns oc) (obj_name svc)).

(** The service is there and was last asked for as it is wanted. *)
Definition agreed (w : W) (svc : core_Service) : Prop :=
  ∃ old, now w svc = Some old ∧ serviceEqual svc old = Ok true.

(** It is missing, agreed, or to be updated at the address that is wanted. *)
Definition fits (w : W) (svc : core_Service) : Prop :=
  match now w svc with
  | None => True
  | Some old => obj_name old = obj_name svc ∧
      (serviceEqual svc old = Ok true ∨ serviceEqual svc old = Ok false ∧ addr old = addr svc)
  end.

Lemma SetService_facts s : ∃ s',
  SetServiceLastAppliedConfigAnnotation s = Ok s' ∧ obj_name s' = obj_name s ∧
  core_Service_Spec s' = core_Service_Spec s ∧
  ∃ a, lastApplied (core_Service_ObjectMeta s') = Some a ∧ Unmarshal a = Ok (core_Service_Spec s).
Proof.
  unfold SetServiceLastAppliedConfigAnnotation, encode_obj.
  destruct (marshals (core_Service_Spec s)) as [a Ha]. rewrite Ha. eexists. split; [reflexivity|].
  split; [done|]. split; [done|]. exists a. simpl. rewrite lastApplied_annotate.
  split; [done|]. by apply Unmarshal_Marshal.
Qed.

(** What is kept of an annotated service compares by its spec. *)
Lemma admitted_equal svc s s' old :
  SetServiceLastAppliedConfigAnnotation s = Ok s' →
  serviceEqual svc (admitted old s') = Ok (bool_decide (core_Service_Spec s = core_Service_Spec svc)).
Proof.
  intros Hs. destruct (SetService_facts s) as (s1 & Hs1 & _ & _ & a & Ha & Hu).
  rewrite Hs in Hs1. injection Hs1 as <-.
  destruct (admits_service old s') as (_ & Hl & _). unfold serviceEqual. by rewrite Hl, Ha, Hu.
Qed.

Lemma syncServices_skip pre rest w :
  Forall (agreed w) pre → syncServices oc true (pre ++ rest) w = syncServices oc true rest w.
Proof.
  induction 1 as [|svc pre (old & Ho & He) _ IH]; [done|]. cbn [app syncServices].
  erewrite bind_Ok; [|apply attempt_Ok; rewrite listerGet_stored, Ho; reflexivity].
  cbn [negb]. unfold bind at 1, lift at 1. by rewrite He.
Qed.

(** A missing service is created. *)
Lemma sync_creates svc rest w :
  now w svc = None →
  ∃ w' o, syncServices oc true (svc :: rest) w = (w', Ok tt) ∧
    (∀ ns n, stored w' ns n = if decide ((ns, n) = (oc_ns oc, obj_name svc)) then Some o else stored w ns n) ∧
    obj_name o = obj_name svc ∧ serviceEqual svc o = Ok true.
Proof.
  intros Hn. destruct (SetService_facts svc) as (s' & Hs & Hname & _).
  rewrite <-Hname in Hn. destruct (apiCreate_stored _ _ _ Hn) as (w' & Hc & Hst).
  exists w', (admitted None s'). cbn [syncServices]. rewrite Hname in Hn, Hst.
  split; [|split; [exact Hst|split]].
  - erewrite bind_Ok; [|apply attempt_Err; rewrite listerGet_stored, Hn; reflexivity].
    cbn [IsNotFound Cause negb]. unfold bind at 1, lift at 1. rewrite Hs. unfold CreateService.
    by rewrite (bind_Ok _ _ _ _ _ Hc).
  - destruct (admits_service None s') as (Ha & _). by rewrite Ha.
  - rewrite (admitted_equal _ _ _ _ Hs). by rewrite bool_decide_eq_true_2.
Qed.

(** A service that differs is updated, and keeps its address. *)
Lemma sync_updates svc rest old w :
  now w svc = Some old → obj_name old = obj_name svc → serviceEqual svc old = Ok false →
  ∃ w' o, syncServices oc true (svc :: rest) w = (w', Ok tt) ∧
    (∀ ns n, stored w' ns n = if decide ((ns, n) = (oc_ns oc, obj_name svc)) then Some o else stored w ns n) ∧
    obj_name o = obj_name svc ∧
    serviceEqual svc o = Ok (bool_decide (addr old = addr svc)) ∧
    (addr old ≠ "" → addr o = addr old).
Proof.
  intros Ho Hname He.
  set (svc2 := old <| core_Service_Spec := (core_Service_Spec svc)
                 <| core_ServiceSpec_ClusterIP := addr old |> |>).
  destruct (SetService_facts svc2) as (s' & Hs & Hn & Hsp & _).
  assert (obj_name s' = obj_name svc) as Hn' by (rewrite Hn; exact Hname).
  assert (stored w (oc_ns oc) (obj_name s') = Some old) as Ho' by by rewrite Hn'.
  destruct (apiUpdate_stored _ _ _ _ Ho') as (w' & Hu & Hst). rewrite Hn' in Hst.
  destruct (admits_service (Some old) s') as (Ha & _ & Haddr).
  exists w', (admitted (Some old) s'). split; [|split; [exact Hst|split; [congruence|split]]].
  - cbn [syncServices].
    erewrite bind_Ok; [|apply attempt_Ok; rewrite listerGet_stored, Ho; reflexivity].
    cbn [negb]. unfold bind at 1, lift at 1. rewrite He. fold svc2.
    unfold bind at 1, lift at 1. rewrite Hs. unfold UpdateService.
    erewrite bind_Ok; [reflexivity|]. apply updateOnConflict_accepted; [exact Hu|].
    unfold DefaultBackoff. lia.
  - rewrite (admitted_equal _ _ _ _ Hs). f_equal. apply bool_decide_ext. unfold svc2. simpl.
    split; [by intros <-|]. intros ->. by destruct (core_Service_Spec svc).
  - intros Hne. rewrite Haddr; rewrite Hsp; [done|exact Hne].
Qed.

(** ** A sync gets one service further *)

Definition one_changed (svc o : core_Service) (w w' : W) : Prop := ∀ ns n,
  stored w' ns n = if decide ((ns, n) = (oc_ns oc, obj_name svc)) then Some o else stored w ns n.

Lemma now_here svc o w w' : one_changed svc o w w' → now w' svc = Some o.
Proof. intros H. by rewrite H, decide_True. Qed.
Lemma now_there svc o w w' (x : core_Service) : one_changed svc o w w' → obj_name x ≠ obj_name svc → now w' x = now w x.
Proof. intros H Hne. rewrite H, decide_False; [done|congruence]. Qed.

(** What a change of one service leaves of the others. *)
Lemma others_kept svc o w w' l :
  one_changed svc o w w' → obj_name svc ∉ map obj_name l →
  (Forall (agreed w) l → Forall (agreed w') l) ∧ (Forall (fits w) l → Forall (fits w') l).
Proof.
  intros Hw Hn. assert (∀ x, x ∈ l → now w' x = now w x) as Hx.
  { intros x Hx. apply (now_there svc o); [done|]. intros He. apply Hn. rewrite <-He.
    by apply list_elem_of_fmap_2. }
  split; rewrite !Forall_forall; intros H x Hin; specialize (H x Hin); unfold agreed, fits in *;
    by rewrite (Hx x Hin).
Qed.

Lemma sync_gets_further pre rest w :
  NoDup (map obj_name (pre ++ rest)) → Forall (agreed w) pre → Forall (fits w) (pre ++ rest) →
  ∃ w', syncServices oc true (pre ++ rest) w = (w', Ok tt) ∧
    Forall (fits w') (pre ++ rest) ∧ Forall (agreed w') (pre ++ take 1 rest).
Proof.
  revert pre. induction rest as [|svc rest IH]; intros pre Hnd Hag Hfit.
  { exists w. rewrite syncServices_skip by done. split; [done|]. split; [done|]. by rewrite app_nil_r. }
  pose proof Hfit as [_ [Hs _]%Forall_cons]%Forall_app. unfold fits in Hs.
  assert (∀ w' o, one_changed svc o w w' → obj_name o = obj_name svc → serviceEqual svc o = Ok true →
            Forall (fits w') (pre ++ svc :: rest) ∧ Forall (agreed w') (pre ++ [svc])) as Hdone.
  { intros w' o Hw Hn He. rewrite map_app, map_cons in Hnd.
    apply NoDup_app in Hnd as (_ & Hd & [Hnr _]%NoDup_cons).
    assert (obj_name svc ∉ map obj_name pre) as Hnp by (intros Hin; apply (Hd _ Hin); by left).
    apply Forall_app in Hfit as [Hfp [_ Hfr]%Forall_cons].
    rewrite !Forall_app, !Forall_cons. split_and!; try done.
    - by apply (others_kept svc o w w' pre).
    - unfold fits. rewrite (now_here _ _ _ _ Hw). split; [done|by left].
    - by apply (others_kept svc o w w' rest).
    - by apply (others_kept svc o w w' pre).
    - exists o. by rewrite (now_here _ _ _ _ Hw). }
  rewrite syncServices_skip by done. destruct (now w svc) as [old|] eqn:Ho.
  - destruct Hs as [Hname [He|[He Haddr]]].
    + destruct (IH (pre ++ [svc])) as (w' & Hw' & Hf & Ha); [by rewrite <-app_assoc|..|].
      { apply Forall_app. split; [done|]. constructor; [by exists old|done]. }
      { by rewrite <-app_assoc. }
      rewrite <-app_assoc in Hf. exists w'. split; [|split; [done|]].
      * rewrite <-Hw', <-app_assoc. by rewrite syncServices_skip.
      * by apply Forall_app in Ha as [Ha _].
    + destruct (sync_updates svc rest old w Ho Hname He) as (w' & o & Hw' & Hst & Hno & Heq & _).
      exists w'. split; [done|]. apply (Hdone w' o Hst Hno). rewrite Heq. by rewrite bool_decide_eq_true_2.
  - destruct (sync_creates svc rest w Ho) as (w' & o & Hw' & Hst & Hno & Heq).
    exists w'. split; [done|]. by apply (Hdone w' o).
Qed.

(** ** Repeated syncs *)

Definition syncs (inPV : bool) (svcs : list core_Service) (n : nat) (w : W) : W :=
  Nat.iter n (λ w, (syncServices oc inPV svcs w).1) w.

Lemma agreed_writes_nothing svcs w :
  Forall (agreed w) svcs → syncServices oc true svcs w = (w, Ok tt).
Proof. intros H. rewrite <-(app_nil_r svcs). by rewrite syncServices_skip. Qed.

(** The step of the induction: what was agreed reaches one service further. *)
Lemma sync_one_more svcs n w :
  NoDup (map obj_name svcs) → Forall (fits w) svcs → Forall (agreed w) (take n svcs) →
  ∃ w', syncServices oc true svcs w = (w', Ok tt) ∧
    Forall (fits w') svcs ∧ Forall (agreed w') (take (S n) svcs).
Proof.
  intros Hnd Hfit Hag.
  pose proof (sync_gets_further (take n svcs) (drop n svcs) w) as H.
  rewrite take_drop in H. destruct (H Hnd Hag Hfit) as (w' & Hw' & Hf & Ha).
  exists w'. split; [done|]. split; [done|]. replace (S n) with (n + 1)%nat by lia.
  by rewrite <-take_take_drop.
Qed.

Lemma syncs_agree svcs n w :
  NoDup (map obj_name svcs) → Forall (fits w) svcs →
  Forall (fits (syncs true svcs n w)) svcs ∧ Forall (agreed (syncs true svcs n w)) (take n svcs) ∧
  (syncServices oc true svcs (syncs true svcs n w)).2 = Ok tt.
Proof.
  intros Hnd Hfit.
  assert (Forall (fits (syncs true svcs n w)) svcs ∧ Forall (agreed (syncs true svcs n w)) (take n svcs)) as [H1 H2].
  { induction n as [|n [IHf IHa]]; [by split|].
    destruct (sync_one_more _ _ _ Hnd IHf IHa) as (w' & Hw' & Hf & Ha).
    change (syncs true svcs (S n) w) with (syncServices oc true svcs (syncs true svcs n w)).1.
    rewrite Hw'. by split. }
  split; [done|]. split; [done|].
  by destruct (sync_one_more _ _ _ Hnd H1 H2) as (w' & -> & _).
Qed.

(** ** A component that is not in the product version *)

(** A sync deletes the first of its services. *)
Lemma sync_outside svc rest w :
  fits w svc →
  ∃ w', syncServices oc false (svc :: rest) w = (w', Ok tt) ∧
    ∀ ns n, stored (T:=core_Service) w' ns n =
      if decide ((ns, n) = (oc_ns oc, obj_name svc)) then None else stored w ns n.
Proof.
  unfold fits. intros Hf. cbn [syncServices]. destruct (now w svc) as [old|] eqn:Ho.
  - destruct Hf as [Hn _]. rewrite <-Hn in Ho |- *.
    destruct (apiDelete_stored _ _ _ _ Ho) as (w' & Hd & Hst). exists w'. split; [|exact Hst].
    erewrite bind_Ok; [|apply attempt_Ok; rewrite listerGet_stored, Ho; reflexivity].
    cbn [negb]. unfold DeleteService. by rewrite Hd.
  - exists w. split.
    + by erewrite bind_Ok; [|apply attempt_Err; rewrite listerGet_stored, Ho; reflexivity].
    + intros ns n. case_decide as E; [|done]. by injection E as -> ->.
Qed.

(** With it gone, a sync does nothing. *)
Lemma sync_outside_idle svc rest w :
  now w svc = None → syncServices oc false (svc :: rest) w = (w, Ok tt).
Proof.
  intros Ho. cbn [syncServices].
  by erewrite bind_Ok; [|apply attempt_Err; rewrite listerGet_stored, Ho; reflexivity].
Qed.


(** Otherwise the syncs are stuck: an existing service that differs, at an
    address the wanted spec does not have, differs after every sync, and the
    services behind it are not looked at. *)
Lemma syncServices_stuck pre svc rest w n :
  NoDup (map obj_name (pre ++ svc :: rest)) → Forall (agreed w) pre →
  (∃ old, now w svc = Some old ∧ obj_name old = obj_name svc ∧ serviceEqual svc old = Ok false ∧
          addr old ≠ addr svc ∧ addr old ≠ "") →
  let w' := syncs true (pre ++ svc :: rest) n w in
  ¬ agreed w' svc ∧ ∀ x, x ∈ rest → now w' x = now w x.
Proof.
  intros Hnd Hag Hold.
  set (differs w := ∃ old, now w svc = Some old ∧ obj_name old = obj_name svc ∧
          serviceEqual svc old = Ok false ∧ addr old ≠ addr svc ∧ addr old ≠ "").
  assert (let w' := syncs true (pre ++ svc :: rest) n w in Forall (agreed w') pre ∧ differs w' ∧
            ∀ x, x ∈ rest → now w' x = now w x) as (_ & (old & Ho & _ & He & _) & Hrest).
  { induction n as [|n (IHa & (old & Ho & Hname & He & Hne & Hne') & IHr)]; [by split_and!|].
    change (syncs true (pre ++ svc :: rest) (S n) w) with
      (syncServices oc true (pre ++ svc :: rest) (syncs true (pre ++ svc :: rest) n w)).1.
    rewrite (syncServices_skip pre) by done.
    destruct (sync_updates svc rest old _ Ho Hname He) as (w' & o & -> & Hst & Hno & Heq & Haddr).
    cbn [fst]. rewrite map_app, map_cons in Hnd.
    apply NoDup_app in Hnd as (_ & Hd & [Hnr _]%NoDup_cons).
    assert (obj_name svc ∉ map obj_name pre) as Hnp by (intros Hin; apply (Hd _ Hin); by left).
    split; [by apply (others_kept svc o (syncs true (pre ++ svc :: rest) n w) w' pre)|]. split.
    - exists o. rewrite (now_here _ _ _ _ Hst). rewrite Haddr by done. split_and!; try done.
      rewrite Heq. by rewrite bool_decide_eq_false_2.
    - intros x Hx. rewrite <-IHr by done. apply (now_there svc o); [done|]. intros E. apply Hnr.
      rewrite <-E. by apply list_elem_of_fmap_2. }
  split; [|done]. intros (old' & Ho' & He'). congruence.
Qed.
End services.

(** ** Two services of a component *)

#[export] Instance sim_admits_services : AdmitsServices World.
Proof.
  intros old s. unfold admitted, services_store; simpl. unfold with_address.
  destruct (str_empty (addr s)) eqn:He; [|by split_and!]. split; [done|]. split; [done|].
  intros Hne. by apply str_empty_spec in He.
Qed.

Definition shop_service (name : string) : core_Service :=
  (zero : core_Service) <| core_Service_ObjectMeta ::= λ m, m <| ObjectMeta_Name := name |> |>.

