(* ===== verification/CloudSim.v ===== *)
(** * CloudSim: the cloud's services in memory

    The services of the world of KubeSim: a list of objects per kind. It is a
    [CloudStore], at which the theorems of CloudFacts are applied. *)

From Stdlib Require Import Ascii.
From S2P Require Import Prelude K8s Types Constants GoStrings.
From S2P Require Import LastApplied KubeApi Controls Session CloudApi CloudFacts.
From S2P Require Import Databases Sync SyncFacts Endpoints PhaseFacts Alerts AlertFacts.
From S2P Require Import Policies PolicyFacts.
From S2P Require Import KubeSim.

Open Scope string_scope.
Open Scope list_scope.
Open Scope go_scope.

#[export] Instance sim_jsonutils : JsonUtils.
Proof.
  refine {|
    value_GetString v := match v with
                         | JStr s => Ok s
                         | JBool b => Ok (if b then "true" else "false")
                         | JInt n => Ok (dec n)
                         | _ => Err (ErrMsg "not a string")
                         end;
    value_Bool v := match v with JBool b => Ok b | _ => Err (ErrMsg "not a boolean") end;
    value_Int v := match v with JInt n => Ok n | _ => Err (ErrMsg "not an integer") end;
    value_ToBool v := match v with
                      | JStr s => IsInStringArray s ["true"; "yes"; "on"; "1"]
                      | JBool b => b
                      | _ => false
                      end;
    json_Equals v v' := bool_decide (v = v')
  |}; try done. intros v. by apply bool_decide_eq_true.
Defined.

(** The objects of a kind. *)
Definition sim_objects (w : World) (r : Resource) : list dict :=
  map snd (List.filter (λ x, bool_decide (x.1 = r)) (w_objects w)).

(** An id longer than all there are. *)
Fixpoint repeat_str (n : nat) : string :=
  match n with O => "" | S n => String "i"%char (repeat_str n) end.

Definition id_length (o : dict) : nat :=
  match obj_id o with Some i => String.length i | None => 0 end.

Definition new_id (l : list dict) : string := repeat_str (S (list_max (map id_length l))).

Lemma new_id_fresh l : Some (new_id l) ∉ map obj_id l.
Proof.
  intros (o & Hid & Ho)%list_elem_of_fmap.
  assert (id_length o ≤ list_max (map id_length l))%nat as Hle.
  { assert (Forall (λ k, k ≤ list_max (map id_length l))%nat (map id_length l)) as Hall
      by (by apply list_max_le).
    rewrite Forall_forall in Hall. apply Hall. by apply list_elem_of_fmap_2. }
  assert (∀ n, String.length (repeat_str n) = n) as Hlen by (intros n; induction n; simpl; congruence).
  unfold id_length at 1 in Hle. rewrite <- Hid in Hle. unfold new_id in Hle.
  rewrite Hlen in Hle. lia.
Qed.

Definition sim_create (r : Resource) (p : dict) : M World json := λ w,
  let o := if bool_decide (json_field "id" p = None)
           then ("id", JStr (new_id (sim_objects w r))) :: p else p in
  (w <| w_objects ::= λ l, l ++ [(r, o)] |>, Ok (JObj o)).

Definition sim_patch (r : Resource) (id : string) (p : dict) : M World json := λ w,
  if existsb (λ o, bool_decide (obj_id o = Some id)) (sim_objects w r) then
    (w <| w_objects ::= map (λ '(r', o), (r', if bool_decide (r' = r) && bool_decide (obj_id o = Some id)
                                              then set_fields p o else o)) |>, Ok (JObj p))
  else (w, Err ErrNotFound).

Definition sim_delete (r : Resource) (id : string) : M World json := λ w,
  (w <| w_objects ::= List.filter (λ '(r', o), negb (bool_decide (r' = r) && bool_decide (obj_id o = Some id))) |>,
   Ok JNull).

Definition sim_get (r : Resource) (n : string) : M World json := λ w,
  (w, match find_obj n (sim_objects w r) with Some o => Ok (JObj o) | None => Err ErrNotFound end).

Definition sim_get_by_name (r : Resource) (n : string) : M World json := λ w,
  (w, match find_named n (sim_objects w r) with Some o => Ok (JObj o) | None => Err ErrNotFound end).

#[export] Instance sim_cloud : CloudApi World := {|
  mod_Get _ := sim_get;
  mod_GetByName _ := sim_get_by_name;
  mod_List _ r q w := (w, Ok (map JObj (List.filter (matches q) (sim_objects w r)),
                              Z.of_nat (length (List.filter (matches q) (sim_objects w r)))));
  mod_Create _ := sim_create;
  mod_Update _ := sim_patch;
  mod_Patch _ := sim_patch;
  mod_Delete _ := sim_delete;
  mod_BatchDelete _ r ids := for_each ids (λ id, let! _ := sim_delete r id in ret tt);
  mod_GetSpecific _ r n _ := sim_get r n;
  mod_PerformAction _ r n _ _ := sim_get r n;
  mod_CreateInContext _ r p _ _ := sim_create r p;
  mod_PutInContexts _ r n _ := sim_get r n
|}.

Lemma sim_objects_snoc w r r' o :
  sim_objects (w <| w_objects ::= λ l, l ++ [(r, o)] |>) r'
  = if decide (r' = r) then sim_objects w r ++ [o] else sim_objects w r'.
Proof.
  unfold sim_objects. simpl. rewrite List.filter_app, map_app. simpl.
  case_decide; [subst; by rewrite bool_decide_true|]. rewrite bool_decide_false by congruence.
  by rewrite app_nil_r.
Qed.

Lemma sim_patch_objects r id p w o : o ∈ sim_objects w r → obj_id o = Some id →
  ∃ w' j, sim_patch r id p w = (w', Ok j) ∧
    ∀ r', sim_objects w' r' = if decide (r' = r) then patch_objects id p (sim_objects w r) else sim_objects w r'.
Proof.
  intros Ho Hid. unfold sim_patch.
  assert (existsb (λ o, bool_decide (obj_id o = Some id)) (sim_objects w r) = true) as ->.
  { apply existsb_exists. exists o. split; [by apply list_elem_of_In|by apply bool_decide_eq_true]. }
  eexists _, _. split; [reflexivity|]. intros r'. unfold sim_objects. simpl.
  induction (w_objects w) as [|[r1 o1] l IH]; simpl; [by case_decide|].
  case_decide as D.
  - subst r'. destruct (bool_decide (r1 = r)) eqn:E; simpl; [|done]. by rewrite IH.
  - destruct (bool_decide (r1 = r')) eqn:E; simpl; [|done]. rewrite IH.
    apply bool_decide_eq_true in E as ->. by rewrite bool_decide_false.
Qed.

#[export] Instance sim_cloud_store : CloudStore World.
Proof.
  refine {| objects := sim_objects |}.
  - done.
  - done.
  - intros. by eexists.
  - intros s r p w Hp. set (o := ("id", JStr (new_id (sim_objects w r))) :: p).
    exists (w <| w_objects ::= λ l, l ++ [(r, o)] |>), o. split_and!.
    + simpl. unfold sim_create. by rewrite bool_decide_true.
    + intros r'. apply sim_objects_snoc.
    + intros k v Hk. unfold o. simpl. destruct (String.eqb_spec k "id"); [congruence|done].
    + by eexists.
    + apply new_id_fresh.
  - intros s. apply sim_patch_objects.
  - intros s. apply sim_patch_objects.
Defined.

(** ** A cloud with a service and some endpoints *)
Definition endpoint_obj (id svc inf url : string) (enabled : bool) : Resource * dict :=
  (EndpointsV3, [("id", JStr id); ("service_id", JStr svc); ("region_id", JStr "region0");
                 ("interface", JStr inf); ("url", JStr url); ("enabled", JBool enabled)]).

Definition sim_world : World :=
  (world_of zero zero) <| w_objects := [
    (ServicesV3, [("id", JStr "s1"); ("name", JStr "log"); ("type", JStr "log"); ("enabled", JBool true)]);
    (ServicesV3, [("id", JStr "s2"); ("name", JStr "region2"); ("enabled", JBool false)]);
    endpoint_obj "e1" "s1" "public" "https://10.0.0.1:30999" true;
    endpoint_obj "e2" "s1" "slave" "https://default-log-slave:30999" true;
    endpoint_obj "e3" "s2" "public" "https://10.0.0.1:30888" true] |>.

Lemma sim_world_wf : wf_cloud sim_world.
Proof.
  split.
  - intros r. destruct r; split; apply (bool_decide_unpack _); vm_compute; exact I.
  - apply Forall_forall. intros o Ho.
    change (objects sim_world ServicesV3) with (sim_objects sim_world ServicesV3) in Ho. cbn in Ho.
    repeat (apply elem_of_cons in Ho as [->|Ho]; [by eexists|]). by apply not_elem_of_nil in Ho.
Qed.

Definition sim_client : ClientSession World := tt.

#[export] Instance sim_session_works : SessionWorks World.
Proof. intros dbg oc w. exists w, tt. by split_and!. Defined.

(** A cluster behind an IPv6 load balancer. *)
Definition sim_cluster : OnecloudCluster :=
  (zero : OnecloudCluster)
    <| OnecloudCluster_ObjectMeta ::= λ m, m <| ObjectMeta_Name := "default" |> |>
    <| OnecloudCluster_Spec ::= λ s, s <| OnecloudClusterSpec_Region := "region0" |>
         <| OnecloudClusterSpec_LoadBalancerEndpoint := "fd00::7" |> |>.

Lemma RegisterCloudServiceEndpoint_registers_witness :
  ∃ w' id, RegisterCloudServiceEndpoint false LoggerComponentType "log" "log" 30999 "v1" true true
             (sim_cluster, sim_world) = ((sim_cluster, w'), Ok tt) ∧
    service_id w' "log" = Some id ∧
    endpoint_url w' id "region0" "public" = Some "https://[fd00::7]:30999/v1" ∧
    endpoint_url w' id "region0" "slave" = Some "https://default-logger-slave:30999/v1" ∧
    ∃ w'', RegisterCloudServiceEndpoint false LoggerComponentType "log" "log" 30999 "v1" true true
             (sim_cluster, w') = ((sim_cluster, w''), Ok tt) ∧ same_objects w' w''.
Proof.
  destruct (RegisterCloudServiceEndpoint_registers false LoggerComponentType "log" "log" 30999 "v1"
              true true sim_cluster sim_world sim_world_wf) as (w' & id & H1 & H2 & H3 & _ & _ & _ & _ & H4).
  exists w', id. split_and!; [exact H1|exact H2| | |exact H4].
  - apply H3. by left.
  - apply H3. by right; right; left.
Defined.

Lemma syncServiceState_settles_witness :
  ∃ w', syncServiceState "log" true false sim_client sim_world = (w', Ok tt) ∧
    map (λ o, getBool (JObj o) "enabled") (objects w' EndpointsV3) = [false; false; true] ∧
    syncServiceState "log" true false sim_client w' = (w', Ok tt).
Proof.
  destruct (syncServiceState_settles sim_client sim_world "log" true false sim_world_wf)
    as (id & w' & H1 & H2 & H3 & _ & _ & _ & H4).
  exists w'. split_and!; [exact H2| |exact H4]. rewrite H3. injection H1 as <-. vm_compute. reflexivity.
Defined.

(** ** System alerts: one that is wanted, a duplicate, one nobody wants *)
#[export] Instance sim_alerts : AlertCodec := {|
  Marshal_create i := [("name", JStr (create_Name i)); ("level", JStr (create_Level i))];
  Marshal_update i := [("level", JStr (update_Level i))];
  Unmarshal_setting _ := Ok [];
  Unmarshal_details _ := Ok [];
  sameSelects _ _ := true;
  sameTags _ _ := true
|}.

Definition alert_obj (id name meta : string) : json :=
  JObj [("id", JStr id); ("name", JStr name); ("level", JStr "fatal"); ("settings", JObj []);
        ("common_alert_metric_details", JArr []); ("metadata", JObj [("meta_name", JStr meta)])].

Definition sim_stored : list json :=
  [alert_obj "a1" "nobody.wants" ""; alert_obj "a2" "CPU" "cpu.usage_active";
   alert_obj "a3" "cpu.usage_active" ""].

Lemma initAlerts_partition_witness :
  match (initAlerts sim_client sim_stored (rev getInitInfo) sim_world).2 with
  | Ok left_over => ∃ kept : list (string * json), sim_stored ≡ₚ map snd kept ++ left_over ∧ NoDup (map fst kept) ∧
      map (λ a, getString a "id") left_over = ["a1"; "a3"]
  | _ => False
  end.
Proof.
  assert (rev getInitInfo ≡ₚ getInitInfo) as Hperm by apply Permutation_sym, Permutation_rev.
  assert (Forall has_metadata sim_stored) as Hl by (repeat constructor).
  pose proof (initAlerts_partition sim_client (rev getInitInfo) sim_stored sim_world Hperm Hl) as Hx.
  assert (match (initAlerts sim_client sim_stored (rev getInitInfo) sim_world).2 with
          | Ok left_over => map (λ a, getString a "id") left_over = ["a1"; "a3"]
          | _ => False end) as Hids by (vm_compute; reflexivity).
  destruct ((initAlerts sim_client sim_stored (rev getInitInfo) sim_world).2) as [left_over|e|p];
    [|exact Hids|exact Hids].
  destruct Hx as (kept & H1 & H2 & _). exists kept. split_and!; [exact H1|exact H2|exact Hids].
Defined.

(** ** A policy to ensure *)
Definition sim_policy : SPolicyData := MkSPolicyData "sys-admin" "system" (JObj [("compute", JStr "allow")]).

Lemma createOrUpdatePolicy_settles_witness :
  (ids_ok (objects sim_world Policies) ∧ without "-" "sys-admin" ≠ "") ∧
  ∃ w' o, createOrUpdatePolicy sim_client sim_policy sim_world = (w', Ok tt) ∧
    policy_settled sim_policy sim_world w' o ∧
    createOrUpdatePolicy sim_client sim_policy w' = (w', Ok tt).
Proof.
  assert (ids_ok (objects sim_world Policies)) as Hok.
  { split; [by apply Forall_nil|by apply NoDup_nil]. }
  assert (without "-" "sys-admin" ≠ "") as Hne by (vm_compute; discriminate).
  split; [by split|]. exact (createOrUpdatePolicy_settles sim_client sim_policy sim_world Hok Hne).
Defined.
