(* ===== verification/Volumes.v ===== *)
(** * Volumes: the volumes of the services' pods

    The volume helpers of [pkg/manager/component/utils.go]: each collects the
    volumes of a pod and where its containers mount them. Whichever helper
    builds them, every mount refers to a volume of the pod, and no name or
    mount path is used twice. *)

From S2P Require Import Prelude K8s Types Constants GoStrings ControllerUtils.

Open Scope string_scope.
Open Scope list_scope.
Open Scope go_scope.

(** Values of the Kubernetes API. *)
Definition MountPropagationBidirectional : string := "Bidirectional".
Definition HostPathDirectoryOrCreate : string := "DirectoryOrCreate".
Definition HostPathDirectory : string := "Directory".

(** [h.cluster] is the argument [oc] of the functions that read it. *)
(*@ pkg/manager/component/utils.go:357-363 VolumeHelper *)
Record VolumeHelper := MkVolumeHelper {
  optionCfgMap : string;
  vh_component : ComponentType;
  volumes : list Volume;
  volumeMounts : list VolumeMount
}.
#[global] Instance VolumeHelper_eta : Eta VolumeHelper := λ r,
  MkVolumeHelper (optionCfgMap r) (vh_component r) (volumes r) (volumeMounts r).

(*@ pkg/manager/component/utils.go:432-434 GetVolumes *)
Definition GetVolumes (h : VolumeHelper) : list Volume := volumes h.
(*@ pkg/manager/component/utils.go:436-438 GetVolumeMounts *)
Definition GetVolumeMounts (h : VolumeHelper) : list VolumeMount := volumeMounts h.

(** ** Volumes by source *)

Definition hostPathVolume (name path type : string) : Volume :=
  MkVolume name ((zero : VolumeSource)
    <| VolumeSource_HostPath := Some (MkHostPathVolumeSource path (Some type)) |>).

Definition secretVolume (name secret : string) (items : list KeyToPath) : Volume :=
  MkVolume name ((zero : VolumeSource)
    <| VolumeSource_Secret := Some (MkSecretVolumeSource secret items) |>).

Definition configVolume (name configMap : string) (items : list KeyToPath) : Volume :=
  MkVolume name ((zero : VolumeSource)
    <| VolumeSource_ConfigMap :=
         Some (MkConfigMapVolumeSource (MkLocalObjectReference configMap) items) |>).

Definition emptyDirVolume (name : string) : Volume :=
  MkVolume name ((zero : VolumeSource) <| VolumeSource_EmptyDir := Some zero |>).

Definition mount (name path : string) : VolumeMount := MkVolumeMount name false path None.
Definition mountReadOnly (name path : string) : VolumeMount := MkVolumeMount name true path None.
Definition mountBidirectional (name path : string) : VolumeMount :=
  MkVolumeMount name false path (Some MountPropagationBidirectional).

(** The certificates of the cluster, and the configuration. *)
Definition certsVolume (oc : OnecloudCluster) : Volume :=
  secretVolume VolumeCertsName (ClustercertSecretName oc)
    [MkKeyToPath CACertName CACertName; MkKeyToPath ServiceCertName ServiceCertName;
     MkKeyToPath ServiceKeyName ServiceKeyName].

Definition cfgVolume (configMap file : string) : Volume :=
  configVolume VolumeConfigName configMap [MkKeyToPath VolumeConfigName file].

(** Appending volumes and mounts. *)
Definition add_volumes (vs : list Volume) (ms : list VolumeMount) (h : VolumeHelper) : VolumeHelper :=
  h <| volumes ::= λ l, l ++ vs |> <| volumeMounts ::= λ l, l ++ ms |>.

(** ** The helpers *)

(*@ pkg/manager/component/utils.go:365-409 NewVolumeHelper *)
Definition NewVolumeHelper (oc : OnecloudCluster) (optCfgMap : string) (component : ComponentType)
  : VolumeHelper :=
  let h := MkVolumeHelper optCfgMap component [certsVolume oc]
             [mountReadOnly VolumeCertsName CertDir] in
  if str_empty optCfgMap then h
  else add_volumes [cfgVolume optCfgMap (component +:+ ".conf")]
         [mountReadOnly VolumeConfigName ConfigDir] h.

(*@ pkg/manager/component/utils.go:492-507 addEtcdClientTLSVolumes *)
Definition addEtcdClientTLSVolumes (oc : OnecloudCluster) (h : VolumeHelper) : VolumeHelper :=
  let e := OnecloudClusterSpec_Etcd (OnecloudCluster_Spec oc) in
  if negb (Etcd_Disable e) && default true (Etcd_EnableTls e) then
    add_volumes [secretVolume EtcdClientSecret EtcdClientSecret []]
      [mountReadOnly EtcdClientSecret EtcdClientTLSDir] h
  else h.

(*@ pkg/manager/component/utils.go:411-417 NewVolumeHelperWithEtcdTLS *)
Definition NewVolumeHelperWithEtcdTLS (oc : OnecloudCluster) (optCfgMap : string)
    (component : ComponentType) : VolumeHelper :=
  addEtcdClientTLSVolumes oc (NewVolumeHelper oc optCfgMap component).

(*@ pkg/manager/component/utils.go:419-426 getVolumeMount *)
Definition getVolumeMount (vms : list VolumeMount) (name : string) : option VolumeMount :=
  List.find (λ vm, String.eqb (VolumeMount_Name vm) name) vms.

(*@ pkg/manager/component/utils.go:428-430 GetConfigVolumeMount *)
Definition GetConfigVolumeMount (volMounts : list VolumeMount) : option VolumeMount :=
  getVolumeMount volMounts VolumeConfigName.

(*@ pkg/manager/component/utils.go:440-464 addVmwareVolumes *)
Definition addVmwareVolumes (h : VolumeHelper) : VolumeHelper :=
  add_volumes [hostPathVolume "var-run-vmware" "/var/run/vmware" HostPathDirectoryOrCreate]
    [mountBidirectional "var-run-vmware" "/var/run/vmware"] h.

(*@ pkg/manager/component/utils.go:466-490 addOnecloudVolumes *)
Definition addOnecloudVolumes (h : VolumeHelper) : VolumeHelper :=
  add_volumes [hostPathVolume "var-run-onecloud" "/var/run/onecloud" HostPathDirectoryOrCreate]
    [mountBidirectional "var-run-onecloud" "/var/run/onecloud"] h.

(*@ pkg/manager/component/utils.go:509-529 addLibModulesVolume *)
Definition addLibModulesVolume (h : VolumeHelper) : VolumeHelper :=
  add_volumes [hostPathVolume "lib-modules" "/lib/modules" HostPathDirectoryOrCreate]
    [mount "lib-modules" "/lib/modules"] h.

(*@ pkg/manager/component/utils.go:531-577 addOvsVolumes *)
Definition addOvsVolumes (h : VolumeHelper) : VolumeHelper :=
  add_volumes
    [hostPathVolume "var-run-openvswitch" "/var/run/openvswitch" HostPathDirectoryOrCreate;
     hostPathVolume "var-log-openvswitch" "/var/log/openvswitch" HostPathDirectoryOrCreate;
     hostPathVolume "etc-openvswitch" "/etc/openvswitch" HostPathDirectoryOrCreate]
    [mount "var-run-openvswitch" "/var/run/openvswitch";
     mount "var-log-openvswitch" "/var/log/openvswitch";
     mount "etc-openvswitch" "/etc/openvswitch"] h.

(*@ pkg/manager/component/utils.go:632-797 NewHostVolume *)
Definition NewHostVolume (cType : ComponentType) (oc : OnecloudCluster) (configMap : string)
  : VolumeHelper :=
  let h := MkVolumeHelper configMap cType
    [hostPathVolume "etc-yunion" "/etc/yunion" HostPathDirectory;
     certsVolume oc;
     cfgVolume configMap "common.conf";
     hostPathVolume "cloud" "/opt/cloud" HostPathDirectory;
     hostPathVolume "usr" "/usr/local" HostPathDirectory;
     hostPathVolume "dev" "/dev" HostPathDirectory;
     hostPathVolume "sys" "/sys" HostPathDirectory;
     hostPathVolume "tmp" "/tmp" HostPathDirectory]
    [mount "etc-yunion" "/etc/yunion";
     mountReadOnly VolumeCertsName CertDir;
     mountReadOnly VolumeConfigName (path_Join [ConfigDir; "common"]);
     mountBidirectional "cloud" "/opt/cloud";
     mount "usr" "/usr/local";
     mount "dev" "/dev";
     mount "sys" "/sys";
     mountBidirectional "tmp" "/tmp"] in
  addEtcdClientTLSVolumes oc (addOvsVolumes (addVmwareVolumes (addOnecloudVolumes h))).

(*@ pkg/manager/component/utils.go:799-812 NewOvsVolumeHelper *)
Definition NewOvsVolumeHelper (cType : ComponentType) (oc : OnecloudCluster) (configMap : string)
  : VolumeHelper :=
  addLibModulesVolume (addOvsVolumes (MkVolumeHelper configMap cType [] [])).

(*@ pkg/manager/component/utils.go:814-882 NewHostImageVolumeHelper *)
Definition NewHostImageVolumeHelper (cType : ComponentType) (oc : OnecloudCluster)
    (configMap : string) : VolumeHelper :=
  addOnecloudVolumes (MkVolumeHelper configMap cType
    [hostPathVolume "etc-yunion" "/etc/yunion" HostPathDirectory;
     certsVolume oc;
     cfgVolume configMap "common.conf"]
    [mount "etc-yunion" "/etc/yunion";
     mountReadOnly VolumeCertsName CertDir;
     mountReadOnly VolumeConfigName (path_Join [ConfigDir; "common"])]).

(*@ pkg/manager/component/utils.go:884-995 NewHostDeployerVolume *)
Definition NewHostDeployerVolume (cType : ComponentType) (oc : OnecloudCluster) (configMap : string)
  : VolumeHelper :=
  let h := MkVolumeHelper configMap cType
    [hostPathVolume "etc-yunion" "/etc/yunion" HostPathDirectoryOrCreate;
     cfgVolume configMap "common.conf";
     hostPathVolume "cloud" "/opt/cloud" HostPathDirectoryOrCreate;
     hostPathVolume "dev" "/dev" HostPathDirectory;
     hostPathVolume "usr" "/usr/local" HostPathDirectory;
     hostPathVolume "sys" "/sys" HostPathDirectory]
    [mount "etc-yunion" "/etc/yunion";
     mountReadOnly VolumeConfigName (path_Join [ConfigDir; "common"]);
     mountBidirectional "cloud" "/opt/cloud";
     mount "usr" "/usr/local";
     mount "dev" "/dev";
     mount "sys" "/sys"] in
  addVmwareVolumes (addOnecloudVolumes h).

(** ** Claims *)

(*@ pkg/manager/component/utils.go:597-602 PVCVolumePair *)
Record PVCVolumePair := MkPVCVolumePair {
  pair_name : string;
  pair_mountPath : string;
  pair_claimName : string;
  pair_component : ComponentType
}.

(*@ pkg/manager/component/utils.go:604-611 NewPVCVolumePair *)
Definition NewPVCVolumePair (name mountPath : string) (oc : OnecloudCluster) (comp : ComponentType)
  : PVCVolumePair :=
  MkPVCVolumePair name mountPath (NewClusterComponentName (oc_name oc) comp) comp.

(*@ pkg/manager/component/utils.go:613-623 GetVolume *)
Definition GetVolume (p : PVCVolumePair) : Volume :=
  MkVolume (pair_name p) ((zero : VolumeSource)
    <| VolumeSource_PersistentVolumeClaim :=
         Some (MkPersistentVolumeClaimVolumeSource (pair_claimName p) false) |>).

(*@ pkg/manager/component/utils.go:625-630 GetVolumeMount *)
Definition GetVolumeMount (p : PVCVolumePair) : VolumeMount := mount (pair_name p) (pair_mountPath p).

(** ** Ports *)

(*@ pkg/manager/component/utils.go:579-590 NewServiceNodePort *)
Definition NewServiceNodePort (name : string) (internalOnly : bool) (nodePort targetPort : Z)
  : ServicePort :=
  MkServicePort name "TCP" nodePort (MkIntOrString 0 targetPort "")
    (if internalOnly then 0%Z else nodePort).

(** ** Well-formed volumes *)

(** No name is used twice, every mount has its volume, and no path is mounted
    twice. *)
Definition volumes_wf (vs : list Volume) (ms : list VolumeMount) : Prop :=
  NoDup (map Volume_Name vs) ∧
  Forall (λ m, VolumeMount_Name m ∈ map Volume_Name vs) ms ∧
  NoDup (map VolumeMount_MountPath ms).

Definition helper_wf (h : VolumeHelper) : Prop := volumes_wf (volumes h) (volumeMounts h).

#[global] Instance volumes_wf_dec vs ms : Decision (volumes_wf vs ms).
Proof. apply _. Defined.

(** Only the names and the paths matter. *)
Lemma volumes_wf_names vs ms names mnames paths :
  map Volume_Name vs = names → map VolumeMount_Name ms = mnames →
  map VolumeMount_MountPath ms = paths →
  NoDup names → Forall (λ n, n ∈ names) mnames → NoDup paths → volumes_wf vs ms.
Proof.
  intros <- <- <- H1 H2 H3. split_and!; [done| |done]. by apply Forall_map in H2.
Qed.

Ltac volumes_wf_tac :=
  eapply volumes_wf_names; [reflexivity..| | |];
  (apply (bool_decide_unpack _); vm_compute; exact I).

(** The volumes of every kind of pod are well formed, for every cluster,
    with and without a configuration, whether or not etcd uses TLS. *)
Theorem volume_helpers_wf (oc : OnecloudCluster) (optCfgMap : string) (component : ComponentType) :
  helper_wf (NewVolumeHelper oc optCfgMap component) ∧
  helper_wf (NewVolumeHelperWithEtcdTLS oc optCfgMap component) ∧
  helper_wf (NewHostVolume component oc optCfgMap) ∧
  helper_wf (NewOvsVolumeHelper component oc optCfgMap) ∧
  helper_wf (NewHostImageVolumeHelper component oc optCfgMap) ∧
  helper_wf (NewHostDeployerVolume component oc optCfgMap).
Proof.
  unfold helper_wf, NewVolumeHelperWithEtcdTLS, NewVolumeHelper, NewHostVolume, addEtcdClientTLSVolumes.
  split_and!; repeat case_match; volumes_wf_tac.
Qed.
