(* ===== verification/Builders.v ===== *)
(** * Builders: the objects of the services

    The builders of [pkg/manager/component/component.go] and the labels of
    [pkg/label]: from the cluster and the spec of a component they make its
    deployments, daemon sets, cron jobs, services, config maps and volume
    claims. A spec is passed by pointer and changed on the way (affinity,
    limits, requests): it is a place of the cluster spec, a [specEntry]. *)

From Stdlib Require Import Ascii.
From S2P Require Import Prelude K8s Types Constants GoStrings Defaults.
From S2P Require Import ControllerUtils LastApplied KubeApi Controls Session Sync Volumes.

Open Scope string_scope.
Open Scope list_scope.
Open Scope go_scope.

(** ** Labels *)

(*@ pkg/label/label.go:46-46 Label *)
Definition Label : Type := gmap string string.

(*@ pkg/label/label.go:49-54 New *)
Definition label_New : Label :=
  {[ NameLabelKey := "onecloud-cluster"; ManagedByLabelKey := "onecloud-operator" ]}.

(*@ pkg/label/label.go:57-60 Instance *)
Definition label_Instance (l : Label) (name : string) : Label := <[InstanceLabelKey := name]> l.

(*@ pkg/label/label.go:63-66 Zone *)
Definition label_Zone (l : Label) (zone : string) : Label := <[ZoneLabelKey := zone]> l.

(*@ pkg/label/label.go:69-79 Component *)
Definition label_Component (l : Label) (name : string) (readOnly : bool) : Label :=
  let name := if readOnly then name +:+ "-slave" else name in
  let l := <[AppLabelKey := name]> (<[ComponentLabelKey := name]> l) in
  if readOnly then <["read-only" := "true"]> l else l.

(*@ pkg/label/label.go:82-84 ComponentType *)
Definition label_ComponentType (l : Label) : string := default "" (l !! ComponentLabelKey).

(** In Go's order of the map, [order]. *)
(*@ pkg/label/label.go:102-110 String *)
Definition label_String (order : list (string * string)) : string :=
  String.concat "," (map (λ '(k, v), k +:+ "=" +:+ v) order).

(*@ pkg/label/label.go:92-94 LabelSelector *)
Definition label_Selector (l : Label) : option LabelSelector := Some (MkLabelSelector l []).

(*@ pkg/manager/component/component.go:695-698 getComponentLabel *)
Definition getComponentLabel (oc : OnecloudCluster) (componentType : ComponentType)
    (readOnly : bool) : Label :=
  let instanceName :=
    default "" (ObjectMeta_Labels (OnecloudCluster_ObjectMeta oc) !! InstanceLabelKey) in
  label_Component (label_Instance label_New instanceName) componentType readOnly.

(*@ pkg/manager/component/component.go:686-693 getObjectMeta *)
Definition getObjectMeta (oc : OnecloudCluster) (name : string) (labels : Label) : ObjectMeta :=
  (zero : ObjectMeta) <| ObjectMeta_Name := name |> <| ObjectMeta_Namespace := oc_ns oc |>
    <| ObjectMeta_Labels := labels |> <| ObjectMeta_OwnerReferences := [GetOwnerRef oc] |>.

(*@ pkg/manager/component/component.go:1564-1569 getZoneComponent *)
Definition getZoneComponent (component : ComponentType) (zone : string) : ComponentType :=
  if str_empty zone then component else component +:+ "-" +:+ zone.

(** ** Config maps *)

(*@ pkg/manager/component/component.go:700-710 newConfigMap *)
Definition newConfigMap (componentType : ComponentType) (zone : string) (oc : OnecloudCluster)
    (config : string) : ConfigMap :=
  let name := ComponentConfigMapName oc (getZoneComponent componentType zone) in
  let labels := label_Zone (getComponentLabel oc componentType false) zone in
  MkConfigMap (getObjectMeta oc name labels) {[ "config" := config ]}.

(** ** Services *)

(*@ pkg/manager/component/component.go:727-762 newServiceWithClusterIp *)
Definition newServiceWithClusterIp (componentType : ComponentType) (oc : OnecloudCluster)
    (serviceType : string) (ports : list ServicePort) (clusterIp : string) (readOnly : bool)
  : core_Service :=
  let svcName := NewClusterComponentName (oc_name oc) componentType in
  let appLabel := getComponentLabel oc componentType readOnly in
  let '(svcName, serviceType, ports) :=
    if readOnly then (svcName +:+ "-slave", "ClusterIP",
                      map (λ p, p <| ServicePort_NodePort := 0%Z |>) ports)
    else (svcName, serviceType, ports) in
  Mkcore_Service (getObjectMeta oc svcName appLabel)
    ((zero : core_ServiceSpec) <| core_ServiceSpec_Type := serviceType |>
       <| core_ServiceSpec_Selector := appLabel |> <| core_ServiceSpec_Ports := ports |>
       <| core_ServiceSpec_ClusterIP := clusterIp |>).

(*@ pkg/manager/component/component.go:717-725 newService *)
Definition newService (componentType : ComponentType) (oc : OnecloudCluster) (serviceType : string)
    (ports : list ServicePort) (readOnly : bool) : core_Service :=
  newServiceWithClusterIp componentType oc serviceType ports "" readOnly.

Definition etcdPort (name : string) (port : Z) : ServicePort :=
  (zero : ServicePort) <| ServicePort_Name := name |> <| ServicePort_Port := port |>
    <| ServicePort_TargetPort := MkIntOrString 0 port "" |> <| ServicePort_Protocol := "TCP" |>.

(*@ pkg/manager/component/component.go:788-798 newEtcdClientService *)
Definition newEtcdClientService (cType : ComponentType) (oc : OnecloudCluster) : core_Service :=
  newService cType oc "ClusterIP" [etcdPort "client" EtcdClientPort] false.

(*@ pkg/manager/component/component.go:800-816 newEtcdService *)
Definition newEtcdService (cType : ComponentType) (oc : OnecloudCluster) : core_Service :=
  newServiceWithClusterIp cType oc "ClusterIP"
    [etcdPort "client" EtcdClientPort; etcdPort "peer" EtcdPeerPort] "None" false.

(*@ pkg/manager/component/component.go:764-775 newNodePortService *)
Definition newNodePortService (cType : ComponentType) (oc : OnecloudCluster) (internalOnly : bool)
    (ports : list ServicePort) (roService : bool) : list core_Service :=
  let svcType := if internalOnly then "ClusterIP" else "NodePort" in
  newService cType oc svcType ports false ::
    (if roService then [newService cType oc svcType ports true] else []).

(*@ pkg/manager/component/component.go:781-786 newSinglePortService *)
Definition newSinglePortService (cType : ComponentType) (oc : OnecloudCluster) (internalOnly : bool)
    (nodePort targetPort : Z) (roService : bool) : list core_Service :=
  newNodePortService cType oc internalOnly
    [NewServiceNodePort "api" internalOnly nodePort targetPort] roService.

(*@ pkg/manager/component/component.go:777-779 newSingleNodePortService *)
Definition newSingleNodePortService (cType : ComponentType) (oc : OnecloudCluster)
    (nodePort targetPort : Z) (roService : bool) : list core_Service :=
  newSinglePortService cType oc false nodePort targetPort roService.

(** ** Affinity *)

(** Nodes whose controller label is [enable]. *)
Definition controllerNodes : NodeSelector :=
  MkNodeSelector [MkNodeSelectorTerm
    [MkNodeSelectorRequirement OnecloudControllerLabelKey "In" ["enable"]] []].

(*@ pkg/manager/component/component.go:607-629 SetComponentAffinity *)
Definition SetComponentAffinity (DisableNodeSelectorController : bool) (spec : DeploymentSpec)
  : DeploymentSpec :=
  let affinity := default zero (DeploymentSpec_Affinity spec) in
  let nodeAffinity := default zero (Affinity_NodeAffinity affinity) in
  let nodeAffinity :=
    if DisableNodeSelectorController then nodeAffinity
    else nodeAffinity
      <| NodeAffinity_RequiredDuringSchedulingIgnoredDuringExecution := Some controllerNodes |> in
  spec <| DeploymentSpec_Affinity :=
            Some (affinity <| Affinity_NodeAffinity := Some nodeAffinity |>) |>.

(*@ pkg/manager/component/component.go:640-658 newDefaultDeploymentWithCloudAffinity (affinity) *)
Definition setCloudAffinity (DisableNodeSelectorController : bool) (spec : DeploymentSpec)
  : DeploymentSpec :=
  let affinity := default zero (DeploymentSpec_Affinity spec) in
  let affinity :=
    match Affinity_NodeAffinity affinity with
    | None =>
        if DisableNodeSelectorController then affinity
        else affinity <| Affinity_NodeAffinity := Some ((zero : NodeAffinity)
               <| NodeAffinity_RequiredDuringSchedulingIgnoredDuringExecution :=
                    Some controllerNodes |>) |>
    | Some _ => affinity
    end in
  spec <| DeploymentSpec_Affinity := Some affinity |>.

(** A deployment that rather not shares its nodes with itself. *)
Definition selfAntiAffinity (component : ComponentType) : PodAntiAffinity :=
  (zero : PodAntiAffinity) <| PodAntiAffinity_PreferredDuringSchedulingIgnoredDuringExecution :=
    [MkWeightedPodAffinityTerm 100
       (MkPodAffinityTerm (Some (MkLabelSelector {[ AppLabelKey := component ]} [])) []
          "kubernetes.io/hostname")] |>.

(** [deploy.Spec.Template.Spec], in place. *)
Definition in_pod (g : PodSpec → PodSpec) (d : Deployment) : Deployment :=
  d <| Deployment_Spec ::= λ s, s <| apps_DeploymentSpec_Template ::= λ t,
        t <| PodTemplateSpec_Spec ::= g |> |> |>.

Definition pod_of (d : Deployment) : PodSpec :=
  PodTemplateSpec_Spec (apps_DeploymentSpec_Template (Deployment_Spec d)).

(** The affinity is a pointer the deployment shares with the spec it was made
    from: the place [ref] of the cluster changes too. *)
(*@ pkg/manager/component/component.go:1799-1817 setSelfAntiAffnity *)
Definition setSelfAntiAffnity {W} (ref : specEntry DeploymentSpec) (deploy : Deployment)
    (component : ComponentType) : SM W Deployment :=
  let put a := a <| Affinity_PodAntiAffinity := Some (selfAntiAffinity component) |> in
  match PodSpec_Affinity (pod_of deploy) with
  | Some affinity =>
      modoc (λ oc, oc <| OnecloudCluster_Spec ::= se_upd ref (λ spec,
        spec <| DeploymentSpec_Affinity := Some (put affinity) |>) |>) ;;!
      ret (in_pod (λ p, p <| PodSpec_Affinity := Some (put affinity) |>) deploy)
  | None => ret (in_pod (λ p, p <| PodSpec_Affinity := Some (put zero) |>) deploy)
  end.

(*@ pkg/manager/component/component.go:602-605 removeDeploymentAffinity *)
Definition removeDeploymentAffinity (deploy : Deployment) : Deployment :=
  in_pod (λ p, p <| PodSpec_Affinity := None |>) deploy.

(** ** Probes *)

(*@ pkg/manager/component/component.go:1031-1049 generateLivenessProbe *)
Definition generateLivenessProbe (path : string) (port : Z) : Probe :=
  MkProbe None (Some (MkHTTPGetAction path (MkIntOrString 0 port "") "" "HTTPS")) 60 5 5 1 3.

(*@ pkg/manager/component/component.go:1051-1069 generateReadinessProbe *)
Definition generateReadinessProbe (path : string) (port : Z) : Probe :=
  MkProbe None (Some (MkHTTPGetAction path (MkIntOrString 0 port "") "" "HTTPS")) 15 3 5 3 2.

(** ** Resources

    A node as the lister has it; quantities are parsed and read by
    [k8s.io/apimachinery]. *)
Record Node := MkNode {
  Node_Name : string;
  Node_Conditions : list (string * string);
  Node_Capacity : gmap string Quantity
}.

Class QuantityOps := {
  ParseQuantity : string → Res Quantity;
  AsInt64 : Quantity → option Z
}.

(** The nodes a label selector, as Kubernetes writes it, selects. *)
Class NodeLister (W : Type) := listNodes : string → M W (list Node).

(*@ pkg/util/k8sutil/node_util.go:27-35 IsNodeReady *)
Fixpoint isReady (conditions : list (string * string)) : bool :=
  match conditions with
  | [] => false
  | (type, status) :: conditions' =>
      if String.eqb type "Ready" then String.eqb status "True" else isReady conditions'
  end.

(** [fmt.Sprintf("%f", float64(n) / 3.0)] for a count of processors. *)
Definition third (n : Z) : string :=
  let q := ((2 * 1000000 * n + 3) / 6)%Z in
  dec (q / 1000000) +:+ "." +:+ String.substring 1 6 (dec (1000000 + q mod 1000000)).

Section builders.
Context {W : Type} `{!SessionEnv W, !NodeLister W, !QuantityOps}.
Context (DisableNodeSelectorController IsGreatOrEqualThanV120 : bool).

(*@ pkg/util/k8sutil/node_util.go:37-59 GetReadyMasterNodes *)
Definition GetReadyMasterNodes : M W (list Node) :=
  let! nodes := listNodes LabelNodeRoleMaster in
  ret (List.filter (λ n, isReady (Node_Conditions n)) nodes).

(** [capacity.Cpu()]: a quantity that is absent is zero. *)
Definition capacity_of (node : Node) (key : string) : Quantity :=
  default zero (Node_Capacity node !! key).

(*@ pkg/manager/component/component.go:1015-1029 getNodeCapacity *)
Definition getNodeCapacity (node : Node) : Res (Quantity * Quantity) :=
  let cpu := capacity_of node "cpu" in
  let memory := capacity_of node "memory" in
  match AsInt64 cpu, AsInt64 memory with
  | None, _ => Err (ErrMsg "node cpu as int64")
  | _, None => Err (ErrMsg "node memory as int64")
  | Some _, Some _ => Ok (cpu, memory)
  end.

(** A third of the processors and a sixteenth of the memory of the first
    ready master node, at least half a gigabyte; no limits, and no error,
    when no master node is ready. *)
(*@ pkg/manager/component/component.go:981-1013 getDefaultResourceLimits *)
Definition getDefaultResourceLimits : M W (option Quantity * option Quantity) :=
  let! nodes := wrap "get ready master nodes" GetReadyMasterNodes in
  match nodes with
  | [] => ret (None, None)
  | node :: _ =>
      let! '(cpu, mem) := wrap ("get node " +:+ Node_Name node +:+ " capacity")
                            (lift (getNodeCapacity node)) in
      let cpuCount := default 0%Z (AsInt64 cpu) in
      let memBytes := default 0%Z (AsInt64 mem) in
      let defMemMB := Z.max 512 (Z.quot (Z.quot (Z.quot memBytes 1000) 1000) 16) in
      let! defCPU := wrap ("parse cpu " +:+ third cpuCount) (lift (ParseQuantity (third cpuCount))) in
      let! defMem := wrap ("parse mem " +:+ dec defMemMB +:+ "Mi")
                       (lift (ParseQuantity (dec defMemMB +:+ "Mi"))) in
      ret (Some defCPU, Some defMem)
  end.

(*@ pkg/manager/component/component.go:962-979 setPodSpecResources *)
Definition setPodSpecResources (spec : PodSpec) (key : string) (iLimit iReq : option Quantity)
  : PodSpec :=
  match iLimit, iReq with
  | Some limit, Some req =>
      spec <| PodSpec_Containers ::= map (λ ctr,
        ctr <| Container_Resources ::= λ r,
          r <| ResourceRequirements_Limits ::= <[key := limit]> |>
            <| ResourceRequirements_Requests ::= <[key := req]> |> |>) |>
  | _, _ => spec
  end.

(** The default of a quantity that is not set. *)
Definition or_else {A} (o d : option A) : option A :=
  match o with Some x => Some x | None => d end.

(** A quantity the code parses and whose error it drops. *)
Definition quantity (s : string) : Quantity :=
  match ParseQuantity s with Ok q => q | _ => zero end.

Definition clear_resources (r : ResourceRequirement) : ResourceRequirement :=
  r <| ResourceRequirement_CPU := None |> <| ResourceRequirement_Memory := None |>.

Definition default_resources (cpu mem : option Quantity) (r : ResourceRequirement)
  : ResourceRequirement :=
  r <| ResourceRequirement_CPU ::= λ c, or_else c cpu |>
    <| ResourceRequirement_Memory ::= λ m, or_else m mem |>.

(** The spec and the pod it gives; an error leaves the limits of the spec set,
    if empty, and the pod alone. *)
(*@ pkg/manager/component/component.go:905-960 setContainerResources *)
Definition setContainerResources (disable : bool) (spec : ContainerSpec) (templateSpec : PodSpec)
  : M W (ContainerSpec * PodSpec) :=
  if disable then
    ret (spec <| ContainerSpec_Limits ::= option_map clear_resources |>
              <| ContainerSpec_Requests ::= option_map clear_resources |>, templateSpec)
  else
    let limits := default zero (ContainerSpec_Limits spec) in
    let! r := attempt (wrap "get default cpu and memory limits" getDefaultResourceLimits) in
    match r with
    | inl _ => ret (spec <| ContainerSpec_Limits := Some limits |>, templateSpec)
    | inr (cpu, mem) =>
        let limits := default_resources cpu mem limits in
        let requests := default_resources (Some (quantity "0.01")) (Some (quantity "10Mi"))
                          (default zero (ContainerSpec_Requests spec)) in
        let t := setPodSpecResources templateSpec "cpu" (ResourceRequirement_CPU limits)
                   (ResourceRequirement_CPU requests) in
        let t := setPodSpecResources t "memory" (ResourceRequirement_Memory limits)
                   (ResourceRequirement_Memory requests) in
        ret (spec <| ContainerSpec_Limits := Some limits |>
                  <| ContainerSpec_Requests := Some requests |>, t)
    end.

(** ** Deployments *)

(** The place of the spec a pointer refers to. *)
Definition read {A} (ref : specEntry A) : SM W A :=
  let! oc := getoc in ret (se_get ref (OnecloudCluster_Spec oc)).

Definition write {A} (ref : specEntry A) (g : A → A) : SM W unit :=
  modoc (λ oc, oc <| OnecloudCluster_Spec ::= se_upd ref g |>).

(** The resources of a pod, and of the spec it is made from. *)
Definition withResources {A} (ref : specEntry A) (container : A → ContainerSpec)
    (put : ContainerSpec → A → A) (templateSpec : PodSpec) : SM W PodSpec :=
  let! spec := read ref in
  let! oc := getoc in
  let! '(c, t) := kube (setContainerResources
                    (OnecloudClusterSpec_DisableResourceManagement (OnecloudCluster_Spec oc))
                    (container spec) templateSpec) in
  write ref (put c) ;;! ret t.

Definition put_deployment_container (c : ContainerSpec) (s : DeploymentSpec) : DeploymentSpec :=
  s <| DeploymentSpec_ContainerSpec := c |>.

(** A nil factory makes no containers. *)
Definition Factory : Type := option (list VolumeMount → list Container).
Definition make (f : Factory) (volMounts : list VolumeMount) : list Container :=
  match f with None => [] | Some f => f volMounts end.

(*@ pkg/manager/component/component.go:855-892 newDeployment (appDeploy) *)
Definition appDeployment (componentType zoneComponentType : ComponentType) (oc : OnecloudCluster)
    (volHelper : VolumeHelper) (spec : DeploymentSpec) (initContainersFactory containersFactory : Factory)
    (hostNetwork : bool) (dnsPolicy : string) : Deployment :=
  let appLabel := getComponentLabel oc componentType false in
  MkDeployment
    (getObjectMeta oc (NewClusterComponentName (oc_name oc) zoneComponentType) appLabel)
    (Mkapps_DeploymentSpec (Some (DeploymentSpec_Replicas spec)) (label_Selector appLabel)
       (MkPodTemplateSpec
          ((zero : ObjectMeta) <| ObjectMeta_Labels := appLabel |>
             <| ObjectMeta_Annotations := DeploymentSpec_Annotations spec |>)
          ((zero : PodSpec)
             <| PodSpec_Affinity := DeploymentSpec_Affinity spec |>
             <| PodSpec_NodeSelector := DeploymentSpec_NodeSelector spec |>
             <| PodSpec_RestartPolicy := "Always" |>
             <| PodSpec_Tolerations := DeploymentSpec_Tolerations spec |>
             <| PodSpec_Volumes := GetVolumes volHelper |>
             <| PodSpec_HostNetwork := hostNetwork |>
             <| PodSpec_DNSPolicy := dnsPolicy |>
             <| PodSpec_DNSConfig := DeploymentSpec_DNSConfig spec |>
             <| PodSpec_ImagePullSecrets := DeploymentSpec_ImagePullSecrets spec |>
             <| PodSpec_InitContainers := make initContainersFactory (GetVolumeMounts volHelper) |>
             <| PodSpec_Containers := make containersFactory (GetVolumeMounts volHelper) |>))
       (MkDeploymentStrategy "RollingUpdate"))
    zero.

(*@ pkg/manager/component/component.go:835-903 newDeployment *)
Definition newDeployment (componentType zoneComponentType : ComponentType)
    (volHelper : VolumeHelper) (spec : specEntry DeploymentSpec)
    (initContainersFactory containersFactory : Factory) (hostNetwork : bool) (dnsPolicy : string)
  : SM W Deployment :=
  let zoneComponentType := default_str componentType zoneComponentType in
  let! oc := getoc in
  let! s := read spec in
  let appDeploy := appDeployment componentType zoneComponentType oc volHelper s
                     initContainersFactory containersFactory hostNetwork dnsPolicy in
  let! pod := withResources spec DeploymentSpec_ContainerSpec put_deployment_container
                (pod_of appDeploy) in
  let appDeploy := in_pod (λ _, pod) appDeploy in
  ret (if hostNetwork then
         appDeploy <| Deployment_Spec ::= λ s,
           s <| apps_DeploymentSpec_Strategy := MkDeploymentStrategy "Recreate" |> |>
       else appDeploy).

(*@ pkg/manager/component/component.go:631-660 newDefaultDeploymentWithCloudAffinity *)
Definition newDefaultDeploymentWithCloudAffinity (componentType zoneComponentType : ComponentType)
    (volHelper : VolumeHelper) (spec : specEntry DeploymentSpec)
    (initContainersFactory containersFactory : Factory) : SM W Deployment :=
  write spec (setCloudAffinity DisableNodeSelectorController) ;;!
  newDeployment componentType zoneComponentType volHelper spec initContainersFactory
    containersFactory false "ClusterFirst".

(*@ pkg/manager/component/component.go:590-600 newDefaultDeployment *)
Definition newDefaultDeployment (componentType zoneComponentType : ComponentType)
    (volHelper : VolumeHelper) (spec : specEntry DeploymentSpec)
    (initContainersFactory containersFactory : Factory) : SM W Deployment :=
  newDefaultDeploymentWithCloudAffinity componentType zoneComponentType volHelper spec
    initContainersFactory containersFactory.

(*@ pkg/manager/component/component.go:662-668 newDefaultDeploymentNoInit *)
Definition newDefaultDeploymentNoInit (componentType zoneComponentType : ComponentType)
    (volHelper : VolumeHelper) (spec : specEntry DeploymentSpec)
    (containersFactory : list VolumeMount → list Container) : SM W Deployment :=
  newDefaultDeploymentWithCloudAffinity componentType zoneComponentType volHelper spec None
    (Some containersFactory).

(*@ pkg/manager/component/component.go:670-684 newDefaultDeploymentNoInitWithoutCloudAffinity *)
Definition newDefaultDeploymentNoInitWithoutCloudAffinity
    (componentType zoneComponentType : ComponentType) (volHelper : VolumeHelper)
    (spec : specEntry DeploymentSpec) (hostNetwork : bool)
    (containersFactory : list VolumeMount → list Container) : SM W Deployment :=
  newDeployment componentType zoneComponentType volHelper spec None (Some containersFactory)
    hostNetwork (if hostNetwork then "ClusterFirstWithHostNet" else "ClusterFirst").

(** The command line of a service. *)
Definition service_command (cType : ComponentType) : list string :=
  ["/opt/yunion/bin/" +:+ cType; "--config"; "/etc/yunion/" +:+ cType +:+ ".conf"].

(** The container of a service; asking for a readiness probe without a port
    is an index out of range. *)
(*@ pkg/manager/component/component.go:1085-1102 newCloudServiceDeployment (containersF) *)
Definition serviceContainers (cType : ComponentType) (deployCfg : DeploymentSpec)
    (ports : list ContainerPort) (readyProbe : option Probe) (volMounts : list VolumeMount)
  : list Container :=
  [(zero : Container) <| Container_Name := cType |>
     <| Container_Image := ContainerSpec_Image (DeploymentSpec_ContainerSpec deployCfg) |>
     <| Container_Command := service_command cType |>
     <| Container_ImagePullPolicy :=
          ContainerSpec_ImagePullPolicy (DeploymentSpec_ContainerSpec deployCfg) |>
     <| Container_Ports := ports |>
     <| Container_VolumeMounts := volMounts |>
     <| Container_ReadinessProbe := readyProbe |>].

(*@ pkg/manager/component/component.go:1071-1119 newCloudServiceDeployment *)
Definition newCloudServiceDeployment (cType zoneComponentType : ComponentType)
    (deployCfg : specEntry DeploymentSpec) (initContainersF : Factory) (ports : list ContainerPort)
    (mountEtcdTLS keepAffinity : bool) (readinessProbePath : string) : SM W Deployment :=
  let! readyProbe :=
    (if str_empty readinessProbePath then ret None
     else match ports with
          | [] => panic "index out of range"
          | p :: _ => ret (Some (generateReadinessProbe readinessProbePath
                                   (ContainerPort_ContainerPort p)))
          end) in
  let! oc := getoc in
  let! spec := read deployCfg in
  let configMap := ComponentConfigMapName oc zoneComponentType in
  let h := (if mountEtcdTLS then NewVolumeHelperWithEtcdTLS else NewVolumeHelper) oc configMap cType in
  let! deploy := newDefaultDeployment cType zoneComponentType h deployCfg initContainersF
                   (Some (serviceContainers cType spec ports readyProbe)) in
  ret (if keepAffinity then deploy else removeDeploymentAffinity deploy).

(*@ pkg/manager/component/component.go:1129-1145 newCloudServiceDeploymentWithInit (initContainersF) *)
Definition initContainers (cType : ComponentType) (deployCfg : DeploymentSpec)
    (volMounts : list VolumeMount) : list Container :=
  [(zero : Container) <| Container_Name := "init" |>
     <| Container_Image := ContainerSpec_Image (DeploymentSpec_ContainerSpec deployCfg) |>
     <| Container_ImagePullPolicy :=
          ContainerSpec_ImagePullPolicy (DeploymentSpec_ContainerSpec deployCfg) |>
     <| Container_Command :=
          service_command cType ++ ["--auto-sync-table"; "--exit-after-db-init"] |>
     <| Container_VolumeMounts := volMounts |>].

(*@ pkg/manager/component/component.go:1121-1150 newCloudServiceDeploymentWithInit *)
Definition newCloudServiceDeploymentWithInit (cType zoneComponentType : ComponentType)
    (deployCfg : specEntry DeploymentSpec) (ports : list ContainerPort) (mountEtcdTLS : bool)
    (readinessProbePath : string) : SM W Deployment :=
  let! spec := read deployCfg in
  newCloudServiceDeployment cType (default_str cType zoneComponentType) deployCfg
    (Some (initContainers cType spec)) ports mountEtcdTLS true readinessProbePath.

(*@ pkg/manager/component/component.go:1152-1164 newCloudServiceDeploymentNoInit *)
Definition newCloudServiceDeploymentNoInit (cType zoneComponentType : ComponentType)
    (deployCfg : specEntry DeploymentSpec) (ports : list ContainerPort) (mountEtcdTLS : bool)
    (readinessProbePath : string) : SM W Deployment :=
  newCloudServiceDeployment cType (default_str cType zoneComponentType) deployCfg None ports
    mountEtcdTLS true readinessProbePath.

(*@ pkg/manager/component/component.go:1175-1194 newCloudServiceSinglePortDeploymentWithReadinessProbePath *)
Definition newCloudServiceSinglePortDeploymentWithReadinessProbePath
    (cType zoneComponentType : ComponentType) (deployCfg : specEntry DeploymentSpec) (port : Z)
    (doInit mountEtcdTLS : bool) (readinessProbePath : string) : SM W Deployment :=
  (if doInit then newCloudServiceDeploymentWithInit else newCloudServiceDeploymentNoInit)
    cType zoneComponentType deployCfg [MkContainerPort "api" port "TCP" 0] mountEtcdTLS
    readinessProbePath.

(*@ pkg/manager/component/component.go:1166-1173 newCloudServiceSinglePortDeployment *)
Definition newCloudServiceSinglePortDeployment (cType zoneComponentType : ComponentType)
    (deployCfg : specEntry DeploymentSpec) (port : Z) (doInit mountEtcdTLS : bool)
  : SM W Deployment :=
  newCloudServiceSinglePortDeploymentWithReadinessProbePath cType zoneComponentType deployCfg port
    doInit mountEtcdTLS "".

(** The read-only companion of a deployment runs the same command with a flag
    more, without the initialisation, under labels of its own. *)
(*@ pkg/manager/component/component.go:818-833 genReadonlyDeployment *)
Definition genReadonlyDeployment (componentType : ComponentType) (oc : OnecloudCluster)
    (deploy : Deployment) (spec : DeploymentSpec) : Deployment :=
  let appLabel := getComponentLabel oc componentType true in
  let d := in_pod (λ p, p <| PodSpec_InitContainers := [] |>
        <| PodSpec_Containers ::= λ cs,
             match cs with
             | [] => []
             | c :: cs => (c <| Container_Command ::= λ l, l ++ ["--is-slave-node"] |>) :: cs
             end |>) deploy in
  d <| Deployment_ObjectMeta ::= λ m,
         m <| ObjectMeta_Name ::= λ n, n +:+ "-slave" |> <| ObjectMeta_Labels := appLabel |> |>
    <| Deployment_Spec ::= λ s,
         s <| apps_DeploymentSpec_Replicas := Some (DeploymentSpec_SlaveReplicas spec) |>
           <| apps_DeploymentSpec_Selector := label_Selector appLabel |>
           <| apps_DeploymentSpec_Template ::= λ t,
                t <| PodTemplateSpec_ObjectMeta ::= λ m, m <| ObjectMeta_Labels := appLabel |> |> |> |>.

(** ** Daemon sets *)

(*@ pkg/manager/component/component.go:1236-1269 newDaemonSetWithLimits (appDaemonSet) *)
Definition appDaemonSet (componentType : ComponentType) (oc : OnecloudCluster)
    (volHelper : VolumeHelper) (spec : DaemonSetSpec) (updateStrategy : string)
    (initContainers : list Container) (containersFactory : list VolumeMount → list Container)
  : DaemonSet :=
  let appLabel := getComponentLabel oc componentType false in
  MkDaemonSet
    (getObjectMeta oc (NewClusterComponentName (oc_name oc) componentType) appLabel)
    (Mkapps_DaemonSetSpec (label_Selector appLabel)
       (MkPodTemplateSpec
          ((zero : ObjectMeta) <| ObjectMeta_Labels := appLabel |>
             <| ObjectMeta_Annotations := DaemonSetSpec_Annotations spec |>)
          ((zero : PodSpec)
             <| PodSpec_Affinity := DaemonSetSpec_Affinity spec |>
             <| PodSpec_NodeSelector := DaemonSetSpec_NodeSelector spec |>
             <| PodSpec_Containers := containersFactory (GetVolumeMounts volHelper) |>
             <| PodSpec_InitContainers := initContainers |>
             <| PodSpec_RestartPolicy := "Always" |>
             <| PodSpec_Tolerations := DaemonSetSpec_Tolerations spec |>
             <| PodSpec_Volumes := GetVolumes volHelper |>
             <| PodSpec_HostNetwork := true |>
             <| PodSpec_HostPID := true |>
             <| PodSpec_HostIPC := true |>
             <| PodSpec_DNSPolicy := "ClusterFirstWithHostNet" |>
             <| PodSpec_ImagePullSecrets := DaemonSetSpec_ImagePullSecrets spec |>))
       (MkDaemonSetUpdateStrategy (default_str "RollingUpdate" updateStrategy) None))
    zero.

(** [ds.Spec.Template.Spec], in place. *)
Definition in_ds_pod (g : PodSpec → PodSpec) (d : DaemonSet) : DaemonSet :=
  d <| DaemonSet_Spec ::= λ s, s <| apps_DaemonSetSpec_Template ::= λ t,
        t <| PodTemplateSpec_Spec ::= g |> |> |>.

(*@ pkg/manager/component/component.go:1215-1277 newDaemonSetWithLimits *)
Definition newDaemonSetWithLimits (componentType : ComponentType) (volHelper : VolumeHelper)
    (spec : specEntry DaemonSetSpec) (updateStrategy : string) (initContainers : list Container)
    (containersFactory : list VolumeMount → list Container) (setLimits : bool) : SM W DaemonSet :=
  let! oc := getoc in
  let! s := read spec in
  let ds := appDaemonSet componentType oc volHelper s updateStrategy initContainers
              containersFactory in
  if setLimits then
    let! pod := withResources spec DaemonSetSpec_ContainerSpec
                  (λ c s, s <| DaemonSetSpec_ContainerSpec := c |>)
                  (PodTemplateSpec_Spec (apps_DaemonSetSpec_Template (DaemonSet_Spec ds))) in
    ret (in_ds_pod (λ _, pod) ds)
  else ret ds.

(** The spec is passed by value: a copy. *)
(*@ pkg/manager/component/component.go:1203-1213 newDaemonSet *)
Definition newDaemonSet (componentType : ComponentType) (volHelper : VolumeHelper)
    (spec : DaemonSetSpec) (updateStrategy : string) (initContainers : list Container)
    (containersFactory : list VolumeMount → list Container) : SM W DaemonSet :=
  let! oc := getoc in
  ret (appDaemonSet componentType oc volHelper spec updateStrategy initContainers
         containersFactory).

(*@ pkg/manager/component/component.go:1283-1291 applyHostComponentAntiEviction *)
Definition applyHostComponentAntiEviction (ds : option DaemonSet) : option DaemonSet :=
  match ds with
  | None => None
  | Some ds =>
      if negb IsGreatOrEqualThanV120 then Some ds
      else Some (in_ds_pod (λ p, p <| PodSpec_PriorityClassName := "system-node-critical" |>) ds)
  end.

(** ** Cron jobs *)

(*@ pkg/manager/component/component.go:1314-1360 newCronJob (cronJob) *)
Definition appCronJob (componentType : ComponentType) (oc : OnecloudCluster)
    (volHelper : VolumeHelper) (spec : CronJobSpec) (initContainersFactory : Factory)
    (containersFactory : list VolumeMount → list Container) (hostNetwork : bool)
    (dnsPolicy concurrencyPolicy : string) (startingDeadlineSeconds : option Z)
    (suspend : option bool) (successfulJobsHistoryLimit failedJobsHistoryLimit : option Z)
  : CronJob :=
  let appLabel := getComponentLabel oc componentType false in
  let meta := (zero : ObjectMeta) <| ObjectMeta_Labels := appLabel |>
                <| ObjectMeta_Annotations := CronJobSpec_Annotations spec |> in
  MkCronJob
    (getObjectMeta oc (NewClusterComponentName (oc_name oc) componentType) appLabel)
    (Mkbatch_CronJobSpec (CronJobSpec_Schedule spec) startingDeadlineSeconds concurrencyPolicy
       suspend
       (MkJobTemplateSpec meta
          (MkJobSpec (Some 1%Z)
             (MkPodTemplateSpec meta
                ((zero : PodSpec)
                   <| PodSpec_Affinity := CronJobSpec_Affinity spec |>
                   <| PodSpec_NodeSelector := CronJobSpec_NodeSelector spec |>
                   <| PodSpec_Containers := containersFactory (GetVolumeMounts volHelper) |>
                   <| PodSpec_RestartPolicy := "Never" |>
                   <| PodSpec_Tolerations := CronJobSpec_Tolerations spec |>
                   <| PodSpec_Volumes := GetVolumes volHelper |>
                   <| PodSpec_HostNetwork := hostNetwork |>
                   <| PodSpec_DNSPolicy := dnsPolicy |>
                   <| PodSpec_ImagePullSecrets := CronJobSpec_ImagePullSecrets spec |>
                   <| PodSpec_InitContainers :=
                        make initContainersFactory (GetVolumeMounts volHelper) |>))))
       successfulJobsHistoryLimit failedJobsHistoryLimit).

Definition cron_pod (c : CronJob) : PodSpec :=
  PodTemplateSpec_Spec (JobSpec_Template (JobTemplateSpec_Spec
    (batch_CronJobSpec_JobTemplate (CronJob_Spec c)))).

(*@ pkg/manager/component/component.go:1293-1367 newCronJob *)
Definition newCronJob (componentType : ComponentType) (volHelper : VolumeHelper)
    (spec : specEntry CronJobSpec) (initContainersFactory : Factory)
    (containersFactory : list VolumeMount → list Container) (hostNetwork : bool)
    (dnsPolicy concurrencyPolicy : string) (startingDeadlineSeconds : option Z)
    (suspend : option bool) (successfulJobsHistoryLimit failedJobsHistoryLimit : option Z)
  : SM W CronJob :=
  let! oc := getoc in
  let! s := read spec in
  let cronJob := appCronJob componentType oc volHelper s initContainersFactory containersFactory
                   hostNetwork dnsPolicy concurrencyPolicy startingDeadlineSeconds suspend
                   successfulJobsHistoryLimit failedJobsHistoryLimit in
  let! pod := withResources spec CronJobSpec_ContainerSpec
                (λ c s, s <| CronJobSpec_ContainerSpec := c |>) (cron_pod cronJob) in
  ret (cronJob <| CronJob_Spec ::= λ s, s <| batch_CronJobSpec_JobTemplate ::= λ j,
         j <| JobTemplateSpec_Spec ::= λ js, js <| JobSpec_Template ::= λ t,
           t <| PodTemplateSpec_Spec := pod |> |> |> |> |>).

(*@ pkg/apis/onecloud/v1alpha1/types.go:27-27 StartingDeadlineSeconds *)
Definition StartingDeadlineSeconds : Z := 300.

(*@ pkg/manager/component/component.go:1369-1379 newDefaultCronJob *)
Definition newDefaultCronJob (componentType : ComponentType) (volHelper : VolumeHelper)
    (spec : specEntry CronJobSpec) (initContainersFactory : Factory)
    (containersFactory : list VolumeMount → list Container) : SM W CronJob :=
  newCronJob componentType volHelper spec initContainersFactory containersFactory false
    "ClusterFirst" "Replace" (Some StartingDeadlineSeconds) None None None.

(** ** Volume claims *)

(*@ pkg/manager/component/component.go:1381-1388 newPvcName *)
Definition newPvcName (ocName storageClass : string) (cType : ComponentType) : string :=
  let prefix := NewClusterComponentName ocName cType in
  if String.eqb storageClass DefaultStorageClass then prefix else prefix +:+ "-" +:+ storageClass.

(** A spec without requests is a nil pointer. *)
(*@ pkg/manager/component/component.go:1390-1421 newPVC *)
Definition newPVC (cType : ComponentType) (oc : OnecloudCluster) (spec : StatefulDeploymentSpec)
  : Res PersistentVolumeClaim :=
  let storageClass := StatefulDeploymentSpec_StorageClassName spec in
  match ContainerSpec_Requests (DeploymentSpec_ContainerSpec
          (StatefulDeploymentSpec_DeploymentSpec spec)) with
  | None => Panic "nil pointer dereference"
  | Some requests =>
      res_map (λ sizeQ,
        MkPersistentVolumeClaim
          ((zero : ObjectMeta) <| ObjectMeta_Name := newPvcName (oc_name oc) storageClass cType |>
             <| ObjectMeta_Namespace := oc_ns oc |>)
          (MkPersistentVolumeClaimSpec ["ReadWriteOnce"] {[ "storage" := sizeQ ]}
             (if str_empty storageClass then None else Some storageClass)))
        (ParseQuantity (ResourceRequirement_Storage requests))
  end.

(** ** Config maps that are forced

    Whether the configuration the server holds must be written over. The test
    [cond] may be nil. *)
(*@ pkg/manager/component/component.go:1819-1838 shouldSyncConfigmap *)
Definition shouldSyncConfigmap `{!ResourceApi W ConfigMap} (ct : ComponentType) (opt : string)
    (cond : option (string → bool)) : SM W (option ConfigMap * bool) :=
  let! oc := getoc in
  let cfgMap := newConfigMap ct "" oc opt in
  let! r := kube (attempt (apiGet ConfigMap (oc_ns oc) (obj_name cfgMap))) in
  match r with
  | inl _ => ret (Some cfgMap, false)
  | inr oldCfgMap =>
      match ConfigMap_Data oldCfgMap !! "config", cond with
      | Some optStr, Some cond => ret (Some cfgMap, cond optStr)
      | _, _ => ret (Some cfgMap, false)
      end
  end.

(** ** The manager that wants nothing

    The methods of [ComponentManager] itself; a manager overrides those it
    needs. *)
(*@ pkg/manager/component/component.go:1505-1562 ComponentManager (getDBConfig to getCronJob) *)
Definition baseManager (cType : ComponentType) (disabled : OnecloudCluster → bool)
    (versions : list ProductVersion) : cloudComponentFactory W :=
  MkFactory W _ cType disabled versions (λ _, "") (λ _, None) (λ _, None) (λ _, None) (λ _, None)
    (λ _, None) (λ _ _, ret []) (λ _, ret None) (λ _, panic "nil pointer dereference")
    (λ _ _, ret (None, false)) (λ _, ret None) (λ _ _, ret None) false (λ _ _ _, ret None)
    (λ _, None) (λ _ _, ret None) (λ _ _, ret None).
End builders.
