(* ===== verification/KubeClusters.v ===== *)
(** * KubeClusters: the components of the Kubernetes service's own cluster

    [pkg/util/onecloud/kubeserver.go] and [kubeServerComponent] of
    [pkg/controller/onecloud_control.go]: minio, thanos and the monitor stack
    are deployed by the Kubernetes service of the cloud into its system
    cluster. The settings are records; [ComponentCodec] is how the library
    writes and reads them. *)

From S2P Require Import Prelude K8s Types Constants GoStrings Defaults.
From S2P Require Import LastApplied KubeApi Controls Session CloudApi.
From S2P Require Import Sync Volumes Builders.

Open Scope string_scope.
Open Scope list_scope.
Open Scope go_scope.

(*@ pkg/util/onecloud/onecloud.go:45-45 K8SSystemClusterName *)
Definition K8SSystemClusterName : string := "system-default".

(*@ pkg/util/onecloud/kubeserver.go:31-31 ClusterComponentType *)
Definition ClusterComponentType : Type := string.
(*@ pkg/util/onecloud/kubeserver.go:34-34 ClusterComponentTypeMinio *)
Definition ClusterComponentTypeMinio : ClusterComponentType := "minio".
(*@ pkg/util/onecloud/kubeserver.go:35-35 ClusterComponentTypeMonitorMinio *)
Definition ClusterComponentTypeMonitorMinio : ClusterComponentType := "monitorMinio".
(*@ pkg/util/onecloud/kubeserver.go:36-36 ClusterComponentTypeMonitor *)
Definition ClusterComponentTypeMonitor : ClusterComponentType := "monitor".
(*@ pkg/util/onecloud/kubeserver.go:37-37 ClusterComponentTypeThanos *)
Definition ClusterComponentTypeThanos : ClusterComponentType := "thanos".

(*@ pkg/apis/onecloud/v1alpha1/types.go:742-742 MinioModeDistributed *)
Definition MinioModeDistributed : string := "distributed".
(*@ pkg/apis/onecloud/v1alpha1/types.go:741-741 MinioModeStandalone *)
Definition MinioModeStandalone : string := "standalone".

(*@ pkg/util/onecloud/kubeserver.go:40-45 ComponentStatus *)
Record ComponentStatus := MkComponentStatus {
  ComponentStatus_Id : string;
  ComponentStatus_Created : bool;
  ComponentStatus_Enabled : bool;
  ComponentStatus_Status : string
}.

(*@ pkg/util/onecloud/kubeserver.go:47-54 ClusterComponentsStatus *)
Record ClusterComponentsStatus := MkClusterComponentsStatus {
  status_CephCSI : option ComponentStatus;
  status_Monitor : option ComponentStatus;
  status_FluentBit : option ComponentStatus;
  status_Thanos : option ComponentStatus;
  status_Minio : option ComponentStatus;
  status_MonitorMinio : option ComponentStatus
}.

(*@ pkg/util/onecloud/kubeserver.go:155-161 EnableMinioParams *)
Record EnableMinioParams := MkEnableMinioParams {
  minio_Mode : string;
  minio_Replicas : Z;
  minio_DrivesPerNode : Z;
  minio_AccessKey : string;
  minio_SecretKey : string
}.

(** The settings of the client library, the fields that are set. *)
Record MinioSetting := MkMinioSetting {
  setting_params : EnableMinioParams;
  setting_MountPath : string;
  setting_StorageEnabled : bool;
  setting_StorageSizeMB : Z;
  setting_StorageClassName : string
}.
Record ObjectStoreSetting := MkObjectStoreSetting {
  store_Bucket : string;
  store_Endpoint : string;
  store_AccessKey : string;
  store_SecretKey : string;
  store_Insecure : bool
}.
Record GrafanaSetting := MkGrafanaSetting {
  grafana_Disable : bool;
  grafana_AdminUser : string;
  grafana_AdminPassword : string;
  grafana_PublicAddress : string;
  grafana_Host : string;
  grafana_DisableSubpath : bool;
  grafana_Subpath : string;
  grafana_EnforceDomain : bool;
  grafana_EnableThanosQuery : bool;
  grafana_Oauth : option MonitorStackGrafanaSpecOAuth
}.
Record MonitorSetting := MkMonitorSetting {
  monitor_Grafana : GrafanaSetting;
  monitor_LokiDisable : bool;
  monitor_LokiStore : ObjectStoreSetting;
  monitor_PromtailDisable : bool;
  monitor_PrometheusDisable : bool;
  monitor_PrometheusStore : ObjectStoreSetting
}.
Class ComponentCodec := {
  Unmarshal_status : json → Res ClusterComponentsStatus;
  Marshal_minio : MinioSetting → json;
  Marshal_thanos : ObjectStoreSetting → json;
  Marshal_monitor : MonitorSetting → json
}.

Section components.
Context {W : Type} `{!SessionEnv W, !JsonUtils, !CloudApi W, !ComponentCodec}.
Implicit Types (s : ClientSession W) (spec : OnecloudClusterSpec).

(*@ pkg/util/onecloud/kubeserver.go:56-66 GetSystemClusterComponentsStatus *)
Definition GetSystemClusterComponentsStatus s (id : string) : M W ClusterComponentsStatus :=
  let! r := wrap ("Get cluster " +:+ id +:+ " components status")
              (mod_GetSpecific s KubeClusters id "components-status") in
  lift (Unmarshal_status r).

(*@ pkg/util/onecloud/kubeserver.go:68-74 GetSystemCluster *)
Definition GetSystemCluster s : M W json :=
  wrap "Get kubernetes system default cluster" (mod_Get s KubeClusters K8SSystemClusterName).

(*@ pkg/util/onecloud/kubeserver.go:76-79 SyncSystemCluster *)
Definition SyncSystemCluster s (id : string) : M W unit :=
  mod_PerformAction s KubeClusters id "sync" [] ;;! ret tt.

(** A failed deployment is disabled, and is an error. *)
(*@ pkg/util/onecloud/kubeserver.go:122-143 isClusterComponentEnabled *)
Definition isClusterComponentEnabled (name : ClusterComponentType) s (id : string)
    (getStatus : ClusterComponentsStatus → Res (bool * string))
    (onStatusFail : string → string → M W unit) : M W bool :=
  let! statuses := wrap "Get cluster components status" (GetSystemClusterComponentsStatus s id) in
  let! '(enabled, status) := lift (getStatus statuses) in
  if has_suffix "_fail" status then
    let! _ := attempt (onStatusFail status id) in
    throw (ErrMsg (name +:+ " deploy status: " +:+ status))
  else ret enabled.

(** A component that is enabled is updated; otherwise the system cluster is
    synchronised and the component enabled. *)
(*@ pkg/util/onecloud/kubeserver.go:81-120 syncClusterComponent *)
Definition syncClusterComponent (cType : ClusterComponentType) s
    (getStatus : ClusterComponentsStatus → Res (bool * string))
    (onStatusFail : string → string → M W unit)
    (doEnable doUpdate : string → M W unit) : M W unit :=
  let! r := GetSystemCluster s in
  let! id := wrap "Get kubernetes system default cluster id" (lift (GetString r "id")) in
  let! isEnabled := wrap ("Check " +:+ cType +:+ " is enabled")
                      (isClusterComponentEnabled cType s id getStatus onStatusFail) in
  if isEnabled then
    wrap ("Update system default cluster " +:+ cType +:+ " component") (doUpdate id)
  else
    wrap "Init system default cluster" (SyncSystemCluster s id) ;;!
    wrap ("Enable system default cluster " +:+ cType +:+ " component") (doEnable id).

(*@ pkg/util/onecloud/kubeserver.go:145-153 disableClusterComponent *)
Definition disableClusterComponent (name : ClusterComponentType) s (systemClusterId : string)
  : M W unit :=
  wrap ("disable " +:+ name)
    (mod_PerformAction s KubeClusters systemClusterId "disable-component" [("type", JStr name)]) ;;!
  ret tt.

(*@ pkg/util/onecloud/kubeserver.go:168-180 injectComponentParamsBySpec *)
Definition injectComponentParamsBySpec (params : list (string * json)) spec : list (string * json) :=
  json_Add (JObj [("url", JStr (OnecloudClusterSpec_ImageRepository spec))]) ["imageRepository"]
    (json_Add (JBool (OnecloudClusterSpec_DisableResourceManagement spec))
       ["disableResourceManagement"] params).

(** The options of a component: its type and its setting. *)
(*@ pkg/util/onecloud/kubeserver.go:182-187 Params *)
Definition componentParams (ctype : ClusterComponentType) (setting : json) : list (string * json) :=
  json_Add setting [ctype] [("type", JStr ctype)].

(*@ pkg/util/onecloud/kubeserver.go:197-206 doEnableClusterComponent *)
Definition doEnableClusterComponent (cType : ClusterComponentType) s (sId : string)
    (params : list (string * json)) : M W unit :=
  wrap ("Enable " +:+ cType +:+ " cluster component of system-cluster " +:+ sId)
    (mod_PerformAction s KubeClusters sId "enable-component" params) ;;! ret tt.

(*@ pkg/util/onecloud/kubeserver.go:208-217 doUpdateClusterComponent *)
Definition doUpdateClusterComponent (cType : ClusterComponentType) s (sId : string)
    (params : list (string * json)) : M W unit :=
  wrap ("Update " +:+ cType +:+ " cluster component of system-cluster " +:+ sId)
    (mod_PerformAction s KubeClusters sId "update-component" params) ;;! ret tt.

(** ** Minio *)

(*@ pkg/util/onecloud/kubeserver.go:219-241 getSyncMinioParams *)
Definition getSyncMinioParams (cType : ClusterComponentType) (input : EnableMinioParams) spec
  : list (string * json) :=
  injectComponentParamsBySpec
    (componentParams cType
       (Marshal_minio (MkMinioSetting input "/export" true (1024 * 1024) DefaultStorageClass))) spec.

(*@ pkg/util/onecloud/kubeserver.go:243-255 enableMinio *)
Definition enableMinio (ctype : ClusterComponentType) s (systemClusterId : string)
    (input : EnableMinioParams) spec : M W unit :=
  doEnableClusterComponent ctype s systemClusterId (getSyncMinioParams ctype input spec).

(*@ pkg/util/onecloud/kubeserver.go:257-269 updateMinio *)
Definition updateMinio (ctype : ClusterComponentType) s (systemClusterId : string)
    (input : EnableMinioParams) spec : M W unit :=
  doUpdateClusterComponent ctype s systemClusterId (getSyncMinioParams ctype input spec).

(*@ pkg/util/onecloud/kubeserver.go:271-292 enableMinioWithParams *)
Definition enableMinioWithParams (cType : ClusterComponentType) s (params : EnableMinioParams) spec
    (getStatus : ClusterComponentsStatus → Res (bool * string)) : M W unit :=
  syncClusterComponent cType s getStatus
    (λ _ id, disableClusterComponent cType s id)
    (λ id, enableMinio cType s id params spec) (λ id, updateMinio cType s id params spec).

(** A status that is missing is a nil pointer. *)
Definition statusOf (st : option ComponentStatus) : Res (bool * string) :=
  match st with
  | Some st => Ok (ComponentStatus_Enabled st, ComponentStatus_Status st)
  | None => Panic "nil pointer dereference"
  end.

(*@ pkg/util/onecloud/kubeserver.go:294-312 SyncMinio *)
Definition SyncMinio s (input : Minio) spec : M W unit :=
  let params mode replicas := MkEnableMinioParams mode replicas 1 "minioadmin" "yunionminio@admin" in
  enableMinioWithParams ClusterComponentTypeMinio s
    (if String.eqb (Minio_Mode input) MinioModeDistributed then params MinioModeDistributed 4%Z
     else params MinioModeStandalone 1%Z) spec
    (λ status, statusOf (status_Minio status)).

(*@ pkg/util/onecloud/kubeserver.go:314-323 SyncMonitorMinio *)
Definition SyncMonitorMinio s (input : EnableMinioParams) spec : M W unit :=
  enableMinioWithParams ClusterComponentTypeMonitorMinio s input spec
    (λ ccs, match status_MonitorMinio ccs with
            | None => Ok (false, "")
            | Some st => statusOf (Some st)
            end).

(** ** Thanos *)

Definition storeSetting (c : ObjectStoreConfig) : ObjectStoreSetting :=
  MkObjectStoreSetting (ObjectStoreConfig_Bucket c) (ObjectStoreConfig_Endpoint c)
    (ObjectStoreConfig_AccessKey c) (ObjectStoreConfig_SecretKey c)
    (negb (ObjectStoreConfig_Secure c)).

(*@ pkg/util/onecloud/kubeserver.go:325-343 getSyncThanosParams *)
Definition getSyncThanosParams spec (input : MonitorStackThanosSpec) : list (string * json) :=
  injectComponentParamsBySpec
    (componentParams ClusterComponentTypeThanos
       (Marshal_thanos (storeSetting (MonitorStackThanosSpec_ObjectStoreConfig input)))) spec.

(*@ pkg/util/onecloud/kubeserver.go:345-351 enableThanos *)
Definition enableThanos s (cId : string) spec (input : MonitorStackThanosSpec) : M W unit :=
  doEnableClusterComponent ClusterComponentTypeThanos s cId (getSyncThanosParams spec input).

(*@ pkg/util/onecloud/kubeserver.go:353-359 updateThanos *)
Definition updateThanos s (cId : string) spec (input : MonitorStackThanosSpec) : M W unit :=
  doUpdateClusterComponent ClusterComponentTypeThanos s cId (getSyncThanosParams spec input).

(*@ pkg/util/onecloud/kubeserver.go:361-377 SyncMonitorThanos *)
Definition SyncMonitorThanos s spec (input : MonitorStackThanosSpec) : M W unit :=
  let cType := ClusterComponentTypeThanos in
  syncClusterComponent cType s (λ ccs, statusOf (status_Thanos ccs))
    (λ _ id, disableClusterComponent cType s id)
    (λ id, enableThanos s id spec input) (λ id, updateThanos s id spec input).

(** ** The monitor stack *)

(** Prometheus is disabled unless it says otherwise. *)
(*@ pkg/util/onecloud/kubeserver.go:380-453 getSyncMonitorParams (opt) *)
Definition monitorSetting spec : MonitorSetting :=
  let input := OnecloudClusterSpec_MonitorStack spec in
  let grafana := MonitorStackSpec_Grafana input in
  let oauth := MonitorStackGrafanaSpec_OAuth grafana in
  let host := MonitorStackGrafanaSpec_Host grafana in
  let loki := MonitorStackSpec_Loki input in
  let prometheus := MonitorStackSpec_Prometheus input in
  MkMonitorSetting
    (MkGrafanaSetting (MonitorStackGrafanaSpec_Disable grafana)
       (MonitorStackGrafanaSpec_AdminUser grafana) (MonitorStackGrafanaSpec_AdminPassword grafana)
       (if str_empty host then OnecloudClusterSpec_LoadBalancerEndpoint spec else "") host
       (MonitorStackGrafanaSpec_DisableSubpath grafana) (MonitorStackGrafanaSpec_Subpath grafana)
       (MonitorStackGrafanaSpec_EnforceDomain grafana) true
       (if MonitorStackGrafanaSpecOAuth_Enabled oauth then Some oauth else None))
    (MonitorStackLokiSpec_Disable loki) (storeSetting (MonitorStackLokiSpec_ObjectStoreConfig loki))
    (MonitorStackLokiSpec_Disable loki)
    (default true (MonitorStackPrometheusSpec_Disable prometheus))
    (storeSetting (ThanosSidecarSpec_ObjectStoreConfig
                     (MonitorStackPrometheusSpec_ThanosSidecarSpec prometheus))).

(*@ pkg/util/onecloud/kubeserver.go:379-473 getSyncMonitorParams *)
Definition getSyncMonitorParams spec (config : OnecloudClusterConfig) : list (string * json) :=
  let grafanaDB := GrafanaConfig_DB (OnecloudClusterConfig_Grafana config) in
  let mysql := OnecloudClusterSpec_Mysql spec in
  json_Add (JObj [("host", JStr (Mysql_Host mysql)); ("port", JInt (Mysql_Port mysql));
                  ("database", JStr (DBConfig_Database grafanaDB));
                  ("username", JStr (DBConfig_Username grafanaDB));
                  ("password", JStr (DBConfig_Password grafanaDB))])
    ["monitor"; "grafana"; "db"]
    (injectComponentParamsBySpec
       (componentParams ClusterComponentTypeMonitor (Marshal_monitor (monitorSetting spec))) spec).

(*@ pkg/util/onecloud/kubeserver.go:475-481 enableMonitorStack *)
Definition enableMonitorStack s (cId : string) spec (config : OnecloudClusterConfig) : M W unit :=
  doEnableClusterComponent ClusterComponentTypeMonitor s cId (getSyncMonitorParams spec config).

(*@ pkg/util/onecloud/kubeserver.go:483-489 updateMonitorStack *)
Definition updateMonitorStack s (cId : string) spec (config : OnecloudClusterConfig) : M W unit :=
  doUpdateClusterComponent ClusterComponentTypeMonitor s cId (getSyncMonitorParams spec config).

(*@ pkg/util/onecloud/kubeserver.go:491-507 SyncMonitorStack *)
Definition SyncMonitorStack s spec (config : OnecloudClusterConfig) : M W unit :=
  let cType := ClusterComponentTypeMonitor in
  syncClusterComponent cType s (λ ccs, statusOf (status_Monitor ccs))
    (λ _ id, disableClusterComponent cType s id)
    (λ id, enableMonitorStack s id spec config) (λ id, updateMonitorStack s id spec config).

(** ** The mode of minio

    An unset mode becomes the distributed one with three ready master nodes or
    more, else the standalone one; asking for the distributed one with fewer
    is an error. *)
(*@ pkg/controller/onecloud_control.go:1610-1623 SystemInit (mode) *)
Definition minioMode (masters : nat) (mode : string) : Res string :=
  if (3 <=? masters)%nat then Ok (default_str MinioModeDistributed mode)
  else if String.eqb mode MinioModeDistributed then
    Err (ErrMsg ("Master ready node count " +:+ dec (Z.of_nat masters) +:+ ", but mode is " +:+ mode))
  else Ok (default_str MinioModeStandalone mode).

Context `{!NodeLister W} (SessionDebug : bool).

(*@ pkg/controller/onecloud_control.go:1632-1638 doEnableMinio *)
Definition doEnableMinio s (input : Minio) spec : M W unit := SyncMinio s input spec.

(** The mode that is chosen is kept in the cluster's spec. *)
(*@ pkg/controller/onecloud_control.go:1601-1630 SystemInit *)
Definition kubeServer_SystemInit : SM W unit :=
  let! oc := getoc in
  let minio := OnecloudClusterSpec_Minio (OnecloudCluster_Spec oc) in
  if negb (Minio_Enable minio) then ret tt
  else
    let! masterNodes := wrap "List k8s ready master node" (kube GetReadyMasterNodes) in
    let! mode := lift (minioMode (length masterNodes) (Minio_Mode minio)) in
    modoc (λ oc, oc <| OnecloudCluster_Spec ::= λ sp, sp <| OnecloudClusterSpec_Minio ::= λ m,
             m <| Minio_Mode := mode |> |> |>) ;;!
    RunWithSession SessionDebug (λ s,
      let! oc := getoc in
      let spec := OnecloudCluster_Spec oc in
      wrap "Enable minio" (kube (doEnableMinio s (OnecloudClusterSpec_Minio spec) spec))).
End components.
