(* ===== verification/Components.v ===== *)
(** * Components: the phase controls the managers ask for

    [ComponentManager] of [pkg/controller/onecloud_control.go] is a record of
    phase controls. The operator's own ([realComponent]) and the one of the
    docker-compose tool ([composeComponentManager]) make the same controls,
    but the tool has no controller and no chart server. *)

From S2P Require Import Prelude K8s Types Constants GoStrings Defaults.
From S2P Require Import LastApplied KubeApi Session CloudApi Sync.
From S2P Require Import Endpoints Policies Phases Alerts Builders KubeClusters.

Open Scope string_scope.
Open Scope list_scope.
Open Scope go_scope.

(*@ pkg/controller/onecloud_control.go:265-281 ComponentManager *)
Record ComponentManager (W : Type) := MkComponentManager {
  man_Keystone : PhaseControl W;
  man_KubeServer : bool → PhaseControl W;
  man_Region : PhaseControl W;
  man_Glance : PhaseControl W;
  man_YunionAgent : PhaseControl W;
  man_Devtool : PhaseControl W;
  man_Monitor : PhaseControl W;
  man_Cloudproxy : PhaseControl W;
  man_EChartsSSR : Res (PhaseControl W);
  man_Apigateway : PhaseControl W;
  man_LLM : PhaseControl W
}.
Arguments man_Keystone {W} _.
Arguments man_KubeServer {W} _ _.
Arguments man_Region {W} _.
Arguments man_Glance {W} _.
Arguments man_YunionAgent {W} _.
Arguments man_Devtool {W} _.
Arguments man_Monitor {W} _.
Arguments man_Cloudproxy {W} _.
Arguments man_EChartsSSR {W} _.
Arguments man_Apigateway {W} _.
Arguments man_LLM {W} _.

Section components.
Context {W : Type} `{!SessionEnv W, !JsonUtils, !CloudApi W, !QuotaApi W, !SecretApi W}.
Context `{!PolicyLocale, !Ansible, !AlertCodec, !ComponentCodec, !QuantityOps, !NodeLister W}.
Context (SessionDebug StopServices : bool).

(** The notice the agent used to publish is commented out. *)
(*@ pkg/controller/onecloud_control.go:1155-1172 addWelcomeNotice *)
Definition addWelcomeNotice : SM W unit := ret tt.

(*@ pkg/controller/onecloud_control.go:1148-1153 SystemInit *)
Definition yunionagent_SystemInit : SM W unit := let! _ := attempt addWelcomeNotice in ret tt.

(*@ pkg/controller/onecloud_control.go:533-535 Setup *)
Definition keystone_Setup : SM W unit := ret tt.

(*@ pkg/controller/onecloud_control.go:319-321 NewKeystonePhaseControl *)
Definition NewKeystonePhaseControl (hasController : bool) : PhaseControl W :=
  MkPhaseControl W keystone_Setup (keystone_SystemInit SessionDebug hasController).

(** The lister of the nodes may be nil. *)
(*@ pkg/controller/onecloud_control.go:327-332 NewKubeServerPhaseControl *)
Definition NewKubeServerPhaseControl (withLister : bool) : PhaseControl W :=
  MkPhaseControl W (kubeServer_Setup SessionDebug)
    (if withLister then kubeServer_SystemInit SessionDebug
     else kubeServer_SystemInit (NodeLister0 := λ _, panic "nil pointer dereference") SessionDebug).

(*@ pkg/controller/onecloud_control.go:338-340 NewRegionPhaseControl *)
Definition NewRegionPhaseControl : PhaseControl W :=
  MkPhaseControl W (region_Setup SessionDebug) (region_SystemInit SessionDebug).

(*@ pkg/controller/onecloud_control.go:346-348 NewGlancePhaseControl *)
Definition NewGlancePhaseControl : PhaseControl W := setupOnly (glance_Setup SessionDebug).

(*@ pkg/controller/onecloud_control.go:354-356 NewYunionAgentPhaseControl *)
Definition NewYunionAgentPhaseControl : PhaseControl W :=
  MkPhaseControl W (yunionagent_Setup SessionDebug) yunionagent_SystemInit.

(*@ pkg/controller/onecloud_control.go:362-364 NewDevtoolPhaseControl *)
Definition NewDevtoolPhaseControl : PhaseControl W :=
  MkPhaseControl W (devtool_Setup SessionDebug) (devtool_SystemInit SessionDebug).

(*@ pkg/controller/onecloud_control.go:370-372 NewMonitorPhaseControl *)
Definition NewMonitorPhaseControl : PhaseControl W :=
  MkPhaseControl W (monitor_Setup SessionDebug) (monitor_SystemInit SessionDebug).

(*@ pkg/controller/onecloud_control.go:378-380 NewCloudproxyPhaseControl *)
Definition NewCloudproxyPhaseControl : PhaseControl W :=
  MkPhaseControl W (cloudproxy_Setup SessionDebug) (cloudproxy_SystemInit SessionDebug StopServices).

(*@ pkg/controller/onecloud_control.go:390-392 NewApigatewayPhaseControl *)
Definition NewApigatewayPhaseControl : PhaseControl W := setupOnly (apigateway_Setup SessionDebug).

(*@ pkg/controller/onecloud_control.go:398-400 NewLLMPhaseControl *)
Definition NewLLMPhaseControl : PhaseControl W := setupOnly (llm_Setup SessionDebug).

(** What both managers hand out; they differ in the controller and the chart
    server. *)
(*@ pkg/service-init/component/component.go:63-120 composeComponentManager (methods) *)
Definition components (hasController : bool) (echarts : Res (PhaseControl W)) : ComponentManager W :=
  MkComponentManager W (NewKeystonePhaseControl hasController) NewKubeServerPhaseControl
    NewRegionPhaseControl NewGlancePhaseControl NewYunionAgentPhaseControl
    NewDevtoolPhaseControl NewMonitorPhaseControl NewCloudproxyPhaseControl
    echarts NewApigatewayPhaseControl NewLLMPhaseControl.

(*@ pkg/controller/onecloud_control.go:292-297 newComponents *)
Definition newComponents : ComponentManager W :=
  components true (Ok (setupOnly (echartsSSR_Setup SessionDebug))).

(*@ pkg/service-init/component/component.go:57-61 NewComposeComponentManager *)
Definition NewComposeComponentManager : ComponentManager W := components false (Panic "implement me").
End components.
