(* ===== verification/Options.v ===== *)
(** * Options: the configuration files of the services

    [pkg/util/option/optionutil.go]. The option structs of the services are
    types of a library, most of them package variables that are filled anew by
    every call: [OptionsLib] reads and stores such a variable and sets the
    defaults the tags of a struct declare. A struct is the map of the fields
    that are set, by their Go names (those of embedded structs are promoted);
    a field that is missing has its zero value. *)

From S2P Require Import Prelude K8s Types Constants GoStrings Defaults.
From S2P Require Import LastApplied KubeApi Session Databases Sync Endpoints.

Open Scope string_scope.
Open Scope list_scope.
Open Scope go_scope.

Definition Options : Type := gmap string json.

Class OptionsLib (W : Type) := {
  options_load : string → M W Options;
  options_store : string → Options → M W unit;
  parser_SetDefault : string → string → Options → Res Options;
  FindBaseOptions : string → Res unit;
  YAMLString : string → Options → string
}.
Arguments FindBaseOptions W {_} _.
Arguments parser_SetDefault W {_} _ _ _.
Arguments YAMLString W {_} _ _.

Definition field_str (k : string) (opt : Options) : string :=
  match opt !! k with Some (JStr s) => s | _ => "" end.

(** Assignments to fields, in order. *)
Definition Setter_ : Type := Options → Options.
Definition set_str (k v : string) : Setter_ := <[k := JStr v]>.
Definition set_int (k : string) (v : Z) : Setter_ := <[k := JInt v]>.
Definition set_float (k : string) (v : Z) : Setter_ := <[k := JFloat v]>.
Definition set_bool (k : string) (v : bool) : Setter_ := <[k := JBool v]>.
Definition set_strs (k : string) (v : list string) : Setter_ := <[k := JArr (map JStr v)]>.
Definition assign_all (fs : list Setter_) : M Options unit := modify (λ o, foldl (λ o f, f o) o fs).

(** ** The data base engine *)

(*@ pkg/apis/onecloud/v1alpha1/types.go:371-380 GetDbEngine *)
Definition GetDbEngine (s : OnecloudClusterSpec) (srvSpec : TDBEngineType) : TDBEngineType :=
  if negb (str_empty srvSpec) then srvSpec
  else if negb (str_empty (OnecloudClusterSpec_DbEngine s)) then OnecloudClusterSpec_DbEngine s
  else DBEngineMySQL.

(** ** Connections *)

(*@ pkg/util/option/optionutil.go:65-69 SetMysqlOptions *)
Definition SetMysqlOptions (mysql : Mysql) (input : DBConfig) : Setter_ :=
  set_str "SqlConnection"
    ("mysql+pymysql://" +:+ DBConfig_Username input +:+ ":" +:+ DBConfig_Password input +:+ "@"
     +:+ FormatHost (Mysql_Host mysql) +:+ ":" +:+ dec (Mysql_Port mysql) +:+ "/"
     +:+ DBConfig_Database input +:+ "?charset=utf8&parseTime=true&interpolateParams=true").

(*@ pkg/util/option/optionutil.go:71-75 SetDamengOptions *)
Definition SetDamengOptions (dameng : Dameng) (input : DBConfig) : Setter_ :=
  set_str "SqlConnection"
    ("dm://" +:+ DBConfig_Username input +:+ ":" +:+ DBConfig_Password input +:+ "@"
     +:+ FormatHost (Mysql_Host dameng) +:+ ":" +:+ dec (Mysql_Port dameng) +:+ "/"
     +:+ DBConfig_Database input).

(*@ pkg/util/option/optionutil.go:77-84 SetClickhouseOptions *)
Definition SetClickhouseOptions (clickhouse : Clickhouse) (input : DBConfig) : Setter_ := λ opt,
  if negb (str_empty (Mysql_Host clickhouse)) && negb (str_empty (DBConfig_Database input)) then
    set_bool "OpsLogWithClickhouse" true
      (set_str "Clickhouse"
        ("tcp://" +:+ FormatHost (Mysql_Host clickhouse) +:+ ":" +:+ dec (Mysql_Port clickhouse)
         +:+ "?database=" +:+ DBConfig_Database input +:+ "&read_timeout=10&write_timeout=20&username="
         +:+ DBConfig_Username input +:+ "&password=" +:+ DBConfig_Password input) opt)
  else opt.

(** The [switch] every service with a data base begins with. *)
(*@ pkg/service-init/component/logger.go:52-60 GetConfig (engine) *)
Definition SetDBOptions (oc : OnecloudCluster) (srvSpec : TDBEngineType) (db : DBConfig) : Setter_ :=
  let spec := OnecloudCluster_Spec oc in
  if String.eqb (GetDbEngine spec srvSpec) DBEngineDameng
  then SetDamengOptions (OnecloudClusterSpec_Dameng spec) db
  else SetMysqlOptions (OnecloudClusterSpec_Mysql spec) db.

(** ** Certificates, ports, accounts *)

(*@ pkg/util/option/optionutil.go:40-45 enableConfigTLS *)
Definition enableConfigTLS (disableTLS : bool) (certDir ca cert key : string) : Setter_ := λ opt,
  set_str "SslKeyfile" (path_Join [certDir; key])
    (set_str "SslCertfile" (path_Join [certDir; cert])
      (set_str "SslCaCerts" (path_Join [certDir; ca])
        (set_bool "EnableSsl" (negb disableTLS) opt))).

(*@ pkg/util/option/optionutil.go:36-38 SetOptionsServiceTLS *)
Definition SetOptionsServiceTLS (disableTLS : bool) : Setter_ :=
  enableConfigTLS disableTLS CertDir CACertName ServiceCertName ServiceKeyName.

(*@ pkg/util/option/optionutil.go:47-54 SetServiceBaseOptions *)
Definition SetServiceBaseOptions (region : string) (input : ServiceBaseConfig)
    (commonCfg : GlobalServiceCommonConfig) : Setter_ := λ opt,
  set_int "TaskWorkerCount" (GlobalServiceCommonConfig_TaskWorkerCount commonCfg)
    (set_int "RequestWorkerCount" (GlobalServiceCommonConfig_RequestWorkerCount commonCfg)
      (set_int "LocalTaskWorkerCount" (GlobalServiceCommonConfig_LocalTaskWorkerCount commonCfg)
        (set_int "CronJobWorkerCount" (GlobalServiceCommonConfig_CronJobWorkerCount commonCfg)
          (set_int "Port" (ServiceBaseConfig_Port input) (set_str "Region" region opt))))).

(*@ pkg/util/option/optionutil.go:56-63 SetServiceCommonOptions *)
Definition SetServiceCommonOptions (oc : OnecloudCluster) (input : ServiceCommonOptions)
    (commonCfg : GlobalServiceCommonConfig) : Setter_ := λ opt,
  let user := ServiceCommonOptions_CloudUser input in
  set_str "AdminProject" SysAdminProject
    (set_str "AdminPassword" (CloudUser_Password user)
      (set_str "AdminDomain" DefaultDomain
        (set_str "AdminUser" (CloudUser_Username user)
          (set_str "AuthURL" (GetAuthURL oc)
            (SetServiceBaseOptions (GetRegion oc)
               (ServiceCommonOptions_ServiceBaseConfig input) commonCfg opt))))).

(*@ pkg/util/option/optionutil.go:86-94 SetAiProxyAPILogS3Options *)
Definition SetAiProxyAPILogS3Options (oc : OnecloudCluster) : Setter_ := λ opt,
  let stack := OnecloudClusterSpec_MonitorStack (OnecloudCluster_Spec oc) in
  if MonitorStackSpec_Disable stack then opt
  else
    let minio := MonitorStackSpec_Minio stack in
    set_str "APILogS3SecretKey" (MonitorStackMinioSpec_SecretKey minio)
      (set_str "APILogS3AccessKey" (MonitorStackMinioSpec_AccessKey minio)
        (set_str "APILogS3Endpoint"
           ("http://" +:+ MonitorMinioName +:+ "." +:+ MonitorStackNamespace +:+ ".svc:9000") opt)).

(** ** Structs *)
Section options.
Context {W : Type} `{!OptionsLib W}.

(*@ pkg/util/option/optionutil.go:19-34 SetOptionsDefault *)
Definition SetOptionsDefault (type serviceType : string) : M Options unit :=
  let! opt := get in
  let! opt := lift (parser_SetDefault W type serviceType opt) in
  put opt ;;!
  lift (FindBaseOptions W type) ;;!
  modify (λ opt, if str_empty (field_str "ApplicationID" opt)
                 then set_str "ApplicationID" serviceType opt else opt).

(** [opt := &options.Options] and [opt := new(...)]: the calls fill the
    variable of the package, or a new struct. *)
Definition onGlobal (type : string) (c : M Options unit) : M W Options :=
  let! opt := options_load type in
  let '(opt, r) := c opt in
  options_store type opt ;;! lift r ;;! ret opt.

Definition onNew (c : M Options unit) : M W Options :=
  let '(opt, r) := c ∅ in lift r ;;! ret opt.
End options.
