(* ===== verification/SqlFacts.v ===== *)
(** * SqlFacts: connection strings are read back

    What [SetMysqlOptions] and [SetDamengOptions] of [pkg/util/option] put
    into the options of a service, [ParseSQLAchemyURL] of
    [pkg/service-init/component] takes from them again. *)

From Stdlib Require Import Ascii.
From S2P Require Import Prelude K8s Types Constants GoStrings GoNet Defaults.
From S2P Require Import Session CloudApi Databases Sync Options.

Open Scope string_scope.
Open Scope list_scope.
Open Scope go_scope.

(** ** Splitting at runs of separators *)
Section split.
Context (p : ascii → bool).

Definition piece (s : string) : Prop := s ≠ "" ∧ all_chars (λ a, negb (p a)) s = true.

Lemma split_piece s b : piece s → split_runs p b s = [s].
Proof.
  intros [Hne Hs]. revert b Hne Hs. induction s as [|a s IH]; [done|]. intros b _ Hs.
  simpl in Hs. apply andb_true_iff in Hs as [Ha Hs]. apply negb_true_iff in Ha. simpl. rewrite Ha.
  destruct s as [|a' s]; [done|]. by rewrite (IH false).
Qed.

(** A piece, then a separator. *)
Lemma split_piece_app s b c t :
  piece s → p c = true → split_runs p b (s +:+ String c t) = s :: split_runs p true t.
Proof.
  intros [Hne Hs] Hc. revert b Hne Hs. induction s as [|a s IH]; [done|]. intros b _ Hs.
  simpl in Hs. apply andb_true_iff in Hs as [Ha Hs]. apply negb_true_iff in Ha.
  rewrite app_cons. simpl. rewrite Ha.
  destruct s as [|a' s]; [simpl; by rewrite Hc|]. by rewrite (IH false).
Qed.

(** The rest of a run. *)
Lemma split_run c t : p c = true → split_runs p true (String c t) = split_runs p true t.
Proof. intros Hc. simpl. by rewrite Hc. Qed.
End split.

Abbreviation word := (piece is_url_sep).

(** ** Decimal numbers are words *)
Section digits.
Context (q : ascii → bool).
Hypothesis Hq : forallb q ["-"; "0"; "1"; "2"; "3"; "4"; "5"; "6"; "7"; "8"; "9"]%char = true.

Local Lemma digit_ok x : q (pretty_N_char x) = true.
Proof.
  rewrite forallb_forall in Hq. apply Hq. unfold pretty_N_char.
  repeat case_match; simpl; tauto.
Qed.

Local Lemma digits_ok n s :
  s ≠ "" ∧ all_chars q s = true → pretty_N_go n s ≠ "" ∧ all_chars q (pretty_N_go n s) = true.
Proof.
  revert s. induction (N.lt_wf_0 n) as [n _ IH]. intros s Hs.
  assert (n = 0 ∨ 0 < n)%N as [->|Hn] by lia; [by rewrite pretty_N_go_0|].
  rewrite pretty_N_go_step by done. apply IH; [by apply N.div_lt|]. split; [done|].
  simpl. rewrite digit_ok. by destruct Hs.
Qed.

Local Lemma pos_ok p : pretty (N.pos p) ≠ "" ∧ all_chars q (pretty (N.pos p)) = true.
Proof.
  unfold pretty, pretty_N. rewrite decide_False by done.
  rewrite pretty_N_go_step by done. apply digits_ok. split; [done|]. simpl. by rewrite digit_ok.
Qed.

Lemma dec_chars z : dec z ≠ "" ∧ all_chars q (dec z) = true.
Proof.
  destruct z as [|p|p]; unfold dec, pretty, pretty_Z.
  - split; [done|]. simpl in *. by destruct (q "-"%char), (q "0"%char).
  - apply (pos_ok p).
  - split; [done|]. change (q "-"%char && all_chars q (pretty (N.pos p)) = true).
    apply andb_true_iff. split; [|apply pos_ok]. simpl in Hq. by destruct (q "-"%char).
Qed.
End digits.

Lemma word_dec z : word (dec z).
Proof. by apply dec_chars. Qed.

(** ** Reading back *)
Local Lemma app_nil_str t : "" +:+ t = t.
Proof. reflexivity. Qed.

Lemma split_url scheme user passwd host port rest :
  word scheme → word user → word passwd → word host → word port → word rest →
  split_runs is_url_sep false
    (scheme +:+ "://" +:+ user +:+ ":" +:+ passwd +:+ "@" +:+ host +:+ ":" +:+ port +:+ "/" +:+ rest)
  = [scheme; user; passwd; host; port; rest].
Proof.
  intros. rewrite !app_cons, !app_nil_str.
  rewrite split_piece_app, !split_run, !split_piece_app by done.
  by rewrite split_piece.
Qed.

(** A data base name, then perhaps a query that can be parsed. *)
Definition plain (s : string) : Prop := word s ∧ all_chars (λ a, negb (Ascii.eqb a "?")) s = true.

Lemma cut_db db : plain db → cut_query db = (db, None).
Proof. intros [_ H]. pose proof (span_all _ db "" H I) as Hs. rewrite str_app_nil_r in Hs.
  unfold cut_query. by rewrite Hs. Qed.

Lemma cut_db_query db q : plain db → cut_query (db +:+ String "?" q) = (db, Some q).
Proof. intros [_ H]. unfold cut_query. by rewrite span_all. Qed.

Lemma word_app s t : word s → all_chars (λ a, negb (is_url_sep a)) t = true → word (s +:+ t).
Proof.
  intros [Hne Hs] Ht. split; [by destruct s|]. by rewrite all_chars_app, Hs.
Qed.

(** A host that is a word is not an IPv6 address, and is put in no brackets. *)
Lemma span_chars p q s : all_chars q s = true → all_chars q (span p s).2 = true.
Proof.
  induction s as [|a s IH]; [done|]. intros Hs. pose proof Hs as [_ Hs']%andb_true_iff.
  simpl. destruct (p a); [|done]. destruct (span p s) eqn:E. by apply IH.
Qed.

Lemma parseIPv4_is4 v4 : isIPv4 (replicate 10 0%Z ++ [255; 255]%Z ++ v4) = true.
Proof. apply bool_decide_eq_true. reflexivity. Qed.

Lemma FormatHost_word host : word host → FormatHost host = host.
Proof.
  intros [_ H]. unfold FormatHost, ParseIP.
  pose proof (span_chars (λ a, negb (Ascii.eqb a "." || Ascii.eqb a ":" || Ascii.eqb a "%")) _ _ H) as Hc.
  destruct (span _ host).2 as [|a s]; [done|]. apply andb_true_iff in Hc as [Ha _].
  destruct (Ascii.eqb_spec a "."%char) as [->|]; [|destruct (Ascii.eqb_spec a ":"%char) as [->|]; [done|]].
  - destruct (parseIPv4Fields host) as [v4|]; [|done]. unfold option_map.
    by rewrite parseIPv4_is4.
  - by destruct a as [[] [] [] [] [] [] [] []].
Qed.

(** The account of a data base that the text of a connection string can
    carry: no separator of [ParseSQLAchemyURL] is in its name or its password,
    and the name of the data base has no question mark either. *)
Record Carried (c : DBConfig) : Prop := MkCarried {
  carried_user : word (DBConfig_Username c);
  carried_password : word (DBConfig_Password c);
  carried_database : plain (DBConfig_Database c)
}.

(** The server the engine of a service picks. *)
Definition server (oc : OnecloudCluster) (srvSpec : TDBEngineType) : Mysql :=
  let spec := OnecloudCluster_Spec oc in
  if String.eqb (GetDbEngine spec srvSpec) DBEngineDameng
  then OnecloudClusterSpec_Dameng spec else OnecloudClusterSpec_Mysql spec.

Lemma field_set k v opt : field_str k (set_str k v opt) = v.
Proof. unfold field_str, set_str, Options in *. by rewrite lookup_insert_eq. Qed.

Definition good_query (q : option string) : Prop :=
  match q with Some q => str_empty q = false ∧ parsesQuery q = true | None => True end.

Lemma parse_url scheme c host port rest q :
  word scheme → word host → word port → word rest → Carried c →
  cut_query rest = (DBConfig_Database c, q) → good_query q →
  ParseSQLAchemyURL (scheme +:+ "://" +:+ DBConfig_Username c +:+ ":" +:+ DBConfig_Password c
                     +:+ "@" +:+ host +:+ ":" +:+ port +:+ "/" +:+ rest) = Ok c.
Proof.
  intros Hs Hh Hport Hr [Hu Hp [[Hne _] _]] Hcut Hq. unfold ParseSQLAchemyURL.
  destruct (str_empty _) eqn:E; [by destruct Hs as [], scheme|]. clear E.
  rewrite split_url, Hcut by done. destruct c as [[|a db] u p]; [done|]; simpl in *.
  destruct q as [q|]; [|done]. by destruct Hq as [-> ->].
Qed.

Lemma reads_mysql m c opt :
  word (Mysql_Host m) → Carried c →
  ParseSQLAchemyURL (field_str "SqlConnection" (SetMysqlOptions m c opt)) = Ok c.
Proof.
  intros Hh Hc. pose proof (carried_database c Hc) as Hd.
  unfold SetMysqlOptions. rewrite field_set, FormatHost_word by done.
  eapply (parse_url "mysql+pymysql"); try done; [apply word_dec| |by apply cut_db_query|done].
  by apply word_app; [apply Hd|].
Qed.

Lemma reads_dameng m c opt :
  word (Mysql_Host m) → Carried c →
  ParseSQLAchemyURL (field_str "SqlConnection" (SetDamengOptions m c opt)) = Ok c.
Proof.
  intros Hh Hc. pose proof (carried_database c Hc) as Hd.
  unfold SetDamengOptions. rewrite field_set, FormatHost_word by done.
  eapply (parse_url "dm"); try done; [apply word_dec|apply Hd|by apply cut_db|done].
Qed.

(** C36. The connection string a service's configuration holds names the data
    base, the user and the password of the service, whichever engine the
    service and the cluster choose, whatever the options held before:
    [ParseSQLAchemyURL] takes exactly the account [SetDBOptions] was given
    back out of it, whenever the host of the engine's server is a word (a name
    or an IPv4 address) and no separator is in the account. *)
Theorem connection_reads_back oc srvSpec c opt :
  word (Mysql_Host (server oc srvSpec)) → Carried c →
  ParseSQLAchemyURL (field_str "SqlConnection" (SetDBOptions oc srvSpec c opt)) = Ok c.
Proof.
  unfold server, SetDBOptions. destruct (String.eqb _ _); auto using reads_mysql, reads_dameng.
Qed.

Definition sample_account : DBConfig := MkDBConfig "yunioncloud" "region" "p4ss?w-rd%!".

Lemma connection_reads_back_witness :
  let oc := zero <| OnecloudCluster_Spec :=
              zero <| OnecloudClusterSpec_Mysql := MkMysql "10.127.10.5" 3306 "root" "x" |> |> in
  ParseSQLAchemyURL (field_str "SqlConnection" (SetDBOptions oc "" sample_account ∅)) = Ok sample_account.
Proof. apply connection_reads_back; by repeat split. Defined.

(** The brackets [FormatHost] puts around an IPv6 address keep its colons
    apart from those of the string for a driver, not for
    [ParseSQLAchemyURL]. *)
Lemma ipv6_not_read_back c opt :
  c = sample_account →
  let m := MkMysql "fd00::5" 3306 "root" "x" in
  ∃ e, ParseSQLAchemyURL (field_str "SqlConnection" (SetMysqlOptions m c opt)) = Err e.
Proof. intros -> m. unfold SetMysqlOptions. rewrite field_set. eexists. vm_compute. reflexivity. Qed.
