(* ===== verification/ServiceInit.v ===== *)
(** * ServiceInit: the services' configurations

    [pkg/service-init/component]: every service of the cloud is a record of
    operations (the interface [Component]) made from the one that does nothing
    ([newBaseService]). [GetConfig] fills the options of the service from the
    cluster and its configuration; the cluster is state, for the region's
    [GetConfig] writes to its spec. *)

From S2P Require Import Prelude K8s Types Constants GoStrings Defaults.
From S2P Require Import LastApplied KubeApi Session CloudApi Databases Sync.
From S2P Require Import Endpoints Components Options Texts.

Open Scope string_scope.
Open Scope list_scope.
Open Scope go_scope.

(** What [GetConfig] returns: nothing, the text of a file, or the options of
    a struct type. *)
Inductive ConfigValue :=
  | NoConfig
  | ConfigText (content : string)
  | ConfigOptions (type : string) (opt : Options).

(*@ pkg/service-init/component/component.go:15-33 Component *)
Record ServiceComponent (W : Type) := MkServiceComponent {
  svc_type : ComponentType;
  GetOptions : option string;
  GetConfigFilePath : string → string;
  BuildCluster : Options → OnecloudCluster → Res OnecloudCluster;
  BuildClusterConfigDB : DBConfig → OnecloudClusterConfig → OnecloudClusterConfig;
  BuildClusterConfigCloudUser : CloudUser → OnecloudClusterConfig → OnecloudClusterConfig;
  GetConfig : OnecloudClusterConfig → SM W ConfigValue;
  GetDefaultDBConfig : OnecloudClusterConfig → option DBConfig;
  GetDefaultClickhouseConfig : OnecloudClusterConfig → option DBConfig;
  GetDefaultCloudUser : OnecloudClusterConfig → option CloudUser;
  svc_PhaseControl : ComponentManager W → option (PhaseControl W);
  BeforeStart : string → SM W unit
}.
Arguments MkServiceComponent {W} _ _ _ _ _ _ _ _ _ _ _ _.
Arguments svc_type {W} _.
Arguments GetOptions {W} _.
Arguments GetConfigFilePath {W} _ _.
Arguments BuildCluster {W} _ _ _.
Arguments BuildClusterConfigDB {W} _ _ _.
Arguments BuildClusterConfigCloudUser {W} _ _ _.
Arguments GetConfig {W} _ _.
Arguments GetDefaultDBConfig {W} _ _.
Arguments GetDefaultClickhouseConfig {W} _ _.
Arguments GetDefaultCloudUser {W} _ _.
Arguments svc_PhaseControl {W} _ _.
Arguments BeforeStart {W} _ _.
#[global] Instance ServiceComponent_eta W : Eta (ServiceComponent W) := λ c,
  MkServiceComponent (svc_type c) (GetOptions c) (GetConfigFilePath c) (BuildCluster c)
    (BuildClusterConfigDB c) (BuildClusterConfigCloudUser c) (GetConfig c) (GetDefaultDBConfig c)
    (GetDefaultClickhouseConfig c) (GetDefaultCloudUser c) (svc_PhaseControl c) (BeforeStart c).

(*@ pkg/service-init/component/base_service.go:26-26 YUNION_ETC_CONFIG_DIR *)
Definition YUNION_ETC_CONFIG_DIR : string := "/etc/yunion".

(*@ pkg/service-init/component/base_service.go:15-79 newBaseService (methods of baseService) *)
Definition newBaseService {W} (cType : ComponentType) (options : option string) : ServiceComponent W :=
  MkServiceComponent cType options
    (λ targetDir, path_Join [targetDir; YUNION_ETC_CONFIG_DIR; cType +:+ ".conf"])
    (λ _ oc, Ok oc) (λ _ cfg, cfg) (λ _ cfg, cfg) (λ _, ret NoConfig) (λ _, None) (λ _, None)
    (λ _, None) (λ _, None) (λ _, ret tt).

(** ** Where a service keeps its configuration

    The methods on the data base, its user and the cloud user are the same for
    every service but for the field of the configuration they read and
    write. *)
Section places.
Context {W : Type}.
Implicit Types (c : ServiceComponent W).

Definition withDB (conf : OnecloudClusterConfig → ServiceDBCommonOptions) `{!Setter conf} c :=
  c <| GetDefaultDBConfig := λ cfg, Some (ServiceDBCommonOptions_DB (conf cfg)) |>
    <| BuildClusterConfigDB := λ db, set conf (λ o, o <| ServiceDBCommonOptions_DB := db |>) |>.

Definition withClickhouse (conf : OnecloudClusterConfig → ServiceDBCommonOptions) c :=
  c <| GetDefaultClickhouseConfig := λ cfg, Some (ServiceDBCommonOptions_ClickhouseConf (conf cfg)) |>.

Definition withCommonUser (conf : OnecloudClusterConfig → ServiceCommonOptions) `{!Setter conf} c :=
  c <| GetDefaultCloudUser := λ cfg, Some (ServiceCommonOptions_CloudUser (conf cfg)) |>
    <| BuildClusterConfigCloudUser := λ user,
         set conf (λ o, o <| ServiceCommonOptions_CloudUser := user |>) |>.

Definition common (o : ServiceDBCommonOptions) : ServiceCommonOptions :=
  ServiceDBCommonOptions_ServiceCommonOptions o.

Definition withUser (conf : OnecloudClusterConfig → ServiceDBCommonOptions) `{!Setter conf} c :=
  c <| GetDefaultCloudUser := λ cfg, Some (ServiceCommonOptions_CloudUser (common (conf cfg))) |>
    <| BuildClusterConfigCloudUser := λ user, set conf (λ o,
         o <| ServiceDBCommonOptions_ServiceCommonOptions ::= λ p,
                p <| ServiceCommonOptions_CloudUser := user |> |>) |>.
End places.

(** The fields of the embedded structs. *)
Definition region_conf (cfg : OnecloudClusterConfig) : ServiceDBCommonOptions :=
  RegionConfig_ServiceDBCommonOptions (OnecloudClusterConfig_RegionServer cfg).
#[global] Instance region_conf_setter : Setter region_conf := λ f cfg,
  cfg <| OnecloudClusterConfig_RegionServer ::= λ c, c <| RegionConfig_ServiceDBCommonOptions ::= f |> |>.
Definition glance_conf (cfg : OnecloudClusterConfig) : ServiceDBCommonOptions :=
  GlanceConfig_ServiceDBCommonOptions (OnecloudClusterConfig_Glance cfg).
#[global] Instance glance_conf_setter : Setter glance_conf := λ f cfg,
  cfg <| OnecloudClusterConfig_Glance ::= λ c, c <| GlanceConfig_ServiceDBCommonOptions ::= f |> |>.
Definition host_conf (cfg : OnecloudClusterConfig) : ServiceCommonOptions :=
  HostConfig_ServiceCommonOptions (OnecloudClusterConfig_HostAgent cfg).
#[global] Instance host_conf_setter : Setter host_conf := λ f cfg,
  cfg <| OnecloudClusterConfig_HostAgent ::= λ c, c <| HostConfig_ServiceCommonOptions ::= f |> |>.
Definition baremetal_conf (cfg : OnecloudClusterConfig) : ServiceCommonOptions :=
  BaremetalConfig_ServiceCommonOptions (OnecloudClusterConfig_BaremetalAgent cfg).
#[global] Instance baremetal_conf_setter : Setter baremetal_conf := λ f cfg,
  cfg <| OnecloudClusterConfig_BaremetalAgent ::= λ c, c <| BaremetalConfig_ServiceCommonOptions ::= f |> |>.
Definition esxi_conf (cfg : OnecloudClusterConfig) : ServiceCommonOptions :=
  EsxiAgentConfig_ServiceCommonOptions (OnecloudClusterConfig_EsxiAgent cfg).
#[global] Instance esxi_conf_setter : Setter esxi_conf := λ f cfg,
  cfg <| OnecloudClusterConfig_EsxiAgent ::= λ c, c <| EsxiAgentConfig_ServiceCommonOptions ::= f |> |>.

(** ** What most services set *)
Definition servicePort (c : ServiceCommonOptions) : Z :=
  ServiceBaseConfig_Port (ServiceCommonOptions_ServiceBaseConfig c).

Definition clickhouseOptions (oc : OnecloudCluster) (config : ServiceDBCommonOptions) : Setter_ :=
  SetClickhouseOptions (OnecloudClusterSpec_Clickhouse (OnecloudCluster_Spec oc))
    (ServiceDBCommonOptions_ClickhouseConf config).

Definition commonOptions (oc : OnecloudCluster) (cfg : OnecloudClusterConfig)
    (config : ServiceCommonOptions) : Setter_ :=
  SetServiceCommonOptions oc config (OnecloudClusterConfig_CommonConfig cfg).

(** A phase made from what the cluster's spec says when it begins: it is made
    right before its [Setup]. *)
Definition atCluster {W} (f : OnecloudClusterSpec → PhaseControl W) : PhaseControl W :=
  MkPhaseControl W (let! oc := getoc in phase_Setup (f (OnecloudCluster_Spec oc)))
    (let! oc := getoc in phase_SystemInit (f (OnecloudCluster_Spec oc))).

(** The engine of a service kept as a [DeploymentServicePortSpec]. *)
Definition engineOf (f : OnecloudClusterSpec → DeploymentServicePortSpec) (oc : OnecloudCluster)
  : TDBEngineType := DeploymentServicePortSpec_DbEngine (f (OnecloudCluster_Spec oc)).
Definition dbOptions (f : OnecloudClusterSpec → DeploymentServicePortSpec) (oc : OnecloudCluster)
    (config : ServiceDBCommonOptions) : Setter_ :=
  SetDBOptions oc (engineOf f oc) (ServiceDBCommonOptions_DB config).
Definition portOf (f : OnecloudClusterSpec → DeploymentServicePortSpec) (spec : OnecloudClusterSpec) : Z :=
  nodePort (DeploymentServicePortSpec_Service (f spec)).

(** The certificate and the key, as the services without
    [SetOptionsServiceTLS] of their own set them once more. *)
Definition sslFiles : list Setter_ :=
  [set_str "SslCertfile" (path_Join [CertDir; ServiceCertName]);
   set_str "SslKeyfile" (path_Join [CertDir; ServiceKeyName])].

Definition isProduct (oc : OnecloudCluster) (v : ProductVersion) : bool :=
  String.eqb (OnecloudClusterSpec_ProductVersion (OnecloudCluster_Spec oc)) v.
