(* ===== verification/Templates.v ===== *)
(** * Templates: [text/template] as far as the services' files need it

    Fields, conditionals, loops over the elements of a list, and the markers
    that trim white space around an action. A template is split into tokens,
    parsed with a stack of open blocks and executed on a struct, the list of
    its fields. *)

From Stdlib Require Import Ascii.
From S2P Require Import Prelude GoStrings.

Open Scope string_scope.
Open Scope list_scope.
Open Scope go_scope.

(** ** Values *)
Inductive tval :=
  | TStr (s : string)
  | TInt (z : Z)
  | TBool (b : bool)
  | TList (rows : list (list (string * tval))).
Definition struct : Type := list (string * tval).

Fixpoint field (k : string) (d : struct) : option tval :=
  match d with
  | [] => None
  | (k', v) :: d' => if String.eqb k k' then Some v else field k d'
  end.

(** [fmt.Fprint] of a value; a list is not printed by any template. *)
Definition printed (v : tval) : Res string :=
  match v with
  | TStr s => Ok s
  | TInt z => Ok (dec z)
  | TBool b => Ok (if b then "true" else "false")
  | TList _ => Err (ErrMsg "can't print")
  end.

(** A condition holds of what is not the zero value. *)
Definition truth (v : tval) : bool :=
  match v with
  | TStr s => negb (str_empty s)
  | TInt z => negb (z =? 0)%Z
  | TBool b => b
  | TList l => match l with [] => false | _ => true end
  end.

(** ** Tokens *)
Inductive token :=
  | TText (s : string)
  | TAction (body : string).

Definition opens (a b : ascii) : bool := Ascii.eqb a "{" && Ascii.eqb b "{".
Definition closes (a b : ascii) : bool := Ascii.eqb a "}" && Ascii.eqb b "}".

(** The text up to the next delimiter, and the tokens after it. *)
Fixpoint lex (inside : bool) (s : string) : Res (string * list token) :=
  match s with
  | EmptyString => if inside then Err (ErrMsg "unclosed action") else Ok ("", [])
  | String a s1 =>
      let go := res_bind (lex inside s1) (λ '(x, rest), Ok (String a x, rest)) in
      match s1 with
      | String b s2 =>
          if negb inside && opens a b then
            res_bind (lex true s2) (λ '(x, rest), Ok ("", TAction x :: rest))
          else if inside && closes a b then
            res_bind (lex false s2) (λ '(x, rest), Ok ("", TText x :: rest))
          else go
      | EmptyString => go
      end
  end.

Definition tokens (s : string) : Res (list token) :=
  res_bind (lex false s) (λ '(x, rest), Ok (TText x :: rest)).

(** ** Trim markers

    An action that begins with [- ] takes the white space before it away, one
    that ends with [ -] the white space after it. *)
Definition trims_left (body : string) : bool := has_prefix "- " body.
Fixpoint trims_right (body : string) : bool :=
  match body with
  | EmptyString => false
  | String _ s => String.eqb body " -" || trims_right s
  end.

Definition is_blank (a : ascii) : bool :=
  existsb (λ n, Ascii.eqb a (ascii_of_nat n)) [32; 9; 13; 10].
Definition trim_left (s : string) : string := snd (span is_blank s).
Fixpoint trim_right (s : string) : string :=
  match s with
  | EmptyString => EmptyString
  | String a s' => let r := trim_right s' in if str_empty r && is_blank a then "" else String a r
  end.

Fixpoint trim_tokens (after : bool) (l : list token) : list token :=
  match l with
  | [] => []
  | TText s :: l' =>
      let s := if after then trim_left s else s in
      let s := match l' with
               | TAction body :: _ => if trims_left body then trim_right s else s
               | _ => s
               end in
      TText s :: trim_tokens false l'
  | TAction body :: l' => TAction body :: trim_tokens (trims_right body) l'
  end.

(** ** Actions *)
Inductive action := AField (k : string) | AIf (k : string) | ARange (k : string) | AElse | AEnd.

Definition field_name (w : string) : option string :=
  match w with
  | String a k => if Ascii.eqb a "." then Some k else None
  | EmptyString => None
  end.

Definition words (body : string) : list string :=
  List.filter (λ w, negb (str_empty w || String.eqb w "-")) (split_on " " body).

Definition parse_action (body : string) : Res action :=
  let bad := Err (ErrMsg ("unexpected action " +:+ body)) in
  match words body with
  | [w] =>
      if String.eqb w "else" then Ok AElse
      else if String.eqb w "end" then Ok AEnd
      else match field_name w with Some k => Ok (AField k) | None => bad end
  | [c; w] =>
      match field_name w with
      | Some k => if String.eqb c "if" then Ok (AIf k)
                  else if String.eqb c "range" then Ok (ARange k) else bad
      | None => bad
      end
  | _ => bad
  end.

(** ** Parsing

    [cur] holds the nodes of the block that is open, the last one first; an
    open block keeps what came before it. *)
Inductive node :=
  | NText (s : string)
  | NField (k : string)
  | NIf (k : string) (yes no : list node)
  | NRange (k : string) (body : list node).

Inductive frame :=
  | FIf (k : string) (before : list node)
  | FElse (k : string) (yes before : list node)
  | FRange (k : string) (before : list node).

Fixpoint parse (cur : list node) (stack : list frame) (l : list token) : Res (list node) :=
  match l with
  | [] => match stack with [] => Ok (rev cur) | _ => Err (ErrMsg "unexpected EOF") end
  | TText s :: l' => parse (NText s :: cur) stack l'
  | TAction body :: l' =>
      match parse_action body with
      | Ok (AField k) => parse (NField k :: cur) stack l'
      | Ok (AIf k) => parse [] (FIf k cur :: stack) l'
      | Ok (ARange k) => parse [] (FRange k cur :: stack) l'
      | Ok AElse =>
          match stack with
          | FIf k before :: stack => parse [] (FElse k (rev cur) before :: stack) l'
          | _ => Err (ErrMsg "unexpected {{else}}")
          end
      | Ok AEnd =>
          match stack with
          | FIf k before :: stack => parse (NIf k (rev cur) [] :: before) stack l'
          | FElse k yes before :: stack => parse (NIf k yes (rev cur) :: before) stack l'
          | FRange k before :: stack => parse (NRange k (rev cur) :: before) stack l'
          | [] => Err (ErrMsg "unexpected {{end}}")
          end
      | Err e => Err e
      | Panic p => Panic p
      end
  end.

Definition Parse (s : string) : Res (list node) :=
  res_bind (tokens s) (λ l, parse [] [] (trim_tokens false l)).

(** ** Execution *)
Definition lookup_field (k : string) (d : struct) : Res tval :=
  match field k d with
  | Some v => Ok v
  | None => Err (ErrMsg ("can't evaluate field " +:+ k))
  end.

Fixpoint concat_res {A} (f : A → Res string) (l : list A) : Res string :=
  match l with
  | [] => Ok ""
  | x :: l' => res_bind (f x) (λ s, res_map (λ r, s +:+ r) (concat_res f l'))
  end.

Fixpoint exec (d : struct) (n : node) : Res string :=
  match n with
  | NText s => Ok s
  | NField k => res_bind (lookup_field k d) printed
  | NIf k yes no =>
      res_bind (lookup_field k d) (λ v,
        if truth v then concat_res (exec d) yes else concat_res (exec d) no)
  | NRange k body =>
      res_bind (lookup_field k d) (λ v,
        match v with
        | TList rows => concat_res (λ row, concat_res (exec row) body) rows
        | _ => Err (ErrMsg "range can't iterate over")
        end)
  end.

(** [template.Must] panics when the text is no template. *)
(*@ pkg/service-init/component/utils.go:8-15 CompileTemplateFromMap *)
Definition CompileTemplateFromMap (tmplt : string) (configMap : struct) : Res string :=
  match Parse tmplt with
  | Ok nodes => concat_res (exec configMap) nodes
  | Err e => Panic (Error e)
  | Panic p => Panic p
  end.

Example CompileTemplateFromMap_ex :
  CompileTemplateFromMap "a {{- if .B }} {{.C}}{{ else }}no{{ end -}}  z{{- range .L }} x{{.C}}{{ end }}"
    [("B", TBool true); ("C", TInt 7); ("L", TList [[("C", TStr "1")]; [("C", TStr "2")]])]
  = Ok "a 7z x1 x2".
Proof. vm_compute. reflexivity. Qed.
