(* ===== verification/Services.v ===== *)
(** * Services: the configuration of every service

    One definition per [GetConfig] of [pkg/service-init/component], and one
    per service for the rest of its methods. *)

From S2P Require Import Prelude K8s Types Constants GoStrings Defaults.
From S2P Require Import ControllerUtils LastApplied KubeApi Session CloudApi Databases Sync.
From S2P Require Import Endpoints Components Options ServiceInit Texts Templates.

Open Scope string_scope.
Open Scope list_scope.
Open Scope go_scope.

(*@ pkg/apis/constants/constants.go:478-478 GlanceFileStoreDir *)
Definition GlanceFileStoreDir : string := path_Join [GlanceDataStore; "images"].

(** ** Files made from templates *)

(*@ pkg/service-init/component/web.go:291-300 WebNginxConfig *)
Record WebNginxConfig := MkWebNginxConfig {
  web_EditionConfig : string;
  web_WebconsoleURL : string;
  web_APIGatewayWsURL : string;
  web_APIGatewayURL : string;
  web_GlanceURL : string;
  web_AiProxyURL : string;
  web_UseHTTP : bool;
  web_EnableIPv6 : bool
}.

Definition web_struct (c : WebNginxConfig) : struct :=
  [("EditionConfig", TStr (web_EditionConfig c)); ("WebconsoleURL", TStr (web_WebconsoleURL c));
   ("APIGatewayWsURL", TStr (web_APIGatewayWsURL c)); ("APIGatewayURL", TStr (web_APIGatewayURL c));
   ("GlanceURL", TStr (web_GlanceURL c)); ("AiProxyURL", TStr (web_AiProxyURL c));
   ("UseHTTP", TBool (web_UseHTTP c)); ("EnableIPv6", TBool (web_EnableIPv6 c))].

(*@ pkg/service-init/component/web.go:302-304 GetContent *)
Definition WebNginxConfig_GetContent (c : WebNginxConfig) : Res string :=
  CompileTemplateFromMap WebNginxConfigTemplate (web_struct c).

(*@ pkg/service-init/component/influxdb.go:60-64 InfluxdbConfig *)
Record InfluxdbConfig := MkInfluxdbConfig {
  influxdb_Port : Z;
  influxdb_CertPath : string;
  influxdb_KeyPath : string
}.

(*@ pkg/service-init/component/influxdb.go:66-68 GetContent *)
Definition InfluxdbConfig_GetContent (c : InfluxdbConfig) : Res string :=
  CompileTemplateFromMap InfluxDBConfigTemplate
    [("Port", TInt (influxdb_Port c)); ("CertPath", TStr (influxdb_CertPath c));
     ("KeyPath", TStr (influxdb_KeyPath c))].

(** [GetConfig] returns the text and the error of [GetContent]. *)
Definition textConfig {W} (content : Res string) : SM W ConfigValue :=
  let! s := lift content in ret (ConfigText s).

Section services.
Context {W : Type} `{!SessionEnv W, !JsonUtils, !CloudApi W, !OptionsLib W, !ResourceApi W Deployment}.
Context (SessionDebug : bool).

(** The options live in the variable of the package [type], or in a new
    struct. *)
Definition globalConfig (type : string) (c : OnecloudCluster → M Options unit) : SM W ConfigValue :=
  let! oc := getoc in
  let! opt := kube (onGlobal type (c oc)) in
  ret (ConfigOptions type opt).
Definition newConfig (type : string) (c : OnecloudCluster → M Options unit) : SM W ConfigValue :=
  let! oc := getoc in
  let! opt := kube (onNew (c oc)) in
  ret (ConfigOptions type opt).

Let register := NewRegisterEndpointComponent SessionDebug.

(** ** Identity *)

(*@ pkg/service-init/component/keystone.go:50-76 GetConfig *)
Definition keystone_GetConfig (cfg : OnecloudClusterConfig) : SM W ConfigValue :=
  let type := "keystone/options.Options" in
  globalConfig type (λ oc,
    SetOptionsDefault type ServiceTypeIdentity ;;!
    let config := OnecloudClusterConfig_Keystone cfg in
    let spec := OnecloudCluster_Spec oc in
    let keystone := OnecloudClusterSpec_Keystone spec in
    assign_all [
      SetDBOptions oc (KeystoneSpec_DbEngine keystone) (KeystoneConfig_DB config);
      SetClickhouseOptions (OnecloudClusterSpec_Clickhouse spec) (KeystoneConfig_ClickhouseConf config);
      SetOptionsServiceTLS (DeploymentServiceSpec_DisableTLS (KeystoneSpec_DeploymentServiceSpec keystone));
      SetServiceBaseOptions (GetRegion oc) (KeystoneConfig_ServiceBaseConfig config)
        (OnecloudClusterConfig_CommonConfig cfg);
      set_str "BootstrapAdminUserPassword" (KeystoneSpec_BootstrapPassword keystone);
      set_bool "ResetAdminUserPassword" true;
      set_int "AdminPort" KeystoneAdminPort]).

(*@ pkg/service-init/component/keystone.go:108-142 GetRCAdminEnv *)
Definition GetRCAdminEnv (oc : OnecloudCluster) (withPasswd : bool) : list EnvVar :=
  map (λ '(k, v), (zero : EnvVar) <| EnvVar_Name := k |> <| EnvVar_Value := v |>)
    ([("OS_USERNAME", SysAdminUsername); ("OS_REGION_NAME", GetRegion oc);
      ("OS_AUTH_URL", GetAuthURL oc); ("OS_PROJECT_NAME", SysAdminProject);
      ("YUNION_INSECURE", "true"); ("EDITOR", "vim")]
     ++ if withPasswd
        then [("OS_PASSWORD", KeystoneSpec_BootstrapPassword
                 (OnecloudClusterSpec_Keystone (OnecloudCluster_Spec oc)))]
        else []).

(*@ pkg/service-init/component/keystone.go:99-106 GetRCAdminContent *)
Definition GetRCAdminContent (oc : OnecloudCluster) (withPasswd : bool) : string :=
  foldl (λ content env, content +:+ "export " +:+ EnvVar_Name env +:+ "=" +:+ EnvVar_Value env +:+ newline)
    "" (GetRCAdminEnv oc withPasswd).

(** A bootstrap password that is set is kept. *)
(*@ pkg/service-init/component/keystone.go:35-43 BuildCluster *)
Definition keystone_BuildCluster (cfg : Options) (oc : OnecloudCluster) : Res OnecloudCluster :=
  let bPwd := field_str "BootstrapAdminUserPassword" cfg in
  if str_empty bPwd then Err (ErrMsg "bootstrap_admin_user_password is empty")
  else Ok (oc <| OnecloudCluster_Spec ::= λ s, s <| OnecloudClusterSpec_Keystone ::= λ k,
             k <| KeystoneSpec_BootstrapPassword := bPwd |> |> |>).

(** ** Compute *)

(** The server of the domain names is kept in the cluster's spec. *)
(*@ pkg/service-init/component/region.go:51-87 GetConfig *)
Definition region_GetConfig (cfg : OnecloudClusterConfig) : SM W ConfigValue :=
  let type := "compute/options.Options" in
  let config := region_conf cfg in
  let! c := globalConfig type (λ oc,
    SetOptionsDefault type ServiceTypeComputeV2 ;;!
    let spec := OnecloudCluster_Spec oc in
    let server := OnecloudClusterSpec_RegionServer spec in
    assign_all [
      dbOptions (λ s, RegionSpec_DeploymentServicePortSpec (OnecloudClusterSpec_RegionServer s)) oc config;
      clickhouseOptions oc config; SetOptionsServiceTLS false; commonOptions oc cfg (common config);
      set_bool "AutoSyncTable" true;
      set_str "DNSDomain" (RegionSpec_DNSDomain server);
      set_str "DNSServer"
        (default_str (OnecloudClusterSpec_LoadBalancerEndpoint spec) (RegionSpec_DNSServer server));
      set_int "PortV2" (servicePort (common config))]) in
  modoc (λ oc, oc <| OnecloudCluster_Spec ::= λ s, s <| OnecloudClusterSpec_RegionServer ::= λ r,
           r <| RegionSpec_DNSServer ::= default_str (OnecloudClusterSpec_LoadBalancerEndpoint s) |> |> |>) ;;!
  ret c.

(** The scheduler and the scheduled tasks use the region's data base. *)
(*@ pkg/service-init/component/scheduler.go:25-47 GetConfig *)
Definition scheduler_GetConfig (cfg : OnecloudClusterConfig) : SM W ConfigValue :=
  let type := "scheduler/options.Options" in
  let config := region_conf cfg in
  globalConfig type (λ oc,
    wrap "scheduler: SetOptionsDefault" (SetOptionsDefault type ServiceTypeScheduler) ;;!
    assign_all [
      dbOptions OnecloudClusterSpec_Scheduler oc config; SetOptionsServiceTLS false;
      commonOptions oc cfg (common config); set_int "SchedulerPort" SchedulerPort]).

(*@ pkg/service-init/component/scheduledtask.go:27-53 GetConfig *)
Definition scheduledtask_GetConfig (cfg : OnecloudClusterConfig) : SM W ConfigValue :=
  let type := "scheduledtask/options.Options" in
  let config := region_conf cfg in
  globalConfig type (λ oc,
    SetOptionsDefault type ServiceTypeScheduledtask ;;!
    assign_all ([
      dbOptions OnecloudClusterSpec_Scheduledtask oc config; clickhouseOptions oc config;
      SetOptionsServiceTLS false; commonOptions oc cfg (common config);
      set_bool "AutoSyncTable" true] ++ sslFiles ++ [set_int "Port" ScheduledtaskPort])).

(*@ pkg/service-init/component/glance.go:48-84 GetConfig *)
Definition glance_GetConfig (cfg : OnecloudClusterConfig) : SM W ConfigValue :=
  let type := "image/options.Options" in
  let config := glance_conf cfg in
  globalConfig type (λ oc,
    SetOptionsDefault type ServiceTypeGlance ;;!
    assign_all ([
      SetDBOptions oc (GlanceSpec_DbEngine (OnecloudClusterSpec_Glance (OnecloudCluster_Spec oc)))
        (ServiceDBCommonOptions_DB config);
      clickhouseOptions oc config; SetOptionsServiceTLS false; commonOptions oc cfg (common config);
      set_str "FilesystemStoreDatadir" GlanceFileStoreDir; set_bool "EnableTorrentService" false;
      set_bool "AutoSyncTable" true; set_int "Port" (servicePort (common config))]
      ++ if isProduct oc ProductVersionCMP
         then [set_bool "EnableRemoteExecutor" false; set_strs "TargetImageFormats" ["qcow2"; "vmdk"]]
         else [set_bool "EnableRemoteExecutor" (negb (isProduct oc ProductVersionBaremetal))])).

(** ** Services with a data base *)

(** Defaults, data base, Clickhouse unless the service has none, certificates
    and account, then what is particular to the service. *)
Definition dbService (type serviceType : string) (clickhouse : bool)
    (conf : OnecloudClusterConfig → ServiceDBCommonOptions)
    (place : OnecloudClusterSpec → DeploymentServicePortSpec) (rest : list Setter_)
    (oc : OnecloudCluster) (cfg : OnecloudClusterConfig) : M Options unit :=
  let config := conf cfg in
  SetOptionsDefault type serviceType ;;!
  assign_all ([dbOptions place oc config]
    ++ (if clickhouse then [clickhouseOptions oc config] else [])
    ++ [SetOptionsServiceTLS false; commonOptions oc cfg (common config)] ++ rest).

Definition port_of (config : ServiceDBCommonOptions) : Setter_ :=
  set_int "Port" (servicePort (common config)).

(*@ pkg/service-init/component/logger.go:47-68 GetConfig *)
Definition logger_GetConfig (cfg : OnecloudClusterConfig) : SM W ConfigValue :=
  let type := "logger/options.Options" in
  let conf := OnecloudClusterConfig_Logger in
  globalConfig type (λ oc, dbService type ServiceTypeLogger true conf OnecloudClusterSpec_Logger
    [port_of (conf cfg)] oc cfg).

(*@ pkg/service-init/component/cloudid.go:38-62 GetConfig *)
Definition cloudid_GetConfig (cfg : OnecloudClusterConfig) : SM W ConfigValue :=
  let type := "cloudid/options.Options" in
  let conf := OnecloudClusterConfig_CloudId in
  globalConfig type (λ oc, dbService type ServiceTypeCloudId false conf OnecloudClusterSpec_CloudId
    ([set_bool "AutoSyncTable" true] ++ sslFiles ++ [port_of (conf cfg)]) oc cfg).

(*@ pkg/service-init/component/monitor.go:50-75 GetConfig *)
Definition monitor_GetConfig (cfg : OnecloudClusterConfig) : SM W ConfigValue :=
  let type := "monitor/options.Options" in
  let conf := OnecloudClusterConfig_Monitor in
  globalConfig type (λ oc, dbService type ServiceTypeMonitor true conf OnecloudClusterSpec_Monitor
    ([set_bool "AutoSyncTable" true] ++ sslFiles ++ [port_of (conf cfg)]) oc cfg).

(*@ pkg/service-init/component/ansibleserver.go:38-61 GetConfig *)
Definition ansibleserver_GetConfig (cfg : OnecloudClusterConfig) : SM W ConfigValue :=
  let type := "ansibleserver/options.Options" in
  globalConfig type (λ oc, dbService type ServiceTypeAnsibleServer false
    OnecloudClusterConfig_AnsibleServer OnecloudClusterSpec_AnsibleServer
    ([set_bool "AutoSyncTable" true] ++ sslFiles) oc cfg).

(*@ pkg/service-init/component/kubeserver.go:59-84 GetConfig *)
Definition kubeserver_GetConfig (cfg : OnecloudClusterConfig) : SM W ConfigValue :=
  let type := "KubeOptions" in
  let conf := OnecloudClusterConfig_KubeServer in
  newConfig type (λ oc, dbService type ServiceTypeKubeServer true conf OnecloudClusterSpec_KubeServer
    [set_bool "AutoSyncTable" true;
     set_str "TlsCertFile" (path_Join [CertDir; ServiceCertName]);
     set_str "TlsPrivateKeyFile" (path_Join [CertDir; ServiceKeyName]);
     set_int "HttpsPort" (servicePort (common (conf cfg)))] oc cfg).

(*@ pkg/service-init/component/webconsole.go:38-67 GetConfig *)
Definition webconsole_GetConfig (cfg : OnecloudClusterConfig) : SM W ConfigValue :=
  let type := "webconsole/options.Options" in
  globalConfig type (λ oc, dbService type ServiceTypeWebconsole true OnecloudClusterConfig_Webconsole
    (λ s, WebconsoleSpec_DeploymentServicePortSpec (OnecloudClusterSpec_Webconsole s))
    [set_bool "AutoSyncTable" true; set_str "IpmitoolPath" "/usr/sbin/ipmitool";
     set_bool "EnableAutoLogin" true; set_int "Port" WebconsolePort;
     set_str "ApiServer"
       ("https://" +:+ FormatHost (OnecloudClusterSpec_LoadBalancerEndpoint (OnecloudCluster_Spec oc)))]
    oc cfg).

(*@ pkg/service-init/component/yunoinconf.go:64-86 GetConfig *)
Definition yunionconf_GetConfig (cfg : OnecloudClusterConfig) : SM W ConfigValue :=
  let type := "yunionconf/options.Options" in
  let conf := OnecloudClusterConfig_Yunionconf in
  globalConfig type (λ oc, dbService type ServiceTypeYunionConf false conf OnecloudClusterSpec_Yunionconf
    [set_bool "AutoSyncTable" true; port_of (conf cfg)] oc cfg).

(*@ pkg/service-init/component/aiproxy.go:45-68 GetConfig *)
Definition aiproxy_GetConfig (cfg : OnecloudClusterConfig) : SM W ConfigValue :=
  let type := "aiproxy/options.SAiProxyOptions" in
  let config := OnecloudClusterConfig_AiProxy cfg in
  newConfig type (λ oc,
    wrap "set aiproxy option" (SetOptionsDefault type ServiceTypeAiProxy) ;;!
    assign_all [
      dbOptions OnecloudClusterSpec_AiProxy oc config; SetOptionsServiceTLS false;
      commonOptions oc cfg (common config); port_of config; set_bool "AutoSyncTable" true;
      SetAiProxyAPILogS3Options oc]).

(*@ pkg/service-init/component/notify.go:48-70 GetConfig *)
Definition notify_GetConfig (cfg : OnecloudClusterConfig) : SM W ConfigValue :=
  let type := "notify/options.Options" in
  let config := OnecloudClusterConfig_Notify cfg in
  globalConfig type (λ oc,
    wrap "set notify option" (SetOptionsDefault type ServiceTypeNotify) ;;!
    assign_all [
      SetDBOptions oc (NotifySpec_DbEngine (OnecloudClusterSpec_Notify (OnecloudCluster_Spec oc)))
        (ServiceDBCommonOptions_DB config);
      clickhouseOptions oc config; SetOptionsServiceTLS false; commonOptions oc cfg (common config);
      port_of config]).

(** ** Services without a data base *)

(*@ pkg/service-init/component/apigateway.go:36-48 GetConfig *)
Definition apigateway_GetConfig (cfg : OnecloudClusterConfig) : SM W ConfigValue :=
  let type := "ApiOptions" in
  let config := OnecloudClusterConfig_APIGateway cfg in
  newConfig type (λ oc,
    SetOptionsDefault type "apigateway" ;;!
    assign_all [
      SetOptionsServiceTLS false; commonOptions oc cfg config; set_int "Port" (servicePort config);
      set_int "WsPort" APIWebsocketPort;
      set_strs "CorsHosts"
        (APIGatewaySpec_CorsHosts (OnecloudClusterSpec_APIGateway (OnecloudCluster_Spec oc)))]).

(*@ pkg/service-init/component/baremetal.go:34-53 GetConfig *)
Definition baremetal_GetConfig (cfg : OnecloudClusterConfig) : SM W ConfigValue :=
  let type := "baremetal/options.Options" in
  globalConfig type (λ oc,
    SetOptionsDefault type "" ;;!
    assign_all ([
      set_str "Zone" (GetZone oc ""); SetOptionsServiceTLS false;
      commonOptions oc cfg (baremetal_conf cfg); set_int "Port" BaremetalPort;
      set_bool "AutoRegisterBaremetal" false; set_bool "LinuxDefaultRootUser" true;
      set_str "DefaultIpmiPassword" "YunionDev@123"]
      ++ if isProduct oc ProductVersionBaremetal then [set_str "ListenInterface" "eth0"] else [])).

(*@ pkg/service-init/component/cloudmon.go:37-50 GetConfig *)
Definition cloudmon_GetConfig (cfg : OnecloudClusterConfig) : SM W ConfigValue :=
  let type := "cloudmon/options.Options" in
  let config := OnecloudClusterConfig_Cloudmon cfg in
  globalConfig type (λ oc,
    SetOptionsDefault type ServiceTypeCloudmon ;;!
    assign_all ([SetOptionsServiceTLS false; commonOptions oc cfg config] ++ sslFiles
                ++ [set_int "Port" (servicePort config)])).

(*@ pkg/service-init/component/esxi.go:34-47 GetConfig *)
Definition esxi_GetConfig (cfg : OnecloudClusterConfig) : SM W ConfigValue :=
  let type := "esxi/options.Options" in
  globalConfig type (λ oc,
    SetOptionsDefault type "" ;;!
    assign_all [
      set_str "Zone" (GetZone oc ""); set_str "ListenInterface" "eth0"; SetOptionsServiceTLS false;
      commonOptions oc cfg (esxi_conf cfg); set_int "Port" EsxiAgentPort]).

(*@ pkg/service-init/component/host-deployer.go:33-46 GetConfig *)
Definition hostdeployer_GetConfig (cfg : OnecloudClusterConfig) : SM W ConfigValue :=
  let type := "hostman/options.SHostBaseOptions" in
  newConfig type (λ oc,
    SetOptionsDefault type "" ;;!
    assign_all [
      set_bool "EnableRemoteExecutor"
        (negb (isProduct oc ProductVersionCMP || isProduct oc ProductVersionBaremetal));
      commonOptions oc cfg (host_conf cfg)]).

(*@ pkg/service-init/component/mcp-server.go:26-37 GetConfig *)
Definition mcpserver_GetConfig (cfg : OnecloudClusterConfig) : SM W ConfigValue :=
  let type := "mcp-server/options.Options" in
  let config := OnecloudClusterConfig_McpServer cfg in
  globalConfig type (λ oc,
    SetOptionsDefault type ServiceTypeMcpServer ;;!
    assign_all [commonOptions oc cfg (common config); port_of config]).

(*@ pkg/service-init/component/influxdb.go:70-77 GetConfig *)
Definition influxdb_GetConfig (cfg : OnecloudClusterConfig) : SM W ConfigValue :=
  textConfig (InfluxdbConfig_GetContent (MkInfluxdbConfig InfluxdbPort
    (path_Join [CertDir; ServiceCertName]) (path_Join [CertDir; ServiceKeyName]))).

(*@ pkg/service-init/component/web.go:310-330 GetConfig *)
Definition web_config (oc : OnecloudCluster) : WebNginxConfig :=
  let urlF ct port := "https://" +:+ NewClusterComponentName (oc_name oc) ct +:+ ":" +:+ dec port in
  MkWebNginxConfig (if IsEEOrESEEdition oc then EEConfig else CEConfig)
    (urlF WebconsoleComponentType WebconsolePort) (urlF APIGatewayComponentType APIWebsocketPort)
    (urlF APIGatewayComponentType APIGatewayPort) (urlF GlanceComponentType GlanceAPIPort)
    (urlF AiProxyComponentType AiProxyPort)
    (WebSpec_UseHTTP (OnecloudClusterSpec_Web (OnecloudCluster_Spec oc)))
    (OnecloudClusterSpec_IPv6Cluster (OnecloudCluster_Spec oc)).
Definition web_GetConfig (cfg : OnecloudClusterConfig) : SM W ConfigValue :=
  let! oc := getoc in textConfig (WebNginxConfig_GetContent (web_config oc)).

(*@ pkg/service-init/component/victoriametrics.go:23-25 GetConfig *)
Definition vm_GetConfig (cfg : OnecloudClusterConfig) : SM W ConfigValue := ret (ConfigText "").
(** ** The services

    The methods of each; [BuildCluster] and [BeforeStart] belong to the
    docker-compose tool. *)

(** Registers the endpoints of a service kept as a [DeploymentServicePortSpec]. *)
Definition registerAt (ctype : ComponentType) (serviceName serviceType : string)
    (place : OnecloudClusterSpec → DeploymentServicePortSpec) (man : ComponentManager W)
  : option (PhaseControl W) :=
  Some (atCluster (λ spec, register ctype serviceName serviceType (portOf place spec) "")).

(*@ pkg/service-init/component/keystone.go:23-48 NewKeystone *)
Definition NewKeystone : ServiceComponent W :=
  (newBaseService KeystoneComponentType (Some "keystone/options.SKeystoneOptions"))
    <| BuildCluster := keystone_BuildCluster |>
    <| BuildClusterConfigDB := λ db cfg, cfg <| OnecloudClusterConfig_Keystone ::= λ k,
         k <| KeystoneConfig_DB := db |> |> |>
    <| GetConfig := keystone_GetConfig |>
    <| GetDefaultDBConfig := λ cfg, Some (KeystoneConfig_DB (OnecloudClusterConfig_Keystone cfg)) |>
    <| GetDefaultClickhouseConfig := λ cfg,
         Some (KeystoneConfig_ClickhouseConf (OnecloudClusterConfig_Keystone cfg)) |>
    <| svc_PhaseControl := λ man, Some (man_Keystone man) |>.

(*@ pkg/service-init/component/region.go:19-49 NewRegion *)
Definition NewRegion : ServiceComponent W :=
  withDB region_conf (withClickhouse region_conf (withUser region_conf
    (newBaseService RegionComponentType (Some "compute/options.ComputeOptions"))))
    <| GetConfig := region_GetConfig |>
    <| svc_PhaseControl := λ man, Some (man_Region man) |>.

(*@ pkg/service-init/component/scheduler.go:17-23 NewScheduler *)
Definition NewScheduler : ServiceComponent W :=
  (newBaseService SchedulerComponentType (Some "scheduler/options.SchedulerOptions"))
    <| GetConfig := scheduler_GetConfig |>
    <| svc_PhaseControl := registerAt SchedulerComponentType ServiceNameScheduler
         ServiceTypeScheduler OnecloudClusterSpec_Scheduler |>.

(*@ pkg/service-init/component/scheduledtask.go:18-26 NewScheduledTask *)
Definition NewScheduledTask : ServiceComponent W :=
  (newBaseService ScheduledtaskComponentType (Some "scheduledtask/options.SOption"))
    <| GetConfig := scheduledtask_GetConfig |>
    <| svc_PhaseControl := registerAt ScheduledtaskComponentType ServiceNameScheduledtask
         ServiceTypeScheduledtask OnecloudClusterSpec_Scheduledtask |>.

(*@ pkg/service-init/component/glance.go:16-46 NewGlance *)
Definition NewGlance : ServiceComponent W :=
  withDB glance_conf (withClickhouse glance_conf (withUser glance_conf
    (newBaseService GlanceComponentType (Some "image/options.SImageOptions"))))
    <| GetConfig := glance_GetConfig |>
    <| svc_PhaseControl := λ man, Some (man_Glance man) |>.

(*@ pkg/service-init/component/logger.go:16-45 NewLogger *)
Definition NewLogger : ServiceComponent W :=
  let conf := OnecloudClusterConfig_Logger in
  withDB conf (withClickhouse conf (withUser conf
    (newBaseService LoggerComponentType (Some "logger/options.SLoggerOptions"))))
    <| GetConfig := logger_GetConfig |>
    <| svc_PhaseControl := registerAt LoggerComponentType ServiceNameLogger ServiceTypeLogger
         OnecloudClusterSpec_Logger |>.

(** The service is registered with its name as its type: both are the same
    string. *)
(*@ pkg/service-init/component/cloudid.go:18-36 NewCloudId *)
Definition NewCloudId : ServiceComponent W :=
  let conf := OnecloudClusterConfig_CloudId in
  withDB conf (withUser conf
    (newBaseService CloudIdComponentType (Some "cloudid/options.SCloudIdOptions")))
    <| GetConfig := cloudid_GetConfig |>
    <| svc_PhaseControl := registerAt CloudIdComponentType ServiceNameCloudId ServiceNameCloudId
         OnecloudClusterSpec_CloudId |>.

(*@ pkg/service-init/component/monitor.go:18-48 NewMonitor *)
Definition NewMonitor : ServiceComponent W :=
  let conf := OnecloudClusterConfig_Monitor in
  withDB conf (withClickhouse conf (withUser conf
    (newBaseService MonitorComponentType (Some "monitor/options.AlerterOptions"))))
    <| GetConfig := monitor_GetConfig |>
    <| svc_PhaseControl := λ man, Some (man_Monitor man) |>.

(*@ pkg/service-init/component/ansibleserver.go:18-36 NewAnsibleServer *)
Definition NewAnsibleServer : ServiceComponent W :=
  let conf := OnecloudClusterConfig_AnsibleServer in
  withDB conf (withUser conf
    (newBaseService AnsibleServerComponentType (Some "ansibleserver/options.SAnsibleServerOptions")))
    <| GetConfig := ansibleserver_GetConfig |>
    <| svc_PhaseControl := registerAt AnsibleServerComponentType ServiceNameAnsibleServer
         ServiceTypeAnsibleServer OnecloudClusterSpec_AnsibleServer |>.

(*@ pkg/service-init/component/kubeserver.go:22-57 NewKubeserver *)
Definition NewKubeserver : ServiceComponent W :=
  let conf := OnecloudClusterConfig_KubeServer in
  withDB conf (withClickhouse conf (withUser conf
    (newBaseService KubeServerComponentType (Some "KubeOptions"))))
    <| GetConfig := kubeserver_GetConfig |>
    <| svc_PhaseControl := λ man, Some (man_KubeServer man false) |>.

(*@ pkg/service-init/component/webconsole.go:20-36 NewWebconsole *)
Definition NewWebconsole : ServiceComponent W :=
  let conf := OnecloudClusterConfig_Webconsole in
  withDB conf (withClickhouse conf (withUser conf
    (newBaseService WebconsoleComponentType (Some "webconsole/options.WebConsoleOptions"))))
    <| GetConfig := webconsole_GetConfig |>
    <| svc_PhaseControl := registerAt WebconsoleComponentType ServiceNameWebconsole
         ServiceTypeWebconsole (λ s, WebconsoleSpec_DeploymentServicePortSpec (OnecloudClusterSpec_Webconsole s)) |>.

(*@ pkg/service-init/component/aiproxy.go:17-43 NewAiProxy *)
Definition NewAiProxy : ServiceComponent W :=
  let conf := OnecloudClusterConfig_AiProxy in
  withDB conf (withUser conf
    (newBaseService AiProxyComponentType (Some "aiproxy/options.SAiProxyOptions")))
    <| GetConfig := aiproxy_GetConfig |>
    <| svc_PhaseControl := registerAt AiProxyComponentType ServiceNameAiProxy ServiceTypeAiProxy
         OnecloudClusterSpec_AiProxy |>.

(*@ pkg/service-init/component/notify.go:17-47 NewNotify *)
Definition NewNotify : ServiceComponent W :=
  let conf := OnecloudClusterConfig_Notify in
  withDB conf (withClickhouse conf (withUser conf
    (newBaseService NotifyComponentType (Some "notify/options.NotifyOption"))))
    <| GetConfig := notify_GetConfig |>
    <| svc_PhaseControl := λ _, Some (atCluster (λ spec,
         register NotifyComponentType ServiceNameNotify ServiceTypeNotify
           (nodePort (NotifySpec_Service (OnecloudClusterSpec_Notify spec))) "")) |>.

(*@ pkg/service-init/component/baremetal.go:15-32 NewBaremetal *)
Definition NewBaremetal : ServiceComponent W :=
  withCommonUser baremetal_conf
    (newBaseService BaremetalAgentComponentType (Some "baremetal/options.BaremetalOptions"))
    <| GetConfig := baremetal_GetConfig |>.

(*@ pkg/service-init/component/cloudmon.go:18-35 NewCloudmon *)
Definition NewCloudmon : ServiceComponent W :=
  (withCommonUser OnecloudClusterConfig_Cloudmon
    (newBaseService CloudmonComponentType (Some "cloudmon/options.CloudMonOptions")))
    <| GetConfig := cloudmon_GetConfig |>
    <| svc_PhaseControl := λ _, Some (atCluster (λ spec,
         register CloudmonComponentType ServiceNameCloudmon ServiceTypeCloudmon
           (nodePort (CloudmonSpec_Service (OnecloudClusterSpec_Cloudmon spec))) "")) |>.

(*@ pkg/service-init/component/esxi.go:15-32 NewEsxiAgent *)
Definition NewEsxiAgent : ServiceComponent W :=
  withCommonUser esxi_conf
    (newBaseService EsxiAgentComponentType (Some "esxi/options.EsxiOptions"))
    <| GetConfig := esxi_GetConfig |>.

(*@ pkg/service-init/component/host-deployer.go:14-31 NewHostDeployer *)
Definition NewHostDeployer : ServiceComponent W :=
  withCommonUser host_conf (newBaseService HostDeployerComponentType None)
    <| GetConfig := hostdeployer_GetConfig |>.

(*@ pkg/service-init/component/mcp-server.go:16-24 NewMcpServer *)
Definition NewMcpServer : ServiceComponent W :=
  (newBaseService McpServerComponentType (Some "mcp-server/options.MCPServerOptions"))
    <| GetConfig := mcpserver_GetConfig |>
    <| svc_PhaseControl := λ _, Some (atCluster (λ spec,
         NewRegisterEndpointComponentWithSSL SessionDebug McpServerComponentType
           ServiceNameMcpServer ServiceTypeMcpServer (portOf OnecloudClusterSpec_McpServer spec) "" false)) |>.

(** A time series data base asks for the region to start again; the
    docker-compose tool has no controller to do that with. *)
Context (hasController : bool).

(*@ pkg/service-init/component/influxdb.go:79-84 influxdb.GetPhaseControl *)
Definition NewInfluxdb : ServiceComponent W :=
  (newBaseService InfluxdbComponentType None)
    <| GetConfig := influxdb_GetConfig |>
    <| svc_PhaseControl := λ _,
         Some (NewTSDBEndpointComponent SessionDebug hasController InfluxdbComponentType
           ServiceNameInfluxdb ServiceTypeInfluxdb InfluxdbPort "") |>.

(*@ pkg/service-init/component/victoriametrics.go:27-32 vm.GetPhaseControl *)
Definition NewVictoriaMetrics : ServiceComponent W :=
  (newBaseService VictoriaMetricsComponentType None)
    <| GetConfig := vm_GetConfig |>
    <| svc_PhaseControl := λ _,
         Some (NewTSDBEndpointComponent SessionDebug hasController VictoriaMetricsComponentType
           ServiceNameVictoriaMetrics ServiceTypeVictoriaMetrics VictoriaMetricsPort "") |>.

(*@ pkg/service-init/component/web.go:306-308 web.GetConfigFilePath *)
Definition NewWeb : ServiceComponent W :=
  (newBaseService WebComponentType None)
    <| GetConfigFilePath := λ targetDir, path_Join [targetDir; "/etc/nginx/conf.d/default.conf"] |>
    <| GetConfig := web_GetConfig |>.

(** ** The API gateway: its service, then the endpoints of its web socket *)

(*@ pkg/service-init/component/apigateway.go:57-86 newAPIGatewaPhaseControl *)
Definition newAPIGatewaPhaseControl (spec : OnecloudClusterSpec) : PhaseControl W :=
  setupOnly (
    phase_Setup (NewRegisterServiceComponent SessionDebug ServiceNameAPIGateway ServiceTypeAPIGateway) ;;!
    phase_Setup (register APIGatewayComponentType ServiceNameWebsocket ServiceTypeWebsocket
      (nodePort (APIGatewaySpec_WSService (OnecloudClusterSpec_APIGateway spec))) "")).

(*@ pkg/service-init/component/apigateway.go:20-34 NewApiGateway *)
Definition NewApiGateway : ServiceComponent W :=
  (withCommonUser OnecloudClusterConfig_APIGateway
    (newBaseService APIGatewayComponentType (Some "ApiOptions")))
    <| GetConfig := apigateway_GetConfig |>
    <| svc_PhaseControl := λ _, Some (atCluster newAPIGatewaPhaseControl) |>.
End services.

(** ** What an earlier run configured

    The account and the data base of a service are read from the options its
    file holds, when there is one. *)
Section existing.
Context {W : Type} `{!JsonUtils}.
Implicit Types (cmpt : ServiceComponent W).

(*@ pkg/service-init/component/component.go:120-133 GetComponentDBConfig *)
Definition GetComponentDBConfig cmpt (cfg : OnecloudClusterConfig) (existOpt : option json)
  : Res (option DBConfig) :=
  match GetDefaultDBConfig cmpt cfg, existOpt with
  | None, _ => Ok None
  | Some dbCfg, None => Ok (Some dbCfg)
  | Some _, Some existOpt =>
      let sqlStr := getString existOpt "sql_connection" in
      if str_empty sqlStr then Err (ErrMsg "not found 'sql_connection'")
      else res_map Some (ParseSQLAchemyURL sqlStr)
  end.

(*@ pkg/service-init/component/component.go:135-155 GetComponentCloudUser *)
Definition GetComponentCloudUser cmpt (cfg : OnecloudClusterConfig) (existOpt : option json)
  : Res (option CloudUser) :=
  match GetDefaultCloudUser cmpt cfg, existOpt with
  | None, _ => Ok None
  | Some cloudUser, None => Ok (Some cloudUser)
  | Some _, Some existOpt =>
      let adminUser := getString existOpt "admin_user" in
      if str_empty adminUser then Err (ErrMsg "not found 'admin_user'")
      else
        let adminPwd := getString existOpt "admin_password" in
        if str_empty adminPwd then Err (ErrMsg "not found 'admin_password'")
        else Ok (Some (MkCloudUser adminUser adminPwd))
  end.
End existing.
