(* ===== verification/GlobalSettings.v ===== *)
(** * GlobalSettings: the features the cloud shows

    [pkg/service-init/component/yunoinconf.go]: the service of the parameters
    keeps one that lists the features of the product which are on. The
    operator computes it from the edition and the version of the product and
    from what it finds stored: what the user turned on or off stays so. *)

From stdpp Require Import sorting.
From S2P Require Import Prelude K8s Types Constants GoStrings Defaults.
From S2P Require Import ControllerUtils LastApplied KubeApi Session CloudApi Databases Sync.
From S2P Require Import Endpoints Components Options ServiceInit Services.

Open Scope string_scope.
Open Scope list_scope.
Open Scope go_scope.

(*@ pkg/service-init/component/yunoinconf.go:27-27 FEAT_VOLCENGINE *)
Definition FEAT_VOLCENGINE : string := "volcengine".
(*@ pkg/service-init/component/yunoinconf.go:28-28 FEAT_ORACLE_CLOUD *)
Definition FEAT_ORACLE_CLOUD : string := "oraclecloud".
(*@ pkg/service-init/component/yunoinconf.go:29-29 FEAT_KSYUN *)
Definition FEAT_KSYUN : string := "ksyun".
(*@ pkg/service-init/component/yunoinconf.go:31-31 FEAT_VMWARE *)
Definition FEAT_VMWARE : string := "vmware".
(*@ pkg/service-init/component/yunoinconf.go:32-32 FEAT_PROXMOX *)
Definition FEAT_PROXMOX : string := "proxmox".
(*@ pkg/service-init/component/yunoinconf.go:34-34 FEAT_POD *)
Definition FEAT_POD : string := "pod".
(*@ pkg/service-init/component/yunoinconf.go:35-35 FEAT_AI *)
Definition FEAT_AI : string := "ai".

(** A dictionary that is absent is [JNull]; a nil map is the empty one, which
    the code does not tell apart. *)
(*@ pkg/service-init/component/yunoinconf.go:133-140 GlobalSettingsValue *)
Record GlobalSettingsValue := MkGlobalSettingsValue {
  gs_Dictionary : json;
  gs_SetupKeys : list string;
  gs_SetupKeysVersion : string;
  gs_SetupOneStackInitialized : bool;
  gs_ProductVersion : string;
  gs_UserDefinedKeys : gmap string bool
}.
#[global] Instance GlobalSettingsValue_eta : Eta GlobalSettingsValue := λ v,
  MkGlobalSettingsValue (gs_Dictionary v) (gs_SetupKeys v) (gs_SetupKeysVersion v)
    (gs_SetupOneStackInitialized v) (gs_ProductVersion v) (gs_UserDefinedKeys v).

(** The JSON library writes the struct and reads it back. *)
Class SettingsCodec := {
  Marshal_settings : GlobalSettingsValue → json;
  Unmarshal_settings : json → Res GlobalSettingsValue;
  Unmarshal_Marshal v : Unmarshal_settings (Marshal_settings v) = Ok v
}.

(** [for _, k := range keys { m[k] = on }] *)
Definition switch (on : bool) (keys : list string) (m : gmap string bool) : gmap string bool :=
  foldl (λ m k, <[k := on]> m) m keys.

(*@ pkg/service-init/component/yunoinconf.go:142-154 NewGlobalSettingsValue *)
Definition NewGlobalSettingsValue (setupKeys : list string) (oneStackInited : bool)
    (productVersion : ProductVersion) : GlobalSettingsValue :=
  MkGlobalSettingsValue JNull setupKeys "3.0" oneStackInited productVersion
    (switch true setupKeys ∅).

Definition same_keys (l l' : list string) : bool :=
  bool_decide ((list_to_set l : gset string) = list_to_set l').

(*@ pkg/service-init/component/yunoinconf.go:156-172 Equal *)
Definition settings_Equal (v o : GlobalSettingsValue) : bool :=
  same_keys (gs_SetupKeys v) (gs_SetupKeys o) &&
  String.eqb (gs_SetupKeysVersion v) (gs_SetupKeysVersion o) &&
  Bool.eqb (gs_SetupOneStackInitialized v) (gs_SetupOneStackInitialized o) &&
  String.eqb (gs_ProductVersion v) (gs_ProductVersion o).

(*@ pkg/service-init/component/yunoinconf.go:194-198 CalculateSetupKeys (newFeatures) *)
Definition newFeatures (productVersion : string) : list string :=
  if String.eqb productVersion ProductVersionCMP || String.eqb productVersion ProductVersionFullStack
  then [FEAT_VOLCENGINE; FEAT_ORACLE_CLOUD; FEAT_KSYUN]
  else if String.eqb productVersion ProductVersionEdge then [FEAT_VMWARE; FEAT_PROXMOX]
  else [].

(** The keys that are on, in increasing order. *)
Definition keysOn (m : gmap string bool) : list string :=
  merge_sort String.le (map fst (List.filter snd (map_to_list m))).

(** Settings from before the user could switch features: those that were not
    listed are off, but for the new ones. *)
(*@ pkg/service-init/component/yunoinconf.go:185-207 CalculateSetupKeys (upgrade) *)
Definition upgradeKeys (v oldSettings : GlobalSettingsValue) (m : gmap string bool)
  : gmap string bool :=
  if bool_decide (gs_UserDefinedKeys oldSettings = ∅) then
    switch true (newFeatures (gs_ProductVersion v))
      (switch false
         (List.filter (λ sK, negb (IsInStringArray sK (gs_SetupKeys oldSettings))) (gs_SetupKeys v)) m)
  else m.

(*@ pkg/service-init/component/yunoinconf.go:174-219 CalculateSetupKeys *)
Definition CalculateSetupKeys (v oldSettings : GlobalSettingsValue) : GlobalSettingsValue :=
  let m := upgradeKeys v oldSettings (switch true (gs_SetupKeys oldSettings) (gs_UserDefinedKeys v)) in
  let m := gs_UserDefinedKeys oldSettings ∪ m in
  v <| gs_Dictionary := gs_Dictionary oldSettings |> <| gs_UserDefinedKeys := m |>
    <| gs_SetupKeys := keysOn m |>.

(** ** The features of a product *)
(*@ pkg/service-init/component/yunoinconf.go:251-272 SystemInit (setupKeysCmp) *)
Definition setupKeysCmp : list string :=
  ["public"; "private"; "storage"; "aliyun"; "aws"; "azure"; "ctyun"; "google"; "huawei"; "qcloud";
   FEAT_VOLCENGINE; FEAT_VMWARE; "openstack"; "cloudpods"; "nutanix"; "s3"; "ceph"; "xsky";
   FEAT_PROXMOX; FEAT_ORACLE_CLOUD; FEAT_KSYUN].
(*@ pkg/service-init/component/yunoinconf.go:274-281 SystemInit (setupKeysEdge) *)
Definition setupKeysEdge : list string :=
  ["onecloud"; "onestack"; "baremetal"; "lb"; FEAT_VMWARE; FEAT_PROXMOX].

(*@ pkg/service-init/component/yunoinconf.go:283-336 SystemInit (setupKeys) *)
Definition setupKeysOf (oc : OnecloudCluster) : list string :=
  let pv := isProduct oc in
  let keys :=
    if pv ProductVersionCMP then setupKeysCmp
    else if pv ProductVersionEdge then setupKeysEdge
    else if pv ProductVersionLightEdge then ["onecloud"; "onestack"]
    else if pv ProductVersionBaremetal then ["onecloud"; "baremetal"]
    else if pv ProductVersionAI then ["onecloud"; "onestack"; FEAT_POD; FEAT_AI]
    else setupKeysCmp ++ setupKeysEdge in
  keys ++ ["monitor"; "auth"]
    ++ (if IsEnterpriseEdition oc then
          (if pv ProductVersionEdge || pv ProductVersionLightEdge then []
           else ["ucloud"; "ecloud"; "jdcloud"; "zstack"; "hcso"; "bingocloud"; "incloudsphere"])
          ++ (if pv ProductVersionLightEdge then [] else ["k8s"; "bill"])
        else [])
    ++ ["default"].

(** The settings the cluster should have, from those it has. *)
(*@ pkg/service-init/component/yunoinconf.go:339-343 SystemInit (inputValue) *)
Definition wantedSettings (oc : OnecloudCluster) (currentValue : option GlobalSettingsValue)
  : GlobalSettingsValue :=
  let inputValue := NewGlobalSettingsValue (setupKeysOf oc) (isProduct oc ProductVersionCMP)
                      (OnecloudClusterSpec_ProductVersion (OnecloudCluster_Spec oc)) in
  match currentValue with
  | None => inputValue
  | Some old => CalculateSetupKeys inputValue old
  end.

Section settings.
Context {W : Type} `{!SessionEnv W, !JsonUtils, !CloudApi W, !SettingsCodec}.

Definition settingsName : string := "global-settings".
Definition settingsQuery : list (string * json) :=
  [("name", JStr settingsName); ("scope", JStr "system")].

(** The parameters to send. *)
Definition settingsParams (v : GlobalSettingsValue) : list (string * json) :=
  [("name", JStr settingsName); ("service_id", JStr ServiceNameYunionAgent);
   ("value", Marshal_settings v)].

(*@ pkg/service-init/component/yunoinconf.go:227-366 SystemInit (session) *)
Definition syncSettings (oc : OnecloudCluster) (s : ClientSession W) : M W unit :=
  let! '(items, _) := wrap ("search " +:+ settingsName)
                        (mod_List s Parameters_conf settingsQuery) in
  match items with
  | [] =>
      wrap ("create " +:+ settingsName)
        (mod_Create s Parameters_conf (settingsParams (wantedSettings oc None))) ;;! ret tt
  | curConfig :: _ =>
      let! id := wrap "get id" (lift (json_Int curConfig "id")) in
      let! currentValue := wrap "unmarshal to GlobalSettingsValue"
        (lift (res_bind (json_Get curConfig ["value"]) Unmarshal_settings)) in
      let inputValue := wantedSettings oc (Some currentValue) in
      if settings_Equal currentValue inputValue then ret tt
      else
        wrap ("update " +:+ settingsName)
          (mod_Update s Parameters_conf (dec id) (settingsParams inputValue)) ;;! ret tt
  end.

(** ** The service *)
Context `{!OptionsLib W} (SessionDebug : bool) (man : ComponentManager W).

(** The phases of the parameters' service: its endpoints, and those of the
    agent that reads them, unless the agent is there. *)
(*@ pkg/service-init/component/yunoinconf.go:107-131 Setup *)
Definition yunionconf_Setup (endpoints : PhaseControl W) : SM W unit :=
  wrap "endpoint for yunionconfSvc setup" (phase_Setup endpoints) ;;!
  let! isAgentExists :=
    wrap ("check if " +:+ ServiceNameYunionAgent +:+ " service exists")
      (RunWithSession SessionDebug (λ s,
         let! r := kube (attempt (IsServiceExists s ServiceNameYunionAgent)) in
         ret (match r with inr (Some _) => true | _ => false end))) in
  if isAgentExists then ret tt
  else wrap "setup yunionagent for yunionconfSvc" (phase_Setup (man_YunionAgent man)).

(*@ pkg/service-init/component/yunoinconf.go:221-371 SystemInit *)
Definition yunionconf_SystemInit : SM W unit :=
  let! oc := getoc in
  wrap "pc.man.RunWithSession" (RunWithSession SessionDebug (λ s, kube (syncSettings oc s))).

(*@ pkg/service-init/component/yunoinconf.go:98-105 newYunionconfPC *)
Definition newYunionconfPC (spec : OnecloudClusterSpec) : PhaseControl W :=
  MkPhaseControl W
    (yunionconf_Setup (NewRegisterEndpointComponent SessionDebug YunionconfComponentType
       ServiceNameYunionConf ServiceTypeYunionConf (portOf OnecloudClusterSpec_Yunionconf spec) ""))
    yunionconf_SystemInit.

(*@ pkg/service-init/component/yunoinconf.go:38-62 NewYunionconf *)
Definition NewYunionconf : ServiceComponent W :=
  let conf := OnecloudClusterConfig_Yunionconf in
  withDB conf (withUser conf
    (newBaseService YunionconfComponentType (Some "yunionconf/options.YunionConfOptions")))
    <| GetConfig := yunionconf_GetConfig |>
    <| svc_PhaseControl := λ _, Some (atCluster newYunionconfPC) |>.
End settings.

(** ** What the settings become *)

Lemma lookup_switch on keys m k :
  switch on keys m !! k = if bool_decide (k ∈ keys) then Some on else m !! k.
Proof.
  unfold switch. revert m. induction keys as [|k' keys IH]; intros m.
  { cbn [foldl]. rewrite bool_decide_false; [done|apply not_elem_of_nil]. }
  cbn [foldl].
  rewrite IH. destruct (decide (k ∈ keys)) as [Hk|Hk].
  - rewrite !bool_decide_true; [done|by right|done].
  - rewrite (bool_decide_false (k ∈ keys)) by done. destruct (decide (k = k')) as [->|Hne].
    + by rewrite lookup_insert_eq, bool_decide_true by (by left).
    + rewrite lookup_insert_ne by done. rewrite bool_decide_false; [done|].
      by intros [?|?]%elem_of_cons.
Qed.

Lemma elem_of_List_filter {A} (p : A → bool) l x : x ∈ List.filter p l ↔ x ∈ l ∧ p x = true.
Proof. by rewrite !list_elem_of_In, List.filter_In. Qed.

Lemma elem_of_keysOn m k : k ∈ keysOn m ↔ m !! k = Some true.
Proof.
  unfold keysOn. rewrite merge_sort_Permutation. rewrite <- elem_of_map_to_list. split.
  - intros ([k' b] & -> & [Hin Hb]%elem_of_List_filter)%list_elem_of_fmap.
    simpl in *. by destruct b.
  - intros Hin. apply list_elem_of_fmap. exists (k, true). by rewrite elem_of_List_filter.
Qed.

Lemma NoDup_map_filter {A B} (f : A → B) (p : A → bool) l :
  NoDup (map f l) → NoDup (map f (List.filter p l)).
Proof.
  induction l as [|x l IH]; simpl; [done|]. intros [Hx Hl]%NoDup_cons.
  destruct (p x); simpl; [|by apply IH]. apply NoDup_cons. split; [|by apply IH].
  intros (y & Hy & Hin)%list_elem_of_fmap. destruct Hx. rewrite Hy.
  apply list_elem_of_fmap_2. by apply elem_of_List_filter in Hin as [Hin _].
Qed.

Lemma keysOn_sorted m : Sorted String.le (keysOn m) ∧ NoDup (keysOn m).
Proof.
  split; [apply Sorted_merge_sort, _|]. unfold keysOn. rewrite merge_sort_Permutation.
  apply NoDup_map_filter, NoDup_fst_map_to_list.
Qed.

Lemma elem_of_IsInStringArray k l : IsInStringArray k l = bool_decide (k ∈ l).
Proof. apply eq_true_iff_eq. by rewrite bool_decide_eq_true, IsInStringArray_spec. Qed.

(** Whether a feature is on when the user never switched any. *)
Definition featureOf (oc : OnecloudCluster) (old : GlobalSettingsValue) (k : string) : option bool :=
  if bool_decide (k ∈ newFeatures (OnecloudClusterSpec_ProductVersion (OnecloudCluster_Spec oc)))
  then Some true
  else if bool_decide (k ∈ gs_SetupKeys old) then Some true
  else if bool_decide (k ∈ setupKeysOf oc) then Some false
  else None.

Definition knownFeature (oc : OnecloudCluster) (old : GlobalSettingsValue) (k : string) : option bool :=
  if bool_decide (k ∈ gs_SetupKeys old ∨ k ∈ setupKeysOf oc) then Some true else None.

Lemma wantedSettings_lookup oc old k :
  gs_UserDefinedKeys (wantedSettings oc (Some old)) !! k =
  match gs_UserDefinedKeys old !! k with
  | Some b => Some b
  | None => if bool_decide (gs_UserDefinedKeys old = ∅) then featureOf oc old k
            else knownFeature oc old k
  end.
Proof.
  cbn [wantedSettings CalculateSetupKeys gs_UserDefinedKeys]. unfold CalculateSetupKeys. simpl.
  destruct (gs_UserDefinedKeys old !! k) as [b|] eqn:E.
  { by apply lookup_union_Some_l. }
  rewrite lookup_union_r by done. unfold upgradeKeys, featureOf, knownFeature. simpl.
  case_bool_decide as Hu; rewrite !lookup_switch, lookup_empty.
  - case_bool_decide; [done|].
    destruct (decide (k ∈ gs_SetupKeys old)) as [Hk|Hk].
    + rewrite (bool_decide_true (k ∈ gs_SetupKeys old)) by done. rewrite bool_decide_false; [done|].
      intros [_ Hn]%elem_of_List_filter. by rewrite elem_of_IsInStringArray, bool_decide_true in Hn.
    + rewrite (bool_decide_false (k ∈ gs_SetupKeys old)) by done.
      destruct (decide (k ∈ setupKeysOf oc)) as [Hs|Hs].
      * rewrite !bool_decide_true; [done|done|].
        rewrite elem_of_List_filter. by rewrite elem_of_IsInStringArray, bool_decide_false.
      * rewrite !bool_decide_false; [done|done|].
        by intros [Hin _]%elem_of_List_filter.
  - repeat case_bool_decide; tauto.
Qed.

(** What the user switched stays switched; the settings list exactly the
    features that are on, in increasing order and without repetition; the
    dictionary is kept. A feature the user never switched is on when it was
    listed or belongs to the product; if the settings date from before
    features could be switched, those of the product that were not listed are
    off, but for the ones that came with the version. *)
Theorem wantedSettings_spec oc old :
  let v := wantedSettings oc (Some old) in
  gs_Dictionary v = gs_Dictionary old ∧
  Sorted String.le (gs_SetupKeys v) ∧ NoDup (gs_SetupKeys v) ∧
  (∀ k, k ∈ gs_SetupKeys v ↔ gs_UserDefinedKeys v !! k = Some true) ∧
  ∀ k, gs_UserDefinedKeys v !! k =
    match gs_UserDefinedKeys old !! k with
    | Some b => Some b
    | None => if bool_decide (gs_UserDefinedKeys old = ∅) then featureOf oc old k
              else knownFeature oc old k
    end.
Proof.
  intros v. destruct (keysOn_sorted (gs_UserDefinedKeys v)) as [Hs Hnd].
  split_and!; [done|exact Hs|exact Hnd|intros k; apply elem_of_keysOn|].
  intros k. apply wantedSettings_lookup.
Qed.

(** ** Settling *)

Lemma wantedSettings_known oc cur k :
  k ∈ setupKeysOf oc → is_Some (gs_UserDefinedKeys (wantedSettings oc cur) !! k).
Proof.
  intros Hk. destruct cur as [old|].
  - rewrite wantedSettings_lookup. unfold featureOf, knownFeature.
    repeat case_match; repeat case_bool_decide; try done; tauto.
  - simpl. rewrite lookup_switch, bool_decide_true by done. done.
Qed.

Lemma wantedSettings_on oc cur k :
  k ∈ gs_SetupKeys (wantedSettings oc cur) ↔
  gs_UserDefinedKeys (wantedSettings oc cur) !! k = Some true.
Proof.
  destruct cur as [old|]; [apply elem_of_keysOn|].
  simpl. rewrite lookup_switch, lookup_empty. by case_bool_decide.
Qed.

Lemma wantedSettings_again oc cur :
  let v := wantedSettings oc cur in
  gs_UserDefinedKeys (wantedSettings oc (Some v)) = gs_UserDefinedKeys v ∧
  settings_Equal v (wantedSettings oc (Some v)) = true.
Proof.
  intros v.
  assert (gs_UserDefinedKeys (wantedSettings oc (Some v)) = gs_UserDefinedKeys v) as E.
  { apply map_eq. intros k. rewrite wantedSettings_lookup.
    destruct (gs_UserDefinedKeys v !! k) as [b|] eqn:Ek; [done|].
    rewrite bool_decide_false.
    - unfold knownFeature. rewrite bool_decide_false; [done|]. intros [Hk|Hk].
      + apply wantedSettings_on in Hk. fold v in Hk. congruence.
      + destruct (wantedSettings_known oc cur k Hk) as [b Hb]. fold v in Hb. congruence.
    - destruct (wantedSettings_known oc cur "default") as [b Hb].
      { unfold setupKeysOf. rewrite !elem_of_app. do 3 right. by left. }
      fold v in Hb. intros Hv. by rewrite Hv, lookup_empty in Hb. }
  split; [exact E|]. unfold settings_Equal, same_keys. rewrite !andb_true_iff. split_and!.
  - apply bool_decide_eq_true, set_eq. intros k. rewrite !elem_of_list_to_set.
    rewrite (wantedSettings_on oc (Some v)), E. subst v. by rewrite wantedSettings_on.
  - by destruct cur.
  - by destruct cur; apply Bool.eqb_reflx.
  - by destruct cur; apply String.eqb_refl.
Qed.

(** C35. Once the settings are written, whatever was found before, ensuring them
    again finds them as wanted and writes nothing. *)
Theorem syncSettings_settles {W} `{!SessionEnv W, !JsonUtils, !CloudApi W, !SettingsCodec}
    (oc : OnecloudCluster) (s : ClientSession W) (w : W) (cur : option GlobalSettingsValue)
    (curConfig : json) (others : list json) (total id : Z) :
  mod_List s Parameters_conf settingsQuery w = (w, Ok (curConfig :: others, total)) →
  json_Int curConfig "id" = Ok id →
  json_Get curConfig ["value"] = Ok (Marshal_settings (wantedSettings oc cur)) →
  syncSettings oc s w = (w, Ok tt).
Proof.
  intros Hlist Hid Hvalue. unfold syncSettings. unfold bind at 1, wrap at 1. rewrite Hlist.
  unfold bind at 1, wrap at 1, lift at 1. rewrite Hid.
  unfold bind at 1, wrap at 1, lift at 1. rewrite Hvalue. cbn [res_bind].
  rewrite Unmarshal_Marshal. destruct (wantedSettings_again oc cur) as [_ Heq].
  cbv zeta in Heq. by rewrite Heq.
Qed.
