(* ===== verification/ManagerBase.v ===== *)
(** * ManagerBase: what the managers of the services share

    Every manager of [pkg/manager/component] is the manager that wants nothing
    ([baseManager]) with some of its methods replaced. The methods most of
    them write out alike are operations here: when a component is disabled,
    its data base and account, its services, its configuration, its status,
    what follows it in the cloud. *)

From S2P Require Import Prelude K8s Types Constants GoStrings Defaults.
From S2P Require Import ControllerUtils LastApplied KubeApi Session CloudApi Databases Sync.
From S2P Require Import Volumes Endpoints Builders Components Options ServiceInit Services.

Open Scope string_scope.
Open Scope list_scope.
Open Scope go_scope.

(** ** Places *)

(** The places of the deployments the managers build; the last argument of a
    [specEntry] only matters to the defaults. *)
Abbreviation deploy1 t F := (MkSpecEntry t F (λ g s, s <| F ::= g |>) false) (only parsing).
Abbreviation deploy2 t F G :=
  (MkSpecEntry t (λ s, G (F s)) (λ g s, s <| F ::= λ x, x <| G ::= g |> |>) false) (only parsing).
Abbreviation deploy3 t F G H :=
  (MkSpecEntry t (λ s, H (G (F s)))
     (λ g s, s <| F ::= λ x, x <| G ::= λ y, y <| H ::= g |> |> |>) false) (only parsing).
Abbreviation portDeploy t F := (deploy2 t F DeploymentServicePortSpec_DeploymentSpec) (only parsing).

(** [&oc.Status.F] and [&oc.Status.F.G]. *)
Abbreviation status1 F :=
  (MkStatusRef (λ oc, F (OnecloudCluster_Status oc))
     (λ g oc, oc <| OnecloudCluster_Status ::= λ s, s <| F ::= g |> |>)) (only parsing).
Abbreviation status2 F G :=
  (MkStatusRef (λ oc, G (F (OnecloudCluster_Status oc)))
     (λ g oc, oc <| OnecloudCluster_Status ::= λ s, s <| F ::= λ x, x <| G ::= g |> |> |>))
  (only parsing).

Definition specOf {A} (ref : specEntry A) (oc : OnecloudCluster) : A :=
  se_get ref (OnecloudCluster_Spec oc).

(** The service and the engine of a component kept as a
    [DeploymentServicePortSpec]. *)
Definition serviceAt (place : OnecloudClusterSpec → DeploymentServicePortSpec)
    (spec : OnecloudClusterSpec) : ServiceSpec := DeploymentServicePortSpec_Service (place spec).
Definition engineAt (place : OnecloudClusterSpec → DeploymentServicePortSpec)
    (spec : OnecloudClusterSpec) : TDBEngineType := DeploymentServicePortSpec_DbEngine (place spec).

(** A manager is written as the one that wants nothing, changed step by step. *)
Notation "m >-> f" := (f m) (at level 62, left associativity, only parsing) : go_scope.

(** ** Product versions *)
Definition allVersions : list ProductVersion :=
  [ProductVersionFullStack; ProductVersionCMP; ProductVersionEdge; ProductVersionLightEdge;
   ProductVersionAI].

Definition inVersions (versions : list ProductVersion) (oc : OnecloudCluster) : bool :=
  existsb (isProduct oc) versions.

(** ** Services of a component *)
Definition internalOnly (service : ServiceSpec) : bool :=
  ServicePortSpec_InternalOnly (ServiceSpec_ServicePortSpec service).

(** [NewServiceNodePort] for a service of the spec. *)
Definition servicePortAt (name : string) (service : ServiceSpec) (targetPort : Z) : ServicePort :=
  NewServiceNodePort name (internalOnly service) (wrap32 (nodePort service)) targetPort.

Definition configPort (config : ServiceCommonOptions) : Z := wrap32 (servicePort config).
Definition dbPort (conf : OnecloudClusterConfig → ServiceDBCommonOptions)
    (cfg : OnecloudClusterConfig) : Z := configPort (common (conf cfg)).

(** ** Containers *)

(** A container of the image of a spec. *)
Definition containerOf (name : string) (spec : ContainerSpec) (command : list string)
    (volMounts : list VolumeMount) : Container :=
  (zero : Container) <| Container_Name := name |>
    <| Container_Image := ContainerSpec_Image spec |>
    <| Container_ImagePullPolicy := ContainerSpec_ImagePullPolicy spec |>
    <| Container_Command := command |> <| Container_VolumeMounts := volMounts |>.

(** The first container, when there is one: indexing an empty list panics. *)
Definition in_first {A} (g : A → A) (l : list A) : list A :=
  match l with [] => [] | x :: l => g x :: l end.

Section managers.
Context {W : Type} `{!SessionEnv W, !JsonUtils, !CloudApi W, !OptionsLib W}.
Context `{!NodeLister W, !QuantityOps}.
Context `{!ResourceApi W Deployment, !ResourceApi W ConfigMap}.
Context (SessionDebug DisableNodeSelectorController : bool).
Context (man : ComponentManager W).
Implicit Types (m : cloudComponentFactory W) (ref : specEntry DeploymentSpec).

(** ** When a component is wanted *)

Definition manages ref (versions : list ProductVersion) : cloudComponentFactory W :=
  baseManager (se_type ref)
    (λ oc, DeploymentSpec_Disable (specOf ref oc) || negb (inVersions versions oc)) versions.

(** Components of the enterprise edition. *)
Definition managesEE ref (versions : list ProductVersion) : cloudComponentFactory W :=
  baseManager (se_type ref)
    (λ oc, DeploymentSpec_Disable (specOf ref oc) || negb (IsEnterpriseEdition oc)
           || negb (inVersions versions oc)) versions.

(** ** Data base and account *)

Definition withEngine (engine : OnecloudClusterSpec → TDBEngineType) m :=
  m <| getDBEngine := λ oc, GetDbEngine (OnecloudCluster_Spec oc) (engine (OnecloudCluster_Spec oc)) |>.

Definition withAccount (conf : OnecloudClusterConfig → ServiceCommonOptions) m :=
  m <| getCloudUser := λ cfg, Some (ServiceCommonOptions_CloudUser (conf cfg)) |>.

Definition withData (conf : OnecloudClusterConfig → ServiceDBCommonOptions)
    (engine : OnecloudClusterSpec → TDBEngineType) m :=
  withAccount (λ cfg, common (conf cfg)) (withEngine engine m)
    <| getDBConfig := λ cfg, Some (ServiceDBCommonOptions_DB (conf cfg)) |>.

Definition withClickhouseData (conf : OnecloudClusterConfig → ServiceDBCommonOptions) m :=
  m <| getClickhouseConfig := λ cfg, Some (ServiceDBCommonOptions_ClickhouseConf (conf cfg)) |>.

(** ** Services *)

Definition hasSlaves ref (oc : OnecloudCluster) : bool :=
  (0 <? DeploymentSpec_SlaveReplicas (specOf ref oc))%Z.

Definition exposes (svc : OnecloudClusterSpec → ServiceSpec) ref
    (port : OnecloudClusterConfig → Z) m :=
  m <| getService := λ cfg _,
         let! oc := getoc in
         let service := svc (OnecloudCluster_Spec oc) in
         ret (newSinglePortService (GetComponentType m) oc (internalOnly service)
                (wrap32 (nodePort service)) (port cfg) (hasSlaves ref oc)) |>.

(** ** Configuration *)

(*@ pkg/manager/component/component.go:712-715 newServiceConfigMap *)
Definition newServiceConfigMap (cType : ComponentType) (zone : string) (oc : OnecloudCluster)
    (type : string) (opt : Options) : ConfigMap :=
  newConfigMap cType zone oc (YAMLString W type opt).

(** The config map of what [GetConfig] returns: the text of a file, or the
    options, as YAML. Every service the managers use returns one of the two. *)
Definition configMapOf (cType : ComponentType) (zone : string) (oc : OnecloudCluster)
    (v : ConfigValue) : option ConfigMap :=
  match v with
  | NoConfig => None
  | ConfigText s => Some (newConfigMap cType zone oc s)
  | ConfigOptions type opt => Some (newServiceConfigMap cType zone oc type opt)
  end.

Definition configMap (cType : ComponentType) (zone : string) (config : SM W ConfigValue)
  : SM W (option ConfigMap * bool) :=
  let! v := config in
  let! oc := getoc in
  ret (configMapOf cType zone oc v, false).

Definition configuredBy (config : OnecloudClusterConfig → SM W ConfigValue) m :=
  m <| getConfigMap := λ cfg _, configMap (GetComponentType m) "" (config cfg) |>.

Definition configuredInZone (config : OnecloudClusterConfig → SM W ConfigValue) m :=
  m <| getConfigMap := λ cfg zone, configMap (GetComponentType m) zone (config cfg) |>.

(** A configuration written before the service had a data base is replaced. *)
Definition forceWithoutDB (config : OnecloudClusterConfig → SM W ConfigValue) m :=
  m <| getConfigMap := λ cfg _,
         let! v := config cfg in
         match v with
         | ConfigOptions type opt =>
             shouldSyncConfigmap (GetComponentType m) (YAMLString W type opt)
               (Some (λ optStr, negb (contains "sql_connection" optStr)))
         | _ => ret (None, false)
         end |>.

(** ** Phases *)

Definition registers (name type : string) (svc : OnecloudClusterSpec → ServiceSpec) m :=
  m <| getPhaseControl := λ _, Some (atCluster (λ spec,
         NewRegisterEndpointComponent SessionDebug (GetComponentType m) name type
           (nodePort (svc spec)) "")) |>.

(** The configuration and the phases of a service of [pkg/service-init]. *)
Definition phasedBy (svc : ServiceComponent W) m :=
  m <| getPhaseControl := λ _, svc_PhaseControl svc man |>.

Definition servedBy (svc : ServiceComponent W) m :=
  phasedBy svc (configuredBy (GetConfig svc) m).

(** ** Deployments *)

Definition deploys (d : OnecloudClusterConfig → SM W Deployment) m :=
  m <| getDeployment := λ cfg _, let! d := d cfg in ret (Some d) |>.

Definition reports (status : StatusRef) m := m <| getDeploymentStatus := λ _, Some status |>.

Definition cloudService ref (port : OnecloudClusterConfig → Z) (doInit mountEtcdTLS : bool) m :=
  deploys (λ cfg, newCloudServiceSinglePortDeployment DisableNodeSelectorController
             (GetComponentType m) "" ref (port cfg) doInit mountEtcdTLS) m.

(** One container, which runs the program of the service; neither
    initialisation nor ports. *)
Definition serverDeployment ref (name : string) (command : list string) : SM W Deployment :=
  let cType := se_type ref in
  let! oc := getoc in
  let! spec := read ref in
  newDefaultDeploymentNoInit DisableNodeSelectorController cType ""
    (NewVolumeHelper oc (ComponentConfigMapName oc cType) cType) ref
    (λ volMounts, [containerOf name (DeploymentSpec_ContainerSpec spec) command volMounts]).

Definition server ref (name : string) m :=
  deploys (λ _, serverDeployment ref name (service_command (GetComponentType m))) m.

(** [deploy.Spec.Template.Spec.ServiceAccountName] *)
Definition asOperator (d : Deployment) : Deployment :=
  in_pod (λ p, p <| PodSpec_ServiceAccountName := ServiceAccountOnecloudOperator |>) d.

Definition deploysAsOperator (d : OnecloudClusterConfig → SM W Deployment) m :=
  deploys (λ cfg, let! d := d cfg in ret (asOperator d)) m.

(** Volumes added to a deployment that is built. *)
Definition withVolumes (vs : list Volume) (d : Deployment) : Deployment :=
  in_pod (λ p, p <| PodSpec_Volumes ::= λ l, l ++ vs |>) d.

(** ** Read-only services *)
Definition readOnly ref m :=
  m <| supportsReadOnlyService := true |>
    <| getReadonlyDeployment := λ _ _ deployment,
         let! oc := getoc in
         ret (Some (genReadonlyDeployment (GetComponentType m) oc deployment (specOf ref oc))) |>.

(** ** The service in the cloud follows the component *)
Definition follows (serviceName : string) ref m :=
  m <| getMcclientSyncFunc := λ oc, Some (λ s,
         syncServiceState serviceName (IsDisabled m oc)
           (supportsReadOnlyService m && hasSlaves ref oc) s) |>.
End managers.
