(* ===== verification/Managers.v ===== *)
(** * Managers: the managers of the core services

    Identity, compute, scheduling, the shell, logs, parameters, messages and
    monitoring: one manager per file of [pkg/manager/component]. Each is what
    [syncComponent] is given; the [Sync] methods that do more are in
    ClusterManagers. *)

From S2P Require Import Prelude K8s Types Constants GoStrings Defaults.
From S2P Require Import ControllerUtils LastApplied KubeApi Controls Session CloudApi Sync.
From S2P Require Import Volumes Endpoints Builders Components Options ServiceInit Services.
From S2P Require Import ManagerBase.

Open Scope string_scope.
Open Scope list_scope.
Open Scope go_scope.

Section managers.
Context {W : Type} `{!SessionEnv W, !JsonUtils, !CloudApi W, !OptionsLib W}.
Context `{!NodeLister W, !QuantityOps}.
Context `{!ResourceApi W Deployment, !ResourceApi W ConfigMap}.
Context (SessionDebug DisableNodeSelectorController : bool).
Context (man : ComponentManager W).

Let servedBy := servedBy man.
Let cloudService := cloudService (W := W) DisableNodeSelectorController.
Let server := server (W := W) DisableNodeSelectorController.
Let registers := registers (W := W) SessionDebug.

(** ** Identity *)

Definition keystoneDeploy : specEntry DeploymentSpec :=
  deploy3 KeystoneComponentType OnecloudClusterSpec_Keystone KeystoneSpec_DeploymentServiceSpec
    DeploymentServiceSpec_DeploymentSpec.

(*@ pkg/manager/component/keystone.go:84-93 getService *)
Definition keystone_getService (cfg : OnecloudClusterConfig) : SM W (list core_Service) :=
  let! oc := getoc in
  let spec := OnecloudClusterSpec_Keystone (OnecloudCluster_Spec oc) in
  let ports :=
    [servicePortAt "public" (KeystoneSpec_PublicService spec)
       (wrap32 (ServiceBaseConfig_Port (KeystoneConfig_ServiceBaseConfig
                  (OnecloudClusterConfig_Keystone cfg))));
     servicePortAt "admin" (KeystoneSpec_AdminService spec) KeystoneAdminPort] in
  ret (newNodePortService KeystoneComponentType oc (internalOnly (KeystoneSpec_AdminService spec))
         ports (hasSlaves keystoneDeploy oc)).

(*@ pkg/manager/component/keystone.go:104-157 getDeployment *)
Definition keystone_getDeployment : SM W Deployment :=
  let cType := KeystoneComponentType in
  let! oc := getoc in
  let! spec := read keystoneDeploy in
  let ports := [MkContainerPort "public" KeystonePublicPort "TCP" 0;
                MkContainerPort "admin" KeystoneAdminPort "TCP" 0] in
  newDefaultDeployment DisableNodeSelectorController cType cType
    (NewVolumeHelper oc (ComponentConfigMapName oc cType) cType) keystoneDeploy
    (Some (initContainers cType spec))
    (Some (serviceContainers cType spec ports
             (Some (generateReadinessProbe "/ping" KeystonePublicPort)))).

(*@ pkg/manager/component/keystone.go:30-179 newKeystoneComponentManager (type keystoneManager and its methods) *)
Definition newKeystoneComponentManager : cloudComponentFactory W :=
  (manages keystoneDeploy allVersions
     >-> withEngine (λ s, KeystoneSpec_DbEngine (OnecloudClusterSpec_Keystone s))
     >-> servedBy NewKeystone
     >-> reports (status2 OnecloudClusterStatus_Keystone KeystoneStatus_DeploymentStatus)
     >-> deploys (λ _, keystone_getDeployment)
     >-> readOnly keystoneDeploy
     >-> follows ServiceNameKeystone keystoneDeploy)
  <| getDBConfig := GetDefaultDBConfig NewKeystone |>
  <| getClickhouseConfig := GetDefaultClickhouseConfig NewKeystone |>
  <| getService := λ cfg _, keystone_getService cfg |>.

(** ** Compute *)

Definition regionPlace (s : OnecloudClusterSpec) : DeploymentServicePortSpec :=
  RegionSpec_DeploymentServicePortSpec (OnecloudClusterSpec_RegionServer s).
Definition regionDeploy : specEntry DeploymentSpec :=
  deploy3 RegionComponentType OnecloudClusterSpec_RegionServer RegionSpec_DeploymentServicePortSpec
    DeploymentServicePortSpec_DeploymentSpec.

(*@ pkg/manager/component/region.go:95-100 getService *)
Definition region_getService (cfg : OnecloudClusterConfig) : SM W (list core_Service) :=
  let! oc := getoc in
  let service := serviceAt regionPlace (OnecloudCluster_Spec oc) in
  ret (newNodePortService RegionComponentType oc (internalOnly service)
         [servicePortAt "api" service (dbPort region_conf cfg)] (hasSlaves regionDeploy oc)).

(*@ pkg/manager/component/region.go:30-135 newRegionManager (type regionManager and its methods) *)
Definition newRegionManager : cloudComponentFactory W :=
  (manages regionDeploy allVersions
     >-> withData region_conf (engineAt regionPlace) >-> withClickhouseData region_conf
     >-> servedBy NewRegion
     >-> deploysAsOperator (λ cfg,
           newCloudServiceSinglePortDeploymentWithReadinessProbePath DisableNodeSelectorController
             RegionComponentType "" regionDeploy (dbPort region_conf cfg) true true "/ping")
     >-> reports (status2 OnecloudClusterStatus_RegionServer RegionStatus_DeploymentStatus)
     >-> readOnly regionDeploy
     >-> follows ServiceNameRegionV2 regionDeploy)
  <| getService := λ cfg _, region_getService cfg |>.

(** The scheduler has no data base of its own. *)
(*@ pkg/manager/component/scheduler.go:33-107 newSchedulerManager (type schedulerManager and its methods) *)
Definition newSchedulerManager : cloudComponentFactory W :=
  let ref := portDeploy SchedulerComponentType OnecloudClusterSpec_Scheduler in
  manages ref allVersions
    >-> servedBy (NewScheduler SessionDebug)
    >-> configuredBy (λ cfg, wrap "scheduler: SetOptionsDefault"
          (GetConfig (NewScheduler SessionDebug) cfg))
    >-> exposes (serviceAt OnecloudClusterSpec_Scheduler) ref (λ _, SchedulerPort)
    >-> cloudService ref (λ _, SchedulerPort) false false
    >-> reports (status1 OnecloudClusterStatus_Scheduler)
    >-> follows ServiceNameScheduler ref.

(** ** The shell *)

(*@ pkg/manager/component/climc.go:70-88 getDeployment (containersF) *)
Definition climcContainers (oc : OnecloudCluster) (spec : DeploymentSpec) (volMounts : list VolumeMount)
  : list Container :=
  [(containerOf "climc" (DeploymentSpec_ContainerSpec spec) ["bash"; "/opt/climc-entrypoint.sh"]
      (volMounts ++ [mountReadOnly "rcadmin" YUNION_ETC_CONFIG_DIR]))
     <| Container_Env := GetRCAdminEnv oc true |>].

(*@ pkg/manager/component/climc.go:67-111 getDeployment *)
Definition climc_getDeployment : SM W Deployment :=
  let cType := ClimcComponentType in
  let ref := deploy1 cType OnecloudClusterSpec_Climc in
  let! oc := getoc in
  let! spec := read ref in
  let! deploy := newDefaultDeploymentNoInit DisableNodeSelectorController cType ""
                   (NewVolumeHelper oc "" cType) ref (climcContainers oc spec) in
  ret (withVolumes [configVolume "rcadmin" (ComponentConfigMapName oc cType)
                      [MkKeyToPath VolumeConfigName "rcadmin"]] deploy).

(*@ pkg/manager/component/climc.go:30-123 newClimcComponentManager (type climcManager and its methods) *)
Definition newClimcComponentManager : cloudComponentFactory W :=
  manages (deploy1 ClimcComponentType OnecloudClusterSpec_Climc) allVersions
    >-> configuredBy (λ _, let! oc := getoc in ret (ConfigText (GetRCAdminContent oc false)))
    >-> deploys (λ _, climc_getDeployment).

(** ** Logs, parameters, the map of the interfaces, messages *)

(*@ pkg/manager/component/logger.go:30-121 newLoggerManager (type loggerManager and its methods) *)
Definition newLoggerManager : cloudComponentFactory W :=
  let place := OnecloudClusterSpec_Logger in
  let conf := OnecloudClusterConfig_Logger in
  let ref := portDeploy LoggerComponentType OnecloudClusterSpec_Logger in
  manages ref allVersions
    >-> withData conf (engineAt place) >-> withClickhouseData conf
    >-> servedBy (NewLogger SessionDebug)
    >-> configuredInZone (GetConfig (NewLogger SessionDebug))
    >-> exposes (serviceAt place) ref (dbPort conf)
    >-> cloudService ref (λ _, LoggerPort) true false
    >-> reports (status1 OnecloudClusterStatus_Logger)
    >-> follows ServiceNameLogger ref.

(*@ pkg/manager/component/notify.go:32-123 newNotifyManager (type notifyManager and its methods) *)
Definition newNotifyManager : cloudComponentFactory W :=
  let svc s := NotifySpec_Service (OnecloudClusterSpec_Notify s) in
  let conf := OnecloudClusterConfig_Notify in
  let ref := deploy3 NotifyComponentType OnecloudClusterSpec_Notify NotifySpec_StatefulDeploymentSpec
               StatefulDeploymentSpec_DeploymentSpec in
  manages ref allVersions
    >-> withData conf (λ s, NotifySpec_DbEngine (OnecloudClusterSpec_Notify s))
    >-> withClickhouseData conf
    >-> servedBy (NewNotify SessionDebug)
    >-> configuredBy (λ cfg, wrap "set notify option" (GetConfig (NewNotify SessionDebug) cfg))
    >-> exposes svc ref (dbPort conf)
    >-> cloudService ref (dbPort conf) true true
    >-> reports (status1 OnecloudClusterStatus_Notify)
    >-> follows ServiceNameNotify ref.

Definition apimap_conf (cfg : OnecloudClusterConfig) : ServiceCommonOptions :=
  APIMapConfig_ServiceCommonOptions (OnecloudClusterConfig_ApiMap cfg).

(** The data base of the map of the interfaces is the region's. *)
(*@ pkg/manager/component/apimap.go:71-84 getConfigMap *)
Definition apimap_GetConfig (cfg : OnecloudClusterConfig) : SM W ConfigValue :=
  let type := "apimap/options.Options" in
  globalConfig type (λ oc,
    SetOptionsDefault type ServiceTypeApiMap ;;!
    assign_all ([SetOptionsServiceTLS false; commonOptions oc cfg (apimap_conf cfg)]
                ++ sslFiles ++ [set_int "Port" ApiMapPort])).

(*@ pkg/manager/component/apimap.go:34-122 newAPIMapManager (type apiMapManager and its methods) *)
Definition newAPIMapManager : cloudComponentFactory W :=
  let place := OnecloudClusterSpec_ApiMap in
  let ref := portDeploy ApiMapComponentType OnecloudClusterSpec_ApiMap in
  manages ref [ProductVersionFullStack; ProductVersionEdge; ProductVersionLightEdge; ProductVersionAI]
    >-> withAccount apimap_conf
    >-> configuredBy apimap_GetConfig
    >-> registers ServiceNameApiMap ServiceTypeApiMap (serviceAt place)
    >-> exposes (serviceAt place) ref (λ _, ApiMapPort)
    >-> cloudService ref (λ _, ApiMapPort) false false
    >-> reports (status1 OnecloudClusterStatus_APIMap)
    >-> follows ServiceNameApiMap ref.

(** ** Accounts in other clouds, monitoring of the cloud *)

(*@ pkg/manager/component/cloudid.go:31-125 newCloudIdManager (type cloudidManager and its methods) *)
Definition newCloudIdManager : cloudComponentFactory W :=
  let place := OnecloudClusterSpec_CloudId in
  let conf := OnecloudClusterConfig_CloudId in
  let ref := portDeploy CloudIdComponentType OnecloudClusterSpec_CloudId in
  manages ref [ProductVersionFullStack; ProductVersionCMP]
    >-> withData conf (engineAt place)
    >-> servedBy (NewCloudId SessionDebug)
    >-> exposes (serviceAt place) ref (dbPort conf)
    >-> server ref "server"
    >-> reports (status1 OnecloudClusterStatus_CloudId)
    >-> follows ServiceNameCloudId ref.

(** The deployment is built from a copy of the spec, which is written back. *)
(*@ pkg/manager/component/cloudmon.go:88-109 getDeployment *)
Definition cloudmon_getDeployment : SM W Deployment :=
  let cType := CloudmonComponentType in
  let ref := deploy2 cType OnecloudClusterSpec_Cloudmon CloudmonSpec_DeploymentSpec in
  let! oc := getoc in
  let! spec := read ref in
  newDefaultDeployment DisableNodeSelectorController cType ""
    (NewVolumeHelper oc (ComponentConfigMapName oc cType) cType) ref None
    (Some (λ volMounts, [containerOf cType (DeploymentSpec_ContainerSpec spec)
                           (service_command cType) volMounts])).

(*@ pkg/manager/component/cloudmon.go:19-125 newCloudMonManager (type cloudmonManager and its methods) *)
Definition newCloudMonManager : cloudComponentFactory W :=
  let svc s := CloudmonSpec_Service (OnecloudClusterSpec_Cloudmon s) in
  let conf := OnecloudClusterConfig_Cloudmon in
  let ref := deploy2 CloudmonComponentType OnecloudClusterSpec_Cloudmon CloudmonSpec_DeploymentSpec in
  manages ref [ProductVersionFullStack; ProductVersionCMP; ProductVersionEdge]
    >-> withAccount conf
    >-> servedBy (NewCloudmon SessionDebug)
    >-> exposes svc ref (λ cfg, configPort (conf cfg))
    >-> deploys (λ _, cloudmon_getDeployment)
    >-> reports (status1 OnecloudClusterStatus_Cloudmon).
End managers.
