(* ===== verification/ManagerSim.v ===== *)
(** * ManagerSim: a manager against a server in memory

    The region's manager and the parameters of the cloud in the world of
    KubeSim and CloudSim: the theorems on settling are applied to them. *)

From S2P Require Import Prelude K8s Types Constants GoStrings Defaults.
From S2P Require Import ControllerUtils LastApplied KubeApi Controls Session CloudApi.
From S2P Require Import Databases Sync SyncFacts KubeSim CloudSim Endpoints Builders.
From S2P Require Import Components Options GlobalSettings ManagerBase Managers.

Open Scope string_scope.
Open Scope list_scope.
Open Scope go_scope.

(** ** The parameters of the cloud *)

Definition settings_json (v : GlobalSettingsValue) : json :=
  JArr [gs_Dictionary v; JArr (map JStr (gs_SetupKeys v)); JStr (gs_SetupKeysVersion v);
        JBool (gs_SetupOneStackInitialized v); JStr (gs_ProductVersion v);
        JArr (map (λ '(k, b), JArr [JStr k; JBool b]) (map_to_list (gs_UserDefinedKeys v)))].

Fixpoint strings_of (l : list json) : list string :=
  match l with JStr s :: l => s :: strings_of l | _ => [] end.

Fixpoint switches_of (l : list json) : list (string * bool) :=
  match l with JArr [JStr k; JBool b] :: l => (k, b) :: switches_of l | _ => [] end.

Definition json_settings (j : json) : Res GlobalSettingsValue :=
  match j with
  | JArr [d; JArr keys; JStr version; JBool inited; JStr product; JArr user] =>
      Ok (MkGlobalSettingsValue d (strings_of keys) version inited product
            (list_to_map (switches_of user)))
  | _ => Err (ErrMsg "invalid settings")
  end.

#[export] Instance sim_settings : SettingsCodec.
Proof.
  refine {| Marshal_settings := settings_json; Unmarshal_settings := json_settings |}.
  intros [d keys version inited product user]. unfold settings_json, json_settings. simpl.
  assert (strings_of (map JStr keys) = keys) as -> by (induction keys; simpl; congruence).
  assert (∀ l, switches_of (map (λ '(k, b), JArr [JStr k; JBool b]) l) = l) as ->
    by (intros l; induction l as [|[k b] l IH]; simpl; congruence).
  by rewrite list_to_map_to_list.
Defined.

(** Parameters that say nothing about the features of today. *)
Definition old_settings : GlobalSettingsValue :=
  MkGlobalSettingsValue JNull ["public"; "default"] "2.0" true "" {[ "private" := false ]}.

Definition settings_world (oc : OnecloudCluster) : World :=
  sim_world <| w_objects ::= λ l, l ++ [(Parameters_conf,
    [("id", JInt 7); ("name", JStr "global-settings"); ("scope", JStr "system");
     ("value", Marshal_settings (wantedSettings oc (Some old_settings)))])] |>.

Lemma syncSettings_settles_witness :
  syncSettings sim_cluster sim_client (settings_world sim_cluster)
  = (settings_world sim_cluster, Ok tt).
Proof.
  apply (syncSettings_settles sim_cluster sim_client (settings_world sim_cluster)
           (Some old_settings) (JObj
    [("id", JInt 7); ("name", JStr "global-settings"); ("scope", JStr "system");
     ("value", Marshal_settings (wantedSettings sim_cluster (Some old_settings)))]) [] 1 7);
    reflexivity.
Defined.

(** ** The region's manager *)

#[export] Instance sim_nodes : NodeLister World := λ _, ret [].
#[export] Instance sim_quantities : QuantityOps := {|
  ParseQuantity _ := Ok (MkQuantity 0 0);
  AsInt64 q := Some (Quantity_value q)
|}.
#[export] Instance sim_options : OptionsLib World := {|
  options_load _ := ret ∅;
  options_store _ _ := ret tt;
  parser_SetDefault _ _ o := Ok o;
  FindBaseOptions _ := Ok tt;
  YAMLString name _ := name
|}.

Definition no_phase : PhaseControl World := MkPhaseControl World (ret tt) (ret tt).
Definition sim_man : ComponentManager World :=
  MkComponentManager World no_phase (λ _, no_phase) no_phase no_phase no_phase no_phase no_phase
    no_phase (Ok no_phase) no_phase no_phase.

Definition region : cloudComponentFactory World := newRegionManager false sim_man.

(** A cluster whose region has a read-only companion. *)
Definition region_spec : DeploymentSpec :=
  ((zero : DeploymentSpec) <| DeploymentSpec_Replicas := 1%Z |>) <| DeploymentSpec_SlaveReplicas := 2%Z |>.

Definition region_cluster : OnecloudCluster :=
  sim_cluster <| OnecloudCluster_Spec ::= λ s,
    se_upd regionDeploy (λ _, region_spec)
      (s <| OnecloudClusterSpec_ProductVersion := ProductVersionFullStack |>) |>.

(** What the manager builds, and the cluster it leaves. *)
Definition region_built : (OnecloudCluster * World) * Res (option Deployment) :=
  getDeployment region (defaulted zero) "" (region_cluster, sim_world).
Definition region_oc : OnecloudCluster := region_built.1.1.
Definition region_deployment : Deployment :=
  match region_built.2 with Ok (Some d) => d | _ => zero end.

#[local] Opaque region_built region_oc region_deployment.

Definition region_ro (d : Deployment) : option Deployment :=
  Some (genReadonlyDeployment RegionComponentType region_oc d (specOf regionDeploy region_oc)).

(** All the manager relies on: only the status of the cluster may change. *)
Definition region_inv (oc : OnecloudCluster) : Prop :=
  OnecloudCluster_ObjectMeta oc = OnecloudCluster_ObjectMeta region_oc ∧
  OnecloudCluster_Spec oc = OnecloudCluster_Spec region_oc.

(** The configuration of the cluster stays where it is. *)
Definition region_configs (w : World) : Prop :=
  w_configmaps w = w_configmaps (world_of region_oc zero).

Lemma region_builds st w :
  getDeployment region (defaulted zero) "" (MkOnecloudCluster (OnecloudCluster_ObjectMeta region_oc)
      (OnecloudCluster_Spec region_oc) st, w)
  = ((MkOnecloudCluster (OnecloudCluster_ObjectMeta region_oc)
      (OnecloudCluster_Spec region_oc) st, w), Ok (Some region_deployment)).
Proof. vm_compute. reflexivity. Qed.

Lemma region_reads_only cfg oc w d : region_inv oc →
  getReadonlyDeployment region cfg "" d (oc, w) = ((oc, w), Ok (region_ro d)).
Proof.
  intros [Hm Hs].
  assert (getReadonlyDeployment region cfg "" d (oc, w) = ((oc, w),
    Ok (Some (genReadonlyDeployment RegionComponentType oc d (specOf regionDeploy oc))))) as ->
    by reflexivity.
  unfold region_ro, genReadonlyDeployment, getComponentLabel, specOf. by rewrite Hm, Hs.
Qed.

Lemma region_wanted st :
  ¬ to_be_gone false region (MkOnecloudCluster (OnecloudCluster_ObjectMeta region_oc)
      (OnecloudCluster_Spec region_oc) st).
Proof. rewrite <- deploymentUnwanted_spec. vm_compute. discriminate. Qed.

Lemma region_ro_wf d r : obj_name d = obj_name region_deployment → region_ro d = Some r →
  wf_deployment r ∧ obj_name r ≠ obj_name region_deployment.
Proof.
  intros Hn [= <-]. split; [split; [vm_compute; reflexivity|by eexists]|].
  replace (obj_name (genReadonlyDeployment _ _ _ _)) with (obj_name d +:+ "-slave") by done.
  rewrite Hn. vm_compute. discriminate.
Qed.

Lemma region_wf : wf_deployment region_deployment.
Proof. split; [vm_compute; reflexivity|]. exists 1%Z. vm_compute. reflexivity. Qed.

Lemma region_status r g oc :
  getDeploymentStatus region "" = Some r → region_inv oc →
  region_inv (assign r g oc) ∧ oc_ns (assign r g oc) = oc_ns oc.
Proof. intros [= <-] HI. split; [exact HI|reflexivity]. Qed.

Lemma region_manages :
  SyncFacts.manages region_configs false region "" (.= defaulted zero) region_inv false region_deployment region_ro.
Proof.
  split.
  - intros oc w [Hm Hs] [Hw _]. exists 0%nat.
    exists (defaulted zero). split; [|done].
    apply (world_config region_oc zero oc w); [..|exact Hw]; unfold oc_ns, oc_name; by rewrite Hm.
  - intros cfg [m s st] w -> [Hm Hs] _. simpl in Hm, Hs. subst m s.
    eexists. split_and!; [apply region_builds|by split|done].
  - intros cfg oc w d' _ HI _. by apply region_reads_only.
  - intros [m s st] [Hm Hs]. simpl in Hm, Hs. subst m s. split; [done|]. intros H. by destruct (region_wanted st).
  - exact region_status.
  - exact region_wf.
  - exact region_ro_wf.
Qed.

Lemma world_of_empty oc cfg ns n (o : Deployment) (P : Prop) :
  stored (world_of oc cfg) ns n = Some o → P.
Proof.
  change (mem (w_deployments (world_of oc cfg)) !! (ns, n) = Some o → P).
  assert (w_deployments (world_of oc cfg) = MkMemStore ∅) as ->
    by (unfold world_of; by destruct (clusterConfigToConfigMap oc cfg)).
  cbn [mem]. by rewrite lookup_empty.
Qed.

Lemma region_ns : oc_ns region_oc = "".
Proof. vm_compute. reflexivity. Qed.

Lemma region_name : obj_name region_deployment = "default-region".
Proof. vm_compute. reflexivity. Qed.

Lemma region_ro_name :
  obj_name (genReadonlyDeployment RegionComponentType region_oc region_deployment
              (specOf regionDeploy region_oc)) = "default-region-slave".
Proof. vm_compute. reflexivity. Qed.

Lemma region_ro_replicas :
  apps_DeploymentSpec_Replicas (Deployment_Spec (genReadonlyDeployment RegionComponentType region_oc
    region_deployment (specOf regionDeploy region_oc))) = Some 2%Z.
Proof. vm_compute. reflexivity. Qed.

(** Two syncs create the region server and its companion; a third writes
    nothing. *)
Lemma syncDeployment_settles_witness :
  let sync := syncDeployment false region (Some (newPostSyncComponent region)) "" in
  let s2 := (sync (sync (region_oc, world_of region_oc zero)).1).1 in
  (∃ now, stored (T:=Deployment) s2.2 "" "default-region" = Some now ∧
     applied (Deployment_Spec region_deployment) now) ∧
  is_Some (stored (T:=Deployment) s2.2 "" "default-region-slave") ∧ (sync s2).1.2 = s2.2.
Proof.
  intros sync s2.
  destruct (syncDeployment_settles region_configs false region "" (.= defaulted zero) region_inv false
              region_deployment region_ro region_oc (world_of region_oc zero))
    as (_ & _ & H2 & H3 & _ & n & H5).
  - intros spec. by eexists.
  - intros spec. by eexists.
  - intros ns d w Hw. unfold region_configs. simpl. unfold on_part. simpl. by case_match.
  - intros ns d w Hw. unfold region_configs. simpl. unfold on_part. simpl. by case_match.
  - intros ns n w Hw. unfold region_configs. simpl. unfold on_part. simpl. by case_match.
  - intros n w Hw. exact Hw.
  - exact region_manages.
  - by split.
  - split; [done|]. intros ns n o. apply world_of_empty.
  - split_and!; [..|exact H5].
    + destruct H2 as (now & Hnow & Ha & _). rewrite region_ns, region_name in Hnow.
      exists now. split; [exact Hnow|exact Ha].
    + specialize (H3 eq_refl (genReadonlyDeployment RegionComponentType region_oc region_deployment
                         (specOf regionDeploy region_oc)) eq_refl).
      rewrite region_ro_replicas, region_ns, region_ro_name in H3. destruct H3 as (now & Hnow & _). exists now. exact Hnow.
Defined.
