(* ===== verification/ServiceManagers.v ===== *)
(** * ServiceManagers: the managers of the other services with a data base

    Parameters, kubernetes clusters, playbooks, monitoring, tools, models,
    suggestions, networks, proxies, events, reports, bills, meters, updates
    and consoles. *)

From S2P Require Import Prelude K8s Types Constants GoStrings Defaults.
From S2P Require Import ControllerUtils LastApplied KubeApi Controls Session CloudApi Sync.
From S2P Require Import Volumes Endpoints Phases Builders Components Options ServiceInit.
From S2P Require Import Services GlobalSettings ManagerBase.

Open Scope string_scope.
Open Scope list_scope.
Open Scope go_scope.

Section managers.
Context {W : Type} `{!SessionEnv W, !JsonUtils, !CloudApi W, !OptionsLib W, !SettingsCodec}.
Context `{!NodeLister W, !QuantityOps}.
Context `{!ResourceApi W Deployment, !ResourceApi W ConfigMap}.
Context (SessionDebug DisableNodeSelectorController : bool).
Context (man : ComponentManager W).

Let servedBy := servedBy man.
Let cloudService := cloudService (W := W) DisableNodeSelectorController.
Let server := server (W := W) DisableNodeSelectorController.
Let registers := registers (W := W) SessionDebug.

(*@ pkg/manager/component/yunionconf.go:30-117 newYunionconfManager (type yunoinconfManager and its methods) *)
Definition newYunionconfManager : cloudComponentFactory W :=
  let place := OnecloudClusterSpec_Yunionconf in
  let conf := OnecloudClusterConfig_Yunionconf in
  let ref := portDeploy YunionconfComponentType OnecloudClusterSpec_Yunionconf in
  manages ref allVersions
    >-> withData conf (engineAt place)
    >-> servedBy (NewYunionconf SessionDebug man)
    >-> exposes (serviceAt place) ref (dbPort conf)
    >-> cloudService ref (dbPort conf) false false
    >-> reports (status1 OnecloudClusterStatus_Yunionconf)
    >-> follows ServiceNameYunionConf ref.

(** The lister of the nodes is the operator's. *)
(*@ pkg/manager/component/kubeserver.go:31-126 newKubeManager (type kubeManager and its methods) *)
Definition newKubeManager : cloudComponentFactory W :=
  let place := OnecloudClusterSpec_KubeServer in
  let conf := OnecloudClusterConfig_KubeServer in
  let ref := portDeploy KubeServerComponentType OnecloudClusterSpec_KubeServer in
  (manages ref allVersions
     >-> withData conf (engineAt place) >-> withClickhouseData conf
     >-> configuredBy (GetConfig NewKubeserver)
     >-> exposes (serviceAt place) ref (dbPort conf)
     >-> deploysAsOperator (λ cfg,
           newCloudServiceSinglePortDeployment DisableNodeSelectorController KubeServerComponentType
             "" ref (dbPort conf cfg) true true)
     >-> reports (status1 OnecloudClusterStatus_KubeServer)
     >-> follows ServiceNameKubeServer ref)
  <| getPhaseControl := λ _, Some (man_KubeServer man true) |>.

(*@ pkg/manager/component/ansibleserver.go:31-128 newAnsibleManager (type ansibleManager and its methods) *)
Definition newAnsibleManager : cloudComponentFactory W :=
  let place := OnecloudClusterSpec_AnsibleServer in
  let conf := OnecloudClusterConfig_AnsibleServer in
  let ref := portDeploy AnsibleServerComponentType OnecloudClusterSpec_AnsibleServer in
  manages ref [ProductVersionFullStack; ProductVersionCMP; ProductVersionEdge; ProductVersionAI]
    >-> withData conf (engineAt place)
    >-> servedBy (NewAnsibleServer SessionDebug)
    >-> exposes (serviceAt place) ref (dbPort conf)
    >-> server ref "server"
    >-> reports (status1 OnecloudClusterStatus_AnsibleServer)
    >-> readOnly ref
    >-> follows ServiceNameAnsibleServer ref.

(*@ pkg/manager/component/monitor.go:31-132 newMonitorManager (type monitorManager and its methods) *)
Definition newMonitorManager : cloudComponentFactory W :=
  let place := OnecloudClusterSpec_Monitor in
  let conf := OnecloudClusterConfig_Monitor in
  let ref := portDeploy MonitorComponentType OnecloudClusterSpec_Monitor in
  manages ref allVersions
    >-> withData conf (engineAt place) >-> withClickhouseData conf
    >-> servedBy NewMonitor
    >-> exposes (serviceAt place) ref (dbPort conf)
    >-> server ref "monitor"
    >-> reports (status1 OnecloudClusterStatus_Monitor)
    >-> follows ServiceNameMonitor ref.

(** ** Services whose options are set by their managers *)

(*@ pkg/manager/component/devtool.go:81-103 getConfigMap *)
Definition devtool_GetConfig (cfg : OnecloudClusterConfig) : SM W ConfigValue :=
  let type := "devtool/options.Options" in
  let conf := OnecloudClusterConfig_Devtool in
  globalConfig type (λ oc, dbService type ServiceTypeDevtool false conf OnecloudClusterSpec_Devtool
    [port_of (conf cfg); set_bool "AutoSyncTable" true] oc cfg).

(*@ pkg/manager/component/devtool.go:32-133 newDevtoolManager (type devtoolManager and its methods) *)
Definition newDevtoolManager : cloudComponentFactory W :=
  let place := OnecloudClusterSpec_Devtool in
  let conf := OnecloudClusterConfig_Devtool in
  let ref := portDeploy DevtoolComponentType OnecloudClusterSpec_Devtool in
  (manages ref [ProductVersionFullStack; ProductVersionCMP; ProductVersionEdge; ProductVersionAI]
     >-> withData conf (engineAt place)
     >-> configuredBy devtool_GetConfig
     >-> exposes (serviceAt place) ref (dbPort conf)
     >-> cloudService ref (dbPort conf) false false
     >-> reports (status1 OnecloudClusterStatus_Devtool)
     >-> follows ServiceNameDevtool ref)
  <| getPhaseControl := λ _, Some (man_Devtool man) |>.

(*@ pkg/manager/component/llm.go:81-103 getConfigMap *)
Definition llm_GetConfig (cfg : OnecloudClusterConfig) : SM W ConfigValue :=
  let type := "llm/options.Options" in
  let conf := OnecloudClusterConfig_LLM in
  globalConfig type (λ oc, dbService type ServiceTypeLLM false conf OnecloudClusterSpec_LLM
    [port_of (conf cfg); set_bool "AutoSyncTable" true] oc cfg).

(** Disabled by the user alone, whatever the version of the product. *)
(*@ pkg/manager/component/llm.go:32-133 newLLMManager (type llmManager and its methods) *)
Definition newLLMManager : cloudComponentFactory W :=
  let place := OnecloudClusterSpec_LLM in
  let conf := OnecloudClusterConfig_LLM in
  let ref := portDeploy LLMComponentType OnecloudClusterSpec_LLM in
  ((manages ref [ProductVersionFullStack; ProductVersionCMP; ProductVersionEdge; ProductVersionAI])
     <| IsDisabled := λ oc, DeploymentSpec_Disable (specOf ref oc) |>
     >-> withData conf (engineAt place)
     >-> configuredBy llm_GetConfig
     >-> exposes (serviceAt place) ref (dbPort conf)
     >-> cloudService ref (dbPort conf) false false
     >-> reports (status1 OnecloudClusterStatus_LLM)
     >-> follows ServiceNameLLM ref)
  <| getPhaseControl := λ _, Some (man_LLM man) |>.

(*@ pkg/manager/component/suggestion.go:81-104 getConfigMap *)
Definition suggestion_GetConfig (cfg : OnecloudClusterConfig) : SM W ConfigValue :=
  let type := "suggestionOptions" in
  newConfig type (λ oc, dbService type ServiceTypeSuggestion false OnecloudClusterConfig_Suggestion
    OnecloudClusterSpec_Suggestion
    ([set_bool "AutoSyncTable" true] ++ sslFiles ++ [set_int "Port" SuggestionPort]) oc cfg).

(** It has no status. *)
(*@ pkg/manager/component/suggestion.go:20-137 newSuggestionManager (type suggestionManager and its methods) *)
Definition newSuggestionManager : cloudComponentFactory W :=
  let place := OnecloudClusterSpec_Suggestion in
  let conf := OnecloudClusterConfig_Suggestion in
  let ref := portDeploy SuggestionComponentType OnecloudClusterSpec_Suggestion in
  managesEE ref [ProductVersionFullStack; ProductVersionCMP; ProductVersionEdge; ProductVersionAI]
    >-> withData conf (engineAt place)
    >-> registers ServiceNameSuggestion ServiceTypeSuggestion (serviceAt place)
    >-> exposes (serviceAt place) ref (λ _, SuggestionPort)
    >-> configuredBy suggestion_GetConfig
    >-> server ref "suggestion"
    >-> follows ServiceNameSuggestion ref.

(*@ pkg/manager/component/cloudnetserver.go:80-103 getConfigMap *)
Definition cloudnet_GetConfig (cfg : OnecloudClusterConfig) : SM W ConfigValue :=
  let type := "cloudnet/options.Options" in
  let conf := OnecloudClusterConfig_Cloudnet in
  globalConfig type (λ oc, dbService type ServiceTypeCloudnet false conf OnecloudClusterSpec_Cloudnet
    ([set_bool "AutoSyncTable" true] ++ sslFiles ++ [port_of (conf cfg)]) oc cfg).

(** Unless it is enabled, the component is disabled; nothing follows it in the
    cloud. *)
(*@ pkg/manager/component/cloudnetserver.go:33-138 newCloudnetManager (type cloudnetManager and its methods) *)
Definition newCloudnetManager : cloudComponentFactory W :=
  let place := OnecloudClusterSpec_Cloudnet in
  let conf := OnecloudClusterConfig_Cloudnet in
  let ref := portDeploy CloudnetComponentType OnecloudClusterSpec_Cloudnet in
  let versions := [ProductVersionFullStack] in
  (manages ref versions)
    <| IsDisabled := λ oc, DeploymentSpec_Disable (specOf ref oc)
         || negb (OnecloudClusterSpec_EnableCloudNet (OnecloudCluster_Spec oc))
         || negb (inVersions versions oc) |>
    >-> withData conf (engineAt place)
    >-> registers ServiceNameCloudnet ServiceTypeCloudnet (serviceAt place)
    >-> configuredBy cloudnet_GetConfig
    >-> exposes (serviceAt place) ref (dbPort conf)
    >-> server ref "server"
    >-> reports (status1 OnecloudClusterStatus_Cloudnet).

(*@ pkg/manager/component/cloudproxyserver.go:82-110 getConfigMap *)
Definition cloudproxy_GetConfig (cfg : OnecloudClusterConfig) : SM W ConfigValue :=
  let type := "cloudproxy/options.Options" in
  let conf := OnecloudClusterConfig_Cloudproxy in
  newConfig type (λ oc, dbService type ServiceTypeCloudproxy false conf OnecloudClusterSpec_Cloudproxy
    ([set_bool "AutoSyncTable" true] ++ sslFiles ++
     [set_bool "EnableProxyAgent" true; set_str "ProxyAgentId" GetDefaultProxyAgentName;
      port_of (conf cfg)]) oc cfg).

(*@ pkg/manager/component/cloudproxyserver.go:34-151 newCloudproxyManager (type cloudproxyManager and its methods) *)
Definition newCloudproxyManager : cloudComponentFactory W :=
  let place := OnecloudClusterSpec_Cloudproxy in
  let conf := OnecloudClusterConfig_Cloudproxy in
  let ref := portDeploy CloudproxyComponentType OnecloudClusterSpec_Cloudproxy in
  (manages ref [ProductVersionFullStack; ProductVersionCMP; ProductVersionEdge]
     >-> withData conf (engineAt place)
     >-> configuredBy cloudproxy_GetConfig
     >-> exposes (serviceAt place) ref (dbPort conf)
     >-> server ref "server"
     >-> reports (status1 OnecloudClusterStatus_Cloudproxy)
     >-> follows ServiceNameCloudproxy ref)
  <| getPhaseControl := λ _, Some (man_Cloudproxy man) |>.

(*@ pkg/manager/component/cloudevent.go:87-111 getConfigMap *)
Definition cloudevent_GetConfig (cfg : OnecloudClusterConfig) : SM W ConfigValue :=
  let type := "cloudevent/options.Options" in
  let conf := OnecloudClusterConfig_Cloudevent in
  globalConfig type (λ oc, dbService type ServiceTypeCloudevent true conf OnecloudClusterSpec_Cloudevent
    ([set_bool "AutoSyncTable" true] ++ sslFiles ++ [port_of (conf cfg)]) oc cfg).

(** The pull policy of the image is that of another component. *)
(*@ pkg/manager/component/cloudevent.go:117-130 getDeployment *)
Definition cloudevent_getDeployment : SM W Deployment :=
  let cType := CloudeventComponentType in
  let ref := portDeploy cType OnecloudClusterSpec_Cloudevent in
  let! oc := getoc in
  let! spec := read ref in
  let! cloudnet := read (portDeploy CloudnetComponentType OnecloudClusterSpec_Cloudnet) in
  newDefaultDeploymentNoInit DisableNodeSelectorController cType ""
    (NewVolumeHelper oc (ComponentConfigMapName oc cType) cType) ref
    (λ volMounts,
       [(containerOf "server" (DeploymentSpec_ContainerSpec spec) (service_command cType) volMounts)
          <| Container_ImagePullPolicy :=
               ContainerSpec_ImagePullPolicy (DeploymentSpec_ContainerSpec cloudnet) |>]).

(*@ pkg/manager/component/cloudevent.go:34-152 newCloudeventManager (type cloudeventManager and its methods) *)
Definition newCloudeventManager : cloudComponentFactory W :=
  let place := OnecloudClusterSpec_Cloudevent in
  let conf := OnecloudClusterConfig_Cloudevent in
  let ref := portDeploy CloudeventComponentType OnecloudClusterSpec_Cloudevent in
  manages ref [ProductVersionFullStack; ProductVersionCMP]
    >-> withData conf (engineAt place) >-> withClickhouseData conf
    >-> registers ServiceNameCloudevent ServiceTypeCloudevent (serviceAt place)
    >-> configuredBy cloudevent_GetConfig
    >-> exposes (serviceAt place) ref (dbPort conf)
    >-> deploys (λ _, cloudevent_getDeployment)
    >-> reports (status1 OnecloudClusterStatus_Cloudevent)
    >-> follows ServiceNameCloudevent ref.

(*@ pkg/manager/component/report.go:92-116 getConfigMap *)
Definition report_GetConfig (cfg : OnecloudClusterConfig) : SM W ConfigValue :=
  let type := "reportOptions" in
  let conf := OnecloudClusterConfig_Report in
  newConfig type (λ oc, dbService type ServiceTypeReport true conf OnecloudClusterSpec_Report
    [set_bool "AutoSyncTable" true; port_of (conf cfg)] oc cfg).

(*@ pkg/manager/component/report.go:32-157 newReportManager (type reportManager and its methods) *)
Definition newReportManager : cloudComponentFactory W :=
  let place := OnecloudClusterSpec_Report in
  let conf := OnecloudClusterConfig_Report in
  let ref := portDeploy ReportComponentType OnecloudClusterSpec_Report in
  managesEE ref [ProductVersionFullStack; ProductVersionCMP; ProductVersionEdge; ProductVersionAI]
    >-> withData conf (engineAt place) >-> withClickhouseData conf
    >-> registers ServiceNameReport ServiceTypeReport (serviceAt place)
    >-> configuredBy report_GetConfig
    >-> exposes (serviceAt place) ref (dbPort conf)
    >-> server ref "report"
    >-> reports (status1 OnecloudClusterStatus_Report)
    >-> follows ServiceNameReport ref.

(*@ pkg/manager/component/billing.go:91-117 getConfigMap *)
Definition billing_GetConfig (cfg : OnecloudClusterConfig) : SM W ConfigValue :=
  let type := "option.CommonDBOptions" in
  let conf := OnecloudClusterConfig_Billing in
  newConfig type (λ oc, dbService type ServiceTypeBilling true conf OnecloudClusterSpec_Billing
    [port_of (conf cfg)] oc cfg).

(*@ pkg/manager/component/billing.go:31-143 newBillingManager (type billingManager and its methods) *)
Definition newBillingManager : cloudComponentFactory W :=
  let place := OnecloudClusterSpec_Billing in
  let conf := OnecloudClusterConfig_Billing in
  let ref := portDeploy BillingComponentType OnecloudClusterSpec_Billing in
  managesEE ref [ProductVersionFullStack; ProductVersionCMP; ProductVersionEdge]
    >-> withData conf (engineAt place) >-> withClickhouseData conf
    >-> registers ServiceNameBilling ServiceTypeBilling (serviceAt place)
    >-> exposes (serviceAt place) ref (dbPort conf)
    >-> configuredBy billing_GetConfig
    >-> cloudService ref (dbPort conf) true false
    >-> reports (status1 OnecloudClusterStatus_BillingStatus)
    >-> readOnly ref
    >-> follows ServiceNameBilling ref.

(** ** Meters *)

Definition meter_conf (cfg : OnecloudClusterConfig) : ServiceDBCommonOptions :=
  MeterConfig_ServiceDBCommonOptions (OnecloudClusterConfig_Meter cfg).
Definition meterDeploy : specEntry DeploymentSpec :=
  deploy3 MeterComponentType OnecloudClusterSpec_Meter MeterSpec_StatefulDeploymentSpec
    StatefulDeploymentSpec_DeploymentSpec.

(*@ pkg/manager/component/meter.go:107-138 getConfigMap *)
Definition meter_GetConfig (cfg : OnecloudClusterConfig) : SM W ConfigValue :=
  let type := "meterOptions" in
  let config := meter_conf cfg in
  newConfig type (λ oc,
    SetOptionsDefault type ServiceTypeMeter ;;!
    assign_all [
      SetDBOptions oc (MeterSpec_DbEngine (OnecloudClusterSpec_Meter (OnecloudCluster_Spec oc)))
        (ServiceDBCommonOptions_DB config);
      clickhouseOptions oc config; SetOptionsServiceTLS false; commonOptions oc cfg (common config);
      set_str "BillingFileDirectory" (path_Join [MeterDataStore; MeterBillingDataDir]);
      set_str "CloudratesFileDirectory" (path_Join [MeterDataStore; MeterRatesDataDir]);
      set_str "AwsRiPlanIdHandle" MeterAwsRiPlanIdHandle;
      set_str "InfluxdbMeterName" MeterInfluxDB;
      set_bool "MonthlyBill" true;
      set_bool "AutoSyncTable" true; port_of config]).

(** Its data base user is made in MySQL, whatever the engine of its options. *)
(*@ pkg/manager/component/meter.go:35-172 newMeterManager (type meterManager and its methods) *)
Definition newMeterManager : cloudComponentFactory W :=
  let svc s := MeterSpec_Service (OnecloudClusterSpec_Meter s) in
  ((managesEE meterDeploy [ProductVersionFullStack; ProductVersionCMP; ProductVersionEdge]
      >-> withData meter_conf (λ _, "") >-> withClickhouseData meter_conf)
     <| getDBEngine := λ _, DBEngineMySQL |>)
    >-> registers ServiceNameMeter ServiceTypeMeter svc
    >-> exposes svc meterDeploy (dbPort meter_conf)
    >-> configuredBy meter_GetConfig
    >-> deploys (λ _,
          wrap "newCloudServiceSinglePortDeploymentWithReadinessProbePath"
            (newCloudServiceSinglePortDeploymentWithReadinessProbePath DisableNodeSelectorController
               MeterComponentType "" meterDeploy MeterPort true false "/ping"))
    >-> reports (status2 OnecloudClusterStatus_Meter MeterStatus_DeploymentStatus)
    >-> readOnly meterDeploy
    >-> follows ServiceNameMeter meterDeploy.

(** ** Updates and consoles *)

(*@ pkg/manager/component/autoupdate.go:105-139 getConfigMap *)
Definition autoupdate_GetConfig (cfg : OnecloudClusterConfig) : SM W ConfigValue :=
  let type := "autoUpdateOptions" in
  let conf := OnecloudClusterConfig_AutoUpdate in
  newConfig type (λ oc, dbService type ServiceTypeAutoUpdate true conf OnecloudClusterSpec_AutoUpdate
    [port_of (conf cfg); set_str "UpdateServer" "https://iso.yunion.cn";
     set_float "UpdateCheckIntervalHours" 1; set_int "HostUpdateStartHour" 2;
     set_int "HostUpdateStopHour" 4; set_str "HostUpdateTimeZone" "Asia/Shanghai";
     set_bool "KubernetesMode" true; set_str "Channel" "stable"] oc cfg).

(*@ pkg/manager/component/autoupdate.go:34-176 newAutoUpdateManager (type autoUpdateManager and its methods) *)
Definition newAutoUpdateManager : cloudComponentFactory W :=
  let place := OnecloudClusterSpec_AutoUpdate in
  let conf := OnecloudClusterConfig_AutoUpdate in
  let ref := portDeploy AutoUpdateComponentType OnecloudClusterSpec_AutoUpdate in
  managesEE ref allVersions
    >-> withData conf (engineAt place) >-> withClickhouseData conf
    >-> registers ServiceNameAutoUpdate ServiceTypeAutoUpdate (serviceAt place)
    >-> forceWithoutDB autoupdate_GetConfig
    >-> exposes (serviceAt place) ref (dbPort conf)
    >-> deploysAsOperator (λ cfg,
          newCloudServiceSinglePortDeployment DisableNodeSelectorController AutoUpdateComponentType
            "" ref (dbPort conf cfg) true false)
    >-> reports (status1 OnecloudClusterStatus_AutoUpdate)
    >-> follows ServiceNameAutoUpdate ref.

Definition webconsolePlace (s : OnecloudClusterSpec) : DeploymentServicePortSpec :=
  WebconsoleSpec_DeploymentServicePortSpec (OnecloudClusterSpec_Webconsole s).
Definition webconsoleDeploy : specEntry DeploymentSpec :=
  deploy3 WebconsoleComponentType OnecloudClusterSpec_Webconsole
    WebconsoleSpec_DeploymentServicePortSpec DeploymentServicePortSpec_DeploymentSpec.

(** The console and the desktop proxy share a drive. *)
(*@ pkg/manager/component/webconsole.go:104-143 getDeployment *)
Definition webconsole_getDeployment : SM W Deployment :=
  let cType := WebconsoleComponentType in
  let drive := mount "rdp-drive" "/opt/cloudpods" in
  let! oc := getoc in
  let! spec := read webconsoleDeploy in
  let guacd := WebconsoleSpec_Guacd (OnecloudClusterSpec_Webconsole (OnecloudCluster_Spec oc)) in
  let! deploy := newDefaultDeploymentNoInit DisableNodeSelectorController cType ""
    (NewVolumeHelper oc (ComponentConfigMapName oc cType) cType) webconsoleDeploy
    (λ volMounts,
       [containerOf WebComponentType (DeploymentSpec_ContainerSpec spec) (service_command cType)
          (volMounts ++ [drive]);
        containerOf GuacdComponentType guacd [] [drive]]) in
  ret (withVolumes [emptyDirVolume "rdp-drive"] deploy).

(*@ pkg/manager/component/webconsole.go:32-165 newWebconsoleManager (type webconsoleManager and its methods) *)
Definition newWebconsoleManager : cloudComponentFactory W :=
  let conf := OnecloudClusterConfig_Webconsole in
  manages webconsoleDeploy allVersions
    >-> withData conf (engineAt webconsolePlace) >-> withClickhouseData conf
    >-> servedBy (NewWebconsole SessionDebug)
    >-> forceWithoutDB (GetConfig (NewWebconsole SessionDebug))
    >-> exposes (serviceAt webconsolePlace) webconsoleDeploy (dbPort conf)
    >-> deploys (λ _, webconsole_getDeployment)
    >-> reports (status1 OnecloudClusterStatus_Webconsole)
    >-> follows ServiceNameWebconsole webconsoleDeploy.
End managers.
