(* ===== verification/GatewayManagers.v ===== *)
(** * GatewayManagers: the managers of gateways and of small services

    The API gateway, the object gateway, scheduled tasks, the bastion host,
    external data bases, the agent of the virtual networks, and the proxies of
    the language models. *)

From S2P Require Import Prelude K8s Types Constants GoStrings Defaults GoNet.
From S2P Require Import ControllerUtils LastApplied KubeApi Controls Session CloudApi Sync.
From S2P Require Import Volumes Endpoints Builders Components Options ServiceInit Services.
From S2P Require Import Templates Texts ManagerBase.

Open Scope string_scope.
Open Scope list_scope.
Open Scope go_scope.

Section managers.
Context {W : Type} `{!SessionEnv W, !JsonUtils, !CloudApi W, !OptionsLib W}.
Context `{!NodeLister W, !QuantityOps}.
Context `{!ResourceApi W Deployment, !ResourceApi W ConfigMap}.
Context (SessionDebug DisableNodeSelectorController : bool).
Context (man : ComponentManager W).

Let servedBy := servedBy man.
Let phasedBy := phasedBy man.
Let cloudService := cloudService (W := W) DisableNodeSelectorController.
Let server := server (W := W) DisableNodeSelectorController.
Let registers := registers (W := W) SessionDebug.
Let withoutInit := newDefaultDeploymentNoInit (W := W) DisableNodeSelectorController.

(** ** The API gateway *)

Definition apigatewayDeploy : specEntry DeploymentSpec :=
  deploy2 APIGatewayComponentType OnecloudClusterSpec_APIGateway APIGatewaySpec_DeploymentSpec.

(*@ pkg/manager/component/apigateway.go:86-93 getService *)
Definition apigateway_getService (cfg : OnecloudClusterConfig) : SM W (list core_Service) :=
  let! oc := getoc in
  let spec := OnecloudClusterSpec_APIGateway (OnecloudCluster_Spec oc) in
  let ports :=
    [servicePortAt "api" (APIGatewaySpec_APIService spec)
       (configPort (OnecloudClusterConfig_APIGateway cfg));
     servicePortAt "ws" (APIGatewaySpec_WSService spec) APIWebsocketPort] in
  ret (newNodePortService APIGatewayComponentType oc (internalOnly (APIGatewaySpec_APIService spec))
         ports (hasSlaves apigatewayDeploy oc)).

(** The web socket has a container of its own in the enterprise editions. *)
(*@ pkg/manager/component/apigateway.go:97-121 getDeployment (cf) *)
Definition apigatewayContainers (isEE : bool) (port : Z) (spec : ContainerSpec)
    (volMounts : list VolumeMount) : list Container :=
  let run cmd := [cmd; "--config"; "/etc/yunion/apigateway.conf"] in
  (containerOf "api" spec
     (run (if isEE then "/opt/yunion/bin/yunionapi" else "/opt/yunion/bin/apigateway")) volMounts)
    <| Container_ReadinessProbe := Some (generateReadinessProbe "/ping" port) |>
  :: (if isEE then [containerOf "ws" spec (run "/opt/yunion/bin/ws") volMounts] else []).

(** Every container mounts the data. *)
(*@ pkg/manager/component/apigateway.go:95-153 getDeployment *)
Definition apigateway_getDeployment (cfg : OnecloudClusterConfig) : SM W Deployment :=
  let cType := APIGatewayComponentType in
  let! oc := getoc in
  let! spec := read apigatewayDeploy in
  let! deploy := withoutInit cType "" (NewVolumeHelper oc (ComponentConfigMapName oc cType) cType)
    apigatewayDeploy
    (apigatewayContainers (IsEEOrESEEdition oc) (configPort (OnecloudClusterConfig_APIGateway cfg))
       (DeploymentSpec_ContainerSpec spec)) in
  let mountData c := c <| Container_VolumeMounts ::= λ ms, ms ++ [mount "data" "/etc/yunion/data/"] |> in
  ret (in_pod (λ p, p <| PodSpec_Containers ::= map mountData |>)
         (withVolumes [emptyDirVolume "data"] deploy)).

(*@ pkg/manager/component/apigateway.go:31-175 newAPIGatewayManager (type apiGatewayManager and its methods) *)
Definition newAPIGatewayManager : cloudComponentFactory W :=
  ((manages apigatewayDeploy allVersions)
    >-> withAccount OnecloudClusterConfig_APIGateway
    >-> configuredBy (GetConfig (NewApiGateway SessionDebug))
    >-> deploys apigateway_getDeployment
    >-> reports (status1 OnecloudClusterStatus_APIGateway)
    >-> follows ServiceNameAPIGateway apigatewayDeploy)
  <| getService := λ cfg _, apigateway_getService cfg |>
  <| getPhaseControl := λ _, Some (man_Apigateway man) |>.

(** ** The AI proxy: a service and an ingress *)

(*@ pkg/manager/component/aiproxy.go:33-33 TRAEFIK_SERVICE_SCHEME *)
Definition TRAEFIK_SERVICE_SCHEME : string := "traefik.ingress.kubernetes.io/service.serversscheme".

(** The paths of an ingress, each with a service and its port. *)
Definition ingressPath (path svcName : string) (port : Z) : json :=
  JObj [("backend", JObj [
           ("service", JObj [("name", JStr svcName); ("port", JObj [("number", JInt port)])]);
           ("serviceName", JStr svcName); ("servicePort", JInt port)]);
        ("path", JStr path); ("pathType", JStr "Prefix")].

Definition ingressSpec (secretName : string) (paths : list json) : json :=
  JObj [("rules", JArr [JObj [("http", JObj [("paths", JArr paths)])]]);
        ("tls", JArr [JObj [("secretName", JStr secretName)]])].

Definition ingressObject (oc : OnecloudCluster) (name : string) (labels : Label) (spec : json)
    (annotations : list (string * string)) : Unstructured :=
  MkUnstructured ((getObjectMeta oc name labels)
                    <| ObjectMeta_Annotations := list_to_map annotations |>)
    [("spec", spec)].

Definition aiproxyDeploy : specEntry DeploymentSpec :=
  portDeploy AiProxyComponentType OnecloudClusterSpec_AiProxy.

(*@ pkg/manager/component/aiproxy.go:101-158 getIngress *)
Definition aiproxy_getIngress (disabled : bool) (oc : OnecloudCluster) : option Unstructured :=
  if disabled then None
  else
    let svcName := NewClusterComponentName (oc_name oc) AiProxyComponentType in
    Some (ingressObject oc svcName (getComponentLabel oc AiProxyComponentType false)
      (ingressSpec (ClustercertSecretName oc) [ingressPath "/ai/" svcName AiProxyPort])
      [("nginx.ingress.kubernetes.io/backend-protocol", "HTTPS");
       ("nginx.ingress.kubernetes.io/proxy-ssl-verify", "off");
       ("nginx.ingress.kubernetes.io/proxy-read-timeout", "600");
       ("nginx.ingress.kubernetes.io/proxy-buffering", "off")]).

(** An ingress that is asked for again; using a nil one panics. *)
Definition again (ing : option Unstructured) : SM W Unstructured :=
  match ing with Some i => ret i | None => panic "nil pointer dereference" end.

Definition annotateService (k v : string) (svc : core_Service) : core_Service :=
  svc <| core_Service_ObjectMeta ::= λ m, m <| ObjectMeta_Annotations ::= <[k := v]> |> |>.

Definition aiproxyService (m : cloudComponentFactory W) : cloudComponentFactory W :=
  m <| getService := λ cfg zone,
         let! svcs := getService m cfg zone in
         ret (map (annotateService TRAEFIK_SERVICE_SCHEME "https") svcs) |>.

(*@ pkg/manager/component/aiproxy.go:36-191 newAiProxyManager (type aiProxyManager and its methods) *)
Definition newAiProxyManager : cloudComponentFactory W :=
  let place := OnecloudClusterSpec_AiProxy in
  let conf := OnecloudClusterConfig_AiProxy in
  let disabled oc := DeploymentSpec_Disable (specOf aiproxyDeploy oc) in
  (((manages aiproxyDeploy
      [ProductVersionFullStack; ProductVersionCMP; ProductVersionEdge; ProductVersionAI])
     <| IsDisabled := disabled |>)
    >-> withData conf (engineAt place)
    >-> servedBy (NewAiProxy SessionDebug)
    >-> configuredInZone (GetConfig (NewAiProxy SessionDebug))
    >-> exposes (serviceAt place) aiproxyDeploy (dbPort conf) >-> aiproxyService
    >-> cloudService aiproxyDeploy (dbPort conf) false false
    >-> reports (status1 OnecloudClusterStatus_AiProxy)
    >-> follows ServiceNameAiProxy aiproxyDeploy)
  <| getIngress := λ _, let! oc := getoc in ret (aiproxy_getIngress (disabled oc) oc) |>
  <| updateIngress := λ _, let! oc := getoc in again (aiproxy_getIngress (disabled oc) oc) |>.

(*@ pkg/manager/component/mcp-server.go:31-115 newMcpServerManager (type mcpServerManager and its methods) *)
Definition newMcpServerManager : cloudComponentFactory W :=
  let place := OnecloudClusterSpec_McpServer in
  let ref := portDeploy McpServerComponentType OnecloudClusterSpec_McpServer in
  ((manages ref [ProductVersionFullStack; ProductVersionCMP; ProductVersionEdge; ProductVersionAI])
     <| IsDisabled := λ oc, DeploymentSpec_Disable (specOf ref oc) |>)
    >-> servedBy (NewMcpServer SessionDebug)
    >-> configuredInZone (GetConfig (NewMcpServer SessionDebug))
    >-> exposes (serviceAt place) ref (λ _, McpServerPort)
    >-> cloudService ref (λ _, McpServerPort) false false
    >-> reports (status1 OnecloudClusterStatus_McpServer)
    >-> withAccount (λ cfg, common (OnecloudClusterConfig_McpServer cfg))
    >-> follows ServiceNameMcpServer ref.

(** ** Tasks, objects, the bastion host, external data bases, networks *)

(*@ pkg/manager/component/scheduledtask.go:17-90 newScheduledtaskManager (type scheduledtaskManager and its methods) *)
Definition newScheduledtaskManager : cloudComponentFactory W :=
  let place := OnecloudClusterSpec_Scheduledtask in
  let ref := portDeploy ScheduledtaskComponentType OnecloudClusterSpec_Scheduledtask in
  manages ref [ProductVersionFullStack; ProductVersionCMP; ProductVersionEdge; ProductVersionAI]
    >-> servedBy (NewScheduledTask SessionDebug)
    >-> exposes (serviceAt place) ref (λ _, ScheduledtaskPort)
    >-> cloudService ref (λ _, ScheduledtaskPort) true false
    >-> reports (status1 OnecloudClusterStatus_Scheduledtask)
    >-> follows ServiceNameScheduledtask ref.

(*@ pkg/manager/component/s3gateway.go:74-84 getConfigMap *)
Definition s3gateway_GetConfig (cfg : OnecloudClusterConfig) : SM W ConfigValue :=
  let type := "s3gateway/options.Options" in
  globalConfig type (λ oc,
    SetOptionsDefault type ServiceTypeS3gateway ;;!
    assign_all [SetOptionsServiceTLS false; commonOptions oc cfg (OnecloudClusterConfig_S3gateway cfg)]).

(*@ pkg/manager/component/s3gateway.go:32-114 newS3gatewayManager (type s3gatewayManager and its methods) *)
Definition newS3gatewayManager : cloudComponentFactory W :=
  let place := OnecloudClusterSpec_S3gateway in
  let conf := OnecloudClusterConfig_S3gateway in
  let ref := portDeploy S3gatewayComponentType OnecloudClusterSpec_S3gateway in
  let versions := [ProductVersionFullStack; ProductVersionCMP] in
  ((manages ref versions)
     <| IsDisabled := λ oc, DeploymentSpec_Disable (specOf ref oc)
          || negb (OnecloudClusterSpec_EnableS3Gateway (OnecloudCluster_Spec oc))
          || negb (inVersions versions oc) |>)
    >-> withAccount conf
    >-> registers ServiceNameS3gateway ServiceTypeS3gateway (serviceAt place)
    >-> configuredBy s3gateway_GetConfig
    >-> exposes (serviceAt place) ref (λ cfg, configPort (conf cfg))
    >-> cloudService ref (λ cfg, configPort (conf cfg)) false false
    >-> reports (status1 OnecloudClusterStatus_S3gateway)
    >-> follows ServiceNameS3gateway ref.

(*@ pkg/manager/component/bastionhost.go:83-106 getConfigMap *)
Definition bastionhost_GetConfig (cfg : OnecloudClusterConfig) : SM W ConfigValue :=
  let type := "option.CommonDBOptions" in
  let conf := OnecloudClusterConfig_BastionHost in
  newConfig type (λ oc, dbService type ServiceTypeBastionHost false conf OnecloudClusterSpec_BastionHost
    (sslFiles ++ [port_of (conf cfg)]) oc cfg).

(*@ pkg/manager/component/bastionhost.go:33-136 newBastionHostManager (type bastionHostManager and its methods) *)
Definition newBastionHostManager : cloudComponentFactory W :=
  let place := OnecloudClusterSpec_BastionHost in
  let conf := OnecloudClusterConfig_BastionHost in
  let ref := portDeploy BastionHostComponentType OnecloudClusterSpec_BastionHost in
  managesEE ref [ProductVersionFullStack; ProductVersionCMP; ProductVersionEdge]
    >-> withData conf (engineAt place)
    >-> registers ServiceNameBastionHost ServiceTypeBastionHost (serviceAt place)
    >-> configuredBy bastionhost_GetConfig
    >-> exposes (serviceAt place) ref (dbPort conf)
    >-> cloudService ref (dbPort conf) true false
    >-> reports (status1 OnecloudClusterStatus_BastionHost)
    >-> follows ServiceNameBastionHost ref.

(*@ pkg/manager/component/extdb.go:91-114 getConfigMap *)
Definition extdb_GetConfig (cfg : OnecloudClusterConfig) : SM W ConfigValue :=
  let type := "extdbOptions" in
  let conf := OnecloudClusterConfig_Extdb in
  newConfig type (λ oc, dbService type ServiceTypeExtdb true conf OnecloudClusterSpec_Extdb
    [set_bool "AutoSyncTable" true; port_of (conf cfg)] oc cfg).

(*@ pkg/manager/component/extdb.go:32-155 newExtdbManager (type extdbManager and its methods) *)
Definition newExtdbManager : cloudComponentFactory W :=
  let place := OnecloudClusterSpec_Extdb in
  let conf := OnecloudClusterConfig_Extdb in
  let ref := portDeploy ExtdbComponentType OnecloudClusterSpec_Extdb in
  managesEE ref [ProductVersionFullStack; ProductVersionCMP; ProductVersionEdge]
    >-> withData conf (engineAt place) >-> withClickhouseData conf
    >-> registers ServiceNameExtdb ServiceTypeExtdb (serviceAt place)
    >-> configuredBy extdb_GetConfig
    >-> exposes (serviceAt place) ref (dbPort conf)
    >-> server ref "extdb"
    >-> reports (status1 OnecloudClusterStatus_Extdb)
    >-> follows ServiceNameExtdb ref.

Definition vpcagent_conf (cfg : OnecloudClusterConfig) : ServiceCommonOptions :=
  VpcAgentConfig_ServiceCommonOptions (OnecloudClusterConfig_VpcAgent cfg).

(*@ pkg/manager/component/vpcagent.go:72-103 getConfigMap *)
Definition vpcagent_GetConfig (cfg : OnecloudClusterConfig) : SM W ConfigValue :=
  let type := "vpcagent/options.Options" in
  newConfig type (λ oc,
    SetOptionsDefault type ServiceTypeVpcagent ;;!
    assign_all ([
      set_str "OvnNorthDatabase"
        ("tcp:" +:+ NewClusterComponentName (oc_name oc) OvnNorthComponentType +:+ ":"
         +:+ dec OvnNorthDbPort);
      SetOptionsServiceTLS false; commonOptions oc cfg (vpcagent_conf cfg)]
      ++ sslFiles ++ [set_int "Port" VpcAgentPort])).

(*@ pkg/manager/component/vpcagent.go:35-141 newVpcAgentManager (type vpcAgentManager and its methods) *)
Definition newVpcAgentManager : cloudComponentFactory W :=
  let place := OnecloudClusterSpec_VpcAgent in
  let ref := portDeploy VpcAgentComponentType OnecloudClusterSpec_VpcAgent in
  let versions :=
    [ProductVersionFullStack; ProductVersionEdge; ProductVersionLightEdge; ProductVersionAI] in
  ((manages ref versions)
     <| IsDisabled := λ oc, DeploymentSpec_Disable (specOf ref oc) || negb (inVersions versions oc)
          || OnecloudClusterSpec_DisableLocalVpc (OnecloudCluster_Spec oc) |>)
    >-> withAccount vpcagent_conf
    >-> configuredBy vpcagent_GetConfig
    >-> registers ServiceNameVpcagent ServiceTypeVpcagent (serviceAt place)
    >-> exposes (serviceAt place) ref (λ cfg, configPort (vpcagent_conf cfg))
    >-> cloudService ref (λ cfg, configPort (vpcagent_conf cfg)) false false
    >-> reports (status1 OnecloudClusterStatus_VpcAgent)
    >-> follows ServiceNameVpcagent ref.
End managers.
