(* ===== verification/AgentManagers.v ===== *)
(** * AgentManagers: managers with deployments of their own making

    The multi-cloud tool, the chart server, the agent, the ticket service, the
    resource operator and the time series data bases. *)

From S2P Require Import Prelude K8s Types Constants GoStrings Defaults.
From S2P Require Import ControllerUtils LastApplied KubeApi Controls Session CloudApi Databases.
From S2P Require Import Sync Volumes Endpoints Builders Components Options ServiceInit.
From S2P Require Import Services Templates Texts ManagerBase.

Open Scope string_scope.
Open Scope list_scope.
Open Scope go_scope.

(** A spec that keeps a copy of the deployment's fields, as a place: the code
    builds the deployment from the copy and writes it back. *)
Definition resOr {A} (d : A) (r : Res A) : A := match r with Ok a => a | _ => d end.

Definition cloudmuxDeploy : specEntry DeploymentSpec :=
  MkSpecEntry CloudmuxComponentType
    (λ s, resOr zero (CloudmuxSpec_ToDeploymentSpec (OnecloudClusterSpec_Cloudmux s)))
    (λ g s, s <| OnecloudClusterSpec_Cloudmux ::= λ c,
       CloudmuxSpec_FillBySpec c (g (resOr zero (CloudmuxSpec_ToDeploymentSpec c))) |>) false.

Definition echartsDeploy : specEntry DeploymentSpec :=
  MkSpecEntry EChartsSSRComponentType
    (λ s, resOr zero (EChartsSSRSpec_ToDeploymentSpec (OnecloudClusterSpec_EChartsSSR s)))
    (λ g s, s <| OnecloudClusterSpec_EChartsSSR ::= λ c,
       EChartsSSRSpec_FillBySpec c (g (resOr zero (EChartsSSRSpec_ToDeploymentSpec c))) |>) false.

(** ** The configuration of the ticket service *)

(*@ pkg/manager/component/itsm.go:136-144 JavaBaseConfig *)
Record JavaBaseConfig := MkJavaBaseConfig {
  java_Port : Z;
  java_AuthURL : string;
  java_AuthDomain : string;
  java_AuthUsername : string;
  java_AuthPassword : string;
  java_AuthProject : string;
  java_Region : string
}.

(*@ pkg/manager/component/itsm.go:127-134 JavaDBConfig *)
Record JavaDBConfig := MkJavaDBConfig {
  java_base : JavaBaseConfig;
  java_DBHost : string;
  java_DBPort : Z;
  java_DB : string;
  java_DBUser : string;
  java_DBPassowrd : string
}.

(*@ pkg/manager/component/itsm.go:121-125 ItsmConfigOption *)
Record ItsmConfigOption := MkItsmConfigOption {
  itsm_db : JavaDBConfig;
  itsm_DB2nd : string;
  itsm_EncryptionKey : string
}.

(*@ pkg/manager/component/itsm.go:230-240 NewJavaBaseConfig *)
Definition NewJavaBaseConfig (oc : OnecloudCluster) (port : Z) (user passwd : string)
  : JavaBaseConfig :=
  MkJavaBaseConfig port (GetAuthURL oc) DefaultDomain user passwd SysAdminProject
    (OnecloudClusterSpec_Region (OnecloudCluster_Spec oc)).

(*@ pkg/manager/component/itsm.go:217-228 NewJavaDBConfig *)
Definition NewJavaDBConfig (oc : OnecloudCluster) (cfg : ServiceDBCommonOptions) : JavaDBConfig :=
  let user := ServiceCommonOptions_CloudUser (common cfg) in
  let db := ServiceDBCommonOptions_DB cfg in
  let mysql := OnecloudClusterSpec_Mysql (OnecloudCluster_Spec oc) in
  MkJavaDBConfig
    (NewJavaBaseConfig oc (servicePort (common cfg)) (CloudUser_Username user) (CloudUser_Password user))
    (FormatHost (Mysql_Host mysql)) (Mysql_Port mysql) (DBConfig_Database db) (DBConfig_Username db)
    (DBConfig_Password db).

(** The fields of the embedded structs are promoted. *)
Definition itsm_struct (c : ItsmConfigOption) : struct :=
  let d := itsm_db c in
  let b := java_base d in
  [("DB2nd", TStr (itsm_DB2nd c)); ("EncryptionKey", TStr (itsm_EncryptionKey c));
   ("DBHost", TStr (java_DBHost d)); ("DBPort", TInt (java_DBPort d)); ("DB", TStr (java_DB d));
   ("DBUser", TStr (java_DBUser d)); ("DBPassowrd", TStr (java_DBPassowrd d));
   ("Port", TInt (java_Port b)); ("AuthURL", TStr (java_AuthURL b));
   ("AuthDomain", TStr (java_AuthDomain b)); ("AuthUsername", TStr (java_AuthUsername b));
   ("AuthPassword", TStr (java_AuthPassword b)); ("AuthProject", TStr (java_AuthProject b));
   ("Region", TStr (java_Region b))].

Definition itsm_conf (cfg : OnecloudClusterConfig) : ServiceDBCommonOptions :=
  ItsmConfig_ServiceDBCommonOptions (OnecloudClusterConfig_Itsm cfg).

(*@ pkg/manager/component/itsm.go:199-207 getConfigMap *)
Definition itsm_config (oc : OnecloudCluster) (cfg : OnecloudClusterConfig) : ItsmConfigOption :=
  MkItsmConfigOption (NewJavaDBConfig oc (itsm_conf cfg))
    (ItsmConfig_SecondDatabase (OnecloudClusterConfig_Itsm cfg))
    (ItsmConfig_EncryptionKey (OnecloudClusterConfig_Itsm cfg)).

(** The last element, changed; there must be one. *)
Fixpoint on_last {A} (g : A → Res A) (l : list A) : Res (list A) :=
  match l with
  | [] => Panic "index out of range"
  | [x] => res_map (λ y, [y]) (g x)
  | x :: l => res_map (cons x) (on_last g l)
  end.

(*@ pkg/manager/component/itsm.go:113-113 JAVA_APP_WORKING_DIR *)
Definition JAVA_APP_WORKING_DIR : string := "/deployments".

(*@ pkg/manager/component/itsm.go:282-287 SetJavaConfigVolumeMounts *)
Definition SetJavaConfigVolumeMounts (volMounts : list VolumeMount) : Res (list VolumeMount) :=
  on_last (λ confVol, Ok (confVol <| VolumeMount_MountPath := JAVA_APP_WORKING_DIR +:+ "/config" |>))
    volMounts.

(** The volume must be that of a config map with an item: its path is set. *)
Definition configFileAs (path : string) (config : Volume) : Res Volume :=
  match VolumeSource_ConfigMap (Volume_VolumeSource config) with
  | None => Panic "nil pointer dereference"
  | Some cm =>
      match ConfigMapVolumeSource_Items cm with
      | [] => Panic "index out of range"
      | item :: items =>
          Ok (config <| Volume_VolumeSource ::= λ s, s <| VolumeSource_ConfigMap := Some (
                cm <| ConfigMapVolumeSource_Items :=
                        (item <| KeyToPath_Path := path |>) :: items |>) |> |>)
      end
  end.

(*@ pkg/manager/component/itsm.go:289-294 SetJavaConfigVolumes *)
Definition SetJavaConfigVolumes (vols : list Volume) : Res (list Volume) :=
  on_last (configFileAs "application.properties") vols.

Section managers.
Context {W : Type} `{!SessionEnv W, !JsonUtils, !CloudApi W, !OptionsLib W}.
Context `{!NodeLister W, !QuantityOps}.
Context `{!ResourceApi W Deployment, !ResourceApi W ConfigMap}.
Context (SessionDebug DisableNodeSelectorController : bool).
Context (man : ComponentManager W).

Let servedBy := servedBy man.
Let phasedBy := phasedBy man.
Let withoutInit := newDefaultDeploymentNoInit (W := W) DisableNodeSelectorController.

(** ** The multi-cloud tool *)

(*@ pkg/manager/component/cloudmux.go:57-76 getDeployment *)
Definition cloudmux_getDeployment : SM W Deployment :=
  let! oc := getoc in
  let! spec := lift (CloudmuxSpec_ToDeploymentSpec (OnecloudClusterSpec_Cloudmux (OnecloudCluster_Spec oc))) in
  withoutInit CloudmuxComponentType "" (NewVolumeHelper oc "" CloudmuxComponentType) cloudmuxDeploy
    (λ volMounts, [containerOf "cloudmux" (DeploymentSpec_ContainerSpec spec)
                     ["tail"; "-f"; "/dev/null"] volMounts]).

(** [IsDisabled] follows the pointer [Disable]. Defaulting has set it; were it
    nil, building the deployment, which comes first, would have panicked. *)
(*@ pkg/manager/component/cloudmux.go:27-88 newCloudmuxComponentManager (type cloudmuxManager and its methods) *)
Definition newCloudmuxComponentManager : cloudComponentFactory W :=
  let versions := [ProductVersionFullStack; ProductVersionCMP; ProductVersionEdge] in
  baseManager CloudmuxComponentType
    (λ oc, default true (CloudmuxSpec_Disable (OnecloudClusterSpec_Cloudmux (OnecloudCluster_Spec oc)))
           || negb (inVersions versions oc)) versions
    >-> deploys (λ _, cloudmux_getDeployment).

(** ** The chart server *)

(*@ pkg/manager/component/echarts-ssr.go:63-73 getService *)
Definition echarts_getService : SM W (list core_Service) :=
  let! oc := getoc in
  ret [newService EChartsSSRComponentType oc "ClusterIP"
         [MkServicePort "server" "TCP" EChartsSSRPort (MkIntOrString 0 EChartsSSRPort "") 0] false].

(*@ pkg/manager/component/echarts-ssr.go:75-100 getDeployment *)
Definition echarts_getDeployment : SM W Deployment :=
  let! oc := getoc in
  let! spec := lift (EChartsSSRSpec_ToDeploymentSpec
                       (OnecloudClusterSpec_EChartsSSR (OnecloudCluster_Spec oc))) in
  withoutInit EChartsSSRComponentType "" (NewVolumeHelper oc "" EChartsSSRComponentType) echartsDeploy
    (λ volMounts, [(containerOf EChartsSSRComponentType (DeploymentSpec_ContainerSpec spec) [] volMounts)
       <| Container_Ports := [MkContainerPort "server" EChartsSSRPort "TCP" 0] |>]).

(** Only the docker-compose tool, which runs no manager, has no phase here. *)
Definition phaseOr (r : Res (PhaseControl W)) : PhaseControl W :=
  match r with
  | Ok p => p
  | Err e => MkPhaseControl W (throw e) (throw e)
  | Panic p => MkPhaseControl W (panic p) (panic p)
  end.

(*@ pkg/manager/component/echarts-ssr.go:31-126 newEChartsSSR (type echartsSSRManager and its methods) *)
Definition newEChartsSSR : cloudComponentFactory W :=
  let versions := [ProductVersionFullStack; ProductVersionCMP; ProductVersionEdge] in
  let disabled oc :=
    default false (EChartsSSRSpec_Disable (OnecloudClusterSpec_EChartsSSR (OnecloudCluster_Spec oc)))
    || negb (IsEnterpriseEdition oc) || negb (inVersions versions oc) in
  (baseManager EChartsSSRComponentType disabled versions
     >-> deploys (λ _, echarts_getDeployment)
     >-> reports (status1 OnecloudClusterStatus_ECharts))
  <| getService := λ _ _, echarts_getService |>
  <| getPhaseControl := λ _, Some (phaseOr (man_EChartsSSR man)) |>
  <| getMcclientSyncFunc := λ oc,
       Some (λ s, syncServiceState ServiceNameEChartsSSR (disabled oc) false s) |>.

(** ** The agent: a daemon set behind a headless service *)

Definition yunionagentSpec : OnecloudCluster → YunionagentSpec := λ oc,
  OnecloudClusterSpec_Yunionagent (OnecloudCluster_Spec oc).

(*@ pkg/manager/component/yunionagent.go:89-112 getConfigMap *)
Definition yunionagent_GetConfig (cfg : OnecloudClusterConfig) : SM W ConfigValue :=
  let type := "yunionagentOptions" in
  let config := OnecloudClusterConfig_Yunionagent cfg in
  newConfig type (λ oc,
    SetOptionsDefault type ServiceTypeYunionAgent ;;!
    assign_all [
      SetDBOptions oc (YunionagentSpec_DbEngine (yunionagentSpec oc)) (ServiceDBCommonOptions_DB config);
      SetOptionsServiceTLS false; commonOptions oc cfg (common config); set_bool "AutoSyncTable" true;
      set_int "Port" (nodePort (YunionagentSpec_Service (yunionagentSpec oc)))]).

(*@ pkg/manager/component/yunionagent.go:114-126 getService *)
Definition yunionagent_getService : SM W (list core_Service) :=
  let! oc := getoc in
  let appLabel := getComponentLabel oc YunionagentComponentType false in
  ret [Mkcore_Service
         (getObjectMeta oc (NewClusterComponentName (oc_name oc) YunionagentComponentType) appLabel)
         ((zero : core_ServiceSpec) <| core_ServiceSpec_ClusterIP := "None" |>
            <| core_ServiceSpec_Selector := appLabel |>)].

(** A selector that is set is shared with the cluster's spec, which the label
    is then added to as well. *)
(*@ pkg/manager/component/yunionagent.go:151-156 getDaemonSet (NodeSelector) *)
Definition selectController (spec : DaemonSetSpec) : DaemonSetSpec * bool :=
  if DisableNodeSelectorController then (spec, false)
  else (spec <| DaemonSetSpec_NodeSelector ::= <[OnecloudControllerLabelKey := "enable"]> |>,
        negb (bool_decide (DaemonSetSpec_NodeSelector spec = ∅))).

(*@ pkg/manager/component/yunionagent.go:128-166 getDaemonSet *)
Definition yunionagent_getDaemonSet : SM W DaemonSet :=
  let cType := YunionagentComponentType in
  let! oc := getoc in
  let '(spec, shared) := selectController (YunionagentSpec_DaemonSetSpec (yunionagentSpec oc)) in
  let command := service_command cType
    ++ (if String.eqb (GetEdition oc) OnecloudEnterpriseSupportEdition
        then ["--edition"; GetEdition oc] else []) in
  (if shared then
     modoc (λ oc, oc <| OnecloudCluster_Spec ::= λ s, s <| OnecloudClusterSpec_Yunionagent ::= λ y,
       y <| YunionagentSpec_DaemonSetSpec ::= λ d,
         d <| DaemonSetSpec_NodeSelector := DaemonSetSpec_NodeSelector spec |> |> |> |>)
   else ret tt) ;;!
  let! ds := newDaemonSet cType (NewVolumeHelper oc (ComponentConfigMapName oc cType) cType) spec "" []
               (λ volMounts, [containerOf cType (DaemonSetSpec_ContainerSpec spec) command volMounts]) in
  ret (in_ds_pod (λ p, p <| PodSpec_ServiceAccountName := ServiceAccountOnecloudOperator |>) ds).

(*@ pkg/manager/component/yunionagent.go:34-184 newYunionagentManager (type yunionagentManager and its methods) *)
Definition newYunionagentManager : cloudComponentFactory W :=
  let disabled oc :=
    DaemonSetSpec_Disable (YunionagentSpec_DaemonSetSpec (yunionagentSpec oc))
    || negb (IsEEOrESEEdition oc) || negb (inVersions allVersions oc) in
  (baseManager YunionagentComponentType disabled allVersions
     >-> withData OnecloudClusterConfig_Yunionagent
           (λ s, YunionagentSpec_DbEngine (OnecloudClusterSpec_Yunionagent s))
     >-> configuredBy yunionagent_GetConfig)
  <| getPhaseControl := λ _, Some (man_YunionAgent man) |>
  <| getService := λ _ _, yunionagent_getService |>
  <| getDaemonSet := λ _ _, let! ds := yunionagent_getDaemonSet in ret (Some ds) |>
  <| getMcclientSyncFunc := λ oc,
       Some (λ s, syncServiceState ServiceNameYunionAgent (disabled oc) false s) |>.

(** ** The ticket service *)

Definition itsmDeploy : specEntry DeploymentSpec :=
  portDeploy ItsmComponentType OnecloudClusterSpec_Itsm.

(*@ pkg/manager/component/itsm.go:246-276 getDeployment *)
Definition itsm_getDeployment : SM W Deployment :=
  let cType := ItsmComponentType in
  let! oc := getoc in
  let! spec := read itsmDeploy in
  let h := NewVolumeHelper oc (ComponentConfigMapName oc cType) cType in
  let! volMounts := lift (SetJavaConfigVolumeMounts (GetVolumeMounts h)) in
  let env k v := (zero : EnvVar) <| EnvVar_Name := k |> <| EnvVar_Value := v |> in
  let! deploy := withoutInit cType "" h itsmDeploy
    (λ _, [(containerOf "itsm" (DeploymentSpec_ContainerSpec spec) [] volMounts)
             <| Container_Env := [env "JAVA_APP_JAR" "itsm.jar";
                                  env "JAVA_OPTIONS" "-Xms1024M -Xmx1024M"] |>]) in
  let! vols := lift (SetJavaConfigVolumes (PodSpec_Volumes (pod_of deploy))) in
  ret (in_pod (λ p, p <| PodSpec_Volumes := vols |>) deploy).

(** The account it gets is that of its second data base. *)
(*@ pkg/manager/component/itsm.go:146-312 newItsmManager (type itsmManager and its methods) *)
Definition newItsmManager : cloudComponentFactory W :=
  let place := OnecloudClusterSpec_Itsm in
  (managesEE itsmDeploy [ProductVersionFullStack; ProductVersionCMP; ProductVersionEdge]
     >-> withAccount (λ cfg, common (itsm_conf cfg))
     >-> configuredBy (λ cfg, let! oc := getoc in
           textConfig (CompileTemplateFromMap ItsmTemplate (itsm_struct (itsm_config oc cfg))))
     >-> exposes (serviceAt place) itsmDeploy (dbPort itsm_conf)
     >-> deploys (λ _, itsm_getDeployment)
     >-> reports (status1 OnecloudClusterStatus_Itsm)
     >-> follows ServiceNameItsm itsmDeploy)
  <| getDBConfig := λ cfg, Some ((ServiceDBCommonOptions_DB (itsm_conf cfg))
       <| DBConfig_Database := ItsmConfig_SecondDatabase (OnecloudClusterConfig_Itsm cfg) |>) |>
  <| getDBEngine := λ _, DBEngineMySQL |>
  <| getPhaseControl := λ _, Some (atCluster (λ spec,
       NewItsmEndpointComponent SessionDebug ItsmComponentType ServiceNameItsm ServiceTypeItsm
         (portOf place spec) "")) |>.

(** ** The resource operator *)

Definition operatorDeploy : specEntry DeploymentSpec :=
  portDeploy ServiceOperatorComponentType OnecloudClusterSpec_ServiceOperator.

(*@ pkg/manager/component/service_operator.go:80-94 getConfigMap *)
Definition serviceoperator_GetConfig (cfg : OnecloudClusterConfig) : SM W ConfigValue :=
  let user := ServiceCommonOptions_CloudUser (OnecloudClusterConfig_ServiceOperator cfg) in
  newConfig "OnecloudResourceOperatorOption" (λ oc, assign_all [
    set_bool "EnableWebhooks" false; set_bool "APDense" true; set_int "SyncPeriod" 15;
    set_str "AuthURL" (GetAuthURL oc); set_str "AdminUsername" (CloudUser_Username user);
    set_str "AdminPassword" (CloudUser_Password user); set_str "AdminProject" SysAdminProject;
    set_str "AdminDomain" DefaultDomain]).

Definition controlPlane : gmap string string → gmap string string :=
  <["control-plane" := "controller-manager"]>.

(** Neither affinity nor resources of the spec are used; its component label
    is the name of its account. *)
(*@ pkg/manager/component/service_operator.go:96-204 getDeployment *)
Definition serviceoperator_getDeployment : SM W Deployment :=
  let! oc := getoc in
  let! spec := read operatorDeploy in
  let cType := ServiceOperatorComponentType in
  let labels := controlPlane (getComponentLabel oc ServiceOperatorAdminUser false) in
  let image := DeploymentSpec_ContainerSpec spec in
  let pod := (zero : PodSpec)
    <| PodSpec_NodeSelector := DeploymentSpec_NodeSelector spec |>
    <| PodSpec_RestartPolicy := "Always" |>
    <| PodSpec_Tolerations := DeploymentSpec_Tolerations spec |>
    <| PodSpec_Volumes := [cfgVolume (ComponentConfigMapName oc cType) "oro.conf"] |>
    <| PodSpec_ServiceAccountName := "onecloud-operator" |>
    <| PodSpec_Containers :=
         [containerOf "manager" image ["/manager"; "--config"; ConfigDir +:+ "/oro.conf"]
            [mountReadOnly VolumeConfigName ConfigDir]] |>
    <| PodSpec_InitContainers :=
         [containerOf "init" image ["kubectl"; "apply"; "-f"; "/etc/crds/"] []] |>
    <| PodSpec_Affinity :=
         if DisableNodeSelectorController then None
         else Some ((zero : Affinity) <| Affinity_NodeAffinity := Some ((zero : NodeAffinity)
                <| NodeAffinity_RequiredDuringSchedulingIgnoredDuringExecution :=
                     Some controllerNodes |>) |>) |> in
  ret (MkDeployment
    (getObjectMeta oc (NewClusterComponentName (oc_name oc) cType) labels)
    (Mkapps_DeploymentSpec (Some (DeploymentSpec_Replicas spec)) (label_Selector labels)
       (MkPodTemplateSpec ((zero : ObjectMeta) <| ObjectMeta_Labels := labels |>) pod) zero)
    zero).

(*@ pkg/manager/component/service_operator.go:206-214 getService *)
Definition onControlPlane (svc : core_Service) : core_Service :=
  svc <| core_Service_ObjectMeta ::= λ m, m <| ObjectMeta_Labels ::= controlPlane |> |>
      <| core_Service_Spec ::= λ s, s <| core_ServiceSpec_Selector ::= controlPlane |> |>.

Definition operatorService (m : cloudComponentFactory W) : cloudComponentFactory W :=
  m <| getService := λ cfg zone, let! svcs := getService m cfg zone in ret (map onControlPlane svcs) |>.

(*@ pkg/manager/component/service_operator.go:31-226 newServiceOperatorManager (type serviceOperatorManager and its methods) *)
Definition newServiceOperatorManager : cloudComponentFactory W :=
  let conf := OnecloudClusterConfig_ServiceOperator in
  manages operatorDeploy [ProductVersionFullStack; ProductVersionCMP; ProductVersionEdge]
    >-> withAccount conf
    >-> configuredBy serviceoperator_GetConfig
    >-> deploys (λ _, serviceoperator_getDeployment)
    >-> exposes (serviceAt OnecloudClusterSpec_ServiceOperator) operatorDeploy
          (λ cfg, configPort (conf cfg))
    >-> operatorService.

(** ** Time series *)

(** Local storage keeps the pod on its node: no affinity. Any other kind is
    mounted by one pod at a time. *)
(*@ pkg/manager/component/influxdb.go:107-124 getDeployment (storage) *)
Definition onStorage (oc : OnecloudCluster) (storageClass volume : string) (cType : ComponentType)
    (deploy : Deployment) : Deployment :=
  let local := String.eqb storageClass DefaultStorageClass in
  let data := MkVolume volume ((zero : VolumeSource) <| VolumeSource_PersistentVolumeClaim :=
    Some (MkPersistentVolumeClaimVolumeSource (newPvcName (oc_name oc) storageClass cType) false) |>) in
  let deploy := withVolumes [data] (if local then removeDeploymentAffinity deploy else deploy) in
  if local then deploy
  else deploy <| Deployment_Spec ::= λ s,
         s <| apps_DeploymentSpec_Strategy := MkDeploymentStrategy "Recreate" |> |>.

Definition influxdbDeploy : specEntry DeploymentSpec :=
  deploy3 InfluxdbComponentType OnecloudClusterSpec_Influxdb InfluxdbSpec_StatefulDeploymentSpec
    StatefulDeploymentSpec_DeploymentSpec.
Definition influxdbSpec (oc : OnecloudCluster) : StatefulDeploymentSpec :=
  InfluxdbSpec_StatefulDeploymentSpec (OnecloudClusterSpec_Influxdb (OnecloudCluster_Spec oc)).

(*@ pkg/manager/component/influxdb.go:86-125 getDeployment *)
Definition influxdb_getDeployment : SM W Deployment :=
  let cType := InfluxdbComponentType in
  let! oc := getoc in
  let! spec := read influxdbDeploy in
  let! deploy := withoutInit cType "" (NewVolumeHelper oc (ComponentConfigMapName oc cType) cType)
    influxdbDeploy
    (λ volMounts, [containerOf cType (DeploymentSpec_ContainerSpec spec)
       ["influxd"; "-config"; "/etc/yunion/influxdb.conf"] (volMounts ++ [mount "data" InfluxdbDataStore])]) in
  ret (onStorage oc (StatefulDeploymentSpec_StorageClassName (influxdbSpec oc)) "data" cType deploy).

(** A claim for the storage of a component; the error of the size is its. *)
Definition claims (cType : ComponentType) (spec : OnecloudCluster → StatefulDeploymentSpec)
    (m : cloudComponentFactory W) : cloudComponentFactory W :=
  m <| getPVC := λ _, let! oc := getoc in lift (res_map Some (newPVC cType oc (spec oc))) |>.

(*@ pkg/manager/component/influxdb.go:30-160 newInfluxdbManager (type influxdbManager and its methods) *)
Definition newInfluxdbManager : cloudComponentFactory W :=
  let svc s := InfluxdbSpec_Service (OnecloudClusterSpec_Influxdb s) in
  manages influxdbDeploy [ProductVersionFullStack; ProductVersionCMP; ProductVersionEdge]
    >-> servedBy (NewInfluxdb SessionDebug true)
    >-> exposes svc influxdbDeploy (λ _, InfluxdbPort)
    >-> claims InfluxdbComponentType influxdbSpec
    >-> deploys (λ _, influxdb_getDeployment)
    >-> reports (status1 OnecloudClusterStatus_Influxdb)
    >-> follows ServiceNameInfluxdb influxdbDeploy.

(** Where the other components send their time series. *)
(*@ pkg/manager/component/influxdb.go:131-142 getInfluxDBInternalURL *)
Definition getInfluxDBInternalURL (oc : OnecloudCluster) : string :=
  let vm := VictoriaMetricsSpec_StatefulDeploymentSpec
              (OnecloudClusterSpec_VictoriaMetrics (OnecloudCluster_Spec oc)) in
  let disabled s := DeploymentSpec_Disable (StatefulDeploymentSpec_DeploymentSpec s) in
  let '(cType, port) :=
    if disabled (influxdbSpec oc) && negb (disabled vm)
    then (VictoriaMetricsComponentType, VictoriaMetricsPort)
    else (InfluxdbComponentType, InfluxdbPort) in
  "https://" +:+ NewClusterComponentName (oc_name oc) cType +:+ ":" +:+ dec port.

Definition vmDeploy : specEntry DeploymentSpec :=
  deploy3 VictoriaMetricsComponentType OnecloudClusterSpec_VictoriaMetrics
    VictoriaMetricsSpec_StatefulDeploymentSpec StatefulDeploymentSpec_DeploymentSpec.
Definition vmSpec (oc : OnecloudCluster) : StatefulDeploymentSpec :=
  VictoriaMetricsSpec_StatefulDeploymentSpec (OnecloudClusterSpec_VictoriaMetrics (OnecloudCluster_Spec oc)).

(*@ pkg/manager/component/victoriametrics.go:96-120 getDeployment (args) *)
Definition vmArgs (oc : OnecloudCluster) : list string :=
  let days := VictoriaMetricsSpec_RententionPeriodDays
                (OnecloudClusterSpec_VictoriaMetrics (OnecloudCluster_Spec oc)) in
  let rd := if (days =? 0)%Z then 90%Z else days in
  ["--httpListenAddr=:" +:+ dec VictoriaMetricsPort; "--tls";
   "--tlsCipherSuites=TLS_ECDHE_RSA_WITH_AES_128_GCM_SHA256,TLS_ECDHE_ECDSA_WITH_AES_128_GCM_SHA256,TLS_ECDHE_RSA_WITH_AES_256_GCM_SHA384,TLS_ECDHE_ECDSA_WITH_AES_256_GCM_SHA384,TLS_ECDHE_RSA_WITH_CHACHA20_POLY1305_SHA256,TLS_ECDHE_ECDSA_WITH_CHACHA20_POLY1305_SHA256,TLS_AES_128_GCM_SHA256,TLS_AES_256_GCM_SHA384,TLS_CHACHA20_POLY1305_SHA256";
   "--tlsMinVersion=TLS12"; "--tlsCertFile=" +:+ path_Join [CertDir; ServiceCertName];
   "--tlsKeyFile=" +:+ path_Join [CertDir; ServiceKeyName]; "--retentionPeriod=" +:+ dec rd +:+ "d";
   "--storageDataPath=" +:+ VictoriaMetricsDataStore; "--envflag.enable=true";
   "--envflag.prefix=VM_"; "--loggerFormat=json"; "--dedup.minScrapeInterval=10s";
   "--influx.databaseNames=telegraf,meter_db,monitor,system,mysql_metrics";
   "--maxLabelsPerTimeseries=60"; "--pprofAuthKey=pprof@AuthKey"]
  ++ (if OnecloudClusterSpec_IPv6Cluster (OnecloudCluster_Spec oc) then ["-enableTCP6"] else []).

(*@ pkg/manager/component/victoriametrics.go:91-167 getDeployment (containersF) *)
Definition vmContainers (oc : OnecloudCluster) (spec : DeploymentSpec) (volMounts : list VolumeMount)
  : list Container :=
  let cType := VictoriaMetricsComponentType in
  let health := Some (MkHTTPGetAction "/health" (MkIntOrString 0 VictoriaMetricsPort "") "" "HTTPS") in
  [(containerOf cType (DeploymentSpec_ContainerSpec spec) []
      (volMounts ++ [mount "server-volume" VictoriaMetricsDataStore]))
     <| Container_Args := vmArgs oc |>
     <| Container_Ports := [MkContainerPort "http" VictoriaMetricsPort "TCP" 0] |>
     <| Container_ReadinessProbe := Some (MkProbe None health 5 5 15 1 3) |>
     <| Container_LivenessProbe := Some (MkProbe None health 30 5 30 1 10) |>].

(** Its pod is replaced, never rolled over, whatever the storage. *)
(*@ pkg/manager/component/victoriametrics.go:89-198 getDeployment *)
Definition vm_getDeployment : SM W Deployment :=
  let cType := VictoriaMetricsComponentType in
  let! oc := getoc in
  let! spec := read vmDeploy in
  let! deploy := withoutInit cType "" (NewVolumeHelper oc "" cType) vmDeploy (vmContainers oc spec) in
  let deploy := onStorage oc (StatefulDeploymentSpec_StorageClassName (vmSpec oc)) "server-volume"
                  cType deploy in
  let deploy := in_pod (λ p, p <| PodSpec_AutomountServiceAccountToken := Some true |>) deploy in
  ret (deploy <| Deployment_Spec ::= λ s,
         s <| apps_DeploymentSpec_Strategy := MkDeploymentStrategy "Recreate" |> |>).

(** It has no configuration of its own. *)
(*@ pkg/manager/component/victoriametrics.go:36-220 newVictoriaMetricsManager (type vmManager and its methods) *)
Definition newVictoriaMetricsManager : cloudComponentFactory W :=
  let svc s := VictoriaMetricsSpec_Service (OnecloudClusterSpec_VictoriaMetrics s) in
  manages vmDeploy allVersions
    >-> phasedBy (NewVictoriaMetrics SessionDebug true)
    >-> exposes svc vmDeploy (λ _, VictoriaMetricsPort)
    >-> claims VictoriaMetricsComponentType vmSpec
    >-> deploys (λ _, vm_getDeployment)
    >-> reports (status1 OnecloudClusterStatus_VictoriaMetrics)
    >-> follows ServiceNameVictoriaMetrics vmDeploy.
End managers.
