(* ===== verification/HostManagers.v ===== *)
(** * HostManagers: the managers of what runs on every host

    The daemon sets of the hosts: the agent itself, its deployer, and those
    that share the host agent's spec. *)

From S2P Require Import Prelude K8s Types Constants GoStrings Defaults.
From S2P Require Import ControllerUtils LastApplied KubeApi Controls Session CloudApi Databases.
From S2P Require Import Sync Phases Volumes Endpoints Builders Components Options.
From S2P Require Import ServiceInit Services ManagerBase.

Open Scope string_scope.
Open Scope list_scope.
Open Scope go_scope.

(** [jsonutils]: YAML is parsed and printed, a struct becomes a dictionary. *)
Class YamlLib := {
  ParseYAML : string → Res json;
  json_YAMLString : json → string;
  json_Marshal : string → Options → list (string * json)
}.

(** ** Shared specs

    A manager that changes the copy of a spec also changes what the copy
    shares with the cluster: the map of a node selector and the struct behind
    an affinity, if there was one. (An empty map is taken for a nil one.) *)
Definition sharedDaemonSet (old new : DaemonSetSpec) : DaemonSetSpec :=
  old <| DaemonSetSpec_NodeSelector :=
           if bool_decide (DaemonSetSpec_NodeSelector old = ∅) then ∅
           else DaemonSetSpec_NodeSelector new |>
      <| DaemonSetSpec_Affinity :=
           match DaemonSetSpec_Affinity old with
           | None => None
           | Some _ => DaemonSetSpec_Affinity new
           end |>.

(** ** Containers and daemon sets *)

Definition privileged (capabilities : option Capabilities) (c : Container) : Container :=
  c <| Container_SecurityContext := Some (MkSecurityContext capabilities (Some true)) |>.

Definition envVar (k v : string) : EnvVar :=
  (zero : EnvVar) <| EnvVar_Name := k |> <| EnvVar_Value := v |>.

(** [intstr.FromInt] keeps 32 bits. *)
Definition maxUnavailable (n : Z) (ds : DaemonSet) : DaemonSet :=
  ds <| DaemonSet_Spec ::= λ s, s <| apps_DaemonSetSpec_UpdateStrategy ::= λ u,
    u <| DaemonSetUpdateStrategy_RollingUpdate :=
           Some (MkRollingUpdateDaemonSet (Some (MkIntOrString 0 (wrap32 n) ""))) |> |> |>.

(** The labels of the object, of its pods and of its selector are one map. *)
Definition withDeployerLabel (ds : DaemonSet) : DaemonSet :=
  let put := <[OnecloudHostDeployerLabelKey := ""]> in
  ds <| DaemonSet_ObjectMeta ::= λ m, m <| ObjectMeta_Labels ::= put |> |>
     <| DaemonSet_Spec ::= λ s,
          s <| apps_DaemonSetSpec_Template ::= λ t, t <| PodTemplateSpec_ObjectMeta ::= λ m,
                 m <| ObjectMeta_Labels ::= put |> |> |>
            <| apps_DaemonSetSpec_Selector ::= λ o,
                 Some (let l := default zero o in l <| LabelSelector_MatchLabels ::= put |>) |> |>.

(** The nodes where the label is [enable]. *)
Definition enabledTerm (key : string) : NodeSelectorTerm :=
  MkNodeSelectorTerm [MkNodeSelectorRequirement key "In" ["enable"]] [].

Definition requireNodes (terms : list NodeSelectorTerm) (a : option Affinity) : Affinity :=
  let a := default zero a in
  a <| Affinity_NodeAffinity := Some ((default zero (Affinity_NodeAffinity a))
         <| NodeAffinity_RequiredDuringSchedulingIgnoredDuringExecution :=
              Some (MkNodeSelector terms) |>) |>.

Definition enableNode (key : string) (spec : DaemonSetSpec) : DaemonSetSpec :=
  spec <| DaemonSetSpec_NodeSelector ::= <[key := "enable"]> |>.

(** One label is put into the selector of the nodes; of several, a node needs
    any. *)
(*@ pkg/manager/component/host-base.go:76-108 newHostPrivilegedDaemonSet (nodeSelector) *)
Definition selectNodes (labels : list string) (spec : DaemonSetSpec) : DaemonSetSpec :=
  match labels with
  | [] => spec
  | [v] => enableNode v spec
  | _ => spec <| DaemonSetSpec_Affinity ::= λ a, Some (requireNodes (map enabledTerm labels) a) |>
  end.

Definition onHosts : list ProductVersion :=
  [ProductVersionFullStack; ProductVersionEdge; ProductVersionLightEdge; ProductVersionAI].

(** The places of the specs. *)
Definition hostDs : specEntry DaemonSetSpec :=
  MkSpecEntry HostComponentType
    (λ s, HostAgentSpec_DaemonSetSpec (OnecloudClusterSpec_HostAgent s))
    (λ g s, s <| OnecloudClusterSpec_HostAgent ::= λ h, h <| HostAgentSpec_DaemonSetSpec ::= g |> |>)
    false.

Definition deployerDs : specEntry DaemonSetSpec :=
  MkSpecEntry HostDeployerComponentType OnecloudClusterSpec_HostDeployer
    (λ g s, s <| OnecloudClusterSpec_HostDeployer ::= g |>) false.

Definition hostAgent (oc : OnecloudCluster) : HostAgentSpec :=
  OnecloudClusterSpec_HostAgent (OnecloudCluster_Spec oc).

(** The containers of the open virtual switch take the image of the load
    balancer's agent when the host agent has none. *)
(*@ pkg/manager/component/host-ovn-controller.go:25-50 getContainers *)
Definition ovnContainer (name : string) (command : string) (capabilities : list string)
    (oc : OnecloudCluster) (volMounts : list VolumeMount) : list Container :=
  let own := HostAgentSpec_OvnController (hostAgent oc) in
  let spec :=
    if str_empty (ContainerSpec_Image own)
    then LbagentSpec_OvnController (OnecloudClusterSpec_Lbagent (OnecloudCluster_Spec oc))
    else own in
  [privileged (Some (MkCapabilities capabilities))
     (containerOf name spec ["/start.sh"; command] volMounts)].

(*@ pkg/manager/component/host-ovn-controller.go:56-68 getNodeSelector *)
Definition ovnNodes (oc : OnecloudCluster) : list string :=
  OnecloudEnableHostLabelKey ::
    (if OnecloudClusterSpec_DisableLocalVpc (OnecloudCluster_Spec oc) then []
     else [OnecloudEnableLbagentLabelKey]).

(** The program of an agent, configured by the common file. *)
Definition agentCommand (name : string) : list string :=
  ["/opt/yunion/bin/" +:+ name; "--common-config-file"; "/etc/yunion/common/common.conf"].

(** The address of the southbound data base of OVN, for the hosts' agents. *)
Definition ovnSouthDatabase (oc : OnecloudCluster) : EnvVar :=
  envVar "HOST_OVN_SOUTH_DATABASE"
    ("tcp:" +:+ NewClusterComponentName (oc_name oc) OvnNorthComponentType +:+ ":"
     +:+ dec OvnSouthDbPort).

Section managers.
Context {W : Type} `{!SessionEnv W, !JsonUtils, !CloudApi W, !OptionsLib W, !YamlLib}.
Context `{!SecretApi W, !ResourceApi W ConfigMap, !ResourceApi W DaemonSet}.
Context `{!ResourceApi W core_Service}.
Context (SessionDebug IsGreatOrEqualThanV120 : bool).

(** ** Services that share the spec of the host agent *)

(*@ pkg/manager/component/host-base.go:15-22 hostBasedService *)
Record hostBasedService := MkHostBasedService {
  getComponentType : ComponentType;
  isDisabled : OnecloudCluster → bool;
  getContainers : OnecloudCluster → list VolumeMount → list Container;
  getVolumeHelper : ComponentType → OnecloudCluster → string → VolumeHelper;
  shouldSync : OnecloudCluster → M W bool;
  getNodeSelector : OnecloudCluster → list string
}.

(** The daemon set has the image it should and all its pods are up to date,
    ready and available; an error counts as not ready. *)
(*@ pkg/manager/component/host-ovs-vswitchd.go:19-52 isDsReady *)
Definition isDsReady (oc : OnecloudCluster) (componentType : ComponentType) (expectImage : string)
  : M W bool :=
  let! r := attempt (listerGet DaemonSet (oc_ns oc)
                       (NewClusterComponentName (oc_name oc) componentType)) in
  match r with
  | inl _ => ret false
  | inr ds =>
      let st := DaemonSet_Status ds in
      let desired := apps_DaemonSetStatus_DesiredNumberScheduled st in
      match PodSpec_Containers (PodTemplateSpec_Spec (apps_DaemonSetSpec_Template
              (DaemonSet_Spec ds))) with
      | [] => panic "index out of range"
      | c :: _ => ret
          (String.eqb (Container_Image c) expectImage
           && (apps_DaemonSetStatus_NumberAvailable st =? desired)%Z
           && (apps_DaemonSetStatus_NumberReady st =? desired)%Z
           && (desired =? apps_DaemonSetStatus_UpdatedNumberScheduled st)%Z
           && (ObjectMeta_Generation (DaemonSet_ObjectMeta ds)
               =? apps_DaemonSetStatus_ObservedGeneration st)%Z)
      end
  end.

Definition set_hostDs (new : DaemonSetSpec) : SM W unit :=
  write hostDs (λ old, sharedDaemonSet old new).

(*@ pkg/manager/component/host-base.go:62-125 newHostPrivilegedDaemonSet *)
Definition based_newDaemonSet (service : hostBasedService) : SM W (option DaemonSet) :=
  let cType := getComponentType service in
  let! oc := getoc in
  let dsSpec := selectNodes (getNodeSelector service oc) (HostAgentSpec_DaemonSetSpec (hostAgent oc)) in
  set_hostDs dsSpec ;;!
  let! oc := getoc in
  let h := getVolumeHelper service cType oc (ComponentConfigMapName oc HostComponentType) in
  let! ds := newDaemonSet cType h dsSpec "" [] (getContainers service oc) in
  ret (option_map (maxUnavailable 3) (applyHostComponentAntiEviction IsGreatOrEqualThanV120 (Some ds))).

(*@ pkg/manager/component/host-base.go:55-60 getDaemonSet *)
Definition based_getDaemonSet (service : hostBasedService) : SM W (option DaemonSet) :=
  let! oc := getoc in
  let! wanted := kube (shouldSync service oc) in
  if wanted then based_newDaemonSet service else ret None.

(*@ pkg/manager/component/host-base.go:24-137 newhostBasedDsManager (type hostBasedDsManager and its methods) *)
Definition newhostBasedDsManager (service : hostBasedService) : cloudComponentFactory W :=
  (baseManager (getComponentType service)
     (λ oc, isDisabled service oc || negb (inVersions onHosts oc)) onHosts)
  <| getDaemonSet := λ _ _, based_getDaemonSet service |>.

Definition always (_ : OnecloudCluster) : M W bool := ret true.

Definition hostDisabled (oc : OnecloudCluster) : bool :=
  DaemonSetSpec_Disable (HostAgentSpec_DaemonSetSpec (hostAgent oc)).

Definition onlyHosts (_ : OnecloudCluster) : list string := [OnecloudEnableHostLabelKey].

(*@ pkg/manager/component/host-health.go:10-58 newHostHealthManager (type hostHealthManager and its methods) *)
Definition newHostHealthManager : cloudComponentFactory W :=
  newhostBasedDsManager (MkHostBasedService HostHealthComponentType hostDisabled
    (λ oc volMounts,
       [privileged None (containerOf "host-health" (HostAgentSpec_HostHealth (hostAgent oc))
          (agentCommand "host-health") volMounts)])
    NewHostVolume always onlyHosts).

(*@ pkg/manager/component/host-image.go:15-65 newHostImageManager (type hostImageManager and its methods) *)
Definition newHostImageManager : cloudComponentFactory W :=
  let spec oc := OnecloudClusterSpec_HostImage (OnecloudCluster_Spec oc) in
  newhostBasedDsManager (MkHostBasedService HostImageComponentType
    (λ oc, DaemonSetSpec_Disable (spec oc))
    (λ oc volMounts,
       [privileged None (containerOf "host-image" (DaemonSetSpec_ContainerSpec (spec oc))
          (agentCommand "host-image" ++ ["--config"; "/etc/yunion/host.conf"]) volMounts)])
    NewHostImageVolumeHelper always onlyHosts).

(*@ pkg/manager/component/host-sdnagent.go:10-61 newHostSdnagentManager (type hostSdnagentManager and its methods) *)
Definition newHostSdnagentManager : cloudComponentFactory W :=
  newhostBasedDsManager (MkHostBasedService HostSdnagentComponentType hostDisabled
    (λ oc volMounts,
       [privileged None (containerOf "sdnagent" (HostAgentSpec_SdnAgent (hostAgent oc))
          (agentCommand "sdnagent") volMounts)])
    NewHostVolume always onlyHosts).

(*@ pkg/manager/component/host-ovsdb-server.go:10-72 newHostOvsdbServerManager (type hostOvsdbServerManager and its methods) *)
Definition newHostOvsdbServerManager : cloudComponentFactory W :=
  newhostBasedDsManager (MkHostBasedService HostOvsdbServerComponentType hostDisabled
    (ovnContainer "ovsdb-server" "ovsdb" ["SYS_NICE"]) NewOvsVolumeHelper always ovnNodes).

Definition controllerImage (oc : OnecloudCluster) : string :=
  ContainerSpec_Image (HostAgentSpec_OvnController (hostAgent oc)).

(** The switch waits for its data base, the controller for the switch. *)
(*@ pkg/manager/component/host-ovs-vswitchd.go:12-111 newHostOvsVswitchdManager (type hostOvsVswitchdManager and its methods) *)
Definition newHostOvsVswitchdManager : cloudComponentFactory W :=
  newhostBasedDsManager (MkHostBasedService HostOvsVswitchdComponentType hostDisabled
    (ovnContainer "ovs-vswitchd" "vswitchd" ["NET_ADMIN"; "SYS_MODULE"; "SYS_NICE"])
    NewOvsVolumeHelper
    (λ oc, isDsReady oc HostOvsdbServerComponentType (controllerImage oc)) ovnNodes).

(*@ pkg/manager/component/host-ovn-controller.go:10-72 newHostOvnControllerManager (type hostOvnControllerManager and its methods) *)
Definition newHostOvnControllerManager : cloudComponentFactory W :=
  newhostBasedDsManager (MkHostBasedService HostOvnControllerComponentType
    (λ oc, hostDisabled oc || OnecloudClusterSpec_DisableLocalVpc (OnecloudCluster_Spec oc))
    (ovnContainer "ovn-controller" "controller" ["SYS_NICE"]) NewOvsVolumeHelper
    (λ oc, isDsReady oc HostOvsVswitchdComponentType (controllerImage oc)) ovnNodes).

(** ** The host agent *)

Definition orMissing {A} (what : string) (r : error + A) : M W A :=
  match r with
  | inr x => ret x
  | inl err => if IsNotFound err then throw (ErrMsg what) else throw err
  end.

(** The endpoint of the object store and the keys of its secret, or why there
    are none. *)
(*@ pkg/manager/component/host.go:68-88 setS3Config (endpoint) *)
Definition minioService : M W (gmap string string * string) :=
  let! r := attempt (secret_Get OnecloudMinioNamespace OnecloudMinioSecret) in
  let! sec := orMissing ("namespace " +:+ OnecloudMinioNamespace +:+ " not found") r in
  let! r := attempt (apiGet core_Service OnecloudMinioNamespace OnecloudMinioSvc) in
  let! svc := orMissing ("service " +:+ OnecloudMinioSvc +:+ " not found") r in
  match core_ServiceSpec_Ports (core_Service_Spec svc) with
  | [] => panic "index out of range"
  | p :: _ => ret (sec, obj_name svc +:+ "." +:+ ObjectMeta_Namespace (core_Service_ObjectMeta svc) +:+ ":" +:+ dec (ServicePort_Port p))
  end.

Definition json_Set (k : string) (v : json) (d : list (string * json)) : list (string * json) :=
  json_Add v [k] d.

(*@ pkg/manager/component/host.go:102-105 setS3Config (Set) *)
Definition s3Fields (endpoint ak sk : string) (d : list (string * json)) : list (string * json) :=
  json_Set "s3_secret_key" (JStr sk) (json_Set "s3_access_key" (JStr ak)
    (json_Set "s3_use_ssl" (JBool false) (json_Set "s3_endpoint" (JStr endpoint) d))).

(*@ pkg/manager/component/host.go:64-107 setS3Config *)
Definition host_setS3Config (oc : OnecloudCluster) (confJson : list (string * json))
  : M W (list (string * json)) :=
  if negb (Minio_Enable (OnecloudClusterSpec_Minio (OnecloudCluster_Spec oc))) then ret confJson
  else
    let! '(sec, endpoint) := minioService in
    match sec !! "accesskey", sec !! "secretkey" with
    | None, _ => throw (ErrMsg "s3 access key not found")
    | Some _, None => throw (ErrMsg "s3 secret key not found")
    | Some ak, Some sk => ret (s3Fields endpoint ak sk confJson)
    end.

Definition hostOptions : string := "hostman/options.SHostBaseOptions".

(*@ pkg/manager/component/host.go:110-130 getConfigMap (options) *)
Definition host_options (oc : OnecloudCluster) (cfg : OnecloudClusterConfig) : M Options unit :=
  let spec := hostAgent oc in
  SetOptionsDefault hostOptions "" ;;!
  assign_all [
    SetOptionsServiceTLS false; commonOptions oc cfg (host_conf cfg); set_int "Port" HostPort;
    set_bool "EnableRemoteExecutor" true;
    set_bool "DisableSecurityGroup" (HostAgentSpec_DisableSecurityGroup spec);
    set_bool "ManageNtpConfiguration" (HostAgentSpec_ManageNtpConfiguration spec);
    set_bool "HostCpuPassthrough" (default true (HostAgentSpec_HostCpuPassthrough spec));
    set_str "DefaultQemuVersion" (HostAgentSpec_DefaultQemuVersion spec);
    set_bool "DisableLocalVpc" (OnecloudClusterSpec_DisableLocalVpc (OnecloudCluster_Spec oc))].

(** Options that a configuration must have mentioned not to be replaced. *)
(*@ pkg/manager/component/host.go:137-149 getConfigMap (hack) *)
Definition lacksHostOptions (oldOpt : string) : bool :=
  existsb (λ k, negb (contains k oldOpt))
    ["enable_remote_executor"; "disable_security_group"; "manage_ntp_configuration";
     "host_cpu_passthrough"; "default_qemu_version"].

Definition hostConfigMap (oc : OnecloudCluster) (conf : list (string * json)) : ConfigMap :=
  newConfigMap HostComponentType "" oc (json_YAMLString (JObj conf)).

(** The object store is added to a configuration that knows none; whatever it
    holds otherwise is kept. The client returns an empty object next to an
    error, whose configuration is missing. *)
(*@ pkg/manager/component/host.go:158-180 getConfigMap (oldCfgMap) *)
Definition host_oldConfig (cm : option ConfigMap) : SM W (option ConfigMap * bool) :=
  let! oc := getoc in
  let! r := kube (attempt (apiGet ConfigMap (oc_ns oc) (ComponentConfigMapName oc HostComponentType))) in
  match (match r with inl _ => None | inr m => ConfigMap_Data m !! "config" end) with
  | None => ret (cm, true)
  | Some optStr =>
      match ParseYAML optStr with
      | Ok (JObj oldCfg) =>
          if json_Contains (JObj oldCfg) ["s3_endpoint"] then ret (cm, false)
          else
            let! r := kube (attempt (host_setS3Config oc oldCfg)) in
            match r with
            | inl _ => ret (cm, false)
            | inr oldCfg => ret (Some (hostConfigMap oc oldCfg), true)
            end
      | Ok _ => panic "interface conversion"
      | _ => ret (cm, false)
      end
  end.

(*@ pkg/manager/component/host.go:109-181 getConfigMap *)
Definition host_getConfigMap (cfg : OnecloudClusterConfig) : SM W (option ConfigMap * bool) :=
  let! oc := getoc in
  let! opt := kube (onNew (host_options oc cfg)) in
  let conf := json_Marshal hostOptions opt in
  let! r := kube (attempt (host_setS3Config oc conf)) in
  let conf := match r with inl _ => conf | inr conf => conf end in
  let! '(cm, syncConf) := shouldSyncConfigmap HostComponentType (json_YAMLString (JObj conf))
                            (Some lacksHostOptions) in
  if syncConf then ret (cm, true) else host_oldConfig cm.

(*@ pkg/manager/component/telegraf.go:20-20 defaultTelegrafDir *)
Definition defaultTelegrafDir : string := "/etc/telegraf".

Definition telegrafDir (oc : OnecloudCluster) : string :=
  default_str defaultTelegrafDir
    (TelegrafSpec_TelegrafConfigDir (OnecloudClusterSpec_Telegraf (OnecloudCluster_Spec oc))).

(** A cluster whose telegraf has a directory of its own leaves the host's
    telegraf running. *)
(*@ pkg/manager/component/host.go:197-264 newHostPrivilegedDaemonSet (containersF) *)
Definition hostContainers (oc : OnecloudCluster) (volMounts : list VolumeMount) : list Container :=
  let spec := hostAgent oc in
  let cType := HostComponentType in
  let ownTelegraf := negb (str_empty (TelegrafSpec_TelegrafConfigDir
                             (OnecloudClusterSpec_Telegraf (OnecloudCluster_Spec oc)))) in
  let off := "host-deployer,host_sdnagent" +:+ (if ownTelegraf then "" else ",telegraf") in
  [(privileged None (containerOf cType
      (DaemonSetSpec_ContainerSpec (HostAgentSpec_DaemonSetSpec spec)) (agentCommand cType) volMounts))
     <| Container_Env :=
          [envVar "HOST_OVN_ENCAP_IP_DETECTION_METHOD" (HostAgentSpec_OvnEncapIpDetectionMethod spec);
           ovnSouthDatabase oc; envVar "HOST_SYSTEM_SERVICES_OFF" off;
           envVar "OVN_CONTAINER_IMAGE_TAG" DefaultOvnImageTag;
           envVar "HOST_TELEGRAF_CONFIG_DIR" (telegrafDir oc)] |>
     <| Container_WorkingDir := "/opt/cloud" |>
     <| Container_StartupProbe :=
          Some (MkProbe None
            (Some (MkHTTPGetAction "/ping" (MkIntOrString 0 8885 "") "localhost" "HTTPS"))
            0 0 10 0 300) |>
     <| Container_ReadinessProbe := Some (generateReadinessProbe "/ping" 8885) |>].

Definition gracePeriod (seconds : Z) (p : PodSpec) : PodSpec :=
  p <| PodSpec_TerminationGracePeriodSeconds := Some seconds |>.

(*@ pkg/manager/component/host.go:187-306 newHostPrivilegedDaemonSet *)
Definition host_newDaemonSet : SM W (option DaemonSet) :=
  let cType := HostComponentType in
  let! oc := getoc in
  let spec := hostAgent oc in
  let dsSpec := enableNode OnecloudEnableHostLabelKey (HostAgentSpec_DaemonSetSpec spec) in
  set_hostDs dsSpec ;;!
  let! ds := newDaemonSet cType (NewHostVolume cType oc (ComponentConfigMapName oc cType)) dsSpec
               (DaemonSetSpec_UpdateStrategy dsSpec) [] (hostContainers oc) in
  ret (option_map (λ ds, withDeployerLabel (maxUnavailable (HostAgentSpec_MaxUnavailableCount spec)
                           (in_ds_pod (gracePeriod 300) ds)))
         (applyHostComponentAntiEviction IsGreatOrEqualThanV120 (Some ds))).

(*@ pkg/manager/component/host.go:27-318 newHostManager (type hostManager and its methods) *)
Definition newHostManager : cloudComponentFactory W :=
  (baseManager HostComponentType (λ oc, hostDisabled oc || negb (inVersions onHosts oc)) onHosts
     >-> withAccount host_conf)
  <| getPhaseControl := λ _,
       Some (NewRegisterServiceComponent SessionDebug ServiceNameHost ServiceTypeHost) |>
  <| getConfigMap := λ cfg _, host_getConfigMap cfg |>
  <| getDaemonSet := λ _ _, host_newDaemonSet |>.

(** ** The host deployer *)

(** Next to the agents of the hosts, on hosts and controllers. *)
(*@ pkg/manager/component/host-deployer.go:100-140 newHostPrivilegedDaemonSet (affinity) *)
Definition deployerAffinity (a : option Affinity) : Affinity :=
  let a := requireNodes (map enabledTerm [OnecloudEnableHostLabelKey; OnecloudControllerLabelKey]) a in
  a <| Affinity_PodAffinity := Some ((default zero (Affinity_PodAffinity a))
         <| PodAffinity_RequiredDuringSchedulingIgnoredDuringExecution :=
              [MkPodAffinityTerm (Some (MkLabelSelector {[ OnecloudHostDeployerLabelKey := "" ]} []))
                 [] "kubernetes.io/hostname"] |>) |>.

(** The affinity of the pods is the one of the spec, in place. *)
(*@ pkg/manager/component/host-deployer.go:64-151 newHostPrivilegedDaemonSet *)
Definition deployer_newDaemonSet : SM W (option DaemonSet) :=
  let cType := HostDeployerComponentType in
  let! oc := getoc in
  let! spec := read deployerDs in
  let command := agentCommand cType ++ ["--config"; "/etc/yunion/host.conf"] in
  let! ds := newDaemonSet cType
               (NewHostDeployerVolume cType oc (ComponentConfigMapName oc HostComponentType)) spec "" []
               (λ volMounts, [privileged None (containerOf cType (DaemonSetSpec_ContainerSpec spec)
                                                 command volMounts)]) in
  let affinity := Some (deployerAffinity (DaemonSetSpec_Affinity spec)) in
  write deployerDs (λ old, sharedDaemonSet old (old <| DaemonSetSpec_Affinity := affinity |>)) ;;!
  ret (option_map (λ ds, maxUnavailable 999 (in_ds_pod (λ p,
         p <| PodSpec_Affinity := affinity |> <| PodSpec_HostNetwork := true |>) ds))
         (applyHostComponentAntiEviction IsGreatOrEqualThanV120 (Some ds))).

(** Without a host agent the deployer brings the configuration itself. *)
(*@ pkg/manager/component/host-deployer.go:53-58 getConfigMap *)
Definition deployer_getConfigMap (cfg : OnecloudClusterConfig) : SM W (option ConfigMap * bool) :=
  let! oc := getoc in
  if isProduct oc ProductVersionCMP then host_getConfigMap cfg else ret (None, false).

(*@ pkg/manager/component/host-deployer.go:19-184 newHostDeployerManger (type hostDeployerManager and its methods) *)
Definition newHostDeployerManger : cloudComponentFactory W :=
  let disabled oc := DaemonSetSpec_Disable (OnecloudClusterSpec_HostDeployer (OnecloudCluster_Spec oc)) in
  (baseManager HostDeployerComponentType
     (λ oc, disabled oc || negb (inVersions allVersions oc)) allVersions
     >-> withAccount host_conf)
  <| getConfigMap := λ cfg _, deployer_getConfigMap cfg |>
  <| getDaemonSet := λ _ _, deployer_newDaemonSet |>.
End managers.
