(* ===== verification/EdgeManagers.v ===== *)
(** * EdgeManagers: networks, name service, metrics and the agents of zones

    OVN's northbound data base, the name service, the load balancer's agent,
    telegraf, and the agents for bare metal and ESXi, which have a deployment
    per zone. *)

From S2P Require Import Prelude K8s Types Constants GoStrings Defaults.
From S2P Require Import ControllerUtils LastApplied KubeApi Controls Session CloudApi Databases.
From S2P Require Import Sync Phases Volumes Endpoints Builders Components Options.
From S2P Require Import ServiceInit Services Templates Texts ManagerBase AgentManagers HostManagers.

Open Scope string_scope.
Open Scope list_scope.
Open Scope go_scope.

(** ** Telegraf's volumes *)

(*@ pkg/manager/component/telegraf.go:19-19 hostRoot *)
Definition hostRoot : string := "/hostfs".

(*@ pkg/manager/component/telegraf.go:185-232 NewTelegrafVolume *)
Definition NewTelegrafVolume (cType : ComponentType) (telegrafConfigDir : string) : VolumeHelper :=
  MkVolumeHelper "" cType
    [hostPathVolume "etc-telegraf" telegrafConfigDir HostPathDirectoryOrCreate;
     hostPathVolume "root" "/" HostPathDirectory]
    [mount "etc-telegraf" "/etc/telegraf"; mountReadOnly "root" hostRoot].

(** ** The name service's configuration *)

(** The proxies have both ends joined: [From] and [To]. *)
(*@ pkg/manager/component/regiondns.go:83-96 RegionDNSConfig *)
Record RegionDNSConfig := MkRegionDNSConfig {
  dns_common : Options;
  dns_CacheTtl : Z;
  dns_SQLConnection : string;
  dns_DNSDomain : string;
  dns_Proxies : list (string * string);
  dns_InCloudOnly : bool
}.

Definition dns_struct (c : RegionDNSConfig) : struct :=
  map (λ k, (k, TStr (field_str k (dns_common c))))
    ["AuthURL"; "AdminUser"; "AdminDomain"; "AdminPassword"; "AdminProject"; "AdminProjectDomain";
     "Region"]
  ++ [("CacheTtl", TInt (dns_CacheTtl c)); ("SQLConnection", TStr (dns_SQLConnection c));
      ("DNSDomain", TStr (dns_DNSDomain c)); ("InCloudOnly", TBool (dns_InCloudOnly c));
      ("Proxies", TList (map (λ '(from, to), [("From", TStr from); ("To", TStr to)])
                           (dns_Proxies c)))].

(*@ pkg/manager/component/regiondns.go:103-105 GetContent *)
Definition RegionDNSConfig_GetContent (c : RegionDNSConfig) : Res string :=
  CompileTemplateFromMap RegionDNSConfigTemplate (dns_struct c).

Definition defaultDNSTo : list string := ["114.114.114.114"; "223.5.5.5"].

(*@ pkg/manager/component/regiondns.go:151-163 getConfigMap (proxies) *)
Definition fillProxy (p : RegionDNSProxy) : RegionDNSProxy :=
  p <| RegionDNSProxy_From ::= default_str "." |>
    <| RegionDNSProxy_To ::= λ to, match to with [] => defaultDNSTo | _ => to end |>.

(*@ pkg/manager/component/regiondns.go:140-163 getConfigMap (spec) *)
Definition fillRegionDNS (spec : RegionDNSSpec) : RegionDNSSpec :=
  spec <| RegionDNSSpec_CacheTtl ::= λ t, if (t =? 0)%Z then 300%Z else t |>
       <| RegionDNSSpec_Proxies ::= λ ps,
            map fillProxy (match ps with [] => [MkRegionDNSProxy "." defaultDNSTo] | _ => ps end) |>.

(*@ pkg/manager/component/regiondns.go:165-194 getConfigMap (config) *)
Definition dnsConfig (oc : OnecloudCluster) (cfg : OnecloudClusterConfig) (spec : RegionDNSSpec)
  : RegionDNSConfig :=
  let region := OnecloudClusterSpec_RegionServer (OnecloudCluster_Spec oc) in
  let engine := DeploymentServicePortSpec_DbEngine (RegionSpec_DeploymentServicePortSpec region) in
  let db := SetDBOptions oc engine (ServiceDBCommonOptions_DB (region_conf cfg)) ∅ in
  let opt := commonOptions oc cfg (common (region_conf cfg)) (set_str "Region" (GetRegion oc) ∅) in
  let orDefault k opt := if str_empty (field_str k opt) then set_str k "Default" opt else opt in
  MkRegionDNSConfig (orDefault "AdminDomain" (orDefault "AdminProjectDomain" opt))
    (RegionDNSSpec_CacheTtl spec) (field_str "SqlConnection" db) (RegionSpec_DNSDomain region)
    (map (λ p, (RegionDNSProxy_From p, Join (RegionDNSProxy_To p) " ")) (RegionDNSSpec_Proxies spec))
    (RegionDNSSpec_InCloudOnly spec).

(** ** Places *)
Definition regionDNSDs : specEntry DaemonSetSpec :=
  MkSpecEntry RegionDNSComponentType (λ s, RegionDNSSpec_DaemonSetSpec (OnecloudClusterSpec_RegionDNS s))
    (λ g s, s <| OnecloudClusterSpec_RegionDNS ::= λ d, d <| RegionDNSSpec_DaemonSetSpec ::= g |> |>)
    false.

Definition lbagentDs : specEntry DaemonSetSpec :=
  MkSpecEntry LbagentComponentType (λ s, LbagentSpec_DaemonSetSpec (OnecloudClusterSpec_Lbagent s))
    (λ g s, s <| OnecloudClusterSpec_Lbagent ::= λ d, d <| LbagentSpec_DaemonSetSpec ::= g |> |>)
    false.

Definition ovnNorthDeploy : specEntry DeploymentSpec :=
  deploy1 OvnNorthComponentType OnecloudClusterSpec_OvnNorth.

Definition baremetalDeploy : specEntry DeploymentSpec :=
  deploy3 BaremetalAgentComponentType OnecloudClusterSpec_BaremetalAgent
    ZoneStatefulDeploymentSpec_StatefulDeploymentSpec StatefulDeploymentSpec_DeploymentSpec.

Definition esxiDeploy : specEntry DeploymentSpec :=
  deploy3 EsxiAgentComponentType OnecloudClusterSpec_EsxiAgent
    ZoneStatefulDeploymentSpec_StatefulDeploymentSpec StatefulDeploymentSpec_DeploymentSpec.

(** The status of a zone, kept in a map; that of the default zone is a field.
    (The entry a zone gets when it is looked at is always assigned to.) *)
(*@ pkg/manager/component/baremetal.go:79-92 getDeploymentStatus *)
Definition baremetalStatus (zone : string) : StatusRef :=
  if str_empty zone
  then status2 OnecloudClusterStatus_BaremetalAgent BaremetalAgentStatus_DeploymentStatus
  else MkStatusRef
    (λ oc, default zero (BaremetalAgentStatus_ZoneBaremetalAgent
             (OnecloudClusterStatus_BaremetalAgent (OnecloudCluster_Status oc)) !! zone))
    (λ g oc, oc <| OnecloudCluster_Status ::= λ s, s <| OnecloudClusterStatus_BaremetalAgent ::= λ b,
       b <| BaremetalAgentStatus_ZoneBaremetalAgent ::= λ m,
              <[zone := g (default zero (m !! zone))]> m |> |> |>).

(*@ pkg/manager/component/esxi.go:110-123 getDeploymentStatus *)
Definition esxiStatus (zone : string) : StatusRef :=
  if str_empty zone
  then status2 OnecloudClusterStatus_EsxiAgent EsxiAgentStatus_DeploymentStatus
  else MkStatusRef
    (λ oc, default zero (EsxiAgentStatus_ZoneEsxiAgent
             (OnecloudClusterStatus_EsxiAgent (OnecloudCluster_Status oc)) !! zone))
    (λ g oc, oc <| OnecloudCluster_Status ::= λ s, s <| OnecloudClusterStatus_EsxiAgent ::= λ b,
       b <| EsxiAgentStatus_ZoneEsxiAgent ::= λ m,
              <[zone := g (default zero (m !! zone))]> m |> |> |>).

(** The node selector of a deployment is the map of its spec, when that has
    one. *)
Definition selectingNodes {W} (ref : specEntry DeploymentSpec) (key value : string)
    (deploy : Deployment) : SM W Deployment :=
  write ref (λ spec, spec <| DeploymentSpec_NodeSelector ::= λ m,
    if bool_decide (m = ∅) then ∅ else <[key := value]> m |>) ;;!
  ret (in_pod (λ p, p <| PodSpec_NodeSelector ::= <[key := value]> |>) deploy).

Definition recreated (deploy : Deployment) : Deployment :=
  deploy <| Deployment_Spec ::= λ s,
    s <| apps_DeploymentSpec_Strategy := MkDeploymentStrategy "Recreate" |> |>.

(** The labels of the object, of its pods and of its selector are one map. *)
Definition besideDeployer (deploy : Deployment) : Deployment :=
  let put := <[OnecloudHostDeployerLabelKey := ""]> in
  deploy <| Deployment_ObjectMeta ::= λ m, m <| ObjectMeta_Labels ::= put |> |>
    <| Deployment_Spec ::= λ s,
         s <| apps_DeploymentSpec_Template ::= λ t, t <| PodTemplateSpec_ObjectMeta ::= λ m,
                m <| ObjectMeta_Labels ::= put |> |> |>
           <| apps_DeploymentSpec_Selector ::= λ o,
                Some (let l := default zero o in l <| LabelSelector_MatchLabels ::= put |>) |> |>.

Definition claimVolume (name claim : string) : Volume :=
  MkVolume name ((zero : VolumeSource) <| VolumeSource_PersistentVolumeClaim :=
    Some (MkPersistentVolumeClaimVolumeSource claim false) |>).

(** Volumes, and their mounts in the first container, which runs privileged. *)
Definition withHostDirs (vs : list Volume) (ms : list VolumeMount) (d : Deployment) : Deployment :=
  in_pod (λ p, p <| PodSpec_Volumes ::= λ l, l ++ vs |>
    <| PodSpec_Containers ::= in_first (λ c,
         privileged None c <| Container_VolumeMounts ::= λ l, l ++ ms |>) |>) d.

Section managers.
Context {W : Type} `{!SessionEnv W, !JsonUtils, !CloudApi W, !OptionsLib W, !YamlLib}.
Context `{!NodeLister W, !QuantityOps}.
Context `{!ResourceApi W Deployment, !ResourceApi W ConfigMap}.
Context (SessionDebug DisableNodeSelectorController : bool).

Let withoutInit := newDefaultDeploymentNoInit (W := W) DisableNodeSelectorController.

(** ** The northbound data base *)

(*@ pkg/manager/component/ovn-north.go:58-69 getService *)
Definition ovnnorth_getService (oc : OnecloudCluster) : list core_Service :=
  let port name p target :=
    (NewServiceNodePort name false p p)
      <| ServicePort_TargetPort := MkIntOrString 0 target "" |> in
  newNodePortService OvnNorthComponentType oc false
    [port "north-db" OvnNorthDbPort 6641%Z; port "south-db" OvnSouthDbPort 6642%Z] false.

(*@ pkg/manager/component/ovn-north.go:71-98 getDeployment *)
Definition ovnnorth_getDeployment : SM W Deployment :=
  let cType := OvnNorthComponentType in
  let! oc := getoc in
  let! spec := read ovnNorthDeploy in
  let cmds := ["/start.sh"; "north"]
    ++ (if OnecloudClusterSpec_IPv6Cluster (OnecloudCluster_Spec oc) then ["ipv6"] else []) in
  withoutInit cType "" (NewVolumeHelper oc "" cType) ovnNorthDeploy
    (λ _, [(containerOf cType (DeploymentSpec_ContainerSpec spec) cmds [])
             <| Container_SecurityContext :=
                  Some (MkSecurityContext (Some (MkCapabilities ["SYS_NICE"])) None) |>]).

(*@ pkg/manager/component/ovn-north.go:29-114 newOvnNorthManager (type ovnNorthManager and its methods) *)
Definition newOvnNorthManager : cloudComponentFactory W :=
  (manages ovnNorthDeploy onHosts
     >-> deploys (λ _, ovnnorth_getDeployment)
     >-> reports (status1 OnecloudClusterStatus_OvnNorth))
  <| IsDisabled := λ oc, DeploymentSpec_Disable (specOf ovnNorthDeploy oc)
       || negb (inVersions onHosts oc) || OnecloudClusterSpec_DisableLocalVpc (OnecloudCluster_Spec oc) |>
  <| getService := λ _ _, let! oc := getoc in ret (ovnnorth_getService oc) |>.

(** ** The name service *)

Definition on_regionDNS (g : RegionDNSSpec → RegionDNSSpec) : SM W unit :=
  modoc (λ oc, oc <| OnecloudCluster_Spec ::= λ s, s <| OnecloudClusterSpec_RegionDNS ::= g |> |>).

(** The defaults go to a copy of the spec, which the cluster gets when the
    file could be written; the elements of a list of proxies are shared with
    it at once. The configuration is always forced. *)
(*@ pkg/manager/component/regiondns.go:137-201 getConfigMap *)
Definition regiondns_getConfigMap (cfg : OnecloudClusterConfig) : SM W (option ConfigMap * bool) :=
  let! oc := getoc in
  let spec := fillRegionDNS (OnecloudClusterSpec_RegionDNS (OnecloudCluster_Spec oc)) in
  on_regionDNS (λ d, d <| RegionDNSSpec_Proxies ::= λ ps,
    match ps with [] => [] | _ => RegionDNSSpec_Proxies spec end |>) ;;!
  let! content := lift (RegionDNSConfig_GetContent (dnsConfig oc cfg spec)) in
  on_regionDNS (λ _, spec) ;;!
  ret (Some (newConfigMap RegionDNSComponentType "" oc content), true).

(*@ pkg/manager/component/regiondns.go:203-216 getService *)
Definition regiondns_getService (oc : OnecloudCluster) : list core_Service :=
  let cType := RegionDNSComponentType in
  let appLabel := getComponentLabel oc cType false in
  [Mkcore_Service (getObjectMeta oc (NewClusterComponentName (oc_name oc) cType) appLabel)
     ((zero : core_ServiceSpec) <| core_ServiceSpec_ClusterIP := "None" |>
        <| core_ServiceSpec_Selector := appLabel |>)].

(*@ pkg/manager/component/regiondns.go:218-246 getDaemonSet *)
Definition regiondns_getDaemonSet : SM W (option DaemonSet) :=
  let cType := RegionDNSComponentType in
  (if DisableNodeSelectorController then ret tt
   else write regionDNSDs (enableNode OnecloudControllerLabelKey)) ;;!
  let! oc := getoc in
  let! spec := read regionDNSDs in
  let! ds := newDaemonSetWithLimits cType
               (NewVolumeHelper oc (ComponentConfigMapName oc cType) cType) regionDNSDs "" []
               (λ volMounts, [containerOf cType (DaemonSetSpec_ContainerSpec spec)
                  ["/opt/yunion/bin/region-dns"; "-conf"; "/etc/yunion/region-dns.conf"] volMounts])
               true in
  ret (Some ds).

(*@ pkg/manager/component/regiondns.go:107-258 newRegionDNSManager (type regionDNSManager and its methods) *)
Definition newRegionDNSManager : cloudComponentFactory W :=
  (baseManager RegionDNSComponentType
     (λ oc, DaemonSetSpec_Disable (se_get regionDNSDs (OnecloudCluster_Spec oc))
            || negb (inVersions allVersions oc)) allVersions)
  <| getConfigMap := λ cfg _, regiondns_getConfigMap cfg |>
  <| getService := λ _ _, let! oc := getoc in ret (regiondns_getService oc) |>
  <| getDaemonSet := λ _ _, regiondns_getDaemonSet |>.

(** ** Telegraf *)

Definition telegrafSpec (oc : OnecloudCluster) : TelegrafSpec :=
  OnecloudClusterSpec_Telegraf (OnecloudCluster_Spec oc).

(** The name of the node a pod runs on. *)
Definition nodeName : EnvVar :=
  (zero : EnvVar) <| EnvVar_Name := "NODENAME" |>
    <| EnvVar_ValueFrom := Some (MkEnvVarSource (Some (MkObjectFieldSelector "spec.nodeName"))) |>.

(*@ pkg/manager/component/telegraf.go:69-136 newTelegrafDaemonSet (containersF) *)
Definition telegrafContainers (oc : OnecloudCluster) (volMounts : list VolumeMount) : list Container :=
  let spec := telegrafSpec oc in
  let under k dir := envVar k (path_Join [hostRoot; dir]) in
  (privileged None (containerOf TelegrafComponentType
     (DaemonSetSpec_ContainerSpec (TelegrafSpec_DaemonSetSpec spec)) [] volMounts))
    <| Container_Env := [under "HOST_ETC" "/etc"; under "HOST_PROC" "/proc"; under "HOST_SYS" "/sys";
                         under "HOST_VAR" "/var"; under "HOST_RUN" "/run";
                         envVar "HOST_MOUNT_PREFIX" hostRoot] |>
    <| Container_Args := ["/usr/bin/telegraf"; "-config"; "/etc/telegraf/telegraf.conf";
                          "-config-directory"; "/etc/telegraf/telegraf.d"] |>
  :: (if TelegrafSpec_EnableRaidPlugin spec
      then [(privileged None (containerOf "telegraf-raid-plugin" (TelegrafSpec_TelegrafRaid spec)
               ["/opt/yunion/bin/telegraf-raid-plugin"] volMounts))
              <| Container_Env := [nodeName] |>]
      else []).

(*@ pkg/manager/component/telegraf.go:138-165 newTelegrafDaemonSet (initContainers) *)
Definition telegrafInit (oc : OnecloudCluster) : Container :=
  (zero : Container) <| Container_Name := TelegrafComponentType +:+ "-init" |>
    <| Container_Image := TelegrafSpec_InitContainerImage (telegrafSpec oc) |>
    <| Container_ImagePullPolicy := ContainerSpec_ImagePullPolicy
         (DaemonSetSpec_ContainerSpec (TelegrafSpec_DaemonSetSpec (telegrafSpec oc))) |>
    <| Container_Command := ["/bin/telegraf-init"] |>
    <| Container_VolumeMounts := [mount "etc-telegraf" "/etc/telegraf"] |>
    <| Container_Env := [nodeName; envVar "INFLUXDB_URL" (getInfluxDBInternalURL oc)] |>.

(*@ pkg/manager/component/telegraf.go:56-183 newTelegrafDaemonSet *)
Definition newTelegrafDaemonSet : SM W (option DaemonSet) :=
  let cType := TelegrafComponentType in
  let! oc := getoc in
  let! ds := newDaemonSet cType (NewTelegrafVolume cType (telegrafDir oc))
               (TelegrafSpec_DaemonSetSpec (telegrafSpec oc)) "" [telegrafInit oc]
               (telegrafContainers oc) in
  ret (Some (maxUnavailable 20 (in_ds_pod (λ p,
    p <| PodSpec_HostPID := false |>
      <| PodSpec_ServiceAccountName := ServiceAccountOnecloudOperator |>) ds))).

(*@ pkg/manager/component/telegraf.go:23-244 newTelegrafManager (type telegrafManager and its methods) *)
Definition newTelegrafManager : cloudComponentFactory W :=
  (baseManager TelegrafComponentType
     (λ oc, DaemonSetSpec_Disable (TelegrafSpec_DaemonSetSpec (telegrafSpec oc))
            || negb (inVersions onHosts oc)) onHosts)
  <| getDaemonSet := λ _ _, newTelegrafDaemonSet |>.

(** ** The agent of the load balancer *)

Definition lbagent_conf (cfg : OnecloudClusterConfig) : ServiceCommonOptions :=
  LbagentConfig_ServiceCommonOptions (OnecloudClusterConfig_Lbagent cfg).

(*@ pkg/manager/component/lbagent.go:58-74 getConfigMap *)
Definition lbagent_getConfigMap (cfg : OnecloudClusterConfig) : SM W (option ConfigMap * bool) :=
  let type := "lbagent.LbagentCommonOptions" in
  let! oc := getoc in
  let! opt := kube (onNew (
    SetOptionsDefault type "" ;;!
    assign_all [
      SetOptionsServiceTLS false; commonOptions oc cfg (lbagent_conf cfg); set_int "Port" LbagentPort;
      set_str "BaseDataDir" "/opt/cloud/workspace/lbagent"; set_bool "EnableRemoteExecutor" true;
      set_bool "DisableLocalVpc" (OnecloudClusterSpec_DisableLocalVpc (OnecloudCluster_Spec oc))])) in
  shouldSyncConfigmap LbagentComponentType (YAMLString W type opt) (Some (λ _, true)).

(*@ pkg/manager/component/lbagent.go:80-155 newLbagentPrivilegedDaemonSet *)
Definition newLbagentPrivilegedDaemonSet : SM W (option DaemonSet) :=
  let cType := LbagentComponentType in
  let! oc := getoc in
  let spec := OnecloudClusterSpec_Lbagent (OnecloudCluster_Spec oc) in
  let dsSpec := enableNode OnecloudEnableLbagentLabelKey (LbagentSpec_DaemonSetSpec spec) in
  write lbagentDs (λ old, sharedDaemonSet old dsSpec) ;;!
  let command := ["/opt/yunion/bin/" +:+ cType; "--config"; "/etc/yunion/lbagent.conf";
                  "--common-config-file"; "/etc/yunion/common/common.conf"] in
  let! ds := newDaemonSet cType (NewHostVolume cType oc (ComponentConfigMapName oc cType)) dsSpec "" []
    (λ volMounts,
      [(privileged None (containerOf cType (DaemonSetSpec_ContainerSpec dsSpec) command volMounts))
         <| Container_Env :=
              [envVar "HOST_OVN_ENCAP_IP_DETECTION_METHOD"
                 (HostAgentSpec_OvnEncapIpDetectionMethod (hostAgent oc));
               ovnSouthDatabase oc; envVar "OVN_CONTAINER_IMAGE_TAG" DefaultOvnImageTag] |>
         <| Container_WorkingDir := "/opt/cloud" |>]) in
  ret (Some (maxUnavailable (LbagentSpec_MaxUnavailableCount spec) (in_ds_pod (gracePeriod 300) ds))).

(*@ pkg/manager/component/lbagent.go:22-167 newLbagentManager (type lbagentManager and its methods) *)
Definition newLbagentManager : cloudComponentFactory W :=
  let versions := [ProductVersionFullStack; ProductVersionEdge; ProductVersionAI] in
  (baseManager LbagentComponentType
     (λ oc, DaemonSetSpec_Disable (se_get lbagentDs (OnecloudCluster_Spec oc))
            || negb (inVersions versions oc)) versions
     >-> withAccount lbagent_conf)
  <| getPhaseControl := λ _,
       Some (NewRegisterServiceComponent SessionDebug ServiceNameLbagent ServiceTypeLbagent) |>
  <| getConfigMap := λ cfg _, lbagent_getConfigMap cfg |>
  <| getDaemonSet := λ _ _, newLbagentPrivilegedDaemonSet |>.

(** ** The agent for bare metal *)

(** The options of a service with the zone of its deployment, which stays in
    the variable of the package. *)
Definition optionsInZone (config : SM W ConfigValue) (zone : string) : SM W (string * Options) :=
  let! v := config in
  let! oc := getoc in
  match v with
  | ConfigOptions type opt =>
      let opt := set_str "Zone" (GetZone oc zone) opt in
      kube (options_store type opt) ;;! ret (type, opt)
  | _ => panic "interface conversion"
  end.

Definition baremetalSpec (oc : OnecloudCluster) : StatefulDeploymentSpec :=
  ZoneStatefulDeploymentSpec_StatefulDeploymentSpec
    (OnecloudClusterSpec_BaremetalAgent (OnecloudCluster_Spec oc)).

(*@ pkg/manager/component/baremetal.go:62-72 getConfigMap *)
Definition baremetal_getConfigMap (cfg : OnecloudClusterConfig) (zone : string)
  : SM W (option ConfigMap * bool) :=
  let! '(type, opt) := optionsInZone (GetConfig (W := W) NewBaremetal cfg) zone in
  let! oc := getoc in
  ret (Some (newServiceConfigMap BaremetalAgentComponentType zone oc type opt), false).

(*@ pkg/manager/component/baremetal.go:74-77 getPVC *)
Definition baremetal_getPVC (zone : string) : SM W (option PersistentVolumeClaim) :=
  let! oc := getoc in
  lift (res_map Some (newPVC (getZoneComponent BaremetalAgentComponentType zone) oc (baremetalSpec oc))).

(** Without a node for bare metal there are no replicas. *)
(*@ pkg/manager/component/baremetal.go:94-112 updateBaremetalSpecByNodeInfo *)
Definition updateBaremetalSpecByNodeInfo : SM W unit :=
  let! nodes := kube (listNodes (OnecloudEanbleBaremetalLabelKey +:+ "=enable")) in
  match nodes with
  | [] => write baremetalDeploy (λ spec, spec <| DeploymentSpec_Replicas := 0%Z |>)
  | _ => ret tt
  end.

(*@ pkg/manager/component/baremetal.go:163-182 newBaremetalVolHelper *)
Definition newBaremetalVolHelper (oc : OnecloudCluster) (optCfgMap : string)
    (component : ComponentType) : VolumeHelper :=
  add_volumes
    [claimVolume "opt" (newPvcName (oc_name oc)
       (StatefulDeploymentSpec_StorageClassName (baremetalSpec oc)) component)]
    [mount "opt" BaremetalDataStore]
    (NewVolumeHelper oc optCfgMap BaremetalAgentComponentType).

(*@ pkg/manager/component/baremetal.go:114-161 getDeployment *)
Definition baremetal_getDeployment (zone : string) : SM W Deployment :=
  updateBaremetalSpecByNodeInfo ;;!
  let cType := BaremetalAgentComponentType in
  let zoneComponentType := getZoneComponent cType zone in
  let! oc := getoc in
  let! spec := read baremetalDeploy in
  let! dm := newDefaultDeploymentNoInitWithoutCloudAffinity cType zoneComponentType
               (newBaremetalVolHelper oc (ComponentConfigMapName oc zoneComponentType)
                  zoneComponentType)
               baremetalDeploy true
               (λ volMounts, [privileged None (containerOf cType (DeploymentSpec_ContainerSpec spec)
                                                 (service_command cType) volMounts)]) in
  let local := String.eqb (StatefulDeploymentSpec_StorageClassName (baremetalSpec oc))
                 DefaultStorageClass in
  let! dm := selectingNodes baremetalDeploy OnecloudEanbleBaremetalLabelKey "enable"
               (if local then dm else recreated dm) in
  setSelfAntiAffnity baremetalDeploy dm cType.

(*@ pkg/manager/component/baremetal.go:22-194 newBaremetalManager (type baremetalManager and its methods) *)
Definition newBaremetalManager : cloudComponentFactory W :=
  (manages baremetalDeploy [ProductVersionFullStack; ProductVersionEdge; ProductVersionBaremetal]
     >-> withAccount baremetal_conf)
  <| getPhaseControl := λ _,
       Some (NewRegisterServiceComponent SessionDebug ServiceNameBaremetal ServiceTypeBaremetal) |>
  <| getConfigMap := baremetal_getConfigMap |>
  <| getPVC := baremetal_getPVC |>
  <| getDeploymentStatus := λ zone, Some (baremetalStatus zone) |>
  <| getDeployment := λ _ zone, let! d := baremetal_getDeployment zone in ret (Some d) |>.

(** ** The agent for ESXi *)

Definition esxiSpec (oc : OnecloudCluster) : StatefulDeploymentSpec :=
  ZoneStatefulDeploymentSpec_StatefulDeploymentSpec
    (OnecloudClusterSpec_EsxiAgent (OnecloudCluster_Spec oc)).

(** A configuration that names another socket of the deploy server is
    written again with the right one, the rest kept. *)
(*@ pkg/manager/component/esxi.go:96-101 customConfig (socket) *)
Definition rightSocket (socketPath : string) (d : list (string * json)) : option (list (string * json)) :=
  match GetString (JObj d) "deploy_server_socket_path" with
  | Ok deployPath =>
      if String.eqb deployPath socketPath then None
      else Some (json_Set "deploy_server_socket_path" (JStr socketPath) d)
  | _ => None
  end.

(** What is made of the configuration there is: a change, or nothing. *)
(*@ pkg/manager/component/esxi.go:79-108 customConfig *)
Definition customConfig (cType : ComponentType) (zone : string)
    (change : list (string * json) → option (list (string * json))) (newCfg : ConfigMap)
  : SM W (option ConfigMap * bool) :=
  let! oc := getoc in
  let! r := kube (attempt (listerGet ConfigMap (oc_ns oc)
                    (ComponentConfigMapName oc (getZoneComponent cType zone)))) in
  match r with
  | inl err => if IsNotFound err then ret (Some newCfg, false) else throw err
  | inr old =>
      match ConfigMap_Data old !! "config" with
      | None => ret (Some newCfg, false)
      | Some oldConfigStr =>
          let! config := lift (ParseYAML oldConfigStr) in
          match config with
          | JObj d =>
              match change d with
              | Some d => ret (Some (newConfigMap cType zone oc (json_YAMLString (JObj d))), true)
              | None => ret (Some newCfg, false)
              end
          | _ => panic "interface conversion"
          end
      end
  end.

(*@ pkg/manager/component/esxi.go:67-77 getConfigMap *)
Definition esxi_getConfigMap (cfg : OnecloudClusterConfig) (zone : string)
  : SM W (option ConfigMap * bool) :=
  let! '(type, opt) := optionsInZone (GetConfig (W := W) NewEsxiAgent cfg) zone in
  let! oc := getoc in
  customConfig EsxiAgentComponentType zone
    (rightSocket (field_str "DeployServerSocketPath" opt))
    (newServiceConfigMap EsxiAgentComponentType zone oc type opt).

(*@ pkg/manager/component/esxi.go:125-211 getDeployment *)
Definition esxi_getDeployment (zone : string) : SM W Deployment :=
  let cType := EsxiAgentComponentType in
  let! dm := newCloudServiceSinglePortDeployment DisableNodeSelectorController cType
               (getZoneComponent cType zone) esxiDeploy EsxiAgentPort false false in
  let! oc := getoc in
  let dm := withHostDirs
    [hostPathVolume "opt-cloud" "/opt/cloud" HostPathDirectoryOrCreate;
     hostPathVolume "run" "/var/run" HostPathDirectory]
    [mountBidirectional "opt-cloud" "/opt/cloud"; mount "run" "/var/run"] dm in
  let local := String.eqb (StatefulDeploymentSpec_StorageClassName (esxiSpec oc)) DefaultStorageClass in
  let! dm := selectingNodes esxiDeploy "kubernetes.io/arch" "amd64"
               (if local then dm else recreated dm) in
  setSelfAntiAffnity esxiDeploy (besideDeployer dm) cType.

(*@ pkg/manager/component/esxi.go:35-223 newEsxiManager (type esxiManager and its methods) *)
Definition newEsxiManager : cloudComponentFactory W :=
  (manages esxiDeploy [ProductVersionFullStack; ProductVersionCMP; ProductVersionEdge]
     >-> withAccount esxi_conf)
  <| getConfigMap := esxi_getConfigMap |>
  <| getDeploymentStatus := λ zone, Some (esxiStatus zone) |>
  <| getDeployment := λ _ zone, let! d := esxi_getDeployment zone in ret (Some d) |>.
End managers.
