(* ===== verification/ImageManagers.v ===== *)
(** * ImageManagers: the images and the web console

    The image service moves its store to the object store on demand; the web
    console has an ingress. *)

From S2P Require Import Prelude K8s Types Constants GoStrings Defaults.
From S2P Require Import ControllerUtils LastApplied KubeApi Controls Session CloudApi Databases.
From S2P Require Import Sync Phases Volumes Endpoints Builders Components Options.
From S2P Require Import ServiceInit Services ManagerBase AgentManagers GatewayManagers.
From S2P Require Import HostManagers EdgeManagers.

Open Scope string_scope.
Open Scope list_scope.
Open Scope go_scope.

(** The variable of the package that remembers that the image service has
    been told of the object store. *)
Class GlanceMemo (W : Type) := {
  s3ConfigSynced : M W bool;
  set_s3ConfigSynced : M W unit
}.

(** ** Ingresses as the server has them *)

(*@ pkg/manager/component/web.go:246-256 IsPathIngressRule *)
Fixpoint IsPathIngressRule (path : string) (paths : list json) : Res bool :=
  match paths with
  | [] => Ok false
  | JObj ip :: paths =>
      match json_Get (JObj ip) ["path"] with
      | Ok (JStr p) => if String.eqb p path then Ok true else IsPathIngressRule path paths
      | _ => Panic "interface conversion"
      end
  | _ :: _ => Panic "interface conversion"
  end.

(** A rule without one of the paths; a rule that is not for HTTP has none to
    lack. *)
(*@ pkg/manager/component/web.go:264-274 updateIngress (rule) *)
Definition lacksPath (rule : json) : Res bool :=
  match rule with
  | JObj r =>
      match json_Get (JObj r) ["http"] with
      | Ok (JObj http) =>
          let paths := match json_Get (JObj http) ["paths"] with Ok (JArr l) => l | _ => [] end in
          res_bind (IsPathIngressRule "/overview" paths) (λ overview,
            if overview then res_map negb (IsPathIngressRule "/docs" paths) else Ok true)
      | _ => Ok false
      end
  | _ => Panic "interface conversion"
  end.

(** Every rule is looked at. *)
(*@ pkg/manager/component/web.go:262-275 updateIngress (rules) *)
Fixpoint anyLacksPath (rules : list json) : Res bool :=
  match rules with
  | [] => Ok false
  | rule :: rules => res_bind (lacksPath rule) (λ b, res_map (orb b) (anyLacksPath rules))
  end.

(** The paths it speaks of are in a comment. *)
(*@ pkg/manager/component/web.go:214-244 addIngressPaths *)
Definition addIngressPaths (isEE : bool) (svcName : string) (ing : Unstructured) : Unstructured :=
  if negb isEE then ing else ing.

(** ** Places *)
Definition glanceDeploy : specEntry DeploymentSpec :=
  deploy3 GlanceComponentType OnecloudClusterSpec_Glance GlanceSpec_StatefulDeploymentSpec
    StatefulDeploymentSpec_DeploymentSpec.
Definition glanceSpec (oc : OnecloudCluster) : GlanceSpec :=
  OnecloudClusterSpec_Glance (OnecloudCluster_Spec oc).
Definition glanceStorage (oc : OnecloudCluster) : string :=
  StatefulDeploymentSpec_StorageClassName (GlanceSpec_StatefulDeploymentSpec (glanceSpec oc)).

Definition webDeploy : specEntry DeploymentSpec :=
  deploy2 WebComponentType OnecloudClusterSpec_Web WebSpec_DeploymentSpec.
Definition webSpec (oc : OnecloudCluster) : WebSpec := OnecloudClusterSpec_Web (OnecloudCluster_Spec oc).

(** The claim is bound to a directory. *)
(*@ pkg/manager/component/glance.go:241-252 getPVC *)
Definition glancePVC `{!QuantityOps} (oc : OnecloudCluster) : Res PersistentVolumeClaim :=
  res_map (λ pvc, pvc <| PersistentVolumeClaim_ObjectMeta ::= λ m,
      m <| ObjectMeta_Annotations ::= <[SpecifiedPresistentVolumePath := GlanceDataStore]> |> |>)
    (newPVC GlanceComponentType oc (GlanceSpec_StatefulDeploymentSpec (glanceSpec oc))).

(** The socket of the deploy server as in [rightSocket]; without hosts there
    is no remote executor. *)
(*@ pkg/manager/component/glance.go:220-232 customConfig (change) *)
Definition rightGlanceConfig `{!JsonUtils} (cmp : bool) (socketPath : string) (d : list (string * json))
  : option (list (string * json)) :=
  let d1 := rightSocket socketPath d in
  match json_Bool (JObj (default d d1)) "enable_remote_executor" with
  | Ok true =>
      if cmp then Some (json_Set "enable_remote_executor" (JBool false) (default d d1)) else d1
  | _ => d1
  end.

Section managers.
Context {W : Type} `{!SessionEnv W, !JsonUtils, !CloudApi W, !OptionsLib W, !YamlLib}.
Context `{!NodeLister W, !QuantityOps, !SecretApi W, !GlanceMemo W}.
Context `{!ResourceApi W Deployment, !ResourceApi W ConfigMap, !ResourceApi W core_Service}.
Context (SessionDebug DisableNodeSelectorController : bool).
Context (man : ComponentManager W).

(** ** The image service *)

(** Once the service knows an endpoint the question is not asked again. *)
(*@ pkg/manager/component/glance.go:148-200 setS3Config (minio) *)
Definition glance_toMinio (oc : OnecloudCluster) (s : ClientSession W) (conf : json) : M W unit :=
  let! '(sec, endpoint) := minioService in
  match sec !! "accesskey", sec !! "secretkey" with
  | None, _ =>
      if GlanceSpec_SwitchToS3 (glanceSpec oc) then throw (ErrMsg "s3 access key not found")
      else ret tt
  | Some _, None => throw (ErrMsg "s3 secret key not found")
  | Some ak, Some sk =>
      match conf with
      | JObj d =>
          let d := s3Fields endpoint ak sk (json_Set "storage_driver" (JStr "s3") d) in
          mod_PerformAction s ServicesV3 "glance" "config"
            (json_Add (JObj d) ["config"; "default"] []) ;;!
          set_s3ConfigSynced
      | _ => panic "interface conversion"
      end
  end.

(*@ pkg/manager/component/glance.go:121-202 setS3Config *)
Definition glance_setS3Config : SM W unit :=
  let! oc := getoc in
  kube (
    let! synced := s3ConfigSynced in
    if synced then ret tt
    else
      let! s := GetAdminSession (OnecloudClusterSpec_Region (OnecloudCluster_Spec oc)) in
      let! r := attempt (mod_GetSpecific s ServicesV3 "glance" "config") in
      match r with
      | inl err =>
          if contains "not found" (Error err) then ret tt
          else throw (ErrWrap err "get glance service config")
      | inr conf =>
          match json_Get conf ["config"; "default"] with
          | Ok d => if json_Contains d ["s3_endpoint"] then set_s3ConfigSynced
                    else glance_toMinio oc s d
          | _ => ret tt
          end
      end).

(*@ pkg/manager/component/glance.go:204-239 customConfig *)
Definition glance_customConfig (opt : Options) (newCfg : ConfigMap) : SM W (option ConfigMap * bool) :=
  let! oc := getoc in
  customConfig GlanceComponentType ""
    (rightGlanceConfig (isProduct oc ProductVersionCMP) (field_str "DeployServerSocketPath" opt)) newCfg.

(*@ pkg/manager/component/glance.go:104-119 getConfigMap *)
Definition glance_getConfigMap (cfg : OnecloudClusterConfig) : SM W (option ConfigMap * bool) :=
  let! v := GetConfig (W := W) NewGlance cfg in
  match v with
  | ConfigOptions type opt =>
      let! oc := getoc in
      let! opt :=
        (if GlanceSpec_SwitchToS3 (glanceSpec oc) then
           wrap "setS3Config" glance_setS3Config ;;!
           let opt := set_str "StorageDriver" "s3" opt in
           kube (options_store type opt) ;;! ret opt
         else ret opt) in
      glance_customConfig opt (newServiceConfigMap GlanceComponentType "" oc type opt)
  | _ => panic "interface conversion"
  end.

(** The images are in a claim unless they are in the object store. *)
(*@ pkg/manager/component/glance.go:254-368 getDeployment *)
Definition glance_getDeployment : SM W Deployment :=
  let cType := GlanceComponentType in
  let! deploy := newCloudServiceSinglePortDeploymentWithReadinessProbePath
                   DisableNodeSelectorController cType "" glanceDeploy GlanceAPIPort true false
                   "/ping" in
  let! oc := getoc in
  let local := String.eqb (glanceStorage oc) DefaultStorageClass in
  let usePVC := negb (GlanceSpec_SwitchToS3 (glanceSpec oc)) in
  let deploy := if local then deploy else recreated deploy in
  let deploy := if usePVC && local then removeDeploymentAffinity deploy else deploy in
  let claim := newPvcName (oc_name oc) (glanceStorage oc) cType in
  ret (besideDeployer (withHostDirs
    ([hostPathVolume "opt-cloud" "/opt/cloud" HostPathDirectoryOrCreate]
     ++ (if usePVC then [claimVolume "data" claim] else [])
     ++ [hostPathVolume "run" "/var/run" HostPathDirectory; hostPathVolume "dev" "/dev" HostPathDirectory])
    ([mountBidirectional "opt-cloud" "/opt/cloud"]
     ++ (if usePVC then [mount "data" "/data"] else [])
     ++ [mount "run" "/var/run"; mount "dev" "/dev"]) deploy)).

(*@ pkg/manager/component/glance.go:46-396 newGlanceManager (type glanceManager and its methods) *)
Definition newGlanceManager : cloudComponentFactory W :=
  let svc s := GlanceSpec_Service (OnecloudClusterSpec_Glance s) in
  (manages glanceDeploy allVersions
     >-> withData glance_conf (λ s, GlanceSpec_DbEngine (OnecloudClusterSpec_Glance s))
     >-> withClickhouseData glance_conf
     >-> exposes svc glanceDeploy (dbPort glance_conf)
     >-> deploys (λ _, glance_getDeployment)
     >-> reports (status2 OnecloudClusterStatus_Glance GlanceStatus_DeploymentStatus)
     >-> readOnly glanceDeploy
     >-> follows ServiceNameGlance glanceDeploy)
  <| getPhaseControl := λ _, Some (man_Glance man) |>
  <| getConfigMap := λ cfg _, glance_getConfigMap cfg |>
  <| getPVC := λ _, let! oc := getoc in lift (res_map Some (glancePVC oc)) |>.

(** ** The web console *)

(*@ pkg/manager/component/web.go:70-98 getService *)
Definition web_getService (oc : OnecloudCluster) : list core_Service :=
  let port name p := MkServicePort name "TCP" p (MkIntOrString 0 p "") 0 in
  [newService WebComponentType oc "ClusterIP"
     [port "http" 80%Z; port "https" 443%Z; port "overview" 8080%Z; port "docs" 8081%Z] false].

(*@ pkg/manager/component/web.go:100-212 getIngress *)
Definition web_getIngress (oc : OnecloudCluster) : Unstructured :=
  let svcName := NewClusterComponentName (oc_name oc) WebComponentType in
  let useHTTP := WebSpec_UseHTTP (webSpec oc) in
  addIngressPaths (IsEnterpriseEdition oc) svcName
    (ingressObject oc svcName (getComponentLabel oc WebComponentType false)
      (ingressSpec (ClustercertSecretName oc)
         [ingressPath "/" svcName (if useHTTP then 80%Z else 443%Z)])
      [("nginx.ingress.kubernetes.io/backend-protocol", if useHTTP then "HTTP" else "HTTPS")]).

(** What is updated is a copy of the ingress the server has. *)
(*@ pkg/manager/component/web.go:258-281 updateIngress *)
Definition web_updateIngress (oc : OnecloudCluster) (oldIng : Unstructured) : Res Unstructured :=
  let rules := match json_Get (JObj (Unstructured_Object oldIng)) ["spec"; "rules"] with
               | Ok (JArr l) => l
               | _ => []
               end in
  res_bind (anyLacksPath rules) (λ doUpdate,
    if doUpdate then
      match web_getService oc with
      | [] => Panic "index out of range"
      | svc :: _ => Ok (addIngressPaths (IsEnterpriseEdition oc) (obj_name svc) oldIng)
      end
    else Ok oldIng).

(** The last mount is that of the configuration. *)
(*@ pkg/manager/component/web.go:292-346 getDeployment (cf) *)
Definition webContainers (oc : OnecloudCluster) (volMounts : list VolumeMount) : list Container :=
  let spec := webSpec oc in
  let on port c := c <| Container_Ports := [MkContainerPort (Container_Name c) port "TCP" 0] |> in
  on 80%Z (containerOf "web" (DeploymentSpec_ContainerSpec (WebSpec_DeploymentSpec spec))
    ["nginx"; "-g"; "daemon off;"] volMounts)
  :: (if IsEnterpriseEdition oc
      then [on 8080%Z (containerOf "overview" (WebSpec_Overview spec) [] volMounts);
            on 8081%Z (containerOf "docs" (WebSpec_Docs spec) [] volMounts)]
      else []).

(*@ pkg/manager/component/web.go:352-355 getDeployment (config) *)
Definition webConfigVolumes (vols : list Volume) : Res (list Volume) :=
  on_last (configFileAs "default.conf") vols.

(*@ pkg/manager/component/web.go:291-357 getDeployment *)
Definition web_getDeployment : SM W Deployment :=
  let cType := WebComponentType in
  let! oc := getoc in
  let h := NewVolumeHelper oc (ComponentConfigMapName oc cType) cType in
  let! volMounts := lift (on_last (λ v, Ok (v <| VolumeMount_MountPath := "/etc/nginx/conf.d" |>))
                            (GetVolumeMounts h)) in
  let! deploy := newDefaultDeploymentNoInit DisableNodeSelectorController cType "" h webDeploy
                   (λ _, webContainers oc volMounts) in
  let! vols := lift (webConfigVolumes (PodSpec_Volumes (pod_of deploy))) in
  ret (in_pod (λ p, p <| PodSpec_Volumes := vols |>) deploy).

(*@ pkg/manager/component/web.go:32-373 newWebManager (type webManager and its methods) *)
Definition newWebManager : cloudComponentFactory W :=
  (manages webDeploy allVersions
     >-> configuredBy (GetConfig (NewWeb : ServiceComponent W))
     >-> deploys (λ _, web_getDeployment)
     >-> reports (status1 OnecloudClusterStatus_Web))
  <| getService := λ _ _, let! oc := getoc in ret (web_getService oc) |>
  <| getIngress := λ _, let! oc := getoc in ret (Some (web_getIngress oc)) |>
  <| updateIngress := λ oldIng, let! oc := getoc in lift (web_updateIngress oc oldIng) |>.
End managers.
