(* ===== verification/MonitorStack.v ===== *)
(** * MonitorStack: the monitoring stack

    It runs in a name space of its own, as components of the system cluster:
    its object store, thanos, and the stack. The clients of stateful sets and
    of the object store are interfaces. *)

From S2P Require Import Prelude K8s Types Constants GoStrings Defaults.
From S2P Require Import ControllerUtils LastApplied KubeApi Controls Session CloudApi Databases.
From S2P Require Import Sync Volumes Endpoints Builders KubeClusters ManagerBase.

Open Scope string_scope.
Open Scope list_scope.
Open Scope go_scope.

(** The containers of the pods of a stateful set. *)
Class StatefulSetApi (W : Type) := statefulset_Get : string → string → M W (list Container).

(** A rule for the objects under a prefix of a bucket. *)
Record LifecycleRule := MkLifecycleRule {
  rule_ID : string;
  rule_Status : string;
  rule_Prefix : string;
  rule_ExpirationDays : Z
}.

Class MinioLib (W : Type) := {
  MinioClient : Type;
  minio_New : string → string → string → M W MinioClient;
  BucketExists : MinioClient → string → M W bool;
  MakeBucket : MinioClient → string → M W unit;
  SetBucketLifecycle : MinioClient → string → list LifecycleRule → M W unit
}.

(** ** Configuration of the object store *)

(** Three ready masters can hold a distributed store. *)
(*@ pkg/manager/component/monitor_stack.go:123-142 syncMinio (mode) *)
Definition stackMinioMode (readyMasters : Z) (mode : string) : Res string :=
  if (3 <=? readyMasters)%Z then Ok (default_str MinioModeDistributed mode)
  else if String.eqb mode MinioModeDistributed then
    Err (ErrMsg ("Master ready node count " +:+ dec readyMasters +:+ ", but mode is " +:+ mode))
  else Ok (default_str MinioModeStandalone mode).

(*@ pkg/manager/component/monitor_stack.go:214-221 getMinioAuthConfig *)
Definition getMinioAuthConfig (spec : MonitorStackMinioSpec) (svc : core_Service) (bucket : string)
  : Res ObjectStoreConfig :=
  match core_ServiceSpec_Ports (core_Service_Spec svc) with
  | [] => Panic "index out of range"
  | p :: _ => Ok (MkObjectStoreConfig bucket
      (MonitorMinioName +:+ "." +:+ MonitorStackNamespace +:+ ":" +:+ dec (ServicePort_Port p))
      (MonitorStackMinioSpec_AccessKey spec) (MonitorStackMinioSpec_SecretKey spec) false)
  end.

(** A store with both keys is the user's. *)
(*@ pkg/manager/component/monitor_stack.go:223-238 setDefaultObjectStoreConfig *)
Definition setDefaultObjectStoreConfig (minioSpec : MonitorStackMinioSpec) (minioSvc : core_Service)
    (defaultBucket : string) (store : ObjectStoreConfig) : Res ObjectStoreConfig :=
  if str_empty (ObjectStoreConfig_AccessKey store) || str_empty (ObjectStoreConfig_SecretKey store)
  then
    let bucket := default_str defaultBucket (ObjectStoreConfig_Bucket store) in
    res_map (λ conf,
      store <| ObjectStoreConfig_Bucket := bucket |>
            <| ObjectStoreConfig_Endpoint := ObjectStoreConfig_Endpoint conf |>
            <| ObjectStoreConfig_AccessKey := ObjectStoreConfig_AccessKey conf |>
            <| ObjectStoreConfig_SecretKey := ObjectStoreConfig_SecretKey conf |>)
      (getMinioAuthConfig minioSpec minioSvc bucket)
  else Ok store.

(*@ pkg/manager/component/monitor_stack.go:322-332 validateGrafanaSpec *)
Definition validateGrafanaSpec (spec : MonitorStackGrafanaSpec) : Res unit :=
  if str_empty (MonitorStackGrafanaSpec_AdminUser spec) then Err (ErrMsg "adminUser is empty")
  else if str_empty (MonitorStackGrafanaSpec_AdminPassword spec)
  then Err (ErrMsg "adminPassword is empty")
  else Ok tt.

Definition stackSpec (oc : OnecloudCluster) : MonitorStackSpec :=
  OnecloudClusterSpec_MonitorStack (OnecloudCluster_Spec oc).

(** Prometheus runs only when the spec says it is not disabled. *)
Definition runsPrometheus (spec : MonitorStackSpec) : bool :=
  match MonitorStackPrometheusSpec_Disable (MonitorStackSpec_Prometheus spec) with
  | Some false => true
  | _ => false
  end.

Section monitor.
Context {W : Type} `{!SessionEnv W, !JsonUtils, !CloudApi W, !SqlEnv W, !ConfigCodec, !Passwords W}.
Context `{!ReferenceParser, !NodeLister W, !StatefulSetApi W, !MinioLib W, !ComponentCodec}.
Context `{!ResourceApi W Deployment, !ResourceApi W ConfigMap, !ResourceApi W core_Service}.
Context (SessionDebug SyncUser : bool).

Definition on_stack (g : MonitorStackSpec → MonitorStackSpec) : SM W unit :=
  modoc (λ oc, oc <| OnecloudCluster_Spec ::= λ s, s <| OnecloudClusterSpec_MonitorStack ::= g |> |>).

Definition on_stackStatus (g : MonitorStackStatus → MonitorStackStatus) : SM W unit :=
  modoc (λ oc, oc <| OnecloudCluster_Status ::= λ s, s <| OnecloudClusterStatus_MonitorStack ::= g |> |>).

(** [&ss.Spec.Template.Spec.Containers[0]] *)
Definition statefulImage (name msg : string) : SM W ImageStatus :=
  let! cs := wrap msg (kube (statefulset_Get MonitorStackNamespace name)) in
  match cs with
  | [] => panic "index out of range"
  | c :: _ => ret (getImageStatusByContainer c)
  end.

Definition minioStatus (replicas : Z) (image : option ImageStatus) : SM W unit :=
  on_stackStatus (λ st, st <| MonitorStackStatus_MinioStatus ::= λ m,
    m <| MonitorStackMinioStatus_MonitorStackComponentStatus :=
           MkMonitorStackComponentStatus image |>
      <| MonitorStackMinioStatus_Replicas := replicas |>
      <| MonitorStackMinioStatus_DrivesPerNode := 1%Z |> |>).

Definition enableMinioAs (mode : string) (replicas : Z) (s : ClientSession W) : SM W unit :=
  let! oc := getoc in
  let spec := MonitorStackSpec_Minio (stackSpec oc) in
  kube (SyncMonitorMinio s
    (MkEnableMinioParams mode replicas 1 (MonitorStackMinioSpec_AccessKey spec)
       (MonitorStackMinioSpec_SecretKey spec)) (OnecloudCluster_Spec oc)).

(*@ pkg/manager/component/monitor_stack.go:154-182 syncStandaloneMinio *)
Definition syncStandaloneMinio (s : ClientSession W) : SM W unit :=
  wrap "sync standalone minio" (enableMinioAs MinioModeStandalone 1 s) ;;!
  let! d := wrap "get monitor-minio deployment"
              (kube (apiGet Deployment MonitorStackNamespace MonitorMinioName)) in
  minioStatus 1 (getImageStatus d).

(*@ pkg/manager/component/monitor_stack.go:184-212 syncDistributedMinio *)
Definition syncDistributedMinio (s : ClientSession W) : SM W unit :=
  wrap "sync distributed minio" (enableMinioAs MinioModeDistributed 4 s) ;;!
  let! image := statefulImage MonitorMinioName "get monitor-minio statefulset" in
  minioStatus 4 (Some image).

(*@ pkg/manager/component/monitor_stack.go:122-152 syncMinio *)
Definition syncMinio (s : ClientSession W) : SM W unit :=
  let! masterNodes := wrap "List k8s ready master node" (kube GetReadyMasterNodes) in
  let! oc := getoc in
  let! mode := lift (stackMinioMode (Z.of_nat (length masterNodes))
                       (MonitorStackMinioSpec_Mode (MonitorStackSpec_Minio (stackSpec oc)))) in
  on_stack (λ st, st <| MonitorStackSpec_Minio ::= λ m, m <| MonitorStackMinioSpec_Mode := mode |> |>) ;;!
  if String.eqb mode MinioModeStandalone then syncStandaloneMinio s else syncDistributedMinio s.

(*@ pkg/manager/component/monitor_stack.go:240-267 syncThanos *)
Definition syncThanos (s : ClientSession W) (minioSvc : core_Service) : SM W unit :=
  let! oc := getoc in
  let spec := stackSpec oc in
  if negb (runsPrometheus spec) then ret tt
  else
    let! store := lift (setDefaultObjectStoreConfig (MonitorStackSpec_Minio spec) minioSvc
                   MonitorBucketThanos
                   (MonitorStackThanosSpec_ObjectStoreConfig (MonitorStackSpec_Thanos spec))) in
    on_stack (λ st, st <| MonitorStackSpec_Thanos ::= λ t,
      t <| MonitorStackThanosSpec_ObjectStoreConfig := store |> |>) ;;!
    let! oc := getoc in
    wrap "enable thanos" (kube (SyncMonitorThanos s (OnecloudCluster_Spec oc)
      (MonitorStackSpec_Thanos (stackSpec oc)))) ;;!
    let! d := wrap "get thanos-query deployment"
                (kube (listerGet Deployment MonitorStackNamespace MonitorThanosQuery)) in
    on_stackStatus (λ st, st <| MonitorStackStatus_ThanosStatus :=
      MkMonitorStackThanosStatus (MkMonitorStackComponentStatus (getImageStatus d)) |>).

(*@ pkg/manager/component/monitor_stack.go:283-287 syncStack (stores) *)
Definition defaultStores (minioSvc : core_Service) : SM W unit :=
  let! oc := getoc in
  let spec := stackSpec oc in
  let fill bucket store := lift (setDefaultObjectStoreConfig (MonitorStackSpec_Minio spec) minioSvc
                                   bucket store) in
  let! loki := fill MonitorBucketLoki
                 (MonitorStackLokiSpec_ObjectStoreConfig (MonitorStackSpec_Loki spec)) in
  on_stack (λ st, st <| MonitorStackSpec_Loki ::= λ l,
    l <| MonitorStackLokiSpec_ObjectStoreConfig := loki |> |>) ;;!
  let! prom := fill MonitorBucketThanos (ThanosSidecarSpec_ObjectStoreConfig
                 (MonitorStackPrometheusSpec_ThanosSidecarSpec (MonitorStackSpec_Prometheus spec))) in
  on_stack (λ st, st <| MonitorStackSpec_Prometheus ::= λ p,
    p <| MonitorStackPrometheusSpec_ThanosSidecarSpec := MkThanosSidecarSpec prom |> |>).

(*@ pkg/manager/component/monitor_stack.go:293-319 syncStack (status) *)
Definition stackStatus : SM W unit :=
  let! oc := getoc in
  let spec := stackSpec oc in
  (if MonitorStackGrafanaSpec_Disable (MonitorStackSpec_Grafana spec) then ret tt
   else
     let! d := wrap "get grafana deployment"
                 (kube (listerGet Deployment MonitorStackNamespace MonitorGrafana)) in
     on_stackStatus (λ st, st <| MonitorStackStatus_GrafanaStatus :=
       MkMonitorStackGrafanaStatus (MkMonitorStackComponentStatus (getImageStatus d)) |>)) ;;!
  (if MonitorStackLokiSpec_Disable (MonitorStackSpec_Loki spec) then ret tt
   else
     let! image := statefulImage MonitorLoki "get loki statefulset" in
     on_stackStatus (λ st, st <| MonitorStackStatus_LokiStatus :=
       MkMonitorStackLokiStatus (MkMonitorStackComponentStatus (Some image)) |>)) ;;!
  if runsPrometheus spec then
    let! image := statefulImage MonitorPrometheus ("get " +:+ MonitorPrometheus +:+ " statefulset") in
    on_stackStatus (λ st, st <| MonitorStackStatus_PrometheusStatus :=
      MkMonitorStackPrometheusStatus (MkMonitorStackComponentStatus (Some image)) |>)
  else ret tt.

(*@ pkg/manager/component/monitor_stack.go:269-320 syncStack *)
Definition syncStack (s : ClientSession W) (config : OnecloudClusterConfig)
    (minioSvc : core_Service) : SM W unit :=
  let! oc := getoc in
  wrap "validate grafana" (lift (validateGrafanaSpec (MonitorStackSpec_Grafana (stackSpec oc)))) ;;!
  defaultStores minioSvc ;;!
  let! oc := getoc in
  wrap "enable monitor stack component"
    (kube (SyncMonitorStack s (OnecloudCluster_Spec oc) config)) ;;!
  stackStatus.

(** ** Buckets *)

(*@ pkg/manager/component/monitor_stack.go:334-343 newMinioClient *)
Definition newMinioClient (spec : ObjectStoreConfig) : M W (MinioClient (W := W)) :=
  wrap "new minio client"
    (minio_New (ObjectStoreConfig_Endpoint spec) (ObjectStoreConfig_AccessKey spec)
       (ObjectStoreConfig_SecretKey spec)).

Definition aiproxyOff (oc : OnecloudCluster) : bool :=
  DeploymentSpec_Disable (DeploymentServicePortSpec_DeploymentSpec
    (OnecloudClusterSpec_AiProxy (OnecloudCluster_Spec oc))).

Definition aiproxyClient (oc : OnecloudCluster) (minioSvc : core_Service)
  : M W (MinioClient (W := W)) :=
  let! store := lift (getMinioAuthConfig (MonitorStackSpec_Minio (stackSpec oc)) minioSvc
                        MonitorBucketAiProxy) in
  wrap "new minio client" (newMinioClient store).

(*@ pkg/manager/component/monitor_stack.go:345-366 ensureAiProxyAPILogBucket *)
Definition ensureAiProxyAPILogBucket (oc : OnecloudCluster) (minioSvc : core_Service) : M W unit :=
  if aiproxyOff oc then ret tt
  else
    let! cli := aiproxyClient oc minioSvc in
    let! exist := wrap "check bucket exists" (BucketExists cli MonitorBucketAiProxy) in
    if exist then ret tt else wrap "make bucket" (MakeBucket cli MonitorBucketAiProxy).

(*@ pkg/manager/component/monitor_stack.go:368-394 syncAiProxyAPILogBucketLifecycle *)
Definition syncAiProxyAPILogBucketLifecycle (oc : OnecloudCluster) (minioSvc : core_Service)
  : M W unit :=
  if aiproxyOff oc then ret tt
  else
    let! cli := aiproxyClient oc minioSvc in
    wrap "set lifecycle policy" (SetBucketLifecycle cli MonitorBucketAiProxy
      [MkLifecycleRule "Expire aiproxy API logs" "Enabled" "" MonitorBucketAiProxyRetentionDays]).

(*@ pkg/manager/component/monitor_stack.go:396-423 syncBucketPolicy *)
Definition syncBucketPolicy (spec : MonitorStackSpec) : M W unit :=
  let loki := MonitorStackSpec_Loki spec in
  let! cli := wrap "for loki" (newMinioClient (MonitorStackLokiSpec_ObjectStoreConfig loki)) in
  let days := MonitorStackLokiSpec_RetentionDays loki in
  wrap "set lifecycle policy of 'loki/fake'" (SetBucketLifecycle cli MonitorBucketLoki
    [MkLifecycleRule "Removing old log chunks" "Enabled" "fake/" (if (days =? 0)%Z then 7%Z else days)]).

(** ** The manager *)

(*@ pkg/manager/component/monitor_stack.go:82-115 Sync (session) *)
Definition syncInSession (clustercfg : OnecloudClusterConfig) (s : ClientSession W) : SM W unit :=
  wrap "sync monitor-stack minio component" (syncMinio s) ;;!
  let! minioSvc := wrap ("get service " +:+ MonitorMinioName)
                     (kube (listerGet core_Service MonitorStackNamespace MonitorMinioName)) in
  let! oc := getoc in
  wrap "ensure aiproxy api log bucket" (kube (ensureAiProxyAPILogBucket oc minioSvc)) ;;!
  wrap "sync aiproxy api log bucket lifecycle"
    (kube (syncAiProxyAPILogBucketLifecycle oc minioSvc)) ;;!
  wrap "sync thanos component" (syncThanos s minioSvc) ;;!
  wrap "sync monitor stack component" (syncStack s clustercfg minioSvc) ;;!
  let! oc := getoc in
  wrap "sync monitor" (kube (syncBucketPolicy (stackSpec oc))).

Definition monitorStackVersions : list ProductVersion :=
  [ProductVersionFullStack; ProductVersionCMP; ProductVersionEdge; ProductVersionAI].

(*@ pkg/manager/component/monitor_stack.go:61-63 IsDisabled *)
Definition monitorStackDisabled (oc : OnecloudCluster) : bool :=
  MonitorStackSpec_Disable (stackSpec oc) || negb (inVersions monitorStackVersions oc).

(** Grafana's data base is ensured when it is in MySQL. *)
(*@ pkg/manager/component/monitor_stack.go:65-120 Sync *)
Definition monitorStack_Sync : SM W unit :=
  let! oc := getoc in
  if monitorStackDisabled oc then ret tt
  else
    let! clustercfg := wrap "get cluster config for grafana" clusterConfig in
    let grafana := MonitorStackSpec_Grafana (stackSpec oc) in
    let engine := MonitorStackGrafanaSpec_DbEngine grafana in
    (if negb (MonitorStackGrafanaSpec_Disable grafana)
        && (str_empty engine || String.eqb engine "mysql")
     then wrap "ensure grafana db config"
            (kube (EnsureClusterMySQLUser SyncUser oc (GrafanaConfig_DB (OnecloudClusterConfig_Grafana clustercfg))))
     else ret tt) ;;!
    RunWithSession SessionDebug (syncInSession clustercfg).
End monitor.
