(* ===== verification/Certs.v ===== *)
(** * Certs: the certificates of the cluster

    [pkg/controller/onecloud_cert.go], [onecloud_etcd_cert.go],
    [pkg/util/pkiutil] and [pkg/manager/certs]. A certificate authority signs
    the certificate of the services, another one those of etcd's server, its
    clients and its peers; they are kept in secrets, which are made once.
    Keys, signatures and PEM come from the standard library: an interface. *)

From S2P Require Import Prelude K8s Types Constants GoStrings GoNet.
From S2P Require Import ControllerUtils KubeApi Session.

Open Scope string_scope.
Open Scope list_scope.
Open Scope go_scope.

(** ** What a certificate is to say *)

(** A nil IP is the empty list. *)
Record AltNames := MkAltNames { DNSNames : list string; IPs : list (list Z) }.
#[global] Instance AltNames_eta : Eta AltNames := λ a, MkAltNames (DNSNames a) (IPs a).

Inductive ExtKeyUsage := ServerAuth | ClientAuth.
#[global] Instance ExtKeyUsage_eq_dec : EqDecision ExtKeyUsage.
Proof. solve_decision. Defined.

(** [certutil.Config] *)
Record CertConfig := MkCertConfig {
  CommonName : string;
  Organization : list string;
  cfg_AltNames : AltNames;
  Usages : list ExtKeyUsage
}.
#[global] Instance CertConfig_eta : Eta CertConfig := λ c,
  MkCertConfig (CommonName c) (Organization c) (cfg_AltNames c) (Usages c).

(** [x509.Certificate], the template; times in seconds. *)
Record CertTemplate := MkCertTemplate {
  tmpl_CommonName : string;
  tmpl_Organization : list string;
  tmpl_AltNames : AltNames;
  tmpl_SerialNumber : Z;
  tmpl_NotBefore : Z;
  tmpl_NotAfter : Z;
  tmpl_ExtKeyUsage : list ExtKeyUsage
}.

(** The cryptography of the standard library, its clock, and the validation
    of DNS names. A template is signed for a key's public half by the
    authority's key, and parsed. *)
Class X509 (W : Type) := {
  Certificate : Type;
  Signer : Type;
  rsa_GenerateKey : M W Signer;
  rand_Serial : M W Z;
  time_Now : M W Z;
  NewSelfSignedCACert : CertConfig → Signer → M W Certificate;
  CreateCertificate : CertTemplate → Certificate → Signer → Signer → M W Certificate;
  cert_NotBefore : Certificate → Z;
  MarshalPrivateKeyToPEM : Signer → Res string;
  pem_EncodeCert : Certificate → string;
  IsDNS1123Subdomain : string → bool
}.
Arguments Certificate W {_}.
Arguments Signer W {_}.
Arguments IsDNS1123Subdomain W {_} _.

(** Secrets: through the lister, and through the client. *)
Record Secret := MkSecret { Secret_ObjectMeta : ObjectMeta; Secret_Data : gmap string string }.
Class SecretStore (W : Type) := {
  secretLister_Get : string → string → M W Secret;
  secret_Create : string → Secret → M W unit;
  secret_Delete : string → string → M W unit
}.

(** ** Alternative names *)

(*@ pkg/util/pkiutil/pki_helpers.go:220-234 appendSANsToAltNames *)
Definition appendSAN (W : Type) `{!X509 W} (a : AltNames) (altname : string) : AltNames :=
  match ParseIP altname with
  | Some ip => a <| IPs ::= λ l, l ++ [ip] |>
  | None => if IsDNS1123Subdomain W altname then a <| DNSNames ::= λ l, l ++ [altname] |> else a
  end.

(*@ pkg/util/pkiutil/pki_helpers.go:189-213 GetServiceAltNames *)
Definition GetServiceAltNames (W : Type) `{!X509 W} (oc : OnecloudCluster) (serviceName : string)
  : AltNames :=
  let ns := oc_ns oc in
  let a := MkAltNames [serviceName; serviceName +:+ "." +:+ ns; serviceName +:+ "." +:+ ns +:+ ".svc";
                       Localhost] [] in
  let lb := OnecloudClusterSpec_LoadBalancerEndpoint (OnecloudCluster_Spec oc) in
  let a := if str_empty lb then a
           else match ParseIP lb with
                | Some ip => a <| IPs ::= λ l, l ++ [ip] |>
                | None => a <| DNSNames ::= λ l, l ++ [lb] |>
                end in
  foldl (appendSAN W) a (OnecloudClusterSpec_CertSANs (OnecloudCluster_Spec oc)).

Definition localIPs : list (list Z) :=
  [default [] (ParseIP "127.0.0.1"); default [] (ParseIP "::1")].

(** The endpoint of the load balancer is taken for an address. *)
(*@ pkg/controller/onecloud_etcd_cert.go:93-114 getServerAltNames *)
Definition getServerAltNames (oc : OnecloudCluster) : AltNames :=
  let lb := OnecloudClusterSpec_LoadBalancerEndpoint (OnecloudCluster_Spec oc) in
  MkAltNames
    ["*." +:+ oc_name oc +:+ "-etcd." +:+ oc_ns oc +:+ ".svc";
     oc_name oc +:+ "-etcd-client." +:+ oc_ns oc +:+ ".svc"; Localhost]
    (localIPs ++ if str_empty lb then [] else [default [] (ParseIP lb)]).

(*@ pkg/controller/onecloud_etcd_cert.go:116-131 getPeerAltNames *)
Definition getPeerAltNames (oc : OnecloudCluster) : AltNames :=
  MkAltNames
    ["*." +:+ oc_name oc +:+ "-etcd." +:+ oc_ns oc +:+ ".svc";
     "*." +:+ oc_name oc +:+ "-etcd." +:+ oc_ns oc +:+ ".svc.cluster.local"; Localhost]
    localIPs.

(*@ pkg/controller/onecloud_etcd_cert.go:133-141 getClientAltNames *)
Definition getClientAltNames (_ : OnecloudCluster) : AltNames := MkAltNames [""] [].

(** ** Certificates *)

(** The alternative names are filled in when the cluster is known. *)
(*@ pkg/controller/onecloud_cert.go:158-167 OnecloudCert *)
Record OnecloudCert := MkOnecloudCert {
  cert_Name : string;
  cert_BaseName : string;
  cert_CAName : string;
  configMutators : list (OnecloudCluster → CertConfig → CertConfig);
  cert_config : CertConfig
}.

(*@ pkg/controller/onecloud_cert.go:169-176 GetConfig *)
Definition cert_GetConfig (k : OnecloudCert) (oc : OnecloudCluster) : CertConfig :=
  foldl (λ c f, f oc c) (cert_config k) (configMutators k).

(*@ pkg/controller/onecloud_cert.go:237-249 makeAltNamesMutator *)
Definition makeAltNamesMutator (f : OnecloudCluster → AltNames) (oc : OnecloudCluster)
    (cc : CertConfig) : CertConfig := cc <| cfg_AltNames := f oc |>.

(*@ pkg/controller/onecloud_cert.go:205-215 NewClusterCACert *)
Definition NewClusterCACert : OnecloudCert :=
  MkOnecloudCert "ca" CACertAndKeyBaseName "ca" [] (MkCertConfig "onecloud" [] (MkAltNames [] []) []).

(** A certificate signed by an authority. *)
Definition signedCert (f : OnecloudCluster → AltNames) (usages : list ExtKeyUsage)
    (caName serviceName : string) : OnecloudCert :=
  MkOnecloudCert serviceName serviceName caName [makeAltNamesMutator f]
    (MkCertConfig serviceName [] (MkAltNames [] []) usages).

(*@ pkg/controller/onecloud_cert.go:217-235 NewServiceCert *)
Definition NewServiceCert (W : Type) `{!X509 W} (caName serviceName : string) : OnecloudCert :=
  signedCert (λ oc, GetServiceAltNames W oc serviceName) [ServerAuth] caName serviceName.

(*@ pkg/controller/onecloud_etcd_cert.go:19-29 NewEtcdClusterCACert *)
Definition NewEtcdClusterCACert : OnecloudCert :=
  MkOnecloudCert "ca" EtcdServerCACertName "ca" [] (MkCertConfig "onecloud" [] (MkAltNames [] []) []).

(*@ pkg/controller/onecloud_etcd_cert.go:31-49 NewEtcdServerCert *)
Definition NewEtcdServerCert : string → string → OnecloudCert :=
  signedCert getServerAltNames [ServerAuth].

(*@ pkg/controller/onecloud_etcd_cert.go:51-69 NewEtcdClientCert *)
Definition NewEtcdClientCert : string → string → OnecloudCert :=
  signedCert getClientAltNames [ClientAuth].

(*@ pkg/controller/onecloud_etcd_cert.go:71-91 NewEtcdPeerCert *)
Definition NewEtcdPeerCert : string → string → OnecloudCert :=
  signedCert getPeerAltNames [ServerAuth; ClientAuth].

Section certs.
Context {W : Type} `{!X509 W, !SecretStore W}.

(** ** Keys and signatures *)

(*@ pkg/util/pkiutil/pki_helpers.go:46-48 NewPrivateKey *)
Definition NewPrivateKey : M W (Signer W) := rsa_GenerateKey.

(*@ pkg/util/pkiutil/pki_helpers.go:125-137 NewCertificateAuthority *)
Definition NewCertificateAuthority (config : CertConfig) : M W (Certificate W * Signer W) :=
  let! key := wrap "unable to create private key" NewPrivateKey in
  let! cert := wrap "unable to create self-signed certificate" (NewSelfSignedCACert config key) in
  ret (cert, key).

(** A certificate is valid as long as its authority and for eight hundred
    days. *)
(*@ pkg/util/pkiutil/pki_helpers.go:155-186 NewSignedCert *)
Definition NewSignedCert (cfg : CertConfig) (key : Signer W) (caCert : Certificate W)
    (caKey : Signer W) : M W (Certificate W) :=
  let! serial := rand_Serial in
  if str_empty (CommonName cfg) then throw (ErrMsg "must specify a CommonName")
  else match Usages cfg with
  | [] => throw (ErrMsg "must specify at least one ExtKeyUsage")
  | _ =>
      let! now := time_Now in
      CreateCertificate
        (MkCertTemplate (CommonName cfg) (Organization cfg) (cfg_AltNames cfg) serial
           (cert_NotBefore caCert) (now + 86400 * 800) (Usages cfg))
        caCert key caKey
  end.

(*@ pkg/util/pkiutil/pki_helpers.go:140-152 NewCertAndKey *)
Definition NewCertAndKey (caCert : Certificate W) (caKey : Signer W) (config : CertConfig)
  : M W (Certificate W * Signer W) :=
  let! key := wrap "unable to create private key" NewPrivateKey in
  let! cert := wrap "unable to sign certificate" (NewSignedCert config key caCert caKey) in
  ret (cert, key).

(*@ pkg/controller/onecloud_cert.go:179-185 CreateFromCA *)
Definition CreateFromCA (k : OnecloudCert) (oc : OnecloudCluster) (caCert : Certificate W)
    (caKey : Signer W) : M W (Certificate W * Signer W) :=
  NewCertAndKey caCert caKey (cert_GetConfig k oc).

(*@ pkg/controller/onecloud_cert.go:196-203 NewCACertAndKey *)
Definition NewCACertAndKey (certSpec : CertConfig) : M W (Certificate W * Signer W) :=
  wrap "failure while generating CA certificate and key" (NewCertificateAuthority certSpec).

(*@ pkg/controller/onecloud_cert.go:187-193 CreateAsCA *)
Definition CreateAsCA (k : OnecloudCert) (oc : OnecloudCluster) : M W (Certificate W * Signer W) :=
  NewCACertAndKey (cert_GetConfig k oc).

(** ** What is kept in a secret *)

(*@ pkg/controller/onecloud_cert.go:102-102 CertsStore *)
Definition CertsStore : Type := gmap string string.

(*@ pkg/controller/onecloud_cert.go:115-117 nameForKey *)
Definition nameForKey (name : string) : string := name +:+ ".key".
(*@ pkg/controller/onecloud_cert.go:119-121 nameForCert *)
Definition nameForCert (name : string) : string := name +:+ ".crt".

(*@ pkg/controller/onecloud_cert.go:123-133 WriteKey *)
Definition WriteKey (store : CertsStore) (name : string) (key : Signer W) : Res CertsStore :=
  match MarshalPrivateKeyToPEM key with
  | Ok encoded => Ok (<[nameForKey name := encoded]> store)
  | Err e => Err (ErrWrap e "unable to marshal private key to PEM")
  | Panic p => Panic p
  end.

(*@ pkg/controller/onecloud_cert.go:135-143 WriteCert *)
Definition WriteCert (store : CertsStore) (name : string) (cert : Certificate W) : CertsStore :=
  <[nameForCert name := pem_EncodeCert cert]> store.

(*@ pkg/controller/onecloud_cert.go:108-113 WriteCertAndKey *)
Definition WriteCertAndKey (store : CertsStore) (name : string) (cert : Certificate W)
    (key : Signer W) : Res CertsStore :=
  match WriteKey store name key with
  | Ok store => Ok (WriteCert store name cert)
  | Err e => Err (ErrWrap e ("cloudn't write " +:+ name +:+ " key"))
  | Panic p => Panic p
  end.

(*@ pkg/controller/onecloud_etcd_cert.go:220-229 newEtcdSecretFromStore *)
Definition newEtcdSecretFromStore (oc : OnecloudCluster) (name : string) (store : CertsStore) : Secret :=
  MkSecret ((zero : ObjectMeta) <| ObjectMeta_Name := name |> <| ObjectMeta_Namespace := oc_ns oc |>
              <| ObjectMeta_OwnerReferences := [GetOwnerRef oc] |>) store.

(*@ pkg/controller/onecloud_cert.go:145-154 newSecretFromStore *)
Definition newSecretFromStore (oc : OnecloudCluster) (store : CertsStore) : Secret :=
  newEtcdSecretFromStore oc (ClustercertSecretName oc) store.

(** ** The services' certificate *)

(*@ pkg/controller/onecloud_cert.go:62-90 CreateCertPair *)
Definition CreateCertPair (oc : OnecloudCluster) : M W CertsStore :=
  let caCert := NewClusterCACert in
  let! '(cert, key) := NewCACertAndKey (cert_GetConfig caCert oc) in
  let! store := lift (WriteCertAndKey ∅ (cert_BaseName caCert) cert key) in
  let svcCerts := NewServiceCert W (cert_BaseName caCert) ServiceCertAndKeyBaseName in
  let! '(svcCert, svcKey) := CreateFromCA svcCerts oc cert key in
  let! store := lift (WriteCertAndKey store (cert_BaseName svcCerts) svcCert svcKey) in
  lift (WriteCertAndKey store "tls" svcCert svcKey).

(*@ pkg/controller/onecloud_cert.go:92-100 CreateCert *)
Definition CreateCert (oc : OnecloudCluster) : M W unit :=
  let! store := CreateCertPair oc in
  secret_Create (oc_ns oc) (newSecretFromStore oc store).

(** ** etcd's certificates *)

Definition etcdSecrets : list string := [EtcdServerSecret; EtcdClientSecret; EtcdPeerSecret].

(** A certificate of etcd, next to its authority's, in a secret. *)
(*@ pkg/controller/onecloud_etcd_cert.go:161-177 CreateEtcdCert (server) *)
Definition createSigned (oc : OnecloudCluster) (cert : Certificate W) (key : Signer W)
    (secretName caName : string) (k : OnecloudCert) : M W unit :=
  let store := WriteCert ∅ caName cert in
  let! '(c, ckey) := CreateFromCA k oc cert key in
  let! store := lift (WriteCertAndKey store (cert_BaseName k) c ckey) in
  secret_Create (oc_ns oc) (newEtcdSecretFromStore oc secretName store).

(** What is left of an earlier authority is deleted first. *)
(*@ pkg/controller/onecloud_etcd_cert.go:143-218 CreateEtcdCert *)
Definition CreateEtcdCert (oc : OnecloudCluster) : M W unit :=
  for_each etcdSecrets (λ name, let! _ := attempt (secret_Delete (oc_ns oc) name) in ret tt) ;;!
  let caCert := NewEtcdClusterCACert in
  let! '(cert, key) := NewCACertAndKey (cert_GetConfig caCert oc) in
  let ca := cert_BaseName caCert in
  createSigned oc cert key EtcdServerSecret EtcdServerCACertName (NewEtcdServerCert ca EtcdServerName) ;;!
  createSigned oc cert key EtcdClientSecret EtcdClientCACertName (NewEtcdClientCert ca EtcdClientName) ;;!
  createSigned oc cert key EtcdPeerSecret EtcdPeerCACertName (NewEtcdPeerCert ca EtcdPeerName).

(** ** The manager of the certificates *)

Definition setCreatedSecrets (b : bool) (oc : OnecloudCluster) : OnecloudCluster :=
  oc <| OnecloudCluster_Spec ::= λ s, s <| OnecloudClusterSpec_Etcd ::= λ e,
    e <| Etcd_EtcdClusterSpec ::= λ c, c <| EtcdClusterSpec_CreatedSecrets := Some b |> |> |> |>.

(** The first secret that is missing has them all made anew. *)
(*@ pkg/manager/certs/manager.go:64-81 CreateOrUpdate (etcd) *)
Fixpoint ensureEtcdSecrets (names : list string) : SM W unit :=
  match names with
  | [] => ret tt
  | name :: names =>
      let! oc := getoc in
      let! r := kube (attempt (secretLister_Get (oc_ns oc) name)) in
      match r with
      | inr _ => ensureEtcdSecrets names
      | inl err =>
          if IsNotFound err then
            modoc (setCreatedSecrets false) ;;!
            let! oc := getoc in
            wrap "create cluster cert" (kube (CreateEtcdCert oc))
          else throw err
      end
  end.

(*@ pkg/manager/certs/manager.go:42-84 CreateOrUpdate *)
Definition certs_CreateOrUpdate : SM W unit :=
  let! oc := getoc in
  let e := OnecloudClusterSpec_Etcd (OnecloudCluster_Spec oc) in
  let! r := kube (attempt (secretLister_Get (oc_ns oc) (ClustercertSecretName oc))) in
  match r with
  | inl err =>
      if IsNotFound err then wrap "create cluster cert" (kube (CreateCert oc)) else throw err
  | inr _ =>
      if Etcd_Disable e || negb (default true (Etcd_EnableTls e)) then ret tt
      else ensureEtcdSecrets etcdSecrets
  end.
End certs.
