(* ===== verification/MysqlStatus.v ===== *)
(** * MysqlStatus: the watch on replication

    [checkMysqlSlaveStatus] of
    [pkg/controller/cluster/onecloud_cluster_control.go]: where the data base
    is a replica, the status of its master and of the master's master are
    looked at, and reported when one of them does not run. *)

From S2P Require Import Prelude K8s Types Constants GoStrings.
From S2P Require Import LastApplied KubeApi Session CloudApi Databases.

Open Scope string_scope.
Open Scope list_scope.
Open Scope go_scope.

(** The columns of a query and its rows, a null being [None]; the
    notifications of the client library. *)
Class SqlRows (W : Type) `{!SqlEnv W} :=
  sql_QueryRows : DB W → string → M W (list string * list (list (option string))).
Class NotifyApi (W : Type) `{!SessionEnv W} := {
  MysqlOutOfSyncEvent : string;
  Notification_EventNotify : ClientSession W → string → list (string * json) → M W unit
}.
Arguments MysqlOutOfSyncEvent W {_ _}.

(** A map of the columns that are not null; the nil map of a result without
    rows. *)
Definition SlaveStatus : Type := option (gmap string string).

Definition entry (st : SlaveStatus) (key : string) : string :=
  match st with Some m => default "" (m !! key) | None => "" end.

(** Writing to a nil map panics. *)
Definition setEntry (key v : string) (st : SlaveStatus) : Res SlaveStatus :=
  match st with
  | Some m => Ok (Some (<[key := v]> m))
  | None => Panic "assignment to entry in nil map"
  end.

(*@ pkg/controller/cluster/onecloud_cluster_control.go:225-225 mysqlKeySlaveIORunning *)
Definition mysqlKeySlaveIORunning : string := "Slave_IO_Running".
(*@ pkg/controller/cluster/onecloud_cluster_control.go:226-226 mysqlKeySlaveSQLRunning *)
Definition mysqlKeySlaveSQLRunning : string := "Slave_SQL_Running".
(*@ pkg/controller/cluster/onecloud_cluster_control.go:227-227 mysqlKeyLastError *)
Definition mysqlKeyLastError : string := "Last_Error".
(*@ pkg/controller/cluster/onecloud_cluster_control.go:228-228 mysqlKeyLastIOError *)
Definition mysqlKeyLastIOError : string := "Last_IO_Error".
(*@ pkg/controller/cluster/onecloud_cluster_control.go:229-229 mysqlKeyMasterHost *)
Definition mysqlKeyMasterHost : string := "Master_Host".
(*@ pkg/controller/cluster/onecloud_cluster_control.go:230-230 mysqlKeyIP *)
Definition mysqlKeyIP : string := "IP".
(*@ pkg/controller/cluster/onecloud_cluster_control.go:231-231 mysqlKeyOperatorError *)
Definition mysqlKeyOperatorError : string := "Operator_Error".

(** The first row by column; a column that appears again counts. *)
(*@ pkg/util/mysql/mysql.go:74-109 scanMap *)
Definition scanMap (columns : list string) (rows : list (list (option string))) : SlaveStatus :=
  match rows with
  | [] => None
  | values :: _ =>
      Some (foldl (λ m '(c, v), match v with Some v => <[c := v]> m | None => m end) ∅
              (zip columns values))
  end.

(** An error that could not be avoided, and where. *)
(*@ pkg/controller/cluster/onecloud_cluster_control.go:285-297 checkMysqlSlaveStatus (injectErr) *)
Definition injectErr (ip : string) (st : SlaveStatus) (err : error) : SlaveStatus :=
  Some (<[mysqlKeyIP := ip]> (<[mysqlKeyOperatorError := Error err]> (default ∅ st))).

(** What the notification says of a replica. *)
(*@ pkg/controller/cluster/onecloud_cluster_control.go:326-347 notifyMysqlError (getStatus) *)
Definition statusDetails (st : gmap string string) : json :=
  let at_ k := JStr (default "" (st !! k)) in
  match st !! mysqlKeyOperatorError with
  | Some e => JObj [("ip", at_ mysqlKeyIP); ("operator_error", JStr e)]
  | None => JObj [("ip", at_ mysqlKeyIP); ("last_error", at_ mysqlKeyLastError);
                  ("last_io_error", at_ mysqlKeyLastIOError);
                  ("slave_io_running", at_ mysqlKeySlaveIORunning);
                  ("slave_sql_running", at_ mysqlKeySlaveSQLRunning)]
  end.

(** Both threads run. *)
Definition replicates (st : SlaveStatus) : bool :=
  String.eqb (entry st mysqlKeySlaveIORunning) "Yes"
  && String.eqb (entry st mysqlKeySlaveSQLRunning) "Yes".

Section status.
Context {W : Type} `{!SessionEnv W, !SqlEnv W, !SqlRows W, !NotifyApi W}.
Context (SessionDebug : bool).

(*@ pkg/util/mysql/mysql.go:111-117 ShowSlaveStatus *)
Definition ShowSlaveStatus (conn : DB W) : M W SlaveStatus :=
  let! '(columns, rows) := wrap "show slave status" (sql_QueryRows conn "SHOW SLAVE STATUS") in
  ret (scanMap columns rows).

(** The connection is closed whatever happens. *)
Definition withConn {A} (info : Mysql) (f : DB W → M W A) : M W A :=
  let! conn := mysql_Open info in
  let! r := attempt (f conn) in
  let! _ := attempt (sql_Close conn) in
  match r with inl e => throw e | inr a => ret a end.

(** The master of a host, and the host's status unless it replicates. *)
(*@ pkg/controller/cluster/onecloud_cluster_control.go:258-282 checkMysqlSlaveStatus (showSlaveStatus) *)
Definition showSlaveStatus (mysql : Mysql) (host : string) : M W (string * SlaveStatus) :=
  withConn (mysql <| Mysql_Host := host |>) (λ conn,
    let! st := wrap ("ShowSlaveStatus of " +:+ host) (ShowSlaveStatus conn) in
    let peerHost := entry st mysqlKeyMasterHost in
    if replicates st then ret (peerHost, None)
    else let! st := lift (setEntry mysqlKeyIP host st) in ret (peerHost, st)).

(*@ pkg/controller/cluster/onecloud_cluster_control.go:321-359 notifyMysqlError *)
Definition notifyMysqlError (oc : OnecloudCluster) (status1 status2 : SlaveStatus) : SM W unit :=
  match status1, status2 with
  | None, None => ret tt
  | _, _ =>
      let some st := match st with Some m => [statusDetails m] | None => [] end in
      RunWithSession SessionDebug (λ s, kube (
        Notification_EventNotify s (MysqlOutOfSyncEvent W)
          [("ip", JStr (Mysql_Host (OnecloudClusterSpec_Mysql (OnecloudCluster_Spec oc))));
           ("status", JArr (some status1 ++ some status2))]))
  end.

Definition looked (r : error + (string * SlaveStatus)) : string * SlaveStatus * option error :=
  match r with inl e => ("", None, Some e) | inr (peer, st) => (peer, st, None) end.

(** Without a peer the data base itself is looked at. An error of the second
    look is put into the map of the first, which both statuses then are. *)
(*@ pkg/controller/cluster/onecloud_cluster_control.go:300-314 checkMysqlSlaveStatus (statuses) *)
Definition slaveStatuses (mysql : Mysql) (masterHost : string) : M W (SlaveStatus * SlaveStatus) :=
  let look host := let! r := attempt (showSlaveStatus mysql host) in ret (looked r) in
  let! '(peerHost, status1, err) := look masterHost in
  let status1 := match err with Some e => injectErr masterHost status1 e | None => status1 end in
  let! '(_, status2, err) := look peerHost in
  let! '(_, status2, err) :=
    (if str_empty peerHost then look (Mysql_Host mysql) else ret ("", status2, err)) in
  match err with
  | None => ret (status1, status2)
  | Some e =>
      let shared := injectErr peerHost status1 e in
      ret (match status1 with Some _ => shared | None => None end, shared)
  end.

(** Nothing is done for a data base that is no replica. *)
(*@ pkg/controller/cluster/onecloud_cluster_control.go:234-319 checkMysqlSlaveStatus *)
Definition checkMysqlSlaveStatus : SM W unit :=
  let! oc := getoc in
  let mysql := OnecloudClusterSpec_Mysql (OnecloudCluster_Spec oc) in
  if str_empty (Mysql_Host mysql) || str_empty (Mysql_Username mysql)
     || str_empty (Mysql_Password mysql) then ret tt
  else
    let! conn := wrap "mysql.NewConnection" (kube (mysql_Open mysql)) in
    let! r := attempt (
      let! status := wrap "ShowSlaveStatus" (kube (ShowSlaveStatus conn)) in
      let masterHost := entry status mysqlKeyMasterHost in
      if str_empty masterHost then ret tt
      else
        let! '(status1, status2) := kube (slaveStatuses mysql masterHost) in
        notifyMysqlError oc status1 status2) in
    let! _ := attempt (kube (sql_Close conn)) in
    match r with inl e => throw e | inr _ => ret tt end.
End status.
