(* ===== verification/EtcdUtil.v ===== *)
(** * EtcdUtil: etcd members, member sets and member names

    [pkg/util/etcdutil/member.go] and the naming helpers of
    [pkg/util/k8sutil/k8sutil.go]. A member set is a Go map from names to
    members: a [gmap]. Go's iteration order over it is not specified: what
    iterates takes the order, a list of the entries, as an argument. *)

From Stdlib Require Import Ascii.
From S2P Require Import Prelude GoStrings.

Open Scope string_scope.
Open Scope go_scope.

(** ** Members *)

(*@ pkg/util/etcdutil/member.go:11-24 Member *)
Record Member := MkMember {
  Member_Name : string;
  Member_Namespace : string;
  Member_ID : Z;
  Member_SecurePeer : bool;
  Member_SecureClient : bool;
  Member_IPv6Cluster : bool
}.
#[global] Instance Member_eta : Eta Member := λ r,
  MkMember (Member_Name r) (Member_Namespace r) (Member_ID r) (Member_SecurePeer r)
    (Member_SecureClient r) (Member_IPv6Cluster r).
#[global] Instance Member_zero : Zero Member := MkMember zero zero zero zero zero zero.

(*@ pkg/util/etcdutil/member.go:161-167 clusterNameFromMemberName *)
Definition clusterNameFromMemberName (mn : string) : Res string :=
  match before_last "-" mn with
  | None => Panic ("unexpected member name: " +:+ mn)
  | Some c => Ok c
  end.

(*@ pkg/util/etcdutil/member.go:26-28 Addr *)
Definition Addr (m : Member) : Res string :=
  res_map (λ c, Member_Name m +:+ "." +:+ c +:+ "." +:+ Member_Namespace m +:+ ".svc")
    (clusterNameFromMemberName (Member_Name m)).

(*@ pkg/util/etcdutil/member.go:35-40 clientScheme *)
Definition clientScheme (m : Member) : string :=
  if Member_SecureClient m then "https" else "http".

(*@ pkg/util/etcdutil/member.go:42-47 peerScheme *)
Definition peerScheme (m : Member) : string :=
  if Member_SecurePeer m then "https" else "http".

(*@ pkg/util/etcdutil/member.go:30-33 ClientURL *)
Definition ClientURL (m : Member) : Res string :=
  res_map (λ a, clientScheme m +:+ "://" +:+ a +:+ ":2379") (Addr m).

(*@ pkg/util/etcdutil/member.go:49-54 ListenClientURL *)
Definition ListenClientURL (m : Member) : string :=
  if Member_IPv6Cluster m then clientScheme m +:+ "://[::]:2379"
  else clientScheme m +:+ "://0.0.0.0:2379".

(*@ pkg/util/etcdutil/member.go:55-60 ListenPeerURL *)
Definition ListenPeerURL (m : Member) : string :=
  if Member_IPv6Cluster m then peerScheme m +:+ "://[::]:2380"
  else peerScheme m +:+ "://0.0.0.0:2380".

(*@ pkg/util/etcdutil/member.go:62-64 PeerURL *)
Definition PeerURL (m : Member) : Res string :=
  res_map (λ a, peerScheme m +:+ "://" +:+ a +:+ ":2380") (Addr m).

(** [validPeerURL] is [^\w+:\/\/[\w\.\-]+(:\d+)?$]; the parts it matches. *)
(*@ pkg/util/etcdutil/member.go:145-145 validPeerURL *)
Definition validPeerURL (pu : string) : option (string * string) :=
  let '(scheme, rest) := span is_word pu in
  if str_empty scheme then None else
  match rest with
  | String ":" (String "/" (String "/" rest)) =>
      let '(host, port) := span is_host rest in
      if str_empty host then None else
      match port with
      | "" => Some (scheme, host)
      | String ":" digits =>
          if negb (str_empty digits) && all_chars is_digit digits then Some (scheme, host)
          else None
      | _ => None
      end
  | _ => None
  end.

(** [url.Parse] accepts the scheme of such a URL when it starts with a letter
    and has no underscore; the host it returns keeps the port, which the
    [Split] on [:] then drops. *)
Definition url_scheme_ok (scheme : string) : bool :=
  match scheme with
  | "" => false
  | String a _ => is_letter a && all_chars (λ a, is_letter a || is_digit a) scheme
  end.

(*@ pkg/util/etcdutil/member.go:147-159 MemberNameFromPeerURL *)
Definition MemberNameFromPeerURL (pu : string) : Res string :=
  match validPeerURL pu with
  | None => Err (ErrMsg "invalid PeerURL format")
  | Some (scheme, host) =>
      if url_scheme_ok scheme then Ok (before_first "." (before_first ":" host))
      else Err (ErrMsg "parse: first path segment in URL cannot contain colon")
  end.

(** ** Member sets *)

(** [type MemberSet map[string]*Member] *)
Abbreviation MemberSet := (gmap string Member).

(*@ pkg/util/etcdutil/member.go:68-74 NewMemberSet *)
Definition NewMemberSet (ms : list Member) : MemberSet :=
  fold_left (λ res m, <[Member_Name m := m]> res) ms ∅.

(*@ pkg/util/etcdutil/member.go:76-85 Diff *)
Definition Diff (ms other : MemberSet) : MemberSet :=
  filter (λ e : string * Member, other !! e.1 = None) ms.

(*@ pkg/util/etcdutil/member.go:101-103 Size *)
Definition Size (ms : MemberSet) : Z := Z.of_nat (size ms).

(*@ pkg/util/etcdutil/member.go:87-99 IsEqual *)
Definition IsEqual (ms other : MemberSet) : bool :=
  if negb (Size ms =? Size other)%Z then false
  else forallb (λ e : string * Member, bool_decide (is_Some (other !! e.1))) (map_to_list ms).

(** An order in which Go may visit the entries of a set. *)
Definition order := list (string * Member).

(*@ pkg/util/etcdutil/member.go:114-119 PickOne *)
Definition PickOne (o : order) : Res Member :=
  match o with
  | (_, m) :: _ => Ok m
  | [] => Panic "empty"
  end.

(** A loop over the entries that computes a string of each. *)
Fixpoint collect (f : Member → Res string) (o : order) : Res (list string) :=
  match o with
  | [] => Ok []
  | (_, m) :: o' => res_bind (f m) (λ s, res_map (cons s) (collect f o'))
  end.

(*@ pkg/util/etcdutil/member.go:121-127 PeerURLPairs *)
Definition PeerURLPairs (o : order) : Res (list string) :=
  collect (λ m, res_map (λ u, Member_Name m +:+ "=" +:+ u) (PeerURL m)) o.

(*@ pkg/util/etcdutil/member.go:129-131 Add *)
Definition Add (m : Member) (ms : MemberSet) : MemberSet := <[Member_Name m := m]> ms.

(*@ pkg/util/etcdutil/member.go:133-135 Remove *)
Definition Remove (name : string) (ms : MemberSet) : MemberSet := delete name ms.

(*@ pkg/util/etcdutil/member.go:137-143 ClientURLs *)
Definition ClientURLs (o : order) : Res (list string) := collect ClientURL o.

(** ** Names *)

(*@ pkg/util/k8sutil/k8sutil.go:37-37 randomSuffixLength *)
Definition randomSuffixLength : nat := 10.

(*@ pkg/util/k8sutil/k8sutil.go:38-39 MaxNameLength *)
Definition MaxNameLength : nat := 63 - randomSuffixLength - 1.

(** [suffix] is what [utilrand.String(randomSuffixLength)] draws. *)
(*@ pkg/util/k8sutil/k8sutil.go:53-59 UniqueMemberName *)
Definition UniqueMemberName (suffix clusterName : string) : string :=
  let clusterName :=
    if (MaxNameLength <? String.length clusterName)%nat then take_str MaxNameLength clusterName
    else clusterName in
  clusterName +:+ "-" +:+ suffix.

(*@ pkg/util/k8sutil/k8sutil.go:172-175 PVCNameFromMember *)
Definition PVCNameFromMember (memberName : string) : string := memberName.

(*@ pkg/util/k8sutil/k8sutil.go:165-170 LabelsForCluster *)
Definition LabelsForCluster (clusterName : string) : gmap string string :=
  {[ "etcd_cluster" := clusterName; "app" := "etcd" ]}.

(** ** Lemmas *)

Lemma str_app_inj_l (s t u : string) : s +:+ t = s +:+ u → t = u.
Proof. induction s as [|a s IH]; [done|]. rewrite !app_cons. intros [= H]. by apply IH. Qed.

Lemma UniqueMemberName_inj c s s' : UniqueMemberName s c = UniqueMemberName s' c → s = s'.
Proof. unfold UniqueMemberName. intros H%str_app_inj_l%str_app_inj_l. done. Qed.

Section sets.
Implicit Types (a b ms : MemberSet).

Lemma lookup_Diff a b n : Diff a b !! n = match b !! n with None => a !! n | Some _ => None end.
Proof.
  unfold Diff. apply option_eq. intros m. rewrite map_lookup_filter_Some. simpl.
  destruct (b !! n); naive_solver.
Qed.

Lemma dom_Diff a b : dom (Diff a b) = dom a ∖ dom b.
Proof.
  apply set_eq. intros n. rewrite elem_of_difference, !elem_of_dom, lookup_Diff.
  destruct (b !! n); naive_solver.
Qed.

Lemma Size_dom ms : Size ms = Z.of_nat (size (dom ms)).
Proof. unfold Size. by rewrite size_dom. Qed.

Lemma Size_nonneg ms : (0 ≤ Size ms)%Z.
Proof. unfold Size. lia. Qed.

Lemma Size_zero ms : Size ms = 0%Z ↔ ms = ∅.
Proof. unfold Size. rewrite <- map_size_empty_iff. lia. Qed.

Lemma dom_Add m ms : dom (Add m ms) = {[Member_Name m]} ∪ dom ms.
Proof. apply dom_insert_L. Qed.

Lemma dom_Remove n ms : dom (Remove n ms) = dom ms ∖ {[n]}.
Proof. apply dom_delete_L. Qed.

Lemma lookup_Add_Some m ms n m' :
  Add m ms !! n = Some m' ↔ (Member_Name m = n ∧ m = m') ∨ (Member_Name m ≠ n ∧ ms !! n = Some m').
Proof. apply lookup_insert_Some. Qed.

Lemma lookup_Remove_Some n ms n' m' : Remove n ms !! n' = Some m' ↔ n ≠ n' ∧ ms !! n' = Some m'.
Proof. apply lookup_delete_Some. Qed.

Lemma Size_Add_new m ms : Member_Name m ∉ dom ms → Size (Add m ms) = (Size ms + 1)%Z.
Proof. intros Hm%not_elem_of_dom. unfold Size, Add. rewrite map_size_insert_None by done. lia. Qed.

Lemma Size_Remove n ms : n ∈ dom ms → Size (Remove n ms) = (Size ms - 1)%Z.
Proof.
  intros [m Hm]%elem_of_dom. unfold Size, Remove. rewrite map_size_delete_Some by (by eexists).
  assert (size ms ≠ 0); [|lia]. apply map_size_ne_0_lookup. by exists n; eexists.
Qed.

Lemma PickOne_in o ms m : o ≡ₚ map_to_list ms → PickOne o = Ok m → ∃ n, ms !! n = Some m.
Proof.
  destruct o as [|[n m'] o]; [done|]. intros HP [= <-]. exists n.
  apply elem_of_map_to_list. rewrite <- HP. by left.
Qed.

Lemma PickOne_total o ms : o ≡ₚ map_to_list ms → ms ≠ ∅ → ∃ m, PickOne o = Ok m.
Proof.
  intros HP Hne. destruct o as [|[n m] o]; [|by eexists].
  apply Permutation_nil_l in HP. symmetry in HP. by apply map_to_list_empty_iff in HP.
Qed.
End sets.

(** ** Properties *)

(** Two member sets are equal in the sense of the reconciliation loop
    exactly when they have the same member names: comparing the sizes and one
    inclusion is enough. *)
Theorem IsEqual_spec (ms other : MemberSet) : IsEqual ms other = true ↔ dom ms = dom other.
Proof.
  unfold IsEqual. rewrite !Size_dom.
  destruct (Z.eqb_spec (Z.of_nat (size (dom ms))) (Z.of_nat (size (dom other)))) as [Hs|Hs]; simpl.
  - rewrite forallb_forall. split.
    + intros Hall. apply set_subseteq_size_eq; [|lia].
      intros n [m Hm]%elem_of_dom. apply elem_of_map_to_list, list_elem_of_In in Hm.
      apply Hall in Hm. apply bool_decide_eq_true in Hm. by apply elem_of_dom.
    + intros Hd [n m] Hin%list_elem_of_In%elem_of_map_to_list. apply bool_decide_eq_true.
      simpl. apply elem_of_dom. rewrite <- Hd. by apply elem_of_dom_2 in Hin.
  - split; [done|]. intros Hd. by rewrite Hd in Hs.
Qed.

Lemma IsEqual_spec_witness :
  IsEqual {["a" := zero]} {["a" := MkMember "a" "ns" 7 true true false]} = true ↔
  dom ({["a" := zero]} : MemberSet) = dom ({["a" := MkMember "a" "ns" 7 true true false]} : MemberSet).
Proof. apply IsEqual_spec. Defined.

(** A name made of host characters only, without dots or colons: the names
    Kubernetes accepts for pods and namespaces. *)
Definition label_char (a : ascii) : bool := is_letter a || is_digit a || Ascii.eqb a "-".

Lemma label_char_host a : label_char a = true → is_host a = true.
Proof.
  unfold label_char, is_host, is_word. destruct (is_letter a), (is_digit a); simpl; try done.
  intros ->. by rewrite !orb_true_r.
Qed.

Lemma label_char_avoids a c :
  label_char a = true → label_char c = false → negb (Ascii.eqb a c) = true.
Proof. intros Ha Hc. destruct (Ascii.eqb_spec a c); [congruence|done]. Qed.

Lemma label_avoids c s : all_chars label_char s = true → label_char c = false → avoids c s = true.
Proof.
  intros Hs Hc. eapply all_chars_impl; [|exact Hs]. intros a Ha. by apply label_char_avoids.
Qed.

(** C16. The name of a member can be read back from the peer URL its pod
    announces: [updateMembers] recovers from etcd exactly the names the
    operator gave, for every name and namespace Kubernetes accepts. *)
Theorem MemberNameFromPeerURL_PeerURL (m : Member) (url : string) :
  all_chars label_char (Member_Name m) = true →
  all_chars label_char (Member_Namespace m) = true →
  PeerURL m = Ok url → MemberNameFromPeerURL url = Ok (Member_Name m).
Proof.
  unfold PeerURL, Addr, clusterNameFromMemberName.
  destruct m as [n ns id sp sc v6]; cbn [Member_Name Member_Namespace]. intros Hn Hns.
  destruct (before_last "-" n) as [c|] eqn:Hc; [|done]. cbn. intros [= <-].
  set (host := n +:+ "." +:+ c +:+ "." +:+ ns +:+ ".svc").
  assert (all_chars is_host host = true) as Hhost.
  { pose proof Hc as [t ->]%before_last_prefix.
    rewrite all_chars_app in Hn. apply andb_true_iff in Hn as [Hp Ht].
    assert (∀ s, all_chars label_char s = true → all_chars is_host s = true) as Hi
      by (intros s; apply all_chars_impl, label_char_host).
    unfold host. rewrite !all_chars_app, (Hi _ Hp), (Hi _ Ht), (Hi _ Hns). done. }
  unfold MemberNameFromPeerURL.
  assert (validPeerURL (peerScheme (MkMember n ns id sp sc v6) +:+ "://" +:+ host +:+ ":2380")
          = Some (peerScheme (MkMember n ns id sp sc v6), host)) as ->.
  { unfold validPeerURL. rewrite (span_all is_word) by (by destruct sp).
    assert (str_empty (peerScheme (MkMember n ns id sp sc v6)) = false) as -> by (by destruct sp).
    change ("://" +:+ host +:+ ":2380") with (String ":" (String "/" (String "/" (host +:+ ":2380")))).
    cbn -[span host String.append]. rewrite span_all by (exact Hhost || done).
    assert (str_empty host = false) as -> by (unfold host; destruct n; done). reflexivity. }
  assert (url_scheme_ok (peerScheme (MkMember n ns id sp sc v6)) = true) as -> by (by destruct sp).
  f_equal. rewrite (before_first_avoids ":").
  - unfold host. by apply before_first_app, label_avoids.
  - eapply all_chars_impl; [|exact Hhost]. intros a Ha.
    destruct (Ascii.eqb_spec a ":"); [subst; done|done].
Qed.

Lemma MemberNameFromPeerURL_PeerURL_witness :
  let m := MkMember "oc-etcd-x7" "onecloud" 3 true true false in
  PeerURL m = Ok "https://oc-etcd-x7.oc-etcd.onecloud.svc:2380" ∧
  MemberNameFromPeerURL "https://oc-etcd-x7.oc-etcd.onecloud.svc:2380" = Ok "oc-etcd-x7".
Proof.
  split; [reflexivity|].
  apply (MemberNameFromPeerURL_PeerURL (MkMember "oc-etcd-x7" "onecloud" 3 true true false));
    reflexivity.
Defined.

(** C17. A generated member name fits in a Kubernetes name (63 bytes) whatever
    the cluster name, and the service a member's address points to is the
    cluster's peer service exactly when the cluster name has at most 52
    bytes: a longer one is cut in the member name, while the peer service
    keeps it whole. *)
Theorem UniqueMemberName_spec (suffix clusterName : string) :
  String.length suffix = randomSuffixLength → avoids "-" suffix = true →
  let n := UniqueMemberName suffix clusterName in
  (String.length n ≤ 63)%nat ∧
  ∃ c, clusterNameFromMemberName n = Ok c ∧
    (c = clusterName ↔ (String.length clusterName ≤ 52)%nat).
Proof.
  intros Hl Hs. unfold UniqueMemberName.
  assert (∀ c, clusterNameFromMemberName (c +:+ "-" +:+ suffix) = Ok c) as Hc.
  { intros c. unfold clusterNameFromMemberName.
    change ("-" +:+ suffix) with (String "-" suffix). by rewrite before_last_app. }
  assert (String.length (take_str 52 clusterName) = 52 `min` String.length clusterName)%nat as Ht
    by apply length_take_str.
  change MaxNameLength with 52.
  destruct (Nat.ltb_spec 52 (String.length clusterName)) as [Hlt|Hle]; cbv zeta.
  - split.
    + rewrite !length_app_str, Hl, Ht. change randomSuffixLength with 10; change (String.length "-") with 1; lia.
    + eexists. split; [apply Hc|]. split; [|lia]. intros E. rewrite E in Ht. lia.
  - split.
    + rewrite !length_app_str, Hl. change randomSuffixLength with 10; change (String.length "-") with 1; lia.
    + exists clusterName. split; [apply Hc|]. split; [lia|done].
Qed.

Lemma UniqueMemberName_spec_witness :
  let n := UniqueMemberName "abcdefghij" "oc-etcd" in
  (String.length n ≤ 63)%nat ∧
  ∃ c, clusterNameFromMemberName n = Ok c ∧ (c = "oc-etcd" ↔ (String.length "oc-etcd" ≤ 52)%nat).
Proof. apply UniqueMemberName_spec; reflexivity. Defined.
