(* ===== verification/EtcdPod.v ===== *)
(** * EtcdPod: the pods and services of the etcd cluster

    The manifests of [pkg/util/k8sutil/k8sutil.go] and [pod_util.go], and what
    [pkg/manager/component/etcd.go] customises in them: the pod of a member,
    its probes, its command line, its volume claim, and the client and peer
    services; and the calls of the etcd client library in [pkg/util/etcdutil],
    whose outcome the reconciliation takes from its own interface, [EtcdEnv].
    [DisableNodeSelectorController] is the operator's flag. *)

From Stdlib Require Import Ascii.
From S2P Require Import Prelude K8s Types Constants GoStrings EtcdUtil ControllerUtils.

Open Scope string_scope.
Open Scope list_scope.
Open Scope go_scope.

(** ** Constants *)

(*@ pkg/util/k8sutil/k8sutil.go:24-24 TolerateUnreadyEndpointsAnnotation *)
Definition TolerateUnreadyEndpointsAnnotation : string :=
  "service.alpha.kubernetes.io/tolerate-unready-endpoints".
(*@ pkg/util/k8sutil/k8sutil.go:26-26 etcdVolumeMountDir *)
Definition etcdVolumeMountDir : string := "/var/etcd".
(*@ pkg/util/k8sutil/k8sutil.go:27-27 dataDir *)
Definition dataDir : string := etcdVolumeMountDir +:+ "/data".
(*@ pkg/util/k8sutil/k8sutil.go:29-29 etcdVersionAnnotationKey *)
Definition etcdVersionAnnotationKey : string := "etcd.version".
(*@ pkg/util/k8sutil/k8sutil.go:30-30 peerTLSDir *)
Definition peerTLSDir : string := "/etc/etcdtls/member/peer-tls".
(*@ pkg/util/k8sutil/k8sutil.go:31-31 peerTLSVolume *)
Definition peerTLSVolume : string := "member-peer-tls".
(*@ pkg/util/k8sutil/k8sutil.go:32-32 serverTLSDir *)
Definition serverTLSDir : string := "/etc/etcdtls/member/server-tls".
(*@ pkg/util/k8sutil/k8sutil.go:33-33 serverTLSVolume *)
Definition serverTLSVolume : string := "member-server-tls".
(*@ pkg/util/k8sutil/k8sutil.go:34-34 operatorEtcdTLSDir *)
Definition operatorEtcdTLSDir : string := "/etc/etcdtls/operator/etcd-tls".
(*@ pkg/util/k8sutil/k8sutil.go:35-35 operatorEtcdTLSVolume *)
Definition operatorEtcdTLSVolume : string := "etcd-client-tls".
(*@ pkg/util/k8sutil/k8sutil.go:41-41 defaultBusyboxImage *)
Definition defaultBusyboxImage : string := "busybox:1.28.0-glibc".
(*@ pkg/util/k8sutil/k8sutil.go:50-50 defaultDNSTimeout *)
Definition defaultDNSTimeout : Z := 0%Z.
(*@ pkg/util/k8sutil/pod_util.go:28-28 etcdVolumeName *)
Definition etcdVolumeName : string := "etcd-data".
(*@ pkg/util/etcdutil/tls.go:12-12 CliCertFile *)
Definition CliCertFile : string := "etcd-client.crt".
(*@ pkg/util/etcdutil/tls.go:13-13 CliKeyFile *)
Definition CliKeyFile : string := "etcd-client.key".
(*@ pkg/util/etcdutil/tls.go:14-14 CliCAFile *)
Definition CliCAFile : string := "etcd-client-ca.crt".
(*@ pkg/manager/component/etcd.go:68-68 etcdBackendQuotaSize *)
Definition etcdBackendQuotaSize : Z := 134217728%Z.
(*@ pkg/manager/component/etcd.go:69-69 etcdAutoCompactionRetention *)
Definition etcdAutoCompactionRetention : Z := 1%Z.
(*@ pkg/manager/component/etcd.go:70-70 etcdMaxWALFileCount *)
Definition etcdMaxWALFileCount : Z := 1%Z.

(** ** TLS *)

(*@ pkg/apis/onecloud/v1alpha1/types.go:507-512 IsSecureClient *)
Definition IsSecureClient (tp : option TLSPolicy) : bool :=
  match tp with
  | Some (MkTLSPolicy (Some static)) => negb (str_empty (StaticTLS_OperatorSecret static))
  | _ => false
  end.

(*@ pkg/manager/component/etcd.go:278-280 isSecure *)
Definition isSecure (oc : OnecloudCluster) : bool :=
  match Etcd_EnableTls (OnecloudClusterSpec_Etcd (OnecloudCluster_Spec oc)) with
  | None => true
  | Some b => b
  end.

(** ** Versions and images *)

(*@ pkg/util/k8sutil/k8sutil.go:65-67 GetEtcdVersion *)
Definition GetEtcdVersion (pod : Pod) : string :=
  default "" (ObjectMeta_Annotations (Pod_ObjectMeta pod) !! etcdVersionAnnotationKey).

(*@ pkg/util/k8sutil/k8sutil.go:69-71 ImageName *)
Definition ImageName (repo version : string) : string := repo +:+ ":v" +:+ version.

(** The annotations of a pod built here or read from the API server are a
    map, never nil: a pod of the cluster always carries its version. *)
(*@ pkg/util/k8sutil/k8sutil.go:73-75 SetEtcdVersion *)
Definition SetEtcdVersion (pod : Pod) (version : string) : Pod :=
  pod <| Pod_ObjectMeta ::= λ m,
    m <| ObjectMeta_Annotations ::= <[etcdVersionAnnotationKey := version]> |> |>.

(*@ pkg/util/k8sutil/k8sutil.go:77-86 GetPodNames *)
Definition GetPodNames (pods : list Pod) : list string :=
  map (λ p, ObjectMeta_Name (Pod_ObjectMeta p)) pods.

(** ** Containers *)

(*@ pkg/util/k8sutil/pod_util.go:31-35 etcdVolumeMounts *)
Definition etcdVolumeMounts : list VolumeMount :=
  [zero <| VolumeMount_Name := etcdVolumeName |> <| VolumeMount_MountPath := etcdVolumeMountDir |>].

(*@ pkg/util/k8sutil/pod_util.go:37-58 etcdContainer *)
Definition etcdContainer (cmd : list string) (repo version : string) : Container :=
  zero <| Container_Command := cmd |>
       <| Container_Name := "etcd" |>
       <| Container_Image := ImageName repo version |>
       <| Container_Ports := [MkContainerPort "server" 2380 "TCP" 0;
                              MkContainerPort "client" EtcdClientPort "TCP" 0] |>
       <| Container_VolumeMounts := etcdVolumeMounts |>.

(*@ pkg/util/k8sutil/pod_util.go:60-64 containerWithProbes *)
Definition containerWithProbes (c : Container) (lp rp : option Probe) : Container :=
  c <| Container_LivenessProbe := lp |> <| Container_ReadinessProbe := rp |>.

(*@ pkg/util/k8sutil/pod_util.go:66-69 containerWithRequirements *)
Definition containerWithRequirements (c : Container) (r : ResourceRequirements) : Container :=
  c <| Container_Resources := r |>.

(** [--cert=... --key=... --cacert=...] under a directory *)
Definition tlsFlags (dir : string) : string :=
  "--cert=" +:+ dir +:+ "/" +:+ CliCertFile +:+ " --key=" +:+ dir +:+ "/" +:+ CliKeyFile
  +:+ " --cacert=" +:+ dir +:+ "/" +:+ CliCAFile.

Definition endpointStatus (isSecure : bool) : string :=
  if isSecure then
    "ETCDCTL_API=3 etcdctl --endpoints=https://localhost:" +:+ dec EtcdClientPort +:+ " "
    +:+ tlsFlags operatorEtcdTLSDir +:+ " endpoint status"
  else "ETCDCTL_API=3 etcdctl endpoint status".

(*@ pkg/util/k8sutil/pod_util.go:71-89 newEtcdProbe *)
Definition newEtcdProbe (isSecure : bool) : Probe :=
  zero <| Probe_Exec := Some (MkExecAction ["/bin/sh"; "-ec"; endpointStatus isSecure]) |>
       <| Probe_InitialDelaySeconds := 10%Z |>
       <| Probe_TimeoutSeconds := 10%Z |>
       <| Probe_PeriodSeconds := 60%Z |>
       <| Probe_FailureThreshold := 3%Z |>.

(*@ pkg/util/k8sutil/pod_util.go:148-156 mergeLabels *)
Definition mergeLabels (l1 l2 : gmap string string) : gmap string string := l1 ∪ l2.

(*@ pkg/util/k8sutil/k8sutil.go:338-341 PodWithNodeSelector *)
Definition PodWithNodeSelector (p : Pod) (ns : gmap string string) : Pod :=
  p <| Pod_Spec ::= λ s, s <| PodSpec_NodeSelector := ns |> |>.

(*@ pkg/util/k8sutil/pod_util.go:91-123 applyPodPolicy *)
Definition applyPodPolicy (pod : Pod) (policy : option PodPolicy) : Pod :=
  match policy with
  | None => pod
  | Some policy =>
      let pod :=
        match PodPolicy_Affinity policy with
        | Some a => pod <| Pod_Spec ::= λ s, s <| PodSpec_Affinity := Some a |> |>
        | None => pod
        end in
      let pod :=
        if decide (PodPolicy_NodeSelector policy = ∅) then pod
        else PodWithNodeSelector pod (PodPolicy_NodeSelector policy) in
      let pod :=
        match PodPolicy_Tolerations policy with
        | [] => pod
        | ts => pod <| Pod_Spec ::= λ s, s <| PodSpec_Tolerations := ts |> |>
        end in
      let container c :=
        let c := containerWithRequirements c (PodPolicy_Resources policy) in
        if String.eqb (Container_Name c) "etcd"
        then c <| Container_Env ::= λ e, e ++ PodPolicy_EtcdEnv policy |> else c in
      pod <| Pod_ObjectMeta ::= λ m,
               m <| ObjectMeta_Labels ::= λ l, mergeLabels l (PodPolicy_Labels policy) |> |>
          <| Pod_Spec ::= λ s,
               s <| PodSpec_Containers ::= map container |>
                 <| PodSpec_InitContainers ::=
                      map (λ c, containerWithRequirements c (PodPolicy_Resources policy)) |> |>
          <| Pod_ObjectMeta ::= λ m,
               m <| ObjectMeta_Annotations ::= λ a, PodPolicy_Annotations policy ∪ a |> |>
  end.

(*@ pkg/util/k8sutil/pod_util.go:131-138 getPodReadyCondition *)
Definition getPodReadyCondition (status : PodStatus) : option PodCondition :=
  List.find (λ c, String.eqb (PodCondition_Type c) "Ready") (PodStatus_Conditions status).

(*@ pkg/util/k8sutil/pod_util.go:125-129 IsPodReady *)
Definition IsPodReady (pod : Pod) : bool :=
  match getPodReadyCondition (Pod_Status pod) with
  | Some c => String.eqb (PodCondition_Status c) "True"
  | None => false
  end.

(** ** The pod of a member *)

(*@ pkg/util/k8sutil/k8sutil.go:107-109 addOwnerRefToObject *)
Definition addOwnerRefToObject (o : ObjectMeta) (r : OwnerReference) : ObjectMeta :=
  o <| ObjectMeta_OwnerReferences ::= λ l, l ++ [r] |>.

(*@ pkg/util/k8sutil/k8sutil.go:323-329 imageNameBusybox *)
Definition imageNameBusybox (policy : option PodPolicy) : string :=
  match policy with
  | Some p => if str_empty (PodPolicy_BusyboxImage p) then defaultBusyboxImage
              else PodPolicy_BusyboxImage p
  | None => defaultBusyboxImage
  end.

(*@ pkg/util/k8sutil/k8sutil.go:331-336 podSecurityContext *)
Definition podSecurityContext (podPolicy : option PodPolicy) : option PodSecurityContext :=
  match podPolicy with None => None | Some p => PodPolicy_SecurityContext p end.

(** The TLS flags of the etcd command line. *)
Definition peerTLSFlags : string :=
  " --peer-client-cert-auth=true --peer-trusted-ca-file=" +:+ peerTLSDir
  +:+ "/peer-ca.crt --peer-cert-file=" +:+ peerTLSDir
  +:+ "/peer.crt --peer-key-file=" +:+ peerTLSDir +:+ "/peer.key".
Definition serverTLSFlags : string :=
  " --client-cert-auth=true --trusted-ca-file=" +:+ serverTLSDir
  +:+ "/server-ca.crt --cert-file=" +:+ serverTLSDir
  +:+ "/server.crt --key-file=" +:+ serverTLSDir +:+ "/server.key".

(** The flags both command lines start with. *)
Definition etcdCommandPrefix (m : Member) (peerURL clientURL : string)
    (initialCluster : list string) (state : string) : string :=
  "/usr/local/bin/etcd --data-dir=" +:+ dataDir +:+ " --name=" +:+ Member_Name m
  +:+ " --initial-advertise-peer-urls=" +:+ peerURL
  +:+ " --listen-peer-urls=" +:+ ListenPeerURL m
  +:+ " --listen-client-urls=" +:+ ListenClientURL m
  +:+ " --advertise-client-urls=" +:+ clientURL
  +:+ " --initial-cluster=" +:+ Join initialCluster ","
  +:+ " --initial-cluster-state=" +:+ state.

Definition withToken (state token commands : string) : string :=
  if String.eqb state "new" then commands +:+ " --initial-cluster-token=" +:+ token else commands.

Definition dquote : string := String "034" "".

(** The shell script that waits for the DNS entry of the member. *)
Definition checkDNS (timeout : Z) (addr : string) : string :=
  Join [ ""; "TIMEOUT_READY=" +:+ dec timeout; "while ( ! ping -c 1 " +:+ addr +:+ " )"; "do";
         tab +:+ "# If TIMEOUT_READY is 0 we should never time out and exit";
         tab +:+ "TIMEOUT_READY=$(( TIMEOUT_READY-1 ))";
         tab +:+ "if [ $TIMEOUT_READY -eq 0 ];"; tab +:+ "then";
         tab +:+ tab +:+ "echo " +:+ dquote +:+ "Timed out waiting for DNS entry" +:+ dquote;
         tab +:+ tab +:+ "exit 1"; tab +:+ "fi"; tab +:+ "sleep 1"; "done" ] newline.

Definition secretVolume (name secret : string) : Volume :=
  MkVolume name (zero <| VolumeSource_Secret := Some (MkSecretVolumeSource secret []) |>).
Definition mountAt (name path : string) : VolumeMount :=
  zero <| VolumeMount_Name := name |> <| VolumeMount_MountPath := path |>.

(** The member secrets of the TLS policy, which the code dereferences. *)
Definition static_of (tls : option TLSPolicy) : Res StaticTLS :=
  match tls with
  | Some (MkTLSPolicy (Some static)) => Ok static
  | _ => Panic "nil pointer dereference"
  end.
Definition member_of (static : StaticTLS) : Res MemberSecret :=
  match StaticTLS_Member static with
  | Some ms => Ok ms
  | None => Panic "nil pointer dereference"
  end.

(** The TLS volumes of a member and their mounts. *)
Definition etcdTLSVolumes (m : Member) (tls : option TLSPolicy) : Res (list Volume * list VolumeMount) :=
  res_bind (if Member_SecurePeer m then
              res_bind (static_of tls) (λ static,
              res_map (λ ms, ([secretVolume peerTLSVolume (MemberSecret_PeerSecret ms)],
                              [mountAt peerTLSVolume peerTLSDir])) (member_of static))
            else Ok ([], [])) (λ '(vs, mounts),
  if Member_SecureClient m then
    res_bind (static_of tls) (λ static,
    res_map (λ ms,
      (vs ++ [secretVolume serverTLSVolume (MemberSecret_ServerSecret ms);
              secretVolume operatorEtcdTLSVolume (StaticTLS_OperatorSecret static)],
       mounts ++ [mountAt serverTLSVolume serverTLSDir;
                  mountAt operatorEtcdTLSVolume operatorEtcdTLSDir])) (member_of static))
  else Ok (vs, mounts)).

(*@ pkg/util/k8sutil/k8sutil.go:212-321 newEtcdPod *)
Definition newEtcdPod (m : Member) (initialCluster : list string)
    (clusterName state token : string) (cs : EtcdClusterSpec) : Res Pod :=
  res_bind (PeerURL m) (λ peerURL,
  res_bind (ClientURL m) (λ clientURL,
  res_bind (Addr m) (λ addr,
  let commands := etcdCommandPrefix m peerURL clientURL initialCluster state in
  let commands := if Member_SecurePeer m then commands +:+ peerTLSFlags else commands in
  let commands := if Member_SecureClient m then commands +:+ serverTLSFlags else commands in
  let commands := withToken state token commands in
  let labels := {[ "app" := "etcd"; "etcd_node" := Member_Name m; "etcd_cluster" := clusterName ]} in
  let livenessProbe := newEtcdProbe (IsSecureClient (EtcdClusterSpec_TLS cs)) in
  let readinessProbe := livenessProbe <| Probe_InitialDelaySeconds := 1%Z |>
    <| Probe_TimeoutSeconds := 5%Z |> <| Probe_PeriodSeconds := 5%Z |>
    <| Probe_FailureThreshold := 3%Z |> in
  let container := containerWithProbes
    (etcdContainer (split_on " " commands) (EtcdClusterSpec_Repository cs) (EtcdClusterSpec_Version cs))
    (Some livenessProbe) (Some readinessProbe) in
  res_map (λ '(volumes, mounts),
    let container := container <| Container_VolumeMounts ::= λ l, l ++ mounts |> in
    let DNSTimeout :=
      match EtcdClusterSpec_Pod cs with
      | Some p => PodPolicy_DNSTimeoutInSecond p
      | None => defaultDNSTimeout
      end in
    let pod : Pod :=
      zero <| Pod_ObjectMeta := zero <| ObjectMeta_Name := Member_Name m |>
                                     <| ObjectMeta_Labels := labels |> |>
           <| Pod_Spec := zero
                <| PodSpec_InitContainers :=
                     [zero <| Container_Image := imageNameBusybox (EtcdClusterSpec_Pod cs) |>
                           <| Container_Name := "check-dns" |>
                           <| Container_Command := ["/bin/sh"; "-c"; checkDNS DNSTimeout addr] |>] |>
                <| PodSpec_Containers := [container] |>
                <| PodSpec_RestartPolicy := "Never" |>
                <| PodSpec_Volumes := volumes |>
                <| PodSpec_Hostname := Member_Name m |>
                <| PodSpec_Subdomain := clusterName |>
                <| PodSpec_AutomountServiceAccountToken := Some false |>
                <| PodSpec_SecurityContext := podSecurityContext (EtcdClusterSpec_Pod cs) |> |> in
    SetEtcdVersion pod (EtcdClusterSpec_Version cs))
    (etcdTLSVolumes m (EtcdClusterSpec_TLS cs))))).

(*@ pkg/util/k8sutil/k8sutil.go:100-105 NewEtcdPod *)
Definition NewEtcdPod (m : Member) (initialCluster : list string)
    (clusterName state token : string) (cs : EtcdClusterSpec) (owner : OwnerReference) : Res Pod :=
  res_map (λ pod,
    let pod := applyPodPolicy pod (EtcdClusterSpec_Pod cs) in
    pod <| Pod_ObjectMeta ::= λ m, addOwnerRefToObject m owner |>)
    (newEtcdPod m initialCluster clusterName state token cs).

(*@ pkg/util/k8sutil/k8sutil.go:144-156 NewEtcdPodPVC *)
Definition NewEtcdPodPVC (m : Member) (pvcSpec : PersistentVolumeClaimSpec)
    (clusterName namespace : string) (owner : OwnerReference) : PersistentVolumeClaim :=
  MkPersistentVolumeClaim
    (addOwnerRefToObject
       (zero <| ObjectMeta_Name := PVCNameFromMember (Member_Name m) |>
             <| ObjectMeta_Namespace := namespace |>
             <| ObjectMeta_Labels := LabelsForCluster clusterName |>) owner)
    pvcSpec.

(*@ pkg/manager/component/etcd.go:1150-1162 addEtcdVolumeToPod *)
Definition addEtcdVolumeToPod (pod : Pod) (pvc : option PersistentVolumeClaim) : Pod :=
  let source : VolumeSource :=
    match pvc with
    | Some pvc =>
        zero <| VolumeSource_PersistentVolumeClaim := Some (MkPersistentVolumeClaimVolumeSource
                  (ObjectMeta_Name (PersistentVolumeClaim_ObjectMeta pvc)) false) |>
    | None => zero <| VolumeSource_EmptyDir := Some (MkEmptyDirVolumeSource "Memory") |>
    end in
  pod <| Pod_Spec ::= λ s, s <| PodSpec_Volumes ::= λ l, l ++ [MkVolume etcdVolumeName source] |> |>.

(** ** What the etcd manager customises *)

Definition oc_etcd (oc : OnecloudCluster) : Etcd :=
  OnecloudClusterSpec_Etcd (OnecloudCluster_Spec oc).
Definition oc_etcdSpec (oc : OnecloudCluster) : EtcdClusterSpec := Etcd_EtcdClusterSpec (oc_etcd oc).

(** The product is computed in 64 bits. *)
(*@ pkg/manager/component/etcd.go:103-108 getEtcdBackendQuotaSize *)
Definition getEtcdBackendQuotaSize (oc : OnecloudCluster) : Z :=
  match Etcd_EtcdBackendQuotaSize (oc_etcd oc) with
  | Some q =>
      if (etcdBackendQuotaSize <? wrap64 (wrap64 (q * 1024) * 1024))%Z
      then wrap64 (wrap64 (q * 1024) * 1024) else etcdBackendQuotaSize
  | None => etcdBackendQuotaSize
  end.

(*@ pkg/manager/component/etcd.go:360-362 getEtcdClusterPrefix *)
Definition getEtcdClusterPrefix (oc : OnecloudCluster) : string := oc_name oc +:+ "-etcd".

(*@ pkg/manager/component/etcd.go:353-358 isPodPVEnabled *)
Definition isPodPVEnabled (oc : OnecloudCluster) : bool :=
  match EtcdClusterSpec_Pod (oc_etcdSpec oc) with
  | Some podPolicy =>
      match PodPolicy_PersistentVolumeClaimSpec podPolicy with Some _ => true | None => false end
  | None => false
  end.

(*@ pkg/manager/component/etcd.go:548-571 customEtcdSpec *)
Definition customEtcdSpec (oc : OnecloudCluster) : EtcdClusterSpec :=
  let spec := (oc_etcdSpec oc)
    <| EtcdClusterSpec_Repository ::= default_str (path_Join ["quay.io/coreos/etcd"]) |>
    <| EtcdClusterSpec_Version ::= default_str EtcdImageVersion |>
    <| EtcdClusterSpec_Size ::= default_int EtcdDefaultClusterSize |> in
  if isSecure oc then
    spec <| EtcdClusterSpec_TLS := Some (MkTLSPolicy (Some (MkStaticTLS
              (Some (MkMemberSecret EtcdPeerSecret EtcdServerSecret)) EtcdClientSecret))) |>
  else spec.

(** Both probes run the same command. *)
(*@ pkg/manager/component/etcd.go:440-459 newLivenessProbe *)
Definition newLivenessProbe (isSecure : bool) : Probe :=
  zero <| Probe_Exec := Some (MkExecAction ["/bin/sh"; "-ec"; endpointStatus isSecure]) |>
       <| Probe_InitialDelaySeconds := 10%Z |> <| Probe_TimeoutSeconds := 10%Z |>
       <| Probe_PeriodSeconds := 60%Z |> <| Probe_FailureThreshold := 3%Z |>.

(*@ pkg/manager/component/etcd.go:461-478 newReadinessProbe *)
Definition newReadinessProbe (isSecure : bool) : Probe :=
  zero <| Probe_Exec := Some (MkExecAction ["/bin/sh"; "-ec"; endpointStatus isSecure]) |>
       <| Probe_InitialDelaySeconds := 1%Z |> <| Probe_TimeoutSeconds := 5%Z |>
       <| Probe_PeriodSeconds := 5%Z |> <| Probe_FailureThreshold := 3%Z |>.

Definition cipherSuites : string :=
  " --cipher-suites=" +:+ Join
    [ "TLS_ECDHE_ECDSA_WITH_AES_128_GCM_SHA256"; "TLS_ECDHE_ECDSA_WITH_AES_256_GCM_SHA384";
      "TLS_ECDHE_ECDSA_WITH_CHACHA20_POLY1305"; "TLS_ECDHE_RSA_WITH_AES_128_GCM_SHA256";
      "TLS_ECDHE_RSA_WITH_AES_256_GCM_SHA384"; "TLS_ECDHE_RSA_WITH_CHACHA20_POLY1305" ] ",".

(*@ pkg/manager/component/etcd.go:480-499 newEtcdCommand *)
Definition newEtcdCommand (oc : OnecloudCluster) (mb : Member) (state token : string)
    (initialCluster : list string) : Res (list string) :=
  res_bind (PeerURL mb) (λ peerURL,
  res_bind (ClientURL mb) (λ clientURL,
  let commands := etcdCommandPrefix mb peerURL clientURL initialCluster state
    +:+ " --quota-backend-bytes " +:+ dec (getEtcdBackendQuotaSize oc)
    +:+ " --auto-compaction-retention " +:+ dec etcdAutoCompactionRetention
    +:+ " --max-wals " +:+ dec etcdMaxWALFileCount in
  let commands := if Member_SecurePeer mb then commands +:+ peerTLSFlags else commands in
  let commands :=
    if Member_SecureClient mb then commands +:+ serverTLSFlags +:+ cipherSuites else commands in
  Ok (split_on " " (withToken state token commands)))).

(** [l[0] = f(l[0])], a panic when the list is empty. *)
Definition update_first {A} (f : A → Res A) (l : list A) : Res (list A) :=
  match l with
  | [] => Panic "index out of range [0] with length 0"
  | x :: l' => res_map (λ x, x :: l') (f x)
  end.

Definition etcdAntiAffinity : PodAntiAffinity :=
  MkPodAntiAffinity
    [MkPodAffinityTerm (Some (MkLabelSelector {[ "app" := "etcd" ]} [])) [] "kubernetes.io/hostname"] [].

Section custom.
Context (DisableNodeSelectorController : bool).

(*@ pkg/manager/component/etcd.go:387-438 customPodSpec *)
Definition customPodSpec (oc : OnecloudCluster) (pod : Pod) (mb : Member) (state token : string)
    (initialCluster : list string) : Res Pod :=
  let etcd := oc_etcdSpec oc in
  let imageRepository :=
    if str_empty (EtcdClusterSpec_Repository etcd)
    then OnecloudClusterSpec_ImageRepository (OnecloudCluster_Spec oc)
    else EtcdClusterSpec_Repository etcd in
  let version :=
    if str_empty (EtcdClusterSpec_Version etcd) then EtcdImageVersion
    else EtcdClusterSpec_Version etcd in
  res_bind (update_first (λ c,
    res_map (λ command,
      c <| Container_Image := path_Join [imageRepository; EtcdImageName] +:+ ":" +:+ version |>
        <| Container_Command := command |>
        <| Container_LivenessProbe := Some (newLivenessProbe (isSecure oc)) |>
        <| Container_ReadinessProbe := Some (newReadinessProbe (isSecure oc)) |>)
      (newEtcdCommand oc mb state token initialCluster)) (PodSpec_Containers (Pod_Spec pod)))
  (λ containers,
  res_map (λ initContainers,
    pod <| Pod_Spec ::= λ s,
      s <| PodSpec_Containers := containers |>
        <| PodSpec_ShareProcessNamespace := Some true |>
        <| PodSpec_InitContainers := initContainers |>
        <| PodSpec_DNSPolicy := "ClusterFirst" |>
        <| PodSpec_Tolerations ::= λ l, l ++
             [ MkToleration "node-role.kubernetes.io/master" "" "" "NoSchedule" None;
               MkToleration "node-role.kubernetes.io/controlplane" "" "" "NoSchedule" None ] |>
        <| PodSpec_NodeSelector ::= λ l,
             if DisableNodeSelectorController then l
             else <[OnecloudControllerLabelKey := "enable"]> l |>
        <| PodSpec_Affinity ::= λ a,
             Some ((default zero a) <| Affinity_PodAntiAffinity := Some etcdAntiAffinity |>) |> |>)
    (update_first (λ c, Ok (c <| Container_Image :=
       path_Join [imageRepository; BusyboxImageName] +:+ ":" +:+ BusyboxImageVersion |>))
       (PodSpec_InitContainers (Pod_Spec pod)))).
End custom.

(** ** The services *)

(** [marshal] renders a service port as JSON. *)
Section services.
Context (marshal : ServicePort → string).

(*@ pkg/manager/component/etcd.go:714-746 newEtcdServiceManifest *)
Definition newEtcdServiceManifest (svcName clusterName clusterIP : string)
    (ports : list ServicePort) (tolerateUnreadyEndpoints useNodePort : bool) : core_Service :=
  let labels := LabelsForCluster clusterName in
  let annotations : gmap string string :=
    if tolerateUnreadyEndpoints then {[ TolerateUnreadyEndpointsAnnotation := "true" ]} else ∅ in
  let annotations := fold_left (λ a '(i, p),
      <["onecloud.etcd.io/port" +:+ dec (Z.of_nat i) := marshal p]> a)
    (zip (seq 0 (length ports)) ports) annotations in
  Mkcore_Service
    (zero <| ObjectMeta_Name := svcName |> <| ObjectMeta_Labels := labels |>
          <| ObjectMeta_Annotations := annotations |>)
    (Mkcore_ServiceSpec ports labels clusterIP (if useNodePort then "NodePort" else "ClusterIP") true).
End services.

(*@ pkg/manager/component/etcd.go:666-668 ClientServiceName *)
Definition ClientServiceName (clusterName : string) : string := clusterName +:+ "-client".

Definition intPort (p : Z) : IntOrString := MkIntOrString 0 p "".
Definition etcdServicePort (name : string) (port nodePort : Z) : ServicePort :=
  MkServicePort name "TCP" port (intPort port) nodePort.

(** The ports of the client service; the node port is truncated to 32 bits. *)
(*@ pkg/manager/component/etcd.go:656-662 CreateClientService (ports) *)
Definition clientServicePorts (nodePort : Z) : list ServicePort :=
  [etcdServicePort "client" EtcdClientPort (wrap32 nodePort)].

(*@ pkg/manager/component/etcd.go:671-681 CreatePeerService (ports) *)
Definition peerServicePorts : list ServicePort :=
  [etcdServicePort "client" EtcdClientPort 0; etcdServicePort "peer" 2380 0].

(** ** Calls of the client of etcd *)

(*@ pkg/apis/constants/constants.go:524-524 DefaultDialTimeout *)
Definition DefaultDialTimeout : Z := 5 * 10 ^ 9.
(*@ pkg/apis/constants/constants.go:525-525 DefaultRequestTimeout *)
Definition DefaultRequestTimeout : Z := 5 * 10 ^ 9.

(** [clientv3]: a client takes its end points, the time to dial and the TLS
    configuration; a request takes the time it may last. *)
Class EtcdClientLib (W : Type) := {
  TLSConfig : Type;
  EtcdCli : Type;
  etcd_New : list string → Z → option TLSConfig → M W EtcdCli;
  etcd_MemberList : EtcdCli → Z → M W (list (Z * list string));
  etcd_MemberRemove : EtcdCli → Z → Z → M W unit;
  etcd_Close : EtcdCli → W → W;
  TempDir : string → string → M W string;
  WriteFile : string → string → Z → M W unit;
  (** [transport.TLSInfo.ClientConfig], of the three files *)
  ClientConfig : string → string → string → M W TLSConfig
}.
Arguments TLSConfig W {_}.
Arguments EtcdCli W {_}.

Section client.
Context {W : Type} `{!EtcdClientLib W}.

(** [defer etcdcli.Close()], or [Close] after the only request *)
Definition closing {A} (c : EtcdCli W) (f : M W A) : M W A := λ w,
  let '(w, r) := f w in (etcd_Close c w, r).

(*@ pkg/util/etcdutil/etcdutil.go:13-29 ListMembers *)
Definition ListMembers (clientURLs : list string) (tc : option (TLSConfig W))
  : M W (list (Z * list string)) :=
  let! r := attempt (etcd_New clientURLs DefaultDialTimeout tc) in
  match r with
  | inl err => throw (ErrMsg ("list members failed: creating etcd client failed: " +:+ Error err))
  | inr etcdcli => closing etcdcli (etcd_MemberList etcdcli DefaultRequestTimeout)
  end.

(*@ pkg/util/etcdutil/etcdutil.go:31-47 RemoveMember *)
Definition RemoveMember (clientURLs : list string) (tc : option (TLSConfig W)) (id : Z) : M W unit :=
  let! etcdcli := etcd_New clientURLs DefaultDialTimeout tc in
  closing etcdcli (etcd_MemberRemove etcdcli DefaultRequestTimeout id).

(** [filepath.Join] of a clean directory and a name *)
(*@ pkg/util/etcdutil/tls.go:49-52 writeFile *)
Definition writeFile (dir file data : string) : M W string :=
  let p := dir +:+ "/" +:+ file in
  WriteFile p data 384 ;;! ret p.

(** The directory is left behind. *)
(*@ pkg/util/etcdutil/tls.go:17-47 NewTLSConfig *)
Definition NewTLSConfig (certData keyData caData : string) : M W (TLSConfig W) :=
  let! dir := TempDir "" "etcd-operator-cluster-tls" in
  let! certFile := writeFile dir CliCertFile certData in
  let! keyFile := writeFile dir CliKeyFile keyData in
  let! caFile := writeFile dir CliCAFile caData in
  ClientConfig certFile keyFile caFile.

(** A count of the clients that are open, under the laws of the library. *)
Class OpenClients (open : W → nat) : Prop := {
  open_New urls t tc w :
    open (etcd_New urls t tc w).1 = match (etcd_New urls t tc w).2 with
                                    | Ok _ => S (open w)
                                    | _ => open w
                                    end;
  open_MemberList c t w : open (etcd_MemberList c t w).1 = open w;
  open_MemberRemove c t id w : open (etcd_MemberRemove c t id w).1 = open w;
  open_Close c w : open (etcd_Close c w) = pred (open w)
}.

(** No client is left open, whatever fails. *)
Lemma ListMembers_closes open `{!OpenClients open} urls tc w : open (ListMembers urls tc w).1 = open w.
Proof.
  unfold ListMembers, bind, attempt, closing. pose proof (open_New urls DefaultDialTimeout tc w) as Hn.
  destruct (etcd_New urls DefaultDialTimeout tc w) as [w1 [c|e|p]]; simpl in *; [|done..].
  pose proof (open_MemberList c DefaultRequestTimeout w1) as Hm.
  destruct (etcd_MemberList c DefaultRequestTimeout w1). simpl in *.
  by rewrite open_Close, Hm, Hn.
Qed.

Lemma RemoveMember_closes open `{!OpenClients open} urls tc id w :
  open (RemoveMember urls tc id w).1 = open w.
Proof.
  unfold RemoveMember, bind, closing. pose proof (open_New urls DefaultDialTimeout tc w) as Hn.
  destruct (etcd_New urls DefaultDialTimeout tc w) as [w1 [c|e|p]]; simpl in *; [|done..].
  pose proof (open_MemberRemove c DefaultRequestTimeout id w1) as Hm.
  destruct (etcd_MemberRemove c DefaultRequestTimeout id w1). simpl in *.
  by rewrite open_Close, Hm, Hn.
Qed.
End client.
