(* ===== verification/EtcdSeed.v ===== *)
(** * EtcdSeed: the rest of the etcd manifests

    What [pkg/util/k8sutil/k8sutil.go] and the custom resource offer for etcd
    clusters and the manager does not use: the validation of a TLS policy, and
    the pod of a seed member that is restored from a backup. *)

From S2P Require Import Prelude K8s Types Constants GoStrings EtcdUtil ControllerUtils.
From S2P Require Import EtcdPod.

Open Scope string_scope.
Open Scope list_scope.
Open Scope go_scope.

(** ** TLS policies *)

(** The member is dereferenced before it is looked at. *)
(*@ pkg/apis/onecloud/v1alpha1/types.go:491-505 Validate *)
Definition TLSPolicy_Validate (tp : TLSPolicy) : Res unit :=
  match TLSPolicy_Static tp with
  | None => Ok tt
  | Some st =>
      if negb (str_empty (StaticTLS_OperatorSecret st)) then
        res_bind (member_of st) (λ ms,
          if str_empty (MemberSecret_ServerSecret ms)
          then Err (ErrMsg "operator secret set but member serverSecret not set") else Ok tt)
      else
        match StaticTLS_Member st with
        | Some ms =>
            if str_empty (MemberSecret_ServerSecret ms) then Ok tt
            else Err (ErrMsg "member serverSecret set but operator secret not set")
        | None => Ok tt
        end
  end.

(*@ pkg/apis/onecloud/v1alpha1/types.go:514-519 IsSecurePeer *)
Definition IsSecurePeer (tp : option TLSPolicy) : bool :=
  match tp with
  | Some (MkTLSPolicy (Some (MkStaticTLS (Some ms) _))) => negb (str_empty (MemberSecret_PeerSecret ms))
  | _ => false
  end.

(** ** The pod of a seed member *)

(*@ pkg/util/k8sutil/k8sutil.go:28-28 backupFile *)
Definition backupFile : string := "/var/etcd/latest.backup".

(*@ pkg/util/k8sutil/k8sutil.go:112-122 AddEtcdVolumeToPod *)
Definition AddEtcdVolumeToPod (pod : Pod) (pvc : option PersistentVolumeClaim) : Pod :=
  let source : VolumeSource :=
    match pvc with
    | Some pvc =>
        zero <| VolumeSource_PersistentVolumeClaim := Some (MkPersistentVolumeClaimVolumeSource
                  (ObjectMeta_Name (PersistentVolumeClaim_ObjectMeta pvc)) false) |>
    | None => zero <| VolumeSource_EmptyDir := Some (MkEmptyDirVolumeSource "") |>
    end in
  pod <| Pod_Spec ::= λ s, s <| PodSpec_Volumes ::= λ l, l ++ [MkVolume etcdVolumeName source] |> |>.

(** The script that downloads the backup. *)
Definition fetchScript (backupURL : string) : string :=
  Join [ "";
         "httpcode=$(curl --write-out %\{http_code\} --silent --output " +:+ backupFile
           +:+ " " +:+ backupURL +:+ ")";
         "if [[ " +:+ dquote +:+ "$httpcode" +:+ dquote +:+ " != " +:+ dquote +:+ "200" +:+ dquote
           +:+ " ]]; then";
         tab +:+ "echo " +:+ dquote +:+ "http status code: ${httpcode}" +:+ dquote
           +:+ " >> /dev/termination-log";
         tab +:+ "cat " +:+ backupFile +:+ " >> /dev/termination-log";
         tab +:+ "exit 1";
         "fi";
         tab +:+ tab +:+ tab +:+ tab +:+ tab ] newline.

(** [backupURL] as it is printed. *)
(*@ pkg/util/k8sutil/k8sutil.go:177-210 makeRestoreInitContainers *)
Definition makeRestoreInitContainers (backupURL token repo version : string) (m : Member)
  : Res (list Container) :=
  res_map (λ peerURL,
    [zero <| Container_Name := "fetch-backup" |>
          <| Container_Image := "tutum/curl" |>
          <| Container_Command := ["/bin/bash"; "-ec"; fetchScript backupURL] |>
          <| Container_VolumeMounts := etcdVolumeMounts |>;
     zero <| Container_Name := "restore-datadir" |>
          <| Container_Image := ImageName repo version |>
          <| Container_Command :=
               ["/bin/sh"; "-ec";
                "ETCDCTL_API=3 etcdctl snapshot restore " +:+ backupFile
                +:+ " --name " +:+ Member_Name m
                +:+ " --initial-cluster " +:+ Member_Name m +:+ "=" +:+ peerURL
                +:+ " --initial-cluster-token " +:+ token
                +:+ " --initial-advertise-peer-urls " +:+ peerURL
                +:+ " --data-dir " +:+ dataDir +:+ " 2>/dev/termination-log"] |>
          <| Container_VolumeMounts := etcdVolumeMounts |>])
    (PeerURL m).

(*@ pkg/util/k8sutil/k8sutil.go:139-142 addRecoveryToPod *)
Definition addRecoveryToPod (pod : Pod) (token : string) (m : Member) (cs : EtcdClusterSpec)
    (backupURL : string) : Res Pod :=
  res_map (λ cs, pod <| Pod_Spec ::= λ s, s <| PodSpec_InitContainers ::= λ l, l ++ cs |> |>)
    (makeRestoreInitContainers backupURL token (EtcdClusterSpec_Repository cs)
       (EtcdClusterSpec_Version cs) m).

(** [token] is the fresh UUID. *)
(*@ pkg/util/k8sutil/k8sutil.go:126-137 NewSeedMemberPod *)
Definition NewSeedMemberPod (token clusterName : string) (peerURLPairs : list string) (m : Member)
    (cs : EtcdClusterSpec) (owner : OwnerReference) (backupURL : option string) : Res Pod :=
  res_bind (newEtcdPod m peerURLPairs clusterName "new" token cs) (λ pod,
  let pod := AddEtcdVolumeToPod pod None in
  res_map (λ pod,
    let pod := applyPodPolicy pod (EtcdClusterSpec_Pod cs) in
    pod <| Pod_ObjectMeta ::= λ m, addOwnerRefToObject m owner |>)
    (match backupURL with
     | Some url => addRecoveryToPod pod token m cs url
     | None => Ok pod
     end)).

(** A policy that passes is one the manifest of a member can be built from:
    where the operator's certificate is set, so are those of the members. *)
Lemma TLSPolicy_Validate_ok (tp : TLSPolicy) :
  TLSPolicy_Validate tp = Ok tt → IsSecureClient (Some tp) = true →
  ∃ st ms, TLSPolicy_Static tp = Some st ∧ StaticTLS_Member st = Some ms ∧
           MemberSecret_ServerSecret ms ≠ "".
Proof.
  unfold TLSPolicy_Validate, IsSecureClient. destruct tp as [[[mem op]|]]; cbn; [|intros; discriminate].
  destruct (String.eqb op ""); cbn; [intros; discriminate|].
  destruct mem as [ms|]; cbn; [|discriminate]. intros Hv _.
  exists (MkStaticTLS (Some ms) op), ms. do 2 (split; [reflexivity|]). intros He. cbn in He.
  rewrite He in Hv. cbn in Hv. discriminate Hv.
Qed.

(** The operator's secret without secrets of the members panics instead of
    being reported. *)
Example TLSPolicy_Validate_panics :
  TLSPolicy_Validate (MkTLSPolicy (Some (MkStaticTLS None "operator-secret")))
  = Panic "nil pointer dereference".
Proof. reflexivity. Qed.
