(* ===== verification/CertsFacts.v ===== *)
(** * CertsFacts: etcd's certificates come from one authority

    The secrets with the certificates of etcd's servers, clients and peers are
    made together, by three requests to the API server, each of which may
    fail; a later reconciliation finds whatever is left. As long as no deletion
    of theirs has failed, the three secrets are never of different authorities,
    whatever else fails: [etcd_one_authority]. The code only logs the error of
    a failed deletion, and [two_authorities] shows what comes of it. *)

From Stdlib Require Import Ascii.
From stdpp Require Import relations.
From S2P Require Import Prelude K8s Types Constants GoStrings GoNet.
From S2P Require Import ControllerUtils KubeApi Session EtcdUtil EtcdPod Certs.

Open Scope string_scope.
Open Scope list_scope.
Open Scope go_scope.

(** ** What a certificate covers *)

(** A name of a certificate and a host: a leading label [*] stands for one
    label. *)
Definition name_covers (pattern host : string) : Prop :=
  pattern = host ∨
  ∃ label rest, pattern = "*." +:+ rest ∧ host = label +:+ "." +:+ rest ∧
                avoids "."%char label = true ∧ label ≠ "".

Definition covers (names : list string) (host : string) : Prop :=
  Exists (λ p, name_covers p host) names.

(** One of etcd's secrets: its name, the name its authority's certificate has
    in it, the certificate. *)
Record EtcdSecret := MkEtcdSecret {
  es_name : string;
  es_ca : string;
  es_cert : OnecloudCert
}.
Definition etcdKinds : list EtcdSecret :=
  let ca := cert_BaseName NewEtcdClusterCACert in
  [MkEtcdSecret EtcdServerSecret EtcdServerCACertName (NewEtcdServerCert ca EtcdServerName);
   MkEtcdSecret EtcdClientSecret EtcdClientCACertName (NewEtcdClientCert ca EtcdClientName);
   MkEtcdSecret EtcdPeerSecret EtcdPeerCACertName (NewEtcdPeerCert ca EtcdPeerName)].

Lemma etcdKinds_names : es_name <$> etcdKinds = etcdSecrets.
Proof. reflexivity. Qed.

(** A member's address is one the certificates of the servers and the peers cover. *)
Lemma server_names_cover oc m a :
  Member_Namespace m = oc_ns oc →
  clusterNameFromMemberName (Member_Name m) = Ok (getEtcdClusterPrefix oc) →
  avoids "."%char (Member_Name m) = true → Addr m = Ok a →
  covers (DNSNames (getServerAltNames oc)) a ∧ covers (DNSNames (getPeerAltNames oc)) a.
Proof.
  intros Hns Hc Hd. unfold Addr. rewrite Hc. intros [= <-].
  assert (name_covers ("*." +:+ oc_name oc +:+ "-etcd." +:+ oc_ns oc +:+ ".svc")
            (Member_Name m +:+ "." +:+ getEtcdClusterPrefix oc +:+ "." +:+ Member_Namespace m +:+ ".svc")).
  { right. exists (Member_Name m), (oc_name oc +:+ "-etcd." +:+ oc_ns oc +:+ ".svc").
    split; [done|]. split; [|split; [done|]].
    - unfold getEtcdClusterPrefix. rewrite Hns, !str_app_assoc. reflexivity.
    - intros He. rewrite He in Hc. discriminate Hc. }
  split; by constructor.
Qed.

(** ** Laws of the outside *)

(** What a signed certificate says, and by whom; none of the cryptography
    touches the secrets. [stored] is the secrets the server holds and the
    number of deletions of secrets that have failed. A request to create or to
    delete that fails may have taken effect; a deletion that is answered, or
    answered that the secret is not found, leaves none. *)
Class X509Laws (W : Type) `{!X509 W, !SecretStore W} := {
  stored : W → gmap (string * string) Secret * nat;
  cert_template : Certificate W → CertTemplate;
  cert_issuer : Certificate W → Certificate W;
  CreateCertificate_signed t ca key caKey w w' c :
    CreateCertificate t ca key caKey w = (w', Ok c) → cert_template c = t ∧ cert_issuer c = ca;
  rsa_GenerateKey_stored w : stored (rsa_GenerateKey w).1 = stored w;
  rand_Serial_stored w : stored (rand_Serial w).1 = stored w;
  time_Now_stored w : stored (time_Now w).1 = stored w;
  NewSelfSignedCACert_stored c k w : stored (NewSelfSignedCACert c k w).1 = stored w;
  CreateCertificate_stored t ca key caKey w :
    stored (CreateCertificate t ca key caKey w).1 = stored w;
  secretLister_Get_stored ns n w : stored (secretLister_Get ns n w).1 = stored w;
  secret_Create_stored ns s w :
    let w' := (secret_Create ns s w).1 in
    let made := stored w' = (<[(ns, ObjectMeta_Name (Secret_ObjectMeta s)) := s]> (stored w).1,
                             (stored w).2) in
    match (secret_Create ns s w).2 with Ok _ => made | _ => made ∨ stored w' = stored w end;
  secret_Delete_stored ns n w :
    let w' := (secret_Delete ns n w).1 in
    let gone := (stored w').1 = delete (ns, n) (stored w).1 in
    let failed := (stored w').2 = S (stored w).2 ∧ (gone ∨ (stored w').1 = (stored w).1) in
    match (secret_Delete ns n w).2 with
    | Ok _ => gone ∧ (stored w').2 = (stored w).2
    | Err e => if IsNotFound e then gone ∧ (stored w').2 = (stored w).2 else failed
    | Panic _ => failed
    end
}.

Section authority.
Context {W : Type} `{!X509 W, !SecretStore W, !X509Laws W}.

Definition secrets (w : W) : gmap (string * string) Secret := (stored w).1.
Definition failed_deletions (w : W) : nat := (stored w).2.

(** ** One secret *)

(** The secret [k] of the cluster, with a certificate of [ca] in it: the
    certificates and the key under the names etcd is started with. *)
Definition issued (oc : OnecloudCluster) (ca : Certificate W) (k : EtcdSecret) (s : Secret) : Prop :=
  ∃ c key pem,
    let cert := es_cert k in
    Secret_Data s = <[nameForCert (cert_BaseName cert) := pem_EncodeCert c]>
                      (<[nameForKey (cert_BaseName cert) := pem]>
                         {[nameForCert (es_ca k) := pem_EncodeCert ca]}) ∧
    MarshalPrivateKeyToPEM key = Ok pem ∧ cert_issuer c = ca ∧
    tmpl_CommonName (cert_template c) = cert_BaseName cert ∧
    tmpl_ExtKeyUsage (cert_template c) = Usages (cert_config cert) ∧
    DNSNames (tmpl_AltNames (cert_template c)) = DNSNames (cfg_AltNames (cert_GetConfig cert oc)).

Definition keeps {A} (c : M W A) : Prop := ∀ w, stored (c w).1 = stored w.

Lemma secrets_bind {A B} (c : M W A) (k : A → M W B) :
  keeps c → (∀ a, keeps (k a)) → keeps (bind c k).
Proof.
  intros Hc Hk w. unfold bind. pose proof (Hc w) as H. destruct (c w) as [w' [a|e|p]]; [|done..].
  by rewrite (Hk a w').
Qed.

Lemma secrets_wrap {A} msg (c : M W A) : keeps c → keeps (wrap msg c).
Proof. intros Hc w. pose proof (Hc w) as H. unfold wrap. by destruct (c w) as [w' [a|e|p]]. Qed.

Lemma NewCACertAndKey_keeps c : keeps (NewCACertAndKey c).
Proof.
  apply secrets_wrap, secrets_bind; [apply secrets_wrap; intros w; apply rsa_GenerateKey_stored|].
  intros key. apply secrets_bind; [|by intros ? ?]. apply secrets_wrap. intros w.
  apply NewSelfSignedCACert_stored.
Qed.

(** The certificate is what was asked for. *)
Lemma CreateFromCA_issued k oc ca caKey w :
  wp (CreateFromCA k oc ca caKey)
    (λ w' r, stored w' = stored w ∧ match r with
       | Ok (c, _) => cert_issuer c = ca ∧
           tmpl_CommonName (cert_template c) = CommonName (cert_GetConfig k oc) ∧
           tmpl_ExtKeyUsage (cert_template c) = Usages (cert_GetConfig k oc) ∧
           tmpl_AltNames (cert_template c) = cfg_AltNames (cert_GetConfig k oc)
       | _ => True
       end) w.
Proof.
  unfold CreateFromCA, NewCertAndKey. set (cfg := cert_GetConfig k oc). apply wp_bind, wp_wrap.
  unfold wp at 1, NewPrivateKey. pose proof (rsa_GenerateKey_stored w) as H1.
  destruct (rsa_GenerateKey w) as [w1 [key|e|p]]; simpl in *; [|done..].
  apply wp_bind, wp_wrap. unfold NewSignedCert. apply wp_bind. unfold wp at 1.
  pose proof (rand_Serial_stored w1) as H2.
  destruct (rand_Serial w1) as [w2 [serial|e|p]]; cbn [andThen fst snd] in *; [|by split; [congruence|]..].
  destruct (str_empty (CommonName cfg)); [apply wp_throw; by split; [congruence|]|].
  destruct (Usages cfg) as [|u us]; [apply wp_throw; by split; [congruence|]|].
  apply wp_bind. unfold wp at 1. pose proof (time_Now_stored w2) as H3.
  destruct (time_Now w2) as [w3 [now|e|p]]; cbn [andThen fst snd] in *; [|by split; [congruence|]..].
  unfold wp. set (t := MkCertTemplate _ _ _ _ _ _ _).
  pose proof (CreateCertificate_stored t ca key caKey w3) as H4.
  destruct (CreateCertificate t ca key caKey w3) as [w4 [c|e|p]] eqn:Hc; cbn [andThen fst snd] in *;
    [|by split; [congruence|]..].
  apply wp_ret. apply CreateCertificate_signed in Hc as [-> ->]. by split; [congruence|].
Qed.

Lemma createSigned_issued oc ca caKey k w :
  k ∈ etcdKinds →
  wp (createSigned oc ca caKey (es_name k) (es_ca k) (es_cert k))
    (λ w' r, let made := ∃ s, issued oc ca k s ∧ stored w' = (<[(oc_ns oc, es_name k) := s]> (secrets w), failed_deletions w) in
       match r with Ok _ => made | _ => made ∨ stored w' = stored w end) w.
Proof.
  intros Hk0. assert (CommonName (cert_GetConfig (es_cert k) oc) = cert_BaseName (es_cert k) ∧
                     Usages (cert_GetConfig (es_cert k) oc) = Usages (cert_config (es_cert k))) as [Hcn Hus].
  { unfold etcdKinds in Hk0. rewrite !elem_of_cons, elem_of_nil in Hk0. by destruct Hk0 as [->|[->|[->|[]]]]. }
  unfold createSigned. apply wp_bind. eapply wp_conseq; [apply CreateFromCA_issued|].
  intros w1 [[c key]|e|p] [H1 H2]; [|by right..]. destruct H2 as (Hi & Hc & Hu & Ha).
  cbn [andThen]. apply wp_bind, wp_lift. unfold WriteCertAndKey, WriteKey.
  destruct (MarshalPrivateKeyToPEM key) as [pem|e|p] eqn:Hk; cbn [andThen]; [|by right..].
  unfold wp. set (s := newEtcdSecretFromStore _ _ _).
  pose proof (secret_Create_stored (oc_ns oc) s w1) as H. cbn zeta in H. rewrite H1 in H.
  assert (issued oc ca k s) as Hs.
  { exists c, key, pem. cbn zeta. rewrite Hc, Hu, Ha, Hcn, Hus. done. }
  destruct (secret_Create (oc_ns oc) s w1) as [w2 [[]|e|p]]; cbn [fst snd] in *.
  - exists s. by split.
  - destruct H as [H|H]; [left; exists s; by split|by right].
  - destruct H as [H|H]; [left; exists s; by split|by right].
Qed.

Lemma createSigned_made oc ca caKey k w :
  k ∈ etcdKinds →
  wp (createSigned oc ca caKey (es_name k) (es_ca k) (es_cert k))
    (λ w' r, failed_deletions w' = failed_deletions w ∧
       let made := ∃ s, issued oc ca k s ∧ secrets w' = <[(oc_ns oc, es_name k) := s]> (secrets w) in
       match r with Ok _ => made | _ => made ∨ secrets w' = secrets w end) w.
Proof.
  intros Hk. eapply wp_conseq; [by apply createSigned_issued|]. unfold secrets, failed_deletions.
  intros w' [[]|e|p] H.
  - destruct H as (s & Hi & ->). eauto.
  - destruct H as [(s & Hi & ->)| ->]; eauto.
  - destruct H as [(s & Hi & ->)| ->]; eauto.
Qed.

(** ** The three of them *)

(** When the three secrets are there, they are of one authority. *)
Definition complete (oc : OnecloudCluster) (w : W) : Prop :=
  ∀ k, k ∈ etcdKinds → is_Some (secrets w !! (oc_ns oc, es_name k)).
Definition one_authority (oc : OnecloudCluster) (w : W) : Prop :=
  ∃ ca, ∀ k, k ∈ etcdKinds →
    ∃ s, secrets w !! (oc_ns oc, es_name k) = Some s ∧ issued oc ca k s.
Definition coherent (oc : OnecloudCluster) (w : W) : Prop := complete oc w → one_authority oc w.

(** What the secrets say depends on the cluster's name and name space only. *)
Lemma issued_named oc oc' ca k s :
  oc_name oc' = oc_name oc → oc_ns oc' = oc_ns oc → k ∈ etcdKinds →
  issued oc ca k s → issued oc' ca k s.
Proof.
  intros Hn Hns Hk (c & key & pem & Hd & Hm & Hi & Hc & Hu & Ha). exists c, key, pem.
  cbn zeta in *. do 5 (split; [done|]). rewrite Ha. unfold etcdKinds in Hk.
  rewrite !elem_of_cons, elem_of_nil in Hk.
  destruct Hk as [->|[->|[->|[]]]]; cbn; by rewrite ?Hn, ?Hns.
Qed.

Lemma coherent_named oc oc' w :
  oc_name oc' = oc_name oc → oc_ns oc' = oc_ns oc → coherent oc w → coherent oc' w.
Proof.
  unfold coherent, complete, one_authority. intros Hn Hns Hc. rewrite Hns. intros Hp.
  destruct (Hc Hp) as [ca Hca]. exists ca. intros k Hk. destruct (Hca k Hk) as (s & Hs & Hi).
  exists s. split; [done|]. by apply (issued_named oc).
Qed.

Lemma keeps_coherent oc w w' : secrets w' = secrets w → coherent oc w → coherent oc w'.
Proof. unfold coherent, complete, one_authority. by intros ->. Qed.

(** One of them missing, there is nothing to be of one authority. *)
Lemma missing_coherent oc w k :
  k ∈ etcdKinds → secrets w !! (oc_ns oc, es_name k) = None → coherent oc w.
Proof. intros Hk Hn Hc. destruct (Hc k Hk) as [s Hs]. by rewrite Hn in Hs. Qed.

(** ** Making them anew *)

Lemma delete_absent ns n w k :
  secrets w !! k = None → secrets (secret_Delete ns n w).1 !! k = None.
Proof.
  pose proof (secret_Delete_stored ns n w) as H. cbn zeta in H. fold (secrets w) in H.
  intros Hk. assert (delete (ns, n) (secrets w) !! k = None) as Hd
    by (apply lookup_delete_None; by right).
  unfold secrets at 1. destruct (secret_Delete ns n w) as [w1 [[]|e|p]]; cbn [fst snd] in *;
    [|destruct (IsNotFound e)|]; destruct H as [H H'];
    try (rewrite H; done); destruct H' as [-> | ->]; done.
Qed.

(** A deletion that does not count as failed leaves no secret. *)
Lemma delete_counts ns n w :
  (failed_deletions w ≤ failed_deletions (secret_Delete ns n w).1)%nat ∧
  (failed_deletions (secret_Delete ns n w).1 = failed_deletions w →
   secrets (secret_Delete ns n w).1 !! (ns, n) = None).
Proof.
  pose proof (secret_Delete_stored ns n w) as H. cbn zeta in H.
  unfold secrets, failed_deletions. destruct (secret_Delete ns n w) as [w1 [[]|e|p]];
    cbn [fst snd] in *; [|destruct (IsNotFound e)|]; destruct H as [H H'];
    (split; [lia|intros He]); try lia; rewrite H; apply lookup_delete_eq.
Qed.

(** All the old secrets are gone, unless a deletion failed. *)
Lemma delete_all_absent ns names w :
  wp (for_each names (λ name, let! _ := attempt (secret_Delete ns name) in ret tt))
    (λ w' r, (∀ k, secrets w !! k = None → secrets w' !! k = None) ∧
       (failed_deletions w ≤ failed_deletions w')%nat ∧
       (failed_deletions w' = failed_deletions w →
        match r with
        | Ok _ => ∀ name, name ∈ names → secrets w' !! (ns, name) = None
        | Err _ => False
        | Panic _ => ∃ name, name ∈ names ∧ secrets w' !! (ns, name) = None
        end)) w.
Proof.
  revert w. induction names as [|name names IH]; intros w.
  { apply wp_ret. split; [done|]. split; [done|]. by intros _ ? ?%elem_of_nil. }
  cbn [for_each]. apply wp_bind, wp_bind, wp_attempt. unfold wp at 1.
  pose proof (delete_absent ns name w) as Hk. destruct (delete_counts ns name w) as [Hle Hhere].
  destruct (secret_Delete ns name w) as [w1 r1]. cbn [fst snd] in *.
  assert (wp (for_each names (λ name, let! _ := attempt (secret_Delete ns name) in ret tt))
            (λ w' r, (∀ k, secrets w !! k = None → secrets w' !! k = None) ∧
               (failed_deletions w ≤ failed_deletions w')%nat ∧
               (failed_deletions w' = failed_deletions w →
                match r with
                | Ok _ => ∀ n, n ∈ name :: names → secrets w' !! (ns, n) = None
                | Err _ => False
                | Panic _ => ∃ n, n ∈ name :: names ∧ secrets w' !! (ns, n) = None
                end)) w1) as Hrest.
  { eapply wp_conseq; [apply IH|]. intros w2 r (H1 & H2 & H3). split; [auto|]. split; [lia|].
    intros He. specialize (H3 ltac:(lia)). specialize (Hhere ltac:(lia)).
    destruct r as [[]|e|p]; [|done|].
    - intros n [->|Hn]%elem_of_cons; [by apply H1|by apply H3].
    - destruct H3 as (n & Hn & Ha). exists n. split; [by right|done]. }
  destruct r1 as [[]|e|p]; [apply wp_ret, Hrest|apply wp_ret, Hrest|].
  split; [done|]. split; [done|]. intros He. exists name. split; [by left|auto].
Qed.

(** The three requests; where they stop, a secret is missing. *)
Lemma three_made oc ca caKey w :
  (∀ k, k ∈ etcdKinds → secrets w !! (oc_ns oc, es_name k) = None) →
  wp (for_each etcdKinds (λ k, createSigned oc ca caKey (es_name k) (es_ca k) (es_cert k)))
    (λ w' r, coherent oc w' ∧ match r with Ok _ => one_authority oc w' | _ => True end) w.
Proof.
  intros Habs. set (K1 := nth 0 etcdKinds (MkEtcdSecret "" "" NewEtcdClusterCACert)).
  set (K2 := nth 1 etcdKinds (MkEtcdSecret "" "" NewEtcdClusterCACert)).
  set (K3 := nth 2 etcdKinds (MkEtcdSecret "" "" NewEtcdClusterCACert)).
  change etcdKinds with [K1; K2; K3]. cbn [for_each].
  assert (K1 ∈ etcdKinds) as Hk1 by by left.
  assert (K2 ∈ etcdKinds) as Hk2 by (right; by left).
  assert (K3 ∈ etcdKinds) as Hk3 by (right; right; by left).
  assert (∀ m s, m !! (oc_ns oc, es_name K2) = (None : option Secret) →
            <[(oc_ns oc, es_name K1) := s]> m !! (oc_ns oc, es_name K2) = None) as H12
    by (intros; by rewrite lookup_insert_ne by done).
  assert (∀ m s n, n ≠ es_name K3 → m !! (oc_ns oc, es_name K3) = (None : option Secret) →
            <[(oc_ns oc, n) := s]> m !! (oc_ns oc, es_name K3) = None) as H3
    by (intros; rewrite lookup_insert_ne by congruence; done).
  apply wp_bind. eapply wp_conseq; [by apply createSigned_made|].
  intros w1 r1 [_ Hr1]. assert (secrets w1 !! (oc_ns oc, es_name K3) = None) as Ha1.
  { destruct r1; [|destruct Hr1 as [Hr1|Hr1]..]; try (rewrite Hr1; by apply Habs);
      destruct Hr1 as (s & _ & ->); by apply H3; [|apply Habs]. }
  destruct r1 as [[]|e|p]; cbn [andThen]; [|by split; [apply (missing_coherent _ _ K3)|]..].
  destruct Hr1 as (s1 & Hi1 & Hw1).
  apply wp_bind. eapply wp_conseq; [by apply createSigned_made|].
  intros w2 r2 [_ Hr2]. assert (secrets w2 !! (oc_ns oc, es_name K3) = None) as Ha2.
  { destruct r2; [|destruct Hr2 as [Hr2|Hr2]..]; try (rewrite Hr2; done);
      destruct Hr2 as (s & _ & ->); by apply H3. }
  destruct r2 as [[]|e|p]; cbn [andThen]; [|by split; [apply (missing_coherent _ _ K3)|]..].
  destruct Hr2 as (s2 & Hi2 & Hw2).
  apply wp_bind. eapply wp_conseq; [by apply createSigned_made|]. intros w3 r3 [_ Hr3].
  assert (∀ s3, issued oc ca K3 s3 → secrets w3 = <[(oc_ns oc, es_name K3) := s3]> (secrets w2) →
            one_authority oc w3) as Hall.
  { intros s3 Hi3 Hw3. exists ca. rewrite Hw3, Hw2, Hw1. intros k Hk. unfold etcdKinds in Hk.
    rewrite !elem_of_cons, elem_of_nil in Hk. destruct Hk as [->|[->|[->|[]]]];
      [exists s1|exists s2|exists s3]; (split; [|done]);
      rewrite ?lookup_insert_ne by done; apply lookup_insert_eq. }
  destruct r3 as [[]|e|p]; cbn [andThen].
  - destruct Hr3 as (s3 & Hi3 & Hw3). apply wp_ret. split; [intros _|]; by eapply Hall.
  - split; [|done]. destruct Hr3 as [(s3 & Hi3 & Hw3)|Hw3]; [intros _; by eapply Hall|].
    apply (missing_coherent _ _ K3); [done|]. by rewrite Hw3.
  - split; [|done]. destruct Hr3 as [(s3 & Hi3 & Hw3)|Hw3]; [intros _; by eapply Hall|].
    apply (missing_coherent _ _ K3); [done|]. by rewrite Hw3.
Qed.

Lemma three_failed oc ca caKey w :
  wp (for_each etcdKinds (λ k, createSigned oc ca caKey (es_name k) (es_ca k) (es_cert k)))
    (λ w' _, failed_deletions w' = failed_deletions w) w.
Proof.
  apply (wp_for_each _ _ (λ w', failed_deletions w' = failed_deletions w)); [done| |done].
  intros k w1 Hk H1. eapply wp_conseq; [by apply createSigned_made|].
  intros w2 [[]|e|p] [H2 _]; congruence.
Qed.

Lemma three_requests oc ca caKey w :
  let caName := cert_BaseName NewEtcdClusterCACert in
  (createSigned oc ca caKey EtcdServerSecret EtcdServerCACertName (NewEtcdServerCert caName EtcdServerName) ;;!
   createSigned oc ca caKey EtcdClientSecret EtcdClientCACertName (NewEtcdClientCert caName EtcdClientName) ;;!
   createSigned oc ca caKey EtcdPeerSecret EtcdPeerCACertName (NewEtcdPeerCert caName EtcdPeerName)) w
  = for_each etcdKinds (λ k, createSigned oc ca caKey (es_name k) (es_ca k) (es_cert k)) w.
Proof.
  cbn zeta. cbn [for_each etcdKinds es_name es_ca es_cert]. apply bind_ext; [done|]. intros [] w1.
  apply bind_ext; [done|]. intros [] w2. unfold bind, ret.
  destruct (createSigned _ _ _ EtcdPeerSecret _ _ w2) as [w3 [[]|e|p]]; done.
Qed.

Lemma stored_same w w' :
  stored w' = stored w → secrets w' = secrets w ∧ failed_deletions w' = failed_deletions w.
Proof. unfold secrets, failed_deletions. by intros ->. Qed.

(** Once the old ones are gone, what is made is coherent. *)
Lemma anew_coherent oc w :
  wp (let! '(ca, caKey) := NewCACertAndKey (cert_GetConfig NewEtcdClusterCACert oc) in
      for_each etcdKinds (λ k, createSigned oc ca caKey (es_name k) (es_ca k) (es_cert k)))
    (λ w' r, failed_deletions w' = failed_deletions w ∧
       ((∀ k, k ∈ etcdKinds → secrets w !! (oc_ns oc, es_name k) = None) →
        coherent oc w')) w.
Proof.
  apply wp_bind. unfold wp at 1.
  pose proof (NewCACertAndKey_keeps (cert_GetConfig NewEtcdClusterCACert oc) w) as H.
  destruct (NewCACertAndKey _ w) as [w1 r]. apply stored_same in H as [H Hf]. cbn [fst snd] in *.
  assert ((∀ k, k ∈ etcdKinds → secrets w !! (oc_ns oc, es_name k) = None) → coherent oc w1) as Hc.
  { intros Habs. eapply missing_coherent; [by left|]. rewrite H. apply Habs. by left. }
  destruct r as [[ca caKey]|e|p]; cbn [andThen]; [|by auto..]. rewrite <-Hf, <-H. split.
  - apply three_failed.
  - intros Habs. by apply (three_made oc ca caKey w1 Habs).
Qed.

(** Unless a deletion failed, the secrets are coherent afterwards. *)
Lemma CreateEtcdCert_coherent oc w :
  wp (CreateEtcdCert oc)
    (λ w' r, (failed_deletions w ≤ failed_deletions w')%nat ∧
       (failed_deletions w' = failed_deletions w → coherent oc w')) w.
Proof.
  unfold CreateEtcdCert. apply wp_bind. eapply wp_conseq; [apply delete_all_absent|].
  intros w1 [[]|e|p] (_ & Hle & H1); cbn [andThen].
  - eapply (wp_conseq _ (λ w' _, failed_deletions w' = failed_deletions w1 ∧
      ((∀ k, k ∈ etcdKinds → secrets w1 !! (oc_ns oc, es_name k) = None) → coherent oc w'))).
    + pose proof (anew_coherent oc w1) as H. unfold wp in *.
      erewrite bind_ext in H; [exact H|done|]. intros [ca caKey] w2. symmetry. apply three_requests.
    + clear -Hle H1. intros w2 r [Hf H2]. split; [lia|]. intros He. apply H2. intros k Hk.
      apply H1; [lia|]. rewrite <-etcdKinds_names. by apply list_elem_of_fmap_2.
  - split; [done|]. intros He. destruct (H1 He).
  - split; [done|]. intros He. destruct (H1 He) as (name & Hn & Ha).
    rewrite <-etcdKinds_names in Hn. apply list_elem_of_fmap in Hn as (k & -> & Hk).
    by eapply missing_coherent.
Qed.

(** ** The manager of the certificates *)

Lemma wp_kube {A} (c : M W A) (Q : OnecloudCluster * W → Res A → Prop) oc w :
  wp c (λ w' r, Q (oc, w') r) w → wp (kube c) Q (oc, w).
Proof. unfold wp, kube. by destruct (c w) as [w' r]. Qed.

(** The cluster keeps its name; as long as no more than [n] deletions have
    failed, the secrets are coherent. *)
Definition trusted (n : nat) (oc : OnecloudCluster) (w : W) : Prop :=
  (n ≤ failed_deletions w)%nat ∧ (failed_deletions w = n → coherent oc w).
Definition still (n : nat) (oc : OnecloudCluster) (s : OnecloudCluster * W) : Prop :=
  oc_name s.1 = oc_name oc ∧ oc_ns s.1 = oc_ns oc ∧ trusted n s.1 s.2.

Lemma trusted_named n oc oc' w :
  oc_name oc' = oc_name oc → oc_ns oc' = oc_ns oc → trusted n oc w → trusted n oc' w.
Proof. intros Hn Hns [Hle Hc]. split; [done|]. intros He. by apply (coherent_named oc), Hc. Qed.

Lemma keeps_trusted n oc w w' : stored w' = stored w → trusted n oc w → trusted n oc w'.
Proof.
  intros [Hs Hf]%stored_same [Hle Hc]. split; [lia|]. intros He. apply (keeps_coherent _ w); [done|].
  apply Hc. lia.
Qed.

Lemma ensure_still n oc names s :
  still n oc s → wp (ensureEtcdSecrets names) (λ s' _, still n oc s') s.
Proof.
  revert s. induction names as [|name names IH]; intros [oc1 w] Hs; [by apply wp_ret|].
  cbn [ensureEtcdSecrets]. apply wp_bind. unfold wp at 1, getoc. cbn [andThen fst snd].
  apply wp_bind, wp_kube, wp_attempt. unfold wp at 1.
  pose proof (secretLister_Get_stored (oc_ns oc1) name w) as H1.
  destruct Hs as (Hn & Hns & Hc). cbn [fst snd] in *.
  assert (∀ w', stored w' = stored w → still n oc (oc1, w')) as Hk.
  { intros w' He. split; [done|]. split; [done|]. by apply (keeps_trusted _ _ w). }
  destruct (secretLister_Get (oc_ns oc1) name w) as [w1 [x|e|p]]; cbn [andThen fst snd] in *;
    [by apply IH, Hk| |by apply Hk].
  destruct (IsNotFound e); [|by apply wp_throw, Hk].
  apply wp_bind. unfold wp at 1, modoc. cbn [andThen fst snd].
  apply wp_bind. unfold wp at 1, getoc. cbn [andThen fst snd].
  set (oc2 := setCreatedSecrets false oc1).
  apply (keeps_trusted _ _ w w1 H1) in Hc. destruct Hc as [Hle Hc].
  assert (∀ w', (failed_deletions w1 ≤ failed_deletions w')%nat ∧
                (failed_deletions w' = failed_deletions w1 → coherent oc2 w') →
                still n oc (oc2, w')) as Hk2.
  { intros w' [Hle' Hc']. split; [done|]. split; [done|]. split; cbn [fst snd]; [lia|].
    intros He. apply Hc'. lia. }
  apply wp_wrap, wp_kube. eapply wp_conseq; [apply CreateEtcdCert_coherent|].
  intros w2 [[]|e2|p] H2; by apply Hk2.
Qed.

Lemma CreateCert_elsewhere oc w :
  wp (CreateCert oc)
    (λ w' _, failed_deletions w' = failed_deletions w ∧
       ∀ name, name ≠ ClustercertSecretName oc →
         secrets w' !! (oc_ns oc, name) = secrets w !! (oc_ns oc, name)) w.
Proof.
  unfold CreateCert. apply wp_bind.
  assert (wp (CreateCertPair oc) (λ w' _, stored w' = stored w) w) as H.
  { unfold CreateCertPair. cbn zeta. apply wp_bind. unfold wp at 1.
    pose proof (NewCACertAndKey_keeps (cert_GetConfig NewClusterCACert oc) w) as H1.
    destruct (NewCACertAndKey _ w) as [w1 [[ca key]|e|p]]; cbn [andThen fst snd] in *; [|done..].
    apply wp_bind, wp_lift. destruct (WriteCertAndKey ∅ _ ca key) as [st|e|p]; cbn [andThen]; [|done..].
    apply wp_bind. eapply wp_conseq; [apply CreateFromCA_issued|].
    intros w2 [[c ckey]|e|p] [H2 _]; cbn [andThen]; [|congruence..].
    apply wp_bind, wp_lift. destruct (WriteCertAndKey st _ c ckey) as [st2|e|p]; cbn [andThen];
      [|congruence..]. apply wp_lift. congruence. }
  eapply wp_conseq; [exact H|]. unfold secrets, failed_deletions.
  intros w1 [store|e|p] H1; cbn [andThen]; [|by rewrite H1..].
  unfold wp. pose proof (secret_Create_stored (oc_ns oc) (newSecretFromStore oc store) w1) as H2.
  cbn zeta in H2.
  assert (∀ m s name, name ≠ ClustercertSecretName oc →
            <[(oc_ns oc, ClustercertSecretName oc) := s]> m !! (oc_ns oc, name)
            = (m !! (oc_ns oc, name) : option Secret)) as Hi
    by (intros; apply lookup_insert_ne; congruence).
  rewrite <-H1. destruct (secret_Create _ _ w1) as [w2 [[]|e|p]]; cbn [fst snd] in *;
    [rewrite H2|destruct H2 as [->| ->]..]; (split; [done|]); intros name Hne; first [done|by apply Hi].
Qed.

Lemma cluster_secret_elsewhere oc k : k ∈ etcdKinds → es_name k ≠ ClustercertSecretName oc.
Proof.
  intros Hk He. assert (before_last "-" (ClustercertSecretName oc) = Some (oc_name oc)) as Hb
    by (unfold ClustercertSecretName; apply (before_last_app "-" (oc_name oc) "certs"); reflexivity).
  rewrite <-He in Hb. unfold etcdKinds in Hk. rewrite !elem_of_cons, elem_of_nil in Hk.
  unfold ClustercertSecretName in He.
  destruct Hk as [->|[->|[->|[]]]]; cbn in Hb; injection Hb as Hb; rewrite <-Hb in He; discriminate He.
Qed.

Lemma elsewhere_coherent oc w w' :
  (∀ k, k ∈ etcdKinds → secrets w' !! (oc_ns oc, es_name k) = secrets w !! (oc_ns oc, es_name k) ∨
                        secrets w' !! (oc_ns oc, es_name k) = None) →
  coherent oc w → coherent oc w'.
Proof.
  intros He Hc Hp.
  assert (∀ k, k ∈ etcdKinds → secrets w' !! (oc_ns oc, es_name k) = secrets w !! (oc_ns oc, es_name k)) as Hs.
  { intros k Hk. destruct (He k Hk) as [?|Hn]; [done|]. destruct (Hp k Hk) as [x Hx]. by rewrite Hn in Hx. }
  destruct Hc as [ca Hca]; [intros k Hk; rewrite <-(Hs k Hk); by apply Hp|].
  exists ca. intros k Hk. rewrite (Hs k Hk). by apply Hca.
Qed.

Lemma certs_still n oc w :
  trusted n oc w → wp certs_CreateOrUpdate (λ s' _, still n oc s') (oc, w).
Proof.
  intros Hc. unfold certs_CreateOrUpdate. apply wp_bind. unfold wp at 1, getoc. cbn [andThen fst snd].
  apply wp_bind, wp_kube, wp_attempt. unfold wp at 1.
  pose proof (secretLister_Get_stored (oc_ns oc) (ClustercertSecretName oc) w) as H1.
  assert (∀ w', stored w' = stored w → still n oc (oc, w')) as Hk.
  { intros w' He. split; [done|]. split; [done|]. by apply (keeps_trusted _ _ w). }
  destruct (secretLister_Get _ _ w) as [w1 [x|e|p]]; cbn [andThen fst snd] in *; [| |by apply Hk].
  - destruct (_ || _); [by apply wp_ret, Hk|]. by apply ensure_still, Hk.
  - destruct (IsNotFound e); [|by apply wp_throw, Hk]. apply wp_wrap, wp_kube.
    apply stored_same in H1 as [H1 Hf].
    eapply wp_conseq; [apply CreateCert_elsewhere|]. intros w2 r [Hf2 H2].
    assert (still n oc (oc, w2)) as Hs.
    { split; [done|]. split; [done|]. destruct Hc as [Hle Hc]. split; cbn [fst snd]; [lia|].
      intros He. apply (elsewhere_coherent _ w); [|apply Hc; lia].
      intros k Hk0. left. rewrite H2, H1 by by apply cluster_secret_elsewhere. done. }
    by destruct r.
Qed.

(** What happens to a cluster's secrets: reconciliations, of any spec, which
    may fail or be cut short by a panic; and whoever deletes secrets or changes
    other ones. [failed_deletions] counts the operator's. *)
Inductive certStep (name ns : string) : W → W → Prop :=
  | step_reconcile oc s' w r :
      oc_name oc = name → oc_ns oc = ns → certs_CreateOrUpdate (oc, w) = (s', r) →
      certStep name ns w s'.2
  | step_elsewhere w w' :
      (∀ n, n ∈ etcdSecrets → secrets w' !! (ns, n) = secrets w !! (ns, n) ∨
                              secrets w' !! (ns, n) = None) →
      failed_deletions w' = failed_deletions w →
      certStep name ns w w'.

Lemma steps_trusted n oc w w' :
  rtc (certStep (oc_name oc) (oc_ns oc)) w w' → trusted n oc w → trusted n oc w'.
Proof.
  induction 1 as [w|w w1 w' Hs Hr IH]; [done|].
  intros Hc. apply IH. destruct Hs as [oc1 s' w r Hn Hns He|w w1 He Hf].
  - pose proof (certs_still n oc1 w (trusted_named n oc oc1 w Hn Hns Hc)) as H. unfold wp in H.
    rewrite He in H. destruct H as (Hn' & Hns' & Hc').
    apply (trusted_named n s'.1); [cbn in *; congruence..|exact Hc'].
  - destruct Hc as [Hle Hc]. split; [lia|]. intros Hn. apply (elsewhere_coherent oc w); [|apply Hc; lia].
    intros k Hk. apply He. rewrite <-etcdKinds_names. by apply list_elem_of_fmap_2.
Qed.

(** C3. The certificates of etcd's servers, clients and peers trust each other:
    starting from a name space without all three secrets, after any number of
    reconciliations, in which creations may fail with or without having taken
    effect, the lister may answer anything and others may delete secrets in
    between, whenever all three secrets are there, their certificates are
    signed by one and the same authority, which each secret has; provided none
    of the operator's own deletions of a secret has failed (been answered by
    an error other than not-found). The proviso is needed: the code only logs
    such a failure, and [two_authorities] is a run in which one leaves secrets
    of two authorities for good. The certificates of servers and peers cover
    the addresses of the members the operator names. *)
Theorem etcd_one_authority oc w w' :
  ¬ complete oc w → rtc (certStep (oc_name oc) (oc_ns oc)) w w' → complete oc w' →
  (failed_deletions w' = failed_deletions w → one_authority oc w') ∧
  ∀ m a, Member_Namespace m = oc_ns oc →
    clusterNameFromMemberName (Member_Name m) = Ok (getEtcdClusterPrefix oc) →
    avoids "."%char (Member_Name m) = true → Addr m = Ok a →
    ∀ k, k ∈ etcdKinds → es_name k ≠ EtcdClientSecret →
      covers (DNSNames (cfg_AltNames (cert_GetConfig (es_cert k) oc))) a.
Proof.
  intros Hnc Hr Hp. split.
  - intros Hf. assert (trusted (failed_deletions w) oc w) as Hc by by split; [|intros _ ?].
    by apply (steps_trusted _ oc w w' Hr Hc).
  - intros m a Hm Hcn Hd Ha k Hk Hne. destruct (server_names_cover oc m a Hm Hcn Hd Ha) as [Hs Hpe].
    unfold etcdKinds in Hk. rewrite !elem_of_cons, elem_of_nil in Hk.
    destruct Hk as [->|[->|[->|[]]]]; [exact Hs|by destruct Hne|exact Hpe].
Qed.
End authority.

(** ** A vault in memory *)

(** Certificates say who signed them; an authority is known by its number. *)
Inductive SimCert :=
  | Root (n : nat)
  | Leaf (t : CertTemplate) (ca : SimCert).

(** [v_fails]: which creations to come fail; [v_failed]: how many deletions
    have. *)
Record Vault := MkVault {
  v_secrets : gmap (string * string) Secret;
  v_keys : nat;
  v_fails : list bool;
  v_failed : nat
}.

Definition sim_pem (c : SimCert) : string :=
  match c with Root n => "authority " +:+ pretty n | Leaf t _ => "certificate of " +:+ tmpl_CommonName t end.

#[export] Instance vault_x509 : X509 Vault := {|
  Certificate := SimCert; Signer := nat;
  rsa_GenerateKey w := (MkVault (v_secrets w) (S (v_keys w)) (v_fails w) (v_failed w), Ok (v_keys w));
  rand_Serial := ret 1%Z; time_Now := ret 0%Z;
  NewSelfSignedCACert _ key := ret (Root key);
  CreateCertificate t ca _ _ := ret (Leaf t ca);
  cert_NotBefore _ := 0%Z;
  MarshalPrivateKeyToPEM key := Ok ("key " +:+ pretty key);
  pem_EncodeCert := sim_pem; IsDNS1123Subdomain _ := true |}.

(** [works]: whether deletions do. *)
Definition vault_store (works : bool) : SecretStore Vault := {|
  secretLister_Get ns n w :=
    (w, match v_secrets w !! (ns, n) with Some s => Ok s | None => Err ErrNotFound end);
  secret_Create ns s w :=
    match v_fails w with
    | true :: l => (MkVault (v_secrets w) (v_keys w) l (v_failed w), Err (ErrMsg "the server is overloaded"))
    | fails =>
        match v_secrets w !! (ns, ObjectMeta_Name (Secret_ObjectMeta s)) with
        | Some _ => (w, Err ErrAlreadyExists)
        | None => (MkVault (<[(ns, ObjectMeta_Name (Secret_ObjectMeta s)) := s]> (v_secrets w))
                     (v_keys w) (tail fails) (v_failed w), Ok tt)
        end
    end;
  secret_Delete ns n w :=
    if works then (MkVault (delete (ns, n) (v_secrets w)) (v_keys w) (v_fails w) (v_failed w), Ok tt)
    else (MkVault (v_secrets w) (v_keys w) (v_fails w) (S (v_failed w)),
          Err (ErrMsg "the server is overloaded")) |}.

#[export] Instance vault_laws works : @X509Laws Vault vault_x509 (vault_store works).
Proof.
  refine (@Build_X509Laws Vault vault_x509 (vault_store works)
    (λ w, (v_secrets w, v_failed w))
    (λ c : SimCert, match c with Leaf t _ => t | Root _ => MkCertTemplate "" [] (MkAltNames [] []) 0 0 0 [] end)
    (λ c : SimCert, match c with Leaf _ ca => ca | Root _ => c end) _ _ _ _ _ _ _ _ _); try done.
  - intros t ca key caKey w w' c. by intros [= <- <-].
  - intros ns s w. cbn [secret_Create vault_store]. destruct (v_fails w) as [|[] l]; [|by right|];
      destruct (v_secrets w !! _); cbn; auto.
  - intros ns n w. destruct works; cbn; auto.
Defined.

Definition vault_oc : OnecloudCluster :=
  (zero : OnecloudCluster) <| OnecloudCluster_ObjectMeta ::= λ m,
    (m <| ObjectMeta_Name := "oc" |>) <| ObjectMeta_Namespace := "ns" |> |>.

(** The first reconciliation makes the services' certificate, the second fails
    at the second of etcd's secrets, the third makes them all. *)
Definition vault0 : Vault := MkVault ∅ 0 [false; false; true] 0.
Definition reconciled (works : bool) (w : Vault) : Vault :=
  (certs_CreateOrUpdate (SecretStore0 := vault_store works) (vault_oc, w)).1.2.
Definition vault3 : Vault := reconciled true (reconciled true (reconciled true vault0)).

Definition vault_complete (w : Vault) : Prop :=
  Forall (λ n, is_Some (v_secrets w !! ("ns", n))) etcdSecrets.

Lemma complete_vault works w :
  complete (SecretStore0 := vault_store works) vault_oc w ↔ vault_complete w.
Proof.
  unfold complete, vault_complete. rewrite Forall_forall, <-etcdKinds_names.
  split; [intros H n (k & -> & Hk)%list_elem_of_fmap; by apply H|].
  intros H k Hk. by apply H, list_elem_of_fmap_2.
Qed.

Lemma etcd_one_authority_witness :
  let H := vault_store true in
  ¬ complete vault_oc vault0 ∧
  rtc (certStep (oc_name vault_oc) (oc_ns vault_oc)) vault0 vault3 ∧
  complete vault_oc vault3 ∧ failed_deletions vault3 = failed_deletions vault0 ∧
  one_authority vault_oc vault3.
Proof.
  intros H.
  assert (¬ complete vault_oc vault0) as Hn.
  { intros [[s Hs] _]%(complete_vault true)%Forall_cons. discriminate Hs. }
  assert (rtc (certStep (oc_name vault_oc) (oc_ns vault_oc)) vault0 vault3) as Hr.
  { do 3 (eapply rtc_l; [by eapply step_reconcile; [..|apply surjective_pairing]|]). apply rtc_refl. }
  assert (complete vault_oc vault3) as Hp.
  { apply (complete_vault true). unfold vault_complete. repeat constructor; vm_compute; by eexists. }
  split; [exact Hn|]. split; [exact Hr|]. split; [exact Hp|].
  assert (failed_deletions vault3 = failed_deletions vault0) as Hf by (vm_compute; reflexivity).
  split; [exact Hf|]. exact (proj1 (etcd_one_authority vault_oc vault0 vault3 Hn Hr Hp) Hf).
Defined.

(** ** Deletions that fail

    Somebody deleted the secret of the servers. The reconciliation that finds
    it missing cannot delete the other two, which is only logged, and makes a
    new one with a new authority before it stops at the first secret that is
    still there. All three exist then, and no later reconciliation looks at
    them again: the clients and the servers do not trust each other. *)
Definition robbed : Vault :=
  MkVault (delete ("ns", EtcdServerSecret) (v_secrets vault3)) (v_keys vault3) [] 0.
Definition mixed : Vault := reconciled false robbed.

Definition vault_data (w : Vault) (n key : string) : option string :=
  s ← v_secrets w !! ("ns", n); Secret_Data s !! key.

Lemma issued_authority works oc ca k s :
  k ∈ etcdKinds → issued (SecretStore0 := vault_store works) oc ca k s →
  Secret_Data s !! nameForCert (es_ca k) = Some (sim_pem ca).
Proof.
  intros Hk (c & key & pem & Hd & _). rewrite Hd. unfold etcdKinds in Hk.
  rewrite !elem_of_cons, elem_of_nil in Hk.
  destruct Hk as [->|[->|[->|[]]]]; rewrite !lookup_insert_ne by done; apply lookup_singleton_eq.
Qed.

Lemma two_authorities :
  let store := vault_store false in
  complete vault_oc mixed ∧ ¬ one_authority vault_oc mixed ∧
  (certs_CreateOrUpdate (vault_oc, mixed)).1.2 = mixed ∧
  (certs_CreateOrUpdate (vault_oc, mixed)).2 = Ok tt.
Proof.
  intros store. split; [|split; [|split; vm_compute; reflexivity]].
  - apply (complete_vault false). unfold vault_complete. repeat constructor; vm_compute; by eexists.
  - intros [ca Hca].
    assert (∀ k, k ∈ etcdKinds → vault_data mixed (es_name k) (nameForCert (es_ca k)) = Some (sim_pem ca)) as H.
    { intros k Hk. destruct (Hca k Hk) as (s & Hs & Hi). unfold vault_data.
      change (v_secrets mixed !! ("ns", es_name k) = Some s) in Hs. rewrite Hs.
      by apply (issued_authority false vault_oc). }
    assert (vault_data mixed EtcdServerSecret (nameForCert EtcdServerCACertName) =
            vault_data mixed EtcdClientSecret (nameForCert EtcdClientCACertName)) as He.
    { etransitivity; [apply (H (nth 0 etcdKinds (MkEtcdSecret "" "" NewEtcdClusterCACert))); by left|].
      symmetry. apply (H (nth 1 etcdKinds (MkEtcdSecret "" "" NewEtcdClusterCACert))). right. by left. }
    vm_compute in He. discriminate He.
Qed.
