(* ===== verification/EtcdReconcile.v ===== *)
(** * EtcdReconcile: the etcd cluster manager

    [pkg/manager/component/etcd.go]: the state of the manager, what it asks of
    the API server, of etcd and of the Go runtime (the class [EtcdEnv]), and
    its operations: setup, the reconciliation of members with running pods,
    and one turn of the run loop. A method of [etcdManager] is a computation
    on the manager and the state [W] of its environment. *)

From S2P Require Import Prelude K8s Types Constants GoStrings EtcdUtil ControllerUtils.
From S2P Require Import EtcdPod.

Open Scope string_scope.
Open Scope list_scope.
Open Scope go_scope.

(** ** Errors *)

(*@ pkg/manager/component/etcd.go:78-78 ErrLostQuorum *)
Definition ErrLostQuorum : error := ErrMsg "lost quorum".
(*@ pkg/manager/component/etcd.go:79-79 errCreatedCluster *)
Definition errCreatedCluster : error := ErrMsg "etcd cluster failed to be created".

(** [rpctypes.ErrMemberNotFound] of the etcd client. *)
Definition ErrMemberNotFound : error := ErrMsg "etcdserver: member not found".

(** [err == target], for a target made of a message. *)
Definition is_msg (err target : error) : bool :=
  match err, target with
  | ErrMsg m, ErrMsg m' => String.eqb m m'
  | _, _ => false
  end.

(** [fmt.Errorf("<msg>: %v", err)] *)
Definition errorf (msg : string) (err : error) : error := ErrMsg (msg +:+ ": " +:+ Error err).

(*@ pkg/manager/component/etcd.go:1129-1131 newFatalError *)
Definition newFatalError (reason : string) : error := ErrFatal reason.

(*@ pkg/manager/component/etcd.go:1133-1140 isFatalError *)
Definition isFatalError (err : option error) : bool :=
  match err with
  | Some e => match Cause e with ErrFatal _ => true | _ => false end
  | None => false
  end.

(** ** The environment

    The calls that leave the manager: the API server ([kubeCli] and the
    cluster control with its lister), the etcd client, random names, and the
    order in which Go visits a map. *)
Class EtcdEnv (W : Type) := {
  podCreate : string → Pod → M W unit;
  podDelete : string → string → M W unit;
  podList : string → gmap string string → M W (list Pod);
  podGet : string → string → M W Pod;
  podPatch : string → Pod → Pod → M W unit;
  pvcCreate : string → PersistentVolumeClaim → M W unit;
  pvcDelete : string → string → M W unit;
  svcGet : string → string → M W core_Service;
  svcUpdate : string → core_Service → M W unit;
  svcCreate : string → core_Service → M W unit;
  (** the TLS configuration made of the client secret *)
  tlsConfigOf : string → string → M W unit;
  clusterGet : string → string → M W OnecloudCluster;
  (** what is written to an object of the lister is seen by all its readers *)
  clusterCacheWrite : OnecloudCluster → M W unit;
  clusterUpdate : OnecloudCluster → M W OnecloudCluster;
  nodeCount : string → M W Z;
  etcdNew : list string → M W unit;
  memberList : list string → M W (list (Z * list string));
  memberAdd : list string → string → M W Z;
  memberRemove : list string → Z → M W unit;
  randString : nat → M W string;
  newUUID : M W string;
  rangeMembers : MemberSet → M W order
}.

(** ** The manager *)

(** [m.members] is [None] for the nil map of a manager that has not yet
    learnt its members. *)
(*@ pkg/manager/component/etcd.go:40-57 etcdManager *)
Record etcdManager := MkEtcdManager {
  em_oc : OnecloudCluster;
  em_status : EctdStatus;
  em_members : option MemberSet
}.
#[global] Instance etcdManager_eta : Eta etcdManager := λ r,
  MkEtcdManager (em_oc r) (em_status r) (em_members r).

(** Reading a nil map reads an empty one. *)
Definition members_of (m : etcdManager) : MemberSet := default ∅ (em_members m).

(*@ pkg/manager/component/etcd.go:1085-1093 pickOneOldMember *)
Definition pickOneOldMember (pods : list Pod) (newVersion : string) : option Member :=
  match List.find (λ p, negb (String.eqb (GetEtcdVersion p) newVersion)) pods with
  | Some pod => Some (zero <| Member_Name := ObjectMeta_Name (Pod_ObjectMeta pod) |>
                           <| Member_Namespace := ObjectMeta_Namespace (Pod_ObjectMeta pod) |>)
  | None => None
  end.

(*@ pkg/manager/component/etcd.go:1081-1083 needUpgrade *)
Definition needUpgrade (pods : list Pod) (cs : EtcdClusterSpec) : bool :=
  (Z.of_nat (length pods) =? EtcdClusterSpec_Size cs)%Z &&
  match pickOneOldMember pods (EtcdClusterSpec_Version cs) with Some _ => true | None => false end.

(*@ pkg/manager/component/etcd.go:1095-1107 podsToMemberSet *)
Definition podsToMemberSet (oc : OnecloudCluster) (pods : list Pod) : MemberSet :=
  fold_left (λ members pod,
    Add (MkMember (ObjectMeta_Name (Pod_ObjectMeta pod)) (ObjectMeta_Namespace (Pod_ObjectMeta pod))
           0 false (isSecure oc) (OnecloudClusterSpec_IPv6Cluster (OnecloudCluster_Spec oc))) members)
    pods ∅.

(*@ pkg/manager/component/etcd.go:1142-1148 getMemberName *)
Definition getMemberName (PeerURLs : list string) : Res string :=
  match PeerURLs with
  | [] => Panic "index out of range [0] with length 0"
  | u :: _ =>
      match MemberNameFromPeerURL u with
      | Ok name => Ok name
      | Err e => Err (newFatalError ("invalid member peerURL (" +:+ u +:+ "): " +:+ Error e))
      | Panic p => Panic p
      end
  end.

(** The pods a poll keeps: not being deleted, and owned by the cluster. *)
(*@ pkg/manager/component/etcd.go:519-543 pollPods (loop) *)
Definition polled (uid : string) (pod : Pod) : bool :=
  let meta := Pod_ObjectMeta pod in
  match ObjectMeta_DeletionTimestamp meta with
  | Some _ => false
  | None =>
      match ObjectMeta_OwnerReferences meta with
      | [] => false
      | r :: _ => String.eqb (OwnerReference_UID r) uid
      end
  end.

Definition phase_in (phases : list string) (pod : Pod) : bool :=
  IsInStringArray (PodStatus_Phase (Pod_Status pod)) phases.

Definition partitionPods (uid : string) (items : list Pod) : list Pod * list Pod * list Pod :=
  let items := List.filter (polled uid) items in
  (List.filter (phase_in ["Running"]) items, List.filter (phase_in ["Pending"]) items,
   List.filter (phase_in ["Failed"; "Unknown"]) items).

(*@ pkg/manager/component/etcd.go:597-610 updateMemberStatus *)
Definition updateMemberStatus (running : list Pod) (m : etcdManager) : etcdManager :=
  let names := map (λ p, ObjectMeta_Name (Pod_ObjectMeta p)) in
  m <| em_status ::= λ s, s <| EctdStatus_Members := MkEtcdMembersStatus
    (names (List.filter IsPodReady running))
    (names (List.filter (λ p, negb (IsPodReady p)) running)) |> |>.

(** The sizes [fixEtcdSize] settles on. *)
(*@ pkg/manager/component/etcd.go:142-153 fixEtcdSize (size) *)
Definition fixedSize (masterCount size : Z) : Z :=
  if (masterCount <? 3)%Z then 1%Z
  else if (size <? EtcdDefaultClusterSize)%Z then EtcdDefaultClusterSize else size.

Section etcd.
Context {W : Type} `{!EtcdEnv W}.
Context (DisableNodeSelectorController EtcdKeepFailedPods : bool).
Context (marshal : ServicePort → string).

(** A method of the manager. *)
Definition EM (A : Type) : Type := M (etcdManager * W) A.

Definition env {A} (c : M W A) : EM A := λ '(m, w), let '(w', r) := c w in ((m, w'), r).
Definition getm : EM etcdManager := λ '(m, w), ((m, w), Ok m).
Definition modm (f : etcdManager → etcdManager) : EM unit := λ '(m, w), ((f m, w), Ok tt).
Definition modstatus (f : EctdStatus → EctdStatus) : EM unit := modm (λ m, m <| em_status ::= f |>).

(** [x, err := c; if err != nil { return fmt.Errorf(msg, err) }] *)
Definition wrapf {A} (msg : string) (c : EM A) : EM A := λ s,
  match c s with
  | (s', Err e) => (s', Err (errorf msg e))
  | r => r
  end.

(** [defer f()]: [f] runs however [c] ends. *)
Definition deferred {A} (f : etcdManager → etcdManager) (c : EM A) : EM A := λ s,
  let '((m, w), r) := c s in ((f m, w), r).

(** Errors a call answers [NotFound] with are no errors. *)
Definition ignoreNotFound (c : EM unit) : EM unit :=
  let! r := attempt c in
  match r with
  | inl e => if IsNotFound e then ret tt else throw e
  | inr _ => ret tt
  end.

(*@ pkg/manager/component/etcd.go:501-511 removePod *)
Definition removePod (name : string) : EM unit :=
  let! m := getm in ignoreNotFound (env (podDelete (oc_ns (em_oc m)) name)).

(*@ pkg/manager/component/etcd.go:1023-1029 removePVC *)
Definition removePVC (pvcName : string) : EM unit :=
  let! m := getm in
  wrapf ("remove pvc (" +:+ pvcName +:+ ") failed")
    (ignoreNotFound (env (pvcDelete (oc_ns (em_oc m)) pvcName))).

(*@ pkg/manager/component/etcd.go:513-546 pollPods *)
Definition pollPods : EM (list Pod * list Pod * list Pod) :=
  let! m := getm in
  let! items := wrapf "failed to list running pods"
    (env (podList (oc_ns (em_oc m)) (LabelsForCluster (getEtcdClusterPrefix (em_oc m))))) in
  ret (partitionPods (oc_uid (em_oc m)) items).

(*@ pkg/manager/component/etcd.go:588-595 fetchCluster *)
Definition fetchCluster : EM unit :=
  let! m := getm in
  let! oc := env (clusterGet (oc_ns (em_oc m)) (oc_name (em_oc m))) in
  modm (λ m, m <| em_oc := oc |>).

(** The cluster read from the lister is the shared object itself: setting its
    status is seen by every reader of the lister. *)
(*@ pkg/manager/component/etcd.go:573-586 updateEtcdStatus *)
Definition updateEtcdStatus : EM unit :=
  let! m := getm in
  let! oc := env (clusterGet (oc_ns (em_oc m)) (oc_name (em_oc m))) in
  let oc := oc <| OnecloudCluster_Status ::= λ s,
              s <| OnecloudClusterStatus_Etcd := em_status m |> |> in
  env (clusterCacheWrite oc) ;;!
  let! newoc := env (clusterUpdate oc) in
  modm (λ m, m <| em_oc := newoc |>).

(*@ pkg/manager/component/etcd.go:364-385 createPod *)
Definition createPod (members : MemberSet) (mb : Member) (state : string) : EM unit :=
  let! token := env newUUID in
  let! o := env (rangeMembers members) in
  let! initCluster := lift (PeerURLPairs o) in
  let! m := getm in
  let oc := em_oc m in
  let! pod := lift (NewEtcdPod mb initCluster (getEtcdClusterPrefix oc) state token
                      (customEtcdSpec oc) (GetOwnerRef oc)) in
  let! pod := lift (customPodSpec DisableNodeSelectorController oc pod mb state token initCluster) in
  let pvcSpec :=
    match EtcdClusterSpec_Pod (oc_etcdSpec oc) with
    | Some p => PodPolicy_PersistentVolumeClaimSpec p
    | None => None
    end in
  let! pod :=
    match pvcSpec with
    | Some spec =>
        let pvc := NewEtcdPodPVC mb spec (oc_name oc) (oc_ns oc) (GetOwnerRef oc) in
        wrapf ("failed to create PVC for member (" +:+ Member_Name mb +:+ ")")
          (env (pvcCreate (oc_ns oc) pvc)) ;;!
        ret (addEtcdVolumeToPod pod (Some pvc))
    | None => ret (addEtcdVolumeToPod pod None)
    end in
  env (podCreate (oc_ns oc) pod).

(*@ pkg/manager/component/etcd.go:952-966 newMember *)
Definition newMember : EM Member :=
  let! suffix := env (randString randomSuffixLength) in
  let! m := getm in
  let oc := em_oc m in
  ret (MkMember (UniqueMemberName suffix (getEtcdClusterPrefix oc)) (oc_ns oc) 0
         (isSecure oc) (isSecure oc) (OnecloudClusterSpec_IPv6Cluster (OnecloudCluster_Spec oc))).

(*@ pkg/manager/component/etcd.go:336-351 startSeedMember *)
Definition startSeedMember : EM unit :=
  let! mb := newMember in
  let ms := NewMemberSet [mb] in
  wrapf ("failed to create seed member (" +:+ Member_Name mb +:+ ")") (createPod ms mb "new") ;;!
  modm (λ m, m <| em_members := Some ms |>).

(*@ pkg/manager/component/etcd.go:332-334 bootstrap *)
Definition bootstrap : EM unit := startSeedMember.

(*@ pkg/manager/component/etcd.go:323-330 prepareSeedMember *)
Definition prepareSeedMember : EM unit :=
  bootstrap ;;! modstatus (λ s, s <| EctdStatus_Size := 1%Z |>).

(*@ pkg/manager/component/etcd.go:314-321 create *)
Definition create : EM unit :=
  modstatus (λ s, s <| EctdStatus_Phase := EtcdClusterPhaseCreating |>) ;;!
  wrapf "etcd cluster create: failed to update cluster phase Creating" updateEtcdStatus ;;!
  prepareSeedMember.

(*@ pkg/manager/component/etcd.go:282-312 setup *)
Definition setup : EM unit :=
  let! m := getm in
  let phase := EctdStatus_Phase (em_status m) in
  let! shouldCreateCluster :=
    if String.eqb phase EtcdClusterPhaseNone || String.eqb phase EtcdClusterPhaseFailed
    then ret true
    else if String.eqb phase EtcdClusterPhaseCreating then throw errCreatedCluster
    else if String.eqb phase EtcdClusterPhaseRunning then ret false
    else throw (ErrMsg ("unexpected cluster phase: " +:+ phase)) in
  (if isSecure (em_oc m) then env (tlsConfigOf (oc_ns (em_oc m)) EtcdClientSecret) else ret tt) ;;!
  if shouldCreateCluster : bool then create else ret tt.

(** What [sync] does before it runs the loop: the loop is entered when this
    returns [true]. *)
(*@ pkg/manager/component/etcd.go:199-220 sync *)
Definition syncSetup (oc : OnecloudCluster) : EM bool :=
  modm (λ m, m <| em_oc := oc |>
               <| em_status := OnecloudClusterStatus_Etcd (OnecloudCluster_Status oc) |>) ;;!
  let! r := attempt setup in
  match r with
  | inl err =>
      let! m := getm in
      (if String.eqb (EctdStatus_Phase (em_status m)) EtcdClusterPhaseFailed then ret tt
       else modstatus (λ s, s <| EctdStatus_Phase := EtcdClusterPhaseFailed |>
                              <| EctdStatus_Reason := Error err |>) ;;!
            let! _ := attempt updateEtcdStatus in ret tt) ;;!
      ret false
  | inr _ => ret true
  end.

(** *** Services *)

(*@ pkg/manager/component/etcd.go:686-712 createService *)
Definition createService (svcName clusterName ns clusterIP : string) (ports : list ServicePort)
    (owner : OwnerReference) (tolerateUnreadyEndpoints useNodePort : bool) : EM unit :=
  let svc := newEtcdServiceManifest marshal svcName clusterName clusterIP ports
               tolerateUnreadyEndpoints useNodePort in
  let svc := svc <| core_Service_ObjectMeta ::= λ o, addOwnerRefToObject o owner |> in
  let! r := attempt (env (svcGet ns svcName)) in
  match r with
  | inr oldSvc =>
      if decide (ObjectMeta_Annotations (core_Service_ObjectMeta oldSvc)
                 = ObjectMeta_Annotations (core_Service_ObjectMeta svc))
      then ret tt
      else env (svcUpdate ns
        (oldSvc <| core_Service_ObjectMeta ::= λ o, o <| ObjectMeta_Annotations :=
                     ObjectMeta_Annotations (core_Service_ObjectMeta svc) |> |>
                <| core_Service_Spec ::= λ s,
                     s <| core_ServiceSpec_Ports := core_ServiceSpec_Ports (core_Service_Spec svc) |>
                       <| core_ServiceSpec_Type := core_ServiceSpec_Type (core_Service_Spec svc) |> |>))
  | inl err =>
      if negb (IsNotFound err) then throw (ErrWrap err "Get service")
      else
        let! r := attempt (env (svcCreate ns svc)) in
        match r with
        | inl err => if IsAlreadyExists err then ret tt else throw (ErrWrap err "create service")
        | inr _ => ret tt
        end
  end.

(*@ pkg/manager/component/etcd.go:655-664 CreateClientService *)
Definition CreateClientService (clusterName ns : string) (owner : OwnerReference) (nodePort : Z)
  : EM unit :=
  createService (ClientServiceName clusterName) clusterName ns "" (clientServicePorts nodePort)
    owner false true.

(*@ pkg/manager/component/etcd.go:670-684 CreatePeerService *)
Definition CreatePeerService (clusterName ns : string) (owner : OwnerReference) : EM unit :=
  createService clusterName clusterName ns "None" peerServicePorts owner true false.

(*@ pkg/manager/component/etcd.go:643-653 setupServices *)
Definition setupServices : EM unit :=
  let! m := getm in
  let oc := em_oc m in
  let! r1 := attempt (CreateClientService (getEtcdClusterPrefix oc) (oc_ns oc) (GetOwnerRef oc)
                        (Etcd_ClientNodePort (oc_etcd oc))) in
  let! m := getm in
  let oc := em_oc m in
  let! r2 := attempt (CreatePeerService (getEtcdClusterPrefix oc) (oc_ns oc) (GetOwnerRef oc)) in
  let errs := match r1 with inl e => [ErrWrap e "create etcd client service"] | _ => [] end
           ++ match r2 with inl e => [ErrWrap e "create etcd peer service"] | _ => [] end in
  match NewAggregate errs with Some e => throw e | None => ret tt end.

(*@ pkg/manager/component/etcd.go:748-758 run (start) *)
Definition runStart : EM unit :=
  let! _ := attempt setupServices in
  let! m := getm in
  modstatus (λ s, s
    <| EctdStatus_ServiceName := NewClusterComponentName (oc_name (em_oc m)) EtcdClientComponentType |>
    <| EctdStatus_ClientPort := EtcdClientPort |>
    <| EctdStatus_ClientNodePort := Etcd_ClientNodePort (oc_etcd (em_oc m)) |>
    <| EctdStatus_Phase := EtcdClusterPhaseRunning |>) ;;!
  let! _ := attempt updateEtcdStatus in ret tt.

(** *** Members *)

(*@ pkg/manager/component/etcd.go:973-1001 removeMember *)
Definition removeMember (toRemove : Member) : EM unit :=
  wrapf ("remove member (" +:+ Member_Name toRemove +:+ ") failed") (
    let! m := getm in
    let! o := env (rangeMembers (members_of m)) in
    let! urls := lift (ClientURLs o) in
    let! r := attempt (env (memberRemove urls (Member_ID toRemove))) in
    match r with
    | inl err => if is_msg err ErrMemberNotFound then ret tt else throw err
    | inr _ => ret tt
    end ;;!
    modm (λ m, m <| em_members ::= fmap (Remove (Member_Name toRemove)) |>) ;;!
    removePod (Member_Name toRemove) ;;!
    let! m := getm in
    if isPodPVEnabled (em_oc m) then removePVC (PVCNameFromMember (Member_Name toRemove))
    else ret tt).

(*@ pkg/manager/component/etcd.go:968-971 removeDeadMember *)
Definition removeDeadMember (toRemove : Member) : EM unit := removeMember toRemove.

(** [PickOne] on a set, in the order the runtime picks. *)
Definition pickOne (ms : MemberSet) : EM Member :=
  let! o := env (rangeMembers ms) in lift (PickOne o).

(*@ pkg/manager/component/etcd.go:948-950 removeOneMember *)
Definition removeOneMember : EM unit :=
  let! m := getm in
  let! mb := pickOne (members_of m) in
  removeMember mb.

(** Adding to a nil map panics. *)
(*@ pkg/manager/component/etcd.go:919-946 addOneMember *)
Definition addOneMember : EM unit :=
  let! m := getm in
  let! o := env (rangeMembers (members_of m)) in
  let! urls := lift (ClientURLs o) in
  wrapf "add one member failed: creating etcd client failed" (env (etcdNew urls)) ;;!
  let! newMember := newMember in
  let! url := lift (PeerURL newMember) in
  let! id := wrapf ("fail to add new member (" +:+ Member_Name newMember +:+ ")")
               (env (memberAdd urls url)) in
  let newMember := newMember <| Member_ID := id |> in
  let! m := getm in
  match em_members m with
  | None => panic "assignment to entry in nil map"
  | Some ms =>
      modm (λ m, m <| em_members := Some (Add newMember ms) |>) ;;!
      wrapf ("fail to create member's pod (" +:+ Member_Name newMember +:+ ")")
        (createPod (Add newMember ms) newMember "existing")
  end.

(*@ pkg/manager/component/etcd.go:907-917 resize *)
Definition resize : EM unit :=
  let! m := getm in
  let size := EtcdClusterSpec_Size (oc_etcdSpec (em_oc m)) in
  if (Size (members_of m) =? size)%Z then ret tt
  else if (Size (members_of m) <? size)%Z then addOneMember
  else removeOneMember.

(*@ pkg/manager/component/etcd.go:879-905 reconcileMembers *)
Definition reconcileMembers (running : MemberSet) : EM unit :=
  let! m := getm in
  let unknownMembers := Diff running (members_of m) in
  (if (0 <? Size unknownMembers)%Z then
     let! o := env (rangeMembers unknownMembers) in
     for_each o (λ '(_, mb), removePod (Member_Name mb))
   else ret tt) ;;!
  let L := Diff running unknownMembers in
  let! m := getm in
  let ms := members_of m in
  if (Size L =? Size ms)%Z then resize
  else if (Size L <? Z.quot (Size ms) 2 + 1)%Z then throw ErrLostQuorum
  else let! mb := pickOne (Diff ms L) in removeDeadMember mb.

(** The pod is patched with the image and the version annotation changed. *)
(*@ pkg/manager/component/etcd.go:1056-1079 upgradeOneMember *)
Definition upgradeOneMember (memberName : string) : EM unit :=
  let! m := getm in
  let ns := oc_ns (em_oc m) in
  let! pod := wrapf ("fail to get pod (" +:+ memberName +:+ ")") (env (podGet ns memberName)) in
  let! m := getm in
  let spec := oc_etcdSpec (em_oc m) in
  let image := ImageName (EtcdClusterSpec_Repository spec) (EtcdClusterSpec_Version spec) in
  let! containers := lift (update_first (λ c, Ok (c <| Container_Image := image |>))
                             (PodSpec_Containers (Pod_Spec pod))) in
  let newpod := SetEtcdVersion
    (pod <| Pod_Spec ::= λ s, s <| PodSpec_Containers := containers |> |>)
    (EtcdClusterSpec_Version spec) in
  wrapf ("fail to update the etcd member (" +:+ memberName +:+ ")") (env (podPatch ns pod newpod)).

(*@ pkg/manager/component/etcd.go:844-868 reconcile *)
Definition reconcile (pods : list Pod) : EM unit :=
  deferred (λ m, m <| em_status ::= λ s, s <| EctdStatus_Size := Size (members_of m) |> |>) (
    let! m := getm in
    let sp := oc_etcdSpec (em_oc m) in
    let running := podsToMemberSet (em_oc m) pods in
    if negb (IsEqual running (members_of m)) ||
       negb (Size (members_of m) =? EtcdClusterSpec_Size sp)%Z
    then reconcileMembers running
    else if needUpgrade pods sp then
      modstatus (λ s, s <| EctdStatus_TargetVersion := EtcdClusterSpec_Version sp |>) ;;!
      match pickOneOldMember pods (EtcdClusterSpec_Version sp) with
      | None => panic "nil pointer dereference"
      | Some mb => upgradeOneMember (Member_Name mb)
      end
    else
      modstatus (λ s, s <| EctdStatus_TargetVersion := "" |>
                        <| EctdStatus_CurrentVersion := EtcdClusterSpec_Version sp |>)).

(*@ pkg/manager/component/etcd.go:1031-1054 updateMembers *)
Definition updateMembers (known : MemberSet) : EM unit :=
  let! o := env (rangeMembers known) in
  let! urls := lift (ClientURLs o) in
  let! resp := env (memberList urls) in
  let! m := getm in
  let oc := em_oc m in
  let fix build (l : list (Z * list string)) (members : MemberSet) : EM MemberSet :=
    match l with
    | [] => ret members
    | (id, urls) :: l' =>
        let! name := wrap "get member name failed" (lift (getMemberName urls)) in
        build l' (<[name := MkMember name (oc_ns oc) id (isSecure oc) (isSecure oc)
                    (OnecloudClusterSpec_IPv6Cluster (OnecloudCluster_Spec oc))]> members)
    end in
  let! members := build resp ∅ in
  modm (λ m, m <| em_members := Some members |>).

(** The entries are visited in the order of the range at its start: each is
    deleted only when it is the current one. *)
(*@ pkg/manager/component/etcd.go:1003-1021 cleanAllMembers *)
Definition cleanAllMembers : EM unit :=
  let! m := getm in
  let! o := env (rangeMembers (members_of m)) in
  for_each o (λ '(_, member),
    removePod (Member_Name member) ;;!
    modm (λ m, m <| em_members ::= fmap (Remove (Member_Name member)) |>) ;;!
    let! m := getm in
    if isPodPVEnabled (em_oc m) then removePVC (PVCNameFromMember (Member_Name member))
    else ret tt) ;;!
  modstatus (λ s, s <| EctdStatus_Phase := EtcdClusterPhaseFailed |>
                    <| EctdStatus_Size := 0%Z |>
                    <| EctdStatus_Members := zero |>) ;;!
  updateEtcdStatus.

(** *** One turn of the run loop

    [rerr] is the error kept from one turn to the next. *)
Inductive turn : Type :=
  | Next (rerr : option error)   (** wait, then another turn *)
  | Stop                         (** the loop ends *)
  | Resync.                      (** the loop ends and [go m.sync(m.oc)] starts *)

(** [reportFailedStatus] retries until it succeeds; [fuel] bounds the turns
    that are looked at. *)
(*@ pkg/manager/component/etcd.go:612-641 reportFailedStatus *)
Fixpoint reportFailedStatus (fuel : nat) : EM unit :=
  match fuel with
  | O => ret tt
  | S fuel' =>
      modstatus (λ s, s <| EctdStatus_Phase := EtcdClusterPhaseFailed |>) ;;!
      let! r := attempt updateEtcdStatus in
      match r with
      | inr _ => ret tt
      | inl err =>
          if IsNotFound err then ret tt
          else if negb (IsConflict err) then reportFailedStatus fuel'
          else
            let! r := attempt fetchCluster in
            match r with
            | inl err => if IsNotFound err then ret tt else reportFailedStatus fuel'
            | inr _ => reportFailedStatus fuel'
            end
      end
  end.

(** [_ = c] with the error only logged *)
Definition logged {A} (c : EM A) : EM unit := let! _ := attempt c in ret tt.

(** No pod runs any more: the cluster is given up, to be built again. *)
(*@ pkg/manager/component/etcd.go:792-802 run (all pods dead) *)
Definition allPodsDead : EM turn :=
  modm (updateMemberStatus []) ;;!
  modstatus (λ s, s <| EctdStatus_Phase := EtcdClusterPhaseFailed |>) ;;!
  logged updateEtcdStatus ;;! ret Stop.

(*@ pkg/manager/component/etcd.go:811-820 run (lost quorum) *)
Definition onLostQuorum (e : error) : EM turn :=
  let! r := attempt cleanAllMembers in
  match r with
  | inl _ => ret (Next (Some e))
  | inr _ => ret Resync
  end.

(** The reconciliation succeeded: the error looked at is [nil] here. *)
(*@ pkg/manager/component/etcd.go:825-835 run (reconciled) *)
Definition onReconciled (fuel : nat) (running : list Pod) : EM turn :=
  modm (updateMemberStatus running) ;;!
  logged updateEtcdStatus ;;!
  if isFatalError None then reportFailedStatus fuel ;;! ret Stop else ret (Next None).

(** The members are learnt from etcd when they are not known, or when the
    last turn failed. *)
(*@ pkg/manager/component/etcd.go:803-809 run (members) *)
Definition learnMembers (rerr : option error) (running : list Pod) : EM (option error) :=
  let! m := getm in
  match rerr, em_members m with
  | None, Some _ => ret None
  | _, _ =>
      let! r := attempt (updateMembers (podsToMemberSet (em_oc m) running)) in
      ret (match r with inl e => Some e | inr _ => None end)
  end.

(*@ pkg/manager/component/etcd.go:803-835 run (running pods) *)
Definition onRunning (fuel : nat) (rerr : option error) (running : list Pod) : EM turn :=
  let! rerr := learnMembers rerr running in
  match rerr with
  | Some e => ret (Next (Some e))
  | None =>
      let! r := attempt (reconcile running) in
      match r with
      | inr _ => onReconciled fuel running
      | inl e =>
          if is_msg (Cause e) ErrLostQuorum then onLostQuorum e else ret (Next (Some e))
      end
  end.

(*@ pkg/manager/component/etcd.go:783-791 run (failed pods) *)
Definition removeFailedPods (failed : list Pod) : EM unit :=
  if (0 <? length failed)%nat && negb EtcdKeepFailedPods then
    for_each failed (λ p, logged (removePod (ObjectMeta_Name (Pod_ObjectMeta p))))
  else ret tt.

(*@ pkg/manager/component/etcd.go:765-837 run (loop body) *)
Definition runTurn (fuel : nat) (rerr : option error) : EM turn :=
  let! r := attempt fetchCluster in
  match r with
  | inl _ => ret (Next rerr)
  | inr _ =>
      let! r := attempt pollPods in
      match r with
      | inl _ => ret (Next rerr)
      | inr (running, pending, failed) =>
          if (0 <? length pending)%nat then ret (Next rerr)
          else
            removeFailedPods failed ;;!
            if (length running =? 0)%nat then allPodsDead else onRunning fuel rerr running
      end
  end.

(** *** The sync of the component manager *)

(*@ pkg/manager/component/etcd.go:128-154 fixEtcdSize *)
Definition fixEtcdSize (oc : OnecloudCluster) : M W (bool * OnecloudCluster) :=
  let! masterCount := nodeCount LabelNodeRoleMaster in
  let oldSize := EtcdClusterSpec_Size (oc_etcdSpec oc) in
  let newSize := fixedSize masterCount oldSize in
  ret (negb (newSize =? oldSize)%Z,
       oc <| OnecloudCluster_Spec ::= λ s, s <| OnecloudClusterSpec_Etcd ::= λ e,
         e <| Etcd_EtcdClusterSpec ::= λ c, c <| EtcdClusterSpec_Size := newSize |> |> |> |>).
End etcd.
