(* ===== verification/ClusterManagers.v ===== *)
(** * ClusterManagers: the managers of a cluster

    The [Sync] of every manager and the methods of [ComponentManager] of
    [pkg/manager/component/component.go] that hand the managers out. Most
    managers sync their component and nothing else; some prepare it first;
    the agents of the zones sync once per zone; etcd starts its run loop. *)

From S2P Require Import Prelude K8s Types Constants GoStrings Defaults.
From S2P Require Import ControllerUtils LastApplied KubeApi Controls Session CloudApi.
From S2P Require Import Databases Sync Phases Policies Alerts Builders KubeClusters.
From S2P Require Import Components Options ServiceInit Services GlobalSettings.
From S2P Require Import ManagerBase Managers ServiceManagers GatewayManagers AgentManagers.
From S2P Require Import HostManagers EdgeManagers ImageManagers MonitorStack EtcdReconcile.

Open Scope string_scope.
Open Scope list_scope.
Open Scope go_scope.

(** [manager.Manager]: what the controller sees of a manager. *)
(*@ pkg/manager/manager.go:20-25 Manager *)
Record Manager (W : Type) := MkManager {
  mgr_type : ComponentType;
  mgr_Sync : SM W unit
}.
Arguments MkManager {W} _ _.
Arguments mgr_type {W} _.
Arguments mgr_Sync {W} _.

(** The managers of a cluster, in the order they are synced. *)
Record ClusterParts (W : Type) := MkClusterParts {
  part_etcd : Manager W;
  part_ordered : list (Manager W);
  part_together : list (Manager W);
  part_addons : list (Manager W)
}.
Arguments MkClusterParts {W} _ _ _ _.
Arguments part_etcd {W} _.
Arguments part_ordered {W} _.
Arguments part_together {W} _.
Arguments part_addons {W} _.

(** The goroutine of the etcd manager: whether it runs, and its start on a
    cluster. The flag is looked at and set in two steps; the goroutine itself
    is [syncSetup] and [runTurn] of EtcdReconcile. *)
Class EtcdLoop (W : Type) := {
  etcd_isSyncing : M W bool;
  go_etcd_sync : OnecloudCluster → M W unit
}.

Section managers.
Context {W : Type} `{!SessionEnv W, !JsonUtils, !CloudApi W, !SqlEnv W, !ConfigCodec, !Passwords W, !ReferenceParser}.
Context `{!ResourceApi W Deployment, !ResourceApi W DaemonSet, !ResourceApi W CronJob}.
Context `{!ResourceApi W core_Service, !ResourceApi W ConfigMap, !ResourceApi W Unstructured}.
Context `{!ResourceApi W PersistentVolumeClaim, !ResourceApi W OnecloudCluster}.
Context `{!JsonCodec PodSpec, !JsonCodec apps_DeploymentSpec, !JsonCodec apps_DaemonSetSpec}.
Context `{!JsonCodec JobSpec, !JsonCodec batch_CronJobSpec, !JsonCodec core_ServiceSpec}.
Context `{!JsonCodec (gmap string string), !JsonMapCodec}.
Context `{!OptionsLib W, !NodeLister W, !QuantityOps, !SettingsCodec, !YamlLib}.
Context `{!SecretApi W, !QuotaApi W, !PolicyLocale, !Ansible, !AlertCodec, !ComponentCodec}.
Context `{!GlanceMemo W, !StatefulSetApi W, !MinioLib W, !EtcdEnv W, !EtcdLoop W}.
(** The flags of the process and the version of the Kubernetes cluster. *)
Context (SessionDebug SyncUser StopServices DisableSyncIngress d v120 : bool).

(** [m.onecloudControl.Components(oc)] *)
Let man : ComponentManager W := newComponents SessionDebug StopServices.

Definition syncDefault (f : cloudComponentFactory W) : SM W unit :=
  syncComponent SessionDebug SyncUser StopServices DisableSyncIngress f "".

(** [Sync] is [syncComponent(m, oc, "")]. *)
(*@ pkg/manager/component/keystone.go:59-61 Sync *)
Definition managed (f : cloudComponentFactory W) : Manager W :=
  MkManager (GetComponentType f) (syncDefault f).

(** Once per zone: one of the wanted zones, or every zone. *)
(*@ pkg/manager/component/baremetal.go:50-52 Sync *)
Definition perZone (agent : OnecloudClusterSpec → ZoneStatefulDeploymentSpec)
    (f : cloudComponentFactory W) : Manager W :=
  MkManager (GetComponentType f)
    (let! oc := getoc in
     multiZoneSync SessionDebug SyncUser StopServices DisableSyncIngress
       (ZoneStatefulDeploymentSpec_Zones (agent (OnecloudCluster_Spec oc))) f).

(** Something is done before the component is synced. *)
Definition prepared (before : SM W unit) (f : cloudComponentFactory W) : Manager W :=
  MkManager (GetComponentType f) (before ;;! syncDefault f).

(** ** What some managers do first *)

(*@ pkg/manager/component/cloudmon.go:43-59 ensureOldCronjobsDeleted *)
Definition ensureOldCronjobsDeleted (oc : OnecloudCluster) : M W unit :=
  for_each [CloudmonPingComponentType; CloudmonReportHostComponentType;
            CloudmonReportServerComponentType; CloudmonReportUsageComponentType]
    (λ componentType,
      let name := NewClusterComponentName (oc_name oc) componentType in
      let! r := attempt (apiGet CronJob (oc_ns oc) name) in
      match r with
      | inl err => if IsNotFound err then ret tt else throw err
      | inr _ =>
          let! r := attempt (DeleteCronJob oc name) in
          match r with
          | inl err => if IsNotFound err then ret tt else throw err
          | inr _ => ret tt
          end
      end).

(*@ pkg/manager/component/cloudmon.go:61-66 Sync *)
Definition cloudmon_prepare : SM W unit := let! oc := getoc in kube (ensureOldCronjobsDeleted oc).

(** After a change of the edition the image's name is chosen anew. *)
Definition resetImageName (ceName eeName : string) (isEE : bool) (c : ContainerSpec) : ContainerSpec :=
  let imageName := ContainerSpec_ImageName c in
  if (String.eqb imageName ceName && isEE) || (String.eqb imageName eeName && negb isEE)
  then c <| ContainerSpec_ImageName := "" |> else c.

(*@ pkg/manager/component/apigateway.go:61-68 Sync *)
Definition apigateway_prepare : SM W unit :=
  modoc (λ oc, oc <| OnecloudCluster_Spec ::= λ s, s <| OnecloudClusterSpec_APIGateway ::= λ a,
    a <| APIGatewaySpec_DeploymentSpec ::= λ p, p <| DeploymentSpec_ContainerSpec ::=
      resetImageName APIGatewayCEImageName APIGatewayEEImageName (IsEEOrESEEdition oc) |> |> |> |>).

(*@ pkg/manager/component/mcp-server.go:60-68 Sync *)
Definition mcpserver_prepare : SM W unit :=
  modoc (λ oc, oc <| OnecloudCluster_Spec ::= λ s, s <| OnecloudClusterSpec_McpServer ::= λ a,
    a <| DeploymentServicePortSpec_DeploymentSpec ::= λ p, p <| DeploymentSpec_ContainerSpec ::=
      resetImageName McpServerCEImageName McpServerEEImageName (IsEnterpriseEdition oc) |> |> |> |>).

(*@ pkg/manager/component/web.go:59-68 Sync *)
Definition web_prepare : SM W unit :=
  modoc (λ oc, oc <| OnecloudCluster_Spec ::= λ s, s <| OnecloudClusterSpec_Web ::= λ a,
    a <| WebSpec_DeploymentSpec ::= λ p, p <| DeploymentSpec_ContainerSpec ::= λ c,
      c <| ContainerSpec_ImageName ::=
        default_str (if IsEEOrESEEdition oc then WebEEImageName else WebCEImageName) |> |> |> |> |>).

(** The cloud network server is left alone unless it is enabled, or stopped
    with the other services. *)
(*@ pkg/manager/component/cloudnetserver.go:55-60 Sync *)
Definition cloudnet_Sync (f : cloudComponentFactory W) : SM W unit :=
  let! oc := getoc in
  if negb (OnecloudClusterSpec_EnableCloudNet (OnecloudCluster_Spec oc)) && negb StopServices then ret tt
  else syncDefault f.

(** ** Etcd *)

(*@ pkg/manager/component/etcd.go:92-101 getProductVersions *)
Definition etcdVersions : list ProductVersion :=
  [ProductVersionFullStack; ProductVersionCMP; ProductVersionEdge; ProductVersionLightEdge;
   ProductVersionBaremetal; ProductVersionAI].

(** It contributes no object of its own. *)
(*@ pkg/manager/component/etcd.go:82-90 newEtcdComponentManager *)
Definition newEtcdComponentManager : cloudComponentFactory W :=
  baseManager EtcdComponentType
    (λ oc, Etcd_Disable (OnecloudClusterSpec_Etcd (OnecloudCluster_Spec oc))
           || negb (inVersions etcdVersions oc)) etcdVersions.

(** The version and the port of a spec without. *)
(*@ pkg/manager/component/etcd.go:177-184 Sync (defaults) *)
Definition etcdDefaults (oc : OnecloudCluster) : bool * OnecloudCluster :=
  let spec := OnecloudClusterSpec_Etcd (OnecloudCluster_Spec oc) in
  (str_empty (EtcdClusterSpec_Version (Etcd_EtcdClusterSpec spec))
   || (Etcd_ClientNodePort spec =? 0)%Z,
   oc <| OnecloudCluster_Spec ::= λ s, s <| OnecloudClusterSpec_Etcd ::= λ e,
     (e <| Etcd_EtcdClusterSpec ::= λ c, c <| EtcdClusterSpec_Version ::= default_str EtcdImageVersion |> |>)
       <| Etcd_ClientNodePort ::= default_int EtcdClientNodePort |> |> |>).

(** The loop gets the cluster the server returned; the caller keeps its own,
    with the changed spec. Errors after the sync are logged. *)
(*@ pkg/manager/component/etcd.go:164-197 Sync *)
Definition etcd_Sync : SM W unit :=
  syncDefault newEtcdComponentManager ;;!
  let! oc := getoc in
  if Etcd_Disable (OnecloudClusterSpec_Etcd (OnecloudCluster_Spec oc)) then ret tt
  else
    let! r := attempt (kube (fixEtcdSize oc)) in
    match r with
    | inl _ => ret tt
    | inr (resized, oc) =>
        let '(defaulted, oc) := etcdDefaults oc in
        modoc (λ _, oc) ;;!
        let! r := (if resized || defaulted then attempt (kube (UpdateCluster oc)) else ret (inr oc)) in
        match r with
        | inl _ => ret tt
        | inr oc =>
            let! syncing := kube etcd_isSyncing in
            if syncing then ret tt else kube (go_etcd_sync oc)
        end
    end.

(** ** The managers *)

(*@ pkg/manager/component/component.go:1571-1573 Etcd *)
Definition m_Etcd : Manager W := MkManager EtcdComponentType etcd_Sync.
(*@ pkg/manager/component/component.go:1575-1577 Keystone *)
Definition m_Keystone : Manager W := managed (newKeystoneComponentManager d man).
(*@ pkg/manager/component/component.go:1579-1581 Logger *)
Definition m_Logger : Manager W := managed (newLoggerManager SessionDebug d man).
(*@ pkg/manager/component/component.go:1583-1585 Region *)
Definition m_Region : Manager W := managed (newRegionManager d man).
(*@ pkg/manager/component/component.go:1587-1589 RegionDNS *)
Definition m_RegionDNS : Manager W := managed (newRegionDNSManager d).
(*@ pkg/manager/component/component.go:1591-1593 Climc *)
Definition m_Climc : Manager W := managed (newClimcComponentManager d).
(*@ pkg/manager/component/component.go:1595-1597 Cloudmux *)
Definition m_Cloudmux : Manager W := managed (newCloudmuxComponentManager d).
(*@ pkg/manager/component/component.go:1599-1601 Glance *)
Definition m_Glance : Manager W := managed (newGlanceManager d man).
(*@ pkg/manager/component/component.go:1603-1605 Webconsole *)
Definition m_Webconsole : Manager W := managed (newWebconsoleManager SessionDebug d man).
(*@ pkg/manager/component/component.go:1607-1609 Scheduler *)
Definition m_Scheduler : Manager W := managed (newSchedulerManager SessionDebug d man).
(*@ pkg/manager/component/component.go:1611-1613 APIMap *)
Definition m_APIMap : Manager W := managed (newAPIMapManager SessionDebug d).
(*@ pkg/manager/component/component.go:1615-1617 Influxdb *)
Definition m_Influxdb : Manager W := managed (newInfluxdbManager SessionDebug d man).
(*@ pkg/manager/component/component.go:1619-1621 VictoriaMetrics *)
Definition m_VictoriaMetrics : Manager W := managed (newVictoriaMetricsManager SessionDebug d man).
(*@ pkg/manager/component/component.go:1623-1625 Yunionagent *)
Definition m_Yunionagent : Manager W := managed (newYunionagentManager d man).
(*@ pkg/manager/component/component.go:1627-1629 Yunionconf *)
Definition m_Yunionconf : Manager W := managed (newYunionconfManager SessionDebug d man).
(*@ pkg/manager/component/component.go:1631-1633 KubeServer *)
Definition m_KubeServer : Manager W := managed (newKubeManager d man).
(*@ pkg/manager/component/component.go:1635-1637 AnsibleServer *)
Definition m_AnsibleServer : Manager W := managed (newAnsibleManager SessionDebug d man).
(*@ pkg/manager/component/component.go:1639-1641 Cloudnet *)
Definition m_Cloudnet : Manager W :=
  MkManager CloudnetComponentType (cloudnet_Sync (newCloudnetManager SessionDebug d)).
(*@ pkg/manager/component/component.go:1643-1645 Cloudproxy *)
Definition m_Cloudproxy : Manager W := managed (newCloudproxyManager d man).
(*@ pkg/manager/component/component.go:1647-1649 APIGateway *)
Definition m_APIGateway : Manager W :=
  prepared apigateway_prepare (newAPIGatewayManager SessionDebug d man).
(*@ pkg/manager/component/component.go:1651-1653 Web *)
Definition m_Web : Manager W := prepared web_prepare (newWebManager d).
(*@ pkg/manager/component/component.go:1655-1657 Notify *)
Definition m_Notify : Manager W := managed (newNotifyManager SessionDebug d man).
(*@ pkg/manager/component/component.go:1659-1661 Baremetal *)
Definition m_Baremetal : Manager W :=
  perZone OnecloudClusterSpec_BaremetalAgent (newBaremetalManager SessionDebug).
(*@ pkg/manager/component/component.go:1663-1665 OvnNorth *)
Definition m_OvnNorth : Manager W := managed (newOvnNorthManager d).
(*@ pkg/manager/component/component.go:1667-1669 VpcAgent *)
Definition m_VpcAgent : Manager W := managed (newVpcAgentManager SessionDebug d).
(*@ pkg/manager/component/component.go:1671-1673 Host *)
Definition m_Host : Manager W := managed (newHostManager SessionDebug v120).
(*@ pkg/manager/component/component.go:1675-1677 Lbgent *)
Definition m_Lbgent : Manager W := managed (newLbagentManager SessionDebug).
(*@ pkg/manager/component/component.go:1679-1681 HostDeployer *)
Definition m_HostDeployer : Manager W := managed (newHostDeployerManger v120).
(*@ pkg/manager/component/component.go:1683-1685 HostImage *)
Definition m_HostImage : Manager W := managed (newHostImageManager v120).
(*@ pkg/manager/component/component.go:1687-1689 Cloudevent *)
Definition m_Cloudevent : Manager W := managed (newCloudeventManager SessionDebug d).
(*@ pkg/manager/component/component.go:1691-1693 S3gateway *)
Definition m_S3gateway : Manager W := managed (newS3gatewayManager SessionDebug d).
(*@ pkg/manager/component/component.go:1695-1697 Devtool *)
Definition m_Devtool : Manager W := managed (newDevtoolManager d man).
(*@ pkg/manager/component/component.go:1699-1701 Meter *)
Definition m_Meter : Manager W := managed (newMeterManager SessionDebug d).
(*@ pkg/manager/component/component.go:1703-1705 Billing *)
Definition m_Billing : Manager W := managed (newBillingManager SessionDebug d).
(*@ pkg/manager/component/component.go:1707-1709 AutoUpdate *)
Definition m_AutoUpdate : Manager W := managed (newAutoUpdateManager SessionDebug d).
(*@ pkg/manager/component/component.go:1711-1713 EsxiAgent *)
Definition m_EsxiAgent : Manager W := perZone OnecloudClusterSpec_EsxiAgent (newEsxiManager d).
(*@ pkg/manager/component/component.go:1715-1717 Monitor *)
Definition m_Monitor : Manager W := managed (newMonitorManager d man).
(*@ pkg/manager/component/component.go:1719-1721 ServiceOperator *)
Definition m_ServiceOperator : Manager W := managed (newServiceOperatorManager d).
(*@ pkg/manager/component/component.go:1723-1725 Itsm *)
Definition m_Itsm : Manager W := managed (newItsmManager SessionDebug d).
(*@ pkg/manager/component/component.go:1727-1729 Telegraf *)
Definition m_Telegraf : Manager W := managed newTelegrafManager.
(*@ pkg/manager/component/component.go:1731-1733 CloudId *)
Definition m_CloudId : Manager W := managed (newCloudIdManager SessionDebug d man).
(*@ pkg/manager/component/component.go:1735-1737 Cloudmon *)
Definition m_Cloudmon : Manager W :=
  prepared cloudmon_prepare (newCloudMonManager SessionDebug d man).
(*@ pkg/manager/component/component.go:1739-1741 Suggestion *)
Definition m_Suggestion : Manager W := managed (newSuggestionManager SessionDebug d).
(*@ pkg/manager/component/component.go:1743-1745 Scheduledtask *)
Definition m_Scheduledtask : Manager W := managed (newScheduledtaskManager SessionDebug d man).
(*@ pkg/manager/component/component.go:1751-1753 Report *)
Definition m_Report : Manager W := managed (newReportManager SessionDebug d).
(*@ pkg/manager/component/component.go:1755-1757 EChartsSSR *)
Definition m_EChartsSSR : Manager W := managed (newEChartsSSR d man).
(*@ pkg/manager/component/component.go:1759-1761 HostHealth *)
Definition m_HostHealth : Manager W := managed (newHostHealthManager v120).
(*@ pkg/manager/component/component.go:1763-1765 HostSdnagent *)
Definition m_HostSdnagent : Manager W := managed (newHostSdnagentManager v120).
(*@ pkg/manager/component/component.go:1767-1769 HostOvnController *)
Definition m_HostOvnController : Manager W := managed (newHostOvnControllerManager v120).
(*@ pkg/manager/component/component.go:1771-1773 HostOvsdbServer *)
Definition m_HostOvsdbServer : Manager W := managed (newHostOvsdbServerManager v120).
(*@ pkg/manager/component/component.go:1775-1777 HostOvsVswitchd *)
Definition m_HostOvsVswitchd : Manager W := managed (newHostOvsVswitchdManager v120).
(*@ pkg/manager/component/component.go:1779-1781 BastionHost *)
Definition m_BastionHost : Manager W := managed (newBastionHostManager SessionDebug d).
(*@ pkg/manager/component/component.go:1783-1785 Extdb *)
Definition m_Extdb : Manager W := managed (newExtdbManager SessionDebug d).
(*@ pkg/manager/component/component.go:1787-1789 LLM *)
Definition m_LLM : Manager W := managed (newLLMManager d man).
(*@ pkg/manager/component/component.go:1791-1793 McpServer *)
Definition m_McpServer : Manager W :=
  prepared mcpserver_prepare (newMcpServerManager SessionDebug d man).
(*@ pkg/manager/component/component.go:1795-1797 AiProxy *)
Definition m_AiProxy : Manager W := managed (newAiProxyManager SessionDebug d man).
(*@ pkg/manager/component/component.go:1747-1749 MonitorStack *)
Definition m_MonitorStack : Manager W :=
  MkManager MonitorStackComponentType (monitorStack_Sync SessionDebug SyncUser).

(** ** The lists the controller goes through *)

(*@ pkg/controller/cluster/onecloud_cluster_control.go:119-150 updateOnecloudCluster (ordered) *)
Definition orderedManagers : list (Manager W) :=
  [m_Keystone; m_VictoriaMetrics; m_Telegraf; m_Region; m_Scheduler; m_KubeServer; m_Webconsole;
   m_Glance; m_RegionDNS; m_Yunionagent; m_AnsibleServer; m_APIGateway; m_Meter; m_Billing;
   m_EsxiAgent; m_OvnNorth; m_APIMap; m_VpcAgent; m_HostDeployer; m_HostImage; m_Host;
   m_HostSdnagent; m_HostOvnController; m_HostOvsdbServer; m_HostOvsVswitchd; m_HostHealth;
   m_Monitor; m_Cloudmon; m_Web].

(*@ pkg/controller/cluster/onecloud_cluster_control.go:160-186 updateOnecloudCluster (dependComponents) *)
Definition dependManagers : list (Manager W) :=
  [m_Logger; m_Climc; m_Cloudmux; m_AutoUpdate; m_Cloudnet; m_Cloudproxy; m_Cloudevent; m_Devtool;
   m_Yunionconf; m_S3gateway; m_Notify; m_Baremetal; m_ServiceOperator; m_Itsm; m_CloudId;
   m_Suggestion; m_Scheduledtask; m_Report; m_Lbgent; m_EChartsSSR; m_BastionHost; m_Extdb; m_LLM;
   m_McpServer; m_AiProxy].

(*@ pkg/controller/cluster/onecloud_cluster_control.go:198-200 updateOnecloudCluster (addonComponents) *)
Definition addonManagers : list (Manager W) := [m_MonitorStack].

(** The managers of a cluster, as they are synced: etcd, the others in order,
    those that run at the same time, and those that may fail. *)
Definition clusterParts : ClusterParts W :=
  MkClusterParts m_Etcd orderedManagers dependManagers addonManagers.
End managers.
