(* ===== verification/RoutingFacts.v ===== *)
(** * RoutingFacts: which pods the services reach

    A service of Kubernetes sends its requests to the pods that have the
    labels it selects. The managers of [pkg/manager/component] build services
    and the deployments, read-only companions and daemon sets behind them
    apart, each from the type of the component: here they are put together.
    The resource operator's service selects a label its pods do not have, and
    the deployments that one component makes for several zones select each
    other's pods; nothing else gets this wrong. *)

From S2P Require Import Prelude K8s Types Constants GoStrings Defaults.
From S2P Require Import ControllerUtils LastApplied KubeApi Session CloudApi Sync Phases.
From S2P Require Import Volumes Builders Components Options GlobalSettings ServiceInit Services.
From S2P Require Import ManagerBase Managers ServiceManagers GatewayManagers AgentManagers.
From S2P Require Import HostManagers EdgeManagers ImageManagers ClusterManagers.
From S2P Require Import KubeSim CloudSim ManagerSim.

Open Scope string_scope.
Open Scope list_scope.
Open Scope go_scope.

(** ** Computations that leave the cluster's metadata alone

    [builds oc Q c]: started with the metadata of [oc], [c] ends with them,
    and what it returns satisfies [Q]. *)
Section builds.
Context {W : Type}.
Implicit Types (oc : OnecloudCluster).

Definition meta oc : ObjectMeta := OnecloudCluster_ObjectMeta oc.

Definition builds {A} oc (Q : A → Prop) (c : SM W A) : Prop := ∀ s,
  meta s.1 = meta oc →
  wp c (λ s' r, meta s'.1 = meta oc ∧ match r with Ok a => Q a | _ => True end) s.

Lemma builds_conseq {A} oc (Q Q' : A → Prop) (c : SM W A) :
  builds oc Q c → (∀ a, Q a → Q' a) → builds oc Q' c.
Proof.
  intros Hc HQ s Hs. eapply wp_conseq; [by apply Hc|]. intros s' [a|e|p] [Hs' Ha]; split; auto.
Qed.

Lemma builds_any {A} oc (Q : A → Prop) (c : SM W A) :
  builds oc Q c → builds oc (λ _, True) c.
Proof. intros H. by eapply builds_conseq. Qed.

Lemma builds_ret {A} oc (Q : A → Prop) a : Q a → builds oc Q (ret a).
Proof. by intros HQ s Hs. Qed.

Lemma builds_bind {A B} oc (P : A → Prop) (Q : B → Prop) (c : SM W A) (k : A → SM W B) :
  builds oc P c → (∀ a, P a → builds oc Q (k a)) → builds oc Q (bind c k).
Proof.
  intros Hc Hk s Hs. apply wp_bind. eapply wp_conseq; [by apply Hc|].
  intros s' [a|e|p] [Hs' Ha]; cbn [andThen]; [by apply Hk|done..].
Qed.

Lemma builds_getoc oc : builds oc (λ o, meta o = meta oc) getoc.
Proof. by intros [o w] Hs. Qed.

Lemma builds_modoc oc f : (∀ o, meta (f o) = meta o) → builds oc (λ _, True) (modoc f).
Proof. intros Hf [o w] Hs. unfold wp. simpl. by rewrite Hf. Qed.

Lemma builds_kube {A} oc (c : M W A) : builds oc (λ _, True) (kube c).
Proof. intros [o w] Hs. unfold wp, kube. destruct (c w) as [w' [a|e|p]]; by split. Qed.

Lemma builds_lift {A} oc (r : Res A) : builds oc (λ _, True) (lift r).
Proof. intros s Hs. by destruct r. Qed.

Lemma builds_panic {A} oc (Q : A → Prop) p : builds oc Q (panic p).
Proof. by intros s Hs. Qed.

Lemma builds_wrap {A} oc (Q : A → Prop) msg (c : SM W A) : builds oc Q c → builds oc Q (wrap msg c).
Proof.
  intros Hc s Hs. apply wp_wrap. eapply wp_conseq; [by apply Hc|]. by intros s' [a|e|p].
Qed.

Lemma builds_read {A} oc (ref : specEntry A) : builds oc (λ _, True) (read ref).
Proof. eapply builds_bind; [apply builds_getoc|]. intros o _. by apply builds_ret. Qed.

Lemma builds_write {A} oc (ref : specEntry A) g : builds oc (λ _, True) (write ref g).
Proof. by apply builds_modoc. Qed.
End builds.

(** ** Labels, selectors, owners *)

(** The labels of a component in the cluster [oc], or of its read-only
    companion. *)
Definition labelled oc (t : ComponentType) (ro : bool) (l : Label) : Prop :=
  getComponentLabel oc t ro ⊆ l.

(** A workload of the cluster, which selects just the pods it makes. *)
Definition workload oc (t : ComponentType) (ro : bool) (m : ObjectMeta) (sel : option LabelSelector)
    (l : Label) : Prop :=
  ObjectMeta_Namespace m = oc_ns oc ∧ ObjectMeta_OwnerReferences m = [GetOwnerRef oc] ∧
  sel = Some (MkLabelSelector l []) ∧ labelled oc t ro l.

Definition pod_labels (d : Deployment) : Label :=
  ObjectMeta_Labels (PodTemplateSpec_ObjectMeta (apps_DeploymentSpec_Template (Deployment_Spec d))).
Definition ds_pod_labels (d : DaemonSet) : Label :=
  ObjectMeta_Labels (PodTemplateSpec_ObjectMeta (apps_DaemonSetSpec_Template (DaemonSet_Spec d))).

Definition deployment_of oc t ro (d : Deployment) : Prop :=
  workload oc t ro (Deployment_ObjectMeta d) (apps_DeploymentSpec_Selector (Deployment_Spec d))
    (pod_labels d).
Definition daemons_of oc t (d : DaemonSet) : Prop :=
  workload oc t false (DaemonSet_ObjectMeta d) (apps_DaemonSetSpec_Selector (DaemonSet_Spec d))
    (ds_pod_labels d).

(** The name of the service of a component, and of that of its companion. *)
Definition service_name oc (t : ComponentType) (ro : bool) : string :=
  NewClusterComponentName (oc_name oc) t +:+ (if ro then "-slave" else "").

Definition service_of oc (t : ComponentType) (svc : core_Service) : Prop :=
  ∃ ro, obj_name svc = service_name oc t ro ∧
        core_ServiceSpec_Selector (core_Service_Spec svc) = getComponentLabel oc t ro.

Lemma same_label o oc t ro : meta o = meta oc → getComponentLabel o t ro = getComponentLabel oc t ro.
Proof. unfold meta, getComponentLabel. by intros ->. Qed.
Lemma same_ns o oc : meta o = meta oc → oc_ns o = oc_ns oc.
Proof. unfold meta, oc_ns. by intros ->. Qed.
Lemma same_name o oc : meta o = meta oc → oc_name o = oc_name oc.
Proof. unfold meta, oc_name. by intros ->. Qed.
Lemma same_owner o oc : meta o = meta oc → GetOwnerRef o = GetOwnerRef oc.
Proof. unfold meta, GetOwnerRef, oc_name, oc_uid. by intros ->. Qed.

Lemma newService_of o oc t type ports ro :
  meta o = meta oc → service_of oc t (newService t o type ports ro).
Proof.
  intros Hm. exists ro. unfold newService, newServiceWithClusterIp, service_name.
  rewrite <-(same_name _ _ Hm), <-(same_label _ _ t ro Hm).
  destruct ro; split; try done. simpl. by rewrite str_app_nil_r.
Qed.

Lemma newNodePortService_of o oc t internal ports ro :
  meta o = meta oc → Forall (service_of oc t) (newNodePortService t o internal ports ro).
Proof.
  intros Hm. constructor; [by apply newService_of|].
  destruct ro; [constructor; [by apply newService_of|]|]; constructor.
Qed.

Lemma headless_of o oc t :
  meta o = meta oc →
  service_of oc t (Mkcore_Service
    (getObjectMeta o (NewClusterComponentName (oc_name o) t) (getComponentLabel o t false))
    ((zero : core_ServiceSpec) <| core_ServiceSpec_ClusterIP := "None" |>
       <| core_ServiceSpec_Selector := getComponentLabel o t false |>)).
Proof.
  intros Hm. exists false. unfold service_name.
  by rewrite str_app_nil_r, <-(same_name _ _ Hm), <-(same_label _ _ t false Hm).
Qed.

(** ** Changes that leave labels and selectors alone *)

Lemma in_pod_of oc t ro g d : deployment_of oc t ro d → deployment_of oc t ro (in_pod g d).
Proof. done. Qed.
Lemma recreated_of oc t ro d : deployment_of oc t ro d → deployment_of oc t ro (recreated d).
Proof. done. Qed.
Lemma onStorage_of oc t ro o storage vol c d :
  deployment_of oc t ro d → deployment_of oc t ro (onStorage o storage vol c d).
Proof. intros H. unfold onStorage. by destruct (String.eqb _ _). Qed.
Lemma if_of oc t ro (b : bool) d d' :
  deployment_of oc t ro d → deployment_of oc t ro d' →
  deployment_of oc t ro (if b then d else d').
Proof. by destruct b. Qed.

(** The label of the host deployer is not one of the component's. *)
Lemma labelled_deployer oc t ro l :
  labelled oc t ro l → labelled oc t ro (<[OnecloudHostDeployerLabelKey := ""]> l).
Proof.
  intros Hl. unfold labelled. apply insert_subseteq_r; [|done].
  destruct ro; by vm_compute.
Qed.

Lemma besideDeployer_of oc t ro d : deployment_of oc t ro d → deployment_of oc t ro (besideDeployer d).
Proof.
  intros (Hn & Ho & Hs & Hl). split; [done|]. split; [done|]. split.
  - unfold besideDeployer, pod_labels in *. simpl. by rewrite Hs.
  - by apply labelled_deployer.
Qed.

Lemma in_ds_pod_of oc t g d : daemons_of oc t d → daemons_of oc t (in_ds_pod g d).
Proof. done. Qed.
Lemma maxUnavailable_of oc t n d : daemons_of oc t d → daemons_of oc t (maxUnavailable n d).
Proof. done. Qed.
Lemma withDeployerLabel_of oc t d : daemons_of oc t d → daemons_of oc t (withDeployerLabel d).
Proof.
  intros (Hn & Ho & Hs & Hl). split; [done|]. split; [done|]. split.
  - unfold withDeployerLabel, ds_pod_labels in *. simpl. by rewrite Hs.
  - by apply labelled_deployer.
Qed.

(** What an optional daemon set is. *)
Definition some_daemons oc t (o : option DaemonSet) : Prop := ∀ d, o = Some d → daemons_of oc t d.
Definition some_deployment oc t ro (o : option Deployment) : Prop :=
  ∀ d, o = Some d → deployment_of oc t ro d.

Lemma some_daemons_Some oc t d : daemons_of oc t d → some_daemons oc t (Some d).
Proof. by intros Hd d' [= <-]. Qed.
Lemma some_daemons_None oc t : some_daemons oc t None.
Proof. by intros d. Qed.
Lemma some_deployment_Some oc t ro d : deployment_of oc t ro d → some_deployment oc t ro (Some d).
Proof. by intros Hd d' [= <-]. Qed.
Lemma some_deployment_None oc t ro : some_deployment oc t ro None.
Proof. by intros d. Qed.
Lemma option_map_of oc t (g : DaemonSet → DaemonSet) o :
  (∀ d, daemons_of oc t d → daemons_of oc t (g d)) → some_daemons oc t o →
  some_daemons oc t (option_map g o).
Proof. intros Hg Ho d. destruct o as [d0|]; simpl; [|done]. intros [= <-]. by apply Hg, Ho. Qed.
Lemma antiEviction_of oc t b o :
  some_daemons oc t o → some_daemons oc t (applyHostComponentAntiEviction b o).
Proof.
  intros Ho d. destruct o as [d0|]; simpl; [|done].
  destruct (negb b); intros [= <-]; [by apply Ho|by apply in_ds_pod_of, Ho].
Qed.

Create HintDb routing.
#[export] Hint Resolve in_pod_of recreated_of onStorage_of if_of besideDeployer_of in_ds_pod_of
  maxUnavailable_of withDeployerLabel_of some_daemons_Some some_daemons_None
  some_deployment_Some some_deployment_None option_map_of antiEviction_of
  newService_of newNodePortService_of headless_of : routing.
#[export] Hint Constructors Forall : routing.

(** ** What the builders make *)
Section builders.
Context {W : Type} `{!NodeLister W, !QuantityOps}.
Context (DisableNodeSelectorController : bool).
Implicit Types (ref : specEntry DeploymentSpec).

Lemma withResources_any {A} oc (ref : specEntry A) container put pod :
  builds oc (λ _, True) (withResources (W := W) ref container put pod).
Proof.
  unfold withResources. eapply builds_bind; [apply builds_read|]. intros spec _.
  eapply builds_bind; [apply builds_getoc|]. intros o _.
  eapply builds_bind; [apply builds_kube|]. intros [c p] _.
  eapply builds_bind; [apply builds_write|]. intros _ _. by apply builds_ret.
Qed.

Lemma newDeployment_of oc cType zone h ref f g host dns :
  builds oc (deployment_of oc cType false)
    (newDeployment (W := W) cType zone h ref f g host dns).
Proof.
  unfold newDeployment. eapply builds_bind; [apply builds_getoc|]. intros o Ho.
  eapply builds_bind; [apply builds_read|]. intros spec _.
  eapply builds_bind; [apply withResources_any|]. intros pod _. apply builds_ret.
  assert (deployment_of oc cType false (appDeployment cType (default_str cType zone) o h spec f g host dns)) as Hd.
  { split; [by apply same_ns|]. split; [by rewrite <-(same_owner _ _ Ho)|]. split; [done|].
    unfold labelled. by rewrite <-(same_label _ _ _ _ Ho). }
  destruct host; exact Hd.
Qed.

Lemma withInit_of oc cType zone h ref f g :
  builds oc (deployment_of oc cType false)
    (newDefaultDeploymentWithCloudAffinity (W := W) DisableNodeSelectorController cType zone h ref f g).
Proof.
  eapply builds_bind; [apply builds_write|]. intros _ _. apply newDeployment_of.
Qed.

Lemma newCloudServiceDeployment_of oc cType zone ref f ports tls keep path :
  builds oc (deployment_of oc cType false)
    (newCloudServiceDeployment (W := W) DisableNodeSelectorController cType zone ref f ports tls keep path).
Proof.
  unfold newCloudServiceDeployment. eapply builds_bind with (P := λ _, True).
  { destruct (str_empty path); [by apply builds_ret|].
    destruct ports; [apply builds_panic|by apply builds_ret]. }
  intros probe _. eapply builds_bind; [apply builds_getoc|]. intros o _.
  eapply builds_bind; [apply builds_read|]. intros spec _.
  eapply builds_bind; [apply withInit_of|]. intros d Hd. apply builds_ret. by destruct keep.
Qed.

Lemma singlePort_of oc cType zone ref port doInit tls path :
  builds oc (deployment_of oc cType false)
    (newCloudServiceSinglePortDeploymentWithReadinessProbePath (W := W) DisableNodeSelectorController
       cType zone ref port doInit tls path).
Proof.
  unfold newCloudServiceSinglePortDeploymentWithReadinessProbePath. destruct doInit.
  - eapply builds_bind; [apply builds_read|]. intros spec _. apply newCloudServiceDeployment_of.
  - apply newCloudServiceDeployment_of.
Qed.

Lemma setSelfAntiAffnity_of oc t ro ref d cType :
  deployment_of oc t ro d →
  builds oc (deployment_of oc t ro) (setSelfAntiAffnity (W := W) ref d cType).
Proof.
  intros Hd. unfold setSelfAntiAffnity. destruct (PodSpec_Affinity _); [|by apply builds_ret].
  eapply builds_bind; [by apply builds_modoc|]. intros _ _. by apply builds_ret.
Qed.

Lemma selectingNodes_of oc t ro ref k v d :
  deployment_of oc t ro d → builds oc (deployment_of oc t ro) (selectingNodes (W := W) ref k v d).
Proof.
  intros Hd. eapply builds_bind; [apply builds_write|]. intros _ _. by apply builds_ret.
Qed.

Lemma newDaemonSet_of oc cType h spec strategy inits f :
  builds oc (daemons_of oc cType) (newDaemonSet (W := W) cType h spec strategy inits f).
Proof.
  eapply builds_bind; [apply builds_getoc|]. intros o Ho. apply builds_ret.
  split; [by apply same_ns|]. split; [by rewrite <-(same_owner _ _ Ho)|]. split; [done|].
  unfold labelled. by rewrite <-(same_label _ _ _ _ Ho).
Qed.

Lemma newDaemonSetWithLimits_of oc cType h spec strategy inits f limits :
  builds oc (daemons_of oc cType)
    (newDaemonSetWithLimits (W := W) cType h spec strategy inits f limits).
Proof.
  unfold newDaemonSetWithLimits. eapply builds_bind; [apply builds_getoc|]. intros o Ho.
  eapply builds_bind; [apply builds_read|]. intros sp _.
  assert (daemons_of oc cType (appDaemonSet cType o h sp strategy inits f)) as Hds.
  { split; [by apply same_ns|]. split; [by rewrite <-(same_owner _ _ Ho)|]. split; [done|].
    unfold labelled. by rewrite <-(same_label _ _ _ _ Ho). }
  destruct limits; [|by apply builds_ret].
  eapply builds_bind; [apply withResources_any|]. intros pod _. by apply builds_ret.
Qed.
End builders.

(** ** What the managers want *)

Ltac built := lazymatch goal with
  | |- builds _ _ (bind ?c _) =>
      lazymatch type of c with
      | SM _ unit => apply builds_bind with (P := λ _, True)
      | M _ unit => apply builds_bind with (P := λ _, True)
      | _ => eapply builds_bind
      end; [built | intros ? ?; built]
  | |- builds _ _ (wrap _ _) => apply builds_wrap; built
  | |- builds _ _ (if ?b then _ else _) => destruct b; built
  | |- builds _ _ (match ?x with _ => _ end) => destruct x; built
  | |- builds _ _ (ret _) =>
      apply builds_ret; first [exact I | solve [eauto 10 with routing] | idtac]
  | |- builds _ _ getoc => apply builds_getoc
  | |- builds _ _ (read _) => apply builds_read
  | |- builds _ _ (write _ _) => apply builds_write
  | |- builds _ _ (kube _) => apply builds_kube
  | |- builds _ _ (lift _) => apply builds_lift
  | |- builds _ _ (panic _) => apply builds_panic
  | |- builds _ _ (modoc _) => apply builds_modoc; reflexivity
  | |- builds _ _ (newDefaultDeployment _ _ _ _ _ _ _) => apply withInit_of
  | |- builds _ _ (newDefaultDeploymentNoInit _ _ _ _ _ _) => apply withInit_of
  | |- builds _ _ (newDefaultDeploymentNoInitWithoutCloudAffinity _ _ _ _ _ _) =>
      apply newDeployment_of
  | |- builds _ _ (newCloudServiceSinglePortDeployment _ _ _ _ _ _ _) => apply singlePort_of
  | |- builds _ _ (newCloudServiceSinglePortDeploymentWithReadinessProbePath _ _ _ _ _ _ _ _) =>
      apply singlePort_of
  | |- builds _ _ (setSelfAntiAffnity _ _ _) =>
      apply setSelfAntiAffnity_of; eauto 10 with routing
  | |- builds _ _ (selectingNodes _ _ _ _) => apply selectingNodes_of; eauto 10 with routing
  | |- builds _ _ (newDaemonSet _ _ _ _ _ _) => apply newDaemonSet_of
  | |- builds _ _ (newDaemonSetWithLimits _ _ _ _ _ _ _) => apply newDaemonSetWithLimits_of
  | |- _ => idtac
  end.

Section managers.
Context {W : Type} `{!SessionEnv W, !JsonUtils, !CloudApi W, !OptionsLib W, !YamlLib, !SettingsCodec}.
Context `{!NodeLister W, !QuantityOps, !SecretApi W, !GlanceMemo W}.
Context `{!ResourceApi W Deployment, !ResourceApi W ConfigMap, !ResourceApi W core_Service}.
Context `{!ResourceApi W DaemonSet}.
Context (SessionDebug d v120 : bool) (man : ComponentManager W).
Context (oc : OnecloudCluster).
Implicit Types (m : cloudComponentFactory W) (ref : specEntry DeploymentSpec).

Definition routes m : Prop :=
  let t := GetComponentType m in
  (∀ cfg zone, builds oc (some_deployment oc t false) (getDeployment m cfg zone)) ∧
  (∀ cfg zone, builds oc (Forall (service_of oc t)) (getService m cfg zone)) ∧
  (∀ cfg zone dep, deployment_of oc t false dep →
     builds oc (some_deployment oc t true) (getReadonlyDeployment m cfg zone dep)) ∧
  (∀ cfg zone, builds oc (some_daemons oc t) (getDaemonSet m cfg zone)).

Lemma routes_base t disabled versions : routes (baseManager t disabled versions).
Proof.
  split_and!; intros; apply builds_ret; first [apply some_deployment_None|apply some_daemons_None|done].
Qed.

Lemma routes_getDeployment g m :
  (∀ cfg zone, builds oc (some_deployment oc (GetComponentType m) false) (g cfg zone)) →
  routes m → routes (m <| getDeployment := g |>).
Proof. by intros Hg (? & ? & ? & ?). Qed.

Lemma routes_getService g m :
  (∀ cfg zone, builds oc (Forall (service_of oc (GetComponentType m))) (g cfg zone)) →
  routes m → routes (m <| getService := g |>).
Proof. by intros Hg (? & ? & ? & ?). Qed.

Lemma routes_getDaemonSet g m :
  (∀ cfg zone, builds oc (some_daemons oc (GetComponentType m)) (g cfg zone)) →
  routes m → routes (m <| getDaemonSet := g |>).
Proof. by intros Hg (? & ? & ? & ?). Qed.

Lemma routes_deploys g m :
  (∀ cfg, builds oc (deployment_of oc (GetComponentType m) false) (g cfg)) →
  routes m → routes (deploys g m).
Proof.
  intros Hg. apply routes_getDeployment. intros cfg zone. eapply builds_bind; [apply Hg|].
  intros dep Hd. by apply builds_ret, some_deployment_Some.
Qed.

Lemma routes_exposes svc ref port m : routes m → routes (exposes svc ref port m).
Proof.
  apply routes_getService. intros cfg zone. eapply builds_bind; [apply builds_getoc|].
  intros o Ho. by apply builds_ret, newNodePortService_of.
Qed.

Lemma genReadonly_of o t dep spec :
  meta o = meta oc → deployment_of oc t false dep →
  deployment_of oc t true (genReadonlyDeployment t o dep spec).
Proof.
  intros Hm (Hn & Ho & _). split; [done|]. split; [done|]. split; [done|].
  unfold labelled. by rewrite <-(same_label _ _ _ _ Hm).
Qed.

Lemma routes_readOnly ref m : routes m → routes (readOnly ref m).
Proof.
  intros (Hdep & Hsvc & _ & Hds). split; [done|]. split; [done|]. split; [|done].
  intros cfg zone dep Hd. eapply builds_bind; [apply builds_getoc|].
  intros o Ho. by apply builds_ret, some_deployment_Some, genReadonly_of.
Qed.

Lemma routes_cloudService ref port doInit tls m :
  routes m → routes (cloudService d ref port doInit tls m).
Proof. apply routes_deploys. intros cfg. apply singlePort_of. Qed.

Lemma routes_aiproxyService m : routes m → routes (aiproxyService m).
Proof.
  intros (Hdep & Hsvc & Hro & Hds). split; [done|]. split; [|by split].
  intros cfg zone. eapply builds_bind; [apply Hsvc|]. intros svcs Hsvcs. apply builds_ret.
  apply Forall_map. eapply Forall_impl; [exact Hsvcs|]. by intros svc (ro & Hn & Hs); exists ro.
Qed.

(** Methods that concern none of the four. *)
Lemma routes_withEngine e m : routes m → routes (withEngine e m).
Proof. by intros (? & ? & ? & ?). Qed.
Lemma routes_withAccount c m : routes m → routes (withAccount c m).
Proof. by intros (? & ? & ? & ?). Qed.
Lemma routes_withData c e m : routes m → routes (withData c e m).
Proof. by intros (? & ? & ? & ?). Qed.
Lemma routes_withClickhouseData c m : routes m → routes (withClickhouseData c m).
Proof. by intros (? & ? & ? & ?). Qed.
Lemma routes_configuredBy c m : routes m → routes (configuredBy c m).
Proof. by intros (? & ? & ? & ?). Qed.
Lemma routes_configuredInZone c m : routes m → routes (configuredInZone c m).
Proof. by intros (? & ? & ? & ?). Qed.
Lemma routes_forceWithoutDB c m : routes m → routes (forceWithoutDB c m).
Proof. by intros (? & ? & ? & ?). Qed.
Lemma routes_registers n ty svc m : routes m → routes (registers SessionDebug n ty svc m).
Proof. by intros (? & ? & ? & ?). Qed.
Lemma routes_phasedBy svc m : routes m → routes (phasedBy man svc m).
Proof. by intros (? & ? & ? & ?). Qed.
Lemma routes_servedBy svc m : routes m → routes (servedBy man svc m).
Proof. by intros (? & ? & ? & ?). Qed.
Lemma routes_reports st m : routes m → routes (reports st m).
Proof. by intros (? & ? & ? & ?). Qed.
Lemma routes_follows n ref m : routes m → routes (follows n ref m).
Proof. by intros (? & ? & ? & ?). Qed.
Lemma routes_claims t sp m : routes m → routes (claims t sp m).
Proof. by intros (? & ? & ? & ?). Qed.
Lemma routes_set_IsDisabled g m : routes m → routes (m <| IsDisabled := g |>).
Proof. by intros (? & ? & ? & ?). Qed.
Lemma routes_set_getDBConfig g m : routes m → routes (m <| getDBConfig := g |>).
Proof. by intros (? & ? & ? & ?). Qed.
Lemma routes_set_getClickhouseConfig g m : routes m → routes (m <| getClickhouseConfig := g |>).
Proof. by intros (? & ? & ? & ?). Qed.
Lemma routes_set_getPhaseControl g m : routes m → routes (m <| getPhaseControl := g |>).
Proof. by intros (? & ? & ? & ?). Qed.
Lemma routes_set_getConfigMap g m : routes m → routes (m <| getConfigMap := g |>).
Proof. by intros (? & ? & ? & ?). Qed.
Lemma routes_set_getDBEngine g m : routes m → routes (m <| getDBEngine := g |>).
Proof. by intros (? & ? & ? & ?). Qed.
Lemma routes_set_getPVC g m : routes m → routes (m <| getPVC := g |>).
Proof. by intros (? & ? & ? & ?). Qed.
Lemma routes_set_getIngress g m : routes m → routes (m <| getIngress := g |>).
Proof. by intros (? & ? & ? & ?). Qed.
Lemma routes_set_updateIngress g m : routes m → routes (m <| updateIngress := g |>).
Proof. by intros (? & ? & ? & ?). Qed.
Lemma routes_set_getDeploymentStatus g m : routes m → routes (m <| getDeploymentStatus := g |>).
Proof. by intros (? & ? & ? & ?). Qed.
Lemma routes_set_getMcclientSyncFunc g m : routes m → routes (m <| getMcclientSyncFunc := g |>).
Proof. by intros (? & ? & ? & ?). Qed.

(** The methods a manager is made of, one by one. *)
Ltac routed := lazymatch goal with
  | |- routes (baseManager _ _ _) => apply routes_base
  | |- routes (manages _ _) => apply routes_base
  | |- routes (managesEE _ _) => apply routes_base
  | |- routes (exposes _ _ _ _) => apply routes_exposes; routed
  | |- routes (aiproxyService _) => apply routes_aiproxyService; routed
  | |- routes (readOnly _ _) => apply routes_readOnly; routed
  | |- routes (cloudService _ _ _ _ _ _) => apply routes_cloudService; routed
  | |- routes (server _ _ _ _) => apply routes_deploys; [intros ?; unfold serverDeployment; built|routed]
  | |- routes (deploys _ _) => apply routes_deploys; [intros ?; built|routed]
  | |- routes (deploysAsOperator _ _) => apply routes_deploys; [intros ?; built|routed]
  | |- routes (@set _ _ (@getDeployment _ _) _ _ _) => apply routes_getDeployment; [intros ? ?; built|routed]
  | |- routes (@set _ _ (@getService _ _) _ _ _) => apply routes_getService; [intros ? ?; built|routed]
  | |- routes (@set _ _ (@getDaemonSet _ _) _ _ _) => apply routes_getDaemonSet; [intros ? ?; built|routed]
  | |- routes (withEngine _ _) => apply routes_withEngine; routed
  | |- routes (withAccount _ _) => apply routes_withAccount; routed
  | |- routes (withData _ _ _) => apply routes_withData; routed
  | |- routes (withClickhouseData _ _) => apply routes_withClickhouseData; routed
  | |- routes (configuredBy _ _) => apply routes_configuredBy; routed
  | |- routes (configuredInZone _ _) => apply routes_configuredInZone; routed
  | |- routes (forceWithoutDB _ _) => apply routes_forceWithoutDB; routed
  | |- routes (registers _ _ _ _ _) => apply routes_registers; routed
  | |- routes (phasedBy _ _ _) => apply routes_phasedBy; routed
  | |- routes (servedBy _ _ _) => apply routes_servedBy; routed
  | |- routes (reports _ _) => apply routes_reports; routed
  | |- routes (follows _ _ _) => apply routes_follows; routed
  | |- routes (claims _ _ _) => apply routes_claims; routed
  | |- routes (@set _ _ (@IsDisabled _ _) _ _ _) => apply routes_set_IsDisabled; routed
  | |- routes (@set _ _ (@getDBConfig _ _) _ _ _) => apply routes_set_getDBConfig; routed
  | |- routes (@set _ _ (@getClickhouseConfig _ _) _ _ _) => apply routes_set_getClickhouseConfig; routed
  | |- routes (@set _ _ (@getPhaseControl _ _) _ _ _) => apply routes_set_getPhaseControl; routed
  | |- routes (@set _ _ (@getConfigMap _ _) _ _ _) => apply routes_set_getConfigMap; routed
  | |- routes (@set _ _ (@getDBEngine _ _) _ _ _) => apply routes_set_getDBEngine; routed
  | |- routes (@set _ _ (@getPVC _ _) _ _ _) => apply routes_set_getPVC; routed
  | |- routes (@set _ _ (@getIngress _ _) _ _ _) => apply routes_set_getIngress; routed
  | |- routes (@set _ _ (@updateIngress _ _) _ _ _) => apply routes_set_updateIngress; routed
  | |- routes (@set _ _ (@getDeploymentStatus _ _) _ _ _) => apply routes_set_getDeploymentStatus; routed
  | |- routes (@set _ _ (@getMcclientSyncFunc _ _) _ _ _) => apply routes_set_getMcclientSyncFunc; routed
  end.

Lemma based_routes service : routes (newhostBasedDsManager v120 service).
Proof.
  unfold newhostBasedDsManager, based_getDaemonSet, based_newDaemonSet, set_hostDs. routed.
Qed.
Lemma keystone_routes : routes (newKeystoneComponentManager d man).
Proof. unfold newKeystoneComponentManager, keystone_getDeployment, keystone_getService. routed. Qed.
Lemma logger_routes : routes (newLoggerManager SessionDebug d man).
Proof. unfold newLoggerManager. routed. Qed.
Lemma region_routes : routes (newRegionManager d man).
Proof. unfold newRegionManager, region_getService. routed. Qed.
Lemma regiondns_routes : routes (newRegionDNSManager d).
Proof. unfold newRegionDNSManager, regiondns_getDaemonSet, regiondns_getService. routed. Qed.
Lemma climc_routes : routes (newClimcComponentManager d).
Proof. unfold newClimcComponentManager, climc_getDeployment. routed. Qed.
Lemma cloudmux_routes : routes (newCloudmuxComponentManager d).
Proof. unfold newCloudmuxComponentManager, cloudmux_getDeployment. routed. Qed.
Lemma glance_routes : routes (newGlanceManager d man).
Proof. unfold newGlanceManager, glance_getDeployment. routed. Qed.
Lemma webconsole_routes : routes (newWebconsoleManager SessionDebug d man).
Proof. unfold newWebconsoleManager, webconsole_getDeployment. routed. Qed.
Lemma scheduler_routes : routes (newSchedulerManager SessionDebug d man).
Proof. unfold newSchedulerManager. routed. Qed.
Lemma apimap_routes : routes (newAPIMapManager SessionDebug d).
Proof. unfold newAPIMapManager. routed. Qed.
Lemma influxdb_routes : routes (newInfluxdbManager SessionDebug d man).
Proof. unfold newInfluxdbManager, influxdb_getDeployment. routed. Qed.
Lemma vm_routes : routes (newVictoriaMetricsManager SessionDebug d man).
Proof. unfold newVictoriaMetricsManager, vm_getDeployment. routed. Qed.
Lemma yunionagent_daemons :
  builds oc (daemons_of oc YunionagentComponentType) (yunionagent_getDaemonSet (W := W) d).
Proof. unfold yunionagent_getDaemonSet. built. Qed.
Lemma yunionagent_routes : routes (newYunionagentManager d man).
Proof.
  unfold newYunionagentManager, yunionagent_getService.
  apply routes_set_getMcclientSyncFunc, routes_getDaemonSet; [|routed].
  intros cfg zone. eapply builds_bind; [apply yunionagent_daemons|].
  intros ds Hds. by apply builds_ret, some_daemons_Some.
Qed.
Lemma yunionconf_routes : routes (newYunionconfManager SessionDebug d man).
Proof. unfold newYunionconfManager. routed. Qed.
Lemma kubeserver_routes : routes (newKubeManager d man).
Proof. unfold newKubeManager. routed. Qed.
Lemma ansible_routes : routes (newAnsibleManager SessionDebug d man).
Proof. unfold newAnsibleManager. routed. Qed.
Lemma cloudnet_routes : routes (newCloudnetManager SessionDebug d).
Proof. unfold newCloudnetManager. routed. Qed.
Lemma cloudproxy_routes : routes (newCloudproxyManager d man).
Proof. unfold newCloudproxyManager. routed. Qed.
Lemma apigateway_routes : routes (newAPIGatewayManager SessionDebug d man).
Proof. unfold newAPIGatewayManager, apigateway_getDeployment, apigateway_getService. routed. Qed.
Lemma web_routes : routes (newWebManager d).
Proof. unfold newWebManager, web_getDeployment, web_getService. routed. Qed.
Lemma notify_routes : routes (newNotifyManager SessionDebug d man).
Proof. unfold newNotifyManager. routed. Qed.
Lemma baremetal_routes : routes (newBaremetalManager SessionDebug).
Proof. unfold newBaremetalManager, baremetal_getDeployment, updateBaremetalSpecByNodeInfo. routed. Qed.
Lemma ovnnorth_routes : routes (newOvnNorthManager d).
Proof. unfold newOvnNorthManager, ovnnorth_getDeployment, ovnnorth_getService. routed. Qed.
Lemma vpcagent_routes : routes (newVpcAgentManager SessionDebug d).
Proof. unfold newVpcAgentManager. routed. Qed.
Lemma cloudevent_routes : routes (newCloudeventManager SessionDebug d).
Proof. unfold newCloudeventManager, cloudevent_getDeployment. routed. Qed.
Lemma s3gateway_routes : routes (newS3gatewayManager SessionDebug d).
Proof. unfold newS3gatewayManager. routed. Qed.
Lemma devtool_routes : routes (newDevtoolManager d man).
Proof. unfold newDevtoolManager. routed. Qed.
Lemma meter_routes : routes (newMeterManager SessionDebug d).
Proof. unfold newMeterManager. routed. Qed.
Lemma billing_routes : routes (newBillingManager SessionDebug d).
Proof. unfold newBillingManager. routed. Qed.
Lemma autoupdate_routes : routes (newAutoUpdateManager SessionDebug d).
Proof. unfold newAutoUpdateManager. routed. Qed.
Lemma esxi_routes : routes (newEsxiManager d).
Proof. unfold newEsxiManager, esxi_getDeployment. routed. Qed.
Lemma monitor_routes : routes (newMonitorManager d man).
Proof. unfold newMonitorManager. routed. Qed.
Lemma itsm_routes : routes (newItsmManager SessionDebug d).
Proof. unfold newItsmManager, itsm_getDeployment. routed. Qed.
Lemma cloudid_routes : routes (newCloudIdManager SessionDebug d man).
Proof. unfold newCloudIdManager. routed. Qed.
Lemma cloudmon_routes : routes (newCloudMonManager SessionDebug d man).
Proof. unfold newCloudMonManager, cloudmon_getDeployment. routed. Qed.
Lemma suggestion_routes : routes (newSuggestionManager SessionDebug d).
Proof. unfold newSuggestionManager. routed. Qed.
Lemma scheduledtask_routes : routes (newScheduledtaskManager SessionDebug d man).
Proof. unfold newScheduledtaskManager. routed. Qed.
Lemma report_routes : routes (newReportManager SessionDebug d).
Proof. unfold newReportManager. routed. Qed.
Lemma echarts_routes : routes (newEChartsSSR d man).
Proof. unfold newEChartsSSR, echarts_getDeployment, echarts_getService. routed. Qed.
Lemma bastionhost_routes : routes (newBastionHostManager SessionDebug d).
Proof. unfold newBastionHostManager. routed. Qed.
Lemma extdb_routes : routes (newExtdbManager SessionDebug d).
Proof. unfold newExtdbManager. routed. Qed.
Lemma llm_routes : routes (newLLMManager d man).
Proof. unfold newLLMManager. routed. Qed.
Lemma mcpserver_routes : routes (newMcpServerManager SessionDebug d man).
Proof. unfold newMcpServerManager. routed. Qed.
Lemma aiproxy_routes : routes (newAiProxyManager SessionDebug d man).
Proof. unfold newAiProxyManager. routed. Qed.
Lemma host_routes : routes (newHostManager SessionDebug v120).
Proof. unfold newHostManager, host_newDaemonSet, set_hostDs. routed. Qed.
Lemma lbagent_routes : routes (newLbagentManager SessionDebug).
Proof. unfold newLbagentManager, newLbagentPrivilegedDaemonSet. routed. Qed.
Lemma deployer_routes : routes (newHostDeployerManger v120).
Proof. unfold newHostDeployerManger, deployer_newDaemonSet. routed. Qed.
Lemma telegraf_routes : routes (newTelegrafManager).
Proof. unfold newTelegrafManager, newTelegrafDaemonSet. routed. Qed.
Lemma hostimage_routes : routes (newHostImageManager v120).
Proof. apply based_routes. Qed.
Lemma hosthealth_routes : routes (newHostHealthManager v120).
Proof. apply based_routes. Qed.
Lemma sdnagent_routes : routes (newHostSdnagentManager v120).
Proof. apply based_routes. Qed.
Lemma ovncontroller_routes : routes (newHostOvnControllerManager v120).
Proof. apply based_routes. Qed.
Lemma ovsdb_routes : routes (newHostOvsdbServerManager v120).
Proof. apply based_routes. Qed.
Lemma vswitchd_routes : routes (newHostOvsVswitchdManager v120).
Proof. apply based_routes. Qed.

(** Every manager but those of etcd and of the monitoring stack, which go their
    own ways, and of the resource operator. *)
Definition servingManagers : list (cloudComponentFactory W) :=
  [newKeystoneComponentManager d man;
   newLoggerManager SessionDebug d man;
   newRegionManager d man;
   newRegionDNSManager d;
   newClimcComponentManager d;
   newCloudmuxComponentManager d;
   newGlanceManager d man;
   newWebconsoleManager SessionDebug d man;
   newSchedulerManager SessionDebug d man;
   newAPIMapManager SessionDebug d;
   newInfluxdbManager SessionDebug d man;
   newVictoriaMetricsManager SessionDebug d man;
   newYunionagentManager d man;
   newYunionconfManager SessionDebug d man;
   newKubeManager d man;
   newAnsibleManager SessionDebug d man;
   newCloudnetManager SessionDebug d;
   newCloudproxyManager d man;
   newAPIGatewayManager SessionDebug d man;
   newWebManager d;
   newNotifyManager SessionDebug d man;
   newBaremetalManager SessionDebug;
   newOvnNorthManager d;
   newVpcAgentManager SessionDebug d;
   newCloudeventManager SessionDebug d;
   newS3gatewayManager SessionDebug d;
   newDevtoolManager d man;
   newMeterManager SessionDebug d;
   newBillingManager SessionDebug d;
   newAutoUpdateManager SessionDebug d;
   newEsxiManager d;
   newMonitorManager d man;
   newItsmManager SessionDebug d;
   newCloudIdManager SessionDebug d man;
   newCloudMonManager SessionDebug d man;
   newSuggestionManager SessionDebug d;
   newScheduledtaskManager SessionDebug d man;
   newReportManager SessionDebug d;
   newEChartsSSR d man;
   newBastionHostManager SessionDebug d;
   newExtdbManager SessionDebug d;
   newLLMManager d man;
   newMcpServerManager SessionDebug d man;
   newAiProxyManager SessionDebug d man;
   newHostManager SessionDebug v120;
   newLbagentManager SessionDebug;
   newHostDeployerManger v120;
   newTelegrafManager;
   newHostImageManager v120;
   newHostHealthManager v120;
   newHostSdnagentManager v120;
   newHostOvnControllerManager v120;
   newHostOvsdbServerManager v120;
   newHostOvsVswitchdManager v120].

Create HintDb managers discriminated.
#[local] Hint Constants Opaque : managers.
#[local] Hint Resolve
  keystone_routes logger_routes region_routes regiondns_routes climc_routes
  cloudmux_routes glance_routes webconsole_routes scheduler_routes apimap_routes
  influxdb_routes vm_routes yunionagent_routes yunionconf_routes kubeserver_routes
  ansible_routes cloudnet_routes cloudproxy_routes apigateway_routes web_routes
  notify_routes baremetal_routes ovnnorth_routes vpcagent_routes cloudevent_routes
  s3gateway_routes devtool_routes meter_routes billing_routes autoupdate_routes
  esxi_routes monitor_routes itsm_routes cloudid_routes cloudmon_routes
  suggestion_routes scheduledtask_routes report_routes echarts_routes bastionhost_routes
  extdb_routes llm_routes mcpserver_routes aiproxy_routes host_routes lbagent_routes
  deployer_routes telegraf_routes hostimage_routes hosthealth_routes sdnagent_routes
  ovncontroller_routes ovsdb_routes vswitchd_routes : managers.

Lemma serving_route : Forall routes servingManagers.
Proof. repeat (apply Forall_cons_2; [auto with managers nocore|]). apply Forall_nil_2. Qed.

(** ** Selecting pods *)

(** A component and its companion are told apart by one label. *)
Definition app_name (t : ComponentType) (ro : bool) : string := if ro then t +:+ "-slave" else t.

Definition servingTypes : list ComponentType := map GetComponentType servingManagers.

Definition told_apart (ts : list ComponentType) : bool :=
  forallb (λ t, forallb (λ t',
    negb (String.eqb t (app_name t' true)) &&
    implb (String.eqb (app_name t true) (app_name t' true)) (String.eqb t t')) ts) ts.

Lemma serving_told_apart : told_apart servingTypes = true.
Proof. vm_compute. reflexivity. Qed.

Lemma app_name_inj t t' ro ro' : t ∈ servingTypes → t' ∈ servingTypes →
  app_name t ro = app_name t' ro' → t = t' ∧ ro = ro'.
Proof.
  intros Ht Ht' He. pose proof serving_told_apart as Ha. unfold told_apart in Ha.
  assert (∀ x y, x ∈ servingTypes → y ∈ servingTypes →
            x ≠ app_name y true ∧ (app_name x true = app_name y true → x = y)) as Hxy.
  { intros x y Hx Hy. rewrite forallb_forall in Ha.
    specialize (Ha x (proj1 (list_elem_of_In _ _) Hx)). rewrite forallb_forall in Ha.
    specialize (Ha y (proj1 (list_elem_of_In _ _) Hy)).
    apply andb_true_iff in Ha as [Hne Himp]. split.
    - intros ->. by rewrite String.eqb_refl in Hne.
    - intros E. rewrite E, String.eqb_refl in Himp. by apply String.eqb_eq. }
  destruct (Hxy t t' Ht Ht') as [Hn1 Hi], (Hxy t' t Ht' Ht) as [Hn2 _].
  destruct ro, ro'; cbn [app_name] in He; [by auto|by destruct Hn2|by destruct Hn1|done].
Qed.

Lemma label_app t ro : getComponentLabel oc t ro !! AppLabelKey = Some (app_name t ro).
Proof. destruct ro; by vm_compute. Qed.

Lemma labelled_iff t t' ro ro' l : t ∈ servingTypes → t' ∈ servingTypes →
  labelled oc t ro l → (labelled oc t' ro' l ↔ t' = t ∧ ro' = ro).
Proof.
  intros Ht Ht' Hl. split; [|by intros [-> ->]]. intros Hl'. apply app_name_inj; [done..|].
  pose proof (lookup_weaken _ _ _ _ (label_app t ro) Hl) as E.
  rewrite (lookup_weaken _ _ _ _ (label_app t' ro') Hl') in E. congruence.
Qed.

(** The workloads a manager makes in the cluster: what they are called, which
    pods they take for theirs, which labels the pods get. *)
Inductive runs m : bool → ObjectMeta → option LabelSelector → Label → Prop :=
  | runs_deployment cfg zone s s' dep :
      meta s.1 = meta oc → getDeployment m cfg zone s = (s', Ok (Some dep)) →
      runs m false (Deployment_ObjectMeta dep) (apps_DeploymentSpec_Selector (Deployment_Spec dep))
        (pod_labels dep)
  | runs_companion cfg zone s s' s1 s1' dep ro :
      meta s.1 = meta oc → getDeployment m cfg zone s = (s', Ok (Some dep)) →
      meta s1.1 = meta oc → getReadonlyDeployment m cfg zone dep s1 = (s1', Ok (Some ro)) →
      runs m true (Deployment_ObjectMeta ro) (apps_DeploymentSpec_Selector (Deployment_Spec ro))
        (pod_labels ro)
  | runs_daemons cfg zone s s' ds :
      meta s.1 = meta oc → getDaemonSet m cfg zone s = (s', Ok (Some ds)) →
      runs m false (DaemonSet_ObjectMeta ds) (apps_DaemonSetSpec_Selector (DaemonSet_Spec ds))
        (ds_pod_labels ds).

Definition offers m (svc : core_Service) : Prop := ∃ cfg zone s s' svcs,
  meta s.1 = meta oc ∧ getService m cfg zone s = (s', Ok svcs) ∧ svc ∈ svcs.

Lemma builds_Ok {A} (Q : A → Prop) (c : SM W A) s s' a :
  builds oc Q c → meta s.1 = meta oc → c s = (s', Ok a) → Q a.
Proof. intros Hc Hs He. specialize (Hc s Hs). unfold wp in Hc. rewrite He in Hc. apply Hc. Qed.

Lemma routes_runs m ro mt sel l :
  routes m → runs m ro mt sel l → workload oc (GetComponentType m) ro mt sel l.
Proof.
  intros (Hdep & _ & Hro & Hds)
    [cfg zone s s' dep Hs Hd|cfg zone s s' s1 s1' dep r Hs Hd Hs1 Hr|cfg zone s s' ds Hs Hd].
  - exact (builds_Ok _ _ _ _ _ (Hdep cfg zone) Hs Hd _ eq_refl).
  - pose proof (builds_Ok _ _ _ _ _ (Hdep cfg zone) Hs Hd _ eq_refl) as Hof.
    exact (builds_Ok _ _ _ _ _ (Hro cfg zone dep Hof) Hs1 Hr _ eq_refl).
  - exact (builds_Ok _ _ _ _ _ (Hds cfg zone) Hs Hd _ eq_refl).
Qed.

Lemma routes_offers m svc : routes m → offers m svc → service_of oc (GetComponentType m) svc.
Proof.
  intros (_ & Hsvc & _) (cfg & zone & s & s' & svcs & Hs & Hg & Hin).
  pose proof (builds_Ok _ _ _ _ _ (Hsvc cfg zone) Hs Hg) as Hall.
  rewrite Forall_forall in Hall. by apply Hall.
Qed.

Lemma service_name_inj t ro ro' : service_name oc t ro = service_name oc t ro' → ro = ro'.
Proof. intros He%(inj (String.append _)). by destruct ro, ro'. Qed.

(** Kubernetes' matching of a selector with the labels of a pod. *)
Definition selects (sel : option LabelSelector) (l : Label) : Prop :=
  match sel with
  | Some s => LabelSelector_MatchLabels s ⊆ l ∧ LabelSelector_MatchExpressions s = []
  | None => False
  end.

(** C5. The services route as they are meant to. Whatever the managers make:
    a deployment, its read-only companion or a daemon set is in the cluster's
    name space, is owned by the cluster, selects the pods it makes, and selects
    no pods of another component nor, the companion aside, of the companion.
    The deployments that one component makes for several zones are not told
    apart: they select each other's pods ([zones_share_pods]). A service
    reaches the pods of a workload exactly when it is the service of its
    component - the one with the component's name the pods of the component,
    the one called [-slave] those of the companion. *)
Theorem services_reach f g h svc ro mt sel l ro' mt' sel' l' :
  f ∈ servingManagers → g ∈ servingManagers → h ∈ servingManagers →
  offers g svc → runs f ro mt sel l → runs h ro' mt' sel' l' →
  ObjectMeta_Namespace mt = oc_ns oc ∧ ObjectMeta_OwnerReferences mt = [GetOwnerRef oc] ∧
  selects sel l ∧
  (selects sel l' → GetComponentType h = GetComponentType f ∧ ro' = ro) ∧
  (core_ServiceSpec_Selector (core_Service_Spec svc) ⊆ l ↔
   GetComponentType g = GetComponentType f ∧
   obj_name svc = service_name oc (GetComponentType f) ro).
Proof.
  intros Hf Hg Hh Ho Hr Hr'. pose proof serving_route as Hall. rewrite Forall_forall in Hall.
  destruct (routes_runs _ _ _ _ _ (Hall f Hf) Hr) as (Hns & Hown & Hsel & Hl).
  destruct (routes_runs _ _ _ _ _ (Hall h Hh) Hr') as (_ & _ & _ & Hl').
  destruct (routes_offers _ _ (Hall g Hg) Ho) as (ro1 & Hn & Hs).
  split; [done|]. split; [done|]. rewrite Hsel. split; [done|]. split.
  { intros [Hsub _]. cbn in Hsub.
    assert (labelled oc (GetComponentType f) ro l') as Hfl by (unfold labelled; by etrans).
    apply (labelled_iff (GetComponentType h) (GetComponentType f) ro' ro l') in Hfl
      as [? ?]; [done|by apply list_elem_of_fmap_2..|done]. }
  rewrite Hs, Hn.
  pose proof (labelled_iff (GetComponentType f) (GetComponentType g) ro ro1 l) as Hiff.
  unfold labelled in Hiff at 2. rewrite Hiff; [|by apply list_elem_of_fmap_2..|done].
  split; intros [Ht He]; (split; [done|]); rewrite Ht in *; [by rewrite He|].
  by apply service_name_inj in He.
Qed.

(** The service of the resource operator reaches nothing: the component label
    of its pods is made of the name of its account, not of its type. *)
Lemma operator_offers svc : offers (newServiceOperatorManager d) svc →
  ∃ ro, core_ServiceSpec_Selector (core_Service_Spec svc)
        = controlPlane (getComponentLabel oc ServiceOperatorComponentType ro).
Proof.
  intros (cfg & zone & s & s' & svcs & Hs & Hg & Hin).
  pose proof (routes_exposes (serviceAt OnecloudClusterSpec_ServiceOperator) operatorDeploy
    (λ cfg, configPort (OnecloudClusterConfig_ServiceOperator cfg))
    (baseManager ServiceOperatorComponentType (λ _, false) []) (routes_base _ _ _)) as (_ & Hsvc & _).
  specialize (Hsvc cfg zone).
  assert (builds oc (Forall (λ svc, ∃ ro, core_ServiceSpec_Selector (core_Service_Spec svc)
            = controlPlane (getComponentLabel oc ServiceOperatorComponentType ro)))
            (getService (newServiceOperatorManager d) cfg zone)) as Hb.
  { eapply builds_bind; [exact Hsvc|]. intros l Hl. apply builds_ret, Forall_map.
    eapply Forall_impl; [exact Hl|]. intros x (ro & _ & Hx). exists ro.
    unfold compose, onControlPlane. simpl. by rewrite Hx. }
  pose proof (builds_Ok _ _ _ _ _ Hb Hs Hg) as Hall. rewrite Forall_forall in Hall. by apply Hall.
Qed.

Lemma operator_runs ro mt sel l : runs (newServiceOperatorManager d) ro mt sel l →
  l = controlPlane (getComponentLabel oc ServiceOperatorAdminUser false).
Proof.
  intros [cfg zone s s' dep Hs Hd|cfg zone s s' s1 s1' dep r Hs Hd Hs1 Hr|cfg zone s s' ds Hs Hd];
    [|discriminate Hr|discriminate Hd].
  assert (builds oc (λ o, ∀ x, o = Some x →
            pod_labels x = controlPlane (getComponentLabel oc ServiceOperatorAdminUser false))
            (getDeployment (newServiceOperatorManager d) cfg zone)) as Hb.
  { eapply builds_bind; [|intros x Hx; apply builds_ret; intros y [= <-]; exact Hx].
    eapply builds_bind; [apply builds_getoc|]. intros o Ho.
    eapply builds_bind; [apply builds_read|]. intros spec _. apply builds_ret.
    by rewrite <-(same_label _ _ ServiceOperatorAdminUser false Ho). }
  exact (builds_Ok _ _ _ _ _ Hb Hs Hd _ eq_refl).
Qed.

Lemma operator_unreachable svc ro mt sel l :
  offers (newServiceOperatorManager d) svc → runs (newServiceOperatorManager d) ro mt sel l →
  ¬ core_ServiceSpec_Selector (core_Service_Spec svc) ⊆ l.
Proof.
  intros (ro' & ->)%operator_offers ->%operator_runs Hsub.
  assert (∀ t r, controlPlane (getComponentLabel oc t r) !! AppLabelKey = Some (app_name t r)) as Happ.
  { intros t r. unfold controlPlane. rewrite lookup_insert_ne by done. apply label_app. }
  pose proof (lookup_weaken _ _ _ _ (Happ _ _) Hsub) as He. rewrite Happ in He. by destruct ro'.
Qed.
End managers.

(** ** The region and its companion *)

#[local] Instance sim_yaml : YamlLib := {|
  ParseYAML _ := Err (ErrMsg "no YAML"); json_YAMLString _ := ""; json_Marshal _ _ := [] |}.
#[local] Instance sim_secret : SecretApi World := λ _ _, throw ErrNotFound.
#[local] Instance sim_memo : GlanceMemo World := {| s3ConfigSynced := ret false; set_s3ConfigSynced := ret tt |}.

Definition region_services : list core_Service :=
  match (getService region zero "" (region_cluster, sim_world)).2 with Ok l => l | _ => [] end.
Definition region_service : core_Service := List.hd zero region_services.
Definition region_slave_service : core_Service := List.hd zero (List.tl region_services).

Lemma region_offers svc : svc ∈ region_services → offers region_cluster region svc.
Proof.
  intros Hin. exists zero, "", (region_cluster, sim_world), (region_cluster, sim_world), region_services.
  split; [done|]. by split.
Qed.

Lemma region_runs : runs region_cluster region false (Deployment_ObjectMeta region_deployment)
  (apps_DeploymentSpec_Selector (Deployment_Spec region_deployment)) (pod_labels region_deployment).
Proof.
  apply (runs_deployment _ _ (defaulted zero) "" (region_cluster, sim_world) (region_built.1)); [done|].
  vm_compute. reflexivity.
Qed.

Lemma services_reach_witness :
  selects (apps_DeploymentSpec_Selector (Deployment_Spec region_deployment)) (pod_labels region_deployment) ∧
  core_ServiceSpec_Selector (core_Service_Spec region_service) ⊆ pod_labels region_deployment ∧
  ¬ core_ServiceSpec_Selector (core_Service_Spec region_slave_service) ⊆ pod_labels region_deployment.
Proof.
  assert (region ∈ servingManagers false false false sim_man) as Hin by (do 2 right; left).
  assert (region_service ∈ region_services) as Ho1 by (vm_compute; left).
  assert (region_slave_service ∈ region_services) as Ho2 by (vm_compute; right; left).
  destruct (services_reach false false false sim_man region_cluster region region region region_service
    false _ _ _ _ _ _ _ Hin Hin Hin (region_offers _ Ho1) region_runs region_runs) as (_ & _ & Hs & _ & H1).
  destruct (services_reach false false false sim_man region_cluster region region region region_slave_service
    false _ _ _ _ _ _ _ Hin Hin Hin (region_offers _ Ho2) region_runs region_runs) as (_ & _ & _ & _ & H2).
  split; [exact Hs|]. split.
  - apply H1. split; [reflexivity|]. vm_compute. reflexivity.
  - intros H. apply H2 in H as [_ H]. vm_compute in H. discriminate H.
Defined.

(** The agents of bare metal servers run once per zone, under the name of the
    zone, but the labels and the selector leave the zone out: each of the
    deployments takes the pods of the other for its own. *)
Definition zone_agent (zone : string) : Deployment :=
  match (getDeployment (newBaremetalManager false) (defaulted zero) zone
           (region_cluster, sim_world)).2 with
  | Ok (Some d) => d
  | _ => zero
  end.

Lemma zones_share_pods :
  let d1 := zone_agent "zone1" in let d2 := zone_agent "zone2" in
  obj_name d1 ≠ obj_name d2 ∧
  selects (apps_DeploymentSpec_Selector (Deployment_Spec d1)) (pod_labels d2) ∧
  selects (apps_DeploymentSpec_Selector (Deployment_Spec d2)) (pod_labels d1).
Proof.
  cbv zeta. assert (∀ zone, zone = "zone1" ∨ zone = "zone2" → ∀ l, pod_labels (zone_agent "zone1") = l →
    apps_DeploymentSpec_Selector (Deployment_Spec (zone_agent zone)) = Some (MkLabelSelector l []) ∧
    pod_labels (zone_agent zone) = l) as H
    by (intros zone [->| ->] l <-; split; vm_compute; reflexivity).
  destruct (H "zone1" ltac:(by left) _ eq_refl) as [-> _].
  destruct (H "zone2" ltac:(by right) _ eq_refl) as [-> ->].
  split; [vm_compute; discriminate|]. by repeat split.
Qed.
