(* ===== verification/Cluster.v ===== *)
(** * Cluster: one reconciliation of a cluster

    [pkg/controller/cluster/onecloud_cluster_control.go] and the part of
    [pkg/manager/config/config.go] it calls: the configuration and the
    certificates of the cluster are ensured, then etcd, then the components,
    some of them one after the other, the rest at the same time; at the end
    the status is written when it has changed. *)

From S2P Require Import Prelude K8s Types Constants GoStrings Defaults ConfigDefaults.
From S2P Require Import ControllerUtils LastApplied KubeApi Controls Session CloudApi.
From S2P Require Import Sha256 Databases Sync Phases Policies Alerts Builders.
From S2P Require Import KubeClusters Options Services GlobalSettings HostManagers.
From S2P Require Import ImageManagers MonitorStack Certs MysqlStatus EtcdReconcile.
From S2P Require Import ClusterManagers.

Open Scope string_scope.
Open Scope list_scope.
Open Scope go_scope.

(** The order in which [n] goroutines run; when MySQL was last checked. *)
Class ControlState (W : Type) := {
  goOrder : nat → W → W * list nat;
  lastCheckMysqlTime : W → Z;
  set_lastCheckMysqlTime : Z → W → W;
  goOrder_perm n w : (goOrder n w).2 ≡ₚ seq 0 n
}.

Section config.
Context {W : Type} `{!ResourceApi W ConfigMap, !ConfigCodec, !Passwords W}.

(*@ pkg/manager/config/config.go:89-92 NewClusterConfig *)
Definition NewClusterConfig : M W OnecloudClusterConfig := fillClusterConfigDefault zero.

(** Decoded with the defaults, and defaulted again. *)
(*@ pkg/manager/config/config.go:116-122 newClusterConfigFromConfigMap *)
Definition newClusterConfigFromConfigMap (cfgMap : ConfigMap) : M W OnecloudClusterConfig :=
  let! cfg := newClusterConfigFromConfigMapNoDefault cfgMap in
  fillClusterConfigDefault cfg.

(** A stored configuration is defaulted and written back every time. *)
(*@ pkg/manager/config/config.go:54-87 CreateOrUpdate *)
Definition config_CreateOrUpdate (oc : OnecloudCluster) : M W OnecloudClusterConfig :=
  let! r := attempt (listerGet ConfigMap (oc_ns oc) (ClusterConfigMapName oc)) in
  match r with
  | inl err =>
      if negb (IsNotFound err) then throw err
      else
        let! cfg := NewClusterConfig in
        let! newCfgMap := wrap "new cluster configmap" (lift (clusterConfigToConfigMap oc cfg)) in
        wrap "create cluster config to configmap" (CreateConfigMap oc newCfgMap) ;;!
        ret cfg
  | inr cfgObj =>
      let! cfg := wrap ("new cluster config from configmap " +:+ obj_name cfgObj)
                    (newClusterConfigFromConfigMap cfgObj) in
      let! newCfgMap := wrap "renew configmap" (lift (clusterConfigToConfigMap oc cfg)) in
      wrap ("update cluster configmap " +:+ obj_name newCfgMap) (UpdateConfigMap oc newCfgMap) ;;!
      ret cfg
  end.
End config.

(** ** A reconciliation, given its managers *)

Section control.
Context {W : Type} `{!ControlState W}.

(*@ pkg/controller/cluster/onecloud_cluster_control.go:85-90 reconcileComponent *)
Definition reconcileComponent (c : Manager W) : SM W unit :=
  wrap ("sync " +:+ mgr_type c) (mgr_Sync c).

(** One after the other; the first error ends the loop, unless the services
    are being stopped. *)
(*@ pkg/controller/cluster/onecloud_cluster_control.go:151-158 updateOnecloudCluster (in order) *)
Definition reconcileInOrder (StopServices : bool) (parts : list (Manager W)) : SM W unit :=
  for_each parts (λ c,
    let! r := attempt (reconcileComponent c) in
    match r with
    | inr _ => ret tt
    | inl err =>
        if StopServices then ret tt
        else throw (ErrWrap err ("sync component " +:+ mgr_type c))
    end).

(** [errgroup]: every function runs; [Wait] gives the first error. They are
    taken to run one at a time, in the order given. *)
Fixpoint runAll (parts : list (Manager W)) (first : option error) : SM W (option error) :=
  match parts with
  | [] => ret first
  | c :: parts =>
      let! r := attempt (reconcileComponent c) in
      runAll parts (match first, r with None, inl e => Some e | _, _ => first end)
  end.

(*@ pkg/controller/cluster/onecloud_cluster_control.go:187-196 updateOnecloudCluster (at once) *)
Definition reconcileTogether (parts : list (Manager W)) : SM W unit :=
  let! order := kube (λ w, let '(w, order) := goOrder (length parts) w in (w, Ok order)) in
  let! err := runAll (omap (λ i, parts !! i) order) None in
  match err with None => ret tt | Some e => throw e end.

(** The errors of the add-ons are logged. *)
(*@ pkg/controller/cluster/onecloud_cluster_control.go:201-206 updateOnecloudCluster (addons) *)
Definition reconcileAddons (parts : list (Manager W)) : SM W unit :=
  for_each parts (λ c, attempt (reconcileComponent c) ;;! ret tt).

Context `{!X509 W, !JsonCodec OnecloudClusterSpec}.
Context (MysqlCheckInterval : Z) (checkMysql : SM W unit).

(*@ pkg/controller/cluster/onecloud_cluster_control.go:208-212 updateOnecloudCluster (checksum) *)
Definition updateSpecChecksum : SM W unit :=
  let! oc := getoc in
  let! specJson := wrap "Marshal oc.Spec" (lift (Marshal (OnecloudCluster_Spec oc))) in
  modoc (λ oc, oc <| OnecloudCluster_Status ::= λ s,
    s <| OnecloudClusterStatus_SpecChecksum := hex_string (Sum256 specJson) |> |>).

(** [time.Duration(interval) * time.Minute], in nanoseconds. *)
Definition minutes (n : Z) : Z := wrap64 (n * (60 * 10 ^ 9)).

(*@ pkg/controller/cluster/onecloud_cluster_control.go:214-219 updateOnecloudCluster (mysql) *)
Definition checkMysqlIfDue : SM W unit :=
  let! last := kube (λ w, (w, Ok (lastCheckMysqlTime w))) in
  let! now := kube time_Now in
  if (minutes MysqlCheckInterval <? (now - last) * 10 ^ 9)%Z then
    attempt checkMysql ;;!
    let! now := kube time_Now in
    kube (modify (set_lastCheckMysqlTime now))
  else ret tt.

Context `{!ResourceApi W ConfigMap, !ConfigCodec, !Passwords W, !SecretStore W}.
Context (StopServices : bool) (parts : ClusterParts W).

(*@ pkg/controller/cluster/onecloud_cluster_control.go:92-223 updateOnecloudCluster *)
Definition updateOnecloudCluster : SM W unit :=
  let! oc := getoc in
  wrap "CreateOrUpdate configmap" (kube (config_CreateOrUpdate oc)) ;;!
  wrap "CreateOrUpdate certs" certs_CreateOrUpdate ;;!
  wrap "Sync etcd" (mgr_Sync (part_etcd parts)) ;;!
  reconcileInOrder StopServices (part_ordered parts) ;;!
  reconcileTogether (part_together parts) ;;!
  reconcileAddons (part_addons parts) ;;!
  updateSpecChecksum ;;!
  checkMysqlIfDue.

Context `{!ResourceApi W OnecloudCluster}.
Context (ClearComponent : bool).

Definition result (errs : list error) : M W unit :=
  match NewAggregate errs with None => ret tt | Some e => throw e end.

(** Whatever the outcome, a changed status is written. *)
(*@ pkg/controller/cluster/onecloud_cluster_control.go:66-83 UpdateOnecloudCluster *)
Definition UpdateOnecloudCluster (oc : OnecloudCluster) : M W unit := λ w,
  let oldStatus := OnecloudCluster_Status oc in
  match updateOnecloudCluster (oc, w) with
  | ((_, w), Panic p) => (w, Panic p)
  | ((oc, w), r) =>
      let errs := match r with Err e => [e] | _ => [] end in
      if bool_decide (OnecloudCluster_Status oc = oldStatus) && negb ClearComponent
      then result errs w
      else
        (let! r := attempt (UpdateCluster oc) in
         result (errs ++ match r with inl e => [e] | inr _ => [] end)) w
  end.
End control.
