(* ===== verification/Prepare.v ===== *)
(** * Prepare: the services of a docker-compose cluster

    [pkg/service-init/component/prepare.go] with the registry of
    [component.go] and [pkg/service-init/cluster/cluster.go]: a cluster is
    made up, completed from the configuration files earlier runs wrote, and
    one service is prepared on it: its certificates, its data base, its
    configuration file, its account, what it wants done before it starts and
    its phases. The files are the class [FileSystem]; the options of a
    service live in the package ([OptionsLib]). *)

From Stdlib Require Import Ascii.
From S2P Require Import Prelude K8s Types Constants GoStrings Defaults.
From S2P Require Import ControllerUtils LastApplied KubeApi Controls Session CloudApi.
From S2P Require Import Databases Sync Phases Policies Alerts Builders KubeClusters.
From S2P Require Import Components Options ServiceInit Services GlobalSettings.
From S2P Require Import HostManagers Certs Cluster.

Open Scope string_scope.
Open Scope list_scope.
Open Scope go_scope.

(** [filepath.Dir] *)
Fixpoint drop_last {A} (l : list A) : list A :=
  match l with
  | [] | [_] => []
  | x :: l => x :: drop_last l
  end.
Definition path_Dir (p : string) : string :=
  match drop_last (split_on "/"%char p) with
  | [] => "."
  | l => path_Clean (Join l "/" +:+ "/")
  end.
Example path_Dir_ex : (path_Dir "/etc/yunion/keystone.conf", path_Dir "/x", path_Dir "x") =
  ("/etc/yunion", "/", ".").
Proof. reflexivity. Qed.

(** Files: a name exists or not; reads and writes may fail. *)
Class FileSystem (W : Type) := {
  fs_Exists : string → W → bool;
  fs_ReadFile : string → M W string;
  fs_MkdirAll : string → M W unit;
  fs_WriteFile : string → string → M W unit;
  os_LookupEnv : string → W → option string
}.

(** [jsonutils] fills the options of a type from a document: fields the
    document does not name keep their values. *)
Class OptionsCodec := options_Unmarshal : string → json → Options → Res Options.

(** ** The registry *)
Section registry.
Context {W : Type}.

(** By type; registering a type twice panics. *)
(*@ pkg/service-init/component/component.go:37-43 RegisterComponent *)
Definition RegisterComponent (comp : ServiceComponent W)
    (globalComponents : gmap ComponentType (ServiceComponent W))
  : Res (gmap ComponentType (ServiceComponent W)) :=
  match globalComponents !! svc_type comp with
  | Some _ => Panic (svc_type comp +:+ " component already registerd!!!")
  | None => Ok (<[svc_type comp := comp]> globalComponents)
  end.

(** The [init] functions of the package, one per file. *)
Fixpoint registerAll (comps : list (ServiceComponent W))
    (globalComponents : gmap ComponentType (ServiceComponent W))
  : Res (gmap ComponentType (ServiceComponent W)) :=
  match comps with
  | [] => Ok globalComponents
  | c :: comps => res_bind (RegisterComponent c globalComponents) (registerAll comps)
  end.

(*@ pkg/service-init/component/component.go:49-51 GetComponent *)
Definition GetComponent (globalComponents : gmap ComponentType (ServiceComponent W))
    (cType : ComponentType) : option (ServiceComponent W) := globalComponents !! cType.
End registry.

Section prepare.
Context {W : Type} `{!SessionEnv W, !JsonUtils, !CloudApi W, !SqlEnv W}.
Context `{!ResourceApi W Deployment, !OptionsLib W, !NodeLister W, !QuantityOps, !SettingsCodec, !YamlLib}.
Context `{!SecretApi W, !QuotaApi W, !PolicyLocale, !Ansible, !AlertCodec, !ComponentCodec}.
Context `{!X509 W, !Passwords W, !FileSystem W, !OptionsCodec}.
Context (SessionDebug StopServices ClearComponent : bool).

(** ** The services that need files or the environment *)

(*@ pkg/service-init/component/prepare.go:310-312 GetRCAdminFilePath *)
Definition GetRCAdminFilePath (cfgDir : string) : string :=
  path_Join [cfgDir; YUNION_ETC_CONFIG_DIR; "rcadmin"].

(** Where the certificates of a service are: next to the file of the base
    service, whatever file the service itself uses. *)
(*@ pkg/service-init/component/base_service.go:33-35 GetCertsDirPath *)
Definition GetCertsDirPath (cpnt : ServiceComponent W) (targetDir : string) : string :=
  path_Join [path_Dir (path_Join [targetDir; YUNION_ETC_CONFIG_DIR; svc_type cpnt +:+ ".conf"]); "pki"].

(*@ pkg/service-init/component/keystone.go:86-97 BeforeStart *)
Definition keystone_BeforeStart (targetCfgDir : string) : SM W unit :=
  let! oc := getoc in
  let rcFile := GetRCAdminFilePath targetCfgDir in
  let! exists_ := kube (λ w, (w, Ok (fs_Exists rcFile w))) in
  if (exists_ : bool) then ret tt
  else wrap ("write " +:+ rcFile) (kube (fs_WriteFile rcFile (GetRCAdminContent oc true))).

(*@ pkg/service-init/component/climc.go:24-24 ENV_DEFAULT_CLIMC_USER *)
Definition ENV_DEFAULT_CLIMC_USER : string := "CLIMC_DEFAULT_USER".
(*@ pkg/service-init/component/climc.go:25-25 ENV_DEFAULT_CLIMC_USER_PASSWORD *)
Definition ENV_DEFAULT_CLIMC_USER_PASSWORD : string := "CLIMC_DEFAULT_USER_PASSWORD".

Definition lookupEnv (name : string) : SM W string :=
  kube (λ w, (w, Ok (default "" (os_LookupEnv name w)))).

(*@ pkg/service-init/component/climc.go:34-59 BeforeStart *)
Definition climc_BeforeStart (targetCfgDir : string) : SM W unit :=
  let! user := lookupEnv ENV_DEFAULT_CLIMC_USER in
  let! userPwd := lookupEnv ENV_DEFAULT_CLIMC_USER_PASSWORD in
  if str_empty user || str_empty userPwd then ret tt
  else
    RunWithSession SessionDebug (λ s,
      wrap "sync climc user" (kube (ensureServiceAccount false s (MkCloudUser user userPwd))) ;;!
      wrap ("allow user " +:+ user +:+ " login from web")
        (kube (mod_Update s UsersV3 user
           [("allow_web_console", JBool true); ("enabled", JBool true);
            ("is_system_account", JBool false)])) ;;!
      ret tt).

(*@ pkg/service-init/component/climc.go:28-32 NewClimc *)
Definition NewClimc : ServiceComponent W :=
  (newBaseService ClimcComponentType None) <| BeforeStart := climc_BeforeStart |>.

(*@ pkg/service-init/component/etcd.go:13-17 NewEtcd *)
Definition NewEtcd : ServiceComponent W := newBaseService EtcdComponentType None.

(*@ pkg/service-init/component/prepare.go:109-112 getComponentPhaseControl *)
Definition getComponentPhaseControl (cpnt : ServiceComponent W) : option (PhaseControl W) :=
  svc_PhaseControl cpnt (NewComposeComponentManager SessionDebug StopServices).

(** The services that register themselves. *)
(*@ pkg/service-init/component/component.go:35-35 globalComponents *)
Definition registered : list (ServiceComponent W) :=
  [NewAiProxy SessionDebug; NewAnsibleServer SessionDebug; NewApiGateway SessionDebug; NewBaremetal;
   NewClimc; NewCloudId SessionDebug; NewCloudmon SessionDebug; NewEsxiAgent; NewEtcd; NewGlance;
   NewHostDeployer; NewInfluxdb SessionDebug false;
   NewKeystone <| BeforeStart := keystone_BeforeStart |>; NewKubeserver; NewLogger SessionDebug;
   NewMcpServer SessionDebug; NewMonitor; NewNotify SessionDebug; NewRegion;
   NewScheduledTask SessionDebug; NewScheduler SessionDebug; NewVictoriaMetrics SessionDebug false;
   NewWeb; NewWebconsole SessionDebug;
   NewYunionconf SessionDebug (NewComposeComponentManager SessionDebug StopServices)].

(** ** The cluster *)

(*@ pkg/service-init/cluster/cluster.go:10-32 NewDockerComposeCluster *)
Definition NewDockerComposeCluster (dbConfig : Mysql) (accessIp defaultRegion version : string)
    (productVersion : ProductVersion) : M W OnecloudCluster :=
  let cluster :=
    zero <| OnecloudCluster_ObjectMeta ::= λ m, m <| ObjectMeta_Name := DockerComposeClusterName |> |>
         <| OnecloudCluster_Spec ::= λ spec,
              spec <| OnecloudClusterSpec_Mysql := dbConfig |>
                   <| OnecloudClusterSpec_LoadBalancerEndpoint := accessIp |>
                   <| OnecloudClusterSpec_Region := defaultRegion |>
                   <| OnecloudClusterSpec_Version := version |>
                   <| OnecloudClusterSpec_ProductVersion := productVersion |> |> in
  let! cluster := drawing (λ pw, SetDefaults_OnecloudCluster ClearComponent pw cluster) in
  ret (cluster <| OnecloudCluster_Spec ::= λ spec,
         spec <| OnecloudClusterSpec_Minio ::= λ m, m <| Minio_Enable := false |> |> |>).

(*@ pkg/service-init/component/prepare.go:162-172 readConfigOptions *)
Definition readConfigOptions (cfgFilePath : string) : M W json :=
  let! content := wrap ("read content of " +:+ cfgFilePath) (fs_ReadFile cfgFilePath) in
  wrap ("parse yaml config of " +:+ cfgFilePath) (lift (ParseYAML content)).

(** What the services that have a file and options do to [a], the cluster or
    its configuration, one after the other in the order the map of services
    gives them. A file is read into the options of its service. *)
(*@ pkg/service-init/component/prepare.go:87-104 ConstructClusterResource (one service) *)
Definition constructOne {A} (cfgDir : string) (ef : ServiceComponent W → string → Options → A → Res A)
    (cpnt : ServiceComponent W) (a : A) : M W A := λ w,
  let cfgFilePath := GetConfigFilePath cpnt cfgDir in
  if negb (fs_Exists cfgFilePath w) then (w, Ok a)
  else match GetOptions cpnt with
       | None => (w, Ok a)
       | Some type =>
           (let! existOpt := wrap ("read config options from " +:+ cfgFilePath)
                               (readConfigOptions cfgFilePath) in
            let! cpntOpt := options_load type in
            let! cpntOpt := wrap ("unmarshal to " +:+ svc_type cpnt +:+ " options")
                              (lift (options_Unmarshal type existOpt cpntOpt)) in
            options_store type cpntOpt ;;!
            lift (ef cpnt type cpntOpt a)) w
       end.

(*@ pkg/service-init/component/prepare.go:85-107 ConstructClusterResource *)
Fixpoint ConstructClusterResource {A} (cfgDir : string)
    (ef : ServiceComponent W → string → Options → A → Res A) (order : list (ServiceComponent W)) (a : A)
  : M W A :=
  match order with
  | [] => ret a
  | cpnt :: order =>
      let! a := constructOne cfgDir ef cpnt a in
      ConstructClusterResource cfgDir ef order a
  end.

(*@ pkg/service-init/component/prepare.go:52-56 ConstructCluster *)
Definition ConstructCluster (cfgDir : string) (order : list (ServiceComponent W))
    (cluster : OnecloudCluster) : M W OnecloudCluster :=
  ConstructClusterResource cfgDir (λ cpnt _ cpntOpt cluster, BuildCluster cpnt cpntOpt cluster)
    order cluster.

(*@ pkg/service-init/component/prepare.go:32-42 ConstructCluster *)
Definition prepare_ConstructCluster (order : list (ServiceComponent W)) (dbConfig : Mysql)
    (publicIp targetDir : string) (pv : ProductVersion) : M W OnecloudCluster :=
  let! cls := NewDockerComposeCluster dbConfig publicIp "region0" "v3.9.8" pv in
  let cls := cls <| OnecloudCluster_Spec ::= λ spec,
               spec <| OnecloudClusterSpec_Etcd ::= λ e, e <| Etcd_EnableTls := Some false |> |> |> in
  wrap "construct cluster" (ConstructCluster targetDir order cls).

(** ** Its configuration *)

(** The configuration takes its data base and its account from the options. *)
(*@ pkg/service-init/component/prepare.go:59-82 ConstructClusterConfig (one service) *)
Definition buildConfig (cpnt : ServiceComponent W) (type : string) (cpntOpt : Options)
    (cfg : OnecloudClusterConfig) : Res OnecloudClusterConfig :=
  let opt := JObj (json_Marshal type cpntOpt) in
  let withMsg {A} (m : string) (r : Res A) : Res A :=
    match r with Err e => Err (ErrWrap e m) | _ => r end in
  res_bind
    (match GetDefaultDBConfig cpnt cfg with
     | None => Ok cfg
     | Some _ =>
         res_bind (withMsg ("Get component db config: " +:+ svc_type cpnt)
                     (GetComponentDBConfig cpnt cfg (Some opt)))
           (λ dbCfg, match dbCfg with
                     | Some dbCfg => Ok (BuildClusterConfigDB cpnt dbCfg cfg)
                     | None => Panic "nil pointer dereference"
                     end)
     end)
    (λ cfg,
       match GetDefaultCloudUser cpnt cfg with
       | None => Ok cfg
       | Some _ =>
           res_bind (withMsg ("Get component clouduser: " +:+ svc_type cpnt)
                       (GetComponentCloudUser cpnt cfg (Some opt)))
             (λ user, match user with
                      | Some user => Ok (BuildClusterConfigCloudUser cpnt user cfg)
                      | None => Panic "nil pointer dereference"
                      end)
       end).

(*@ pkg/service-init/component/prepare.go:58-83 ConstructClusterConfig *)
Definition ConstructClusterConfig (cfgDir : string) (order : list (ServiceComponent W))
    (cfg : OnecloudClusterConfig) : M W OnecloudClusterConfig :=
  ConstructClusterResource cfgDir buildConfig order cfg.

(*@ pkg/service-init/component/prepare.go:44-50 ConstructClusterConfig *)
Definition prepare_ConstructClusterConfig (order : list (ServiceComponent W)) (cfgDir : string)
  : M W OnecloudClusterConfig :=
  let! clusterCfg := NewClusterConfig in
  wrap "construct cluster config" (ConstructClusterConfig cfgDir order clusterCfg).

(** ** One service *)

(*@ pkg/service-init/component/prepare.go:219-230 isFileExists *)
Definition isFileExists (targetDir : string) (files : list string) (w : W) : bool :=
  match files with
  | [] => fs_Exists targetDir w
  | _ => forallb (λ f, fs_Exists (path_Join [targetDir; f]) w) files
  end.

Definition certFiles : list string := ["ca.crt"; "ca.key"; "service.crt"; "service.key"].

(** The files of the pair are written in the order of the map's keys: an
    error leaves some of them. *)
(*@ pkg/service-init/component/prepare.go:232-255 syncCerts *)
Definition syncCerts (oc : OnecloudCluster) (targetDir : string) : M W unit := λ w,
  if isFileExists targetDir certFiles w then (w, Ok tt)
  else
    (let! store := CreateCertPair oc in
     wrap ("create directory " +:+ targetDir) (fs_MkdirAll targetDir) ;;!
     for_each (map_to_list store) (λ '(k, v),
       let tlsFile := path_Join [targetDir; k] in
       wrap ("write config file " +:+ tlsFile) (fs_WriteFile tlsFile v))) w.

(** Whether the accounts are now synced too: preparing a data base sets the
    flag of the process. *)
(*@ pkg/service-init/component/prepare.go:174-193 syncComponentDB *)
Definition syncComponentDB (SyncUser : bool) (cpnt : ServiceComponent W)
    (cfg : OnecloudClusterConfig) (existOpt : option json) : SM W bool :=
  let! dbConfig := wrap "get db config" (lift (GetComponentDBConfig cpnt cfg existOpt)) in
  match dbConfig with
  | None => ret SyncUser
  | Some dbConfig =>
      let! oc := getoc in
      wrap "ensure cluster mysql db user" (kube (EnsureClusterMySQLUser true oc dbConfig)) ;;!
      ret true
  end.

(*@ pkg/service-init/component/prepare.go:195-217 syncCloudUser *)
Definition syncCloudUser (SyncUser : bool) (cpnt : ServiceComponent W)
    (cfg : OnecloudClusterConfig) (existOpt : option json) : SM W unit :=
  let! cloudUser := wrap "get cloud user" (lift (GetComponentCloudUser cpnt cfg existOpt)) in
  match cloudUser with
  | None => ret tt
  | Some cloudUser =>
      wrap "Run with session" (RunWithSession SessionDebug (λ s,
        wrap "ensure service account" (kube (ensureServiceAccount SyncUser s cloudUser))))
  end.

(*@ pkg/service-init/component/prepare.go:261-296 syncComponentConfig *)
Definition syncComponentConfig (cpnt : ServiceComponent W) (cfg : OnecloudClusterConfig)
    (targetDir : string) : SM W unit :=
  let cfgFilePath := GetConfigFilePath cpnt targetDir in
  let! exists_ := kube (λ w, (w, Ok (fs_Exists cfgFilePath w))) in
  if (exists_ : bool) then ret tt
  else
    let! opt := wrap ("get configuration of " +:+ svc_type cpnt) (GetConfig cpnt cfg) in
    let write (optContent : string) :=
      wrap ("create directory " +:+ targetDir) (kube (fs_MkdirAll (path_Dir cfgFilePath))) ;;!
      wrap ("write config file " +:+ cfgFilePath) (kube (fs_WriteFile cfgFilePath optContent)) in
    match opt with
    | NoConfig => ret tt
    | ConfigText s => write s
    | ConfigOptions type opt => write (YAMLString W type opt)
    end.

(*@ pkg/service-init/component/prepare.go:114-160 Init *)
Definition prepare_Init (SyncUser : bool) (cpnt : ServiceComponent W) (cfg : OnecloudClusterConfig)
    (targetDir : string) : SM W unit :=
  let! oc := getoc in
  wrap "sync tls certs" (kube (syncCerts oc (GetCertsDirPath cpnt targetDir))) ;;!
  let cfgFilePath := GetConfigFilePath cpnt targetDir in
  let! exists_ := kube (λ w, (w, Ok (fs_Exists cfgFilePath w))) in
  let! exitOpt :=
    (if (exists_ : bool) then
       let! o := wrap ("read config options from " +:+ cfgFilePath) (kube (readConfigOptions cfgFilePath)) in
       ret (Some o)
     else ret None) in
  let! SyncUser :=
    wrap ("sync " +:+ svc_type cpnt +:+ " component db") (syncComponentDB SyncUser cpnt cfg exitOpt) in
  wrap ("sync " +:+ svc_type cpnt +:+ " component configuration file")
    (syncComponentConfig cpnt cfg targetDir) ;;!
  wrap ("sync " +:+ svc_type cpnt +:+ " component cloud user")
    (syncCloudUser SyncUser cpnt cfg exitOpt) ;;!
  wrap ("before component " +:+ svc_type cpnt +:+ " start") (BeforeStart cpnt targetDir) ;;!
  match getComponentPhaseControl cpnt with
  | None => ret tt
  | Some phaseCtrl => wrap ("setup " +:+ svc_type cpnt +:+ " component") (phase_Setup phaseCtrl)
  end.

(*@ pkg/service-init/component/prepare.go:298-308 PostInit *)
Definition PostInit (cpnt : ServiceComponent W) : SM W unit :=
  match getComponentPhaseControl cpnt with
  | None => ret tt
  | Some pCtrl => wrap ("init system of component " +:+ svc_type cpnt) (phase_SystemInit pCtrl)
  end.
End prepare.
