(* ===== verification/PrepareFacts.v ===== *)
(** * PrepareFacts: the order in which the services are read does not matter

    Go ranges over the map of the registered services in an unspecified
    order. The services have different types, different options and write to
    different fields of the configuration, so that the configuration read
    back from their files is the same in every order. *)

From S2P Require Import Prelude K8s Types Constants GoStrings.
From S2P Require Import LastApplied KubeApi Session CloudApi Databases.
From S2P Require Import Sync Phases Policies Alerts Builders KubeClusters.
From S2P Require Import Components Options ServiceInit Services GlobalSettings.
From S2P Require Import HostManagers Certs Cluster CloudSim ManagerSim Prepare.

Open Scope string_scope.
Open Scope list_scope.
Open Scope go_scope.

(** ** Commuting updates *)
Section updates.
Context {C A : Type} (step : C → A → Res A).

Fixpoint steps (l : list C) (a : A) : Res A :=
  match l with
  | [] => Ok a
  | c :: l => res_bind (step c a) (steps l)
  end.

(** Two updates commute where both succeed. *)
Definition commute (c d : C) : Prop :=
  ∀ a a1 a2, step c a = Ok a1 → step d a1 = Ok a2 →
  ∃ a1', step d a = Ok a1' ∧ step c a1' = Ok a2.

Lemma steps_perm l l' a b :
  l ≡ₚ l' → NoDup l → (∀ c d, c ∈ l → d ∈ l → c ≠ d → commute c d) →
  steps l a = Ok b → steps l' a = Ok b.
Proof.
  intros Hp. revert a. induction Hp as [|c l l' Hp IH|c d l|l l' l'' H1 IH1 H2 IH2];
    intros a Hn Hc Hs.
  - done.
  - simpl in *. destruct (step c a) as [a1|e|p]; simpl in *; try discriminate.
    apply NoDup_cons in Hn as [_ Hn]. apply IH; [done| |done]. intros x y Hx Hy. apply Hc; by right.
  - simpl in *. destruct (step d a) as [a1|e|p] eqn:E1; simpl in *; try discriminate.
    destruct (step c a1) as [a2|e|p] eqn:E2; simpl in *; try discriminate.
    assert (d ≠ c) as Hne by (apply NoDup_cons in Hn as [Hn _]; set_solver).
    destruct (Hc d c ltac:(set_solver) ltac:(set_solver) Hne _ _ _ E1 E2) as (a1' & E3 & E4).
    rewrite E3; simpl. by rewrite E4.
  - apply IH2; [by rewrite <- H1| |by apply IH1].
    intros x y Hx Hy. apply Hc; by rewrite H1.
Qed.
End updates.

(** ** A store of options next to the files

    Loading and storing the options of a type changes no file and no other
    type's options; reading a file changes nothing. *)
Class OptionsMemory (W : Type) `{!OptionsLib W, !FileSystem W} := {
  opts : W → string → Options;
  fs_content : W → string → Res string;
  fs_ReadFile_content p w : fs_ReadFile p w = (w, fs_content w p);
  options_load_opts t w : options_load t w = (w, Ok (opts w t));
  options_store_opts t o w : ∃ w', options_store t o w = (w', Ok tt) ∧
    (∀ t', opts w' t' = if decide (t' = t) then o else opts w t') ∧
    (∀ p, fs_Exists p w' = fs_Exists p w) ∧ (∀ p, fs_content w' p = fs_content w p)
}.

Section resource.
Context {W : Type} `{!OptionsLib W, !FileSystem W, !YamlLib, !OptionsCodec, !OptionsMemory W}.
Context {A : Type} (cfgDir : string) (ef : ServiceComponent W → string → Options → A → Res A).
Implicit Types (c d : ServiceComponent W) (w : W).

(** What a service finds in its file. *)
Definition readOptions (w : W) (c : ServiceComponent W) (type : string) : Res Options :=
  let p := GetConfigFilePath c cfgDir in
  let withMsg {B} (m : string) (r : Res B) : Res B :=
    match r with Err e => Err (ErrWrap e m) | _ => r end in
  res_bind (withMsg ("read config options from " +:+ p)
              (res_bind (withMsg ("read content of " +:+ p) (fs_content w p))
                 (λ s, withMsg ("parse yaml config of " +:+ p) (ParseYAML s))))
    (λ doc, withMsg ("unmarshal to " +:+ svc_type c +:+ " options")
              (options_Unmarshal type doc (opts w type))).

(** What a service does to [a], without the effect on the options. *)
Definition serviceStep (w : W) (c : ServiceComponent W) (a : A) : Res A :=
  if negb (fs_Exists (GetConfigFilePath c cfgDir) w) then Ok a
  else match GetOptions c with
       | None => Ok a
       | Some type => res_bind (readOptions w c type) (λ o, ef c type o a)
       end.

(** Two worlds with the same files and, but for a type, the same options. *)
Definition sameBut (type : option string) (w w' : W) : Prop :=
  (∀ p, fs_Exists p w' = fs_Exists p w) ∧ (∀ p, fs_content w' p = fs_content w p) ∧
  (∀ t, Some t ≠ type → opts w' t = opts w t).

Lemma serviceStep_sameBut w w' t c a :
  sameBut t w w' → GetOptions c ≠ t ∨ GetOptions c = None → serviceStep w' c a = serviceStep w c a.
Proof.
  intros (He & Hc & Ho) Ht. unfold serviceStep. rewrite He.
  destruct (negb _); [done|]. destruct (GetOptions c) as [type|]; [|done].
  unfold readOptions. rewrite Hc, Ho; [done|]. by destruct Ht.
Qed.

Lemma constructOne_step c a w :
  ∃ w', constructOne cfgDir ef c a w = (w', serviceStep w c a) ∧ sameBut (GetOptions c) w w'.
Proof.
  unfold constructOne, serviceStep, readOptions, readConfigOptions, bind, wrap, lift.
  destruct (negb _); [exists w; by repeat split|].
  destruct (GetOptions c) as [type|]; [|exists w; by repeat split].
  rewrite fs_ReadFile_content.
  destruct (fs_content w (GetConfigFilePath c cfgDir)) as [s|e|p]; simpl; [|exists w; by repeat split..].
  destruct (ParseYAML s) as [doc|e|p]; simpl; [|exists w; by repeat split..].
  rewrite options_load_opts.
  destruct (options_Unmarshal type doc (opts w type)) as [o|e|p]; simpl; [|exists w; by repeat split..].
  destruct (options_store_opts type o w) as (w' & -> & Ho & He & Hc).
  exists w'. repeat split; [done..|]. intros t Ht. rewrite Ho, decide_False; [done|congruence].
Qed.

(** The services are read as if at once, when no two share their options. *)
Lemma ConstructClusterResource_steps l a w :
  NoDup (omap GetOptions l) →
  (ConstructClusterResource cfgDir ef l a w).2 = steps (serviceStep w) l a.
Proof.
  revert a w. induction l as [|c l IH]; intros a w Hd; [done|].
  assert (NoDup (omap GetOptions l)) as Hl.
  { simpl in Hd. destruct (GetOptions c); [by apply NoDup_cons in Hd as [_ Hd]|done]. }
  assert (∀ d, d ∈ l → GetOptions d ≠ GetOptions c ∨ GetOptions d = None) as Hc.
  { intros d Hin. destruct (GetOptions d) as [t|] eqn:Ed; [|by right]. left. intros Ec.
    simpl in Hd. rewrite <- Ec in Hd. apply NoDup_cons in Hd as [Hd _]. apply Hd.
    apply list_elem_of_omap. by exists d. }
  simpl. unfold bind. destruct (constructOne_step c a w) as (w' & -> & Hs).
  destruct (serviceStep w c a) as [a'|e|p]; simpl; [|done..]. rewrite IH by done. clear IH Hl Hd.
  revert a'. induction l as [|d l IHl]; intros a'; [done|]. simpl.
  rewrite (serviceStep_sameBut w w' _ d a' Hs) by (apply Hc; by left).
  destruct (serviceStep w d a'); simpl; [|done..]. apply IHl. intros x Hx. apply Hc. by right.
Qed.

(** So their order does not matter when what they do commutes. *)
Lemma ConstructClusterResource_perm l l' a b w :
  NoDup (omap GetOptions l) → l ≡ₚ l' → NoDup l →
  (∀ c d, c ∈ l → d ∈ l → c ≠ d → commute (serviceStep w) c d) →
  (ConstructClusterResource cfgDir ef l a w).2 = Ok b →
  (ConstructClusterResource cfgDir ef l' a w).2 = Ok b.
Proof.
  intros Hd Hp Hn Hc. rewrite !ConstructClusterResource_steps; [by apply steps_perm| |done].
  by rewrite <- Hp.
Qed.
End resource.

(** ** The configuration *)
Section config.
Context {W : Type} `{!SessionEnv W, !JsonUtils, !CloudApi W, !OptionsLib W, !YamlLib}.
Implicit Types (c d : ServiceComponent W) (cfg : OnecloudClusterConfig).

(** What two services write to the configuration is apart. *)
Definition apart c d : Prop :=
  (∀ x y cfg, BuildClusterConfigDB c x (BuildClusterConfigDB d y cfg) =
              BuildClusterConfigDB d y (BuildClusterConfigDB c x cfg)) ∧
  (∀ x y cfg, BuildClusterConfigDB c x (BuildClusterConfigCloudUser d y cfg) =
              BuildClusterConfigCloudUser d y (BuildClusterConfigDB c x cfg)) ∧
  (∀ x y cfg, BuildClusterConfigCloudUser c x (BuildClusterConfigDB d y cfg) =
              BuildClusterConfigDB d y (BuildClusterConfigCloudUser c x cfg)) ∧
  (∀ x y cfg, BuildClusterConfigCloudUser c x (BuildClusterConfigCloudUser d y cfg) =
              BuildClusterConfigCloudUser d y (BuildClusterConfigCloudUser c x cfg)).

(** Whether a service has a data base and an account does not depend on the
    configuration. *)
Definition uniform c : Prop :=
  (∀ cfg cfg', GetDefaultDBConfig c cfg = None → GetDefaultDBConfig c cfg' = None) ∧
  (∀ cfg cfg', GetDefaultCloudUser c cfg = None → GetDefaultCloudUser c cfg' = None).

(** What a service read is written to the configuration. *)
Definition written c (db : option DBConfig) (user : option CloudUser) cfg : OnecloudClusterConfig :=
  let cfg := match db with Some db => BuildClusterConfigDB c db cfg | None => cfg end in
  match user with Some u => BuildClusterConfigCloudUser c u cfg | None => cfg end.

Definition withMsg {A} (m : string) (r : Res A) : Res A :=
  match r with Err e => Err (ErrWrap e m) | _ => r end.

Lemma buildConfig_written c type o cfg :
  uniform c →
  let opt := Some (JObj (json_Marshal type o)) in
  buildConfig c type o cfg =
    res_bind (withMsg ("Get component db config: " +:+ svc_type c) (GetComponentDBConfig c zero opt))
      (λ db, res_bind (withMsg ("Get component clouduser: " +:+ svc_type c)
                         (GetComponentCloudUser c zero opt))
         (λ user, Ok (written c db user cfg))).
Proof.
  intros [Hdb Hu]. unfold buildConfig, GetComponentDBConfig, GetComponentCloudUser, withMsg, written.
  set (opt := JObj (json_Marshal type o)). clearbody opt.
  assert (∀ cfg', GetDefaultCloudUser c zero = None ↔ GetDefaultCloudUser c cfg' = None) as Hu'
    by (split; apply Hu).
  destruct (GetDefaultDBConfig c zero) eqn:E.
  - destruct (GetDefaultDBConfig c cfg) eqn:E'; [|by rewrite (Hdb cfg zero E') in E].
    destruct (str_empty _); [done|]. destruct (ParseSQLAchemyURL _) as [db|e|p]; simpl; [|done..].
    specialize (Hu' (BuildClusterConfigDB c db cfg)).
    destruct (GetDefaultCloudUser c zero), (GetDefaultCloudUser c (BuildClusterConfigDB c db cfg));
      [|naive_solver..|done]. by repeat (destruct (str_empty _); [done|]).
  - rewrite (Hdb zero cfg E). simpl. specialize (Hu' cfg).
    destruct (GetDefaultCloudUser c zero), (GetDefaultCloudUser c cfg); [|naive_solver..|done].
    by repeat (destruct (str_empty _); [done|]).
Qed.

Lemma buildConfig_inv c type o cfg cfg1 :
  uniform c → buildConfig c type o cfg = Ok cfg1 →
  ∃ db user, cfg1 = written c db user cfg ∧
    ∀ cfg', buildConfig c type o cfg' = Ok (written c db user cfg').
Proof.
  intros Hc Hb. pose proof (λ cfg, buildConfig_written c type o cfg Hc) as Heq. cbn zeta in Heq.
  rewrite Heq in Hb.
  destruct (withMsg _ (GetComponentDBConfig _ _ _)) as [db|e|p]; simpl in *; try discriminate.
  destruct (withMsg _ (GetComponentCloudUser _ _ _)) as [user|e|p]; simpl in *; try discriminate.
  injection Hb as <-. eauto.
Qed.

Lemma written_apart c d db user db' user' cfg :
  apart c d →
  written c db user (written d db' user' cfg) = written d db' user' (written c db user cfg).
Proof.
  intros (H1 & H2 & H3 & H4). unfold written.
  destruct db, user, db', user'; rewrite ?H1, ?H2, ?H3, ?H4, ?H1, ?H2, ?H3; done.
Qed.

Context `{!FileSystem W, !OptionsCodec, !OptionsMemory W}.

Lemma serviceStep_commute cfgDir w c d :
  uniform c → uniform d → apart d c → commute (serviceStep cfgDir buildConfig w) c d.
Proof.
  intros Hc Hd Ha cfg cfg1 cfg2. unfold serviceStep.
  destruct (negb (fs_Exists (GetConfigFilePath c cfgDir) w)),
    (negb (fs_Exists (GetConfigFilePath d cfgDir) w)); try naive_solver.
  all: destruct (GetOptions c) as [t|], (GetOptions d) as [t'|]; try naive_solver.
  destruct (readOptions cfgDir w c t) as [o|e|p]; simpl; try discriminate.
  destruct (readOptions cfgDir w d t') as [o'|e|p]; simpl; try discriminate.
  intros (db & user & -> & E1)%buildConfig_inv (db2 & user2 & -> & E2)%buildConfig_inv; [|done..].
  rewrite E2. eexists. split; [done|]. by rewrite E1, <- written_apart.
Qed.
End config.

(** ** The registered services *)
Section registered.
Context {W : Type} `{!SessionEnv W, !JsonUtils, !CloudApi W}.
Context `{!ResourceApi W Deployment, !OptionsLib W, !NodeLister W, !QuantityOps, !SettingsCodec, !YamlLib}.
Context `{!SecretApi W, !QuotaApi W, !PolicyLocale, !Ansible, !AlertCodec, !ComponentCodec}.
Context `{!FileSystem W, !OptionsCodec, !OptionsMemory W}.
Context (SessionDebug StopServices : bool).

Let services : list (ServiceComponent W) := registered SessionDebug StopServices.

Lemma registered_uniform : Forall uniform services.
Proof. repeat constructor; intros ???; done. Qed.

Lemma registered_apart : ForallOrdPairs apart services.
Proof. repeat (constructor; [repeat constructor|]); constructor. Qed.

Lemma registered_options : NoDup (omap GetOptions services).
Proof. vm_compute. apply (bool_decide_unpack _). vm_compute. exact I. Qed.

Lemma registered_types : NoDup (map svc_type services).
Proof. vm_compute. apply (bool_decide_unpack _). vm_compute. exact I. Qed.

Lemma registered_NoDup : NoDup services.
Proof. apply (NoDup_fmap_1 svc_type). exact registered_types. Qed.

Lemma registered_commute cfgDir w c d :
  c ∈ services → d ∈ services → c ≠ d → commute (serviceStep cfgDir buildConfig w) c d.
Proof.
  intros Hc Hd Hne. pose proof registered_uniform as Hu. rewrite Forall_forall in Hu.
  apply serviceStep_commute; [auto..|].
  destruct (ForallOrdPairs_In registered_apart c d) as [?|[(E1 & E2 & E3 & E4)|?]];
    [by apply list_elem_of_In..|congruence| |done].
  by split_and!; intros; rewrite ?E1, ?E2, ?E3, ?E4.
Qed.

(** C38. The configuration that is read back from the files of the services
    does not depend on the order in which Go ranges over the services: when
    one order gives a configuration, every other order gives the same. *)
Theorem ConstructClusterConfig_order cfgDir order order' cfg cfg' w :
  order ≡ₚ services → order' ≡ₚ services →
  (ConstructClusterConfig cfgDir order cfg w).2 = Ok cfg' →
  (ConstructClusterConfig cfgDir order' cfg w).2 = Ok cfg'.
Proof.
  intros Ho Ho'. unfold ConstructClusterConfig. apply ConstructClusterResource_perm.
  - rewrite Ho. apply registered_options.
  - by rewrite Ho, Ho'.
  - rewrite Ho. apply registered_NoDup.
  - intros c d Hc Hd. rewrite Ho in Hc, Hd. by apply registered_commute.
Qed.

(** The services' types differ, so that the registration does not panic. *)
Lemma registerAll_ok (l : list (ServiceComponent W)) m :
  NoDup (map svc_type l) → (∀ c, c ∈ l → m !! svc_type c = None) →
  ∃ m', registerAll l m = Ok m' ∧ (∀ c, c ∈ l → m' !! svc_type c = Some c) ∧
    (∀ t, t ∉ map svc_type l → m' !! t = m !! t).
Proof.
  revert m. induction l as [|c l IH]; intros m Hd Hm; [exists m; set_solver|].
  apply NoDup_cons in Hd as [Hc Hd]. simpl. unfold RegisterComponent. rewrite Hm by (by left). simpl.
  destruct (IH (<[svc_type c := c]> m) Hd) as (m' & -> & Hin & Hout).
  { intros d Hin. rewrite lookup_insert_ne; [apply Hm; by right|].
    intros Heq. apply Hc. rewrite Heq. by apply list_elem_of_fmap_2. }
  exists m'. split; [done|]. split.
  - intros d [->|Hin']%elem_of_cons; [|by apply Hin]. rewrite Hout by done. apply lookup_insert_eq.
  - intros t Ht. rewrite Hout by set_solver. apply lookup_insert_ne. set_solver.
Qed.

Lemma registered_found :
  ∃ m, registerAll services ∅ = Ok m ∧ ∀ c, c ∈ services → GetComponent m (svc_type c) = Some c.
Proof.
  destruct (registerAll_ok services ∅ registered_types) as (m & Hm & Hin & _);
    [intros c _; apply lookup_empty|].
  by exists m.
Qed.
End registered.

(** ** A desk: files and options in memory *)
Record Desk := MkDesk { d_files : gmap string string; d_opts : gmap string Options }.

#[local] Instance desk_session : SessionEnv Desk := {|
  ClientSession := unit;
  Client := unit;
  TokenCredential := unit;
  NewClient _ _ _ _ _ _ := tt;
  AuthenticateWithSource _ _ _ _ _ _ _ := ret tt;
  SimplifyToken t := t;
  SetServiceCatalog c := c;
  NewSession _ _ _ _ _ := tt;
  GetClient _ := tt;
  IsAuthed := ret true;
  SetDefaultAuthSource _ := ret tt;
  auth_Init _ _ _ _ _ := ret tt;
  GetAdminSession _ := ret tt;
  SetServiceUrl _ _ _ := ret tt
|}.
#[local] Instance desk_cloud : CloudApi Desk := {|
  mod_Get _ _ _ := throw ErrNotFound;
  mod_GetByName _ _ _ := throw ErrNotFound;
  mod_List _ _ _ := ret ([], 0%Z);
  mod_Create _ _ _ := throw ErrNotFound;
  mod_Update _ _ _ _ := throw ErrNotFound;
  mod_Patch _ _ _ _ := throw ErrNotFound;
  mod_Delete _ _ _ := throw ErrNotFound;
  mod_BatchDelete _ _ _ := ret tt;
  mod_GetSpecific _ _ _ _ := throw ErrNotFound;
  mod_PerformAction _ _ _ _ _ := throw ErrNotFound;
  mod_CreateInContext _ _ _ _ _ := throw ErrNotFound;
  mod_PutInContexts _ _ _ _ := throw ErrNotFound
|}.
#[local] Instance desk_deployments : ResourceApi Desk Deployment := {|
  apiCreate _ _ := throw ErrAlreadyExists;
  apiUpdate _ _ := throw ErrNotFound;
  apiDelete _ _ := throw ErrNotFound;
  apiGet _ _ := throw ErrNotFound;
  listerGet _ _ := throw ErrNotFound
|}.
#[local] Instance desk_options : OptionsLib Desk := {|
  options_load t w := (w, Ok (default ∅ (d_opts w !! t)));
  options_store t o w := (MkDesk (d_files w) (<[t := o]> (d_opts w)), Ok tt);
  parser_SetDefault _ _ o := Ok o;
  FindBaseOptions _ := Ok tt;
  YAMLString name _ := name
|}.
#[local] Instance desk_files : FileSystem Desk := {|
  fs_Exists p w := bool_decide (is_Some (d_files w !! p));
  fs_ReadFile p w := (w, match d_files w !! p with Some s => Ok s | None => Err ErrNotFound end);
  fs_MkdirAll _ := ret tt;
  fs_WriteFile p s w := (MkDesk (<[p := s]> (d_files w)) (d_opts w), Ok tt);
  os_LookupEnv _ _ := None
|}.
#[local] Instance desk_memory : OptionsMemory Desk.
Proof.
  refine {| opts w t := default ∅ (d_opts w !! t);
            fs_content w p := match d_files w !! p with Some s => Ok s | None => Err ErrNotFound end |}.
  - reflexivity.
  - reflexivity.
  - intros t o w. eexists. split; [reflexivity|]. simpl. split; [|done]. intros t'.
    case_decide; [subst; by rewrite lookup_insert_eq|by rewrite lookup_insert_ne].
Defined.
#[local] Instance desk_nodes : NodeLister Desk := λ _, ret [].
#[local] Instance desk_secrets : SecretApi Desk := λ _ _, throw ErrNotFound.
#[local] Instance desk_quota : QuotaApi Desk :=
  {| quota_Get _ _ := throw ErrNotFound; quota_Set _ _ := ret tt |}.

(** A file is the connection string of its service. *)
#[local] Instance desk_yaml : YamlLib := {|
  ParseYAML s := Ok (JStr s);
  json_YAMLString _ := "";
  json_Marshal _ o :=
    [("sql_connection", default JNull (o !! "SqlConnection"));
     ("admin_user", JStr "regionadmin"); ("admin_password", JStr "pw")]
|}.
#[local] Instance desk_unmarshal : OptionsCodec := λ _ doc o, Ok (<["SqlConnection" := doc]> o).

Definition desk : Desk :=
  MkDesk {[ "/opt/etc/yunion/region.conf" := "mysql+pymysql://region:pw1@db:3306/yunioncloud?charset=utf8";
            "/opt/etc/yunion/keystone.conf" := "mysql+pymysql://keystone:pw2@db:3306/keystone" ]} ∅.

#[local] Instance desk_locale : PolicyLocale := {| GenerateAllPolicies := []; RoleDefinitions := [] |}.
#[local] Instance desk_ansible : Ansible := {|
  AnsibleHost := unit;
  AnsibleModule := unit;
  ParseHostLine _ := Ok tt;
  ParseModuleLine _ := Ok tt;
  Playbook_JSON _ _ _ _ := [];
  Marshal_input l := l
|}.
#[local] Instance desk_components : ComponentCodec := {|
  Unmarshal_status _ := Err ErrNotFound;
  Marshal_minio _ := JNull;
  Marshal_thanos _ := JNull;
  Marshal_monitor _ := JNull
|}.

(** The configuration read in the order of the files' names, and backwards. *)
Definition desk_config : OnecloudClusterConfig :=
  match (ConstructClusterConfig (W := Desk) "/opt" (registered false false) zero desk).2 with
  | Ok cfg => cfg
  | _ => zero
  end.

Lemma desk_reads :
  (ConstructClusterConfig (W := Desk) "/opt" (registered false false) zero desk).2 = Ok desk_config.
Proof. vm_compute. reflexivity. Qed.

Lemma ConstructClusterConfig_order_witness :
  (ConstructClusterConfig (W := Desk) "/opt" (reverse (registered false false)) zero desk).2
    = Ok desk_config ∧
  KeystoneConfig_DB (OnecloudClusterConfig_Keystone desk_config)
    = MkDBConfig "keystone" "keystone" "pw2" ∧
  ServiceDBCommonOptions_DB (region_conf desk_config) = MkDBConfig "yunioncloud" "region" "pw1".
Proof.
  split; [|split; vm_compute; reflexivity].
  apply (ConstructClusterConfig_order (W := Desk) false false "/opt" (registered false false)
           (reverse (registered false false)) zero desk_config desk);
    [reflexivity|apply reverse_Permutation|exact desk_reads].
Defined.
