(* ===== verification/WorkQueue.v ===== *)
(** * WorkQueue: the queue of the controller

    The rate limiting work queue of client-go the controller keeps its
    clusters in ([vendor/k8s.io/client-go/util/workqueue]): the queue itself,
    the entries that wait for their time, and the failures of each item. The
    locks make every method one step. The token bucket of the rate limiter is
    an argument: the delay it asks for. Times are in nanoseconds. *)

From stdpp Require Import sets.
From S2P Require Import Prelude.

Open Scope string_scope.
Open Scope list_scope.
Open Scope go_scope.

(** [channel] holds the entries the waiting loop has not received yet. *)
(*@ vendor/k8s.io/client-go/util/workqueue/queue.go:72-96 Type *)
Record Queue := MkQueue {
  q_queue : list string;
  q_dirty : gset string;
  q_processing : gset string;
  q_shuttingDown : bool;
  q_channel : list (string * Z);
  q_waiting : gmap string Z;
  q_failures : gmap string Z
}.
#[global] Instance Queue_eta : Eta Queue := λ q,
  MkQueue (q_queue q) (q_dirty q) (q_processing q) (q_shuttingDown q) (q_channel q)
    (q_waiting q) (q_failures q).

Definition emptyQueue : Queue := MkQueue [] ∅ ∅ false [] ∅ ∅.

(** ** The queue *)

(*@ vendor/k8s.io/client-go/util/workqueue/queue.go:120-139 Add *)
Definition queue_Add (item : string) (q : Queue) : Queue :=
  if q_shuttingDown q then q
  else if bool_decide (item ∈ q_dirty q) then q
  else
    let q := q <| q_dirty ::= λ d, d ∪ {[item]} |> in
    if bool_decide (item ∈ q_processing q) then q
    else q <| q_queue ::= λ l, l ++ [item] |>.

(** [Get] blocks until there is an item, unless the queue shuts down. *)
Inductive Got := Blocked | Quit | Item (item : string) (q : Queue).

(*@ vendor/k8s.io/client-go/util/workqueue/queue.go:153-175 Get *)
Definition queue_Get (q : Queue) : Got :=
  match q_queue q with
  | [] => if q_shuttingDown q then Quit else Blocked
  | item :: l =>
      Item item (((q <| q_queue := l |>) <| q_processing ::= λ p, p ∪ {[item]} |>)
                   <| q_dirty ::= λ d, d ∖ {[item]} |>)
  end.

(*@ vendor/k8s.io/client-go/util/workqueue/queue.go:180-193 Done *)
Definition queue_Done (item : string) (q : Queue) : Queue :=
  let q := q <| q_processing ::= λ p, p ∖ {[item]} |> in
  if bool_decide (item ∈ q_dirty q) then q <| q_queue ::= λ l, l ++ [item] |> else q.

(*@ vendor/k8s.io/client-go/util/workqueue/queue.go:197-200 ShutDown *)
Definition queue_ShutDown (q : Queue) : Queue := q <| q_shuttingDown := true |>.

(** ** Items that wait *)

(*@ vendor/k8s.io/client-go/util/workqueue/delaying_queue.go:162-181 AddAfter *)
Definition queue_AddAfter (now : Z) (item : string) (duration : Z) (q : Queue) : Queue :=
  if q_shuttingDown q then q
  else if (duration <=? 0)%Z then queue_Add item q
  else q <| q_channel ::= λ l, l ++ [(item, (now + duration)%Z)] |>.

(** The earlier time wins. *)
(*@ vendor/k8s.io/client-go/util/workqueue/delaying_queue.go:268-282 insert *)
Definition queue_insert (item : string) (readyAt : Z) (q : Queue) : Queue :=
  q <| q_waiting ::= λ m,
    match m !! item with
    | Some existing => if (readyAt <? existing)%Z then <[item := readyAt]> m else m
    | None => <[item := readyAt]> m
    end |>.

(** The loop receives an entry: it waits, or its time has come. *)
(*@ vendor/k8s.io/client-go/util/workqueue/delaying_queue.go:243-248 waitingLoop (receive) *)
Definition queue_receive (now : Z) (q : Queue) : Queue :=
  match q_channel q with
  | [] => q
  | (item, readyAt) :: l =>
      let q := q <| q_channel := l |> in
      if (now <? readyAt)%Z then queue_insert item readyAt q else queue_Add item q
  end.

(** The loop adds an entry whose time has come; it takes the earliest first,
    and goes on until there is none. *)
(*@ vendor/k8s.io/client-go/util/workqueue/delaying_queue.go:210-219 waitingLoop (ready) *)
Definition queue_ready (item : string) (q : Queue) : Queue :=
  queue_Add item (q <| q_waiting ::= delete item |>).

(** ** The rate limiter *)

(*@ vendor/k8s.io/client-go/util/workqueue/default_rate_limiters.go:39-45 DefaultControllerRateLimiter *)
Definition baseDelay : Z := 5 * 10 ^ 6.
(*@ vendor/k8s.io/client-go/util/workqueue/default_rate_limiters.go:39-45 DefaultControllerRateLimiter *)
Definition maxDelay : Z := 1000 * 10 ^ 9.

(** The product is exact in floating point. *)
(*@ vendor/k8s.io/client-go/util/workqueue/default_rate_limiters.go:89-108 When *)
Definition backoff (exp : Z) : Z :=
  let backoff := (baseDelay * 2 ^ exp)%Z in
  if (2 ^ 63 - 1 <? backoff)%Z then maxDelay
  else if (maxDelay <? backoff)%Z then maxDelay else backoff.

Definition failuresOf (item : string) (q : Queue) : Z := default 0%Z (q_failures q !! item).

(** The larger of the item's own delay and the bucket's, and at least 0. *)
(*@ vendor/k8s.io/client-go/util/workqueue/default_rate_limiters.go:179-189 When *)
Definition queue_When (bucket : Z) (item : string) (q : Queue) : Z * Queue :=
  (Z.max 0 (Z.max (backoff (failuresOf item q)) bucket),
   q <| q_failures ::= <[item := (failuresOf item q + 1)%Z]> |>).

(*@ vendor/k8s.io/client-go/util/workqueue/rate_limiting_queue.go:68-70 AddRateLimited *)
Definition queue_AddRateLimited (now bucket : Z) (item : string) (q : Queue) : Queue :=
  let '(delay, q) := queue_When bucket item q in queue_AddAfter now item delay q.

(*@ vendor/k8s.io/client-go/util/workqueue/rate_limiting_queue.go:76-78 Forget *)
Definition queue_Forget (item : string) (q : Queue) : Queue :=
  q <| q_failures ::= delete item |>.
