(* ===== verification/Controller.v ===== *)
(** * Controller: from events to reconciliations

    [pkg/controller/cluster/onecloud_cluster_controller.go]: the events of the
    informers put the keys of clusters into the work queue; a worker takes a
    key, reads the cluster, writes it back with its defaults and reconciles
    it; a key that fails comes back later. *)

From Stdlib Require Import Ascii.
From S2P Require Import Prelude K8s Types Constants GoStrings Defaults.
From S2P Require Import ControllerUtils KubeApi Controls Loops.
From S2P Require Import Cluster WorkQueue.

Open Scope string_scope.
Open Scope list_scope.
Open Scope go_scope.

(** ** Keys *)

(*@ vendor/k8s.io/client-go/tools/cache/store.go:104-116 MetaNamespaceKeyFunc *)
Definition MetaNamespaceKeyFunc {T} `{!KObject T} (o : T) : string :=
  let ns := ObjectMeta_Namespace (object_meta o) in
  if str_empty ns then obj_name o else ns +:+ "/" +:+ obj_name o.

(*@ vendor/k8s.io/client-go/tools/cache/store.go:123-135 SplitMetaNamespaceKey *)
Definition SplitMetaNamespaceKey (key : string) : Res (string * string) :=
  match split_on "/"%char key with
  | [name] => Ok ("", name)
  | [ns; name] => Ok (ns, name)
  | _ => Err (ErrMsg ("unexpected key format: " +:+ key))
  end.

(** What an informer hands to a handler: an object of the kind, the tombstone
    of one whose deletion was missed, or anything else. *)
Inductive Event (T : Type) :=
  | Seen (o : T)
  | Tombstone (key : string) (o : option T)
  | Other.
Arguments Seen {T} _.
Arguments Tombstone {T} _ _.
Arguments Other {T}.

(*@ vendor/k8s.io/client-go/tools/cache/controller.go:295-300 DeletionHandlingMetaNamespaceKeyFunc *)
Definition DeletionHandlingMetaNamespaceKeyFunc {T} `{!KObject T} (e : Event T) : Res string :=
  match e with
  | Seen o => Ok (MetaNamespaceKeyFunc o)
  | Tombstone key _ => Ok key
  | Other => Err (ErrMsg "object has no meta")
  end.

(** What an informer tells a handler. *)
Inductive Notification (T : Type) :=
  | OnAdd (o : T)
  | OnUpdate (old cur : T)
  | OnDelete (e : Event T).
Arguments OnAdd {T} _.
Arguments OnUpdate {T} _ _.
Arguments OnDelete {T} _.

(** The queue of the controller, the clock in nanoseconds, and the delay the
    token bucket asks for. *)
Class QueueState (W : Type) := {
  the_queue : W → Queue;
  set_queue : Queue → W → W;
  now_ns : W → Z;
  bucketDelay : W → Z * W;
  the_queue_set q w : the_queue (set_queue q w) = q;
  the_queue_bucket w : the_queue (bucketDelay w).2 = the_queue w
}.

Section controller.
Context {W : Type} `{!QueueState W, !Passwords W, !ResourceApi W OnecloudCluster}.
Context (ClearComponent : bool).
(** [c.control.UpdateOnecloudCluster] *)
Context (control : OnecloudCluster → M W unit).

Definition onQueue (f : Queue → Queue) : M W unit := modify (λ w, set_queue (f (the_queue w)) w).

(** ** The handlers *)

(*@ pkg/controller/cluster/onecloud_cluster_controller.go:254-261 enqueueCluster *)
Definition enqueueCluster (e : Event OnecloudCluster) : M W unit :=
  match DeletionHandlingMetaNamespaceKeyFunc e with
  | Ok key => onQueue (queue_Add key)
  | _ => ret tt
  end.

(** [metav1.GetControllerOf] *)
(*@ vendor/k8s.io/apimachinery/pkg/apis/meta/v1/controller_ref.go:33-51 GetControllerOf *)
Definition GetControllerOf (m : ObjectMeta) : option OwnerReference :=
  List.find (λ r, bool_decide (OwnerReference_Controller r = Some true)) (ObjectMeta_OwnerReferences m).

(*@ pkg/controller/cluster/onecloud_cluster_controller.go:271-291 resolveOnecloudClusterFromDeployment *)
Definition resolveOnecloudClusterFromDeployment (ns : string) (deploy : Deployment)
  : M W (option OnecloudCluster) :=
  match GetControllerOf (Deployment_ObjectMeta deploy) with
  | None => ret None
  | Some controllerRef =>
      if negb (String.eqb (OwnerReference_Kind controllerRef) OnecloudClusterKind) then ret None
      else
        let! r := attempt (listerGet OnecloudCluster ns (OwnerReference_Name controllerRef)) in
        match r with
        | inl _ => ret None
        | inr oc =>
            ret (if String.eqb (oc_uid oc) (OwnerReference_UID controllerRef) then Some oc else None)
        end
  end.

(** The cluster a deployment belongs to, if any, is to be synced. *)
Definition enqueueOwner (ns : string) (deploy : Deployment) : M W unit :=
  let! r := resolveOnecloudClusterFromDeployment ns deploy in
  match r with None => ret tt | Some oc => enqueueCluster (Seen oc) end.

(** A tombstone is no deployment: the nil pointer is used before that is
    looked at. *)
(*@ pkg/controller/cluster/onecloud_cluster_controller.go:330-354 deleteDeployment *)
Definition deleteDeployment (e : Event Deployment) : M W unit :=
  match e with
  | Seen deploy => enqueueOwner (ObjectMeta_Namespace (Deployment_ObjectMeta deploy)) deploy
  | _ => panic "nil pointer dereference"
  end.

(*@ pkg/controller/cluster/onecloud_cluster_controller.go:293-311 addDeployment *)
Definition addDeployment (deploy : Deployment) : M W unit :=
  match ObjectMeta_DeletionTimestamp (Deployment_ObjectMeta deploy) with
  | Some _ => deleteDeployment (Seen deploy)
  | None => enqueueOwner (ObjectMeta_Namespace (Deployment_ObjectMeta deploy)) deploy
  end.

(*@ pkg/controller/cluster/onecloud_cluster_controller.go:313-328 updateDeployment *)
Definition updateDeployment_event (old cur : Deployment) : M W unit :=
  let version d := ObjectMeta_ResourceVersion (Deployment_ObjectMeta d) in
  if String.eqb (version cur) (version old) then ret tt
  else enqueueOwner (ObjectMeta_Namespace (Deployment_ObjectMeta cur)) cur.

(** The handlers the controller registers with the informer of the clusters
    and with that of the deployments. *)
(*@ pkg/controller/cluster/onecloud_cluster_controller.go:154-160 NewController (clusters) *)
Definition clusterHandlers (n : Notification OnecloudCluster) : M W unit :=
  match n with
  | OnAdd oc => enqueueCluster (Seen oc)
  | OnUpdate _ cur => enqueueCluster (Seen cur)
  | OnDelete e => enqueueCluster e
  end.

(*@ pkg/controller/cluster/onecloud_cluster_controller.go:164-170 NewController (deployments) *)
Definition deploymentHandlers (n : Notification Deployment) : M W unit :=
  match n with
  | OnAdd d => addDeployment d
  | OnUpdate old cur => updateDeployment_event old cur
  | OnDelete e => deleteDeployment e
  end.

(** ** The workers *)

(*@ pkg/controller/cluster/onecloud_cluster_controller.go:249-251 syncCluster *)
Definition syncCluster (oc : OnecloudCluster) : M W unit := control oc.

(*@ pkg/controller/cluster/onecloud_cluster_controller.go:220-247 sync *)
Definition controller_sync (key : string) : M W unit :=
  let! '(ns, name) := lift (SplitMetaNamespaceKey key) in
  let! r := attempt (apiGet OnecloudCluster ns name) in
  match r with
  | inl err =>
      if IsNotFound err then ret tt
      else throw (ErrMsg ("failed to get OnecloudCluster " +:+ name +:+ ": " +:+ Error err))
  | inr oc =>
      let! tmpOc := drawing (λ pw, SetDefaults_OnecloudCluster ClearComponent pw oc) in
      let! r := attempt (apiUpdate ns tmpOc) in
      match r with
      | inl err => throw (ErrMsg ("failed to update OnecloudCluster " +:+ obj_name tmpOc +:+ ": " +:+ Error err))
      | inr updatedOc => syncCluster updatedOc
      end
  end.

(** What a worker does with the outcome of a key. *)
(*@ pkg/controller/cluster/onecloud_cluster_controller.go:209-216 processNextWorkItem (outcome) *)
Definition finishItem (key : string) (failed : bool) : M W unit :=
  (if failed then λ w,
     let '(bucket, w) := bucketDelay w in
     onQueue (queue_AddRateLimited (now_ns w) bucket key) w
   else onQueue (queue_Forget key)) ;;!
  onQueue (queue_Done key).

(** One round of a worker; [None]: it is blocked. A panic takes the process
    down. *)
(*@ pkg/controller/cluster/onecloud_cluster_controller.go:204-217 processNextWorkItem *)
Definition processNextWorkItem : M W (option bool) := λ w,
  match queue_Get (the_queue w) with
  | Blocked => (w, Ok None)
  | Quit => (w, Ok (Some false))
  | Item key q =>
      (let! r := attempt (controller_sync key) in
       finishItem key (match r with inl _ => true | inr _ => false end) ;;!
       ret (Some true)) (set_queue q w)
  end.

(** How a worker's loop is found: ended, since the queue is closed and empty,
    or waiting for a key, to go on from where it is. *)
Inductive WorkerEnd := Returned | Waiting.

(*@ pkg/controller/cluster/onecloud_cluster_controller.go:197-200 worker *)
Definition worker (fuel : nat) : M W (option WorkerEnd) :=
  go_for fuel (λ _ : unit,
    let! r := processNextWorkItem in
    ret (match r with
         | None => inr Waiting
         | Some true => inl tt
         | Some false => inr Returned
         end)) tt.

(** [serve workers]: what the handlers and the goroutines of the workers do
    until the channel is closed. Unless the lister fills up no worker is
    started; the queue is shut down on every way out. *)
(*@ pkg/controller/cluster/onecloud_cluster_controller.go:178-194 Run *)
Definition Run (synced : bool) (workers : nat) (serve : nat → W → W) : M W unit := λ w,
  let w := if synced then serve workers w else w in
  onQueue queue_ShutDown w.
End controller.
