(* ===== verification/WorkQueueFacts.v ===== *)
(** * WorkQueueFacts: no key is lost, none is run twice at a time

    The steps the workers, the handlers and the waiting loop take on the queue
    refine those of a far simpler one: a set of pending keys and a set of
    running ones. *)

From stdpp Require Import sets relations.
From S2P Require Import Prelude WorkQueue.

Open Scope string_scope.
Open Scope list_scope.
Open Scope go_scope.

(** ** The steps *)

Inductive Label :=
  | LEnqueue (k : string)
  | LStart (k : string)
  | LRetry (k : string)
  | LForget (k : string)
  | LDone (k : string)
  | LTick
  | LShutDown.

(** Only a worker that has taken a key retries it or is done with it. The steps
    do not say how many workers there are: what holds of every trace holds for
    any number of them; [worked] below has a fixed number. *)
Inductive queue_step : Label → Queue → Queue → Prop :=
  | step_enqueue k q : queue_step (LEnqueue k) q (queue_Add k q)
  | step_start k q q' : queue_Get q = Item k q' → queue_step (LStart k) q q'
  | step_retry k now bucket q : k ∈ q_processing q →
      queue_step (LRetry k) q (queue_AddRateLimited now bucket k q)
  | step_forget k q : k ∈ q_processing q → queue_step (LForget k) q (queue_Forget k q)
  | step_done k q : k ∈ q_processing q → queue_step (LDone k) q (queue_Done k q)
  | step_receive now q : queue_step LTick q (queue_receive now q)
  | step_ready k readyAt now q : q_waiting q !! k = Some readyAt → (readyAt ≤ now)%Z →
      queue_step LTick q (queue_ready k q)
  | step_shutdown q : queue_step LShutDown q (queue_ShutDown q).

Inductive queue_trace : list Label → Queue → Queue → Prop :=
  | trace_nil q : queue_trace [] q q
  | trace_cons l ls q q1 q2 :
      queue_step l q q1 → queue_trace ls q1 q2 → queue_trace (l :: ls) q q2.

(** ** The specification *)
Record Spec := MkSpec { pending : gset string; running : gset string; closed : bool }.

(** A key that is closed out is dropped. A start may leave its key pending:
    an earlier failure of it still waits for its time. *)
Definition admit_key (k : string) (s : Spec) : gset string :=
  if closed s then pending s else pending s ∪ {[k]}.

(** Until the queue is closed nothing leaves [pending] but by a start. *)
Inductive spec_step : Label → Spec → Spec → Prop :=
  | spec_enqueue k s : spec_step (LEnqueue k) s (MkSpec (admit_key k s) (running s) (closed s))
  | spec_start k s p : k ∈ pending s → k ∉ running s → p ∪ {[k]} = pending s →
      spec_step (LStart k) s (MkSpec p (running s ∪ {[k]}) (closed s))
  | spec_retry k s : k ∈ running s →
      spec_step (LRetry k) s (MkSpec (admit_key k s) (running s) (closed s))
  | spec_forget k s : k ∈ running s → spec_step (LForget k) s s
  | spec_done k s : k ∈ running s →
      spec_step (LDone k) s (MkSpec (pending s) (running s ∖ {[k]}) (closed s))
  | spec_tick s p : p ⊆ pending s → (closed s = false → p = pending s) →
      spec_step LTick s (MkSpec p (running s) (closed s))
  | spec_shutdown s : spec_step LShutDown s (MkSpec (pending s) (running s) true).

(** Where a pending key can be: to be taken, waiting, or on its way there. *)
Definition pending_keys (q : Queue) : gset string :=
  q_dirty q ∪ dom (q_waiting q) ∪ list_to_set (map fst (q_channel q)).

Definition spec_of (q : Queue) : Spec :=
  MkSpec (pending_keys q) (q_processing q) (q_shuttingDown q).

(** The keys that can be taken are the dirty ones no worker holds. *)
Definition wf_queue (q : Queue) : Prop :=
  NoDup (q_queue q) ∧ ∀ k, k ∈ q_queue q ↔ k ∈ q_dirty q ∧ k ∉ q_processing q.

(** ** Each operation *)

Lemma wf_Add k q : wf_queue q → wf_queue (queue_Add k q).
Proof.
  intros [Hnd Hq]. unfold queue_Add. destruct (q_shuttingDown q); [done|].
  case_bool_decide as Hd; [done|]. simpl. case_bool_decide as Hp.
  - split; [done|]. intros x. simpl. rewrite Hq. set_solver.
  - split; simpl.
    + apply NoDup_app. split_and!; [done| |apply NoDup_singleton]. set_solver.
    + intros x. rewrite elem_of_app, Hq. set_solver.
Qed.

Lemma Add_facts k q :
  q_processing (queue_Add k q) = q_processing q ∧
  q_shuttingDown (queue_Add k q) = q_shuttingDown q ∧
  q_waiting (queue_Add k q) = q_waiting q ∧ q_channel (queue_Add k q) = q_channel q ∧
  q_dirty (queue_Add k q) = if q_shuttingDown q then q_dirty q else q_dirty q ∪ {[k]}.
Proof.
  unfold queue_Add. destruct (q_shuttingDown q) eqn:E; [done|].
  case_bool_decide as Hd; [rewrite E; repeat split; set_solver|].
  simpl. case_bool_decide; by rewrite E.
Qed.

Lemma spec_of_Add k q :
  spec_of (queue_Add k q) = MkSpec (admit_key k (spec_of q)) (q_processing q) (q_shuttingDown q).
Proof.
  unfold spec_of, admit_key, pending_keys. simpl.
  destruct (Add_facts k q) as (-> & -> & -> & -> & ->).
  f_equal. destruct (q_shuttingDown q); set_solver.
Qed.

Lemma wf_Get k q q' : wf_queue q → queue_Get q = Item k q' → wf_queue q'.
Proof.
  unfold queue_Get. intros [Hnd Hq]. destruct (q_queue q) as [|x l] eqn:E; [by case_match|].
  intros [= <- <-]. apply NoDup_cons in Hnd as [Hx Hnd]. split; [done|]. simpl.
  intros y. specialize (Hq y). rewrite elem_of_cons in Hq. set_solver.
Qed.

Lemma spec_of_Get k q q' : wf_queue q → queue_Get q = Item k q' → spec_step (LStart k) (spec_of q) (spec_of q').
Proof.
  unfold queue_Get. intros [Hnd Hq]. destruct (q_queue q) as [|x l] eqn:E; [by case_match|].
  intros [= <- <-]. destruct (proj1 (Hq x)) as [Hd Hp]; [by left|].
  apply spec_start; unfold pending_keys; simpl; [set_solver|done|].
  apply leibniz_equiv. intros y. destruct (decide (y = x)); set_solver.
Qed.

Lemma wf_Done k q : wf_queue q → k ∈ q_processing q → wf_queue (queue_Done k q).
Proof.
  intros [Hnd Hq] Hk. unfold queue_Done. simpl. case_bool_decide as Hd; split; simpl.
  - apply NoDup_app. split_and!; [done| |apply NoDup_singleton]. set_solver.
  - intros x. rewrite elem_of_app, Hq. destruct (decide (x = k)); set_solver.
  - done.
  - intros x. rewrite Hq. destruct (decide (x = k)); set_solver.
Qed.

Lemma spec_of_Done k q :
  spec_of (queue_Done k q) = MkSpec (pending_keys q) (q_processing q ∖ {[k]}) (q_shuttingDown q).
Proof. unfold queue_Done. simpl. by case_bool_decide. Qed.

Lemma spec_of_insert k r q :
  spec_of (queue_insert k r q) =
  MkSpec (pending_keys q ∪ {[k]}) (q_processing q) (q_shuttingDown q).
Proof.
  unfold spec_of, pending_keys. simpl. f_equal.
  destruct (q_waiting q !! k) as [e|] eqn:E.
  - apply elem_of_dom_2 in E. case_match; rewrite ?dom_insert_L; set_solver.
  - rewrite dom_insert_L. set_solver.
Qed.

(** ** Delays *)

Lemma backoff_bounds n : (0 ≤ n)%Z → (baseDelay ≤ backoff n ≤ maxDelay)%Z.
Proof.
  intros Hn. unfold backoff, maxDelay, baseDelay.
  pose proof (Z.pow_pos_nonneg 2 n ltac:(lia) Hn). repeat case_match; lia.
Qed.

(** The failures of a key are never negative. *)
Definition wf_failures (q : Queue) : Prop := ∀ k, (0 ≤ failuresOf k q)%Z.

Lemma AddRateLimited_facts now bucket k q :
  (0 ≤ failuresOf k q)%Z →
  let q' := queue_AddRateLimited now bucket k q in
  q_queue q' = q_queue q ∧ q_dirty q' = q_dirty q ∧
  spec_of q' = MkSpec (admit_key k (spec_of q)) (q_processing q) (q_shuttingDown q) ∧
  q_failures q' = <[k := (failuresOf k q + 1)%Z]> (q_failures q).
Proof.
  intros Hk. pose proof (backoff_bounds _ Hk) as Hb. unfold baseDelay in Hb.
  unfold queue_AddRateLimited, queue_When, queue_AddAfter, spec_of, admit_key, pending_keys. simpl.
  destruct (q_shuttingDown q) eqn:E; [by rewrite ?E|].
  destruct (Z.leb_spec (Z.max 0 (Z.max (backoff (failuresOf k q)) bucket)) 0); [lia|]. simpl.
  rewrite ?E, map_app, list_to_set_app_L. simpl. repeat split. f_equal. set_solver.
Qed.

(** ** The refinement *)

Lemma wf_AddRateLimited now bucket k q :
  wf_queue q → (0 ≤ failuresOf k q)%Z → wf_queue (queue_AddRateLimited now bucket k q).
Proof.
  intros [Hnd Hq] Hk. destruct (AddRateLimited_facts now bucket k q Hk) as (Hl & Hd & Hs & _).
  injection Hs as _ Hp _. unfold wf_queue. by rewrite Hl, Hd, Hp.
Qed.

Lemma spec_of_receive now q : spec_step LTick (spec_of q) (spec_of (queue_receive now q)).
Proof.
  unfold queue_receive. destruct (q_channel q) as [|[k r] l] eqn:E.
  { by apply (spec_tick (spec_of q)). }
  assert (pending_keys q = pending_keys (q <| q_channel := l |>) ∪ {[k]}) as Hp.
  { unfold pending_keys. simpl. rewrite E. set_solver. }
  case_match.
  - rewrite spec_of_insert. apply spec_tick; simpl; rewrite Hp; set_solver.
  - rewrite spec_of_Add. unfold admit_key.
    apply spec_tick; simpl; rewrite Hp; destruct (q_shuttingDown q); set_solver.
Qed.

Lemma spec_of_ready k r q :
  q_waiting q !! k = Some r → spec_step LTick (spec_of q) (spec_of (queue_ready k q)).
Proof.
  intros Hr. unfold queue_ready. rewrite spec_of_Add.
  assert (pending_keys q = pending_keys (q <| q_waiting ::= delete k |>) ∪ {[k]}) as Hp.
  { unfold pending_keys. simpl. apply elem_of_dom_2 in Hr. rewrite dom_delete_L.
    apply leibniz_equiv. intros x. destruct (decide (x = k)); set_solver. }
  unfold admit_key. apply spec_tick; simpl; rewrite Hp; destruct (q_shuttingDown q); set_solver.
Qed.

Definition good_queue (q : Queue) : Prop := wf_queue q ∧ wf_failures q.

Lemma good_step l q q' : good_queue q → queue_step l q q' → good_queue q'.
Proof.
  intros [Hw Hf] H. destruct H as [k q|k q q' H|k now b q Hk|k q Hk|k q Hk|now q|k r now q Hr _|q].
  - split; [by apply wf_Add|]. intros x. specialize (Hf x). revert Hf.
    unfold failuresOf, queue_Add. repeat case_match; done.
  - split; [by eapply wf_Get|]. unfold queue_Get in H. repeat case_match; by simplify_eq.
  - split; [by apply wf_AddRateLimited|]. intros x.
    destruct (AddRateLimited_facts now b k q (Hf k)) as (_ & _ & _ & Hx).
    unfold failuresOf at 1. rewrite Hx. destruct (decide (k = x)) as [->|Hne].
    + rewrite lookup_insert_eq. simpl. specialize (Hf x). lia.
    + rewrite lookup_insert_ne by done. apply Hf.
  - split; [done|]. intros x. unfold failuresOf. simpl.
    destruct (decide (k = x)) as [->|Hne]; [by rewrite lookup_delete_eq|].
    rewrite lookup_delete_ne by done. apply Hf.
  - split; [by apply wf_Done|]. intros x. specialize (Hf x). revert Hf.
    unfold failuresOf, queue_Done. repeat case_match; done.
  - assert (∀ l, good_queue (q <| q_channel := l |>)) as Hc by done.
    unfold queue_receive. destruct (q_channel q) as [|[k r] l]; [done|].
    case_match; [done|]. split; [by apply wf_Add, Hc|]. intros x. specialize (Hf x). revert Hf.
    unfold failuresOf, queue_Add. repeat case_match; done.
  - split; [by apply wf_Add|]. intros x. specialize (Hf x). revert Hf.
    unfold failuresOf, queue_ready, queue_Add. repeat case_match; done.
  - done.
Qed.

Lemma queue_simulates l q q' :
  good_queue q → queue_step l q q' → spec_step l (spec_of q) (spec_of q').
Proof.
  intros [Hw Hf] H. destruct H as [k q|k q q' H|k now b q Hk|k q Hk|k q Hk|now q|k r now q Hr _|q].
  - rewrite spec_of_Add. apply spec_enqueue.
  - by eapply spec_of_Get.
  - destruct (AddRateLimited_facts now b k q (Hf k)) as (_ & _ & -> & _). by apply spec_retry.
  - by apply spec_forget.
  - rewrite spec_of_Done. by apply (spec_done k (spec_of q)).
  - apply spec_of_receive.
  - by eapply spec_of_ready.
  - apply (spec_shutdown (spec_of q)).
Qed.

Inductive spec_trace : list Label → Spec → Spec → Prop :=
  | spec_nil s : spec_trace [] s s
  | spec_cons l ls s s1 s2 :
      spec_step l s s1 → spec_trace ls s1 s2 → spec_trace (l :: ls) s s2.

Lemma good_empty : good_queue emptyQueue.
Proof. split; [split; [constructor|set_solver]|done]. Qed.

Lemma good_trace ls q q' : good_queue q → queue_trace ls q q' → good_queue q'.
Proof. intros Hq H. induction H; eauto using good_step. Qed.

Lemma trace_simulates ls q q' :
  good_queue q → queue_trace ls q q' → spec_trace ls (spec_of q) (spec_of q').
Proof.
  intros Hq H. induction H as [|l ls q q1 q2 H1 H2 IH]; [constructor|].
  econstructor; [by eapply queue_simulates|]. apply IH. by eapply good_step.
Qed.

Lemma trace_app ls1 ls2 q q1 q2 :
  queue_trace ls1 q q1 → queue_trace ls2 q1 q2 → queue_trace (ls1 ++ ls2) q q2.
Proof. intros H. induction H; [done|]. intros. simpl. econstructor; eauto. Qed.

Lemma trace_app_inv ls1 ls2 q q2 :
  queue_trace (ls1 ++ ls2) q q2 → ∃ q1, queue_trace ls1 q q1 ∧ queue_trace ls2 q1 q2.
Proof.
  revert q. induction ls1 as [|l ls1 IH]; intros q H; simpl in H; [eexists; split; [constructor|done]|].
  inversion H; subst. edestruct IH as (q1' & ? & ?); [done|]. eexists; split; [|done].
  econstructor; eauto.
Qed.

(** *** What the specification promises *)

Lemma spec_closed l s s' : spec_step l s s' → closed s = true → closed s' = true.
Proof. by destruct 1. Qed.

Lemma spec_trace_closed ls s s' : spec_trace ls s s' → closed s = true → closed s' = true.
Proof. induction 1; eauto using spec_closed. Qed.

Lemma spec_pending ls s s' k :
  spec_trace ls s s' → closed s' = false → k ∈ pending s → LStart k ∈ ls ∨ k ∈ pending s'.
Proof.
  intros H Hc. induction H as [|l ls s s1 s2 H1 H2 IH]; intros Hk; [by right|].
  destruct (closed s1) eqn:E1; [by rewrite (spec_trace_closed _ _ _ H2 E1) in Hc|].
  assert (l = LStart k ∨ k ∈ pending s1) as [->|Hk1]; [|left; by left|].
  - destruct H1 as [x s|x s p Hx Hr Hp|x s Hx| | |s p Hp Heq|s]; simpl in *;
      unfold admit_key; rewrite ?E1; set_solver.
  - destruct (IH Hc Hk1); [left; by right|by right].
Qed.

Lemma spec_admits l s s' k :
  spec_step l s s' → l = LEnqueue k ∨ l = LRetry k → closed s' = false → k ∈ pending s'.
Proof.
  intros H Hl Hc. destruct H; destruct Hl; simplify_eq/=; unfold admit_key; rewrite Hc; set_solver.
Qed.

Lemma spec_started l s s' k : spec_step l s s' → l = LStart k → k ∈ running s'.
Proof. intros H ->. inversion H. simpl. set_solver. Qed.

Lemma spec_running ls s s' k :
  spec_trace ls s s' → k ∈ running s → LStart k ∈ ls → LDone k ∈ ls.
Proof.
  intros H. induction H as [|l ls s s1 s2 H1 H2 IH]; intros Hk Hl; [by inversion Hl|].
  destruct (decide (k ∈ running s1)) as [Hk1|Hk1].
  - right. apply IH; [done|]. apply elem_of_cons in Hl as [<-|Hl]; [|done].
    by inversion H1; subst.
  - assert (l = LDone k) as ->; [|by left].
    destruct H1 as [| | | |x s| |]; simpl in *; try set_solver.
    destruct (decide (k = x)) as [->|]; [done|set_solver].
Qed.

(** *** A pending key can be taken *)

(** What a fixed number of workers does: the keys that are processed at once
    are no more than the workers. *)
Inductive worked (n : nat) : list Label → Queue → Queue → Prop :=
  | worked_nil q : worked n [] q q
  | worked_cons l ls q q1 q2 :
      queue_step l q q1 → (size (q_processing q1) ≤ n)%nat → worked n ls q1 q2 →
      worked n (l :: ls) q q2.

Lemma worked_trace n ls q q' : worked n ls q q' → queue_trace ls q q'.
Proof. induction 1; econstructor; eauto. Qed.

Lemma worked_app n ls1 ls2 q q1 q2 : worked n ls1 q q1 → worked n ls2 q1 q2 → worked n (ls1 ++ ls2) q q2.
Proof. intros H. induction H; [done|]. intros. simpl. econstructor; eauto. Qed.

Lemma worked_app_inv n ls1 ls2 q q2 :
  worked n (ls1 ++ ls2) q q2 → ∃ q1, worked n ls1 q q1 ∧ worked n ls2 q1 q2.
Proof.
  revert q. induction ls1 as [|l ls1 IH]; intros q H; simpl in H; [eexists; split; [constructor|done]|].
  inversion H; subst. edestruct IH as (q1' & ? & ?); [done|]. eexists; split; [|done].
  by econstructor.
Qed.

Lemma worked_bound n ls q q' :
  worked n ls q q' → (size (q_processing q) ≤ n)%nat → (size (q_processing q') ≤ n)%nat.
Proof. by induction 1; auto. Qed.

(** How a program goes on that gets no new event and is not stopped, when the
    syncs of the keys in [fails] fail: the waiting loop turns, workers take
    keys, and their syncs end, with a retry or without. *)
Definition goes_on (fails : string → bool) (l : Label) : Prop :=
  match l with
  | LTick | LStart _ | LDone _ => True
  | LRetry k => fails k = true
  | LForget k => fails k = false
  | _ => False
  end.

(** Only a start takes from the line, which grows at its end. *)
Lemma Add_appends k q : ∃ t, q_queue (queue_Add k q) = q_queue q ++ t.
Proof.
  unfold queue_Add. repeat case_match; try (by exists []; rewrite app_nil_r). by eexists.
Qed.

Lemma step_appends l q q' : queue_step l q q' → (∀ x, l ≠ LStart x) →
  ∃ t, q_queue q' = q_queue q ++ t.
Proof.
  assert (∀ q : Queue, ∃ t, q_queue q = q_queue q ++ t) as Hnil by (intros ?; exists []; by rewrite app_nil_r).
  intros H Hl. destruct H as [x q|x q q' Hg|x now b q Hx|x q Hx|x q Hx|now q|x r now q Hr _|q];
    try exact (Hnil q); try apply Add_appends.
  - by destruct (Hl x).
  - unfold queue_AddRateLimited, queue_When, queue_AddAfter.
    set (q1 := q <| q_failures ::= _ |>). change (q_queue q) with (q_queue q1).
    destruct (q_shuttingDown q1); [apply Hnil|]. destruct (_ <=? 0)%Z; [apply Add_appends|exact (Hnil q1)].
  - unfold queue_Done. simpl. case_bool_decide; [by eexists|exact (Hnil q)].
  - unfold queue_receive. destruct (q_channel q) as [|[y r] l0]; [exact (Hnil q)|].
    case_match; [exact (Hnil q)|exact (Add_appends y (q <| q_channel := l0 |>))].
  - exact (Add_appends x (q <| q_waiting ::= delete x |>)).
Qed.

(** The keys the workers take, in their order. *)
Definition starts (ls : list Label) : list string :=
  omap (λ l, match l with LStart k => Some k | _ => None end) ls.

(** First come, first served: the keys in line are taken in their order. *)
Lemma starts_in_line ls q q' : queue_trace ls q q' →
  take (length (q_queue q)) (starts ls) = take (length (starts ls)) (q_queue q).
Proof.
  induction 1 as [q|l ls q q1 q2 H1 _ IH]; [by destruct (q_queue q)|].
  assert ((∃ x, l = LStart x) ∨ ∀ x, l ≠ LStart x) as [[x ->]|Hl]
    by (destruct l; eauto; by right).
  - inversion H1 as [|? ? ? Hg| | | | | |]; subst. unfold queue_Get in Hg.
    destruct (q_queue q) as [|y l] eqn:E; [by case_match|]. simplify_eq/=. by rewrite IH.
  - destruct (step_appends _ _ _ H1 Hl) as [t Ht]. rewrite Ht in IH.
    assert (starts (l :: ls) = starts ls) as -> by (destruct l; try done; by destruct (Hl k)).
    apply (f_equal (take (length (q_queue q)))) in IH. rewrite !take_take in IH.
    rewrite length_app, Nat.min_l in IH by lia. rewrite IH.
    rewrite Nat.min_comm, <-take_take, take_app_length. done.
Qed.

(** What the end of a sync leaves to be processed and in line. *)
Lemma ends_one n fails k q :
  k ∈ q_processing q → (size (q_processing q) ≤ n)%nat →
  ∃ ls q', worked n ls q q' ∧ Forall (goes_on fails) ls ∧ starts ls = [] ∧
    q_processing q' = q_processing q ∖ {[k]} ∧ q_shuttingDown q' = q_shuttingDown q.
Proof.
  intros Hk Hn. set (l := if fails k then LRetry k else LForget k).
  assert (∃ q1, queue_step l q q1 ∧ q_processing q1 = q_processing q ∧
            q_shuttingDown q1 = q_shuttingDown q) as (q1 & H1 & Hp & Hs).
  { unfold l. destruct (fails k).
    - exists (queue_AddRateLimited 0 0 k q). split; [by constructor|].
      unfold queue_AddRateLimited, queue_When, queue_AddAfter.
      set (q1 := q <| q_failures ::= _ |>). destruct (q_shuttingDown q1) eqn:E; [by split|].
      destruct (_ <=? 0)%Z; [|by split].
      destruct (Add_facts k q1) as (-> & -> & _). by split.
    - exists (queue_Forget k q). split; [by constructor|done]. }
  exists [l; LDone k], (queue_Done k q1). split_and!.
  - econstructor; [exact H1|by rewrite Hp|]. econstructor; [constructor; by rewrite Hp| |constructor].
    etrans; [|exact Hn]. apply subseteq_size. rewrite <-Hp. unfold queue_Done. simpl. case_bool_decide; simpl; set_solver.
  - unfold l. destruct (fails k) eqn:E; by repeat constructor.
  - unfold l. by destruct (fails k).
  - rewrite <-Hp. unfold queue_Done. simpl. by case_bool_decide.
  - rewrite <-Hs. unfold queue_Done. simpl. by case_bool_decide.
Qed.

(** All the syncs that run can end. *)
Lemma can_finish n fails q : (size (q_processing q) ≤ n)%nat →
  ∃ ls q', worked n ls q q' ∧ Forall (goes_on fails) ls ∧ starts ls = [] ∧
    q_processing q' = ∅ ∧ q_shuttingDown q' = q_shuttingDown q.
Proof.
  remember (size (q_processing q)) as m eqn:Em. revert q Em.
  induction m as [|m IH]; intros q Em Hn.
  { exists [], q. split_and!; try constructor. symmetry in Em. by apply size_empty_inv, leibniz_equiv in Em. }
  destruct (set_choose_L (q_processing q)) as [k Hk].
  { intros He. rewrite He, size_empty in Em. lia. }
  destruct (ends_one n fails k q Hk) as (ls1 & q1 & H1 & F1 & S1 & P1 & D1); [lia|].
  destruct (IH q1) as (ls2 & q2 & H2 & F2 & S2 & P2 & D2); [|lia|].
  { rewrite P1, size_difference, size_singleton by set_solver. lia. }
  exists (ls1 ++ ls2), q2. split_and!; [by eapply worked_app|by apply Forall_app| |done|congruence].
  unfold starts in *. by rewrite omap_app, S1, S2.
Qed.

Lemma can_drain n fails q : q_shuttingDown q = false → (size (q_processing q) ≤ n)%nat →
  ∃ ls q', worked n ls q q' ∧ Forall (goes_on fails) ls ∧ q_channel q' = [] ∧
    q_shuttingDown q' = false ∧ q_processing q' = q_processing q.
Proof.
  remember (q_channel q) as c eqn:Ec. revert q Ec. induction c as [|[k r] c IH]; intros q Ec Hs Hn.
  { exists [], q. by repeat constructor. }
  assert (q_channel (queue_receive 0 q) = c ∧ q_shuttingDown (queue_receive 0 q) = false ∧
          q_processing (queue_receive 0 q) = q_processing q) as (H1 & H2 & H3).
  { unfold queue_receive. rewrite <- Ec. case_match; [done|].
    by destruct (Add_facts k (q <| q_channel := c |>)) as (-> & -> & _ & -> & _). }
  edestruct (IH (queue_receive 0 q)) as (ls & q' & Ht & Hq & ? & ? & Hp); [done|done|by rewrite H3|].
  exists (LTick :: ls), q'. repeat split; [|by constructor|done|done|by rewrite Hp].
  econstructor; [apply (step_receive 0)|by rewrite H3|done].
Qed.

(** One worker is enough to get to a key in line. *)
Lemma can_take n fails q k l1 l2 : (0 < n)%nat → q_processing q = ∅ → q_queue q = l1 ++ k :: l2 →
  ∃ ls q', worked n (ls ++ [LStart k]) q q' ∧ Forall (goes_on fails) ls.
Proof.
  intros Hn. revert q l2. induction l1 as [|x l1 IH]; intros q l2 Hp Hq.
  - exists []. eexists. split; [|constructor]. simpl. econstructor; [| |constructor].
    + apply step_start. unfold queue_Get. by rewrite Hq.
    + simpl. rewrite Hp, union_empty_l_L, size_singleton. done.
  - assert (∃ q1, queue_Get q = Item x q1 ∧ q_queue q1 = l1 ++ k :: l2 ∧ q_processing q1 = {[x]})
      as (q1 & Hg & Hq1 & Hp1).
    { unfold queue_Get. rewrite Hq. eexists. split; [done|]. simpl. by rewrite Hp, union_empty_l_L. }
    assert (size (q_processing q1) ≤ n)%nat as Hn1 by (rewrite Hp1, size_singleton; lia).
    destruct (can_finish n fails q1 Hn1) as (ls1 & q2 & H1 & F1 & S1 & P1 & _).
    assert (∃ t, q_queue q2 = q_queue q1 ++ t) as [t Ht].
    { clear -H1 S1. induction H1 as [q|l ls q q1 q2 Hs _ _ IH]; [exists []; by rewrite app_nil_r|].
      assert ((∀ x, l ≠ LStart x) ∧ starts ls = []) as [Hl Hls] by (by destruct l).
      destruct (step_appends _ _ _ Hs Hl) as [t1 E1]. destruct (IH Hls) as [t2 E2].
      exists (t1 ++ t2). by rewrite E2, E1, app_assoc. }
    rewrite Hq1, <-app_assoc in Ht. simpl in Ht.
    destruct (IH q2 (l2 ++ t) P1 Ht) as (ls2 & q3 & H2 & F2).
    exists (LStart x :: ls1 ++ ls2), q3. split.
    + simpl. econstructor; [by apply step_start|done|]. rewrite <-app_assoc. by eapply worked_app.
    + constructor; [done|]. by apply Forall_app.
Qed.

(** A trace on which a key that was pending is pending no more has started it. *)
Lemma pending_or_started n fails ls q q' k :
  good_queue q → k ∈ pending_keys q → q_shuttingDown q' = false →
  worked n ls q q' → Forall (goes_on fails) ls →
  (∃ ls' q', worked n (ls' ++ [LStart k]) q q' ∧ Forall (goes_on fails) ls') ∨ k ∈ pending_keys q'.
Proof.
  intros Hg Hk Hs Ht Hl.
  destruct (spec_pending _ _ _ k (trace_simulates _ _ _ Hg (worked_trace _ _ _ _ Ht))) as [Hin|Hk1];
    [done|done|left|by right].
  apply list_elem_of_split in Hin as (a & b & ->).
  rewrite cons_middle, app_assoc in Ht. apply worked_app_inv in Ht as (q1 & Ht & _).
  exists a, q1. split; [done|]. by apply Forall_app in Hl as [? _].
Qed.

Lemma can_start n fails q k :
  (0 < n)%nat → good_queue q → (size (q_processing q) ≤ n)%nat →
  k ∈ pending_keys q → q_shuttingDown q = false →
  ∃ ls q', worked n (ls ++ [LStart k]) q q' ∧ Forall (goes_on fails) ls.
Proof.
  intros Hn Hg Hsz Hk Hs.
  destruct (can_finish n fails q Hsz) as (ls0 & q0 & Ht0 & Hl0 & _ & Hp0 & Hs0).
  destruct (can_drain n fails q0) as (ls1 & q1 & Ht1 & Hl1 & Hc1 & Hs1 & Hp1);
    [congruence|rewrite Hp0, size_empty; lia|].
  assert (worked n (ls0 ++ ls1) q q1) as Ht by by eapply worked_app.
  assert (Forall (goes_on fails) (ls0 ++ ls1)) as Hl by by apply Forall_app.
  destruct (pending_or_started n fails _ q q1 k Hg Hk Hs1 Ht Hl) as [?|Hk1]; [done|].
  pose proof (good_trace _ _ _ Hg (worked_trace _ _ _ _ Ht)) as Hg1.
  rewrite Hp0 in Hp1.
  assert (∃ ls2 q2, worked n ls2 q1 q2 ∧ Forall (goes_on fails) ls2 ∧ k ∈ q_dirty q2 ∧
            q_processing q2 = ∅) as (ls2 & q2 & Ht2 & Hl2 & Hd2 & Hp2).
  { unfold pending_keys in Hk1. rewrite Hc1 in Hk1. simpl in Hk1.
    rewrite !elem_of_union in Hk1.
    destruct Hk1 as [[Hd|Hw]|Hx]; [exists [], q1; by repeat constructor| |set_solver].
    apply elem_of_dom in Hw as [r Hr]. exists [LTick], (queue_ready k q1).
    assert (q_processing (queue_ready k q1) = ∅) as Hp.
    { unfold queue_ready. by rewrite (proj1 (Add_facts _ _)). }
    split; [econstructor; [by apply (step_ready k r r)|rewrite Hp, size_empty; lia|constructor]|].
    split; [by repeat constructor|]. split; [|done]. unfold queue_ready.
    destruct (Add_facts k (q1 <| q_waiting ::= delete k |>)) as (_ & _ & _ & _ & ->).
    simpl. rewrite Hs1. set_solver. }
  pose proof (good_trace _ _ _ Hg1 (worked_trace _ _ _ _ Ht2)) as [[_ Hq2] _].
  destruct (list_elem_of_split (q_queue q2) k) as (l1 & l2 & Hq); [apply Hq2; set_solver|].
  destruct (can_take n fails q2 k l1 l2 Hn Hp2 Hq) as (ls3 & q3 & Ht3 & Hl3).
  exists ((ls0 ++ ls1) ++ ls2 ++ ls3), q3. split; [|rewrite !Forall_app in *; tauto].
  rewrite <-(app_assoc (ls0 ++ ls1)), <-(app_assoc ls2).
  exact (worked_app _ _ _ _ _ _ Ht (worked_app _ _ _ _ _ _ Ht2 Ht3)).
Qed.

Lemma step_keeps_running l q q' k :
  queue_step l q q' → k ∈ q_processing q → l ≠ LDone k → k ∈ q_processing q'.
Proof.
  intros H Hk Hl. destruct H as [x q|x q q' H|x now b q Hx|x q Hx|x q Hx|now q|x r now q Hr _|q];
    try done.
  - by rewrite (proj1 (Add_facts _ _)).
  - unfold queue_Get in H. repeat case_match; simplify_eq/=. set_solver.
  - unfold queue_AddRateLimited, queue_When, queue_AddAfter. simpl.
    repeat case_match; try done. by rewrite (proj1 (Add_facts _ _)).
  - unfold queue_Done. assert (k ≠ x) by congruence. simpl. case_bool_decide; simpl; set_solver.
  - unfold queue_receive. repeat case_match; try done. by rewrite (proj1 (Add_facts _ _)).
  - unfold queue_ready. by rewrite (proj1 (Add_facts _ _)).
Qed.

Lemma trace_keeps_running ls q q' k :
  queue_trace ls q q' → k ∈ q_processing q → LDone k ∉ ls → k ∈ q_processing q'.
Proof.
  induction 1 as [|l ls q q1 q2 H1 H2 IH]; [done|]. intros Hk Hl.
  apply not_elem_of_cons in Hl as [Hl Hls]. apply IH; [|done].
  eapply step_keeps_running; [done..|congruence].
Qed.

(** *** A queue that is shut down runs dry *)

(** What workers can still take: the keys in line, and those that come back
    into it when their sync ends. *)
Definition todo (q : Queue) : nat := length (q_queue q) + size (q_dirty q ∩ q_processing q).

Lemma closed_Add k q : q_shuttingDown q = true → queue_Add k q = q.
Proof. intros H. unfold queue_Add. by rewrite H. Qed.

Lemma closed_step l q q' : q_shuttingDown q = true → queue_step l q q' →
  q_shuttingDown q' = true ∧ (length (starts [l]) + todo q' ≤ todo q)%nat ∧
  ∀ k, k ∈ q_queue q → l = LStart k ∨ k ∈ q_queue q'.
Proof.
  intros Hs H. unfold todo.
  destruct H as [x q|x q q' Hg|x now b q Hx|x q Hx|x q Hx|now q|x r now q Hr _|q]; simpl.
  - rewrite closed_Add by done. split_and!; auto.
  - unfold queue_Get in Hg. destruct (q_queue q) as [|y l] eqn:E; [by case_match|]. simplify_eq/=.
    split_and!; [done| |].
    + assert (size (q_dirty q ∖ {[x]} ∩ (q_processing q ∪ {[x]})) ≤ size (q_dirty q ∩ q_processing q))%nat
        by (apply subseteq_size; set_solver). lia.
    + intros k [->|]%elem_of_cons; auto.
  - unfold queue_AddRateLimited, queue_When, queue_AddAfter. simpl. rewrite Hs. simpl. auto.
  - auto.
  - unfold queue_Done. simpl. case_bool_decide; simpl; split_and!; auto.
    + rewrite length_app. simpl.
      assert (size (q_dirty q ∩ (q_processing q ∖ {[x]})) < size (q_dirty q ∩ q_processing q))%nat
        by (apply subset_size; set_solver). lia.
    + intros k Hk. right. set_solver.
    + apply Nat.add_le_mono_l, subseteq_size. set_solver.
  - unfold queue_receive. destruct (q_channel q) as [|[y r] l]; [auto|].
    case_match; [auto|]. rewrite closed_Add by done. auto.
  - unfold queue_ready. rewrite closed_Add by done. auto.
  - auto.
Qed.

Lemma closed_trace ls q q' : q_shuttingDown q = true → queue_trace ls q q' →
  q_shuttingDown q' = true ∧ (length (starts ls) + todo q' ≤ todo q)%nat ∧
  ∀ k, k ∈ q_queue q → LStart k ∈ ls ∨ k ∈ q_queue q'.
Proof.
  intros Hs H. induction H as [|l ls q q1 q2 H1 H2 IH]; [split_and!; simpl; auto|].
  destruct (closed_step _ _ _ Hs H1) as (Hs1 & Hn1 & Hk1).
  destruct (IH Hs1) as (Hs2 & Hn2 & Hk2). split_and!; [done| |].
  - destruct l; simpl in *; lia.
  - intros k Hk. destruct (Hk1 k Hk) as [->|Hk']; [left; by left|].
    destruct (Hk2 k Hk'); [left; by right|by right].
Qed.

(** ** Theorems *)

(** C23. The work queue refines its specification: from the empty queue, any
    interleaving of enqueues, starts, retries, ends and turns of the waiting
    loop is one of a set of pending and a set of running keys, and at the end
    the keys a worker can take are exactly the pending ones that neither wait
    for their time nor are being synced, each once. *)
Theorem queue_refines_spec ls q :
  queue_trace ls emptyQueue q →
  spec_trace ls (MkSpec ∅ ∅ false) (spec_of q) ∧ wf_queue q.
Proof.
  intros H. split; [|by apply (good_trace _ _ _ good_empty H)].
  replace (MkSpec ∅ ∅ false) with (spec_of emptyQueue); [by apply (trace_simulates _ _ _ good_empty H)|].
  reflexivity.
Qed.

(** C24. No change of a cluster goes unnoticed: once its key is enqueued, or is
    to be retried, and until the queue shuts down, either a sync of it has
    started since or the key is still pending. *)
Theorem key_not_lost ls1 l ls2 k q1 q2 :
  queue_trace ls1 emptyQueue q1 → queue_trace (l :: ls2) q1 q2 →
  l = LEnqueue k ∨ l = LRetry k → q_shuttingDown q2 = false →
  LStart k ∈ ls2 ∨ k ∈ pending_keys q2.
Proof.
  intros H1 H2 Hl Hs. inversion H2 as [|? ? ? qa ? Hstep Htr]; subst.
  pose proof (good_trace _ _ _ good_empty H1) as Hg1.
  pose proof (good_step _ _ _ Hg1 Hstep) as Hga.
  apply (spec_pending ls2 (spec_of qa) (spec_of q2)); [by apply trace_simulates|done|].
  assert (q_shuttingDown qa = false) as Hc.
  { destruct (q_shuttingDown qa) eqn:E; [|done].
    pose proof (spec_trace_closed _ _ _ (trace_simulates _ _ _ Hga Htr) E) as Hx. simpl in Hx. congruence. }
  exact (spec_admits _ _ _ k (queue_simulates _ _ _ Hg1 Hstep) Hl Hc).
Qed.

(** C25. No cluster is synced by two workers at a time: between two starts of
    the same key the first sync ends. *)
Theorem key_not_run_twice ls1 ls2 ls3 k q :
  queue_trace (ls1 ++ LStart k :: ls2 ++ LStart k :: ls3) emptyQueue q → LDone k ∈ ls2.
Proof.
  intros H. apply trace_app_inv in H as (q1 & H1 & H). inversion H as [|? ? ? q2 ? Hs Ht]; subst.
  rewrite cons_middle, app_assoc in Ht. apply trace_app_inv in Ht as (q3 & Ht & _).
  pose proof (good_trace _ _ _ good_empty H1) as Hg1. pose proof (good_step _ _ _ Hg1 Hs) as Hg2.
  assert (LDone k ∈ ls2 ++ [LStart k]) as Hin.
  { apply (spec_running (ls2 ++ [LStart k]) (spec_of q2) (spec_of q3)); [by apply trace_simulates| |set_solver].
    exact (spec_started _ _ _ k (queue_simulates _ _ _ Hg1 Hs) eq_refl). }
  apply elem_of_app in Hin as [Hin|Hin]; [done|]. by apply list_elem_of_singleton in Hin.
Qed.

(** C26. A pending key gets its turn, with any number of workers from one on.
    As long as the queue is open, the program can go on, without any new event,
    until a worker starts the key, never with more keys at once than there are
    workers: the syncs that run end, whichever of them fail, and so do those
    of the keys before it. And nothing overtakes a key that is in line: in
    whatever way the program goes on, the workers first take the keys before
    it, in their order, and then the key. *)
Theorem pending_key_can_start n fails ls k q :
  (0 < n)%nat → worked n ls emptyQueue q → k ∈ pending_keys q → q_shuttingDown q = false →
  (∃ ls' q', worked n (ls' ++ [LStart k]) q q' ∧ Forall (goes_on fails) ls') ∧
  (∀ l1 l2 ls' q', q_queue q = l1 ++ k :: l2 → worked n ls' q q' →
     (length l1 < length (starts ls'))%nat → ∃ rest, starts ls' = l1 ++ k :: rest).
Proof.
  intros Hn H Hk Hs. split.
  - apply can_start; [done| |exact (worked_bound _ _ _ _ H (Nat.le_0_l n))|done|done].
    by apply (good_trace _ _ _ good_empty (worked_trace _ _ _ _ H)).
  - intros l1 l2 ls' q' Hq Ht Hlen. pose proof (starts_in_line _ _ _ (worked_trace _ _ _ _ Ht)) as Hst.
    rewrite Hq in Hst. apply (f_equal (take (S (length l1)))) in Hst.
    rewrite !take_take, !Nat.min_l in Hst by (rewrite ?length_app; simpl; lia).
    assert (take (S (length l1)) (l1 ++ k :: l2) = l1 ++ [k]) as Hk'
      by (clear; induction l1 as [|x l1 IH]; [done|]; simpl in *; by rewrite IH).
    exists (drop (S (length l1)) (starts ls')). rewrite cons_middle, app_assoc, <-Hk', <-Hst.
    by rewrite take_drop.
Qed.

(** C27. The delay before a retry: after [n] failures in a row it doubles from
    5ms up to 1000s, or is what the token bucket asks for if that is more; a
    success starts over. *)
Theorem retry_delay now bucket k q :
  q_shuttingDown q = false → (0 ≤ failuresOf k q)%Z →
  let q' := queue_AddRateLimited now bucket k q in
  q_channel q' = q_channel q ++
    [(k, (now + Z.max (Z.min (5 * 10 ^ 6 * 2 ^ failuresOf k q) (1000 * 10 ^ 9)) bucket)%Z)] ∧
  failuresOf k q' = (failuresOf k q + 1)%Z ∧ failuresOf k (queue_Forget k q') = 0%Z.
Proof.
  intros Hs Hk q'. destruct (AddRateLimited_facts now bucket k q Hk) as (_ & _ & _ & Hf).
  assert (failuresOf k q' = (failuresOf k q + 1)%Z) as Hq'.
  { unfold q', failuresOf at 1. by rewrite Hf, lookup_insert_eq. }
  split_and!; [|done|by unfold failuresOf; simpl; rewrite lookup_delete_eq].
  pose proof (backoff_bounds _ Hk) as Hb. unfold baseDelay in Hb.
  assert (backoff (failuresOf k q) = Z.min (5 * 10 ^ 6 * 2 ^ failuresOf k q) (1000 * 10 ^ 9)) as <-.
  { unfold backoff, maxDelay, baseDelay. repeat case_match; lia. }
  unfold q', queue_AddRateLimited, queue_When, queue_AddAfter. simpl. rewrite Hs.
  destruct (Z.leb_spec (Z.max 0 (Z.max (backoff (failuresOf k q)) bucket)) 0); [lia|]. simpl.
  do 3 f_equal. rewrite Z.max_r; [done|lia].
Qed.

(** ** A history: a sync that fails and is retried while an event comes in *)

Definition history : list Label :=
  [LEnqueue "ns/oc"; LStart "ns/oc"; LEnqueue "ns/oc"; LRetry "ns/oc"; LDone "ns/oc"; LTick].

Definition history_end : Queue :=
  MkQueue ["ns/oc"] {["ns/oc"]} ∅ false [] {[ "ns/oc" := 5000007%Z ]} {[ "ns/oc" := 1%Z ]}.

Ltac run_history :=
  repeat (eapply trace_cons;
    [first [apply (step_start "ns/oc"); reflexivity | apply step_enqueue
           | apply (step_retry "ns/oc" 7 0); set_solver | apply step_done; set_solver
           | apply (step_receive 8)] |]); try apply trace_nil.

Lemma history_trace : queue_trace history emptyQueue history_end.
Proof.
  assert (∃ q, queue_trace history emptyQueue q ∧ q = history_end) as (q & H & <-); [|exact H].
  eexists. split; [unfold history; run_history|]. vm_compute. reflexivity.
Qed.

Ltac work_history :=
  repeat (eapply worked_cons;
    [first [apply (step_start "ns/oc"); reflexivity | apply step_enqueue
           | apply (step_retry "ns/oc" 7 0); set_solver | apply step_done; set_solver
           | apply (step_receive 8)] | vm_compute; lia |]); try apply worked_nil.

Lemma history_worked : worked 1 history emptyQueue history_end.
Proof.
  assert (∃ q, worked 1 history emptyQueue q ∧ q = history_end) as (q & H & <-); [|exact H].
  eexists. split; [unfold history; work_history|]. vm_compute. reflexivity.
Qed.

Lemma queue_refines_spec_witness :
  spec_trace history (MkSpec ∅ ∅ false) (spec_of history_end) ∧ wf_queue history_end.
Proof. exact (queue_refines_spec history history_end history_trace). Defined.

(** The event that came in during the sync is not lost. *)
Lemma key_not_lost_witness :
  LStart "ns/oc" ∈ [LRetry "ns/oc"; LDone "ns/oc"; LTick] ∨ "ns/oc" ∈ pending_keys history_end.
Proof.
  destruct (trace_app_inv [LEnqueue "ns/oc"; LStart "ns/oc"] _ _ _ history_trace) as (q1 & H1 & H2).
  exact (key_not_lost _ (LEnqueue "ns/oc") _ "ns/oc" q1 history_end H1 H2 (or_introl eq_refl) eq_refl).
Defined.

Lemma key_not_run_twice_witness :
  ∃ q, queue_trace (history ++ [LStart "ns/oc"]) emptyQueue q ∧
    LDone "ns/oc" ∈ [LEnqueue "ns/oc"; LRetry "ns/oc"; LDone "ns/oc"; LTick].
Proof.
  assert (∃ q, queue_trace (history ++ [LStart "ns/oc"]) emptyQueue q) as [q Hq].
  { eexists. eapply trace_app; [exact history_trace|].
    eapply trace_cons; [apply (step_start "ns/oc"); reflexivity|apply trace_nil]. }
  exists q. split; [exact Hq|].
  exact (key_not_run_twice [LEnqueue "ns/oc"]
           [LEnqueue "ns/oc"; LRetry "ns/oc"; LDone "ns/oc"; LTick] [] "ns/oc" q Hq).
Defined.

(** One worker, every sync of whose fails. *)
Lemma pending_key_can_start_witness :
  ∃ ls q, worked 1 (ls ++ [LStart "ns/oc"]) history_end q ∧ Forall (goes_on (λ _, true)) ls.
Proof.
  refine (proj1 (pending_key_can_start 1 (λ _, true) history "ns/oc" history_end _ history_worked _ _));
    [lia|vm_compute; tauto|reflexivity].
Defined.

Lemma retry_delay_witness :
  q_channel (queue_AddRateLimited 100 0 "ns/oc" history_end) = [("ns/oc", 10000100%Z)] ∧
  q_channel (queue_AddRateLimited 100 (10 ^ 9) "ns/oc" history_end) = [("ns/oc", 1000000100%Z)].
Proof.
  assert (0 ≤ failuresOf "ns/oc" history_end)%Z as Hf by (vm_compute; discriminate).
  destruct (retry_delay 100 0 "ns/oc" history_end eq_refl Hf) as (H1 & _).
  destruct (retry_delay 100 (10 ^ 9) "ns/oc" history_end eq_refl Hf) as (H2 & _).
  split; [rewrite H1|rewrite H2]; vm_compute; reflexivity.
Defined.
