(* ===== verification/ControllerFacts.v ===== *)
(** * ControllerFacts: events, keys and workers

    The key of a cluster names it; the events of its deployments enqueue it;
    a round of a worker is a start, the sync, and the end of the key in the
    work queue. *)

From Stdlib Require Import Ascii.
From stdpp Require Import sets.
From S2P Require Import Prelude K8s Types Constants GoStrings ControllerUtils KubeApi Controls Loops.
From S2P Require Import DefaultsFacts Cluster WorkQueue WorkQueueFacts Controller KubeSim.

Open Scope string_scope.
Open Scope list_scope.
Open Scope go_scope.

(** C28. The namespace and the name of an object are read back from its key;
    only a slash in one of them is in the way. *)
Theorem SplitMetaNamespaceKey_MetaNamespaceKeyFunc {T} `{!KObject T} (o : T) :
  avoids "/" (ObjectMeta_Namespace (object_meta o)) = true → avoids "/" (obj_name o) = true →
  SplitMetaNamespaceKey (MetaNamespaceKeyFunc o) = Ok (ObjectMeta_Namespace (object_meta o), obj_name o).
Proof.
  intros Hns Hn. unfold MetaNamespaceKeyFunc, SplitMetaNamespaceKey.
  destruct (str_empty (ObjectMeta_Namespace (object_meta o))) eqn:E.
  - apply str_empty_spec in E. by rewrite (split_on_avoids _ _ Hn), E.
  - change ("/" +:+ obj_name o) with (String "/"%char (obj_name o)).
    rewrite (split_on_app "/" _ _ Hns). by rewrite (split_on_avoids _ _ Hn).
Qed.

Section events.
Context {W : Type} `{!QueueState W, !ResourceApi W OnecloudCluster, !ApiStore W OnecloudCluster}.

(** The key of the cluster is added to the queue, and that is all. *)
Definition enqueued (oc : OnecloudCluster) (w : W) : W * Res unit :=
  (set_queue (queue_Add (MetaNamespaceKeyFunc oc) (the_queue w)) w, Ok tt).

Lemma enqueueOwner_owned ns d oc w :
  GetControllerOf (Deployment_ObjectMeta d) = Some (GetOwnerRef oc) →
  stored w ns (oc_name oc) = Some oc → enqueueOwner ns d w = enqueued oc w.
Proof.
  intros Hr Hoc. unfold enqueueOwner, resolveOnecloudClusterFromDeployment. rewrite Hr. simpl.
  rewrite bind_assoc. erewrite bind_Ok.
  2:{ apply attempt_Ok. rewrite listerGet_stored, Hoc. reflexivity. }
  simpl. by rewrite String.eqb_refl.
Qed.

Lemma enqueueOwner_unowned ns d w :
  GetControllerOf (Deployment_ObjectMeta d) = None → enqueueOwner ns d w = (w, Ok tt).
Proof. intros Hr. unfold enqueueOwner, resolveOnecloudClusterFromDeployment. by rewrite Hr. Qed.

(** C29. A deployment of a cluster that is added, changed or deleted makes the
    cluster be synced, one the resync shows unchanged does not; the tombstone
    of a deployment whose deletion was missed takes the operator down. *)
Theorem deployment_events_spec (d : Deployment) oc w :
  GetControllerOf (Deployment_ObjectMeta d) = Some (GetOwnerRef oc) →
  stored w (ObjectMeta_Namespace (Deployment_ObjectMeta d)) (oc_name oc) = Some oc →
  addDeployment d w = enqueued oc w ∧ deleteDeployment (Seen d) w = enqueued oc w ∧
  (∀ old, updateDeployment_event old d w =
     if bool_decide (ObjectMeta_ResourceVersion (Deployment_ObjectMeta d)
                     = ObjectMeta_ResourceVersion (Deployment_ObjectMeta old))
     then (w, Ok tt) else enqueued oc w) ∧
  (∀ key o, deleteDeployment (Tombstone key o) w = (w, Panic "nil pointer dereference")).
Proof.
  intros Hr Hoc. pose proof (enqueueOwner_owned _ _ _ _ Hr Hoc) as He.
  assert (deleteDeployment (Seen d) w = enqueued oc w) as Hd by exact He.
  split_and!; [|done| |done].
  - unfold addDeployment. by case_match.
  - intros old. unfold updateDeployment_event.
    destruct (String.eqb_spec (ObjectMeta_ResourceVersion (Deployment_ObjectMeta d))
                (ObjectMeta_ResourceVersion (Deployment_ObjectMeta old))).
    + by rewrite bool_decide_true.
    + by rewrite bool_decide_false.
Qed.
End events.

Section workers.
Context {W : Type} `{!QueueState W, !Passwords W, !ResourceApi W OnecloudCluster}.
Context (ClearComponent : bool) (control : OnecloudCluster → M W unit).

Definition ending (key : string) (failed : bool) : list Label :=
  [if failed then LRetry key else LForget key; LDone key].

Lemma finishItem_trace key failed w :
  key ∈ q_processing (the_queue w) →
  ∃ w', finishItem key failed w = (w', Ok tt) ∧
    queue_trace (ending key failed) (the_queue w) (the_queue w').
Proof.
  intros Hk. unfold finishItem, ending. destruct failed.
  - destruct (bucketDelay w) as [b w1] eqn:E.
    assert (the_queue w1 = the_queue w) as Hw1 by (by rewrite <- (the_queue_bucket w), E).
    eexists. split; [unfold bind; simpl; rewrite E; reflexivity|]. rewrite !the_queue_set, Hw1.
    econstructor; [by apply step_retry|]. econstructor; [|constructor]. apply step_done.
    unfold queue_AddRateLimited, queue_When, queue_AddAfter. simpl.
    repeat case_match; simpl; try done. by rewrite (proj1 (Add_facts _ _)).
  - eexists. split; [reflexivity|]. rewrite !the_queue_set.
    econstructor; [by apply step_forget|]. econstructor; [by apply step_done|constructor].
Qed.

Lemma processNextWorkItem_eq key q w :
  queue_Get (the_queue w) = Item key q →
  processNextWorkItem ClearComponent control w =
  match controller_sync ClearComponent control key (set_queue q w) with
  | (w1, Panic p) => (w1, Panic p)
  | (w1, r) => bind (finishItem key (negb (is_ok r))) (λ _, ret (Some true)) w1
  end.
Proof.
  intros Hg. unfold processNextWorkItem. rewrite Hg. unfold bind at 1, attempt.
  by destruct (controller_sync ClearComponent control key (set_queue q w)) as [w1 []].
Qed.

(** What the handlers, the other workers and the waiting loop do with the
    queue while [key] is synced: anything but end the key. *)
Definition leaves_key (key : string) : Prop := ∀ w, ∃ ls, (LDone key ∉ ls) ∧
  queue_trace ls (the_queue w) (the_queue (controller_sync ClearComponent control key w).1).

Definition panics {A} (r : Res A) : bool := match r with Panic _ => true | _ => false end.

Lemma round_trace key q w :
  queue_Get (the_queue w) = Item key q → leaves_key key →
  let sync := controller_sync ClearComponent control key (set_queue q w) in
  panics sync.2 = false →
  ∃ ls w', processNextWorkItem ClearComponent control w = (w', Ok (Some true)) ∧
    (LDone key ∉ ls) ∧
    queue_trace (LStart key :: (ls ++ ending key (negb (is_ok sync.2)))) (the_queue w) (the_queue w').
Proof.
  intros Hg Hs sync Hp. rewrite (processNextWorkItem_eq key q w Hg).
  destruct (Hs (set_queue q w)) as (ls & Hd & Ht). fold sync in Ht |- *.
  rewrite the_queue_set in Ht. destruct sync as [w1 o]. simpl in Ht, Hp.
  assert (key ∈ q_processing (the_queue w1)) as Hk.
  { apply (trace_keeps_running ls q _ key Ht); [|done].
    unfold queue_Get in Hg. repeat case_match; simplify_eq/=. set_solver. }
  destruct (finishItem_trace key (negb (is_ok o)) w1 Hk) as (w2 & H1 & H2).
  exists ls, w2. split_and!; [|done|econstructor; [by apply step_start|by eapply trace_app]].
  destruct o; try done; by rewrite (bind_Ok _ _ _ _ _ H1).
Qed.

(** C30. A round of a worker: it takes the key at the head of the queue, syncs
    the cluster, has the key retried when the sync failed and its failures
    forgotten when it did not, and gives the key back. Meanwhile the handlers,
    the other workers and the waiting loop do what they like with the queue
    but end the worker's key; a sync that panics takes the process down. *)
Theorem processNextWorkItem_round key q w :
  queue_Get (the_queue w) = Item key q →
  leaves_key key →
  let sync := controller_sync ClearComponent control key (set_queue q w) in
  let w' := (processNextWorkItem ClearComponent control w).1 in
  let r := (processNextWorkItem ClearComponent control w).2 in
  match sync.2 with
  | Panic p => r = Panic p
  | _ => r = Ok (Some true) ∧ ∃ ls,
      (LDone key ∉ ls) ∧
      queue_trace (LStart key :: (ls ++ ending key (negb (is_ok sync.2)))) (the_queue w) (the_queue w')
  end.
Proof.
  intros Hg Hs sync w' r. subst w' r. pose proof (round_trace key q w Hg Hs) as Hr.
  cbv zeta in Hr. fold sync in Hr. destruct sync.2 as [[]|e|p] eqn:E.
  3: { rewrite (processNextWorkItem_eq key q w Hg). fold sync. destruct sync; simpl in E. by subst. }
  all: destruct (Hr eq_refl) as (ls & w' & -> & Hd & Ht); eauto.
Qed.

(** A round at a queue that is shut down: the worker returns, or a key is
    taken out. *)
Lemma worker_step n w :
  q_shuttingDown (the_queue w) = true →
  (∀ key w, panics (controller_sync ClearComponent control key w).2 = false) →
  (∀ key, leaves_key key) →
  (q_queue (the_queue w) = [] ∧ worker ClearComponent control (S n) w = (w, Ok (Some Returned))) ∨
  ∃ key ls w', worker ClearComponent control (S n) w = worker ClearComponent control n w' ∧
    queue_trace (LStart key :: ls) (the_queue w) (the_queue w').
Proof.
  intros Hsd Hp Hs. destruct (queue_Get (the_queue w)) as [| |key q] eqn:Hg.
  - unfold queue_Get in Hg. repeat case_match; congruence.
  - left. assert (q_queue (the_queue w) = []) as Hq by (unfold queue_Get in Hg; by repeat case_match).
    split; [done|]. unfold worker. simpl. unfold bind at 1 2, processNextWorkItem. by rewrite Hg.
  - right. destruct (round_trace key q w Hg (Hs key) (Hp key _)) as (ls & w' & Hw & _ & Ht).
    eexists key, _, w'. split; [|exact Ht]. unfold worker. simpl. unfold bind at 1 2. by rewrite Hw.
Qed.

Lemma worker_drains n w :
  q_shuttingDown (the_queue w) = true →
  (∀ key w, panics (controller_sync ClearComponent control key w).2 = false) →
  (∀ key, leaves_key key) → (todo (the_queue w) < n)%nat →
  ∃ ls w', worker ClearComponent control n w = (w', Ok (Some Returned)) ∧
    queue_trace ls (the_queue w) (the_queue w') ∧ q_queue (the_queue w') = [].
Proof.
  intros Hsd Hp Hs. revert w Hsd. induction n as [|n IH]; intros w Hsd Hn; [lia|].
  destruct (worker_step n w Hsd Hp Hs) as [[Hq ->]|(key & ls & w1 & -> & Ht)].
  { exists [], w. split_and!; [done|constructor|done]. }
  destruct (closed_trace _ _ _ Hsd Ht) as (Hsd1 & Hlen & _). simpl in Hlen.
  destruct (IH w1 Hsd1 ltac:(lia)) as (ls' & w2 & -> & Ht' & Hq).
  eexists _, w2. split_and!; [done|by eapply trace_app|done].
Qed.

(** C31. The workers come to an end. Once [Run] has returned, whether or not
    its lister ever filled and whatever the handlers and the workers did until
    then, a worker's loop returns: after as many syncs, of whatever worker, as
    there are keys in line or coming back when their sync ends. Every key that
    was in line is synced once more; failures are not retried. This holds
    whatever the other workers, the handlers and the waiting loop do
    meanwhile, as long as no sync panics. *)
Theorem worker_returns synced workers serve w0 :
  (∀ key w, panics (controller_sync ClearComponent control key w).2 = false) →
  (∀ key, leaves_key key) →
  let w := (Run synced workers serve w0).1 in
  ∃ ls w', worker ClearComponent control (S (todo (the_queue w))) w = (w', Ok (Some Returned)) ∧
    queue_trace ls (the_queue w) (the_queue w') ∧
    (length (starts ls) + todo (the_queue w') ≤ todo (the_queue w))%nat ∧
    ∀ key, key ∈ q_queue (the_queue w) → LStart key ∈ ls.
Proof.
  intros Hp Hs w. assert (q_shuttingDown (the_queue w) = true) as Hsd.
  { unfold w, Run, onQueue, modify. simpl. by rewrite the_queue_set. }
  destruct (worker_drains (S (todo (the_queue w))) w Hsd Hp Hs ltac:(lia)) as (ls & w' & Hw & Ht & Hq).
  destruct (closed_trace _ _ _ Hsd Ht) as (_ & Hlen & Hin).
  exists ls, w'. split_and!; [done..|]. intros key Hk.
  destruct (Hin key Hk) as [|Hk']; [done|]. rewrite Hq in Hk'. by apply elem_of_nil in Hk'.
Qed.
End workers.

(** ** A controller in memory *)

Record CWorld := MkCWorld { c_queue : Queue; c_clusters : MemStore OnecloudCluster; c_drawn : nat }.

#[export] Instance cworld_queue : QueueState CWorld.
Proof.
  refine {| the_queue := c_queue;
            set_queue q w := MkCWorld q (c_clusters w) (c_drawn w);
            now_ns _ := 7%Z;
            bucketDelay w := (0%Z, w) |}; done.
Defined.

#[export] Instance cworld_passwords : Passwords CWorld := {|
  nthPassword _ := "secret";
  drawn := c_drawn;
  set_drawn n w := MkCWorld (c_queue w) (c_clusters w) n
|}.

#[export] Instance cworld_api : ResourceApi CWorld OnecloudCluster :=
  part_api keep c_clusters (λ s w, MkCWorld (c_queue w) s (c_drawn w)).

#[export] Instance cworld_store : ApiStore CWorld OnecloudCluster.
Proof. refine (part_store _ _ _ _ _); [by intros s []|by intros []]. Defined.

Definition key_cluster : OnecloudCluster :=
  (zero : OnecloudCluster) <| OnecloudCluster_ObjectMeta ::= λ m,
    (m <| ObjectMeta_Name := "oc" |>) <| ObjectMeta_Namespace := "ns" |> |>.

Lemma SplitMetaNamespaceKey_MetaNamespaceKeyFunc_witness :
  MetaNamespaceKeyFunc key_cluster = "ns/oc" ∧
  SplitMetaNamespaceKey (MetaNamespaceKeyFunc key_cluster) = Ok ("ns", "oc").
Proof.
  split; [reflexivity|].
  exact (SplitMetaNamespaceKey_MetaNamespaceKeyFunc key_cluster eq_refl eq_refl).
Defined.

(** A sync that always fails: the key is retried. *)
Definition failing (oc : OnecloudCluster) : M CWorld unit := throw (ErrMsg "not yet").

Definition cworld (q : Queue) : CWorld :=
  MkCWorld q (MkMemStore {[ ("ns", "oc") := key_cluster ]}) 0.

Definition owned_deployment : Deployment :=
  (zero : Deployment) <| Deployment_ObjectMeta ::= λ m,
    ((m <| ObjectMeta_Name := "oc-web" |>) <| ObjectMeta_Namespace := "ns" |>)
      <| ObjectMeta_OwnerReferences := [GetOwnerRef key_cluster] |> |>.

Lemma deployment_events_spec_witness :
  GetControllerOf (Deployment_ObjectMeta owned_deployment) = Some (GetOwnerRef key_cluster) ∧
  (addDeployment owned_deployment (cworld emptyQueue)).1 =
    cworld (queue_Add "ns/oc" emptyQueue) ∧
  updateDeployment_event owned_deployment owned_deployment (cworld emptyQueue)
    = (cworld emptyQueue, Ok tt) ∧
  (deleteDeployment (Tombstone "ns/oc-web" (Some owned_deployment)) (cworld emptyQueue)).2
    = Panic "nil pointer dereference".
Proof.
  assert (GetControllerOf (Deployment_ObjectMeta owned_deployment) = Some (GetOwnerRef key_cluster))
    as Hr by reflexivity.
  assert (stored (cworld emptyQueue) "ns" "oc" = Some key_cluster) as Hst by reflexivity.
  destruct (deployment_events_spec owned_deployment key_cluster (cworld emptyQueue) Hr Hst)
    as (H1 & _ & H2 & H3).
  split_and!; [exact Hr|by rewrite H1|by rewrite H2|by rewrite H3].
Defined.

Lemma failing_keeps_queue key w :
  c_queue (controller_sync false failing key w).1 = c_queue w.
Proof.
  assert (wp (controller_sync false failing key) (λ w' _, c_queue w' = c_queue w) w) as H; [|exact H].
  unfold controller_sync. apply wp_bind, wp_lift. destruct (SplitMetaNamespaceKey key) as [[ns n]|e|p];
    simpl; [|done|done].
  apply wp_bind, wp_attempt. unfold wp at 1, apiGet. simpl. unfold on_part, mem_get. simpl.
  destruct (mem (c_clusters w) !! (ns, n)) as [oc|]; simpl; [|by apply wp_ret].
  apply wp_bind. unfold wp at 1, drawing.
  destruct (Defaults.SetDefaults_OnecloudCluster false nthPassword oc (drawn _)) as [m [o|e|p]];
    simpl; [|done|done].
  apply wp_bind, wp_attempt. unfold wp at 1. simpl.
  by destruct (mem (c_clusters w) !! (ns, obj_name o)); simpl; apply wp_throw.
Qed.

Definition queued : Queue := queue_Add "ns/oc" emptyQueue.
Definition taken : Queue := MkQueue [] (({["ns/oc"]} : gset string) ∖ {["ns/oc"]}) {["ns/oc"]} false [] ∅ ∅.

Lemma processNextWorkItem_round_witness :
  ∃ ls w', processNextWorkItem false failing (cworld queued) = (w', Ok (Some true)) ∧
    (LDone "ns/oc" ∉ ls) ∧
    queue_trace (LStart "ns/oc" :: (ls ++ [LRetry "ns/oc"; LDone "ns/oc"])) queued (c_queue w').
Proof.
  assert (∀ w : CWorld, ∃ ls, (LDone "ns/oc" ∉ ls) ∧
     queue_trace ls (the_queue w) (the_queue (controller_sync false failing "ns/oc" w).1)) as Hs.
  { intros w. exists []. split; [apply not_elem_of_nil|]. simpl. rewrite failing_keeps_queue.
    constructor. }
  assert (queue_Get (the_queue (cworld queued)) = Item "ns/oc" taken) as Hg
    by (vm_compute; reflexivity).
  assert ((controller_sync false failing "ns/oc" (set_queue taken (cworld queued))).2
          = Err (ErrMsg "not yet")) as Ho by (vm_compute; reflexivity).
  pose proof (processNextWorkItem_round false failing "ns/oc" taken (cworld queued) Hg Hs) as H.
  cbv zeta in H. rewrite Ho in H. destruct H as (Hr & ls & Hd & Ht).
  exists ls, (processNextWorkItem false failing (cworld queued)).1.
  split_and!; [by rewrite <- Hr; destruct (processNextWorkItem _ _ _)|exact Hd|exact Ht].
Defined.

(** The worker finds two keys in line and the end of the day. *)
Lemma failing_keeps_key key : leaves_key false failing key.
Proof.
  intros w. exists []. split; [apply not_elem_of_nil|]. simpl. rewrite failing_keeps_queue. constructor.
Qed.

Lemma failing_never_panics key w : panics (controller_sync false failing key w).2 = false.
Proof.
  assert (wp (controller_sync false failing key) (λ _ r, panics r = false) w) as H; [|exact H].
  unfold controller_sync. apply wp_bind, wp_lift.
  destruct (SplitMetaNamespaceKey key) as [[ns n]|e|p] eqn:Ek; simpl;
    [|done|unfold SplitMetaNamespaceKey in Ek; by repeat case_match].
  apply wp_bind, wp_attempt. unfold wp at 1, apiGet. simpl. unfold on_part, mem_get. simpl.
  destruct (mem (c_clusters w) !! (ns, n)) as [oc|]; simpl; [|by apply wp_ret].
  apply wp_bind. unfold wp at 1, drawing.
  match goal with |- context [Defaults.SetDefaults_OnecloudCluster _ ?g oc ?n] =>
    destruct (SetDefaults_OnecloudCluster_ok g oc n) as (m & o & ->) end.
  simpl. apply wp_bind, wp_attempt. unfold wp at 1. simpl.
  by destruct (mem (c_clusters w) !! (ns, obj_name o)); simpl; apply wp_throw.
Qed.

Definition two_keys : Queue := queue_Add "ns/oc2" (queue_Add "ns/oc" emptyQueue).

Lemma worker_returns_witness :
  let w := (Run true 2 (λ _, id) (cworld two_keys)).1 in
  todo (the_queue w) = 2 ∧
  ∃ ls w', worker false failing 3 w = (w', Ok (Some Returned)) ∧ LStart "ns/oc2" ∈ ls ∧
    queue_trace ls (the_queue w) (the_queue w') ∧ (length (starts ls) ≤ 2)%nat.
Proof.
  intros w. split; [reflexivity|].
  destruct (worker_returns false failing true 2 (λ _, id) (cworld two_keys)
              failing_never_panics failing_keeps_key) as (ls & w' & Hw & Ht & Hlen & Hin).
  exists ls, w'. split_and!; [exact Hw| |exact Ht|].
  - apply Hin. right. left.
  - etrans; [apply Nat.le_add_r|exact Hlen].
Defined.
