(* ===== verification/ClusterFacts.v ===== *)
(** * ClusterFacts: the configuration is read back

    What the controller keeps of a cluster's configuration from one
    reconciliation to the next is what the managers read. *)

From S2P Require Import Prelude K8s Types Constants GoStrings Defaults ConfigDefaults ConfigDefaultsFacts.
From S2P Require Import ControllerUtils LastApplied KubeApi Controls Session Sha256.
From S2P Require Import ClusterManagers Certs Cluster KubeSim.

Open Scope string_scope.
Open Scope list_scope.
Open Scope go_scope.

Section config.
Context {W : Type} `{!ResourceApi W ConfigMap, !ApiStore W ConfigMap, !ConfigCodec, !Passwords W}.

(** The server keeps the data of a config map; drawing a password leaves the
    server alone. *)
Definition keeps_data : Prop :=
  (∀ (old : option ConfigMap) cm, ConfigMap_Data (admitted old cm) = ConfigMap_Data cm) ∧
  (∀ n w ns name, stored (T:=ConfigMap) (set_drawn n w) ns name = stored w ns name).

Definition keeps_store {A} (c : M W A) : Prop :=
  ∀ w w' r, c w = (w', r) → ∀ ns name, stored (T:=ConfigMap) w' ns name = stored w ns name.

Lemma defaults_keep_store cfg : keeps_data → keeps_store (SetObjectDefaults_OnecloudClusterConfig cfg).
Proof.
  intros [_ Hd] w w' r. unfold SetObjectDefaults_OnecloudClusterConfig, bind, drawing.
  destruct (SetDefaults_OnecloudClusterConfig nthPassword cfg (drawn w)) as [n [c|e|p]];
    intros [= <- <-]; apply Hd.
Qed.

Lemma keeps_store_bind {A B} (c : M W A) (k : A → M W B) :
  keeps_store c → (∀ a, keeps_store (k a)) → keeps_store (bind c k).
Proof.
  intros Hc Hk w w' r. unfold bind. destruct (c w) as [w1 [a|e|p]] eqn:E.
  - intros H2 ns name. by rewrite (Hk a _ _ _ H2), (Hc _ _ _ E).
  - intros [= <- <-]. by eapply Hc.
  - intros [= <- <-]. by eapply Hc.
Qed.

Lemma keeps_store_wrap {A} msg (c : M W A) : keeps_store c → keeps_store (wrap msg c).
Proof.
  intros Hc w w' r. unfold wrap. destruct (c w) as [w1 [a|e|p]] eqn:E; intros [= <- <-]; by eapply Hc.
Qed.

Lemma keeps_store_lift {A} (r : Res A) : keeps_store (lift r).
Proof. by intros w w' r' [= <- <-]. Qed.

Lemma stored_config_keeps cm : keeps_data → keeps_store (newClusterConfigFromConfigMap cm).
Proof.
  intros Hk. apply keeps_store_bind; [|intros; by apply defaults_keep_store].
  unfold newClusterConfigFromConfigMapNoDefault. destruct (ConfigMap_Data cm !! _).
  - apply keeps_store_wrap, keeps_store_bind; [apply keeps_store_lift|].
    intros; by apply defaults_keep_store.
  - by intros w w' r [= <- <-].
Qed.

(** What the operator ends with has been defaulted. *)
Definition settled_cfg (c : M W OnecloudClusterConfig) : Prop :=
  ∀ w w' cfg, c w = (w', Ok cfg) → config_settled nthPassword cfg.

Definition passwords_drawn : Prop := ∀ k, nthPassword k ≠ "".

Lemma defaults_settled cfg : passwords_drawn → settled_cfg (SetObjectDefaults_OnecloudClusterConfig cfg).
Proof.
  intros Hpw w w' c Hr. unfold SetObjectDefaults_OnecloudClusterConfig, bind, drawing, ret in Hr.
  destruct (SetDefaults_OnecloudClusterConfig_settles nthPassword cfg (drawn w) Hpw)
    as (n & c' & E & Hc & Hs). rewrite E, Hc in Hr.
  assert (Ok c' = Ok c) as [= <-] by exact (f_equal snd Hr). by split.
Qed.

(** The key of the itsm service, as the next reading draws it. *)
Definition redrawn (w : W) (cfg : OnecloudClusterConfig) : OnecloudClusterConfig :=
  cfg <| OnecloudClusterConfig_Itsm ::= λ i, i <| ItsmConfig_EncryptionKey := nthPassword (drawn w) |> |>.

Lemma settled_redrawn cfg w : config_settled nthPassword cfg →
  SetObjectDefaults_OnecloudClusterConfig cfg w
  = (set_drawn (S (drawn w)) w, Ok (redrawn w cfg)).
Proof.
  intros [Hc Hs]. unfold SetObjectDefaults_OnecloudClusterConfig, bind, drawing. rewrite Hs.
  unfold ret. do 2 f_equal. unfold redrawn. rewrite <- Hc at 2. reflexivity.
Qed.

Lemma GetClusterConfig_stored oc cfg cm cm' w :
  config_settled nthPassword cfg →
  clusterConfigToConfigMap oc cfg = Ok cm → ConfigMap_Data cm' = ConfigMap_Data cm →
  stored w (oc_ns oc) (ClusterConfigMapName oc) = Some cm' →
  GetClusterConfig oc w = (set_drawn (S (drawn w)) w, Ok (redrawn w cfg)).
Proof.
  intros Hs Hcm Hd Hst. unfold GetClusterConfig. erewrite bind_Ok.
  2:{ rewrite listerGet_stored, Hst. reflexivity. }
  rewrite (config_decoded _ _ _ _ _ Hcm Hd). by apply wrap_Ok, settled_redrawn.
Qed.

Lemma config_name oc cfg cm :
  clusterConfigToConfigMap oc cfg = Ok cm → obj_name cm = ClusterConfigMapName oc.
Proof.
  unfold clusterConfigToConfigMap. destruct (MarshalToYaml cfg); [|done|done]. by intros [= <-].
Qed.

(** The first configuration, and one that is stored. *)
Lemma created_read_back (c : M W OnecloudClusterConfig) oc w w' cfg :
  keeps_data → keeps_store c → settled_cfg c → stored (T:=ConfigMap) w (oc_ns oc) (ClusterConfigMapName oc) = None →
  bind c (λ cfg,
    let! newCfgMap := wrap "new cluster configmap" (lift (clusterConfigToConfigMap oc cfg)) in
    wrap "create cluster config to configmap" (CreateConfigMap oc newCfgMap) ;;!
    ret cfg) w = (w', Ok cfg) →
  GetClusterConfig oc w' = (set_drawn (S (drawn w')) w', Ok (redrawn w' cfg)).
Proof.
  intros Hk Hkc Hset Hold Hr.
  apply bind_Ok_inv in Hr as (w1 & c1 & Hc & Hr).
  pose proof (Hkc _ _ _ Hc) as Hst. pose proof (Hset _ _ _ Hc) as Hs1.
  apply bind_Ok_inv in Hr as (w2 & cm & Hcm & Hr). apply wrap_Ok_inv in Hcm.
  unfold lift in Hcm. injection Hcm as <- Hcm. pose proof (config_name _ _ _ Hcm) as Hn.
  destruct (apiCreate_stored w1 (oc_ns oc) cm) as (w3 & Hw3 & Hst3); [by rewrite Hst, Hn|].
  apply bind_Ok_inv in Hr as (w4 & u & Hu & Hr). apply wrap_Ok_inv in Hu.
  unfold CreateConfigMap in Hu. rewrite (bind_Ok _ _ _ _ _ Hw3) in Hu.
  injection Hu as <- _. unfold ret in Hr. injection Hr as <- <-.
  eapply GetClusterConfig_stored; [exact Hs1|exact Hcm|apply (proj1 Hk)|]. by rewrite Hst3, Hn, decide_True.
Qed.

Lemma updated_read_back (c : M W OnecloudClusterConfig) msg oc w w' old cfg :
  keeps_data → keeps_store c → settled_cfg c → stored (T:=ConfigMap) w (oc_ns oc) (ClusterConfigMapName oc) = Some old →
  bind (wrap msg c) (λ cfg,
    let! newCfgMap := wrap "renew configmap" (lift (clusterConfigToConfigMap oc cfg)) in
    wrap ("update cluster configmap " +:+ obj_name newCfgMap) (UpdateConfigMap oc newCfgMap) ;;!
    ret cfg) w = (w', Ok cfg) →
  GetClusterConfig oc w' = (set_drawn (S (drawn w')) w', Ok (redrawn w' cfg)).
Proof.
  intros Hk Hkc Hset Hold Hr.
  apply bind_Ok_inv in Hr as (w1 & c1 & Hc & Hr). apply wrap_Ok_inv in Hc.
  pose proof (Hkc _ _ _ Hc) as Hst. pose proof (Hset _ _ _ Hc) as Hs1.
  apply bind_Ok_inv in Hr as (w2 & cm & Hcm & Hr). apply wrap_Ok_inv in Hcm.
  unfold lift in Hcm. injection Hcm as <- Hcm. pose proof (config_name _ _ _ Hcm) as Hn.
  destruct (apiUpdate_stored w1 (oc_ns oc) cm old) as (w3 & Hw3 & Hst3); [by rewrite Hst, Hn|].
  apply bind_Ok_inv in Hr as (w4 & u & Hu & Hr). apply wrap_Ok_inv in Hu.
  unfold UpdateConfigMap in Hu.
  rewrite (updateOnConflict_accepted _ _ _ _ _ _ _ Hw3) in Hu by (unfold DefaultBackoff; lia).
  injection Hu as <- _. unfold ret in Hr. injection Hr as <- <-.
  eapply GetClusterConfig_stored; [exact Hs1|exact Hcm|apply (proj1 Hk)|]. by rewrite Hst3, Hn, decide_True.
Qed.

(** C32. The configuration a reconciliation starts with is the one every
    manager then reads, with one exception. When ensuring it succeeds, whether
    it was there or not, reading it back succeeds and gives what was returned
    - all users, passwords, ports and data bases - but for the encryption key
    of the itsm service: the decoder applies the defaults of the scheme, and
    they draw that key anew on every reading. Nothing else is drawn. The
    serializer is taken to read back what it wrote, and the server to keep
    the data of a config map. *)
Theorem config_CreateOrUpdate_read_back oc w w' cfg :
  passwords_drawn → keeps_data → config_CreateOrUpdate oc w = (w', Ok cfg) →
  GetClusterConfig oc w' = (set_drawn (S (drawn w')) w',
    Ok (cfg <| OnecloudClusterConfig_Itsm ::= λ i,
                 i <| ItsmConfig_EncryptionKey := nthPassword (drawn w') |> |>)).
Proof.
  intros Hpw Hk. unfold config_CreateOrUpdate.
  destruct (stored w (oc_ns oc) (ClusterConfigMapName oc)) as [old|] eqn:Hold.
  - erewrite bind_Ok; [|apply attempt_Ok; rewrite listerGet_stored, Hold; reflexivity].
    refine (updated_read_back _ _ _ _ _ old _ Hk (stored_config_keeps old Hk) _ Hold).
    intros w1 w2 c Hc. apply bind_Ok_inv in Hc as (w3 & c1 & _ & Hc). by eapply defaults_settled.
  - erewrite bind_Ok; [|apply attempt_Err; rewrite listerGet_stored, Hold; reflexivity].
    refine (created_read_back _ _ _ _ _ Hk (defaults_keep_store zero Hk) _ Hold).
    by apply defaults_settled.
Qed.
End config.

(** ** The first reconciliation of a cluster *)

(** A server of config maps, and passwords that are all different. *)
Record CfgWorld := MkCfgWorld { cw_configs : MemStore ConfigMap; cw_drawn : nat }.

#[local] Instance cfg_passwords : Passwords CfgWorld := {|
  nthPassword n := "pw" +:+ dec (Z.of_nat n);
  drawn := cw_drawn;
  set_drawn n w := MkCfgWorld (cw_configs w) n
|}.
#[local] Instance cfg_api : ResourceApi CfgWorld ConfigMap :=
  part_api keep cw_configs (λ s w, MkCfgWorld s (cw_drawn w)).
#[local] Instance cfg_store : ApiStore CfgWorld ConfigMap.
Proof. refine (part_store _ _ _ _ _); [by intros s []|by intros []]. Defined.

Definition empty_configs : CfgWorld := MkCfgWorld (MkMemStore ∅) 0.
Definition first_cfg : OnecloudClusterConfig :=
  match (SetObjectDefaults_OnecloudClusterConfig zero empty_configs).2 with Ok c => c | _ => zero end.

(** A serializer that knows the first configuration only. *)
#[local] Instance first_codec : ConfigCodec.
Proof.
  refine {| MarshalToYaml cfg := if decide (cfg = first_cfg) then Ok "first" else Err (ErrMsg "unknown");
            DecodeYaml s := if String.eqb s "first" then Ok first_cfg else Err (ErrMsg "unknown") |}.
  intros cfg s. case_decide as E; [|done]. intros [= <-]. by rewrite E.
Defined.

Definition first_world : CfgWorld := (config_CreateOrUpdate zero empty_configs).1.

Lemma config_CreateOrUpdate_read_back_witness :
  config_CreateOrUpdate zero empty_configs = (first_world, Ok first_cfg) ∧
  ∃ cfg', (GetClusterConfig zero first_world).2 = Ok cfg' ∧
    ItsmConfig_EncryptionKey (OnecloudClusterConfig_Itsm cfg')
    ≠ ItsmConfig_EncryptionKey (OnecloudClusterConfig_Itsm first_cfg).
Proof.
  assert (config_CreateOrUpdate zero empty_configs = (first_world, Ok first_cfg)) as Hr
    by (vm_compute; reflexivity).
  assert (∀ k, nthPassword (Passwords := cfg_passwords) k ≠ "") as Hpw by done.
  assert (keeps_data (W := CfgWorld)) as Hk by by split.
  pose proof (config_CreateOrUpdate_read_back zero _ first_world first_cfg Hpw Hk Hr) as Hg.
  split; [exact Hr|]. eexists. split; [exact (f_equal snd Hg)|]. vm_compute. discriminate.
Defined.
