(* ===== verification/ReconcileFacts.v ===== *)
(** * ReconcileFacts: which managers a reconciliation runs

    [updateOnecloudCluster] of [pkg/controller/cluster/onecloud_cluster_control.go]
    seen from outside: the list of the managers that ran, in which order and
    with which outcome, and what is then returned. The managers are arbitrary,
    the order of the goroutines too. *)

From S2P Require Import Prelude K8s Types Constants GoStrings Defaults ConfigDefaults ConfigDefaultsFacts.
From S2P Require Import ControllerUtils LastApplied KubeApi Controls Session Sha256.
From S2P Require Import ClusterManagers Certs Cluster KubeSim ClusterFacts.

Open Scope string_scope.
Open Scope list_scope.
Open Scope go_scope.

(** ** Runs of managers *)
Section runs.
Context {W : Type} `{!ControlState W}.

(** A manager that ran and the error it ended with. *)
Abbreviation Run := (Manager W * option error)%type.

Definition healthy (x : Run) : Prop := x.2 = None.

(** From one state to another by the runs of a list, one after the other;
    drawing the order of goroutines is not the run of a manager. *)
Inductive ran : OnecloudCluster * W → list Run → OnecloudCluster * W → Prop :=
  | ran_nil s : ran s [] s
  | ran_ok s s1 s' c l : mgr_Sync c s = (s1, Ok tt) → ran s1 l s' → ran s ((c, None) :: l) s'
  | ran_err s s1 s' c e l :
      mgr_Sync c s = (s1, Err e) → ran s1 l s' → ran s ((c, Some e) :: l) s'
  | ran_drawn oc w n w' o l s' : goOrder n w = (w', o) → ran (oc, w') l s' → ran (oc, w) l s'.

Lemma ran_app s s1 s2 l1 l2 : ran s l1 s1 → ran s1 l2 s2 → ran s (l1 ++ l2) s2.
Proof. induction 1; intros; simpl; [done|econstructor; eauto..]. Qed.

Definition syncError (c : Manager W) (e : error) : error := ErrWrap e ("sync " +:+ mgr_type c).

(** The first error of a list of runs, as it is reported. *)
Fixpoint firstError (l : list Run) : option error :=
  match l with
  | [] => None
  | (_, None) :: l => firstError l
  | (c, Some e) :: _ => Some (syncError c e)
  end.

Lemma firstError_None l : firstError l = None ↔ Forall healthy l.
Proof.
  induction l as [|[c [e|]] l IH]; simpl; [done|split; [done|]|rewrite IH].
  - intros [Hh _]%Forall_cons. discriminate Hh.
  - rewrite Forall_cons. split; [by split|by intros [_ ?]].
Qed.

(** A manager runs, and its error is looked at. *)
Lemma reconcile_ran c s (Q : OnecloudCluster * W → Res (error + unit) → Prop) :
  (∀ s', mgr_Sync c s = (s', Ok tt) → Q s' (Ok (inr tt))) →
  (∀ s' e, mgr_Sync c s = (s', Err e) → Q s' (Ok (inl (syncError c e)))) →
  (∀ s' p, Q s' (Panic p)) →
  wp (attempt (reconcileComponent c)) Q s.
Proof.
  intros Hok Herr Hp. unfold wp, attempt, reconcileComponent, wrap.
  destruct (mgr_Sync c s) as [s' [[]|e|p]] eqn:Hc; simpl; [by apply Hok|by apply Herr|apply Hp].
Qed.

(** One after the other: all of them ran, or one of them failed and was the
    last to run. *)
Lemma inOrder_ran StopServices parts s :
  wp (reconcileInOrder StopServices parts)
    (λ s' r, match r with
     | Ok _ => ∃ l, ran s l s' ∧ l.*1 = parts ∧ (StopServices = false → Forall healthy l)
     | Err e => StopServices = false ∧ ∃ before c rest e0,
         parts = before ++ c :: rest ∧ ran s (map (λ c, (c, None)) before ++ [(c, Some e0)]) s' ∧
         e = ErrWrap (syncError c e0) ("sync component " +:+ mgr_type c)
     | Panic _ => True
     end) s.
Proof.
  unfold reconcileInOrder. revert s. induction parts as [|c parts IH]; intros s.
  { apply wp_ret. exists []. split; [constructor|done]. }
  cbn [for_each]. apply wp_bind, wp_bind, reconcile_ran; [| |done].
  - intros s1 Hc. apply wp_ret. cbn [andThen]. eapply wp_conseq; [apply IH|]. intros s' [u|e|p]; [| |done].
    + intros (l & Hl & Hf & Hh). exists ((c, None) :: l). split; [by econstructor|].
      rewrite fmap_cons, Hf. split; [done|]. intros Hs. constructor; [done|by apply Hh].
    + intros (Hs & pre & c' & post & e0 & -> & Hr & ->). split; [done|].
      exists (c :: pre), c', post, e0. split; [done|]. split; [|done]. simpl. by econstructor.
  - intros s1 e Hc. destruct StopServices; cbn [andThen].
    + apply wp_ret. cbn [andThen]. eapply wp_conseq; [apply IH|]. intros s' [u|e'|p]; [|intros [? _]; done|done].
      intros (l & Hl & Hf & _). exists ((c, Some e) :: l). split; [by econstructor|].
      by rewrite fmap_cons, Hf.
    + apply wp_throw. split; [done|]. exists [], c, parts, e. split; [done|]. split; [|done].
      simpl. econstructor; [done|constructor].
Qed.

(** All of them run whatever the others return; the first error counts. *)
Lemma runAll_ran parts first s :
  wp (runAll parts first)
    (λ s' r, match r with
     | Ok err => ∃ l, ran s l s' ∧ l.*1 = parts ∧
                      err = match first with Some e => Some e | None => firstError l end
     | Err _ => False
     | Panic _ => True
     end) s.
Proof.
  revert first s. induction parts as [|c parts IH]; intros first s.
  { apply wp_ret. exists []. split; [constructor|]. by destruct first. }
  cbn [runAll]. apply wp_bind, reconcile_ran; [| |done].
  - intros s1 Hc. cbn [andThen]. eapply wp_conseq; [apply IH|]. intros s' [err|e|p]; [|done|done].
    intros (l & Hl & Hf & ->). exists ((c, None) :: l). split; [by econstructor|].
    rewrite fmap_cons, Hf. by destruct first.
  - intros s1 e Hc. cbn [andThen]. eapply wp_conseq; [apply IH|]. intros s' [err|e'|p]; [|done|done].
    intros (l & Hl & Hf & ->). exists ((c, Some e) :: l). split; [by econstructor|].
    rewrite fmap_cons, Hf. by destruct first.
Qed.

Lemma in_any_order (parts : list (Manager W)) order :
  order ≡ₚ seq 0 (length parts) → omap (λ i, parts !! i) order ≡ₚ parts.
Proof.
  intros ->. apply reflexive_eq. induction parts as [|c parts IH] using rev_ind; [done|].
  rewrite length_app, seq_app, omap_app. simpl. rewrite list_lookup_middle by lia.
  f_equal. rewrite <-IH at 2. apply list_omap_ext, Forall2_same_length_lookup.
  split; [done|]. intros i x y Hx. rewrite Hx. intros [= <-]. apply lookup_seq in Hx as [-> ?].
  by rewrite lookup_app_l by lia.
Qed.

Lemma together_ran parts s :
  wp (reconcileTogether parts)
    (λ s' r, match r with
     | Panic _ => True
     | _ => ∃ l, ran s l s' ∧ l.*1 ≡ₚ parts ∧
                 r = match firstError l with None => Ok tt | Some e => Err e end
     end) s.
Proof.
  unfold reconcileTogether. destruct s as [oc w]. apply wp_bind. unfold wp at 1, kube.
  pose proof (goOrder_perm (length parts) w) as Hp.
  destruct (goOrder (length parts) w) as [w' order] eqn:Ho. simpl in *.
  apply wp_bind. eapply wp_conseq; [apply runAll_ran|]. intros s' [err|e|p]; [|done|done].
  intros (l & Hl & Hf & ->). simpl.
  assert (l.*1 ≡ₚ parts) as Hperm by (rewrite Hf; by apply in_any_order).
  destruct (firstError l) as [e|] eqn:He; [apply wp_throw|apply wp_ret];
    (exists l; split; [by eapply ran_drawn|]; by rewrite He).
Qed.

Lemma addons_ran parts s :
  wp (reconcileAddons parts)
    (λ s' r, match r with
     | Ok _ => ∃ l, ran s l s' ∧ l.*1 = parts
     | Err _ => False
     | Panic _ => True
     end) s.
Proof.
  unfold reconcileAddons. revert s. induction parts as [|c parts IH]; intros s.
  { apply wp_ret. exists []. split; [constructor|done]. }
  cbn [for_each]. apply wp_bind, wp_bind, reconcile_ran; [| |done].
  - intros s1 Hc. apply wp_ret. cbn [andThen]. eapply wp_conseq; [apply IH|]. intros s' [u|e|p]; [|done|done].
    intros (l & Hl & Hf). exists ((c, None) :: l). split; [by econstructor|]. by rewrite fmap_cons, Hf.
  - intros s1 e Hc. apply wp_ret. cbn [andThen]. eapply wp_conseq; [apply IH|]. intros s' [u|e'|p]; [|done|done].
    intros (l & Hl & Hf). exists ((c, Some e) :: l). split; [by econstructor|]. by rewrite fmap_cons, Hf.
Qed.
End runs.

(** ** The schedule *)
Section schedule.
Context {W : Type} `{!ControlState W, !X509 W, !JsonCodec OnecloudClusterSpec}.
Context `{!ResourceApi W ConfigMap, !ConfigCodec, !Passwords W, !SecretStore W}.
Context (MysqlCheckInterval : Z) (checkMysql : SM W unit).
Context (StopServices : bool) (parts : ClusterParts W).

Local Abbreviation etcd := (part_etcd parts).

(** What may run, and what is returned for it; [None] goes on to the checksum
    of the spec. *)
Inductive scheduled : list (Manager W * option error) → option error → Prop :=
  | etcd_failed e : scheduled [(etcd, Some e)] (Some (ErrWrap e "Sync etcd"))
  | ordered_failed before c rest e :
      StopServices = false → part_ordered parts = before ++ c :: rest →
      scheduled ((etcd, None) :: map (λ c, (c, None)) before ++ [(c, Some e)])
        (Some (ErrWrap (syncError c e) ("sync component " +:+ mgr_type c)))
  | together_failed lo lt e :
      lo.*1 = part_ordered parts → (StopServices = false → Forall healthy lo) →
      lt.*1 ≡ₚ part_together parts → firstError lt = Some e →
      scheduled ((etcd, None) :: lo ++ lt) (Some e)
  | all_ran lo lt la :
      lo.*1 = part_ordered parts → (StopServices = false → Forall healthy lo) →
      lt.*1 ≡ₚ part_together parts → Forall healthy lt →
      la.*1 = part_addons parts →
      scheduled ((etcd, None) :: lo ++ lt ++ la) None.

(** The configuration and the certificates come before every manager. *)
Definition prepare : SM W unit :=
  let! oc := getoc in
  wrap "CreateOrUpdate configmap" (kube (config_CreateOrUpdate oc)) ;;!
  wrap "CreateOrUpdate certs" certs_CreateOrUpdate.

(** All the managers. *)
Definition runManagers : SM W unit :=
  wrap "Sync etcd" (mgr_Sync etcd) ;;!
  reconcileInOrder StopServices (part_ordered parts) ;;!
  reconcileTogether (part_together parts) ;;!
  reconcileAddons (part_addons parts).

Lemma update_split s s0 :
  prepare s = (s0, Ok tt) →
  updateOnecloudCluster MysqlCheckInterval checkMysql StopServices parts s =
  bind runManagers (λ _, updateSpecChecksum ;;! checkMysqlIfDue MysqlCheckInterval checkMysql) s0.
Proof.
  unfold prepare, updateOnecloudCluster, runManagers. intros Hp.
  apply bind_Ok_inv in Hp as (s1 & oc & Hg & Hp). apply bind_Ok_inv in Hp as (s2 & [] & Hc & Hp).
  erewrite bind_Ok; [|exact Hg]. erewrite bind_Ok; [|exact Hc]. erewrite bind_Ok; [|exact Hp].
  rewrite bind_assoc. apply bind_ext; [done|]. intros [] s3.
  rewrite bind_assoc. apply bind_ext; [done|]. intros [] s4. by rewrite bind_assoc.
Qed.

Lemma update_fails s s0 e :
  prepare s = (s0, Err e) →
  updateOnecloudCluster MysqlCheckInterval checkMysql StopServices parts s = (s0, Err e).
Proof.
  unfold prepare, updateOnecloudCluster, bind. destruct s as [oc w]. cbn [getoc].
  destruct (wrap _ (kube (config_CreateOrUpdate oc)) (oc, w)) as [s1 [c|e1|p1]]; [|congruence..].
  by intros ->.
Qed.

Lemma update_panics s s0 p :
  prepare s = (s0, Panic p) →
  updateOnecloudCluster MysqlCheckInterval checkMysql StopServices parts s = (s0, Panic p).
Proof.
  unfold prepare, updateOnecloudCluster, bind. destruct s as [oc w]. cbn [getoc].
  destruct (wrap _ (kube (config_CreateOrUpdate oc)) (oc, w)) as [s1 [c|e1|p1]]; [|congruence..].
  by intros ->.
Qed.

(** The outcome of the managers follows the schedule. *)
Lemma runManagers_scheduled s :
  wp runManagers
    (λ s' r, match r with
     | Panic _ => True
     | _ => ∃ l err, ran s l s' ∧ scheduled l err ∧
                     r = match err with None => Ok tt | Some e => Err e end
     end) s.
Proof.
  unfold runManagers. apply wp_bind. unfold wp at 1, wrap.
  destruct (mgr_Sync etcd s) as [s1 [[]|e|p]] eqn:He; cbn [andThen fst snd]; [| |done].
  2:{ exists [(etcd, Some e)], (Some (ErrWrap e "Sync etcd")).
      split; [by econstructor; [|constructor]|]. split; [constructor|done]. }
  apply wp_bind. eapply wp_conseq; [apply inOrder_ran|]. intros s2 [[]|e|p]; [| |done].
  2:{ intros (Hs & pre & c & rest & e0 & Hp & Hr & ->).
      eexists ((etcd, None) :: _), _. split; [by econstructor|]. split; [by econstructor|done]. }
  intros (lo & Hlo & Hfo & Hho). cbn [andThen]. apply wp_bind.
  eapply wp_conseq; [apply together_ran|]. intros s3 [[]|e|p]; [| |done]; intros (lt & Hlt & Hft & Hrt);
    destruct (firstError lt) as [e'|] eqn:Hfe; try discriminate Hrt.
  2:{ injection Hrt as ->. exists ((etcd, None) :: lo ++ lt), (Some e').
      split; [econstructor; [done|by eapply ran_app]|]. split; [by econstructor|done]. }
  cbn [andThen]. eapply wp_conseq; [apply addons_ran|]. intros s4 [[]|e|p]; [|done|done].
  intros (la & Hla & Hfa). exists ((etcd, None) :: lo ++ lt ++ la), None.
  split; [econstructor; [done|]; eapply ran_app; [done|]; by eapply ran_app|].
  split; [|done]. econstructor; [done..| |done]. by apply firstError_None.
Qed.

(** The checksum of the spec is stored in the status. *)
Definition withChecksum (text : string) (oc : OnecloudCluster) : OnecloudCluster :=
  oc <| OnecloudCluster_Status ::= λ s,
    s <| OnecloudClusterStatus_SpecChecksum := hex_string (Sum256 text) |> |>.

Lemma checksum_spec (oc : OnecloudCluster) (w : W) :
  updateSpecChecksum (W:=W) (oc, w) =
  match Marshal (OnecloudCluster_Spec oc) with
  | Ok text => ((withChecksum text oc, w), Ok tt)
  | Err e => ((oc, w), Err (ErrWrap e "Marshal oc.Spec"))
  | Panic p => ((oc, w), Panic p)
  end.
Proof.
  unfold updateSpecChecksum, bind, getoc, wrap, lift. by destruct (Marshal (OnecloudCluster_Spec oc)).
Qed.


(** C2. A reconciliation that does not panic stops at the first failure of the
    configuration or the certificates, before any manager has run; at etcd; or
    at the first of the managers that run one after the other, unless the
    services are being stopped. Otherwise the remaining managers all run, in
    some order, whatever the others return, and the first error is what is
    returned; the add-ons run only without one, and theirs are forgotten. Only
    a reconciliation in which all of that succeeded stores the checksum. *)
Theorem updateOnecloudCluster_runs s s' r :
  updateOnecloudCluster MysqlCheckInterval checkMysql StopServices parts s = (s', r) →
  (∀ p, r ≠ Panic p) →
  match prepare s with
  | (s0, Ok _) =>
      ∃ l err oc1 w1, ran s0 l (oc1, w1) ∧ scheduled l err ∧
        match err, Marshal (OnecloudCluster_Spec oc1) with
        | Some e, _ => s' = (oc1, w1) ∧ r = Err e
        | None, Ok text =>
            checkMysqlIfDue MysqlCheckInterval checkMysql (withChecksum text oc1, w1) = (s', r)
        | None, Err e => s' = (oc1, w1) ∧ r = Err (ErrWrap e "Marshal oc.Spec")
        | None, Panic _ => False
        end
  | (s0, Err e) => s' = s0 ∧ r = Err e
  | (_, Panic _) => False
  end.
Proof.
  intros Hu Hp. destruct (prepare s) as [s0 [[]|e|p]] eqn:Hs0.
  2:{ rewrite (update_fails _ _ _ Hs0) in Hu. by injection Hu as <- <-. }
  2:{ rewrite (update_panics _ _ _ Hs0) in Hu. injection Hu as <- <-. by eapply Hp. }
  rewrite (update_split _ _ Hs0) in Hu. pose proof (runManagers_scheduled s0) as Hm.
  unfold wp in Hm. unfold bind at 1 in Hu.
  destruct (runManagers s0) as [[oc1 w1] [[]|e|p]]; cbn [fst snd] in *.
  - destruct Hm as (l & err & Hr & Hl & He). exists l, err, oc1, w1. split; [done|]. split; [done|].
    destruct err as [e|]; [discriminate He|]. unfold bind at 1 in Hu. rewrite checksum_spec in Hu.
    destruct (Marshal (OnecloudCluster_Spec oc1)) as [text|e|p]; [done|by injection Hu as <- <-|].
    injection Hu as <- <-. by eapply Hp.
  - destruct Hm as (l & err & Hr & Hl & He). exists l, err, oc1, w1. split; [done|]. split; [done|].
    destruct err as [e'|]; [|discriminate He]. injection He as ->. by injection Hu as <- <-.
  - injection Hu as <- <-. by edestruct Hp.
Qed.

(** ** The status *)

Context `{!ResourceApi W OnecloudCluster} (ClearComponent : bool).

Definition errors_of {A} (r : Res A) : list error := match r with Err e => [e] | _ => [] end.

Lemma result_spec errs (w : W) :
  result errs w = (w, match errs with [] => Ok tt | _ => Err (ErrAggregate errs) end).
Proof. by destruct errs. Qed.

(** The object of the next try: the lister's copy with the wanted status, or
    the last one again when the lister has none. *)
Definition next_try (oc o : OnecloudCluster) (w : W) (o1 : OnecloudCluster) (w1 : W) : Prop :=
  (∃ updated, listerGet OnecloudCluster (oc_ns oc) (oc_name oc) w = (w1, Ok updated) ∧
     o1 = updated <| OnecloudCluster_Status := OnecloudCluster_Status oc |>) ∨
  (∃ e, listerGet OnecloudCluster (oc_ns oc) (oc_name oc) w = (w1, Err e) ∧ o1 = o).

(** [n] updates in a row that the server refuses with a conflict. *)
Inductive refused (oc : OnecloudCluster) : nat → OnecloudCluster * W → OnecloudCluster * W → Prop :=
  | refused_none s : refused oc 0 s s
  | refused_more n o w w1 e o1 w2 s' :
      apiUpdate (oc_ns oc) o w = (w1, Err e) → IsConflict e = true → next_try oc o w1 o1 w2 →
      refused oc n (o1, w2) s' → refused oc (S n) (o, w) s'.

Definition putStatus (oc updated : OnecloudCluster) : OnecloudCluster :=
  updated <| OnecloudCluster_Status := OnecloudCluster_Status oc |>.

Lemma refresh_spec oc o w w' o' :
  refreshWith (oc_ns oc) (oc_name oc) (putStatus oc) o w = (w', Ok o') → next_try oc o w o' w'.
Proof.
  unfold refreshWith, bind, attempt, next_try.
  destruct (listerGet OnecloudCluster _ _ w) as [w1 [u|e|p]]; intros [= <- <-]; eauto.
Qed.

Lemma conflicts_refused oc n s s' :
  conflicts (oc_ns oc) (refreshWith (oc_ns oc) (oc_name oc) (putStatus oc)) n s s' → refused oc n s s'.
Proof. induction 1; econstructor; eauto using refresh_spec. Qed.

Lemma refused_status oc n s s' :
  refused oc n s s' → OnecloudCluster_Status s.1 = OnecloudCluster_Status oc →
  OnecloudCluster_Status s'.1 = OnecloudCluster_Status oc.
Proof.
  induction 1 as [|n o w w1 e o1 w2 s' _ _ [(u & _ & ->)|(e' & _ & ->)] _ IH]; [done|..]; intros Ho;
    by apply IH.
Qed.

(** C4. Whatever a reconciliation returned, the status it left is sent to the
    server when it differs from the one before (always with
    [--clear-component]): in an update of the cluster as the reconciliation
    left it, and after each conflict in an update of the lister's copy with
    that very status, up to five updates. The call ends with the first update
    that is accepted; it gives up only on another error, or on a conflict when
    it is the fifth. The errors of the reconciliation and of the last update
    are returned. Without a change nothing is sent. *)
Theorem UpdateOnecloudCluster_status oc oc1 w w1 r0 w' r :
  updateOnecloudCluster MysqlCheckInterval checkMysql StopServices parts (oc, w) = ((oc1, w1), r0) →
  UpdateOnecloudCluster MysqlCheckInterval checkMysql StopServices parts ClearComponent oc w = (w', r) →
  (∀ p, r ≠ Panic p) →
  let returned errs := match errs with [] => Ok tt | _ => Err (ErrAggregate errs) end in
  if bool_decide (OnecloudCluster_Status oc1 = OnecloudCluster_Status oc) && negb ClearComponent
  then w' = w1 ∧ r = returned (errors_of r0)
  else
    ∃ n sent w2, (n ≤ 4)%nat ∧ refused oc1 n (oc1, w1) (sent, w2) ∧
      OnecloudCluster_Status sent = OnecloudCluster_Status oc1 ∧
      match apiUpdate (oc_ns oc1) sent w2 with
      | (w3, Ok _) => w' = w3 ∧ r = returned (errors_of r0)
      | (w3, Err e) => (IsConflict e = true → n = 4%nat) ∧ r = returned (errors_of r0 ++ [e]) ∧
                       ∃ o, next_try oc1 sent w3 o w'
      | (_, Panic _) => False
      end.
Proof.
  intros H0 Hu Hp returned. unfold UpdateOnecloudCluster in Hu. rewrite H0 in Hu.
  assert (∀ p, r0 ≠ Panic p) as Hp0.
  { intros p ->. injection Hu as <- <-. by eapply Hp. }
  fold (errors_of r0) in Hu. destruct (bool_decide _ && _).
  { destruct r0 as [[]|e|p]; [| |by edestruct Hp0]; by injection Hu as <- <-. }
  assert (bind (attempt (UpdateCluster oc1)) (λ r, result (errors_of r0 ++ errors_of
            match r with inl e => Err e | inr o => Ok o end)) w1 = (w', r)) as Hw.
  { rewrite <-Hu. destruct r0 as [[]|e|p]; [| |by edestruct Hp0]; apply bind_ext; [done| |done|];
      by intros [?|?] ?. }
  clear Hu. unfold bind, attempt in Hw. destruct (UpdateCluster oc1 w1) as [w2 r2] eqn:Hoc.
  assert (∀ p, r2 ≠ Panic p) as Hp2.
  { intros p ->. injection Hw as <- <-. by eapply Hp. }
  unfold UpdateCluster in Hoc. apply updateOnConflict_tries in Hoc as (n & sent & w3 & Hn & Hc & Hl);
    [|unfold DefaultRetry; lia| |done].
  2:{ intros o u u' e. unfold refreshWith, bind, attempt.
      by destruct (listerGet OnecloudCluster _ _ u) as [u1 [x|e1|p]]. }
  apply conflicts_refused in Hc. unfold DefaultRetry in *.
  exists n, sent, w3. split; [lia|]. split; [done|]. split; [by apply (refused_status _ _ _ _ Hc)|].
  destruct Hl as [(o & -> & ->)|(w4 & e & o & -> & Hr & -> & Hl)].
  - rewrite app_nil_r, result_spec in Hw. by injection Hw as <- <-.
  - rewrite result_spec in Hw. injection Hw as <- <-. split.
    { intros He%Hl. apply Nat.ltb_ge in He. lia. }
    split; [by destruct r0|]. exists o. by apply refresh_spec.
Qed.
End schedule.

(** ** A reconciliation that fails half way *)

Record Shop := MkShop {
  s_configmaps : MemStore ConfigMap;
  s_clusters : MemStore OnecloudCluster;
  s_conflicts : nat;
  s_ran : list ComponentType
}.

#[local] Instance shop_configmaps : ResourceApi Shop ConfigMap :=
  part_api keep s_configmaps (λ s w, MkShop s (s_clusters w) (s_conflicts w) (s_ran w)).
#[local] Instance shop_configmaps_store : ApiStore Shop ConfigMap.
Proof. refine (part_store _ _ _ _ _); [by intros s []|by intros []]. Defined.

(** A server of clusters that answers with a conflict as often as it is told. *)
Definition quietClusters : ResourceApi Shop OnecloudCluster :=
  part_api keep s_clusters (λ s w, MkShop (s_configmaps w) s (s_conflicts w) (s_ran w)).
#[local] Instance shop_clusters : ResourceApi Shop OnecloudCluster := {|
  apiCreate := @apiCreate _ _ quietClusters;
  apiUpdate ns o w :=
    match s_conflicts w with
    | S n => (MkShop (s_configmaps w) (s_clusters w) n (s_ran w), Err ErrConflict)
    | O => @apiUpdate _ _ quietClusters ns o w
    end;
  apiDelete := @apiDelete _ OnecloudCluster quietClusters;
  apiGet := @apiGet _ OnecloudCluster quietClusters;
  listerGet := @listerGet _ OnecloudCluster quietClusters
|}.
#[local] Instance shop_control : ControlState Shop.
Proof.
  refine {| goOrder n w := (w, rev (seq 0 n)); lastCheckMysqlTime _ := 0%Z;
            set_lastCheckMysqlTime _ w := w |}.
  intros n w. simpl. by rewrite <-Permutation_rev.
Defined.
#[local] Instance shop_x509 : X509 Shop := {|
  Certificate := unit; Signer := unit; rsa_GenerateKey := ret tt; rand_Serial := ret 1%Z;
  time_Now := ret 0%Z; NewSelfSignedCACert _ _ := ret tt; CreateCertificate _ _ _ _ := ret tt;
  cert_NotBefore _ := 0%Z; MarshalPrivateKeyToPEM _ := Ok ""; pem_EncodeCert _ := "";
  IsDNS1123Subdomain _ := true |}.
#[local] Instance shop_secrets : SecretStore Shop := {|
  secretLister_Get _ _ := ret (MkSecret zero ∅); secret_Create _ _ := ret tt; secret_Delete _ _ := ret tt |}.
Lemma fixed_new_config {W} w : ∃ cfg, NewClusterConfig (Passwords0 := fixedPasswords W) w = (w, Ok cfg).
Proof.
  destruct (SetDefaults_OnecloudClusterConfig_settles (λ _, "secret") zero 0) as (n & c & Hc & _); [done|].
  unfold NewClusterConfig, fillClusterConfigDefault, SetObjectDefaults_OnecloudClusterConfig, bind, drawing.
  cbn [drawn nthPassword set_drawn fixedPasswords]. rewrite Hc. by eexists.
Qed.

#[local] Instance shop_passwords : Passwords Shop := fixedPasswords Shop.
(** An encoder that is never reached here. *)
#[local] Instance shop_json : JsonCodec OnecloudClusterSpec.
Proof. by refine {| Marshal _ := Err (ErrMsg "no encoder"); Unmarshal _ := Err (ErrMsg "no decoder") |}. Defined.

(** A manager that works, and one that leaves a trace in the status and fails. *)
Definition worker (t : ComponentType) : Manager Shop :=
  MkManager t (kube (modify (λ w, MkShop (s_configmaps w) (s_clusters w) (s_conflicts w) (s_ran w ++ [t])))).
Definition stumbler (t : ComponentType) : Manager Shop :=
  MkManager t (modoc (λ oc, oc <| OnecloudCluster_Status ::= λ s,
                 s <| OnecloudClusterStatus_SpecChecksum := "half done" |> |>) ;;!
               throw (ErrMsg "no such image")).

Definition shopParts : ClusterParts Shop :=
  MkClusterParts (worker "etcd") [worker "keystone"; worker "region"]
    [worker "logger"; stumbler "climc"; worker "notify"] [worker "monitor-stack"].

Definition shop_oc : OnecloudCluster :=
  (zero : OnecloudCluster) <| OnecloudCluster_ObjectMeta ::= λ m,
    (m <| ObjectMeta_Name := "oc" |>) <| ObjectMeta_Namespace := "ns" |> |>.
Definition shop_stored : MemStore OnecloudCluster := MkMemStore {[("ns", "oc") := shop_oc]}.
Definition shop : Shop := MkShop (MkMemStore ∅) shop_stored 2 [].

Lemma shop_prepares :
  ∃ cms, prepare (shop_oc, shop) = ((shop_oc, MkShop cms shop_stored 2 []), Ok tt).
Proof.
  destruct (fixed_new_config shop) as [cfg Hcfg].
  assert (∃ cm, clusterConfigToConfigMap shop_oc cfg = Ok cm) as [cm Hcm] by by eexists.
  exists (MkMemStore (<[("ns", obj_name cm) := cm]> ∅)).
  assert (config_CreateOrUpdate shop_oc shop =
          (MkShop (MkMemStore (<[("ns", obj_name cm) := cm]> ∅)) shop_stored 2 [], Ok cfg)) as Hc.
  { unfold config_CreateOrUpdate.
    erewrite bind_Ok; [|apply attempt_Err; rewrite listerGet_stored; reflexivity].
    cbn [negb IsNotFound Cause]. rewrite (bind_Ok _ _ _ _ _ Hcfg).
    erewrite bind_Ok; [|apply wrap_Ok; unfold lift; rewrite Hcm; reflexivity].
    erewrite bind_Ok; [reflexivity|]. apply wrap_Ok. unfold CreateConfigMap.
    erewrite bind_Ok; [reflexivity|]. reflexivity. }
  unfold prepare. erewrite bind_Ok; [|reflexivity].
  erewrite bind_Ok; [|apply wrap_Ok; unfold kube; rewrite Hc; reflexivity]. reflexivity.
Qed.

(** What is left of it: the second of the managers that run together failed,
    the third one and the first one ran nevertheless, the add-on did not. *)
Definition shop_left : OnecloudCluster :=
  shop_oc <| OnecloudCluster_Status ::= λ s,
    s <| OnecloudClusterStatus_SpecChecksum := "half done" |> |>.
Definition shop_error : error := ErrWrap (ErrMsg "no such image") "sync climc".

Lemma shop_fails :
  ∃ cms, updateOnecloudCluster 5 (ret tt) false shopParts (shop_oc, shop) =
    ((shop_left, MkShop cms shop_stored 2 ["etcd"; "keystone"; "region"; "notify"; "logger"]),
     Err shop_error).
Proof.
  destruct shop_prepares as [cms Hp]. exists cms. rewrite (update_split _ _ _ _ _ _ Hp). reflexivity.
Qed.

Lemma updateOnecloudCluster_runs_witness :
  ∃ cms, let s' := (shop_left, MkShop cms shop_stored 2 ["etcd"; "keystone"; "region"; "notify"; "logger"]) in
    ∃ l err oc1 w1, ran (shop_oc, MkShop cms shop_stored 2 []) l (oc1, w1) ∧
      scheduled false shopParts l err ∧
      match err, Marshal (OnecloudCluster_Spec oc1) with
      | Some e, _ => s' = (oc1, w1) ∧ Err (A:=unit) shop_error = Err e
      | None, Ok text =>
          checkMysqlIfDue 5 (ret tt) (withChecksum text oc1, w1) = (s', Err shop_error)
      | None, Err e => s' = (oc1, w1) ∧ Err (A:=unit) shop_error = Err (ErrWrap e "Marshal oc.Spec")
      | None, Panic _ => False
      end.
Proof.
  destruct shop_prepares as [cms Hp]. exists cms. intros s'.
  assert (updateOnecloudCluster 5 (ret tt) false shopParts (shop_oc, shop) = (s', Err shop_error)) as Hu
    by (rewrite (update_split _ _ _ _ _ _ Hp); reflexivity).
  pose proof (updateOnecloudCluster_runs 5 (ret tt) false shopParts _ _ _ Hu ltac:(discriminate)) as H.
  rewrite Hp in H. exact H.
Defined.

(** The status is written in spite of the error, after two conflicts: two more
    updates of the lister's copy. *)
Lemma UpdateOnecloudCluster_status_witness :
  ∃ w1 w', UpdateOnecloudCluster 5 (ret tt) false shopParts false shop_oc shop =
      (w', Err (ErrAggregate [shop_error])) ∧
    s_conflicts w1 = 2%nat ∧ s_conflicts w' = 0%nat ∧
    ∃ n sent w2, (n ≤ 4)%nat ∧ refused shop_left n (shop_left, w1) (sent, w2) ∧
      OnecloudCluster_Status sent = OnecloudCluster_Status shop_left ∧
      match apiUpdate "ns" sent w2 with
      | (w3, Ok _) => w' = w3 ∧ Err (A:=unit) (ErrAggregate [shop_error]) = Err (ErrAggregate [shop_error])
      | (w3, Err e) => (IsConflict e = true → n = 4%nat) ∧
          Err (A:=unit) (ErrAggregate [shop_error]) = Err (ErrAggregate [shop_error; e]) ∧
          ∃ o, next_try shop_left sent w3 o w'
      | (_, Panic _) => False
      end.
Proof.
  destruct shop_fails as [cms Hu].
  set (w1 := MkShop cms shop_stored 2 _) in Hu.
  assert (UpdateOnecloudCluster 5 (ret tt) false shopParts false shop_oc shop =
          (MkShop cms (MkMemStore (<[("ns", "oc") := shop_left]> (mem shop_stored))) 0 (s_ran w1),
           Err (ErrAggregate [shop_error]))) as Hw.
  { unfold UpdateOnecloudCluster. rewrite Hu. vm_compute. reflexivity. }
  eexists w1, _. split; [exact Hw|]. split; [reflexivity|]. split; [reflexivity|].
  exact (UpdateOnecloudCluster_status 5 (ret tt) false shopParts false _ _ _ _ _ _ _ Hu Hw
           ltac:(discriminate)).
Defined.
