(* ===== verification/EtcdFacts.v ===== *)
(** * EtcdFacts: what the reconciliation of etcd members guarantees

    Safety, for every environment: how one reconciliation may change the
    membership. The only assumption is that ranging over a map visits each of
    its entries once. *)

From S2P Require Import Prelude K8s Types Constants GoStrings EtcdUtil ControllerUtils.
From S2P Require Import EtcdPod EtcdReconcile.

Open Scope string_scope.
Open Scope list_scope.
Open Scope go_scope.

(** Go visits every entry of a map once. *)
Class EtcdRange (W : Type) `{!EtcdEnv W} : Prop :=
  range_perm : ∀ ms w w' o, rangeMembers ms w = (w', Ok o) → o ≡ₚ map_to_list ms.

(** Every entry of a member set is stored under the member's name. *)
Definition named (ms : MemberSet) : Prop := ∀ n mb, ms !! n = Some mb → Member_Name mb = n.

Lemma named_Add mb ms : named ms → named (Add mb ms).
Proof. unfold Add. intros Hn n mb' [[<- ->]|[_ H]]%lookup_insert_Some; [done|by apply Hn]. Qed.

Lemma named_Remove n ms : named ms → named (Remove n ms).
Proof. unfold Remove. intros Hn n' mb [_ H]%lookup_delete_Some. by apply Hn. Qed.

Lemma named_Diff ms ms' : named ms → named (Diff ms ms').
Proof. intros Hn n mb. rewrite lookup_Diff. destruct (ms' !! n); [done|]. apply Hn. Qed.

Lemma named_empty : named ∅.
Proof. intros n mb. by rewrite lookup_empty. Qed.

(** The names of the running pods. *)
Definition podNames (pods : list Pod) : gset string := list_to_set (GetPodNames pods).

Lemma podsToMemberSet_app oc pods acc :
  dom (fold_left (λ members pod, Add (MkMember (ObjectMeta_Name (Pod_ObjectMeta pod))
      (ObjectMeta_Namespace (Pod_ObjectMeta pod)) 0 false (isSecure oc)
      (OnecloudClusterSpec_IPv6Cluster (OnecloudCluster_Spec oc))) members) pods acc)
  = podNames pods ∪ dom acc.
Proof.
  revert acc. induction pods as [|p pods IH]; intros acc; cbn [fold_left].
  - unfold podNames. set_solver.
  - rewrite IH, dom_Add. unfold podNames, GetPodNames. cbn [map list_to_set Member_Name]. set_solver.
Qed.

Lemma dom_podsToMemberSet oc pods : dom (podsToMemberSet oc pods) = podNames pods.
Proof. unfold podsToMemberSet. rewrite podsToMemberSet_app. set_solver. Qed.

(** The part of the members that runs, as [reconcileMembers] computes it. *)
Lemma dom_running_members (running ms : MemberSet) :
  dom (Diff running (Diff running ms)) = dom running ∩ dom ms.
Proof.
  rewrite !dom_Diff. apply set_eq. intros n. destruct (decide (n ∈ dom ms)); set_solver.
Qed.

Lemma Size_running_eq (running ms : MemberSet) :
  Size (Diff running (Diff running ms)) = Size ms ↔ dom ms ⊆ dom running.
Proof.
  rewrite !Size_dom, dom_running_members. split.
  - intros Hs. assert (dom running ∩ dom ms = dom ms) as <-; [|set_solver].
    apply set_subseteq_size_eq; [set_solver|lia].
  - intros Hsub. by replace (dom running ∩ dom ms) with (dom ms) by set_solver.
Qed.

(** ** How a reconciliation may change the membership

    [running] are the names of the running pods and [size] the size asked
    for. *)
Inductive membership_change (running : gset string) (size : Z) (ms : MemberSet) : MemberSet → Prop :=
  | mc_same : membership_change running size ms ms
  | mc_dead n :
      n ∈ dom ms → n ∉ running →
      (Size ms / 2 + 1 ≤ Z.of_nat (base.size (running ∩ dom ms)))%Z →
      membership_change running size ms (Remove n ms)
  | mc_shrink n :
      n ∈ dom ms → dom ms ⊆ running → (size < Size ms)%Z →
      membership_change running size ms (Remove n ms)
  | mc_grow mb :
      dom ms ⊆ running → (Size ms < size)%Z →
      membership_change running size ms (Add mb ms).

Section safety.
Context {W : Type} `{!EtcdEnv W} `{!EtcdRange W}.
Context (DisableNodeSelectorController EtcdKeepFailedPods : bool).
Implicit Types (m : etcdManager) (w : W) (ms : MemberSet).

(** Computations that leave the manager as it is. *)
Definition keeps {A} (c : EM (W:=W) A) : Prop := ∀ m w, wp c (λ s _, s.1 = m) (m, w).

Lemma keeps_env {A} (c : M W A) : keeps (env c).
Proof. intros m w. unfold wp, env. by destruct (c w). Qed.

Lemma keeps_lift {A} (r : Res A) : keeps (lift r).
Proof. done. Qed.

Lemma keeps_ret {A} (a : A) : keeps (ret a).
Proof. done. Qed.

Lemma keeps_throw {A} e : keeps (A:=A) (throw e).
Proof. done. Qed.

Lemma keeps_getm : keeps (getm (W:=W)).
Proof. done. Qed.

Lemma keeps_wp {A} (c : EM A) (Q : etcdManager * W → Res A → Prop) m w :
  keeps c → (∀ w r, Q (m, w) r) → wp c Q (m, w).
Proof.
  intros Hc HQ. eapply wp_conseq; [apply Hc|]. intros [m' w'] r Hm. simpl in Hm. subst. apply HQ.
Qed.

Lemma keeps_bind {A B} (c : EM A) (k : A → EM B) :
  keeps c → (∀ a, keeps (k a)) → keeps (bind c k).
Proof.
  intros Hc Hk m w. apply wp_bind, keeps_wp; [done|]. intros w' [a|e|p]; simpl; [apply Hk|done|done].
Qed.

Lemma keeps_attempt {A} (c : EM A) : keeps c → keeps (attempt c).
Proof. intros Hc m w. apply wp_attempt, keeps_wp; [done|]. by intros w' []. Qed.

Lemma keeps_wrapf {A} msg (c : EM A) : keeps c → keeps (wrapf msg c).
Proof.
  intros Hc m w. specialize (Hc m w). unfold wp, wrapf in *. by destruct (c (m, w)) as [[] []].
Qed.

Lemma keeps_for_each {A} (l : list A) (f : A → EM unit) :
  (∀ x, keeps (f x)) → keeps (for_each l f).
Proof. intros Hf. induction l; simpl; [apply keeps_ret|]. by apply keeps_bind. Qed.

Lemma keeps_ignoreNotFound (c : EM unit) : keeps c → keeps (ignoreNotFound c).
Proof.
  intros Hc. apply keeps_bind; [by apply keeps_attempt|].
  intros [e|[]]; [case_match; [apply keeps_ret|apply keeps_throw]|apply keeps_ret].
Qed.

Hint Resolve keeps_env keeps_lift keeps_ret keeps_throw keeps_getm keeps_attempt keeps_wrapf
  keeps_for_each keeps_ignoreNotFound : go.

Ltac keeps := repeat first
  [ apply keeps_bind; [|intros ?] | progress auto with go | case_match ].

Lemma keeps_removePod name : keeps (removePod name).
Proof. unfold removePod. keeps. Qed.

Lemma keeps_removePVC name : keeps (removePVC name).
Proof. unfold removePVC. keeps. Qed.

Lemma keeps_createPod ms mb state : keeps (createPod DisableNodeSelectorController ms mb state).
Proof. unfold createPod. keeps. Qed.

Lemma keeps_newMember : keeps newMember.
Proof. unfold newMember. keeps. Qed.

Lemma keeps_pickOne ms : keeps (pickOne ms).
Proof. unfold pickOne. keeps. Qed.

Lemma keeps_upgradeOneMember name : keeps (upgradeOneMember name).
Proof. unfold upgradeOneMember. keeps. Qed.

(** [removeMember] either leaves the manager as it is or forgets the member. *)
Lemma removeMember_wp mb m w :
  wp (removeMember mb)
    (λ s _, s.1 = m ∨ s.1 = m <| em_members ::= fmap (Remove (Member_Name mb)) |>) (m, w).
Proof.
  unfold removeMember.
  set (body := bind _ _). enough (wp body (λ s _, s.1 = m ∨
    s.1 = m <| em_members ::= fmap (Remove (Member_Name mb)) |>) (m, w)) as H.
  { unfold wp, wrapf in *. by destruct (body (m, w)) as [[] []]. }
  subst body. apply wp_bind, keeps_wp; [apply keeps_getm|]. intros w1 [m1|?|?]; simpl; auto.
  apply wp_bind, keeps_wp; [apply keeps_env|]. intros w2 [o|?|?]; simpl; auto.
  apply wp_bind, keeps_wp; [apply keeps_lift|]. intros w3 [urls|?|?]; simpl; auto.
  apply wp_bind, keeps_wp; [apply keeps_attempt, keeps_env|]. intros w4 [r|?|?]; simpl; auto.
  apply wp_bind, keeps_wp.
  { repeat case_match; first [apply keeps_ret | apply keeps_throw]. }
  intros w5 [[]|?|?]; simpl; auto.
  apply wp_bind. unfold modm at 1. cbn.
  apply keeps_wp; [|by right].
  apply keeps_bind; [apply keeps_removePod|]. intros ?. keeps.
Qed.

(** The outcome of a step that only touches the membership: the cluster and
    the status are those of [m]. *)
Definition members_step (P : MemberSet → Prop) m : etcdManager * W → Prop := λ s,
  ∃ ms', s.1 = m <| em_members := Some ms' |> ∧ named ms' ∧ P ms'.

Lemma members_step_same (P : MemberSet → Prop) m w ms :
  em_members m = Some ms → named ms → P ms → members_step P m (m, w).
Proof. intros Hm Hn HP. exists ms. split_and!; [|done|done]. destruct m; simpl in *. by subst. Qed.

Lemma removeMember_step mb m w ms :
  em_members m = Some ms → named ms →
  wp (removeMember mb)
    (λ s _, members_step (λ ms', ms' = ms ∨ ms' = Remove (Member_Name mb) ms) m s) (m, w).
Proof.
  intros Hm Hn. eapply wp_conseq; [apply removeMember_wp|]. intros [m' w'] r; simpl; intros [->| ->].
  - eapply members_step_same; [done..|by left].
  - exists (Remove (Member_Name mb) ms). destruct m as [oc st mem]; simpl in *; subst; simpl.
    split_and!; [done|by apply named_Remove|by right].
Qed.

(** Picking a member and removing it. *)
Lemma pick_remove_step (from : MemberSet) m w ms :
  em_members m = Some ms → named ms → named from →
  wp (let! mb := pickOne from in removeMember mb)
    (λ s _, members_step (λ ms', ms' = ms ∨ ∃ n, n ∈ dom from ∧ ms' = Remove n ms) m s) (m, w).
Proof.
  intros Hm Hn Hf. unfold pickOne. apply wp_bind, wp_bind.
  unfold wp at 1, env. destruct (rangeMembers from w) as [w1 [o|e|p]] eqn:Ho; simpl;
    try (eapply members_step_same; [done..|by left]).
  apply wp_lift. destruct (PickOne o) as [mb|e|p] eqn:Hp; simpl;
    try (eapply members_step_same; [done..|by left]).
  apply range_perm in Ho. destruct (PickOne_in _ _ _ Ho Hp) as [n Hin].
  pose proof (Hf _ _ Hin) as Hname.
  eapply wp_conseq; [by apply removeMember_step|]. intros s r (ms' & Hs & Hn' & [-> | ->]).
  - exists ms. auto.
  - exists (Remove (Member_Name mb) ms). split_and!; [done..|]. right. exists n.
    rewrite Hname. split; [|done]. by eapply elem_of_dom_2.
Qed.

Lemma addOneMember_step m w ms :
  em_members m = Some ms → named ms →
  wp (addOneMember DisableNodeSelectorController)
    (λ s _, members_step (λ ms', ms' = ms ∨ ∃ mb, ms' = Add mb ms) m s) (m, w).
Proof.
  intros Hm Hn.
  assert (∀ w, members_step (λ ms', ms' = ms ∨ ∃ mb, ms' = Add mb ms) m (m, w)) as Hsame
    by (intros; eapply members_step_same; [done..|by left]).
  unfold addOneMember.
  do 6 (apply wp_bind, keeps_wp; [auto using keeps_newMember with go|];
        intros ? [?|?|?]; simpl; [|apply Hsame|apply Hsame]).
  apply wp_bind, keeps_wp; [auto with go|]. intros ? [id|?|?]; simpl; [|apply Hsame|apply Hsame].
  apply wp_bind. unfold wp at 1. simpl. rewrite Hm.
  apply wp_bind. unfold modm. unfold wp at 1. simpl.
  match goal with |- wp (wrapf _ (createPod _ _ ?mb _)) _ _ => set (mb' := mb) end.
  apply keeps_wp; [apply keeps_wrapf, keeps_createPod|].
  intros ? ?. exists (Add mb' ms). split_and!; [done|by apply named_Add|right; by exists mb'].
Qed.

Definition spec_size m : Z := EtcdClusterSpec_Size (oc_etcdSpec (em_oc m)).

Lemma resize_step m w ms :
  em_members m = Some ms → named ms →
  wp (resize DisableNodeSelectorController)
    (λ s _, members_step (λ ms', ms' = ms ∨
              (∃ mb, (Size ms < spec_size m)%Z ∧ ms' = Add mb ms) ∨
              (∃ n, n ∈ dom ms ∧ (spec_size m < Size ms)%Z ∧ ms' = Remove n ms)) m s) (m, w).
Proof.
  intros Hm Hn. unfold resize. apply wp_bind. unfold getm, wp at 1; simpl.
  unfold members_of. rewrite Hm. fold (spec_size m). simpl.
  destruct (Z.eqb_spec (Size ms) (spec_size m)).
  { apply wp_ret. eapply members_step_same; [done..|by left]. }
  destruct (Z.ltb_spec (Size ms) (spec_size m)).
  - eapply wp_conseq; [by eapply addOneMember_step|]. intros s r (ms' & Hs & Hn' & HP).
    exists ms'. naive_solver.
  - unfold removeOneMember. apply wp_bind. unfold getm, wp at 1; simpl.
    unfold members_of. rewrite Hm. simpl.
    eapply wp_conseq; [by eapply pick_remove_step|]. intros s r (ms' & Hs & Hn' & HP).
    exists ms'. split_and!; [done..|]. destruct HP as [->|(n' & Hin & ->)]; [by left|].
    right; right. exists n'. split_and!; [done|lia|done].
Qed.

Lemma reconcileMembers_step (running : MemberSet) m w ms :
  em_members m = Some ms → named ms →
  wp (reconcileMembers DisableNodeSelectorController running)
    (λ s _, members_step (membership_change (dom running) (spec_size m) ms) m s) (m, w).
Proof.
  intros Hm Hn.
  assert (∀ w, members_step (membership_change (dom running) (spec_size m) ms) m (m, w)) as Hsame
    by (intros; eapply members_step_same; [done..|by constructor]).
  unfold reconcileMembers. apply wp_bind. unfold getm, wp at 1; simpl.
  unfold members_of at 1 2 3 4. rewrite Hm. simpl.
  apply wp_bind, keeps_wp.
  { case_match; [|apply keeps_ret]. apply keeps_bind; [apply keeps_env|]. intros o.
    apply keeps_for_each. intros []. apply keeps_removePod. }
  intros w1 [[]|?|?]; simpl; [|apply Hsame|apply Hsame].
  apply wp_bind. unfold getm, wp at 1; simpl. unfold members_of. rewrite Hm. simpl.
  destruct (Z.eqb_spec (Size (Diff running (Diff running ms))) (Size ms)) as [Heq|Hne].
  - apply Size_running_eq in Heq. eapply wp_conseq; [by eapply resize_step|].
    intros s r (ms' & Hs & Hn' & HP). exists ms'. split_and!; [done..|].
    destruct HP as [->|[(mb & Hlt & ->)|(n & Hin & Hlt & ->)]].
    + constructor.
    + by apply mc_grow.
    + by apply mc_shrink.
  - destruct (Z.ltb_spec (Size (Diff running (Diff running ms))) (Size ms ÷ 2 + 1)) as [Hlt|Hge].
    { apply wp_throw, Hsame. }
    unfold removeDeadMember. set (L := Diff running (Diff running ms)) in *.
    eapply wp_conseq; [eapply pick_remove_step; [done|done|by apply named_Diff]|].
    intros s r (ms' & Hs & Hn' & HP). exists ms'. split_and!; [done..|].
    destruct HP as [->|(n & Hin & ->)]; [constructor|].
    rewrite dom_Diff, elem_of_difference in Hin. destruct Hin as [Hin HnL].
    unfold L in HnL. rewrite dom_running_members in HnL.
    apply mc_dead; [done|set_solver|].
    rewrite <- dom_running_members, <- Size_dom. fold L.
    rewrite <- Z.quot_div_nonneg by (pose proof (Size_nonneg ms); lia). lia.
Qed.
End safety.


(** C8. When fewer than a majority of the members run, the reconciliation
    never touches the membership and never reports success; with no foreign
    pod to clean up first it reports exactly [ErrLostQuorum], the error that
    makes the run loop rebuild the cluster. *)
Theorem reconcile_lost_quorum {W : Type} `{!EtcdEnv W}
    (DisableNodeSelectorController : bool) (pods : list Pod) (m : etcdManager) (w : W)
    (ms : MemberSet) :
  em_members m = Some ms →
  ¬ dom ms ⊆ podNames pods →
  (Z.of_nat (base.size (podNames pods ∩ dom ms)) < Size ms / 2 + 1)%Z →
  let '((m', w'), r) := reconcile DisableNodeSelectorController pods (m, w) in
  em_members m' = Some ms ∧ is_ok r = false ∧
  (podNames pods ⊆ dom ms → r = Err ErrLostQuorum).
Proof.
  intros Hm Hsub Hq. set (Q := λ (s : etcdManager * W) (r : Res unit),
    em_members s.1 = Some ms ∧ is_ok r = false ∧
    (podNames pods ⊆ dom ms → r = Err ErrLostQuorum)).
  enough (wp (reconcile DisableNodeSelectorController pods) Q (m, w)) as H.
  { unfold wp, Q in H. by destruct (reconcile _ pods (m, w)) as [[]]. }
  unfold reconcile. set (body := bind getm _). enough (wp body Q (m, w)) as H.
  { unfold deferred, wp, Q in *. by destruct (body (m, w)) as [[]]. }
  subst body. apply wp_bind. unfold getm, wp at 1; simpl. unfold members_of. rewrite Hm. simpl.
  destruct (IsEqual (podsToMemberSet (em_oc m) pods) ms) eqn:He.
  { apply IsEqual_spec in He. rewrite dom_podsToMemberSet in He. rewrite He in Hsub. done. }
  simpl. unfold reconcileMembers. apply wp_bind. unfold getm, wp at 1; simpl.
  unfold members_of at 1 2 3. rewrite Hm. simpl.
  set (running := podsToMemberSet (em_oc m) pods).
  assert (dom running = podNames pods) as Hd by apply dom_podsToMemberSet.
  apply wp_bind. match goal with |- wp _ (andThen ?k Q) _ => set (K := k) end.
  assert (podNames pods ⊆ dom ms → (0 <? Size (Diff running ms))%Z = false) as Hnone.
  { intros Hin. apply Z.ltb_ge. rewrite Size_dom, dom_Diff, Hd.
    replace (podNames pods ∖ dom ms) with (∅ : gset string) by set_solver. by rewrite size_empty. }
  assert (∀ w', wp (K tt) Q (m, w')) as Hlost.
  { intros w'. unfold K. apply wp_bind. unfold getm, wp at 1; simpl. unfold members_of. rewrite Hm.
    simpl. destruct (Z.eqb_spec (Size (Diff running (Diff running ms))) (Size ms)) as [Heq|Hne].
    { apply Size_running_eq in Heq. by rewrite Hd in Heq. }
    destruct (Z.ltb_spec (Size (Diff running (Diff running ms))) (Size ms ÷ 2 + 1)) as [_|Hge];
      [by apply wp_throw|].
    rewrite (Size_dom (Diff running _)), dom_running_members, Hd, Z.quot_div_nonneg in Hge
      by (pose proof (Size_nonneg ms); lia). lia. }
  clearbody K. destruct (0 <? Size (Diff running ms))%Z eqn:Hpos.
  - apply keeps_wp.
    { apply keeps_bind; [apply keeps_env|]. intros o. apply keeps_for_each.
      intros []. apply keeps_removePod. }
    intros w' [[]|e|p]; [apply Hlost|..];
      (split_and!; [done|done|intros Hin; specialize (Hnone Hin); congruence]).
  - apply wp_ret, Hlost.
Qed.
