(* ===== verification/EtcdLive.v ===== *)
(** * EtcdLive: the reconciliation of etcd members makes progress

    When the API server and etcd accept every request, each reconciliation
    brings the cluster one step closer to the size asked for, and it gets
    there: members whose pods are dead are forgotten one by one while a
    majority runs, then members are added or removed one by one. *)

From Stdlib Require Import Ascii.
From S2P Require Import Prelude K8s Types Constants GoStrings EtcdUtil ControllerUtils.
From S2P Require Import EtcdPod EtcdReconcile EtcdFacts.

Open Scope string_scope.
Open Scope list_scope.
Open Scope go_scope.

(** ** The pod of a member can always be built *)

Lemma collect_Ok (f : Member → Res string) o :
  (∀ n mb, (n, mb) ∈ o → ∃ s, f mb = Ok s) → ∃ l, collect f o = Ok l.
Proof.
  induction o as [|[n mb] o IH]; intros Hf; [by eexists|]. simpl.
  destruct (Hf n mb) as [s ->]; [by left|]. simpl.
  destruct IH as [l ->]; [|by eexists]. intros n' mb' Hin. apply (Hf n'). by right.
Qed.

(** A member whose address can be computed: its name has a dash. *)
Definition addressable (mb : Member) : Prop := ∃ c, clusterNameFromMemberName (Member_Name mb) = Ok c.

Lemma Addr_Ok mb : addressable mb → ∃ a, Addr mb = Ok a.
Proof. intros [c Hc]. unfold Addr. rewrite Hc. by eexists. Qed.

Lemma PeerURL_Ok mb : addressable mb → ∃ a, PeerURL mb = Ok a.
Proof. intros [a Ha]%Addr_Ok. unfold PeerURL. rewrite Ha. by eexists. Qed.

Lemma ClientURL_Ok mb : addressable mb → ∃ a, ClientURL mb = Ok a.
Proof. intros [a Ha]%Addr_Ok. unfold ClientURL. rewrite Ha. by eexists. Qed.

Lemma UniqueMemberName_cluster suffix c :
  avoids "-" suffix = true → ∃ c', clusterNameFromMemberName (UniqueMemberName suffix c) = Ok c'.
Proof.
  intros Hs. unfold UniqueMemberName, clusterNameFromMemberName.
  match goal with |- context [?x +:+ "-" +:+ suffix] => generalize x end. intros x.
  change ("-" +:+ suffix) with (String "-" suffix). rewrite before_last_app by done. by eexists.
Qed.

Lemma etcdTLSVolumes_Ok oc mb :
  Member_SecurePeer mb = isSecure oc → Member_SecureClient mb = isSecure oc →
  ∃ vs, etcdTLSVolumes mb (EtcdClusterSpec_TLS (customEtcdSpec oc)) = Ok vs.
Proof.
  intros Hp Hc. unfold etcdTLSVolumes, customEtcdSpec. rewrite Hp, Hc.
  destruct (isSecure oc); simpl; by eexists.
Qed.

Lemma NewEtcdPod_Ok oc mb initCluster name state token owner :
  addressable mb → Member_SecurePeer mb = isSecure oc → Member_SecureClient mb = isSecure oc →
  ∃ pod, NewEtcdPod mb initCluster name state token (customEtcdSpec oc) owner = Ok pod ∧
    length (PodSpec_Containers (Pod_Spec pod)) = 1 ∧
    length (PodSpec_InitContainers (Pod_Spec pod)) = 1.
Proof.
  intros Ha Hp Hc. destruct (Addr_Ok _ Ha) as [addr Haddr]. destruct (PeerURL_Ok _ Ha) as [pu Hpu].
  destruct (ClientURL_Ok _ Ha) as [cu Hcu].
  destruct (etcdTLSVolumes_Ok oc mb Hp Hc) as [[vs mounts] Hvs].
  unfold NewEtcdPod, newEtcdPod. rewrite Haddr, Hpu, Hcu. cbn [res_bind]. rewrite Hvs.
  cbn [res_map]. eexists. split; [reflexivity|].
  unfold applyPodPolicy. destruct (EtcdClusterSpec_Pod (customEtcdSpec oc)) as [[]|]; [|done].
  simpl. repeat case_match; done.
Qed.

Lemma customPodSpec_Ok disable oc pod mb state token initCluster :
  addressable mb → length (PodSpec_Containers (Pod_Spec pod)) = 1 →
  length (PodSpec_InitContainers (Pod_Spec pod)) = 1 →
  ∃ pod', customPodSpec disable oc pod mb state token initCluster = Ok pod'.
Proof.
  intros Ha Hc Hi. destruct (PeerURL_Ok _ Ha) as [pu Hpu]. destruct (ClientURL_Ok _ Ha) as [cu Hcu].
  unfold customPodSpec, newEtcdCommand. rewrite Hpu, Hcu.
  destruct (PodSpec_Containers (Pod_Spec pod)) as [|c [|]]; [done| |done]. simpl.
  destruct (PodSpec_InitContainers (Pod_Spec pod)) as [|i [|]]; [done| |done]. by eexists.
Qed.

Section distance.
Implicit Types (ms : MemberSet).

(** How many rounds are left: one per dead member, one per member to add or
    to remove. *)
Definition live (dead : gset string) ms : gset string := dom ms ∖ dead.
Definition distance (dead : gset string) (size : Z) ms : nat :=
  base.size (dom ms ∩ dead) + Z.to_nat (Z.abs (size - Z.of_nat (base.size (live dead ms)))).

Lemma size_live dead ms :
  Size ms = (Z.of_nat (base.size (live dead ms)) + Z.of_nat (base.size (dom ms ∩ dead)))%Z.
Proof.
  rewrite Size_dom. unfold live. rewrite <- Nat2Z.inj_add, <- size_union by set_solver.
  f_equal. f_equal. apply set_eq. intros n. destruct (decide (n ∈ dead)); set_unfold; naive_solver.
Qed.

Lemma distance_Remove_dead dead size ms n :
  n ∈ dom ms → n ∈ dead → S (distance dead size (Remove n ms)) = distance dead size ms.
Proof.
  intros Hn Hd. unfold distance, live. rewrite dom_Remove.
  assert ((dom ms ∖ {[n]}) ∖ dead = dom ms ∖ dead) as -> by (clear -Hd; set_solver).
  assert ((dom ms ∖ {[n]}) ∩ dead = (dom ms ∩ dead) ∖ {[n]}) as -> by (clear; set_solver).
  rewrite size_difference by set_solver. rewrite size_singleton.
  assert (base.size (dom ms ∩ dead) ≠ 0); [|lia]. intros H%size_empty_inv. set_solver.
Qed.

Lemma dom_Diff_live dead running ms :
  dom running = live dead ms → dom (Diff ms running) = dom ms ∩ dead.
Proof.
  intros Hrun. rewrite dom_Diff, Hrun. unfold live. apply set_eq. intros n.
  destruct (decide (n ∈ dead)); set_solver.
Qed.

Lemma Diff_live_empty dead running ms : dom running = live dead ms → Diff running ms = ∅.
Proof. intros Hrun. apply dom_empty_inv_L. rewrite dom_Diff, Hrun. unfold live. set_solver. Qed.

Lemma live_Remove_dead dead n ms : n ∈ dead → live dead (Remove n ms) = live dead ms.
Proof. intros Hn. unfold live. rewrite dom_Remove. set_solver. Qed.
End distance.

(** ** An environment that accepts every request

    [good] holds of its states, [used w] are the suffixes already drawn. *)
Section healthy.
Context {W : Type} `{!EtcdEnv W}.

Definition accepts (good : W → Prop) (used : W → gset string) {A} (c : M W A) (P : A → Prop) : Prop :=
  ∀ w, good w → ∃ w' a, c w = (w', Ok a) ∧ good w' ∧ used w' = used w ∧ P a.

Class EtcdHealthy (good : W → Prop) (used : W → gset string) : Prop := {
  h_range ms : accepts good used (rangeMembers ms) (λ o, o ≡ₚ map_to_list ms);
  h_uuid : accepts good used newUUID (λ _, True);
  h_rand n w : good w →
    ∃ w' s, randString n w = (w', Ok s) ∧ good w' ∧ used w' = {[s]} ∪ used w ∧
      s ∉ used w ∧ avoids "-" s = true;
  h_new urls : accepts good used (etcdNew urls) (λ _, True);
  h_add urls url : accepts good used (memberAdd urls url) (λ _, True);
  h_remove urls id : accepts good used (memberRemove urls id) (λ _, True);
  h_podCreate ns pod : accepts good used (podCreate ns pod) (λ _, True);
  h_podDelete ns name : accepts good used (podDelete ns name) (λ _, True);
  h_pvcCreate ns pvc : accepts good used (pvcCreate ns pvc) (λ _, True);
  h_pvcDelete ns name : accepts good used (pvcDelete ns name) (λ _, True)
}.

Context (good : W → Prop) (used : W → gset string) `{!EtcdHealthy good used}.
Context (disable : bool).
Implicit Types (m : etcdManager) (w : W) (ms : MemberSet).

(** A method that succeeds, leaves the manager alone, and draws no name. *)
Definition runs {A} (c : EM (W:=W) A) m (P : A → Prop) : Prop :=
  ∀ w, good w → ∃ w' a, c (m, w) = ((m, w'), Ok a) ∧ good w' ∧ used w' = used w ∧ P a.

Lemma runs_env {A} (c : M W A) m P : accepts good used c P → runs (env c) m P.
Proof.
  intros Hc w Hw. destruct (Hc w Hw) as (w' & a & Hrun & Hg & Hu & HP).
  exists w', a. unfold env. by rewrite Hrun.
Qed.

Lemma runs_ret {A} (a : A) m (P : A → Prop) : P a → runs (ret a) m P.
Proof. intros HP w Hw. by exists w, a. Qed.

Lemma runs_lift {A} r (a : A) m (P : A → Prop) : r = Ok a → P a → runs (lift r) m P.
Proof. intros -> HP w Hw. by exists w, a. Qed.

Lemma runs_getm m : runs getm m (λ m', m' = m).
Proof. intros w Hw. by exists w, m. Qed.

Lemma runs_bind {A B} (c : EM A) (k : A → EM B) m (P : A → Prop) Q :
  runs c m P → (∀ a, P a → runs (k a) m Q) → runs (bind c k) m Q.
Proof.
  intros Hc Hk w Hw. destruct (Hc w Hw) as (w1 & a & Hrun & Hg & Hu & HP).
  destruct (Hk a HP w1 Hg) as (w2 & b & Hrun2 & Hg2 & Hu2 & HQ).
  exists w2, b. unfold bind. rewrite Hrun. split_and!; [done..|congruence|done].
Qed.

Lemma runs_conseq {A} (c : EM A) m (P Q : A → Prop) : runs c m P → (∀ a, P a → Q a) → runs c m Q.
Proof. intros Hc HPQ w Hw. destruct (Hc w Hw) as (w' & a & ? & ? & ? & ?). exists w', a. auto. Qed.

Lemma runs_wrapf {A} msg (c : EM A) m P : runs c m P → runs (wrapf msg c) m P.
Proof.
  intros Hc w Hw. destruct (Hc w Hw) as (w' & a & Hrun & ?). exists w', a. unfold wrapf.
  by rewrite Hrun.
Qed.

Lemma runs_ignoreNotFound (c : EM unit) m P :
  runs c m P → runs (ignoreNotFound c) m (λ _, True).
Proof.
  intros Hc w Hw. destruct (Hc w Hw) as (w' & a & Hrun & Hg & Hu & _). exists w', tt.
  unfold ignoreNotFound, bind, attempt. by rewrite Hrun.
Qed.

Lemma runs_attempt {A} (c : EM A) m P :
  runs c m P → runs (attempt c) m (λ r, ∃ a, r = inr a ∧ P a).
Proof.
  intros Hc w Hw. destruct (Hc w Hw) as (w' & a & Hrun & ? & ? & ?). exists w', (inr a).
  unfold attempt. rewrite Hrun. eauto 10.
Qed.

Lemma runs_for_each {A} (l : list A) (f : A → EM unit) m :
  (∀ x, x ∈ l → runs (f x) m (λ _, True)) → runs (for_each l f) m (λ _, True).
Proof.
  induction l as [|x l IH]; intros Hf; simpl; [by apply runs_ret|].
  eapply runs_bind; [by apply Hf; left|]. intros _ _. apply IH. intros y Hy. apply Hf. by right.
Qed.

Lemma runs_range ms m : runs (env (rangeMembers ms)) m (λ o, o ≡ₚ map_to_list ms).
Proof. apply runs_env, h_range. Qed.

Lemma runs_removePod name m : runs (removePod name) m (λ _, True).
Proof.
  unfold removePod. eapply runs_bind; [apply runs_getm|]. intros ? ->.
  eapply runs_ignoreNotFound, runs_env, h_podDelete.
Qed.

Lemma runs_removePVC name m : runs (removePVC name) m (λ _, True).
Proof.
  unfold removePVC. eapply runs_bind; [apply runs_getm|]. intros ? ->.
  eapply runs_wrapf, runs_ignoreNotFound, runs_env, h_pvcDelete.
Qed.

(** All the members of a set can be addressed. *)
Definition all_addressable ms : Prop := ∀ n mb, ms !! n = Some mb → addressable mb.

Lemma collect_range (f : Member → Res string) o ms :
  o ≡ₚ map_to_list ms → all_addressable ms → (∀ mb, addressable mb → ∃ s, f mb = Ok s) →
  ∃ l, collect f o = Ok l.
Proof.
  intros HP Hall Hf. apply collect_Ok. intros n mb Hin. apply Hf, (Hall n).
  apply elem_of_map_to_list. by rewrite <- HP.
Qed.

Lemma runs_createPod m ms mb state :
  all_addressable ms → addressable mb →
  Member_SecurePeer mb = isSecure (em_oc m) → Member_SecureClient mb = isSecure (em_oc m) →
  runs (createPod disable ms mb state) m (λ _, True).
Proof.
  intros Hall Hmb Hp Hc. unfold createPod.
  eapply runs_bind; [apply runs_env, h_uuid|]. intros token _.
  eapply runs_bind; [apply runs_range|]. intros o Ho.
  destruct (collect_range (λ x, res_map (λ u, Member_Name x +:+ "=" +:+ u) (PeerURL x)) _ _ Ho Hall)
    as [l Hl]. { intros mb' [u ->]%PeerURL_Ok. by eexists. }
  eapply runs_bind; [by apply (runs_lift _ l _ (λ _, True))|]. intros ic _.
  eapply runs_bind; [apply runs_getm|]. intros ? ->.
  edestruct NewEtcdPod_Ok as (pod & Hpod & Hc1 & Hi1); [exact Hmb|exact Hp|exact Hc|].
  eapply runs_bind; [apply (runs_lift _ pod _ (λ p, p = pod)); [exact Hpod|done]|]. intros ? ->.
  edestruct customPodSpec_Ok as [pod' Hpod']; [exact Hmb|exact Hc1|exact Hi1|].
  eapply runs_bind; [apply (runs_lift _ pod' _ (λ _, True)); [exact Hpod'|done]|]. intros ? _.
  eapply (runs_bind _ _ _ (λ _, True)).
  - case_match; [|by apply runs_ret].
    eapply runs_bind; [apply runs_wrapf, runs_env, h_pvcCreate|]. intros _ _. by apply runs_ret.
  - intros ? _. apply runs_env, h_podCreate.
Qed.

(** ** One step of the membership *)

(** [ms] are the members of [m]; a name that has not been drawn yet is neither
    a member's nor that of a dead pod. *)
Definition ready (dead : gset string) m ms w : Prop :=
  em_members m = Some ms ∧ named ms ∧ all_addressable ms ∧ good w ∧
  ∀ s, s ∉ used w → UniqueMemberName s (getEtcdClusterPrefix (em_oc m)) ∉ dom ms ∪ dead.

Definition with_members ms m : etcdManager := m <| em_members := Some ms |>.

(** [c] ends well with the members [ms']. *)
Definition steps_to (dead : gset string) (c : EM (W:=W) unit) m ms' w : Prop :=
  ∃ w', c (m, w) = ((with_members ms' m, w'), Ok tt) ∧ ready dead (with_members ms' m) ms' w'.

Lemma runs_then {A} (c : EM A) (k : A → EM unit) dead m ms' w P :
  runs c m P → good w →
  (∀ a w', P a → good w' → used w' = used w → steps_to dead (k a) m ms' w') →
  steps_to dead (bind c k) m ms' w.
Proof.
  intros Hc Hw Hk. destruct (Hc w Hw) as (w1 & a & Hrun & Hg & Hu & HP).
  destruct (Hk a w1 HP Hg Hu) as (w2 & Hrun2 & Hr). exists w2. split; [|done].
  by rewrite (bind_Ok _ _ _ _ _ Hrun).
Qed.

Lemma steps_to_wrapf dead msg c m ms' w : steps_to dead c m ms' w → steps_to dead (wrapf msg c) m ms' w.
Proof. intros (w' & Hrun & Hr). exists w'. unfold wrapf. by rewrite Hrun. Qed.

Lemma ready_Remove dead m ms w n :
  ready dead m ms w → good w → ready dead (with_members (Remove n ms) m) (Remove n ms) w.
Proof.
  intros (Hm & Hn & Ha & _ & Hf) Hg. split_and!; [done|by apply named_Remove| |done|].
  - intros n' mb [_ H]%lookup_Remove_Some. by apply (Ha n').
  - intros s Hs. rewrite dom_Remove. specialize (Hf s Hs). set_solver.
Qed.

Lemma ready_world dead m ms w w' : ready dead m ms w → good w' → used w' = used w → ready dead m ms w'.
Proof.
  intros (Hm & Hn & Ha & _ & Hf) Hg Hu. split_and!; [done..|].
  intros s Hs. rewrite Hu in Hs. by apply Hf.
Qed.

Lemma removeMember_steps dead mb m ms w :
  ready dead m ms w → ms !! Member_Name mb = Some mb →
  steps_to dead (removeMember mb) m (Remove (Member_Name mb) ms) w.
Proof.
  intros Hr Hin. pose proof Hr as (Hm & Hn & Ha & Hg & Hf). unfold removeMember.
  apply steps_to_wrapf.
  eapply runs_then; [apply runs_getm|done|]. intros ? w1 -> Hg1 Hu1.
  eapply runs_then; [apply runs_range|done|]. intros o w2 Ho Hg2 Hu2.
  unfold members_of in Ho. rewrite Hm in Ho. simpl in Ho.
  destruct (collect_range ClientURL _ _ Ho Ha ClientURL_Ok) as [urls Hurls].
  eapply runs_then; [by apply (runs_lift _ urls _ (λ _, True))|done|]. intros ? w3 _ Hg3 Hu3.
  eapply runs_then; [apply runs_attempt, runs_env, h_remove|done|]. intros r w4 ([] & -> & _) Hg4 Hu4.
  eapply runs_then; [by apply (runs_ret tt _ (λ _, True))|done|]. intros ? w5 _ Hg5 Hu5.
  assert (used w5 = used w) as Hu by congruence.
  pose proof (ready_world _ _ _ _ w5 Hr Hg5 Hu) as Hr5.
  unfold steps_to. rewrite (bind_Ok _ _ _ (with_members (Remove (Member_Name mb) ms) m, w5) tt);
    [|unfold modm, with_members; destruct m; simpl in *; by rewrite Hm].
  set (m' := with_members (Remove (Member_Name mb) ms) m).
  assert (runs (let! _ := removePod (Member_Name mb) in let! m1 := getm in
    (if isPodPVEnabled (em_oc m1) then removePVC (PVCNameFromMember (Member_Name mb)) else ret tt))
    m' (λ _, True)) as Hrun.
  { eapply runs_bind; [apply runs_removePod|]. intros _ _. eapply runs_bind; [apply runs_getm|].
    intros ? ->. case_match; [apply runs_removePVC|by apply runs_ret]. }
  destruct (Hrun w5 Hg5) as (w6 & [] & Hrun6 & Hg6 & Hu6 & _). exists w6. split; [exact Hrun6|].
  apply ready_Remove; [|done]. eapply ready_world; [exact Hr|done|congruence].
Qed.

Lemma Size_members m ms : em_members m = Some ms → members_of m = ms.
Proof. unfold members_of. by intros ->. Qed.

Lemma pick_remove_steps dead from m ms w :
  ready dead m ms w → from ⊆ ms → from ≠ ∅ →
  ∃ n, n ∈ dom from ∧
    steps_to dead (let! mb := pickOne from in removeMember mb) m (Remove n ms) w.
Proof.
  intros Hr Hsub Hne. pose proof Hr as (Hm & Hn & Ha & Hg & Hf).
  destruct (runs_range from m w Hg) as (w1 & o & Hrun & Hg1 & Hu1 & Ho).
  destruct (PickOne_total _ _ Ho Hne) as [mb Hmb].
  destruct (PickOne_in _ _ _ Ho Hmb) as [n Hin].
  pose proof (lookup_weaken _ _ _ _ Hin Hsub) as Hin'.
  pose proof (Hn _ _ Hin') as <-. exists (Member_Name mb).
  split; [by eapply elem_of_dom_2|].
  destruct (removeMember_steps dead mb m ms w1) as (w2 & Hrun2 & Hr2).
  { by apply ready_world with w. } { done. }
  exists w2. split; [|done].
  rewrite (bind_Ok _ _ _ (m, w1) mb); [done|]. unfold pickOne.
  rewrite (bind_Ok _ _ _ _ _ Hrun). unfold lift. by rewrite Hmb.
Qed.

Lemma addOneMember_steps dead m ms w :
  ready dead m ms w →
  ∃ mb, Member_Name mb ∉ dom ms ∪ dead ∧ steps_to dead (addOneMember disable) m (Add mb ms) w.
Proof.
  intros Hr. pose proof Hr as (Hm & Hn & Ha & Hg & Hf).
  destruct (runs_range ms m w Hg) as (w1 & o & Hrun1 & Hg1 & Hu1 & Ho).
  destruct (collect_range ClientURL _ _ Ho Ha ClientURL_Ok) as [urls Hurls].
  destruct (h_new urls w1 Hg1) as (w2 & [] & Hrun2 & Hg2 & Hu2 & _).
  destruct (h_rand randomSuffixLength w2 Hg2) as (w3 & sfx & Hrun3 & Hg3 & Hu3 & Hfresh & Hdash).
  set (oc := em_oc m) in *.
  set (mb0 := MkMember (UniqueMemberName sfx (getEtcdClusterPrefix oc)) (oc_ns oc) 0
         (isSecure oc) (isSecure oc) (OnecloudClusterSpec_IPv6Cluster (OnecloudCluster_Spec oc))).
  assert (addressable mb0) as Hmb0 by (by apply UniqueMemberName_cluster).
  destruct (PeerURL_Ok _ Hmb0) as [url Hurl].
  destruct (h_add urls url w3 Hg3) as (w4 & id & Hrun4 & Hg4 & Hu4 & _).
  set (mb := mb0 <| Member_ID := id |>). exists mb.
  assert (Member_Name mb ∉ dom ms ∪ dead) as Hnew by (apply Hf; congruence).
  split; [done|].
  set (m' := with_members (Add mb ms) m).
  assert (all_addressable (Add mb ms)) as Ha'.
  { intros n' mb' [[_ <-]|[_ H]]%lookup_Add_Some; [done|by apply (Ha n')]. }
  destruct (runs_createPod m' (Add mb ms) mb "existing" Ha' Hmb0 eq_refl eq_refl w4 Hg4)
    as (w5 & [] & Hrun5 & Hg5 & Hu5 & _).
  exists w5. split.
  - unfold addOneMember, newMember. rewrite (bind_Ok _ _ _ (m, w) m) by done.
    rewrite (Size_members _ _ Hm), (bind_Ok _ _ _ _ _ Hrun1).
    rewrite (bind_Ok _ _ _ (m, w1) urls) by (unfold lift, ClientURLs; by rewrite Hurls).
    rewrite (bind_Ok _ _ _ (m, w2) tt) by (unfold wrapf, env; by rewrite Hrun2).
    rewrite (bind_Ok _ _ _ (m, w3) mb0); [|unfold bind, env, getm, ret; by rewrite Hrun3].
    rewrite (bind_Ok _ _ _ (m, w3) url) by (unfold lift; by rewrite Hurl).
    rewrite (bind_Ok _ _ _ (m, w4) id) by (unfold wrapf, env; by rewrite Hrun4).
    rewrite (bind_Ok _ _ _ (m, w4) m) by done. rewrite Hm.
    rewrite (bind_Ok _ _ _ (m', w4) tt) by done.
    unfold wrapf. fold mb. by rewrite Hrun5.
  - split_and!; [done|by apply named_Add|done|done|].
    intros s Hs. rewrite dom_Add. rewrite Hu5, Hu4, Hu3, Hu2, Hu1 in Hs.
    assert (UniqueMemberName s (getEtcdClusterPrefix oc) ∉ dom ms ∪ dead) by (apply Hf; set_solver).
    assert (UniqueMemberName s (getEtcdClusterPrefix oc) ≠ Member_Name mb); [|set_solver].
    intros E%UniqueMemberName_inj. set_solver.
Qed.

Lemma resize_steps dead m ms w :
  ready dead m ms w → dom ms ∩ dead = ∅ → Size ms ≠ spec_size m → (1 ≤ spec_size m)%Z →
  ∃ ms', steps_to dead (resize disable) m ms' w ∧ dom ms' ∩ dead = ∅ ∧
    S (distance dead (spec_size m) ms') = distance dead (spec_size m) ms ∧ ms' ≠ ∅.
Proof.
  intros Hr Hd Hne Hsz. pose proof Hr as (Hm & _ & _ & Hg & _). unfold steps_to, resize.
  rewrite (bind_Ok _ _ _ (m, w) m) by done. rewrite (Size_members _ _ Hm). fold (spec_size m).
  destruct (Z.eqb_spec (Size ms) (spec_size m)); [done|].
  assert (∀ ms', dom ms' ∩ dead = ∅ → Z.of_nat (base.size (live dead ms')) = Size ms') as Hlive.
  { intros ms' H. rewrite (size_live dead ms'), H, size_empty. lia. }
  assert (∀ ms', dom ms' ∩ dead = ∅ →
    distance dead (spec_size m) ms' = Z.to_nat (Z.abs (spec_size m - Size ms'))) as Hdist.
  { intros ms' H. unfold distance. by rewrite Hlive, H, size_empty by done. }
  destruct (Z.ltb_spec (Size ms) (spec_size m)).
  - destruct (addOneMember_steps dead m ms w Hr) as (mb & Hnew & w' & Hrun & Hr').
    exists (Add mb ms). assert (dom (Add mb ms) ∩ dead = ∅) by (rewrite dom_Add; set_solver).
    split_and!; [by exists w'|done| |].
    + rewrite !Hdist, Size_Add_new by (done || set_solver). lia.
    + intros E. assert (Size (Add mb ms) = 0%Z) as E0 by (by rewrite E).
      rewrite Size_Add_new in E0 by set_solver. pose proof (Size_nonneg ms). lia.
  - destruct (pick_remove_steps dead ms m ms w Hr) as (n' & Hin & w' & Hrun & Hr'); [done|..].
    { intros ->. change (Size ∅) with 0%Z in *. lia. }
    exists (Remove n' ms). assert (dom (Remove n' ms) ∩ dead = ∅) by (rewrite dom_Remove; set_solver).
    split_and!; [|done|..].
    + exists w'. split; [|done]. unfold removeOneMember. rewrite (bind_Ok _ _ _ (m, w) m) by done.
      by rewrite (Size_members _ _ Hm).
    + rewrite !Hdist, Size_Remove by done. lia.
    + intros E. assert (Size (Remove n' ms) = 0%Z) as E0 by (by rewrite E).
      rewrite Size_Remove in E0 by done. lia.
Qed.

(** *** One round *)

(** A majority of the members is alive. *)
Definition quorum (dead : gset string) ms : Prop :=
  (Size ms / 2 + 1 ≤ Z.of_nat (base.size (live dead ms)))%Z.

Lemma reconcileMembers_steps dead (running : MemberSet) m ms w :
  ready dead m ms w → dom running = live dead ms → quorum dead ms → (1 ≤ spec_size m)%Z →
  distance dead (spec_size m) ms ≠ 0 →
  ∃ ms', steps_to dead (reconcileMembers disable running) m ms' w ∧ quorum dead ms' ∧
    S (distance dead (spec_size m) ms') = distance dead (spec_size m) ms.
Proof.
  intros Hr Hrun Hq Hsz Hdist. pose proof Hr as (Hm & Hn & Ha & Hg & Hf).
  assert (Diff running ms = ∅) as Hnone.
  { by eapply Diff_live_empty. }
  assert (Diff running (Diff running ms) = running) as HL.
  { rewrite Hnone. apply map_eq. intros n. by rewrite lookup_Diff, lookup_empty. }
  unfold reconcileMembers, steps_to. rewrite (bind_Ok _ _ _ (m, w) m) by done.
  rewrite (Size_members _ _ Hm), HL, Hnone. change (0 <? Size ∅)%Z with false.
  rewrite (bind_Ok _ _ _ (m, w) tt), (bind_Ok _ _ _ (m, w) m) by done. rewrite (Size_members _ _ Hm).
  assert (Size running = Z.of_nat (base.size (live dead ms))) as Hsr by (by rewrite Size_dom, Hrun).
  rewrite Hsr. pose proof (size_live dead ms) as Hsl.
  destruct (Z.eqb_spec (Z.of_nat (base.size (live dead ms))) (Size ms)) as [Heq|Hne].
  - assert (dom ms ∩ dead = ∅) as Hd by (apply leibniz_equiv, size_empty_inv; lia).
    assert (Size ms ≠ spec_size m) as Hsne.
    { intros E. apply Hdist. unfold distance. rewrite Hd, size_empty, Heq, E. lia. }
    destruct (resize_steps dead m ms w Hr Hd Hsne Hsz) as (ms' & Hs & Hd' & Hdd & Hne').
    exists ms'. split_and!; [done| |done]. unfold quorum. pose proof (size_live dead ms') as Hsl'.
    rewrite Hd', size_empty in Hsl'.
    assert (Size ms' ≠ 0%Z) by (by rewrite Size_zero). pose proof (Size_nonneg ms').
    assert (Size ms' / 2 < Size ms')%Z by (apply Z.div_lt; lia). lia.
  - rewrite Z.quot_div_nonneg by (pose proof (Size_nonneg ms); lia). unfold quorum in Hq.
    destruct (Z.ltb_spec (Z.of_nat (base.size (live dead ms))) (Size ms / 2 + 1)); [lia|].
    assert (dom (Diff ms running) = dom ms ∩ dead) as Hdom.
    { by apply dom_Diff_live. }
    destruct (pick_remove_steps dead (Diff ms running) m ms w Hr) as (n & Hin & w' & Hrun' & Hr').
    + apply map_subseteq_spec. intros n mb. rewrite lookup_Diff. by destruct (running !! n).
    + intros E. rewrite E, dom_empty_L in Hdom. rewrite <- Hdom, size_empty in Hsl. lia.
    + rewrite Hdom in Hin. exists (Remove n ms). split_and!; [by exists w'| |].
      * unfold quorum. rewrite live_Remove_dead, Size_Remove by set_solver.
        assert ((Size ms - 1) / 2 ≤ Size ms / 2)%Z by (apply Z.div_le_mono; lia). lia.
      * apply distance_Remove_dead; set_solver.
Qed.

(** [k] rounds of the run loop: poll the pods, reconcile. *)
Fixpoint reconcileN (poll : etcdManager → list Pod) (k : nat) : EM (W:=W) unit :=
  match k with
  | O => ret tt
  | S k' => let! m := getm in reconcile disable (poll m) ;;! reconcileN poll k'
  end.

Lemma reconcile_round dead pods m ms w :
  ready dead m ms w → podNames pods = live dead ms → quorum dead ms → (1 ≤ spec_size m)%Z →
  distance dead (spec_size m) ms ≠ 0 →
  ∃ m' ms' w', reconcile disable pods (m, w) = ((m', w'), Ok tt) ∧
    ready dead m' ms' w' ∧ em_oc m' = em_oc m ∧ quorum dead ms' ∧
    EctdStatus_Size (em_status m') = Size ms' ∧
    S (distance dead (spec_size m) ms') = distance dead (spec_size m) ms.
Proof.
  intros Hr Hpods Hq Hsz Hdist. pose proof Hr as (Hm & _).
  set (running := podsToMemberSet (em_oc m) pods).
  assert (dom running = live dead ms) as Hd by (unfold running; by rewrite dom_podsToMemberSet).
  destruct (reconcileMembers_steps dead running m ms w Hr Hd Hq Hsz Hdist)
    as (ms' & (w' & Hrun & Hr') & Hq' & Hdd).
  exists (with_members ms' m <| em_status ::= λ s, s <| EctdStatus_Size := Size ms' |> |>), ms', w'.
  assert (negb (IsEqual running ms) || negb (Size ms =? spec_size m)%Z = true) as Hcond.
  { apply orb_true_iff. destruct (IsEqual running ms) eqn:He; [right|by left].
    apply IsEqual_spec in He. rewrite Hd in He.
    apply negb_true_iff, Z.eqb_neq. intros Es. apply Hdist. unfold distance.
    assert (dom ms ∩ dead = ∅) as -> by (clear -He; unfold live in He; set_solver).
    rewrite He, <- Size_dom, Es, size_empty. lia. }
  split_and!; [|exact Hr'|done|done|done|done].
  unfold reconcile, deferred. rewrite (bind_Ok _ _ _ (m, w) m) by done.
  rewrite (Size_members _ _ Hm). fold (spec_size m) running. rewrite Hcond, Hrun. done.
Qed.

Lemma reconcileN_reaches poll dead k m ms w :
  (∀ m', podNames (poll m') = live dead (members_of m')) →
  ready dead m ms w → quorum dead ms → (1 ≤ spec_size m)%Z →
  k = distance dead (spec_size m) ms → EctdStatus_Size (em_status m) = Size ms ∨ 0 < k →
  ∃ m' ms' w', reconcileN poll k (m, w) = ((m', w'), Ok tt) ∧ em_members m' = Some ms' ∧
    distance dead (spec_size m) ms' = 0 ∧ EctdStatus_Size (em_status m') = Size ms'.
Proof.
  intros Hpoll. revert m ms w. induction k as [|k IH]; intros m ms w Hr Hq Hsz Hk Hst.
  - exists m, ms, w. destruct Hr as (Hm & _). split_and!; [done|done|done|]. destruct Hst; [done|lia].
  - cbn [reconcileN]. rewrite (bind_Ok _ _ _ (m, w) m) by done.
    destruct (reconcile_round dead (poll m) m ms w Hr) as
      (m' & ms' & w' & Hrun & Hr' & Hoc & Hq' & Hst' & Hdd); [|done|done|lia|].
    { rewrite Hpoll. destruct Hr as (Hm & _). by rewrite (Size_members _ _ Hm). }
    rewrite (bind_Ok _ _ _ _ _ Hrun).
    assert (spec_size m' = spec_size m) as Hspec by (unfold spec_size; by rewrite Hoc).
    destruct (IH m' ms' w' Hr' Hq') as (m2 & ms2 & w2 & H); [lia|rewrite Hspec; lia|by left|].
    exists m2, ms2, w2. by rewrite Hspec in H.
Qed.
End healthy.

Lemma distance_zero dead size ms :
  distance dead size ms = 0 → Size ms = size ∧ dom ms ∩ dead = ∅.
Proof.
  unfold distance. intros H. assert (base.size (dom ms ∩ dead) = 0) as Hd by lia.
  split; [|by apply leibniz_equiv, size_empty_inv]. pose proof (size_live dead ms). lia.
Qed.

