(* ===== verification/EtcdSim.v ===== *)
(** * EtcdSim: a concrete environment for the etcd manager

    An API server and an etcd kept in memory that accept every request: the
    instance of [EtcdEnv] at which the theorems of EtcdFacts and EtcdLive are
    applied. *)

From Stdlib Require Import Ascii.
From S2P Require Import Prelude K8s Types Constants GoStrings EtcdUtil ControllerUtils.
From S2P Require Import EtcdPod EtcdReconcile EtcdFacts EtcdLive.

Open Scope string_scope.
Open Scope list_scope.
Open Scope go_scope.

(** The objects by name, the etcd members, and how many names were drawn. *)
Record Sim := MkSim {
  sim_pods : gmap string Pod;
  sim_pvcs : gmap string PersistentVolumeClaim;
  sim_services : gmap string core_Service;
  sim_cluster : OnecloudCluster;
  sim_members : list (Z * list string);
  sim_draws : nat
}.
#[global] Instance Sim_eta : Eta Sim := λ r,
  MkSim (sim_pods r) (sim_pvcs r) (sim_services r) (sim_cluster r) (sim_members r) (sim_draws r).

Definition pod_name (p : Pod) : string := ObjectMeta_Name (Pod_ObjectMeta p).

(** Names of as many [a]s as names were drawn before. *)
Definition sim_suffix (n : nat) : string := Nat.iter n (String "a") "".

Definition lookup_or {A} (e : error) (o : option A) : Res A :=
  match o with Some a => Ok a | None => Err e end.

#[global] Instance SimEnv : EtcdEnv Sim := {
  podCreate _ pod := modify (λ w, w <| sim_pods ::= <[pod_name pod := pod]> |>);
  podDelete _ name := modify (λ w, w <| sim_pods ::= delete name |>);
  podList _ sel := λ w,
    (w, Ok (List.filter (λ p, bool_decide (sel ⊆ ObjectMeta_Labels (Pod_ObjectMeta p)))
              (map snd (map_to_list (sim_pods w)))));
  podGet _ name := λ w, (w, lookup_or ErrNotFound (sim_pods w !! name));
  podPatch _ _ pod := modify (λ w, w <| sim_pods ::= <[pod_name pod := pod]> |>);
  pvcCreate _ pvc := modify (λ w, w <| sim_pvcs ::=
    <[ObjectMeta_Name (PersistentVolumeClaim_ObjectMeta pvc) := pvc]> |>);
  pvcDelete _ name := modify (λ w, w <| sim_pvcs ::= delete name |>);
  svcGet _ name := λ w, (w, lookup_or ErrNotFound (sim_services w !! name));
  svcUpdate _ svc := modify (λ w, w <| sim_services ::=
    <[ObjectMeta_Name (core_Service_ObjectMeta svc) := svc]> |>);
  svcCreate _ svc := modify (λ w, w <| sim_services ::=
    <[ObjectMeta_Name (core_Service_ObjectMeta svc) := svc]> |>);
  tlsConfigOf _ _ := ret tt;
  clusterGet _ _ := λ w, (w, Ok (sim_cluster w));
  clusterCacheWrite oc := modify (λ w, w <| sim_cluster := oc |>);
  clusterUpdate oc := λ w, (w <| sim_cluster := oc |>, Ok oc);
  nodeCount _ := ret 3%Z;
  etcdNew _ := ret tt;
  memberList _ := λ w, (w, Ok (sim_members w));
  memberAdd _ url := λ w,
    let id := Z.of_nat (length (sim_members w)) in
    (w <| sim_members ::= λ l, l ++ [(id, [url])] |>, Ok id);
  memberRemove _ id := modify (λ w, w <| sim_members ::= List.filter (λ e, negb (e.1 =? id)%Z) |>);
  randString _ := λ w, (w <| sim_draws ::= S |>, Ok (sim_suffix (sim_draws w)));
  newUUID := ret "uuid";
  rangeMembers ms := ret (map_to_list ms)
}.

#[global] Instance SimRange : EtcdRange Sim.
Proof. intros ms w w' o [= _ <-]. done. Qed.

Lemma sim_suffix_length n : String.length (sim_suffix n) = n.
Proof. induction n as [|n IH]; simpl; [done|]. by rewrite IH. Qed.

Lemma sim_suffix_avoids n : avoids "-" (sim_suffix n) = true.
Proof. by induction n. Qed.

Definition sim_used (w : Sim) : gset string := list_to_set (map sim_suffix (seq 0 (sim_draws w))).

Lemma sim_suffix_fresh w : sim_suffix (sim_draws w) ∉ sim_used w.
Proof.
  unfold sim_used. rewrite elem_of_list_to_set, list_elem_of_fmap. intros (k & Hk & Hin).
  apply elem_of_seq in Hin. apply (f_equal String.length) in Hk.
  rewrite !sim_suffix_length in Hk. lia.
Qed.

Lemma sim_used_draw w :
  sim_used (w <| sim_draws ::= S |>) = {[sim_suffix (sim_draws w)]} ∪ sim_used w.
Proof.
  unfold sim_used. cbn [sim_draws set]. rewrite seq_S, map_app, list_to_set_app_L. simpl.
  set_solver.
Qed.

#[global] Instance SimHealthy : EtcdHealthy (λ _ : Sim, True) sim_used.
Proof.
  split; try (intros; intros w _; eexists _, _; split_and!; done).
  intros n w _. exists (w <| sim_draws ::= S |>), (sim_suffix (sim_draws w)).
  split_and!; [done|done|apply sim_used_draw|apply sim_suffix_fresh|apply sim_suffix_avoids].
Qed.

(** ** A cluster of three members, one of them dead *)

Definition sim_oc : OnecloudCluster := zero
  <| OnecloudCluster_ObjectMeta ::= λ m,
       m <| ObjectMeta_Name := "oc" |> <| ObjectMeta_Namespace := "onecloud" |> |>
  <| OnecloudCluster_Spec ::= λ s, s <| OnecloudClusterSpec_Etcd ::= λ e,
       e <| Etcd_EtcdClusterSpec ::= λ c, c <| EtcdClusterSpec_Size := 3%Z |> |> |> |>.

Definition sim_member (name : string) : Member := MkMember name "onecloud" 0 true true false.
Definition sim_ms : MemberSet :=
  NewMemberSet (map sim_member ["seed-1"; "seed-2"; "seed-3"]).
Definition sim_world : Sim := MkSim ∅ ∅ ∅ sim_oc [] 0.
Definition sim_manager : etcdManager :=
  MkEtcdManager sim_oc (zero <| EctdStatus_Size := 3%Z |>) (Some sim_ms).

Definition pod_named (name : string) : Pod :=
  zero <| Pod_ObjectMeta ::= λ m, m <| ObjectMeta_Name := name |> |>.
(** The poll: the pods of the members that are not dead. *)
Definition sim_poll (dead : gset string) (m : etcdManager) : list Pod :=
  map pod_named (elements (dom (members_of m) ∖ dead)).

Lemma podNames_map l : podNames (map pod_named l) = list_to_set l.
Proof.
  unfold podNames. assert (GetPodNames (map pod_named l) = l) as ->; [|done].
  induction l as [|x l IH]; [done|]. cbn. f_equal. exact IH.
Qed.

Lemma podNames_sim_poll dead m : podNames (sim_poll dead m) = dom (members_of m) ∖ dead.
Proof. unfold sim_poll. by rewrite podNames_map, list_to_set_elements_L. Qed.

Lemma sim_ms_lookup n mb : sim_ms !! n = Some mb → mb = sim_member n ∧ n ∈ ["seed-1"; "seed-2"; "seed-3"].
Proof.
  unfold sim_ms, NewMemberSet. cbn [map fold_left].
  intros [[<- <-]|[_ [[<- <-]|[_ [[<- <-]|[_ H]]%lookup_insert_Some]]%lookup_insert_Some]]%lookup_insert_Some;
    [set_solver..|]. by rewrite lookup_empty in H.
Qed.

Lemma sim_named : named sim_ms.
Proof. by intros n mb [-> _]%sim_ms_lookup. Qed.

Lemma sim_ready :
  ready (λ _ : Sim, True) sim_used {[ "seed-3" ]} sim_manager sim_ms sim_world.
Proof.
  split_and!; [done|apply sim_named| |done|].
  - intros n mb [-> Hin]%sim_ms_lookup.
    rewrite !elem_of_cons, elem_of_nil in Hin.
    destruct Hin as [->|[->|[->|[]]]]; eexists; reflexivity.
  - intros s _ Hin.
    assert (UniqueMemberName s (getEtcdClusterPrefix (em_oc sim_manager)) ∈ ["seed-1"; "seed-2"; "seed-3"])
      as H.
    { apply elem_of_union in Hin as [[mb [_ H]%sim_ms_lookup]%elem_of_dom|H]; [done|].
      apply elem_of_singleton in H. rewrite H. set_solver. }
    rewrite !elem_of_cons, elem_of_nil in H. destruct H as [H|[H|[H|[]]]]; discriminate H.
Qed.

(** ** Witnesses *)


(** Only one of three members runs. *)
Lemma reconcile_lost_quorum_witness :
  let '((m', w'), r) := reconcile false [pod_named "seed-1"] (sim_manager, sim_world) in
  em_members m' = Some sim_ms ∧ is_ok r = false ∧
  (podNames [pod_named "seed-1"] ⊆ dom sim_ms → r = Err ErrLostQuorum).
Proof.
  apply (reconcile_lost_quorum false [pod_named "seed-1"] sim_manager sim_world sim_ms eq_refl).
  - intros H. assert ("seed-2" ∈ podNames [pod_named "seed-1"]) as Hin.
    { apply H. apply elem_of_dom. by eexists. }
    change [pod_named "seed-1"] with (map pod_named ["seed-1"]) in Hin.
    rewrite podNames_map in Hin. set_solver.
  - vm_compute. reflexivity.
Defined.


(** The two rounds it takes: forget the dead member, add one. *)
Example sim_rounds : distance {[ "seed-3" ]} 3 sim_ms = 2.
Proof. vm_compute. reflexivity. Qed.
