(* ===== verification/EtcdPodFacts.v ===== *)
(** * EtcdPodFacts: the pods of the etcd members, the poll, the sizes *)

From Stdlib Require Import Ascii.
From S2P Require Import Prelude K8s Types Constants GoStrings EtcdUtil ControllerUtils.
From S2P Require Import EtcdPod EtcdReconcile EtcdFacts EtcdLive.

Open Scope string_scope.
Open Scope list_scope.
Open Scope go_scope.

(** ** The manifest of a member *)

(** The pod [createPod] submits; [pvc] is the claim created before, if any. *)
Definition memberPod (disable : bool) (oc : OnecloudCluster) (mb : Member) (state token : string)
    (initCluster : list string) (pvc : option PersistentVolumeClaim) : Res Pod :=
  res_bind (NewEtcdPod mb initCluster (getEtcdClusterPrefix oc) state token (customEtcdSpec oc)
              (GetOwnerRef oc)) (λ pod,
  res_map (λ pod, addEtcdVolumeToPod pod pvc)
    (customPodSpec disable oc pod mb state token initCluster)).

Definition volumeNames (pod : Pod) : list string := map Volume_Name (PodSpec_Volumes (Pod_Spec pod)).
Definition mountNames (pod : Pod) : list string :=
  flat_map (λ c, map VolumeMount_Name (Container_VolumeMounts c))
    (PodSpec_InitContainers (Pod_Spec pod) ++ PodSpec_Containers (Pod_Spec pod)).

Definition tlsVolumeNames (secure : bool) : list string :=
  if secure then [peerTLSVolume; serverTLSVolume; operatorEtcdTLSVolume] else [].

(** What the poll and the volumes need of a pod under construction. *)
Record pod_facts (oc : OnecloudCluster) (mb : Member) (pod : Pod) : Prop := {
  pf_name : ObjectMeta_Name (Pod_ObjectMeta pod) = Member_Name mb;
  pf_deletion : ObjectMeta_DeletionTimestamp (Pod_ObjectMeta pod) = None;
  pf_labels : LabelsForCluster (getEtcdClusterPrefix oc) ⊆ ObjectMeta_Labels (Pod_ObjectMeta pod);
  pf_volumes : volumeNames pod = tlsVolumeNames (isSecure oc);
  pf_mounts : mountNames pod = etcdVolumeName :: tlsVolumeNames (isSecure oc);
  pf_containers : ∃ c, PodSpec_Containers (Pod_Spec pod) = [c] ∧ Container_Name c = "etcd";
  pf_initContainers : ∃ c, PodSpec_InitContainers (Pod_Spec pod) = [c]
}.

Lemma newEtcdPod_facts oc mb initCluster state token pod :
  Member_SecurePeer mb = isSecure oc → Member_SecureClient mb = isSecure oc →
  newEtcdPod mb initCluster (getEtcdClusterPrefix oc) state token (customEtcdSpec oc) = Ok pod →
  pod_facts oc mb pod ∧ ObjectMeta_OwnerReferences (Pod_ObjectMeta pod) = [].
Proof.
  intros Hp Hc. unfold newEtcdPod. destruct (PeerURL mb) as [pu|?|?]; [|done|done].
  destruct (ClientURL mb) as [cu|?|?]; [|done|done]. destruct (Addr mb) as [ad|?|?]; [|done|done].
  cbn [res_bind].
  assert (∃ vs mounts, etcdTLSVolumes mb (EtcdClusterSpec_TLS (customEtcdSpec oc)) = Ok (vs, mounts) ∧
    map Volume_Name vs = tlsVolumeNames (isSecure oc) ∧
    map VolumeMount_Name mounts = tlsVolumeNames (isSecure oc)) as (vs & mounts & -> & Hvs & Hms).
  { unfold etcdTLSVolumes, customEtcdSpec. rewrite Hp, Hc.
    destruct (isSecure oc); simpl; eexists _, _; split_and!; reflexivity. }
  cbn [res_map]. intros [= <-]. split; [|done]. split.
  - done.
  - done.
  - apply map_subseteq_spec. intros k v. unfold LabelsForCluster. cbn.
    rewrite !lookup_insert_Some, !lookup_singleton_Some. naive_solver.
  - exact Hvs.
  - unfold mountNames. cbn. by rewrite app_nil_r, Hms.
  - eexists. split; reflexivity.
  - eexists. reflexivity.
Qed.

(** The user's pod policy changes neither the volumes nor the labels that
    identify the pod. *)
Lemma applyPodPolicy_facts oc mb pod policy :
  pod_facts oc mb pod → pod_facts oc mb (applyPodPolicy pod policy) ∧
  ObjectMeta_OwnerReferences (Pod_ObjectMeta (applyPodPolicy pod policy))
  = ObjectMeta_OwnerReferences (Pod_ObjectMeta pod).
Proof.
  intros HF. destruct policy as [pol|]; [|by split].
  destruct HF as [Hn Hd Hl Hv Hm (c & Hc & Hcn) (i & Hi)].
  assert (∃ spec meta, applyPodPolicy pod (Some pol) = MkPod meta spec (Pod_Status pod) ∧
    ObjectMeta_Name meta = ObjectMeta_Name (Pod_ObjectMeta pod) ∧
    ObjectMeta_DeletionTimestamp meta = ObjectMeta_DeletionTimestamp (Pod_ObjectMeta pod) ∧
    ObjectMeta_Labels meta = ObjectMeta_Labels (Pod_ObjectMeta pod) ∪ PodPolicy_Labels pol ∧
    ObjectMeta_OwnerReferences meta = ObjectMeta_OwnerReferences (Pod_ObjectMeta pod) ∧
    PodSpec_Volumes spec = PodSpec_Volumes (Pod_Spec pod) ∧
    PodSpec_InitContainers spec = [containerWithRequirements i (PodPolicy_Resources pol)] ∧
    PodSpec_Containers spec =
      [(containerWithRequirements c (PodPolicy_Resources pol))
         <| Container_Env ::= λ e, e ++ PodPolicy_EtcdEnv pol |>])
    as (spec & meta & -> & H1 & H2 & H3 & H4 & H5 & H6 & H7).
  { destruct pod as [meta spec st]; simpl in *. unfold applyPodPolicy.
    destruct (PodPolicy_Affinity pol), (decide (PodPolicy_NodeSelector pol = ∅)),
      (PodPolicy_Tolerations pol); eexists _, _; (split; [reflexivity|]); cbn;
      rewrite Hc, Hi; cbn; rewrite Hcn; split_and!; reflexivity. }
  split; [|exact H4]. split; simpl.
  - by rewrite H1.
  - by rewrite H2.
  - rewrite H3. etrans; [exact Hl|]. apply map_union_subseteq_l.
  - unfold volumeNames in *; simpl. by rewrite H5.
  - unfold mountNames in *; simpl. rewrite H6, H7. rewrite Hc, Hi in Hm. exact Hm.
  - rewrite H7. eexists. split; [reflexivity|exact Hcn].
  - rewrite H6. by eexists.
Qed.

Lemma update_first_one {A} (f : A → Res A) x y : f x = Ok y → update_first f [x] = Ok [y].
Proof. simpl. by intros ->. Qed.

(** C15. The pod the operator submits for a member, whatever the user's pod
    policy: it can be built for every member whose name has a dash; it bears
    the member's name; every mounted volume is declared and no volume twice;
    and a later poll recognises it, since it carries the labels the poll
    lists by and is owned by the cluster. *)
Theorem memberPod_wf (disable : bool) (oc : OnecloudCluster) (mb : Member) (state token : string)
    (initCluster : list string) (pvc : option PersistentVolumeClaim) :
  addressable mb → Member_SecurePeer mb = isSecure oc → Member_SecureClient mb = isSecure oc →
  ∃ pod, memberPod disable oc mb state token initCluster pvc = Ok pod ∧
    ObjectMeta_Name (Pod_ObjectMeta pod) = Member_Name mb ∧
    (∀ v, v ∈ mountNames pod → v ∈ volumeNames pod) ∧ NoDup (volumeNames pod) ∧
    LabelsForCluster (getEtcdClusterPrefix oc) ⊆ ObjectMeta_Labels (Pod_ObjectMeta pod) ∧
    polled (oc_uid oc) pod = true.
Proof.
  intros Ha Hp Hc.
  destruct (NewEtcdPod_Ok oc mb initCluster (getEtcdClusterPrefix oc) state token (GetOwnerRef oc) Ha Hp Hc)
    as (pod & Hpod & Hlc & Hli).
  destruct (customPodSpec_Ok disable oc pod mb state token initCluster Ha Hlc Hli) as [pod' Hpod'].
  assert (pod_facts oc mb pod ∧ ObjectMeta_OwnerReferences (Pod_ObjectMeta pod) = [GetOwnerRef oc])
    as [[Hn Hd Hl Hv Hm (c & Hcs & Hcn) (i & His)] Hown].
  { unfold NewEtcdPod in Hpod. destruct (newEtcdPod _ _ _ _ _ _) as [p0| |] eqn:E; [|done|done].
    apply newEtcdPod_facts in E as [E Eo]; [|done|done]. injection Hpod as <-.
    destruct (applyPodPolicy_facts _ _ _ (EtcdClusterSpec_Pod (customEtcdSpec oc)) E) as [[] Ho].
    split; [by split|]. simpl. by rewrite Ho, Eo. }
  unfold memberPod. rewrite Hpod. cbn [res_bind]. rewrite Hpod'. cbn [res_map].
  eexists. split; [reflexivity|].
  unfold customPodSpec, newEtcdCommand in Hpod'. rewrite Hcs, His in Hpod'.
  destruct (PeerURL_Ok _ Ha) as [pu Hpu]. destruct (ClientURL_Ok _ Ha) as [cu Hcu].
  rewrite Hpu, Hcu in Hpod'. injection Hpod' as <-.
  unfold mountNames, volumeNames in *. rewrite Hcs, His in Hm. cbn in *.
  rewrite map_app, Hv. cbn. split_and!.
  - done.
  - intros v Hin. rewrite Hm in Hin. set_solver.
  - destruct (isSecure oc); apply (bool_decide_unpack _); vm_compute; exact I.
  - exact Hl.
  - unfold polled. cbn. rewrite Hd, Hown. apply String.eqb_refl.
Qed.

Lemma memberPod_wf_witness :
  let oc : OnecloudCluster := zero in
  let mb := MkMember "oc-etcd-x" "ns" 0 true true false in
  ∃ pod, memberPod false oc mb "new" "t" [] None = Ok pod ∧
    ObjectMeta_Name (Pod_ObjectMeta pod) = "oc-etcd-x" ∧
    (∀ v, v ∈ mountNames pod → v ∈ volumeNames pod) ∧ NoDup (volumeNames pod) ∧
    LabelsForCluster (getEtcdClusterPrefix oc) ⊆ ObjectMeta_Labels (Pod_ObjectMeta pod) ∧
    polled (oc_uid oc) pod = true.
Proof.
  apply (memberPod_wf false zero (MkMember "oc-etcd-x" "ns" 0 true true false)).
  - by exists "oc-etcd".
  - reflexivity.
  - reflexivity.
Defined.

(** ** The poll *)

Lemma filter_filter_elem {A} (p q : A → bool) (l : list A) (x : A) :
  x ∈ List.filter q (List.filter p l) ↔ x ∈ l ∧ p x = true ∧ q x = true.
Proof. rewrite !list_elem_of_In, !filter_In. naive_solver. Qed.

(** The poll sorts the pods the cluster owns: no pod is in two of the
    three groups, a pod being deleted or owned by somebody else is in none,
    and an owned pod is left out exactly when its phase is none of Running,
    Pending, Failed and Unknown (a pod that Succeeded is not counted). *)
Theorem partitionPods_spec (uid : string) (items : list Pod) :
  let '(running, pending, failed) := partitionPods uid items in
  (∀ p, ¬ (p ∈ running ∧ p ∈ pending) ∧ ¬ (p ∈ running ∧ p ∈ failed) ∧ ¬ (p ∈ pending ∧ p ∈ failed)) ∧
  (∀ p, p ∈ running ∨ p ∈ pending ∨ p ∈ failed ↔
        p ∈ items ∧ polled uid p = true ∧
        PodStatus_Phase (Pod_Status p) ∈ ["Running"; "Pending"; "Failed"; "Unknown"]).
Proof.
  unfold partitionPods, phase_in. split.
  - intros p. rewrite !filter_filter_elem, !IsInStringArray_spec, !elem_of_cons, elem_of_nil.
    split_and!; intros H; destruct_and!; destruct_or!; congruence.
  - intros p. rewrite !filter_filter_elem, !IsInStringArray_spec, !elem_of_cons, elem_of_nil. tauto.
Qed.

(** ** Sizes *)

(** The backend quota passed to etcd is at least 128 MiB and fits in 64
    bits, for every configured value, overflowing ones included; a configured
    number of MiB above 128 whose bytes fit is used exactly. *)
Theorem getEtcdBackendQuotaSize_bounds (oc : OnecloudCluster) :
  (etcdBackendQuotaSize ≤ getEtcdBackendQuotaSize oc < 2 ^ 63)%Z ∧
  ∀ q, Etcd_EtcdBackendQuotaSize (oc_etcd oc) = Some q → (128 ≤ q < 2 ^ 43)%Z →
    getEtcdBackendQuotaSize oc = (q * 1024 * 1024)%Z.
Proof.
  unfold getEtcdBackendQuotaSize, etcdBackendQuotaSize. split.
  - destruct (Etcd_EtcdBackendQuotaSize _) as [q|]; [|lia].
    pose proof (wrap64_range (wrap64 (q * 1024) * 1024)).
    destruct (Z.ltb_spec 134217728 (wrap64 (wrap64 (q * 1024) * 1024))); lia.
  - intros q -> Hq. rewrite (wrap64_small (q * 1024)) by lia. rewrite wrap64_small by lia.
    destruct (Z.ltb_spec 134217728 (q * 1024 * 1024)); lia.
Qed.

(** The size the operator settles on is 1 without three master nodes, and
    otherwise at least 3 and what the user asked for above that; it is
    settled at once, so the cluster is written back only when something
    changed. *)
Theorem fixedSize_spec (masterCount size : Z) :
  let s := fixedSize masterCount size in
  (1 ≤ s)%Z ∧ fixedSize masterCount s = s ∧
  ((masterCount < 3)%Z → s = 1%Z) ∧
  ((3 ≤ masterCount)%Z → s = Z.max 3 size).
Proof.
  unfold fixedSize, EtcdDefaultClusterSize.
  destruct (Z.ltb_spec masterCount 3), (Z.ltb_spec size 3); cbv zeta iota; split_and!; try lia;
    destruct (Z.ltb_spec 3 3), (Z.ltb_spec size 3); lia.
Qed.
