(* ===== verification/EtcdRunFacts.v ===== *)
(** * EtcdRunFacts: the phases of the etcd cluster

    What [setup], [sync] and a turn of the run loop do to the phase kept in
    the status, for every environment. *)

From S2P Require Import Prelude K8s Types Constants GoStrings EtcdUtil ControllerUtils.
From S2P Require Import EtcdPod EtcdReconcile EtcdFacts EtcdSim.

Open Scope string_scope.
Open Scope list_scope.
Open Scope go_scope.

Section run.
Context {W : Type} `{!EtcdEnv W}.
Context (disable keepFailed : bool) (marshal : ServicePort → string).
Implicit Types (m : etcdManager) (w : W).

Definition phase m : string := EctdStatus_Phase (em_status m).

(** Computations that leave the status and the members alone. *)
Definition keeps_status {A} (c : EM (W:=W) A) : Prop :=
  ∀ m w, wp c (λ s _, em_status s.1 = em_status m ∧ em_members s.1 = em_members m) (m, w).

Lemma keeps_keeps_status {A} (c : EM (W:=W) A) : keeps c → keeps_status c.
Proof. intros Hc m w. eapply wp_conseq; [apply Hc|]. by intros [m' w'] r; simpl; intros ->. Qed.

Lemma keeps_status_bind {A B} (c : EM (W:=W) A) (k : A → EM (W:=W) B) :
  keeps_status c → (∀ a, keeps_status (k a)) → keeps_status (bind c k).
Proof.
  intros Hc Hk m w. apply wp_bind. eapply wp_conseq; [apply Hc|].
  intros [m' w'] [a|e|p]; simpl; intros [<- <-]; [apply Hk|done|done].
Qed.

Lemma keeps_status_attempt {A} (c : EM (W:=W) A) : keeps_status c → keeps_status (attempt c).
Proof.
  intros Hc m w. apply wp_attempt. eapply wp_conseq; [apply Hc|]. by intros s [].
Qed.

Lemma keeps_status_wrapf {A} msg (c : EM (W:=W) A) : keeps_status c → keeps_status (wrapf msg c).
Proof.
  intros Hc m w. specialize (Hc m w). unfold wp, wrapf in *. by destruct (c (m, w)) as [[] []].
Qed.

Lemma keeps_status_setoc (f : etcdManager → OnecloudCluster) :
  keeps_status (modm (W:=W) (λ m, m <| em_oc := f m |>)).
Proof. done. Qed.

Lemma keeps_status_updateEtcdStatus : keeps_status (updateEtcdStatus (W:=W)).
Proof.
  unfold updateEtcdStatus. apply keeps_status_bind; [done|]. intros m1.
  apply keeps_status_bind; [apply keeps_keeps_status, keeps_env|]. intros oc.
  apply keeps_status_bind; [apply keeps_keeps_status, keeps_env|]. intros _.
  apply keeps_status_bind; [apply keeps_keeps_status, keeps_env|]. intros ?.
  apply (keeps_status_setoc (λ _, _)).
Qed.

Lemma keeps_status_wp {A} (c : EM (W:=W) A) (Q : etcdManager * W → Res A → Prop) m w :
  keeps_status c →
  (∀ m' w' r, em_status m' = em_status m → em_members m' = em_members m → Q (m', w') r) →
  wp c Q (m, w).
Proof.
  intros Hc HQ. eapply wp_conseq; [apply Hc|]. intros [m' w'] r [Hs Hm]. by apply HQ.
Qed.

(** What a successful creation leaves behind: one member, whose pod was
    created last. *)
Definition seeded (s : etcdManager * W) : Prop :=
  phase s.1 = EtcdClusterPhaseCreating ∧ EctdStatus_Size (em_status s.1) = 1%Z ∧
  ∃ mb s1 m2, em_members s.1 = Some (NewMemberSet [mb]) ∧
    createPod disable (NewMemberSet [mb]) mb "new" s1 = ((m2, s.2), Ok tt).

Lemma create_wp m w :
  wp (create disable)
    (λ s r, phase s.1 = EtcdClusterPhaseCreating ∧ match r with Ok _ => seeded s | _ => True end)
    (m, w).
Proof.
  unfold create. apply wp_bind. unfold modstatus at 1, modm, wp at 1; simpl.
  apply wp_bind, keeps_status_wp; [apply keeps_status_wrapf, keeps_status_updateEtcdStatus|].
  intros m1 w1 [[]|e|p] Hs Hm; simpl in *; unfold phase; rewrite ?Hs; [|done|done].
  unfold prepareSeedMember, bootstrap, startSeedMember. apply wp_bind, wp_bind.
  apply keeps_wp; [apply keeps_newMember|]. intros w2 [mb|e|p]; simpl; [|by rewrite Hs..].
  apply wp_bind. unfold wp at 1, wrapf.
  pose proof (keeps_createPod disable (NewMemberSet [mb]) mb "new" m1 w2) as Hk. unfold wp in Hk.
  destruct (createPod disable (NewMemberSet [mb]) mb "new" (m1, w2)) as [[m3 w3] [[]|e|p]] eqn:Hc;
    cbn [fst snd andThen] in *; subst m3; [|by rewrite Hs..].
  unfold modm, modstatus, wp; simpl. unfold modm; simpl. rewrite Hs. split; [done|].
  split_and!; [done|done|]. by exists mb, (m1, w2), m1.
Qed.

Lemma setup_wp m w :
  wp (setup disable) (λ s r,
    match r with
    | Ok _ => phase m = EtcdClusterPhaseRunning ∧ em_status s.1 = em_status m ∧
              em_members s.1 = em_members m ∨
              (phase m = EtcdClusterPhaseNone ∨ phase m = EtcdClusterPhaseFailed) ∧ seeded s
    | _ => True
    end) (m, w).
Proof.
  unfold setup. apply wp_bind. unfold getm, wp at 1; simpl. fold (phase m).
  apply wp_bind.
  destruct (String.eqb_spec (phase m) EtcdClusterPhaseNone) as [E1|_],
    (String.eqb_spec (phase m) EtcdClusterPhaseFailed) as [E2|_]; simpl;
    try (destruct (String.eqb (phase m) EtcdClusterPhaseCreating); simpl; [by apply wp_throw|]);
    try (destruct (String.eqb_spec (phase m) EtcdClusterPhaseRunning) as [E3|_]; simpl;
         [|by apply wp_throw]);
    apply wp_ret; simpl; apply wp_bind;
    (apply keeps_wp; [case_match; [apply keeps_env|apply keeps_ret]|]);
    intros w1 [[]|?|?]; simpl; try done.
  1-3: eapply wp_conseq; [apply create_wp|]; intros s [[]|?|?] [_ Hs]; naive_solver.
  apply wp_ret. by left.
Qed.

Lemma keeps_status_setupServices : keeps_status (setupServices (W:=W) marshal).
Proof.
  assert (∀ a b c d e f g h, keeps_status (createService marshal a b c d e f g h)) as Hc.
  { intros. apply keeps_keeps_status. unfold createService. cbv zeta.
    repeat first [ apply keeps_bind; [|intros ?] | apply keeps_attempt | apply keeps_env
                 | apply keeps_ret | apply keeps_throw | case_match ]. }
  unfold setupServices. apply keeps_status_bind; [done|]. intros m1.
  apply keeps_status_bind; [apply keeps_status_attempt, Hc|]. intros r1.
  apply keeps_status_bind; [done|]. intros m2.
  apply keeps_status_bind; [apply keeps_status_attempt, Hc|]. intros r2.
  case_match; done.
Qed.

(** The rest of a computation whose failures do not matter. *)
Ltac wp_skip := apply wp_bind_any; [intros [] ?|done|done].

(** What the end of the loop leaves in the status. *)
Definition turn_post (s : etcdManager * W) (r : Res turn) : Prop :=
  match r with
  | Ok Stop => phase s.1 = EtcdClusterPhaseFailed
  | Ok Resync => phase s.1 = EtcdClusterPhaseFailed ∧ EctdStatus_Size (em_status s.1) = 0%Z ∧
                 EctdStatus_Members (em_status s.1) = zero
  | _ => True
  end.

Lemma keeps_status_logged : keeps_status (logged (updateEtcdStatus (W:=W))).
Proof.
  apply keeps_status_bind; [|done]. apply keeps_status_attempt, keeps_status_updateEtcdStatus.
Qed.

Lemma allPodsDead_wp m w : wp allPodsDead turn_post (m, w).
Proof.
  unfold allPodsDead. apply wp_bind_any; [intros [m1 w1] _|done|done].
  apply wp_bind. unfold modstatus, modm, wp at 1. simpl.
  apply wp_bind, keeps_status_wp; [apply keeps_status_logged|].
  intros m2 w2 [[]|?|?] Hs _; simpl; [|done|done]. apply wp_ret; simpl. unfold phase. by rewrite Hs.
Qed.

Lemma onLostQuorum_wp e m w : wp (onLostQuorum e) turn_post (m, w).
Proof.
  unfold onLostQuorum. apply wp_bind, wp_attempt. unfold cleanAllMembers. wp_skip. wp_skip. wp_skip.
  apply wp_bind. unfold modstatus, modm, wp at 1. simpl.
  apply keeps_status_wp; [apply keeps_status_updateEtcdStatus|].
  intros m' w' [[]|?|?] Hs _; simpl; [|done|done]. apply wp_ret; simpl. unfold phase. by rewrite Hs.
Qed.

Lemma runTurn_wp fuel rerr m w : wp (runTurn disable keepFailed fuel rerr) turn_post (m, w).
Proof.
  unfold runTurn. wp_skip. case_match; [done|]. wp_skip.
  match goal with |- wp (match ?a with _ => _ end) _ _ =>
    destruct a as [|[[running pending] failed]] end; [done|].
  case_match; [done|]. wp_skip. case_match; [apply allPodsDead_wp|].
  unfold onRunning. wp_skip. case_match; [done|]. wp_skip.
  case_match; [|by wp_skip; wp_skip].
  repeat (case_match; try done). apply onLostQuorum_wp.
Qed.

Lemma syncSetup_wp oc m w :
  let stored := EctdStatus_Phase (OnecloudClusterStatus_Etcd (OnecloudCluster_Status oc)) in
  wp (syncSetup disable oc) (λ s r,
    match r with
    | Ok true => stored = EtcdClusterPhaseRunning ∨
                 (stored = EtcdClusterPhaseNone ∨ stored = EtcdClusterPhaseFailed) ∧ seeded s
    | Ok false => phase s.1 = EtcdClusterPhaseFailed
    | Err _ => False
    | Panic _ => True
    end) (m, w).
Proof.
  cbv zeta. unfold syncSetup. apply wp_bind. unfold modm at 1, wp at 1. simpl.
  apply wp_bind, wp_attempt. eapply wp_conseq; [apply setup_wp|].
  intros [m1 w1] [[]|e|?]; simpl; [|intros _|done].
  - intros [(H & _)|[H Hs]]; apply wp_ret; [by left|by right].
  - apply wp_bind. unfold getm, wp at 1. simpl. apply wp_bind.
    destruct (String.eqb_spec (EctdStatus_Phase (em_status m1)) EtcdClusterPhaseFailed) as [E|E].
    + by apply wp_ret.
    + apply wp_bind. unfold modstatus, modm, wp at 1. simpl.
      apply wp_bind, wp_attempt, keeps_status_wp; [apply keeps_status_updateEtcdStatus|].
      intros m2 w2 [[]|?|?] Hs _; simpl; [..|done]; do 2 apply wp_ret; simpl; unfold phase; by rewrite Hs.
Qed.

(** The manager as [sync] starts it: with the cluster and the status stored in it. *)
Definition started (oc : OnecloudCluster) (m : etcdManager) : etcdManager :=
  m <| em_oc := oc |> <| em_status := OnecloudClusterStatus_Etcd (OnecloudCluster_Status oc) |>.

(** Giving up: the phase and the reason are stored, as far as that is
    possible, and nothing else is done. *)
Definition giveUp (err : error) : EM (W:=W) bool :=
  modstatus (λ s, s <| EctdStatus_Phase := EtcdClusterPhaseFailed |>
                    <| EctdStatus_Reason := Error err |>) ;;!
  let! _ := attempt updateEtcdStatus in
  ret false.

Lemma syncSetup_refused oc m w s err :
  setup disable (started oc m, w) = (s, Err err) → phase s.1 ≠ EtcdClusterPhaseFailed →
  syncSetup disable oc (m, w) = giveUp err s.
Proof.
  intros Hs Hp. unfold syncSetup. unfold bind at 1, modm at 1. fold (started oc m).
  unfold bind at 1, attempt at 1. rewrite Hs. unfold bind at 1, getm at 1. destruct s as [m1 w1].
  apply String.eqb_neq in Hp. cbn [fst] in Hp. unfold phase in Hp. rewrite Hp. unfold giveUp.
  rewrite bind_assoc. apply bind_ext; [done|]. intros [] s1. rewrite bind_assoc.
  apply bind_ext; [done|]. by intros r s2.
Qed.

(** [setup] on a running cluster, and on one it does not know how to go on with. *)
Lemma setup_running m w :
  phase m = EtcdClusterPhaseRunning →
  setup disable (m, w) =
    match (if isSecure (em_oc m) then tlsConfigOf (oc_ns (em_oc m)) EtcdClientSecret w else (w, Ok tt)) with
    | (w1, r) => ((m, w1), r)
    end.
Proof.
  intros Hp. unfold setup, bind, getm. fold (phase m). rewrite Hp. cbn.
  destruct (isSecure (em_oc m)); [|done]. unfold env.
  by destruct (tlsConfigOf _ _ w) as [w1 [[]|e|p]].
Qed.

Definition setup_error (phase : string) : error :=
  if String.eqb phase EtcdClusterPhaseCreating then errCreatedCluster
  else ErrMsg ("unexpected cluster phase: " +:+ phase).

Lemma setup_stuck m w :
  phase m ≠ EtcdClusterPhaseRunning → phase m ≠ EtcdClusterPhaseNone →
  phase m ≠ EtcdClusterPhaseFailed → setup disable (m, w) = ((m, w), Err (setup_error (phase m))).
Proof.
  intros H1%String.eqb_neq H2%String.eqb_neq H3%String.eqb_neq. unfold setup, bind, getm, setup_error.
  fold (phase m). rewrite H1, H2, H3. cbn. by destruct (String.eqb (phase m) EtcdClusterPhaseCreating).
Qed.
End run.

(** ** Properties *)

(** C13. The phase machine of the etcd cluster, for every environment. What a
    sync does before the run loop follows the phase stored in the status of
    the cluster:
    - Running: the loop is entered with the status and the members untouched
      and without any call but the one that reads the client's certificate,
      when one is used; when that fails, the cluster is given up;
    - empty or Failed: the loop is entered only after a pod was created for a
      fresh seed, now the only member, the phase being Creating;
    - Creating, as an interrupted creation leaves it, or anything else: the
      cluster is given up, without any other call, for the reason
      [setup_error].
    Giving up stores the phase Failed, from where the next sync builds the
    cluster again. A sync that does not enter the loop leaves the phase
    Failed, and none returns an error. *)
Theorem syncSetup_phases {W : Type} `{!EtcdEnv W} (DisableNodeSelectorController : bool)
    (oc : OnecloudCluster) (m : etcdManager) (w : W) :
  let stored := EctdStatus_Phase (OnecloudClusterStatus_Etcd (OnecloudCluster_Status oc)) in
  let '(s', r) := syncSetup DisableNodeSelectorController oc (m, w) in
  (stored = EtcdClusterPhaseRunning →
     (s', r) = match (if isSecure oc then tlsConfigOf (oc_ns oc) EtcdClientSecret w else (w, Ok tt)) with
               | (w1, Ok _) => ((started oc m, w1), Ok true)
               | (w1, Err e) => giveUp e (started oc m, w1)
               | (w1, Panic p) => ((started oc m, w1), Panic p)
               end) ∧
  (stored = EtcdClusterPhaseNone ∨ stored = EtcdClusterPhaseFailed → r = Ok true →
     seeded DisableNodeSelectorController s') ∧
  (stored ≠ EtcdClusterPhaseRunning → stored ≠ EtcdClusterPhaseNone →
   stored ≠ EtcdClusterPhaseFailed → (s', r) = giveUp (setup_error stored) (started oc m, w)) ∧
  (r = Ok false → phase s'.1 = EtcdClusterPhaseFailed) ∧
  (∀ e, r ≠ Err e).
Proof.
  cbv zeta. pose proof (syncSetup_wp DisableNodeSelectorController oc m w) as H. unfold wp in H.
  cbv zeta in H. destruct (syncSetup _ oc (m, w)) as [s' r] eqn:Hs. cbn [fst snd] in H.
  set (stored := EctdStatus_Phase _) in *. change stored with (phase (started oc m)) in *.
  clearbody stored. split; [|split; [|split; [|split]]].
  - intros Hp. rewrite <-Hs. pose proof (setup_running DisableNodeSelectorController _ w Hp) as Hr.
    cbn [started em_oc] in Hr.
    destruct (if isSecure oc then _ else _) as [w1 [[]|e|p]].
    + unfold syncSetup, bind, modm, attempt. fold (started oc m). by rewrite Hr.
    + apply (syncSetup_refused _ _ _ _ _ _ Hr). cbn [fst]. by rewrite Hp.
    + unfold syncSetup, bind, modm, attempt. fold (started oc m). by rewrite Hr.
  - intros Hp ->. destruct H as [H|[_ H]]; [|done]. rewrite H in Hp. by destruct Hp.
  - intros H1 H2 H3. rewrite <-Hs.
    by apply (syncSetup_refused _ _ _ _ _ _ (setup_stuck DisableNodeSelectorController _ w H1 H2 H3)).
  - by intros ->.
  - by intros e ->.
Qed.

(** A manager just started, on a cluster that was never synced; and the same
    after a creation that was interrupted. *)
Lemma syncSetup_phases_witness :
  let m := MkEtcdManager sim_oc zero None in
  let creating : OnecloudCluster := sim_oc <| OnecloudCluster_Status ::= λ s,
    s <| OnecloudClusterStatus_Etcd ::= λ e, e <| EctdStatus_Phase := EtcdClusterPhaseCreating |> |> |> in
  (syncSetup false sim_oc (m, sim_world)).2 = Ok true ∧
  seeded false (syncSetup false sim_oc (m, sim_world)).1 ∧
  syncSetup false creating (m, sim_world) = giveUp errCreatedCluster (started creating m, sim_world).
Proof.
  intros m creating.
  pose proof (syncSetup_phases false sim_oc m sim_world) as H1.
  pose proof (syncSetup_phases false creating m sim_world) as H2. cbv zeta in H1, H2.
  assert ((syncSetup false sim_oc (m, sim_world)).2 = Ok true) as Hr by (vm_compute; reflexivity).
  revert H1 H2 Hr. destruct (syncSetup false sim_oc (m, sim_world)) as [s1 r1].
  destruct (syncSetup false creating (m, sim_world)) as [s2 r2]. cbn [fst snd].
  intros (_ & H1 & _) (_ & _ & H2 & _) ->. split; [reflexivity|]. split.
  - apply H1; [left|]; reflexivity.
  - apply H2; vm_compute; discriminate.
Defined.

(** C14. The run loop ends only with the phase Failed in the status, so that
    the next sync builds the cluster again: either because no pod runs any
    more, or because the quorum is lost and every member has been removed,
    the status then showing no member at all. *)
Theorem runTurn_ends_failed {W : Type} `{!EtcdEnv W}
    (DisableNodeSelectorController EtcdKeepFailedPods : bool) (fuel : nat) (rerr : option error)
    (m : etcdManager) (w : W) :
  let '((m', w'), r) := runTurn DisableNodeSelectorController EtcdKeepFailedPods fuel rerr (m, w) in
  (r = Ok Stop → EctdStatus_Phase (em_status m') = EtcdClusterPhaseFailed) ∧
  (r = Ok Resync → EctdStatus_Phase (em_status m') = EtcdClusterPhaseFailed ∧
     EctdStatus_Size (em_status m') = 0%Z ∧ EctdStatus_Members (em_status m') = zero).
Proof.
  pose proof (runTurn_wp DisableNodeSelectorController EtcdKeepFailedPods fuel rerr m w) as H.
  unfold wp in H. destruct (runTurn _ _ _ _ (m, w)) as [[m' w'] r]. simpl in H.
  split; intros ->; exact H.
Qed.

(** The branch of the run loop that reports a fatal failure is never taken:
    an error that comes from learning the members, fatal or not, ends the turn
    before, and is retried at the next one with the phase unchanged. *)
Lemma onRunning_fatal_retried {W : Type} `{!EtcdEnv W} (disable : bool) (fuel : nat)
    (rerr : option error) (running : list Pod) (m : etcdManager) (w : W) s e :
  learnMembers rerr running (m, w) = (s, Ok (Some e)) →
  onRunning disable fuel rerr running (m, w) = (s, Ok (Next (Some e))).
Proof. intros H. unfold onRunning. by rewrite (bind_Ok _ _ _ _ _ H). Qed.

(** C18. A cluster that is as it should be is left alone: when the running
    pods are the members, there are as many as asked for, and all have the
    version asked for, a reconciliation makes no call at all and only records
    the version and the size in the status. *)
Theorem reconcile_steady {W : Type} `{!EtcdEnv W} (DisableNodeSelectorController : bool)
    (pods : list Pod) (m : etcdManager) (w : W) (ms : MemberSet) :
  em_members m = Some ms →
  podNames pods = dom ms →
  Size ms = EtcdClusterSpec_Size (oc_etcdSpec (em_oc m)) →
  Forall (λ p, GetEtcdVersion p = EtcdClusterSpec_Version (oc_etcdSpec (em_oc m))) pods →
  reconcile DisableNodeSelectorController pods (m, w) =
  ((m <| em_status ::= λ s, s
       <| EctdStatus_TargetVersion := "" |>
       <| EctdStatus_CurrentVersion := EtcdClusterSpec_Version (oc_etcdSpec (em_oc m)) |>
       <| EctdStatus_Size := Size ms |> |>, w), Ok tt).
Proof.
  intros Hm Hpods Hsize Hver. unfold reconcile, deferred, bind at 1. simpl.
  assert (IsEqual (podsToMemberSet (em_oc m) pods) (members_of m) = true) as ->.
  { apply IsEqual_spec. rewrite dom_podsToMemberSet, Hpods. unfold members_of. by rewrite Hm. }
  unfold members_of at 1. rewrite Hm. simpl. rewrite Hsize, Z.eqb_refl. simpl.
  assert (needUpgrade pods (oc_etcdSpec (em_oc m)) = false) as ->.
  { unfold needUpgrade, pickOneOldMember. apply andb_false_iff. right.
    destruct (List.find _ pods) as [p|] eqn:Hf; [|done]. exfalso.
    apply find_some in Hf as [Hin%list_elem_of_In Hp]. rewrite Forall_forall in Hver.
    rewrite (Hver _ Hin), String.eqb_refl in Hp. done. }
  unfold modstatus, modm; simpl. unfold members_of; simpl. rewrite Hm. simpl. by rewrite Hsize.
Qed.

(** One member, of version 3.5.12. *)
Lemma reconcile_steady_witness :
  let pod := SetEtcdVersion (pod_named "seed-1") "3.5.12" in
  let oc : OnecloudCluster := sim_oc <| OnecloudCluster_Spec ::= λ s,
    s <| OnecloudClusterSpec_Etcd ::= λ e, e <| Etcd_EtcdClusterSpec ::= λ c,
      c <| EtcdClusterSpec_Size := 1%Z |> <| EtcdClusterSpec_Version := "3.5.12" |> |> |> |> in
  let ms := NewMemberSet [sim_member "seed-1"] in
  let m := MkEtcdManager oc zero (Some ms) in
  reconcile false [pod] (m, sim_world) =
  ((m <| em_status ::= λ s, s <| EctdStatus_TargetVersion := "" |>
       <| EctdStatus_CurrentVersion := "3.5.12" |> <| EctdStatus_Size := Size ms |> |>, sim_world), Ok tt).
Proof.
  cbv zeta. apply reconcile_steady.
  - reflexivity.
  - vm_compute. reflexivity.
  - reflexivity.
  - repeat constructor.
Defined.
