(* ===== verification/EtcdLoop.v ===== *)
(** * EtcdLoop: the goroutines of the etcd manager

    [isSyncing], [setSyncing], [setUnsync], [sync] and [run] of
    [pkg/manager/component/etcd.go] as goroutines over the one manager of the
    process: [Sync] looks at a flag and starts a goroutine, which sets the
    flag, takes the lock of the reconciliation, runs the loop and lets both
    go. A transition is one access to what is shared, or one turn of the loop
    by the goroutine that holds the lock. Looking at the flag and setting it
    are two transitions, so that several goroutines may be started: the
    theorems say that together they are still one loop. [defrag] is the other
    goroutine of the manager. *)

From stdpp Require Import relations.
From S2P Require Import Prelude K8s Types Constants GoStrings EtcdUtil ControllerUtils.
From S2P Require Import EtcdPod EtcdReconcile EtcdFacts EtcdLive EtcdSim Loops.

Open Scope string_scope.
Open Scope list_scope.
Open Scope go_scope.

(** Where a goroutine is. *)
Inductive pc : Type :=
  | Checked (oc : OnecloudCluster)       (** [Sync] saw the flag down *)
  | Started (oc : OnecloudCluster)       (** [go m.sync(oc)] *)
  | Waiting (oc : OnecloudCluster)       (** the flag is up; [reconcileLock.Lock()] *)
  | Entered (oc : OnecloudCluster)       (** the lock is held *)
  | Looping (rerr : option error)        (** between two turns of the loop *)
  | Leaving                              (** before the deferred [Unlock] *)
  | Unlocked.                            (** before the deferred [setUnsync] *)

(** Whether a goroutine is between [Lock] and [Unlock]. *)
Definition holds (p : pc) : bool :=
  match p with Entered _ | Looping _ | Leaving => true | _ => false end.

Section loop.
Context {W : Type} `{!EtcdEnv W}.
Context (DisableNodeSelectorController EtcdKeepFailedPods : bool) (marshal : ServicePort → string).
Context (fuel : nat).

(** What is shared, and the goroutines by a number. *)
Record Loop := MkLoop {
  lp_mgr : etcdManager;
  lp_world : W;
  lp_syncing : bool;
  lp_owner : option nat;
  lp_pcs : gmap nat pc
}.

(** The first part of what the lock protects: setup, and the start of the
    loop. *)
(*@ pkg/manager/component/etcd.go:203-219 sync (locked) *)
Definition enterLoop (oc : OnecloudCluster) : EM (W := W) bool :=
  let! ok := syncSetup DisableNodeSelectorController oc in
  if (ok : bool) then runStart marshal ;;! ret true else ret false.

(** One step of the goroutine that holds the lock: where it goes, and the
    cluster of the goroutine it starts. [None]: the code panics, which ends
    the process. *)
(*@ pkg/manager/component/etcd.go:199-220 sync (step) *)
Definition critical (p : pc) (s : etcdManager * W)
  : option ((etcdManager * W) * pc * option OnecloudCluster) :=
  match p with
  | Entered oc =>
      match enterLoop oc s with
      | (s, Ok true) => Some (s, Looping None, None)
      | (s, Ok false) => Some (s, Leaving, None)
      | _ => None
      end
  | Looping rerr =>
      match runTurn DisableNodeSelectorController EtcdKeepFailedPods fuel rerr s with
      | (s, Ok (Next rerr)) => Some (s, Looping rerr, None)
      | (s, Ok Stop) => Some (s, Leaving, None)
      | (s, Ok Resync) => Some (s, Leaving, Some (em_oc s.1))
      | _ => None
      end
  | _ => None
  end.

(** The transitions of the goroutines. *)
Inductive goroutine : Loop → Loop → Prop :=
  | step_go m w f o ps t oc :
      ps !! t = Some (Checked oc) →
      goroutine (MkLoop m w f o ps) (MkLoop m w f o (<[t := Started oc]> ps))
  | step_set m w f o ps t oc :
      ps !! t = Some (Started oc) →
      goroutine (MkLoop m w f o ps) (MkLoop m w true o (<[t := Waiting oc]> ps))
  | step_lock m w f ps t oc :
      ps !! t = Some (Waiting oc) →
      goroutine (MkLoop m w f None ps) (MkLoop m w f (Some t) (<[t := Entered oc]> ps))
  | step_critical m w f o ps t p m' w' p' :
      ps !! t = Some p → critical p (m, w) = Some ((m', w'), p', None) →
      goroutine (MkLoop m w f o ps) (MkLoop m' w' f o (<[t := p']> ps))
  | step_resync m w f o ps t p m' w' p' oc t' :
      ps !! t = Some p → critical p (m, w) = Some ((m', w'), p', Some oc) → ps !! t' = None →
      goroutine (MkLoop m w f o ps) (MkLoop m' w' f o (<[t' := Started oc]> (<[t := p']> ps)))
  | step_unlock m w f o ps t :
      ps !! t = Some Leaving →
      goroutine (MkLoop m w f o ps) (MkLoop m w f None (<[t := Unlocked]> ps))
  | step_unset m w f o ps t :
      ps !! t = Some Unlocked →
      goroutine (MkLoop m w f o ps) (MkLoop m w false o (delete t ps)).

(** All that happens: the goroutines go on, [Sync] sees the flag down, and
    whatever is not the manager changes. *)
(*@ pkg/manager/component/etcd.go:193-195 Sync (start) *)
Inductive happens : Loop → Loop → Prop :=
  | happens_goroutine l l' : goroutine l l' → happens l l'
  | happens_sync m w o ps t oc :
      ps !! t = None →
      happens (MkLoop m w false o ps) (MkLoop m w false o (<[t := Checked oc]> ps))
  | happens_world m w w' f o ps : happens (MkLoop m w f o ps) (MkLoop m w' f o ps).

(** At the start there is no goroutine. *)
Definition atRest (m : etcdManager) (w : W) : Loop := MkLoop m w false None ∅.

(** ** One loop

    The loop as it is meant: idle, or busy with one sync at a time. *)
Record OneLoop := MkOneLoop {
  ol_mgr : etcdManager;
  ol_world : W;
  ol_busy : option pc
}.

Inductive one : OneLoop → OneLoop → Prop :=
  | one_begin m w oc : one (MkOneLoop m w None) (MkOneLoop m w (Some (Entered oc)))
  | one_step m w p m' w' p' oc :
      critical p (m, w) = Some ((m', w'), p', oc) →
      one (MkOneLoop m w (Some p)) (MkOneLoop m' w' (Some p'))
  | one_end m w : one (MkOneLoop m w (Some Leaving)) (MkOneLoop m w None)
  | one_world m w w' b : one (MkOneLoop m w b) (MkOneLoop m w' b).

(** The goroutine that holds the lock is the loop. *)
Definition the_loop (l : Loop) : OneLoop :=
  MkOneLoop (lp_mgr l) (lp_world l) (lp_owner l ≫= λ t, lp_pcs l !! t).

(** The lock is held by the goroutine that is between [Lock] and [Unlock],
    and by no other. *)
Definition locked (o : option nat) (ps : gmap nat pc) : Prop :=
  (∀ t p, ps !! t = Some p → holds p = true ↔ o = Some t) ∧
  (∀ t, o = Some t → is_Some (ps !! t)).

Lemma critical_holds p s s' p' oc :
  critical p s = Some (s', p', oc) → holds p = true ∧ holds p' = true.
Proof.
  destruct p; simpl; try discriminate.
  - destruct (enterLoop oc0 s) as [s1 [[]|e|q]]; try discriminate; by intros [= _ <- _].
  - destruct (runTurn _ _ _ _ s) as [s1 [[]|e|q]]; try discriminate; by intros [= _ <- _].
Qed.

(** A goroutine that holds the lock before or after, goes on in between. *)
Lemma locked_move o ps t p p' :
  locked o ps → ps !! t = Some p → holds p' = holds p → locked o (<[t := p']> ps).
Proof.
  intros [H1 H2] Ht Hp. split.
  - intros t' q. destruct (decide (t' = t)) as [->|Hne].
    + rewrite lookup_insert_eq. intros [= <-]. rewrite Hp. by apply H1.
    + rewrite lookup_insert_ne by done. apply H1.
  - intros t' Ho. destruct (decide (t' = t)) as [->|Hne].
    + rewrite lookup_insert_eq. eauto.
    + rewrite lookup_insert_ne by done. by apply H2.
Qed.

Lemma locked_new o ps t p :
  locked o ps → ps !! t = None → holds p = false → locked o (<[t := p]> ps).
Proof.
  intros [H1 H2] Ht Hp. split.
  - intros t' q. destruct (decide (t' = t)) as [->|Hne].
    + rewrite lookup_insert_eq. intros [= <-]. rewrite Hp. split; [done|].
      intros Ho. destruct (H2 _ Ho) as [q Hq]. by rewrite Ht in Hq.
    + rewrite lookup_insert_ne by done. apply H1.
  - intros t' Ho. destruct (decide (t' = t)) as [->|Hne].
    + rewrite lookup_insert_eq. eauto.
    + rewrite lookup_insert_ne by done. by apply H2.
Qed.

Lemma locked_take ps t p p' :
  locked None ps → ps !! t = Some p → holds p' = true → locked (Some t) (<[t := p']> ps).
Proof.
  intros [H1 H2] Ht Hp. split.
  - intros t' q. destruct (decide (t' = t)) as [->|Hne].
    + rewrite lookup_insert_eq. intros [= <-]. by rewrite Hp.
    + rewrite lookup_insert_ne by done. intros Hq. rewrite (H1 _ _ Hq). split; congruence.
  - intros t' [= <-]. rewrite lookup_insert_eq. eauto.
Qed.

Lemma locked_release o ps t p p' :
  locked o ps → ps !! t = Some p → holds p = true → holds p' = false →
  locked None (<[t := p']> ps).
Proof.
  intros [H1 H2] Ht Hp Hp'. apply (H1 _ _ Ht) in Hp. split; [|done].
  intros t' q. destruct (decide (t' = t)) as [->|Hne].
  - rewrite lookup_insert_eq. intros [= <-]. by rewrite Hp'.
  - rewrite lookup_insert_ne by done. intros Hq. rewrite (H1 _ _ Hq). split; congruence.
Qed.

Lemma locked_end o ps t p :
  locked o ps → ps !! t = Some p → holds p = false → locked o (delete t ps).
Proof.
  intros [H1 H2] Ht Hp. split.
  - intros t' q [Hne Hq]%lookup_delete_Some. by apply H1.
  - intros t' Ho. rewrite lookup_delete_ne; [by apply H2|].
    intros <-. apply (H1 _ _ Ht) in Ho. congruence.
Qed.

Definition safe (l : Loop) : Prop := locked (lp_owner l) (lp_pcs l).

Lemma goroutine_safe l l' : safe l → goroutine l l' → safe l'.
Proof.
  unfold safe. intros Hs. destruct 1; simpl in *.
  - by eapply locked_move.
  - by eapply locked_move.
  - by eapply locked_take.
  - apply critical_holds in H0 as Hh. destruct Hh. eapply locked_move; [done..|congruence].
  - apply critical_holds in H0 as Hh. destruct Hh as [Hp Hp']. apply locked_new; [| |done].
    + eapply locked_move; [done..|congruence].
    + rewrite lookup_insert_ne; [done|congruence].
  - by eapply locked_release.
  - by eapply locked_end.
Qed.

Lemma happens_safe l l' : safe l → happens l l' → safe l'.
Proof.
  intros Hs. destruct 1; [by eapply goroutine_safe|by apply locked_new|done].
Qed.

Lemma reachable_safe l l' : safe l → rtc happens l l' → safe l'.
Proof. intros Hs. induction 1; [done|]. eauto using happens_safe. Qed.

Lemma atRest_safe m w : safe (atRest m w).
Proof. split; [intros t p; simpl; by rewrite lookup_empty|done]. Qed.

(** The loop the goroutines are: one of them moving that has no lock does not
    show. *)
Lemma the_loop_other m w f f' o ps t p p' :
  locked o ps → ps !! t = Some p → holds p = false →
  the_loop (MkLoop m w f o ps) = the_loop (MkLoop m w f' o (<[t := p']> ps)).
Proof.
  intros [H1 _] Ht Hp. unfold the_loop; simpl. f_equal. destruct o as [t'|]; [|done]. simpl.
  rewrite lookup_insert_ne; [done|]. intros <-. assert (holds p = true) by by apply (H1 _ _ Ht).
  congruence.
Qed.

Lemma the_loop_new m w f o ps t p :
  locked o ps → ps !! t = None →
  the_loop (MkLoop m w f o ps) = the_loop (MkLoop m w f o (<[t := p]> ps)).
Proof.
  intros [_ H2] Ht. unfold the_loop; simpl. f_equal. destruct o as [t'|]; [|done]. simpl.
  rewrite lookup_insert_ne; [done|]. intros <-. destruct (H2 t eq_refl) as [q Hq]. congruence.
Qed.

Lemma the_loop_holder m w f o ps t p :
  locked o ps → ps !! t = Some p → holds p = true →
  o = Some t ∧ the_loop (MkLoop m w f o ps) = MkOneLoop m w (Some p).
Proof.
  intros [H1 _] Ht Hp. apply (H1 _ _ Ht) in Hp as ->. split; [done|].
  unfold the_loop; simpl. by rewrite Ht.
Qed.

Lemma goroutine_one l l' :
  safe l → goroutine l l' → the_loop l = the_loop l' ∨ one (the_loop l) (the_loop l').
Proof.
  unfold safe. intros Hs. destruct 1 as [m w f o ps t oc Ht|m w f o ps t oc Ht|m w f ps t oc Ht
    |m w f o ps t p m' w' p' Ht Hc|m w f o ps t p m' w' p' oc t' Ht Hc Hn
    |m w f o ps t Ht|m w f o ps t Ht]; simpl in Hs.
  - left. by eapply the_loop_other.
  - left. by eapply the_loop_other.
  - right. unfold the_loop; simpl. rewrite lookup_insert_eq. constructor.
  - right. apply critical_holds in Hc as Hh. destruct Hh as [Hp _].
    destruct (the_loop_holder m w f _ _ _ _ Hs Ht Hp) as [-> ->].
    unfold the_loop; simpl. rewrite lookup_insert_eq. by econstructor.
  - right. apply critical_holds in Hc as Hh. destruct Hh as [Hp _].
    destruct (the_loop_holder m w f _ _ _ _ Hs Ht Hp) as [-> ->].
    unfold the_loop; simpl. rewrite lookup_insert_ne by congruence. rewrite lookup_insert_eq.
    by econstructor.
  - right. destruct (the_loop_holder m w f _ _ _ _ Hs Ht eq_refl) as [-> ->]. constructor.
  - left. unfold the_loop; simpl. f_equal. destruct o as [t'|]; [|done]. simpl.
    rewrite lookup_delete_ne; [done|]. intros <-. destruct Hs as [H1 _].
    assert (holds Unlocked = true) by by apply (H1 _ _ Ht). done.
Qed.

(** C39. However many goroutines are started, and however they and the rest of
    the world take turns, no two of them are between the lock and the unlock,
    and what they do to the manager and the world is what one loop does that
    syncs one cluster after the other. *)
Theorem loops_refine_one m w l :
  rtc happens (atRest m w) l →
  (∀ t t' p p', lp_pcs l !! t = Some p → lp_pcs l !! t' = Some p' →
     holds p = true → holds p' = true → t = t') ∧
  rtc one (MkOneLoop m w None) (the_loop l).
Proof.
  intros Hr. split.
  { apply reachable_safe in Hr as [H1 _]; [|apply atRest_safe]. intros t t' p p' Ht Ht' Hp Hp'.
    apply (H1 _ _ Ht) in Hp. apply (H1 _ _ Ht') in Hp'. congruence. }
  change (MkOneLoop m w None) with (the_loop (atRest m w)).
  pose proof (atRest_safe m w) as Hs. induction Hr as [l|l l1 l2 Hh _ IH]; [done|].
  specialize (IH (happens_safe _ _ Hs Hh)).
  destruct Hh as [l l1 Hg|m1 w1 o ps t oc Ht|m1 w1 w2 f o ps].
  - destruct (goroutine_one _ _ Hs Hg) as [->|?]; [done|by eapply rtc_l].
  - by rewrite (the_loop_new _ _ _ _ _ t (Checked oc) Hs Ht).
  - eapply rtc_l; [|exact IH]. constructor.
Qed.

(** ** Nobody waits for ever

    What the loop runs returns or panics: every error is dealt with. *)
Definition no_error {A} (c : EM (W := W) A) : Prop := ∀ s e, (c s).2 ≠ Err e.

Lemma no_error_bind {A B} (c : EM A) (k : A → EM B) :
  no_error c → (∀ a, no_error (k a)) → no_error (bind c k).
Proof.
  intros Hc Hk s e. unfold bind. specialize (Hc s).
  destruct (c s) as [s' [a|e'|q]]; simpl in *; [apply Hk|by destruct (Hc e')|done].
Qed.

Lemma no_error_ret {A} (a : A) : no_error (ret a).
Proof. by intros s e. Qed.

Lemma no_error_attempt {A} (c : EM A) : no_error (attempt c).
Proof. intros s e. unfold attempt. by destruct (c s) as [s' [a|e'|q]]. Qed.

Lemma no_error_modm f : no_error (modm f).
Proof. by intros [m w] e. Qed.

Lemma no_error_modstatus f : no_error (modstatus f).
Proof. apply no_error_modm. Qed.

Lemma no_error_getm : no_error getm.
Proof. by intros [m w] e. Qed.

Lemma no_error_logged {A} (c : EM A) : no_error (logged c).
Proof. apply no_error_bind; [apply no_error_attempt|intros; apply no_error_ret]. Qed.

Lemma no_error_for_each {A} (l : list A) (f : A → EM unit) :
  (∀ x, no_error (f x)) → no_error (for_each l f).
Proof.
  intros Hf. induction l as [|x l IH]; simpl; [apply no_error_ret|by apply no_error_bind].
Qed.

Create HintDb no_error discriminated.
#[local] Hint Resolve no_error_ret no_error_attempt no_error_modm no_error_modstatus
  no_error_getm no_error_logged : no_error.
Ltac no_error :=
  repeat match goal with
  | |- no_error (bind _ _) => apply no_error_bind; [|intros]
  | |- no_error (match ?x with _ => _ end) => destruct x
  end; auto with no_error.

Lemma no_error_enterLoop oc : no_error (enterLoop oc).
Proof. unfold enterLoop, syncSetup, runStart. no_error. Qed.

Lemma no_error_runTurn rerr :
  no_error (runTurn DisableNodeSelectorController EtcdKeepFailedPods fuel rerr).
Proof.
  unfold runTurn. apply no_error_bind; [auto with no_error|intros [?|?]; [auto with no_error|]].
  apply no_error_bind; [auto with no_error|intros [?|[[running pending] failed]]; [auto with no_error|]].
  destruct (0 <? length pending)%nat; [auto with no_error|].
  apply no_error_bind.
  { unfold removeFailedPods. destruct (_ && _); [|auto with no_error].
    apply no_error_for_each. auto with no_error. }
  intros []. destruct (length running =? 0)%nat; [unfold allPodsDead; no_error|].
  unfold onRunning. apply no_error_bind; [unfold learnMembers; no_error|].
  unfold onReconciled, onLostQuorum. change (isFatalError None) with false. cbv iota.
  intros [?|]; no_error.
Qed.

(** The code of the goroutine that holds the lock panics. *)
Definition panics (p : pc) (s : etcdManager * W) : Prop :=
  match p with
  | Entered oc => ∃ q, (enterLoop oc s).2 = Panic q
  | Looping rerr =>
      ∃ q, (runTurn DisableNodeSelectorController EtcdKeepFailedPods fuel rerr s).2 = Panic q
  | _ => False
  end.

Lemma critical_or_panics p s :
  holds p = true → p ≠ Leaving → is_Some (critical p s) ∨ panics p s.
Proof.
  destruct p as [| | |oc|rerr| |]; try done; intros _ _; simpl.
  - pose proof (no_error_enterLoop oc s) as H1. destruct (enterLoop oc s) as [s1 [[]|e|q]]; simpl in *;
      [left; eauto..|by destruct (H1 e)|right; eauto].
  - pose proof (no_error_runTurn rerr s) as H1.
    destruct (runTurn _ _ _ _ s) as [s1 [[]|e|q]]; simpl in *;
      [left; eauto..|by destruct (H1 e)|right; eauto].
Qed.

(** C40. There is no deadlock: as long as a goroutine is left, one of them can
    go on, or the one that holds the lock panics. *)
Theorem loops_go_on m w l t p :
  rtc happens (atRest m w) l → lp_pcs l !! t = Some p →
  (∃ l', goroutine l l') ∨
  (∃ t' p', lp_owner l = Some t' ∧ lp_pcs l !! t' = Some p' ∧ panics p' (lp_mgr l, lp_world l)).
Proof.
  intros Hr Ht. apply reachable_safe in Hr as [H1 H2]; [|apply atRest_safe].
  assert (∀ t' p', lp_owner l = Some t' → lp_pcs l !! t' = Some p' →
    (∃ l', goroutine l l') ∨ panics p' (lp_mgr l, lp_world l)) as Howner.
  { intros t' p' Ho Hp. apply (H1 _ _ Hp) in Ho as Hh. destruct l as [m1 w1 f o ps]; simpl in *.
    assert (p' = Leaving ∨ p' ≠ Leaving) as [->|Hne] by (destruct p'; try (by left); right; discriminate);
      [left; eexists; by eapply step_unlock|].
    destruct (critical_or_panics p' (m1, w1) Hh Hne) as [[[[[m2 w2] p2] [oc|]] Hc]|?]; [..|by right].
    - left. eexists. eapply (step_resync _ _ _ _ _ t' _ _ _ _ _ (fresh (dom ps))); [done..|].
      apply not_elem_of_dom, is_fresh.
    - left. eexists. by eapply step_critical. }
  destruct (lp_owner l) as [t'|] eqn:Ho.
  { destruct (H2 _ eq_refl) as [p' Hp]. destruct (Howner t' p' eq_refl Hp); [by left|right; eauto 6]. }
  left. destruct l as [m1 w1 f o ps]; simpl in *; subst o.
  destruct p; try (eexists; by econstructor; eauto; fail).
  all: exfalso; destruct (H1 _ _ Ht) as [Hx _]; specialize (Hx eq_refl); discriminate.
Qed.
End loop.
Arguments MkLoop {W} _ _ _ _ _.
Arguments lp_mgr {W} _.
Arguments lp_world {W} _.
Arguments lp_syncing {W} _.
Arguments lp_owner {W} _.
Arguments lp_pcs {W} _.
Arguments MkOneLoop {W} _ _ _.
Arguments ol_mgr {W} _.
Arguments ol_world {W} _.
Arguments ol_busy {W} _.

(** ** The other goroutine: defragmenting the members *)

(** [Status] gives the size of the data base and the revision. *)
Class EtcdMaintenance (W : Type) := {
  etcd_Status : list string → string → M W (Z * Z);
  etcd_Compact : list string → Z → M W unit;
  etcd_Defragment : list string → string → M W unit
}.

Section defrag.
Context {W : Type} `{!EtcdEnv W, !EtcdMaintenance W, !Clock W}.

(** Only the first member the range gives is asked; the members and the
    cluster are read without the lock. *)
(*@ pkg/manager/component/etcd.go:235-276 membersDefrag *)
Definition membersDefrag : EM (W := W) unit :=
  let! m := getm in
  let! o := env (rangeMembers (members_of m)) in
  let! urls := lift (ClientURLs o) in
  let! r := attempt (env (etcdNew urls)) in
  match r with
  | inl _ => ret tt
  | inr _ =>
      let! m := getm in
      let! o := env (rangeMembers (members_of m)) in
      match o with
      | [] => ret tt
      | (_, mx) :: _ =>
          let! url := lift (ClientURL mx) in
          let! r := attempt (env (etcd_Status urls url)) in
          match r with
          | inl _ => ret tt
          | inr (dbSize, revision) =>
              let! m := getm in
              if (getEtcdBackendQuotaSize (em_oc m) / 2 <? dbSize)%Z then
                let! r := attempt (env (etcd_Compact urls revision)) in
                match r with
                | inl _ => ret tt
                | inr _ =>
                    let! m := getm in
                    let! o := env (rangeMembers (members_of m)) in
                    for_each o (λ '(_, m),
                      let! url := lift (ClientURL m) in logged (env (etcd_Defragment urls url)))
                end
              else ret tt
          end
      end
  end.

(** Every three minutes, for ever, unless another goroutine does so; [fuel]
    bounds the rounds that are looked at. *)
(*@ pkg/manager/component/etcd.go:222-233 defrag *)
Definition defrag (fuel : nat) (defraging : bool) : EM (W := W) (option Empty_set) :=
  if defraging then ret None
  else go_for fuel (λ _ : unit,
         env (modify (Sleep (60 * Second * 3))) ;;! membersDefrag ;;! ret (inl tt)) tt.
End defrag.

(** ** Two goroutines

    Two syncs see the flag down. The first goroutine gives up, for it finds a
    cluster whose creation was interrupted, and takes the flag down although
    the second one runs the loop: a third may be started then. *)
Definition with_phase (phase : string) (oc : OnecloudCluster) : OnecloudCluster :=
  oc <| OnecloudCluster_Status ::= λ s,
    s <| OnecloudClusterStatus_Etcd ::= λ e, e <| EctdStatus_Phase := phase |> |> |>.
Definition creating_oc : OnecloudCluster := with_phase EtcdClusterPhaseCreating sim_oc.
Definition running_oc : OnecloudCluster := with_phase EtcdClusterPhaseRunning sim_oc.

Definition sim_mgr : etcdManager := MkEtcdManager sim_oc zero None.
Definition sim_port (p : ServicePort) : string := ServicePort_Name p.
Definition race_1 : etcdManager * Sim := (enterLoop false sim_port creating_oc (sim_mgr, sim_world)).1.
Definition race_2 : etcdManager * Sim := (enterLoop false sim_port running_oc race_1).1.
Definition race : Loop (W := Sim) :=
  MkLoop race_2.1 race_2.2 false (Some 2%nat) {[2%nat := Looping None]}.

Lemma race_1_leaves :
  critical false false sim_port 3 (Entered creating_oc) (sim_mgr, sim_world)
  = Some ((race_1.1, race_1.2), Leaving, None).
Proof. vm_compute. reflexivity. Qed.

Lemma race_2_loops :
  critical false false sim_port 3 (Entered running_oc) (race_1.1, race_1.2)
  = Some ((race_2.1, race_2.2), Looping None, None).
Proof. vm_compute. reflexivity. Qed.

#[local] Opaque race_1 race_2 sim_mgr sim_world creating_oc running_oc.

Lemma race_reached :
  rtc (happens false false sim_port 3) (atRest sim_mgr sim_world) race.
Proof.
  unfold atRest.
  eapply rtc_l; [apply (happens_sync _ _ _ _ _ _ _ _ 1%nat creating_oc); reflexivity|].
  eapply rtc_l; [apply (happens_sync _ _ _ _ _ _ _ _ 2%nat running_oc); reflexivity|].
  eapply rtc_l; [apply happens_goroutine; eapply (step_go _ _ _ _ _ _ _ _ _ 1%nat); reflexivity|].
  eapply rtc_l; [apply happens_goroutine; eapply (step_go _ _ _ _ _ _ _ _ _ 2%nat); reflexivity|].
  eapply rtc_l; [apply happens_goroutine; eapply (step_set _ _ _ _ _ _ _ _ _ 1%nat); reflexivity|].
  eapply rtc_l; [apply happens_goroutine; eapply (step_lock _ _ _ _ _ _ _ _ 1%nat); reflexivity|].
  eapply rtc_l; [apply happens_goroutine; eapply (step_set _ _ _ _ _ _ _ _ _ 2%nat); reflexivity|].
  eapply rtc_l; [apply happens_goroutine; eapply (step_critical _ _ _ _ _ _ _ _ _ 1%nat);
    [reflexivity|exact race_1_leaves]|].
  eapply rtc_l; [apply happens_goroutine; eapply (step_unlock _ _ _ _ _ _ _ _ _ 1%nat); reflexivity|].
  eapply rtc_l; [apply happens_goroutine; eapply (step_lock _ _ _ _ _ _ _ _ 2%nat); reflexivity|].
  eapply rtc_l; [apply happens_goroutine; eapply (step_unset _ _ _ _ _ _ _ _ _ 1%nat); reflexivity|].
  eapply rtc_l; [apply happens_goroutine; eapply (step_critical _ _ _ _ _ _ _ _ _ 2%nat);
    [reflexivity|exact race_2_loops]|].
  unfold race. apply rtc_refl.
Qed.

Lemma loops_refine_one_witness :
  lp_syncing race = false ∧ lp_pcs race !! 2%nat = Some (Looping None) ∧
  rtc (one false false sim_port 3) (MkOneLoop sim_mgr sim_world None)
    (MkOneLoop race_2.1 race_2.2 (Some (Looping None))).
Proof.
  split; [reflexivity|]. split; [reflexivity|].
  exact (proj2 (loops_refine_one false false sim_port 3 sim_mgr sim_world race race_reached)).
Defined.

Lemma loops_go_on_witness :
  lp_pcs race !! 2%nat = Some (Looping None) ∧
  ((∃ l', goroutine false false sim_port 3 race l') ∨
   (∃ t' p', lp_owner race = Some t' ∧ lp_pcs race !! t' = Some p' ∧
      panics false false sim_port 3 p' (lp_mgr race, lp_world race))).
Proof.
  split; [reflexivity|].
  exact (loops_go_on false false sim_port 3 sim_mgr sim_world race 2%nat (Looping None)
           race_reached eq_refl).
Defined.
